(* ===== verification/_CoqProject ===== *)
-Q . S2P
Prelude.v
CString.v
Pack.v
AntiReplay.v
FlowTypes.v
FlowValues.v
FlowFields.v
FlowStruct.v
FlowParams.v
FlowCommands.v
RteHash.v
PipesManager.v
Switch.v
SwitchInit.v
Inet6.v
Policy.v
Esp.v
FwdPkt.v
FwdFt.v
Pcc.v
Rdmo.v
RdmoHost.v
RdmoCmd.v
MemPool.v
Allreduce.v
AllreduceSpec.v
AllreduceInv.v
AllreduceDaemon.v
L2Reflector.v
CommChannel.v
FileCompression.v
FileIntegrity.v
DmaCopy.v
DpaKernel.v
DpaHost.v
Json.v
IpsecConfig.v
IpsecRules.v
IpsecThreads.v
IpsecStart.v
IpsecWorker.v
NatRules.v
NatPipes.v
NatPackets.v
NatApp.v
SecureChannel.v
