(* ===== verification/Prelude.v ===== *)
(** * DOCA applications: a verification library

    This library models the parts of the DOCA applications that carry logic of their
    own and proves what makes them correct.  The repository (src/doca) holds the
    headers of the closed DOCA libraries (include), small usage samples (samples) and
    the applications (applications), each a C program around DOCA, DPDK or UCX.
    What is modelled is the code of the applications; the libraries are parameters
    (a [Class] or a [Record] of answers, with the laws their documentation gives as
    class fields or hypotheses).

    ** Conventions

    A C function is a function on the state it reads and writes.  Its result is an
    [outcome]: [Ret] of the new state and the value returned, or [Undef] with the
    reason when the code reaches an operation without defined behaviour (a read outside
    an object, a null or dangling pointer, an uninitialised variable, a bad shift, a
    division by zero).  Errors that the code reports are values of [doca_error_t] inside
    [Ret].  Integers are [Z] with the wrap-around of their width written out ([u8] to
    [u64], [i32]); bytes are [Z] below 256; memory is a list of bytes, or a map
    from addresses where objects are allocated, freed and shared.  [OutOfFuel]
    stands for the exhausted bound of a loop; the theorems show it is not reached.

    ** Parts, files and their sources (under src/doca/applications)

    - [Prelude] (this file): error codes, outcomes, machine integers, bytes, tactics and
      hint databases.
    - Flow command line (common/flow_parser.c, common/utils.c).  [CString]: the C
      string functions.  [FlowTypes]: the structures of doca_flow.h.  [FlowValues]: one
      textual value ([parse_ipv4_str], [parse_mac_address], ...).  [FlowFields]: one
      [name=value] pair ([parse_match_field], ...).  [FlowStruct]: the
      tokenizer [parse_struct].  [FlowParams]: the parameters of each command.
      [FlowCommands]: the handlers [cmd_*_parsed], the callbacks and a session of
      commands.
    - Flow pipes manager (common/flow_pipes_manager.c).  [RteHash]: the interface of the
      hash library and a table that satisfies it.  [PipesManager]: every operation
      on the manager's tables and heap, and the two-map specification they refine.
    - Switch (switch/switch_core.c).  [Switch]: the callbacks over the manager and the
      flow library, composed with the command line.  [SwitchInit]: start-up.
    - IPsec gateway (ipsec_security_gw, common/pack.c).  [Pack]: big-endian packing.
      [Inet6]: the text of IPv6 addresses.  [Json]: json-c as an interface, and reading a
      document from a file.  [IpsecConfig]: options, configuration file and rules
      (config.c).  [Policy]: policies from the socket to rules.  [IpsecRules]: the entries
      and security associations of the rules, queued and completed
      (flow_encrypt.c, flow_decrypt.c).  [IpsecThreads]: their division among threads with
      binary32 arithmetic.  [IpsecStart]: devices, ports, the policy socket and the state
      before traffic (ipsec_ctx.c).  [IpsecWorker]: the packet threads.  [Esp]: software encapsulation and
      decapsulation.  [AntiReplay]: the replay window.
    - Simple forward VNF (simple_fwd_vnf).  [FwdPkt]: packet parser and flow key.
      [FwdFt]: flow table, aging, offload of a packet.
    - Congestion control (pcc/device).  [Pcc]: the rate algorithm of a flow, the
      reaction point around it, the notification point.
    - Remote memory operations (urom_rdmo).  [Rdmo]: the request engine of the DPU
      worker.  [RdmoHost]: the requests the host builds, and how the worker executes
      a scatter.  [RdmoCmd]: the commands that build the engine's tables, from the
      host's task to the worker and the notification back.
    - Allreduce (allreduce, the build without GPU support).  [MemPool]: the memory pools
      of allreduce_mem_pool.c over a heap whose allocations may fail.  [Allreduce]: the
      reducer, requests and super-requests, scatter and gather, the callbacks of daemon
      and client, and the UCX wrapper, over the answers of UCX.  [AllreduceSpec]: the
      reductions and a specification of the daemon without memory.  [AllreduceInv]: the
      relation between the two, with an owner for every element taken from a pool, and
      that every event keeps it.  [AllreduceDaemon]: the theorems from start to end.
    - L2 reflector (l2_reflector).  [L2Reflector]: the device program over its completion,
      receive and send rings, with the network card as the environment.
    - All-to-all (dpa_all_to_all).  [DpaKernel]: the kernel as threads on all ranks, with
      the network as an interleaved process.  [DpaHost]: the resources of the host, over
      the environment of [CommChannel].
    - NAT (nat).  [NatRules]: the options and the rules file, json-c being an interface.
      [NatPipes]: the pipes and entries of the static and the PAT mode, queued in batches,
      and that every rule is put in force.  [NatPackets]: what the pipes do to packets,
      over the documented behaviour of the flow library.  [NatApp]: ports, start-up,
      clean-up and main.
    - Secure channel (secure_channel).  [SecureChannel]: the threads of one program as a
      transition system with a step for each call, and its set-up and clean-up.
    - File transfer (file_compression, file_integrity, dma_copy).  [CommChannel]: a state
      monad for programs that poll a message channel, write a file, allocate memory and call
      libraries, its resource accounting and its delivery lemmas.  [FileCompression] and
      [FileIntegrity]: client, server and start-up of the two applications.  [DmaCopy]: the
      host and the DPU side of the DMA copy, with the core objects of samples/common.c.

    ** What the theorems show

    - Refinement of a specification: the pipes manager against two maps
      ([manager_refines]), the flow table against a map from keys to counters
      ([vnf_session_refines]), the replay window against the set of accepted numbers
      ([anti_replay_refines_spec]), the allreduce daemon against the lists of vectors
      that came ([daemon_refines]), the appends of many initiators against one
      contiguous queue ([appends_are_contiguous]), the reflector's rings and counters
      against two queues of packets ([l2_reflects]), the all-to-all kernels of all ranks
      against the transposition of the buffers ([alltoall_exchanges]).
    - Round trips: ESP encapsulation and decapsulation, packing and unpacking
      ([pack_unpack_roundtrip]), policy messages that are there in any number of portions, IPv6 addresses and their text, frames and
      flow keys, the text of a flow structure and its fields ([parse_struct_fields]), scatter
      messages, translated connections and their answers
      ([nat_static_translates], [nat_pat_translates]), files sent compressed, hashed or by DMA over a channel
      with delays.
    - Invariants and safety over whole sessions, where the theorem also names the runs that
      have no defined behaviour: command line, switch, policy loop, packet
      threads ([session_packets]),
      congestion control device, remote memory plugin, the threads of the secure channel
      under every schedule ([channel_threads_sound]), packet parser on arbitrary
      bytes, the file applications under arbitrary messages and answers.
    - Results of whole runs: every client of every allreduce daemon gets the reduction of
      all vectors, when the daemons' runs feed one another ([daemons_agree]); answers to
      probes drive the rate of a flow up to the line rate or down to its minimum
      ([rtt_answers_converge]); an aging turn removes an idle flow and nothing else
      ([aging_removes_idle]); a memory pool from creation to destruction ([pool_lifecycle]).
    - Termination: the aging pass, the tokenizer, the all-to-all exchange under every
      interleaving ([alltoall_terminates]).
    - Configuration and installation: what an accepted configuration file guarantees
      ([ipsec_config_sound]), that every rule of the gateway ends up in its pipes once,
      however the threads divide them ([threads_insert_all]), and that
      the policy loop starts in a state it can rely on ([socket_gateway_safe]).
    - Errors and bounds: start-up of the switch under every failure, with what each failure
      leaves behind ([switch_init_outcome]), the NAT application ([nat_main_releases]), rates
      within their limits; and the places where the code goes wrong, each with the input that
      shows it (a lost message boundary, a dangling completion, lengths that wrap,
      a flow freed twice, a pause that a fence ignores, an end-point freed under its
      requests, an allocation whose failure is reported as success, vectors that are reduced before they are there, buffers that are
      reused while they wait to be sent, a failed hash that accepts any file,
      answers that meet swapped ports).

    ** Hypotheses

    What a theorem assumes of the libraries, the channel or the device is in its statement and
    in its comment: laws of an interface (hash table, json-c, deflate, UCX), calls that do not
    fail (an empty list of answers stands for success), messages that arrive whole, a device
    that completes entries, the byte behind a text that the source does not terminate.

    ** Bounds of loops

    Loops over data are structural recursion on the data.  Where the code loops until a
    condition holds, the model takes a number of turns that the data bound: the
    length of the text for the tokenizer and the parameter parsers (every turn
    consumes a character), the length of the list for the paused and fenced requests
    (every turn removes the head), the length of the bucket for an aging turn, the
    number of entries in the header for a scatter, the size of the
    completion ring for the reflector's handler (the packets that have come since), the
    number of rules, and of answers of the device, for the loops of the NAT builders.  The theorems are of the form
    "returns [Ret]", so a bound that is too small would make them false.

    ** Not modelled, and why

    Library calls that only set up devices, ports, memory maps, pipes and queues
    (dpdk_utils.c, flow_skeleton.c, the pipe construction of the gateway and of the
    VNF, the host parts of PCC and L2 reflector): they are sequences
    of calls into closed libraries with no state of the application's own.  Argument
    parsing through argp.  The GPU build of allreduce, its handshake
    and connection set-up and the timing of its clients.  Sockets, threads and logging.  Insertion threads of the gateway
    run one after the other, and what a library does with entries held back for a batch is
    left to its answers.
    The C++ PSP gateway.  The headers of the libraries, apart from the types the
    modelled code uses.  The samples. *)

From stdpp Require Export base list gmap option strings.
From stdpp Require Import options.
From Stdlib Require Export ZArith Lia Ascii.
From Stdlib Require Import Bool.

#[export] Set Default Goal Selector "1".
#[global] Open Scope Z_scope.

(** ** Error codes

    [doca_error_t] of include/doca_error.h, with the codes of that header. *)

Inductive doca_error_t : Type :=
| DOCA_SUCCESS
| DOCA_ERROR_UNKNOWN
| DOCA_ERROR_NOT_PERMITTED
| DOCA_ERROR_IN_USE
| DOCA_ERROR_NOT_SUPPORTED
| DOCA_ERROR_AGAIN
| DOCA_ERROR_INVALID_VALUE
| DOCA_ERROR_NO_MEMORY
| DOCA_ERROR_INITIALIZATION
| DOCA_ERROR_TIME_OUT
| DOCA_ERROR_SHUTDOWN
| DOCA_ERROR_CONNECTION_RESET
| DOCA_ERROR_CONNECTION_ABORTED
| DOCA_ERROR_CONNECTION_INPROGRESS
| DOCA_ERROR_NOT_CONNECTED
| DOCA_ERROR_NO_LOCK
| DOCA_ERROR_NOT_FOUND
| DOCA_ERROR_IO_FAILED
| DOCA_ERROR_BAD_STATE
| DOCA_ERROR_UNSUPPORTED_VERSION
| DOCA_ERROR_OPERATING_SYSTEM
| DOCA_ERROR_DRIVER
| DOCA_ERROR_UNEXPECTED
| DOCA_ERROR_ALREADY_EXIST
| DOCA_ERROR_FULL
| DOCA_ERROR_EMPTY
| DOCA_ERROR_IN_PROGRESS
| DOCA_ERROR_TOO_BIG.

#[export] Instance doca_error_eq_dec : EqDecision doca_error_t.
Proof. solve_decision. Defined.

Definition error_code (e : doca_error_t) : Z :=
  match e with
  | DOCA_SUCCESS => 0 | DOCA_ERROR_UNKNOWN => 1
  | DOCA_ERROR_NOT_PERMITTED => 2 | DOCA_ERROR_IN_USE => 3
  | DOCA_ERROR_NOT_SUPPORTED => 4 | DOCA_ERROR_AGAIN => 5
  | DOCA_ERROR_INVALID_VALUE => 6 | DOCA_ERROR_NO_MEMORY => 7
  | DOCA_ERROR_INITIALIZATION => 8 | DOCA_ERROR_TIME_OUT => 9
  | DOCA_ERROR_SHUTDOWN => 10 | DOCA_ERROR_CONNECTION_RESET => 11
  | DOCA_ERROR_CONNECTION_ABORTED => 12 | DOCA_ERROR_CONNECTION_INPROGRESS => 13
  | DOCA_ERROR_NOT_CONNECTED => 14 | DOCA_ERROR_NO_LOCK => 15
  | DOCA_ERROR_NOT_FOUND => 16 | DOCA_ERROR_IO_FAILED => 17
  | DOCA_ERROR_BAD_STATE => 18 | DOCA_ERROR_UNSUPPORTED_VERSION => 19
  | DOCA_ERROR_OPERATING_SYSTEM => 20 | DOCA_ERROR_DRIVER => 21
  | DOCA_ERROR_UNEXPECTED => 22 | DOCA_ERROR_ALREADY_EXIST => 23
  | DOCA_ERROR_FULL => 24 | DOCA_ERROR_EMPTY => 25
  | DOCA_ERROR_IN_PROGRESS => 26 | DOCA_ERROR_TOO_BIG => 27
  end.

(** [DOCA_ERROR_PROPAGATE(r, t)]: the first error wins. *)
Definition DOCA_ERROR_PROPAGATE (r t : doca_error_t) : doca_error_t :=
  match r with DOCA_SUCCESS => t | _ => r end.

(** ** Outcomes of C code

    A C function either returns ([Ret]) or reaches an operation whose behaviour
    the language leaves undefined ([Undef], with the reason).  Errors that the
    code reports are ordinary values of type [doca_error_t] inside [Ret]. *)

Inductive ub : Type :=
| OutOfBounds      (** read or write outside an object *)
| NullDeref        (** dereference of a null pointer *)
| Uninitialised    (** use of an indeterminate local variable *)
| DanglingPointer  (** use of an object after it was freed *)
| DivisionByZero   (** division or remainder by zero *)
| BadShift         (** shift by at least the width of the operand *)
| SignedOverflow   (** signed arithmetic outside the range of the type *)
| ZeroRealloc      (** [realloc] to no bytes *)
| BufferInUse      (** a buffer that a library still reads was changed *)
| AssertFailed     (** an [assert] of the code stopped the program *)
| LibraryMisuse    (** a call whose documented precondition does not hold *)
| OutOfFuel.       (** loop bound of the model exhausted *)

#[export] Instance ub_eq_dec : EqDecision ub.
Proof. solve_decision. Defined.

Inductive outcome (A : Type) : Type :=
| Ret (a : A)
| Undef (why : ub).
Arguments Ret {A} _.
Arguments Undef {A} _.

(** Sequencing: continue with the returned value. *)
Declare Scope doca_scope.
Delimit Scope doca_scope with doca.
#[global] Open Scope doca_scope.

Notation "'let*' x ':=' e 'in' k" :=
  (match e with Ret x => k | Undef w => Undef w end)
  (at level 200, x strict pattern, e at level 200, k at level 200) : doca_scope.

#[export] Instance outcome_eq_dec `{EqDecision A} : EqDecision (outcome A).
Proof. solve_decision. Defined.

(** [defined o]: the computation returned. *)
Definition defined {A} (o : outcome A) : Prop := exists a, o = Ret a.

(** [require b w; k]: continue with [k] when [b], otherwise undefined. *)
Definition require (b : bool) (w : ub) : outcome unit :=
  if b then Ret tt else Undef w.

Definition of_option {A} (w : ub) (o : option A) : outcome A :=
  match o with Some a => Ret a | None => Undef w end.

(** Result of a C function whose out-parameter is written only on success. *)
Inductive res (A : Type) : Type :=
| Ok (a : A)
| Err (e : doca_error_t).
Arguments Ok {A} _.
Arguments Err {A} _.

#[export] Instance res_eq_dec `{EqDecision A} : EqDecision (res A).
Proof. solve_decision. Defined.

(** [result = f(..., &obj->field); if (result != DOCA_SUCCESS) return result;] *)
Definition write_on_success {S A} (r : res A) (upd : A -> S) (s : S)
    : outcome (S * doca_error_t) :=
  match r with
  | Ok a => Ret (upd a, DOCA_SUCCESS)
  | Err e => Ret (s, e)
  end.

(** ** Machine integers: values are [Z], conversions wrap as in C *)

Definition uwrap (w z : Z) : Z := z mod 2 ^ w.
Definition swrap (w z : Z) : Z := (z + 2 ^ (w - 1)) mod 2 ^ w - 2 ^ (w - 1).

Abbreviation u8 := (uwrap 8).
Abbreviation u16 := (uwrap 16).
Abbreviation u32 := (uwrap 32).
Abbreviation u64 := (uwrap 64).
Abbreviation i32 := (swrap 32).

Definition UINT32_MAX : Z := 4294967295.

(** [in_width w z]: [z] is a value of the unsigned [w]-bit type. *)
Definition in_width (w z : Z) : Prop := 0 <= z < 2 ^ w.
#[export] Instance in_width_dec w z : Decision (in_width w z).
Proof. unfold in_width. apply _. Defined.

(** Little-endian bytes of an integer and back: the memory image of an integer
    on the (little-endian) hosts the applications run on. *)
Fixpoint le_bytes (n : nat) (z : Z) : list Z :=
  match n with
  | O => []
  | S n' => z mod 256 :: le_bytes n' (z / 256)
  end.

Fixpoint le_value (bs : list Z) : Z :=
  match bs with
  | [] => 0
  | b :: bs' => b + 256 * le_value bs'
  end.

(** Byte order conversion of an [n]-byte integer ([rte_cpu_to_be_16],
    [RTE_BE32], ... on a little-endian host). *)
Definition bswap (n : nat) (z : Z) : Z := le_value (rev (le_bytes n z)).

(** Typed access to raw storage (C unions): [n] bytes at offset [off]. *)
Definition load (off n : nat) (raw : list Z) : Z :=
  le_value (take n (drop off raw)).
Definition store (off n : nat) (v : Z) (raw : list Z) : list Z :=
  take off raw ++ le_bytes n v ++ drop (off + n) raw.

(** ** Tactics *)

(** Split the test of the first [if] of the goal. *)
Ltac case_if :=
  match goal with
  | |- context [if ?b then _ else _] => destruct b eqn:?
  end.

(** The same in a hypothesis. *)
Ltac case_if_in H :=
  match type of H with
  | context [if ?b then _ else _] => destruct b eqn:?
  end.

(** Invert equations between outcomes, pairs and options. *)
Ltac inv_ret :=
  repeat match goal with
  | H : Ret _ = Ret _ |- _ => injection H as H; subst
  | H : Ret _ = Undef _ |- _ => discriminate H
  | H : Undef _ = Ret _ |- _ => discriminate H
  | H : (_, _) = (_, _) |- _ => injection H as ?; subst
  end.

(** Name the computation a hypothesis is waiting for, and continue with its
    result. *)
Ltac obind H :=
  match type of H with
  | match ?o with Ret _ => _ | Undef _ => _ end = _ =>
      let E := fresh "E" in destruct o eqn:E; [|discriminate H]
  end.

Create HintDb doca discriminated.
Create HintDb widths discriminated.
Create Rewrite HintDb doca_rw.

(** ** Machine-integer lemmas *)

Lemma uwrap_range w z : 0 <= w -> in_width w (uwrap w z).
Proof. intros. unfold in_width, uwrap. apply Z.mod_pos_bound. lia. Qed.

Lemma uwrap_id w z : in_width w z -> uwrap w z = z.
Proof. unfold in_width, uwrap. intros. by rewrite Z.mod_small. Qed.

Lemma uwrap_uwrap w z : 0 <= w -> uwrap w (uwrap w z) = uwrap w z.
Proof. intros. apply uwrap_id, uwrap_range. lia. Qed.

Lemma swrap_id w z : 0 < w -> - 2 ^ (w - 1) <= z < 2 ^ (w - 1) -> swrap w z = z.
Proof.
  intros Hw Hz. unfold swrap.
  assert (2 ^ w = 2 * 2 ^ (w - 1)) as E.
  { rewrite <-(Z.pow_succ_r 2 (w - 1)) by lia. f_equal. lia. }
  rewrite Z.mod_small by lia. lia.
Qed.

#[export] Hint Resolve uwrap_range uwrap_id : widths.
#[export] Hint Extern 1 (0 <= _) => lia : widths.

(** *** Bits *)

Lemma testbit_high m x i : 0 <= x < 2 ^ m -> m <= i -> Z.testbit x i = false.
Proof.
  intros Hx Hi. destruct (Z.lt_ge_cases m 0).
  - rewrite Z.pow_neg_r in Hx by lia. lia.
  - rewrite <-(Z.mod_small x (2 ^ m)) by done. apply Z.mod_pow2_bits_high. lia.
Qed.

Lemma testbit_low_zero m a i : a mod 2 ^ m = 0 -> i < m -> Z.testbit a i = false.
Proof.
  intros Ha Hi. destruct (Z.lt_ge_cases i 0); [by apply Z.testbit_neg_r|].
  rewrite <-(Z.mod_pow2_bits_low a m i) by lia. by rewrite Ha, Z.bits_0.
Qed.

(** A disjunction of disjoint bit ranges is a sum. *)
Lemma lor_add_low m a x :
  0 <= x < 2 ^ m -> a mod 2 ^ m = 0 -> Z.lor a x = a + x.
Proof.
  intros Hx Ha. symmetry. apply Z.add_nocarry_lor.
  apply Z.bits_inj'. intros i Hi. rewrite Z.land_spec, Z.bits_0.
  destruct (Z.lt_ge_cases i m).
  - by rewrite (testbit_low_zero m a i).
  - by rewrite (testbit_high m x i), andb_false_r.
Qed.

Lemma length_le_bytes n z : length (le_bytes n z) = n.
Proof. revert z. induction n; intros; simpl; auto. Qed.

Lemma le_bytes_range n z : Forall (in_width 8) (le_bytes n z).
Proof.
  revert z. induction n; intros; simpl; constructor; auto.
  unfold in_width. pose proof (Z.mod_pos_bound z 256). lia.
Qed.

Lemma le_value_le_bytes n z : le_value (le_bytes n z) = z mod 2 ^ (8 * Z.of_nat n).
Proof.
  revert z. induction n as [|n IH]; intros z.
  - cbn. by rewrite Z.mod_1_r.
  - cbn [le_bytes le_value]. rewrite IH.
    replace (8 * Z.of_nat (S n)) with (8 + 8 * Z.of_nat n) by lia.
    rewrite Z.pow_add_r by lia. change (2 ^ 8) with 256.
    rewrite Z.rem_mul_r by lia. lia.
Qed.

Lemma le_bytes_le_value bs :
  Forall (in_width 8) bs -> le_bytes (length bs) (le_value bs) = bs.
Proof.
  unfold in_width. change (2 ^ 8) with 256.
  induction 1 as [|b bs Hb _ IH]; cbn [length le_bytes le_value]; [done|].
  f_equal.
  - rewrite Z.mul_comm, Z.mod_add by lia. by apply Z.mod_small.
  - rewrite Z.mul_comm, Z.div_add by lia. rewrite Z.div_small by done.
    by rewrite Z.add_0_l.
Qed.

Lemma le_value_range bs :
  Forall (in_width 8) bs -> 0 <= le_value bs < 2 ^ (8 * Z.of_nat (length bs)).
Proof.
  unfold in_width. change (2 ^ 8) with 256.
  induction 1 as [|b bs Hb _ IH]; cbn [length le_value]; [done|].
  replace (8 * Z.of_nat (S (length bs))) with (8 + 8 * Z.of_nat (length bs)) by lia.
  rewrite Z.pow_add_r by lia. change (2 ^ 8) with 256. lia.
Qed.

Lemma le_value_inj bs1 bs2 :
  Forall (in_width 8) bs1 -> Forall (in_width 8) bs2 ->
  length bs1 = length bs2 -> le_value bs1 = le_value bs2 -> bs1 = bs2.
Proof.
  intros H1 H2 Hl Hv.
  rewrite <-(le_bytes_le_value bs1 H1), <-(le_bytes_le_value bs2 H2). congruence.
Qed.

(** Byte swapping is an involution on [n]-byte values. *)
Lemma bswap_bswap n z : bswap n (bswap n z) = z mod 2 ^ (8 * Z.of_nat n).
Proof.
  unfold bswap at 1.
  assert (le_bytes n (bswap n z) = rev (le_bytes n z)) as ->.
  { unfold bswap. pose proof (le_bytes_le_value (rev (le_bytes n z))) as E.
    rewrite length_rev, length_le_bytes in E. apply E.
    apply Forall_rev, le_bytes_range. }
  rewrite rev_involutive. apply le_value_le_bytes.
Qed.

Lemma bswap_range n z : 0 <= bswap n z < 2 ^ (8 * Z.of_nat n).
Proof.
  unfold bswap.
  pose proof (le_value_range (rev (le_bytes n z))) as H.
  rewrite length_rev, length_le_bytes in H. apply H.
  apply Forall_rev, le_bytes_range.
Qed.

(** ** Raw storage lemmas *)

Lemma load_unfold off n raw : load off n raw = le_value (take n (drop off raw)).
Proof. reflexivity. Qed.
Lemma store_unfold off n v raw : store off n v raw = take off raw ++ le_bytes n v ++ drop (off + n) raw.
Proof. reflexivity. Qed.

Lemma length_store off n v raw :
  (off + n <= length raw)%nat -> length (store off n v raw) = length raw.
Proof.
  intros. unfold store.
  rewrite !length_app, length_take, length_drop, length_le_bytes. lia.
Qed.

Lemma load_store_eq off n v raw :
  (off + n <= length raw)%nat ->
  load off n (store off n v raw) = v mod 2 ^ (8 * Z.of_nat n).
Proof.
  intros. unfold load, store.
  rewrite drop_app_length' by (rewrite length_take; lia).
  rewrite take_app_length' by (by rewrite length_le_bytes).
  apply le_value_le_bytes.
Qed.

Lemma load_store_ne off n off' n' v raw :
  (off + n <= length raw)%nat ->
  (off' + n' <= off \/ off + n <= off')%nat ->
  load off' n' (store off n v raw) = load off' n' raw.
Proof.
  intros Hb [Hlt | Hge]; unfold load, store; f_equal.
  - rewrite drop_app_le by (rewrite length_take; lia).
    rewrite take_app_le by (rewrite length_drop, length_take; lia).
    rewrite skipn_firstn_comm, take_take. f_equal. lia.
  - rewrite app_assoc, drop_app_ge
      by (rewrite length_app, length_take, length_le_bytes; lia).
    rewrite length_app, length_take, length_le_bytes, drop_drop.
    do 2 f_equal. lia.
Qed.

#[export] Hint Rewrite length_le_bytes @length_app @length_take @length_drop : doca_rw.
