(* ===== verification/CString.v ===== *)
(** * C strings and the string library

    The part of the C library the command parser uses ([strcmp], [strncmp],
    [strchr], [strtok], [strtol], [strtoull], [atoi]) and the two string routines
    the repository defines itself ([strlcpy], [strlcat] of
    applications/common/utils.c).

    A C string is its list of characters without the terminator, a [char] array
    is the list of all its characters, and a pointer into an array is the suffix
    that starts there: reading past the end of that list is reading outside the
    array.  [cstr_of] reads the string a pointer designates. *)
From S2P Require Import Prelude.

Definition NUL : ascii := "000"%char.

(** String literals of the source. *)
Definition lit (s : string) : list ascii := String.list_ascii_of_string s.
Arguments lit _%_string_scope.

(** The string a pointer designates; [None] when no terminator follows. *)
Fixpoint cstr_of (p : list ascii) : option (list ascii) :=
  match p with
  | [] => None
  | c :: p' => if bool_decide (c = NUL) then Some [] else cons c <$> cstr_of p'
  end.

(** [strcmp(s, t) == 0]. *)
Definition streq (s t : list ascii) : bool := bool_decide (s = t).

(** [strncmp(s, t, n) == 0]. *)
Fixpoint strneq (n : nat) (s t : list ascii) : bool :=
  match n with
  | O => true
  | S n' =>
      match s, t with
      | [], [] => true
      | c :: s', d :: t' => if bool_decide (c = d) then strneq n' s' t' else false
      | _, _ => false
      end
  end.

(** [strchr(s, c)] for a character other than the terminator. *)
Fixpoint strchr (s : list ascii) (c : ascii) : option (list ascii) :=
  match s with
  | [] => None
  | d :: s' => if bool_decide (d = c) then Some s else strchr s' c
  end.

Fixpoint drop_while (f : ascii -> bool) (s : list ascii) : list ascii :=
  match s with
  | [] => []
  | c :: s' => if f c then drop_while f s' else s
  end.

Fixpoint take_while (f : ascii -> bool) (s : list ascii) : list ascii :=
  match s with
  | [] => []
  | c :: s' => if f c then c :: take_while f s' else []
  end.

(** The first token of [strtok(s, "d")]: leading delimiters are skipped. *)
Definition strtok (s : list ascii) (d : ascii) : option (list ascii) :=
  match drop_while (fun c => bool_decide (c = d)) s with
  | [] => None
  | s' => Some (take_while (fun c => negb (bool_decide (c = d))) s')
  end.

(** ** Integer scanning *)

Definition code (c : ascii) : Z := Z.of_N (N_of_ascii c).

Definition isspace (c : ascii) : bool :=
  let z := code c in (z =? 32) || ((9 <=? z) && (z <=? 13)).

Definition digit_val (c : ascii) : Z :=
  let z := code c in
  if (48 <=? z) && (z <=? 57) then z - 48
  else if (97 <=? z) && (z <=? 122) then z - 87
  else if (65 <=? z) && (z <=? 90) then z - 55
  else 36.

Definition is_digit (base : Z) (c : ascii) : bool := digit_val c <? base.

Fixpoint scan_digits (base : Z) (s : list ascii) (acc : Z) : Z * list ascii :=
  match s with
  | [] => (acc, [])
  | c :: s' =>
      if is_digit base c then scan_digits base s' (acc * base + digit_val c)
      else (acc, s)
  end.

Definition scan_sign (s : list ascii) : bool * list ascii :=
  match s with
  | "-"%char :: s' => (true, s')
  | "+"%char :: s' => (false, s')
  | _ => (false, s)
  end.

(** Base selection: ["0x"] is a prefix only when a hexadecimal digit follows. *)
Definition scan_base (base : Z) (s : list ascii) : Z * list ascii :=
  match s with
  | "0"%char :: x :: d :: s' =>
      if (bool_decide (x = "x"%char) || bool_decide (x = "X"%char)) && is_digit 16 d
         && ((base =? 0) || (base =? 16))
      then (16, d :: s')
      else ((if base =? 0 then 8 else base), s)
  | "0"%char :: _ => ((if base =? 0 then 8 else base), s)
  | _ => ((if base =? 0 then 10 else base), s)
  end.

(** The number [s] starts with: sign, magnitude and the rest of the string;
    [None] when no conversion is possible. *)
Definition scan_int (base : Z) (s : list ascii) : option (bool * Z * list ascii) :=
  let (neg, s1) := scan_sign (drop_while isspace s) in
  let (b, s2) := scan_base base s1 in
  match s2 with
  | c :: _ =>
      if is_digit b c then
        let (m, rest) := scan_digits b s2 0 in Some (neg, m, rest)
      else None
  | [] => None
  end.

Definition base_supported (base : Z) : bool :=
  (base =? 0) || ((2 <=? base) && (base <=? 36)).

(** [strtol(s, &end, base)] with 64-bit [long].  The second component is what the
    call stores through [end]; [None] is "nothing stored", which is what the call
    does (returning 0 with [EINVAL]) when the base is not supported. *)
Definition strtol (s : list ascii) (base : Z) : Z * option (list ascii) :=
  if base_supported base then
    match scan_int base s with
    | None => (0, Some s)
    | Some (neg, m, rest) =>
        (Z.max (- 2 ^ 63) (Z.min (2 ^ 63 - 1) (if neg then - m else m)), Some rest)
    end
  else (0, None).

(** [strtoull(s, &end, base)]: a negative number is negated modulo 2^64. *)
Definition strtoull (s : list ascii) (base : Z) : Z * option (list ascii) :=
  if base_supported base then
    match scan_int base s with
    | None => (0, Some s)
    | Some (neg, m, rest) =>
        ((if 2 ^ 64 - 1 <? m then 2 ^ 64 - 1 else if neg then u64 (- m) else m),
         Some rest)
    end
  else (0, None).

Definition atoi (s : list ascii) : Z := i32 (fst (strtol s 10)).

(** ** The routines of applications/common/utils.c *)

(** [strlcpy(dst, src, size)]: the new contents of [dst] and the return value. *)
Definition strlcpy (dst src : list ascii) (size : nat) : outcome (list ascii * nat) :=
  let src_len := length src in
  if (0 <? size)%nat then
    let trimmed_size := Nat.min src_len (size - 1) in
    if (trimmed_size <? length dst)%nat then
      Ret (take trimmed_size src ++ NUL :: drop (S trimmed_size) dst, src_len)
    else Undef OutOfBounds
  else Ret (dst, src_len).

(** [strnlen(s, size)] on an array. *)
Fixpoint strnlen (s : list ascii) (size : nat) : outcome nat :=
  match size with
  | O => Ret O
  | S n =>
      match s with
      | [] => Undef OutOfBounds
      | c :: s' => if bool_decide (c = NUL) then Ret O else let* k := strnlen s' n in Ret (S k)
      end
  end.

(** [strlcat(dst, src, size)]. *)
Definition strlcat (dst src : list ascii) (size : nat) : outcome (list ascii * nat) :=
  let* dst_len := strnlen dst size in
  if (size <=? dst_len)%nat then Ret (dst, size)
  else
    let* (tail, n) := strlcpy (drop dst_len dst) src (size - dst_len) in
    Ret (take dst_len dst ++ tail, (dst_len + n)%nat).

(** ** Decimal rendering, the reference the number parsers are compared with *)

Definition digit_char (d : Z) : ascii := ascii_of_N (Z.to_N (d + 48)).

Fixpoint dec_aux (fuel : nat) (n : Z) : list ascii :=
  match fuel with
  | O => []
  | S f => (if n <? 10 then [] else dec_aux f (n / 10)) ++ [digit_char (n mod 10)]
  end.

(** Twenty digits are enough for every 64-bit value. *)
Definition dec (n : Z) : list ascii := dec_aux 20 n.

(** A string of characters other than the terminator. *)
Definition no_nul (s : list ascii) : Prop := NUL ∉ s.

(** ** Lemmas *)

Lemma streq_spec s t : streq s t = true <-> s = t.
Proof. unfold streq. by rewrite bool_decide_eq_true. Qed.

Lemma cstr_of_app s rest : no_nul s -> cstr_of (s ++ NUL :: rest) = Some s.
Proof.
  unfold no_nul. induction s as [|c s IH]; intros H; simpl.
  - done.
  - apply not_elem_of_cons in H as [Hc Hs].
    rewrite bool_decide_eq_false_2 by congruence. by rewrite IH.
Qed.

Lemma cstr_of_no_nul p s : cstr_of p = Some s -> no_nul s.
Proof.
  unfold no_nul. revert s. induction p as [|c p IH]; intros s; simpl; [done|].
  case_bool_decide as Hc; [intros [= <-]; apply not_elem_of_nil|].
  destruct (cstr_of p) as [s'|] eqn:E; simpl; intros [= <-].
  apply not_elem_of_cons. split; [congruence | by apply IH].
Qed.

Lemma strneq_prefix t s : strneq (length t) (t ++ s) t = true.
Proof. induction t as [|c t IH]; simpl; [done|]. by rewrite bool_decide_eq_true_2. Qed.

Lemma strneq_true t s :
  strneq (length t) s t = true -> exists s', s = t ++ s'.
Proof.
  revert s. induction t as [|c t IH]; intros s; simpl; [by exists s|].
  destruct s as [|d s]; [done|].
  case_bool_decide; [|done]. subst. intros [s' ->]%IH. by exists s'.
Qed.

Lemma drop_while_id f c s : f c = false -> drop_while f (c :: s) = c :: s.
Proof. simpl. by intros ->. Qed.

Lemma take_while_app f s c rest :
  Forall (fun d => f d = true) s -> f c = false ->
  take_while f (s ++ c :: rest) = s.
Proof.
  induction 1 as [|d s Hd _ IH]; intros Hc; simpl; [by rewrite Hc|].
  by rewrite Hd, IH.
Qed.

Lemma take_while_all f s : Forall (fun d => f d = true) s -> take_while f s = s.
Proof. induction 1 as [|d s Hd _ IH]; simpl; [done|]. by rewrite Hd, IH. Qed.

Lemma not_elem_Forall_neq (d : ascii) s :
  d ∉ s -> Forall (fun c => negb (bool_decide (c = d)) = true) s.
Proof.
  intros H. apply Forall_forall. intros c Hc.
  apply negb_true_iff, bool_decide_eq_false. by intros ->.
Qed.

(** The first token of a string that starts with a non-empty token. *)
Lemma strtok_token d tok rest :
  tok <> [] -> d ∉ tok -> strtok (tok ++ d :: rest) d = Some tok.
Proof.
  intros Hne Hd. unfold strtok. destruct tok as [|c tok]; [done|].
  pose proof Hd as [Hc Ht]%not_elem_of_cons.
  rewrite <-app_comm_cons, drop_while_id by (apply bool_decide_eq_false; congruence).
  f_equal. apply (take_while_app _ (c :: tok)).
  - by apply not_elem_Forall_neq.
  - by rewrite bool_decide_eq_true_2.
Qed.

Lemma strtok_last d tok : tok <> [] -> d ∉ tok -> strtok tok d = Some tok.
Proof.
  intros Hne Hd. unfold strtok. destruct tok as [|c tok]; [done|].
  pose proof Hd as [Hc Ht]%not_elem_of_cons.
  rewrite drop_while_id by (apply bool_decide_eq_false; congruence).
  f_equal. apply take_while_all. by apply not_elem_Forall_neq.
Qed.

Lemma strtok_none d s : strtok s d = None <-> Forall (eq d) s.
Proof.
  unfold strtok. induction s as [|c s IH]; simpl; [done|].
  case_bool_decide as Hc.
  - rewrite IH, Forall_cons. naive_solver.
  - rewrite Forall_cons. naive_solver.
Qed.

Lemma strchr_app c s rest : c ∉ s -> strchr (s ++ c :: rest) c = Some (c :: rest).
Proof.
  induction s as [|d s IH]; intros H; simpl.
  - by rewrite bool_decide_eq_true_2.
  - apply not_elem_of_cons in H as [Hc Hs].
    rewrite bool_decide_eq_false_2 by congruence. by apply IH.
Qed.

Lemma strchr_some c s p :
  strchr s c = Some p -> exists s1 s2, s = s1 ++ c :: s2 /\ (c ∉ s1) /\ p = c :: s2.
Proof.
  revert p. induction s as [|d s IH]; intros p; simpl; [done|].
  case_bool_decide as Hd.
  - intros [= <-]. exists [], s. subst. split_and!; [done|apply not_elem_of_nil|done].
  - intros (s1 & s2 & -> & Hs & ->)%IH. exists (d :: s1), s2.
    split_and!; [done| |done]. apply not_elem_of_cons. split; congruence.
Qed.

Lemma strchr_none c s : strchr s c = None <-> c ∉ s.
Proof.
  induction s as [|d s IH]; simpl; [split; [intros _; apply not_elem_of_nil|done]|].
  rewrite not_elem_of_cons. case_bool_decide as Hd; naive_solver.
Qed.

(** *** Numbers *)

Lemma code_ascii d : 0 <= d < 10 -> code (digit_char d) = d + 48.
Proof.
  intros H. unfold code, digit_char. rewrite N_ascii_embedding by lia. lia.
Qed.

Lemma digit_val_digit_char d : 0 <= d < 10 -> digit_val (digit_char d) = d.
Proof.
  intros H. unfold digit_val. rewrite code_ascii by done. cbv zeta.
  replace ((48 <=? d + 48) && (d + 48 <=? 57)) with true by lia. lia.
Qed.

Lemma scan_digits_app base d s acc :
  0 <= d < 10 -> 10 <= base ->
  scan_digits base (digit_char d :: s) acc = scan_digits base s (acc * base + d).
Proof.
  intros. cbn [scan_digits]. unfold is_digit. rewrite digit_val_digit_char by done.
  by replace (d <? base) with true by lia.
Qed.

Lemma scan_dec_aux f n rest :
  0 <= n < 10 ^ Z.of_nat f -> (0 < f)%nat ->
  scan_digits 10 (dec_aux f n ++ rest) 0 = scan_digits 10 rest n.
Proof.
  revert n rest. induction f as [|f IH]; intros n rest Hn Hf; [lia|].
  pose proof (Z.mod_pos_bound n 10 ltac:(lia)). pose proof (Z.div_mod n 10 ltac:(lia)).
  cbn [dec_aux]. destruct (Z.ltb_spec n 10) as [Hlt|Hge].
  - rewrite app_nil_l. cbn [app]. rewrite scan_digits_app by lia.
    rewrite Z.mod_small by lia. f_equal.
  - rewrite <-app_assoc. cbn [app].
    rewrite Nat2Z.inj_succ, Z.pow_succ_r in Hn by lia.
    assert (0 <= n / 10 < 10 ^ Z.of_nat f) by (split; [apply Z.div_pos; lia|
      apply Z.div_lt_upper_bound; lia]).
    destruct f as [|f]; [change (10 ^ Z.of_nat 0) with 1 in *; lia|].
    rewrite IH by lia. rewrite scan_digits_app by lia. f_equal. lia.
Qed.

(** The decimal rendering starts with a digit, and not with ['0'] unless it is
    just ["0"]. *)
Lemma dec_aux_head f n :
  0 <= n < 10 ^ Z.of_nat f -> (0 < f)%nat ->
  exists d s, dec_aux f n = digit_char d :: s /\ 0 <= d < 10 /\ (d = 0 -> n = 0 /\ s = []).
Proof.
  revert n. induction f as [|f IH]; intros n Hn Hf; [lia|].
  pose proof (Z.mod_pos_bound n 10 ltac:(lia)). pose proof (Z.div_mod n 10 ltac:(lia)).
  cbn [dec_aux]. destruct (Z.ltb_spec n 10) as [Hlt|Hge].
  - exists n, []. rewrite Z.mod_small by lia. split_and!; [done|lia|lia|done].
  - rewrite Nat2Z.inj_succ, Z.pow_succ_r in Hn by lia.
    assert (0 <= n / 10 < 10 ^ Z.of_nat f) by (split; [apply Z.div_pos; lia|
      apply Z.div_lt_upper_bound; lia]).
    destruct f as [|f]; [change (10 ^ Z.of_nat 0) with 1 in *; lia|].
    destruct (IH (n / 10)) as (d & s & -> & Hd & Hz0); [lia|lia|].
    exists d, (s ++ [digit_char (n mod 10)]). split_and!; [done|lia|lia|].
    intros E. destruct (Hz0 E). lia.
Qed.

Lemma digit_val_range c : 0 <= digit_val c <= 36.
Proof. unfold digit_val. repeat case_if; lia. Qed.

Lemma scan_digits_nonneg base s acc :
  0 <= acc -> 0 <= base -> 0 <= fst (scan_digits base s acc).
Proof.
  revert acc. induction s as [|c s IH]; intros acc Ha Hb; cbn [scan_digits]; [done|].
  case_if; [|done]. apply IH; [|done]. pose proof (digit_val_range c). nia.
Qed.

(** [rest] does not continue a decimal number. *)
Definition ends_number (rest : list ascii) : Prop :=
  match rest with [] => True | c :: _ => 36 <= digit_val c end.

Lemma scan_digits_stop base rest n :
  base <= 36 -> ends_number rest -> scan_digits base rest n = (n, rest).
Proof.
  destruct rest as [|c rest]; simpl; [done|]. intros Hb Hc. unfold is_digit.
  by replace (digit_val c <? base) with false by lia.
Qed.

Lemma digit_char_cases d :
  0 <= d < 10 ->
  digit_char d = "0"%char /\ d = 0 \/
  (isspace (digit_char d) = false /\ scan_sign [digit_char d] = (false, [digit_char d])
   /\ digit_char d <> "0"%char /\ d <> 0).
Proof.
  intros H.
  assert (d = 0 \/ d = 1 \/ d = 2 \/ d = 3 \/ d = 4 \/ d = 5 \/ d = 6 \/ d = 7 \/ d = 8
          \/ d = 9) as HH by lia.
  destruct HH as [->|HH]; [by left|right].
  repeat destruct HH as [->|HH]; try subst d;
    repeat (split; [first [reflexivity | vm_compute; congruence | lia]|]); lia.
Qed.

Lemma digit_char_not_space d : 0 <= d < 10 -> isspace (digit_char d) = false.
Proof. intros H. by destruct (digit_char_cases d H) as [[-> _]|[? _]]. Qed.

Lemma scan_sign_digit d s :
  0 <= d < 10 -> scan_sign (digit_char d :: s) = (false, digit_char d :: s).
Proof.
  intros H.
  assert (d = 0 \/ d = 1 \/ d = 2 \/ d = 3 \/ d = 4 \/ d = 5 \/ d = 6 \/ d = 7 \/ d = 8
          \/ d = 9) as HH by lia.
  by repeat destruct HH as [->|HH]; try subst d.
Qed.

(** Base 10 and base 0 select decimal on a decimal rendering. *)
Lemma scan_base_dec base d s :
  base = 10 \/ base = 0 -> 0 <= d < 10 -> (d = 0 -> base = 10) ->
  scan_base base (digit_char d :: s) = (10, digit_char d :: s).
Proof.
  intros Hb H H0.
  assert (d = 0 \/ d = 1 \/ d = 2 \/ d = 3 \/ d = 4 \/ d = 5 \/ d = 6 \/ d = 7 \/ d = 8
          \/ d = 9) as HH by lia.
  destruct HH as [->|HH].
  - rewrite (H0 eq_refl). change (digit_char 0) with "0"%char. simpl.
    destruct s as [|x [|y s]]; [done..|].
    change (10 =? 0) with false. change (10 =? 16) with false. simpl.
    by rewrite andb_false_r.
  - destruct Hb as [-> | ->]; by repeat destruct HH as [->|HH]; try subst d.
Qed.

(** A rendered number is read back, together with what follows it. *)
Lemma scan_int_dec base n rest :
  base = 10 \/ base = 0 -> in_width 64 n -> ends_number rest ->
  scan_int base (dec n ++ rest) = Some (false, n, rest).
Proof.
  intros Hb Hn Hr. unfold in_width in Hn.
  assert (0 <= n < 10 ^ Z.of_nat 20) as Hn20
    by (change (10 ^ Z.of_nat 20) with 100000000000000000000; lia).
  pose proof (scan_dec_aux 20 n rest Hn20 ltac:(lia)) as Hscan.
  destruct (dec_aux_head 20 n Hn20 ltac:(lia)) as (d & s & E & Hd & Hz).
  unfold dec. rewrite E in *. rewrite <-app_comm_cons in *. unfold scan_int.
  rewrite drop_while_id by (by apply digit_char_not_space).
  rewrite scan_sign_digit by done.
  assert (is_digit 10 (digit_char d) = true) as Hdig.
  { unfold is_digit. rewrite digit_val_digit_char by done. lia. }
  destruct (decide (d = 0 /\ base = 0)) as [[-> ->]|Hne].
  - destruct (Hz eq_refl) as [-> ->]. change (digit_char 0) with "0"%char. simpl app.
    assert (scan_base 0 ("0"%char :: rest) = (8, "0"%char :: rest)) as ->.
    { destruct rest as [|x [|y rest]]; [done..|]. simpl.
      rewrite !bool_decide_eq_false_2; [done|intros ->; simpl in Hr..];
        vm_compute in Hr; congruence. }
    simpl. by rewrite scan_digits_stop.
  - rewrite scan_base_dec by (try done; try intros ->; lia || tauto).
    rewrite Hdig, Hscan. by rewrite scan_digits_stop.
Qed.

Lemma strtoull_dec n rest :
  in_width 64 n -> ends_number rest -> strtoull (dec n ++ rest) 0 = (n, Some rest).
Proof.
  intros Hn Hr. unfold strtoull. simpl. rewrite scan_int_dec by auto.
  unfold in_width in Hn. by replace (2 ^ 64 - 1 <? n) with false by lia.
Qed.

Lemma strtol_dec base n rest :
  base = 10 \/ base = 0 -> 0 <= n < 2 ^ 63 -> ends_number rest ->
  strtol (dec n ++ rest) base = (n, Some rest).
Proof.
  intros Hb Hn Hr. unfold strtol.
  replace (base_supported base) with true by (by destruct Hb as [-> | ->]).
  rewrite scan_int_dec by (unfold in_width; auto; lia). f_equal. lia.
Qed.

Lemma atoi_dec n rest :
  0 <= n < 2 ^ 31 -> ends_number rest -> atoi (dec n ++ rest) = n.
Proof.
  intros Hn Hr. unfold atoi. rewrite strtol_dec by (auto; lia).
  apply swrap_id; simpl; lia.
Qed.

(** Every character of a decimal rendering is a digit. *)
Lemma dec_aux_digits f n c : c ∈ dec_aux f n -> 48 <= code c <= 57.
Proof.
  revert n. induction f as [|f IH]; intros n; simpl.
  - by intros ?%elem_of_nil.
  - rewrite elem_of_app, list_elem_of_singleton. intros [H| ->].
    + destruct (n <? 10); [by apply elem_of_nil in H | by eapply IH].
    + pose proof (Z.mod_pos_bound n 10 ltac:(lia)). rewrite code_ascii; lia.
Qed.

Lemma dec_digits n c : c ∈ dec n -> 48 <= code c <= 57.
Proof. apply dec_aux_digits. Qed.

Lemma not_in_dec n c : ~ (48 <= code c <= 57) -> c ∉ dec n.
Proof. intros H Hc. by apply H, (dec_digits n). Qed.

Lemma dec_nonempty n : dec n <> [].
Proof. unfold dec. cbn [dec_aux]. by intros [_ ?]%app_eq_nil. Qed.

#[export] Hint Resolve dec_nonempty : doca.

(** *** [strlcpy] *)

Lemma strlcpy_cstr dst src size dst' n :
  no_nul src -> (0 < size)%nat -> strlcpy dst src size = Ret (dst', n) ->
  cstr_of dst' = Some (take (size - 1) src) /\ n = length src
  /\ length dst' = length dst.
Proof.
  intros Hs Hsz. unfold strlcpy. rewrite (proj2 (Nat.ltb_lt 0 size)) by done.
  case_if; [|done]. intros [= <- <-]. split_and!; [|done|].
  - rewrite cstr_of_app.
    + destruct (decide (length src <= size - 1)%nat).
      * rewrite Nat.min_l, !take_ge by lia. done.
      * by rewrite Nat.min_r by lia.
    + intros Hin. apply Hs. by eapply subseteq_take.
  - apply Nat.ltb_lt in Heqb.
    rewrite length_app, length_cons, length_take, length_drop. lia.
Qed.
