(* ===== verification/Pack.v ===== *)
(** * Big-endian packing (applications/common/pack.c)

    The serialisation helpers the gateway uses for messages on a byte stream.
    The [uint8_t **buffer] argument is a cursor: the underlying array and the
    position of the next byte.  Reading or writing past the array is undefined. *)
From S2P Require Import Prelude.

Definition GET_BYTE (v n : Z) : Z := u8 (Z.land (Z.shiftr v (n * 8)) 255).
Definition SET_BYTE (v n : Z) : Z := Z.shiftl (Z.land v 255) (n * 8).

(** [ntohq] on a little-endian host (on a big-endian one it is the identity). *)
Definition ntohq (value : Z) : Z :=
  foldr Z.lor 0
    [SET_BYTE (GET_BYTE value 0) 7; SET_BYTE (GET_BYTE value 1) 6;
     SET_BYTE (GET_BYTE value 2) 5; SET_BYTE (GET_BYTE value 3) 4;
     SET_BYTE (GET_BYTE value 4) 3; SET_BYTE (GET_BYTE value 5) 2;
     SET_BYTE (GET_BYTE value 6) 1; SET_BYTE (GET_BYTE value 7) 0].

Record cursor : Type := Cursor { mem : list Z; pos : nat }.

(** [*write_head++ = b]. *)
Definition put (b : Z) (c : cursor) : outcome cursor :=
  if (pos c <? length (mem c))%nat then Ret (Cursor (<[pos c := b]> (mem c)) (S (pos c)))
  else Undef OutOfBounds.

(** [*read_head++]. *)
Definition get (c : cursor) : outcome (Z * cursor) :=
  match mem c !! pos c with
  | Some b => Ret (b, Cursor (mem c) (S (pos c)))
  | None => Undef OutOfBounds
  end.

Fixpoint put_all (bs : list Z) (c : cursor) : outcome cursor :=
  match bs with
  | [] => Ret c
  | b :: bs' => let* c' := put b c in put_all bs' c'
  end.

(** [value |= SET_BYTE( *read_head++, k)] for [k = n-1 .. 0]. *)
Fixpoint get_be (n : nat) (value : Z) (c : cursor) : outcome (Z * cursor) :=
  match n with
  | O => Ret (value, c)
  | S k =>
      let* (b, c') := get c in
      get_be k (Z.lor value (SET_BYTE b (Z.of_nat k))) c'
  end.

Definition pack_uint8 (value : Z) (c : cursor) : outcome cursor := put value c.
Definition pack_uint16 (value : Z) (c : cursor) : outcome cursor :=
  put_all [GET_BYTE value 1; GET_BYTE value 0] c.
Definition pack_uint32 (value : Z) (c : cursor) : outcome cursor :=
  put_all [GET_BYTE value 3; GET_BYTE value 2; GET_BYTE value 1; GET_BYTE value 0] c.
Definition pack_uint64 (value : Z) (c : cursor) : outcome cursor :=
  put_all [GET_BYTE value 7; GET_BYTE value 6; GET_BYTE value 5; GET_BYTE value 4;
           GET_BYTE value 3; GET_BYTE value 2; GET_BYTE value 1; GET_BYTE value 0] c.
Definition pack_blob (object : list Z) (c : cursor) : outcome cursor := put_all object c.

Definition unpack_uint8 (c : cursor) : outcome (Z * cursor) := get c.
Definition unpack_uint16 (c : cursor) : outcome (Z * cursor) := get_be 2 0 c.
Definition unpack_uint32 (c : cursor) : outcome (Z * cursor) := get_be 4 0 c.
Definition unpack_uint64 (c : cursor) : outcome (Z * cursor) := get_be 8 0 c.

(** [unpack_blob(buffer, length, output)] copies [length] bytes. *)
Definition unpack_blob (len : nat) (c : cursor) : outcome (list Z * cursor) :=
  if (pos c + len <=? length (mem c))%nat then
    Ret (take len (drop (pos c) (mem c)), Cursor (mem c) (pos c + len))
  else Undef OutOfBounds.

(** ** Messages: sequences of pack and unpack calls *)

Inductive item : Type :=
| I8 (v : Z) | I16 (v : Z) | I32 (v : Z) | I64 (v : Z) | IBlob (bs : list Z).

Definition pack_item (i : item) (c : cursor) : outcome cursor :=
  match i with
  | I8 v => pack_uint8 v c
  | I16 v => pack_uint16 v c
  | I32 v => pack_uint32 v c
  | I64 v => pack_uint64 v c
  | IBlob bs => pack_blob bs c
  end.

(** Unpack an item of the same shape. *)
Definition unpack_item (i : item) (c : cursor) : outcome (item * cursor) :=
  match i with
  | I8 _ => let* (v, c') := unpack_uint8 c in Ret (I8 v, c')
  | I16 _ => let* (v, c') := unpack_uint16 c in Ret (I16 v, c')
  | I32 _ => let* (v, c') := unpack_uint32 c in Ret (I32 v, c')
  | I64 _ => let* (v, c') := unpack_uint64 c in Ret (I64 v, c')
  | IBlob bs => let* (v, c') := unpack_blob (length bs) c in Ret (IBlob v, c')
  end.

Fixpoint pack_items (its : list item) (c : cursor) : outcome cursor :=
  match its with
  | [] => Ret c
  | i :: its' => let* c' := pack_item i c in pack_items its' c'
  end.

Fixpoint unpack_items (its : list item) (c : cursor) : outcome (list item * cursor) :=
  match its with
  | [] => Ret ([], c)
  | i :: its' =>
      let* (v, c') := unpack_item i c in
      let* (vs, c'') := unpack_items its' c' in
      Ret (v :: vs, c'')
  end.

(** The item's value fits the C type it is packed from. *)
Definition item_ok (i : item) : Prop :=
  match i with
  | I8 v => in_width 8 v
  | I16 v => in_width 16 v
  | I32 v => in_width 32 v
  | I64 v => in_width 64 v
  | IBlob bs => Forall (in_width 8) bs
  end.

Definition item_size (i : item) : nat :=
  match i with I8 _ => 1 | I16 _ => 2 | I32 _ => 4 | I64 _ => 8 | IBlob bs => length bs end.

Definition items_size (its : list item) : nat := sum_list_with item_size its.

(** The wire image of an item: its bytes, most significant first. *)
Definition item_bytes (i : item) : list Z :=
  match i with
  | I8 v => [v]
  | I16 v => rev (le_bytes 2 v)
  | I32 v => rev (le_bytes 4 v)
  | I64 v => rev (le_bytes 8 v)
  | IBlob bs => bs
  end.

(** ** Byte lemmas *)

Lemma get_byte_eq v n : 0 <= n -> GET_BYTE v n = (v / 2 ^ (n * 8)) mod 256.
Proof.
  intros. unfold GET_BYTE, uwrap. change 255 with (Z.ones 8).
  rewrite Z.land_ones, Z.shiftr_div_pow2 by lia. change (2 ^ 8) with 256.
  apply Z.mod_mod. lia.
Qed.

(** What the reading loop computes, for the [n] bytes at the cursor. *)
Fixpoint be_acc (value : Z) (bs : list Z) : Z :=
  match bs with
  | [] => value
  | b :: bs' => be_acc (Z.lor value (SET_BYTE b (Z.of_nat (length bs')))) bs'
  end.

Lemma be_acc_value value bs :
  Forall (in_width 8) bs -> value mod 2 ^ (8 * Z.of_nat (length bs)) = 0 ->
  be_acc value bs = value + le_value (rev bs).
Proof.
  intros Hbs. revert value. induction Hbs as [|b bs Hb Hbs IH]; intros value Hv; simpl; [lia|].
  unfold in_width in Hb. change (2 ^ 8) with 256 in Hb.
  set (k := Z.of_nat (length bs)) in *.
  assert (0 < 2 ^ (8 * k)) by (apply Z.pow_pos_nonneg; lia).
  assert (SET_BYTE b k = b * 2 ^ (8 * k)) as Eset.
  { unfold SET_BYTE. change 255 with (Z.ones 8). rewrite Z.land_ones by lia.
    change (2 ^ 8) with 256. rewrite Z.mod_small, Z.shiftl_mul_pow2 by lia.
    by rewrite (Z.mul_comm k). }
  rewrite Eset.
  assert (2 ^ (8 * Z.of_nat (length (b :: bs))) = 256 * 2 ^ (8 * k)) as Ep.
  { cbn [length]. rewrite Nat2Z.inj_succ. fold k.
    replace (8 * Z.succ k) with (8 + 8 * k) by lia. by rewrite Z.pow_add_r by lia. }
  rewrite (lor_add_low (8 * Z.of_nat (length (b :: bs)))); [|rewrite Ep; nia|exact Hv].
  assert (le_value (rev bs ++ [b]) = le_value (rev bs) + b * 2 ^ (8 * k)) as ->.
  { subst k. rewrite <-(length_rev bs). generalize (rev bs) as l. intros l.
    induction l as [|x l IHl].
    - cbn [app le_value length Z.of_nat Z.mul Z.pow]. lia.
    - cbn [app le_value length]. rewrite IHl, Nat2Z.inj_succ.
      replace (8 * Z.succ (Z.of_nat (length l))) with (8 + 8 * Z.of_nat (length l)) by lia.
      rewrite Z.pow_add_r by lia. change (2 ^ 8) with 256. lia. }
  rewrite IH; [lia|]. rewrite Z.mod_add by lia.
  rewrite Ep in Hv. apply Z.mod_divide in Hv; [|lia]. destruct Hv as [q ->].
  replace (q * (256 * 2 ^ (8 * k))) with (q * 256 * 2 ^ (8 * k)) by lia.
  apply Z.mod_mul. lia.
Qed.

Lemma put_all_app bs m p :
  (p + length bs <= length m)%nat ->
  put_all bs (Cursor m p)
  = Ret (Cursor (take p m ++ bs ++ drop (p + length bs) m) (p + length bs)).
Proof.
  revert m p. induction bs as [|b bs IH]; intros m p Hlen; cbn [put_all].
  - rewrite app_nil_l. cbn [length]. by rewrite Nat.add_0_r, take_drop.
  - cbn [length] in Hlen. unfold put. cbn [pos mem].
    rewrite (proj2 (Nat.ltb_lt _ _)) by lia. cbn beta iota.
    rewrite IH by (rewrite length_insert; lia).
    rewrite drop_insert_lt by lia.
    rewrite (take_S_r _ p b) by (apply list_lookup_insert_eq; lia).
    rewrite take_insert_ge by lia.
    cbn [length]. rewrite <-app_assoc. cbn [app].
    do 2 f_equal; [|lia]. do 4 f_equal. lia.
Qed.

Lemma get_be_acc n m p value :
  (p + n <= length m)%nat ->
  get_be n value (Cursor m p) = Ret (be_acc value (take n (drop p m)), Cursor m (p + n)).
Proof.
  revert p value. induction n as [|n IH]; intros p value Hlen; cbn [get_be].
  - by rewrite Nat.add_0_r.
  - unfold get. cbn [mem pos].
    destruct (lookup_lt_is_Some_2 m p ltac:(lia)) as [b Hb]. rewrite Hb.
    cbn beta iota. rewrite IH by lia.
    rewrite (drop_S m b p) by done. cbn [take be_acc].
    rewrite length_take, length_drop, Nat.min_l by lia. do 3 f_equal. lia.
Qed.

Lemma put_put_all v c : put v c = put_all [v] c.
Proof. cbn [put_all]. by destruct (put v c). Qed.

(** The bytes the packing routines write, most significant first. *)
Lemma pack_bytes_be v :
  [GET_BYTE v 1; GET_BYTE v 0] = rev (le_bytes 2 v)
  /\ [GET_BYTE v 3; GET_BYTE v 2; GET_BYTE v 1; GET_BYTE v 0] = rev (le_bytes 4 v)
  /\ [GET_BYTE v 7; GET_BYTE v 6; GET_BYTE v 5; GET_BYTE v 4;
      GET_BYTE v 3; GET_BYTE v 2; GET_BYTE v 1; GET_BYTE v 0] = rev (le_bytes 8 v).
Proof.
  rewrite !get_byte_eq by lia. cbn [le_bytes rev app]. rewrite !Z.div_div by lia.
  change (2 ^ (0 * 8)) with 1. rewrite Z.div_1_r. done.
Qed.

Lemma pack_item_app i m p :
  item_ok i -> (p + item_size i <= length m)%nat ->
  pack_item i (Cursor m p)
  = Ret (Cursor (take p m ++ item_bytes i ++ drop (p + item_size i) m) (p + item_size i))
  /\ length (item_bytes i) = item_size i.
Proof.
  intros Hok Hlen.
  assert (pack_item i (Cursor m p) = put_all (item_bytes i) (Cursor m p)
          /\ length (item_bytes i) = item_size i) as [-> El].
  { destruct i as [v|v|v|v|bs]; cbn [pack_item item_size item_bytes];
      unfold pack_uint8, pack_uint16, pack_uint32, pack_uint64, pack_blob;
      rewrite ?length_rev, ?length_le_bytes, ?put_put_all;
      try (destruct (pack_bytes_be v) as (E2 & E4 & E8); rewrite ?E8, ?E4, ?E2); done. }
  rewrite put_all_app by lia. by rewrite El.
Qed.

Lemma item_bytes_range i : item_ok i -> Forall (in_width 8) (item_bytes i).
Proof.
  destruct i; cbn [item_bytes item_ok]; intros H; auto; apply Forall_rev, le_bytes_range.
Qed.

(** Reading back the wire image of an item. *)
Lemma unpack_item_bytes i m1 m2 :
  item_ok i ->
  unpack_item i (Cursor (m1 ++ item_bytes i ++ m2) (length m1))
  = Ret (i, Cursor (m1 ++ item_bytes i ++ m2) (length m1 + item_size i)).
Proof.
  intros Hok. pose proof (item_bytes_range i Hok) as Hr.
  assert (drop (length m1) (m1 ++ item_bytes i ++ m2) = item_bytes i ++ m2) as Ed
    by apply drop_app_length.
  assert (forall n v, item_bytes i = rev (le_bytes n v) -> in_width (8 * Z.of_nat n) v ->
    get_be n 0 (Cursor (m1 ++ item_bytes i ++ m2) (length m1))
    = Ret (v, Cursor (m1 ++ item_bytes i ++ m2) (length m1 + n))) as Hbe.
  { intros n v E Hv.
    assert (length (item_bytes i) = n) as El by (by rewrite E, length_rev, length_le_bytes).
    rewrite get_be_acc by (rewrite !length_app; lia).
    rewrite Ed, take_app_length' by done.
    rewrite be_acc_value by (auto; apply Z.mod_0_l; lia).
    rewrite E, rev_involutive, le_value_le_bytes, Z.add_0_l.
    rewrite Z.mod_small by done. done. }
  destruct i as [v|v|v|v|bs]; cbn [unpack_item item_ok item_size] in *;
    unfold unpack_uint8, unpack_uint16, unpack_uint32, unpack_uint64, unpack_blob.
  - unfold get. cbn [mem pos item_bytes].
    change ([v] ++ m2) with (v :: m2). rewrite list_lookup_middle by done.
    cbn beta iota. do 3 f_equal. lia.
  - by rewrite (Hbe 2%nat v).
  - by rewrite (Hbe 4%nat v).
  - by rewrite (Hbe 8%nat v).
  - cbn [mem pos item_bytes] in *.
    rewrite (proj2 (Nat.leb_le _ _)) by (rewrite !length_app; lia).
    rewrite Ed, take_app_length. done.
Qed.

(** The wire image of a message. *)
Definition items_bytes (its : list item) : list Z := its ≫= item_bytes.

Lemma pack_items_app its m p :
  Forall item_ok its -> (p + items_size its <= length m)%nat ->
  pack_items its (Cursor m p)
  = Ret (Cursor (take p m ++ items_bytes its ++ drop (p + items_size its) m)
               (p + items_size its))
  /\ length (items_bytes its) = items_size its.
Proof.
  unfold items_size, items_bytes. intros Hok. revert m p.
  induction Hok as [|i its Hi _ IH]; intros m p Hlen;
    cbn [pack_items sum_list_with] in *.
  - split; [|done]. rewrite Nat.add_0_r. cbn. by rewrite take_drop.
  - destruct (pack_item_app i m p Hi ltac:(lia)) as [Ep El]. rewrite Ep.
    cbn beta iota.
    set (m' := take p m ++ item_bytes i ++ drop (p + item_size i) m).
    assert (length m' = length m) as Em'.
    { subst m'. rewrite !length_app, length_take, length_drop, El. lia. }
    destruct (IH m' (p + item_size i)%nat ltac:(lia)) as [Eq Elq].
    rewrite Eq. rewrite bind_cons, length_app, El, Elq. split; [|done].
    assert (take (p + item_size i) m' = take p m ++ item_bytes i) as ->.
    { subst m'. rewrite app_assoc. apply take_app_length'.
      rewrite length_app, length_take, El. lia. }
    assert (drop (p + item_size i + sum_list_with item_size its) m'
            = drop (p + (item_size i + sum_list_with item_size its)) m) as ->.
    { subst m'. rewrite app_assoc, drop_app_ge
        by (rewrite length_app, length_take, El; lia).
      rewrite length_app, length_take, El, drop_drop. f_equal. lia. }
    do 2 f_equal; [|lia]. by rewrite <-!app_assoc.
Qed.

Lemma unpack_items_bytes its m1 m2 :
  Forall item_ok its ->
  unpack_items its (Cursor (m1 ++ items_bytes its ++ m2) (length m1))
  = Ret (its, Cursor (m1 ++ items_bytes its ++ m2) (length m1 + items_size its)).
Proof.
  unfold items_size, items_bytes. intros Hok. revert m1.
  induction Hok as [|i its Hi Hok IH]; intros m1; cbn [unpack_items sum_list_with].
  - by rewrite Nat.add_0_r.
  - rewrite bind_cons, <-app_assoc. rewrite unpack_item_bytes by done.
    cbn beta iota.
    assert (length (item_bytes i) = item_size i) as El.
    { destruct i; cbn [item_bytes item_size]; rewrite ?length_rev, ?length_le_bytes; done. }
    specialize (IH (m1 ++ item_bytes i)). rewrite length_app, El, <-app_assoc in IH.
    rewrite IH. cbn beta iota. do 3 f_equal. lia.
Qed.

(** C35: Every sequence of values packed with [pack_uint8/16/32/64] and [pack_blob]
    into a large enough buffer is read back unchanged by the same sequence of
    [unpack_*] calls, and the cursor ends where the writer's did. *)
Theorem pack_unpack_roundtrip its buf :
  Forall item_ok its -> (items_size its <= length buf)%nat ->
  exists buf', pack_items its (Cursor buf 0) = Ret (Cursor buf' (items_size its))
    /\ unpack_items its (Cursor buf' 0) = Ret (its, Cursor buf' (items_size its))
    /\ drop (items_size its) buf' = drop (items_size its) buf.
Proof.
  intros Hok Hlen. destruct (pack_items_app its buf 0 Hok ltac:(lia)) as [Ep El].
  rewrite Nat.add_0_l, take_0, app_nil_l in Ep. eexists. split; [exact Ep|].
  split; [exact (unpack_items_bytes its [] _ Hok)|]. by apply drop_app_length'.
Qed.

Lemma ntohq_bswap v : ntohq v = bswap 8 v.
Proof.
  unfold ntohq, bswap.
  rewrite <-(Z.add_0_l (le_value _)), <-be_acc_value;
    [|apply le_bytes_range|by rewrite length_le_bytes].
  cbn [le_bytes rev app be_acc length foldr Z.of_nat Pos.of_succ_nat Pos.succ].
  rewrite !get_byte_eq, !Z.div_div by lia. rewrite Z.lor_0_l, Z.lor_0_r, !Z.lor_assoc.
  change (2 ^ (0 * 8)) with 1. by rewrite Z.div_1_r.
Qed.

(** [ntohq] (and [htonq], the same function) is its own inverse on 64-bit values. *)
Theorem ntohq_involutive v : in_width 64 v -> ntohq (ntohq v) = v.
Proof. intros Hv. rewrite !ntohq_bswap, bswap_bswap. by apply Z.mod_small. Qed.

Lemma pack_unpack_roundtrip_witness :
  exists buf', pack_items [I16 258; IBlob [7; 8]; I64 1; I8 9; I32 70000] (Cursor (replicate 20 255) 0)
      = Ret (Cursor buf' 17)
    /\ unpack_items [I16 258; IBlob [7; 8]; I64 1; I8 9; I32 70000] (Cursor buf' 0)
      = Ret ([I16 258; IBlob [7; 8]; I64 1; I8 9; I32 70000], Cursor buf' 17)
    /\ drop 17 buf' = drop 17 (replicate 20 255).
Proof.
  apply (pack_unpack_roundtrip [I16 258; IBlob [7; 8]; I64 1; I8 9; I32 70000] (replicate 20 255)).
  - repeat (apply Forall_cons_2; [cbn [item_ok]; apply (bool_decide_unpack _); vm_compute; exact I|]).
    apply Forall_nil_2.
  - apply (bool_decide_unpack _). vm_compute. exact I.
Defined.

Lemma ntohq_involutive_witness : ntohq (ntohq 0x0102030405060708) = 0x0102030405060708.
Proof. apply (ntohq_involutive 0x0102030405060708). apply (bool_decide_unpack _). vm_compute. exact I. Defined.
