(* ===== verification/AntiReplay.v ===== *)
(** * Software anti-replay window of the IPsec gateway

    [anti_replay] of applications/ipsec_security_gw/flow_decrypt.c with the
    initialisation of ipsec_security_gw.c.  Sequence numbers are 32-bit, the
    window is a 64-bit map whose bit [i] stands for sequence number
    [begin + i].  The abstract specification is the set of sequence numbers
    accepted so far; the refinement theorem says the window decides exactly as
    that set does. *)
From S2P Require Import Prelude.

(** [WINDOW_SIZE] of ipsec_ctx.h. *)
Definition WINDOW_SIZE : Z := 64.

Record antireplay_state : Type := ARState {
  window_size : Z;   (** uint32_t *)
  end_win_sn : Z;    (** uint32_t *)
  bitmap : Z;        (** uint64_t, bit 0 is the lowest sequence number *)
}.

(** [((uint64_t)1) << n]: undefined when [n] is not below the width. *)
Definition bit64 (n : Z) : outcome Z :=
  if n <? 64 then Ret (Z.shiftl 1 n) else Undef BadShift.

(** [anti_replay(sn, state, &drop)]: the new state and [drop]. *)
Definition anti_replay (sn : Z) (state : antireplay_state) : outcome (antireplay_state * bool) :=
  let window_size := window_size state in
  let end_sn := end_win_sn state in
  let bitmap := bitmap state in
  let beg_win_sn := u32 (end_sn + 1 - window_size) in
  if sn <? beg_win_sn then Ret (state, true)
  else if sn <=? end_sn then
    let diff := u32 (sn - beg_win_sn) in
    let* bit := bit64 diff in
    if negb (Z.land bitmap bit =? 0) then Ret (state, true)
    else Ret (ARState window_size end_sn (Z.lor bitmap bit), false)
  else
    let diff := u32 (sn - end_sn) in
    if window_size <=? diff then
      let* bit := bit64 (u32 (window_size - 1)) in
      Ret (ARState window_size sn bit, false)
    else
      let* bit := bit64 (u32 (window_size - 1)) in
      Ret (ARState window_size sn (Z.lor (Z.shiftr bitmap diff) bit), false).

(** The state [sw_handling_antireplay] gives each rule. *)
Definition sw_handling_antireplay (sn_initial : Z) : antireplay_state :=
  ARState WINDOW_SIZE (u32 (u32 sn_initial + WINDOW_SIZE - 1)) 0.

(** A run of the check over the packets of one rule: the sequence numbers that
    were let through, in order, and the final state. *)
Fixpoint anti_replay_run (sns : list Z) (state : antireplay_state)
    : outcome (list Z * antireplay_state) :=
  match sns with
  | [] => Ret ([], state)
  | sn :: rest =>
      let* (state', drop) := anti_replay sn state in
      let* (acc, final) := anti_replay_run rest state' in
      Ret ((if drop then acc else sn :: acc), final)
  end.

(** ** Abstract specification: the set of accepted sequence numbers *)

Record ar_spec : Type := ARSpec { accepted : gset Z; right : Z }.

(** Sequence numbers left of the window are dropped, others are dropped exactly
    when they were accepted before; the right edge follows the highest one. *)
Definition ar_spec_step (sn : Z) (s : ar_spec) : ar_spec * bool :=
  if bool_decide (sn < right s - 63 \/ sn ∈ accepted s) then (s, true)
  else (ARSpec ({[sn]} ∪ accepted s) (Z.max (right s) sn), false).

(** The window represents the set: bit [i] tells whether [right - 63 + i] is in
    it, and nothing beyond the right edge was accepted. *)
Record ar_refines (st : antireplay_state) (s : ar_spec) : Prop := {
  ar_size : window_size st = 64;
  ar_end : end_win_sn st = right s;
  ar_end_range : 63 <= right s < 2 ^ 32;
  ar_map_range : 0 <= bitmap st < 2 ^ 64;
  ar_bits : forall i, 0 <= i < 64 ->
    Z.testbit (bitmap st) i = bool_decide (right s - 63 + i ∈ accepted s);
  ar_bound : forall n, n ∈ accepted s -> n <= right s;
}.

(** ** Lemmas *)

Lemma land_bit_testbit m n : 0 <= n -> (Z.land m (Z.shiftl 1 n) =? 0) = negb (Z.testbit m n).
Proof.
  intros Hn.
  assert (Z.land m (Z.shiftl 1 n) = if Z.testbit m n then 2 ^ n else 0) as ->.
  { apply Z.bits_inj'. intros i Hi. rewrite Z.land_spec, Z.shiftl_1_l, Z.pow2_bits_eqb by lia.
    destruct (Z.eqb_spec n i) as [->|Hne].
    - destruct (Z.testbit m i); [by rewrite Z.pow2_bits_true by lia|by rewrite Z.bits_0].
    - rewrite andb_false_r. destruct (Z.testbit m n); [|by rewrite Z.bits_0].
      symmetry. by apply Z.pow2_bits_false. }
  destruct (Z.testbit m n); [|done]. apply Z.eqb_neq.
  pose proof (Z.pow_pos_nonneg 2 n). lia.
Qed.

Lemma lor_bit_range m n : 0 <= n < 64 -> 0 <= m < 2 ^ 64 -> 0 <= Z.lor m (Z.shiftl 1 n) < 2 ^ 64.
Proof.
  intros Hn Hm. rewrite Z.shiftl_1_l. split; [apply Z.lor_nonneg; lia|].
  assert (0 < 2 ^ n < 2 ^ 64) as Hp by (split; [lia|apply Z.pow_lt_mono_r; lia]).
  assert (0 < Z.lor m (2 ^ n)) as Hpos.
  { assert (0 <= Z.lor m (2 ^ n)) by (apply Z.lor_nonneg; lia).
    enough (Z.lor m (2 ^ n) <> 0) by lia. intros [_ E]%Z.lor_eq_0_iff. lia. }
  apply Z.log2_lt_pow2; [done|]. rewrite Z.log2_lor, Z.log2_pow2 by lia.
  apply Z.max_lub_lt; [|lia].
  destruct (decide (m = 0)) as [->|]; [simpl; lia|]. apply Z.log2_lt_pow2; lia.
Qed.

Lemma testbit_lor_bit m n i :
  0 <= n -> 0 <= i ->
  Z.testbit (Z.lor m (Z.shiftl 1 n)) i = Z.testbit m i || bool_decide (n = i).
Proof.
  intros. rewrite Z.lor_spec, Z.shiftl_1_l, Z.pow2_bits_eqb by lia. f_equal.
  by destruct (Z.eqb_spec n i), (bool_decide_reflect (n = i)).
Qed.

Section step.
Context (st : antireplay_state) (s : ar_spec) (R : ar_refines st s).
Context (sn : Z) (Hsn : in_width 32 sn).

(** The window starts at [right - 63], with no wrap-around. *)
Lemma ar_begin : u32 (end_win_sn st + 1 - window_size st) = right s - 63.
Proof using R.
  destruct R. rewrite ar_size0, ar_end0, uwrap_id; unfold in_width; lia.
Qed.

(** Case 2 of the comment in the source: a new number inside the window. *)
Lemma ar_inside :
  right s - 63 <= sn <= right s -> sn ∉ accepted s ->
  ar_refines
    (ARState 64 (right s) (Z.lor (bitmap st) (Z.shiftl 1 (sn - (right s - 63)))))
    (ARSpec ({[sn]} ∪ accepted s) (Z.max (right s) sn)).
Proof using R.
  intros Hin Hnew. destruct R. split; cbn; rewrite ?Z.max_l by lia; try lia.
  - apply lor_bit_range; lia.
  - intros i Hi. rewrite testbit_lor_bit, ar_bits0 by lia.
    rewrite <-bool_decide_or. apply bool_decide_ext.
    rewrite elem_of_union, elem_of_singleton. split; [intros [?|?]; [tauto|left; lia]|].
    intros [?|?]; [right; lia|tauto].
  - intros n [->%elem_of_singleton|Hn]%elem_of_union; [lia|by apply ar_bound0].
Qed.

(** Case 3: a number right of the window, less than a window away. *)
Lemma ar_slide :
  right s < sn -> sn - right s < 64 ->
  ar_refines
    (ARState 64 sn (Z.lor (Z.shiftr (bitmap st) (sn - right s)) (Z.shiftl 1 63)))
    (ARSpec ({[sn]} ∪ accepted s) (Z.max (right s) sn)).
Proof using R Hsn.
  intros Hgt Hd. destruct R. unfold in_width in Hsn.
  split; cbn [window_size end_win_sn bitmap right accepted];
    rewrite ?Z.max_r by lia; try lia.
  - apply lor_bit_range; [lia|]. rewrite Z.shiftr_div_pow2 by lia.
    split; [apply Z.div_pos; lia|].
    apply Z.le_lt_trans with (bitmap st); [|lia].
    apply Z.div_le_upper_bound; [lia|].
    pose proof (Z.pow_pos_nonneg 2 (sn - right s)). nia.
  - intros i Hi. rewrite testbit_lor_bit, Z.shiftr_spec by lia.
    destruct (Z.lt_ge_cases (i + (sn - right s)) 64).
    + rewrite ar_bits0 by lia. rewrite (bool_decide_eq_false_2 (63 = i)) by lia.
      rewrite orb_false_r. apply bool_decide_ext. rewrite elem_of_union, elem_of_singleton.
      replace (right s - 63 + (i + (sn - right s))) with (sn - 63 + i) by lia.
      split; [tauto|intros [E|E]; [lia|done]].
    + rewrite (testbit_high 64) by lia. simpl. apply bool_decide_ext.
      rewrite elem_of_union, elem_of_singleton. split; [lia|].
      intros [E|E]; [lia|]. apply ar_bound0 in E. lia.
  - intros n [->%elem_of_singleton|Hn]%elem_of_union; [lia|].
    apply ar_bound0 in Hn. lia.
Qed.

(** Case 3: a number a whole window or more to the right. *)
Lemma ar_jump :
  64 <= sn - right s ->
  ar_refines (ARState 64 sn (Z.shiftl 1 63))
    (ARSpec ({[sn]} ∪ accepted s) (Z.max (right s) sn)).
Proof using R Hsn.
  intros Hd. destruct R. unfold in_width in Hsn.
  split; cbn [window_size end_win_sn bitmap right accepted];
    rewrite ?Z.max_r by lia; try lia; [done| |].
  - intros i Hi. rewrite <-(Z.lor_0_l (Z.shiftl 1 63)), testbit_lor_bit by lia.
    rewrite Z.bits_0. simpl. apply bool_decide_ext.
    rewrite elem_of_union, elem_of_singleton. split; [lia|].
    intros [E|E]; [lia|]. apply ar_bound0 in E. lia.
  - intros n [->%elem_of_singleton|Hn]%elem_of_union; [lia|].
    apply ar_bound0 in Hn. lia.
Qed.

(** One packet: the code and the specification make the same decision and
    stay related; no shift is out of range. *)
Lemma anti_replay_step :
  exists st', anti_replay sn st = Ret (st', snd (ar_spec_step sn s))
    /\ ar_refines st' (fst (ar_spec_step sn s)).
Proof using R Hsn.
  pose proof R as R0. destruct R0. unfold in_width in Hsn.
  unfold anti_replay. rewrite ar_begin, ar_size0, ar_end0. cbv zeta.
  unfold ar_spec_step.
  destruct (Z.ltb_spec sn (right s - 63)).
  { rewrite bool_decide_eq_true_2 by (left; lia). by exists st. }
  destruct (Z.leb_spec sn (right s)).
  - rewrite (uwrap_id 32) by (unfold in_width; lia). unfold bit64.
    rewrite (proj2 (Z.ltb_lt _ _)) by lia. cbn beta iota.
    rewrite land_bit_testbit, negb_involutive, ar_bits0 by lia.
    replace (right s - 63 + (sn - (right s - 63))) with sn by lia.
    destruct (decide (sn ∈ accepted s)) as [Hin|Hnin].
    + rewrite !bool_decide_eq_true_2 by tauto. by exists st.
    + rewrite bool_decide_eq_false_2 by done.
      rewrite (bool_decide_eq_false_2 (_ \/ _)) by (intros [?|?]; [lia|done]).
      eexists. split; [done|]. by apply ar_inside.
  - rewrite (bool_decide_eq_false_2 (_ \/ _))
      by (intros [?|E]; [lia|apply ar_bound0 in E; lia]).
    rewrite (uwrap_id 32 (sn - right s)) by (unfold in_width; lia).
    change (bit64 (u32 (64 - 1))) with (@Ret Z (Z.shiftl 1 63)). cbn beta iota.
    destruct (Z.leb_spec 64 (sn - right s)); eexists; (split; [done|]).
    + by apply ar_jump.
    + by apply ar_slide.
Qed.
End step.

Lemma ar_init sn_initial :
  0 <= sn_initial <= 2 ^ 32 - 64 ->
  ar_refines (sw_handling_antireplay sn_initial) (ARSpec ∅ (sn_initial + 63)).
Proof.
  intros H. unfold sw_handling_antireplay, WINDOW_SIZE.
  assert (u32 (u32 sn_initial + 64 - 1) = sn_initial + 63) as E.
  { rewrite (uwrap_id 32 sn_initial), uwrap_id; unfold in_width; lia. }
  split; cbn; rewrite ?E; try done; try lia.
  intros i Hi. rewrite Z.bits_0. symmetry. apply bool_decide_eq_false_2. set_solver.
Qed.

(** Running the specification. *)
Fixpoint ar_spec_run (sns : list Z) (s : ar_spec) : list Z * ar_spec :=
  match sns with
  | [] => ([], s)
  | sn :: rest =>
      let (s', drop) := ar_spec_step sn s in
      let (acc, final) := ar_spec_run rest s' in
      ((if drop then acc else sn :: acc), final)
  end.

Lemma anti_replay_run_refines sns st s :
  ar_refines st s -> Forall (in_width 32) sns ->
  exists st', anti_replay_run sns st = Ret (fst (ar_spec_run sns s), st')
    /\ ar_refines st' (snd (ar_spec_run sns s)).
Proof.
  intros R Hsns. revert st s R.
  induction Hsns as [|sn sns Hsn _ IH]; intros st s R; cbn [anti_replay_run ar_spec_run].
  - by exists st.
  - destruct (anti_replay_step st s R sn Hsn) as (st1 & E1 & R1).
    rewrite E1. cbn beta iota. destruct (ar_spec_step sn s) as [s1 d]. simpl in *.
    destruct (IH _ _ R1) as (st2 & E2 & R2). rewrite E2. cbn beta iota.
    destruct (ar_spec_run sns s1). by exists st2.
Qed.

(** What the specification lets through is new and pairwise different. *)
Lemma ar_spec_run_fresh sns s :
  NoDup (fst (ar_spec_run sns s))
  /\ forall n, n ∈ fst (ar_spec_run sns s) -> n ∉ accepted s /\ n ∈ sns.
Proof.
  revert s. induction sns as [|sn sns IH]; intros s; cbn [ar_spec_run].
  - split; [constructor|]. by intros n ?%elem_of_nil.
  - unfold ar_spec_step. case_bool_decide as Hd.
    + specialize (IH s). destruct (ar_spec_run sns s) as [acc f]. simpl in *.
      destruct IH as [? IH]. split; [done|]. intros n Hn. split; [by apply IH|].
      apply elem_of_cons. right. by apply IH.
    + specialize (IH (ARSpec ({[sn]} ∪ accepted s) (Z.max (right s) sn))).
      destruct (ar_spec_run sns _) as [acc f]. simpl in *. destruct IH as [Hnd IH].
      split.
      * constructor; [|done]. intros Hin. apply IH in Hin as [Hin _]. set_solver.
      * intros n [->|Hn]%elem_of_cons.
        -- split; [tauto|]. by left.
        -- apply IH in Hn as [Hn Hin]. split; [set_solver|]. by right.
Qed.

(** C8: [anti_replay] implements the specification by the set of accepted sequence
    numbers: from the state the gateway installs, every run returns (no shift is
    out of range) and lets through exactly the packets the specification does. *)
Theorem anti_replay_refines_spec sn_initial sns :
  0 <= sn_initial <= 2 ^ 32 - 64 -> Forall (in_width 32) sns ->
  exists st', anti_replay_run sns (sw_handling_antireplay sn_initial)
              = Ret (fst (ar_spec_run sns (ARSpec ∅ (sn_initial + 63))), st')
    /\ ar_refines st' (snd (ar_spec_run sns (ARSpec ∅ (sn_initial + 63)))).
Proof. intros Hi Hs. apply anti_replay_run_refines; [by apply ar_init|done]. Qed.

Lemma anti_replay_refines_spec_witness :
  exists st', anti_replay_run [100; 101; 100; 300; 200; 237; 236]
                (sw_handling_antireplay 100) = Ret ([100; 101; 300; 237], st').
Proof.
  destruct (anti_replay_refines_spec 100 [100; 101; 100; 300; 200; 237; 236]) as (st & E & _).
  - lia.
  - repeat constructor; vm_compute; congruence.
  - exists st. rewrite E. vm_compute. reflexivity.
Defined.

(** No replay: a run of the check never lets the same sequence number through
    twice, and lets through only numbers that arrived. *)
Theorem anti_replay_no_duplicates sn_initial sns acc st' :
  0 <= sn_initial <= 2 ^ 32 - 64 -> Forall (in_width 32) sns ->
  anti_replay_run sns (sw_handling_antireplay sn_initial) = Ret (acc, st') ->
  NoDup acc /\ forall n, n ∈ acc -> n ∈ sns.
Proof.
  intros Hi Hs Hrun.
  destruct (anti_replay_run_refines sns _ _ (ar_init _ Hi) Hs) as (st2 & E & _).
  rewrite E in Hrun. injection Hrun as <- _.
  destruct (ar_spec_run_fresh sns (ARSpec ∅ (sn_initial + 63))) as [? H]. split; [done|].
  intros n Hn. by apply H.
Qed.

Lemma anti_replay_no_duplicates_witness :
  exists acc st', anti_replay_run [7; 7; 80; 7; 80; 81] (sw_handling_antireplay 1) = Ret (acc, st')
    /\ NoDup acc.
Proof.
  do 2 eexists. split; [vm_compute; reflexivity|].
  refine (proj1 (anti_replay_no_duplicates 1 [7; 7; 80; 7; 80; 81] _ _ _ _ _)).
  - lia.
  - repeat constructor; vm_compute; congruence.
  - vm_compute. reflexivity.
Defined.
