(* ===== verification/FlowTypes.v ===== *)
(** * DOCA Flow structures (include/doca_flow.h, include/doca_flow_net.h)

    The structures the command parser fills.  Members that no modelled function
    reads or writes (other than zeroing the whole structure) are left out.
    Unions are raw little-endian storage with the members at their offsets, so
    that writing one member is visible through the others as in C. *)
From S2P Require Import Prelude.

Inductive doca_flow_l3_type : Type :=
| DOCA_FLOW_L3_TYPE_NONE | DOCA_FLOW_L3_TYPE_IP4 | DOCA_FLOW_L3_TYPE_IP6.

Inductive doca_flow_l4_type_ext : Type :=
| DOCA_FLOW_L4_TYPE_EXT_NONE | DOCA_FLOW_L4_TYPE_EXT_TCP | DOCA_FLOW_L4_TYPE_EXT_UDP
| DOCA_FLOW_L4_TYPE_EXT_ICMP | DOCA_FLOW_L4_TYPE_EXT_ICMP6
| DOCA_FLOW_L4_TYPE_EXT_TRANSPORT.

Inductive doca_flow_tun_type : Type :=
| DOCA_FLOW_TUN_NONE | DOCA_FLOW_TUN_VXLAN | DOCA_FLOW_TUN_GTPU | DOCA_FLOW_TUN_GRE
| DOCA_FLOW_TUN_ESP | DOCA_FLOW_TUN_MPLS_O_UDP | DOCA_FLOW_TUN_GENEVE
| DOCA_FLOW_TUN_PSP | DOCA_FLOW_TUN_MAX.

Inductive doca_flow_fwd_type : Type :=
| DOCA_FLOW_FWD_NONE | DOCA_FLOW_FWD_RSS | DOCA_FLOW_FWD_PORT | DOCA_FLOW_FWD_PIPE
| DOCA_FLOW_FWD_DROP | DOCA_FLOW_FWD_TARGET | DOCA_FLOW_FWD_ORDERED_LIST_PIPE
| DOCA_FLOW_FWD_CHANGEABLE.

Inductive doca_flow_pipe_type : Type :=
| DOCA_FLOW_PIPE_BASIC | DOCA_FLOW_PIPE_CONTROL | DOCA_FLOW_PIPE_LPM | DOCA_FLOW_PIPE_CT
| DOCA_FLOW_PIPE_ACL | DOCA_FLOW_PIPE_ORDERED_LIST | DOCA_FLOW_PIPE_HASH.

Inductive doca_flow_resource_type : Type :=
| DOCA_FLOW_RESOURCE_TYPE_NONE | DOCA_FLOW_RESOURCE_TYPE_SHARED
| DOCA_FLOW_RESOURCE_TYPE_NON_SHARED.

Definition DOCA_FLOW_NO_WAIT : Z := 0.

Inductive doca_flow_entry_op : Type :=
| DOCA_FLOW_ENTRY_OP_ADD | DOCA_FLOW_ENTRY_OP_DEL | DOCA_FLOW_ENTRY_OP_UPD
| DOCA_FLOW_ENTRY_OP_AGED.

#[export] Instance entry_op_eq_dec : EqDecision doca_flow_entry_op.
Proof. solve_decision. Defined.

(** The types the parser of the device finds in a packet. *)
Inductive doca_flow_l3_meta : Type :=
| DOCA_FLOW_L3_META_NONE | DOCA_FLOW_L3_META_IPV4 | DOCA_FLOW_L3_META_IPV6.

Inductive doca_flow_l4_meta : Type :=
| DOCA_FLOW_L4_META_NONE | DOCA_FLOW_L4_META_TCP | DOCA_FLOW_L4_META_UDP
| DOCA_FLOW_L4_META_ICMP | DOCA_FLOW_L4_META_ESP.

#[export] Instance l3_meta_eq_dec : EqDecision doca_flow_l3_meta.
Proof. solve_decision. Defined.
#[export] Instance l4_meta_eq_dec : EqDecision doca_flow_l4_meta.
Proof. solve_decision. Defined.
#[export] Instance l3_type_eq_dec : EqDecision doca_flow_l3_type.
Proof. solve_decision. Defined.
#[export] Instance l4_type_ext_eq_dec : EqDecision doca_flow_l4_type_ext.
Proof. solve_decision. Defined.
#[export] Instance tun_type_eq_dec : EqDecision doca_flow_tun_type.
Proof. solve_decision. Defined.
#[export] Instance fwd_type_eq_dec : EqDecision doca_flow_fwd_type.
Proof. solve_decision. Defined.
#[export] Instance pipe_type_eq_dec : EqDecision doca_flow_pipe_type.
Proof. solve_decision. Defined.
#[export] Instance resource_type_eq_dec : EqDecision doca_flow_resource_type.
Proof. solve_decision. Defined.

(** ** Headers *)

(** [struct doca_flow_header_format].  [l3] is the union of the IPv4 and IPv6
    headers (44 bytes), [l4] the union of the transport headers (6 bytes). *)
Record doca_flow_header_format : Type := HeaderFormat {
  src_mac : list Z;
  dst_mac : list Z;
  eth_type : Z;
  eth_vlan : list Z;
  l3_type : doca_flow_l3_type;
  l3 : list Z;
  l4_type_ext : doca_flow_l4_type_ext;
  l4 : list Z;
}.

Definition header_zero : doca_flow_header_format :=
  HeaderFormat (replicate 6 0) (replicate 6 0) 0 (replicate 2 0)
    DOCA_FLOW_L3_TYPE_NONE (replicate 44 0) DOCA_FLOW_L4_TYPE_EXT_NONE (replicate 6 0).

Definition set_src_mac (v : list Z) (h : doca_flow_header_format) :=
  HeaderFormat v (dst_mac h) (eth_type h) (eth_vlan h) (l3_type h) (l3 h) (l4_type_ext h) (l4 h).
Definition set_dst_mac (v : list Z) (h : doca_flow_header_format) :=
  HeaderFormat (src_mac h) v (eth_type h) (eth_vlan h) (l3_type h) (l3 h) (l4_type_ext h) (l4 h).
Definition set_eth_type (v : Z) (h : doca_flow_header_format) :=
  HeaderFormat (src_mac h) (dst_mac h) v (eth_vlan h) (l3_type h) (l3 h) (l4_type_ext h) (l4 h).
Definition set_vlan_tci (i : nat) (v : Z) (h : doca_flow_header_format) :=
  HeaderFormat (src_mac h) (dst_mac h) (eth_type h) (<[i := v]> (eth_vlan h)) (l3_type h) (l3 h)
    (l4_type_ext h) (l4 h).
Definition set_l3_type (v : doca_flow_l3_type) (h : doca_flow_header_format) :=
  HeaderFormat (src_mac h) (dst_mac h) (eth_type h) (eth_vlan h) v (l3 h) (l4_type_ext h) (l4 h).
Definition set_l3 (v : list Z) (h : doca_flow_header_format) :=
  HeaderFormat (src_mac h) (dst_mac h) (eth_type h) (eth_vlan h) (l3_type h) v (l4_type_ext h) (l4 h).
Definition set_l4_type_ext (v : doca_flow_l4_type_ext) (h : doca_flow_header_format) :=
  HeaderFormat (src_mac h) (dst_mac h) (eth_type h) (eth_vlan h) (l3_type h) (l3 h) v (l4 h).
Definition set_l4 (v : list Z) (h : doca_flow_header_format) :=
  HeaderFormat (src_mac h) (dst_mac h) (eth_type h) (eth_vlan h) (l3_type h) (l3 h) (l4_type_ext h) v.

(** Members of the [l3] union: [ip4.src_ip], [ip4.dst_ip], [ip4.ttl] and the four
    words of [ip6.src_ip] and [ip6.dst_ip]. *)
Definition ip4_src_ip (h : doca_flow_header_format) : Z := load 0 4 (l3 h).
Definition ip4_dst_ip (h : doca_flow_header_format) : Z := load 4 4 (l3 h).
Definition ip4_ttl (h : doca_flow_header_format) : Z := load 17 1 (l3 h).
Definition ip6_src_ip (i : nat) (h : doca_flow_header_format) : Z := load (4 * i) 4 (l3 h).
Definition ip6_dst_ip (i : nat) (h : doca_flow_header_format) : Z := load (16 + 4 * i) 4 (l3 h).

Definition set_ip4_src_ip (v : Z) (h : doca_flow_header_format) := set_l3 (store 0 4 v (l3 h)) h.
Definition set_ip4_dst_ip (v : Z) (h : doca_flow_header_format) := set_l3 (store 4 4 v (l3 h)) h.
Definition set_ip4_ttl (v : Z) (h : doca_flow_header_format) := set_l3 (store 17 1 v (l3 h)) h.
Definition set_ip6_src_ip (i : nat) (v : Z) (h : doca_flow_header_format) :=
  set_l3 (store (4 * i) 4 v (l3 h)) h.
Definition set_ip6_dst_ip (i : nat) (v : Z) (h : doca_flow_header_format) :=
  set_l3 (store (16 + 4 * i) 4 v (l3 h)) h.

(** Members of the [l4] union: [tcp.l4_port] and [udp.l4_port] share the first
    four bytes, [tcp.flags] is the sixth. *)
Definition l4_src_port (h : doca_flow_header_format) : Z := load 0 2 (l4 h).
Definition l4_dst_port (h : doca_flow_header_format) : Z := load 2 2 (l4 h).
Definition tcp_flags (h : doca_flow_header_format) : Z := load 5 1 (l4 h).
Definition set_tcp_src_port (v : Z) (h : doca_flow_header_format) := set_l4 (store 0 2 v (l4 h)) h.
Definition set_tcp_dst_port (v : Z) (h : doca_flow_header_format) := set_l4 (store 2 2 v (l4 h)) h.
Definition set_udp_src_port (v : Z) (h : doca_flow_header_format) := set_l4 (store 0 2 v (l4 h)) h.
Definition set_udp_dst_port (v : Z) (h : doca_flow_header_format) := set_l4 (store 2 2 v (l4 h)) h.
Definition set_tcp_flags (v : Z) (h : doca_flow_header_format) := set_l4 (store 5 1 v (l4 h)) h.

(** ** Tunnels: the first 16 bytes of the union hold every member used here *)

Record doca_flow_tun : Type := Tun { tun_type : doca_flow_tun_type; tun_raw : list Z }.

Definition tun_zero : doca_flow_tun := Tun DOCA_FLOW_TUN_NONE (replicate 16 0).

Definition vxlan_tun_id (t : doca_flow_tun) : Z := load 8 4 (tun_raw t).
Definition gre_key (t : doca_flow_tun) : Z := load 12 4 (tun_raw t).
Definition gtp_teid (t : doca_flow_tun) : Z := load 0 4 (tun_raw t).
Definition set_tun_type (v : doca_flow_tun_type) (t : doca_flow_tun) := Tun v (tun_raw t).
Definition set_vxlan_tun_id (v : Z) (t : doca_flow_tun) := Tun (tun_type t) (store 8 4 v (tun_raw t)).
Definition set_gre_key (v : Z) (t : doca_flow_tun) := Tun (tun_type t) (store 12 4 v (tun_raw t)).
Definition set_gtp_teid (v : Z) (t : doca_flow_tun) := Tun (tun_type t) (store 0 4 v (tun_raw t)).

(** ** Match, actions, monitor and forward *)

(** [port_meta], [meta_l3] and [meta_l4] are the members of [parser_meta] in use. *)
Record doca_flow_match : Type := Match {
  match_flags : Z;
  port_meta : Z;
  meta_l3 : doca_flow_l3_meta;
  meta_l4 : doca_flow_l4_meta;
  outer : doca_flow_header_format;
  match_tun : doca_flow_tun;
  inner : doca_flow_header_format;
}.

Definition match_zero : doca_flow_match :=
  Match 0 0 DOCA_FLOW_L3_META_NONE DOCA_FLOW_L4_META_NONE header_zero tun_zero header_zero.

Definition set_match_flags (v : Z) (m : doca_flow_match) :=
  Match v (port_meta m) (meta_l3 m) (meta_l4 m) (outer m) (match_tun m) (inner m).
Definition set_port_meta (v : Z) (m : doca_flow_match) :=
  Match (match_flags m) v (meta_l3 m) (meta_l4 m) (outer m) (match_tun m) (inner m).
Definition set_meta_l3 (v : doca_flow_l3_meta) (m : doca_flow_match) :=
  Match (match_flags m) (port_meta m) v (meta_l4 m) (outer m) (match_tun m) (inner m).
Definition set_meta_l4 (v : doca_flow_l4_meta) (m : doca_flow_match) :=
  Match (match_flags m) (port_meta m) (meta_l3 m) v (outer m) (match_tun m) (inner m).
Definition on_outer (f : doca_flow_header_format -> doca_flow_header_format) (m : doca_flow_match) :=
  Match (match_flags m) (port_meta m) (meta_l3 m) (meta_l4 m) (f (outer m)) (match_tun m) (inner m).
Definition on_match_tun (f : doca_flow_tun -> doca_flow_tun) (m : doca_flow_match) :=
  Match (match_flags m) (port_meta m) (meta_l3 m) (meta_l4 m) (outer m) (f (match_tun m)) (inner m).
Definition on_inner (f : doca_flow_header_format -> doca_flow_header_format) (m : doca_flow_match) :=
  Match (match_flags m) (port_meta m) (meta_l3 m) (meta_l4 m) (outer m) (match_tun m) (f (inner m)).

(** [outer] and [encap_cfg.encap] of [struct doca_flow_actions]. *)
Record doca_flow_actions : Type := Actions {
  act_outer : doca_flow_header_format;
  encap_outer : doca_flow_header_format;
  encap_tun : doca_flow_tun;
}.

Definition actions_zero : doca_flow_actions := Actions header_zero header_zero tun_zero.

Definition on_act_outer (f : doca_flow_header_format -> doca_flow_header_format)
  (a : doca_flow_actions) := Actions (f (act_outer a)) (encap_outer a) (encap_tun a).
Definition on_encap_outer (f : doca_flow_header_format -> doca_flow_header_format)
  (a : doca_flow_actions) := Actions (act_outer a) (f (encap_outer a)) (encap_tun a).
Definition on_encap_tun (f : doca_flow_tun -> doca_flow_tun)
  (a : doca_flow_actions) := Actions (act_outer a) (encap_outer a) (f (encap_tun a)).

Record doca_flow_monitor : Type := Monitor {
  meter_type : doca_flow_resource_type;
  cir : Z;
  cbs : Z;
  counter_type : doca_flow_resource_type;
  aging_sec : Z;
}.

Definition monitor_zero : doca_flow_monitor :=
  Monitor DOCA_FLOW_RESOURCE_TYPE_NONE 0 0 DOCA_FLOW_RESOURCE_TYPE_NONE 0.

(** [struct doca_flow_fwd]: the union holds the RSS configuration
    ([rss_outer_flags], [rss_inner_flags], [rss_queues], [num_of_queues], ...),
    [port_id] and [next_pipe]. *)
Record doca_flow_fwd : Type := Fwd { fwd_type : doca_flow_fwd_type; fwd_raw : list Z }.

Definition fwd_zero : doca_flow_fwd := Fwd DOCA_FLOW_FWD_NONE (replicate 32 0).

Definition rss_outer_flags (f : doca_flow_fwd) : Z := load 0 4 (fwd_raw f).
Definition rss_inner_flags (f : doca_flow_fwd) : Z := load 4 4 (fwd_raw f).
Definition fwd_rss_queues (f : doca_flow_fwd) : Z := load 8 8 (fwd_raw f).
Definition num_of_queues (f : doca_flow_fwd) : Z := i32 (load 16 4 (fwd_raw f)).
Definition fwd_port_id (f : doca_flow_fwd) : Z := load 0 2 (fwd_raw f).
Definition next_pipe (f : doca_flow_fwd) : Z := load 0 8 (fwd_raw f).
Definition set_fwd_type (v : doca_flow_fwd_type) (f : doca_flow_fwd) := Fwd v (fwd_raw f).
Definition set_rss_outer_flags (v : Z) (f : doca_flow_fwd) := Fwd (fwd_type f) (store 0 4 v (fwd_raw f)).
Definition set_rss_inner_flags (v : Z) (f : doca_flow_fwd) := Fwd (fwd_type f) (store 4 4 v (fwd_raw f)).
Definition set_fwd_rss_queues (v : Z) (f : doca_flow_fwd) := Fwd (fwd_type f) (store 8 8 v (fwd_raw f)).
Definition set_num_of_queues (v : Z) (f : doca_flow_fwd) := Fwd (fwd_type f) (store 16 4 v (fwd_raw f)).
Definition set_fwd_port_id (v : Z) (f : doca_flow_fwd) := Fwd (fwd_type f) (store 0 2 v (fwd_raw f)).
Definition set_next_pipe (v : Z) (f : doca_flow_fwd) := Fwd (fwd_type f) (store 0 8 v (fwd_raw f)).

(** ** Well-formedness: the storage has its C size *)

Record header_wf (h : doca_flow_header_format) : Prop := {
  wf_src_mac : length (src_mac h) = 6%nat;
  wf_dst_mac : length (dst_mac h) = 6%nat;
  wf_vlan : length (eth_vlan h) = 2%nat;
  wf_l3 : length (l3 h) = 44%nat;
  wf_l4 : length (l4 h) = 6%nat;
}.

Definition tun_wf (t : doca_flow_tun) : Prop := length (tun_raw t) = 16%nat.

Record match_wf (m : doca_flow_match) : Prop := {
  wf_outer : header_wf (outer m);
  wf_tun : tun_wf (match_tun m);
  wf_inner : header_wf (inner m);
}.

Record actions_wf (a : doca_flow_actions) : Prop := {
  wf_act_outer : header_wf (act_outer a);
  wf_encap_outer : header_wf (encap_outer a);
  wf_encap_tun : tun_wf (encap_tun a);
}.

Definition fwd_wf (f : doca_flow_fwd) : Prop := length (fwd_raw f) = 32%nat.

(** Updates keep the sizes. *)
#[global] Opaque store load.

Ltac wf_update :=
  intros;
  try match goal with H : header_wf _ |- _ => destruct H end;
  unfold tun_wf, fwd_wf in *;
  try apply Build_header_wf; cbn;
  rewrite ?length_store, ?length_insert by lia; assumption.

Lemma header_zero_wf : header_wf header_zero.
Proof. apply Build_header_wf; reflexivity. Qed.

Section updates.
Context (h : doca_flow_header_format) (Hh : header_wf h).

Lemma set_src_mac_wf v : length v = 6%nat -> header_wf (set_src_mac v h).
Proof using Hh. wf_update. Qed.
Lemma set_dst_mac_wf v : length v = 6%nat -> header_wf (set_dst_mac v h).
Proof using Hh. wf_update. Qed.
Lemma set_eth_type_wf v : header_wf (set_eth_type v h).
Proof using Hh. wf_update. Qed.
Lemma set_vlan_tci_wf i v : header_wf (set_vlan_tci i v h).
Proof using Hh. wf_update. Qed.
Lemma set_l3_type_wf v : header_wf (set_l3_type v h).
Proof using Hh. wf_update. Qed.
Lemma set_l4_type_ext_wf v : header_wf (set_l4_type_ext v h).
Proof using Hh. wf_update. Qed.
Lemma set_ip4_src_ip_wf v : header_wf (set_ip4_src_ip v h).
Proof using Hh. wf_update. Qed.
Lemma set_ip4_dst_ip_wf v : header_wf (set_ip4_dst_ip v h).
Proof using Hh. wf_update. Qed.
Lemma set_ip4_ttl_wf v : header_wf (set_ip4_ttl v h).
Proof using Hh. wf_update. Qed.
Lemma set_tcp_src_port_wf v : header_wf (set_tcp_src_port v h).
Proof using Hh. wf_update. Qed.
Lemma set_tcp_dst_port_wf v : header_wf (set_tcp_dst_port v h).
Proof using Hh. wf_update. Qed.
Lemma set_udp_src_port_wf v : header_wf (set_udp_src_port v h).
Proof using Hh. wf_update. Qed.
Lemma set_udp_dst_port_wf v : header_wf (set_udp_dst_port v h).
Proof using Hh. wf_update. Qed.
Lemma set_tcp_flags_wf v : header_wf (set_tcp_flags v h).
Proof using Hh. wf_update. Qed.
Lemma set_ip6_src_ip_wf i v : (i < 4)%nat -> header_wf (set_ip6_src_ip i v h).
Proof using Hh. wf_update. Qed.
Lemma set_ip6_dst_ip_wf i v : (i < 4)%nat -> header_wf (set_ip6_dst_ip i v h).
Proof using Hh. wf_update. Qed.
End updates.

#[export] Hint Resolve header_zero_wf set_src_mac_wf set_dst_mac_wf set_eth_type_wf
  set_vlan_tci_wf set_l3_type_wf set_l4_type_ext_wf set_ip4_src_ip_wf set_ip4_dst_ip_wf
  set_ip4_ttl_wf set_tcp_src_port_wf set_tcp_dst_port_wf set_udp_src_port_wf
  set_udp_dst_port_wf set_tcp_flags_wf set_ip6_src_ip_wf set_ip6_dst_ip_wf : doca.

Section tun_updates.
Context (t : doca_flow_tun) (Ht : tun_wf t).
Lemma set_tun_type_wf v : tun_wf (set_tun_type v t).
Proof using Ht. done. Qed.
Lemma set_vxlan_tun_id_wf v : tun_wf (set_vxlan_tun_id v t).
Proof using Ht. wf_update. Qed.
Lemma set_gre_key_wf v : tun_wf (set_gre_key v t).
Proof using Ht. wf_update. Qed.
Lemma set_gtp_teid_wf v : tun_wf (set_gtp_teid v t).
Proof using Ht. wf_update. Qed.
End tun_updates.

#[export] Hint Resolve set_tun_type_wf set_vxlan_tun_id_wf set_gre_key_wf set_gtp_teid_wf : doca.

Lemma on_outer_wf f m :
  match_wf m -> (header_wf (outer m) -> header_wf (f (outer m))) -> match_wf (on_outer f m).
Proof. intros [] Hf. split; cbn; auto. Qed.
Lemma on_inner_wf f m :
  match_wf m -> (header_wf (inner m) -> header_wf (f (inner m))) -> match_wf (on_inner f m).
Proof. intros [] Hf. split; cbn; auto. Qed.
Lemma on_match_tun_wf f m :
  match_wf m -> (tun_wf (match_tun m) -> tun_wf (f (match_tun m))) -> match_wf (on_match_tun f m).
Proof. intros [] Hf. split; cbn; auto. Qed.
Lemma on_act_outer_wf f a :
  actions_wf a -> (header_wf (act_outer a) -> header_wf (f (act_outer a))) ->
  actions_wf (on_act_outer f a).
Proof. intros [] Hf. split; cbn; auto. Qed.
Lemma on_encap_outer_wf f a :
  actions_wf a -> (header_wf (encap_outer a) -> header_wf (f (encap_outer a))) ->
  actions_wf (on_encap_outer f a).
Proof. intros [] Hf. split; cbn; auto. Qed.
Lemma on_encap_tun_wf f a :
  actions_wf a -> (tun_wf (encap_tun a) -> tun_wf (f (encap_tun a))) ->
  actions_wf (on_encap_tun f a).
Proof. intros [] Hf. split; cbn; auto. Qed.
Lemma set_match_flags_wf v m : match_wf m -> match_wf (set_match_flags v m).
Proof. intros []. by apply Build_match_wf. Qed.
Lemma set_port_meta_wf v m : match_wf m -> match_wf (set_port_meta v m).
Proof. intros []. by apply Build_match_wf. Qed.
Lemma match_zero_wf : match_wf match_zero.
Proof. apply Build_match_wf; [apply header_zero_wf | reflexivity | apply header_zero_wf]. Qed.
Lemma actions_zero_wf : actions_wf actions_zero.
Proof. apply Build_actions_wf; [apply header_zero_wf .. | reflexivity]. Qed.

#[export] Hint Resolve on_outer_wf on_inner_wf on_match_tun_wf on_act_outer_wf on_encap_outer_wf
  on_encap_tun_wf set_match_flags_wf set_port_meta_wf match_zero_wf actions_zero_wf : doca.
