(* ===== verification/FlowValues.v ===== *)
(** * Value parsers of the flow command line (applications/common/flow_parser.c)

    The functions that turn one textual value into a number, an address or an
    enumerator.  [res] is the result of a function that writes its out-parameter
    only on success; the functions that fill an array return the array with the
    code, because a failing call leaves the elements written so far. *)
From S2P Require Import Prelude CString FlowTypes.

Definition MAC_ADDR_LEN : nat := 6.
Definition IP_ADDR_LEN : nat := 4.
Definition HEXADECIMAL_BASE : Z := 1.
Definition UINT32_CHANGEABLE_FIELD : list ascii := lit "0xffffffff".

(** The string a [char *] argument designates. *)
Definition c_str (p : list ascii) : outcome (list ascii) := of_option OutOfBounds (cstr_of p).

(** ** Numbers and addresses *)

(** Signed overflow of the shifts and sums wraps, as the compilers the
    applications are built with define it. *)
Definition BE_IPV4_ADDR (a b c d : Z) : Z :=
  bswap 4 (u32 (Z.shiftl a 24 + Z.shiftl b 16 + Z.shiftl c 8 + d)).

(** The loop of [parse_ipv4_str]: the numbers read and the text after the last dot. *)
Fixpoint parse_ipv4_loop (n : nat) (str_ip : list ascii) (ips : list Z)
    : option (list Z * list ascii) :=
  match n with
  | O => Some (ips, str_ip)
  | S n' =>
      match strchr str_ip "."%char with
      | None => None
      | Some ptr => parse_ipv4_loop n' (drop 1 ptr) (ips ++ [atoi str_ip])
      end
  end.

Definition parse_ipv4_str (str_ip : list ascii) : res Z :=
  if streq str_ip UINT32_CHANGEABLE_FIELD then Ok UINT32_MAX
  else
    match parse_ipv4_loop 3 str_ip [] with
    | Some ([a; b; c], ptr) => Ok (BE_IPV4_ADDR a b c (atoi ptr))
    | _ => Err DOCA_ERROR_INVALID_VALUE
    end.

Definition parse_pipe_id_input (pipe_id_str : list ascii) : res Z :=
  if strneq 8 pipe_id_str (lit "pipe_id=") then Ok (fst (strtoull (drop 8 pipe_id_str) 0))
  else Err DOCA_ERROR_INVALID_VALUE.

Definition parse_port_id_input (port_id_str : list ascii) : res Z :=
  if strneq 8 port_id_str (lit "port_id=") then Ok (i32 (fst (strtol (drop 8 port_id_str) 0)))
  else Err DOCA_ERROR_INVALID_VALUE.

(** ** Enumerators *)

Definition parse_protocol_string (protocol_str : list ascii) : res doca_flow_l4_type_ext :=
  if streq protocol_str (lit "tcp") then Ok DOCA_FLOW_L4_TYPE_EXT_TCP
  else if streq protocol_str (lit "udp") then Ok DOCA_FLOW_L4_TYPE_EXT_UDP
  else Err DOCA_ERROR_INVALID_VALUE.

Definition parse_tun_type_string (tun_type_str : list ascii) : res doca_flow_tun_type :=
  if streq tun_type_str (lit "vxlan") then Ok DOCA_FLOW_TUN_VXLAN
  else if streq tun_type_str (lit "gtpu") then Ok DOCA_FLOW_TUN_GTPU
  else if streq tun_type_str (lit "gre") then Ok DOCA_FLOW_TUN_GRE
  else Err DOCA_ERROR_INVALID_VALUE.

Definition parse_fwd_type (fwd_str : list ascii) : res doca_flow_fwd_type :=
  if streq fwd_str (lit "rss") then Ok DOCA_FLOW_FWD_RSS
  else if streq fwd_str (lit "port") then Ok DOCA_FLOW_FWD_PORT
  else if streq fwd_str (lit "pipe") then Ok DOCA_FLOW_FWD_PIPE
  else if streq fwd_str (lit "drop") then Ok DOCA_FLOW_FWD_DROP
  else Err DOCA_ERROR_INVALID_VALUE.

Definition parse_ip_type (ip_type_str : list ascii) : res doca_flow_l3_type :=
  if streq ip_type_str (lit "ipv4") then Ok DOCA_FLOW_L3_TYPE_IP4
  else if streq ip_type_str (lit "ipv6") then Ok DOCA_FLOW_L3_TYPE_IP6
  else Err DOCA_ERROR_INVALID_VALUE.

Definition parse_l3_type (l3_type_str : list ascii) : res doca_flow_l3_type :=
  if streq l3_type_str (lit "ipv4") then Ok DOCA_FLOW_L3_TYPE_IP4
  else if streq l3_type_str (lit "ipv6") then Ok DOCA_FLOW_L3_TYPE_IP6
  else Err DOCA_ERROR_INVALID_VALUE.

(** [DOCA_FLOW_MATCH_TCP_FLAG_*] are the bits 0 to 7 in this order. *)
Definition parse_tcp_flag_string (tcp_flag_str : list ascii) : res Z :=
  if streq tcp_flag_str (lit "FIN") then Ok (Z.shiftl 1 0)
  else if streq tcp_flag_str (lit "SYN") then Ok (Z.shiftl 1 1)
  else if streq tcp_flag_str (lit "RST") then Ok (Z.shiftl 1 2)
  else if streq tcp_flag_str (lit "PSH") then Ok (Z.shiftl 1 3)
  else if streq tcp_flag_str (lit "ACK") then Ok (Z.shiftl 1 4)
  else if streq tcp_flag_str (lit "URG") then Ok (Z.shiftl 1 5)
  else if streq tcp_flag_str (lit "ECE") then Ok (Z.shiftl 1 6)
  else if streq tcp_flag_str (lit "CWR") then Ok (Z.shiftl 1 7)
  else Err DOCA_ERROR_INVALID_VALUE.

(** ** MAC and IPv6 addresses *)

(** The loop of [parse_mac_address] from index [i]; the remaining text on success. *)
Fixpoint parse_mac_loop (n i : nat) (mac_addr_str : list ascii) (mac_addr : list Z)
    : list Z * option (list ascii) :=
  match n with
  | O => (mac_addr, Some mac_addr_str)
  | S n' =>
      let mac_addr := <[i := u8 (fst (strtol mac_addr_str HEXADECIMAL_BASE))]> mac_addr in
      match strchr mac_addr_str ":"%char with
      | Some ptr => parse_mac_loop n' (S i) (drop 1 ptr) mac_addr
      | None => (mac_addr, None)
      end
  end.

Definition parse_mac_address (mac_addr_str : list ascii) (mac_addr : list Z)
    : list Z * doca_error_t :=
  match parse_mac_loop (MAC_ADDR_LEN - 1) 0 mac_addr_str mac_addr with
  | (mac_addr, Some ptr) =>
      (<[(MAC_ADDR_LEN - 1)%nat := u8 (fst (strtol ptr HEXADECIMAL_BASE))]> mac_addr, DOCA_SUCCESS)
  | (mac_addr, None) => (mac_addr, DOCA_ERROR_INVALID_VALUE)
  end.

(** One step of the inner loop of [parse_ipv6_str]: [ptr] is the local variable,
    [None] while it is indeterminate; a stored end pointer is never null. *)
Definition ipv6_group (str_ip : list ascii) (ptr : option (list ascii))
    : outcome (Z * list ascii * option (list ascii)) :=
  let* s := c_str str_ip in
  let '(v, stored) := strtol s HEXADECIMAL_BASE in
  let ptr := match stored with
             | Some rest => Some (drop (length s - length rest) str_ip)
             | None => ptr
             end in
  let* p := of_option Uninitialised ptr in
  Ret (i32 v, drop 1 p, Some (drop 1 p)).

Fixpoint parse_ipv6_loop (n i : nat) (str_ip : list ascii) (ptr : option (list ascii))
    (ipv6_addr : list Z) : outcome (list Z) :=
  match n with
  | O => Ret ipv6_addr
  | S n' =>
      let* (hi, str_ip, ptr) := ipv6_group str_ip ptr in
      let* (lo, str_ip, ptr) := ipv6_group str_ip ptr in
      parse_ipv6_loop n' (S i) str_ip ptr
        (<[i := bswap 4 (u32 (Z.shiftl hi 16 + lo))]> ipv6_addr)
  end.

Definition parse_ipv6_str (str_ip : list ascii) (ipv6_addr : list Z)
    : outcome (list Z * doca_error_t) :=
  let* a := parse_ipv6_loop IP_ADDR_LEN 0 str_ip None ipv6_addr in
  Ret (a, DOCA_SUCCESS).

(** ** RSS queues: the heap block behind the global [rss_queues] *)

(** [rss_queues] is a heap address (0 is the null pointer); a block is the list
    of its 16-bit elements, [None] while an element is indeterminate. *)
Record rss_mem : Type := RssMem {
  rss_queues : Z;
  blocks : gmap Z (list (option Z));
  next_addr : Z;
}.

Definition rss_mem_init : rss_mem := RssMem 0 ∅ 1.

Section rss.
(** Whether the allocator serves a request of that many bytes. *)
Context (malloc_ok : Z -> bool).

Definition free_rss (m : rss_mem) : outcome rss_mem :=
  if rss_queues m =? 0 then Ret m
  else match blocks m !! rss_queues m with
       | Some _ => Ret (RssMem (rss_queues m) (delete (rss_queues m) (blocks m)) (next_addr m))
       | None => Undef DanglingPointer
       end.

Definition malloc_rss (n : Z) (m : rss_mem) : rss_mem :=
  if malloc_ok (u64 (2 * n))
  then RssMem (next_addr m) (<[next_addr m := replicate (Z.to_nat n) None]> (blocks m))
         (next_addr m + 1)
  else RssMem 0 (blocks m) (next_addr m).

(** [rss_queues[i] = v]. *)
Definition set_rss (i v : Z) (m : rss_mem) : outcome rss_mem :=
  match blocks m !! rss_queues m with
  | Some b =>
      if (0 <=? i) && (i <? Z.of_nat (length b))
      then Ret (RssMem (rss_queues m) (<[rss_queues m := <[Z.to_nat i := Some (u16 v)]> b]> (blocks m))
                  (next_addr m))
      else Undef OutOfBounds
  | None => Undef DanglingPointer
  end.

Fixpoint rss_loop (n : nat) (i : Z) (str : list ascii) (m : rss_mem)
    : outcome (rss_mem * list ascii) :=
  match n with
  | O => Ret (m, str)
  | S n' =>
      let* s := c_str str in
      let* m := set_rss i (fst (strtol s 0)) m in
      rss_loop n' (i + 1) (drop 2 str) m
  end.

Definition parse_rss_queues (rss_queues_str : list ascii) (num_of_queues : Z) (m : rss_mem)
    : outcome (rss_mem * doca_error_t) :=
  let* m := free_rss m in
  let m := malloc_rss num_of_queues m in
  if rss_queues m =? 0 then Ret (m, DOCA_ERROR_NO_MEMORY)
  else
    let* (m, str) := rss_loop (Z.to_nat (num_of_queues - 1)) 0 rss_queues_str m in
    let* s := c_str str in
    let* m := set_rss (num_of_queues - 1) (fst (strtol s 0)) m in
    Ret (m, DOCA_SUCCESS).
End rss.

(** ** IPv4 *)

Definition dots (s : list ascii) : nat := count_occ Ascii.ascii_dec s "."%char.

(** The dotted rendering of an address. *)
Definition dotted (a b c d : Z) : list ascii :=
  dec a ++ "."%char :: dec b ++ "."%char :: dec c ++ "."%char :: dec d.

Lemma count_occ_not_elem (c : ascii) s : c ∉ s -> count_occ Ascii.ascii_dec s c = 0%nat.
Proof. rewrite list_elem_of_In. apply count_occ_not_In. Qed.

Lemma dots_strchr s p : strchr s "."%char = Some p -> dots s = S (dots (drop 1 p)).
Proof.
  intros (s1 & s2 & -> & Hs & ->)%strchr_some. unfold dots.
  rewrite count_occ_app, (count_occ_not_elem _ s1) by done. simpl. done.
Qed.

Lemma parse_ipv4_loop_some n s ips :
  is_Some (parse_ipv4_loop n s ips) <-> (n <= dots s)%nat.
Proof.
  revert s ips. induction n as [|n IH]; intros s ips; simpl.
  - split; [lia | by eexists].
  - destruct (strchr s "."%char) as [p|] eqn:E.
    + rewrite IH. apply dots_strchr in E. lia.
    + apply strchr_none in E. unfold dots. rewrite count_occ_not_elem by done.
      split; [by intros [? [=]] | lia].
Qed.

Lemma parse_ipv4_loop_length n s ips r p :
  parse_ipv4_loop n s ips = Some (r, p) -> length r = (n + length ips)%nat.
Proof.
  revert s ips. induction n as [|n IH]; intros s ips; simpl; [by intros [= -> ->]|].
  destruct (strchr s "."%char); [|done]. intros ->%IH. rewrite length_app. simpl. lia.
Qed.

(** The only accepted texts are the "changeable" literal and those with at
    least three dots; everything else is rejected with [INVALID_VALUE]. *)
Theorem parse_ipv4_str_accepts s :
  (exists v, parse_ipv4_str s = Ok v) <-> s = UINT32_CHANGEABLE_FIELD \/ (3 <= dots s)%nat.
Proof.
  unfold parse_ipv4_str. destruct (streq s UINT32_CHANGEABLE_FIELD) eqn:E.
  { apply streq_spec in E. split; [by left | by eexists]. }
  assert (s <> UINT32_CHANGEABLE_FIELD) as Hne by (intros H; apply streq_spec in H; congruence).
  pose proof (parse_ipv4_loop_some 3 s []) as Hsome.
  destruct (parse_ipv4_loop 3 s []) as [[r p]|] eqn:El.
  - apply parse_ipv4_loop_length in El.
    destruct r as [|a [|b [|c [|? ?]]]]; try discriminate El.
    split; [intros _; right; apply Hsome; by eexists | by eexists].
  - split; [by intros [? [=]] |].
    intros [?|Hd]; [done|]. apply Hsome in Hd as [? [=]].
Qed.

Lemma atoi_dot a s : in_width 8 a -> atoi (dec a ++ "."%char :: s) = a.
Proof. unfold in_width. intros. apply atoi_dec; [lia | vm_compute; congruence]. Qed.

Lemma strchr_dot a s : strchr (dec a ++ "."%char :: s) "."%char = Some ("."%char :: s).
Proof. apply strchr_app, not_in_dec. vm_compute. intros [? ?]. congruence. Qed.

Lemma le_bytes_bswap n z : le_bytes n (bswap n z) = rev (le_bytes n z).
Proof.
  unfold bswap. rewrite <-(le_bytes_le_value (rev (le_bytes n z))) at 2
    by (apply Forall_rev, le_bytes_range).
  by rewrite length_rev, length_le_bytes.
Qed.

Lemma BE_IPV4_ADDR_bytes a b c d :
  in_width 8 a -> in_width 8 b -> in_width 8 c -> in_width 8 d ->
  le_bytes 4 (BE_IPV4_ADDR a b c d) = [a; b; c; d].
Proof.
  unfold in_width, BE_IPV4_ADDR. intros. rewrite le_bytes_bswap.
  rewrite !Z.shiftl_mul_pow2 by lia.
  replace (u32 _) with (le_value [d; c; b; a]).
  - change 4%nat with (length [d; c; b; a]).
    rewrite le_bytes_le_value; [done|]. rewrite !Forall_cons, Forall_nil. unfold in_width. lia.
  - rewrite uwrap_id; unfold in_width; simpl; lia.
Qed.

Lemma parse_ipv4_dotted a b c d :
  in_width 8 a -> in_width 8 b -> in_width 8 c -> in_width 8 d ->
  parse_ipv4_str (dotted a b c d) = Ok (BE_IPV4_ADDR a b c d).
Proof.
  intros Ha Hb Hc Hd. unfold parse_ipv4_str.
  replace (streq (dotted a b c d) UINT32_CHANGEABLE_FIELD) with false.
  - unfold dotted. cbn [parse_ipv4_loop].
    do 3 (rewrite strchr_dot; cbn [drop app]; rewrite ?drop_0).
    rewrite !atoi_dot by done.
    rewrite <-(app_nil_r (dec d)), atoi_dec by (unfold in_width in *; done || lia). done.
  - symmetry. apply bool_decide_eq_false. intros E.
    assert ("."%char ∈ UINT32_CHANGEABLE_FIELD) as Hin.
    { rewrite <-E. unfold dotted. rewrite elem_of_app, elem_of_cons. by right; left. }
    vm_compute in Hin. repeat (apply elem_of_cons in Hin as [Hin|Hin]; [discriminate Hin|]).
    by apply elem_of_nil in Hin.
Qed.

(** An address printed in dotted form is read back: in memory the result holds
    the four numbers in network order. *)
Theorem parse_ipv4_str_dotted a b c d :
  in_width 8 a -> in_width 8 b -> in_width 8 c -> in_width 8 d ->
  exists v, parse_ipv4_str (dotted a b c d) = Ok v /\ le_bytes 4 v = [a; b; c; d].
Proof.
  intros. exists (BE_IPV4_ADDR a b c d).
  split; [by apply parse_ipv4_dotted | by apply BE_IPV4_ADDR_bytes].
Qed.

Lemma parse_ipv4_str_dotted_witness :
  exists v, parse_ipv4_str (dotted 192 168 0 1) = Ok v /\ le_bytes 4 v = [192; 168; 0; 1].
Proof. apply (parse_ipv4_str_dotted 192 168 0 1); by vm_compute. Defined.

(** ** MAC and IPv6: the base passed to [strtol] is not supported *)

Lemma strtol_hex s : strtol s HEXADECIMAL_BASE = (0, None).
Proof. done. Qed.

Lemma parse_mac_loop_spec n i s mac :
  fst (parse_mac_loop n i s mac) =
    foldl (fun m k => <[k := 0]> m) mac
      (seq i (Nat.min n (S (count_occ Ascii.ascii_dec s ":"%char))))
  /\ (is_Some (snd (parse_mac_loop n i s mac))
      <-> (n <= count_occ Ascii.ascii_dec s ":"%char)%nat).
Proof.
  revert i s mac. induction n as [|n IH]; intros i s mac.
  { simpl. split; [done | split; [lia | by eexists]]. }
  cbn [parse_mac_loop]. rewrite strtol_hex. cbn [fst]. change (u8 0) with 0.
  destruct (strchr s ":"%char) as [p|] eqn:E.
  - apply strchr_some in E as (s1 & s2 & -> & Hs & ->). cbn [drop]. rewrite drop_0.
    destruct (IH (S i) s2 (<[i := 0]> mac)) as [H1 H2]. rewrite H1, H2.
    rewrite count_occ_app, (count_occ_not_elem _ s1) by done. simpl. split; [done | lia].
  - apply strchr_none in E. rewrite count_occ_not_elem by done. simpl.
    rewrite Nat.min_0_r. simpl. split; [done|]. split; [by intros [? [=]] | lia].
Qed.

(** Whatever the text, an accepted MAC address is 00:00:00:00:00:00: [strtol] is
    called with base 1 and returns 0 for every group.  Acceptance only needs
    five colons. *)
Theorem parse_mac_address_spec s mac :
  length mac = MAC_ADDR_LEN ->
  if decide (5 <= count_occ Ascii.ascii_dec s ":"%char)%nat
  then parse_mac_address s mac = (replicate MAC_ADDR_LEN 0, DOCA_SUCCESS)
  else exists m, parse_mac_address s mac = (m, DOCA_ERROR_INVALID_VALUE) /\ length m = MAC_ADDR_LEN.
Proof.
  intros Hl. unfold parse_mac_address. change (MAC_ADDR_LEN - 1)%nat with 5%nat.
  destruct (parse_mac_loop_spec 5 0 s mac) as [H1 H2].
  destruct (parse_mac_loop 5 0 s mac) as [m [p|]]; cbn [fst snd] in *; case_decide as Hd.
  - rewrite strtol_hex, H1, Nat.min_l by lia. do 6 (destruct mac as [|? mac]; [done|]).
    by destruct mac.
  - destruct Hd. apply H2. by eexists.
  - apply H2 in Hd as [? [=]].
  - eexists. split; [done|]. rewrite H1.
    generalize (seq 0 (5 `min` S (count_occ Ascii.ascii_dec s ":"%char))). intros l.
    clear H1 H2 Hd. revert mac Hl. induction l as [|k l IH]; intros mac Hl; simpl; [done|].
    apply IH. by rewrite length_insert.
Qed.

Lemma parse_mac_address_spec_witness :
  parse_mac_address (lit "98:03:9b:aa:bb:cc") (replicate 6 7) = (replicate 6 0, DOCA_SUCCESS).
Proof. apply (parse_mac_address_spec (lit "98:03:9b:aa:bb:cc") (replicate 6 7)). done. Defined.

Lemma parse_ipv6_undef str_ip ipv6_addr s :
  c_str str_ip = Ret s -> parse_ipv6_str str_ip ipv6_addr = Undef Uninitialised.
Proof.
  intros E. unfold parse_ipv6_str. cbn [parse_ipv6_loop IP_ADDR_LEN].
  unfold ipv6_group. by rewrite E.
Qed.

(** Parsing any IPv6 address reads the uninitialised pointer: [strtol] with an
    unsupported base does not store the end of the number. *)
Theorem parse_ipv6_str_undefined str_ip ipv6_addr s :
  cstr_of str_ip = Some s -> parse_ipv6_str str_ip ipv6_addr = Undef Uninitialised.
Proof.
  intros E. apply (parse_ipv6_undef _ _ s). unfold c_str. by rewrite E.
Qed.

Lemma parse_ipv6_str_undefined_witness :
  parse_ipv6_str (lit "2001:db8:0:0:0:0:0:1" ++ [NUL]) [0; 0; 0; 0] = Undef Uninitialised.
Proof.
  apply (parse_ipv6_str_undefined _ _ (lit "2001:db8:0:0:0:0:0:1")). reflexivity.
Defined.

(** ** RSS queues *)

(** The heap is well formed: addresses are below the next one, and
    [rss_queues] is null or designates a live block. *)
Record rss_wf (m : rss_mem) : Prop := {
  wf_next : 0 < next_addr m;
  wf_addr : forall a, is_Some (blocks m !! a) -> 0 < a < next_addr m;
  wf_live : rss_queues m = 0 \/ is_Some (blocks m !! rss_queues m);
}.

(** The values the parser reads: one number every two characters, from the text
    and then from whatever follows it in the buffer. *)
Fixpoint rss_read (n : nat) (str : list ascii) : option (list Z * list ascii) :=
  match n with
  | O => Some ([], str)
  | S n' =>
      match cstr_of str with
      | None => None
      | Some s =>
          match rss_read n' (drop 2 str) with
          | None => None
          | Some (vs, rest) => Some (u16 (fst (strtol s 0)) :: vs, rest)
          end
      end
  end.

Definition with_block (m : rss_mem) (b : list (option Z)) : rss_mem :=
  RssMem (rss_queues m) (<[rss_queues m := b]> (blocks m)) (next_addr m).

Lemma set_rss_spec m pre k v :
  blocks m !! rss_queues m = Some (map Some pre ++ replicate (S k) None) ->
  set_rss (Z.of_nat (length pre)) v m =
    Ret (with_block m (map Some (pre ++ [u16 v]) ++ replicate k None)).
Proof.
  intros E. unfold set_rss. rewrite E.
  replace ((0 <=? _) && _) with true
    by (symmetry; rewrite andb_true_iff, Z.leb_le, Z.ltb_lt, length_app, length_map,
          length_replicate; lia).
  unfold with_block. do 3 f_equal.
  rewrite Nat2Z.id, <-(length_map Some pre), <-(Nat.add_0_r (length (map Some pre))).
  rewrite insert_app_r. cbn [replicate]. by rewrite map_app, <-app_assoc.
Qed.

Lemma rss_loop_spec n m str pre k :
  blocks m !! rss_queues m = Some (map Some pre ++ replicate (n + k) None) ->
  rss_loop n (Z.of_nat (length pre)) str m =
    match rss_read n str with
    | Some (vs, rest) => Ret (with_block m (map Some (pre ++ vs) ++ replicate k None), rest)
    | None => Undef OutOfBounds
    end.
Proof.
  revert m str pre. induction n as [|n IH]; intros m str pre E.
  { cbn. rewrite app_nil_r. unfold with_block.
    rewrite insert_id by done. by destruct m. }
  cbn [rss_loop rss_read]. unfold c_str. destruct (cstr_of str) as [s|]; [|done].
  cbn [of_option]. rewrite (set_rss_spec _ _ (n + k)) by done.
  cbn beta iota.
  replace (Z.of_nat (length pre) + 1) with (Z.of_nat (length (pre ++ [u16 (fst (strtol s 0))])))
    by (rewrite length_app; simpl; lia).
  rewrite IH by (cbn; by rewrite lookup_insert_eq).
  destruct (rss_read n (drop 2 str)) as [[vs rest]|]; [|done].
  unfold with_block. cbn. by rewrite insert_insert_eq, <-app_assoc.
Qed.

Lemma rss_read_snoc n str :
  rss_read (S n) str =
    match rss_read n str with
    | None => None
    | Some (vs, rest) =>
        match cstr_of rest with
        | None => None
        | Some s => Some (vs ++ [u16 (fst (strtol s 0))], drop 2 rest)
        end
    end.
Proof.
  revert str. induction n as [|n IH]; intros str; [by cbn; destruct (cstr_of str)|].
  change (rss_read (S (S n)) str) with
    (match cstr_of str with
     | None => None
     | Some s => match rss_read (S n) (drop 2 str) with
                 | None => None
                 | Some (vs, rest) => Some (u16 (fst (strtol s 0)) :: vs, rest)
                 end
     end).
  rewrite IH. cbn [rss_read]. destruct (cstr_of str); [|done].
  destruct (rss_read n (drop 2 str)) as [[vs rest]|]; [|done].
  by destruct (cstr_of rest).
Qed.

Lemma rss_read_length n str vs rest : rss_read n str = Some (vs, rest) -> length vs = n.
Proof.
  revert str vs. induction n as [|n IH]; intros str vs; cbn [rss_read].
  { intros E. by simplify_eq. }
  destruct (cstr_of str); [|done].
  destruct (rss_read n (drop 2 str)) as [[vs' r]|] eqn:E; [|done].
  intros F. simplify_eq. cbn. f_equal. by eapply IH.
Qed.

Lemma free_rss_spec m :
  rss_wf m ->
  exists bs, free_rss m = Ret (RssMem (rss_queues m) bs (next_addr m))
    /\ bs = delete (rss_queues m) (blocks m).
Proof.
  intros [Hn Ha Hl]. unfold free_rss. destruct (Z.eqb_spec (rss_queues m) 0) as [E|E].
  - exists (blocks m). split; [by destruct m|].
    rewrite delete_id; [done|].
    destruct (blocks m !! rss_queues m) eqn:F; [|done].
    specialize (Ha (rss_queues m) ltac:(by eexists)). lia.
  - destruct Hl as [|[b ->]]; [done|]. by eexists.
Qed.

(** [parse_rss_queues] releases the previous block and, for a positive number
    of queues that can be allocated, fills a fresh block with the numbers read
    from the text; a zero or negative number of queues writes before the block. *)
Lemma parse_rss_queues_eq malloc_ok str num m :
  rss_wf m -> malloc_ok (u64 (2 * num)) = true ->
  parse_rss_queues malloc_ok str num m =
    if decide (0 < num) then
      match rss_read (Z.to_nat num) str with
      | Some (vs, _) =>
          Ret (RssMem (next_addr m)
                 (<[next_addr m := map Some vs]> (delete (rss_queues m) (blocks m)))
                 (next_addr m + 1), DOCA_SUCCESS)
      | None => Undef OutOfBounds
      end
    else Undef OutOfBounds.
Proof.
  intros Hwf Hok. destruct (free_rss_spec m Hwf) as (bs & Hfree & ->).
  unfold parse_rss_queues. rewrite Hfree. unfold malloc_rss. rewrite Hok.
  cbn [rss_queues blocks next_addr].
  replace (next_addr m =? 0) with false by (destruct Hwf; lia).
  set (m1 := RssMem (next_addr m)
    (<[next_addr m := replicate (Z.to_nat num) None]> (delete (rss_queues m) (blocks m)))
    (next_addr m + 1)).
  case_decide as Hnum.
  - replace (Z.to_nat num) with (S (Z.to_nat (num - 1))) by lia.
    rewrite (rss_loop_spec _ m1 str [] 1)
      by (cbn; rewrite lookup_insert_eq; do 3 f_equal; lia).
    rewrite rss_read_snoc. destruct (rss_read _ str) as [[vs rest]|] eqn:Er; [|done].
    unfold c_str. destruct (cstr_of rest) as [s|]; [|done]. cbn [of_option app].
    pose proof (rss_read_length _ _ _ _ Er) as Hl.
    replace (num - 1) with (Z.of_nat (length vs)) by lia.
    rewrite (set_rss_spec _ vs 0) by (cbn; by rewrite lookup_insert_eq).
    unfold with_block, m1. cbn. by rewrite !insert_insert_eq, app_nil_r.
  - replace (Z.to_nat (num - 1)) with 0%nat by lia. cbn [rss_loop].
    unfold c_str. destruct (cstr_of str); [|done]. cbn [of_option].
    unfold set_rss, m1. cbn. rewrite lookup_insert_eq.
    by replace ((0 <=? num - 1) && _) with false by lia.
Qed.

Lemma rss_fresh_wf m b :
  rss_wf m ->
  rss_wf (RssMem (next_addr m) (<[next_addr m := b]> (delete (rss_queues m) (blocks m)))
            (next_addr m + 1)).
Proof.
  intros [Hn Ha Hl]. split; cbn.
  - lia.
  - intros a Hb. apply lookup_insert_is_Some in Hb as [<-|[? [b' Hb]]]; [lia|].
    apply lookup_delete_Some in Hb as [_ Hb].
    specialize (Ha a ltac:(by eexists)). lia.
  - right. by rewrite lookup_insert_eq.
Qed.

(** Whenever [parse_rss_queues] returns, the heap is well formed, the code is
    [SUCCESS] or [NO_MEMORY], and on success [rss_queues] is a live block. *)
Lemma parse_rss_queues_wf malloc_ok str num m m' e :
  rss_wf m -> parse_rss_queues malloc_ok str num m = Ret (m', e) ->
  rss_wf m' /\ (e = DOCA_SUCCESS /\ is_Some (blocks m' !! rss_queues m')
                \/ e = DOCA_ERROR_NO_MEMORY /\ rss_queues m' = 0).
Proof.
  intros Hwf. destruct (malloc_ok (u64 (2 * num))) eqn:Hok.
  - rewrite parse_rss_queues_eq by done. case_decide; [|done].
    destruct (rss_read _ str) as [[vs r]|]; [|done]. intros E. simplify_eq.
    split; [by apply rss_fresh_wf|]. left. cbn. by rewrite lookup_insert_eq.
  - destruct (free_rss_spec m Hwf) as (bs & Hfree & ->). unfold parse_rss_queues.
    rewrite Hfree. unfold malloc_rss. rewrite Hok. cbn. intros E. simplify_eq.
    split; [|by right]. destruct Hwf as [Hn Ha Hl]. split; cbn; [done| |by left].
    intros a [b [_ Hb]%lookup_delete_Some]. apply Ha. by eexists.
Qed.

(** The previous block is released. *)
Lemma parse_rss_queues_frees malloc_ok str num m m' e :
  rss_wf m -> parse_rss_queues malloc_ok str num m = Ret (m', e) ->
  blocks m' !! rss_queues m = None.
Proof.
  intros Hwf. destruct (malloc_ok (u64 (2 * num))) eqn:Hok.
  - rewrite parse_rss_queues_eq by done. case_decide; [|done].
    destruct (rss_read _ str) as [[vs r]|]; [|done]. intros E. simplify_eq. cbn.
    rewrite lookup_insert_ne; [apply lookup_delete_eq|].
    destruct Hwf as [Hn Ha [->|Hl]]; [lia|]. apply Ha in Hl. lia.
  - destruct (free_rss_spec m Hwf) as (bs & Hfree & ->). unfold parse_rss_queues.
    rewrite Hfree. unfold malloc_rss. rewrite Hok. cbn. intros E. simplify_eq. cbn.
    apply lookup_delete_eq.
Qed.

(** A list of one-digit queue numbers, with a one-character separator. *)
Fixpoint rss_render (sep : ascii) (qs : list Z) : list ascii :=
  match qs with
  | [] => []
  | [q] => [digit_char q]
  | q :: qs' => digit_char q :: sep :: rss_render sep qs'
  end.

Lemma dec_digit q : 0 <= q < 10 -> dec q = [digit_char q].
Proof.
  intros H. unfold dec. cbn [dec_aux]. replace (q <? 10) with true by lia.
  by rewrite Z.mod_small.
Qed.

Lemma digit_char_nul q : 0 <= q < 10 -> digit_char q <> NUL.
Proof.
  intros H E. pose proof (code_ascii q H) as Hc. rewrite E in Hc.
  change (code NUL) with 0 in Hc. lia.
Qed.

Lemma rss_render_no_nul sep qs :
  sep <> NUL -> Forall (fun q => 0 <= q < 10) qs -> no_nul (rss_render sep qs).
Proof.
  unfold no_nul. intros Hsep. induction 1 as [|q [|q' qs'] Hq _ IH]; cbn [rss_render].
  - apply not_elem_of_nil.
  - rewrite list_elem_of_singleton. intros E. by apply (digit_char_nul q).
  - rewrite !not_elem_of_cons. split_and!; [|done|done].
    intros E. by apply (digit_char_nul q).
Qed.

Lemma rss_read_digits sep qs rest :
  sep <> NUL -> 36 <= digit_val sep -> qs <> [] -> Forall (fun q => 0 <= q < 10) qs ->
  exists r, rss_read (length qs) (rss_render sep qs ++ NUL :: rest) = Some (qs, r).
Proof.
  intros Hsep Hend Hne Hqs. pose proof Hqs as Hall.
  induction Hqs as [|q qs Hq Hqs IH]; [done|]. cbn [length rss_read].
  rewrite cstr_of_app by (by apply rss_render_no_nul).
  assert (exists tl, rss_render sep (q :: qs) = dec q ++ tl /\ ends_number tl) as (tl & E & Htl).
  { rewrite dec_digit by done. destruct qs; cbn [rss_render];
      [by exists [] | by exists (sep :: rss_render sep (z :: qs))]. }
  rewrite E, strtol_dec by (auto; lia). cbn [fst].
  rewrite uwrap_id by (unfold in_width; lia). rewrite <-E.
  destruct qs as [|q' qs]; [by eexists|].
  destruct IH as [r Hr]; [done|by apply Forall_cons in Hall as [_ ?]|].
  exists r. change (drop 2 _) with (rss_render sep (q' :: qs) ++ NUL :: rest).
  by rewrite Hr.
Qed.

(** One-digit queue numbers are read back exactly, and the block is completely
    initialised. *)
Theorem parse_rss_queues_digits malloc_ok sep qs rest m :
  rss_wf m -> malloc_ok (u64 (2 * Z.of_nat (length qs))) = true ->
  sep <> NUL -> 36 <= digit_val sep -> qs <> [] -> Forall (fun q => 0 <= q < 10) qs ->
  exists m', parse_rss_queues malloc_ok (rss_render sep qs ++ NUL :: rest)
               (Z.of_nat (length qs)) m = Ret (m', DOCA_SUCCESS)
    /\ blocks m' !! rss_queues m' = Some (map Some qs) /\ rss_wf m'.
Proof.
  intros Hwf Hok Hsep Hend Hne Hqs.
  destruct (rss_read_digits sep qs rest Hsep Hend Hne Hqs) as [r Hr].
  assert (0 < Z.of_nat (length qs)) as Hpos by (destruct qs; [done | cbn; lia]).
  rewrite parse_rss_queues_eq by done. rewrite decide_True, Nat2Z.id, Hr by done.
  eexists. split; [done|]. cbn. rewrite lookup_insert_eq. split; [done|].
  by apply rss_fresh_wf.
Qed.

Lemma rss_mem_init_wf : rss_wf rss_mem_init.
Proof.
  split; cbn; [lia | | by left]. intros a [b Hb]. by rewrite lookup_empty in Hb.
Qed.

Lemma parse_rss_queues_digits_witness :
  exists m', parse_rss_queues (fun n => n <? 2 ^ 32) (rss_render ";"%char [3; 1; 7] ++ [NUL])
               3 rss_mem_init = Ret (m', DOCA_SUCCESS)
    /\ blocks m' !! rss_queues m' = Some [Some 3; Some 1; Some 7] /\ rss_wf m'.
Proof.
  apply (parse_rss_queues_digits (fun n => n <? 2 ^ 32) ";"%char [3; 1; 7] [] rss_mem_init).
  - apply rss_mem_init_wf.
  - reflexivity.
  - discriminate.
  - vm_compute. congruence.
  - discriminate.
  - repeat (apply Forall_cons_2; [lia|]). apply Forall_nil_2.
Defined.
