(* ===== verification/FlowFields.v ===== *)
(** * Field parsers of the flow command line (applications/common/flow_parser.c)

    The callbacks [parse_struct] calls for every [name=value] pair: one per
    structure.  [field_name] is a C string, [value] the [char] array it is called
    with (the RSS parser reads past the terminator), the structure is passed and
    returned. *)
From S2P Require Import Prelude CString FlowTypes FlowValues.

(** [strcmp(field_name, "name") == 0]. *)
Definition field_is (field_name : list ascii) (name : string) : bool :=
  streq field_name (lit name).
Arguments field_is _ _%_string_scope.

(** [strtol(value, NULL, 0)] and [strtoull(value, NULL, 0)]. *)
Definition number (value : list ascii) : Z := fst (strtol value 0).
Definition unumber (value : list ascii) : Z := fst (strtoull value 0).

(** [rte_cpu_to_be_16(strtol(value, NULL, 0))]. *)
Definition be16_number (value : list ascii) : Z := bswap 2 (u16 (number value)).

Definition ok {S} (s : S) : outcome (S * doca_error_t) := Ret (s, DOCA_SUCCESS).
Definition fail {S} (s : S) (e : doca_error_t) : outcome (S * doca_error_t) := Ret (s, e).

(** A header update inside an enclosing structure. *)
Definition within {S H} (upd : (H -> H) -> S -> S) (get : S -> H)
    (f : H -> outcome (H * doca_error_t)) (s : S) : outcome (S * doca_error_t) :=
  let* (h, e) := f (get s) in Ret (upd (fun _ => h) s, e).

(** ** Blocks shared by the field parsers *)

Definition parse_src_mac (value : list ascii) (h : doca_flow_header_format) :=
  let '(mac, e) := parse_mac_address value (src_mac h) in Ret (set_src_mac mac h, e).

Definition parse_dst_mac (value : list ascii) (h : doca_flow_header_format) :=
  let '(mac, e) := parse_mac_address value (dst_mac h) in Ret (set_dst_mac mac h, e).

Definition store_words (off : nat) (ws raw : list Z) : list Z :=
  store (off + 12) 4 (nth 3 ws 0) (store (off + 8) 4 (nth 2 ws 0)
    (store (off + 4) 4 (nth 1 ws 0) (store off 4 (nth 0 ws 0) raw))).
Definition load_words (off : nat) (raw : list Z) : list Z :=
  [load off 4 raw; load (off + 4) 4 raw; load (off + 8) 4 raw; load (off + 12) 4 raw].

(** "src_ip_addr" and "dst_ip_addr": the address family is the [l3_type] set before. *)
Definition parse_src_ip_addr (buf value : list ascii) (h : doca_flow_header_format) :=
  match l3_type h with
  | DOCA_FLOW_L3_TYPE_IP4 =>
      write_on_success (parse_ipv4_str value) (fun v => set_ip4_src_ip v h) h
  | DOCA_FLOW_L3_TYPE_IP6 =>
      let* (ws, e) := parse_ipv6_str buf (load_words 0 (l3 h)) in
      Ret (set_l3 (store_words 0 ws (l3 h)) h, e)
  | DOCA_FLOW_L3_TYPE_NONE => fail h DOCA_ERROR_INVALID_VALUE
  end.

Definition parse_dst_ip_addr (buf value : list ascii) (h : doca_flow_header_format) :=
  match l3_type h with
  | DOCA_FLOW_L3_TYPE_IP4 =>
      write_on_success (parse_ipv4_str value) (fun v => set_ip4_dst_ip v h) h
  | DOCA_FLOW_L3_TYPE_IP6 =>
      let* (ws, e) := parse_ipv6_str buf (load_words 16 (l3 h)) in
      Ret (set_l3 (store_words 16 ws (l3 h)) h, e)
  | DOCA_FLOW_L3_TYPE_NONE => fail h DOCA_ERROR_INVALID_VALUE
  end.

(** ** Monitor *)

Definition parse_monitor_field (field_name buf : list ascii) (m : doca_flow_monitor)
    : outcome (doca_flow_monitor * doca_error_t) :=
  let* value := c_str buf in
  if field_is field_name "flags" then
    let flags := u8 (number value) in
    let m := if Z.land flags 2 =? 0 then m
             else Monitor DOCA_FLOW_RESOURCE_TYPE_NON_SHARED (cir m) (cbs m) (counter_type m)
                    (aging_sec m) in
    let m := if Z.land flags 4 =? 0 then m
             else Monitor (meter_type m) (cir m) (cbs m) DOCA_FLOW_RESOURCE_TYPE_NON_SHARED
                    (aging_sec m) in
    ok m
  else if field_is field_name "cir" then
    ok (Monitor (meter_type m) (unumber value) (cbs m) (counter_type m) (aging_sec m))
  else if field_is field_name "cbs" then
    ok (Monitor (meter_type m) (cir m) (unumber value) (counter_type m) (aging_sec m))
  else if field_is field_name "aging_sec" then
    ok (Monitor (meter_type m) (cir m) (cbs m) (counter_type m) (u32 (number value)))
  else fail m DOCA_ERROR_INVALID_VALUE.

(** ** Forward *)

(** The globals of the parser the forward callbacks write. *)
Record fwd_env : Type := FwdEnv {
  fwd_rss : rss_mem;
  fwd_next_pipe_id : Z;
  fwd_miss_next_pipe_id : Z;
}.

Definition set_fwd_rss (r : rss_mem) (g : fwd_env) : fwd_env :=
  FwdEnv r (fwd_next_pipe_id g) (fwd_miss_next_pipe_id g).

Section fwd.
Context (malloc_ok : Z -> bool).

Definition parse_fwd_rss_queues (buf : list ascii) (s : fwd_env * doca_flow_fwd)
    : outcome (fwd_env * doca_flow_fwd * doca_error_t) :=
  let '(g, fwd) := s in
  let* (r, e) := parse_rss_queues malloc_ok buf (num_of_queues fwd) (fwd_rss g) in
  let g := set_fwd_rss r g in
  match e with
  | DOCA_SUCCESS => ok (g, set_fwd_rss_queues (rss_queues r) fwd)
  | _ => fail (g, fwd) e
  end.

Definition parse_fwd_field (field_name buf : list ascii) (s : fwd_env * doca_flow_fwd)
    : outcome (fwd_env * doca_flow_fwd * doca_error_t) :=
  let '(g, fwd) := s in
  let* value := c_str buf in
  if field_is field_name "type" then
    write_on_success (parse_fwd_type value) (fun t => (g, set_fwd_type t fwd)) (g, fwd)
  else if field_is field_name "rss_outer_flags" then
    ok (g, set_rss_outer_flags (number value) fwd)
  else if field_is field_name "rss_inner_flags" then
    ok (g, set_rss_inner_flags (number value) fwd)
  else if field_is field_name "rss_queues" then parse_fwd_rss_queues buf (g, fwd)
  else if field_is field_name "num_of_queues" then
    ok (g, set_num_of_queues (number value) fwd)
  else if field_is field_name "port_id" then ok (g, set_fwd_port_id (number value) fwd)
  else if field_is field_name "next_pipe_id" then
    ok (FwdEnv (fwd_rss g) (unumber value) (fwd_miss_next_pipe_id g), fwd)
  else fail (g, fwd) DOCA_ERROR_INVALID_VALUE.

Definition parse_fwd_miss_field (field_name buf : list ascii) (s : fwd_env * doca_flow_fwd)
    : outcome (fwd_env * doca_flow_fwd * doca_error_t) :=
  let '(g, fwd_miss) := s in
  let* value := c_str buf in
  if field_is field_name "type" then
    write_on_success (parse_fwd_type value) (fun t => (g, set_fwd_type t fwd_miss)) (g, fwd_miss)
  else if field_is field_name "rss_outer_flags" then
    ok (g, set_rss_outer_flags (number value) fwd_miss)
  else if field_is field_name "rss_inner_flags" then
    ok (g, set_rss_inner_flags (number value) fwd_miss)
  else if field_is field_name "rss_queues" then parse_fwd_rss_queues buf (g, fwd_miss)
  else if field_is field_name "num_of_queues" then
    ok (g, set_num_of_queues (number value) fwd_miss)
  else if field_is field_name "port_id" then ok (g, set_fwd_port_id (number value) fwd_miss)
  else if field_is field_name "next_pipe_id" then
    ok (FwdEnv (fwd_rss g) (fwd_next_pipe_id g) (unumber value), fwd_miss)
  else fail (g, fwd_miss) DOCA_ERROR_INVALID_VALUE.
End fwd.

(** ** Actions *)

Definition parse_actions_field (field_name buf : list ascii) (action : doca_flow_actions)
    : outcome (doca_flow_actions * doca_error_t) :=
  let* value := c_str buf in
  let in_outer := within on_act_outer act_outer in
  let in_encap := within on_encap_outer encap_outer in
  if field_is field_name "outer.eth.src_mac" then in_outer (parse_src_mac value) action
  else if field_is field_name "outer.eth.dst_mac" then in_outer (parse_dst_mac value) action
  else if field_is field_name "outer.l3_type" then
    write_on_success (parse_ip_type value) (fun t => on_act_outer (set_l3_type t) action) action
  else if field_is field_name "outer.src_ip_addr" then in_outer (parse_src_ip_addr buf value) action
  else if field_is field_name "outer.dst_ip_addr" then in_outer (parse_dst_ip_addr buf value) action
  else if field_is field_name "outer.l4_type_ext" then
    write_on_success (parse_protocol_string value)
      (fun t => on_act_outer (set_l4_type_ext t) action) action
  else if field_is field_name "outer.tcp_src_port" then
    ok (on_act_outer (set_tcp_src_port (number value)) action)
  else if field_is field_name "outer.tcp_dst_port" then
    ok (on_act_outer (set_tcp_dst_port (number value)) action)
  else if field_is field_name "outer.udp_src_port" then
    ok (on_act_outer (set_udp_src_port (number value)) action)
  else if field_is field_name "outer.udp_dst_port" then
    ok (on_act_outer (set_udp_dst_port (number value)) action)
  else if field_is field_name "outer.ip4.ttl" then
    ok (on_act_outer (set_ip4_ttl (number value)) action)
  else if field_is field_name "encap_src_mac" then in_encap (parse_src_mac value) action
  else if field_is field_name "encap_dst_mac" then in_encap (parse_dst_mac value) action
  else if field_is field_name "encap_src_ip_type" then
    write_on_success (parse_ip_type value) (fun t => on_encap_outer (set_l3_type t) action) action
  else if field_is field_name "encap_src_ip_addr" then in_encap (parse_src_ip_addr buf value) action
  else if field_is field_name "encap_dst_ip_type" then
    write_on_success (parse_ip_type value) (fun t => on_encap_outer (set_l3_type t) action) action
  else if field_is field_name "encap_dst_ip_addr" then in_encap (parse_dst_ip_addr buf value) action
  else if field_is field_name "encap_tun_type" then
    write_on_success (parse_tun_type_string value)
      (fun t => on_encap_tun (set_tun_type t) action) action
  else if field_is field_name "encap_vxlan_tun_id" then
    ok (on_encap_tun (set_vxlan_tun_id (number value)) action)
  else if field_is field_name "encap_gre_key" then
    ok (on_encap_tun (set_gre_key (number value)) action)
  else if field_is field_name "encap_gtp_teid" then
    ok (on_encap_tun (set_gtp_teid (number value)) action)
  else fail action DOCA_ERROR_INVALID_VALUE.

(** ** Match *)

(** The fields of the outer headers and of the tunnel. *)
Definition parse_match_field (field_name buf : list ascii) (m : doca_flow_match)
    : outcome (doca_flow_match * doca_error_t) :=
  let* value := c_str buf in
  let hex := fst (strtol value HEXADECIMAL_BASE) in
  let in_outer := within on_outer outer in
  let in_inner := within on_inner inner in
  if field_is field_name "flags" then ok (set_match_flags (u32 hex) m)
  else if field_is field_name "port_meta" then ok (set_port_meta (u32 (number value)) m)
  else if field_is field_name "outer.eth.src_mac" then in_outer (parse_src_mac value) m
  else if field_is field_name "outer.eth.dst_mac" then in_outer (parse_dst_mac value) m
  else if field_is field_name "outer.eth.type" then ok (on_outer (set_eth_type (u16 hex)) m)
  else if field_is field_name "outer.eth_vlan[0].tci" then
    ok (on_outer (set_vlan_tci 0 (u16 (number value))) m)
  else if field_is field_name "outer.eth_vlan[1].tci" then
    ok (on_outer (set_vlan_tci 1 (u16 (number value))) m)
  else if field_is field_name "outer.l3_type" then
    write_on_success (parse_l3_type value) (fun t => on_outer (set_l3_type t) m) m
  else if field_is field_name "outer.src_ip_addr" then in_outer (parse_src_ip_addr buf value) m
  else if field_is field_name "outer.dst_ip_addr" then in_outer (parse_dst_ip_addr buf value) m
  else if field_is field_name "outer.l4_type_ext" then
    write_on_success (parse_protocol_string value) (fun t => on_outer (set_l4_type_ext t) m) m
  else if field_is field_name "outer.tcp.flags" then
    write_on_success (parse_tcp_flag_string value) (fun v => on_outer (set_tcp_flags v) m) m
  else if field_is field_name "outer.tcp_src_port" then
    ok (on_outer (set_tcp_src_port (be16_number value)) m)
  else if field_is field_name "outer.tcp_dst_port" then
    ok (on_outer (set_tcp_dst_port (be16_number value)) m)
  else if field_is field_name "outer.udp_src_port" then
    ok (on_outer (set_udp_src_port (be16_number value)) m)
  else if field_is field_name "outer.udp_dst_port" then
    ok (on_outer (set_udp_dst_port (be16_number value)) m)
  else if field_is field_name "tun_type" then
    write_on_success (parse_tun_type_string value) (fun t => on_match_tun (set_tun_type t) m) m
  else if field_is field_name "vxlan_tun_id" then
    ok (on_match_tun (set_vxlan_tun_id (number value)) m)
  else if field_is field_name "gre_key" then ok (on_match_tun (set_gre_key (number value)) m)
  else if field_is field_name "gtp_teid" then ok (on_match_tun (set_gtp_teid (number value)) m)
  else if field_is field_name "inner.eth.src_mac" then in_inner (parse_src_mac value) m
  else if field_is field_name "inner.eth.dst_mac" then in_inner (parse_dst_mac value) m
  else if field_is field_name "inner.eth.type" then ok (on_inner (set_eth_type (u16 hex)) m)
  else if field_is field_name "inner.eth_vlan[0].tci" then
    ok (on_inner (set_vlan_tci 0 (u16 (number value))) m)
  else if field_is field_name "inner.eth_vlan[1].tci" then
    ok (on_inner (set_vlan_tci 1 (u16 (number value))) m)
  else if field_is field_name "inner.l3_type" then
    write_on_success (parse_l3_type value) (fun t => on_inner (set_l3_type t) m) m
  else if field_is field_name "inner.src_ip_addr" then in_inner (parse_src_ip_addr buf value) m
  else if field_is field_name "inner.dst_ip_addr" then in_inner (parse_dst_ip_addr buf value) m
  else if field_is field_name "inner.l4_type_ext" then
    write_on_success (parse_protocol_string value) (fun t => on_inner (set_l4_type_ext t) m) m
  else if field_is field_name "inner.tcp.flags" then
    write_on_success (parse_tcp_flag_string value) (fun v => on_inner (set_tcp_flags v) m) m
  else if field_is field_name "inner.tcp_src_port" then
    ok (on_outer (set_tcp_src_port (be16_number value)) m)
  else if field_is field_name "inner.tcp_dst_port" then
    ok (on_outer (set_tcp_dst_port (be16_number value)) m)
  else if field_is field_name "inner.udp_src_port" then
    ok (on_outer (set_udp_src_port (be16_number value)) m)
  else if field_is field_name "inner.udp_dst_port" then
    ok (on_outer (set_udp_dst_port (be16_number value)) m)
  else fail m DOCA_ERROR_INVALID_VALUE.

(** The subset of the firewall application: IPv4 only. *)
Definition parse_fw_match_field (field_name buf : list ascii) (m : doca_flow_match)
    : outcome (doca_flow_match * doca_error_t) :=
  let* value := c_str buf in
  let m := on_outer (set_l3_type DOCA_FLOW_L3_TYPE_IP4) m in
  if field_is field_name "outer.src_ip_addr" then
    write_on_success (parse_ipv4_str value) (fun v => on_outer (set_ip4_src_ip v) m) m
  else if field_is field_name "outer.dst_ip_addr" then
    write_on_success (parse_ipv4_str value) (fun v => on_outer (set_ip4_dst_ip v) m) m
  else if field_is field_name "outer.l4_type_ext" then
    write_on_success (parse_protocol_string value) (fun t => on_outer (set_l4_type_ext t) m) m
  else if field_is field_name "outer.tcp_src_port" then
    ok (on_outer (set_tcp_src_port (be16_number value)) m)
  else if field_is field_name "outer.tcp_dst_port" then
    ok (on_outer (set_tcp_dst_port (be16_number value)) m)
  else if field_is field_name "outer.udp_src_port" then
    ok (on_outer (set_udp_src_port (be16_number value)) m)
  else if field_is field_name "outer.udp_dst_port" then
    ok (on_outer (set_udp_dst_port (be16_number value)) m)
  else fail m DOCA_ERROR_INVALID_VALUE.

(** ** Well-formedness is preserved *)

(** [keeps P o]: when [o] returns, its structure satisfies [P]. *)
Definition keeps {S} (P : S -> Prop) (o : outcome (S * doca_error_t)) : Prop :=
  match o with Ret (s, _) => P s | Undef _ => True end.

Lemma keeps_write {S A} (P : S -> Prop) (r : res A) upd s :
  P s -> (forall a, P (upd a)) -> keeps P (write_on_success r upd s).
Proof. destruct r; simpl; auto. Qed.

Lemma keeps_within {S H} (P : S -> Prop) (Q : H -> Prop) upd (get : S -> H) f s :
  keeps Q (f (get s)) -> (forall h, Q h -> P (upd (fun _ => h) s)) -> keeps P (within upd get f s).
Proof. unfold within. destruct (f (get s)) as [[h e]|]; simpl; auto. Qed.

Lemma length_mac_loop n i s mac :
  length (fst (parse_mac_loop n i s mac)) = length mac.
Proof.
  destruct (parse_mac_loop_spec n i s mac) as [-> _]. revert mac.
  generalize (seq i (n `min` S (count_occ Ascii.ascii_dec s ":"%char))). intros l.
  induction l as [|k l IH]; intros mac; simpl; [done|]. by rewrite IH, length_insert.
Qed.

Lemma length_parse_mac s mac : length (fst (parse_mac_address s mac)) = length mac.
Proof.
  unfold parse_mac_address. pose proof (length_mac_loop (MAC_ADDR_LEN - 1) 0 s mac) as H.
  destruct (parse_mac_loop _ 0 s mac) as [m [p|]]; simpl in *; [by rewrite length_insert | done].
Qed.

Lemma parse_src_mac_wf value h : header_wf h -> keeps header_wf (parse_src_mac value h).
Proof.
  intros Hh. unfold parse_src_mac. pose proof (length_parse_mac value (src_mac h)) as H.
  destruct (parse_mac_address _ _) as [mac e]. simpl in *. apply set_src_mac_wf; [done|].
  rewrite H. by destruct Hh.
Qed.

Lemma parse_dst_mac_wf value h : header_wf h -> keeps header_wf (parse_dst_mac value h).
Proof.
  intros Hh. unfold parse_dst_mac. pose proof (length_parse_mac value (dst_mac h)) as H.
  destruct (parse_mac_address _ _) as [mac e]. simpl in *. apply set_dst_mac_wf; [done|].
  rewrite H. by destruct Hh.
Qed.

Lemma store_words_wf off ws h :
  (off + 16 <= 44)%nat -> header_wf h -> header_wf (set_l3 (store_words off ws (l3 h)) h).
Proof.
  intros Hoff []. apply Build_header_wf; cbn; try assumption.
  unfold store_words. repeat rewrite length_store; lia.
Qed.

Lemma parse_src_ip_addr_wf buf value h :
  header_wf h -> keeps header_wf (parse_src_ip_addr buf value h).
Proof.
  intros Hh. unfold parse_src_ip_addr. destruct (l3_type h); [done| |].
  - apply keeps_write; auto with doca.
  - destruct (parse_ipv6_str _ _) as [[ws e]|]; [|done]. by apply store_words_wf; [lia|].
Qed.

Lemma parse_dst_ip_addr_wf buf value h :
  header_wf h -> keeps header_wf (parse_dst_ip_addr buf value h).
Proof.
  intros Hh. unfold parse_dst_ip_addr. destruct (l3_type h); [done| |].
  - apply keeps_write; auto with doca.
  - destruct (parse_ipv6_str _ _) as [[ws e]|]; [|done]. by apply store_words_wf; [lia|].
Qed.

#[export] Hint Resolve parse_src_mac_wf parse_dst_mac_wf parse_src_ip_addr_wf
  parse_dst_ip_addr_wf : doca.

(** The callbacks have no unbounded loop. *)
Definition no_fuel {A} (o : outcome A) : Prop := o <> Undef OutOfFuel.

Lemma no_fuel_write {S A} (r : res A) upd (s : S) : no_fuel (write_on_success r upd s).
Proof. by destruct r. Qed.

Lemma no_fuel_within {S H} upd (get : S -> H) f s :
  no_fuel (f (get s)) -> no_fuel (within upd get f s).
Proof. unfold no_fuel, within. destruct (f (get s)) as [[h e]|w]; [done | congruence]. Qed.

Lemma no_fuel_c_str b : no_fuel (c_str b).
Proof. unfold no_fuel, c_str. by destruct (cstr_of b). Qed.

Lemma no_fuel_ipv6 b a : no_fuel (parse_ipv6_str b a).
Proof.
  unfold no_fuel. destruct (cstr_of b) as [s|] eqn:E.
  - rewrite (parse_ipv6_undef _ _ s); [done | unfold c_str; by rewrite E].
  - unfold parse_ipv6_str. cbn [parse_ipv6_loop IP_ADDR_LEN]. unfold ipv6_group, c_str.
    by rewrite E.
Qed.

Lemma no_fuel_src_ip_addr b v h : no_fuel (parse_src_ip_addr b v h).
Proof.
  unfold parse_src_ip_addr. destruct (l3_type h); [done|apply no_fuel_write|].
  pose proof (no_fuel_ipv6 b (load_words 0 (l3 h))) as H. unfold no_fuel in *.
  destruct (parse_ipv6_str _ _) as [[ws e]|w]; [done | congruence].
Qed.

Lemma no_fuel_dst_ip_addr b v h : no_fuel (parse_dst_ip_addr b v h).
Proof.
  unfold parse_dst_ip_addr. destruct (l3_type h); [done|apply no_fuel_write|].
  pose proof (no_fuel_ipv6 b (load_words 16 (l3 h))) as H. unfold no_fuel in *.
  destruct (parse_ipv6_str _ _) as [[ws e]|w]; [done | congruence].
Qed.

Lemma no_fuel_src_mac v h : no_fuel (parse_src_mac v h).
Proof. unfold parse_src_mac. by destruct (parse_mac_address v (src_mac h)). Qed.
Lemma no_fuel_dst_mac v h : no_fuel (parse_dst_mac v h).
Proof. unfold parse_dst_mac. by destruct (parse_mac_address v (dst_mac h)). Qed.

Lemma no_fuel_ok {S} (s : S) : no_fuel (ok s).
Proof. done. Qed.
Lemma no_fuel_fail {S} (s : S) e : no_fuel (fail s e).
Proof. done. Qed.

#[export] Hint Resolve no_fuel_write no_fuel_within no_fuel_src_ip_addr no_fuel_dst_ip_addr
  no_fuel_src_mac no_fuel_dst_mac no_fuel_ok no_fuel_fail : doca.

(** Continue after reading the value of a field. *)
Ltac with_value b :=
  let H := fresh in
  pose proof (no_fuel_c_str b) as H; unfold no_fuel in H;
  destruct (c_str b) as [value|w]; [clear H | intros E; congruence]; cbn beta iota zeta.

(** What can go wrong while text is read: the end of an array is passed, a token that
    is not there or a variable that is not set is used.  Nothing is used after it was
    closed or freed, and no loop goes on for ever. *)
Definition reading_error (u : ub) : Prop := u = OutOfBounds \/ u = NullDeref \/ u = Uninitialised.

Definition tame {A} (o : outcome A) : Prop := match o with Ret _ => True | Undef u => reading_error u end.

Lemma tame_bind {A B} (o : outcome A) (k : A -> outcome B) :
  tame o -> (forall a, o = Ret a -> tame (k a)) -> tame (let* a := o in k a).
Proof. destruct o; cbn; auto. Qed.

Lemma tame_write {S A} (r : res A) upd (s : S) : tame (write_on_success r upd s).
Proof. by destruct r. Qed.

Lemma tame_within {S H} upd (get : S -> H) f s : tame (f (get s)) -> tame (within upd get f s).
Proof. unfold within. by destruct (f (get s)) as [[h e]|w]. Qed.

Lemma tame_c_str b : tame (c_str b).
Proof. unfold c_str. destruct (cstr_of b); cbn; unfold reading_error; auto. Qed.

Lemma tame_ipv6 b a : tame (parse_ipv6_str b a).
Proof.
  destruct (cstr_of b) as [s|] eqn:E.
  - rewrite (parse_ipv6_undef _ _ s); [cbn; unfold reading_error; auto | unfold c_str; by rewrite E].
  - unfold parse_ipv6_str. cbn [parse_ipv6_loop IP_ADDR_LEN]. unfold ipv6_group, c_str.
    rewrite E. cbn. unfold reading_error. auto.
Qed.

Lemma tame_src_ip_addr b v h : tame (parse_src_ip_addr b v h).
Proof.
  unfold parse_src_ip_addr. destruct (l3_type h); [done|apply tame_write|].
  apply tame_bind; [apply tame_ipv6|by intros [ws e]].
Qed.

Lemma tame_dst_ip_addr b v h : tame (parse_dst_ip_addr b v h).
Proof.
  unfold parse_dst_ip_addr. destruct (l3_type h); [done|apply tame_write|].
  apply tame_bind; [apply tame_ipv6|by intros [ws e]].
Qed.

Lemma tame_src_mac v h : tame (parse_src_mac v h).
Proof. unfold parse_src_mac. by destruct (parse_mac_address v (src_mac h)). Qed.
Lemma tame_dst_mac v h : tame (parse_dst_mac v h).
Proof. unfold parse_dst_mac. by destruct (parse_mac_address v (dst_mac h)). Qed.
Lemma tame_ok {S} (s : S) : tame (ok s).
Proof. done. Qed.
Lemma tame_fail {S} (s : S) e : tame (fail s e).
Proof. done. Qed.

#[export] Hint Resolve tame_write tame_within tame_src_ip_addr tame_dst_ip_addr
  tame_src_mac tame_dst_mac tame_ok tame_fail : doca.

(** The interface [parse_struct] relies on: a callback keeps its structure well
    formed, terminates, and can only go wrong by reading. *)
Class FieldParser {S : Type} (wf : S -> Prop)
    (fill : list ascii -> list ascii -> S -> outcome (S * doca_error_t)) : Prop := {
  fill_wf : forall field_name buf s, wf s -> keeps wf (fill field_name buf s);
  fill_no_fuel : forall field_name buf s, no_fuel (fill field_name buf s);
  fill_tame : forall field_name buf s, wf s -> tame (fill field_name buf s);
}.

(** Every branch of a field parser: an update, a checked update, an update of
    one header, or a rejection. *)
Ltac field_branches :=
  repeat case_if;
  try (apply keeps_write; [assumption | intros]);
  try (eapply (keeps_within _ header_wf); [|intros]);
  cbn [keeps ok fail]; eauto with doca.

#[export] Instance match_field_parser : FieldParser match_wf parse_match_field.
Proof.
  split; intros field_name buf m; [intros Hm| |intros Hm]; unfold parse_match_field.
  { destruct (c_str buf) as [value|]; [|done]. cbn beta iota zeta.
    pose proof (wf_outer m Hm). pose proof (wf_inner m Hm). field_branches. }
  { with_value buf. repeat case_if; auto with doca. }
  apply tame_bind; [apply tame_c_str|intros value _]. repeat case_if; auto with doca.
Qed.

#[export] Instance fw_match_field_parser : FieldParser match_wf parse_fw_match_field.
Proof.
  split; intros field_name buf m; [intros Hm| |intros Hm]; unfold parse_fw_match_field.
  { destruct (c_str buf) as [value|]; [|done]. cbn beta iota zeta.
    assert (match_wf (on_outer (set_l3_type DOCA_FLOW_L3_TYPE_IP4) m)) by auto with doca.
    field_branches. }
  { with_value buf. repeat case_if; auto with doca. }
  apply tame_bind; [apply tame_c_str|intros value _]. repeat case_if; auto with doca.
Qed.

#[export] Instance actions_field_parser : FieldParser actions_wf parse_actions_field.
Proof.
  split; intros field_name buf a; [intros Ha| |intros Ha]; unfold parse_actions_field.
  { destruct (c_str buf) as [value|]; [|done]. cbn beta iota zeta.
    pose proof (wf_act_outer a Ha). pose proof (wf_encap_outer a Ha). field_branches. }
  { with_value buf. repeat case_if; auto with doca. }
  apply tame_bind; [apply tame_c_str|intros value _]. repeat case_if; auto with doca.
Qed.

Definition monitor_wf (m : doca_flow_monitor) : Prop :=
  in_width 64 (cir m) /\ in_width 64 (cbs m) /\ in_width 32 (aging_sec m).

Lemma strtoull_range s base : in_width 64 (fst (strtoull s base)).
Proof.
  unfold strtoull. destruct (base_supported base); [|done].
  destruct (scan_int base s) as [[[neg m] rest]|] eqn:E; [|done]. cbn [fst].
  assert (0 <= m) as Hm.
  { unfold scan_int in E. destruct (scan_sign _) as [sg s1]. destruct (scan_base base s1) as [b s2].
    destruct s2 as [|c s2]; [done|]. destruct (is_digit b c) eqn:Ed; [|done].
    destruct (scan_digits b (c :: s2) 0) as [m' r] eqn:Es. simplify_eq.
    pose proof (scan_digits_nonneg b (c :: s2) 0 ltac:(lia)) as H. rewrite Es in H. apply H.
    unfold is_digit in *. pose proof (digit_val_range c). lia. }
  case_if; [done|]. case_if; [apply uwrap_range; lia|]. unfold in_width. lia.
Qed.

Lemma number_u32 value : in_width 32 (u32 (number value)).
Proof. apply uwrap_range. lia. Qed.

#[export] Instance monitor_field_parser : FieldParser monitor_wf parse_monitor_field.
Proof.
  split; intros field_name buf m; [intros Hm| |intros Hm]; unfold parse_monitor_field.
  { destruct (c_str buf) as [value|]; [|done]. cbn beta iota zeta.
    pose proof (strtoull_range value 0). pose proof (number_u32 value).
    destruct Hm as (? & ? & ?). unfold monitor_wf, unumber in *.
    repeat case_if; cbn; auto. }
  { with_value buf. repeat case_if; auto with doca. }
  apply tame_bind; [apply tame_c_str|intros value _]. repeat case_if; auto with doca.
Qed.

Definition fwd_state_wf (s : fwd_env * doca_flow_fwd) : Prop :=
  rss_wf (fwd_rss s.1) /\ fwd_wf s.2.

Lemma fwd_store_wf off n v f :
  (off + n <= 32)%nat -> fwd_wf f -> fwd_wf (Fwd (fwd_type f) (store off n v (fwd_raw f))).
Proof. unfold fwd_wf. cbn. intros ? E. rewrite length_store; lia. Qed.

Lemma parse_fwd_rss_queues_wf malloc_ok buf s :
  fwd_state_wf s -> keeps fwd_state_wf (parse_fwd_rss_queues malloc_ok buf s).
Proof.
  destruct s as [g f]. intros [Hr Hf]. unfold parse_fwd_rss_queues.
  destruct (parse_rss_queues _ _ _ _) as [[r e]|] eqn:E; [|done].
  apply parse_rss_queues_wf in E as [Hr' He]; [|done].
  destruct He as [[-> _]|[-> _]]; cbn; split; try done. by apply fwd_store_wf; [lia|].
Qed.

Lemma no_fuel_rss_queues malloc_ok str num m : no_fuel (parse_rss_queues malloc_ok str num m).
Proof.
  unfold no_fuel, parse_rss_queues, free_rss. intros E.
  assert (forall n i str m, rss_loop n i str m <> Undef OutOfFuel) as Hloop.
  { clear. induction n as [|n IH]; intros i str m; cbn [rss_loop]; [done|].
    unfold c_str. destruct (cstr_of str); [|done]. cbn [of_option].
    unfold set_rss at 1. destruct (blocks m !! _); [|done]. case_if; [|done]. apply IH. }
  assert (forall m1, (if rss_queues m1 =? 0 then Ret (m1, DOCA_ERROR_NO_MEMORY) else
    let* (m, str) := rss_loop (Z.to_nat (num - 1)) 0 str m1 in
    let* s := c_str str in
    let* m := set_rss (num - 1) (fst (strtol s 0)) m in Ret (m, DOCA_SUCCESS))
    <> Undef OutOfFuel) as Hrest.
  { intros m1. case_if; [done|]. specialize (Hloop (Z.to_nat (num - 1)) 0 str m1).
    destruct (rss_loop _ _ _ _) as [[m2 str2]|[]]; try done.
    unfold c_str. destruct (cstr_of str2); [|done]. cbn [of_option].
    unfold set_rss. destruct (blocks m2 !! _); [|done]. by case_if. }
  destruct (rss_queues m =? 0); [|destruct (blocks m !! rss_queues m); [|done]];
    exact (Hrest _ E).
Qed.

Lemma no_fuel_fwd_rss_queues malloc_ok buf s : no_fuel (parse_fwd_rss_queues malloc_ok buf s).
Proof.
  destruct s as [g f]. unfold no_fuel, parse_fwd_rss_queues.
  pose proof (no_fuel_rss_queues malloc_ok buf (num_of_queues f) (fwd_rss g)) as H.
  unfold no_fuel in H. destruct (parse_rss_queues _ _ _ _) as [[r []]|]; try done. congruence.
Qed.

#[export] Hint Resolve no_fuel_fwd_rss_queues : doca.

Lemma tame_fwd_rss_queues malloc_ok buf s :
  fwd_state_wf s -> tame (parse_fwd_rss_queues malloc_ok buf s).
Proof.
  destruct s as [g f]. intros [Hr _]. unfold parse_fwd_rss_queues. cbn [fst snd] in Hr.
  apply tame_bind; [|by intros [r []]].
  destruct (malloc_ok (u64 (2 * num_of_queues f))) eqn:Hm.
  - rewrite parse_rss_queues_eq by done. case_decide; [|cbn; unfold reading_error; auto].
    destruct (rss_read _ _) as [[vs t]|]; cbn; unfold reading_error; auto.
  - unfold parse_rss_queues. destruct (free_rss_spec _ Hr) as (bs & -> & _).
    unfold malloc_rss. by rewrite Hm.
Qed.

#[export] Instance fwd_field_parser malloc_ok :
  FieldParser fwd_state_wf (parse_fwd_field malloc_ok).
Proof.
  split; intros field_name buf [g f]; [intros Hs| |intros Hs]; unfold parse_fwd_field.
  { destruct (c_str buf) as [value|]; [|done]. cbn beta iota zeta.
    pose proof Hs as [? ?]. repeat case_if;
      try (apply keeps_write; [done | split; done]); try by apply parse_fwd_rss_queues_wf.
    all: cbn [keeps ok fail]; first [done | split; [done | by apply fwd_store_wf; [lia|]]]. }
  { with_value buf. repeat case_if; auto with doca. }
  apply tame_bind; [apply tame_c_str|intros value _]. pose proof (tame_fwd_rss_queues malloc_ok buf (g, f) Hs).
  repeat case_if; auto with doca.
Qed.

#[export] Instance fwd_miss_field_parser malloc_ok :
  FieldParser fwd_state_wf (parse_fwd_miss_field malloc_ok).
Proof.
  split; intros field_name buf [g f]; [intros Hs| |intros Hs]; unfold parse_fwd_miss_field.
  { destruct (c_str buf) as [value|]; [|done]. cbn beta iota zeta.
    pose proof Hs as [? ?]. repeat case_if;
      try (apply keeps_write; [done | split; done]); try by apply parse_fwd_rss_queues_wf.
    all: cbn [keeps ok fail]; first [done | split; [done | by apply fwd_store_wf; [lia|]]]. }
  { with_value buf. repeat case_if; auto with doca. }
  apply tame_bind; [apply tame_c_str|intros value _]. pose proof (tame_fwd_rss_queues malloc_ok buf (g, f) Hs).
  repeat case_if; auto with doca.
Qed.

(** ** Behaviour of the match fields *)

(** Evaluate the comparisons of a literal field name. *)
Ltac eval_fields :=
  repeat match goal with
  | |- context [field_is ?a ?b] =>
      let v := eval vm_compute in (field_is a b) in
      change (field_is a b) with v; cbn beta iota zeta
  end.

(** A value held in a buffer. *)
Definition c_buf (value : list ascii) : list ascii := value ++ [NUL].

Lemma c_str_buf value : no_nul value -> c_str (c_buf value) = Ret value.
Proof. intros H. unfold c_str, c_buf. by rewrite cstr_of_app. Qed.

(** The names the match parser knows, with a value and a structure each accepts. *)
Definition match_samples : list (string * string) :=
  [("flags", "0"); ("port_meta", "1"); ("outer.eth.src_mac", "1:2:3:4:5:6");
   ("outer.eth.dst_mac", "1:2:3:4:5:6"); ("outer.eth.type", "0"); ("outer.eth_vlan[0].tci", "1");
   ("outer.eth_vlan[1].tci", "1"); ("outer.l3_type", "ipv4"); ("outer.src_ip_addr", "1.2.3.4");
   ("outer.dst_ip_addr", "1.2.3.4"); ("outer.l4_type_ext", "tcp"); ("outer.tcp.flags", "SYN");
   ("outer.tcp_src_port", "1"); ("outer.tcp_dst_port", "1"); ("outer.udp_src_port", "1");
   ("outer.udp_dst_port", "1"); ("tun_type", "gre"); ("vxlan_tun_id", "1"); ("gre_key", "1");
   ("gtp_teid", "1"); ("inner.eth.src_mac", "1:2:3:4:5:6"); ("inner.eth.dst_mac", "1:2:3:4:5:6");
   ("inner.eth.type", "0"); ("inner.eth_vlan[0].tci", "1"); ("inner.eth_vlan[1].tci", "1");
   ("inner.l3_type", "ipv4"); ("inner.src_ip_addr", "1.2.3.4"); ("inner.dst_ip_addr", "1.2.3.4");
   ("inner.l4_type_ext", "tcp"); ("inner.tcp.flags", "SYN"); ("inner.tcp_src_port", "1");
   ("inner.tcp_dst_port", "1"); ("inner.udp_src_port", "1"); ("inner.udp_dst_port", "1")]%string.

Definition match_fields : list (list ascii) := map (fun p => lit (fst p)) match_samples.

Definition ip4_match : doca_flow_match :=
  on_inner (set_l3_type DOCA_FLOW_L3_TYPE_IP4)
    (on_outer (set_l3_type DOCA_FLOW_L3_TYPE_IP4) match_zero).

Definition accepted {S} (o : outcome (S * doca_error_t)) : bool :=
  match o with Ret (_, DOCA_SUCCESS) => true | _ => false end.

Lemma accepted_spec {S} (o : outcome (S * doca_error_t)) :
  accepted o = true <-> exists s, o = Ret (s, DOCA_SUCCESS).
Proof.
  split; [|by intros [s ->]]. destruct o as [[s []]|]; try done. by exists s.
Qed.

Lemma match_samples_accepted :
  forallb (fun p => accepted (parse_match_field (lit (fst p)) (c_buf (lit (snd p))) ip4_match))
    match_samples = true.
Proof. vm_compute. reflexivity. Qed.

Lemma not_field field_name name (names : list (list ascii)) :
  field_name ∉ names -> lit name ∈ names -> field_is field_name name = false.
Proof.
  intros Hn Hin. apply not_true_is_false. intros E. apply streq_spec in E. by subst.
Qed.

Lemma parse_match_field_unknown field_name buf value m :
  c_str buf = Ret value -> field_name ∉ match_fields ->
  parse_match_field field_name buf m = Ret (m, DOCA_ERROR_INVALID_VALUE).
Proof.
  intros Hv Hn. unfold parse_match_field. rewrite Hv. cbn beta iota zeta.
  rewrite !(not_field field_name _ match_fields) by (done || by apply list_elem_of_In; vm_compute; tauto).
  done.
Qed.

(** The match parser accepts some value for a field exactly when the field is
    one of its 34 names, and leaves the structure as it is for any other. *)
Theorem parse_match_field_names field_name :
  (field_name ∈ match_fields <->
   exists value m, accepted (parse_match_field field_name (c_buf value) m) = true)
  /\ (field_name ∉ match_fields -> forall value m, no_nul value ->
      parse_match_field field_name (c_buf value) m = Ret (m, DOCA_ERROR_INVALID_VALUE)).
Proof.
  split.
  - split.
    + intros (p & <- & Hin)%list_elem_of_In%in_map_iff.
      exists (lit (snd p)), ip4_match. pose proof match_samples_accepted as H.
      rewrite forallb_forall in H. apply (H _ Hin).
    + intros (value & m & Hacc). apply dec_stable. intros Hn.
      destruct (c_str (c_buf value)) as [v|w] eqn:Hv.
      * by rewrite (parse_match_field_unknown _ _ v) in Hacc.
      * unfold parse_match_field in Hacc. by rewrite Hv in Hacc.
  - intros Hn value m Hv. eapply parse_match_field_unknown; [by apply c_str_buf|done].
Qed.

Lemma parse_match_field_names_witness :
  parse_match_field (lit "outer.ip4.ttl") (c_buf (lit "64")) match_zero =
    Ret (match_zero, DOCA_ERROR_INVALID_VALUE).
Proof.
  apply (parse_match_field_names (lit "outer.ip4.ttl")).
  - apply (bool_decide_unpack _). vm_compute. exact I.
  - unfold no_nul. apply (bool_decide_unpack _). vm_compute. exact I.
Defined.

(** A literal has no terminator inside. *)
Ltac lit_no_nul := unfold no_nul; apply (bool_decide_unpack _); vm_compute; exact I.

Lemma dec_no_nul n : no_nul (dec n).
Proof. apply not_in_dec. vm_compute. intros [? ?]. congruence. Qed.

Lemma dotted_no_nul a b c d : no_nul (dotted a b c d).
Proof.
  unfold no_nul, dotted.
  repeat first [rewrite not_elem_of_app | rewrite not_elem_of_cons].
  split_and!; try apply dec_no_nul; discriminate.
Qed.

Lemma ip4_src_ip_set v h :
  header_wf h -> in_width 32 v -> ip4_src_ip (set_ip4_src_ip v h) = v.
Proof.
  intros [] Hv. unfold ip4_src_ip, set_ip4_src_ip. cbn.
  rewrite load_store_eq by lia. by apply uwrap_id.
Qed.

Lemma ip4_dst_ip_set v h :
  header_wf h -> in_width 32 v -> ip4_dst_ip (set_ip4_dst_ip v h) = v.
Proof.
  intros [] Hv. unfold ip4_dst_ip, set_ip4_dst_ip. cbn.
  rewrite load_store_eq by lia. by apply uwrap_id.
Qed.

Lemma ip4_src_ip_set_dst v h :
  header_wf h -> ip4_src_ip (set_ip4_dst_ip v h) = ip4_src_ip h.
Proof.
  intros []. unfold ip4_src_ip, set_ip4_dst_ip. cbn. by rewrite load_store_ne by lia.
Qed.

(** An IPv4 5-tuple address pair given as [outer.l3_type=ipv4],
    [outer.src_ip_addr=a.b.c.d], [outer.dst_ip_addr=e.f.g.h] is stored in network
    byte order, and the inner headers are not touched. *)
Theorem match_ip4_pair_roundtrip m a b c d e f g h :
  match_wf m ->
  Forall (in_width 8) [a; b; c; d; e; f; g; h] ->
  exists m1 m2 m3,
    parse_match_field (lit "outer.l3_type") (c_buf (lit "ipv4")) m = Ret (m1, DOCA_SUCCESS)
    /\ parse_match_field (lit "outer.src_ip_addr") (c_buf (dotted a b c d)) m1
       = Ret (m2, DOCA_SUCCESS)
    /\ parse_match_field (lit "outer.dst_ip_addr") (c_buf (dotted e f g h)) m2
       = Ret (m3, DOCA_SUCCESS)
    /\ le_bytes 4 (ip4_src_ip (outer m3)) = [a; b; c; d]
    /\ le_bytes 4 (ip4_dst_ip (outer m3)) = [e; f; g; h]
    /\ inner m3 = inner m /\ match_tun m3 = match_tun m.
Proof.
  intros Hm Hr. rewrite !Forall_cons in Hr. destruct Hr as (? & ? & ? & ? & ? & ? & ? & ? & _).
  set (m1 := on_outer (set_l3_type DOCA_FLOW_L3_TYPE_IP4) m).
  set (m2 := on_outer (set_ip4_src_ip (BE_IPV4_ADDR a b c d)) m1).
  set (m3 := on_outer (set_ip4_dst_ip (BE_IPV4_ADDR e f g h)) m2).
  assert (header_wf (outer m2)) as Hw2.
  { cbn. apply set_ip4_src_ip_wf, set_l3_type_wf, wf_outer, Hm. }
  assert (header_wf (outer m1)) as Hw1 by (cbn; apply set_l3_type_wf, wf_outer, Hm).
  exists m1, m2, m3. unfold parse_match_field.
  rewrite !c_str_buf by (apply dotted_no_nul || lit_no_nul).
  eval_fields. unfold parse_src_ip_addr, parse_dst_ip_addr, within.
  change (l3_type (outer m1)) with DOCA_FLOW_L3_TYPE_IP4.
  change (l3_type (outer m2)) with DOCA_FLOW_L3_TYPE_IP4. cbn iota.
  rewrite !parse_ipv4_dotted by done.
  split_and!; [done..| | |done|done].
  - unfold m3. cbn [outer on_outer]. rewrite ip4_src_ip_set_dst by done.
    unfold m2. cbn [outer on_outer]. rewrite ip4_src_ip_set by (done || apply bswap_range).
    by apply BE_IPV4_ADDR_bytes.
  - unfold m3. cbn [outer on_outer]. rewrite ip4_dst_ip_set by (done || apply bswap_range).
    by apply BE_IPV4_ADDR_bytes.
Qed.

Lemma match_ip4_pair_roundtrip_witness :
  exists m1 m2 m3,
    parse_match_field (lit "outer.l3_type") (c_buf (lit "ipv4")) match_zero = Ret (m1, DOCA_SUCCESS)
    /\ parse_match_field (lit "outer.src_ip_addr") (c_buf (dotted 10 0 0 1)) m1
       = Ret (m2, DOCA_SUCCESS)
    /\ parse_match_field (lit "outer.dst_ip_addr") (c_buf (dotted 192 168 1 255)) m2
       = Ret (m3, DOCA_SUCCESS)
    /\ le_bytes 4 (ip4_src_ip (outer m3)) = [10; 0; 0; 1]
    /\ le_bytes 4 (ip4_dst_ip (outer m3)) = [192; 168; 1; 255]
    /\ inner m3 = inner match_zero /\ match_tun m3 = match_tun match_zero.
Proof.
  apply (match_ip4_pair_roundtrip match_zero 10 0 0 1 192 168 1 255).
  - apply match_zero_wf.
  - apply (bool_decide_unpack _). vm_compute. exact I.
Defined.

(** An address given before its [l3_type] is rejected and nothing is written. *)
Theorem match_ip_needs_l3_type m value :
  no_nul value -> l3_type (outer m) = DOCA_FLOW_L3_TYPE_NONE ->
  l3_type (inner m) = DOCA_FLOW_L3_TYPE_NONE ->
  Forall (fun f => parse_match_field (lit f) (c_buf value) m = Ret (m, DOCA_ERROR_INVALID_VALUE))
    ["outer.src_ip_addr"; "outer.dst_ip_addr"; "inner.src_ip_addr"; "inner.dst_ip_addr"]%string.
Proof.
  intros Hv Ho Hi.
  repeat (apply Forall_cons_2;
    [unfold parse_match_field; rewrite c_str_buf by done; eval_fields;
     unfold within, parse_src_ip_addr, parse_dst_ip_addr; rewrite ?Ho, ?Hi; by destruct m|]).
  apply Forall_nil_2.
Qed.

Lemma match_ip_needs_l3_type_witness :
  Forall (fun f => parse_match_field (lit f) (c_buf (lit "1.2.3.4")) match_zero
                   = Ret (match_zero, DOCA_ERROR_INVALID_VALUE))
    ["outer.src_ip_addr"; "outer.dst_ip_addr"; "inner.src_ip_addr"; "inner.dst_ip_addr"]%string.
Proof. apply match_ip_needs_l3_type; [lit_no_nul | reflexivity | reflexivity]. Defined.

(** Network byte order of a 16-bit value. *)
Lemma le_bytes_be16 v : in_width 16 v -> le_bytes 2 (bswap 2 v) = [v / 256; v mod 256].
Proof.
  intros Hv. unfold in_width in Hv. rewrite le_bytes_bswap. cbn.
  rewrite (Z.mod_small (v / 256)); [done|].
  split; [apply Z.div_pos; lia | apply Z.div_lt_upper_bound; lia].
Qed.

Lemma number_dec n : 0 <= n < 2 ^ 63 -> number (dec n) = n.
Proof.
  intros H. unfold number. rewrite <-(app_nil_r (dec n)), strtol_dec; [done|by right|done|done].
Qed.

(** The port fields of a match keep the number in network byte order, and each
    [inner.*_port] field is stored in the outer headers: the value given for the
    inner port overwrites the outer one and the inner headers never change. *)
Theorem match_port_fields m n :
  match_wf m -> in_width 16 n ->
  Forall (fun f => exists m',
      parse_match_field (lit f) (c_buf (dec n)) m = Ret (m', DOCA_SUCCESS)
      /\ le_bytes 2 (l4_src_port (outer m')) = [n / 256; n mod 256]
      /\ l4_dst_port (outer m') = l4_dst_port (outer m) /\ inner m' = inner m)
    ["outer.tcp_src_port"; "outer.udp_src_port"; "inner.tcp_src_port"; "inner.udp_src_port"]%string
  /\ Forall (fun f => exists m',
      parse_match_field (lit f) (c_buf (dec n)) m = Ret (m', DOCA_SUCCESS)
      /\ le_bytes 2 (l4_dst_port (outer m')) = [n / 256; n mod 256]
      /\ l4_src_port (outer m') = l4_src_port (outer m) /\ inner m' = inner m)
    ["outer.tcp_dst_port"; "outer.udp_dst_port"; "inner.tcp_dst_port"; "inner.udp_dst_port"]%string.
Proof.
  intros Hm Hn. destruct (wf_outer m Hm) as [_ _ _ _ Hl4].
  split; repeat (apply Forall_cons_2;
    [eexists; split;
      [unfold parse_match_field; rewrite c_str_buf by apply dec_no_nul; eval_fields; reflexivity|];
     cbn [outer inner on_outer];
     unfold l4_src_port, l4_dst_port, set_tcp_src_port, set_udp_src_port, set_tcp_dst_port,
       set_udp_dst_port; cbn [l4 set_l4];
     rewrite load_store_eq, load_store_ne by lia;
     unfold be16_number; rewrite number_dec by (unfold in_width in Hn; lia);
     rewrite (uwrap_id 16 n) by done;
     rewrite Z.mod_small by apply (bswap_range 2);
     rewrite le_bytes_be16 by done; done|]).
  all: apply Forall_nil_2.
Qed.

Lemma match_port_fields_witness :
  exists m', parse_match_field (lit "inner.udp_dst_port") (c_buf (dec 4789)) match_zero
             = Ret (m', DOCA_SUCCESS)
    /\ le_bytes 2 (l4_dst_port (outer m')) = [18; 181]
    /\ l4_src_port (outer m') = l4_src_port (outer match_zero) /\ inner m' = inner match_zero.
Proof.
  destruct (match_port_fields match_zero 4789 match_zero_wf) as [_ H].
  - by vm_compute.
  - repeat (apply Forall_cons in H as [_ H]; try by apply Forall_cons in H as [H _]).
Defined.

(** The same port given to the actions is stored in host byte order, although
    the member has the big-endian type: on the little-endian hosts the bytes are
    swapped compared with the match. *)
Theorem actions_port_host_order a n :
  actions_wf a -> in_width 16 n ->
  Forall (fun f => exists a',
      parse_actions_field (lit f) (c_buf (dec n)) a = Ret (a', DOCA_SUCCESS)
      /\ le_bytes 2 (l4_src_port (act_outer a')) = [n mod 256; n / 256])
    ["outer.tcp_src_port"; "outer.udp_src_port"]%string.
Proof.
  intros Ha Hn. destruct (wf_act_outer a Ha) as [_ _ _ _ Hl4].
  repeat (apply Forall_cons_2;
    [eexists; split;
      [unfold parse_actions_field; rewrite c_str_buf by apply dec_no_nul; eval_fields; reflexivity|];
     cbn [act_outer on_act_outer];
     unfold l4_src_port, set_tcp_src_port, set_udp_src_port; cbn [l4 set_l4];
     rewrite load_store_eq by lia;
     rewrite number_dec by (unfold in_width in Hn; lia);
     rewrite Z.mod_small by apply Hn; unfold in_width in Hn; cbn;
     rewrite (Z.mod_small (n / 256))
       by (split; [apply Z.div_pos; lia | apply Z.div_lt_upper_bound; lia]); done|]).
  apply Forall_nil_2.
Qed.

Lemma actions_port_host_order_witness :
  Forall (fun f => exists a',
      parse_actions_field (lit f) (c_buf (dec 80)) actions_zero = Ret (a', DOCA_SUCCESS)
      /\ le_bytes 2 (l4_src_port (act_outer a')) = [80; 0])
    ["outer.tcp_src_port"; "outer.udp_src_port"]%string.
Proof.
  apply (actions_port_host_order actions_zero 80); [apply actions_zero_wf | by vm_compute].
Defined.
