(* ===== verification/FlowStruct.v ===== *)
(** * The structure parser of the flow command line: [parse_struct]

    [parse_struct] walks over [name=value,name=value,...] and calls a field
    parser for every pair.  The text is the array of the command line interface
    from the current position on, so that a position that leaves the text reads
    the bytes after its terminator, and one that leaves the array is undefined. *)
From S2P Require Import Prelude CString FlowTypes FlowValues FlowFields.

Definition MAX_CMDLINE_INPUT_LEN : nat := 512.
Definition MAX_FIELD_INPUT_LEN : nat := 128.

(** The string in an array of [n] characters after [strlcpy(array, s, n)]. *)
Definition copy_str (n : nat) (s : list ascii) : list ascii := take (n - 1) s.

Section parse_struct.
Context {S : Type} (fill_struct : list ascii -> list ascii -> S -> outcome (S * doca_error_t)).

(** The loop; [value] is the local array, whose old contents remain behind the
    terminator of the current value. *)
Fixpoint parse_struct_loop (fuel : nat) (struct_str value : list ascii) (s : S)
    : outcome (S * doca_error_t) :=
  match fuel with
  | O => Undef OutOfFuel
  | Datatypes.S fuel =>
      let* str := c_str struct_str in
      match strtok (copy_str MAX_CMDLINE_INPUT_LEN str) "="%char with
      | None => Ret (s, DOCA_ERROR_INVALID_VALUE)
      | Some tmp =>
          let field_name := copy_str MAX_FIELD_INPUT_LEN tmp in
          let struct_str := drop (length field_name + 1) struct_str in
          let* str := c_str struct_str in
          match strtok (copy_str MAX_CMDLINE_INPUT_LEN str) ","%char with
          | None => Ret (s, DOCA_ERROR_INVALID_VALUE)
          | Some tmp =>
              let* (value, _) := strlcpy value tmp MAX_FIELD_INPUT_LEN in
              let* v := c_str value in
              match drop (length v) struct_str with
              | [] => Undef OutOfBounds
              | tmp_char :: struct_str =>
                  let* (s, result) := fill_struct field_name value s in
                  match result with
                  | DOCA_SUCCESS =>
                      if bool_decide (tmp_char = ","%char)
                      then parse_struct_loop fuel struct_str value s
                      else Ret (s, DOCA_SUCCESS)
                  | _ => Ret (s, result)
                  end
              end
          end
      end
  end.

(** [value] is the indeterminate contents of the local array on entry. *)
Definition parse_struct (struct_str value : list ascii) (s : S) : outcome (S * doca_error_t) :=
  parse_struct_loop (Datatypes.S (length struct_str)) struct_str value s.

(** The specification: the field parser on every pair in order, until one is
    rejected. *)
Fixpoint fill_all (fs : list (list ascii * list ascii)) (s : S) : outcome (S * doca_error_t) :=
  match fs with
  | [] => Ret (s, DOCA_SUCCESS)
  | (n, v) :: fs' =>
      let* (s, result) := fill_struct n (c_buf v) s in
      match result with DOCA_SUCCESS => fill_all fs' s | _ => Ret (s, result) end
  end.
End parse_struct.

(** A field parser that reads its value only up to the terminator. *)
Class LocalFieldParser {S : Type}
    (fill : list ascii -> list ascii -> S -> outcome (S * doca_error_t)) : Prop := {
  fill_local : forall n b1 b2 v s, c_str b1 = Ret v -> c_str b2 = Ret v -> fill n b1 s = fill n b2 s;
}.

(** A pair the parser can represent. *)
Record field_ok (f : list ascii * list ascii) : Prop := {
  name_nonempty : f.1 <> [];
  name_no_eq : "="%char ∉ f.1;
  name_no_nul : no_nul f.1;
  name_fits : (length f.1 < MAX_FIELD_INPUT_LEN)%nat;
  value_nonempty : f.2 <> [];
  value_no_comma : ","%char ∉ f.2;
  value_no_nul : no_nul f.2;
  value_fits : (length f.2 < MAX_FIELD_INPUT_LEN)%nat;
}.

(** The command line text of a list of fields. *)
Fixpoint render_fields (fs : list (list ascii * list ascii)) : list ascii :=
  match fs with
  | [] => []
  | [(n, v)] => n ++ "="%char :: v
  | (n, v) :: fs' => n ++ "="%char :: v ++ ","%char :: render_fields fs'
  end.

(** ** Reading one pair *)

Lemma cstr_of_prefix p t : no_nul p -> cstr_of (p ++ t) = (fun r => p ++ r) <$> cstr_of t.
Proof.
  unfold no_nul. induction p as [|c p IH]; intros Hp; cbn [app cstr_of].
  - by destruct (cstr_of t).
  - apply not_elem_of_cons in Hp as [Hc Hp].
    rewrite bool_decide_eq_false_2, IH by (done || congruence). by destruct (cstr_of t).
Qed.

Lemma copy_str_short n s : (length s < n)%nat -> copy_str n s = s.
Proof. intros. unfold copy_str. rewrite take_ge; [done | lia]. Qed.

(** The token before a delimiter survives the truncating copy. *)
Lemma strtok_copy d tok t :
  tok <> [] -> d ∉ tok -> (length tok < MAX_FIELD_INPUT_LEN)%nat ->
  strtok (copy_str MAX_CMDLINE_INPUT_LEN (tok ++ d :: t)) d = Some tok.
Proof.
  unfold MAX_FIELD_INPUT_LEN, MAX_CMDLINE_INPUT_LEN. intros Hne Hd Hl. unfold copy_str.
  rewrite take_app_ge by lia.
  replace (512 - 1 - length tok)%nat with (S (510 - length tok)) by lia.
  cbn [take firstn]. by apply strtok_token.
Qed.

Lemma strtok_copy_last d tok :
  tok <> [] -> d ∉ tok -> (length tok < MAX_FIELD_INPUT_LEN)%nat ->
  strtok (copy_str MAX_CMDLINE_INPUT_LEN tok) d = Some tok.
Proof.
  unfold MAX_FIELD_INPUT_LEN, MAX_CMDLINE_INPUT_LEN. intros Hne Hd Hl.
  rewrite copy_str_short by lia. by apply strtok_last.
Qed.

Lemma strlcpy_value value v :
  length value = MAX_FIELD_INPUT_LEN -> (length v < MAX_FIELD_INPUT_LEN)%nat ->
  strlcpy value v MAX_FIELD_INPUT_LEN = Ret (v ++ NUL :: drop (S (length v)) value, length v).
Proof.
  unfold MAX_FIELD_INPUT_LEN. intros Hl Hv. unfold strlcpy.
  rewrite (proj2 (Nat.ltb_lt 0 128)) by lia. rewrite Nat.min_l by lia.
  rewrite (proj2 (Nat.ltb_lt _ _)) by lia. by rewrite take_ge by lia.
Qed.

Section step.
Context {S : Type} (fill_struct : list ascii -> list ascii -> S -> outcome (S * doca_error_t)).

(** One iteration, on a pair followed by a comma or by the terminator. *)
Lemma parse_struct_step fuel n v c rest t value s :
  field_ok (n, v) -> length value = MAX_FIELD_INPUT_LEN ->
  cstr_of (c :: rest) = Some t -> c = NUL \/ c = ","%char ->
  parse_struct_loop fill_struct (Datatypes.S fuel) (n ++ "="%char :: v ++ c :: rest) value s =
    let value := v ++ NUL :: drop (Datatypes.S (length v)) value in
    let* (s, result) := fill_struct n value s in
    match result with
    | DOCA_SUCCESS =>
        if bool_decide (c = ","%char) then parse_struct_loop fill_struct fuel rest value s
        else Ret (s, DOCA_SUCCESS)
    | _ => Ret (s, result)
    end.
Proof using Type.
  intros [] Hval Ht Hc. cbn [fst snd] in *. cbn [parse_struct_loop]. unfold c_str at 1.
  rewrite (cstr_of_prefix n) by done. cbn [cstr_of]. rewrite bool_decide_eq_false_2 by done.
  rewrite (cstr_of_prefix v) by done. rewrite Ht. cbn [fmap option_fmap option_map of_option].
  rewrite strtok_copy by done. rewrite copy_str_short by done.
  replace (drop (length n + 1) (n ++ "="%char :: v ++ c :: rest)) with (v ++ c :: rest)
    by (by rewrite drop_app_add).
  unfold c_str at 1. rewrite (cstr_of_prefix v) by done. rewrite Ht.
  cbn [fmap option_fmap option_map of_option].
  assert (strtok (copy_str MAX_CMDLINE_INPUT_LEN (v ++ t)) ","%char = Some v) as ->.
  { destruct Hc as [-> | ->]; cbn [cstr_of] in Ht.
    - rewrite bool_decide_eq_true_2 in Ht by done. injection Ht as <-.
      rewrite app_nil_r. by apply strtok_copy_last.
    - rewrite bool_decide_eq_false_2 in Ht by done.
      destruct (cstr_of rest); [|done]. injection Ht as <-. by apply strtok_copy. }
  rewrite strlcpy_value by done. cbn beta iota zeta.
  unfold c_str. rewrite cstr_of_app by done. cbn [of_option].
  by rewrite drop_app_length.
Qed.

Lemma length_value_buf (v value : list ascii) :
  length value = MAX_FIELD_INPUT_LEN -> (length v < MAX_FIELD_INPUT_LEN)%nat ->
  length (v ++ NUL :: drop (Datatypes.S (length v)) value) = MAX_FIELD_INPUT_LEN.
Proof using Type. intros. rewrite length_app, length_cons, length_drop. lia. Qed.

Lemma render_fields_cons n v f fs :
  render_fields ((n, v) :: f :: fs) = n ++ "="%char :: v ++ ","%char :: render_fields (f :: fs).
Proof using Type. done. Qed.

Lemma render_fields_no_nul fs : Forall field_ok fs -> no_nul (render_fields fs).
Proof using Type.
  unfold no_nul. induction 1 as [|[n v] [|f fs] [] _ IH]; cbn [fst snd] in *.
  - apply not_elem_of_nil.
  - cbn [render_fields]. rewrite not_elem_of_app, not_elem_of_cons. done.
  - rewrite render_fields_cons, not_elem_of_app, not_elem_of_cons, not_elem_of_app,
      not_elem_of_cons. done.
Qed.

Context {Hlocal : LocalFieldParser fill_struct}.

Lemma fill_value_buf n v value s :
  no_nul v -> fill_struct n (v ++ NUL :: drop (Datatypes.S (length v)) value) s
              = fill_struct n (c_buf v) s.
Proof using Hlocal.
  intros Hv. apply (fill_local n _ _ v); [unfold c_str; by rewrite cstr_of_app|].
  by apply c_str_buf.
Qed.

Lemma parse_struct_loop_render fuel fs rest value s :
  fs <> [] -> Forall field_ok fs -> length value = MAX_FIELD_INPUT_LEN ->
  (length fs <= fuel)%nat ->
  parse_struct_loop fill_struct fuel (render_fields fs ++ NUL :: rest) value s
    = fill_all fill_struct fs s.
Proof using Hlocal.
  revert fs value s. induction fuel as [|fuel IH]; intros fs value s Hne Hok Hval Hfuel.
  { by destruct fs; [|cbn in Hfuel; lia]. }
  destruct fs as [|[n v] [|f fs]]; [done| |].
  - apply Forall_cons in Hok as [Hf _]. cbn [render_fields]. rewrite <-app_assoc. cbn [app].
    rewrite (parse_struct_step _ _ _ _ _ [] _ _ Hf Hval) by (done || by left).
    cbv zeta. rewrite fill_value_buf by apply Hf. cbn [fill_all].
    by destruct (fill_struct n (c_buf v) s) as [[s' []]|].
  - apply Forall_cons in Hok as [Hf Hok].
    rewrite render_fields_cons, <-app_assoc. cbn [app]. rewrite <-app_assoc. cbn [app].
    rewrite (parse_struct_step _ _ _ _ _ (","%char :: render_fields (f :: fs)) _ _ Hf Hval)
      by (by right || (cbn [cstr_of]; rewrite bool_decide_eq_false_2, cstr_of_app
            by (done || by apply render_fields_no_nul); done)).
    cbv zeta. rewrite fill_value_buf by apply Hf.
    rewrite bool_decide_eq_true_2 by done. cbn [fill_all].
    destruct (fill_struct n (c_buf v) s) as [[s' []]|]; try done.
    apply IH; [done|done| |cbn in *; lia]. apply length_value_buf, Hf. done.
Qed.
End step.

(** ** The field parsers read their value up to the terminator *)

Lemma parse_src_ip_addr_local b1 b2 v h :
  c_str b1 = Ret v -> c_str b2 = Ret v -> parse_src_ip_addr b1 v h = parse_src_ip_addr b2 v h.
Proof.
  intros H1 H2. unfold parse_src_ip_addr. destruct (l3_type h); try done.
  by rewrite (parse_ipv6_undef b1 _ v H1), (parse_ipv6_undef b2 _ v H2).
Qed.

Lemma parse_dst_ip_addr_local b1 b2 v h :
  c_str b1 = Ret v -> c_str b2 = Ret v -> parse_dst_ip_addr b1 v h = parse_dst_ip_addr b2 v h.
Proof.
  intros H1 H2. unfold parse_dst_ip_addr. destruct (l3_type h); try done.
  by rewrite (parse_ipv6_undef b1 _ v H1), (parse_ipv6_undef b2 _ v H2).
Qed.

Ltac local_field :=
  split; intros n b1 b2 v s H1 H2;
  match goal with |- ?f _ _ _ = _ => unfold f end; rewrite H1, H2; cbn beta iota zeta;
  unfold within;
  rewrite ?(parse_src_ip_addr_local b1 b2 v _ H1 H2), ?(parse_dst_ip_addr_local b1 b2 v _ H1 H2);
  reflexivity.

#[export] Instance match_field_local : LocalFieldParser parse_match_field.
Proof. local_field. Qed.
#[export] Instance fw_match_field_local : LocalFieldParser parse_fw_match_field.
Proof. local_field. Qed.
#[export] Instance actions_field_local : LocalFieldParser parse_actions_field.
Proof. local_field. Qed.
#[export] Instance monitor_field_local : LocalFieldParser parse_monitor_field.
Proof. local_field. Qed.

(** ** Properties of [parse_struct] *)

Lemma length_render fs : Forall field_ok fs -> (length fs <= length (render_fields fs))%nat.
Proof.
  induction 1 as [|[n v] [|f fs] [] _ IH]; cbn [fst snd] in *; [done| |].
  - cbn. rewrite length_app. cbn. lia.
  - rewrite render_fields_cons. repeat (rewrite length_app; cbn [length]).
    cbn [length] in IH. lia.
Qed.

(** C40: On the text of a list of fields [parse_struct] applies the field parser to each
    of them in order, with exactly the name and the value of the pair, and stops at the
    first one that is rejected, with its code, whatever follows the text in the array
    and whatever the local array contained.  The names hold no equals sign, the values
    no comma, and both are shorter than the local arrays.  The field parser reads its
    value up to the terminator, as the instances show for the match, firewall match,
    actions and monitor parsers. *)
Theorem parse_struct_fields {S} (fill : list ascii -> list ascii -> S -> outcome (S * doca_error_t))
    `{!LocalFieldParser fill} fs rest value s :
  fs <> [] -> Forall field_ok fs -> length value = MAX_FIELD_INPUT_LEN ->
  parse_struct fill (render_fields fs ++ NUL :: rest) value s = fill_all fill fs s.
Proof.
  intros Hne Hok Hval. unfold parse_struct. apply parse_struct_loop_render; try done.
  rewrite length_app. pose proof (length_render fs Hok). lia.
Qed.

#[export] Instance field_ok_dec f : Decision (field_ok f).
Proof.
  refine (cast_if (decide (f.1 <> [] /\ ("="%char ∉ f.1) /\ (NUL ∉ f.1)
    /\ (length f.1 < MAX_FIELD_INPUT_LEN)%nat /\ f.2 <> [] /\ (","%char ∉ f.2) /\ (NUL ∉ f.2)
    /\ (length f.2 < MAX_FIELD_INPUT_LEN)%nat))).
  - match goal with H : _ /\ _ |- _ => destruct H as (? & ? & ? & ? & ? & ? & ? & ?) end.
    by apply Build_field_ok.
  - intros []. tauto.
Defined.

Definition sample_fields : list (list ascii * list ascii) :=
  [(lit "outer.l3_type", lit "ipv4"); (lit "outer.src_ip_addr", lit "8.8.8.8");
   (lit "outer.l4_type_ext", lit "udp"); (lit "outer.udp_dst_port", lit "53")].

Lemma parse_struct_fields_witness :
  parse_struct parse_match_field
    (lit "outer.l3_type=ipv4,outer.src_ip_addr=8.8.8.8,outer.l4_type_ext=udp,outer.udp_dst_port=53"
       ++ NUL :: lit "stale bytes") (replicate 128 "x"%char) match_zero
  = fill_all parse_match_field sample_fields match_zero.
Proof.
  apply (parse_struct_fields parse_match_field sample_fields).
  - discriminate.
  - apply (bool_decide_unpack _). vm_compute. exact I.
  - reflexivity.
Defined.

(** A text that lacks the equals sign is read past its terminator: the parser
    behaves as if the terminator were an equals sign and takes the bytes that
    follow the text in the array as the value. *)
Theorem parse_struct_missing_equals {S}
    (fill : list ascii -> list ascii -> S -> outcome (S * doca_error_t)) n rest value s :
  n <> [] -> "="%char ∉ n -> no_nul n -> (length n < MAX_FIELD_INPUT_LEN)%nat ->
  parse_struct fill (n ++ NUL :: rest) value s = parse_struct fill (n ++ "="%char :: rest) value s.
Proof.
  intros Hne Heq Hnul Hl. unfold parse_struct. rewrite !length_app. cbn [length].
  cbn [parse_struct_loop].
  assert (c_str (n ++ NUL :: rest) = Ret n) as -> by (unfold c_str; by rewrite cstr_of_app).
  assert (c_str (n ++ "="%char :: rest) = let* t := c_str rest in Ret (n ++ "="%char :: t)) as ->.
  { unfold c_str. rewrite (cstr_of_prefix n) by done. cbn [cstr_of].
    rewrite bool_decide_eq_false_2 by done. by destruct (cstr_of rest). }
  rewrite strtok_copy_last by done. rewrite copy_str_short by done.
  replace (drop (length n + 1) (n ++ NUL :: rest)) with rest by (by rewrite drop_app_add).
  destruct (c_str rest) as [t|] eqn:Et; [|done].
  rewrite strtok_copy, (copy_str_short MAX_FIELD_INPUT_LEN n) by done.
  replace (drop (length n + 1) (n ++ "="%char :: rest)) with rest by (by rewrite drop_app_add).
  by rewrite Et.
Qed.

Lemma parse_struct_missing_equals_witness :
  parse_struct parse_match_field (lit "port_meta" ++ NUL :: lit "77" ++ [NUL])
    (replicate 128 "x"%char) match_zero
  = parse_struct parse_match_field (lit "port_meta=77" ++ [NUL])
    (replicate 128 "x"%char) match_zero
  /\ parse_struct parse_match_field (lit "port_meta" ++ NUL :: lit "77" ++ [NUL])
    (replicate 128 "x"%char) match_zero = Ret (set_port_meta 77 match_zero, DOCA_SUCCESS).
Proof.
  split; [|by vm_compute].
  apply (parse_struct_missing_equals parse_match_field (lit "port_meta") (lit "77" ++ [NUL])).
  - discriminate.
  - apply (bool_decide_unpack _). vm_compute. exact I.
  - lit_no_nul.
  - vm_compute. lia.
Defined.

Lemma drop_cons_length {A} k (l : list A) c r : drop k l = c :: r -> (length r < length l)%nat.
Proof. intros E%(f_equal length). rewrite length_drop in E. cbn in E. lia. Qed.

Lemma parse_struct_loop_fuel {S}
    (fill : list ascii -> list ascii -> S -> outcome (S * doca_error_t)) f1 f2 str value s :
  (length str < f1)%nat -> (length str < f2)%nat ->
  parse_struct_loop fill f1 str value s = parse_struct_loop fill f2 str value s.
Proof.
  revert f2 str value s. induction f1 as [|f1 IH]; intros f2 str value s H1 H2; [lia|].
  destruct f2 as [|f2]; [lia|]. cbn [parse_struct_loop].
  destruct (c_str str); [|done]. destruct (strtok _ _) as [tmp|]; [|done].
  destruct (c_str (drop _ str)); [|done]. destruct (strtok _ _) as [tmp'|]; [|done].
  destruct (strlcpy value tmp' MAX_FIELD_INPUT_LEN) as [[value' ?]|]; [|done].
  destruct (c_str value'); [|done].
  destruct (drop _ (drop _ str)) as [|c r] eqn:E; [done|].
  rewrite drop_drop in E. apply drop_cons_length in E.
  destruct (fill _ _ s) as [[s' []]|]; try done.
  case_bool_decide; [|done]. apply IH; lia.
Qed.

Lemma parse_struct_loop_no_fuel {S}
    (fill : list ascii -> list ascii -> S -> outcome (S * doca_error_t)) fuel str value s :
  (forall n b s, no_fuel (fill n b s)) -> (length str < fuel)%nat ->
  parse_struct_loop fill fuel str value s <> Undef OutOfFuel.
Proof.
  intros Hfill. revert str value s. induction fuel as [|fuel IH]; intros str value s H; [lia|].
  cbn [parse_struct_loop].
  unfold c_str at 1. destruct (cstr_of str); [|done]. cbn [of_option].
  destruct (strtok _ _) as [tmp|]; [|done].
  unfold c_str at 1. destruct (cstr_of (drop _ str)); [|done]. cbn [of_option].
  destruct (strtok _ _) as [tmp'|]; [|done].
  unfold strlcpy. destruct (0 <? MAX_FIELD_INPUT_LEN)%nat; [case_if; [|done]|].
  all: unfold c_str; cbn beta iota zeta.
  all: destruct (cstr_of _); [|done]; cbn [of_option].
  all: destruct (drop _ (drop _ str)) as [|c r] eqn:E; [done|].
  all: rewrite drop_drop in E; apply drop_cons_length in E.
  all: specialize (Hfill (copy_str MAX_FIELD_INPUT_LEN tmp)).
  all: destruct (fill _ _ s) as [[s' []]|w] eqn:Ef; try done;
    [case_bool_decide; [apply IH; lia | done] | intros [= ->]; by eapply Hfill].
Qed.

(** The loop terminates: with the bound of [parse_struct] it never runs out, and
    any larger bound gives the same result, for every field parser. *)
Theorem parse_struct_terminates {S} (wf : S -> Prop)
    (fill : list ascii -> list ascii -> S -> outcome (S * doca_error_t))
    `{!FieldParser wf fill} fuel str value s :
  (length str < fuel)%nat ->
  parse_struct fill str value s <> Undef OutOfFuel
  /\ parse_struct_loop fill fuel str value s = parse_struct fill str value s.
Proof.
  intros Hfuel. split.
  - apply parse_struct_loop_no_fuel; [apply fill_no_fuel | lia].
  - apply parse_struct_loop_fuel; lia.
Qed.

Lemma parse_struct_terminates_witness :
  parse_struct parse_match_field (lit "a=b,c=d" ++ [NUL]) (replicate 128 "x"%char) match_zero
    <> Undef OutOfFuel
  /\ parse_struct_loop parse_match_field 1000 (lit "a=b,c=d" ++ [NUL]) (replicate 128 "x"%char)
       match_zero
     = parse_struct parse_match_field (lit "a=b,c=d" ++ [NUL]) (replicate 128 "x"%char) match_zero.
Proof. apply (parse_struct_terminates match_wf parse_match_field). vm_compute. lia. Defined.

Lemma parse_struct_keeps {S} (wf : S -> Prop)
    (fill : list ascii -> list ascii -> S -> outcome (S * doca_error_t))
    `{!FieldParser wf fill} str value s :
  wf s -> keeps wf (parse_struct fill str value s).
Proof.
  unfold parse_struct. generalize (Datatypes.S (length str)). intros fuel. revert str value s.
  induction fuel as [|fuel IH]; intros str value s Hs; [done|]. cbn [parse_struct_loop].
  destruct (c_str str); [|done]. destruct (strtok _ _) as [tmp|]; [|done].
  destruct (c_str (drop _ str)); [|done]. destruct (strtok _ _) as [tmp'|]; [|done].
  destruct (strlcpy value tmp' MAX_FIELD_INPUT_LEN) as [[value' ?]|]; [|done].
  destruct (c_str value'); [|done].
  destruct (drop _ (drop _ str)) as [|c r]; [done|].
  pose proof (fill_wf (copy_str MAX_FIELD_INPUT_LEN tmp) value' s Hs) as Hk.
  destruct (fill _ _ s) as [[s' []]|]; try done. case_bool_decide; [|done]. by apply IH.
Qed.

(** Reading a structure can go wrong only by reading. *)
Lemma parse_struct_tame {S} (wf : S -> Prop)
    (fill : list ascii -> list ascii -> S -> outcome (S * doca_error_t))
    `{!FieldParser wf fill} str value s :
  wf s -> tame (parse_struct fill str value s).
Proof.
  intros Hs. unfold parse_struct. assert (length str < Datatypes.S (length str))%nat as Hl by lia.
  revert Hl. generalize (Datatypes.S (length str)). intros fuel. revert str value s Hs.
  induction fuel as [|fuel IH]; intros str value s Hs Hl; [lia|]. cbn [parse_struct_loop].
  apply tame_bind; [apply tame_c_str|intros t _]. destruct (strtok _ _) as [tmp|]; [|done].
  apply tame_bind; [apply tame_c_str|intros t' _]. destruct (strtok _ _) as [tmp'|]; [|done].
  apply tame_bind; [|intros [value' k] _].
  { unfold strlcpy. cbn [Nat.ltb MAX_FIELD_INPUT_LEN]. case_if; [|done]. case_if; cbn; unfold reading_error; auto. }
  apply tame_bind; [apply tame_c_str|intros v _].
  destruct (drop _ (drop _ str)) as [|c r] eqn:E; [cbn; unfold reading_error; auto|].
  rewrite drop_drop in E. apply drop_cons_length in E.
  apply tame_bind; [by apply fill_tame|intros [s' e] Ef].
  pose proof (fill_wf (copy_str MAX_FIELD_INPUT_LEN tmp) value' s Hs) as Hk. rewrite Ef in Hk. cbn in Hk.
  destruct e; try done. case_bool_decide; [|done]. apply IH; [done|lia].
Qed.
