(* ===== verification/FlowParams.v ===== *)
(** * Parameter parsers of the flow command line (applications/common/flow_parser.c)

    The parameters of a command are a C string ([cmdline_fixed_string_t], shorter
    than the local copies): no parser advances past its terminator, so a position
    is the rest of the string.  The parsers share one loop shape, [params_loop];
    each iteration is a [step].  The copies into the local array [ptr] that
    overlap their source (the position points into [ptr] after a number) are
    modelled as copies of the source string. *)
From S2P Require Import Prelude CString FlowTypes FlowValues FlowFields FlowStruct.

(** Result of one iteration: continue behind the parameter, or return a code. *)
Inductive step (S : Type) : Type :=
| Next (params : list ascii) (s : S)
| Stop (s : S) (e : doca_error_t).
Arguments Next {S} _ _.
Arguments Stop {S} _ _.

(** [do { body; tmp_char = params[0]; params++; } while (tmp_char == ',')]: the
    state and the code of an early return. *)
Fixpoint params_loop {S} (body : list ascii -> S -> outcome (step S)) (fuel : nat)
    (params : list ascii) (s : S) : outcome (S * option doca_error_t) :=
  match fuel with
  | O => Undef OutOfFuel
  | Datatypes.S fuel =>
      let* r := body params s in
      match r with
      | Stop s e => Ret (s, Some e)
      | Next [] s => Ret (s, None)
      | Next (tmp_char :: params) s =>
          if bool_decide (tmp_char = ","%char) then params_loop body fuel params s
          else Ret (s, None)
      end
  end.

Definition run_params {S} (body : list ascii -> S -> outcome (step S)) (params : list ascii) (s : S) :=
  params_loop body (Datatypes.S (length params)) params s.

(** [strncmp(params, "name=", NAME_STR_LEN) == 0]. *)
Definition param_is (params : list ascii) (name : string) : bool :=
  strneq (length (lit name)) params (lit name).
Arguments param_is _ _%_string_scope.

(** [params += LEN; strlcpy(ptr, params, MAX_CMDLINE_INPUT_LEN);
     x = strtoull(ptr, &params, 0)]: the number and the new position. *)
Definition read_unumber (len : nat) (params : list ascii) : Z * list ascii :=
  let ptr := copy_str MAX_CMDLINE_INPUT_LEN (drop len params) in
  let '(v, end_) := strtoull ptr 0 in (v, default ptr end_).

(** The same with [strtol]. *)
Definition read_number (len : nat) (params : list ascii) : Z * list ascii :=
  let ptr := copy_str MAX_CMDLINE_INPUT_LEN (drop len params) in
  let '(v, end_) := strtol ptr 0 in (v, default ptr end_).

(** [parse_bool_params_input]: the new position, the boolean and the code. *)
Definition parse_bool_params_input (params_str : list ascii) (param_str_len : nat)
    (take_action : bool) : list ascii * bool * doca_error_t :=
  let params_str := drop param_str_len params_str in
  let '(v, ptr) := strtol params_str 0 in
  let value := i32 v in
  if bool_decide (ptr = Some params_str) then (params_str, take_action, DOCA_ERROR_INVALID_VALUE)
  else if value =? 1 then (drop 1 params_str, true, DOCA_SUCCESS)
  else if value =? 0 then (drop 1 params_str, take_action, DOCA_SUCCESS)
  else (params_str, take_action, DOCA_ERROR_BAD_STATE).

(** A boolean parameter whose failure is reported as [INVALID_VALUE]. *)
Definition bool_param {S} (params : list ascii) (len : nat) (old : bool) (set : bool -> S) (s : S)
    : outcome (step S) :=
  match parse_bool_params_input params len old with
  | (params, b, DOCA_SUCCESS) => Ret (Next params (set b))
  | (_, _, _) => Ret (Stop s DOCA_ERROR_INVALID_VALUE)
  end.

(** The code of a loop that ended, then the checks after it. *)
Definition finish {S} (r : outcome (S * option doca_error_t)) (check : S -> doca_error_t)
    : outcome (S * doca_error_t) :=
  let* (s, e) := r in
  match e with Some e => Ret (s, e) | None => Ret (s, check s) end.

(** ** [add entry] *)

Record add_entry_params : Type := AddEntryParams {
  ae_fwd_action : bool;
  ae_monitor_action : bool;
  ae_pipe_id : Z;
  ae_pipe_queue : Z;
  ae_has_pipe_id : bool;
  ae_has_pipe_queue : bool;
}.

Definition add_entry_params_init : add_entry_params := AddEntryParams false false 0 0 false false.

Definition add_entry_body (params_str : list ascii) (s : add_entry_params)
    : outcome (step add_entry_params) :=
  if param_is params_str "pipe_id=" then
    let '(v, params_str) := read_unumber 8 params_str in
    Ret (Next params_str (AddEntryParams (ae_fwd_action s) (ae_monitor_action s) v (ae_pipe_queue s)
                            true (ae_has_pipe_queue s)))
  else if param_is params_str "pipe_queue=" then
    let '(v, params_str) := read_number 11 params_str in
    Ret (Next params_str (AddEntryParams (ae_fwd_action s) (ae_monitor_action s) (ae_pipe_id s) (i32 v)
                            (ae_has_pipe_id s) true))
  else if param_is params_str "monitor=" then
    bool_param params_str 8 (ae_monitor_action s)
      (fun b => AddEntryParams (ae_fwd_action s) b (ae_pipe_id s) (ae_pipe_queue s)
                  (ae_has_pipe_id s) (ae_has_pipe_queue s)) s
  else if param_is params_str "fwd=" then
    bool_param params_str 4 (ae_fwd_action s)
      (fun b => AddEntryParams b (ae_monitor_action s) (ae_pipe_id s) (ae_pipe_queue s)
                  (ae_has_pipe_id s) (ae_has_pipe_queue s)) s
  else Ret (Stop s DOCA_ERROR_INVALID_VALUE).

Definition parse_add_entry_params (params_str : list ascii) (s : add_entry_params)
    : outcome (add_entry_params * doca_error_t) :=
  finish (run_params add_entry_body params_str s)
    (fun s => if negb (ae_has_pipe_id s) then DOCA_ERROR_INVALID_VALUE
              else if negb (ae_has_pipe_queue s) then DOCA_ERROR_INVALID_VALUE
              else DOCA_SUCCESS).

(** ** [add entry] of the firewall application *)

Definition parse_fw_add_entry_params (params_str : list ascii) (port_id : Z) : Z * doca_error_t :=
  if param_is params_str "port_id=" then (u16 (fst (read_unumber 8 params_str)), DOCA_SUCCESS)
  else (port_id, DOCA_ERROR_INVALID_VALUE).

(** ** [add control_pipe entry] *)

Record control_entry_params : Type := ControlEntryParams {
  ce_fwd_action : bool;
  ce_match_mask_action : bool;
  ce_pipe_id : Z;
  ce_pipe_queue : Z;
  ce_priority : Z;
  ce_has_pipe_id : bool;
  ce_has_pipe_queue : bool;
  ce_has_priority : bool;
}.

Definition control_entry_params_init : control_entry_params :=
  ControlEntryParams false false 0 0 0 false false false.

Definition control_entry_body (params_str : list ascii) (s : control_entry_params)
    : outcome (step control_entry_params) :=
  if param_is params_str "pipe_id=" then
    let '(v, params_str) := read_unumber 8 params_str in
    Ret (Next params_str (ControlEntryParams (ce_fwd_action s) (ce_match_mask_action s) v
      (ce_pipe_queue s) (ce_priority s) true (ce_has_pipe_queue s) (ce_has_priority s)))
  else if param_is params_str "pipe_queue=" then
    let '(v, params_str) := read_number 11 params_str in
    Ret (Next params_str (ControlEntryParams (ce_fwd_action s) (ce_match_mask_action s) (ce_pipe_id s)
      (u16 v) (ce_priority s) (ce_has_pipe_id s) true (ce_has_priority s)))
  else if param_is params_str "priority=" then
    let '(v, params_str) := read_number 9 params_str in
    Ret (Next params_str (ControlEntryParams (ce_fwd_action s) (ce_match_mask_action s) (ce_pipe_id s)
      (ce_pipe_queue s) (u8 v) (ce_has_pipe_id s) (ce_has_pipe_queue s) true))
  else if param_is params_str "match_mask=" then
    bool_param params_str 11 (ce_match_mask_action s)
      (fun b => ControlEntryParams (ce_fwd_action s) b (ce_pipe_id s) (ce_pipe_queue s)
         (ce_priority s) (ce_has_pipe_id s) (ce_has_pipe_queue s) (ce_has_priority s)) s
  else if param_is params_str "fwd=" then
    bool_param params_str 4 (ce_fwd_action s)
      (fun b => ControlEntryParams b (ce_match_mask_action s) (ce_pipe_id s) (ce_pipe_queue s)
         (ce_priority s) (ce_has_pipe_id s) (ce_has_pipe_queue s) (ce_has_priority s)) s
  else Ret (Stop s DOCA_ERROR_INVALID_VALUE).

Definition parse_add_control_pipe_entry_params (params_str : list ascii) (s : control_entry_params)
    : outcome (control_entry_params * doca_error_t) :=
  finish (run_params control_entry_body params_str s)
    (fun s => if negb (ce_has_pipe_id s) then DOCA_ERROR_INVALID_VALUE
              else if negb (ce_has_pipe_queue s) then DOCA_ERROR_INVALID_VALUE
              else if negb (ce_has_priority s) then DOCA_ERROR_INVALID_VALUE
              else DOCA_SUCCESS).

(** ** [rm entry] and [query] *)

(** [ep_pipe_queue] is [None] when the caller passes a null pointer. *)
Record entry_params : Type := EntryParams {
  ep_pipe_queue : option Z;
  ep_entry_id : Z;
  ep_has_pipe_queue : bool;
  ep_has_entry_id : bool;
}.

Definition entry_body (params : list ascii) (s : entry_params) : outcome (step entry_params) :=
  if param_is params "pipe_queue=" then
    match ep_pipe_queue s with
    | Some _ =>
        let '(v, params) := read_number 11 params in
        Ret (Next params (EntryParams (Some (u16 v)) (ep_entry_id s) true (ep_has_entry_id s)))
    | None =>
        Ret (Next (drop 11 params) (EntryParams None (ep_entry_id s) true (ep_has_entry_id s)))
    end
  else if param_is params "entry_id=" then
    let '(v, params) := read_unumber 9 params in
    Ret (Next params (EntryParams (ep_pipe_queue s) v (ep_has_pipe_queue s) true))
  else Ret (Stop s DOCA_ERROR_INVALID_VALUE).

Definition parse_entry_params (params : list ascii) (pipe_queue_mandatory : bool) (s : entry_params)
    : outcome (entry_params * doca_error_t) :=
  finish (run_params entry_body params s)
    (fun s => if pipe_queue_mandatory && negb (ep_has_pipe_queue s) then DOCA_ERROR_INVALID_VALUE
              else if negb (ep_has_entry_id s) then DOCA_ERROR_INVALID_VALUE
              else DOCA_SUCCESS).

Definition parse_fw_entry_params (params : list ascii) (entry_id : Z) : Z * doca_error_t :=
  if param_is params "entry_id=" then (fst (read_unumber 9 params), DOCA_SUCCESS)
  else (entry_id, DOCA_ERROR_INVALID_VALUE).

(** ** [port pipes dump] *)

(** Open streams, by handle; [fopen_ok] tells which names can be opened. *)
Record files : Type := Files { open_files : list Z; next_file : Z }.

Section dump.
Context (fopen_ok : list ascii -> bool).

Definition fopen (name : list ascii) (f : files) : files * option Z :=
  if fopen_ok name then (Files (next_file f :: open_files f) (next_file f + 1), Some (next_file f))
  else (f, None).

Definition fclose (h : Z) (f : files) : outcome files :=
  if bool_decide (h ∈ open_files f)
  then Ret (Files (filter (fun x => x <> h) (open_files f)) (next_file f))
  else Undef DanglingPointer.

Record dump_params : Type := DumpParams {
  dp_port_id : Z;
  dp_file : option Z;
  dp_files : files;
  dp_has_port_id : bool;
  dp_has_file : bool;
}.

Definition dump_body (params : list ascii) (s : dump_params) : outcome (step dump_params) :=
  if param_is params "port_id=" then
    let '(v, params) := read_number 8 params in
    Ret (Next params (DumpParams (u16 v) (dp_file s) (dp_files s) true (dp_has_file s)))
  else if param_is params "file=" then
    if dp_has_file s then
      let* h := of_option NullDeref (dp_file s) in
      let* f := fclose h (dp_files s) in
      Ret (Stop (DumpParams (dp_port_id s) None f (dp_has_port_id s) (dp_has_file s))
             DOCA_ERROR_INVALID_VALUE)
    else
      let params := drop 5 params in
      let* name := of_option NullDeref (strtok (copy_str MAX_CMDLINE_INPUT_LEN params) ","%char) in
      let params := drop (length name) params in
      let '(f, h) := fopen name (dp_files s) in
      match h with
      | None => Ret (Stop (DumpParams (dp_port_id s) None f (dp_has_port_id s) false)
                       DOCA_ERROR_INVALID_VALUE)
      | Some h => Ret (Next params (DumpParams (dp_port_id s) (Some h) f (dp_has_port_id s) true))
      end
  else Ret (Stop s DOCA_ERROR_INVALID_VALUE).

Definition parse_dump_pipe_params (params : list ascii) (s : dump_params)
    : outcome (dump_params * doca_error_t) :=
  let* (s, e) := run_params dump_body params s in
  match e with
  | Some e => Ret (s, e)
  | None =>
      if negb (dp_has_port_id s) then Ret (s, DOCA_ERROR_INVALID_VALUE)
      else if negb (dp_has_file s) then
        let '(f, h) := fopen (lit "port_info.txt") (dp_files s) in
        let s := DumpParams (dp_port_id s) h f (dp_has_port_id s) false in
        match h with None => Ret (s, DOCA_ERROR_IO_FAILED) | Some _ => Ret (s, DOCA_SUCCESS) end
      else Ret (s, DOCA_SUCCESS)
  end.
End dump.

(** ** [create pipe] *)

(** The pipe configuration object of the DOCA Flow library: an opaque type with
    the setters the parser calls ([doca_flow_pipe_cfg_set_*]). *)
Class PipeCfgApi := {
  pipe_cfg : Type;
  cfg_set_name : option (list ascii) -> pipe_cfg -> pipe_cfg * doca_error_t;
  cfg_set_type : doca_flow_pipe_type -> pipe_cfg -> pipe_cfg * doca_error_t;
  cfg_set_is_root : bool -> pipe_cfg -> pipe_cfg * doca_error_t;
  cfg_set_monitor : doca_flow_monitor -> pipe_cfg -> pipe_cfg * doca_error_t;
  cfg_set_match : doca_flow_match -> option doca_flow_match -> pipe_cfg -> pipe_cfg * doca_error_t;
  cfg_set_actions : doca_flow_actions -> pipe_cfg -> pipe_cfg * doca_error_t;
}.

Section create_pipe.
Context {api : PipeCfgApi}.

(** [cp_type] is indeterminate until a type is given; [cp_result] is the local
    variable [result]; [cp_port_id] the global [pipe_port_id]. *)
Record create_pipe_params : Type := CreatePipeParams {
  cp_cfg : pipe_cfg;
  cp_fwd_action : bool;
  cp_fwd_miss_action : bool;
  cp_match_mask : bool;
  cp_type : option doca_flow_pipe_type;
  cp_port_id : Z;
  cp_has_port_id : bool;
  cp_result : option doca_error_t;
}.

Definition cp_with_cfg (cfg : pipe_cfg) (e : doca_error_t) (s : create_pipe_params) :=
  CreatePipeParams cfg (cp_fwd_action s) (cp_fwd_miss_action s) (cp_match_mask s) (cp_type s)
    (cp_port_id s) (cp_has_port_id s) (Some e).

Definition parse_pipe_type (pipe_type : list ascii) (cfg : pipe_cfg)
    (type : option doca_flow_pipe_type) : pipe_cfg * option doca_flow_pipe_type * doca_error_t :=
  if streq pipe_type (lit "basic") then
    match cfg_set_type DOCA_FLOW_PIPE_BASIC cfg with
    | (cfg, DOCA_SUCCESS) => (cfg, Some DOCA_FLOW_PIPE_BASIC, DOCA_SUCCESS)
    | (cfg, result) => (cfg, type, result)
    end
  else if streq pipe_type (lit "control") then
    match cfg_set_type DOCA_FLOW_PIPE_CONTROL cfg with
    | (cfg, DOCA_SUCCESS) => (cfg, Some DOCA_FLOW_PIPE_CONTROL, DOCA_SUCCESS)
    | (cfg, result) => (cfg, type, result)
    end
  else (cfg, type, DOCA_ERROR_INVALID_VALUE).

(** A boolean parameter that calls a setter of the configuration when it is 1. *)
Definition cfg_bool_param (params_str : list ascii) (len : nat)
    (set : pipe_cfg -> pipe_cfg * doca_error_t) (s : create_pipe_params)
    : outcome (step create_pipe_params) :=
  match parse_bool_params_input params_str len false with
  | (params_str, take_action, DOCA_SUCCESS) =>
      if take_action then
        match set (cp_cfg s) with
        | (cfg, DOCA_SUCCESS) => Ret (Next params_str (cp_with_cfg cfg DOCA_SUCCESS s))
        | (cfg, result) => Ret (Stop (cp_with_cfg cfg result s) result)
        end
      else Ret (Next params_str (cp_with_cfg (cp_cfg s) DOCA_SUCCESS s))
  | (_, _, result) => Ret (Stop s result)
  end.

(** A boolean parameter stored through a pointer of the caller. *)
Definition out_bool_param (params_str : list ascii) (len : nat) (old : bool)
    (set : bool -> create_pipe_params) (s : create_pipe_params)
    : outcome (step create_pipe_params) :=
  match parse_bool_params_input params_str len old with
  | (params_str, b, DOCA_SUCCESS) => Ret (Next params_str (set b))
  | (_, _, result) => Ret (Stop s result)
  end.

Definition create_pipe_body (monitor : doca_flow_monitor) (params_str : list ascii)
    (s : create_pipe_params) : outcome (step create_pipe_params) :=
  if param_is params_str "port_id=" then
    let params_str := drop 8 params_str in
    let ptr := copy_str MAX_CMDLINE_INPUT_LEN params_str in
    let '(v, end_) := strtol ptr 0 in
    if bool_decide (end_ = Some ptr) then Ret (Stop s DOCA_ERROR_INVALID_VALUE)
    else
      let* param_str_value := of_option NullDeref (strtok ptr ","%char) in
      Ret (Next (drop (length param_str_value) params_str)
        (CreatePipeParams (cp_cfg s) (cp_fwd_action s) (cp_fwd_miss_action s) (cp_match_mask s)
           (cp_type s) (u16 (i32 v)) true (cp_result s)))
  else if param_is params_str "name=" then
    let params_str := drop 5 params_str in
    match cfg_set_name (strtok (copy_str MAX_CMDLINE_INPUT_LEN params_str) ","%char) (cp_cfg s) with
    | (cfg, DOCA_SUCCESS) => Ret (Next params_str (cp_with_cfg cfg DOCA_SUCCESS s))
    | (cfg, result) => Ret (Stop (cp_with_cfg cfg result s) result)
    end
  else if param_is params_str "root_enable=" then
    cfg_bool_param params_str 12 (cfg_set_is_root true) s
  else if param_is params_str "monitor=" then
    cfg_bool_param params_str 8 (cfg_set_monitor monitor) s
  else if param_is params_str "match_mask=" then
    out_bool_param params_str 11 (cp_match_mask s)
      (fun b => CreatePipeParams (cp_cfg s) (cp_fwd_action s) (cp_fwd_miss_action s) b (cp_type s)
                  (cp_port_id s) (cp_has_port_id s) (Some DOCA_SUCCESS)) s
  else if param_is params_str "fwd_miss=" then
    out_bool_param params_str 9 (cp_fwd_miss_action s)
      (fun b => CreatePipeParams (cp_cfg s) (cp_fwd_action s) b (cp_match_mask s) (cp_type s)
                  (cp_port_id s) (cp_has_port_id s) (Some DOCA_SUCCESS)) s
  else if param_is params_str "fwd=" then
    out_bool_param params_str 4 (cp_fwd_action s)
      (fun b => CreatePipeParams (cp_cfg s) b (cp_fwd_miss_action s) (cp_match_mask s) (cp_type s)
                  (cp_port_id s) (cp_has_port_id s) (Some DOCA_SUCCESS)) s
  else if param_is params_str "type=" then
    let params_str := drop 5 params_str in
    let* type_str := of_option NullDeref (strtok (copy_str MAX_FIELD_INPUT_LEN params_str) ","%char) in
    match parse_pipe_type type_str (cp_cfg s) (cp_type s) with
    | (cfg, type, DOCA_SUCCESS) =>
        Ret (Next (drop (length type_str) params_str)
          (CreatePipeParams cfg (cp_fwd_action s) (cp_fwd_miss_action s) (cp_match_mask s) type
             (cp_port_id s) (cp_has_port_id s) (Some DOCA_SUCCESS)))
    | (cfg, _, result) => Ret (Stop (cp_with_cfg cfg result s) result)
    end
  else Ret (Stop s DOCA_ERROR_INVALID_VALUE).

(** When [port_id] is missing the code returned is the local [result]. *)
Definition parse_create_pipe_params (monitor : doca_flow_monitor) (params_str : list ascii)
    (s : create_pipe_params) : outcome (create_pipe_params * doca_error_t) :=
  let* (s, e) := run_params (create_pipe_body monitor) params_str s in
  match e with
  | Some e => Ret (s, e)
  | None =>
      if negb (cp_has_port_id s) then
        let* result := of_option Uninitialised (cp_result s) in Ret (s, result)
      else Ret (s, DOCA_SUCCESS)
  end.
End create_pipe.

(** ** Round trips: rendered parameters are read back *)

(** What follows a parameter: nothing, or a comma. *)
Definition param_end (tail : list ascii) : Prop :=
  match tail with [] => True | c :: _ => c = ","%char end.

Lemma param_end_ends_number tail : param_end tail -> ends_number tail.
Proof. destruct tail as [|c tail]; cbn; [done|]. intros ->. vm_compute. congruence. Qed.

Section render.
Context {P S : Type} (render : P -> list ascii) (apply : P -> S -> S) (valid : P -> Prop).
Context (inv : S -> Prop).
Context (body : list ascii -> S -> outcome (step S)).

Fixpoint render_params (ps : list P) : list ascii :=
  match ps with
  | [] => []
  | [p] => render p
  | p :: ps' => render p ++ ","%char :: render_params ps'
  end.

Definition apply_params (ps : list P) (s : S) : S := foldl (fun s p => apply p s) s ps.

(** [body] reads one rendered parameter and stops behind it, in the states of [inv]. *)
Definition reads_param : Prop := forall p tail s,
  inv s -> valid p -> param_end tail ->
  (length (render p ++ tail) < MAX_CMDLINE_INPUT_LEN)%nat ->
  body (render p ++ tail) s = Ret (Next tail (apply p s)) /\ inv (apply p s).

Lemma params_loop_render fuel ps s :
  reads_param -> inv s -> ps <> [] -> Forall valid ps ->
  (length (render_params ps) < MAX_CMDLINE_INPUT_LEN)%nat -> (length ps <= fuel)%nat ->
  params_loop body fuel (render_params ps) s = Ret (apply_params ps s, None).
Proof using Type.
  intros Hbody. revert ps s. induction fuel as [|fuel IH]; intros ps s Hs Hne Hv Hl Hf.
  { destruct ps; [done | cbn in Hf; lia]. }
  destruct ps as [|p [|q ps]]; [done| |]; apply Forall_cons in Hv as [Hp Hv];
    cbn [params_loop].
  - cbn [render_params] in *. rewrite <-(app_nil_r (render p)) in Hl |- *.
    by destruct (Hbody p [] s) as [-> _].
  - change (render_params (p :: q :: ps)) with (render p ++ ","%char :: render_params (q :: ps)) in *.
    destruct (Hbody p (","%char :: render_params (q :: ps)) s) as [-> Hs']; try done.
    cbn beta iota. rewrite bool_decide_eq_true_2 by done.
    rewrite IH; [done|done|done|done| |cbn in *; lia].
    rewrite length_app, length_cons in Hl. lia.
Qed.

Lemma run_params_render ps s :
  reads_param -> inv s -> (forall p, render p <> []) -> ps <> [] -> Forall valid ps ->
  (length (render_params ps) < MAX_CMDLINE_INPUT_LEN)%nat ->
  run_params body (render_params ps) s = Ret (apply_params ps s, None).
Proof using Type.
  intros Hbody Hs Hne' Hne Hv Hl. apply params_loop_render; try done.
  clear -Hne'. induction ps as [|p [|q ps] IH]; [cbn; lia| |].
  - cbn. lia.
  - change (render_params (p :: q :: ps)) with (render p ++ ","%char :: render_params (q :: ps)).
    rewrite length_app. cbn [length] in *. lia.
Qed.
End render.

(** Evaluate the comparisons of a literal parameter name. *)
Ltac eval_params :=
  repeat match goal with
  | |- context [param_is ?a ?b] =>
      let v := eval vm_compute in (param_is a b) in
      change (param_is a b) with v; cbn beta iota zeta
  end.

Lemma read_unumber_dec name n tail :
  in_width 64 n -> param_end tail ->
  (length (lit name ++ dec n ++ tail) < MAX_CMDLINE_INPUT_LEN)%nat ->
  read_unumber (length (lit name)) (lit name ++ dec n ++ tail) = (n, tail).
Proof.
  intros Hn Ht Hl. unfold read_unumber. rewrite drop_app_length.
  rewrite length_app in Hl. rewrite copy_str_short by lia.
  by rewrite strtoull_dec by (done || by apply param_end_ends_number).
Qed.

Lemma read_number_dec name n tail :
  0 <= n < 2 ^ 63 -> param_end tail ->
  (length (lit name ++ dec n ++ tail) < MAX_CMDLINE_INPUT_LEN)%nat ->
  read_number (length (lit name)) (lit name ++ dec n ++ tail) = (n, tail).
Proof.
  intros Hn Ht Hl. unfold read_number. rewrite drop_app_length.
  rewrite length_app in Hl. rewrite copy_str_short by lia.
  by rewrite strtol_dec by (by right || done || by apply param_end_ends_number).
Qed.

Definition bool_digit (b : bool) : list ascii := if b then ["1"%char] else ["0"%char].

Lemma parse_bool_digit name b old tail :
  param_end tail ->
  parse_bool_params_input (lit name ++ bool_digit b ++ tail) (length (lit name)) old
    = (tail, b || old, DOCA_SUCCESS).
Proof.
  intros Ht. unfold parse_bool_params_input. rewrite drop_app_length.
  replace (bool_digit b) with (dec (Z.b2z b)) by (by destruct b).
  rewrite strtol_dec by (by right || by apply param_end_ends_number || (destruct b; cbn; lia)).
  rewrite bool_decide_eq_false_2.
  - by destruct b.
  - intros [= E%(f_equal length)]. rewrite length_app in E.
    pose proof (dec_nonempty (Z.b2z b)). destruct (dec (Z.b2z b)); [done|]. cbn in E. lia.
Qed.

Lemma bool_param_digit {S} name b old tail (set : bool -> S) s :
  param_end tail ->
  bool_param (lit name ++ bool_digit b ++ tail) (length (lit name)) old set s
    = Ret (Next tail (set (b || old))).
Proof. intros Ht. unfold bool_param. by rewrite parse_bool_digit. Qed.

(** *** [add entry] *)

Inductive ae_param : Type :=
| AEPipeId (n : Z) | AEPipeQueue (n : Z) | AEMonitor (b : bool) | AEFwd (b : bool).

Definition ae_render (p : ae_param) : list ascii :=
  match p with
  | AEPipeId n => lit "pipe_id=" ++ dec n
  | AEPipeQueue n => lit "pipe_queue=" ++ dec n
  | AEMonitor b => lit "monitor=" ++ bool_digit b
  | AEFwd b => lit "fwd=" ++ bool_digit b
  end.

Definition ae_valid (p : ae_param) : Prop :=
  match p with
  | AEPipeId n => in_width 64 n
  | AEPipeQueue n => in_width 31 n
  | _ => True
  end.

(** The meaning of a parameter: the last number wins, a boolean that is set
    stays set. *)
Definition ae_apply (p : ae_param) (s : add_entry_params) : add_entry_params :=
  let 'AddEntryParams f m i q hi hq := s in
  match p with
  | AEPipeId n => AddEntryParams f m n q true hq
  | AEPipeQueue n => AddEntryParams f m i n hi true
  | AEMonitor b => AddEntryParams f (b || m) i q hi hq
  | AEFwd b => AddEntryParams (b || f) m i q hi hq
  end.

Lemma i32_small n : in_width 31 n -> i32 n = n.
Proof. unfold in_width. intros. apply swrap_id; [lia|]. change (32 - 1) with 31. lia. Qed.

Lemma u16_small n : in_width 16 n -> u16 n = n.
Proof. apply uwrap_id. Qed.

Lemma add_entry_reads : reads_param ae_render ae_apply ae_valid (fun _ => True) add_entry_body.
Proof.
  intros [n|n|b|b] tail [f m i q hi hq] _ Hv Ht Hl; (split; [|done]); cbn [ae_render ae_valid] in *;
    unfold add_entry_body; rewrite <-app_assoc in *; eval_params.
  - by rewrite (read_unumber_dec "pipe_id=").
  - rewrite (read_number_dec "pipe_queue=") by (unfold in_width in *; done || lia).
    cbn. by rewrite i32_small.
  - by rewrite (bool_param_digit "monitor=").
  - by rewrite (bool_param_digit "fwd=").
Qed.

Definition ae_is_pipe_id (p : ae_param) : bool := match p with AEPipeId _ => true | _ => false end.
Definition ae_is_pipe_queue (p : ae_param) : bool :=
  match p with AEPipeQueue _ => true | _ => false end.

Lemma ae_apply_has ps s :
  ae_has_pipe_id (apply_params ae_apply ps s) = ae_has_pipe_id s || existsb ae_is_pipe_id ps
  /\ ae_has_pipe_queue (apply_params ae_apply ps s)
     = ae_has_pipe_queue s || existsb ae_is_pipe_queue ps.
Proof.
  unfold apply_params. revert s. induction ps as [|p ps IH]; intros s; cbn [foldl existsb].
  - by rewrite !orb_false_r.
  - destruct (IH (ae_apply p s)) as [-> ->]. destruct s, p; cbn; by rewrite ?orb_true_r.
Qed.

(** Every list of [add entry] parameters is read back: the state is that of the
    parameters in order, and the command is accepted exactly when both mandatory
    parameters occur. *)
Theorem parse_add_entry_params_roundtrip ps :
  ps <> [] -> Forall ae_valid ps ->
  (length (render_params ae_render ps) < MAX_CMDLINE_INPUT_LEN)%nat ->
  parse_add_entry_params (render_params ae_render ps) add_entry_params_init =
    Ret (apply_params ae_apply ps add_entry_params_init,
         if existsb ae_is_pipe_id ps && existsb ae_is_pipe_queue ps
         then DOCA_SUCCESS else DOCA_ERROR_INVALID_VALUE).
Proof.
  intros Hne Hv Hl. unfold parse_add_entry_params.
  rewrite (run_params_render ae_render ae_apply ae_valid (fun _ => True))
    by (done || apply add_entry_reads || by intros []). cbn [finish].
  destruct (ae_apply_has ps add_entry_params_init) as [-> ->]. cbn.
  by destruct (existsb ae_is_pipe_id ps), (existsb ae_is_pipe_queue ps).
Qed.

Lemma parse_add_entry_params_roundtrip_witness :
  parse_add_entry_params (lit "pipe_queue=0,pipe_id=18446744073709551615,fwd=1,monitor=0")
    add_entry_params_init
  = Ret (AddEntryParams true false 18446744073709551615 0 true true, DOCA_SUCCESS).
Proof.
  apply (parse_add_entry_params_roundtrip
           [AEPipeQueue 0; AEPipeId 18446744073709551615; AEFwd true; AEMonitor false]).
  - discriminate.
  - repeat (apply Forall_cons_2; [vm_compute; intuition congruence|]). apply Forall_nil_2.
  - vm_compute. lia.
Defined.

(** *** [add control_pipe entry] *)

Inductive ce_param : Type :=
| CEPipeId (n : Z) | CEPipeQueue (n : Z) | CEPriority (n : Z) | CEMatchMask (b : bool)
| CEFwd (b : bool).

Definition ce_render (p : ce_param) : list ascii :=
  match p with
  | CEPipeId n => lit "pipe_id=" ++ dec n
  | CEPipeQueue n => lit "pipe_queue=" ++ dec n
  | CEPriority n => lit "priority=" ++ dec n
  | CEMatchMask b => lit "match_mask=" ++ bool_digit b
  | CEFwd b => lit "fwd=" ++ bool_digit b
  end.

Definition ce_valid (p : ce_param) : Prop :=
  match p with
  | CEPipeId n => in_width 64 n
  | CEPipeQueue n => in_width 16 n
  | CEPriority n => in_width 8 n
  | _ => True
  end.

Definition ce_apply (p : ce_param) (s : control_entry_params) : control_entry_params :=
  let 'ControlEntryParams f m i q pr hi hq hp := s in
  match p with
  | CEPipeId n => ControlEntryParams f m n q pr true hq hp
  | CEPipeQueue n => ControlEntryParams f m i n pr hi true hp
  | CEPriority n => ControlEntryParams f m i q n hi hq true
  | CEMatchMask b => ControlEntryParams f (b || m) i q pr hi hq hp
  | CEFwd b => ControlEntryParams (b || f) m i q pr hi hq hp
  end.

Lemma control_entry_reads : reads_param ce_render ce_apply ce_valid (fun _ => True) control_entry_body.
Proof.
  intros [n|n|n|b|b] tail [f m i q pr hi hq hp] _ Hv Ht Hl; (split; [|done]); cbn [ce_render ce_valid] in *;
    unfold control_entry_body; rewrite <-app_assoc in *; eval_params.
  - by rewrite (read_unumber_dec "pipe_id=").
  - rewrite (read_number_dec "pipe_queue=") by (unfold in_width in *; done || lia).
    cbn. by rewrite uwrap_id.
  - rewrite (read_number_dec "priority=") by (unfold in_width in *; done || lia).
    cbn. by rewrite uwrap_id.
  - by rewrite (bool_param_digit "match_mask=").
  - by rewrite (bool_param_digit "fwd=").
Qed.

Definition ce_is_pipe_id (p : ce_param) : bool := match p with CEPipeId _ => true | _ => false end.
Definition ce_is_pipe_queue (p : ce_param) : bool :=
  match p with CEPipeQueue _ => true | _ => false end.
Definition ce_is_priority (p : ce_param) : bool :=
  match p with CEPriority _ => true | _ => false end.

Lemma ce_apply_has ps s :
  ce_has_pipe_id (apply_params ce_apply ps s) = ce_has_pipe_id s || existsb ce_is_pipe_id ps
  /\ ce_has_pipe_queue (apply_params ce_apply ps s)
     = ce_has_pipe_queue s || existsb ce_is_pipe_queue ps
  /\ ce_has_priority (apply_params ce_apply ps s) = ce_has_priority s || existsb ce_is_priority ps.
Proof.
  unfold apply_params. revert s. induction ps as [|p ps IH]; intros s; cbn [foldl existsb].
  - by rewrite !orb_false_r.
  - destruct (IH (ce_apply p s)) as (-> & -> & ->). destruct s, p; cbn; by rewrite ?orb_true_r.
Qed.

(** The same for control pipe entries, with three mandatory parameters. *)
Theorem parse_control_entry_params_roundtrip ps :
  ps <> [] -> Forall ce_valid ps ->
  (length (render_params ce_render ps) < MAX_CMDLINE_INPUT_LEN)%nat ->
  parse_add_control_pipe_entry_params (render_params ce_render ps) control_entry_params_init =
    Ret (apply_params ce_apply ps control_entry_params_init,
         if existsb ce_is_pipe_id ps && existsb ce_is_pipe_queue ps && existsb ce_is_priority ps
         then DOCA_SUCCESS else DOCA_ERROR_INVALID_VALUE).
Proof.
  intros Hne Hv Hl. unfold parse_add_control_pipe_entry_params.
  rewrite (run_params_render ce_render ce_apply ce_valid (fun _ => True))
    by (done || apply control_entry_reads || by intros []). cbn [finish].
  destruct (ce_apply_has ps control_entry_params_init) as (-> & -> & ->). cbn.
  by destruct (existsb ce_is_pipe_id ps), (existsb ce_is_pipe_queue ps),
    (existsb ce_is_priority ps).
Qed.

Lemma parse_control_entry_params_roundtrip_witness :
  parse_add_control_pipe_entry_params (lit "priority=7,pipe_id=12,pipe_queue=1,fwd=1")
    control_entry_params_init
  = Ret (ControlEntryParams true false 12 1 7 true true true, DOCA_SUCCESS).
Proof.
  apply (parse_control_entry_params_roundtrip
           [CEPriority 7; CEPipeId 12; CEPipeQueue 1; CEFwd true]).
  - discriminate.
  - repeat (apply Forall_cons_2; [vm_compute; intuition congruence|]). apply Forall_nil_2.
  - vm_compute. lia.
Defined.

(** *** [rm entry] and [query] *)

Inductive ep_param : Type := EPPipeQueue (n : Z) | EPEntryId (n : Z).

Definition ep_render (p : ep_param) : list ascii :=
  match p with
  | EPPipeQueue n => lit "pipe_queue=" ++ dec n
  | EPEntryId n => lit "entry_id=" ++ dec n
  end.

Definition ep_valid (p : ep_param) : Prop :=
  match p with EPPipeQueue n => in_width 16 n | EPEntryId n => in_width 64 n end.

Definition ep_is_pipe_queue (p : ep_param) : bool :=
  match p with EPPipeQueue _ => true | _ => false end.

Definition ep_is_entry_id (p : ep_param) : bool :=
  match p with EPEntryId _ => true | _ => false end.

(** The last queue and the last entry of the list. *)
Definition ep_apply (p : ep_param) (s : entry_params) : entry_params :=
  let 'EntryParams q i hq hi := s in
  match p with
  | EPPipeQueue n => EntryParams (Some n) i true hi
  | EPEntryId n => EntryParams q n hq true
  end.

(** The caller asked for the queue. *)
Definition wants_queue (s : entry_params) : Prop := is_Some (ep_pipe_queue s).

Lemma entry_reads : reads_param ep_render ep_apply ep_valid wants_queue entry_body.
Proof.
  intros [n|n] tail [q i hq hi] [q' Hq] Hv Ht Hl; cbn in Hq; subst q;
    cbn [ep_render ep_valid] in *; (split; [|by eexists]);
    unfold entry_body; rewrite <-app_assoc in *; eval_params; cbn [ep_pipe_queue].
  - rewrite (read_number_dec "pipe_queue=") by (unfold in_width in *; done || lia).
    cbn. by rewrite uwrap_id.
  - by rewrite (read_unumber_dec "entry_id=").
Qed.

Lemma ep_apply_has ps s :
  ep_has_pipe_queue (apply_params ep_apply ps s)
    = ep_has_pipe_queue s || existsb ep_is_pipe_queue ps
  /\ ep_has_entry_id (apply_params ep_apply ps s) = ep_has_entry_id s || existsb ep_is_entry_id ps.
Proof.
  unfold apply_params. revert s. induction ps as [|p ps IH]; intros s; cbn [foldl existsb].
  - by rewrite !orb_false_r.
  - destruct (IH (ep_apply p s)) as [-> ->]. destruct s, p; cbn; by rewrite ?orb_true_r.
Qed.

(** The parameters of [rm entry] are read back, and both are mandatory. *)
Theorem parse_entry_params_roundtrip ps :
  ps <> [] -> Forall ep_valid ps ->
  (length (render_params ep_render ps) < MAX_CMDLINE_INPUT_LEN)%nat ->
  parse_entry_params (render_params ep_render ps) true (EntryParams (Some 0) 0 false false) =
    Ret (apply_params ep_apply ps (EntryParams (Some 0) 0 false false),
         if existsb ep_is_pipe_queue ps && existsb ep_is_entry_id ps
         then DOCA_SUCCESS else DOCA_ERROR_INVALID_VALUE).
Proof.
  intros Hne Hv Hl. unfold parse_entry_params.
  rewrite (run_params_render ep_render ep_apply ep_valid wants_queue)
    by (done || apply entry_reads || (by eexists) || by intros []). cbn [finish].
  destruct (ep_apply_has ps (EntryParams (Some 0) 0 false false)) as [-> ->]. cbn.
  by destruct (existsb ep_is_pipe_queue ps), (existsb ep_is_entry_id ps).
Qed.

Lemma parse_entry_params_roundtrip_witness :
  parse_entry_params (lit "pipe_queue=3,entry_id=42") true (EntryParams (Some 0) 0 false false)
  = Ret (EntryParams (Some 3) 42 true true, DOCA_SUCCESS).
Proof.
  apply (parse_entry_params_roundtrip [EPPipeQueue 3; EPEntryId 42]).
  - discriminate.
  - repeat (apply Forall_cons_2; [vm_compute; intuition congruence|]). apply Forall_nil_2.
  - vm_compute. lia.
Defined.

(** [query] passes no queue: a [pipe_queue] parameter in front of the entry is not
    skipped, the rest of the command is dropped and the command is rejected. *)
Theorem query_pipe_queue_rejected c q rest n :
  c <> ","%char ->
  parse_entry_params (lit "pipe_queue=" ++ c :: q ++ ","%char :: lit "entry_id=" ++ dec n ++ rest)
    false (EntryParams None 0 false false)
  = Ret (EntryParams None 0 true false, DOCA_ERROR_INVALID_VALUE).
Proof.
  intros Hc. unfold parse_entry_params, run_params. rewrite !length_app. cbn [Nat.add length lit].
  cbn [params_loop]. unfold entry_body at 1. eval_params. cbn [ep_pipe_queue ep_entry_id ep_has_entry_id].
  change (drop 11 (lit "pipe_queue=" ++ ?x)) with x.
  cbn. by rewrite bool_decide_eq_false_2.
Qed.

Lemma query_pipe_queue_rejected_witness :
  parse_entry_params (lit "pipe_queue=0,entry_id=5") false (EntryParams None 0 false false)
  = Ret (EntryParams None 0 true false, DOCA_ERROR_INVALID_VALUE).
Proof. apply (query_pipe_queue_rejected "0"%char [] [] 5). discriminate. Defined.

(** *** [create pipe] *)

(** The setters of the pipe configuration succeed. *)
Class PipeCfgSucceeds (api : PipeCfgApi) : Prop := {
  set_name_ok : forall n c, snd (cfg_set_name n c) = DOCA_SUCCESS;
  set_type_ok : forall t c, snd (cfg_set_type t c) = DOCA_SUCCESS;
  set_is_root_ok : forall b c, snd (cfg_set_is_root b c) = DOCA_SUCCESS;
  set_monitor_ok : forall m c, snd (cfg_set_monitor m c) = DOCA_SUCCESS;
}.

Inductive cp_param : Type :=
| CPPortId (n : Z) | CPRootEnable (b : bool) | CPMonitor (b : bool) | CPMatchMask (b : bool)
| CPFwdMiss (b : bool) | CPFwd (b : bool) | CPBasic | CPControl.

Definition cp_render (p : cp_param) : list ascii :=
  match p with
  | CPPortId n => lit "port_id=" ++ dec n
  | CPRootEnable b => lit "root_enable=" ++ bool_digit b
  | CPMonitor b => lit "monitor=" ++ bool_digit b
  | CPMatchMask b => lit "match_mask=" ++ bool_digit b
  | CPFwdMiss b => lit "fwd_miss=" ++ bool_digit b
  | CPFwd b => lit "fwd=" ++ bool_digit b
  | CPBasic => lit "type=basic"
  | CPControl => lit "type=control"
  end.

Definition cp_valid (p : cp_param) : Prop :=
  match p with CPPortId n => in_width 16 n | _ => True end.

Section create_pipe_roundtrip.
Context {api : PipeCfgApi} {ok : PipeCfgSucceeds api} (monitor : doca_flow_monitor).

Definition cp_apply (p : cp_param) (s : create_pipe_params) : create_pipe_params :=
  let 'CreatePipeParams cfg f fm mm t port has r := s in
  let set_cfg (b : bool) (c : pipe_cfg) := if b then c else cfg in
  match p with
  | CPPortId n => CreatePipeParams cfg f fm mm t n true r
  | CPRootEnable b =>
      CreatePipeParams (set_cfg b (fst (cfg_set_is_root true cfg))) f fm mm t port has
        (Some DOCA_SUCCESS)
  | CPMonitor b =>
      CreatePipeParams (set_cfg b (fst (cfg_set_monitor monitor cfg))) f fm mm t port has
        (Some DOCA_SUCCESS)
  | CPMatchMask b => CreatePipeParams cfg f fm (b || mm) t port has (Some DOCA_SUCCESS)
  | CPFwdMiss b => CreatePipeParams cfg f (b || fm) mm t port has (Some DOCA_SUCCESS)
  | CPFwd b => CreatePipeParams cfg (b || f) fm mm t port has (Some DOCA_SUCCESS)
  | CPBasic =>
      CreatePipeParams (fst (cfg_set_type DOCA_FLOW_PIPE_BASIC cfg)) f fm mm
        (Some DOCA_FLOW_PIPE_BASIC) port has (Some DOCA_SUCCESS)
  | CPControl =>
      CreatePipeParams (fst (cfg_set_type DOCA_FLOW_PIPE_CONTROL cfg)) f fm mm
        (Some DOCA_FLOW_PIPE_CONTROL) port has (Some DOCA_SUCCESS)
  end.

Lemma cfg_bool_digit name b tail set s :
  param_end tail -> (forall c, snd (set c) = DOCA_SUCCESS) ->
  cfg_bool_param (lit name ++ bool_digit b ++ tail) (length (lit name)) set s
    = Ret (Next tail (cp_with_cfg (if b then fst (set (cp_cfg s)) else cp_cfg s) DOCA_SUCCESS s)).
Proof using Type.
  intros Ht Hset. unfold cfg_bool_param. rewrite parse_bool_digit by done.
  rewrite orb_false_r. destruct b; [|done].
  specialize (Hset (cp_cfg s)). destruct (set (cp_cfg s)) as [cfg e]. cbn in Hset. by subst e.
Qed.

Lemma strtok_param tok tail :
  tok <> [] -> ","%char ∉ tok -> param_end tail ->
  strtok (tok ++ tail) ","%char = Some tok.
Proof using Type.
  intros Hne Hc Ht. destruct tail as [|c tail].
  - rewrite app_nil_r. by apply strtok_last.
  - cbn in Ht. subst c. by apply strtok_token.
Qed.

Lemma strtok_type tok tail :
  tok <> [] -> ","%char ∉ tok -> (length tok < MAX_FIELD_INPUT_LEN)%nat -> param_end tail ->
  strtok (copy_str MAX_FIELD_INPUT_LEN (tok ++ tail)) ","%char = Some tok.
Proof using Type.
  intros Hne Hc Hl Ht. unfold copy_str. rewrite take_app_ge by lia.
  apply strtok_param; try done. destruct tail as [|c tail]; [by rewrite take_nil|].
  by destruct (_ - _)%nat.
Qed.

Lemma comma_not_in_dec n : ","%char ∉ dec n.
Proof using Type. apply not_in_dec. vm_compute. intros [? ?]. congruence. Qed.

Lemma create_pipe_reads :
  reads_param cp_render cp_apply cp_valid (fun _ => True) (create_pipe_body monitor).
Proof using ok.
  intros [n|b|b|b|b|b| |] tail [cfg f fm mm t port has r] _ Hv Ht Hl; (split; [|done]);
    cbn [cp_render cp_valid] in *; unfold create_pipe_body; rewrite <-?app_assoc in *;
    eval_params.
  - change (drop 8 (lit "port_id=" ++ dec n ++ tail)) with (dec n ++ tail).
    rewrite length_app in Hl. rewrite copy_str_short by lia.
    rewrite strtol_dec by (by right || (by apply param_end_ends_number) || (unfold in_width in Hv; lia)).
    rewrite bool_decide_eq_false_2.
    2:{ intros [= E%(f_equal length)]. rewrite length_app in E.
        pose proof (dec_nonempty n). destruct (dec n); [done|]. cbn in E. lia. }
    rewrite strtok_param by (done || apply dec_nonempty || apply comma_not_in_dec).
    cbn [of_option]. rewrite drop_app_length. cbn.
    rewrite i32_small by (unfold in_width in *; lia). by rewrite uwrap_id.
  - rewrite (cfg_bool_digit "root_enable=") by (done || apply set_is_root_ok). by destruct b.
  - rewrite (cfg_bool_digit "monitor=") by (done || apply set_monitor_ok). by destruct b.
  - unfold out_bool_param. by rewrite (parse_bool_digit "match_mask=").
  - unfold out_bool_param. by rewrite (parse_bool_digit "fwd_miss=").
  - unfold out_bool_param. by rewrite (parse_bool_digit "fwd=").
  - change (drop 5 (lit "type=basic" ++ tail)) with (lit "basic" ++ tail).
    rewrite strtok_type by (done || (vm_compute; lia) || (apply (bool_decide_unpack _); vm_compute; exact I)).
    cbn [of_option]. unfold parse_pipe_type. cbn [cp_cfg]. change (streq (lit "basic") (lit "basic")) with true.
    pose proof (set_type_ok DOCA_FLOW_PIPE_BASIC cfg) as Hs.
    destruct (cfg_set_type DOCA_FLOW_PIPE_BASIC cfg) as [cfg' e] eqn:E. cbn in Hs. subst e.
    cbn [cp_apply]. by rewrite E.
  - change (drop 5 (lit "type=control" ++ tail)) with (lit "control" ++ tail).
    rewrite strtok_type by (done || (vm_compute; lia) || (apply (bool_decide_unpack _); vm_compute; exact I)).
    cbn [of_option]. unfold parse_pipe_type. cbn [cp_cfg].
    change (streq (lit "control") (lit "basic")) with false.
    change (streq (lit "control") (lit "control")) with true.
    pose proof (set_type_ok DOCA_FLOW_PIPE_CONTROL cfg) as Hs.
    destruct (cfg_set_type DOCA_FLOW_PIPE_CONTROL cfg) as [cfg' e] eqn:E. cbn in Hs. subst e.
    cbn [cp_apply]. by rewrite E.
Qed.
End create_pipe_roundtrip.

Definition cp_is_port_id (p : cp_param) : bool := match p with CPPortId _ => true | _ => false end.

Definition create_pipe_params_init {api : PipeCfgApi} (cfg : pipe_cfg) (port : Z)
    : create_pipe_params := CreatePipeParams cfg false false false None port false None.

(** Only a port parameter leaves the local [result] unset. *)
Lemma cp_apply_result {api : PipeCfgApi} monitor ps s :
  cp_has_port_id (apply_params (cp_apply monitor) ps s) = cp_has_port_id s || existsb cp_is_port_id ps
  /\ cp_result (apply_params (cp_apply monitor) ps s)
     = if forallb cp_is_port_id ps then cp_result s else Some DOCA_SUCCESS.
Proof.
  unfold apply_params. revert s. induction ps as [|p ps IH]; intros s; cbn [foldl existsb forallb].
  - by rewrite orb_false_r.
  - destruct (IH (cp_apply monitor p s)) as [-> ->].
    destruct s, p; cbn; rewrite ?orb_true_r; (split; [done|]); by destruct (forallb _ ps).
Qed.

Lemma parse_create_pipe_render {api : PipeCfgApi} {ok : PipeCfgSucceeds api} monitor cfg port ps :
  ps <> [] -> Forall cp_valid ps ->
  (length (render_params cp_render ps) < MAX_CMDLINE_INPUT_LEN)%nat ->
  parse_create_pipe_params monitor (render_params cp_render ps) (create_pipe_params_init cfg port)
    = Ret (apply_params (cp_apply monitor) ps (create_pipe_params_init cfg port), DOCA_SUCCESS).
Proof.
  intros Hne Hv Hl. unfold parse_create_pipe_params.
  rewrite (run_params_render cp_render (cp_apply monitor) cp_valid (fun _ => True))
    by (done || apply create_pipe_reads || by intros []). cbn beta iota.
  destruct (cp_apply_result monitor ps (create_pipe_params_init cfg port)) as [-> ->]. cbn.
  destruct (existsb cp_is_port_id ps) eqn:E; [done|].
  destruct ps as [|p ps]; [done|]. cbn in *. by destruct p.
Qed.

(** Every list of [create pipe] parameters (other than the name) is read back,
    and accepted: also one without the mandatory [port_id], for which the parser
    returns the code of the last setter, a success. *)
Theorem parse_create_pipe_params_roundtrip {api : PipeCfgApi} {ok : PipeCfgSucceeds api}
    monitor cfg port ps :
  ps <> [] -> Forall cp_valid ps ->
  (length (render_params cp_render ps) < MAX_CMDLINE_INPUT_LEN)%nat ->
  parse_create_pipe_params monitor (render_params cp_render ps) (create_pipe_params_init cfg port)
    = Ret (apply_params (cp_apply monitor) ps (create_pipe_params_init cfg port), DOCA_SUCCESS).
Proof. apply parse_create_pipe_render. Qed.

(** A configuration object that records what was set. *)
Record plain_cfg : Type := PlainCfg {
  pc_name : option (list ascii);
  pc_type : option doca_flow_pipe_type;
  pc_root : bool;
  pc_monitor : option doca_flow_monitor;
  pc_match : option (doca_flow_match * option doca_flow_match);
  pc_actions : option doca_flow_actions;
}.

Definition plain_cfg_init : plain_cfg := PlainCfg None None false None None None.

Definition plain_cfg_api : PipeCfgApi := {|
  pipe_cfg := plain_cfg;
  cfg_set_name n c :=
    (PlainCfg n (pc_type c) (pc_root c) (pc_monitor c) (pc_match c) (pc_actions c), DOCA_SUCCESS);
  cfg_set_type t c :=
    (PlainCfg (pc_name c) (Some t) (pc_root c) (pc_monitor c) (pc_match c) (pc_actions c),
     DOCA_SUCCESS);
  cfg_set_is_root b c :=
    (PlainCfg (pc_name c) (pc_type c) b (pc_monitor c) (pc_match c) (pc_actions c), DOCA_SUCCESS);
  cfg_set_monitor m c :=
    (PlainCfg (pc_name c) (pc_type c) (pc_root c) (Some m) (pc_match c) (pc_actions c),
     DOCA_SUCCESS);
  cfg_set_match m k c :=
    (PlainCfg (pc_name c) (pc_type c) (pc_root c) (pc_monitor c) (Some (m, k)) (pc_actions c),
     DOCA_SUCCESS);
  cfg_set_actions a c :=
    (PlainCfg (pc_name c) (pc_type c) (pc_root c) (pc_monitor c) (pc_match c) (Some a),
     DOCA_SUCCESS);
|}.

#[export] Instance plain_cfg_succeeds : PipeCfgSucceeds plain_cfg_api.
Proof. by split. Qed.

Lemma parse_create_pipe_params_roundtrip_witness :
  parse_create_pipe_params (api := plain_cfg_api) monitor_zero
    (lit "root_enable=1,fwd=1,type=basic") (create_pipe_params_init (api := plain_cfg_api) plain_cfg_init 3)
  = Ret (CreatePipeParams
           (PlainCfg None (Some DOCA_FLOW_PIPE_BASIC) true None None None : @pipe_cfg plain_cfg_api)
           true false false (Some DOCA_FLOW_PIPE_BASIC) 3 false (Some DOCA_SUCCESS), DOCA_SUCCESS).
Proof.
  apply (parse_create_pipe_params_roundtrip (api := plain_cfg_api) monitor_zero plain_cfg_init 3
           [CPRootEnable true; CPFwd true; CPBasic]).
  - discriminate.
  - repeat (apply Forall_cons_2; [exact I|]). apply Forall_nil_2.
  - vm_compute. lia.
Defined.

(** The parameters behind a name are dropped: the parser does not skip the name,
    so its first character ends the loop. *)
Theorem create_pipe_name_drops_rest {api : PipeCfgApi} monitor s c nm rest :
  c <> ","%char -> ","%char ∉ nm ->
  (length (c :: nm) < MAX_FIELD_INPUT_LEN)%nat ->
  parse_create_pipe_params monitor (lit "name=" ++ (c :: nm) ++ ","%char :: rest) s
    = parse_create_pipe_params monitor (lit "name=" ++ (c :: nm)) s.
Proof.
  intros Hc Hnm Hl. unfold parse_create_pipe_params, run_params.
  assert (","%char ∉ c :: nm) as Hcn by (apply not_elem_of_cons; split; congruence).
  rewrite !length_app. cbn [params_loop].
  assert (forall x, create_pipe_body monitor (lit "name=" ++ x) s =
    match cfg_set_name (strtok (copy_str MAX_CMDLINE_INPUT_LEN x) ","%char) (cp_cfg s) with
    | (cfg, DOCA_SUCCESS) => Ret (Next x (cp_with_cfg cfg DOCA_SUCCESS s))
    | (cfg, result) => Ret (Stop (cp_with_cfg cfg result s) result)
    end) as Hbody.
  { intros x. unfold create_pipe_body. by eval_params. }
  rewrite !Hbody, strtok_copy, strtok_copy_last by done.
  destruct (cfg_set_name _ _) as [cfg []]; try done.
  cbn. by rewrite bool_decide_eq_false_2.
Qed.

Lemma create_pipe_name_drops_rest_witness :
  parse_create_pipe_params (api := plain_cfg_api) monitor_zero
    (lit "name=" ++ lit "p1" ++ lit ",port_id=1,fwd=1") (create_pipe_params_init (api := plain_cfg_api) plain_cfg_init 3)
  = parse_create_pipe_params (api := plain_cfg_api) monitor_zero
    (lit "name=" ++ lit "p1") (create_pipe_params_init (api := plain_cfg_api) plain_cfg_init 3).
Proof.
  apply (create_pipe_name_drops_rest (api := plain_cfg_api) monitor_zero
           (create_pipe_params_init (api := plain_cfg_api) plain_cfg_init 3) "p"%char (lit "1") (lit "port_id=1,fwd=1")).
  - discriminate.
  - apply (bool_decide_unpack _). vm_compute. exact I.
  - vm_compute. lia.
Defined.

(** ** The loops end

    Every parameter is read forwards, and the loops take a comma between two
    parameters, so the text gets shorter. *)

Lemma drop_while_length f l : (length (drop_while f l) <= length l)%nat.
Proof. induction l as [|x l IH]; cbn; [done|]. destruct (f x); cbn; lia. Qed.

Lemma scan_digits_length b s acc : (length (snd (scan_digits b s acc)) <= length s)%nat.
Proof.
  revert acc. induction s as [|c s IH]; intros acc; cbn [scan_digits]; [done|].
  destruct (is_digit b c); cbn; [|done]. specialize (IH (acc * b + digit_val c)). lia.
Qed.

Lemma scan_sign_length s : (length (snd (scan_sign s)) <= length s)%nat.
Proof.
  unfold scan_sign. destruct s as [|c s]; [done|].
  destruct c as [[] [] [] [] [] [] [] []]; cbn; lia.
Qed.

Lemma scan_base_length b s : (length (snd (scan_base b s)) <= length s)%nat.
Proof.
  unfold scan_base. destruct s as [|c s]; [done|].
  destruct c as [[] [] [] [] [] [] [] []]; cbn; try lia.
  destruct s as [|x [|d s]]; cbn; try lia. destruct (_ && _ && _); cbn; lia.
Qed.

Lemma scan_int_length base s neg m rest :
  scan_int base s = Some (neg, m, rest) -> (length rest <= length s)%nat.
Proof.
  unfold scan_int. pose proof (drop_while_length isspace s) as H1.
  pose proof (scan_sign_length (drop_while isspace s)) as H2.
  destruct (scan_sign (drop_while isspace s)) as [sg s1]. cbn in H2.
  pose proof (scan_base_length base s1) as H3. destruct (scan_base base s1) as [b s2]. cbn in H3.
  destruct s2 as [|c s2]; [done|]. destruct (is_digit b c); [|done].
  pose proof (scan_digits_length b (c :: s2) 0) as H4.
  destruct (scan_digits b (c :: s2) 0) as [m' r]. intros [= _ _ <-]. cbn in *. lia.
Qed.

Lemma strtol_rest_length s base : (length (default s (snd (strtol s base))) <= length s)%nat.
Proof.
  unfold strtol. destruct (base_supported base); [|done].
  destruct (scan_int base s) as [[[neg m] rest]|] eqn:E; [|done]. by eapply scan_int_length.
Qed.

Lemma strtoull_rest_length s base : (length (default s (snd (strtoull s base))) <= length s)%nat.
Proof.
  unfold strtoull. destruct (base_supported base); [|done].
  destruct (scan_int base s) as [[[neg m] rest]|] eqn:E; [|done]. by eapply scan_int_length.
Qed.

Lemma copy_str_length n s : (length (copy_str n s) <= length s)%nat.
Proof. unfold copy_str. rewrite length_take. lia. Qed.

Lemma read_number_length len params : (length (snd (read_number len params)) <= length params)%nat.
Proof.
  unfold read_number. pose proof (copy_str_length MAX_CMDLINE_INPUT_LEN (drop len params)) as H1.
  rewrite length_drop in H1. generalize dependent (copy_str MAX_CMDLINE_INPUT_LEN (drop len params)).
  intros ptr H1. pose proof (strtol_rest_length ptr 0) as H.
  destruct (strtol ptr 0) as [v e]. cbn [snd] in *. lia.
Qed.

Lemma read_unumber_length len params : (length (snd (read_unumber len params)) <= length params)%nat.
Proof.
  unfold read_unumber. pose proof (copy_str_length MAX_CMDLINE_INPUT_LEN (drop len params)) as H1.
  rewrite length_drop in H1. generalize dependent (copy_str MAX_CMDLINE_INPUT_LEN (drop len params)).
  intros ptr H1. pose proof (strtoull_rest_length ptr 0) as H.
  destruct (strtoull ptr 0) as [v e]. cbn [snd] in *. lia.
Qed.

Lemma parse_bool_length params len old :
  (length (parse_bool_params_input params len old).1.1 <= length params)%nat.
Proof.
  unfold parse_bool_params_input. destruct (strtol _ _) as [v ptr].
  repeat case_match; cbn; rewrite ?length_drop; lia.
Qed.

(** An iteration that goes on has not moved backwards. *)
Definition shrinks {S} (params : list ascii) (r : step S) : Prop :=
  match r with Next params' _ => (length params' <= length params)%nat | Stop _ _ => True end.

Lemma bool_param_shrinks {S} params len old (set : bool -> S) s :
  exists r, bool_param params len old set s = Ret r /\ shrinks params r.
Proof.
  unfold bool_param. pose proof (parse_bool_length params len old) as H.
  destruct (parse_bool_params_input params len old) as [[ps b] []]; by eexists.
Qed.

(** A loop whose iterations return ends. *)
Lemma params_loop_returns {S} (body : list ascii -> S -> outcome (step S)) fuel params s :
  (forall params s, exists r, body params s = Ret r /\ shrinks params r) -> (length params < fuel)%nat ->
  exists r, params_loop body fuel params s = Ret r.
Proof.
  intros Hb. revert params s. induction fuel as [|fuel IH]; intros params s Hl; [lia|].
  cbn [params_loop]. destruct (Hb params s) as ([ps s1|s1 e] & -> & Hs); [|by eexists].
  destruct ps as [|c ps]; [by eexists|]. case_bool_decide; [|by eexists]. apply IH. cbn in *. lia.
Qed.

(** A loop whose iterations can go wrong only by reading ends or goes wrong like that. *)
Lemma params_loop_tame {S} (I : S -> Prop) (body : list ascii -> S -> outcome (step S)) fuel params s :
  (forall params s, I s -> tame (body params s)) ->
  (forall params s r, I s -> body params s = Ret r ->
     shrinks params r /\ match r with Next _ s' => I s' | Stop _ _ => True end) ->
  I s -> (length params < fuel)%nat -> tame (params_loop body fuel params s).
Proof.
  intros Ht Hb. revert params s. induction fuel as [|fuel IH]; intros params s Hs Hl; [lia|].
  cbn [params_loop]. apply tame_bind; [by apply Ht|]. intros r [Hsh HI]%Hb; [|done].
  destruct r as [ps s1|s1 e]; [|done]. destruct ps as [|c ps]; [done|].
  case_bool_decide; [|done]. cbn in *. apply IH; [done|lia].
Qed.

(** Read a number in a goal about [shrinks]. *)
Ltac number_shrinks :=
  match goal with
  | |- context [read_number ?n ?p] =>
      let H := fresh in pose proof (read_number_length n p) as H; destruct (read_number n p) as [? ?];
        eexists; split; [reflexivity|exact H]
  | |- context [read_unumber ?n ?p] =>
      let H := fresh in pose proof (read_unumber_length n p) as H; destruct (read_unumber n p) as [? ?];
        eexists; split; [reflexivity|exact H]
  end.

Lemma add_entry_body_returns params s : exists r, add_entry_body params s = Ret r /\ shrinks params r.
Proof. unfold add_entry_body. repeat case_if; try number_shrinks; try apply bool_param_shrinks. by eexists. Qed.

Lemma control_entry_body_returns params s :
  exists r, control_entry_body params s = Ret r /\ shrinks params r.
Proof. unfold control_entry_body. repeat case_if; try number_shrinks; try apply bool_param_shrinks. by eexists. Qed.

Lemma entry_body_returns params s : exists r, entry_body params s = Ret r /\ shrinks params r.
Proof.
  unfold entry_body. repeat case_if; try number_shrinks; [|by eexists].
  eexists. split; [done|]. cbn. rewrite length_drop. lia.
Qed.

Lemma finish_returns {S} (r : outcome (S * option doca_error_t)) check :
  (exists x, r = Ret x) -> exists x, finish r check = Ret x.
Proof. intros [[s [e|]] ->]; by eexists. Qed.

Lemma parse_add_entry_returns params s : exists x, parse_add_entry_params params s = Ret x.
Proof. apply finish_returns, params_loop_returns; [apply add_entry_body_returns|lia]. Qed.

Lemma parse_control_entry_returns params s : exists x, parse_add_control_pipe_entry_params params s = Ret x.
Proof. apply finish_returns, params_loop_returns; [apply control_entry_body_returns|lia]. Qed.

Lemma parse_entry_returns params b s : exists x, parse_entry_params params b s = Ret x.
Proof. apply finish_returns, params_loop_returns; [apply entry_body_returns|lia]. Qed.

(** The queue of an [rm entry] command is not a null pointer. *)
Lemma parse_entry_queue params b q i has1 has2 s e :
  parse_entry_params params b (EntryParams (Some q) i has1 has2) = Ret (s, e) -> is_Some (ep_pipe_queue s).
Proof.
  unfold parse_entry_params, run_params. generalize (Datatypes.S (length params)). intros fuel.
  assert (forall params s0 s1 o, is_Some (ep_pipe_queue s0) ->
            params_loop entry_body fuel params s0 = Ret (s1, o) -> is_Some (ep_pipe_queue s1)) as Hl.
  { clear. induction fuel as [|fuel IH]; intros params s0 s1 o Hs; cbn [params_loop]; [done|].
    assert (forall r, entry_body params s0 = Ret r ->
              match r with Next _ s' | Stop s' _ => is_Some (ep_pipe_queue s') end) as Hb.
    { unfold entry_body. destruct Hs as [q Hq]. rewrite Hq.
      repeat case_if; try (destruct (read_number _ _)); try (destruct (read_unumber _ _));
        intros r [= <-]; cbn; rewrite ?Hq; by eexists. }
    destruct (entry_body params s0) as [r|]; [|done]. specialize (Hb r eq_refl).
    destruct r as [ps s'|s' e]; [|intros [= <- <-]; exact Hb].
    destruct ps as [|c ps]; [intros [= <- <-]; exact Hb|].
    case_bool_decide; [by apply IH|intros [= <- <-]; exact Hb]. }
  unfold finish. intros E. obind E. destruct a as [s1 o].
  apply Hl in E0; [|by eexists]. destruct o; by inv_ret.
Qed.

(** [create pipe]: a missing value or an unset result are the only errors. *)
Lemma create_pipe_body_tame {api : PipeCfgApi} m params s : tame (create_pipe_body m params s).
Proof.
  unfold create_pipe_body, cfg_bool_param, out_bool_param.
  repeat case_if; repeat case_match; try done.
  all: match goal with E : of_option _ (strtok ?a ?b) = Undef _ |- _ =>
         destruct (strtok a b); [done|injection E as <-] end; cbn; unfold reading_error; auto.
Qed.

Lemma parse_bool_shrinks {S} params len old ps b e (s : S) :
  parse_bool_params_input params len old = (ps, b, e) -> shrinks params (Next ps s).
Proof. intros E. pose proof (parse_bool_length params len old) as H. by rewrite E in H. Qed.

Lemma create_pipe_body_shrinks {api : PipeCfgApi} m params s r :
  create_pipe_body m params s = Ret r -> shrinks params r.
Proof.
  assert (forall n (s' : create_pipe_params), shrinks params (Next (drop n params) s')) as Hd
    by (intros; cbn; rewrite length_drop; lia).
  assert (forall n k (s' : create_pipe_params), shrinks params (Next (drop n (drop k params)) s')) as Hdd
    by (intros; cbn; rewrite !length_drop; lia).
  unfold create_pipe_body, cfg_bool_param, out_bool_param. intros E.
  repeat match type of E with
  | (if ?b then _ else _) = _ => destruct b
  | (let '(_, _) := ?x in _) = _ => destruct x eqn:?
  | (match ?o with Ret _ => _ | Undef _ => _ end) = _ => destruct o; [|discriminate E]
  | (match ?x with _ => _ end) = _ => destruct x eqn:?
  | Ret _ = Ret _ => injection E as <-
  end; try done; by eapply parse_bool_shrinks.
Qed.

Lemma parse_create_pipe_tame {api : PipeCfgApi} m params s : tame (parse_create_pipe_params m params s).
Proof.
  unfold parse_create_pipe_params. apply tame_bind.
  - apply (params_loop_tame (fun _ => True)); [..|done|lia].
    + intros ps s' _. apply create_pipe_body_tame.
    + intros ps s' r _ E. apply create_pipe_body_shrinks in E. by destruct r.
  - intros [s' [e|]] _; [done|]. case_if; [|done].
    apply tame_bind; [destruct (cp_result s'); cbn; unfold reading_error; auto|done].
Qed.
