(* ===== verification/FlowCommands.v ===== *)
(** * Commands of the flow command line (applications/common/flow_parser.c)

    The global structures of the parser, the callbacks an application registers
    and the handlers of the commands.  The tokeniser of the command line library
    is outside: a command arrives as its [params] string (or, for [create
    <struct>], as the array holding the fields).  A callback that receives a
    pointer to a global structure returns the structure's new value. *)
From S2P Require Import Prelude CString FlowTypes FlowValues FlowFields FlowStruct FlowParams.


(** Creation of a pipe configuration object ([doca_flow_pipe_cfg_create]). *)
Class PipeCfgCreate (api : PipeCfgApi) := { cfg_create : res pipe_cfg }.

Section commands.
Context {api : PipeCfgApi} {create : PipeCfgCreate api}.
(** The state of the application behind the callbacks. *)
Context {W : Type}.
(** The C library: allocation, opening files, and the indeterminate contents of
    the local array of [parse_struct]. *)
Context (malloc_ok : Z -> bool) (fopen_ok : list ascii -> bool) (garbage : list ascii).

(** The callbacks; [None] is the null pointer. *)
Record callbacks : Type := Callbacks {
  create_pipe_func :
    option (pipe_cfg -> Z -> option doca_flow_fwd -> Z -> option doca_flow_fwd -> Z -> W ->
            outcome (W * option doca_flow_fwd * option doca_flow_fwd));
  add_entry_func :
    option (Z -> Z -> doca_flow_match -> doca_flow_actions -> option doca_flow_monitor ->
            option doca_flow_fwd -> Z -> Z -> W -> outcome (W * option doca_flow_fwd));
  add_fw_entry_func : option (Z -> doca_flow_match -> W -> outcome W);
  add_control_pipe_entry_func :
    option (Z -> Z -> Z -> doca_flow_match -> option doca_flow_match -> option doca_flow_fwd ->
            Z -> W -> outcome (W * option doca_flow_fwd));
  destroy_pipe_func : option (Z -> W -> outcome W);
  remove_entry_func : option (Z -> Z -> Z -> W -> outcome W);
  remove_fw_entry_func : option (Z -> W -> outcome W);
  port_pipes_flush_func : option (Z -> W -> outcome W);
  (** [None] when the callback leaves the statistics unset. *)
  query_func : option (Z -> W -> outcome (W * option (Z * Z)));
  port_pipes_dump_func : option (Z -> Z -> W -> outcome W);
}.

Definition callbacks_init : callbacks :=
  Callbacks None None None None None None None None None None.

(** The globals of the parser; [live_cfgs] counts the configuration objects that
    were created and not yet destroyed. *)
Record parser : Type := Parser {
  pipe_match : doca_flow_match;
  entry_match : doca_flow_match;
  match_mask : doca_flow_match;
  actions : doca_flow_actions;
  monitor : doca_flow_monitor;
  fwd : doca_flow_fwd;
  fwd_miss : doca_flow_fwd;
  pipe_port_id : Z;
  env : fwd_env;
  streams : files;
  live_cfgs : Z;
  cbs_ : callbacks;
}.

Definition fwd_env_init : fwd_env := FwdEnv rss_mem_init 0 0.

Definition set_pipe_match m (p : parser) := Parser m (entry_match p) (match_mask p) (actions p)
  (monitor p) (fwd p) (fwd_miss p) (pipe_port_id p) (env p) (streams p) (live_cfgs p) (cbs_ p).
Definition set_entry_match m (p : parser) := Parser (pipe_match p) m (match_mask p) (actions p)
  (monitor p) (fwd p) (fwd_miss p) (pipe_port_id p) (env p) (streams p) (live_cfgs p) (cbs_ p).
Definition set_match_mask m (p : parser) := Parser (pipe_match p) (entry_match p) m (actions p)
  (monitor p) (fwd p) (fwd_miss p) (pipe_port_id p) (env p) (streams p) (live_cfgs p) (cbs_ p).
Definition set_actions a (p : parser) := Parser (pipe_match p) (entry_match p) (match_mask p) a
  (monitor p) (fwd p) (fwd_miss p) (pipe_port_id p) (env p) (streams p) (live_cfgs p) (cbs_ p).
Definition set_monitor m (p : parser) := Parser (pipe_match p) (entry_match p) (match_mask p)
  (actions p) m (fwd p) (fwd_miss p) (pipe_port_id p) (env p) (streams p) (live_cfgs p) (cbs_ p).
Definition set_fwd f (p : parser) := Parser (pipe_match p) (entry_match p) (match_mask p)
  (actions p) (monitor p) f (fwd_miss p) (pipe_port_id p) (env p) (streams p) (live_cfgs p) (cbs_ p).
Definition set_fwd_miss f (p : parser) := Parser (pipe_match p) (entry_match p) (match_mask p)
  (actions p) (monitor p) (fwd p) f (pipe_port_id p) (env p) (streams p) (live_cfgs p) (cbs_ p).
Definition set_pipe_port_id n (p : parser) := Parser (pipe_match p) (entry_match p) (match_mask p)
  (actions p) (monitor p) (fwd p) (fwd_miss p) n (env p) (streams p) (live_cfgs p) (cbs_ p).
Definition set_env g (p : parser) := Parser (pipe_match p) (entry_match p) (match_mask p)
  (actions p) (monitor p) (fwd p) (fwd_miss p) (pipe_port_id p) g (streams p) (live_cfgs p) (cbs_ p).
Definition set_streams s (p : parser) := Parser (pipe_match p) (entry_match p) (match_mask p)
  (actions p) (monitor p) (fwd p) (fwd_miss p) (pipe_port_id p) (env p) s (live_cfgs p) (cbs_ p).
Definition set_live_cfgs n (p : parser) := Parser (pipe_match p) (entry_match p) (match_mask p)
  (actions p) (monitor p) (fwd p) (fwd_miss p) (pipe_port_id p) (env p) (streams p) n (cbs_ p).
Definition set_callbacks c (p : parser) := Parser (pipe_match p) (entry_match p) (match_mask p)
  (actions p) (monitor p) (fwd p) (fwd_miss p) (pipe_port_id p) (env p) (streams p) (live_cfgs p) c.

(** Static storage is zero at program start. *)
Definition parser_init : parser :=
  Parser match_zero match_zero match_zero actions_zero monitor_zero fwd_zero fwd_zero 0
    fwd_env_init (Files [] 0) 0 callbacks_init.

(** ** Registration and reset *)

Definition set_pipe_create a (p : parser) := let c := cbs_ p in set_callbacks
  (Callbacks (Some a) (add_entry_func c) (add_fw_entry_func c) (add_control_pipe_entry_func c)
     (destroy_pipe_func c) (remove_entry_func c) (remove_fw_entry_func c) (port_pipes_flush_func c)
     (query_func c) (port_pipes_dump_func c)) p.
Definition set_pipe_add_entry a (p : parser) := let c := cbs_ p in set_callbacks
  (Callbacks (create_pipe_func c) (Some a) (add_fw_entry_func c) (add_control_pipe_entry_func c)
     (destroy_pipe_func c) (remove_entry_func c) (remove_fw_entry_func c) (port_pipes_flush_func c)
     (query_func c) (port_pipes_dump_func c)) p.
Definition set_pipe_fw_add_entry a (p : parser) := let c := cbs_ p in set_callbacks
  (Callbacks (create_pipe_func c) (add_entry_func c) (Some a) (add_control_pipe_entry_func c)
     (destroy_pipe_func c) (remove_entry_func c) (remove_fw_entry_func c) (port_pipes_flush_func c)
     (query_func c) (port_pipes_dump_func c)) p.
Definition set_pipe_control_add_entry a (p : parser) := let c := cbs_ p in set_callbacks
  (Callbacks (create_pipe_func c) (add_entry_func c) (add_fw_entry_func c) (Some a)
     (destroy_pipe_func c) (remove_entry_func c) (remove_fw_entry_func c) (port_pipes_flush_func c)
     (query_func c) (port_pipes_dump_func c)) p.
Definition set_pipe_destroy a (p : parser) := let c := cbs_ p in set_callbacks
  (Callbacks (create_pipe_func c) (add_entry_func c) (add_fw_entry_func c)
     (add_control_pipe_entry_func c) (Some a) (remove_entry_func c) (remove_fw_entry_func c)
     (port_pipes_flush_func c) (query_func c) (port_pipes_dump_func c)) p.
Definition set_pipe_rm_entry a (p : parser) := let c := cbs_ p in set_callbacks
  (Callbacks (create_pipe_func c) (add_entry_func c) (add_fw_entry_func c)
     (add_control_pipe_entry_func c) (destroy_pipe_func c) (Some a) (remove_fw_entry_func c)
     (port_pipes_flush_func c) (query_func c) (port_pipes_dump_func c)) p.
Definition set_pipe_fw_rm_entry a (p : parser) := let c := cbs_ p in set_callbacks
  (Callbacks (create_pipe_func c) (add_entry_func c) (add_fw_entry_func c)
     (add_control_pipe_entry_func c) (destroy_pipe_func c) (remove_entry_func c) (Some a)
     (port_pipes_flush_func c) (query_func c) (port_pipes_dump_func c)) p.
Definition set_port_pipes_flush a (p : parser) := let c := cbs_ p in set_callbacks
  (Callbacks (create_pipe_func c) (add_entry_func c) (add_fw_entry_func c)
     (add_control_pipe_entry_func c) (destroy_pipe_func c) (remove_entry_func c)
     (remove_fw_entry_func c) (Some a) (query_func c) (port_pipes_dump_func c)) p.
Definition set_query a (p : parser) := let c := cbs_ p in set_callbacks
  (Callbacks (create_pipe_func c) (add_entry_func c) (add_fw_entry_func c)
     (add_control_pipe_entry_func c) (destroy_pipe_func c) (remove_entry_func c)
     (remove_fw_entry_func c) (port_pipes_flush_func c) (Some a) (port_pipes_dump_func c)) p.
Definition set_port_pipes_dump a (p : parser) := let c := cbs_ p in set_callbacks
  (Callbacks (create_pipe_func c) (add_entry_func c) (add_fw_entry_func c)
     (add_control_pipe_entry_func c) (destroy_pipe_func c) (remove_entry_func c)
     (remove_fw_entry_func c) (port_pipes_flush_func c) (query_func c) (Some a)) p.

(** [reset_doca_flow_structs]: the structures only, not the pipe identifiers. *)
Definition reset_doca_flow_structs (p : parser) : parser :=
  Parser match_zero match_zero match_zero actions_zero monitor_zero fwd_zero fwd_zero
    (pipe_port_id p) (env p) (streams p) (live_cfgs p) (cbs_ p).

(** [flow_parser_cleanup]. *)
Definition flow_parser_cleanup (p : parser) : outcome parser :=
  let* r := free_rss (fwd_rss (env p)) in
  Ret (set_env (set_fwd_rss r (env p)) p).

(** ** Handlers *)

(** [is_x ? &x : NULL] and the structure after the callback. *)
Definition ptr_if {A} (b : bool) (a : A) : option A := if b then Some a else None.

Definition parse_result := outcome (parser * W).

Definition cmd_create_struct_parsed (flow_struct flow_struct_input : list ascii) (p : parser)
    : outcome parser :=
  let parse_match := parse_struct parse_match_field flow_struct_input garbage match_zero in
  if streq flow_struct (lit "pipe_match") then
    let* (m, _) := parse_match in Ret (set_pipe_match m p)
  else if streq flow_struct (lit "entry_match") then
    let* (m, _) := parse_match in Ret (set_entry_match m p)
  else if streq flow_struct (lit "match_mask") then
    let* (m, _) := parse_match in Ret (set_match_mask m p)
  else if streq flow_struct (lit "actions") then
    let* (a, _) := parse_struct parse_actions_field flow_struct_input garbage actions_zero in
    Ret (set_actions a p)
  else if streq flow_struct (lit "monitor") then
    let* (m, _) := parse_struct parse_monitor_field flow_struct_input garbage monitor_zero in
    Ret (set_monitor m p)
  else if streq flow_struct (lit "fwd") then
    let* ((g, f), _) := parse_struct (parse_fwd_field malloc_ok) flow_struct_input garbage
                          (env p, fwd_zero) in
    Ret (set_env g (set_fwd f p))
  else if streq flow_struct (lit "fwd_miss") then
    let* ((g, f), _) := parse_struct (parse_fwd_miss_field malloc_ok) flow_struct_input garbage
                          (env p, fwd_zero) in
    Ret (set_env g (set_fwd_miss f p))
  else Ret p.

Definition cmd_fw_create_struct_parsed (flow_struct_input : list ascii) (p : parser)
    : outcome parser :=
  let* (m, _) := parse_struct parse_fw_match_field flow_struct_input garbage match_zero in
  Ret (set_entry_match m p).

(** The part of [cmd_create_pipe_parsed] between the creation and the
    destruction of the configuration object. *)
Definition create_pipe_with_cfg (create_pipe : pipe_cfg -> Z -> option doca_flow_fwd -> Z ->
      option doca_flow_fwd -> Z -> W -> outcome (W * option doca_flow_fwd * option doca_flow_fwd))
    (cfg : pipe_cfg) (params : list ascii) (p : parser) (w : W) : parse_result :=
  let* (s, result) := parse_create_pipe_params (monitor p) params
                        (create_pipe_params_init cfg (pipe_port_id p)) in
  let p := set_pipe_port_id (cp_port_id s) p in
  if negb (bool_decide (result = DOCA_SUCCESS)) then Ret (p, w)
  else
    let* type := of_option Uninitialised (cp_type s) in
    let '(cfg, result) :=
      if bool_decide (type = DOCA_FLOW_PIPE_CONTROL) then (cp_cfg s, DOCA_SUCCESS)
      else
        match cfg_set_match (pipe_match p) (ptr_if (cp_match_mask s) (match_mask p)) (cp_cfg s) with
        | (cfg, DOCA_SUCCESS) => cfg_set_actions (actions p) cfg
        | (cfg, e) => (cfg, e)
        end in
    if negb (bool_decide (result = DOCA_SUCCESS)) then Ret (p, w)
    else
      let* (w, f, fm) :=
        create_pipe cfg (pipe_port_id p) (ptr_if (cp_fwd_action s) (fwd p))
          (fwd_next_pipe_id (env p)) (ptr_if (cp_fwd_miss_action s) (fwd_miss p))
          (fwd_miss_next_pipe_id (env p)) w in
      Ret (set_fwd_miss (default (fwd_miss p) fm) (set_fwd (default (fwd p) f) p), w).

Definition cmd_create_pipe_parsed (params : list ascii) (p : parser) (w : W) : parse_result :=
  match create_pipe_func (cbs_ p) with
  | None => Ret (p, w)
  | Some create_pipe =>
      match cfg_create with
      | Err _ => Ret (p, w)
      | Ok cfg =>
          let* (p, w) := create_pipe_with_cfg create_pipe cfg params
                           (set_live_cfgs (live_cfgs p + 1) p) w in
          Ret (set_live_cfgs (live_cfgs p - 1) p, w)
      end
  end.

Definition cmd_add_entry_parsed (params : list ascii) (p : parser) (w : W) : parse_result :=
  match add_entry_func (cbs_ p) with
  | None => Ret (p, w)
  | Some add_entry =>
      let* (s, result) := parse_add_entry_params params add_entry_params_init in
      if negb (bool_decide (result = DOCA_SUCCESS)) then Ret (p, w)
      else
        let* (w, f) :=
          add_entry (u16 (ae_pipe_queue s)) (ae_pipe_id s) (entry_match p) (actions p)
            (ptr_if (ae_monitor_action s) (monitor p)) (ptr_if (ae_fwd_action s) (fwd p))
            (fwd_next_pipe_id (env p)) DOCA_FLOW_NO_WAIT w in
        Ret (set_fwd (default (fwd p) f) p, w)
  end.

Definition cmd_fw_add_entry_parsed (params : list ascii) (p : parser) (w : W) : parse_result :=
  match add_fw_entry_func (cbs_ p) with
  | None => Ret (p, w)
  | Some add_fw_entry =>
      let '(port_id, result) := parse_fw_add_entry_params params 0 in
      if negb (bool_decide (result = DOCA_SUCCESS)) then Ret (p, w)
      else let* w := add_fw_entry port_id (entry_match p) w in Ret (p, w)
  end.

Definition cmd_add_control_pipe_entry_parsed (params : list ascii) (p : parser) (w : W)
    : parse_result :=
  match add_control_pipe_entry_func (cbs_ p) with
  | None => Ret (p, w)
  | Some add_control_pipe_entry =>
      let* (s, result) := parse_add_control_pipe_entry_params params control_entry_params_init in
      if negb (bool_decide (result = DOCA_SUCCESS)) then Ret (p, w)
      else
        let* (w, f) :=
          add_control_pipe_entry (ce_pipe_queue s) (ce_priority s) (ce_pipe_id s) (entry_match p)
            (ptr_if (ce_match_mask_action s) (match_mask p)) (ptr_if (ce_fwd_action s) (fwd p))
            (fwd_next_pipe_id (env p)) w in
        Ret (set_fwd (default (fwd p) f) p, w)
  end.

Definition cmd_destroy_pipe_parsed (params : list ascii) (p : parser) (w : W) : parse_result :=
  match destroy_pipe_func (cbs_ p) with
  | None => Ret (p, w)
  | Some destroy_pipe =>
      match parse_pipe_id_input params with
      | Err _ => Ret (p, w)
      | Ok pipe_id => let* w := destroy_pipe pipe_id w in Ret (p, w)
      end
  end.

Definition cmd_rm_entry_parsed (params : list ascii) (p : parser) (w : W) : parse_result :=
  match remove_entry_func (cbs_ p) with
  | None => Ret (p, w)
  | Some remove_entry =>
      let* (s, result) := parse_entry_params params true (EntryParams (Some 0) 0 false false) in
      if negb (bool_decide (result = DOCA_SUCCESS)) then Ret (p, w)
      else
        let* pipe_queue := of_option NullDeref (ep_pipe_queue s) in
        let* w := remove_entry pipe_queue (ep_entry_id s) DOCA_FLOW_NO_WAIT w in Ret (p, w)
  end.

Definition cmd_fw_rm_entry_parsed (params : list ascii) (p : parser) (w : W) : parse_result :=
  match remove_fw_entry_func (cbs_ p) with
  | None => Ret (p, w)
  | Some remove_fw_entry =>
      let '(entry_id, result) := parse_fw_entry_params params 0 in
      if negb (bool_decide (result = DOCA_SUCCESS)) then Ret (p, w)
      else let* w := remove_fw_entry entry_id w in Ret (p, w)
  end.

Definition cmd_flush_pipes_parsed (port_id : list ascii) (p : parser) (w : W) : parse_result :=
  match port_pipes_flush_func (cbs_ p) with
  | None => Ret (p, w)
  | Some port_pipes_flush =>
      match parse_port_id_input port_id with
      | Err _ => Ret (p, w)
      | Ok port_id => let* w := port_pipes_flush (u16 port_id) w in Ret (p, w)
      end
  end.

(** The statistics are logged after the callback. *)
Definition cmd_query_parsed (params : list ascii) (p : parser) (w : W) : parse_result :=
  match query_func (cbs_ p) with
  | None => Ret (p, w)
  | Some query =>
      let* (s, result) := parse_entry_params params false (EntryParams None 0 false false) in
      if negb (bool_decide (result = DOCA_SUCCESS)) then Ret (p, w)
      else
        let* (w, query_stats) := query (ep_entry_id s) w in
        let* _ := of_option Uninitialised query_stats in
        Ret (p, w)
  end.

Definition cmd_dump_pipe_parsed (params : list ascii) (p : parser) (w : W) : parse_result :=
  match port_pipes_dump_func (cbs_ p) with
  | None => Ret (p, w)
  | Some port_pipes_dump =>
      let* (s, result) := parse_dump_pipe_params fopen_ok params
                            (DumpParams 0 None (streams p) false false) in
      let p := set_streams (dp_files s) p in
      if negb (bool_decide (result = DOCA_SUCCESS)) then
        match dp_file s with
        | None => Ret (p, w)
        | Some fd => let* f := fclose fd (streams p) in Ret (set_streams f p, w)
        end
      else
        let* fd := of_option NullDeref (dp_file s) in
        let* w := port_pipes_dump (dp_port_id s) fd w in
        let* f := fclose fd (streams p) in Ret (set_streams f p, w)
  end.

(** ** The command loop *)

Inductive command : Type :=
| CmdQuit
| CmdUpdateStruct (flow_struct flow_struct_input : list ascii)
| CmdFwCreateStruct (flow_struct_input : list ascii)
| CmdCreatePipe (params : list ascii)
| CmdAddEntry (params : list ascii)
| CmdFwAddEntry (params : list ascii)
| CmdAddControlPipeEntry (params : list ascii)
| CmdDestroyPipe (params : list ascii)
| CmdRmEntry (params : list ascii)
| CmdFwRmEntry (params : list ascii)
| CmdFlushPipes (port_id : list ascii)
| CmdDumpPipe (params : list ascii)
| CmdQuery (params : list ascii).

(** The commands of [main_ctx] and of [fw_subset_ctx]. *)
Definition in_ctx (fw_subset : bool) (c : command) : bool :=
  match c with
  | CmdQuit | CmdFlushPipes _ | CmdDumpPipe _ => true
  | CmdFwCreateStruct _ | CmdFwAddEntry _ | CmdFwRmEntry _ => fw_subset
  | _ => negb fw_subset
  end.

Definition run_command (c : command) (p : parser) (w : W) : parse_result :=
  match c with
  | CmdQuit => Ret (p, w)
  | CmdUpdateStruct s i => let* p := cmd_create_struct_parsed s i p in Ret (p, w)
  | CmdFwCreateStruct i => let* p := cmd_fw_create_struct_parsed i p in Ret (p, w)
  | CmdCreatePipe s => cmd_create_pipe_parsed s p w
  | CmdAddEntry s => cmd_add_entry_parsed s p w
  | CmdFwAddEntry s => cmd_fw_add_entry_parsed s p w
  | CmdAddControlPipeEntry s => cmd_add_control_pipe_entry_parsed s p w
  | CmdDestroyPipe s => cmd_destroy_pipe_parsed s p w
  | CmdRmEntry s => cmd_rm_entry_parsed s p w
  | CmdFwRmEntry s => cmd_fw_rm_entry_parsed s p w
  | CmdFlushPipes s => cmd_flush_pipes_parsed s p w
  | CmdDumpPipe s => cmd_dump_pipe_parsed s p w
  | CmdQuery s => cmd_query_parsed s p w
  end.

(** [cmdline_interact]: commands until [quit] or the end of the input; one that is
    not in the context is rejected by the command line library. *)
Fixpoint interact (fw_subset : bool) (cs : list command) (p : parser) (w : W) : parse_result :=
  match cs with
  | [] => Ret (p, w)
  | CmdQuit :: _ => Ret (p, w)
  | c :: cs' =>
      if in_ctx fw_subset c then
        let* (p, w) := run_command c p w in interact fw_subset cs' p w
      else interact fw_subset cs' p w
  end.

(** [new_ok]: whether [cmdline_stdin_new] succeeds. *)
Definition flow_parser_init (new_ok fw_subset : bool) (cs : list command) (p : parser) (w : W)
    : outcome (parser * W * doca_error_t) :=
  let p := reset_doca_flow_structs p in
  if new_ok then let* (p, w) := interact fw_subset cs p w in Ret (p, w, DOCA_SUCCESS)
  else Ret (p, w, DOCA_ERROR_INVALID_VALUE).
End commands.
Arguments parser {api} W.
Arguments callbacks {api} W.

(** ** The invariant of the parser *)

(** Streams: handles are below the next one. *)
Definition files_wf (f : files) : Prop := Forall (fun h => h < next_file f) (open_files f).

Record parser_wf {api : PipeCfgApi} {W} (p : parser W) : Prop := {
  pw_pipe_match : match_wf (pipe_match p);
  pw_entry_match : match_wf (entry_match p);
  pw_match_mask : match_wf (match_mask p);
  pw_actions : actions_wf (actions p);
  pw_monitor : monitor_wf (monitor p);
  pw_fwd : fwd_wf (fwd p);
  pw_fwd_miss : fwd_wf (fwd_miss p);
  pw_rss : rss_wf (fwd_rss (env p));
  pw_streams : files_wf (streams p);
}.

(** A callback may change the structure it gets a pointer to, not its size. *)
Definition opt_fwd_wf (f : option doca_flow_fwd) : Prop := forall x, f = Some x -> fwd_wf x.

Record callbacks_ok {api : PipeCfgApi} {W} (c : callbacks W) : Prop := {
  co_create : forall cb cfg port f n fm nm w w' f' fm', create_pipe_func c = Some cb ->
    opt_fwd_wf f -> opt_fwd_wf fm ->
    cb cfg port f n fm nm w = Ret (w', f', fm') -> opt_fwd_wf f' /\ opt_fwd_wf fm';
  co_add : forall cb q i m a mo f n fl w w' f', add_entry_func c = Some cb ->
    opt_fwd_wf f -> cb q i m a mo f n fl w = Ret (w', f') -> opt_fwd_wf f';
  co_control : forall cb q pr i m k f n w w' f', add_control_pipe_entry_func c = Some cb ->
    opt_fwd_wf f -> cb q pr i m k f n w = Ret (w', f') -> opt_fwd_wf f';
}.

Lemma ptr_if_wf b f : fwd_wf f -> opt_fwd_wf (ptr_if b f).
Proof. unfold opt_fwd_wf, ptr_if. intros Hf x. destruct b; [by intros [= <-]|done]. Qed.

(** What every command keeps: well-formed structures, the registered callbacks,
    and the same open streams and configuration objects as before. *)
Record parser_keeps {api : PipeCfgApi} {W} (p p' : parser W) : Prop := {
  pk_wf : parser_wf p';
  pk_callbacks : cbs_ p' = cbs_ p;
  pk_streams : open_files (streams p') = open_files (streams p);
  pk_cfgs : live_cfgs p' = live_cfgs p;
}.

Lemma parser_init_wf {api : PipeCfgApi} {W} : parser_wf (W := W) parser_init.
Proof.
  split; try apply match_zero_wf; try apply actions_zero_wf; try apply rss_mem_init_wf;
    try done. apply Forall_nil_2.
Qed.

Lemma reset_wf {api : PipeCfgApi} {W} (p : parser W) :
  parser_wf p -> parser_wf (reset_doca_flow_structs p).
Proof.
  intros Hp. destruct (parser_init_wf (api := api) (W := W)). destruct Hp. by apply Build_parser_wf.
Qed.

Lemma set_callbacks_wf {api : PipeCfgApi} {W} c (p : parser W) :
  parser_wf p -> parser_wf (set_callbacks c p).
Proof. intros []. by apply Build_parser_wf. Qed.

Lemma parser_keeps_refl {api : PipeCfgApi} {W} (p : parser W) : parser_wf p -> parser_keeps p p.
Proof. intros. by split. Qed.

Lemma parser_keeps_trans {api : PipeCfgApi} {W} (p1 p2 p3 : parser W) :
  parser_keeps p1 p2 -> parser_keeps p2 p3 -> parser_keeps p1 p3.
Proof. intros [] []. split; congruence. Qed.

Lemma default_fwd_wf f (f' : option doca_flow_fwd) :
  fwd_wf f -> (forall x, f' = Some x -> fwd_wf x) -> fwd_wf (default f f').
Proof. destruct f'; cbn; auto. Qed.

#[export] Hint Resolve parser_keeps_refl default_fwd_wf : doca.

(** The members an update leaves alone. *)
Ltac keep_rest :=
  apply Build_parser_keeps; [apply Build_parser_wf; cbn; assumption | reflexivity ..].

Section keeps.
Context {api : PipeCfgApi} {create : PipeCfgCreate api} {W : Type}.
Context (malloc_ok : Z -> bool) (fopen_ok : list ascii -> bool) (garbage : list ascii).

(** A structure update keeps the rest. *)
Lemma set_fwd_keeps (p : parser W) f : parser_wf p -> fwd_wf f -> parser_keeps p (set_fwd f p).
Proof using Type. intros [] ?. keep_rest. Qed.
Lemma set_fwd_miss_keeps (p : parser W) f :
  parser_wf p -> fwd_wf f -> parser_keeps p (set_fwd_miss f p).
Proof using Type. intros [] ?. keep_rest. Qed.

(** The structure returned by [parse_struct] is well formed. *)
Lemma parse_struct_ret {S} (wf : S -> Prop) fill `{!FieldParser wf fill} str value s s' e :
  wf s -> parse_struct fill str value s = Ret (s', e) -> wf s'.
Proof using Type.
  intros Hs E. pose proof (parse_struct_keeps wf fill str value s Hs) as H.
  by rewrite E in H.
Qed.

Lemma cmd_create_struct_keeps fs input (p p' : parser W) :
  parser_wf p -> cmd_create_struct_parsed malloc_ok garbage fs input p = Ret p' ->
  parser_keeps p p'.
Proof using Type.
  intros Hp. unfold cmd_create_struct_parsed.
  repeat case_if; intros H; try (by inv_ret; apply parser_keeps_refl);
    obind H;
    try (match goal with E : parse_struct parse_match_field _ _ _ = Ret ?a |- _ =>
           destruct a as [m e]; apply (parse_struct_ret match_wf parse_match_field) in E; [|apply match_zero_wf] end);
    try (match goal with E : parse_struct parse_actions_field _ _ _ = Ret ?a |- _ =>
           destruct a as [m e]; apply (parse_struct_ret actions_wf parse_actions_field) in E; [|apply actions_zero_wf] end);
    try (match goal with E : parse_struct parse_monitor_field _ _ _ = Ret ?a |- _ =>
           destruct a as [m e]; apply (parse_struct_ret monitor_wf parse_monitor_field) in E; [|done] end);
    try (match goal with E : parse_struct ?fill _ _ (env p, fwd_zero) = Ret ?a |- _ =>
           destruct a as [[g f] e]; apply (parse_struct_ret fwd_state_wf fill) in E;
           [destruct E; cbn [fst snd] in * | split; [apply Hp | done]] end);
    inv_ret; destruct Hp; keep_rest.
Qed.

Lemma params_loop_inv {S} (I : S -> Prop) (J : S -> doca_error_t -> Prop) body fuel params s s' o :
  (forall params s, I s ->
    match body params s with
    | Ret (Next _ s') => I s' | Ret (Stop s' e) => J s' e | Undef _ => True
    end) ->
  I s -> params_loop body fuel params s = Ret (s', o) ->
  match o with None => I s' | Some e => J s' e end.
Proof using Type.
  intros Hb. revert params s. induction fuel as [|fuel IH]; intros params s Hs; cbn [params_loop];
    [done|].
  specialize (Hb params s Hs). destruct (body params s) as [[params' s1|s1 e]|]; [| |done].
  - destruct params' as [|c params']; [intros E; by inv_ret|].
    case_bool_decide; [by apply IH|]. intros E. by inv_ret.
  - intros E. by inv_ret.
Qed.

(** While the parameters of [dump] are read, at most the named file is open. *)
Definition dump_running (f : files) (s : dump_params) : Prop :=
  dp_has_file s = false /\ dp_file s = None /\ dp_files s = f
  \/ dp_has_file s = true /\ dp_file s = Some (next_file f)
     /\ dp_files s = Files (next_file f :: open_files f) (next_file f + 1).

(** Afterwards the file pointer is null and nothing was left open, or it is the
    only new stream. *)
Definition dump_done (f : files) (s : dump_params) : Prop :=
  match dp_file s with
  | None => open_files (dp_files s) = open_files f /\ next_file f <= next_file (dp_files s)
  | Some h => h = next_file f
              /\ dp_files s = Files (next_file f :: open_files f) (next_file f + 1)
  end.

Lemma fclose_new f :
  files_wf f ->
  fclose (next_file f) (Files (next_file f :: open_files f) (next_file f + 1))
    = Ret (Files (open_files f) (next_file f + 1)).
Proof using Type.
  intros Hf. unfold fclose. cbn [open_files next_file].
  rewrite bool_decide_eq_true_2 by (apply elem_of_cons; by left).
  rewrite filter_cons_False by congruence. do 2 f_equal.
  clear -Hf. unfold files_wf in Hf. induction Hf as [|h l Hh _ IH]; [done|].
  rewrite filter_cons_True by lia. by rewrite IH.
Qed.

Lemma dump_body_inv f params s :
  files_wf f -> dump_running f s ->
  match dump_body fopen_ok params s with
  | Ret (Next params' s') => dump_running f s' /\ (length params' <= length params)%nat
  | Ret (Stop s' e) => dump_done f s' /\ e <> DOCA_SUCCESS
  | Undef u => u = NullDeref
  end.
Proof using Type.
  intros Hf Hs. unfold dump_body. case_if.
  { pose proof (read_number_length 8 params). destruct (read_number 8 params). split; [|done].
    unfold dump_running in *. cbn. naive_solver. }
  case_if.
  - destruct Hs as [(Hh & Hd & He)|(Hh & Hd & He)]; rewrite Hh.
    + destruct (strtok _ _) as [name|]; [|done]. cbn [of_option]. unfold fopen.
      rewrite He. case_if; cbn beta iota zeta; [split; [by right|rewrite !length_drop; lia]|].
      unfold dump_done. cbn. split; [split; [done | lia] | done].
    + rewrite Hd, He. cbn [of_option]. rewrite fclose_new by done. cbn beta iota.
      unfold dump_done. cbn. split; [split; [done | lia] | done].
  - unfold dump_done. destruct Hs as [(_ & -> & ->)|(_ & -> & ->)]; cbn; (split; [|done]);
      [split; [done | lia] | done].
Qed.

Lemma parse_dump_inv f params s e :
  files_wf f ->
  parse_dump_pipe_params fopen_ok params (DumpParams 0 None f false false) = Ret (s, e) ->
  dump_done f s /\ (e = DOCA_SUCCESS -> dp_file s = Some (next_file f)).
Proof using Type.
  intros Hf. unfold parse_dump_pipe_params, run_params. intros H. obind H.
  destruct a as [s1 o].
  apply (params_loop_inv (dump_running f) (fun s e => dump_done f s /\ e <> DOCA_SUCCESS)) in E;
    [|intros ps s0 Hs0; pose proof (dump_body_inv f ps s0 Hf Hs0) as Hb;
       destruct (dump_body fopen_ok ps s0) as [[]|]; [apply Hb|done|done]|by left].
  assert (forall s, dump_running f s -> dump_done f s) as Hrd.
  { intros s' [(_ & Hd & He)|(_ & Hd & He)]; unfold dump_done; rewrite Hd, He; cbn;
      [split; [done|lia] | done]. }
  destruct o as [e'|].
  - inv_ret. destruct E as [E He]. by split.
  - destruct (dp_has_port_id s1); cbn in H; [|inv_ret; split; [auto|done]].
    destruct E as [(Hh & Hd & He)|(Hh & Hd & He)]; rewrite Hh in H; cbn in H.
    + unfold fopen in H. rewrite He in H. destruct (fopen_ok _); cbn in H; inv_ret.
      * split; [by split|done].
      * split; [split; cbn; [done|lia]|done].
    + inv_ret. split; [apply Hrd; by right|done].
Qed.

Lemma cmd_dump_keeps params (p p' : parser W) w w' :
  parser_wf p -> cmd_dump_pipe_parsed fopen_ok params p w = Ret (p', w') -> parser_keeps p p'.
Proof using Type.
  intros Hp. unfold cmd_dump_pipe_parsed.
  destruct (port_pipes_dump_func (cbs_ p)) as [dump|]; [|intros H; inv_ret; auto with doca].
  intros H. obind H. destruct a as [s e].
  apply parse_dump_inv in E as [Hd Hs]; [|apply Hp].
  assert (files_wf (streams p)) as Hf by apply Hp.
  assert (forall n, next_file (streams p) <= n ->
    parser_keeps p (set_streams (Files (open_files (streams p)) n) p)) as Hk.
  { intros n Hn. destruct Hp. split; [|done..].
    apply Build_parser_wf; cbn; try assumption.
    unfold files_wf in *. cbn. eapply Forall_impl; [exact Hf|]. cbn. lia. }
  unfold dump_done in Hd. destruct (bool_decide (e = DOCA_SUCCESS)) eqn:Ee; cbn in H.
  - apply bool_decide_eq_true in Ee. rewrite (Hs Ee) in *. cbn in H. destruct Hd as [_ Hd].
    obind H. rewrite Hd, fclose_new in H by done. inv_ret. apply Hk. lia.
  - destruct (dp_file s) as [h|].
    + destruct Hd as [-> Hd]. rewrite Hd, fclose_new in H by done. inv_ret. apply Hk. lia.
    + inv_ret. destruct Hd as [Hd Hn]. specialize (Hk _ Hn). rewrite <-Hd in Hk.
      by destruct (dp_files s).
Qed.

(** The handler of [create pipe] destroys the configuration object on every path. *)
Lemma create_pipe_with_cfg_keeps cb cfg params (p p' : parser W) w w' :
  parser_wf p -> callbacks_ok (cbs_ p) -> create_pipe_func (cbs_ p) = Some cb ->
  create_pipe_with_cfg cb cfg params p w = Ret (p', w') -> parser_keeps p p'.
Proof using Type.
  intros Hp Hc Hcb H. unfold create_pipe_with_cfg in H. obind H. destruct a as [s e].
  assert (parser_keeps p (set_pipe_port_id (cp_port_id s) p)) as Hk by (destruct Hp; keep_rest).
  case_bool_decide; cbn in H; [|by inv_ret].
  obind H. destruct (if bool_decide _ then _ else _) as [cfg' e'].
  case_bool_decide; cbn in H; [|by inv_ret].
  obind H. destruct a0 as [[w1 f] fm]. inv_ret.
  destruct (co_create _ Hc _ _ _ _ _ _ _ _ _ _ _ Hcb
    (ptr_if_wf _ _ (pw_fwd _ Hp)) (ptr_if_wf _ _ (pw_fwd_miss _ Hp)) E1) as [Hf Hfm].
  assert (fwd_wf (default (fwd p) f)) by (apply default_fwd_wf; [apply Hp | done]).
  assert (fwd_wf (default (fwd_miss p) fm)) by (apply default_fwd_wf; [apply Hp | done]).
  destruct Hp. keep_rest.
Qed.

Lemma cmd_create_pipe_keeps params (p p' : parser W) w w' :
  parser_wf p -> callbacks_ok (cbs_ p) ->
  cmd_create_pipe_parsed params p w = Ret (p', w') -> parser_keeps p p'.
Proof using Type.
  intros Hp Hc. unfold cmd_create_pipe_parsed.
  destruct (create_pipe_func (cbs_ p)) as [cb|] eqn:Hcb; [|intros H; inv_ret; auto with doca].
  destruct cfg_create as [cfg|]; [|intros H; inv_ret; auto with doca].
  intros H. obind H. destruct a as [p1 w1]. inv_ret.
  apply create_pipe_with_cfg_keeps in E; [|destruct Hp; by apply Build_parser_wf|done|done].
  destruct E as [[] Hcbs Hst Hl]. apply Build_parser_keeps; cbn in *; [|done|done|lia].
  by apply Build_parser_wf.
Qed.

Lemma cmd_add_entry_keeps params (p p' : parser W) w w' :
  parser_wf p -> callbacks_ok (cbs_ p) ->
  cmd_add_entry_parsed params p w = Ret (p', w') -> parser_keeps p p'.
Proof using Type.
  intros Hp Hc. unfold cmd_add_entry_parsed.
  destruct (add_entry_func (cbs_ p)) as [cb|] eqn:Hcb; [|intros H; inv_ret; auto with doca].
  intros H. obind H. destruct a as [s e]. case_bool_decide; cbn in H; [|inv_ret; auto with doca].
  obind H. destruct a as [w1 f]. inv_ret.
  apply set_fwd_keeps; [done|]. apply default_fwd_wf; [apply Hp|].
  exact (co_add _ Hc _ _ _ _ _ _ _ _ _ _ _ _ Hcb (ptr_if_wf _ _ (pw_fwd _ Hp)) E0).
Qed.

Lemma cmd_add_control_pipe_entry_keeps params (p p' : parser W) w w' :
  parser_wf p -> callbacks_ok (cbs_ p) ->
  cmd_add_control_pipe_entry_parsed params p w = Ret (p', w') -> parser_keeps p p'.
Proof using Type.
  intros Hp Hc. unfold cmd_add_control_pipe_entry_parsed.
  destruct (add_control_pipe_entry_func (cbs_ p)) as [cb|] eqn:Hcb;
    [|intros H; inv_ret; auto with doca].
  intros H. obind H. destruct a as [s e]. case_bool_decide; cbn in H; [|inv_ret; auto with doca].
  obind H. destruct a as [w1 f]. inv_ret.
  apply set_fwd_keeps; [done|]. apply default_fwd_wf; [apply Hp|].
  exact (co_control _ Hc _ _ _ _ _ _ _ _ _ _ _ Hcb (ptr_if_wf _ _ (pw_fwd _ Hp)) E0).
Qed.

Lemma run_command_keeps c (p p' : parser W) w w' :
  parser_wf p -> callbacks_ok (cbs_ p) ->
  run_command malloc_ok fopen_ok garbage c p w = Ret (p', w') -> parser_keeps p p'.
Proof using Type.
  intros Hp Hc. destruct c; cbn [run_command].
  - intros H. inv_ret. auto with doca.
  - intros H. obind H. inv_ret. by eapply cmd_create_struct_keeps.
  - intros H. obind H. inv_ret. unfold cmd_fw_create_struct_parsed in E. obind E.
    destruct a as [m e]. inv_ret.
    apply (parse_struct_ret match_wf parse_fw_match_field) in E0; [|apply match_zero_wf].
    destruct Hp. keep_rest.
  - by apply cmd_create_pipe_keeps.
  - by apply cmd_add_entry_keeps.
  - unfold cmd_fw_add_entry_parsed. destruct (add_fw_entry_func _) as [cb|];
      [|intros H; inv_ret; auto with doca].
    destruct (parse_fw_add_entry_params _ _) as [i e]. intros E. case_bool_decide; cbn in E; [obind E|];
      inv_ret; auto with doca.
  - by apply cmd_add_control_pipe_entry_keeps.
  - unfold cmd_destroy_pipe_parsed. destruct (destroy_pipe_func _) as [cb|];
      [|intros H; inv_ret; auto with doca].
    destruct (parse_pipe_id_input _) as [i|]; intros H; [obind H|]; inv_ret; auto with doca.
  - unfold cmd_rm_entry_parsed. destruct (remove_entry_func _) as [cb|];
      [|intros H; inv_ret; auto with doca].
    intros H. obind H. destruct a as [s e]. case_bool_decide; cbn in H;
      [obind H; obind H|]; inv_ret; auto with doca.
  - unfold cmd_fw_rm_entry_parsed. destruct (remove_fw_entry_func _) as [cb|];
      [|intros H; inv_ret; auto with doca].
    destruct (parse_fw_entry_params _ _) as [i e]. intros E. case_bool_decide; cbn in E; [obind E|];
      inv_ret; auto with doca.
  - unfold cmd_flush_pipes_parsed. destruct (port_pipes_flush_func _) as [cb|];
      [|intros H; inv_ret; auto with doca].
    destruct (parse_port_id_input _) as [i|]; intros H; [obind H|]; inv_ret; auto with doca.
  - by apply cmd_dump_keeps.
  - unfold cmd_query_parsed. destruct (query_func _) as [cb|];
      [|intros H; inv_ret; auto with doca].
    intros H. obind H. destruct a as [s e]. case_bool_decide; cbn in H; [|inv_ret; auto with doca].
    obind H. destruct a as [w1 st]. obind H. inv_ret. auto with doca.
Qed.

Lemma interact_keeps fw cs (p p' : parser W) w w' :
  parser_wf p -> callbacks_ok (cbs_ p) ->
  interact malloc_ok fopen_ok garbage fw cs p w = Ret (p', w') -> parser_keeps p p'.
Proof using Type.
  revert p w. induction cs as [|c cs IH]; intros p w Hp Hc H; cbn [interact] in H.
  { inv_ret. auto with doca. }
  assert ((if in_ctx fw c then
             let* (p, w) := run_command malloc_ok fopen_ok garbage c p w in
             interact malloc_ok fopen_ok garbage fw cs p w
           else interact malloc_ok fopen_ok garbage fw cs p w) = Ret (p', w')
          -> parser_keeps p p') as Hstep.
  { destruct (in_ctx fw c); [|by apply IH]. intros H'. obind H'. destruct a as [p1 w1].
    apply run_command_keeps in E as Hk; [|done|done].
    eapply parser_keeps_trans; [exact Hk|]. apply IH in H'; [done|apply Hk|].
    by rewrite (pk_callbacks _ _ Hk). }
  destruct c; try (by apply Hstep). inv_ret. auto with doca.
Qed.
End keeps.

(** ** Invariants of the application *)

(** Every registered callback keeps [I]. *)
Record callbacks_keep {api : PipeCfgApi} {W} (I : W -> Prop) (c : callbacks W) : Prop := {
  ck_create : forall cb cfg port f n fm nm w r, create_pipe_func c = Some cb ->
    opt_fwd_wf f -> opt_fwd_wf fm -> I w -> cb cfg port f n fm nm w = Ret r -> I r.1.1;
  ck_add : forall cb q i m a mo f n fl w r, add_entry_func c = Some cb -> opt_fwd_wf f -> I w ->
    cb q i m a mo f n fl w = Ret r -> I r.1;
  ck_fw_add : forall cb p m w w', add_fw_entry_func c = Some cb -> I w -> cb p m w = Ret w' -> I w';
  ck_control : forall cb q pr i m k f n w r, add_control_pipe_entry_func c = Some cb ->
    opt_fwd_wf f -> I w -> cb q pr i m k f n w = Ret r -> I r.1;
  ck_destroy : forall cb i w w', destroy_pipe_func c = Some cb -> I w -> cb i w = Ret w' -> I w';
  ck_rm : forall cb q i fl w w', remove_entry_func c = Some cb -> I w -> cb q i fl w = Ret w' -> I w';
  ck_fw_rm : forall cb i w w', remove_fw_entry_func c = Some cb -> I w -> cb i w = Ret w' -> I w';
  ck_flush : forall cb p w w', port_pipes_flush_func c = Some cb -> I w -> cb p w = Ret w' -> I w';
  ck_query : forall cb i w r, query_func c = Some cb -> I w -> cb i w = Ret r -> I r.1;
  ck_dump : forall cb p fd w w', port_pipes_dump_func c = Some cb -> I w -> cb p fd w = Ret w' -> I w';
}.

(** Every registered callback returns, from a state in which [I] holds. *)
Record callbacks_return {api : PipeCfgApi} {W} (I : W -> Prop) (c : callbacks W) : Prop := {
  cr_create : forall cb cfg port f n fm nm w, create_pipe_func c = Some cb ->
    opt_fwd_wf f -> opt_fwd_wf fm -> I w -> exists r, cb cfg port f n fm nm w = Ret r;
  cr_add : forall cb q i m a mo f n fl w, add_entry_func c = Some cb -> opt_fwd_wf f -> I w ->
    exists r, cb q i m a mo f n fl w = Ret r;
  cr_fw_add : forall cb p m w, add_fw_entry_func c = Some cb -> I w -> exists r, cb p m w = Ret r;
  cr_control : forall cb q pr i m k f n w, add_control_pipe_entry_func c = Some cb ->
    opt_fwd_wf f -> I w -> exists r, cb q pr i m k f n w = Ret r;
  cr_destroy : forall cb i w, destroy_pipe_func c = Some cb -> I w -> exists r, cb i w = Ret r;
  cr_rm : forall cb q i fl w, remove_entry_func c = Some cb -> I w -> exists r, cb q i fl w = Ret r;
  cr_fw_rm : forall cb i w, remove_fw_entry_func c = Some cb -> I w -> exists r, cb i w = Ret r;
  cr_flush : forall cb p w, port_pipes_flush_func c = Some cb -> I w -> exists r, cb p w = Ret r;
  cr_query : forall cb i w, query_func c = Some cb -> I w -> exists r, cb i w = Ret r;
  cr_dump : forall cb p fd w, port_pipes_dump_func c = Some cb -> I w -> exists r, cb p fd w = Ret r;
}.

Section world.
Context {api : PipeCfgApi} {create : PipeCfgCreate api} {W : Type} (I : W -> Prop).
Context (malloc_ok : Z -> bool) (fopen_ok : list ascii -> bool) (garbage : list ascii).

(** Continue with the branches of a handler in a hypothesis. *)
Ltac handler H :=
  repeat first
    [ progress inv_ret
    | match type of H with
      | (match ?o with Ret _ => _ | Undef _ => _ end) = _ =>
          let E := fresh "E" in destruct o eqn:E; [|discriminate H]
      | (let '(_, _) := ?x in _) = _ => destruct x as [? ?]
      | (if ?b then _ else _) = _ => destruct b
      | (match ?o with Some _ => _ | None => _ end) = _ => destruct o eqn:?
      | (match ?o with Ok _ => _ | Err _ => _ end) = _ => destruct o
      end ].

(** Apply the law of the callback that was called. *)
Ltac use_callback law :=
  match goal with
  | Hf : _ = Some ?cb, E : _ = Ret ?r |- _ =>
      match type of E with context [cb] => let HI := fresh in pose proof E as HI;
        eapply law in HI;
          [exact HI | exact Hf
          | first [assumption
                  | apply ptr_if_wf; by match goal with Hp : parser_wf _ |- _ => apply Hp end].. ]
      end
  end.

Lemma create_pipe_with_cfg_world (p p' : parser W) cb cfg params w w' :
  parser_wf p -> (forall cfg port f n fm nm w r, opt_fwd_wf f -> opt_fwd_wf fm -> I w -> cb cfg port f n fm nm w = Ret r -> I r.1.1) -> I w ->
  create_pipe_with_cfg cb cfg params p w = Ret (p', w') -> I w'.
Proof using Type.
  intros Hp Hc Hw. unfold create_pipe_with_cfg. intros H. obind H. destruct a as [s e].
  destruct (negb _); [by inv_ret|]. obind H. destruct (if bool_decide _ then _ else _) as [c r].
  destruct (negb _); [by inv_ret|]. obind H. destruct a0 as [[w1 f] fm]. inv_ret.
  apply Hc in E1; [done| | |done]; apply ptr_if_wf; apply Hp.
Qed.

Lemma run_command_world c (p p' : parser W) w w' :
  parser_wf p -> callbacks_keep I (cbs_ p) -> I w ->
  run_command malloc_ok fopen_ok garbage c p w = Ret (p', w') -> I w'.
Proof using Type.
  intros Hp Hc Hw. destruct c; cbn [run_command].
  - intros H. by inv_ret.
  - intros H. obind H. by inv_ret.
  - intros H. obind H. by inv_ret.
  - unfold cmd_create_pipe_parsed. intros H. handler H; try done.
    eapply create_pipe_with_cfg_world in E; [exact E|by destruct Hp| |exact Hw].
    intros; by eapply (ck_create I _ Hc); [..|eassumption].
  - unfold cmd_add_entry_parsed. intros H. handler H; try done. use_callback (ck_add I _ Hc).
  - unfold cmd_fw_add_entry_parsed. intros H. handler H; try done. use_callback (ck_fw_add I _ Hc).
  - unfold cmd_add_control_pipe_entry_parsed. intros H. handler H; try done.
    use_callback (ck_control I _ Hc).
  - unfold cmd_destroy_pipe_parsed. intros H. handler H; try done. use_callback (ck_destroy I _ Hc).
  - unfold cmd_rm_entry_parsed. intros H. handler H; try done. use_callback (ck_rm I _ Hc).
  - unfold cmd_fw_rm_entry_parsed. intros H. handler H; try done. use_callback (ck_fw_rm I _ Hc).
  - unfold cmd_flush_pipes_parsed. intros H. handler H; try done. use_callback (ck_flush I _ Hc).
  - unfold cmd_dump_pipe_parsed. intros H. handler H; try done. use_callback (ck_dump I _ Hc).
  - unfold cmd_query_parsed. intros H. handler H; try done. use_callback (ck_query I _ Hc).
Qed.

Lemma interact_world fw cs (p p' : parser W) w w' :
  parser_wf p -> callbacks_ok (cbs_ p) -> callbacks_keep I (cbs_ p) -> I w ->
  interact malloc_ok fopen_ok garbage fw cs p w = Ret (p', w') -> I w'.
Proof using Type.
  revert p w. induction cs as [|c cs IH]; intros p w Hp Hc Hk Hw H; cbn [interact] in H.
  { by inv_ret. }
  assert ((if in_ctx fw c then
             let* (p, w) := run_command malloc_ok fopen_ok garbage c p w in
             interact malloc_ok fopen_ok garbage fw cs p w
           else interact malloc_ok fopen_ok garbage fw cs p w) = Ret (p', w') -> I w') as Hstep.
  { destruct (in_ctx fw c); [|by apply IH]. intros H'. obind H'. destruct a as [p1 w1].
    apply run_command_keeps in E as Hkeep; [|done|done]. apply run_command_world in E; [|done..].
    destruct Hkeep as [Hp1 Hcb _ _]. apply IH in H'; [done|done| | |done]; by rewrite Hcb. }
  destruct c; auto. by inv_ret.
Qed.
End world.

(** The commands whose text can make the parser read where it should not: fields of
    structures, the type of a pipe, the name of a file, and statistics that the
    application has not set. *)
Definition risky (c : command) : bool :=
  match c with
  | CmdUpdateStruct _ _ | CmdFwCreateStruct _ | CmdCreatePipe _ | CmdDumpPipe _ | CmdQuery _ => true
  | _ => false
  end.

(** A command goes wrong only by reading, and only if it is one of those. *)
Definition guarded {A} (c : command) (o : outcome A) : Prop :=
  match o with Ret _ => True | Undef u => reading_error u /\ risky c = true end.

Lemma guarded_tame {A} c (o : outcome A) : risky c = true -> tame o -> guarded c o.
Proof. destruct o; cbn; auto. Qed.

Lemma guarded_bind {A B} c (o : outcome A) (k : A -> outcome B) :
  guarded c o -> (forall a, o = Ret a -> guarded c (k a)) -> guarded c (let* a := o in k a).
Proof. destruct o; cbn; auto. Qed.

Lemma guarded_returns {A} c (o : outcome A) : (exists a, o = Ret a) -> guarded c o.
Proof. by intros [a ->]. Qed.

Section guarded.
Context {api : PipeCfgApi} {create : PipeCfgCreate api} {W : Type} (I : W -> Prop).
Context (malloc_ok : Z -> bool) (fopen_ok : list ascii -> bool) (garbage : list ascii).

Lemma create_struct_tame fs input (p : parser W) :
  parser_wf p -> tame (cmd_create_struct_parsed malloc_ok garbage fs input p).
Proof using Type.
  intros Hp. pose proof match_zero_wf. pose proof actions_zero_wf.
  assert (fwd_state_wf (env p, fwd_zero)) by (split; [apply Hp|done]).
  unfold cmd_create_struct_parsed.
  repeat case_if; try done; (apply tame_bind; [eapply parse_struct_tame; eauto with typeclass_instances; done|]);
    [by intros [m e]..|by intros [[g f] e]|by intros [[g f] e]].
Qed.

Lemma parse_dump_tame params f :
  files_wf f -> tame (parse_dump_pipe_params fopen_ok params (DumpParams 0 None f false false)).
Proof using Type.
  intros Hf. unfold parse_dump_pipe_params. apply tame_bind.
  - apply (params_loop_tame (dump_running f)); [| |by left|lia].
    + intros ps s Hs. pose proof (dump_body_inv fopen_ok f ps s Hf Hs) as H.
      destruct (dump_body fopen_ok ps s); [done|]. right. by left.
    + intros ps s r Hs E. pose proof (dump_body_inv fopen_ok f ps s Hf Hs) as H. rewrite E in H.
      destruct r; [|done]. by destruct H.
  - intros [s [e|]] _; [done|]. by repeat case_match.
Qed.

Lemma dump_tame params (p : parser W) w :
  parser_wf p -> callbacks_return I (cbs_ p) -> I w -> tame (cmd_dump_pipe_parsed fopen_ok params p w).
Proof using Type.
  intros Hp Hc Hw. unfold cmd_dump_pipe_parsed.
  destruct (port_pipes_dump_func (cbs_ p)) as [dump|] eqn:Hd; [|done].
  assert (files_wf (streams p)) as Hf by apply Hp.
  apply tame_bind; [by apply parse_dump_tame|]. intros [s e] E.
  apply parse_dump_inv in E as [Hdone Hs]; [|done]. unfold dump_done in Hdone.
  case_bool_decide; cbn [negb].
  - rewrite Hs in * by done. destruct Hdone as [_ Hfs]. cbn [of_option].
    destruct (cr_dump I _ Hc _ (dp_port_id s) (next_file (streams p)) w Hd Hw) as [w' ->].
    cbn [streams set_streams]. by rewrite Hfs, fclose_new.
  - destruct (dp_file s) as [h|]; [|done]. destruct Hdone as [-> Hfs].
    cbn [streams set_streams]. by rewrite Hfs, fclose_new.
Qed.

Lemma create_pipe_tame params (p : parser W) w :
  parser_wf p -> callbacks_return I (cbs_ p) -> I w -> tame (cmd_create_pipe_parsed params p w).
Proof using Type.
  intros Hp Hc Hw. unfold cmd_create_pipe_parsed.
  destruct (create_pipe_func (cbs_ p)) as [cb|] eqn:Hcb; [|done]. destruct cfg_create as [cfg|]; [|done].
  apply tame_bind; [|by intros [p1 w1]]. unfold create_pipe_with_cfg.
  apply tame_bind; [apply parse_create_pipe_tame|]. intros [s e] _. destruct (negb _); [done|].
  apply tame_bind; [destruct (cp_type s); cbn; unfold reading_error; auto|]. intros t _.
  destruct (if bool_decide _ then _ else _) as [cfg' e']. destruct (negb _); [done|].
  edestruct (cr_create I _ Hc) as [[[w1 f] fm] ->]; [exact Hcb|..|exact Hw|done];
    apply ptr_if_wf; apply Hp.
Qed.

(** The callbacks of one argument list. *)
Ltac return_by law :=
  match goal with
  | Hf : _ = Some ?cb |- context [?cb] =>
      let r := fresh "r" in let E := fresh "E" in
      edestruct law as [r E];
        [exact Hf | first [eassumption | apply ptr_if_wf;
                           by match goal with Hp : parser_wf _ |- _ => apply Hp end].. |];
      rewrite E; repeat (destruct r as [r ?]); done
  end.

Lemma run_command_guarded c (p : parser W) w :
  parser_wf p -> callbacks_return I (cbs_ p) -> I w ->
  guarded c (run_command malloc_ok fopen_ok garbage c p w).
Proof using Type.
  intros Hp Hc Hw. destruct c; cbn [run_command].
  - done.
  - apply guarded_tame; [done|]. apply tame_bind; [by apply create_struct_tame|done].
  - apply guarded_tame; [done|]. unfold cmd_fw_create_struct_parsed. apply tame_bind; [|done].
    apply tame_bind; [|by intros [m e]]. apply (parse_struct_tame match_wf parse_fw_match_field), match_zero_wf.
  - apply guarded_tame; [done|]. by apply create_pipe_tame.
  - unfold cmd_add_entry_parsed. destruct (add_entry_func (cbs_ p)) eqn:Hf; [|done].
    destruct (parse_add_entry_returns params add_entry_params_init) as [[s e] ->].
    destruct (negb _); [done|]. return_by (cr_add I _ Hc).
  - unfold cmd_fw_add_entry_parsed. destruct (add_fw_entry_func (cbs_ p)) eqn:Hf; [|done].
    destruct (parse_fw_add_entry_params params 0) as [i e]. destruct (negb _); [done|].
    return_by (cr_fw_add I _ Hc).
  - unfold cmd_add_control_pipe_entry_parsed. destruct (add_control_pipe_entry_func (cbs_ p)) eqn:Hf; [|done].
    destruct (parse_control_entry_returns params control_entry_params_init) as [[s e] ->].
    destruct (negb _); [done|]. return_by (cr_control I _ Hc).
  - unfold cmd_destroy_pipe_parsed. destruct (destroy_pipe_func (cbs_ p)) eqn:Hf; [|done].
    destruct (parse_pipe_id_input params); [|done]. return_by (cr_destroy I _ Hc).
  - unfold cmd_rm_entry_parsed. destruct (remove_entry_func (cbs_ p)) eqn:Hf; [|done].
    destruct (parse_entry_returns params true (EntryParams (Some 0) 0 false false)) as [[s e] E]. rewrite E.
    destruct (negb _); [done|]. apply parse_entry_queue in E as [q ->]. cbn [of_option].
    return_by (cr_rm I _ Hc).
  - unfold cmd_fw_rm_entry_parsed. destruct (remove_fw_entry_func (cbs_ p)) eqn:Hf; [|done].
    destruct (parse_fw_entry_params params 0) as [i e]. destruct (negb _); [done|].
    return_by (cr_fw_rm I _ Hc).
  - unfold cmd_flush_pipes_parsed. destruct (port_pipes_flush_func (cbs_ p)) eqn:Hf; [|done].
    destruct (parse_port_id_input port_id); [|done]. return_by (cr_flush I _ Hc).
  - apply guarded_tame; [done|]. by apply dump_tame.
  - apply guarded_tame; [done|]. unfold cmd_query_parsed. destruct (query_func (cbs_ p)) eqn:Hf; [|done].
    destruct (parse_entry_returns params false (EntryParams None 0 false false)) as [[s e] ->].
    destruct (negb _); [done|]. destruct (cr_query I _ Hc _ (ep_entry_id s) w Hf Hw) as [[w' st] ->].
    apply tame_bind; [destruct st; cbn; unfold reading_error; auto|done].
Qed.

(** Whole sessions: the parser and the application keep their invariants, or the
    session stops at the text of a risky command. *)
Lemma interact_guarded fw cs (p : parser W) w :
  parser_wf p -> callbacks_ok (cbs_ p) -> callbacks_keep I (cbs_ p) -> callbacks_return I (cbs_ p) -> I w ->
  match interact malloc_ok fopen_ok garbage fw cs p w with
  | Ret (p', w') => parser_keeps p p' /\ I w'
  | Undef u => reading_error u /\ exists c, c ∈ cs /\ risky c = true
  end.
Proof using Type.
  intros Hp Hok Hk Hr Hw. destruct (interact malloc_ok fopen_ok garbage fw cs p w) as [[p' w']|u] eqn:E.
  { split; [by eapply interact_keeps|by eapply (interact_world I)]. }
  revert p w Hp Hok Hk Hr Hw E. induction cs as [|c cs IH]; intros p w Hp Hok Hk Hr Hw E; [done|].
  assert (match run_command malloc_ok fopen_ok garbage c p w with
          | Ret (p1, w1) => interact malloc_ok fopen_ok garbage fw cs p1 w1 = Undef u
                            -> reading_error u /\ exists c', c' ∈ c :: cs /\ risky c' = true
          | Undef u' => reading_error u' /\ exists c', c' ∈ c :: cs /\ risky c' = true
          end) as Hstep.
  { pose proof (run_command_guarded c p w Hp Hr Hw) as Hg.
    destruct (run_command malloc_ok fopen_ok garbage c p w) as [[p1 w1]|u'] eqn:Ec.
    - intros Es. apply run_command_keeps in Ec as Hkeep; [|done|done].
      pose proof (run_command_world I malloc_ok fopen_ok garbage c p p1 w w1 Hp Hk Hw Ec) as Hw1.
      destruct Hkeep as [Hp1 Hcb _ _]. rewrite <-Hcb in Hok, Hk, Hr.
      destruct (IH p1 w1 Hp1 Hok Hk Hr Hw1 Es) as (Hu & c' & Hin & Hc'). split; [done|].
      exists c'. split; [by right|done].
    - destruct Hg as [Hu Hc]. split; [done|]. exists c. split; [by left|done]. }
  assert ((if in_ctx fw c then
             let* (p, w) := run_command malloc_ok fopen_ok garbage c p w in
             interact malloc_ok fopen_ok garbage fw cs p w
           else interact malloc_ok fopen_ok garbage fw cs p w) = Undef u ->
          reading_error u /\ exists c', c' ∈ c :: cs /\ risky c' = true) as Hgo.
  { destruct (in_ctx fw c).
    - destruct (run_command malloc_ok fopen_ok garbage c p w) as [[p1 w1]|u']; [done|]. by intros [= <-].
    - intros Es. destruct (IH p w Hp Hok Hk Hr Hw Es) as (Hu & c' & Hin & Hc'). split; [done|].
      exists c'. split; [by right|done]. }
  destruct c; cbn [interact] in E; auto; done.
Qed.
End guarded.


(** A small application: it counts the calls of three callbacks. *)
Definition plain_cfg_create : PipeCfgCreate plain_cfg_api :=
  {| cfg_create := Ok (plain_cfg_init : @pipe_cfg plain_cfg_api) |}.

Definition counting_parser : parser (api := plain_cfg_api) Z :=
  set_port_pipes_dump (fun _ _ w => Ret (w + 1))
    (set_pipe_create (fun _ _ f _ fm _ w => Ret (w + 1, f, fm))
       (set_pipe_add_entry (fun _ _ _ _ _ f _ _ w => Ret (w + 1, f)) parser_init)).

Lemma counting_callbacks_ok : callbacks_ok (cbs_ counting_parser).
Proof.
  split.
  - intros cb cfg port f n fm nm w w' f' fm' [= <-] Hf Hfm [= <- <- <-]. done.
  - intros cb q i m a mo f n fl w w' f' [= <-] Hf [= <- <-]. done.
  - intros cb q pr i m k f n w w' f' [=].
Qed.

Lemma counting_parser_wf : parser_wf counting_parser.
Proof. destruct (parser_init_wf (api := plain_cfg_api) (W := Z)). by apply Build_parser_wf. Qed.

Definition sample_session : list command :=
  [CmdUpdateStruct (lit "pipe_match") (lit "outer.l3_type=ipv4,outer.src_ip_addr=1.1.1.1" ++ [NUL]);
   CmdCreatePipe (lit "port_id=0,type=basic,fwd=1");
   CmdAddEntry (lit "pipe_queue=0,pipe_id=7");
   CmdDumpPipe (lit "port_id=0,file=a.txt,file=b.txt");
   CmdDumpPipe (lit "port_id=0"); CmdQuit; CmdAddEntry (lit "pipe_queue=0,pipe_id=7")].

Abbreviation run_sample :=
  (interact (create := plain_cfg_create) (fun _ => true) (fun _ => true) (replicate 128 NUL) false
    sample_session counting_parser 0).

Lemma run_sample_returns : exists p', run_sample = Ret (p', 3).
Proof.
  assert (match run_sample with Ret (_, w) => w =? 3 | Undef _ => false end = true) as H
    by (vm_compute; reflexivity).
  destruct run_sample as [[p' w']|]; [|done]. exists p'. apply Z.eqb_eq in H. by subst w'.
Qed.

Lemma counting_callbacks_keep : callbacks_keep (fun w => 0 <= w) (cbs_ counting_parser).
Proof.
  split; cbn; try done.
  - intros cb cfg port f n fm nm w r [= <-] _ _ Hw [= <-]. cbn. lia.
  - intros cb q i m a mo f n fl w r [= <-] _ Hw [= <-]. cbn. lia.
  - intros cb p fd w w' [= <-] Hw [= <-]. lia.
Qed.

Lemma counting_callbacks_return : callbacks_return (fun w => 0 <= w) (cbs_ counting_parser).
Proof. split; cbn; try done; intros; simplify_eq; by eexists. Qed.



Definition cp_is_type (p : cp_param) : bool :=
  match p with CPBasic | CPControl => true | _ => false end.

Lemma cp_apply_type {api : PipeCfgApi} m ps s :
  existsb cp_is_type ps = false -> cp_type (apply_params (cp_apply m) ps s) = cp_type s.
Proof.
  unfold apply_params. revert s. induction ps as [|p ps IH]; intros s; cbn [foldl existsb]; [done|].
  intros [Hp Hps]%orb_false_iff. rewrite IH by done. destruct s, p; done.
Qed.

(** A [create pipe] command without a [type] parameter reads the uninitialised
    local variable that should hold the type. *)
Theorem create_pipe_without_type {api : PipeCfgApi} {create : PipeCfgCreate api}
    {ok : PipeCfgSucceeds api} {W} (p : parser W) w cb cfg ps :
  create_pipe_func (cbs_ p) = Some cb -> cfg_create = Ok cfg ->
  ps <> [] -> Forall cp_valid ps ->
  (length (render_params cp_render ps) < MAX_CMDLINE_INPUT_LEN)%nat ->
  existsb cp_is_type ps = false ->
  cmd_create_pipe_parsed (render_params cp_render ps) p w = Undef Uninitialised.
Proof.
  intros Hcb Hcfg Hne Hv Hl Ht. unfold cmd_create_pipe_parsed. rewrite Hcb, Hcfg.
  unfold create_pipe_with_cfg. rewrite parse_create_pipe_render by done.
  cbn beta iota zeta. rewrite bool_decide_eq_true_2 by done. cbn [negb].
  by rewrite cp_apply_type.
Qed.

Lemma create_pipe_without_type_witness :
  cmd_create_pipe_parsed (create := plain_cfg_create) (lit "port_id=0,fwd=1") counting_parser 0
    = Undef Uninitialised.
Proof.
  apply (create_pipe_without_type (create := plain_cfg_create) (ok := plain_cfg_succeeds)
           counting_parser 0 (fun _ _ f _ fm _ w => Ret (w + 1, f, fm)) plain_cfg_init
           [CPPortId 0; CPFwd true]).
  - reflexivity.
  - reflexivity.
  - discriminate.
  - repeat (apply Forall_cons_2; [vm_compute; intuition congruence|]). apply Forall_nil_2.
  - vm_compute. lia.
  - reflexivity.
Defined.

(** The queues of [fwd] and [fwd_miss] share one global block: parsing the queues of
    one structure frees the block the other one still points to. *)
Theorem rss_queues_shared malloc_ok buf g f g' f' e old :
  rss_wf (fwd_rss g) -> rss_queues (fwd_rss g) = old -> old <> 0 ->
  parse_fwd_miss_field malloc_ok (lit "rss_queues") buf (g, f) = Ret (g', f', e) ->
  blocks (fwd_rss g') !! old = None.
Proof.
  intros Hwf Hold Hne. unfold parse_fwd_miss_field.
  destruct (c_str buf) as [value|]; [|done]. eval_fields. unfold parse_fwd_rss_queues.
  intros H. obind H. destruct a as [r e']. apply parse_rss_queues_frees in E; [|done].
  rewrite Hold in E. unfold ok, fail in H. destruct e'; inv_ret; exact E.
Qed.

Definition queues_session : list command :=
  [CmdUpdateStruct (lit "fwd") (lit "type=rss,num_of_queues=2,rss_queues=0;1" ++ [NUL]);
   CmdUpdateStruct (lit "fwd_miss") (lit "type=rss,num_of_queues=1,rss_queues=3" ++ [NUL])].

Lemma rss_queues_shared_witness :
  blocks (fwd_rss (FwdEnv (RssMem 2 {[2 := [Some 3]]} 3) 0 0)) !! 1 = None
  /\ match interact (create := plain_cfg_create) (fun _ => true) (fun _ => true)
             (replicate 128 NUL) false queues_session counting_parser 0 with
     | Ret (p, _) =>
         fwd_rss_queues (fwd p) = 1 /\ bool_decide (blocks (fwd_rss (env p)) !! 1 = None) = true
     | Undef _ => False
     end.
Proof.
  split; [|vm_compute; split; reflexivity].
  apply (rss_queues_shared (fun _ => true) (c_buf (lit "3"))
           (FwdEnv (RssMem 1 {[1 := [Some 0; Some 1]]} 2) 0 0) (set_num_of_queues 1 fwd_zero)
           _ (set_fwd_rss_queues 2 (set_num_of_queues 1 fwd_zero)) DOCA_SUCCESS).
  - apply Build_rss_wf; cbn.
    + lia.
    + intros a [b Hb]. apply lookup_singleton_Some in Hb as [<- _]. lia.
    + right. rewrite lookup_singleton_eq. by eexists.
  - reflexivity.
  - discriminate.
  - vm_compute. reflexivity.
Defined.
