(* ===== verification/RteHash.v ===== *)
(** * The hash tables the applications keep their state in (DPDK [rte_hash])

    The library is not part of the repository: it is an interface of operations
    with the laws the code relies on, and a concrete table of slots that shows
    the laws can hold.  Keys and data are integers (the tables hold 16- and
    64-bit keys and pointers).  A stored key has a position, which
    [rte_hash_lookup_data] returns and which gives access to the stored copy of
    the key. *)
From S2P Require Import Prelude.

Class RteHash := {
  rte_hash : Type;
  (** [rte_hash_create] *)
  ht_new : rte_hash;
  (** [rte_hash_lookup_data]: position and data *)
  ht_lookup : Z -> rte_hash -> option (Z * Z);
  (** [rte_hash_get_key_with_position] *)
  ht_key_at : Z -> rte_hash -> option Z;
  (** [rte_hash_add_key_data]; [None] when the table is full *)
  ht_add : Z -> Z -> rte_hash -> option rte_hash;
  (** [rte_hash_del_key] *)
  ht_del : Z -> rte_hash -> rte_hash;
  (** the pairs [rte_hash_iterate] visits *)
  ht_iter : rte_hash -> list (Z * Z);
}.

Class RteHashLaws (H : RteHash) : Prop := {
  ht_lookup_new : forall k, ht_lookup k ht_new = None;
  ht_lookup_add : forall k d t t', ht_add k d t = Some t' ->
    exists pos, ht_lookup k t' = Some (pos, d)
      /\ (forall pos0 d0, ht_lookup k t = Some (pos0, d0) -> pos = pos0);
  (** an existing key is updated in place, which needs no room *)
  ht_add_present : forall k d t, is_Some (ht_lookup k t) -> is_Some (ht_add k d t);
  ht_lookup_add_ne : forall k k' d t t', ht_add k d t = Some t' -> k <> k' ->
    ht_lookup k' t' = ht_lookup k' t;
  ht_lookup_del : forall k t, ht_lookup k (ht_del k t) = None;
  ht_lookup_del_ne : forall k k' t, k <> k' -> ht_lookup k' (ht_del k t) = ht_lookup k' t;
  ht_key_lookup : forall k t pos d, ht_lookup k t = Some (pos, d) -> ht_key_at pos t = Some k;
  ht_iter_spec : forall k d t, (k, d) ∈ ht_iter t <-> exists pos, ht_lookup k t = Some (pos, d);
}.

(** [rte_hash_lookup(t, k) >= 0]. *)
Definition ht_mem `{RteHash} (k : Z) (t : rte_hash) : bool :=
  match ht_lookup k t with Some _ => true | None => false end.

(** Delete every key of a list. *)
Definition ht_del_all `{RteHash} (ks : list Z) (t : rte_hash) : rte_hash :=
  foldl (fun t k => ht_del k t) t ks.

Section laws.
Context `{HL : RteHashLaws}.

Lemma ht_mem_spec k t : ht_mem k t = true <-> is_Some (ht_lookup k t).
Proof using Type.
  unfold ht_mem. destruct (ht_lookup k t); split; try done; by intros [? [=]].
Qed.

Lemma ht_lookup_del_all ks k t :
  ht_lookup k (ht_del_all ks t) = if decide (k ∈ ks) then None else ht_lookup k t.
Proof using HL.
  unfold ht_del_all. revert t. induction ks as [|k' ks IH]; intros t; cbn [foldl].
  - rewrite decide_False; [done | apply not_elem_of_nil].
  - rewrite IH. destruct (decide (k ∈ ks)) as [Hin|Hnin].
    + rewrite decide_True; [done | apply elem_of_cons; by right].
    + destruct (decide (k = k')) as [->|Hne].
      * rewrite ht_lookup_del, decide_True; [done | apply elem_of_cons; by left].
      * rewrite ht_lookup_del_ne, decide_False; [done| |done].
        rewrite elem_of_cons. naive_solver.
Qed.

Lemma ht_mem_new k : ht_mem k ht_new = false.
Proof using HL. unfold ht_mem. by rewrite ht_lookup_new. Qed.

Lemma ht_mem_add k k' d t t' :
  ht_add k d t = Some t' -> ht_mem k' t' = true <-> k' = k \/ ht_mem k' t = true.
Proof using HL.
  intros Ha. destruct (decide (k = k')) as [->|Hne].
  - destruct (ht_lookup_add _ _ _ _ Ha) as (pos & Hl & _). unfold ht_mem. rewrite Hl. naive_solver.
  - unfold ht_mem. rewrite (ht_lookup_add_ne _ _ _ _ _ Ha Hne). naive_solver.
Qed.

Lemma ht_mem_del k k' t : ht_mem k' (ht_del k t) = true <-> k' <> k /\ ht_mem k' t = true.
Proof using HL.
  unfold ht_mem. destruct (decide (k = k')) as [->|Hne].
  - rewrite ht_lookup_del. naive_solver.
  - rewrite ht_lookup_del_ne by done. naive_solver.
Qed.

(** Two keys at one position are equal. *)
Lemma ht_pos_inj k1 k2 t pos d1 d2 :
  ht_lookup k1 t = Some (pos, d1) -> ht_lookup k2 t = Some (pos, d2) -> k1 = k2.
Proof using HL.
  intros H1%ht_key_lookup H2%ht_key_lookup. congruence.
Qed.

Lemma ht_iter_keys k t : k ∈ map fst (ht_iter t) <-> is_Some (ht_lookup k t).
Proof using HL.
  rewrite list_elem_of_In, in_map_iff. split.
  - intros ([k' d] & <- & Hin%list_elem_of_In). apply ht_iter_spec in Hin as [pos Hp].
    cbn. rewrite Hp. by eexists.
  - intros [[pos d] Hl]. exists (k, d). split; [done|]. apply list_elem_of_In, ht_iter_spec.
    by exists pos.
Qed.
End laws.

(** ** A table of slots *)

Module Slots.

Definition slots : Type := list (option (Z * Z)).

Fixpoint lookup_from (k : Z) (i : Z) (t : slots) : option (Z * Z) :=
  match t with
  | [] => None
  | Some (k', d) :: t' => if k' =? k then Some (i, d) else lookup_from k (i + 1) t'
  | None :: t' => lookup_from k (i + 1) t'
  end.

Definition lookup_slot (k : Z) (t : slots) : option (Z * Z) := lookup_from k 0 t.

Definition key_at (pos : Z) (t : slots) : option Z :=
  match t !! Z.to_nat pos with Some (Some (k, _)) => Some k | _ => None end.

(** Overwrite the data of a present key. *)
Fixpoint update (k d : Z) (t : slots) : slots :=
  match t with
  | [] => []
  | Some (k', d') :: t' => if k' =? k then Some (k, d) :: t' else Some (k', d') :: update k d t'
  | None :: t' => None :: update k d t'
  end.

(** Use the first free slot. *)
Fixpoint insert_free (k d : Z) (t : slots) : option slots :=
  match t with
  | [] => None
  | None :: t' => Some (Some (k, d) :: t')
  | Some p :: t' => cons (Some p) <$> insert_free k d t'
  end.

Definition add_slot (k d : Z) (t : slots) : option slots :=
  match lookup_slot k t with Some _ => Some (update k d t) | None => insert_free k d t end.

Definition del_slot (k : Z) (t : slots) : slots :=
  map (fun s => match s with Some (k', d) => if k' =? k then None else Some (k', d) | None => None end) t.

(** The pairs a lookup finds. *)
Definition iter_slots (t : slots) : list (Z * Z) :=
  List.filter (fun p => match lookup_slot (fst p) t with
                        | Some (_, d) => d =? snd p
                        | None => false
                        end) (omap id t).

Lemma lookup_from_shift k i t :
  lookup_from k i t = (fun p => (i + p.1, p.2)) <$> lookup_from k 0 t.
Proof.
  revert i. induction t as [|[[k' d]|] t IH]; intros i; cbn [lookup_from]; [done| |].
  - destruct (k' =? k); cbn; [by rewrite Z.add_0_r|].
    rewrite (IH (i + 1)), (IH (0 + 1)). destruct (lookup_from k 0 t) as [[p d']|]; cbn; [|done].
    do 2 f_equal. lia.
  - rewrite (IH (i + 1)), (IH (0 + 1)). destruct (lookup_from k 0 t) as [[p d']|]; cbn; [|done].
    do 2 f_equal. lia.
Qed.

Lemma lookup_cons k s t :
  lookup_slot k (s :: t) =
    match s with
    | Some (k', d) => if k' =? k then Some (0, d) else (fun p => (1 + p.1, p.2)) <$> lookup_slot k t
    | None => (fun p => (1 + p.1, p.2)) <$> lookup_slot k t
    end.
Proof.
  unfold lookup_slot. cbn [lookup_from]. destruct s as [[k' d]|].
  - destruct (k' =? k); [done|]. apply lookup_from_shift.
  - apply lookup_from_shift.
Qed.

Lemma lookup_slot_key k t pos d :
  lookup_slot k t = Some (pos, d) -> 0 <= pos /\ t !! Z.to_nat pos = Some (Some (k, d)).
Proof.
  revert pos d. induction t as [|s t IH]; intros pos d; [done|]. rewrite lookup_cons.
  destruct s as [[k' d']|]; [destruct (Z.eqb_spec k' k) as [->|]|].
  - intros [= <- <-]. by split.
  - destruct (lookup_slot k t) as [[p d0]|]; [|done]. cbn. intros [= <- <-].
    destruct (IH p d0) as [Hp Hl]; [done|].
    split; [lia|]. by replace (Z.to_nat (1 + p)) with (S (Z.to_nat p)) by lia.
  - destruct (lookup_slot k t) as [[p d0]|]; [|done]. cbn. intros [= <- <-].
    destruct (IH p d0) as [Hp Hl]; [done|].
    split; [lia|]. by replace (Z.to_nat (1 + p)) with (S (Z.to_nat p)) by lia.
Qed.

Lemma update_spec k d t pos d0 :
  lookup_slot k t = Some (pos, d0) ->
  lookup_slot k (update k d t) = Some (pos, d)
  /\ (forall k', k <> k' -> lookup_slot k' (update k d t) = lookup_slot k' t).
Proof.
  revert pos d0. induction t as [|s t IH]; intros pos d0; [done|]. rewrite lookup_cons.
  destruct s as [[k1 d1]|]; cbn [update].
  - destruct (Z.eqb_spec k1 k) as [->|Hne].
    + intros [= <- <-]. rewrite lookup_cons, Z.eqb_refl. split; [done|].
      intros k' Hk'. rewrite !lookup_cons. by replace (k =? k') with false by lia.
    + destruct (lookup_slot k t) as [[p d2]|]; [|done]. intros [= <- <-].
      destruct (IH p d2) as [H1 H2]; [done|]. rewrite lookup_cons.
      replace (k1 =? k) with false by lia. rewrite H1. split; [done|].
      intros k' Hk'. rewrite !lookup_cons, H2 by done. done.
  - destruct (lookup_slot k t) as [[p d2]|]; [|done]. intros [= <- <-].
    destruct (IH p d2) as [H1 H2]; [done|]. rewrite lookup_cons, H1. split; [done|].
    intros k' Hk'. rewrite !lookup_cons, H2 by done. done.
Qed.

Lemma insert_free_spec k d t t' :
  lookup_slot k t = None -> insert_free k d t = Some t' ->
  (exists pos, lookup_slot k t' = Some (pos, d))
  /\ (forall k', k <> k' -> lookup_slot k' t' = lookup_slot k' t).
Proof.
  revert t'. induction t as [|s t IH]; intros t'; [done|]. rewrite lookup_cons.
  destruct s as [[k1 d1]|]; cbn [insert_free].
  - destruct (Z.eqb_spec k1 k) as [->|Hne]; [done|].
    destruct (lookup_slot k t) eqn:E; [done|]. intros _.
    destruct (insert_free k d t) as [t1|]; [|done]. intros [= <-].
    destruct (IH t1) as [[pos H1] H2]; [done|done|]. split.
    + exists (1 + pos). rewrite lookup_cons, H1. by replace (k1 =? k) with false by lia.
    + intros k' Hk'. rewrite !lookup_cons, H2 by done. done.
  - intros _ [= <-]. split.
    + exists 0. by rewrite lookup_cons, Z.eqb_refl.
    + intros k' Hk'. rewrite !lookup_cons. by replace (k =? k') with false by lia.
Qed.

Lemma lookup_del k k' t :
  lookup_slot k' (del_slot k t) = if k =? k' then None else lookup_slot k' t.
Proof.
  induction t as [|s t IH]; [by destruct (k =? k')|].
  cbn [del_slot map]. fold (del_slot k t).
  rewrite !lookup_cons. destruct s as [[k1 d1]|].
  - destruct (Z.eqb_spec k1 k) as [->|Hne].
    + rewrite IH. by destruct (k =? k').
    + rewrite IH. destruct (Z.eqb_spec k k') as [->|]; [|done].
      by replace (k1 =? k') with false by lia.
  - rewrite IH. by destruct (k =? k').
Qed.

Definition slots_hash (capacity : nat) : RteHash := {|
  rte_hash := slots;
  ht_new := replicate capacity None;
  ht_lookup := lookup_slot;
  ht_key_at := key_at;
  ht_add := add_slot;
  ht_del := del_slot;
  ht_iter := iter_slots;
|}.

Lemma lookup_replicate k n : lookup_slot k (replicate n None) = None.
Proof. induction n as [|n IH]; [done|]. cbn [replicate]. rewrite lookup_cons. by rewrite IH. Qed.

#[export] Instance slots_hash_laws capacity : RteHashLaws (slots_hash capacity).
Proof.
  split; cbn [rte_hash ht_new ht_lookup ht_key_at ht_add ht_del ht_iter slots_hash].
  - intros k. apply lookup_replicate.
  - intros k d t t'. unfold add_slot. destruct (lookup_slot k t) as [[p d0]|] eqn:E.
    + intros [= <-]. exists p. destruct (update_spec k d t p d0 E) as [-> _].
      split; [done|]. by intros ? ? [= <- <-].
    + intros Hi. destruct (insert_free_spec k d t t' E Hi) as [[p Hp] _].
      exists p. by split.
  - intros k d t [x Hx]. unfold add_slot. rewrite Hx. by eexists.
  - intros k k' d t t'. unfold add_slot. destruct (lookup_slot k t) as [[p d0]|] eqn:E.
    + intros [= <-] Hne. by apply (update_spec k d t p d0 E).
    + intros Hi Hne. by apply (insert_free_spec k d t t' E Hi).
  - intros k t. by rewrite lookup_del, Z.eqb_refl.
  - intros k k' t Hne. rewrite lookup_del. by replace (k =? k') with false by lia.
  - intros k t pos d Hl. apply lookup_slot_key in Hl as [_ Hl]. unfold key_at. by rewrite Hl.
  - intros k d t. unfold iter_slots. rewrite list_elem_of_In, filter_In, <-list_elem_of_In.
    rewrite list_elem_of_omap. cbn [fst snd]. split.
    + intros [_ Hm]. destruct (lookup_slot k t) as [[p d']|]; [|done].
      apply Z.eqb_eq in Hm. subst d'. by exists p.
    + intros [pos Hl]. rewrite Hl, Z.eqb_refl. split; [|done].
      apply lookup_slot_key in Hl as [_ Hl]. exists (Some (k, d)). split; [|done].
      by eapply list_elem_of_lookup_2.
Qed.
End Slots.
