(* ===== verification/PipesManager.v ===== *)
(** * The flow pipes manager (applications/common/flow_pipes_manager.c)

    The manager keeps three tables: pipe id to [pipe_info], entry id to the
    stored key of its pipe, and port id to the table of the pipe ids of the
    port.  The [pipe_info] objects and the per-port tables are heap objects the
    tables point to; both the port table and every [pipe_info] of the port point to
    the same per-port table. *)
From S2P Require Import Prelude RteHash.

Definition FNV_OFFSET : Z := 0xcbf29ce484222325.
Definition FNV_PRIME : Z := 0x100000001b3.
Definition DEFAULT_ENTRIES_NUM : nat := 128.

(** [generateID(ptr)]: the hash of the [sizeof(ptr)] bytes the pointer designates. *)
Definition generateID (object : list Z) : Z :=
  foldl (fun id byte => u64 (Z.lxor byte id * FNV_PRIME)) FNV_OFFSET (take 8 object).

(** Outcome of the allocations of a call: the identifiers ([rte_malloc] of a few
    bytes, not checked by the code), a table, a [pipe_info] with its table. *)
Record alloc : Type := Alloc { alloc_id : bool; alloc_table : bool; alloc_info : bool }.

Definition alloc_all : alloc := Alloc true true true.

Section manager.
Context `{RteHash}.

Record pipe_info : Type := PipeInfo {
  pi_pipe : Z;
  pi_entries : rte_hash;
  pi_port_table : Z;
}.

(** [infos] and [ptables] are the heap objects by address, [next_ptr] the next
    free address. *)
Record flow_pipes_manager : Type := Manager {
  pipe_tbl : rte_hash;
  entry_tbl : rte_hash;
  port_tbl : rte_hash;
  infos : gmap Z pipe_info;
  ptables : gmap Z rte_hash;
  next_ptr : Z;
}.

(** [create_pipes_manager]: which of the allocations (the structure and its three
    tables) succeed. *)
Definition create_pipes_manager (ok0 ok1 ok2 ok3 : bool) : res flow_pipes_manager :=
  if negb ok0 then Err DOCA_ERROR_NO_MEMORY
  else if negb ok1 then Err DOCA_ERROR_DRIVER
  else if negb ok2 then Err DOCA_ERROR_DRIVER
  else if negb ok3 then Err DOCA_ERROR_DRIVER
  else Ok (Manager ht_new ht_new ht_new ∅ ∅ 1).

(** [rte_free] of a key that [rte_hash_iterate] returned: the key lives inside the
    table, it was not returned by [rte_malloc]. *)
Definition rte_free_stored_key (key : Z) : outcome unit := Undef DanglingPointer.

Fixpoint free_stored_keys (ks : list Z) : outcome unit :=
  match ks with
  | [] => Ret tt
  | k :: ks' => let* _ := rte_free_stored_key k in free_stored_keys ks'
  end.

(** The first loop of [destroy_pipes_manager]. *)
Fixpoint free_pipes (pipes : list (Z * Z)) (m : flow_pipes_manager) : outcome unit :=
  match pipes with
  | [] => Ret tt
  | (pipe_id, a) :: pipes' =>
      let* info := of_option DanglingPointer (infos m !! a) in
      let* _ := free_stored_keys (map fst (ht_iter (pi_entries info))) in
      let* _ := rte_free_stored_key pipe_id in
      free_pipes pipes' m
  end.

Definition destroy_pipes_manager (m : flow_pipes_manager) : outcome unit :=
  free_pipes (ht_iter (pipe_tbl m)) m.

(** ** Pipes *)

(** The per-port table of [port_id], created when the port has none: its address,
    whether it is new, and the manager with [id] added to the table. *)
Definition port_pipes_table (c : alloc) (id port_id : Z) (m : flow_pipes_manager)
    : outcome (flow_pipes_manager * res (Z * bool)) :=
  match ht_lookup port_id (port_tbl m) with
  | None =>
      if negb (alloc_table c) then Ret (m, Err DOCA_ERROR_NO_MEMORY)
      else
        match ht_add id 0 ht_new with
        | None => Ret (m, Err DOCA_ERROR_INVALID_VALUE)
        | Some tbl =>
            let t := next_ptr m in
            match ht_add port_id t (port_tbl m) with
            | None => Ret (m, Err DOCA_ERROR_INVALID_VALUE)
            | Some ports =>
                Ret (Manager (pipe_tbl m) (entry_tbl m) ports (infos m) (<[t := tbl]> (ptables m))
                       (t + 1), Ok (t, true))
            end
        end
  | Some (_, t) =>
      let* tbl := of_option DanglingPointer (ptables m !! t) in
      match ht_add id 0 tbl with
      | None => Ret (m, Err DOCA_ERROR_INVALID_VALUE)
      | Some tbl =>
          Ret (Manager (pipe_tbl m) (entry_tbl m) (port_tbl m) (infos m) (<[t := tbl]> (ptables m))
                 (next_ptr m), Ok (t, false))
      end
  end.

(** The error paths after the id was added to the per-port table. *)
Definition undo_port_table (id port_id t : Z) (is_new_table : bool) (m : flow_pipes_manager)
    : outcome flow_pipes_manager :=
  let* tbl := of_option DanglingPointer (ptables m !! t) in
  let tbl := ht_del id tbl in
  if is_new_table
  then Ret (Manager (pipe_tbl m) (entry_tbl m) (ht_del port_id (port_tbl m)) (infos m)
              (delete t (ptables m)) (next_ptr m))
  else Ret (Manager (pipe_tbl m) (entry_tbl m) (port_tbl m) (infos m) (<[t := tbl]> (ptables m))
              (next_ptr m)).

Definition pipes_manager_pipe_create (c : alloc) (m : flow_pipes_manager) (pipe : Z)
    (object : list Z) (port_id : Z) : outcome (flow_pipes_manager * res Z) :=
  let* _ := require (alloc_id c) NullDeref in
  let id := generateID object in
  if ht_mem id (pipe_tbl m) then Ret (m, Err DOCA_ERROR_INVALID_VALUE)
  else
    let* (m, r) := port_pipes_table c id port_id m in
    match r with
    | Err e => Ret (m, Err e)
    | Ok (t, is_new_table) =>
        if negb (alloc_info c) then
          let* m := undo_port_table id port_id t is_new_table m in
          Ret (m, Err DOCA_ERROR_NO_MEMORY)
        else
          let a := next_ptr m in
          match ht_add id a (pipe_tbl m) with
          | None =>
              let* m := undo_port_table id port_id t is_new_table m in
              Ret (m, Err DOCA_ERROR_INVALID_VALUE)
          | Some pipes =>
              Ret (Manager pipes (entry_tbl m) (port_tbl m)
                     (<[a := PipeInfo pipe ht_new t]> (infos m)) (ptables m) (a + 1), Ok id)
          end
    end.

Definition pipes_manager_get_pipe (m : flow_pipes_manager) (pipe_id : Z) : outcome (res Z) :=
  match ht_lookup pipe_id (pipe_tbl m) with
  | None => Ret (Err DOCA_ERROR_NOT_FOUND)
  | Some (_, a) =>
      let* info := of_option DanglingPointer (infos m !! a) in Ret (Ok (pi_pipe info))
  end.

(** Take the entries of a pipe out of the entry table, then the pipe out of the
    pipe table, and free its [pipe_info]. *)
Definition drop_pipe (m : flow_pipes_manager) (pipe_id a : Z) (info : pipe_info)
    : flow_pipes_manager :=
  Manager (ht_del pipe_id (pipe_tbl m))
    (ht_del_all (map fst (ht_iter (pi_entries info))) (entry_tbl m)) (port_tbl m)
    (delete a (infos m)) (ptables m) (next_ptr m).

Definition pipes_manager_pipe_destroy (m : flow_pipes_manager) (pipe_id : Z)
    : outcome (flow_pipes_manager * doca_error_t) :=
  match ht_lookup pipe_id (pipe_tbl m) with
  | None => Ret (m, DOCA_ERROR_INVALID_VALUE)
  | Some (key_offset, a) =>
      match ht_key_at key_offset (pipe_tbl m) with
      | None => Ret (m, DOCA_ERROR_NOT_FOUND)
      | Some _ =>
          let* info := of_option DanglingPointer (infos m !! a) in
          let* tbl := of_option DanglingPointer (ptables m !! pi_port_table info) in
          if negb (ht_mem pipe_id tbl) then Ret (m, DOCA_ERROR_NOT_FOUND)
          else
            let m := Manager (pipe_tbl m) (entry_tbl m) (port_tbl m) (infos m)
                       (<[pi_port_table info := ht_del pipe_id tbl]> (ptables m)) (next_ptr m) in
            Ret (drop_pipe m pipe_id a info, DOCA_SUCCESS)
      end
  end.

(** The loop of [pipes_manager_pipes_flush] over the pipes of the port. *)
Fixpoint flush_pipes (pipe_ids : list Z) (m : flow_pipes_manager) : outcome flow_pipes_manager :=
  match pipe_ids with
  | [] => Ret m
  | pipe_id :: pipe_ids' =>
      match ht_lookup pipe_id (pipe_tbl m) with
      | None => flush_pipes pipe_ids' m
      | Some (_, a) =>
          let* info := of_option DanglingPointer (infos m !! a) in
          flush_pipes pipe_ids' (drop_pipe m pipe_id a info)
      end
  end.

Definition pipes_manager_pipes_flush (m : flow_pipes_manager) (port_id : Z)
    : outcome (flow_pipes_manager * doca_error_t) :=
  match ht_lookup port_id (port_tbl m) with
  | None => Ret (m, DOCA_ERROR_INVALID_VALUE)
  | Some (key_offset, t) =>
      match ht_key_at key_offset (port_tbl m) with
      | None => Ret (m, DOCA_ERROR_NOT_FOUND)
      | Some _ =>
          let* tbl := of_option DanglingPointer (ptables m !! t) in
          let* m := flush_pipes (map fst (ht_iter tbl)) m in
          Ret (Manager (pipe_tbl m) (entry_tbl m) (ht_del port_id (port_tbl m)) (infos m)
                 (delete t (ptables m)) (next_ptr m), DOCA_SUCCESS)
      end
  end.

(** ** Entries *)

(** Replace a [pipe_info] in place. *)
Definition set_entries (a : Z) (info : pipe_info) (tbl : rte_hash) (m : flow_pipes_manager)
    : flow_pipes_manager :=
  Manager (pipe_tbl m) (entry_tbl m) (port_tbl m)
    (<[a := PipeInfo (pi_pipe info) tbl (pi_port_table info)]> (infos m)) (ptables m) (next_ptr m).

Definition set_entry_tbl (tbl : rte_hash) (m : flow_pipes_manager) : flow_pipes_manager :=
  Manager (pipe_tbl m) tbl (port_tbl m) (infos m) (ptables m) (next_ptr m).

(** The check for an existing entry passes the address of the local variable
    that holds the pointer to the id: the key looked up is that pointer. *)
Definition pipes_manager_pipe_add_entry (c : alloc) (m : flow_pipes_manager) (entry : Z)
    (object : list Z) (pipe_id : Z) : outcome (flow_pipes_manager * res Z) :=
  let* _ := require (alloc_id c) NullDeref in
  let id := generateID object in
  let id_ptr := next_ptr m in
  let m := Manager (pipe_tbl m) (entry_tbl m) (port_tbl m) (infos m) (ptables m) (id_ptr + 1) in
  match ht_lookup pipe_id (pipe_tbl m) with
  | None => Ret (m, Err DOCA_ERROR_INVALID_VALUE)
  | Some (pos, a) =>
      match ht_key_at pos (pipe_tbl m) with
      | None => Ret (m, Err DOCA_ERROR_NOT_FOUND)
      | Some _ =>
          let* info := of_option DanglingPointer (infos m !! a) in
          if ht_mem id_ptr (pi_entries info) then Ret (m, Err DOCA_ERROR_INVALID_VALUE)
          else
            match ht_add id entry (pi_entries info) with
            | None => Ret (m, Err DOCA_ERROR_INVALID_VALUE)
            | Some entries =>
                match ht_add id pos (entry_tbl m) with
                | None =>
                    Ret (set_entries a info (ht_del id entries) m, Err DOCA_ERROR_INVALID_VALUE)
                | Some tbl => Ret (set_entry_tbl tbl (set_entries a info entries m), Ok id)
                end
            end
      end
  end.

(** The pipe id an entry refers to: the stored key at a position of the pipe table. *)
Definition deref_pipe_id (pos : Z) (m : flow_pipes_manager) : outcome Z :=
  of_option DanglingPointer (ht_key_at pos (pipe_tbl m)).

Definition pipes_manager_get_entry (m : flow_pipes_manager) (entry_id : Z) : outcome (res Z) :=
  match ht_lookup entry_id (entry_tbl m) with
  | None => Ret (Err DOCA_ERROR_NOT_FOUND)
  | Some (_, pos) =>
      let* pipe_id := deref_pipe_id pos m in
      match ht_lookup pipe_id (pipe_tbl m) with
      | None => Ret (Err DOCA_ERROR_NOT_FOUND)
      | Some (_, a) =>
          let* info := of_option DanglingPointer (infos m !! a) in
          match ht_lookup entry_id (pi_entries info) with
          | None => Ret (Err DOCA_ERROR_NOT_FOUND)
          | Some (_, entry) => Ret (Ok entry)
          end
      end
  end.

Definition pipes_manager_pipe_rm_entry (m : flow_pipes_manager) (entry_id : Z)
    : outcome (flow_pipes_manager * doca_error_t) :=
  match ht_lookup entry_id (entry_tbl m) with
  | None => Ret (m, DOCA_ERROR_INVALID_VALUE)
  | Some (key_offset, pos) =>
      match ht_key_at key_offset (entry_tbl m) with
      | None => Ret (m, DOCA_ERROR_NOT_FOUND)
      | Some _ =>
          let* pipe_id := deref_pipe_id pos m in
          match ht_lookup pipe_id (pipe_tbl m) with
          | None => Ret (m, DOCA_ERROR_INVALID_VALUE)
          | Some (_, a) =>
              let* info := of_option DanglingPointer (infos m !! a) in
              let m := set_entry_tbl (ht_del entry_id (entry_tbl m)) m in
              if negb (ht_mem entry_id (pi_entries info)) then Ret (m, DOCA_ERROR_NOT_FOUND)
              else Ret (set_entries a info (ht_del entry_id (pi_entries info)) m, DOCA_SUCCESS)
          end
      end
  end.
End manager.

(** ** The invariant *)

Section invariant.
Context `{HL : RteHashLaws}.

(** The manager is well formed: every stored pointer designates a live object,
    pipes are listed in the table of their port, an entry's key position holds the
    pipe that lists the entry.  [done] exempts pairs of a per-port table and an id
    whose pipe is being added or removed. *)
Record mgr_wf_but (done : Z -> Z -> Prop) (m : flow_pipes_manager) : Prop := {
  wf_pipe : forall id pos a, ht_lookup id (pipe_tbl m) = Some (pos, a) ->
    exists info tbl p pp, infos m !! a = Some info
      /\ ptables m !! pi_port_table info = Some tbl /\ ht_mem id tbl = true
      /\ ht_lookup p (port_tbl m) = Some (pp, pi_port_table info);
  wf_pipe_inj : forall id1 id2 pos1 pos2 a,
    ht_lookup id1 (pipe_tbl m) = Some (pos1, a) ->
    ht_lookup id2 (pipe_tbl m) = Some (pos2, a) -> id1 = id2;
  wf_entry : forall e ep pos, ht_lookup e (entry_tbl m) = Some (ep, pos) ->
    exists id a info, ht_lookup id (pipe_tbl m) = Some (pos, a) /\ infos m !! a = Some info
      /\ ht_mem e (pi_entries info) = true;
  wf_port : forall p pp t, ht_lookup p (port_tbl m) = Some (pp, t) -> is_Some (ptables m !! t);
  wf_port_inj : forall p1 p2 pp1 pp2 t,
    ht_lookup p1 (port_tbl m) = Some (pp1, t) ->
    ht_lookup p2 (port_tbl m) = Some (pp2, t) -> p1 = p2;
  wf_listed : forall t tbl id, ptables m !! t = Some tbl -> ht_mem id tbl = true ->
    done t id \/ exists pos a info, ht_lookup id (pipe_tbl m) = Some (pos, a)
      /\ infos m !! a = Some info /\ pi_port_table info = t;
  wf_info_addr : forall a, is_Some (infos m !! a) -> a < next_ptr m;
  wf_table_addr : forall t, is_Some (ptables m !! t) -> t < next_ptr m;
}.

Definition mgr_wf : flow_pipes_manager -> Prop := mgr_wf_but (fun _ _ => False).

Lemma mgr_wf_weaken (d1 d2 : Z -> Z -> Prop) m :
  (forall t id, d1 t id -> d2 t id) -> mgr_wf_but d1 m -> mgr_wf_but d2 m.
Proof using Type.
  intros Hd [H1 H2 H3 H4 H5 H6 H7 H8]. split; [done..| |done|done].
  intros t tbl id Ht Hid. destruct (H6 t tbl id Ht Hid); [left; auto | by right].
Qed.

Lemma create_manager_wf m :
  create_pipes_manager true true true true = Ok m -> mgr_wf m.
Proof using HL.
  intros [= <-]. split; cbn; intros *; rewrite ?ht_lookup_new, ?lookup_empty; try done;
    by intros [? [=]].
Qed.

(** Entry and [pipe_info] updates that keep the pipe tables. *)
Lemma set_entries_wf d m id pos a info tbl :
  mgr_wf_but d m -> ht_lookup id (pipe_tbl m) = Some (pos, a) -> infos m !! a = Some info ->
  (forall e ep, ht_lookup e (entry_tbl m) = Some (ep, pos) -> ht_mem e tbl = true) ->
  mgr_wf_but d (set_entries a info tbl m).
Proof using HL.
  intros [H1 H2 H3 H4 H5 H6 H7 H8] Hid Hinfo Htbl. split; cbn; try done.
  - intros id' pos' a' Hl. destruct (H1 id' pos' a' Hl) as (info' & t & p & pp & Hi & Ht & Hm & Hp).
    destruct (decide (a' = a)) as [->|Hne].
    + rewrite lookup_insert_eq. rewrite Hinfo in Hi. injection Hi as <-.
      eexists _, t, p, pp. by split_and!.
    + rewrite lookup_insert_ne by done. exists info', t, p, pp. by split_and!.
  - intros e ep pos' Hl. destruct (H3 e ep pos' Hl) as (id' & a' & info' & Hp & Hi & Hm).
    exists id', a'. destruct (decide (a' = a)) as [->|Hne].
    + rewrite lookup_insert_eq. eexists. split_and!; [done|done|]. cbn.
      assert (id' = id) as -> by (by eapply H2).
      rewrite Hid in Hp. injection Hp as <-. by eapply Htbl.
    + rewrite lookup_insert_ne by done. by eexists.
  - intros t tbl' id' Ht Hm. destruct (H6 t tbl' id' Ht Hm) as [?|(pos' & a' & info' & Hp & Hi & <-)];
      [by left|right]. exists pos', a'. destruct (decide (a' = a)) as [->|Hne].
    + rewrite lookup_insert_eq. rewrite Hinfo in Hi. injection Hi as <-. by eexists.
    + rewrite lookup_insert_ne by done. by eexists.
  - intros a' Ha'. apply lookup_insert_is_Some in Ha' as [<-|[_ Ha']]; [|by apply H7].
    apply H7. by eexists.
Qed.

(** Fewer entries in the entry table. *)
Lemma set_entry_tbl_wf d m tbl :
  mgr_wf_but d m ->
  (forall e ep pos, ht_lookup e tbl = Some (ep, pos) ->
     exists id a info, ht_lookup id (pipe_tbl m) = Some (pos, a) /\ infos m !! a = Some info
       /\ ht_mem e (pi_entries info) = true) ->
  mgr_wf_but d (set_entry_tbl tbl m).
Proof using Type. intros [] Htbl. by split. Qed.

Lemma next_ptr_wf d m n :
  mgr_wf_but d m -> next_ptr m <= n ->
  mgr_wf_but d (Manager (pipe_tbl m) (entry_tbl m) (port_tbl m) (infos m) (ptables m) n).
Proof using Type.
  intros [H1 H2 H3 H4 H5 H6 H7 H8] Hn. split; cbn; try done.
  - intros a Ha. apply H7 in Ha. lia.
  - intros t Ht. apply H8 in Ht. lia.
Qed.

(** Removing a pipe leaves its id only in the table of its port. *)
Lemma drop_pipe_wf d m id pos a info :
  mgr_wf_but d m -> ht_lookup id (pipe_tbl m) = Some (pos, a) -> infos m !! a = Some info ->
  mgr_wf_but (fun t i => d t i \/ (t = pi_port_table info /\ i = id)) (drop_pipe m id a info).
Proof using HL.
  intros [H1 H2 H3 H4 H5 H6 H7 H8] Hid Hinfo.
  assert (forall id' pos' a', ht_lookup id' (ht_del id (pipe_tbl m)) = Some (pos', a') ->
            id' <> id /\ a' <> a /\ ht_lookup id' (pipe_tbl m) = Some (pos', a')) as Hdel.
  { intros id' pos' a' Hl. destruct (decide (id = id')) as [->|Hne];
      [by rewrite ht_lookup_del in Hl|]. rewrite ht_lookup_del_ne in Hl by done.
    split_and!; [done| |done]. intros ->. by apply Hne, (H2 _ _ pos pos' a). }
  split; cbn; try done.
  - intros id' pos' a' (Hne & Ha & Hl)%Hdel.
    destruct (H1 id' pos' a' Hl) as (info' & t & p & pp & Hi & Ht & Hm & Hp).
    exists info', t, p, pp. rewrite lookup_delete_ne by done. by split_and!.
  - intros id1 id2 pos1 pos2 a' (_ & _ & Hl1)%Hdel (_ & _ & Hl2)%Hdel. by eapply H2.
  - intros e ep pos'. rewrite ht_lookup_del_all. case_decide as Hin; [done|]. intros Hl.
    destruct (H3 e ep pos' Hl) as (id' & a' & info' & Hp & Hi & Hm).
    assert (id' <> id) as Hne.
    { intros ->. rewrite Hid in Hp. injection Hp as <- <-. rewrite Hinfo in Hi.
      injection Hi as <-. apply Hin, ht_iter_keys. by apply ht_mem_spec. }
    exists id', a', info'. rewrite ht_lookup_del_ne, lookup_delete_ne; [done| |done].
    intros ->. by apply Hne, (H2 _ _ pos' pos a').
  - intros t tbl i Ht Hm. destruct (decide (i = id)) as [->|Hne].
    + left. destruct (H6 t tbl id Ht Hm) as [?|(pos' & a' & info' & Hp & Hi & <-)]; [by left|].
      right. rewrite Hid in Hp. injection Hp as <- <-. rewrite Hinfo in Hi. by injection Hi as <-.
    + destruct (H6 t tbl i Ht Hm) as [?|(pos' & a' & info' & Hp & Hi & <-)]; [left; by left|right].
      exists pos', a', info'. rewrite ht_lookup_del_ne, lookup_delete_ne; [done| |done].
      intros ->. by apply Hne, (H2 _ _ pos' pos a').
  - intros a' Ha'. apply lookup_delete_is_Some in Ha' as [_ Ha']. by apply H7.
Qed.

Definition set_ptables (pt : gmap Z rte_hash) (m : flow_pipes_manager) : flow_pipes_manager :=
  Manager (pipe_tbl m) (entry_tbl m) (port_tbl m) (infos m) pt (next_ptr m).

(** Replacing the table of a port by one that lists its pipes. *)
Lemma set_ptable_wf (d d' : Z -> Z -> Prop) m t tbl tbl' :
  mgr_wf_but d m -> ptables m !! t = Some tbl ->
  (forall id pos a info, ht_lookup id (pipe_tbl m) = Some (pos, a) -> infos m !! a = Some info ->
     pi_port_table info = t -> ht_mem id tbl' = true) ->
  (forall id, ht_mem id tbl' = true -> d' t id \/ ht_mem id tbl = true /\ (d t id -> d' t id)) ->
  (forall t' id, t' <> t -> d t' id -> d' t' id) ->
  mgr_wf_but d' (set_ptables (<[t := tbl']> (ptables m)) m).
Proof using Type.
  intros [H1 H2 H3 H4 H5 H6 H7 H8] Ht Hall Hmem Hd. split; cbn; try done.
  - intros id pos a Hl. destruct (H1 id pos a Hl) as (info & tb & p & pp & Hi & Htb & Hm & Hp).
    exists info. destruct (decide (pi_port_table info = t)) as [Heq|Hne].
    + exists tbl', p, pp. rewrite Heq, lookup_insert_eq. rewrite Heq in Hp.
      split_and!; [done|done| |done]. by eapply Hall.
    + exists tb, p, pp. rewrite lookup_insert_ne by done. by split_and!.
  - intros p pp t' Hp. apply lookup_insert_is_Some. destruct (decide (t = t')); [by left|right].
    split; [done|]. by eapply H4.
  - intros t' tb id. destruct (decide (t' = t)) as [->|Hne].
    + rewrite lookup_insert_eq. intros [= <-] Hm.
      destruct (Hmem id Hm) as [?|[Hold Hdd]]; [by left|].
      destruct (H6 t tbl id Ht Hold) as [?|?]; [left; auto | by right].
    + rewrite lookup_insert_ne by done. intros Htb Hm.
      destruct (H6 t' tb id Htb Hm) as [?|?]; [left; auto | by right].
  - intros t' [<-|[_ Ht']]%lookup_insert_is_Some; [|by apply H8]. apply H8. by eexists.
Qed.

Lemma pipes_manager_pipe_destroy_wf m id :
  mgr_wf m -> exists m' e, pipes_manager_pipe_destroy m id = Ret (m', e) /\ mgr_wf m'.
Proof using HL.
  intros Hwf. unfold pipes_manager_pipe_destroy.
  destruct (ht_lookup id (pipe_tbl m)) as [[pos a]|] eqn:Hl; [|by eexists _, _].
  rewrite (ht_key_lookup _ _ _ _ Hl).
  destruct (wf_pipe _ _ Hwf _ _ _ Hl) as (info & tbl & p & pp & Hi & Ht & Hm & Hp).
  rewrite Hi. cbn [of_option]. rewrite Ht. cbn [of_option]. rewrite Hm. cbn [negb].
  eexists _, _. split; [done|].
  pose proof (drop_pipe_wf _ _ _ _ _ _ Hwf Hl Hi) as Hd.
  apply (set_ptable_wf _ (fun _ _ => False) _ (pi_port_table info) tbl (ht_del id tbl)) in Hd.
  - exact Hd.
  - done.
  - cbn. intros id' pos' a' info' Hl' Hi' Heq. apply ht_mem_del.
    destruct (decide (id = id')) as [->|Hne]; [by rewrite ht_lookup_del in Hl'|].
    split; [done|]. rewrite ht_lookup_del_ne in Hl' by done.
    apply lookup_delete_Some in Hi' as [_ Hi'].
    destruct (wf_pipe _ _ Hwf _ _ _ Hl') as (i2 & t2 & p2 & pp2 & Hi2 & Ht2 & Hm2 & _).
    rewrite Hi' in Hi2. injection Hi2 as <-. rewrite Heq, Ht in Ht2. by injection Ht2 as <-.
  - intros id' [Hne Hm']%ht_mem_del. right. split; [done|]. intros [[]|[_ ?]]. done.
  - cbn. intros t' id' Hne [[]|[? _]]. done.
Qed.

(** ** What the manager knows *)

(** The manager maps [id] to [pipe], created for [port]. *)
Definition has_pipe (m : flow_pipes_manager) (id pipe port : Z) : Prop :=
  exists pos a info pp, ht_lookup id (pipe_tbl m) = Some (pos, a) /\ infos m !! a = Some info
    /\ pi_pipe info = pipe /\ ht_lookup port (port_tbl m) = Some (pp, pi_port_table info).

(** The manager maps the entry [e] to [entry], in the pipe [id]. *)
Definition has_entry (m : flow_pipes_manager) (e id entry : Z) : Prop :=
  exists ep pos a info xp, ht_lookup e (entry_tbl m) = Some (ep, pos)
    /\ ht_lookup id (pipe_tbl m) = Some (pos, a) /\ infos m !! a = Some info
    /\ ht_lookup e (pi_entries info) = Some (xp, entry).

Lemma has_pipe_fun m id pipe1 port1 pipe2 port2 :
  mgr_wf m -> has_pipe m id pipe1 port1 -> has_pipe m id pipe2 port2 ->
  pipe1 = pipe2 /\ port1 = port2.
Proof using Type.
  intros Hwf (pos & a & info & pp & Hl & Hi & Hx & Hp) (pos' & a' & info' & pp' & Hl' & Hi' & Hx' & Hp').
  simplify_eq. split; [done|]. by eapply wf_port_inj.
Qed.

Lemma get_pipe_spec m id :
  mgr_wf m ->
  exists r, pipes_manager_get_pipe m id = Ret r
    /\ match r with
       | Ok pipe => exists port, has_pipe m id pipe port
       | Err e => e = DOCA_ERROR_NOT_FOUND /\ forall pipe port, ~ has_pipe m id pipe port
       end.
Proof using Type.
  intros Hwf. unfold pipes_manager_get_pipe.
  destruct (ht_lookup id (pipe_tbl m)) as [[pos a]|] eqn:Hl.
  - destruct (wf_pipe _ _ Hwf _ _ _ Hl) as (info & tbl & p & pp & Hi & Ht & Hm & Hp).
    rewrite Hi. cbn. eexists. split; [done|]. exists p, pos, a, info, pp. by split_and!.
  - eexists. split; [done|]. split; [done|]. intros pipe port (? & ? & ? & ? & ? & _). congruence.
Qed.

Lemma get_entry_spec m e :
  mgr_wf m ->
  exists r, pipes_manager_get_entry m e = Ret r
    /\ match r with
       | Ok entry => exists id, has_entry m e id entry
       | Err err => err = DOCA_ERROR_NOT_FOUND /\ forall id entry, ~ has_entry m e id entry
       end.
Proof using HL.
  intros Hwf. unfold pipes_manager_get_entry.
  destruct (ht_lookup e (entry_tbl m)) as [[ep pos]|] eqn:Hl.
  - destruct (wf_entry _ _ Hwf _ _ _ Hl) as (id & a & info & Hp & Hi & Hm).
    unfold deref_pipe_id. rewrite (ht_key_lookup _ _ _ _ Hp). cbn [of_option].
    rewrite Hp, Hi. cbn [of_option]. apply ht_mem_spec in Hm as [[xp x] Hx]. rewrite Hx.
    eexists. split; [done|]. exists id, ep, pos, a, info, xp. by split_and!.
  - eexists. split; [done|]. split; [done|]. intros id x (? & ? & ? & ? & ? & ? & _). congruence.
Qed.

Lemma has_pipe_set_entries m a info tbl id x p :
  infos m !! a = Some info ->
  has_pipe (set_entries a info tbl m) id x p <-> has_pipe m id x p.
Proof using Type.
  intros Hi. unfold has_pipe. cbn. split; intros (pos & a' & info' & pp & H1 & H2 & H3 & H4);
    destruct (decide (a' = a)) as [->|Hne].
  - rewrite lookup_insert_eq in H2. simplify_eq. eexists _, _, _, _. by split_and!.
  - rewrite lookup_insert_ne in H2 by done. eexists _, _, _, _. by split_and!.
  - simplify_eq. eexists _, _, _, _. rewrite lookup_insert_eq. by split_and!.
  - eexists _, _, _, _. rewrite lookup_insert_ne by done. by split_and!.
Qed.

(** [rm_entry] forgets the entry and nothing else. *)
Lemma rm_entry_spec m e :
  mgr_wf m ->
  exists m' r, pipes_manager_pipe_rm_entry m e = Ret (m', r) /\ mgr_wf m'
    /\ (r = DOCA_SUCCESS <-> is_Some (ht_lookup e (entry_tbl m)))
    /\ (forall id x p, has_pipe m' id x p <-> has_pipe m id x p)
    /\ (forall e' id x, has_entry m' e' id x <-> e' <> e /\ has_entry m e' id x).
Proof using HL.
  intros Hwf. unfold pipes_manager_pipe_rm_entry.
  destruct (ht_lookup e (entry_tbl m)) as [[ep pos]|] eqn:Hl.
  2:{ eexists _, _. split; [done|]. split; [done|].
      split; [split; [done | by intros [? [=]]]|]. split; [done|].
      intros e' id x. split; [|by intros [_ ?]]. intros Hx. split; [|done]. intros ->.
      destruct Hx as (? & ? & ? & ? & ? & ? & _). congruence. }
  rewrite (ht_key_lookup _ _ _ _ Hl).
  destruct (wf_entry _ _ Hwf _ _ _ Hl) as (id & a & info & Hp & Hi & Hm).
  unfold deref_pipe_id. rewrite (ht_key_lookup _ _ _ _ Hp). cbn [of_option].
  rewrite Hp, Hi. cbn [of_option]. rewrite Hm. cbn [negb].
  eexists _, _. split; [done|].
  assert (forall e' ep' pos', ht_lookup e' (ht_del e (entry_tbl m)) = Some (ep', pos') ->
            e' <> e /\ ht_lookup e' (entry_tbl m) = Some (ep', pos')) as Hdel.
  { intros e' ep' pos' Hx. destruct (decide (e = e')) as [->|Hne];
      [by rewrite ht_lookup_del in Hx|]. rewrite ht_lookup_del_ne in Hx by done. done. }
  split; [|split; [|split]].
  - eapply set_entries_wf; cbn; [|done|done|].
    + apply set_entry_tbl_wf; [done|]. intros e' ep' pos' [_ Hx]%Hdel. by eapply wf_entry.
    + intros e' ep' [Hne Hx]%Hdel. apply ht_mem_del. split; [done|].
      destruct (wf_entry _ _ Hwf _ _ _ Hx) as (id' & a' & info' & Hp' & Hi' & Hm').
      assert (id' = id) as -> by (by eapply ht_pos_inj). simplify_eq. done.
  - split; [by eexists | done].
  - intros id' x p. exact (has_pipe_set_entries m a info _ id' x p Hi).
  - intros e' id' x. unfold has_entry. cbn. split.
    + intros (ep' & pos' & a' & info' & xp & H1 & H2 & H3 & H4). apply Hdel in H1 as [Hne H1].
      split; [done|]. destruct (decide (a' = a)) as [->|Hna].
      * rewrite lookup_insert_eq in H3. simplify_eq. cbn in H4.
        rewrite ht_lookup_del_ne in H4 by done. eexists _, _, _, _, _. by split_and!.
      * rewrite lookup_insert_ne in H3 by done. eexists _, _, _, _, _. by split_and!.
    + intros (Hne & ep' & pos' & a' & info' & xp & H1 & H2 & H3 & H4).
      rewrite ht_lookup_del_ne by done. destruct (decide (a' = a)) as [->|Hna].
      * simplify_eq. eexists _, _, a, _, _. rewrite lookup_insert_eq. split_and!; try done. cbn.
        by rewrite ht_lookup_del_ne.
      * eexists _, _, a', _, _. rewrite lookup_insert_ne by done. by split_and!.
Qed.

(** [add_entry] records the entry under its generated id, replacing whatever had
    this id, or fails and changes nothing that is visible. *)
Lemma add_entry_spec c m entry object id :
  mgr_wf m -> alloc_id c = true ->
  exists m' r, pipes_manager_pipe_add_entry c m entry object id = Ret (m', r) /\ mgr_wf m'
    /\ (forall i x p, has_pipe m' i x p <-> has_pipe m i x p)
    /\ match r with
       | Ok e => e = generateID object /\ ht_mem id (pipe_tbl m) = true
           /\ (forall e' i x, has_entry m' e' i x <->
                 e' = e /\ i = id /\ x = entry \/ e' <> e /\ has_entry m e' i x)
       | Err _ => forall e' i x, has_entry m' e' i x <-> has_entry m e' i x
       end.
Proof using HL.
  intros Hwf Hc. unfold pipes_manager_pipe_add_entry. rewrite Hc. cbn [require pipe_tbl infos].
  assert (Hwf1 := next_ptr_wf _ m (next_ptr m + 1) Hwf ltac:(lia)).
  set (m1 := Manager _ _ _ _ _ _) in *.
  destruct (ht_lookup id (pipe_tbl m)) as [[pos a]|] eqn:Hl; [|by eexists m1, _].
  rewrite (ht_key_lookup _ _ _ _ Hl).
  destruct (wf_pipe _ _ Hwf _ _ _ Hl) as (info & tbl & p & pp & Hi & _).
  rewrite Hi. cbn [of_option]. destruct (ht_mem (next_ptr m) (pi_entries info)); [by eexists m1, _|].
  set (e := generateID object).
  destruct (ht_add e entry (pi_entries info)) as [entries|] eqn:Ha; [|by eexists m1, _].
  assert (forall e' ep, ht_lookup e' (entry_tbl m) = Some (ep, pos) ->
            ht_mem e' (pi_entries info) = true) as Hpos.
  { intros e' ep Hx. destruct (wf_entry _ _ Hwf _ _ _ Hx) as (i & a' & info' & Hp' & Hi' & Hm').
    assert (i = id) as -> by (by eapply ht_pos_inj). by simplify_eq. }
  change (entry_tbl m1) with (entry_tbl m).
  destruct (ht_add e pos (entry_tbl m)) as [etbl|] eqn:He.
  - eexists _, _. split; [done|].
    destruct (ht_lookup_add _ _ _ _ He) as (ep & Hep & _).
    destruct (ht_lookup_add _ _ _ _ Ha) as (xp & Hxp & _).
    split; [|split; [|split; [done|split]]].
    + apply set_entry_tbl_wf.
      * apply (set_entries_wf _ m1 id pos); [done|done|done|].
        intros e' ep' Hx. apply (ht_mem_add _ _ _ _ _ Ha). right. by eapply Hpos.
      * intros e' ep' pos'. cbn. destruct (decide (e = e')) as [<-|Hne].
        -- rewrite Hep. intros [= <- <-]. exists id, a. rewrite lookup_insert_eq.
           eexists. split_and!; [done|done|]. cbn. apply ht_mem_spec. by eexists.
        -- rewrite (ht_lookup_add_ne _ _ _ _ _ He Hne). intros Hx.
           destruct (wf_entry _ _ Hwf _ _ _ Hx) as (i & a' & info' & Hp' & Hi' & Hm').
           exists i, a'. destruct (decide (a' = a)) as [->|Hna].
           ++ rewrite lookup_insert_eq. simplify_eq. eexists. split_and!; [done|done|]. cbn.
              apply (ht_mem_add _ _ _ _ _ Ha). by right.
           ++ rewrite lookup_insert_ne by done. by eexists.
    + intros i x p'. exact (has_pipe_set_entries m a info entries i x p' Hi).
    + unfold ht_mem. by rewrite Hl.
    + intros e' i x. unfold has_entry. cbn. split.
      * intros (ep' & pos' & a' & info' & xp' & H1 & H2 & H3 & H4).
        destruct (decide (e' = e)) as [->|Hne].
        -- left. rewrite Hep in H1. simplify_eq.
           assert (i = id) as -> by (by eapply ht_pos_inj). simplify_eq.
           rewrite lookup_insert_eq in H3. simplify_eq. cbn in H4. rewrite Hxp in H4.
           by simplify_eq.
        -- right. split; [done|]. rewrite (ht_lookup_add_ne _ _ _ _ _ He) in H1 by done.
           destruct (decide (a' = a)) as [->|Hna].
           ++ rewrite lookup_insert_eq in H3. simplify_eq. cbn in H4.
              rewrite (ht_lookup_add_ne _ _ _ _ _ Ha) in H4 by done.
              eexists _, _, _, _, _. by split_and!.
           ++ rewrite lookup_insert_ne in H3 by done. eexists _, _, _, _, _. by split_and!.
      * intros [(-> & -> & ->)|(Hne & ep' & pos' & a' & info' & xp' & H1 & H2 & H3 & H4)].
        -- eexists _, _, _, _, _. rewrite lookup_insert_eq. by split_and!.
        -- rewrite (ht_lookup_add_ne _ _ _ _ _ He) by done.
           destruct (decide (a' = a)) as [->|Hna].
           ++ simplify_eq. eexists _, _, _, _, _. rewrite lookup_insert_eq. split_and!; try done. cbn.
              by rewrite (ht_lookup_add_ne _ _ _ _ _ Ha).
           ++ eexists _, _, _, _, _. rewrite lookup_insert_ne by done. by split_and!.
  - assert (ht_lookup e (entry_tbl m) = None) as Hnone.
    { destruct (ht_lookup e (entry_tbl m)) eqn:Hx; [|done].
      destruct (ht_add_present e pos (entry_tbl m)) as [? Hy]; [by eexists|]. congruence. }
    assert (forall e', e' <> e -> ht_lookup e' (ht_del e entries) = ht_lookup e' (pi_entries info))
      as Hdel.
    { intros e' Hne. rewrite ht_lookup_del_ne by done.
      by rewrite (ht_lookup_add_ne _ _ _ _ _ Ha) by done. }
    eexists _, _. split; [done|]. split; [|split].
    + apply (set_entries_wf _ m1 id pos); [done|done|done|].
      intros e' ep' Hx. apply ht_mem_spec. rewrite Hdel by (intros ->; cbn in Hx; congruence).
      apply ht_mem_spec. by eapply Hpos.
    + intros i x p'. exact (has_pipe_set_entries m a info (ht_del e entries) i x p' Hi).
    + intros e' i x. unfold has_entry. cbn.
      split; intros (ep' & pos' & a' & info' & xp' & H1 & H2 & H3 & H4);
        (assert (e' <> e) as Hne by congruence); destruct (decide (a' = a)) as [->|Hna].
      * rewrite lookup_insert_eq in H3. simplify_eq. cbn in H4. rewrite Hdel in H4 by done.
        eexists _, _, _, _, _. by split_and!.
      * rewrite lookup_insert_ne in H3 by done. eexists _, _, _, _, _. by split_and!.
      * simplify_eq. eexists _, _, _, _, _. rewrite lookup_insert_eq. split_and!; try done. cbn.
        by rewrite Hdel.
      * eexists _, _, _, _, _. rewrite lookup_insert_ne by done. by split_and!.
Qed.

(** ** Creating a pipe *)

(** The states around the update of the per-port table: everything but the
    per-port table of [t], which lists [id] in addition. *)
Record listed_new (m m1 : flow_pipes_manager) (id port t : Z) (is_new : bool) : Prop := {
  ln_wf : mgr_wf_but (fun t' i => t' = t /\ i = id) m1;
  ln_pipes : pipe_tbl m1 = pipe_tbl m;
  ln_entries : entry_tbl m1 = entry_tbl m;
  ln_infos : infos m1 = infos m;
  ln_next : next_ptr m <= next_ptr m1;
  ln_table : exists tbl, ptables m1 !! t = Some tbl /\ ht_mem id tbl = true;
  ln_port : exists pp, ht_lookup port (port_tbl m1) = Some (pp, t);
  ln_other_ports : forall p, p <> port -> ht_lookup p (port_tbl m1) = ht_lookup p (port_tbl m);
  ln_old : if is_new then ht_lookup port (port_tbl m) = None /\ (ptables m !! t = None)
             /\ (forall i tbl, ptables m1 !! t = Some tbl -> ht_mem i tbl = true -> i = id)
           else port_tbl m1 = port_tbl m;
}.

Lemma port_pipes_table_spec c id port m :
  mgr_wf m -> ht_mem id (pipe_tbl m) = false ->
  exists m1 r, port_pipes_table c id port m = Ret (m1, r)
    /\ match r with Err _ => m1 = m | Ok (t, is_new) => listed_new m m1 id port t is_new end.
Proof using HL.
  intros Hwf Hid. unfold port_pipes_table.
  destruct (ht_lookup port (port_tbl m)) as [[pp t]|] eqn:Hp.
  - destruct (wf_port _ _ Hwf _ _ _ Hp) as [tbl Ht]. rewrite Ht. cbn [of_option].
    destruct (ht_add id 0 tbl) as [tbl'|] eqn:Ha; [|by eexists _, _].
    eexists _, _. split; [done|]. split; cbn; try done.
    + apply (set_ptable_wf (fun _ _ => False) _ m t tbl tbl'); [done|done| | |done].
      * intros i pos a info Hl Hi Heq. apply (ht_mem_add _ _ _ _ _ Ha). right.
        destruct (wf_pipe _ _ Hwf _ _ _ Hl) as (i2 & t2 & p2 & pp2 & Hi2 & Ht2 & Hm2 & _).
        simplify_eq. done.
      * intros i [->|Hm]%(ht_mem_add _ _ _ _ _ Ha); [by left|right]. by split.
    + exists tbl'. rewrite lookup_insert_eq. split; [done|]. apply (ht_mem_add _ _ _ _ _ Ha). by left.
    + by exists pp.
  - destruct (alloc_table c); cbn [negb]; [|by eexists _, _].
    destruct (ht_add id 0 ht_new) as [tbl'|] eqn:Ha; [|by eexists _, _].
    destruct (ht_add port (next_ptr m) (port_tbl m)) as [ports|] eqn:Hports; [|by eexists _, _].
    assert (ptables m !! next_ptr m = None) as Hfresh.
    { destruct (ptables m !! next_ptr m) eqn:Hx; [|done].
      pose proof (wf_table_addr _ _ Hwf (next_ptr m) ltac:(by eexists)). lia. }
    destruct (ht_lookup_add _ _ _ _ Hports) as (pp & Hpp & _).
    assert (forall i, ht_mem i tbl' = true -> i = id) as Honly.
    { intros i [->|Hm]%(ht_mem_add _ _ _ _ _ Ha); [done|]. by rewrite ht_mem_new in Hm. }
    assert (forall p pp' t, ht_lookup p (port_tbl m) = Some (pp', t) -> p <> port) as Hnp
      by (intros p pp' t' Hx ->; congruence).
    pose proof Hwf as [H1 H2 H3 H4 H5 H6 H7 H8].
    eexists _, _. split; [done|]. split; cbn; try done; try lia.
    + split; cbn; try done.
      * intros i pos a Hl. destruct (H1 i pos a Hl) as (info & tb & p & pp' & Hi & Ht & Hm & Hpp').
        exists info, tb, p, pp'. rewrite (ht_lookup_add_ne _ _ _ _ _ Hports) by (symmetry; by eapply Hnp).
        rewrite lookup_insert_ne; [by split_and!|]. intros Heq. rewrite <-Heq in Ht. congruence.
      * intros p pp' t'. rewrite lookup_insert_is_Some.
        destruct (decide (port = p)) as [<-|Hne].
        -- rewrite Hpp. intros [= _ <-]. by left.
        -- rewrite (ht_lookup_add_ne _ _ _ _ _ Hports) by done. intros Hx.
           destruct (decide (next_ptr m = t')); [by left|right]. split; [done|]. by eapply H4.
      * intros p1 p2 pp1 pp2 t'. destruct (decide (port = p1)) as [<-|Hne1], (decide (port = p2)) as [<-|Hne2];
          [done| | |].
        -- rewrite Hpp, (ht_lookup_add_ne _ p2 _ _ _ Hports) by done.
           intros [= _ <-] [x Hx]%H4. congruence.
        -- rewrite Hpp, (ht_lookup_add_ne _ p1 _ _ _ Hports) by done.
           intros [x Hx]%H4 [= _ <-]. congruence.
        -- rewrite !(ht_lookup_add_ne _ _ _ _ _ Hports) by done. by apply H5.
      * intros t' tb i. destruct (decide (t' = next_ptr m)) as [->|Hne].
        -- rewrite lookup_insert_eq. intros [= <-] Hm%Honly. by left.
        -- rewrite lookup_insert_ne by done. intros Htb Hm. right.
           by destruct (H6 t' tb i Htb Hm) as [[]|?].
      * intros a Ha'. apply H7 in Ha'. lia.
      * intros t' [<-|[_ Ht']]%lookup_insert_is_Some; [lia|]. apply H8 in Ht'. lia.
    + exists tbl'. rewrite lookup_insert_eq. split; [done|]. apply (ht_mem_add _ _ _ _ _ Ha). by left.
    + by exists pp.
    + intros p Hne. by rewrite (ht_lookup_add_ne _ _ _ _ _ Hports).
    + split_and!; [done|done|]. intros i tb. rewrite lookup_insert_eq. intros [= <-]. apply Honly.
Qed.

Lemma listed_new_has_pipe m m1 id port t is_new i x p :
  mgr_wf m -> listed_new m m1 id port t is_new -> has_pipe m1 i x p <-> has_pipe m i x p.
Proof using Type.
  intros Hwf [Hwf1 Hp1 He1 Hi1 _ _ [pp Hport] Hother Hold]. unfold has_pipe. rewrite Hp1, Hi1.
  split; intros (pos & a & info & pp' & H1 & H2 & H3 & H4); exists pos, a, info.
  - destruct (decide (p = port)) as [->|Hne].
    + destruct is_new; [|rewrite Hold in H4; by eexists]. destruct Hold as (_ & Hnone & _).
      rewrite Hport in H4. simplify_eq.
      destruct (wf_pipe _ _ Hwf _ _ _ H1) as (info2 & tb & _ & _ & ? & Htb & _). simplify_eq.
    + rewrite Hother in H4 by done. by eexists.
  - destruct (decide (p = port)) as [->|Hne].
    + destruct is_new; [destruct Hold; congruence|]. rewrite Hold. by eexists.
    + rewrite Hother by done. by eexists.
Qed.

Lemma listed_new_has_entry m m1 id port t is_new e i x :
  listed_new m m1 id port t is_new -> has_entry m1 e i x <-> has_entry m e i x.
Proof using Type. intros [_ Hp He Hi _ _ _ _ _]. unfold has_entry. by rewrite Hp, He, Hi. Qed.

(** The error paths of a creation restore the per-port tables. *)
Lemma undo_port_table_spec m m1 id port t is_new :
  mgr_wf m -> ht_mem id (pipe_tbl m) = false -> listed_new m m1 id port t is_new ->
  exists m2, undo_port_table id port t is_new m1 = Ret m2 /\ mgr_wf m2
    /\ (forall i x p, has_pipe m2 i x p <-> has_pipe m i x p)
    /\ (forall e i x, has_entry m2 e i x <-> has_entry m e i x).
Proof using HL.
  intros Hwf Hid Hln. pose proof Hln as [Hwf1 Hp1 He1 Hi1 Hnx (tbl & Ht & Htm) [pp Hport] Hother Hold].
  assert (forall i pos a, ht_lookup i (pipe_tbl m1) = Some (pos, a) -> i <> id) as Hni.
  { intros i pos a Hl ->. rewrite Hp1 in Hl. unfold ht_mem in Hid. by rewrite Hl in Hid. }
  unfold undo_port_table. rewrite Ht. cbn [of_option]. destruct is_new.
  - destruct Hold as (Hnone & Hfresh & Honly). eexists. split; [done|].
    assert (forall i pos a info, ht_lookup i (pipe_tbl m1) = Some (pos, a) ->
              infos m1 !! a = Some info -> pi_port_table info <> t) as Hnt.
    { intros i pos a info Hl Hi Heq.
      destruct (wf_pipe _ _ Hwf1 _ _ _ Hl) as (i2 & tb & _ & _ & Hi2 & Htb & Hm & _).
      simplify_eq. eapply Hni; [done|]. by eapply Honly. }
    split; [|split].
    + pose proof Hwf1 as [H1 H2 H3 H4 H5 H6 H7 H8]. split; cbn; try done.
      * intros i pos a Hl. destruct (H1 i pos a Hl) as (info & tb & p & pp' & Hi & Htb & Hm & Hp).
        exists info, tb, p, pp'. pose proof (Hnt _ _ _ _ Hl Hi).
        rewrite lookup_delete_ne, ht_lookup_del_ne; [by split_and!|congruence|done].
      * intros p pp' t' Hl. destruct (decide (port = p)) as [<-|Hne]; [by rewrite ht_lookup_del in Hl|].
        rewrite ht_lookup_del_ne in Hl by done. rewrite lookup_delete_ne; [by eapply H4|].
        intros <-. by apply Hne, (H5 _ _ pp pp' t).
      * intros p1 p2 pp1 pp2 t' Hl1 Hl2.
        destruct (decide (port = p1)) as [<-|Hne1]; [by rewrite ht_lookup_del in Hl1|].
        destruct (decide (port = p2)) as [<-|Hne2]; [by rewrite ht_lookup_del in Hl2|].
        rewrite ht_lookup_del_ne in Hl1, Hl2 by done. by eapply H5.
      * intros t' tb i [Hne Htb]%lookup_delete_Some Hm.
        destruct (H6 t' tb i Htb Hm) as [[-> _]|?]; [done|by right].
      * intros t' [_ Ht']%lookup_delete_is_Some. by apply H8.
    + intros i x p. rewrite <-(listed_new_has_pipe m m1 id port t true i x p Hwf Hln).
      unfold has_pipe. cbn. split; intros (pos & a & info & pp' & H1 & H2 & H3 & H4);
        exists pos, a, info, pp'; split_and!; try done.
      * destruct (decide (port = p)) as [<-|Hne]; [by rewrite ht_lookup_del in H4|].
        by rewrite ht_lookup_del_ne in H4 by done.
      * rewrite ht_lookup_del_ne; [done|]. intros <-. rewrite Hport in H4. simplify_eq.
        by eapply Hnt.
    + intros e i x. exact (listed_new_has_entry m m1 id port t true e i x Hln).
  - eexists. split; [done|]. split; [|split].
    + apply (set_ptable_wf (fun t' i => t' = t /\ i = id) (fun _ _ => False) m1 t tbl (ht_del id tbl));
        [done|done| | |].
      * intros i pos a info Hl Hi Heq. apply ht_mem_del. split; [by eapply Hni|].
        destruct (wf_pipe _ _ Hwf1 _ _ _ Hl) as (i2 & tb & _ & _ & Hi2 & Htb & Hm & _).
        by simplify_eq.
      * intros i [Hne Hm]%ht_mem_del. right. split; [done|]. by intros [_ ?].
      * intros t' i Hne [? _]. done.
    + intros i x p. exact (listed_new_has_pipe m m1 id port t false i x p Hwf Hln).
    + intros e i x. exact (listed_new_has_entry m m1 id port t false e i x Hln).
Qed.

(** The pipe is entered into the pipe table. *)
Lemma insert_pipe_spec m m1 id port t is_new pipe pipes :
  mgr_wf m -> ht_mem id (pipe_tbl m) = false -> listed_new m m1 id port t is_new ->
  ht_add id (next_ptr m1) (pipe_tbl m1) = Some pipes ->
  let m2 := Manager pipes (entry_tbl m1) (port_tbl m1)
              (<[next_ptr m1 := PipeInfo pipe ht_new t]> (infos m1)) (ptables m1)
              (next_ptr m1 + 1) in
  mgr_wf m2
  /\ (forall i x p, has_pipe m2 i x p <->
        i = id /\ x = pipe /\ p = port \/ i <> id /\ has_pipe m i x p)
  /\ (forall e i x, has_entry m2 e i x <-> has_entry m e i x).
Proof using HL.
  intros Hwf Hid Hln Hadd m2.
  pose proof Hln as [Hwf1 Hp1 He1 Hi1 Hnx (tbl & Ht & Htm) [pp Hport] Hother Hold].
  destruct (ht_lookup_add _ _ _ _ Hadd) as (pos & Hpos & _).
  assert (ht_lookup id (pipe_tbl m1) = None) as Hnone.
  { rewrite Hp1. unfold ht_mem in Hid. by destruct (ht_lookup id (pipe_tbl m)). }
  assert (infos m1 !! next_ptr m1 = None) as Hfresh.
  { destruct (infos m1 !! next_ptr m1) eqn:Hx; [|done].
    pose proof (wf_info_addr _ _ Hwf1 (next_ptr m1) ltac:(by eexists)). lia. }
  assert (forall i, i <> id -> ht_lookup i pipes = ht_lookup i (pipe_tbl m1)) as Hne
    by (intros i Hi; by rewrite (ht_lookup_add_ne _ _ _ _ _ Hadd)).
  assert (forall i p' a, ht_lookup i (pipe_tbl m1) = Some (p', a) ->
            i <> id /\ a <> next_ptr m1) as Hold'.
  { intros i p' a Hl. split; [congruence|]. intros ->.
    destruct (wf_pipe _ _ Hwf1 _ _ _ Hl) as (? & _ & _ & _ & ? & _). congruence. }
  pose proof Hwf1 as [H1 H2 H3 H4 H5 H6 H7 H8]. split; [|split].
  - split; cbn; try done.
    + intros i p' a Hl. destruct (decide (i = id)) as [->|Hi].
      * rewrite Hpos in Hl. simplify_eq. rewrite lookup_insert_eq. by eexists _, tbl, port, pp.
      * rewrite Hne in Hl by done. destruct (Hold' _ _ _ Hl) as [_ Ha].
        destruct (H1 i p' a Hl) as (info & tb & p & pp' & Hinf & Htb & Hm & Hp).
        rewrite lookup_insert_ne by done. by exists info, tb, p, pp'.
    + intros i1 i2 p1 p2 a Hl1 Hl2.
      destruct (decide (i1 = id)) as [->|Hi1'], (decide (i2 = id)) as [->|Hi2']; [done| | |].
      * rewrite Hpos in Hl1. rewrite Hne in Hl2 by done. apply Hold' in Hl2 as [_ ?]. congruence.
      * rewrite Hpos in Hl2. rewrite Hne in Hl1 by done. apply Hold' in Hl1 as [_ ?]. congruence.
      * rewrite Hne in Hl1, Hl2 by done. by eapply H2.
    + intros e ep p' Hl. destruct (H3 e ep p' Hl) as (i & a & info & Hp & Hinf & Hm).
      destruct (Hold' _ _ _ Hp) as [Hi Ha]. exists i, a, info.
      rewrite Hne, lookup_insert_ne by done. done.
    + intros t' tb i Htb Hm. right. destruct (H6 t' tb i Htb Hm) as [[-> ->]|(p' & a & info & Hl & Hinf & Hx)].
      * exists pos, (next_ptr m1). rewrite lookup_insert_eq. by eexists.
      * destruct (Hold' _ _ _ Hl) as [Hi Ha]. exists p', a, info.
        rewrite Hne, lookup_insert_ne by done. done.
    + intros a [<-|[_ Ha]]%lookup_insert_is_Some; [lia|]. apply H7 in Ha. lia.
    + intros t' Ht'. apply H8 in Ht'. lia.
  - intros i x p. rewrite <-(listed_new_has_pipe m m1 id port t is_new i x p Hwf Hln).
    unfold has_pipe. cbn. split.
    + intros (p' & a & info & pp' & Hl & Hinf & Hx & Hp). destruct (decide (i = id)) as [->|Hi].
      * left. rewrite Hpos in Hl. simplify_eq. rewrite lookup_insert_eq in Hinf. simplify_eq.
        split_and!; [done|done|]. by eapply H5.
      * right. split; [done|]. rewrite Hne in Hl by done. destruct (Hold' _ _ _ Hl) as [_ Ha].
        rewrite lookup_insert_ne in Hinf by done. by exists p', a, info, pp'.
    + intros [(-> & -> & ->)|(Hi & p' & a & info & pp' & Hl & Hinf & Hx & Hp)].
      * exists pos, (next_ptr m1). rewrite lookup_insert_eq. by eexists _, pp.
      * destruct (Hold' _ _ _ Hl) as [_ Ha]. exists p', a, info, pp'.
        rewrite Hne, lookup_insert_ne by done. done.
  - intros e i x. rewrite <-(listed_new_has_entry m m1 id port t is_new e i x Hln).
    unfold has_entry. cbn. split; intros (ep & p' & a & info & xp & Hl & Hp & Hinf & Hx).
    + destruct (H3 e ep p' Hl) as (i' & a' & info' & Hp' & Hinf' & _).
      destruct (Hold' _ _ _ Hp') as [Hi' Ha'].
      assert (i = i') as ->.
      { apply (ht_pos_inj i i' pipes p' a a'); [done|]. by rewrite Hne. }
      rewrite Hne in Hp by done. simplify_eq. rewrite lookup_insert_ne in Hinf by done.
      exists ep, p', a, info, xp. by split_and!.
    + destruct (Hold' _ _ _ Hp) as [Hi Ha]. exists ep, p', a, info, xp.
      rewrite Hne, lookup_insert_ne by done. by split_and!.
Qed.

(** Creating a pipe records it under its generated id, or fails and changes nothing
    that is visible. *)
Lemma pipe_create_spec c m pipe object port :
  mgr_wf m -> alloc_id c = true ->
  exists m' r, pipes_manager_pipe_create c m pipe object port = Ret (m', r) /\ mgr_wf m'
    /\ (forall e i x, has_entry m' e i x <-> has_entry m e i x)
    /\ match r with
       | Ok id => id = generateID object /\ (forall x p, ~ has_pipe m id x p)
           /\ (forall i x p, has_pipe m' i x p <->
                 i = id /\ x = pipe /\ p = port \/ i <> id /\ has_pipe m i x p)
       | Err _ => forall i x p, has_pipe m' i x p <-> has_pipe m i x p
       end.
Proof using HL.
  intros Hwf Hc. unfold pipes_manager_pipe_create. rewrite Hc. cbn [require].
  set (id := generateID object). destruct (ht_mem id (pipe_tbl m)) eqn:Hid; [by eexists _, _|].
  destruct (port_pipes_table_spec c id port m Hwf Hid) as (m1 & r & -> & Hr).
  destruct r as [[t is_new]|err]; [|subst m1; by eexists _, _].
  destruct (alloc_info c); cbn [negb].
  2:{ destruct (undo_port_table_spec _ _ _ _ _ _ Hwf Hid Hr) as (m2 & -> & Hwf2 & Hp2 & He2).
      by eexists _, _. }
  destruct (ht_add id (next_ptr m1) (pipe_tbl m1)) as [pipes|] eqn:Hadd.
  2:{ destruct (undo_port_table_spec _ _ _ _ _ _ Hwf Hid Hr) as (m2 & -> & Hwf2 & Hp2 & He2).
      by eexists _, _. }
  destruct (insert_pipe_spec _ _ _ _ _ _ pipe _ Hwf Hid Hr Hadd) as (Hwf2 & Hp2 & He2).
  eexists _, _. split; [done|]. split_and!; try done.
  intros x p (pos & a & info & pp & Hl & _). unfold ht_mem in Hid. by rewrite Hl in Hid.
Qed.

(** ** Removing pipes *)

Lemma drop_pipe_has_pipe d m id pos a info i x p :
  mgr_wf_but d m -> ht_lookup id (pipe_tbl m) = Some (pos, a) ->
  has_pipe (drop_pipe m id a info) i x p <-> i <> id /\ has_pipe m i x p.
Proof using HL.
  intros Hwf Hl. unfold has_pipe. cbn. split.
  - intros (pos' & a' & info' & pp & H1 & H2 & H3 & H4).
    destruct (decide (id = i)) as [->|Hne]; [by rewrite ht_lookup_del in H1|].
    rewrite ht_lookup_del_ne in H1 by done. apply lookup_delete_Some in H2 as [_ H2].
    split; [done|]. by exists pos', a', info', pp.
  - intros (Hne & pos' & a' & info' & pp & H1 & H2 & H3 & H4). exists pos', a', info', pp.
    rewrite ht_lookup_del_ne, lookup_delete_ne; [done| |done].
    intros ->. by apply Hne, (wf_pipe_inj _ _ Hwf _ _ pos' pos a').
Qed.

Lemma drop_pipe_has_entry d m id pos a info e i x :
  mgr_wf_but d m -> ht_lookup id (pipe_tbl m) = Some (pos, a) -> infos m !! a = Some info ->
  has_entry (drop_pipe m id a info) e i x <->
    i <> id /\ ht_mem e (pi_entries info) = false /\ has_entry m e i x.
Proof using HL.
  intros Hwf Hl Hi.
  assert (forall e, e ∈ map fst (ht_iter (pi_entries info)) <-> ht_mem e (pi_entries info) = true)
    as Hin by (intros e'; by rewrite ht_mem_spec, ht_iter_keys).
  unfold has_entry. cbn. rewrite ht_lookup_del_all. split.
  - intros (ep & pos' & a' & info' & xp & H1 & H2 & H3 & H4). case_decide as Hd; [done|].
    destruct (decide (id = i)) as [->|Hne]; [by rewrite ht_lookup_del in H2|].
    rewrite ht_lookup_del_ne in H2 by done. apply lookup_delete_Some in H3 as [_ H3].
    split_and!; [done| |by exists ep, pos', a', info', xp].
    apply not_true_is_false. by rewrite <-Hin.
  - intros (Hne & Hm & ep & pos' & a' & info' & xp & H1 & H2 & H3 & H4).
    exists ep, pos', a', info', xp. rewrite decide_False by (rewrite Hin, Hm; done).
    rewrite ht_lookup_del_ne, lookup_delete_ne; [done| |done].
    intros ->. by apply Hne, (wf_pipe_inj _ _ Hwf _ _ pos' pos a').
Qed.

(** Every entry a pipe lists is the one the entry table knows under this id.  It
    holds as long as no id is used in two pipes. *)
Definition no_stale (m : flow_pipes_manager) : Prop :=
  forall id pos a info e, ht_lookup id (pipe_tbl m) = Some (pos, a) -> infos m !! a = Some info ->
    ht_mem e (pi_entries info) = true -> exists ep, ht_lookup e (entry_tbl m) = Some (ep, pos).

Lemma drop_pipe_no_stale d m id pos a info :
  mgr_wf_but d m -> no_stale m -> ht_lookup id (pipe_tbl m) = Some (pos, a) -> infos m !! a = Some info ->
  no_stale (drop_pipe m id a info).
Proof using HL.
  intros Hwf Hns Hl Hi id' pos' a' info' e H1 H2 H3. cbn in *.
  destruct (decide (id = id')) as [->|Hne]; [by rewrite ht_lookup_del in H1|].
  rewrite ht_lookup_del_ne in H1 by done. apply lookup_delete_Some in H2 as [_ H2].
  destruct (Hns _ _ _ _ _ H1 H2 H3) as [ep Hep]. exists ep.
  rewrite ht_lookup_del_all, decide_False; [done|].
  intros Hin%ht_iter_keys%ht_mem_spec. destruct (Hns _ _ _ _ _ Hl Hi Hin) as [ep' Hep'].
  rewrite Hep in Hep'. simplify_eq. by apply Hne, (ht_pos_inj id id' (pipe_tbl m) pos a a').
Qed.

Lemma drop_pipe_entries d m id pos a info e i x :
  mgr_wf_but d m -> no_stale m -> ht_lookup id (pipe_tbl m) = Some (pos, a) -> infos m !! a = Some info ->
  has_entry (drop_pipe m id a info) e i x <-> i <> id /\ has_entry m e i x.
Proof using HL.
  intros Hwf Hns Hl Hi. rewrite (drop_pipe_has_entry d m id pos a info e i x Hwf Hl Hi).
  split; [tauto|]. intros [Hne He]. split_and!; [done| |done].
  apply not_true_is_false. intros Hm. destruct (Hns _ _ _ _ _ Hl Hi Hm) as [ep Hep].
  destruct He as (ep' & pos' & a' & info' & xp & H1 & H2 & _).
  assert (pos' = pos) as -> by congruence. by apply Hne, (ht_pos_inj i id (pipe_tbl m) pos a' a).
Qed.

(** Destroying a pipe forgets it and its entries. *)
Lemma pipe_destroy_spec m id :
  mgr_wf m -> no_stale m ->
  exists m' r, pipes_manager_pipe_destroy m id = Ret (m', r) /\ mgr_wf m' /\ no_stale m'
    /\ (r = DOCA_SUCCESS <-> exists x p, has_pipe m id x p)
    /\ (forall i x p, has_pipe m' i x p <-> i <> id /\ has_pipe m i x p)
    /\ (forall e i x, has_entry m' e i x <-> i <> id /\ has_entry m e i x).
Proof using HL.
  intros Hwf Hns. destruct (pipes_manager_pipe_destroy_wf m id Hwf) as (m' & r & E & Hwf').
  exists m', r. split; [done|]. split; [done|]. unfold pipes_manager_pipe_destroy in E.
  destruct (ht_lookup id (pipe_tbl m)) as [[pos a]|] eqn:Hl.
  - rewrite (ht_key_lookup _ _ _ _ Hl) in E.
    destruct (wf_pipe _ _ Hwf _ _ _ Hl) as (info & tbl & p & pp & Hi & Ht & Hm & Hp).
    rewrite Hi in E. cbn [of_option] in E. rewrite Ht in E. cbn [of_option] in E.
    rewrite Hm in E. cbn [negb] in E. injection E as <- <-. split; [|split; [|split]].
    + exact (drop_pipe_no_stale _ m id pos a info Hwf Hns Hl Hi).
    + split; [|done]. intros _. exists (pi_pipe info), p, pos, a, info, pp. by split_and!.
    + intros i x p'. exact (drop_pipe_has_pipe _ m id pos a info i x p' Hwf Hl).
    + intros e i x. exact (drop_pipe_entries _ m id pos a info e i x Hwf Hns Hl Hi).
  - injection E as <- <-. split; [done|]. split; [|split].
    + split; [done|]. intros (x & p & pos & a & info & pp & H1 & _). congruence.
    + intros i x p. split; [|by intros [_ ?]]. intros Hx. split; [|done]. intros ->.
      destruct Hx as (? & ? & ? & ? & ? & _). congruence.
    + intros e i x. split; [|by intros [_ ?]]. intros Hx. split; [|done]. intros ->.
      destruct Hx as (? & ? & ? & ? & ? & ? & ? & _). congruence.
Qed.
(** The loop of the flush: the pipes of the list and their entries are gone, the
    others and the ports are as before. *)
Lemma flush_pipes_spec (d : Z -> Z -> Prop) t ids m :
  mgr_wf_but d m -> (forall id, d t id) ->
  (forall id pos a info, id ∈ ids -> ht_lookup id (pipe_tbl m) = Some (pos, a) ->
     infos m !! a = Some info -> pi_port_table info = t) ->
  exists m', flush_pipes ids m = Ret m' /\ mgr_wf_but d m'
    /\ (forall i x p, has_pipe m' i x p <-> (i ∉ ids) /\ has_pipe m i x p)
    /\ (no_stale m -> no_stale m'
        /\ (forall e i x, has_entry m' e i x <-> (i ∉ ids) /\ has_entry m e i x))
    /\ port_tbl m' = port_tbl m /\ ptables m' = ptables m.
Proof using HL.
  revert m. induction ids as [|id ids IH]; intros m Hwf Hdt Hids; cbn [flush_pipes].
  { exists m. split; [done|]. split; [done|].
    assert (forall i : Z, i ∉ @nil Z) by (intros; apply not_elem_of_nil).
    split; [naive_solver|]. split; [|done]. intros Hns. split; [done|]. naive_solver. }
  destruct (ht_lookup id (pipe_tbl m)) as [[pos a]|] eqn:Hl.
  - destruct (wf_pipe _ _ Hwf _ _ _ Hl) as (info & tbl & p & pp & Hi & _).
    rewrite Hi. cbn [of_option].
    assert (pi_port_table info = t) as Heq.
    { eapply Hids; [apply elem_of_cons; by left|done|done]. }
    pose proof (drop_pipe_wf _ _ _ _ _ _ Hwf Hl Hi) as Hd.
    apply (mgr_wf_weaken _ d) in Hd; [|intros t' i [?|[-> ->]]; [done|rewrite Heq; apply Hdt]].
    destruct (IH (drop_pipe m id a info)) as (m' & -> & Hwf' & Hp' & He' & Hrest); [done|done| |].
    { cbn. intros id' pos' a' info' Hin Hl' Hinfo'. destruct (decide (id = id')) as [->|Hne];
        [by rewrite ht_lookup_del in Hl'|].
      rewrite ht_lookup_del_ne in Hl' by done. apply lookup_delete_Some in Hinfo' as [_ Hinfo'].
      eapply Hids; [apply elem_of_cons; by right|done|done]. }
    exists m'. split; [done|]. split; [done|]. split; [|split; [|done]].
    + intros i x p'. rewrite Hp', (drop_pipe_has_pipe _ _ _ _ _ _ _ _ _ Hwf Hl), not_elem_of_cons.
      tauto.
    + intros Hns. destruct He' as [Hns' He']; [by eapply drop_pipe_no_stale|]. split; [done|].
      intros e i x. rewrite He', (drop_pipe_entries _ _ _ _ _ _ _ _ _ Hwf Hns Hl Hi), not_elem_of_cons.
      tauto.
  - destruct (IH m) as (m' & -> & Hwf' & Hp' & He' & Hrest); [done|done| |].
    { intros id' pos' a' info' Hin. eapply Hids. apply elem_of_cons. by right. }
    exists m'. split; [done|]. split; [done|]. split; [|split; [|done]].
    + intros i x p. rewrite Hp', not_elem_of_cons. split; [|tauto]. intros [Hn Hx].
      split_and!; [|done|done]. intros ->. destruct Hx as (? & ? & ? & ? & ? & _). congruence.
    + intros Hns. destruct He' as [Hns' He']; [done|]. split; [done|].
      intros e i x. rewrite He', not_elem_of_cons. split; [|tauto]. intros [Hn Hx].
      split_and!; [|done|done]. intros ->. destruct Hx as (? & ? & ? & ? & ? & ? & ? & _).
      congruence.
Qed.

(** The table of the port and its key go last. *)
Lemma drop_port_wf m port pp t tbl :
  mgr_wf_but (fun t' _ => t' = t) m -> ht_lookup port (port_tbl m) = Some (pp, t) ->
  ptables m !! t = Some tbl -> (forall id, ht_mem id tbl = true -> ht_lookup id (pipe_tbl m) = None) ->
  let m' := Manager (pipe_tbl m) (entry_tbl m) (ht_del port (port_tbl m)) (infos m)
              (delete t (ptables m)) (next_ptr m) in
  mgr_wf m' /\ (forall i x p, has_pipe m' i x p <-> has_pipe m i x p)
  /\ (forall i x p, has_pipe m i x p -> p <> port).
Proof using HL.
  intros Hwf Hport Ht Hgone m'. pose proof Hwf as [H1 H2 H3 H4 H5 H6 H7 H8].
  assert (forall id pos a info, ht_lookup id (pipe_tbl m) = Some (pos, a) ->
            infos m !! a = Some info -> pi_port_table info <> t) as Hnt.
  { intros id pos a info Hl Hi Heq.
    destruct (H1 id pos a Hl) as (info' & tb & p & pp' & Hi' & Htb & Hm & _).
    simplify_eq. rewrite Hgone in Hl by done. done. }
  split; [|split].
  - split; cbn; try done.
    + intros id pos a Hl. destruct (H1 id pos a Hl) as (info & tb & p & pp' & Hi & Htb & Hm & Hp).
      exists info, tb, p, pp'. pose proof (Hnt _ _ _ _ Hl Hi).
      rewrite lookup_delete_ne, ht_lookup_del_ne; [done|congruence|done].
    + intros p pp' t' Hl. destruct (decide (port = p)) as [<-|Hne]; [by rewrite ht_lookup_del in Hl|].
      rewrite ht_lookup_del_ne in Hl by done. rewrite lookup_delete_ne; [by eapply H4|].
      intros <-. by apply Hne, (H5 _ _ pp pp' t).
    + intros p1 p2 pp1 pp2 t' Hl1 Hl2.
      destruct (decide (port = p1)) as [<-|Hne1]; [by rewrite ht_lookup_del in Hl1|].
      destruct (decide (port = p2)) as [<-|Hne2]; [by rewrite ht_lookup_del in Hl2|].
      rewrite ht_lookup_del_ne in Hl1, Hl2 by done. by eapply H5.
    + intros t' tb i [Hne Htb]%lookup_delete_Some Hm.
      destruct (H6 t' tb i Htb Hm) as [->|?]; [done|by right].
    + intros t' [_ Ht']%lookup_delete_is_Some. by apply H8.
  - intros i x p. unfold has_pipe. cbn.
    split; intros (pos & a & info & pp' & Hl & Hi & Hx & Hp); exists pos, a, info, pp';
      split_and!; try done.
    + destruct (decide (port = p)) as [<-|Hne]; [by rewrite ht_lookup_del in Hp|].
      by rewrite ht_lookup_del_ne in Hp.
    + rewrite ht_lookup_del_ne; [done|]. intros <-. rewrite Hport in Hp. simplify_eq. by eapply Hnt.
  - intros i x p (pos & a & info & pp' & Hl & Hi & Hx & Hp) ->. rewrite Hport in Hp. simplify_eq.
    by eapply Hnt.
Qed.

(** Flushing a port forgets its pipes and their entries. *)
Lemma pipes_flush_spec m port :
  mgr_wf m ->
  exists m' r, pipes_manager_pipes_flush m port = Ret (m', r) /\ mgr_wf m'
    /\ (r = DOCA_SUCCESS <-> ht_mem port (port_tbl m) = true)
    /\ (forall i x p, has_pipe m' i x p <-> p <> port /\ has_pipe m i x p)
    /\ (no_stale m -> no_stale m' /\ (forall e i x, has_entry m' e i x <->
           has_entry m e i x /\ forall y, ~ has_pipe m i y port)).
Proof using HL.
  intros Hwf. unfold pipes_manager_pipes_flush, ht_mem.
  destruct (ht_lookup port (port_tbl m)) as [[pp t]|] eqn:Hport.
  2:{ eexists _, _. split; [done|]. split; [done|]. split; [done|].
      assert (forall i x p, has_pipe m i x p -> p <> port) as Hnp.
      { intros i x p (? & ? & ? & ? & _ & _ & _ & Hp) ->. congruence. }
      split; [naive_solver|]. intros Hns. split; [done|]. naive_solver. }
  rewrite (ht_key_lookup _ _ _ _ Hport). destruct (wf_port _ _ Hwf _ _ _ Hport) as [tbl Ht].
  rewrite Ht. cbn [of_option].
  destruct (flush_pipes_spec (fun t' _ => t' = t) t (map fst (ht_iter tbl)) m)
    as (m' & -> & Hwf' & Hp' & He' & Hports & Htables).
  { eapply mgr_wf_weaken; [|done]. by intros. }
  { done. }
  { intros id pos a info Hin%ht_iter_keys%ht_mem_spec Hl Hi.
    destruct (wf_listed _ _ Hwf t tbl id Ht Hin) as [[]|(pos' & a' & info' & ? & ? & ?)].
    by simplify_eq. }
  assert (forall i x p, has_pipe m i x p -> i ∈ map fst (ht_iter tbl) <-> p = port) as Hin.
  { intros i x p (pos & a & info & pp' & Hl & Hi & Hx & Hp).
    rewrite ht_iter_keys, <-ht_mem_spec. split.
    - intros Hm. destruct (wf_listed _ _ Hwf t tbl i Ht Hm) as [[]|(pos' & a' & info' & ? & ? & ?)].
      simplify_eq. by eapply (wf_port_inj _ _ Hwf).
    - intros ->. destruct (wf_pipe _ _ Hwf _ _ _ Hl) as (i2 & tb & _ & _ & Hi2 & Htb & Hm & _).
      simplify_eq. done. }
  destruct (drop_port_wf m' port pp t tbl) as (Hwf2 & Hp2 & Hnp); [done|by rewrite Hports|by rewrite Htables| |].
  { intros id Hm. destruct (ht_lookup id (pipe_tbl m')) as [[pos a]|] eqn:Hl; [|done].
    destruct (wf_pipe _ _ Hwf' _ _ _ Hl) as (info & tb & p & pp' & Hi & Htb & Hm' & Hpp).
    assert (has_pipe m' id (pi_pipe info) p) as [Hni _]%Hp' by (exists pos, a, info, pp'; by split_and!).
    destruct Hni. apply ht_iter_keys. by apply ht_mem_spec. }
  eexists _, _. split; [done|]. split; [done|]. split; [done|]. split.
  - intros i x p. rewrite Hp2, Hp'. split.
    + intros [Hni Hx]. split; [|done]. rewrite <-(Hin _ _ _ Hx). done.
    + intros [Hne Hx]. split; [|done]. by rewrite (Hin _ _ _ Hx).
  - intros Hns. destruct He' as [Hns' He']; [done|]. split; [exact Hns'|].
    intros e i x. etransitivity; [exact (iff_refl (has_entry m' e i x))|]. rewrite He'. split.
    + intros [Hni Hx]. split; [done|]. intros y Hy. by apply Hni, (Hin _ _ _ Hy).
    + intros [Hx Hny]. split; [|done]. intros Hii.
      destruct Hx as (ep & pos & a & info & xp & _ & Hl & Hi & _).
      destruct (wf_pipe _ _ Hwf _ _ _ Hl) as (i2 & tb & p & pp' & Hi2 & Htb & Hm & Hpp).
      assert (has_pipe m i (pi_pipe i2) p) as Hhp by (exists pos, a, i2, pp'; by split_and!).
      pose proof (proj1 (Hin _ _ _ Hhp) Hii) as ->. by eapply Hny.
Qed.

(** ** Removal only forgets entries, whether or not some are stale *)

Lemma drop_pipe_sub m id a info e i x :
  has_entry (drop_pipe m id a info) e i x -> i <> id /\ has_entry m e i x.
Proof using HL.
  intros (ep & pos & a' & info' & xp & H1 & H2 & H3 & H4). cbn in *.
  rewrite ht_lookup_del_all in H1. case_decide; [done|].
  destruct (decide (id = i)) as [->|Hne]; [by rewrite ht_lookup_del in H2|].
  rewrite ht_lookup_del_ne in H2 by done. apply lookup_delete_Some in H3 as [_ H3].
  split; [done|]. by exists ep, pos, a', info', xp.
Qed.

Lemma flush_pipes_sub ids m m' e i x :
  flush_pipes ids m = Ret m' -> has_entry m' e i x -> has_entry m e i x.
Proof using HL.
  revert m. induction ids as [|id ids IH]; intros m E Hx; cbn [flush_pipes] in E; [by inv_ret|].
  destruct (ht_lookup id (pipe_tbl m)) as [[pos a]|]; [|eauto].
  obind E. by apply (IH _ E), drop_pipe_sub in Hx as [_ ?].
Qed.

Lemma pipes_flush_sub m port m' r e i x :
  pipes_manager_pipes_flush m port = Ret (m', r) -> has_entry m' e i x -> has_entry m e i x.
Proof using HL.
  unfold pipes_manager_pipes_flush. intros E Hx.
  destruct (ht_lookup port (port_tbl m)) as [[pp t]|]; [|by inv_ret].
  destruct (ht_key_at _ _); [|by inv_ret]. obind E. obind E. inv_ret.
  by eapply flush_pipes_sub.
Qed.

Lemma pipe_destroy_sub m id m' r :
  mgr_wf m -> pipes_manager_pipe_destroy m id = Ret (m', r) ->
  (r = DOCA_SUCCESS \/ m' = m)
  /\ (r = DOCA_SUCCESS -> forall i x p, has_pipe m' i x p <-> i <> id /\ has_pipe m i x p)
  /\ (r = DOCA_SUCCESS -> forall e i x, has_entry m' e i x -> i <> id /\ has_entry m e i x).
Proof using HL.
  intros Hwf E. unfold pipes_manager_pipe_destroy in E.
  destruct (ht_lookup id (pipe_tbl m)) as [[pos a]|] eqn:Hl; [|by inv_ret; naive_solver].
  rewrite (ht_key_lookup _ _ _ _ Hl) in E.
  destruct (wf_pipe _ _ Hwf _ _ _ Hl) as (info & tbl & p & pp & Hi & Ht & Hm & Hp).
  rewrite Hi in E. cbn [of_option] in E. rewrite Ht in E. cbn [of_option] in E.
  rewrite Hm in E. cbn [negb] in E. injection E as <- <-. split; [by left|]. split; intros _.
  - intros i x p'. exact (drop_pipe_has_pipe _ m id pos a info i x p' Hwf Hl).
  - intros e i x Hx. by apply drop_pipe_sub in Hx.
Qed.

(** ** No stale entries *)

Lemma no_stale_ext m m' :
  no_stale m -> pipe_tbl m' = pipe_tbl m -> entry_tbl m' = entry_tbl m -> infos m' = infos m ->
  no_stale m'.
Proof using Type. intros Hns E1 E2 E3. unfold no_stale. rewrite E1, E2, E3. exact Hns. Qed.

Lemma undo_port_table_same id port t is_new m m' :
  undo_port_table id port t is_new m = Ret m' ->
  pipe_tbl m' = pipe_tbl m /\ entry_tbl m' = entry_tbl m /\ infos m' = infos m.
Proof using Type.
  unfold undo_port_table. intros E. obind E. destruct is_new; by inv_ret.
Qed.

Lemma pipe_create_no_stale c m pipe object port m' r :
  mgr_wf m -> no_stale m -> pipes_manager_pipe_create c m pipe object port = Ret (m', r) ->
  no_stale m'.
Proof using HL.
  intros Hwf Hns. unfold pipes_manager_pipe_create. intros E.
  destruct (require (alloc_id c) NullDeref) as [u|]; [|discriminate E].
  set (id := generateID object) in *. destruct (ht_mem id (pipe_tbl m)) eqn:Hid; [by inv_ret|].
  destruct (port_pipes_table_spec c id port m Hwf Hid) as (m1 & r1 & E1 & Hr). rewrite E1 in E.
  destruct r1 as [[t is_new]|err]; [|subst m1; by inv_ret].
  pose proof Hr as [_ Hp1 He1 Hi1 _ _ _ _ _].
  assert (no_stale m1) as Hns1 by (by eapply no_stale_ext).
  destruct (alloc_info c); cbn [negb] in E.
  2:{ obind E. inv_ret. apply undo_port_table_same in E0 as (? & ? & ?). by eapply no_stale_ext. }
  destruct (ht_add id (next_ptr m1) (pipe_tbl m1)) as [pipes|] eqn:Hadd.
  2:{ obind E. inv_ret. apply undo_port_table_same in E0 as (? & ? & ?). by eapply no_stale_ext. }
  inv_ret. destruct (ht_lookup_add _ _ _ _ Hadd) as (pos & Hpos & _).
  intros i p' a info e Hl Hinf Hm. cbn in *.
  destruct (decide (id = i)) as [<-|Hne].
  - rewrite Hpos in Hl. simplify_eq. rewrite lookup_insert_eq in Hinf. simplify_eq. cbn in Hm.
    by rewrite ht_mem_new in Hm.
  - rewrite (ht_lookup_add_ne _ _ _ _ _ Hadd) in Hl by done.
    destruct (wf_pipe _ _ (ln_wf _ _ _ _ _ _ Hr) _ _ _ Hl) as (info' & _ & _ & _ & Hi' & _).
    pose proof (wf_info_addr _ _ (ln_wf _ _ _ _ _ _ Hr) a ltac:(by eexists)).
    rewrite lookup_insert_ne in Hinf by lia. exact (Hns1 _ _ _ _ _ Hl Hinf Hm).
Qed.

Lemma add_entry_no_stale c m entry object id m' r :
  mgr_wf m -> no_stale m ->
  (forall i x, has_entry m (generateID object) i x -> i = id) ->
  pipes_manager_pipe_add_entry c m entry object id = Ret (m', r) -> no_stale m'.
Proof using HL.
  intros Hwf Hns Hown. unfold pipes_manager_pipe_add_entry. cbn [pipe_tbl infos].
  intros E.
  destruct (require (alloc_id c) NullDeref) as [u|]; [|discriminate E].
  remember (generateID object) as e eqn:Hid in *. clear Hid.
  assert (forall n, no_stale (Manager (pipe_tbl m) (entry_tbl m) (port_tbl m) (infos m) (ptables m) n))
    as Hns1 by (intros n; by eapply no_stale_ext).
  destruct (ht_lookup id (pipe_tbl m)) as [[pos a]|] eqn:Hl; [|by inv_ret].
  rewrite (ht_key_lookup _ _ _ _ Hl) in E.
  destruct (wf_pipe _ _ Hwf _ _ _ Hl) as (info & tbl & p & pp & Hi & _). rewrite Hi in E.
  cbn [of_option] in E. destruct (ht_mem (next_ptr m) (pi_entries info)); [by inv_ret|].
  destruct (ht_add e entry (pi_entries info)) as [entries|] eqn:Ha; [|by inv_ret].
  assert (forall i pos' a' info', ht_lookup i (pipe_tbl m) = Some (pos', a') ->
            infos m !! a' = Some info' -> ht_mem e (pi_entries info') = true ->
            i = id /\ is_Some (ht_lookup e (entry_tbl m))) as Honly.
  { intros i pos' a' info' H1 H2 H3. destruct (Hns _ _ _ _ _ H1 H2 H3) as [ep Hep].
    split; [|by eexists]. apply ht_mem_spec in H3 as [[xp x] Hx].
    apply (Hown i x). exists ep, pos', a', info', xp. by split_and!. }
  cbn [entry_tbl] in E. destruct (ht_add e pos (entry_tbl m)) as [etbl|] eqn:He.
  - inv_ret. destruct (ht_lookup_add _ _ _ _ He) as (ep & Hep & _).
    intros i pos' a' info' e' H1 H2 H3. cbn in *. destruct (decide (e = e')) as [<-|Hne].
    + exists ep. rewrite Hep. do 2 f_equal. destruct (decide (a' = a)) as [->|Hna].
      * assert (i = id) as -> by (by eapply wf_pipe_inj). by simplify_eq.
      * rewrite lookup_insert_ne in H2 by done.
        destruct (Honly _ _ _ _ H1 H2 H3) as [-> _]. by simplify_eq.
    + rewrite (ht_lookup_add_ne _ _ _ _ _ He) by done. destruct (decide (a' = a)) as [->|Hna].
      * rewrite lookup_insert_eq in H2. simplify_eq. cbn in H3.
        apply (ht_mem_add _ _ _ _ _ Ha) in H3 as [->|H3]; [done|]. by eapply Hns.
      * rewrite lookup_insert_ne in H2 by done. by eapply Hns.
  - inv_ret. intros i pos' a' info' e' H1 H2 H3. cbn in *.
    destruct (decide (a' = a)) as [->|Hna].
    + rewrite lookup_insert_eq in H2. simplify_eq. cbn in H3.
      apply ht_mem_del in H3 as [Hne H3].
      apply (ht_mem_add _ _ _ _ _ Ha) in H3 as [->|H3]; [done|]. by eapply Hns.
    + rewrite lookup_insert_ne in H2 by done. by eapply Hns.
Qed.

Lemma rm_entry_no_stale m e m' r :
  mgr_wf m -> no_stale m -> pipes_manager_pipe_rm_entry m e = Ret (m', r) -> no_stale m'.
Proof using HL.
  intros Hwf Hns. unfold pipes_manager_pipe_rm_entry.
  destruct (ht_lookup e (entry_tbl m)) as [[ep pos]|] eqn:Hl; [|intros E; by inv_ret].
  rewrite (ht_key_lookup _ _ _ _ Hl).
  destruct (wf_entry _ _ Hwf _ _ _ Hl) as (id & a & info & Hp & Hi & Hm).
  unfold deref_pipe_id. rewrite (ht_key_lookup _ _ _ _ Hp). cbn [of_option].
  rewrite Hp, Hi. cbn [of_option]. rewrite Hm. cbn [negb]. intros E. inv_ret.
  intros i pos' a' info' e' H1 H2 H3. cbn in *. destruct (decide (a' = a)) as [->|Hna].
  - rewrite lookup_insert_eq in H2. simplify_eq. cbn in H3. apply ht_mem_del in H3 as [Hne H3].
    rewrite ht_lookup_del_ne by done. by eapply Hns.
  - rewrite lookup_insert_ne in H2 by done. destruct (Hns _ _ _ _ _ H1 H2 H3) as [ep' Hep'].
    destruct (decide (e = e')) as [<-|Hne].
    + rewrite Hl in Hep'. simplify_eq. assert (i = id) as -> by (by eapply ht_pos_inj).
      by simplify_eq.
    + exists ep'. by rewrite ht_lookup_del_ne.
Qed.
End invariant.

(** ** Operations as a system *)

Inductive mgr_op : Type :=
| OpCreate (c : alloc) (pipe : Z) (object : list Z) (port_id : Z)
| OpAddEntry (c : alloc) (entry : Z) (object : list Z) (pipe_id : Z)
| OpRmEntry (entry_id : Z)
| OpDestroy (pipe_id : Z)
| OpFlush (port_id : Z).

(** What an operation returns: an id through its pointer argument, or a code only. *)
Inductive mgr_result : Type :=
| RId (r : res Z)
| RCode (e : doca_error_t).

(** The allocations of identifiers, which the code does not check, succeed. *)
Definition op_alloc (o : mgr_op) : Prop :=
  match o with OpCreate c _ _ _ | OpAddEntry c _ _ _ => alloc_id c = true | _ => True end.

Definition run_op `{RteHash} (m : flow_pipes_manager) (o : mgr_op)
    : outcome (flow_pipes_manager * mgr_result) :=
  match o with
  | OpCreate c pipe object port =>
      let* (m, r) := pipes_manager_pipe_create c m pipe object port in Ret (m, RId r)
  | OpAddEntry c entry object id =>
      let* (m, r) := pipes_manager_pipe_add_entry c m entry object id in Ret (m, RId r)
  | OpRmEntry e => let* (m, r) := pipes_manager_pipe_rm_entry m e in Ret (m, RCode r)
  | OpDestroy id => let* (m, r) := pipes_manager_pipe_destroy m id in Ret (m, RCode r)
  | OpFlush port => let* (m, r) := pipes_manager_pipes_flush m port in Ret (m, RCode r)
  end.

Fixpoint run_ops `{RteHash} (m : flow_pipes_manager) (os : list mgr_op) : outcome flow_pipes_manager :=
  match os with
  | [] => Ret m
  | o :: os' => let* (m, _) := run_op m o in run_ops m os'
  end.

(** The specification: two finite maps, pipe id to pipe and port, entry id to pipe
    id and entry, and the set of the ports that have a table. *)
Record spec_state : Type := SpecState {
  s_pipes : gmap Z (Z * Z);
  s_entries : gmap Z (Z * Z);
  s_ports : gset Z;
}.

(** A hash table the manager uses, one it would create included, has no room for a
    key. *)
Definition refuses `{RteHash} (m : flow_pipes_manager) (k : Z) : Prop :=
  exists t v, ht_add k v t = None
    /\ (t = ht_new \/ t = pipe_tbl m \/ t = entry_tbl m \/ t = port_tbl m
        \/ (exists a, ptables m !! a = Some t)
        \/ (exists a info, infos m !! a = Some info /\ t = pi_entries info)).

(** The reasons outside the specification for which a creation or an insertion can
    fail: no room in a table, or the address looked up in place of the entry id is
    the id of an entry of the pipe. *)
Definition op_refused `{RteHash} (m : flow_pipes_manager) (o : mgr_op) : Prop :=
  match o with
  | OpCreate _ _ object port => refuses m (generateID object) \/ refuses m port
  | OpAddEntry _ _ object id =>
      refuses m (generateID object) \/ exists x, has_entry m (next_ptr m) id x
  | _ => False
  end.

(** Steps of the specification with the result of the operation; [refused] is the
    only other reason for a failure. *)
Inductive spec_step (refused : Prop) : spec_state -> mgr_op -> mgr_result -> spec_state -> Prop :=
| spec_create s c pipe object port :
    s_pipes s !! generateID object = None -> alloc_info c = true ->
    spec_step refused s (OpCreate c pipe object port) (RId (Ok (generateID object)))
      (SpecState (<[generateID object := (pipe, port)]> (s_pipes s)) (s_entries s)
         ({[port]} ∪ s_ports s))
| spec_create_known s c pipe object port :
    is_Some (s_pipes s !! generateID object) ->
    spec_step refused s (OpCreate c pipe object port) (RId (Err DOCA_ERROR_INVALID_VALUE)) s
| spec_create_memory s c pipe object port :
    (alloc_table c = false /\ port ∉ s_ports s) \/ alloc_info c = false ->
    spec_step refused s (OpCreate c pipe object port) (RId (Err DOCA_ERROR_NO_MEMORY)) s
| spec_create_refused s c pipe object port :
    refused -> spec_step refused s (OpCreate c pipe object port) (RId (Err DOCA_ERROR_INVALID_VALUE)) s
| spec_add s c entry object id :
    is_Some (s_pipes s !! id) ->
    spec_step refused s (OpAddEntry c entry object id) (RId (Ok (generateID object)))
      (SpecState (s_pipes s) (<[generateID object := (id, entry)]> (s_entries s)) (s_ports s))
| spec_add_unknown s c entry object id :
    s_pipes s !! id = None ->
    spec_step refused s (OpAddEntry c entry object id) (RId (Err DOCA_ERROR_INVALID_VALUE)) s
| spec_add_refused s c entry object id :
    refused -> spec_step refused s (OpAddEntry c entry object id) (RId (Err DOCA_ERROR_INVALID_VALUE)) s
| spec_rm s e :
    spec_step refused s (OpRmEntry e)
      (RCode (if decide (is_Some (s_entries s !! e)) then DOCA_SUCCESS else DOCA_ERROR_INVALID_VALUE))
      (SpecState (s_pipes s) (delete e (s_entries s)) (s_ports s))
| spec_destroy s id :
    spec_step refused s (OpDestroy id)
      (RCode (if decide (is_Some (s_pipes s !! id)) then DOCA_SUCCESS else DOCA_ERROR_INVALID_VALUE))
      (SpecState (delete id (s_pipes s)) (filter (fun x => x.2.1 <> id) (s_entries s)) (s_ports s))
| spec_flush s port :
    spec_step refused s (OpFlush port)
      (RCode (if decide (port ∈ s_ports s) then DOCA_SUCCESS else DOCA_ERROR_INVALID_VALUE))
      (SpecState (filter (fun x => x.2.2 <> port) (s_pipes s))
         (filter (fun x => snd <$> (s_pipes s !! x.2.1) <> Some port) (s_entries s))
         (s_ports s ∖ {[port]})).

(** An entry id is not used in another pipe. *)
Definition op_fresh (s : spec_state) (o : mgr_op) : Prop :=
  match o with
  | OpAddEntry _ _ object id =>
      forall i x, s_entries s !! generateID object = Some (i, x) -> i = id
  | _ => True
  end.

Record represents `{RteHash} (m : flow_pipes_manager) (s : spec_state) : Prop := {
  rep_wf : mgr_wf m;
  rep_no_stale : no_stale m;
  rep_pipes : forall id x p, s_pipes s !! id = Some (x, p) <-> has_pipe m id x p;
  rep_entries : forall e id x, s_entries s !! e = Some (id, x) <-> has_entry m e id x;
  rep_ports : forall p, p ∈ s_ports s <-> ht_mem p (port_tbl m) = true;
}.

Section system.
Context `{HL : RteHashLaws}.

(** Why the table of the port can not be had. *)
Lemma port_pipes_table_result c id port m m1 e :
  port_pipes_table c id port m = Ret (m1, Err e) ->
  e = DOCA_ERROR_NO_MEMORY /\ alloc_table c = false /\ ht_mem port (port_tbl m) = false
  \/ e = DOCA_ERROR_INVALID_VALUE /\ (refuses m id \/ refuses m port).
Proof using Type.
  unfold port_pipes_table, ht_mem. destruct (ht_lookup port (port_tbl m)) as [[pp t]|].
  - intros E. destruct (ptables m !! t) as [tbl|] eqn:Ht; [|done]. cbn [of_option] in E.
    destruct (ht_add id 0 tbl) eqn:Ha; [done|]. injection E as _ <-. right. split; [done|].
    left. exists tbl, 0. split; [done|]. do 4 right. left. by exists t.
  - destruct (alloc_table c); cbn [negb]; [|intros [= _ <-]; by left].
    destruct (ht_add id 0 ht_new) eqn:Ha.
    2:{ intros [= _ <-]. right. split; [done|]. left. exists ht_new, 0. auto. }
    destruct (ht_add port (next_ptr m) (port_tbl m)) eqn:Hp; [done|]. intros [= _ <-].
    right. split; [done|]. right. eexists _, _. split; [exact Hp|]. auto.
Qed.

(** The error paths of a creation leave the set of the ports as it was. *)
Lemma undo_port_table_ports m m1 id port t is_new m2 :
  listed_new m m1 id port t is_new -> undo_port_table id port t is_new m1 = Ret m2 ->
  forall p, ht_mem p (port_tbl m2) = true <-> ht_mem p (port_tbl m) = true.
Proof using HL.
  intros [_ _ _ _ _ _ _ Hother Hold] E p. unfold undo_port_table in E. obind E. destruct is_new.
  - injection E as <-. cbn. destruct Hold as (Hnone & _). destruct (decide (port = p)) as [<-|Hne].
    + unfold ht_mem. by rewrite ht_lookup_del, Hnone.
    + unfold ht_mem. by rewrite ht_lookup_del_ne, Hother by done.
  - injection E as <-. cbn. by rewrite Hold.
Qed.

(** Why a creation fails, and what it does to the ports. *)
Lemma pipe_create_result c m pipe object port m' r :
  mgr_wf m -> pipes_manager_pipe_create c m pipe object port = Ret (m', r) ->
  match r with
  | Ok _ => alloc_info c = true
      /\ forall p, ht_mem p (port_tbl m') = true <-> p = port \/ ht_mem p (port_tbl m) = true
  | Err e => (forall p, ht_mem p (port_tbl m') = true <-> ht_mem p (port_tbl m) = true)
      /\ (e = DOCA_ERROR_INVALID_VALUE /\ ht_mem (generateID object) (pipe_tbl m) = true
          \/ e = DOCA_ERROR_NO_MEMORY
             /\ ((alloc_table c = false /\ ht_mem port (port_tbl m) = false) \/ alloc_info c = false)
          \/ e = DOCA_ERROR_INVALID_VALUE
             /\ (refuses m (generateID object) \/ refuses m port))
  end.
Proof using HL.
  intros Hwf E. unfold pipes_manager_pipe_create in E. obind E.
  set (id := generateID object) in *. destruct (ht_mem id (pipe_tbl m)) eqn:Hid.
  { injection E as <- <-. split; [done|]. by left. }
  destruct (port_pipes_table_spec c id port m Hwf Hid) as (m1 & r1 & E1 & Hr). rewrite E1 in E.
  cbn beta iota in E. destruct r1 as [[t is_new]|err].
  2:{ injection E as <- <-. subst m1. split; [done|]. right.
      destruct (port_pipes_table_result _ _ _ _ _ _ E1) as [(-> & ?)|(-> & ?)]; auto. }
  destruct (alloc_info c) eqn:Hinfo; cbn [negb] in E.
  2:{ obind E. injection E as <- <-. split; [by eapply undo_port_table_ports|]. auto. }
  destruct (ht_add id (next_ptr m1) (pipe_tbl m1)) as [pipes|] eqn:Hadd.
  - injection E as <- <-. split; [done|]. cbn. intros p.
    pose proof Hr as [_ _ _ _ _ _ [pp Hport] Hother _]. destruct (decide (p = port)) as [->|Hne].
    + unfold ht_mem. rewrite Hport. naive_solver.
    + unfold ht_mem. rewrite Hother by done. naive_solver.
  - obind E. injection E as <- <-. split; [by eapply undo_port_table_ports|]. right. right.
    split; [done|]. left. rewrite (ln_pipes _ _ _ _ _ _ Hr) in Hadd. eexists _, _. split; [done|]. auto.
Qed.

(** Why an insertion fails. *)
Lemma add_entry_result c m entry object id m' r :
  mgr_wf m -> no_stale m -> pipes_manager_pipe_add_entry c m entry object id = Ret (m', r) ->
  port_tbl m' = port_tbl m
  /\ match r with
     | Ok _ => True
     | Err e => e = DOCA_ERROR_INVALID_VALUE
         /\ (ht_mem id (pipe_tbl m) = false \/ refuses m (generateID object)
             \/ exists x, has_entry m (next_ptr m) id x)
     end.
Proof using HL.
  intros Hwf Hns E. unfold pipes_manager_pipe_add_entry in E. obind E. cbn [pipe_tbl infos] in E.
  unfold ht_mem. destruct (ht_lookup id (pipe_tbl m)) as [[pos a0]|] eqn:Hl.
  2:{ injection E as <- <-. split; [done|]. auto. }
  rewrite (ht_key_lookup _ _ _ _ Hl) in E.
  destruct (infos m !! a0) as [info|] eqn:Hi; [|done]. cbn [of_option] in E.
  destruct (ht_mem (next_ptr m) (pi_entries info)) eqn:Hp.
  { injection E as <- <-. split; [done|]. split; [done|]. right. right.
    destruct (Hns _ _ _ _ _ Hl Hi Hp) as [ep Hep]. apply ht_mem_spec in Hp as [[xp x] Hx].
    exists x, ep, pos, a0, info, xp. by split_and!. }
  destruct (ht_add (generateID object) entry (pi_entries info)) eqn:Ha.
  2:{ injection E as <- <-. split; [done|]. split; [done|]. right. left. eexists _, _.
      split; [exact Ha|]. do 5 right. by exists a0, info. }
  cbn [entry_tbl] in E.
  destruct (ht_add (generateID object) pos (entry_tbl m)) eqn:He; injection E as <- <-; [done|].
  split; [done|]. split; [done|]. right. left. eexists _, _. split; [exact He|]. auto.
Qed.

(** A removal, by its code: the only failure is an id that is not known. *)
Lemma rm_entry_result m e m' r :
  mgr_wf m -> pipes_manager_pipe_rm_entry m e = Ret (m', r) ->
  port_tbl m' = port_tbl m /\ (r = DOCA_SUCCESS \/ r = DOCA_ERROR_INVALID_VALUE).
Proof using HL.
  intros Hwf E. unfold pipes_manager_pipe_rm_entry in E.
  destruct (ht_lookup e (entry_tbl m)) as [[ep pos]|] eqn:Hl; [|injection E as <- <-; auto].
  rewrite (ht_key_lookup _ _ _ _ Hl) in E.
  destruct (wf_entry _ _ Hwf _ _ _ Hl) as (id & a & info & Hp & Hi & Hm).
  unfold deref_pipe_id in E. rewrite (ht_key_lookup _ _ _ _ Hp) in E. cbn [of_option] in E.
  rewrite Hp, Hi in E. cbn [of_option] in E. rewrite Hm in E. injection E as <- <-. auto.
Qed.

Lemma pipe_destroy_result m id m' r :
  mgr_wf m -> pipes_manager_pipe_destroy m id = Ret (m', r) ->
  port_tbl m' = port_tbl m /\ (r = DOCA_SUCCESS \/ r = DOCA_ERROR_INVALID_VALUE).
Proof using HL.
  intros Hwf E. unfold pipes_manager_pipe_destroy in E.
  destruct (ht_lookup id (pipe_tbl m)) as [[pos a]|] eqn:Hl; [|injection E as <- <-; auto].
  rewrite (ht_key_lookup _ _ _ _ Hl) in E.
  destruct (wf_pipe _ _ Hwf _ _ _ Hl) as (info & tbl & p & pp & Hi & Ht & Hm & Hp).
  rewrite Hi in E. cbn [of_option] in E. rewrite Ht in E. cbn [of_option] in E. rewrite Hm in E.
  injection E as <- <-. auto.
Qed.

Lemma flush_pipes_ports ids m m' : flush_pipes ids m = Ret m' -> port_tbl m' = port_tbl m.
Proof using Type.
  revert m. induction ids as [|id ids IH]; intros m E; cbn [flush_pipes] in E; [by injection E as <-|].
  destruct (ht_lookup id (pipe_tbl m)) as [[pos a]|]; [|by apply IH]. obind E. by apply IH in E.
Qed.

Lemma pipes_flush_result m port m' r :
  mgr_wf m -> pipes_manager_pipes_flush m port = Ret (m', r) ->
  (forall p, ht_mem p (port_tbl m') = true <-> p <> port /\ ht_mem p (port_tbl m) = true)
  /\ (r = DOCA_SUCCESS \/ r = DOCA_ERROR_INVALID_VALUE).
Proof using HL.
  intros Hwf E. unfold pipes_manager_pipes_flush in E.
  destruct (ht_lookup port (port_tbl m)) as [[pp t]|] eqn:Hl.
  - rewrite (ht_key_lookup _ _ _ _ Hl) in E. obind E. obind E. injection E as <- <-.
    split; [|auto]. intros p. cbn. erewrite flush_pipes_ports by done. apply ht_mem_del.
  - injection E as <- <-. split; [|auto]. intros p. split; [|by intros [_ ?]]. intros Hp. split; [|done].
    intros ->. unfold ht_mem in Hp. by rewrite Hl in Hp.
Qed.

(** A code that is success or a failure is the one its condition chooses. *)
Lemma code_decide (P : Prop) `{!Decision P} (r : doca_error_t) :
  r = DOCA_SUCCESS \/ r = DOCA_ERROR_INVALID_VALUE -> (r = DOCA_SUCCESS <-> P) ->
  r = if decide P then DOCA_SUCCESS else DOCA_ERROR_INVALID_VALUE.
Proof using Type. intros [-> | ->] HP; case_decide; naive_solver. Qed.

Lemma run_op_wf m o :
  mgr_wf m -> op_alloc o -> exists m' r, run_op m o = Ret (m', r) /\ mgr_wf m'.
Proof using HL.
  intros Hwf Ho. destruct o; cbn in *.
  - destruct (pipe_create_spec c m pipe object port_id Hwf Ho) as (m' & r & -> & ? & _). by eexists _, _.
  - destruct (add_entry_spec c m entry object pipe_id Hwf Ho) as (m' & r & -> & ? & _). by eexists _, _.
  - destruct (rm_entry_spec m entry_id Hwf) as (m' & r & -> & ? & _). by eexists _, _.
  - destruct (pipes_manager_pipe_destroy_wf m pipe_id Hwf) as (m' & r & -> & ?). by eexists _, _.
  - destruct (pipes_flush_spec m port_id Hwf) as (m' & r & -> & ? & _). by eexists _, _.
Qed.

Lemma represents_none m s id :
  represents m s -> s_pipes s !! id = None <-> forall x p, ~ has_pipe m id x p.
Proof using Type.
  intros [_ _ Hp _ _]. split.
  - intros E x p Hx%Hp. congruence.
  - intros Hn. destruct (s_pipes s !! id) as [[x p]|] eqn:E; [|done].
    apply Hp in E. by eapply Hn in E.
Qed.

(** The pipe table knows the ids of the specification. *)
Lemma represents_mem m s id :
  represents m s -> ht_mem id (pipe_tbl m) = true <-> is_Some (s_pipes s !! id).
Proof using Type.
  intros [Hwf _ Hp _ _]. rewrite ht_mem_spec. split.
  - intros [[pos a] Hl]. destruct (wf_pipe _ _ Hwf _ _ _ Hl) as (info & tbl & p & pp & Hi & _ & _ & Hport).
    exists (pi_pipe info, p). apply Hp. exists pos, a, info, pp. by split_and!.
  - intros [[x p] (pos & a & info & pp & Hl & _)%Hp]. by eexists.
Qed.

Lemma represents_entry m s e :
  represents m s -> is_Some (ht_lookup e (entry_tbl m)) <-> is_Some (s_entries s !! e).
Proof using HL.
  intros [Hwf _ _ He _]. split.
  - intros [[ep pos] Hl]. destruct (wf_entry _ _ Hwf _ _ _ Hl) as (id & a & info & Hp & Hi & Hm).
    apply ht_mem_spec in Hm as [[xp x] Hx]. exists (id, x). apply He.
    exists ep, pos, a, info, xp. by split_and!.
  - intros [[id x] (ep & pos & a & info & xp & Hl & _)%He]. by eexists.
Qed.

Lemma has_entry_pipe m e id x : mgr_wf m -> has_entry m e id x -> exists y p, has_pipe m id y p.
Proof using Type.
  intros Hwf (ep & pos & a & info & xp & _ & Hl & Hi & _).
  destruct (wf_pipe _ _ Hwf _ _ _ Hl) as (info' & tbl & p & pp & Hi' & _ & _ & Hp).
  exists (pi_pipe info'), p, pos, a, info', pp. by split_and!.
Qed.

(** One simulation lemma for each operation. *)
Lemma create_simulates m s c pipe object port :
  represents m s -> alloc_id c = true ->
  let o := OpCreate c pipe object port in
  exists m' r s', run_op m o = Ret (m', r) /\ spec_step (op_refused m o) s o r s' /\ represents m' s'.
Proof using HL.
  intros Hrep Ho o. pose proof Hrep as [Hwf Hns Hpipes Hentries Hports]. cbn.
  destruct (pipe_create_spec c m pipe object port Hwf Ho) as (m' & r & E & Hwf' & He & Hr).
  pose proof (pipe_create_no_stale _ _ _ _ _ _ _ Hwf Hns E) as Hns'.
  pose proof (pipe_create_result _ _ _ _ _ _ _ Hwf E) as Hres. rewrite E.
  exists m', (RId r). destruct r as [id|err].
  - destruct Hr as (-> & Hnone & Hp), Hres as [Hinfo Hpt]. eexists. split; [done|].
    split; [apply spec_create; [by eapply represents_none|done]|]. split; [done|done| | |]; cbn.
    + intros i x p. rewrite Hp, lookup_insert_Some, Hpipes. naive_solver.
    + intros e i x. by rewrite He, Hentries.
    + intros p. rewrite Hpt, elem_of_union, elem_of_singleton. by rewrite Hports.
  - exists s. split; [done|]. destruct Hres as [Hpt Hwhy]. split.
    + destruct Hwhy as [[-> Hk]|[[-> Hm]|[-> Hf]]].
      * apply spec_create_known. by apply (represents_mem m s).
      * apply spec_create_memory. destruct Hm as [[Ht Hn]|?]; [left|by right]. split; [done|].
        rewrite Hports, Hn. done.
      * by apply spec_create_refused.
    + split; [done|done| | |].
      * intros i x p. by rewrite Hr.
      * intros e i x. by rewrite He.
      * intros p. by rewrite Hpt.
Qed.

Lemma add_simulates m s c entry object id :
  represents m s -> alloc_id c = true ->
  let o := OpAddEntry c entry object id in op_fresh s o ->
  exists m' r s', run_op m o = Ret (m', r) /\ spec_step (op_refused m o) s o r s' /\ represents m' s'.
Proof using HL.
  intros Hrep Ho o Hfresh. pose proof Hrep as [Hwf Hns Hpipes Hentries Hports]. cbn.
  destruct (add_entry_spec c m entry object id Hwf Ho) as (m' & r & E & Hwf' & Hp & Hr).
  assert (no_stale m') as Hns'.
  { apply (add_entry_no_stale c m entry object id m' r); [done|done| |done].
    intros i x Hx. eapply Hfresh. by apply Hentries. }
  destruct (add_entry_result _ _ _ _ _ _ _ Hwf Hns E) as [Hpt Hres]. rewrite E.
  exists m', (RId r). destruct r as [e|err].
  - destruct Hr as (-> & Hmem & He). eexists. split; [done|].
    split; [apply spec_add; by apply (represents_mem m s)|]. split; [done|done| | |]; cbn.
    + intros i x p. by rewrite Hp.
    + intros e i x. rewrite He, lookup_insert_Some, Hentries. naive_solver.
    + intros p. by rewrite Hpt.
  - exists s. split; [done|]. destruct Hres as [-> Hwhy]. split.
    + destruct Hwhy as [Hn|Hf]; [apply spec_add_unknown|by apply spec_add_refused].
      apply eq_None_not_Some. rewrite <-(represents_mem m s) by done. by rewrite Hn.
    + split; [done|done| | |].
      * intros i x p. by rewrite Hp.
      * intros e i x. by rewrite Hr.
      * intros p. by rewrite Hpt.
Qed.

Lemma rm_simulates m s e :
  represents m s ->
  exists m' r s', run_op m (OpRmEntry e) = Ret (m', r)
    /\ spec_step (op_refused m (OpRmEntry e)) s (OpRmEntry e) r s' /\ represents m' s'.
Proof using HL.
  intros Hrep. pose proof Hrep as [Hwf Hns Hpipes Hentries Hports]. cbn.
  destruct (rm_entry_spec m e Hwf) as (m' & r & E & Hwf' & Hr & Hp & He).
  pose proof (rm_entry_no_stale _ _ _ _ Hwf Hns E).
  destruct (rm_entry_result _ _ _ _ Hwf E) as [Hpt Hc]. rewrite E.
  rewrite (represents_entry m s) in Hr by done. rewrite (code_decide _ _ Hc Hr).
  eexists _, _, _. split; [done|]. split; [constructor|]. split; [done|done| | |]; cbn.
  - intros i x p. by rewrite Hp.
  - intros e' i x. rewrite He, lookup_delete_Some, Hentries. naive_solver.
  - intros p. by rewrite Hpt.
Qed.

Lemma destroy_simulates m s id :
  represents m s ->
  exists m' r s', run_op m (OpDestroy id) = Ret (m', r)
    /\ spec_step (op_refused m (OpDestroy id)) s (OpDestroy id) r s' /\ represents m' s'.
Proof using HL.
  intros Hrep. pose proof Hrep as [Hwf Hns Hpipes Hentries Hports]. cbn.
  destruct (pipe_destroy_spec m id Hwf Hns) as (m' & r & E & Hwf' & Hns' & Hr & Hp & He).
  destruct (pipe_destroy_result _ _ _ _ Hwf E) as [Hpt Hc]. rewrite E.
  assert (r = DOCA_SUCCESS <-> is_Some (s_pipes s !! id)) as Hr'.
  { rewrite Hr. split; [intros (x & p & Hx%Hpipes); by eexists|]. intros [[x p] Hx%Hpipes]. by exists x, p. }
  rewrite (code_decide _ _ Hc Hr').
  eexists _, _, _. split; [done|]. split; [constructor|]. split; [done|done| | |]; cbn.
  - intros i x p. rewrite Hp, lookup_delete_Some, Hpipes. naive_solver.
  - intros e i x. rewrite He, map_lookup_filter_Some, Hentries. cbn. naive_solver.
  - intros p. by rewrite Hpt.
Qed.

Lemma flush_simulates m s port :
  represents m s ->
  exists m' r s', run_op m (OpFlush port) = Ret (m', r)
    /\ spec_step (op_refused m (OpFlush port)) s (OpFlush port) r s' /\ represents m' s'.
Proof using HL.
  intros Hrep. pose proof Hrep as [Hwf Hns Hpipes Hentries Hports]. cbn.
  destruct (pipes_flush_spec m port Hwf) as (m' & r & E & Hwf' & Hr & Hp & Hns').
  destruct (Hns' Hns) as [? He]. destruct (pipes_flush_result _ _ _ _ Hwf E) as [Hpt Hc]. rewrite E.
  rewrite <-Hports in Hr. rewrite (code_decide _ _ Hc Hr).
  eexists _, _, _. split; [done|]. split; [constructor|]. split; [done|done| | |]; cbn.
  - intros i x p. rewrite Hp, map_lookup_filter_Some, Hpipes. cbn. naive_solver.
  - intros e i x. rewrite He, map_lookup_filter_Some, Hentries. cbn. split.
    + intros [Hx Hport]. split; [done|]. intros y Hy. apply Hpipes in Hy as Hy'.
      rewrite Hy' in Hport. by apply Hport.
    + intros [Hx Hport]. destruct (has_entry_pipe _ _ _ _ Hwf Hx) as (y & p & Hy).
      split; [done|]. pose proof Hy as Hy'. apply Hpipes in Hy' as ->. cbn.
      intros [= ->]. by eapply Hport.
  - intros p. rewrite Hpt, elem_of_difference, elem_of_singleton, Hports. tauto.
Qed.

Lemma run_op_simulates m s o :
  represents m s -> op_alloc o -> op_fresh s o ->
  exists m' r s', run_op m o = Ret (m', r) /\ spec_step (op_refused m o) s o r s' /\ represents m' s'.
Proof using HL.
  intros Hrep Ho Hf. destruct o.
  - by apply create_simulates.
  - by apply add_simulates.
  - by apply rm_simulates.
  - by apply destroy_simulates.
  - by apply flush_simulates.
Qed.
End system.

(** ** Properties *)

(** No sequence of operations on a fresh manager reads a freed object or a released
    key: every operation returns and the tables stay consistent, provided the
    unchecked allocations of identifiers succeed. *)
Theorem manager_safe `{HL : RteHashLaws} m0 os :
  create_pipes_manager true true true true = Ok m0 -> Forall op_alloc os ->
  exists m, run_ops m0 os = Ret m /\ mgr_wf m.
Proof.
  intros E%create_manager_wf Hos. revert m0 E.
  induction Hos as [|o os Ho _ IH]; intros m Hwf; cbn [run_ops]; [by eexists|].
  destruct (run_op_wf m o Hwf Ho) as (m' & r & -> & Hwf'). by apply IH.
Qed.

(** C1: Refinement: as long as no entry id is used in two pipes and the unchecked
    allocations of identifiers succeed, every operation of the manager is a step of
    the specification by two maps and a set of ports, with the id and the code it
    returns: creations and insertions fail only for an id that is known or a pipe
    that is not, for lack of memory, or because a hash table refuses the key; removals
    fail only for an id that is not known. *)
Theorem manager_refines `{HL : RteHashLaws} m s o :
  represents m s -> op_alloc o -> op_fresh s o ->
  exists m' r s', run_op m o = Ret (m', r)
    /\ spec_step (op_refused m o) s o r s' /\ represents m' s'.
Proof. apply run_op_simulates. Qed.

(** The queries answer from the specification's maps. *)
Theorem manager_queries `{HL : RteHashLaws} m s id :
  represents m s ->
  pipes_manager_get_pipe m id =
    Ret (match s_pipes s !! id with Some (x, _) => Ok x | None => Err DOCA_ERROR_NOT_FOUND end)
  /\ pipes_manager_get_entry m id =
    Ret (match s_entries s !! id with Some (_, x) => Ok x | None => Err DOCA_ERROR_NOT_FOUND end).
Proof.
  intros Hrep. pose proof Hrep as [Hwf Hns Hpipes Hentries _]. split.
  - destruct (get_pipe_spec m id Hwf) as (r & -> & Hr). f_equal. destruct r as [x|err].
    + destruct Hr as [p Hp]. apply Hpipes in Hp. by rewrite Hp.
    + destruct Hr as [-> Hn]. by rewrite (proj2 (represents_none m s id Hrep) Hn).
  - destruct (get_entry_spec m id Hwf) as (r & -> & Hr). f_equal. destruct r as [x|err].
    + destruct Hr as [i Hi]. apply Hentries in Hi. by rewrite Hi.
    + destruct Hr as [-> Hn]. destruct (s_entries s !! id) as [[i x]|] eqn:E; [|done].
      apply Hentries in E. by eapply Hn in E.
Qed.

(** An entry whose id the pipe already lists is not rejected: the check looks up a
    pointer instead of the id, and the new entry silently replaces the old one,
    which can no longer be reached. *)
Theorem add_entry_replaces_duplicate `{HL : RteHashLaws} c m entry object id old m' e :
  mgr_wf m -> alloc_id c = true -> has_entry m (generateID object) id old ->
  pipes_manager_pipe_add_entry c m entry object id = Ret (m', Ok e) ->
  e = generateID object /\ pipes_manager_get_entry m' e = Ret (Ok entry).
Proof.
  intros Hwf Hc Hold E.
  destruct (add_entry_spec c m entry object id Hwf Hc) as (m2 & r & E2 & Hwf' & _ & Hr).
  rewrite E in E2. injection E2 as <- <-. destruct Hr as (-> & _ & He). split; [done|].
  destruct (get_entry_spec m' (generateID object) Hwf') as (r & -> & Hr). f_equal.
  destruct r as [x|err].
  - destruct Hr as [i [(_ & _ & ->)|[? _]]%He]; done.
  - destruct Hr as [_ Hn]. exfalso. apply (Hn id entry), He. by left.
Qed.

(** [destroy_pipes_manager] frees the keys the tables hold, which were not allocated
    by it: it is defined only on a manager without pipes. *)
Theorem destroy_pipes_manager_defined `{HL : RteHashLaws} m :
  mgr_wf m ->
  if decide (ht_iter (pipe_tbl m) = []) then destroy_pipes_manager m = Ret tt
  else destroy_pipes_manager m = Undef DanglingPointer.
Proof.
  intros Hwf. unfold destroy_pipes_manager. case_decide as E; [by rewrite E|].
  destruct (ht_iter (pipe_tbl m)) as [|[id a] l] eqn:Hit; [done|]. cbn [free_pipes].
  assert ((id, a) ∈ ht_iter (pipe_tbl m)) as Hin by (rewrite Hit; apply elem_of_cons; by left).
  apply ht_iter_spec in Hin as [pos Hl].
  destruct (wf_pipe _ _ Hwf _ _ _ Hl) as (info & _ & _ & _ & Hi & _). rewrite Hi.
  cbn [of_option]. by destruct (map fst (ht_iter (pi_entries info))).
Qed.

(** *** Witnesses, on the table of slots *)

Section samples.
#[local] Instance sample_hash : RteHash := Slots.slots_hash DEFAULT_ENTRIES_NUM.
#[local] Instance sample_laws : RteHashLaws sample_hash := Slots.slots_hash_laws _.

Definition empty_manager : flow_pipes_manager := Manager ht_new ht_new ht_new ∅ ∅ 1.

Definition sample_bytes (b : Z) : list Z := [b; 1; 2; 3; 4; 5; 6; 7].
Definition sample_pipe : Z := Eval vm_compute in generateID (sample_bytes 10).
Definition sample_entry : Z := Eval vm_compute in generateID (sample_bytes 20).

(** One pipe with one entry. *)
Definition sample_ops : list mgr_op :=
  [OpCreate alloc_all 5000 (sample_bytes 10) 0; OpAddEntry alloc_all 6000 (sample_bytes 20) sample_pipe].

Definition sample_manager : flow_pipes_manager :=
  Eval vm_compute in
    match run_ops empty_manager sample_ops with Ret m => m | Undef _ => empty_manager end.

Lemma empty_manager_wf : mgr_wf empty_manager.
Proof. by apply create_manager_wf. Qed.

Lemma empty_represents : represents empty_manager (SpecState ∅ ∅ ∅).
Proof.
  split.
  - apply empty_manager_wf.
  - intros id pos a info e Hl. cbn [pipe_tbl empty_manager] in Hl. by rewrite ht_lookup_new in Hl.
  - intros id x p. cbn. rewrite lookup_empty. split; [done|].
    intros (pos & a & info & pp & Hl & _). cbn [pipe_tbl empty_manager] in Hl. by rewrite ht_lookup_new in Hl.
  - intros e id x. cbn. rewrite lookup_empty. split; [done|].
    intros (ep & pos & a & info & xp & Hl & _). cbn [entry_tbl empty_manager] in Hl. by rewrite ht_lookup_new in Hl.
  - intros p. cbn [port_tbl empty_manager s_ports]. rewrite ht_mem_new. set_solver.
Qed.

Lemma sample_manager_wf : mgr_wf sample_manager.
Proof.
  assert (run_ops empty_manager sample_ops = Ret sample_manager) as E by (vm_compute; reflexivity).
  destruct (run_op_wf empty_manager (OpCreate alloc_all 5000 (sample_bytes 10) 0)
              empty_manager_wf eq_refl) as (m1 & r1 & E1 & Hwf1).
  destruct (run_op_wf m1 (OpAddEntry alloc_all 6000 (sample_bytes 20) sample_pipe) Hwf1 eq_refl)
    as (m2 & r2 & E2 & Hwf2).
  cbn [run_ops sample_ops] in E. rewrite E1 in E. cbn beta iota in E. rewrite E2 in E.
  by injection E as <-.
Qed.

Lemma manager_safe_witness :
  exists m, run_ops empty_manager
    (sample_ops ++ [OpDestroy sample_pipe; OpRmEntry sample_entry; OpFlush 0; OpFlush 1]) = Ret m
    /\ mgr_wf m.
Proof.
  apply manager_safe; [reflexivity|]. repeat (apply Forall_cons_2; [cbn; done|]). apply Forall_nil_2.
Defined.

Lemma manager_refines_witness :
  exists m' r s', run_op empty_manager (OpCreate alloc_all 5000 (sample_bytes 10) 0) = Ret (m', r)
    /\ spec_step (op_refused empty_manager (OpCreate alloc_all 5000 (sample_bytes 10) 0))
         (SpecState ∅ ∅ ∅) (OpCreate alloc_all 5000 (sample_bytes 10) 0) r s'
    /\ represents m' s'.
Proof. apply manager_refines; [apply empty_represents | reflexivity | exact I]. Defined.

Lemma manager_queries_witness :
  exists m r s, run_op empty_manager (OpCreate alloc_all 5000 (sample_bytes 10) 0) = Ret (m, r)
    /\ pipes_manager_get_pipe m sample_pipe =
       Ret (match s_pipes s !! sample_pipe with
            | Some (x, _) => Ok x | None => Err DOCA_ERROR_NOT_FOUND end)
    /\ pipes_manager_get_entry m sample_pipe =
       Ret (match s_entries s !! sample_pipe with
            | Some (_, x) => Ok x | None => Err DOCA_ERROR_NOT_FOUND end).
Proof.
  destruct (run_op_simulates empty_manager (SpecState ∅ ∅ ∅)
              (OpCreate alloc_all 5000 (sample_bytes 10) 0) empty_represents eq_refl I)
    as (m & r & s & E & _ & Hrep).
  exists m, r, s. split; [exact E|]. exact (manager_queries m s sample_pipe Hrep).
Defined.

Definition sample_duplicate : flow_pipes_manager :=
  Eval vm_compute in
    match pipes_manager_pipe_add_entry alloc_all sample_manager 7000 (sample_bytes 20) sample_pipe with
    | Ret (m, _) => m | Undef _ => empty_manager
    end.

Lemma add_entry_replaces_duplicate_witness :
  pipes_manager_get_entry sample_manager sample_entry = Ret (Ok 6000)
  /\ sample_entry = generateID (sample_bytes 20)
  /\ pipes_manager_get_entry sample_duplicate sample_entry = Ret (Ok 7000).
Proof.
  split; [vm_compute; reflexivity|].
  apply (add_entry_replaces_duplicate alloc_all sample_manager 7000 (sample_bytes 20) sample_pipe 6000).
  - apply sample_manager_wf.
  - reflexivity.
  - exists 0, 0, 2, (PipeInfo 5000 ((Some (sample_entry, 6000) :: replicate 127 None) : @rte_hash sample_hash) 1), 0.
    split_and!; vm_compute; reflexivity.
  - vm_compute. reflexivity.
Defined.

Lemma destroy_pipes_manager_defined_witness :
  destroy_pipes_manager sample_manager = Undef DanglingPointer
  /\ destroy_pipes_manager empty_manager = Ret tt.
Proof.
  split.
  - exact (destroy_pipes_manager_defined sample_manager sample_manager_wf).
  - exact (destroy_pipes_manager_defined empty_manager empty_manager_wf).
Defined.
End samples.
