(* ===== verification/Switch.v ===== *)
(** * The switch application (applications/switch/switch_core.c)

    The callbacks the application registers with the flow command line: each
    translates identifiers with the pipes manager and calls the DOCA Flow
    library.  The library is an interface: its state, its calls (undefined on a
    handle that is not live) and the laws its documentation gives; a small
    concrete library shows that the laws can hold. *)
From S2P Require Import Prelude CString FlowTypes FlowFields FlowParams FlowCommands RteHash PipesManager.

(** What the entry callback is told: the operation, whether it succeeded, and the
    user context given when the entry was added (the address of a local variable,
    here the number of the call that owns it). *)
Record entry_event : Type := Event {
  ev_success : bool;
  ev_op : doca_flow_entry_op;
  ev_user_ctx : option Z;
}.

(** ** The DOCA Flow library *)

Class FlowSdk (api : PipeCfgApi) := {
  sdk : Type;
  cfg_set_enable_strict_matching : bool -> pipe_cfg -> pipe_cfg * doca_error_t;
  doca_flow_pipe_create : pipe_cfg -> option doca_flow_fwd -> option doca_flow_fwd -> sdk ->
    outcome (sdk * res Z);
  doca_flow_pipe_destroy : Z -> sdk -> outcome sdk;
  (** pipe, match, actions, monitor, fwd, flags, user context *)
  doca_flow_pipe_add_entry : Z -> doca_flow_match -> doca_flow_actions ->
    option doca_flow_monitor -> option doca_flow_fwd -> Z -> option Z -> sdk ->
    outcome (sdk * res Z);
  (** priority, pipe, match, match mask, fwd *)
  doca_flow_pipe_control_add_entry : Z -> Z -> doca_flow_match -> option doca_flow_match ->
    option doca_flow_fwd -> sdk -> outcome (sdk * res Z);
  (** the events it reports through the callback, in order *)
  doca_flow_entries_process : sdk -> sdk * list entry_event * doca_error_t;
  doca_flow_pipe_rm_entry : Z -> Z -> sdk -> outcome (sdk * doca_error_t);
  doca_flow_port_pipes_flush : sdk -> sdk;
  doca_flow_query_entry : Z -> sdk -> outcome (res (Z * Z));
  doca_flow_port_pipes_dump : Z -> sdk -> sdk;
  (** the bytes of an object at an address *)
  sdk_object : Z -> sdk -> list Z;
  (** live pipes, live entries with their pipe, user contexts of additions that were
      accepted and are not yet reported *)
  live_pipe : sdk -> Z -> Prop;
  live_entry : sdk -> Z -> Z -> Prop;
  pending : sdk -> list (option Z);
}.

(** The pipe a forward designates is live. *)
Definition target_live `{FlowSdk} (s : sdk) (f : option doca_flow_fwd) : Prop :=
  forall x, f = Some x -> fwd_type x = DOCA_FLOW_FWD_PIPE -> live_pipe s (next_pipe x).

Definition same_live `{FlowSdk} (s s' : sdk) : Prop :=
  (forall x, live_pipe s' x <-> live_pipe s x)
  /\ (forall e x, live_entry s' e x <-> live_entry s e x) /\ pending s' = pending s.

(** The contexts of the additions among the events. *)
Definition added_ctxs (evs : list entry_event) : list (option Z) :=
  map ev_user_ctx (filter (fun ev => ev_op ev = DOCA_FLOW_ENTRY_OP_ADD) evs).

(** An entry was added to a live pipe: a new handle, or nothing changed. *)
Definition entry_added `{FlowSdk} (s s' : sdk) (x : Z) (r : res Z) (ctxs : list (option Z)) : Prop :=
  match r with
  | Ok e => (forall y, ~ live_entry s e y)
      /\ (forall y, live_pipe s' y <-> live_pipe s y)
      /\ (forall e' y, live_entry s' e' y <-> e' = e /\ y = x \/ live_entry s e' y)
      /\ pending s' = pending s ++ ctxs
  | Err _ => same_live s s'
  end.

Class FlowSdkLaws `(L : FlowSdk) : Prop := {
  live_pipe_width : forall s x, live_pipe s x -> in_width 64 x;
  sdk_create : forall cfg f fm s, target_live s f -> target_live s fm ->
    exists s' r, doca_flow_pipe_create cfg f fm s = Ret (s', r)
      /\ match r with
         | Ok x => ~ live_pipe s x /\ (forall e, ~ live_entry s e x)
             /\ (forall y, live_pipe s' y <-> y = x \/ live_pipe s y)
             /\ (forall e y, live_entry s' e y <-> live_entry s e y) /\ pending s' = pending s
         | Err _ => same_live s s'
         end;
  sdk_destroy : forall x s, live_pipe s x ->
    exists s', doca_flow_pipe_destroy x s = Ret s'
      /\ (forall y, live_pipe s' y <-> y <> x /\ live_pipe s y)
      /\ (forall e y, live_entry s' e y <-> y <> x /\ live_entry s e y)
      /\ pending s' = pending s;
  sdk_add : forall x m a mo f fl ctx s, live_pipe s x -> target_live s f ->
    exists s' r, doca_flow_pipe_add_entry x m a mo f fl ctx s = Ret (s', r)
      /\ entry_added s s' x r [ctx];
  sdk_control : forall pr x m k f s, live_pipe s x -> target_live s f ->
    exists s' r, doca_flow_pipe_control_add_entry pr x m k f s = Ret (s', r)
      /\ entry_added s s' x r [];
  sdk_process : forall s s' evs r, doca_flow_entries_process s = (s', evs, r) ->
    (forall x, live_pipe s' x <-> live_pipe s x)
    /\ (forall e x, live_entry s' e x <-> live_entry s e x)
    /\ added_ctxs evs ++ pending s' ≡ₚ pending s;
  sdk_rm : forall fl e x s, live_entry s e x ->
    exists s' r, doca_flow_pipe_rm_entry fl e s = Ret (s', r)
      /\ (forall y, live_pipe s' y <-> live_pipe s y)
      /\ (forall e' y, e' <> e -> live_entry s' e' y <-> live_entry s e' y)
      /\ pending s' = pending s;
  sdk_flush : forall s, pending (doca_flow_port_pipes_flush s) = pending s;
  sdk_query : forall e x s, live_entry s e x -> defined (doca_flow_query_entry e s);
  sdk_dump : forall fd s, same_live s (doca_flow_port_pipes_dump fd s);
}.

(** The library completes an addition within the time the application gives it. *)
Definition prompt `{FlowSdk} : Prop :=
  forall s s' evs r, doca_flow_entries_process s = (s', evs, r) -> pending s' = [].

(** ** The callbacks *)

(** [struct entries_status], a local variable of the call with number [es_frame]. *)
Record entries_status : Type := EntriesStatus {
  es_frame : Z;
  failure : bool;
  nb_processed : Z;
}.

Definition check_for_valid_entry (ev : entry_event) (st : entries_status) : outcome entries_status :=
  match ev_user_ctx ev with
  | None => Ret st
  | Some frame =>
      if bool_decide (ev_op ev <> DOCA_FLOW_ENTRY_OP_ADD) then Ret st
      else
        let* _ := require (frame =? es_frame st) DanglingPointer in
        let st := if negb (ev_success ev) then EntriesStatus (es_frame st) true (nb_processed st)
                  else st in
        Ret (EntriesStatus (es_frame st) (failure st) (nb_processed st + 1))
  end.

(** The library calls the callback for each event. *)
Fixpoint report (evs : list entry_event) (st : entries_status) : outcome entries_status :=
  match evs with
  | [] => Ret st
  | ev :: evs' => let* st := check_for_valid_entry ev st in report evs' st
  end.

(** Events of the current call only: the callback counts the additions. *)
Lemma report_own evs st :
  (forall c, c ∈ added_ctxs evs -> c = Some (es_frame st)) ->
  exists st', report evs st = Ret st' /\ es_frame st' = es_frame st
    /\ nb_processed st' = nb_processed st + Z.of_nat (length (added_ctxs evs)).
Proof.
  revert st. induction evs as [|[ok op ctx] evs IH]; intros st Hown; cbn [report].
  { exists st. cbn. split_and!; [done|done|lia]. }
  unfold check_for_valid_entry. cbn [ev_user_ctx ev_op ev_success].
  destruct (decide (op = DOCA_FLOW_ENTRY_OP_ADD)) as [->|Hop].
  - assert (added_ctxs (Event ok DOCA_FLOW_ENTRY_OP_ADD ctx :: evs) = ctx :: added_ctxs evs) as Ha.
    { unfold added_ctxs. by rewrite filter_cons_True. }
    rewrite Ha in *. rewrite (Hown ctx) by (apply elem_of_cons; by left).
    rewrite bool_decide_eq_false_2 by (intros Hn; by apply Hn). rewrite Z.eqb_refl. cbn [require].
    match goal with |- context [report evs ?s] => destruct (IH s) as (st' & -> & Hf & Hn) end.
    { intros c Hc. rewrite (Hown c) by (apply elem_of_cons; by right). by destruct ok. }
    exists st'. split; [done|]. cbn [length] in *. destruct ok; cbn in *; split; try done; lia.
  - assert (added_ctxs (Event ok op ctx :: evs) = added_ctxs evs) as Ha.
    { unfold added_ctxs. by rewrite filter_cons_False. }
    rewrite Ha in *. rewrite bool_decide_eq_true_2 by done. destruct ctx; by apply IH.
Qed.

Section switch.
Context `{RteHash} {api : PipeCfgApi} {L : FlowSdk api}.
(** The allocations of each call, by the call's number. *)
Context (alloc_of : Z -> alloc).

(** The pipes manager, the library, and the number of the next call. *)
Record switch_app : Type := Switch {
  pipes_manager : flow_pipes_manager;
  flow : sdk;
  calls : Z;
}.

Definition set_manager m (w : switch_app) := Switch m (flow w) (calls w).
Definition set_flow s (w : switch_app) := Switch (pipes_manager w) s (calls w).

(** [if (fwd != NULL && fwd->type == DOCA_FLOW_FWD_PIPE)] look up [fwd->next_pipe]. *)
Definition resolve_fwd (fwd : option doca_flow_fwd) (fw_pipe_id : Z) (w : switch_app)
    : outcome (option doca_flow_fwd * doca_error_t) :=
  match fwd with
  | Some f =>
      if bool_decide (fwd_type f = DOCA_FLOW_FWD_PIPE) then
        let* r := pipes_manager_get_pipe (pipes_manager w) fw_pipe_id in
        match r with
        | Ok pipe => Ret (Some (set_next_pipe pipe f), DOCA_SUCCESS)
        | Err e => Ret (fwd, e)
        end
      else Ret (fwd, DOCA_SUCCESS)
  | None => Ret (fwd, DOCA_SUCCESS)
  end.

Definition pipe_create (cfg : pipe_cfg) (port_id : Z) (fwd : option doca_flow_fwd)
    (fw_pipe_id : Z) (fwd_miss : option doca_flow_fwd) (fw_miss_pipe_id : Z) (w : switch_app)
    : outcome (switch_app * option doca_flow_fwd * option doca_flow_fwd) :=
  let switch_mode_port_id := 0 in
  let w := Switch (pipes_manager w) (flow w) (calls w + 1) in
  let '(cfg, result) := cfg_set_enable_strict_matching true cfg in
  if negb (bool_decide (result = DOCA_SUCCESS)) then Ret (w, fwd, fwd_miss)
  else
    let* (fwd, result) := resolve_fwd fwd fw_pipe_id w in
    if negb (bool_decide (result = DOCA_SUCCESS)) then Ret (w, fwd, fwd_miss)
    else
      let* (fwd_miss, result) := resolve_fwd fwd_miss fw_miss_pipe_id w in
      if negb (bool_decide (result = DOCA_SUCCESS)) then Ret (w, fwd, fwd_miss)
      else
        let* (s, r) := doca_flow_pipe_create cfg fwd fwd_miss (flow w) in
        let w := set_flow s w in
        match r with
        | Err _ => Ret (w, fwd, fwd_miss)
        | Ok pipe =>
            let* (m, r) := pipes_manager_pipe_create (alloc_of (calls w)) (pipes_manager w) pipe
                             (sdk_object pipe (flow w)) switch_mode_port_id in
            let w := set_manager m w in
            match r with
            | Err _ =>
                let* s := doca_flow_pipe_destroy pipe (flow w) in
                Ret (set_flow s w, fwd, fwd_miss)
            | Ok _ => Ret (w, fwd, fwd_miss)
            end
        end.

(** The end of the two functions that add an entry: tell the manager, or take the
    entry out again. *)
Definition record_entry (entry pipe_id : Z) (w : switch_app) : outcome switch_app :=
  let* (m, r) := pipes_manager_pipe_add_entry (alloc_of (calls w)) (pipes_manager w) entry
                   (sdk_object entry (flow w)) pipe_id in
  let w := set_manager m w in
  match r with
  | Err _ =>
      let* (s, _) := doca_flow_pipe_rm_entry DOCA_FLOW_NO_WAIT entry (flow w) in
      Ret (set_flow s w)
  | Ok _ => Ret w
  end.

Definition pipe_add_entry (pipe_queue pipe_id : Z) (match_ : doca_flow_match)
    (actions : doca_flow_actions) (monitor : option doca_flow_monitor)
    (fwd : option doca_flow_fwd) (fw_pipe_id flags : Z) (w : switch_app)
    : outcome (switch_app * option doca_flow_fwd) :=
  let w := Switch (pipes_manager w) (flow w) (calls w + 1) in
  let status := EntriesStatus (calls w) false 0 in
  let num_of_entries := 1 in
  let* (fwd, result) := resolve_fwd fwd fw_pipe_id w in
  if negb (bool_decide (result = DOCA_SUCCESS)) then Ret (w, fwd)
  else
    let* r := pipes_manager_get_pipe (pipes_manager w) pipe_id in
    match r with
    | Err _ => Ret (w, fwd)
    | Ok pipe =>
        let hws_flag := if negb (flags =? DOCA_FLOW_NO_WAIT) then DOCA_FLOW_NO_WAIT else flags in
        let* (s, r) := doca_flow_pipe_add_entry pipe match_ actions monitor fwd hws_flag
                         (Some (es_frame status)) (flow w) in
        let w := set_flow s w in
        match r with
        | Err _ => Ret (w, fwd)
        | Ok entry =>
            let '(s, evs, result) := doca_flow_entries_process (flow w) in
            let w := set_flow s w in
            let* status := report evs status in
            if negb (bool_decide (result = DOCA_SUCCESS)) then Ret (w, fwd)
            else if negb (nb_processed status =? num_of_entries) || failure status then Ret (w, fwd)
            else let* w := record_entry entry pipe_id w in Ret (w, fwd)
        end
    end.

Definition pipe_control_add_entry (pipe_queue priority pipe_id : Z) (match_ : doca_flow_match)
    (match_mask : option doca_flow_match) (fwd : option doca_flow_fwd) (fw_pipe_id : Z)
    (w : switch_app) : outcome (switch_app * option doca_flow_fwd) :=
  let w := Switch (pipes_manager w) (flow w) (calls w + 1) in
  let* (fwd, result) := resolve_fwd fwd fw_pipe_id w in
  if negb (bool_decide (result = DOCA_SUCCESS)) then Ret (w, fwd)
  else
    let* r := pipes_manager_get_pipe (pipes_manager w) pipe_id in
    match r with
    | Err _ => Ret (w, fwd)
    | Ok pipe =>
        let* (s, r) := doca_flow_pipe_control_add_entry priority pipe match_ match_mask fwd (flow w) in
        let w := set_flow s w in
        match r with
        | Err _ => Ret (w, fwd)
        | Ok entry => let* w := record_entry entry pipe_id w in Ret (w, fwd)
        end
    end.

Definition pipe_destroy (pipe_id : Z) (w : switch_app) : outcome switch_app :=
  let* r := pipes_manager_get_pipe (pipes_manager w) pipe_id in
  match r with
  | Err _ => Ret w
  | Ok pipe =>
      let* (m, result) := pipes_manager_pipe_destroy (pipes_manager w) pipe_id in
      let w := set_manager m w in
      if bool_decide (result = DOCA_SUCCESS) then
        let* s := doca_flow_pipe_destroy pipe (flow w) in Ret (set_flow s w)
      else Ret w
  end.

Definition pipe_rm_entry (pipe_queue entry_id flags : Z) (w : switch_app) : outcome switch_app :=
  let* r := pipes_manager_get_entry (pipes_manager w) entry_id in
  match r with
  | Err _ => Ret w
  | Ok entry =>
      let hws_flag := if negb (flags =? DOCA_FLOW_NO_WAIT) then DOCA_FLOW_NO_WAIT else flags in
      let* (m, result) := pipes_manager_pipe_rm_entry (pipes_manager w) entry_id in
      let w := set_manager m w in
      if bool_decide (result = DOCA_SUCCESS) then
        let* (s, _) := doca_flow_pipe_rm_entry hws_flag entry (flow w) in Ret (set_flow s w)
      else Ret w
  end.

Definition port_pipes_flush (port_id : Z) (w : switch_app) : outcome switch_app :=
  let switch_mode_port_id := 0 in
  if negb (port_id =? switch_mode_port_id) then Ret w
  else
    let* (m, result) := pipes_manager_pipes_flush (pipes_manager w) switch_mode_port_id in
    let w := set_manager m w in
    if bool_decide (result = DOCA_SUCCESS)
    then Ret (set_flow (doca_flow_port_pipes_flush (flow w)) w)
    else Ret w.

(** [None]: the statistics of the caller are left as they were. *)
Definition flow_query (entry_id : Z) (w : switch_app) : outcome (switch_app * option (Z * Z)) :=
  let* r := pipes_manager_get_entry (pipes_manager w) entry_id in
  match r with
  | Err _ => Ret (w, None)
  | Ok entry =>
      let* result := doca_flow_query_entry entry (flow w) in
      Ret (w, match result with Ok stats => Some stats | Err _ => None end)
  end.

Definition port_pipes_dump (port_id fd : Z) (w : switch_app) : outcome switch_app :=
  let switch_mode_port_id := 0 in
  if negb (port_id =? switch_mode_port_id) then Ret w
  else Ret (set_flow (doca_flow_port_pipes_dump fd (flow w)) w).

Definition register_actions_on_flow_parser (p : parser switch_app) : parser switch_app :=
  set_port_pipes_dump port_pipes_dump
    (set_query flow_query
       (set_port_pipes_flush port_pipes_flush
          (set_pipe_rm_entry pipe_rm_entry
             (set_pipe_destroy pipe_destroy
                (set_pipe_control_add_entry pipe_control_add_entry
                   (set_pipe_add_entry pipe_add_entry (set_pipe_create pipe_create p))))))).
End switch.

(** ** The invariant of the application *)

Section invariant.
Context `{HL : RteHashLaws} {api : PipeCfgApi} {L : FlowSdk api} {LL : FlowSdkLaws L}.

(** Every pipe and entry of the manager is a live handle of the library, two
    identifiers never share a handle, all pipes are on port 0, and no addition is
    still waiting for its completion. *)
Record switch_inv (w : switch_app) : Prop := {
  si_mgr : mgr_wf (pipes_manager w);
  si_pipe : forall id x p, has_pipe (pipes_manager w) id x p -> p = 0 /\ live_pipe (flow w) x;
  si_pipe_inj : forall i1 i2 x p1 p2, has_pipe (pipes_manager w) i1 x p1 ->
    has_pipe (pipes_manager w) i2 x p2 -> i1 = i2;
  si_entry : forall e id x, has_entry (pipes_manager w) e id x ->
    exists y p, has_pipe (pipes_manager w) id y p /\ live_entry (flow w) x y;
  si_entry_inj : forall e1 e2 i1 i2 x, has_entry (pipes_manager w) e1 i1 x ->
    has_entry (pipes_manager w) e2 i2 x -> e1 = e2;
  si_pending : pending (flow w) = [];
}.

(** The same manager facts over a library with the same live handles. *)
Lemma switch_inv_ext w w' :
  switch_inv w -> mgr_wf (pipes_manager w') ->
  (forall i x p, has_pipe (pipes_manager w') i x p <-> has_pipe (pipes_manager w) i x p) ->
  (forall e i x, has_entry (pipes_manager w') e i x -> has_entry (pipes_manager w) e i x) ->
  (forall x, live_pipe (flow w) x -> live_pipe (flow w') x) ->
  (forall e i x y, has_entry (pipes_manager w') e i x -> live_entry (flow w) x y ->
     live_entry (flow w') x y) ->
  pending (flow w') = [] -> switch_inv w'.
Proof using Type.
  intros [H1 H2 H3 H4 H5 H6] Hwf Hp He Hlp Hle Hpend. split; [done|..|done].
  - intros id x p Hx%Hp. apply H2 in Hx as [-> Hx]. auto.
  - intros i1 i2 x p1 p2 A%Hp B%Hp. eauto.
  - intros e id x Hx. destruct (H4 e id x) as (y & p & Hy & Hl); [auto|]. exists y, p.
    split; [by apply Hp|]. eauto.
  - intros e1 e2 i1 i2 x A%He B%He. eauto.
Qed.

Lemma same_live_inv w s : switch_inv w -> same_live (flow w) s -> switch_inv (set_flow s w).
Proof using Type.
  intros Hi (Hp & He & Hpend). eapply switch_inv_ext; [exact Hi|apply Hi|done|done|..]; cbn.
  - intros x. by rewrite Hp.
  - intros e i x y _. by rewrite He.
  - rewrite Hpend. apply Hi.
Qed.

Lemma resolve_fwd_spec f id w :
  switch_inv w -> opt_fwd_wf f ->
  exists f' r, resolve_fwd f id w = Ret (f', r) /\ opt_fwd_wf f'
    /\ (r = DOCA_SUCCESS -> target_live (flow w) f').
Proof using HL LL.
  intros Hi Hf. unfold resolve_fwd. destruct f as [f|]; [|by eexists _, _].
  specialize (Hf f eq_refl). case_bool_decide as Ht.
  - destruct (get_pipe_spec _ id (si_mgr _ Hi)) as (r & -> & Hr). destruct r as [x|e].
    + destruct Hr as [port Hx]. apply (si_pipe _ Hi) in Hx as [_ Hx].
      eexists _, _. split; [done|]. split.
      * intros g [= <-]. apply fwd_store_wf; [lia|done].
      * intros _ g [= <-] _. unfold next_pipe, set_next_pipe. cbn.
        rewrite load_store_eq by (unfold fwd_wf in Hf; lia).
        change (live_pipe (flow w) (u64 x)). rewrite uwrap_id; [done|]. by eapply live_pipe_width.
    + eexists _, _. split; [done|]. destruct Hr as [-> _]. split; [by intros ? [= <-]|done].
  - eexists _, _. split; [done|]. split; [by intros ? [= <-]|]. by intros _ g [= <-].
Qed.

Lemma next_call_inv w : switch_inv w -> switch_inv (Switch (pipes_manager w) (flow w) (calls w + 1)).
Proof using Type. intros []. by split. Qed.

Context (alloc_of : Z -> alloc) (Hid : forall n, alloc_id (alloc_of n) = true).

(** A new handle recorded under a new identifier. *)
Lemma new_pipe_inv w w' x id :
  switch_inv w -> mgr_wf (pipes_manager w') -> ~ live_pipe (flow w) x ->
  (forall y, live_pipe (flow w') y <-> y = x \/ live_pipe (flow w) y) ->
  (forall e y, live_entry (flow w') e y <-> live_entry (flow w) e y) ->
  pending (flow w') = pending (flow w) ->
  (forall e i x, has_entry (pipes_manager w') e i x <-> has_entry (pipes_manager w) e i x) ->
  (forall y p, ~ has_pipe (pipes_manager w) id y p) ->
  (forall i y p, has_pipe (pipes_manager w') i y p <->
     i = id /\ y = x /\ p = 0 \/ i <> id /\ has_pipe (pipes_manager w) i y p) ->
  switch_inv w'.
Proof using Type.
  intros Hi Hwf Hnew Hlp Hle Hpend He Hfresh Hp. split; [done|..].
  - intros i y p Hy. apply Hp in Hy as [(-> & -> & ->)|[_ Hy]].
    + split; [done|]. apply Hlp. by left.
    + apply (si_pipe _ Hi) in Hy as [-> Hy]. split; [done|]. apply Hlp. by right.
  - intros i1 i2 y p1 p2 A B. apply Hp in A as [(-> & -> & _)|[_ A]];
      apply Hp in B as [(-> & EB & _)|[_ B]]; subst; try done.
    + by apply (si_pipe _ Hi) in B as [_ ?%Hnew].
    + by apply (si_pipe _ Hi) in A as [_ ?%Hnew].
    + by eapply (si_pipe_inj _ Hi).
  - intros e i y Hy%He. destruct (si_entry _ Hi _ _ _ Hy) as (z & p & Hz & Hl).
    exists z, p. split; [|by apply Hle]. apply Hp. right. split; [|done].
    intros ->. by eapply Hfresh.
  - intros e1 e2 i1 i2 y A%He B%He. by eapply (si_entry_inj _ Hi).
  - rewrite Hpend. apply Hi.
Qed.

Lemma pipe_create_safe cfg port f n fm nm w :
  switch_inv w -> opt_fwd_wf f -> opt_fwd_wf fm ->
  exists w' f' fm', pipe_create alloc_of cfg port f n fm nm w = Ret (w', f', fm')
    /\ switch_inv w' /\ opt_fwd_wf f' /\ opt_fwd_wf fm'.
Proof using HL LL Hid.
  intros Hi%next_call_inv Hf Hfm. unfold pipe_create.
  set (w1 := Switch _ _ _) in *. clearbody w1.
  destruct (cfg_set_enable_strict_matching true cfg) as [cfg' r0].
  destruct (negb _); [by eexists _, _, _|].
  destruct (resolve_fwd_spec f n w1 Hi Hf) as (f' & r1 & -> & Hf' & Hlf).
  case_bool_decide; cbn [negb]; [|by eexists _, _, _].
  destruct (resolve_fwd_spec fm nm w1 Hi Hfm) as (fm' & r2 & -> & Hfm' & Hlfm).
  case_bool_decide; cbn [negb]; [|by eexists _, _, _].
  destruct (sdk_create cfg' f' fm' (flow w1)) as (s & r & -> & Hr); [auto..|].
  destruct r as [x|e]; [|eexists _, _, _; split; [done|]; by split; [apply same_live_inv|]].
  destruct Hr as (Hnew & Hnoe & Hlp & Hle & Hpend). cbn [pipes_manager set_flow flow calls].
  destruct (pipe_create_spec (alloc_of (calls w1)) (pipes_manager w1) x (sdk_object x s) 0
              (si_mgr _ Hi) (Hid _)) as (m & r & -> & Hwf & He & Hr). destruct r as [id|e].
  - eexists _, _, _. split; [done|]. split; [|done]. destruct Hr as (_ & Hfresh & Hp).
    by apply (new_pipe_inv w1 _ x id).
  - cbn [set_manager set_flow flow pipes_manager calls].
    destruct (sdk_destroy x s) as (s' & -> & Hlp' & Hle' & Hpend'); [apply Hlp; by left|].
    eexists _, _, _. split; [done|]. split; [|done].
    eapply switch_inv_ext; [exact Hi|exact Hwf|exact Hr|..]; cbn.
    + intros e' i y. apply He.
    + intros y Hy. apply Hlp'. split; [by intros ->|]. apply Hlp. by right.
    + intros e' i y z Hy Hl. apply Hle'. split; [|by apply Hle]. intros ->. by eapply Hnoe.
    + rewrite Hpend', Hpend. apply Hi.
Qed.

(** An entry added to the pipe of an identifier: recording it restores the
    invariant from that of the state before the addition. *)
Lemma record_entry_safe w w0 e x pipe_id p :
  switch_inv w0 -> pipes_manager w = pipes_manager w0 ->
  has_pipe (pipes_manager w0) pipe_id x p ->
  (forall y, ~ live_entry (flow w0) e y) ->
  (forall y, live_pipe (flow w) y <-> live_pipe (flow w0) y) ->
  (forall e' y, live_entry (flow w) e' y <-> e' = e /\ y = x \/ live_entry (flow w0) e' y) ->
  pending (flow w) = [] ->
  exists w', record_entry alloc_of e pipe_id w = Ret w' /\ switch_inv w'.
Proof using HL LL Hid.
  intros Hi Hm Hx Hnew Hlp Hle Hpend. unfold record_entry. rewrite Hm.
  destruct (add_entry_spec (alloc_of (calls w)) (pipes_manager w0) e (sdk_object e (flow w)) pipe_id
              (si_mgr _ Hi) (Hid _)) as (m & r & -> & Hwf & Hp & Hr).
  assert (forall e' i y, has_entry (pipes_manager w0) e' i y -> y <> e) as Hne.
  { intros e' i y Hy ->. destruct (si_entry _ Hi _ _ _ Hy) as (z & q & _ & Hl). by eapply Hnew. }
  destruct r as [id|err].
  - eexists. split; [done|]. destruct Hr as (_ & _ & He). split; cbn; [done|..|done].
    + intros i y q Hy%Hp. apply (si_pipe _ Hi) in Hy as [-> Hy]. split; [done|]. by apply Hlp.
    + intros i1 i2 y p1 p2 A%Hp B%Hp. by eapply (si_pipe_inj _ Hi).
    + intros e' i y Hy. apply He in Hy as [(-> & -> & ->)|[_ Hy]].
      * exists x, p. split; [by apply Hp|]. apply Hle. by left.
      * destruct (si_entry _ Hi _ _ _ Hy) as (z & q & Hz & Hl). exists z, q.
        split; [by apply Hp|]. apply Hle. by right.
    + intros e1 e2 i1 i2 y A B. apply He in A as [(-> & -> & ->)|[_ A]];
        apply He in B as [(-> & -> & EB)|[_ B]]; subst; try done.
      * by apply Hne in B.
      * by apply Hne in A.
      * by eapply (si_entry_inj _ Hi).
  - cbn [set_manager flow].
    destruct (sdk_rm DOCA_FLOW_NO_WAIT e x (flow w)) as (s & r & -> & Hlp' & Hle' & Hpend');
      [apply Hle; by left|].
    eexists. split; [done|]. eapply switch_inv_ext; [exact Hi|exact Hwf|exact Hp|..]; cbn.
    + intros e' i y. apply Hr.
    + intros y Hy. by apply Hlp', Hlp.
    + intros e' i y z Hy%Hr Hl. apply Hle'; [by eapply Hne|]. apply Hle. by right.
    + by rewrite Hpend'.
Qed.

Lemma pipe_add_entry_safe q id m a mo f n fl w :
  prompt -> switch_inv w -> opt_fwd_wf f ->
  exists w' f', pipe_add_entry alloc_of q id m a mo f n fl w = Ret (w', f')
    /\ switch_inv w' /\ opt_fwd_wf f'.
Proof using HL LL Hid.
  intros Hprompt Hi%next_call_inv Hf. unfold pipe_add_entry.
  set (w1 := Switch _ _ _) in *. clearbody w1.
  destruct (resolve_fwd_spec f n w1 Hi Hf) as (f' & r1 & -> & Hf' & Hlf).
  case_bool_decide; cbn [negb]; [|by eexists _, _].
  destruct (get_pipe_spec _ id (si_mgr _ Hi)) as (r & -> & Hr). destruct r as [x|e]; [|by eexists _, _].
  destruct Hr as [p Hx]. destruct (si_pipe _ Hi _ _ _ Hx) as [-> Hlx]. cbn [es_frame].
  match goal with |- context [doca_flow_pipe_add_entry x m a mo f' ?fl' ?c ?s] =>
    destruct (sdk_add x m a mo f' fl' c s Hlx) as (s1 & r & -> & Hadd); [auto|] end.
  destruct r as [e|err]; [|eexists _, _; split; [done|]; split; [by apply same_live_inv|done]].
  destruct Hadd as (Hnew & Hlp & Hle & Hpend). cbn [set_flow flow].
  destruct (doca_flow_entries_process s1) as [[s2 evs] r] eqn:Eproc.
  destruct (sdk_process _ _ _ _ Eproc) as (Hlp2 & Hle2 & Hperm). pose proof (Hprompt _ _ _ _ Eproc) as Hp2.
  rewrite Hp2, app_nil_r, Hpend, (si_pending _ Hi) in Hperm. cbn [app] in Hperm.
  destruct (report_own evs (EntriesStatus (calls w1) false 0)) as (st & -> & _ & _).
  { intros c Hc. rewrite Hperm, list_elem_of_singleton in Hc. by subst. }
  assert (switch_inv (set_flow s2 (set_flow s1 w1))) as Hi2.
  { eapply switch_inv_ext; [exact Hi|apply Hi|done|done|..]; cbn; [| |done].
    - intros y Hy. by apply Hlp2, Hlp.
    - intros e' i y z _ Hl. apply Hle2, Hle. by right. }
  case_bool_decide; cbn [negb]; [|by eexists _, _]. destruct (_ || _); [by eexists _, _|].
  destruct (record_entry_safe (set_flow s2 (set_flow s1 w1)) w1 e x id 0)
    as (w' & -> & Hi'); try done; cbn; [| |by eexists _, _].
  - intros y. rewrite Hlp2. apply Hlp.
  - intros e' y. rewrite Hle2. apply Hle.
Qed.

Lemma pipe_control_add_entry_safe q pr id m k f n w :
  switch_inv w -> opt_fwd_wf f ->
  exists w' f', pipe_control_add_entry alloc_of q pr id m k f n w = Ret (w', f')
    /\ switch_inv w' /\ opt_fwd_wf f'.
Proof using HL LL Hid.
  intros Hi%next_call_inv Hf. unfold pipe_control_add_entry.
  set (w1 := Switch _ _ _) in *. clearbody w1.
  destruct (resolve_fwd_spec f n w1 Hi Hf) as (f' & r1 & -> & Hf' & Hlf).
  case_bool_decide; cbn [negb]; [|by eexists _, _].
  destruct (get_pipe_spec _ id (si_mgr _ Hi)) as (r & -> & Hr). destruct r as [x|e]; [|by eexists _, _].
  destruct Hr as [p Hx]. destruct (si_pipe _ Hi _ _ _ Hx) as [-> Hlx].
  destruct (sdk_control pr x m k f' (flow w1) Hlx) as (s1 & r & -> & Hadd); [auto|].
  destruct r as [e|err]; [|eexists _, _; split; [done|]; split; [by apply same_live_inv|done]].
  destruct Hadd as (Hnew & Hlp & Hle & Hpend). rewrite (si_pending _ Hi) in Hpend.
  destruct (record_entry_safe (set_flow s1 w1) w1 e x id 0) as (w' & -> & Hi'); try done.
  by eexists _, _.
Qed.

Lemma pipe_destroy_safe id w :
  switch_inv w -> exists w', pipe_destroy id w = Ret w' /\ switch_inv w'.
Proof using HL LL.
  intros Hi. unfold pipe_destroy.
  destruct (get_pipe_spec _ id (si_mgr _ Hi)) as (r & -> & Hr). destruct r as [x|e]; [|by eexists].
  destruct Hr as [p Hx]. destruct (si_pipe _ Hi _ _ _ Hx) as [-> Hlx].
  destruct (pipes_manager_pipe_destroy_wf _ id (si_mgr _ Hi)) as (m & r & E & Hwf). rewrite E.
  destruct (pipe_destroy_sub _ _ _ _ (si_mgr _ Hi) E) as (Hr & Hp & He).
  case_bool_decide as Hs; [|destruct Hr as [?| ->]; [done|]; eexists; split; [done|]; by destruct w].
  specialize (Hp Hs). specialize (He Hs). cbn [set_manager flow].
  destruct (sdk_destroy x (flow w) Hlx) as (s & -> & Hlp & Hle & Hpend).
  eexists. split; [done|]. split; cbn; [done|..].
  - intros i y q [Hne Hy]%Hp. destruct (si_pipe _ Hi _ _ _ Hy) as [-> Hly]. split; [done|].
    apply Hlp. split; [|done]. intros ->. by apply Hne, (si_pipe_inj _ Hi i id x 0 0).
  - intros i1 i2 y p1 p2 [_ A]%Hp [_ B]%Hp. by eapply (si_pipe_inj _ Hi).
  - intros e i y [Hne Hy]%He. destruct (si_entry _ Hi _ _ _ Hy) as (z & q & Hz & Hl). exists z, q.
    split; [by apply Hp|]. apply Hle. split; [|done]. intros ->.
    by apply Hne, (si_pipe_inj _ Hi i id x q 0).
  - intros e1 e2 i1 i2 y [_ A]%He [_ B]%He. by eapply (si_entry_inj _ Hi).
  - rewrite Hpend. apply Hi.
Qed.

Lemma pipe_rm_entry_safe q id fl w :
  switch_inv w -> exists w', pipe_rm_entry q id fl w = Ret w' /\ switch_inv w'.
Proof using HL LL.
  intros Hi. unfold pipe_rm_entry.
  destruct (get_entry_spec _ id (si_mgr _ Hi)) as (r & -> & Hr). destruct r as [x|e]; [|by eexists].
  destruct Hr as [i Hx]. destruct (si_entry _ Hi _ _ _ Hx) as (y & p & Hy & Hl).
  destruct (rm_entry_spec _ id (si_mgr _ Hi)) as (m & r & -> & Hwf & Hr & Hp & He).
  assert (switch_inv (set_manager m w)) as Hi1.
  { eapply switch_inv_ext; [exact Hi|exact Hwf|exact Hp|..]; try done; [|apply Hi].
    cbn. intros e' i' z [_ ?]%He. done. }
  case_bool_decide as Hs; [|by eexists]. cbn [set_manager flow].
  match goal with |- context [doca_flow_pipe_rm_entry ?fl' x ?s] =>
    destruct (sdk_rm fl' x y s Hl) as (s' & r' & -> & Hlp & Hle & Hpend) end.
  eexists. split; [done|]. eapply switch_inv_ext; [exact Hi1|apply Hi1|done|done|..]; cbn.
  - intros z. apply Hlp.
  - intros e' i' z v [Hne Hz]%He. apply Hle. intros ->. by eapply Hne, (si_entry_inj _ Hi).
  - rewrite Hpend. apply Hi.
Qed.

Lemma port_pipes_flush_safe port w :
  switch_inv w -> exists w', port_pipes_flush port w = Ret w' /\ switch_inv w'.
Proof using HL LL.
  intros Hi. unfold port_pipes_flush. destruct (negb _); [by eexists|].
  destruct (pipes_flush_spec _ 0 (si_mgr _ Hi)) as (m & r & E & Hwf & Hr & Hp & _). rewrite E.
  assert (forall i y p, ~ has_pipe m i y p) as Hnp.
  { intros i y p [Hne Hy]%Hp. by destruct (si_pipe _ Hi _ _ _ Hy). }
  assert (forall e i y, ~ has_entry m e i y) as Hne.
  { intros e i y Hy. destruct (has_entry_pipe _ _ _ _ Hwf Hy) as (z & p & Hz). by eapply Hnp. }
  assert (forall s, pending s = [] -> switch_inv (Switch m s (calls w))) as Hany.
  { intros s Hs. split; cbn; [done|..|done]; intros; exfalso;
      first [by eapply Hnp | by eapply Hne]. }
  case_bool_decide; eexists; (split; [done|]); apply Hany; cbn; [rewrite sdk_flush|]; apply Hi.
Qed.

Lemma flow_query_safe id w :
  switch_inv w -> exists st, flow_query id w = Ret (w, st).
Proof using HL LL.
  intros Hi. unfold flow_query.
  destruct (get_entry_spec _ id (si_mgr _ Hi)) as (r & -> & Hr). destruct r as [x|e]; [|by eexists].
  destruct Hr as [i Hx]. destruct (si_entry _ Hi _ _ _ Hx) as (y & p & Hy & Hl).
  destruct (sdk_query x y (flow w) Hl) as [r ->]. by eexists.
Qed.

Lemma port_pipes_dump_safe port fd w :
  switch_inv w -> exists w', port_pipes_dump port fd w = Ret w' /\ switch_inv w'.
Proof using LL.
  intros Hi. unfold port_pipes_dump. destruct (negb _); [by eexists|].
  eexists. split; [done|]. apply same_live_inv; [done|]. apply sdk_dump.
Qed.
End invariant.

(** ** Sequences of calls *)

Inductive switch_op {api : PipeCfgApi} : Type :=
| SwCreate (cfg : pipe_cfg) (port : Z) (fwd : option doca_flow_fwd) (fw_id : Z)
    (fwd_miss : option doca_flow_fwd) (fw_miss_id : Z)
| SwAdd (queue pipe_id : Z) (m : doca_flow_match) (a : doca_flow_actions)
    (mo : option doca_flow_monitor) (fwd : option doca_flow_fwd) (fw_id flags : Z)
| SwControl (queue priority pipe_id : Z) (m : doca_flow_match) (k : option doca_flow_match)
    (fwd : option doca_flow_fwd) (fw_id : Z)
| SwDestroy (pipe_id : Z)
| SwRm (queue entry_id flags : Z)
| SwFlush (port : Z)
| SwQuery (entry_id : Z)
| SwDump (port fd : Z).

Definition switch_op_wf {api : PipeCfgApi} (o : switch_op) : Prop :=
  match o with
  | SwCreate _ _ f _ fm _ => opt_fwd_wf f /\ opt_fwd_wf fm
  | SwAdd _ _ _ _ _ f _ _ | SwControl _ _ _ _ _ f _ => opt_fwd_wf f
  | _ => True
  end.

Section sequences.
Context `{RteHash} {api : PipeCfgApi} {L : FlowSdk api} (alloc_of : Z -> alloc).

Definition run_switch_op (o : switch_op) (w : switch_app) : outcome switch_app :=
  match o with
  | SwCreate cfg port f n fm nm =>
      let* (w, _, _) := pipe_create alloc_of cfg port f n fm nm w in Ret w
  | SwAdd q i m a mo f n fl => let* (w, _) := pipe_add_entry alloc_of q i m a mo f n fl w in Ret w
  | SwControl q pr i m k f n =>
      let* (w, _) := pipe_control_add_entry alloc_of q pr i m k f n w in Ret w
  | SwDestroy i => pipe_destroy i w
  | SwRm q i fl => pipe_rm_entry q i fl w
  | SwFlush port => port_pipes_flush port w
  | SwQuery i => let* (w, _) := flow_query i w in Ret w
  | SwDump port fd => port_pipes_dump port fd w
  end.

Fixpoint run_switch (os : list switch_op) (w : switch_app) : outcome switch_app :=
  match os with
  | [] => Ret w
  | o :: os' => let* w := run_switch_op o w in run_switch os' w
  end.
End sequences.

Section properties.
Context `{HL : RteHashLaws} {api : PipeCfgApi} {L : FlowSdk api} {LL : FlowSdkLaws L}.
Context (alloc_of : Z -> alloc).

Lemma run_switch_op_safe o w :
  (forall n, alloc_id (alloc_of n) = true) -> prompt -> switch_op_wf o -> switch_inv w ->
  exists w', run_switch_op alloc_of o w = Ret w' /\ switch_inv w'.
Proof using HL LL.
  intros Hid Hpr Ho Hi. destruct o; cbn [run_switch_op].
  - destruct Ho as [Hf Hfm].
    destruct (pipe_create_safe alloc_of Hid cfg port fwd fw_id fwd_miss fw_miss_id w Hi Hf Hfm)
      as (w' & f' & fm' & -> & Hi' & _). by eexists.
  - destruct (pipe_add_entry_safe alloc_of Hid queue pipe_id m a mo fwd fw_id flags w Hpr Hi Ho)
      as (w' & f' & -> & Hi' & _). by eexists.
  - destruct (pipe_control_add_entry_safe alloc_of Hid queue priority pipe_id m k fwd fw_id w Hi Ho)
      as (w' & f' & -> & Hi' & _). by eexists.
  - by apply pipe_destroy_safe.
  - by apply pipe_rm_entry_safe.
  - by apply port_pipes_flush_safe.
  - destruct (flow_query_safe entry_id w Hi) as [st ->]. by eexists.
  - by apply port_pipes_dump_safe.
Qed.

Lemma fresh_switch_inv m s n :
  create_pipes_manager true true true true = Ok m -> pending s = [] -> switch_inv (Switch m s n).
Proof using HL.
  intros E Hs. pose proof (create_manager_wf _ E) as Hwf. injection E as <-.
  assert (forall id x p, ~ has_pipe (Manager ht_new ht_new ht_new ∅ ∅ 1) id x p) as Hp.
  { intros id x p (pos & a & info & pp & Hl & _). cbn in Hl. by rewrite ht_lookup_new in Hl. }
  assert (forall e id x, ~ has_entry (Manager ht_new ht_new ht_new ∅ ∅ 1) e id x) as He.
  { intros e id x (ep & pos & a & info & xp & Hl & _). cbn in Hl. by rewrite ht_lookup_new in Hl. }
  split; cbn; [done|..|done]; intros; exfalso; first [by eapply Hp | by eapply He].
Qed.

Lemma resolve_fwd_wf f id (w : switch_app) f' r :
  resolve_fwd f id w = Ret (f', r) -> opt_fwd_wf f -> opt_fwd_wf f'.
Proof using Type.
  unfold resolve_fwd. intros E Hf. destruct f as [f|]; [|by inv_ret].
  case_bool_decide; [|by inv_ret]. obind E. destruct a; inv_ret; [|done].
  intros g [= <-]. apply fwd_store_wf; [lia|]. by apply Hf.
Qed.

(** The callbacks give the forwards back well formed. *)
Lemma pipe_create_wf cfg port f n fm nm w w' f' fm' :
  opt_fwd_wf f -> opt_fwd_wf fm ->
  pipe_create alloc_of cfg port f n fm nm w = Ret (w', f', fm') -> opt_fwd_wf f' /\ opt_fwd_wf fm'.
Proof using Type.
  unfold pipe_create. intros Hf Hfm E. destruct (cfg_set_enable_strict_matching true cfg) as [c r].
  destruct (negb _); [by inv_ret|]. obind E. destruct a as [f1 r1]. apply resolve_fwd_wf in E0; [|done].
  destruct (negb _); [by inv_ret|]. obind E. destruct a as [fm1 r2]. apply resolve_fwd_wf in E1; [|done].
  destruct (negb _); [by inv_ret|]. obind E. destruct a as [s r3]. destruct r3; [|by inv_ret].
  obind E. destruct a0 as [m r3]. destruct r3; [by inv_ret|]. obind E. by inv_ret.
Qed.

Lemma pipe_add_entry_wf q i m a mo f n fl w w' f' :
  opt_fwd_wf f -> pipe_add_entry alloc_of q i m a mo f n fl w = Ret (w', f') -> opt_fwd_wf f'.
Proof using Type.
  unfold pipe_add_entry. intros Hf E. obind E. destruct a0 as [f1 r1].
  apply resolve_fwd_wf in E0; [|done]. destruct (negb _); [by inv_ret|].
  obind E. destruct a0; [|by inv_ret]. obind E. destruct a1 as [s r2]. destruct r2; [|by inv_ret].
  destruct (doca_flow_entries_process _) as [[s2 evs] r]. obind E. destruct (negb (bool_decide _)); [by inv_ret|].
  destruct (_ || _); [by inv_ret|]. obind E. by inv_ret.
Qed.

Lemma pipe_control_add_entry_wf q pr i m k f n w w' f' :
  opt_fwd_wf f -> pipe_control_add_entry alloc_of q pr i m k f n w = Ret (w', f') -> opt_fwd_wf f'.
Proof using Type.
  unfold pipe_control_add_entry. intros Hf E. obind E. destruct a as [f1 r1].
  apply resolve_fwd_wf in E0; [|done]. destruct (negb _); [by inv_ret|].
  obind E. destruct a; [|by inv_ret]. obind E. destruct a0 as [s r2]. destruct r2; [|by inv_ret].
  obind E. by inv_ret.
Qed.

Lemma registered_ok p : callbacks_ok (cbs_ (register_actions_on_flow_parser alloc_of p)).
Proof using Type.
  split; cbn.
  - intros cb cfg port f n fm nm w w' f' fm' [= <-]. apply pipe_create_wf.
  - intros cb q i m a mo f n fl w w' f' [= <-]. apply pipe_add_entry_wf.
  - intros cb q pr i m k f n w w' f' [= <-]. apply pipe_control_add_entry_wf.
Qed.

Lemma registered_keep p :
  (forall n, alloc_id (alloc_of n) = true) -> prompt ->
  add_fw_entry_func (cbs_ p) = None -> remove_fw_entry_func (cbs_ p) = None ->
  callbacks_keep switch_inv (cbs_ (register_actions_on_flow_parser alloc_of p)).
Proof using HL LL.
  intros Hid Hpr Hfa Hfr. split; cbn.
  - intros cb cfg port f n fm nm w r [= <-] Hf Hfm Hi E.
    destruct (pipe_create_safe alloc_of Hid cfg port f n fm nm w Hi Hf Hfm)
      as (w' & f' & fm' & E' & Hi' & _). rewrite E in E'. by injection E' as ->.
  - intros cb q i m a mo f n fl w r [= <-] Hf Hi E.
    destruct (pipe_add_entry_safe alloc_of Hid q i m a mo f n fl w Hpr Hi Hf)
      as (w' & f' & E' & Hi' & _). rewrite E in E'. by injection E' as ->.
  - intros cb port m w w' E. by rewrite Hfa in E.
  - intros cb q pr i m k f n w r [= <-] Hf Hi E.
    destruct (pipe_control_add_entry_safe alloc_of Hid q pr i m k f n w Hi Hf)
      as (w' & f' & E' & Hi' & _). rewrite E in E'. by injection E' as ->.
  - intros cb i w w' [= <-] Hi E. destruct (pipe_destroy_safe i w Hi) as (w2 & E' & Hi'). congruence.
  - intros cb q i fl w w' [= <-] Hi E. destruct (pipe_rm_entry_safe q i fl w Hi) as (w2 & E' & Hi').
    congruence.
  - intros cb i w w' E. by rewrite Hfr in E.
  - intros cb port w w' [= <-] Hi E. destruct (port_pipes_flush_safe port w Hi) as (w2 & E' & Hi').
    congruence.
  - intros cb i w r [= <-] Hi E. destruct (flow_query_safe i w Hi) as [st E']. rewrite E in E'.
    by injection E' as ->.
  - intros cb port fd w w' [= <-] Hi E. destruct (port_pipes_dump_safe port fd w Hi) as (w2 & E' & Hi').
    congruence.
Qed.

Lemma registered_return p :
  (forall n, alloc_id (alloc_of n) = true) -> prompt ->
  add_fw_entry_func (cbs_ p) = None -> remove_fw_entry_func (cbs_ p) = None ->
  callbacks_return switch_inv (cbs_ (register_actions_on_flow_parser alloc_of p)).
Proof using HL LL.
  intros Hid Hpr Hfa Hfr. split; cbn.
  - intros cb cfg port f n fm nm w [= <-] Hf Hfm Hi.
    destruct (pipe_create_safe alloc_of Hid cfg port f n fm nm w Hi Hf Hfm) as (w' & f' & fm' & -> & _). by eexists.
  - intros cb q i m a mo f n fl w [= <-] Hf Hi.
    destruct (pipe_add_entry_safe alloc_of Hid q i m a mo f n fl w Hpr Hi Hf) as (w' & f' & -> & _). by eexists.
  - intros cb port m w E. by rewrite Hfa in E.
  - intros cb q pr i m k f n w [= <-] Hf Hi.
    destruct (pipe_control_add_entry_safe alloc_of Hid q pr i m k f n w Hi Hf) as (w' & f' & -> & _). by eexists.
  - intros cb i w [= <-] Hi. destruct (pipe_destroy_safe i w Hi) as (w2 & -> & _). by eexists.
  - intros cb q i fl w [= <-] Hi. destruct (pipe_rm_entry_safe q i fl w Hi) as (w2 & -> & _). by eexists.
  - intros cb i w E. by rewrite Hfr in E.
  - intros cb port w [= <-] Hi. destruct (port_pipes_flush_safe port w Hi) as (w2 & -> & _). by eexists.
  - intros cb i w [= <-] Hi. destruct (flow_query_safe i w Hi) as [st ->]. by eexists.
  - intros cb port fd w [= <-] Hi. destruct (port_pipes_dump_safe port fd w Hi) as (w2 & -> & _). by eexists.
Qed.

Lemma register_wf p : parser_wf p -> parser_wf (register_actions_on_flow_parser alloc_of p).
Proof using Type. intros Hp. unfold register_actions_on_flow_parser. by do 8 apply set_callbacks_wf. Qed.

Lemma cbs_reset (p : parser switch_app) : cbs_ (reset_doca_flow_structs p) = cbs_ p.
Proof using Type. done. Qed.
End properties.

(** Handle safety: whatever the command line asks of the switch, in any order, no
    call uses a pipe or an entry after it was destroyed, and the manager and the
    library keep agreeing on what is live (given that the unchecked allocations of
    identifiers succeed and the library completes an addition in time). *)
Theorem switch_callbacks_safe `{HL : RteHashLaws} {api : PipeCfgApi} {L : FlowSdk api}
    {LL : FlowSdkLaws L} alloc_of m s n os :
  (forall n, alloc_id (alloc_of n) = true) -> prompt ->
  create_pipes_manager true true true true = Ok m -> pending s = [] ->
  Forall switch_op_wf os ->
  exists w, run_switch alloc_of os (Switch m s n) = Ret w /\ switch_inv w.
Proof.
  intros Hid Hpr Hm Hs Hos. pose proof (fresh_switch_inv m s n Hm Hs) as Hi.
  revert Hi. generalize (Switch m s n). induction Hos as [|o os Ho _ IH]; intros w Hi; cbn [run_switch].
  - by eexists.
  - destruct (run_switch_op_safe alloc_of o w Hid Hpr Ho Hi) as (w' & -> & Hi'). by apply IH.
Qed.


(** ** A small library *)

Module MiniSdk.

(** Handles are consecutive numbers.  [slow] keeps the newest addition back. *)
Record mini : Type := Mini {
  next : Z;
  pipes : list Z;
  entries : list (Z * Z);
  waiting : list (option Z);
}.

Section mini.
Context {api : PipeCfgApi} (slow : bool).

Definition target_ok (s : mini) (f : option doca_flow_fwd) : bool :=
  match f with
  | Some x => negb (bool_decide (fwd_type x = DOCA_FLOW_FWD_PIPE))
              || bool_decide (next_pipe x ∈ pipes s)
  | None => true
  end.

Definition valid (s : mini) (x : Z) (f fm : option doca_flow_fwd) : bool :=
  bool_decide (x ∈ pipes s) && target_ok s f && target_ok s fm.

Definition create (cfg : pipe_cfg) (f fm : option doca_flow_fwd) (s : mini) : outcome (mini * res Z) :=
  if target_ok s f && target_ok s fm then
    if bool_decide (in_width 64 (next s) /\ Forall (fun x => x < next s) (pipes s)
                    /\ Forall (fun e => e.2 < next s) (entries s))
    then Ret (Mini (next s + 1) (next s :: pipes s) (entries s) (waiting s), Ok (next s))
    else Ret (s, Err DOCA_ERROR_NO_MEMORY)
  else Undef DanglingPointer.

Definition destroy (x : Z) (s : mini) : outcome mini :=
  if bool_decide (x ∈ pipes s) then
    Ret (Mini (next s) (filter (fun y => y <> x) (pipes s))
           (filter (fun e => e.2 <> x) (entries s)) (waiting s))
  else Undef DanglingPointer.

Definition add (x : Z) (f : option doca_flow_fwd) (ctxs : list (option Z)) (s : mini)
    : outcome (mini * res Z) :=
  if valid s x f None then
    if bool_decide (Forall (fun e => e.1 < next s) (entries s))
    then Ret (Mini (next s + 1) (pipes s) ((next s, x) :: entries s) (waiting s ++ ctxs), Ok (next s))
    else Ret (s, Err DOCA_ERROR_NO_MEMORY)
  else Undef DanglingPointer.

Definition process (s : mini) : mini * list entry_event * doca_error_t :=
  let n := if slow then (length (waiting s) - 1)%nat else length (waiting s) in
  (Mini (next s) (pipes s) (entries s) (drop n (waiting s)),
   map (Event true DOCA_FLOW_ENTRY_OP_ADD) (take n (waiting s)), DOCA_SUCCESS).

Definition entry_ok (e : Z) (s : mini) : bool := bool_decide (Exists (fun x => x.1 = e) (entries s)).

Definition rm (fl e : Z) (s : mini) : outcome (mini * doca_error_t) :=
  if entry_ok e s
  then Ret (Mini (next s) (pipes s) (filter (fun x => x.1 <> e) (entries s)) (waiting s), DOCA_SUCCESS)
  else Undef DanglingPointer.

Definition query (e : Z) (s : mini) : outcome (res (Z * Z)) :=
  if entry_ok e s then Ret (Ok (0, 0)) else Undef DanglingPointer.

#[local] Instance mini_sdk : FlowSdk api := {
  sdk := mini;
  cfg_set_enable_strict_matching _ cfg := (cfg, DOCA_SUCCESS);
  doca_flow_pipe_create := create;
  doca_flow_pipe_destroy := destroy;
  doca_flow_pipe_add_entry x _ _ _ f _ ctx := add x f [ctx];
  doca_flow_pipe_control_add_entry _ x _ _ f := add x f [];
  doca_flow_entries_process := process;
  doca_flow_pipe_rm_entry := rm;
  doca_flow_port_pipes_flush s := Mini (next s) [] [] (waiting s);
  doca_flow_query_entry := query;
  doca_flow_port_pipes_dump _ s := s;
  sdk_object x _ := le_bytes 8 x;
  live_pipe s x := in_width 64 x /\ x ∈ pipes s;
  live_entry s e x := (e, x) ∈ entries s;
  pending := waiting;
}.

Lemma target_ok_live (s : mini) f : target_live s f -> target_ok s f = true.
Proof using Type.
  intros Hf. destruct f as [x|]; [|done]. cbn. case_bool_decide; [|done]. cbn.
  apply bool_decide_eq_true_2. by apply (Hf x).
Qed.

Lemma add_law x f ctxs (s : mini) :
  live_pipe s x -> target_live s f ->
  exists s' r, add x f ctxs s = Ret (s', r) /\ entry_added s s' x r ctxs.
Proof using Type.
  intros [Hw Hx] Hf%target_ok_live. unfold add, valid. rewrite bool_decide_eq_true_2, Hf by done.
  cbn. case_bool_decide as Hn.
  - eexists _, _. split; [done|]. cbn. split_and!.
    + intros y Hy. rewrite Forall_forall in Hn. apply Hn in Hy. cbn in Hy. lia.
    + done.
    + intros e' y. rewrite elem_of_cons. naive_solver.
    + done.
  - eexists _, _. split; [done|]. done.
Qed.

Lemma entry_ok_live e x (s : mini) : live_entry s e x -> entry_ok e s = true.
Proof using Type.
  intros He. apply bool_decide_eq_true_2, Exists_exists. by exists (e, x).
Qed.

Lemma mini_laws : FlowSdkLaws mini_sdk.
Proof using Type.
  split; cbn.
  - by intros s x [? _].
  - intros cfg f fm s Hf%target_ok_live Hfm%target_ok_live. unfold create. rewrite Hf, Hfm. cbn.
    case_bool_decide as Hn; [|by eexists _, _].
    destruct Hn as (Hw & Hn & He). eexists _, _. split; [done|]. cbn. rewrite Forall_forall in Hn.
    rewrite Forall_forall in He. split_and!; [|intros e Hx%He; cbn in Hx; lia| |done|done].
    + intros [_ Hx%Hn]. lia.
    + intros y. rewrite elem_of_cons. naive_solver.
  - intros x s [Hw Hx]. unfold destroy. rewrite bool_decide_eq_true_2 by done. eexists. split; [done|].
    cbn. split_and!; [| |done]; intros; rewrite list_elem_of_filter; naive_solver.
  - intros x m a mo f fl ctx s Hx Hf. by apply add_law.
  - intros pr x m k f s Hx Hf. by apply add_law.
  - intros s s' evs r [= <- <- <-]. cbn. split_and!; [done|done|].
    assert (forall l, added_ctxs (map (Event true DOCA_FLOW_ENTRY_OP_ADD) l) = l) as ->.
    { induction l as [|c l IH]; [done|]. unfold added_ctxs in *. cbn [map].
      rewrite filter_cons_True by done. cbn. by rewrite IH. }
    by rewrite take_drop.
  - intros fl e x s He. unfold rm. rewrite (entry_ok_live e x s He). eexists _, _. split; [done|].
    cbn. split_and!; [done| |done]. intros e' y Hne. rewrite list_elem_of_filter. naive_solver.
  - done.
  - intros e x s He. unfold query. rewrite (entry_ok_live e x s He). by eexists.
  - by intros fd s.
Qed.
End mini.

Lemma mini_prompt {api : PipeCfgApi} : prompt (H := mini_sdk false).
Proof. intros s s' evs r [= <- <- <-]. cbn. by rewrite drop_all. Qed.

Definition start : mini := Mini 100 [] [] [].
End MiniSdk.

(** ** Faults of the application *)

Lemma report_stale evs st c :
  Some c ∈ added_ctxs evs -> c <> es_frame st -> report evs st = Undef DanglingPointer.
Proof.
  intros Hin. revert st. induction evs as [|[ok op ctx] evs IH]; intros st Hc.
  { by apply not_elem_of_nil in Hin. }
  cbn [report]. unfold check_for_valid_entry. cbn [ev_user_ctx ev_op ev_success].
  unfold added_ctxs in *. destruct (decide (op = DOCA_FLOW_ENTRY_OP_ADD)) as [->|Hop].
  - rewrite filter_cons_True in Hin by done. cbn [map ev_user_ctx] in Hin.
    apply elem_of_cons in Hin as [<-|Hin].
    + rewrite bool_decide_eq_false_2 by (intros Hn; by apply Hn).
      by rewrite (proj2 (Z.eqb_neq c (es_frame st)) Hc).
    + destruct ctx as [f|]; [|by apply IH].
      rewrite bool_decide_eq_false_2 by (intros Hn; by apply Hn).
      destruct (f =? es_frame st); [|done]. cbn [require]. apply IH; [done|]. by destruct ok.
  - rewrite filter_cons_False in Hin by done. rewrite bool_decide_eq_true_2 by done.
    destruct ctx; by apply IH.
Qed.

(** When the library reports the completion of an entry of an earlier call, which
    gave up waiting, the callback writes through the address of a local variable of
    that call. *)
Theorem late_completion_undefined `{RteHash} {api : PipeCfgApi} {L : FlowSdk api} alloc_of
    q id m a mo n w x s1 e s2 evs r c :
  pipes_manager_get_pipe (pipes_manager w) id = Ret (Ok x) ->
  doca_flow_pipe_add_entry x m a mo None DOCA_FLOW_NO_WAIT (Some (calls w + 1)) (flow w)
    = Ret (s1, Ok e) ->
  doca_flow_entries_process s1 = (s2, evs, r) ->
  Some c ∈ added_ctxs evs -> c <> calls w + 1 ->
  pipe_add_entry alloc_of q id m a mo None n DOCA_FLOW_NO_WAIT w = Undef DanglingPointer.
Proof.
  intros Hx Ha Hp Hin Hc. unfold pipe_add_entry. cbn [resolve_fwd]. rewrite bool_decide_eq_true_2 by done.
  cbn [negb pipes_manager flow calls es_frame]. rewrite Hx, Z.eqb_refl. cbn [negb]. rewrite Ha.
  cbn [set_flow flow]. rewrite Hp. by rewrite (report_stale evs _ c).
Qed.

(** A [query] of an entry that does not exist logs the uninitialised statistics. *)
Theorem query_unknown_entry `{HL : RteHashLaws} {api : PipeCfgApi} {L : FlowSdk api} alloc_of
    p w params s :
  parse_entry_params params false (EntryParams None 0 false false) = Ret (s, DOCA_SUCCESS) ->
  mgr_wf (pipes_manager w) -> (forall id x, ~ has_entry (pipes_manager w) (ep_entry_id s) id x) ->
  cmd_query_parsed params (register_actions_on_flow_parser alloc_of p) w = Undef Uninitialised.
Proof.
  intros Hs Hwf Hn. unfold cmd_query_parsed. cbn [query_func cbs_ register_actions_on_flow_parser].
  change (query_func (cbs_ (register_actions_on_flow_parser alloc_of p))) with
    (Some (A := Z -> switch_app -> outcome (switch_app * option (Z * Z))) flow_query).
  cbv iota. rewrite Hs. rewrite bool_decide_eq_true_2 by done. cbn [negb]. unfold flow_query.
  destruct (get_entry_spec _ (ep_entry_id s) Hwf) as (r & -> & Hr). destruct r as [x|e]; [|done].
  destruct Hr as [i Hi]. by apply Hn in Hi.
Qed.

Section samples.
#[local] Existing Instance sample_hash.
#[local] Existing Instance sample_laws.
#[local] Instance sample_api : PipeCfgApi := plain_cfg_api.
#[local] Instance sample_sdk : FlowSdk sample_api := MiniSdk.mini_sdk false.
#[local] Instance sample_sdk_laws : FlowSdkLaws sample_sdk := MiniSdk.mini_laws false.

Definition sample_alloc (n : Z) : alloc := alloc_all.

Definition sample_app : switch_app := Switch (L := sample_sdk) empty_manager MiniSdk.start 0.

(** The identifiers the manager derives from the handles 100 and 101. *)
Definition sample_pipe_id : Z := Eval vm_compute in generateID (le_bytes 8 100).
Definition sample_entry_id : Z := Eval vm_compute in generateID (le_bytes 8 101).

Definition sample_fwd : doca_flow_fwd := set_fwd_type DOCA_FLOW_FWD_PIPE fwd_zero.

Lemma sample_fwd_wf : opt_fwd_wf (Some sample_fwd).
Proof. by intros x [= <-]. Qed.

(** A second pipe that forwards to the first, after which the first is destroyed. *)
Definition sample_switch_ops : list switch_op :=
  [SwCreate plain_cfg_init 0 None 0 None 0;
   SwAdd 0 sample_pipe_id match_zero actions_zero None None 0 0;
   SwCreate plain_cfg_init 0 (Some sample_fwd) sample_pipe_id None 0;
   SwControl 0 1 sample_pipe_id match_zero None None 0;
   SwDump 0 1; SwQuery sample_entry_id; SwRm 0 sample_entry_id 0;
   SwDestroy sample_pipe_id; SwQuery sample_entry_id;
   SwAdd 0 sample_pipe_id match_zero actions_zero None None 0 0; SwFlush 0].

Lemma sample_switch_ops_wf : Forall switch_op_wf sample_switch_ops.
Proof.
  assert (opt_fwd_wf None) by done. pose proof sample_fwd_wf.
  repeat (apply Forall_cons_2; [done|]). apply Forall_nil_2.
Qed.

Lemma switch_callbacks_safe_witness :
  exists w, run_switch sample_alloc sample_switch_ops sample_app = Ret w
    /\ switch_inv w.
Proof.
  apply (switch_callbacks_safe (L := sample_sdk) sample_alloc empty_manager MiniSdk.start 0 sample_switch_ops).
  - done.
  - apply MiniSdk.mini_prompt.
  - reflexivity.
  - reflexivity.
  - apply sample_switch_ops_wf.
Defined.

Definition sample_switch_session : list command :=
  [CmdCreatePipe (lit "port_id=0,type=basic");
   CmdAddEntry (lit "pipe_queue=0,pipe_id=879817313296471393");
   CmdDestroyPipe (lit "pipe_id=879817313296471393"); CmdQuit].

Abbreviation run_switch_session :=
  (flow_parser_init (create := plain_cfg_create) (fun _ => true) (fun _ => true) (replicate 128 NUL)
     true false sample_switch_session (register_actions_on_flow_parser sample_alloc parser_init)
     sample_app).

Lemma run_switch_session_returns : exists p' w' r, run_switch_session = Ret (p', w', r).
Proof.
  assert (match run_switch_session with Ret _ => true | Undef _ => false end = true) as E
    by (vm_compute; reflexivity).
  destruct run_switch_session as [[[p' w'] r]|]; [|done]. by exists p', w', r.
Qed.


(** A library that reports an addition only when the next one is processed: the
    first call gives up, the second one receives the first one's completion. *)
#[local] Instance slow_sdk : FlowSdk sample_api := MiniSdk.mini_sdk true.

Definition slow_app : switch_app :=
  match run_switch sample_alloc
          [SwCreate plain_cfg_init 0 None 0 None 0;
           SwAdd 0 sample_pipe_id match_zero actions_zero None None 0 0]
          (Switch (L := slow_sdk) empty_manager MiniSdk.start 0) with
  | Ret w => w
  | Undef _ => Switch (L := slow_sdk) empty_manager MiniSdk.start 0
  end.

Lemma late_completion_undefined_witness :
  pipe_add_entry sample_alloc 0 sample_pipe_id match_zero actions_zero None None 0 DOCA_FLOW_NO_WAIT
    slow_app = Undef DanglingPointer.
Proof.
  apply (late_completion_undefined (L := slow_sdk) sample_alloc 0 sample_pipe_id match_zero
           actions_zero None 0 slow_app 100
           (MiniSdk.Mini 103 [100] [(102, 100); (101, 100)] [Some 2; Some 3]) 102
           (MiniSdk.Mini 103 [100] [(102, 100); (101, 100)] [Some 3])
           [Event true DOCA_FLOW_ENTRY_OP_ADD (Some 2)] DOCA_SUCCESS 2).
  - vm_compute. reflexivity.
  - vm_compute. reflexivity.
  - vm_compute. reflexivity.
  - apply list_elem_of_singleton. reflexivity.
  - vm_compute. discriminate.
Defined.

Lemma query_unknown_entry_witness :
  cmd_query_parsed (lit "entry_id=5")
    (register_actions_on_flow_parser (L := sample_sdk) sample_alloc parser_init) sample_app
    = Undef Uninitialised.
Proof.
  apply (query_unknown_entry (L := sample_sdk) sample_alloc parser_init sample_app (lit "entry_id=5")
           (EntryParams None 5 false true)).
  - vm_compute. reflexivity.
  - apply empty_manager_wf.
  - intros id x (ep & pos & a & info & xp & Hl & _). vm_compute in Hl. discriminate Hl.
Defined.
End samples.
