(* ===== verification/SwitchInit.v ===== *)
(** * Start-up of the switch application (applications/switch/switch_core.c)

    The sequence of library calls that brings the application up, with the
    resources it holds at each point.  Whether a call succeeds is decided by the
    library: an arbitrary function of the call and the resources held. *)
From S2P Require Import Prelude.

(** [linear_array_init_u16] (applications/common/utils.c): the loop from [i]. *)
Fixpoint linear_array_loop (fuel : nat) (i n : Z) (array : list Z) : outcome (list Z) :=
  match fuel with
  | O => Undef OutOfFuel
  | S fuel' =>
      if i <? n then
        let* _ := require (Z.to_nat i <? length array)%nat OutOfBounds in
        linear_array_loop fuel' (u16 (i + 1)) n (<[Z.to_nat i := i]> array)
      else Ret array
  end.

Definition linear_array_init_u16 (array : list Z) (n : Z) : outcome (list Z) :=
  linear_array_loop (S (Z.to_nat n)) 0 n array.

(** The calls of start-up that can fail. *)
Inductive boot_call : Type :=
| FlowCfgCreate | FlowCfgQueues (nb_queues : Z) | FlowCfgMode | FlowCfgCallback
| FlowCfgRss (queues : list Z) | FlowInit | FlowCfgDestroy
| PortCfgCreate | PortCfgDevargs (portid : Z) | PortStart (portid : Z) | PortCfgDestroy
| PipesManagerCreate.

(** Resources held: configuration objects, ports that were started and not stopped (the
    newest first), the library, the pipes manager and the registered callbacks. *)
Record boot : Type := Boot {
  flow_cfgs : Z;
  port_cfgs : Z;
  running : list Z;
  flow_ready : bool;
  manager_ready : bool;
  registered : bool;
}.

Definition set_flow_cfgs n (b : boot) :=
  Boot n (port_cfgs b) (running b) (flow_ready b) (manager_ready b) (registered b).
Definition set_port_cfgs n (b : boot) :=
  Boot (flow_cfgs b) n (running b) (flow_ready b) (manager_ready b) (registered b).
Definition set_running ps (b : boot) :=
  Boot (flow_cfgs b) (port_cfgs b) ps (flow_ready b) (manager_ready b) (registered b).

Section boot.
Context (ask : boot_call -> boot -> doca_error_t).

Definition succeeds (c : boot_call) (b : boot) : bool := bool_decide (ask c b = DOCA_SUCCESS).

(** [DOCA_ERROR_PROPAGATE]. *)
Definition propagate (result tmp : doca_error_t) : doca_error_t :=
  if bool_decide (result = DOCA_SUCCESS) then tmp else result.

Definition port_create (portid : Z) (b : boot) : boot * option Z * doca_error_t :=
  let portid := u8 portid in
  if negb (succeeds PortCfgCreate b) then (b, None, ask PortCfgCreate b)
  else
    let b := set_port_cfgs (port_cfgs b + 1) b in
    let '(b, port, result) :=
      if negb (succeeds (PortCfgDevargs portid) b) then (b, None, ask (PortCfgDevargs portid) b)
      else if negb (succeeds (PortStart portid) b) then (b, None, ask (PortStart portid) b)
      else (set_running (portid :: running b) b, Some portid, DOCA_SUCCESS) in
    let tmp_result := ask PortCfgDestroy b in
    if bool_decide (tmp_result = DOCA_SUCCESS)
    then (set_port_cfgs (port_cfgs b - 1) b, port, result)
    else (b, port, propagate result tmp_result).

(** Stop one port: it leaves the list of running ports. *)
Definition doca_flow_port_stop (port : Z) (b : boot) : boot :=
  set_running (filter (fun p => p <> port) (running b)) b.

(** [ports_stop] over the handles of the array ([None] for a null pointer). *)
Fixpoint ports_stop (ports : list (option Z)) (b : boot) : boot :=
  match ports with
  | [] => b
  | Some port :: ports' => ports_stop ports' (doca_flow_port_stop port b)
  | None :: ports' => ports_stop ports' b
  end.

(** [init_ports]: [ports] are the handles of the ports created so far. *)
Fixpoint init_ports_loop (n : nat) (portid : Z) (ports : list (option Z)) (b : boot)
    : boot * doca_error_t :=
  match n with
  | O => (b, DOCA_SUCCESS)
  | S n' =>
      let '(b, port, result) := port_create portid b in
      if negb (bool_decide (result = DOCA_SUCCESS)) then (ports_stop ports b, result)
      else init_ports_loop n' (portid + 1) (ports ++ [port]) b
  end.

Definition init_ports (nb_ports : Z) (b : boot) : boot * doca_error_t :=
  init_ports_loop (Z.to_nat nb_ports) 0 [] b.

(** [doca_flow_destroy] takes the library down; it is no [doca_flow_port_stop] of the ports
    that the application has started. *)
Definition doca_flow_destroy (b : boot) : boot :=
  Boot (flow_cfgs b) (port_cfgs b) (running b) false (manager_ready b) (registered b).

Definition switch_init (nb_queues nb_ports : Z) (rss_queues : list Z) (b : boot)
    : outcome (boot * doca_error_t) :=
  if negb (succeeds FlowCfgCreate b) then Ret (b, ask FlowCfgCreate b)
  else
    let b := set_flow_cfgs (flow_cfgs b + 1) b in
    if negb (succeeds (FlowCfgQueues nb_queues) b)
    then Ret (set_flow_cfgs (flow_cfgs b - 1) b, ask (FlowCfgQueues nb_queues) b)
    else if negb (succeeds FlowCfgMode b)
    then Ret (set_flow_cfgs (flow_cfgs b - 1) b, ask FlowCfgMode b)
    else if negb (succeeds FlowCfgCallback b)
    then Ret (set_flow_cfgs (flow_cfgs b - 1) b, ask FlowCfgCallback b)
    else
      let* queues := linear_array_init_u16 rss_queues (u16 nb_queues) in
      if negb (succeeds (FlowCfgRss queues) b)
      then Ret (set_flow_cfgs (flow_cfgs b - 1) b, ask (FlowCfgRss queues) b)
      else if negb (succeeds FlowInit b) then Ret (b, DOCA_ERROR_INITIALIZATION)
      else
        let b := Boot (flow_cfgs b) (port_cfgs b) (running b) true (manager_ready b) (registered b) in
        if negb (succeeds FlowCfgDestroy b) then Ret (b, DOCA_ERROR_INITIALIZATION)
        else
          let b := set_flow_cfgs (flow_cfgs b - 1) b in
          let '(b, result) := init_ports nb_ports b in
          if negb (bool_decide (result = DOCA_SUCCESS))
          then Ret (doca_flow_destroy b, DOCA_ERROR_INITIALIZATION)
          else if negb (succeeds PipesManagerCreate b)
          then Ret (doca_flow_destroy b, DOCA_ERROR_INITIALIZATION)
          else Ret (Boot (flow_cfgs b) (port_cfgs b) (running b) (flow_ready b) true true, DOCA_SUCCESS).
End boot.

(** ** Correctness *)

Lemma linear_array_loop_spec k i n array :
  0 <= i <= n -> n < 2 ^ 16 -> Z.of_nat (length array) = n -> (Z.to_nat (n - i) < k)%nat ->
  take (Z.to_nat i) array = seqZ 0 i -> linear_array_loop k i n array = Ret (seqZ 0 n).
Proof.
  revert i array. induction k as [|k IH]; intros i array Hi Hn Hlen Hk Htake; [lia|].
  cbn [linear_array_loop]. destruct (i <? n) eqn:E; [apply Z.ltb_lt in E | apply Z.ltb_ge in E].
  - rewrite (proj2 (Nat.ltb_lt _ _)) by lia. cbn [require]. rewrite uwrap_id by (split; lia).
    apply IH; [lia|done|by rewrite length_insert|lia|].
    replace (Z.to_nat (i + 1)) with (S (Z.to_nat i)) by lia.
    erewrite take_S_r by (apply list_lookup_insert_eq; lia). rewrite take_insert_ge by lia.
    rewrite Htake, seqZ_app by lia. f_equal.
  - assert (i = n) as -> by lia. rewrite <-Htake. f_equal.
    symmetry. apply take_ge. lia.
Qed.

Lemma linear_array_init_u16_spec array n :
  in_width 16 n -> Z.of_nat (length array) = n -> linear_array_init_u16 array n = Ret (seqZ 0 n).
Proof.
  intros [H1 H2] Hl. unfold linear_array_init_u16. apply linear_array_loop_spec; try lia.
  all: by cbn.
Qed.

Section correct.
Context (ask : boot_call -> boot -> doca_error_t).

(** The call [c] failed at some point. *)
Definition call_failed (c : boot_call) : Prop := exists b, ask c b <> DOCA_SUCCESS.

(** What a port leaves: on success it runs; otherwise nothing, unless its configuration
    could not be destroyed: then the configuration is left, and the port may run. *)
Record port_left (portid : Z) (b b' : boot) (port : option Z) (r : doca_error_t) : Prop := {
  pl_flow : flow_cfgs b' = flow_cfgs b /\ flow_ready b' = flow_ready b;
  pl_ok : r = DOCA_SUCCESS -> port = Some (u8 portid) /\ running b' = u8 portid :: running b /\ port_cfgs b' = port_cfgs b;
  pl_err : r <> DOCA_SUCCESS ->
    running b' = running b /\ port_cfgs b' = port_cfgs b
    \/ call_failed PortCfgDestroy /\ port_cfgs b' = port_cfgs b + 1
       /\ (running b' = running b \/ running b' = u8 portid :: running b);
}.

Lemma port_create_spec portid b b' port r :
  port_create ask portid b = (b', port, r) -> port_left portid b b' port r.
Proof using Type.
  unfold port_create, succeeds, propagate. intros E.
  case_bool_decide; cbn [negb] in E; [|simplify_eq; split; [done|done|by left]].
  case_bool_decide as H1; cbn [negb] in E; [case_bool_decide as H2; cbn [negb] in E|];
    case_bool_decide as H3; simplify_eq; cbn.
  all: split; cbn; [done|intros Hr; split_and!; try done; try lia; repeat case_bool_decide; congruence|].
  all: intros Hr; repeat case_bool_decide; try done; first [left; split; [done|lia] | right; split; [by eexists|split; [done|auto]]].
Qed.

(** Stopping the ports of the array. *)
Lemma ports_stop_spec ps : forall b, ports_stop (map Some ps) b = set_running (filter (fun p => p ∉ ps) (running b)) b.
Proof using Type.
  induction ps as [|p ps IH]; intros b; cbn [map ports_stop].
  - destruct b as [fc pc r fr mr rg]. unfold set_running. cbn. f_equal. induction r as [|x r IHr]; [done|].
    rewrite filter_cons_True by set_solver. by f_equal.
  - rewrite IH. unfold doca_flow_port_stop, set_running. cbn. f_equal. rewrite list_filter_filter.
    apply list_filter_iff. set_solver.
Qed.

Lemma stop_all (ps l : list Z) : (forall p, p ∈ l -> p ∈ ps) -> filter (fun p => p ∉ ps) l = [].
Proof using Type. intros H. induction l as [|x l IH]; [done|]. rewrite filter_cons_False by set_solver. apply IH. set_solver. Qed.

(** What a failed start of the ports leaves: nothing, or what one port does. *)
Definition ports_left (b b' : boot) : Prop :=
  running b' = [] /\ port_cfgs b' = port_cfgs b
  \/ call_failed PortCfgDestroy /\ port_cfgs b' = port_cfgs b + 1 /\ (length (running b') <= 1)%nat.

Lemma init_ports_loop_spec n : forall portid ps b b' r,
  init_ports_loop ask n portid (map Some ps) b = (b', r) -> running b = rev ps ->
  flow_cfgs b' = flow_cfgs b /\ flow_ready b' = flow_ready b
  /\ (r = DOCA_SUCCESS -> port_cfgs b' = port_cfgs b
      /\ running b' = rev (ps ++ map (fun i => u8 i) (seqZ portid (Z.of_nat n))))
  /\ (r <> DOCA_SUCCESS -> ports_left b b').
Proof using Type.
  induction n as [|n IH]; intros portid ps b b' r E Hb; cbn [init_ports_loop] in E.
  { simplify_eq. cbn. rewrite app_nil_r. naive_solver. }
  destruct (port_create ask portid b) as [[b1 port] r1] eqn:E1.
  destruct (port_create_spec _ _ _ _ _ E1) as [[Hf Hr] Hok Herr].
  case_bool_decide as Hr1; cbn [negb] in E.
  - destruct (Hok Hr1) as (-> & Hrun & Hpc). change [Some (u8 portid)] with (map Some [u8 portid]) in E.
    rewrite <-map_app in E. destruct (IH _ _ _ _ _ E) as (H1 & H3 & H4 & H5).
    { rewrite rev_app_distr. cbn. by rewrite Hrun, Hb. }
    split_and!; [congruence..| |]; [|unfold ports_left in *; by rewrite <-Hpc].
    intros Hs. destruct (H4 Hs) as [Hp ->]. split; [congruence|]. f_equal.
    rewrite (seqZ_cons portid) by lia. cbn [map]. rewrite <-app_assoc. cbn [app].
    replace (Z.pred (Z.of_nat (S n))) with (Z.of_nat n) by lia. by rewrite Z.add_1_r.
  - rewrite ports_stop_spec in E. simplify_eq. cbn. split_and!; [done..|]. intros _. unfold ports_left. cbn.
    assert (forall p, p ∈ rev ps -> p ∈ ps) as Hin by (intros p; by rewrite !list_elem_of_In, <-in_rev).
    destruct (Herr Hr1) as [[-> ->]|(Hd & -> & Hrun)]; rewrite ?Hb; [left; by rewrite stop_all|right].
    split; [done|]. split; [done|]. destruct Hrun as [-> | ->]; rewrite Hb; [by rewrite stop_all; [cbn; lia|]|].
    rewrite filter_cons. rewrite (stop_all ps (rev ps)) by done. case_decide; cbn; lia.
Qed.

Lemma init_ports_spec nb_ports b b' r :
  init_ports ask nb_ports b = (b', r) -> running b = [] ->
  flow_cfgs b' = flow_cfgs b /\ flow_ready b' = flow_ready b
  /\ (r = DOCA_SUCCESS -> port_cfgs b' = port_cfgs b
      /\ running b' = rev (map (fun i => u8 i) (seqZ 0 (Z.of_nat (Z.to_nat nb_ports)))))
  /\ (r <> DOCA_SUCCESS -> ports_left b b').
Proof using Type. intros E Hb. by apply (init_ports_loop_spec _ _ [] _ _ _ E). Qed.

(** What a failed start-up leaves: the library's configuration only when that call or the
    one before failed; ports as above, or all of them when the manager failed. *)
Definition left_behind (nb_ports : Z) (b b' : boot) : Prop :=
  (flow_cfgs b' = flow_cfgs b
   \/ (call_failed FlowInit \/ call_failed FlowCfgDestroy) /\ flow_cfgs b' = flow_cfgs b + 1 /\ running b' = [] /\ port_cfgs b' = port_cfgs b)
  /\ (ports_left b b'
      \/ call_failed PipesManagerCreate /\ running b' = rev (seqZ 0 nb_ports) /\ port_cfgs b' = port_cfgs b).
End correct.


(** When the library cannot be initialised, its configuration object is not
    destroyed. *)
Theorem switch_init_leaks_flow_cfg ask nb_queues nb_ports rss_queues b b' r :
  switch_init ask nb_queues nb_ports rss_queues b = Ret (b', r) ->
  (forall c b, ask c b = DOCA_SUCCESS <-> c <> FlowInit) ->
  flow_cfgs b' = flow_cfgs b + 1 /\ flow_ready b' = flow_ready b /\ r = DOCA_ERROR_INITIALIZATION.
Proof.
  intros E Hask. unfold switch_init, succeeds in E.
  repeat (rewrite (bool_decide_eq_true_2 (ask _ _ = _)) in E by (by apply Hask); cbn [negb] in E).
  obind E. rewrite bool_decide_eq_true_2 in E by (by apply Hask). cbn [negb] in E.
  rewrite bool_decide_eq_false_2 in E by (intros Hn%Hask; by apply Hn). cbn [negb] in E. by inv_ret.
Qed.

Definition boot_init : boot := Boot 0 0 [] false false false.

(** A library in which the configuration of the second port can not be destroyed. *)
Definition stuck_port_cfg (c : boot_call) (b : boot) : doca_error_t :=
  match c with PortCfgDestroy => if bool_decide (running b = [1; 0]) then DOCA_ERROR_DRIVER else DOCA_SUCCESS | _ => DOCA_SUCCESS end.


Definition failing_init (c : boot_call) (b : boot) : doca_error_t :=
  match c with FlowInit => DOCA_ERROR_DRIVER | _ => DOCA_SUCCESS end.

Lemma switch_init_leaks_flow_cfg_witness :
  flow_cfgs (set_flow_cfgs 1 boot_init) = 0 + 1 /\ flow_ready (set_flow_cfgs 1 boot_init) = false
  /\ DOCA_ERROR_INITIALIZATION = DOCA_ERROR_INITIALIZATION.
Proof.
  apply (switch_init_leaks_flow_cfg failing_init 4 2 [9; 9; 9; 9] boot_init (set_flow_cfgs 1 boot_init)
           DOCA_ERROR_INITIALIZATION).
  - reflexivity.
  - intros [] b; cbn; split; congruence.
Defined.
