(* ===== verification/Inet6.v ===== *)
(** * Text form of IPv6 addresses (applications/ipsec_security_gw/config.c)

    [parse_ipv6_str] of the gateway, which its configuration file and its policy socket
    share, over [inet_pton(AF_INET6, ...)] of the C library the source is written for (the
    members of [struct in6_addr] it names are those of the GNU library). *)
From S2P Require Import Prelude CString.

(** ** [inet_pton] *)

(** The dotted form: [octets] are complete, [cur] is the value of the digits seen of the
    next one; no leading zeros. *)
Fixpoint inet_pton4 (src : list ascii) (octets : list Z) (cur : option Z) : option (list Z) :=
  match src with
  | [] =>
      match cur with
      | Some v => if (length octets =? 3)%nat then Some (octets ++ [v]) else None
      | None => None
      end
  | ch :: src =>
      if is_digit 10 ch then
        match cur with
        | None => inet_pton4 src octets (Some (digit_val ch))
        | Some v =>
            let newv := v * 10 + digit_val ch in
            if (v =? 0) || (255 <? newv) then None else inet_pton4 src octets (Some newv)
        end
      else if bool_decide (ch = "."%char) then
        match cur with
        | Some v => if (length octets =? 3)%nat then None else inet_pton4 src (octets ++ [v]) None
        | None => None
        end
      else None
  end.

Definition NS_IN6ADDRSZ : nat := 16.

(** Two bytes of a group, when there is room. *)
Definition put_group (tmp : list Z) (val : Z) : option (list Z) :=
  if (length tmp + 2 <=? NS_IN6ADDRSZ)%nat then Some (tmp ++ [Z.land (Z.shiftr val 8) 255; Z.land val 255]) else None.

(** After the last character: the zeros of [::] go where it stood. *)
Definition pton6_end (tmp : list Z) (colonp : option nat) : option (list Z) :=
  match colonp with
  | Some p =>
      if (length tmp =? NS_IN6ADDRSZ)%nat then None
      else Some (take p tmp ++ replicate (NS_IN6ADDRSZ - length tmp) 0 ++ drop p tmp)
  | None => if (length tmp =? NS_IN6ADDRSZ)%nat then Some tmp else None
  end.

(** The loop over the characters: [tmp] are the bytes stored, [colonp] the place of [::],
    [curtok] the start of the current group, [val] the value of its [xdigits_seen] digits. *)
Fixpoint pton6_loop (src : list ascii) (tmp : list Z) (colonp : option nat) (curtok : list ascii)
    (xdigits_seen : nat) (val : Z) : option (list Z) :=
  match src with
  | [] =>
      if (0 <? xdigits_seen)%nat then tmp ← put_group tmp val; pton6_end tmp colonp else pton6_end tmp colonp
  | ch :: src =>
      if is_digit 16 ch then
        if (xdigits_seen =? 4)%nat then None
        else
          let val := Z.lor (Z.shiftl val 4) (digit_val ch) in
          if 0xffff <? val then None else pton6_loop src tmp colonp curtok (S xdigits_seen) val
      else if bool_decide (ch = ":"%char) then
        if (xdigits_seen =? 0)%nat then
          match colonp with
          | Some _ => None
          | None => pton6_loop src tmp (Some (length tmp)) src 0 val
          end
        else if bool_decide (src = []) then None
        else tmp ← put_group tmp val; pton6_loop src tmp colonp src 0 0
      else if bool_decide (ch = "."%char) && (length tmp + 4 <=? NS_IN6ADDRSZ)%nat then
        octets ← inet_pton4 curtok [] None; pton6_end (tmp ++ octets) colonp
      else None
  end.

(** A leading colon has to be the first of two. *)
Definition inet_pton6 (src : list ascii) : option (list Z) :=
  match src with
  | [] => None
  | ":"%char :: src =>
      match src with ":"%char :: _ => pton6_loop src [] None src 0 0 | _ => None end
  | _ => pton6_loop src [] None src 0 0
  end.

(** The four words of an address as the machine loads them. *)
Definition addr32 (bytes : list Z) : list Z := map (fun i => load (4 * i) 4 bytes) [0; 1; 2; 3]%nat.

Definition parse_ipv6_str (str_ip : list ascii) : res (list Z) :=
  match inet_pton6 str_ip with
  | Some ip => Ok (addr32 ip)
  | None => Err DOCA_ERROR_INVALID_VALUE
  end.

(** ** What it reads *)

(** A group of an address: one to four hexadecimal digits, of either case. *)
Definition hex_group (g : list ascii) : Prop :=
  (1 <= length g <= 4)%nat /\ Forall (fun c => is_digit 16 c = true) g.

Definition hex_value (g : list ascii) : Z := fst (scan_digits 16 g 0).

Definition group_bytes (g : list ascii) : list Z := [hex_value g / 256; hex_value g mod 256].

(** [g1:g2:...:gn] *)
Fixpoint groups_text (gs : list (list ascii)) : list ascii :=
  match gs with
  | [] => []
  | [g] => g
  | g :: gs => g ++ ":"%char :: groups_text gs
  end.

Lemma hex_digit_bound c : is_digit 16 c = true -> 0 <= digit_val c < 16.
Proof. intros H%Z.ltb_lt. destruct (digit_val_range c) as [H0 _]. by split. Qed.

Lemma scan_hex g v :
  Forall (fun c => is_digit 16 c = true) g ->
  scan_digits 16 g v = (v * 16 ^ Z.of_nat (length g) + hex_value g, []).
Proof.
  unfold hex_value. revert v. induction g as [|c g IH]; intros v Hg; cbn [scan_digits length].
  - cbn. f_equal; lia.
  - apply Forall_cons in Hg as [Hc Hg]. rewrite Hc, (IH (v * 16 + digit_val c)), (IH (0 * 16 + digit_val c)) by done.
    cbn [fst]. f_equal. rewrite Nat2Z.inj_succ, Z.pow_succ_r by lia. ring.
Qed.

Lemma hex_value_cons c g :
  is_digit 16 c = true -> Forall (fun c => is_digit 16 c = true) g ->
  hex_value (c :: g) = digit_val c * 16 ^ Z.of_nat (length g) + hex_value g.
Proof. intros Hc Hg. unfold hex_value at 1. cbn [scan_digits]. rewrite Hc, scan_hex by done. done. Qed.

Lemma hex_value_bound g :
  Forall (fun c => is_digit 16 c = true) g -> 0 <= hex_value g < 16 ^ Z.of_nat (length g).
Proof.
  induction g as [|c g IH]; intros Hg; [by cbn|]. apply Forall_cons in Hg as [Hc Hg].
  rewrite hex_value_cons by done. cbn [length]. rewrite Nat2Z.inj_succ, Z.pow_succ_r by lia.
  pose proof (hex_digit_bound c Hc). specialize (IH Hg). nia.
Qed.

Lemma group_value_bound g : hex_group g -> 0 <= hex_value g < 65536.
Proof.
  intros [Hl Hg]. pose proof (hex_value_bound g Hg).
  pose proof (Z.pow_le_mono_r 16 (Z.of_nat (length g)) 4). lia.
Qed.

(** The digits of a group in front of the rest. *)
Lemma pton6_digits g : forall rest tmp colonp curtok n v,
  Forall (fun c => is_digit 16 c = true) g -> (n + length g <= 4)%nat -> 0 <= v < 16 ^ Z.of_nat n ->
  pton6_loop (g ++ rest) tmp colonp curtok n v
  = pton6_loop rest tmp colonp curtok (n + length g) (v * 16 ^ Z.of_nat (length g) + hex_value g).
Proof.
  induction g as [|c g IH]; intros rest tmp colonp curtok n v Hg Hn Hv.
  - cbn [app length]. rewrite Nat.add_0_r. f_equal. cbn. lia.
  - apply Forall_cons in Hg as [Hc Hg]. cbn [app pton6_loop length] in *. rewrite Hc.
    rewrite (proj2 (Nat.eqb_neq n 4)) by lia. pose proof (hex_digit_bound c Hc) as Hd.
    rewrite (lor_add_low 4), Z.shiftl_mul_pow2 by (rewrite ?Z.shiftl_mul_pow2, ?Z.mod_mul by lia; lia).
    assert (v * 2 ^ 4 + digit_val c < 16 ^ Z.of_nat (S n)).
    { rewrite Nat2Z.inj_succ, Z.pow_succ_r by lia. change (2 ^ 4) with 16. lia. }
    pose proof (Z.pow_le_mono_r 16 (Z.of_nat (S n)) 4).
    replace (0xffff <? _) with false by lia.
    rewrite IH by (try done; lia). f_equal; [lia|]. rewrite hex_value_cons by done.
    rewrite Nat2Z.inj_succ, Z.pow_succ_r by lia. change (2 ^ 4) with 16. ring.
Qed.

Lemma pton6_group g rest tmp colonp curtok :
  hex_group g ->
  pton6_loop (g ++ rest) tmp colonp curtok 0 0 = pton6_loop rest tmp colonp curtok (length g) (hex_value g).
Proof. intros [Hl Hg]. by rewrite pton6_digits by (try done; lia). Qed.

Lemma put_group_bytes tmp g :
  hex_group g -> (length tmp + 2 <= NS_IN6ADDRSZ)%nat -> put_group tmp (hex_value g) = Some (tmp ++ group_bytes g).
Proof.
  intros Hg Hl. unfold put_group, group_bytes. rewrite (proj2 (Nat.leb_le _ _)) by done.
  pose proof (group_value_bound g Hg).
  change 255 with (Z.ones 8). rewrite !Z.land_ones, Z.shiftr_div_pow2 by lia. change (2 ^ 8) with 256.
  by rewrite (Z.mod_small (hex_value g / 256)) by (split; [apply Z.div_pos; lia|apply Z.div_lt_upper_bound; lia]).
Qed.

(** A group and the colon behind it. *)
Lemma pton6_group_colon g rest tmp colonp curtok :
  hex_group g -> rest <> [] -> (length tmp + 2 <= NS_IN6ADDRSZ)%nat ->
  pton6_loop (g ++ ":"%char :: rest) tmp colonp curtok 0 0 = pton6_loop rest (tmp ++ group_bytes g) colonp rest 0 0.
Proof.
  intros Hg Hr Hl. rewrite pton6_group by done. cbn [pton6_loop].
  change (is_digit 16 ":"%char) with false. cbv iota. rewrite bool_decide_eq_true_2 by done.
  destruct Hg as [Hlen Hg]. rewrite (proj2 (Nat.eqb_neq _ 0)) by lia.
  rewrite bool_decide_eq_false_2 by done. by rewrite put_group_bytes by done.
Qed.

Definition groups_bytes (gs : list (list ascii)) : list Z := gs ≫= group_bytes.

Lemma length_groups_bytes gs : length (groups_bytes gs) = (2 * length gs)%nat.
Proof. unfold groups_bytes. induction gs as [|g gs IH]; [done|]. cbn. rewrite IH. lia. Qed.

Lemma groups_text_nil gs : Forall hex_group gs -> groups_text gs = [] -> gs = [].
Proof.
  destruct gs as [|g [|g' gs]]; [done|..]; intros Hg; apply Forall_cons in Hg as [[Hl _] _]; cbn [groups_text].
  - intros ->. cbn in Hl. lia.
  - by intros [? ?]%app_eq_nil.
Qed.

(** Groups up to the end of the text. *)
Lemma pton6_groups gs : forall tmp colonp curtok,
  Forall hex_group gs -> (length tmp + 2 * length gs <= NS_IN6ADDRSZ)%nat ->
  pton6_loop (groups_text gs) tmp colonp curtok 0 0 = pton6_end (tmp ++ groups_bytes gs) colonp.
Proof.
  induction gs as [|g gs IH]; intros tmp colonp curtok Hg Hl; [by rewrite app_nil_r|].
  apply Forall_cons in Hg as [Hg Hgs]. cbn [length] in Hl. destruct gs as [|g' gs].
  - cbn [groups_text]. rewrite <-(app_nil_r g), pton6_group, app_nil_r by done. cbn [pton6_loop].
    rewrite (proj2 (Nat.ltb_lt _ _)) by (destruct Hg; lia). by rewrite put_group_bytes by (try done; lia).
  - change (groups_text (g :: g' :: gs)) with (g ++ ":"%char :: groups_text (g' :: gs)).
    rewrite pton6_group_colon; [|done| |lia].
    2:{ intros H%groups_text_nil; [done|done]. }
    rewrite IH; [by rewrite <-app_assoc|done|]. rewrite length_app. cbn [group_bytes length] in *. lia.
Qed.

(** Groups up to a double colon. *)
Lemma pton6_groups_colons gs : forall rest tmp curtok,
  Forall hex_group gs -> gs <> [] -> (length tmp + 2 * length gs <= NS_IN6ADDRSZ)%nat ->
  pton6_loop (groups_text gs ++ ":"%char :: ":"%char :: rest) tmp None curtok 0 0
  = pton6_loop rest (tmp ++ groups_bytes gs) (Some (length tmp + 2 * length gs)%nat) rest 0 0.
Proof.
  induction gs as [|g gs IH]; intros rest tmp curtok Hg Hne Hl; [done|].
  apply Forall_cons in Hg as [Hg Hgs]. cbn [length] in Hl. destruct gs as [|g' gs].
  - cbn [groups_text]. rewrite pton6_group_colon by (done || lia). cbn [pton6_loop].
    change (is_digit 16 ":"%char) with false. cbv iota. rewrite bool_decide_eq_true_2 by done. cbn [Nat.eqb].
    rewrite length_app. done.
  - change (groups_text (g :: g' :: gs)) with (g ++ ":"%char :: groups_text (g' :: gs)).
    rewrite <-app_assoc. cbn [app]. rewrite pton6_group_colon; [|done| |lia].
    2:{ by intros [? ?]%app_eq_nil. }
    rewrite IH; [|done|done|rewrite length_app; cbn [group_bytes length] in *; lia].
    rewrite <-app_assoc, length_app. f_equal. f_equal. cbn. lia.
Qed.

Lemma not_colon_head g c s : hex_group g -> g = c :: s -> c <> ":"%char.
Proof. intros [_ Hg] ->. apply Forall_cons in Hg as [Hc _]. by intros ->. Qed.

Lemma inet_pton6_start gs rest :
  Forall hex_group gs -> gs <> [] ->
  inet_pton6 (groups_text gs ++ rest) = pton6_loop (groups_text gs ++ rest) [] None (groups_text gs ++ rest) 0 0.
Proof.
  intros Hg Hne. destruct gs as [|g gs]; [done|]. apply Forall_cons in Hg as [Hg _].
  destruct g as [|c s] eqn:E; [by destruct Hg as [[? _] _]; cbn in *; lia|].
  pose proof (not_colon_head _ c s Hg eq_refl) as Hc.
  assert (exists t, groups_text ((c :: s) :: gs) ++ rest = c :: t) as [t ->] by (destruct gs; by eexists).
  unfold inet_pton6. destruct c as [[] [] [] [] [] [] [] []]; done.
Qed.

Lemma pton6_full ls :
  Forall hex_group ls -> length ls = 8%nat -> inet_pton6 (groups_text ls) = Some (groups_bytes ls).
Proof.
  intros Hl Hn. pose proof (inet_pton6_start ls [] Hl) as E. rewrite app_nil_r in E. rewrite E by (by intros ->).
  rewrite pton6_groups by (cbn; unfold NS_IN6ADDRSZ; (done || lia)). cbn [app pton6_end].
  by rewrite length_groups_bytes, Hn.
Qed.

Lemma pton6_short ls rs :
  Forall hex_group ls -> Forall hex_group rs -> (length ls + length rs <= 7)%nat ->
  inet_pton6 (groups_text ls ++ lit "::" ++ groups_text rs)
  = Some (groups_bytes ls ++ replicate (16 - 2 * (length ls + length rs)) 0 ++ groups_bytes rs).
Proof.
  intros Hl Hr Hn. change (lit "::" ++ groups_text rs) with (":"%char :: ":"%char :: groups_text rs).
  assert (inet_pton6 (groups_text ls ++ ":"%char :: ":"%char :: groups_text rs)
          = pton6_end (groups_bytes ls ++ groups_bytes rs) (Some (2 * length ls)%nat)) as ->.
  { destruct ls as [|g ls].
    - cbn [groups_text app inet_pton6]. cbn [pton6_loop]. change (is_digit 16 ":"%char) with false. cbv iota.
      rewrite bool_decide_eq_true_2 by done. cbn [Nat.eqb length].
      by rewrite pton6_groups by (cbn in *; unfold NS_IN6ADDRSZ; (done || lia)).
    - rewrite inet_pton6_start by done.
      rewrite pton6_groups_colons by (cbn [length] in *; unfold NS_IN6ADDRSZ; (done || lia)).
      rewrite pton6_groups; [done|done|]. rewrite length_app, length_groups_bytes. cbn [length] in *.
      unfold NS_IN6ADDRSZ. lia. }
  unfold pton6_end. rewrite length_app, !length_groups_bytes. unfold NS_IN6ADDRSZ.
  rewrite (proj2 (Nat.eqb_neq _ _)) by lia.
  rewrite take_app_length', drop_app_length' by (by rewrite length_groups_bytes).
  do 3 f_equal. f_equal. lia.
Qed.

(** ** The words of an address

    An address is its sixteen bytes in network order; [memory ws] are the bytes the words
    [ws] occupy. *)
Definition memory (ws : list Z) : list Z := ws ≫= le_bytes 4.

Lemma memory_addr32 bytes :
  length bytes = 16%nat -> Forall (in_width 8) bytes -> memory (addr32 bytes) = bytes.
Proof.
  intros Hl Hb. do 16 (destruct bytes as [|? bytes]; [done|]). destruct bytes; [|done].
  unfold memory, addr32, load. cbn [map mbind list_bind Nat.mul Nat.add drop take].
  rewrite !Forall_cons in Hb. destruct Hb as (?&?&?&?&?&?&?&?&?&?&?&?&?&?&?&?&_).
  repeat match goal with |- context [le_bytes 4 (le_value ?bs)] =>
    rewrite (le_bytes_le_value bs : Forall (in_width 8) bs -> le_bytes 4 (le_value bs) = bs)
      by (repeat (apply Forall_cons; split; [assumption|]); apply Forall_nil; exact I)
  end. done.
Qed.

Lemma group_bytes_width g : hex_group g -> Forall (in_width 8) (group_bytes g).
Proof.
  intros Hg. pose proof (group_value_bound g Hg). unfold group_bytes, in_width. change (2 ^ 8) with 256.
  repeat constructor; try (apply Z.mod_pos_bound; lia); [apply Z.div_pos; lia|apply Z.div_lt_upper_bound; lia].
Qed.

Lemma groups_bytes_width gs : Forall hex_group gs -> Forall (in_width 8) (groups_bytes gs).
Proof.
  unfold groups_bytes. induction 1 as [|g gs Hg _ IH]; [constructor|].
  cbn [mbind list_bind]. apply Forall_app. split; [by apply group_bytes_width|done].
Qed.

(** What [inet_pton] stores are sixteen bytes. *)
Lemma inet_pton4_width src : forall octets cur bs,
  Forall (in_width 8) octets -> (forall v, cur = Some v -> 0 <= v < 256) -> (length octets <= 3)%nat ->
  inet_pton4 src octets cur = Some bs -> length bs = 4%nat /\ Forall (in_width 8) bs.
Proof.
  induction src as [|ch src IH]; intros octets cur bs Ho Hc Hl; cbn [inet_pton4].
  - destruct cur as [v|]; [|done]. destruct (Nat.eqb_spec (length octets) 3) as [E|]; [|done].
    intros [= <-]. rewrite length_app, E. split; [done|]. apply Forall_app. split; [done|].
    constructor; [|constructor]. by apply Hc.
  - destruct (is_digit 10 ch) eqn:Ed.
    + assert (0 <= digit_val ch < 10) as Hd.
      { unfold is_digit in Ed. destruct (digit_val_range ch) as [? _]. lia. }
      destruct cur as [v|].
      * cbv zeta. destruct (_ || _) eqn:Eb; [done|]. apply orb_false_iff in Eb as [_ Eb].
        apply IH; [done| |done]. intros x [= <-]. specialize (Hc v eq_refl). lia.
      * apply IH; [done| |done]. intros x [= <-]. lia.
    + case_bool_decide; [|done]. destruct cur as [v|]; [|done].
      destruct (Nat.eqb_spec (length octets) 3) as [|E]; [done|].
      apply IH; [|done|rewrite length_app; cbn; lia].
      apply Forall_app. split; [done|]. constructor; [|constructor]. by apply Hc.
Qed.

Lemma pton6_end_width tmp colonp bs :
  Forall (in_width 8) tmp -> pton6_end tmp colonp = Some bs ->
  (length tmp <= 16)%nat -> length bs = 16%nat /\ Forall (in_width 8) bs.
Proof.
  unfold pton6_end, NS_IN6ADDRSZ. intros Ht E Hl. destruct colonp as [p|].
  - destruct (Nat.eqb_spec (length tmp) 16); [done|]. injection E as <-. split.
    + rewrite !length_app, length_take, length_replicate, length_drop. lia.
    + rewrite !Forall_app. split_and!; [by apply Forall_take| |by apply Forall_drop].
      apply Forall_replicate. done.
  - destruct (Nat.eqb_spec (length tmp) 16); [|done]. by injection E as <-.
Qed.

Lemma put_group_width tmp val tmp' :
  Forall (in_width 8) tmp -> put_group tmp val = Some tmp' ->
  Forall (in_width 8) tmp' /\ (length tmp' <= 16)%nat.
Proof.
  unfold put_group, NS_IN6ADDRSZ. intros Ht. destruct (Nat.leb_spec (length tmp + 2) 16); [|done].
  intros [= <-]. rewrite length_app. cbn [length]. split; [|lia]. apply Forall_app. split; [done|].
  change 255 with (Z.ones 8). rewrite !Z.land_ones by lia. unfold in_width.
  repeat constructor; apply Z.mod_pos_bound; lia.
Qed.

Lemma pton6_loop_width src : forall tmp colonp curtok n v bs,
  Forall (in_width 8) tmp -> (length tmp <= 16)%nat -> pton6_loop src tmp colonp curtok n v = Some bs ->
  length bs = 16%nat /\ Forall (in_width 8) bs.
Proof.
  induction src as [|ch src IH]; intros tmp colonp curtok n v bs Ht Hl; cbn [pton6_loop].
  - case_if; [|by intros; eapply pton6_end_width]. destruct (put_group tmp v) as [tmp'|] eqn:E; [|done].
    apply put_group_width in E as [Ht' Hl']; [|done]. cbn. intros; by eapply pton6_end_width.
  - destruct (is_digit 16 ch).
    { destruct (n =? 4)%nat; [done|]. cbv zeta. destruct (_ <? _); [done|]. by apply IH. }
    case_bool_decide.
    { destruct (n =? 0)%nat; [destruct colonp; [done|by apply IH]|].
      case_bool_decide; [done|]. destruct (put_group tmp v) as [tmp'|] eqn:E; [|done].
      apply put_group_width in E as [Ht' Hl']; [|done]. by apply IH. }
    destruct (_ && _) eqn:Eb; [|done]. apply andb_true_iff in Eb as [_ Eb]. apply Nat.leb_le in Eb.
    unfold NS_IN6ADDRSZ in Eb. destruct (inet_pton4 curtok [] None) as [oct|] eqn:E; [|done].
    apply inet_pton4_width in E as [Ho1 Ho2]; [|constructor|done|cbn; lia]. cbn. intros Ee.
    eapply pton6_end_width; [|exact Ee|rewrite length_app, Ho1; lia]. by apply Forall_app.
Qed.

Lemma inet_pton6_width s bs : inet_pton6 s = Some bs -> length bs = 16%nat /\ Forall (in_width 8) bs.
Proof.
  assert (forall src, pton6_loop src [] None src 0 0 = Some bs -> length bs = 16%nat /\ Forall (in_width 8) bs) as H
    by (intros src; apply pton6_loop_width; [constructor|cbn; lia]).
  unfold inet_pton6. destruct s as [|[[] [] [] [] [] [] [] []] s]; try done; try apply H.
  destruct s as [|[[] [] [] [] [] [] [] []] s]; try done. apply H.
Qed.

(** Whatever the gateway accepts as an address: four words, which lie in memory as the bytes
    [inet_pton] gives. *)
Lemma parse_ipv6_memory s ws :
  parse_ipv6_str s = Ok ws ->
  length ws = 4%nat /\ exists bytes, inet_pton6 s = Some bytes /\ memory ws = bytes.
Proof.
  unfold parse_ipv6_str. destruct (inet_pton6 s) as [bytes|] eqn:E; [|done]. intros [= <-].
  apply inet_pton6_width in E as [Hl Hb]. split; [done|]. exists bytes. by rewrite memory_addr32.
Qed.

(** C31: Every text form of an address that consists of groups is read as the address it stands
    for: eight groups of one to four hexadecimal digits, or fewer with one [::] for the zeros
    between them, at the start or at the end.  The rule gets four words, which lie in memory as
    the sixteen bytes of the address in network order, each group as its high and its low
    byte. *)
Theorem parse_ipv6_forms ls rs :
  Forall hex_group ls -> Forall hex_group rs ->
  (length ls = 8%nat ->
     exists ws, parse_ipv6_str (groups_text ls) = Ok ws /\ length ws = 4%nat /\ memory ws = groups_bytes ls)
  /\ ((length ls + length rs <= 7)%nat ->
     exists ws, parse_ipv6_str (groups_text ls ++ lit "::" ++ groups_text rs) = Ok ws /\ length ws = 4%nat
       /\ memory ws = groups_bytes ls ++ replicate (16 - 2 * (length ls + length rs)) 0 ++ groups_bytes rs).
Proof.
  intros Hl Hr. pose proof (groups_bytes_width ls Hl) as Wl. pose proof (groups_bytes_width rs Hr) as Wr.
  unfold parse_ipv6_str. split; intros Hn.
  - rewrite pton6_full by done. eexists. split; [done|]. split; [done|].
    apply memory_addr32; [rewrite length_groups_bytes; lia|done].
  - rewrite pton6_short by done. eexists. split; [done|]. split; [done|].
    apply memory_addr32; [rewrite !length_app, length_replicate, !length_groups_bytes; lia|].
    rewrite !Forall_app. split_and!; [done| |done]. by apply Forall_replicate.
Qed.

Lemma parse_ipv6_forms_witness :
  exists ws, parse_ipv6_str (lit "2001:DB8::a:1") = Ok ws /\ length ws = 4%nat
    /\ memory ws = [0x20; 0x01; 0x0d; 0xb8] ++ replicate 8 0 ++ [0; 10; 0; 1].
Proof.
  apply (parse_ipv6_forms [lit "2001"; lit "DB8"] [lit "a"; lit "1"]).
  - repeat constructor; cbn; lia.
  - repeat constructor; cbn; lia.
  - cbn. lia.
Defined.

Example inet_pton6_mapped :
  inet_pton6 (lit "::ffff:192.0.2.1") = Some (replicate 10 0 ++ [0xff; 0xff; 192; 0; 2; 1]).
Proof. by vm_compute. Qed.

Example inet_pton6_rejects :
  inet_pton6 <$> [lit ""; lit ":"; lit "1::2::3"; lit "1:2:3:4:5:6:7"; lit "1:2:3:4:5:6:7:8:9"; lit "12345::"; lit "1:"; lit "::1.2.3.256"]
  = replicate 8 None.
Proof. by vm_compute. Qed.
