(* ===== verification/Policy.v ===== *)
(** * Dynamic IPsec policies (applications/ipsec_security_gw)

    policy.c and the part of ipsec_security_gw.c that reads policies from a Unix
    socket and keeps the arrays of rules: the message format, the reader, the
    translation of a policy to an encryption or decryption rule, and one round of
    the loop that waits for policies.  The socket is the sequence of what
    successive [recv] calls will find. *)
From S2P Require Import Prelude CString Pack AntiReplay FlowTypes FlowValues FlowFields RteHash Inet6.

Definition MAX_IP_ADDR_LEN : nat := 46.
Definition POLICY_DIR_IN : Z := 0.
Definition POLICY_DIR_OUT : Z := 1.
Definition POLICY_MODE_TUNNEL : Z := 1.
Definition POLICY_L3_TYPE_IPV4 : Z := 4.
Definition POLICY_L4_TYPE_UDP : Z := 17.
Definition POLICY_KEY_TYPE_128 : Z := 0.
Definition POLICY_RECORD_MIN_SIZE : Z := 224.
Definition POLICY_RECORD_MAX_SIZE : Z := 240.
Definition MAX_KEY_LEN : nat := 32.
Definition MAX_NB_RULES : Z := 1048576.
Definition DYN_RESERVED_RULES : Z := 1024.

(** [struct ipsec_security_gw_ipsec_policy]; the addresses are the 47-byte arrays. *)
Record ipsec_policy : Type := Policy {
  p_src_port : Z;
  p_dst_port : Z;
  l3_protocol : Z;
  l4_protocol : Z;
  outer_l3_protocol : Z;
  policy_direction : Z;
  policy_mode : Z;
  esn : Z;
  p_icv_length : Z;
  p_key_type : Z;
  spi : Z;
  p_salt : Z;
  p_enc_key_data : list Z;
  src_ip_addr : list Z;
  dst_ip_addr : list Z;
  outer_src_ip : list Z;
  outer_dst_ip : list Z;
}.

(** [memset(&policy, 0, sizeof(policy))]. *)
Definition policy_zero : ipsec_policy :=
  Policy 0 0 0 0 0 0 0 0 0 0 0 0 (replicate MAX_KEY_LEN 0) (replicate 47 0) (replicate 47 0)
    (replicate 47 0) (replicate 47 0).

(** ** Reading a policy *)

(** [unpack_blob] of an address and [addr[MAX_IP_ADDR_LEN] = '\0']. *)
Definition unpack_ip (c : cursor) : outcome (list Z * cursor) :=
  let* (a, c) := unpack_blob (MAX_IP_ADDR_LEN + 1) c in
  Ret (<[MAX_IP_ADDR_LEN := 0]> a, c).

Definition unpack_policy_buffer (buf : list Z) (nb_bytes : Z) (policy : ipsec_policy)
    : outcome (ipsec_policy * doca_error_t) :=
  let* (src_port, c) := unpack_uint16 (Cursor buf 0) in
  let* (dst_port, c) := unpack_uint16 c in
  let* (l3, c) := unpack_uint8 c in
  let* (l4, c) := unpack_uint8 c in
  let* (outer_l3, c) := unpack_uint8 c in
  let* (dir, c) := unpack_uint8 c in
  let* (mode, c) := unpack_uint8 c in
  let* (esn, c) := unpack_uint8 c in
  let* (icv, c) := unpack_uint8 c in
  let* (key_type, c) := unpack_uint8 c in
  let* (spi, c) := unpack_uint32 c in
  let* (salt, c) := unpack_uint32 c in
  let* (src_ip, c) := unpack_ip c in
  let* (dst_ip, c) := unpack_ip c in
  let* (outer_src, c) := unpack_ip c in
  let* (outer_dst, c) := unpack_ip c in
  let key_len := if nb_bytes =? POLICY_RECORD_MAX_SIZE then 32%nat else 16%nat in
  let* (key, _) := unpack_blob key_len c in
  Ret (Policy src_port dst_port l3 l4 outer_l3 dir mode esn icv key_type spi salt
         (key ++ drop key_len (p_enc_key_data policy)) src_ip dst_ip outer_src outer_dst,
       DOCA_SUCCESS).

(** What a [recv] call finds: data (it may take a part of it), nothing yet, an
    error, or the end of the connection. *)
Inductive arrival : Type :=
| Bytes (bs : list Z)
| WouldBlock
| IoError
| PeerClosed.

Inductive recv_result : Type :=
| RecvData (bs : list Z)
| RecvAgain
| RecvFailed.

(** [recv] of at most [n] bytes; with nothing more in the sequence it would block.
    [RecvData []] is the return value 0. *)
Definition recv (n : nat) (s : list arrival) : recv_result * list arrival :=
  match s with
  | [] => (RecvAgain, [])
  | WouldBlock :: s' => (RecvAgain, s')
  | IoError :: s' => (RecvFailed, s')
  | PeerClosed :: _ => (RecvData [], s)
  | Bytes bs :: s' =>
      if (length bs <=? n)%nat then (RecvData bs, s') else (RecvData (take n bs), Bytes (drop n bs) :: s')
  end.

(** The loop of [fill_buffer_from_socket]; [got] are the bytes stored so far. *)
Fixpoint fill_loop (fuel : nat) (bytes_to_read : nat) (got : list Z) (s : list arrival)
    : outcome (list arrival * list Z * doca_error_t) :=
  match fuel with
  | O => Undef OutOfFuel
  | S fuel' =>
      match recv (bytes_to_read - length got) s with
      | (RecvAgain, s) => Ret (s, got, DOCA_ERROR_AGAIN)
      | (RecvFailed, s) => Ret (s, got, DOCA_ERROR_IO_FAILED)
      | (RecvData [], s) => Ret (s, got, DOCA_ERROR_AGAIN)
      | (RecvData bs, s) =>
          if (length (got ++ bs) <? bytes_to_read)%nat
          then fill_loop fuel' bytes_to_read (got ++ bs) s
          else Ret (s, got ++ bs, DOCA_SUCCESS)
      end
  end.

(** [fill_buffer_from_socket(fd, n, buf)]: the buffer with the bytes received at its
    start.  Every round but the last receives at least one byte. *)
Definition fill_buffer_from_socket (bytes_to_read : nat) (buf : list Z) (s : list arrival)
    : outcome (list arrival * list Z * doca_error_t) :=
  let* (s, got, result) := fill_loop (S bytes_to_read) bytes_to_read [] s in
  let* _ := require (length got <=? length buf)%nat OutOfBounds in
  Ret (s, got ++ drop (length got) buf, result).

Definition read_message_length (s : list arrival) : outcome (list arrival * res Z) :=
  let* (s, buf, result) := fill_buffer_from_socket 4 (replicate 8 0) s in
  if negb (bool_decide (result = DOCA_SUCCESS)) then Ret (s, Err result)
  else
    let* (policy_length, _) := unpack_uint32 (Cursor buf 0) in
    if negb (policy_length =? POLICY_RECORD_MIN_SIZE) && negb (policy_length =? POLICY_RECORD_MAX_SIZE)
    then Ret (s, Err DOCA_ERROR_IO_FAILED)
    else Ret (s, Ok policy_length).

Definition read_message_from_socket (policy : ipsec_policy) (s : list arrival)
    : outcome (list arrival * ipsec_policy * doca_error_t) :=
  let* (s, r) := read_message_length s in
  match r with
  | Err e => Ret (s, policy, e)
  | Ok policy_length =>
      let* (s, buffer, result) := fill_buffer_from_socket (Z.to_nat policy_length) (replicate 1024 0) s in
      if negb (bool_decide (result = DOCA_SUCCESS)) then Ret (s, policy, result)
      else
        let* (policy, result) := unpack_policy_buffer buffer policy_length policy in
        Ret (s, policy, result)
  end.

(** ** Rules *)

Inductive doca_flow_crypto_icv_len : Type :=
| DOCA_FLOW_CRYPTO_ICV_LENGTH_8 | DOCA_FLOW_CRYPTO_ICV_LENGTH_12 | DOCA_FLOW_CRYPTO_ICV_LENGTH_16.
Inductive doca_flow_crypto_key_type : Type := DOCA_FLOW_CRYPTO_KEY_128 | DOCA_FLOW_CRYPTO_KEY_256.

#[export] Instance icv_len_eq_dec : EqDecision doca_flow_crypto_icv_len.
Proof. solve_decision. Defined.
#[export] Instance key_type_eq_dec : EqDecision doca_flow_crypto_key_type.
Proof. solve_decision. Defined.

Record sa_attrs : Type := SaAttrs {
  icv_length : doca_flow_crypto_icv_len;
  key_type : doca_flow_crypto_key_type;
  enc_key_data : list Z;
  salt : Z;
}.

(** The address unions are their 32-bit words: [ip4.src_ip] and [ip4.dst_ip] are the
    first two words of the eight of [ip6.src_ip] and [ip6.dst_ip]. *)
Record encrypt_rule : Type := EncryptRule {
  er_l3_type : doca_flow_l3_type;
  er_protocol : doca_flow_l4_type_ext;
  er_ip : list Z;
  er_src_port : Z;
  er_dst_port : Z;
  encap_l3_type : doca_flow_l3_type;
  encap_dst_ip : list Z;
  er_esp_spi : Z;
  current_sn : Z;
  er_sa : sa_attrs;
}.

Record decrypt_rule : Type := DecryptRule {
  dr_l3_type : doca_flow_l3_type;
  dr_dst_ip : list Z;
  dr_esp_spi : Z;
  inner_l3_type : doca_flow_l3_type;
  dr_sa : sa_attrs;
  antireplay : antireplay_state;
}.

Inductive gw_mode : Type :=
| IPSEC_SECURITY_GW_TUNNEL | IPSEC_SECURITY_GW_TRANSPORT | IPSEC_SECURITY_GW_UDP_TRANSPORT.

#[export] Instance gw_mode_eq_dec : EqDecision gw_mode.
Proof. solve_decision. Defined.

Definition convert_to_doca_icv (icv_length : Z) : res doca_flow_crypto_icv_len :=
  if icv_length =? 8 then Ok DOCA_FLOW_CRYPTO_ICV_LENGTH_8
  else if icv_length =? 12 then Ok DOCA_FLOW_CRYPTO_ICV_LENGTH_12
  else if icv_length =? 16 then Ok DOCA_FLOW_CRYPTO_ICV_LENGTH_16
  else Err DOCA_ERROR_NOT_SUPPORTED.

Definition convert_to_doca_key_type (key_type : Z) : doca_flow_crypto_key_type :=
  if key_type =? POLICY_KEY_TYPE_128 then DOCA_FLOW_CRYPTO_KEY_128 else DOCA_FLOW_CRYPTO_KEY_256.

(** On an error the other attributes have been written. *)
Definition parse_sa_attrs (policy : ipsec_policy) (sa : sa_attrs) : sa_attrs * doca_error_t :=
  let sa := SaAttrs (icv_length sa) (convert_to_doca_key_type (p_key_type policy))
              (take MAX_KEY_LEN (p_enc_key_data policy)) (p_salt policy) in
  match convert_to_doca_icv (p_icv_length policy) with
  | Err e => (sa, e)
  | Ok icv => (SaAttrs icv (key_type sa) (enc_key_data sa) (salt sa), DOCA_SUCCESS)
  end.

Definition policy_l3 (protocol : Z) : doca_flow_l3_type :=
  if protocol =? POLICY_L3_TYPE_IPV4 then DOCA_FLOW_L3_TYPE_IP4 else DOCA_FLOW_L3_TYPE_IP6.

(** The bytes of an address array as characters. *)
Definition chars (bs : list Z) : list ascii := map (fun b => ascii_of_nat (Z.to_nat b)) bs.

(** [parse_ipv4_str(&policy->addr[0], &word)]. *)
Definition parse_ipv4_field (addr : list Z) : outcome (res Z) :=
  let* s := c_str (chars addr) in Ret (parse_ipv4_str s).

(** [parse_ipv6_str(&policy->addr[0], words)]: an error leaves the words as they are. *)
Definition parse_ipv6_field (addr : list Z) (words : list Z) : outcome (list Z * doca_error_t) :=
  let* s := c_str (chars addr) in
  Ret (match parse_ipv6_str s with Ok ip => (ip, DOCA_SUCCESS) | Err e => (words, e) end).

Section rules.
Context `{RteHash}.

(** An address of four words as a key of the table of IPv6 addresses. *)
Definition ip6_key (words : list Z) : Z := le_value (words ≫= le_bytes 4).

(** [rte_hash_lookup], then [rte_hash_add_key] when the address is not there. *)
Definition add_ip6 (words : list Z) (ip6_table : rte_hash) : rte_hash * doca_error_t :=
  if ht_mem (ip6_key words) ip6_table then (ip6_table, DOCA_SUCCESS)
  else match ht_add (ip6_key words) 0 ip6_table with
       | Some t => (t, DOCA_SUCCESS)
       | None => (ip6_table, DOCA_ERROR_DRIVER)
       end.

Definition set_er_ip ip (r : encrypt_rule) := EncryptRule (er_l3_type r) (er_protocol r) ip
  (er_src_port r) (er_dst_port r) (encap_l3_type r) (encap_dst_ip r) (er_esp_spi r) (current_sn r) (er_sa r).
Definition set_encap l3 dst (r : encrypt_rule) := EncryptRule (er_l3_type r) (er_protocol r) (er_ip r)
  (er_src_port r) (er_dst_port r) l3 dst (er_esp_spi r) (current_sn r) (er_sa r).
Definition set_er_sa sa (r : encrypt_rule) := EncryptRule (er_l3_type r) (er_protocol r) (er_ip r)
  (er_src_port r) (er_dst_port r) (encap_l3_type r) (encap_dst_ip r) (er_esp_spi r) (current_sn r) sa.
Definition set_current_sn sn (r : encrypt_rule) := EncryptRule (er_l3_type r) (er_protocol r) (er_ip r)
  (er_src_port r) (er_dst_port r) (encap_l3_type r) (encap_dst_ip r) (er_esp_spi r) sn (er_sa r).
Definition set_antireplay ar (r : decrypt_rule) :=
  DecryptRule (dr_l3_type r) (dr_dst_ip r) (dr_esp_spi r) (inner_l3_type r) (dr_sa r) ar.

(** The inner addresses of [ipsec_security_gw_policy_encrypt_parse]. *)
Definition encrypt_parse_ip (policy : ipsec_policy) (rule : encrypt_rule) (ip6_table : rte_hash)
    : outcome (encrypt_rule * rte_hash * doca_error_t) :=
  if bool_decide (er_l3_type rule = DOCA_FLOW_L3_TYPE_IP4) then
    let* r := parse_ipv4_field (src_ip_addr policy) in
    match r with
    | Err e => Ret (rule, ip6_table, e)
    | Ok src =>
        let rule := set_er_ip (<[0%nat := src]> (er_ip rule)) rule in
        let* r := parse_ipv4_field (dst_ip_addr policy) in
        match r with
        | Err e => Ret (rule, ip6_table, e)
        | Ok dst => Ret (set_er_ip (<[1%nat := dst]> (er_ip rule)) rule, ip6_table, DOCA_SUCCESS)
        end
    end
  else
    let* (src, result) := parse_ipv6_field (src_ip_addr policy) (take 4 (er_ip rule)) in
    let rule := set_er_ip (src ++ drop 4 (er_ip rule)) rule in
    if negb (bool_decide (result = DOCA_SUCCESS)) then Ret (rule, ip6_table, result)
    else
      let (ip6_table, result) := add_ip6 src ip6_table in
      if negb (bool_decide (result = DOCA_SUCCESS)) then Ret (rule, ip6_table, result)
      else
        let* (dst, result) := parse_ipv6_field (dst_ip_addr policy) (drop 4 (er_ip rule)) in
        let rule := set_er_ip (take 4 (er_ip rule) ++ dst) rule in
        if negb (bool_decide (result = DOCA_SUCCESS)) then Ret (rule, ip6_table, result)
        else
          let (ip6_table, result) := add_ip6 dst ip6_table in
          Ret (rule, ip6_table, result).

(** Its outer header, in tunnel mode. *)
Definition encrypt_parse_outer (policy : ipsec_policy) (rule : encrypt_rule)
    : outcome (encrypt_rule * doca_error_t) :=
  if policy_mode policy =? POLICY_MODE_TUNNEL then
    let rule := set_encap (policy_l3 (outer_l3_protocol policy)) (encap_dst_ip rule) rule in
    if bool_decide (encap_l3_type rule = DOCA_FLOW_L3_TYPE_IP4) then
      let* r := parse_ipv4_field (outer_dst_ip policy) in
      match r with
      | Err e => Ret (rule, e)
      | Ok dst =>
          Ret (set_encap (encap_l3_type rule) (<[0%nat := dst]> (encap_dst_ip rule)) rule, DOCA_SUCCESS)
      end
    else
      let* (dst, result) := parse_ipv6_field (outer_dst_ip policy) (encap_dst_ip rule) in
      Ret (set_encap (encap_l3_type rule) dst rule, result)
  else Ret (rule, DOCA_SUCCESS).

Definition policy_encrypt_parse (policy : ipsec_policy) (rule : encrypt_rule) (ip6_table : rte_hash)
    : outcome (encrypt_rule * rte_hash * doca_error_t) :=
  let rule := EncryptRule (policy_l3 (l3_protocol policy))
                (if l4_protocol policy =? POLICY_L4_TYPE_UDP then DOCA_FLOW_L4_TYPE_EXT_UDP
                 else DOCA_FLOW_L4_TYPE_EXT_TCP)
                (er_ip rule) (p_src_port policy) (p_dst_port policy) (encap_l3_type rule)
                (encap_dst_ip rule) (spi policy) (current_sn rule) (er_sa rule) in
  let* (rule, ip6_table, result) := encrypt_parse_ip policy rule ip6_table in
  if negb (bool_decide (result = DOCA_SUCCESS)) then Ret (rule, ip6_table, result)
  else
    let* (rule, result) := encrypt_parse_outer policy rule in
    if negb (bool_decide (result = DOCA_SUCCESS)) then Ret (rule, ip6_table, result)
    else
      let (sa, result) := parse_sa_attrs policy (er_sa rule) in
      Ret (set_er_sa sa rule, ip6_table, result).

Definition policy_decrypt_parse (policy : ipsec_policy) (mode : gw_mode) (rule : decrypt_rule)
    : outcome (decrypt_rule * doca_error_t) :=
  let outer := policy_l3 (outer_l3_protocol policy) in
  let inner := policy_l3 (l3_protocol policy) in
  let '(l3, dst_ip) :=
    if bool_decide (mode = IPSEC_SECURITY_GW_TUNNEL) then (outer, outer_dst_ip policy)
    else (inner, dst_ip_addr policy) in
  let rule := DecryptRule l3 (dr_dst_ip rule) (dr_esp_spi rule) inner (dr_sa rule) (antireplay rule) in
  let* (words, result) :=
    if bool_decide (l3 = DOCA_FLOW_L3_TYPE_IP4) then
      let* r := parse_ipv4_field dst_ip in
      match r with
      | Ok dst => Ret (<[0%nat := dst]> (dr_dst_ip rule), DOCA_SUCCESS)
      | Err e => Ret (dr_dst_ip rule, e)
      end
    else parse_ipv6_field dst_ip (dr_dst_ip rule) in
  let rule := DecryptRule l3 words (dr_esp_spi rule) inner (dr_sa rule) (antireplay rule) in
  if negb (bool_decide (result = DOCA_SUCCESS)) then Ret (rule, result)
  else
    let (sa, result) := parse_sa_attrs policy (dr_sa rule) in
    Ret (DecryptRule l3 words (spi policy) inner sa (antireplay rule), result).

(** ** The arrays of rules *)

(** [app_rules] with the table of IPv6 addresses and, in [installed], the entries the
    flow library was given: whether for encryption, the rule id, the rule's index. *)
Record gateway : Type := Gateway {
  nb_rules : Z;
  nb_encrypted_rules : Z;
  nb_decrypted_rules : Z;
  encrypt_rules : list encrypt_rule;
  decrypt_rules : list decrypt_rule;
  ip6_table : rte_hash;
  installed : list (bool * Z * Z);
}.

(** The configuration the loop reads, whether the library accepts an entry
    ([add_encrypt_entry], [add_decrypt_entry]), whether [realloc] succeeds for a
    number of rules, and the contents of memory it adds. *)
Record gw_config : Type := GwConfig {
  mode : gw_mode;
  sn_initial : Z;
  sw_sn_inc_enable : bool;
  sw_antireplay : bool;
  add_encrypt_entry : encrypt_rule -> Z -> doca_error_t;
  add_decrypt_entry : decrypt_rule -> Z -> doca_error_t;
  realloc_ok : Z -> bool;
  enc_garbage : encrypt_rule;
  dec_garbage : decrypt_rule;
}.

Context (cfg : gw_config).

(** [sw_handling_sn_inc] and [sw_handling_antireplay] on [n] rules from index [from]. *)
Definition update_range {A} (f : A -> A) (from n : Z) (rules : list A) : outcome (list A) :=
  let* _ := require (from + n <=? Z.of_nat (length rules)) OutOfBounds in
  let a := Z.to_nat from in
  let b := Z.to_nat (from + n) in
  Ret (take a rules ++ map f (take (b - a) (drop a rules)) ++ drop b rules).

Definition sw_handling_sn_inc (from n : Z) (rules : list encrypt_rule) : outcome (list encrypt_rule) :=
  update_range (set_current_sn (u32 (sn_initial cfg))) from n rules.

Definition sw_handling_antireplay (from n : Z) (rules : list decrypt_rule) : outcome (list decrypt_rule) :=
  update_range (set_antireplay (AntiReplay.sw_handling_antireplay (sn_initial cfg))) from n rules.

(** [realloc] to [n] elements. *)
Definition realloc {A} (garbage : A) (n : Z) (rules : list A) : list A :=
  take (Z.to_nat n) rules ++ replicate (Z.to_nat n - length rules) garbage.

Definition handle_encrypt_policy (policy : ipsec_policy) (g : gateway)
    : outcome (gateway * doca_error_t) :=
  let idx := Z.to_nat (nb_encrypted_rules g) in
  let* rule := of_option OutOfBounds (encrypt_rules g !! idx) in
  let* (rule, table, result) := policy_encrypt_parse policy rule (ip6_table g) in
  let g := Gateway (nb_rules g) (nb_encrypted_rules g) (nb_decrypted_rules g)
             (<[idx := rule]> (encrypt_rules g)) (decrypt_rules g) table (installed g) in
  if negb (bool_decide (result = DOCA_SUCCESS)) then Ret (g, result)
  else
    let rule_id := nb_encrypted_rules g in
    let result := add_encrypt_entry cfg rule rule_id in
    if negb (bool_decide (result = DOCA_SUCCESS)) then Ret (g, result)
    else Ret (Gateway (nb_rules g + 1) (nb_encrypted_rules g + 1) (nb_decrypted_rules g)
                (encrypt_rules g) (decrypt_rules g) (ip6_table g)
                (installed g ++ [(true, rule_id, nb_encrypted_rules g)]), DOCA_SUCCESS).

Definition handle_decrypt_policy (policy : ipsec_policy) (g : gateway)
    : outcome (gateway * doca_error_t) :=
  let idx := Z.to_nat (nb_decrypted_rules g) in
  let* rule := of_option OutOfBounds (decrypt_rules g !! idx) in
  let* (rule, result) := policy_decrypt_parse policy (mode cfg) rule in
  let g := Gateway (nb_rules g) (nb_encrypted_rules g) (nb_decrypted_rules g)
             (encrypt_rules g) (<[idx := rule]> (decrypt_rules g)) (ip6_table g) (installed g) in
  if negb (bool_decide (result = DOCA_SUCCESS)) then Ret (g, result)
  else
    let rule_id := DYN_RESERVED_RULES + nb_decrypted_rules g in
    let result := add_decrypt_entry cfg rule rule_id in
    if negb (bool_decide (result = DOCA_SUCCESS)) then Ret (g, result)
    else Ret (Gateway (nb_rules g + 1) (nb_encrypted_rules g) (nb_decrypted_rules g + 1)
                (encrypt_rules g) (decrypt_rules g) (ip6_table g)
                (installed g ++ [(false, rule_id, nb_decrypted_rules g)]), DOCA_SUCCESS).

(** Make room for the next encryption rule: [None] when [realloc] fails. *)
Definition reserve_encrypt (g : gateway) : outcome (option gateway) :=
  let nb := nb_encrypted_rules g in
  if negb (nb =? 0) && (nb mod DYN_RESERVED_RULES =? 0) then
    if negb (realloc_ok cfg (nb + DYN_RESERVED_RULES)) then Ret None
    else
      let rules := realloc (enc_garbage cfg) (nb + DYN_RESERVED_RULES) (encrypt_rules g) in
      let* rules := if sw_sn_inc_enable cfg then sw_handling_sn_inc nb DYN_RESERVED_RULES rules
                    else Ret rules in
      Ret (Some (Gateway (nb_rules g) nb (nb_decrypted_rules g) rules (decrypt_rules g)
                   (ip6_table g) (installed g)))
  else Ret (Some g).

Definition reserve_decrypt (g : gateway) : outcome (option gateway) :=
  let nb := nb_decrypted_rules g in
  if negb (nb =? 0) && (nb mod DYN_RESERVED_RULES =? 0) then
    if negb (realloc_ok cfg (nb + DYN_RESERVED_RULES)) then Ret None
    else
      let rules := realloc (dec_garbage cfg) (nb + DYN_RESERVED_RULES) (decrypt_rules g) in
      let* rules := if sw_antireplay cfg then sw_handling_antireplay nb DYN_RESERVED_RULES rules
                    else Ret rules in
      Ret (Some (Gateway (nb_rules g) (nb_encrypted_rules g) nb (encrypt_rules g) rules
                   (ip6_table g) (installed g)))
  else Ret (Some g).

(** What the loop of [ipsec_security_gw_wait_for_traffic] does with a policy it read:
    any code but [DOCA_SUCCESS] leaves the loop. *)
Definition install_policy (policy : ipsec_policy) (g : gateway) : outcome (gateway * doca_error_t) :=
  if policy_direction policy =? POLICY_DIR_OUT then
    if MAX_NB_RULES <=? nb_encrypted_rules g then Ret (g, DOCA_ERROR_BAD_STATE)
    else
      let* r := reserve_encrypt g in
      match r with
      | None => Ret (g, DOCA_ERROR_NO_MEMORY)
      | Some g => handle_encrypt_policy policy g
      end
  else if policy_direction policy =? POLICY_DIR_IN then
    if MAX_NB_RULES <=? nb_decrypted_rules g then Ret (g, DOCA_ERROR_BAD_STATE)
    else
      let* r := reserve_decrypt g in
      match r with
      | None => Ret (g, DOCA_ERROR_NO_MEMORY)
      | Some g => handle_decrypt_policy policy g
      end
  else Ret (g, DOCA_SUCCESS).

(** [n] rounds of the loop, or fewer when it is left. *)
Fixpoint policy_loop (n : nat) (s : list arrival) (g : gateway)
    : outcome (list arrival * gateway * doca_error_t) :=
  match n with
  | O => Ret (s, g, DOCA_SUCCESS)
  | S n' =>
      let* (s, policy, result) := read_message_from_socket policy_zero s in
      if bool_decide (result = DOCA_ERROR_AGAIN) then policy_loop n' s g
      else if negb (bool_decide (result = DOCA_SUCCESS)) then Ret (s, g, result)
      else
        let* (g, result) := install_policy policy g in
        if negb (bool_decide (result = DOCA_SUCCESS)) then Ret (s, g, result)
        else policy_loop n' s g
  end.
End rules.

(** ** The reader *)

Lemma recv_length n s bs s' : recv n s = (RecvData bs, s') -> (length bs <= n)%nat.
Proof.
  destruct s as [|[b| | |] s]; cbn; try done; [|intros [= <- <-]; cbn; lia].
  destruct (length b <=? n)%nat eqn:E; intros [= <- <-]; [by apply Nat.leb_le in E|].
  rewrite length_take. lia.
Qed.

(** The loop ends within its bound and never stores more than it was asked for. *)
Lemma fill_loop_total fuel n got s :
  (length got < n)%nat -> (n - length got < fuel)%nat ->
  exists s' got' r, fill_loop fuel n got s = Ret (s', got', r) /\ (length got' <= n)%nat
    /\ (r = DOCA_SUCCESS -> length got' = n)
    /\ (r = DOCA_SUCCESS \/ r = DOCA_ERROR_AGAIN \/ r = DOCA_ERROR_IO_FAILED).
Proof.
  revert got s. induction fuel as [|fuel IH]; intros got s Hn Hf; [lia|]. cbn [fill_loop].
  destruct (recv (n - length got) s) as [[bs| |] s1] eqn:E.
  - apply recv_length in E. destruct bs as [|b bs].
    { eexists _, _, _. split; [done|]. split; [lia|]. split; [done|tauto]. }
    destruct (_ <? n)%nat eqn:Hl.
    + apply Nat.ltb_lt in Hl. apply IH; [done|]. rewrite length_app in *. cbn in *. lia.
    + apply Nat.ltb_ge in Hl. eexists _, _, _. split; [done|]. rewrite length_app in *. cbn in *.
      split; [lia|]. split; [lia|tauto].
  - eexists _, _, _. split; [done|]. split; [lia|]. split; [done|tauto].
  - eexists _, _, _. split; [done|]. split; [lia|]. split; [done|tauto].
Qed.

Lemma fill_buffer_total n buf s :
  (0 < n <= length buf)%nat ->
  exists s' buf' r, fill_buffer_from_socket n buf s = Ret (s', buf', r) /\ length buf' = length buf
    /\ (r = DOCA_SUCCESS \/ r = DOCA_ERROR_AGAIN \/ r = DOCA_ERROR_IO_FAILED).
Proof.
  intros Hn. unfold fill_buffer_from_socket.
  destruct (fill_loop_total (S n) n [] s) as (s' & got & r & -> & Hl & _ & Hr); [cbn; lia..|].
  rewrite (proj2 (Nat.leb_le _ _)) by lia. cbn [require]. eexists _, _, _. split; [done|].
  split; [|done]. rewrite length_app, length_drop. lia.
Qed.

(** Reading from data that is there, however it is cut into pieces. *)
Lemma fill_loop_data fuel n got chunks rest m tail :
  Forall (fun c => c <> []) chunks -> concat chunks = m ++ tail ->
  (length got + length m = n)%nat -> (0 < length m < fuel)%nat ->
  exists chunks', fill_loop fuel n got (map Bytes chunks ++ rest)
      = Ret (map Bytes chunks' ++ rest, got ++ m, DOCA_SUCCESS)
    /\ concat chunks' = tail /\ Forall (fun c => c <> []) chunks'.
Proof.
  revert got chunks m. induction fuel as [|fuel IH]; intros got chunks m Hne Hc Hn Hm; [lia|].
  destruct chunks as [|bs cs]; [destruct m; cbn in *; [lia|done]|].
  apply Forall_cons_1 in Hne as [Hbs Hcs]. cbn [concat] in Hc. cbn [fill_loop map app recv].
  replace (n - length got)%nat with (length m) by lia.
  destruct (length bs <=? length m)%nat eqn:E; [apply Nat.leb_le in E | apply Nat.leb_gt in E].
  - apply app_eq_inv in Hc as [(k & -> & Hk)|(k & -> & Hk)].
    + destruct k as [|x k]; rewrite ?length_app in E; cbn in E; [|lia].
      rewrite app_nil_r in *. cbn in Hk. destruct m as [|x m]; [done|].
      rewrite length_app, (proj2 (Nat.ltb_ge _ _)) by lia. by exists cs.
    + destruct bs as [|b bs]; [done|]. rewrite length_app in *. destruct k as [|x k].
      * rewrite app_nil_r, (proj2 (Nat.ltb_ge _ _)) by (cbn in *; lia). by exists cs.
      * rewrite (proj2 (Nat.ltb_lt _ _)) by (cbn in *; lia). rewrite (app_assoc got).
        apply IH; [done|done|rewrite length_app; lia|cbn in *; lia].
  - apply app_eq_inv in Hc as [(k & -> & Hk)|(k & -> & Hk)]; [|rewrite length_app in E; lia].
    rewrite take_app_length, drop_app_length. destruct m as [|x m]; [cbn in *; lia|].
    rewrite length_app, (proj2 (Nat.ltb_ge _ _)) by lia. exists (k :: cs). split; [done|].
    split; [by rewrite Hk|]. apply Forall_cons_2; [|done]. intros ->. rewrite app_nil_r in E. lia.
Qed.

Lemma fill_buffer_data n buf chunks rest m tail :
  Forall (fun c => c <> []) chunks -> concat chunks = m ++ tail -> length m = n ->
  (0 < n <= length buf)%nat ->
  exists chunks', fill_buffer_from_socket n buf (map Bytes chunks ++ rest)
      = Ret (map Bytes chunks' ++ rest, m ++ drop n buf, DOCA_SUCCESS)
    /\ concat chunks' = tail /\ Forall (fun c => c <> []) chunks'.
Proof.
  intros Hne Hc Hm Hn. unfold fill_buffer_from_socket.
  destruct (fill_loop_data (S n) n [] chunks rest m tail Hne Hc) as (cs & -> & H1 & H2);
    [cbn; lia..|]. cbn [app]. rewrite (proj2 (Nat.leb_le _ _)) by lia. cbn [require].
  rewrite Hm. by exists cs.
Qed.

(** ** The message of a policy *)

(** The record of the protocol, with a key of [k] bytes. *)
Definition policy_items (k : nat) (p : ipsec_policy) : list item :=
  [I16 (p_src_port p); I16 (p_dst_port p); I8 (l3_protocol p); I8 (l4_protocol p);
   I8 (outer_l3_protocol p); I8 (policy_direction p); I8 (policy_mode p); I8 (esn p);
   I8 (p_icv_length p); I8 (p_key_type p); I32 (spi p); I32 (p_salt p);
   IBlob (src_ip_addr p); IBlob (dst_ip_addr p); IBlob (outer_src_ip p); IBlob (outer_dst_ip p);
   IBlob (take k (p_enc_key_data p))].

Definition policy_message (k : nat) (p : ipsec_policy) : list Z :=
  items_bytes [I32 (208 + Z.of_nat k)] ++ items_bytes (policy_items k p).

Definition address_ok (a : list Z) : Prop :=
  length a = 47%nat /\ Forall (in_width 8) a /\ a !! MAX_IP_ADDR_LEN = Some 0.

(** A policy with a key of [k] bytes. *)
Record policy_ok (k : nat) (p : ipsec_policy) : Prop := {
  po_key_len : k = 16%nat \/ k = 32%nat;
  po_items : Forall item_ok (policy_items k p);
  po_key : p_enc_key_data p = take k (p_enc_key_data p) ++ replicate (MAX_KEY_LEN - k) 0;
  po_key_size : length (p_enc_key_data p) = MAX_KEY_LEN;
  po_src : address_ok (src_ip_addr p);
  po_dst : address_ok (dst_ip_addr p);
  po_outer_src : address_ok (outer_src_ip p);
  po_outer_dst : address_ok (outer_dst_ip p);
}.

Lemma unpack_ip_blob a c c' :
  address_ok a -> unpack_blob 47 c = Ret (a, c') -> unpack_ip c = Ret (a, c').
Proof.
  intros (Hl & _ & Hz) E. unfold unpack_ip.
  change (MAX_IP_ADDR_LEN + 1)%nat with 47%nat. rewrite E. by rewrite list_insert_id.
Qed.

(** Unpacking a sequence of items, one by one. *)
Lemma unpack_items_cons i its its' c c' :
  unpack_items (i :: its) c = Ret (i :: its', c') ->
  exists c1, unpack_item i c = Ret (i, c1) /\ unpack_items its c1 = Ret (its', c').
Proof.
  cbn [unpack_items]. intros E. obind E. destruct a as [v c1]. obind E. destruct a as [vs c2].
  inv_ret. by exists c1.
Qed.

Lemma unpack_item_I8 v c c' : unpack_item (I8 v) c = Ret (I8 v, c') -> unpack_uint8 c = Ret (v, c').
Proof. cbn. intros E. obind E. destruct a. by inv_ret. Qed.
Lemma unpack_item_I16 v c c' : unpack_item (I16 v) c = Ret (I16 v, c') -> unpack_uint16 c = Ret (v, c').
Proof. cbn [unpack_item]. intros E. obind E. destruct a. by inv_ret. Qed.
Lemma unpack_item_I32 v c c' : unpack_item (I32 v) c = Ret (I32 v, c') -> unpack_uint32 c = Ret (v, c').
Proof. cbn [unpack_item]. intros E. obind E. destruct a. by inv_ret. Qed.
Lemma unpack_item_IBlob v c c' :
  unpack_item (IBlob v) c = Ret (IBlob v, c') -> unpack_blob (length v) c = Ret (v, c').
Proof. cbn [unpack_item]. intros E. obind E. destruct a. by inv_ret. Qed.

(** Take the next item off an unpacking hypothesis and rewrite with it. *)
Ltac next_item H :=
  let c := fresh "c" in let E := fresh "E" in
  apply unpack_items_cons in H as (c & E & H);
  first [apply unpack_item_I8 in E | apply unpack_item_I16 in E
        | apply unpack_item_I32 in E | apply unpack_item_IBlob in E].

Lemma unpack_policy_items k p rest :
  policy_ok k p ->
  unpack_policy_buffer (items_bytes (policy_items k p) ++ rest) (208 + Z.of_nat k) policy_zero
  = Ret (p, DOCA_SUCCESS).
Proof.
  intros [Hk Hok Hkey Hks Hs Hd Hos Hod].
  pose proof (unpack_items_bytes (policy_items k p) [] rest Hok) as H. cbn [app length] in H.
  revert H. generalize (items_bytes (policy_items k p) ++ rest). intros buf.
  generalize (0 + items_size (policy_items k p))%nat. intros n H. unfold policy_items in H.
  unfold unpack_policy_buffer.
  do 12 (next_item H; match goal with E : _ = Ret _ |- _ => rewrite E; clear E end).
  do 4 (next_item H; match goal with
    | E : unpack_blob (length ?a) _ = Ret _, Ha : address_ok ?a |- _ =>
        rewrite (proj1 Ha) in E; apply (unpack_ip_blob _ _ _ Ha) in E; rewrite E; clear E end).
  next_item H.
  assert (length (take k (p_enc_key_data p)) = k) as Hl.
  { rewrite length_take, Hks. unfold MAX_KEY_LEN. lia. }
  rewrite Hl in E.
  replace (if _ =? _ then 32%nat else 16%nat) with k by (destruct Hk as [-> | ->]; done).
  rewrite E. cbv beta iota. do 2 f_equal.
  destruct p; cbn in *. f_equal. rewrite Hkey at 2. f_equal.
  destruct Hk as [-> | ->]; done.
Qed.

Lemma items_bytes_length its : Forall item_ok its -> length (items_bytes its) = items_size its.
Proof.
  intros Hok. apply (pack_items_app its (replicate (items_size its) 0) 0 Hok).
  rewrite length_replicate. lia.
Qed.

Lemma policy_items_length k p : policy_ok k p -> length (items_bytes (policy_items k p)) = (208 + k)%nat.
Proof.
  intros [Hk Hok Hkey Hks (Hs & _) (Hd & _) (Hos & _) (Hod & _)].
  rewrite items_bytes_length by done. unfold items_size, policy_items.
  cbn [sum_list_with item_size]. rewrite Hs, Hd, Hos, Hod, length_take, Hks. unfold MAX_KEY_LEN. lia.
Qed.

Lemma length_message k : in_width 32 k -> length (items_bytes [I32 k]) = 4%nat.
Proof. intros Hk. rewrite items_bytes_length; [done|]. apply Forall_singleton. exact Hk. Qed.

Lemma read_length k buf :
  in_width 32 k -> unpack_uint32 (Cursor (items_bytes [I32 k] ++ buf) 0)
    = Ret (k, Cursor (items_bytes [I32 k] ++ buf) 4).
Proof.
  intros Hk. pose proof (unpack_items_bytes [I32 k] [] buf) as H. cbn [app length] in H.
  specialize (H (proj2 (Forall_singleton item_ok (I32 k)) Hk)). next_item H. cbn in H. by inv_ret.
Qed.

(** Reading the length of a message that starts the data. *)
Lemma read_message_length_data k chunks rest tail :
  in_width 32 k -> Forall (fun c => c <> []) chunks -> concat chunks = items_bytes [I32 k] ++ tail ->
  exists chunks', read_message_length (map Bytes chunks ++ rest)
      = Ret (map Bytes chunks' ++ rest,
             if bool_decide (k = POLICY_RECORD_MIN_SIZE \/ k = POLICY_RECORD_MAX_SIZE)
             then Ok k else Err DOCA_ERROR_IO_FAILED)
    /\ concat chunks' = tail /\ Forall (fun c => c <> []) chunks'.
Proof.
  intros Hk Hne Hc. unfold read_message_length.
  destruct (fill_buffer_data 4 (replicate 8 0) chunks rest (items_bytes [I32 k]) tail Hne Hc)
    as (cs & -> & H1 & H2); [by apply length_message|rewrite length_replicate; lia|].
  exists cs. split; [|done]. rewrite bool_decide_eq_true_2 by done. cbn [negb].
  rewrite read_length by done. cbv beta iota. case_bool_decide as Hb.
  - destruct Hb as [-> | ->]; done.
  - assert (k <> POLICY_RECORD_MIN_SIZE /\ k <> POLICY_RECORD_MAX_SIZE) as [Ha Hb'] by tauto.
    by rewrite (proj2 (Z.eqb_neq _ _) Ha), (proj2 (Z.eqb_neq _ _) Hb').
Qed.

(** Unpacking inside the buffer. *)
Lemma get_be_total n a c :
  (pos c + n <= length (mem c))%nat -> exists v, get_be n a c = Ret (v, Cursor (mem c) (pos c + n)).
Proof.
  revert a c. induction n as [|n IH]; intros a [m q] Hn; cbn [get_be mem pos] in *.
  - exists a. by rewrite Nat.add_0_r.
  - unfold get. cbn [mem pos]. destruct (lookup_lt_is_Some_2 m q) as [b ->]; [lia|].
    match goal with |- context [get_be n ?a' ?c'] => destruct (IH a' c') as [v ->]; [cbn; lia|] end.
    exists v. cbn. do 3 f_equal. lia.
Qed.

Lemma unpack_blob_total n c :
  (pos c + n <= length (mem c))%nat ->
  exists v, unpack_blob n c = Ret (v, Cursor (mem c) (pos c + n)) /\ length v = n.
Proof.
  intros Hn. unfold unpack_blob. rewrite (proj2 (Nat.leb_le _ _)) by done. eexists. split; [done|].
  rewrite length_take, length_drop. lia.
Qed.

Lemma unpack_policy_total buf nb policy :
  (240 <= length buf)%nat -> exists r, unpack_policy_buffer buf nb policy = Ret r.
Proof.
  intros Hl. unfold unpack_policy_buffer, unpack_uint16, unpack_uint32, unpack_uint8, get, unpack_ip.
  repeat first
    [ match goal with |- context [get_be ?n ?a ?c] =>
        let v := fresh "v" in destruct (get_be_total n a c) as [v ->]; [cbn; lia|]; cbn [mem pos] end
    | match goal with |- context [?m !! ?i] =>
        let v := fresh "v" in destruct (lookup_lt_is_Some_2 m i) as [v ->]; [cbn; lia|]; cbn [mem pos] end
    | match goal with |- context [unpack_blob ?n ?c] =>
        let v := fresh "v" in destruct (unpack_blob_total n c) as (v & -> & _);
          [cbn; try destruct (nb =? _); lia|]; cbn [mem pos] end ].
  by eexists.
Qed.

(** The two ports at the start of a record, read as a length. *)
Lemma ports_as_length a b :
  in_width 16 a -> in_width 16 b -> items_bytes [I16 a; I16 b] = items_bytes [I32 (a * 65536 + b)].
Proof.
  intros [Ha0 Ha] [Hb0 Hb]. unfold items_bytes. cbn -[Z.mul Z.div Z.modulo Z.add].
  assert ((a * 65536 + b) / 256 = a * 256 + b / 256) as -> by (Z.to_euclidean_division_equations; lia).
  assert ((a * 256 + b / 256) / 256 = a) as -> by (Z.to_euclidean_division_equations; lia).
  repeat (apply (f_equal2 cons); [Z.to_euclidean_division_equations; lia|]). done.
Qed.

Lemma read_policy_total policy s :
  exists s' p' r, read_message_from_socket policy s = Ret (s', p', r).
Proof.
  unfold read_message_from_socket, read_message_length.
  destruct (fill_buffer_total 4 (replicate 8 0) s) as (s1 & buf & r & -> & Hl & _);
    [rewrite length_replicate; lia|]. case_bool_decide; cbn [negb]; [|by eexists _, _, _].
  unfold unpack_uint32. rewrite length_replicate in Hl.
  destruct (get_be_total 4 0 (Cursor buf 0)) as [len ->]; [cbn; lia|].
  destruct (_ && _) eqn:E; [by eexists _, _, _|].
  assert (len = 224 \/ len = 240) as Hlen.
  { destruct (Z.eqb_spec len POLICY_RECORD_MIN_SIZE), (Z.eqb_spec len POLICY_RECORD_MAX_SIZE);
      try done; auto. }
  destruct (fill_buffer_total (Z.to_nat len) (replicate 1024 0) s1) as (s2 & buf2 & r2 & -> & Hl2 & _);
    [rewrite length_replicate; lia|]. case_bool_decide; cbn [negb]; [|by eexists _, _, _].
  rewrite length_replicate in Hl2.
  destruct (unpack_policy_total buf2 len policy) as [[p' r'] ->]; [lia|]. by eexists _, _, _.
Qed.

(** ** Properties of the reader *)

(** Reading a message returns on every sequence of arrivals: the reader never
    leaves its buffers and never loops. *)
Theorem read_message_total policy s :
  exists s' p' r, read_message_from_socket policy s = Ret (s', p', r).
Proof. apply read_policy_total. Qed.

(** C30: A policy sent with its length arrives unchanged when all of its bytes are
    there, in whatever portions [recv] hands them out, and what follows stays in the
    stream. (When the body is not there yet the message is lost:
    [read_message_split_lost].) *)
Theorem read_message_roundtrip k p chunks rest tail :
  policy_ok k p -> Forall (fun c => c <> []) chunks -> concat chunks = policy_message k p ++ tail ->
  exists chunks', read_message_from_socket policy_zero (map Bytes chunks ++ rest)
      = Ret (map Bytes chunks' ++ rest, p, DOCA_SUCCESS) /\ concat chunks' = tail.
Proof.
  intros Hok Hne Hc. unfold policy_message in Hc. rewrite <-app_assoc in Hc.
  destruct (po_key_len _ _ Hok) as [Hk|Hk]; unfold read_message_from_socket;
  (destruct (read_message_length_data (208 + Z.of_nat k) chunks rest _ ltac:(split; lia) Hne Hc)
    as (cs & -> & H1 & H2)); rewrite bool_decide_eq_true_2 by (subst k; vm_compute; tauto);
  (destruct (fill_buffer_data (Z.to_nat (208 + Z.of_nat k)) (replicate 1024 0) cs rest _ tail H2 H1)
     as (cs' & -> & H3 & _); [rewrite (policy_items_length _ _ Hok); lia|rewrite length_replicate; lia|]);
  rewrite bool_decide_eq_true_2 by done; cbn [negb];
  rewrite (unpack_policy_items k p _ Hok); by exists cs'.
Qed.

(** When nothing has arrived yet after the length of a message, the reader reports
    that there is no policy but has consumed the length: the next call takes the
    first four bytes of the record (its two ports) for a length and fails, unless
    the ports spell a record size. *)
Theorem read_message_split_lost k p rest :
  policy_ok k p ->
  p_src_port p * 65536 + p_dst_port p <> POLICY_RECORD_MIN_SIZE ->
  p_src_port p * 65536 + p_dst_port p <> POLICY_RECORD_MAX_SIZE ->
  exists s1 s2,
    read_message_from_socket policy_zero
      (Bytes (items_bytes [I32 (208 + Z.of_nat k)]) :: WouldBlock
       :: Bytes (items_bytes (policy_items k p)) :: rest) = Ret (s1, policy_zero, DOCA_ERROR_AGAIN)
    /\ read_message_from_socket policy_zero s1 = Ret (s2, policy_zero, DOCA_ERROR_IO_FAILED).
Proof.
  intros Hok Hmin Hmax. pose proof (po_items _ _ Hok) as Hits.
  assert (in_width 16 (p_src_port p) /\ in_width 16 (p_dst_port p)) as [Hs Hd].
  { unfold policy_items in Hits. apply Forall_cons_1 in Hits as [H1 Hits].
    by apply Forall_cons_1 in Hits as [H2 _]. }
  assert (in_width 32 (208 + Z.of_nat k)) as Hw by (destruct (po_key_len _ _ Hok); split; lia).
  destruct (read_message_length_data (p_src_port p * 65536 + p_dst_port p)
              [items_bytes (policy_items k p)] rest (items_bytes (drop 2 (policy_items k p))))
    as (cs2 & E2 & _).
  { destruct Hs, Hd. split; lia. }
  { by apply Forall_singleton. }
  { rewrite <-(ports_as_length _ _ Hs Hd). cbn [concat]. rewrite app_nil_r. unfold items_bytes.
    by rewrite <-bind_app. }
  eexists (Bytes (items_bytes (policy_items k p)) :: rest), _. split.
  - unfold read_message_from_socket.
    destruct (read_message_length_data (208 + Z.of_nat k) [items_bytes [I32 (208 + Z.of_nat k)]]
                (WouldBlock :: Bytes (items_bytes (policy_items k p)) :: rest) [] Hw)
      as (cs & E & H1 & H2); [by apply Forall_singleton|done|].
    cbn [map app] in E. rewrite E, bool_decide_eq_true_2.
    2:{ destruct (po_key_len _ _ Hok) as [-> | ->]; vm_compute; tauto. }
    destruct cs as [|[|] cs]; [|by apply Forall_cons_1 in H2 as [? _]|done].
    unfold fill_buffer_from_socket. by destruct (Z.to_nat (208 + Z.of_nat k)).
  - unfold read_message_from_socket. cbn [map app] in E2. rewrite E2, bool_decide_eq_false_2 by tauto.
    done.
Qed.

(** ** The arrays *)

Lemma map_lookup {A B} (f : A -> B) l i : map f l !! i = f <$> l !! i.
Proof. apply (list_lookup_fmap f). Qed.

Lemma update_range_spec {A} (f : A -> A) from n rules :
  0 <= from -> 0 <= n -> from + n <= Z.of_nat (length rules) ->
  exists rules', update_range f from n rules = Ret rules' /\ length rules' = length rules
    /\ forall i x, rules' !! i = Some x -> from <= Z.of_nat i < from + n ->
         exists y, rules !! i = Some y /\ x = f y.
Proof.
  intros Hf Hn Hl. unfold update_range. rewrite (proj2 (Z.leb_le _ _)) by done. cbn [require].
  eexists. split; [done|]. split.
  - rewrite !length_app, length_map, !length_take, !length_drop. lia.
  - intros i x Hx Hi. rewrite lookup_app_r in Hx by (rewrite length_take; lia).
    rewrite length_take, Nat.min_l in Hx by lia.
    rewrite lookup_app_l in Hx by (rewrite length_map, length_take, length_drop; lia).
    rewrite map_lookup in Hx. apply fmap_Some in Hx as (y & Hy & ->). exists y. split; [|done].
    rewrite lookup_take_lt, lookup_drop in Hy by lia. rewrite <-Hy. f_equal. lia.
Qed.

Lemma realloc_length {A} (g : A) n rules :
  Z.of_nat (length rules) <= n -> Z.of_nat (length (realloc g n rules)) = n.
Proof. intros Hn. unfold realloc. rewrite length_app, length_take, length_replicate. lia. Qed.

Lemma chars_lookup bs i : chars bs !! i = (fun b => ascii_of_nat (Z.to_nat b)) <$> bs !! i.
Proof. apply map_lookup. Qed.

Lemma cstr_of_terminated p i : p !! i = Some NUL -> exists s, cstr_of p = Some s.
Proof.
  revert i. induction p as [|c p IH]; intros [|i] Hi; cbn in *; try done.
  - injection Hi as ->. by eexists.
  - case_bool_decide; [by eexists|]. destruct (IH i Hi) as [s ->]. by eexists.
Qed.

(** A zero byte at the last position of an address array. *)
Definition terminated (a : list Z) : Prop := a !! MAX_IP_ADDR_LEN = Some 0.

Lemma c_str_terminated a : terminated a -> exists s, c_str (chars a) = Ret s.
Proof.
  intros Hz. unfold c_str.
  destruct (cstr_of_terminated (chars a) MAX_IP_ADDR_LEN) as [s ->]; [|by eexists].
  by rewrite chars_lookup, Hz.
Qed.

Lemma parse_ipv4_field_total a : terminated a -> exists r, parse_ipv4_field a = Ret r.
Proof.
  intros [s E]%c_str_terminated. unfold parse_ipv4_field. rewrite E. by eexists.
Qed.

Lemma parse_ipv6_field_total a words : terminated a -> exists r, parse_ipv6_field a words = Ret r.
Proof.
  intros [s E]%c_str_terminated. unfold parse_ipv6_field. rewrite E. by eexists.
Qed.

Record policy_terminated (p : ipsec_policy) : Prop := {
  pt_src : terminated (src_ip_addr p);
  pt_dst : terminated (dst_ip_addr p);
  pt_outer_dst : terminated (outer_dst_ip p);
}.

(** The computation is defined and [P] holds of its result. *)
Definition returns {A} (P : A -> Prop) (o : outcome A) : Prop :=
  match o with Ret a => P a | Undef _ => False end.

Lemma returns_bind {A B} (P : A -> Prop) (Q : B -> Prop) (o : outcome A) (k : A -> outcome B) :
  returns P o -> (forall a, P a -> returns Q (k a)) ->
  returns Q (let* a := o in k a).
Proof. destruct o; cbn; auto. Qed.

Section arrays.
Context `{RteHash} (cfg : gw_config).

(** Blocks of [DYN_RESERVED_RULES] with room for the rules in use. *)
Definition blocks_ok (nb len : Z) : Prop :=
  0 <= nb /\ exists k, len = DYN_RESERVED_RULES * k /\ 0 < k /\ nb <= len <= nb + DYN_RESERVED_RULES.

(** The arrays have room, unused rules hold the initial software state, and every
    installed entry has the id of its index: the index itself for encryption, the
    index after the reserved ids for decryption. *)
Record gw_inv (g : gateway) : Prop := {
  gi_enc : blocks_ok (nb_encrypted_rules g) (Z.of_nat (length (encrypt_rules g)));
  gi_dec : blocks_ok (nb_decrypted_rules g) (Z.of_nat (length (decrypt_rules g)));
  gi_sum : nb_rules g = nb_encrypted_rules g + nb_decrypted_rules g;
  gi_sn : sw_sn_inc_enable cfg = true -> forall i r, nb_encrypted_rules g <= Z.of_nat i ->
    encrypt_rules g !! i = Some r -> current_sn r = u32 (sn_initial cfg);
  gi_ar : sw_antireplay cfg = true -> forall i r, nb_decrypted_rules g <= Z.of_nat i ->
    decrypt_rules g !! i = Some r -> antireplay r = AntiReplay.sw_handling_antireplay (sn_initial cfg);
  gi_ids : Forall (fun '(enc, id, idx) =>
    if (enc : bool) then id = idx /\ idx < nb_encrypted_rules g
    else id = DYN_RESERVED_RULES + idx /\ idx < nb_decrypted_rules g) (installed g);
}.

Lemma blocks_room nb len :
  blocks_ok nb len -> negb (nb =? 0) && (nb mod DYN_RESERVED_RULES =? 0) = false -> nb < len.
Proof using Type.
  intros (Hnb & k & -> & Hk & Hr). unfold DYN_RESERVED_RULES in *. rewrite andb_false_iff, negb_false_iff.
  intros [->%Z.eqb_eq|Hm%Z.eqb_neq]; [lia|].
  destruct (decide (nb = 1024 * k)) as [->|]; [|lia]. rewrite Z.mul_comm, Z.mod_mul in Hm; lia.
Qed.

Lemma blocks_grow nb len :
  blocks_ok nb len -> negb (nb =? 0) && (nb mod DYN_RESERVED_RULES =? 0) = true ->
  blocks_ok nb (nb + DYN_RESERVED_RULES).
Proof using Type.
  intros (Hnb & k & -> & Hk & Hr). rewrite andb_true_iff, negb_true_iff.
  intros [Hz%Z.eqb_neq Hm%Z.eqb_eq]. split; [done|]. unfold DYN_RESERVED_RULES in *.
  exists (nb / 1024 + 1). pose proof (Z.div_mod nb 1024). lia.
Qed.

Lemma reserve_encrypt_spec g :
  gw_inv g -> exists r, reserve_encrypt cfg g = Ret r
    /\ forall g', r = Some g' -> gw_inv g' /\ nb_encrypted_rules g' < Z.of_nat (length (encrypt_rules g')).
Proof using Type.
  intros Hi. unfold reserve_encrypt. destruct (_ && _) eqn:E.
  - destruct (negb (realloc_ok _ _)); [by eexists|].
    pose proof (blocks_grow _ _ (gi_enc _ Hi) E) as Hb. pose proof (gi_enc _ Hi) as (Hnb & k & Hk & _ & Hr).
    assert (Z.of_nat (length (realloc (enc_garbage cfg) (nb_encrypted_rules g + DYN_RESERVED_RULES)
              (encrypt_rules g))) = nb_encrypted_rules g + DYN_RESERVED_RULES) as Hl
      by (apply realloc_length; unfold DYN_RESERVED_RULES in *; lia).
    revert Hl. generalize (realloc (enc_garbage cfg) (nb_encrypted_rules g + DYN_RESERVED_RULES)
      (encrypt_rules g)). intros rules Hl. destruct (sw_sn_inc_enable cfg) eqn:Hsn.
    + destruct (update_range_spec (set_current_sn (u32 (sn_initial cfg))) (nb_encrypted_rules g)
                  DYN_RESERVED_RULES rules) as (rules' & Hu & Hl' & Hx);
        [unfold DYN_RESERVED_RULES in *; lia..|].
      unfold sw_handling_sn_inc. rewrite Hu. eexists. split; [done|]. intros g' [= <-].
      destruct Hi as [H1 H2 H3 H4 H5 H6]. cbn. rewrite Hl', Hl. unfold DYN_RESERVED_RULES in *.
      split; [|lia]. split; cbn; try done; [by rewrite Hl', Hl|].
      intros _ i r Hir Hlk. destruct (Hx i r Hlk) as (y & _ & ->); [|done].
      apply lookup_lt_Some in Hlk. lia.
    + eexists. split; [done|]. intros g' [= <-]. destruct Hi as [H1 H2 H3 H4 H5 H6]. cbn. rewrite Hl.
      unfold DYN_RESERVED_RULES in *. split; [|lia]. split; cbn; try done; [by rewrite Hl|congruence].
  - eexists. split; [done|]. intros g' [= <-]. split; [done|]. apply blocks_room; [apply Hi|done].
Qed.

Lemma reserve_decrypt_spec g :
  gw_inv g -> exists r, reserve_decrypt cfg g = Ret r
    /\ forall g', r = Some g' -> gw_inv g' /\ nb_decrypted_rules g' < Z.of_nat (length (decrypt_rules g')).
Proof using Type.
  intros Hi. unfold reserve_decrypt. destruct (_ && _) eqn:E.
  - destruct (negb (realloc_ok _ _)); [by eexists|].
    pose proof (blocks_grow _ _ (gi_dec _ Hi) E) as Hb. pose proof (gi_dec _ Hi) as (Hnb & k & Hk & _ & Hr).
    assert (Z.of_nat (length (realloc (dec_garbage cfg) (nb_decrypted_rules g + DYN_RESERVED_RULES)
              (decrypt_rules g))) = nb_decrypted_rules g + DYN_RESERVED_RULES) as Hl
      by (apply realloc_length; unfold DYN_RESERVED_RULES in *; lia).
    revert Hl. generalize (realloc (dec_garbage cfg) (nb_decrypted_rules g + DYN_RESERVED_RULES)
      (decrypt_rules g)). intros rules Hl. destruct (sw_antireplay cfg) eqn:Hsn.
    + destruct (update_range_spec (set_antireplay (AntiReplay.sw_handling_antireplay (sn_initial cfg)))
                  (nb_decrypted_rules g) DYN_RESERVED_RULES rules) as (rules' & Hu & Hl' & Hx);
        [unfold DYN_RESERVED_RULES in *; lia..|].
      unfold sw_handling_antireplay. rewrite Hu. eexists. split; [done|]. intros g' [= <-].
      destruct Hi as [H1 H2 H3 H4 H5 H6]. cbn. rewrite Hl', Hl. unfold DYN_RESERVED_RULES in *.
      split; [|lia]. split; cbn; try done; [by rewrite Hl', Hl|].
      intros _ i r Hir Hlk. destruct (Hx i r Hlk) as (y & _ & ->); [|done].
      apply lookup_lt_Some in Hlk. lia.
    + eexists. split; [done|]. intros g' [= <-]. destruct Hi as [H1 H2 H3 H4 H5 H6]. cbn. rewrite Hl.
      unfold DYN_RESERVED_RULES in *. split; [|lia]. split; cbn; try done; [by rewrite Hl|congruence].
  - eexists. split; [done|]. intros g' [= <-]. split; [done|]. apply blocks_room; [apply Hi|done].
Qed.

Lemma encrypt_parse_ip_spec p rule t :
  policy_terminated p ->
  returns (fun '(rule', _, _) => exists ip, rule' = set_er_ip ip rule) (encrypt_parse_ip p rule t).
Proof using Type.
  intros Hp. unfold encrypt_parse_ip. case_bool_decide.
  - destruct (parse_ipv4_field_total _ (pt_src _ Hp)) as [[]  ->];
      [|exists (er_ip rule); by destruct rule].
    destruct (parse_ipv4_field_total _ (pt_dst _ Hp)) as [[] ->]; by eexists.
  - destruct (parse_ipv6_field_total _ (take 4 (er_ip rule)) (pt_src _ Hp)) as [[src e] ->].
    destruct (negb _); [by eexists|]. destruct (add_ip6 src t) as [t' e']. destruct (negb _); [by eexists|].
    destruct (parse_ipv6_field_total _ (drop 4 (er_ip (set_er_ip (src ++ drop 4 (er_ip rule)) rule)))
                (pt_dst _ Hp)) as [[dst e''] ->].
    destruct (negb _); [by eexists|]. destruct (add_ip6 dst t') as [t'' e3]. by eexists.
Qed.

Lemma encrypt_parse_outer_spec p rule :
  policy_terminated p ->
  returns (fun '(rule', _) => exists l3 dst, rule' = set_encap l3 dst rule) (encrypt_parse_outer p rule).
Proof using Type.
  intros Hp. unfold encrypt_parse_outer. destruct (_ =? _).
  - case_bool_decide.
    + destruct (parse_ipv4_field_total _ (pt_outer_dst _ Hp)) as [[] ->]; by eexists _, _.
    + destruct (parse_ipv6_field_total _ (encap_dst_ip rule) (pt_outer_dst _ Hp)) as [[dst e] E].
      cbn [set_encap encap_dst_ip]. rewrite E. by eexists _, _.
  - exists (encap_l3_type rule), (encap_dst_ip rule). by destruct rule.
Qed.

(** Translating a policy leaves the software sequence number alone. *)
Lemma encrypt_parse_sn p rule t :
  policy_terminated p ->
  returns (fun '(rule', _, _) => current_sn rule' = current_sn rule) (policy_encrypt_parse p rule t).
Proof using Type.
  intros Hp. unfold policy_encrypt_parse. eapply returns_bind; [by apply encrypt_parse_ip_spec|].
  intros [[r1 t1] e1] [ip ->]. destruct (negb _); [done|].
  eapply returns_bind; [by apply encrypt_parse_outer_spec|]. intros [r2 e2] (l3 & dst & ->).
  destruct (negb _); [done|]. by destruct (parse_sa_attrs p _) as [sa e3].
Qed.

Lemma decrypt_parse_ar p m rule :
  policy_terminated p ->
  returns (fun '(rule', _) => antireplay rule' = antireplay rule) (policy_decrypt_parse p m rule).
Proof using Type.
  intros Hp. unfold policy_decrypt_parse.
  assert (exists l3 a, (if bool_decide (m = IPSEC_SECURITY_GW_TUNNEL)
     then (policy_l3 (outer_l3_protocol p), outer_dst_ip p) else (policy_l3 (l3_protocol p), dst_ip_addr p))
     = (l3, a) /\ terminated a) as (l3 & a & -> & Ha).
  { case_bool_decide; eexists _, _; split; try done; apply Hp. }
  apply (returns_bind (fun _ => True)).
  - case_bool_decide; [by destruct (parse_ipv4_field_total _ Ha) as [[] ->]|].
    cbn [dr_dst_ip]. by destruct (parse_ipv6_field_total _ (dr_dst_ip rule) Ha) as [r ->].
  - intros [words e] _. destruct (negb _); [done|]. by destruct (parse_sa_attrs p _).
Qed.

Lemma blocks_next nb len : blocks_ok nb len -> nb < len -> blocks_ok (nb + 1) len.
Proof using Type. intros (H1 & k & -> & H2 & H3) Hl. split; [lia|]. exists k. lia. Qed.

Lemma Forall_ids n n' d d' l :
  n <= n' -> d <= d' ->
  Forall (fun '(enc, id, idx) => if (enc : bool) then id = idx /\ idx < n
                                 else id = DYN_RESERVED_RULES + idx /\ idx < d) l ->
  Forall (fun '(enc, id, idx) => if (enc : bool) then id = idx /\ idx < n'
                                 else id = DYN_RESERVED_RULES + idx /\ idx < d') l.
Proof using Type.
  intros Hn Hd Hl. eapply Forall_impl; [exact Hl|]. intros [[[] id] idx] [-> ?]; split; lia.
Qed.

Lemma handle_encrypt_spec p g :
  policy_terminated p -> gw_inv g -> nb_encrypted_rules g < Z.of_nat (length (encrypt_rules g)) ->
  returns (fun '(g', _) => gw_inv g') (handle_encrypt_policy cfg p g).
Proof using Type.
  intros Hp [H1 H2 H3 H4 H5 H6] Hl. unfold handle_encrypt_policy. pose proof H1 as (Hnb & _).
  destruct (lookup_lt_is_Some_2 (encrypt_rules g) (Z.to_nat (nb_encrypted_rules g))) as [rule Hr]; [lia|].
  rewrite Hr. cbn [of_option].
  eapply returns_bind; [by apply encrypt_parse_sn|]. intros [[rule' t] r] Hsn.
  assert (forall i x, nb_encrypted_rules g <= Z.of_nat i -> sw_sn_inc_enable cfg = true ->
            <[Z.to_nat (nb_encrypted_rules g) := rule']> (encrypt_rules g) !! i = Some x ->
            current_sn x = u32 (sn_initial cfg)) as Hins.
  { intros i x Hi Hs Hx. apply list_lookup_insert_Some in Hx as [(<- & <- & _)|[Hne Hx]];
      [rewrite Hsn; eapply H4; [done| |done]; lia | by eapply H4]. }
  case_bool_decide; cbn [negb];
    [|split; cbn; rewrite ?length_insert; eauto].
  case_bool_decide; cbn [negb];
    [|split; cbn; rewrite ?length_insert; eauto].
  split; cbn; rewrite ?length_insert.
  - by apply blocks_next.
  - done.
  - lia.
  - intros Hs i x Hi. apply Hins; [lia|done].
  - done.
  - apply Forall_app_2; [|by apply Forall_singleton; split; [done|lia]].
    eapply Forall_ids; [| |exact H6]; lia.
Qed.

Lemma handle_decrypt_spec p g :
  policy_terminated p -> gw_inv g -> nb_decrypted_rules g < Z.of_nat (length (decrypt_rules g)) ->
  returns (fun '(g', _) => gw_inv g') (handle_decrypt_policy cfg p g).
Proof using Type.
  intros Hp [H1 H2 H3 H4 H5 H6] Hl. unfold handle_decrypt_policy. pose proof H2 as (Hnb & _).
  destruct (lookup_lt_is_Some_2 (decrypt_rules g) (Z.to_nat (nb_decrypted_rules g))) as [rule Hr]; [lia|].
  rewrite Hr. cbn [of_option].
  eapply returns_bind; [by apply decrypt_parse_ar|]. intros [rule' r] Har.
  assert (forall i x, nb_decrypted_rules g <= Z.of_nat i -> sw_antireplay cfg = true ->
            <[Z.to_nat (nb_decrypted_rules g) := rule']> (decrypt_rules g) !! i = Some x ->
            antireplay x = AntiReplay.sw_handling_antireplay (sn_initial cfg)) as Hins.
  { intros i x Hi Hs Hx. apply list_lookup_insert_Some in Hx as [(<- & <- & _)|[Hne Hx]];
      [rewrite Har; eapply H5; [done| |done]; lia | by eapply H5]. }
  case_bool_decide; cbn [negb];
    [|split; cbn; rewrite ?length_insert; eauto].
  case_bool_decide; cbn [negb];
    [|split; cbn; rewrite ?length_insert; eauto].
  split; cbn; rewrite ?length_insert.
  - done.
  - by apply blocks_next.
  - lia.
  - done.
  - intros Hs i x Hi. apply Hins; [lia|done].
  - apply Forall_app_2; [|by apply Forall_singleton; split; [done|lia]].
    eapply Forall_ids; [| |exact H6]; lia.
Qed.

Lemma install_policy_spec p g :
  policy_terminated p -> gw_inv g -> returns (fun '(g', _) => gw_inv g') (install_policy cfg p g).
Proof using Type.
  intros Hp Hi. unfold install_policy. destruct (_ =? POLICY_DIR_OUT).
  - destruct (_ <=? _); [done|].
    destruct (reserve_encrypt_spec g Hi) as (r & -> & Hr). destruct r as [g'|]; [|done].
    destruct (Hr g' eq_refl) as [Hi' Hl]. by apply handle_encrypt_spec.
  - destruct (_ =? POLICY_DIR_IN); [|done]. destruct (_ <=? _); [done|].
    destruct (reserve_decrypt_spec g Hi) as (r & -> & Hr). destruct r as [g'|]; [|done].
    destruct (Hr g' eq_refl) as [Hi' Hl]. by apply handle_decrypt_spec.
Qed.

(** What the reader delivers has terminated addresses. *)
Lemma unpack_ip_terminated c a c' : unpack_ip c = Ret (a, c') -> terminated a.
Proof using Type.
  unfold unpack_ip, unpack_blob. destruct (_ <=? _)%nat eqn:El; [|done]. intros [= <- <-].
  apply Nat.leb_le in El. apply list_lookup_insert_eq. rewrite length_take, length_drop.
  unfold MAX_IP_ADDR_LEN in *. lia.
Qed.

Lemma unpack_policy_terminated buf nb p p' r :
  unpack_policy_buffer buf nb p = Ret (p', r) -> policy_terminated p'.
Proof using Type.
  unfold unpack_policy_buffer. intros E.
  do 17 (obind E; match goal with x : _ * cursor |- _ => destruct x end). inv_ret.
  split; cbn; by eapply unpack_ip_terminated.
Qed.

Lemma read_policy_terminated s s' p :
  read_message_from_socket policy_zero s = Ret (s', p, DOCA_SUCCESS) -> policy_terminated p.
Proof using Type.
  intros E. unfold read_message_from_socket in E. obind E. destruct a as [s1 [len|e]].
  - obind E. destruct a as [[s2 buf] r2]. case_bool_decide; cbn [negb] in E; [|inv_ret; congruence].
    obind E. destruct a as [p1 r1]. inv_ret. by eapply unpack_policy_terminated.
  - inv_ret. unfold read_message_length in E0. obind E0. destruct a as [[s2 buf] r2].
    case_bool_decide; cbn [negb] in E0; [|inv_ret; congruence]. obind E0. destruct a as [v c].
    destruct (_ && _); inv_ret; congruence.
Qed.
End arrays.

(** ** Properties of the policy loop *)

(** Whatever arrives on the socket, the loop keeps the arrays of rules large enough
    for the index of the next rule, gives unused rules the initial software state
    and the flow library the ids it reserves; it never runs into undefined behaviour. *)
Theorem policy_loop_safe `{RteHash} cfg n s g :
  gw_inv cfg g -> returns (fun '(_, g', _) => gw_inv cfg g') (policy_loop cfg n s g).
Proof.
  revert s g. induction n as [|n IH]; intros s g Hi; cbn [policy_loop]; [done|].
  destruct (read_policy_total policy_zero s) as (s' & p & r & E). rewrite E.
  case_bool_decide; [by apply IH|]. destruct (bool_decide_reflect (r = DOCA_SUCCESS)) as [->|];
    cbn [negb]; [|done].
  eapply returns_bind; [by eapply install_policy_spec; [eapply read_policy_terminated|]|].
  intros [g' r'] Hi'. destruct (negb _); [done|]. by apply IH.
Qed.

(** An address as the protocol sends it: a string padded with zeros. *)
Definition address (s : list ascii) : list Z :=
  map (fun c => Z.of_nat (nat_of_ascii c)) s ++ replicate (47 - length s) 0.

Lemma chars_address s : chars (address s) = s ++ replicate (47 - length s) NUL.
Proof.
  unfold chars, address. rewrite map_app, map_map. f_equal.
  - rewrite <-(map_id s) at 2. apply map_ext. intros c. rewrite Nat2Z.id. apply ascii_nat_embedding.
  - apply (fmap_replicate (fun b => ascii_of_nat (Z.to_nat b))).
Qed.

Lemma dec_byte_length a : in_width 8 a -> (length (dec a) <= 3)%nat.
Proof.
  intros Ha. assert (Forall (fun z => (length (dec z) <= 3)%nat) (seqZ 0 256)) as H
    by (apply (bool_decide_unpack _); vm_compute; exact I).
  rewrite Forall_forall in H. apply H, elem_of_seqZ. unfold in_width in Ha. lia.
Qed.

Lemma parse_ipv4_address a b c d :
  in_width 8 a -> in_width 8 b -> in_width 8 c -> in_width 8 d ->
  parse_ipv4_field (address (dotted a b c d)) = Ret (Ok (BE_IPV4_ADDR a b c d)).
Proof.
  intros Ha Hb Hc Hd. unfold parse_ipv4_field, c_str. rewrite chars_address.
  assert (length (dotted a b c d) <= 15)%nat as Hl.
  { unfold dotted. repeat rewrite length_app || cbn [length].
    pose proof (dec_byte_length a Ha). pose proof (dec_byte_length b Hb).
    pose proof (dec_byte_length c Hc). pose proof (dec_byte_length d Hd). lia. }
  destruct (47 - length (dotted a b c d))%nat as [|k] eqn:E; [lia|]. cbn [replicate].
  rewrite cstr_of_app by apply dotted_no_nul. cbn [of_option]. by rewrite parse_ipv4_dotted.
Qed.

(** An egress policy for an IPv4 flow over an IPv4 tunnel becomes the rule with its
    five-tuple, its outer destination, its SPI and its security association; the
    software sequence number of the rule stays. *)
Theorem policy_encrypt_translates `{RteHash} p rule t a b c d a' b' c' d' x y z w icv :
  Forall (in_width 8) [a; b; c; d; a'; b'; c'; d'; x; y; z; w] ->
  src_ip_addr p = address (dotted a b c d) -> dst_ip_addr p = address (dotted a' b' c' d') ->
  outer_dst_ip p = address (dotted x y z w) ->
  l3_protocol p = POLICY_L3_TYPE_IPV4 -> outer_l3_protocol p = POLICY_L3_TYPE_IPV4 ->
  policy_mode p = POLICY_MODE_TUNNEL -> length (p_enc_key_data p) = MAX_KEY_LEN ->
  convert_to_doca_icv (p_icv_length p) = Ok icv ->
  length (er_ip rule) = 8%nat -> length (encap_dst_ip rule) = 4%nat ->
  policy_encrypt_parse p rule t =
    Ret (EncryptRule DOCA_FLOW_L3_TYPE_IP4
           (if l4_protocol p =? POLICY_L4_TYPE_UDP then DOCA_FLOW_L4_TYPE_EXT_UDP
            else DOCA_FLOW_L4_TYPE_EXT_TCP)
           (BE_IPV4_ADDR a b c d :: BE_IPV4_ADDR a' b' c' d' :: drop 2 (er_ip rule))
           (p_src_port p) (p_dst_port p) DOCA_FLOW_L3_TYPE_IP4
           (BE_IPV4_ADDR x y z w :: drop 1 (encap_dst_ip rule)) (spi p) (current_sn rule)
           (SaAttrs icv (convert_to_doca_key_type (p_key_type p)) (p_enc_key_data p) (p_salt p)),
         t, DOCA_SUCCESS).
Proof.
  intros Hb Hs Hd Ho H3 Ho3 Hm Hk Hicv Hl1 Hl2. rewrite !Forall_cons in Hb.
  destruct Hb as (? & ? & ? & ? & ? & ? & ? & ? & ? & ? & ? & ? & _).
  unfold policy_encrypt_parse, encrypt_parse_ip, encrypt_parse_outer, parse_sa_attrs.
  rewrite Hs, Hd, Ho, H3, Ho3, Hm, Hicv. cbn [er_l3_type policy_l3].
  change (policy_l3 POLICY_L3_TYPE_IPV4) with DOCA_FLOW_L3_TYPE_IP4.
  rewrite bool_decide_eq_true_2 by done. rewrite !parse_ipv4_address by done. cbv beta iota zeta.
  rewrite (bool_decide_eq_true_2 (DOCA_SUCCESS = _)) by done. cbn [negb encap_l3_type set_encap set_er_ip].
  change (POLICY_MODE_TUNNEL =? POLICY_MODE_TUNNEL) with true. cbv iota.
  rewrite bool_decide_eq_true_2 by done. cbv beta iota zeta. cbn [negb].
  rewrite bool_decide_eq_true_2 by done.
  cbn [negb set_er_sa set_er_ip set_encap er_sa er_ip encap_dst_ip key_type enc_key_data salt
       er_protocol er_src_port er_dst_port er_esp_spi current_sn encap_l3_type er_l3_type].
  destruct (er_ip rule) as [|i0 [|i1 ip]]; [done|done|].
  destruct (encap_dst_ip rule) as [|o0 op]; [done|]. cbn. rewrite drop_0.
  by rewrite take_ge by (rewrite Hk; done).
Qed.

(** The ids of encryption and decryption rules meet once there are more encryption
    rules than reserved ids: the policies that arrive next in the two directions
    are given the same id, which also names their security associations. *)
Theorem rule_ids_collide `{RteHash} cfg p_enc p_dec g g1 g2 :
  nb_encrypted_rules g = DYN_RESERVED_RULES + nb_decrypted_rules g ->
  handle_encrypt_policy cfg p_enc g = Ret (g1, DOCA_SUCCESS) ->
  handle_decrypt_policy cfg p_dec g1 = Ret (g2, DOCA_SUCCESS) ->
  exists id, (true, id, id) ∈ installed g2 /\ (false, id, id - DYN_RESERVED_RULES) ∈ installed g2.
Proof.
  intros Hn E1 E2. unfold handle_encrypt_policy in E1. obind E1. obind E1. destruct a0 as [[r1 t1] e1].
  case_bool_decide; cbn [negb] in E1; [|inv_ret; congruence].
  case_bool_decide; cbn [negb] in E1; [|inv_ret; cbn in *; congruence]. inv_ret.
  unfold handle_decrypt_policy in E2. cbn in E2. obind E2. obind E2. destruct a1 as [r2 e2].
  case_bool_decide; cbn [negb] in E2; [|inv_ret; cbn in *; congruence].
  case_bool_decide; cbn [negb] in E2; [|inv_ret; cbn in *; congruence]. inv_ret. cbn.
  exists (nb_encrypted_rules g). rewrite !elem_of_app, !list_elem_of_singleton.
  split; [left; by right|]. right. rewrite Hn. do 2 f_equal. lia.
Qed.

(** ** Witnesses *)

Section samples.
#[local] Instance policy_hash : RteHash := Slots.slots_hash 8.

Definition sample_key : list Z := seqZ 1 16.

Definition sample_policy : ipsec_policy :=
  Policy 1234 443 4 17 4 POLICY_DIR_OUT POLICY_MODE_TUNNEL 0 16 POLICY_KEY_TYPE_128 0x5433 7
    (sample_key ++ replicate 16 0) (address (dotted 10 0 0 1)) (address (dotted 10 0 0 2))
    (address (dotted 192 168 1 1)) (address (dotted 192 168 1 2)).

Lemma address_ok_dec a :
  length a = 47%nat -> bool_decide (Forall (in_width 8) a) = true -> a !! MAX_IP_ADDR_LEN = Some 0 ->
  address_ok a.
Proof. intros H1 H2%bool_decide_eq_true H3. by split_and!. Qed.

Lemma sample_policy_ok : policy_ok 16 sample_policy.
Proof.
  split.
  - by left.
  - unfold policy_items. repeat (apply Forall_cons_2; [cbn [item_ok]; apply (bool_decide_unpack _); vm_compute; exact I|]).
    apply Forall_nil_2.
  - vm_compute. reflexivity.
  - reflexivity.
  - apply address_ok_dec; vm_compute; reflexivity.
  - apply address_ok_dec; vm_compute; reflexivity.
  - apply address_ok_dec; vm_compute; reflexivity.
  - apply address_ok_dec; vm_compute; reflexivity.
Qed.

(** The message in two pieces, with the start of another message. *)
Lemma read_message_roundtrip_witness :
  exists chunks', read_message_from_socket policy_zero
      (map Bytes [take 100 (policy_message 16 sample_policy);
                  drop 100 (policy_message 16 sample_policy) ++ [0; 0]] ++ [WouldBlock])
    = Ret (map Bytes chunks' ++ [WouldBlock], sample_policy, DOCA_SUCCESS) /\ concat chunks' = [0; 0].
Proof.
  apply (read_message_roundtrip 16 sample_policy
           [take 100 (policy_message 16 sample_policy);
            drop 100 (policy_message 16 sample_policy) ++ [0; 0]] [WouldBlock] [0; 0]).
  - apply sample_policy_ok.
  - apply Forall_cons_2; [vm_compute; discriminate|]. apply Forall_singleton. vm_compute. discriminate.
  - cbn [concat]. rewrite app_nil_r, app_assoc, take_drop. reflexivity.
Defined.

Lemma read_message_split_lost_witness :
  exists s1 s2,
    read_message_from_socket policy_zero
      [Bytes (items_bytes [I32 (208 + Z.of_nat 16)]); WouldBlock;
       Bytes (items_bytes (policy_items 16 sample_policy))] = Ret (s1, policy_zero, DOCA_ERROR_AGAIN)
    /\ read_message_from_socket policy_zero s1 = Ret (s2, policy_zero, DOCA_ERROR_IO_FAILED).
Proof.
  apply (read_message_split_lost 16 sample_policy []).
  - apply sample_policy_ok.
  - vm_compute. discriminate.
  - vm_compute. discriminate.
Defined.

Definition sa_zero : sa_attrs :=
  SaAttrs DOCA_FLOW_CRYPTO_ICV_LENGTH_8 DOCA_FLOW_CRYPTO_KEY_128 (replicate MAX_KEY_LEN 0) 0.
Definition encrypt_rule_zero : encrypt_rule :=
  EncryptRule DOCA_FLOW_L3_TYPE_NONE DOCA_FLOW_L4_TYPE_EXT_NONE (replicate 8 0) 0 0
    DOCA_FLOW_L3_TYPE_NONE (replicate 4 0) 0 0 sa_zero.
Definition decrypt_rule_zero : decrypt_rule :=
  DecryptRule DOCA_FLOW_L3_TYPE_NONE (replicate 4 0) 0 DOCA_FLOW_L3_TYPE_NONE sa_zero (ARState 0 0 0).

Definition sample_config : gw_config :=
  GwConfig IPSEC_SECURITY_GW_TUNNEL 0 true true (fun _ _ => DOCA_SUCCESS) (fun _ _ => DOCA_SUCCESS)
    (fun _ => true) encrypt_rule_zero decrypt_rule_zero.

(** The arrays when the loop starts: zeroed, then prepared by the software handling. *)
Definition gateway_start : gateway :=
  Gateway 0 0 0
    (replicate 1024 (set_current_sn (u32 0) encrypt_rule_zero))
    (replicate 1024 (set_antireplay (AntiReplay.sw_handling_antireplay 0) decrypt_rule_zero)) ht_new [].

Lemma gateway_start_inv : gw_inv sample_config gateway_start.
Proof.
  split; cbn [gateway_start nb_encrypted_rules nb_decrypted_rules nb_rules encrypt_rules decrypt_rules installed].
  - rewrite length_replicate. split; [lia|]. exists 1. unfold DYN_RESERVED_RULES. lia.
  - rewrite length_replicate. split; [lia|]. exists 1. unfold DYN_RESERVED_RULES. lia.
  - done.
  - intros _ i r _ [-> _]%lookup_replicate. done.
  - intros _ i r _ [-> _]%lookup_replicate. done.
  - apply Forall_nil_2.
Qed.

Lemma policy_loop_safe_witness :
  returns (fun '(_, g', _) => gw_inv sample_config g')
    (policy_loop sample_config 2 [Bytes (policy_message 16 sample_policy)] gateway_start).
Proof.
  apply (policy_loop_safe sample_config 2 [Bytes (policy_message 16 sample_policy)] gateway_start).
  apply gateway_start_inv.
Defined.

Lemma policy_encrypt_translates_witness :
  policy_encrypt_parse sample_policy encrypt_rule_zero ht_new =
    Ret (EncryptRule DOCA_FLOW_L3_TYPE_IP4 DOCA_FLOW_L4_TYPE_EXT_UDP
           (BE_IPV4_ADDR 10 0 0 1 :: BE_IPV4_ADDR 10 0 0 2 :: replicate 6 0) 1234 443
           DOCA_FLOW_L3_TYPE_IP4 (BE_IPV4_ADDR 192 168 1 2 :: replicate 3 0) 0x5433 0
           (SaAttrs DOCA_FLOW_CRYPTO_ICV_LENGTH_16 DOCA_FLOW_CRYPTO_KEY_128
              (sample_key ++ replicate 16 0) 7), ht_new, DOCA_SUCCESS).
Proof.
  apply (policy_encrypt_translates sample_policy encrypt_rule_zero ht_new 10 0 0 1 10 0 0 2 192 168 1 2
           DOCA_FLOW_CRYPTO_ICV_LENGTH_16); try reflexivity.
  apply (bool_decide_unpack _). vm_compute. exact I.
Defined.

(** A gateway with 1024 encryption rules and no decryption rule. *)
Definition full_gateway : gateway :=
  Gateway 1024 1024 0 (replicate 2048 encrypt_rule_zero) (replicate 1024 decrypt_rule_zero) ht_new [].
Definition sample_ingress : ipsec_policy :=
  Policy 1234 443 4 17 4 POLICY_DIR_IN POLICY_MODE_TUNNEL 0 16 POLICY_KEY_TYPE_128 0x5433 7
    (sample_key ++ replicate 16 0) (address (dotted 10 0 0 1)) (address (dotted 10 0 0 2))
    (address (dotted 192 168 1 1)) (address (dotted 192 168 1 2)).

Lemma full_gateway_installs :
  exists g1 g2, handle_encrypt_policy sample_config sample_policy full_gateway = Ret (g1, DOCA_SUCCESS)
    /\ handle_decrypt_policy sample_config sample_ingress g1 = Ret (g2, DOCA_SUCCESS).
Proof.
  assert (match handle_encrypt_policy sample_config sample_policy full_gateway with
          | Ret (g1, DOCA_SUCCESS) =>
              match handle_decrypt_policy sample_config sample_ingress g1 with
              | Ret (g2, DOCA_SUCCESS) => true | _ => false end
          | _ => false end = true) as E by (vm_compute; reflexivity).
  destruct (handle_encrypt_policy sample_config sample_policy full_gateway) as [[g1 []]|]; try discriminate E.
  destruct (handle_decrypt_policy sample_config sample_ingress g1) as [[g2 []]|] eqn:E2; try discriminate E.
  by exists g1, g2.
Qed.

Lemma rule_ids_collide_witness :
  exists g1 g2, handle_encrypt_policy sample_config sample_policy full_gateway = Ret (g1, DOCA_SUCCESS)
    /\ handle_decrypt_policy sample_config sample_ingress g1 = Ret (g2, DOCA_SUCCESS)
    /\ exists id, (true, id, id) ∈ installed g2 /\ (false, id, id - DYN_RESERVED_RULES) ∈ installed g2.
Proof.
  destruct full_gateway_installs as (g1 & g2 & E1 & E2). exists g1, g2. split; [exact E1|].
  split; [exact E2|].
  apply (rule_ids_collide sample_config sample_policy sample_ingress full_gateway g1 g2); [reflexivity|exact E1|exact E2].
Defined.
End samples.
