(* ===== verification/Esp.v ===== *)
(** * Software ESP encapsulation (applications/ipsec_security_gw)

    The packet path of the gateway when the headers and trailers of ESP are handled
    in software: flow_encrypt.c ([prepare_packet_*]), flow_decrypt.c
    ([remove_packet_tail], [decap_packet_*], [handle_secured_packets_received]) and
    helpers of flow_common.c.  A packet is a DPDK buffer: a chain of segments, each
    with its storage from the start of the data and the length in use, and the free
    bytes before the first segment.  The encryption itself is done by the device. *)
From S2P Require Import Prelude Pack AntiReplay FlowTypes RteHash Policy.

(** ** Packet buffers *)

(** [sbuf]: the bytes from the data pointer to the end of the segment's storage. *)
Record seg : Type := Seg { sbuf : list Z; data_len : Z }.

Record mbuf : Type := Mbuf {
  headroom : list Z;
  segs : list seg;
  pkt_len : Z;
  is_ipv4 : bool;    (** [RTE_ETH_IS_IPV4_HDR(packet_type)]; IPv6 otherwise *)
}.

Definition ETHER_HDR : Z := 14.
Definition IPV6_HDR : Z := 40.
Definition ESP_HDR : Z := 8.
Definition ESP_TAIL : Z := 2.
Definition UDP_HDR : Z := 8.
Definition IPV4_HDR : Z := 20.
Definition RTE_ETHER_MIN_LEN : Z := 64.
Definition PADDING_ALIGN : Z := 4.
Definition IV_LEN : Z := 8.

Definition seg_at (i : nat) (m : mbuf) : outcome seg := of_option NullDeref (segs m !! i).

Definition set_seg (i : nat) (s : seg) (m : mbuf) : mbuf :=
  Mbuf (headroom m) (<[i := s]> (segs m)) (pkt_len m) (is_ipv4 m).

Definition set_pkt_len (n : Z) (m : mbuf) : mbuf := Mbuf (headroom m) (segs m) (u32 n) (is_ipv4 m).

(** One byte of segment [i], and [bs] stored in it, at an offset from its data. *)
Definition get_at (i : nat) (off : Z) (m : mbuf) : outcome Z :=
  let* s := seg_at i m in
  let* _ := require (0 <=? off) OutOfBounds in
  of_option OutOfBounds (sbuf s !! Z.to_nat off).

Definition put_at (i : nat) (off : Z) (bs : list Z) (m : mbuf) : outcome mbuf :=
  let* s := seg_at i m in
  let* _ := require ((0 <=? off) && (off + Z.of_nat (length bs) <=? Z.of_nat (length (sbuf s)))) OutOfBounds in
  let a := Z.to_nat off in
  Ret (set_seg i (Seg (take a (sbuf s) ++ bs ++ drop (a + length bs) (sbuf s)) (data_len s)) m).

Definition set_data_len (i : nat) (n : Z) (m : mbuf) : outcome mbuf :=
  let* s := seg_at i m in Ret (set_seg i (Seg (sbuf s) (u16 n)) m).

(** A 16-bit big-endian field of the first segment. *)
Definition get_be16 (off : Z) (m : mbuf) : outcome Z :=
  let* hi := get_at 0 off m in let* lo := get_at 0 (off + 1) m in Ret (hi * 256 + lo).
Definition be16 (v : Z) : list Z := rev (le_bytes 2 v).
Definition be32 (v : Z) : list Z := [GET_BYTE v 3; GET_BYTE v 2; GET_BYTE v 1; GET_BYTE v 0].

(** [rte_pktmbuf_prepend]: [None] without enough room. *)
Definition rte_pktmbuf_prepend (n : Z) (m : mbuf) : outcome (option mbuf) :=
  let* s := seg_at 0 m in
  let h := (length (headroom m) - Z.to_nat n)%nat in
  if Z.of_nat (length (headroom m)) <? n then Ret None
  else Ret (Some (set_pkt_len (pkt_len m + n)
              (Mbuf (take h (headroom m))
                 (<[0%nat := Seg (drop h (headroom m) ++ sbuf s) (u16 (data_len s + n))]> (segs m))
                 (pkt_len m) (is_ipv4 m)))).

(** [rte_pktmbuf_adj]: [None] when the first segment has fewer bytes. *)
Definition rte_pktmbuf_adj (n : Z) (m : mbuf) : outcome (option mbuf) :=
  let* s := seg_at 0 m in
  if data_len s <? n then Ret None
  else
    let* _ := require (n <=? Z.of_nat (length (sbuf s))) OutOfBounds in
    Ret (Some (set_pkt_len (pkt_len m - n)
              (Mbuf (headroom m ++ take (Z.to_nat n) (sbuf s))
                 (<[0%nat := Seg (drop (Z.to_nat n) (sbuf s)) (u16 (data_len s - n))]> (segs m))
                 (pkt_len m) (is_ipv4 m)))).

(** [rte_pktmbuf_trim(m, len)] with its 16-bit argument: nothing when the last
    segment is shorter. *)
Definition rte_pktmbuf_trim (len : Z) (m : mbuf) : outcome mbuf :=
  let len := u16 len in
  let last := (length (segs m) - 1)%nat in
  let* s := seg_at last m in
  if data_len s <? len then Ret m
  else Ret (set_pkt_len (pkt_len m - len) (set_seg last (Seg (sbuf s) (u16 (data_len s - len))) m)).

(** [rte_ipv4_hdr_len] of the header after the Ethernet header. *)
Definition ipv4_hdr_len (m : mbuf) : outcome Z :=
  let* b := get_at 0 ETHER_HDR m in Ret (Z.land b 15 * 4).

(** ** flow_common.c *)

Definition get_icv_len_int (icv_len : doca_flow_crypto_icv_len) : Z :=
  match icv_len with
  | DOCA_FLOW_CRYPTO_ICV_LENGTH_8 => 8
  | DOCA_FLOW_CRYPTO_ICV_LENGTH_12 => 12
  | DOCA_FLOW_CRYPTO_ICV_LENGTH_16 => 16
  end.

Definition remove_ethernet_padding (m : mbuf) : outcome mbuf :=
  if RTE_ETHER_MIN_LEN <? pkt_len m then Ret m
  else
    let* (l2_l3_len, payload_len_l3) :=
      if is_ipv4 m then
        let* l3_len := ipv4_hdr_len m in
        let* total_length := get_be16 (ETHER_HDR + 2) m in
        Ret (l3_len + ETHER_HDR, u32 (total_length - l3_len))
      else
        let* payload_len := get_be16 (ETHER_HDR + 4) m in Ret (IPV6_HDR + ETHER_HDR, payload_len) in
    let payload_len := u32 (pkt_len m - l2_l3_len) in
    let extra := u32 (payload_len - payload_len_l3) in
    if 0 <? extra then rte_pktmbuf_trim extra m else Ret m.

(** ** flow_encrypt.c *)

(** The header templates with the fields of the rule. *)
Definition put_bytes (idx : nat) (bs l : list Z) : list Z := take idx l ++ bs ++ drop (idx + length bs) l.

Definition with_sn (sw_sn_inc : bool) (idx : nat) (rule : encrypt_rule) (l : list Z) : list Z :=
  if sw_sn_inc then put_bytes idx (be32 (current_sn rule)) l else l.

Definition create_transport_encap (rule : encrypt_rule) (sw_sn_inc : bool) : list Z :=
  with_sn sw_sn_inc 4 rule (put_bytes 0 (be32 (er_esp_spi rule)) (replicate 16 0)).

Definition create_udp_transport_encap (rule : encrypt_rule) (sw_sn_inc : bool) : list Z :=
  let udp_dst_port := 4500 in
  with_sn sw_sn_inc 12 rule
    (put_bytes 2 [GET_BYTE udp_dst_port 1; GET_BYTE udp_dst_port 0]
       (put_bytes 8 (be32 (er_esp_spi rule))
          ([0x30; 0x39; 0; 0; 0; 0xa4; 0; 0] ++ replicate 16 0))).

Definition ipv4_tunnel_template : list Z :=
  [0xaa; 0xbb; 0xcc; 0xdd; 0xee; 0xff; 0x11; 0x22; 0x33; 0x44; 0x55; 0x66; 0x08; 0x00;
   0x45; 0; 0; 0; 0; 0; 0; 0; 0; 0x32; 0; 0; 2; 2; 2; 2; 0; 0; 0; 0] ++ replicate 16 0.

Definition ipv6_tunnel_template : list Z :=
  [0xaa; 0xbb; 0xcc; 0xdd; 0xee; 0xff; 0x11; 0x22; 0x33; 0x44; 0x55; 0x66; 0x86; 0xdd;
   0x60; 0; 0; 0; 0; 0; 0x32; 0x40] ++ replicate 16 2 ++ replicate 16 1 ++ replicate 16 0.

(** The words of the outer address are in network order already. *)
Definition le32 (v : Z) : list Z := [GET_BYTE v 0; GET_BYTE v 1; GET_BYTE v 2; GET_BYTE v 3].
Definition word (i : nat) (ws : list Z) : Z := default 0 (ws !! i).

(** [current_ip_id] is the identification of the next packet. *)
Definition create_ipv4_tunnel_encap (rule : encrypt_rule) (sw_sn_inc : bool) (current_ip_id : Z)
    : list Z * Z :=
  (with_sn sw_sn_inc 38 rule
     (put_bytes 18 [GET_BYTE current_ip_id 1; GET_BYTE current_ip_id 0]
        (put_bytes 34 (be32 (er_esp_spi rule))
           (put_bytes 30 (le32 (word 0 (encap_dst_ip rule))) ipv4_tunnel_template))),
   u16 (current_ip_id + 1)).

Definition create_ipv6_tunnel_encap (rule : encrypt_rule) (sw_sn_inc : bool) : list Z :=
  with_sn sw_sn_inc 58 rule
    (put_bytes 54 (be32 (er_esp_spi rule))
       (put_bytes 38 (le32 (word 0 (encap_dst_ip rule)) ++ le32 (word 1 (encap_dst_ip rule))
                      ++ le32 (word 2 (encap_dst_ip rule)) ++ le32 (word 3 (encap_dst_ip rule)))
          ipv6_tunnel_template)).

Definition esp_pad_bytes : list Z := seqZ 1 15.

(** [RTE_ALIGN_CEIL] to [PADDING_ALIGN]. *)
Definition align_ceil (v : Z) : Z := Z.land (u32 (v + (PADDING_ALIGN - 1))) (Z.lnot (PADDING_ALIGN - 1)).

Section packets.
(** [rte_ipv4_cksum] of the header's bytes. *)
Context (ipv4_cksum : list Z -> Z).

(** [hdr_checksum = 0; hdr_checksum = rte_ipv4_cksum(ipv4)], stored as computed (in
    network order). *)
Definition update_cksum (m : mbuf) : outcome mbuf :=
  let* m := put_at 0 (ETHER_HDR + 10) [0; 0] m in
  let* l3_len := ipv4_hdr_len m in
  let* s := seg_at 0 m in
  put_at 0 (ETHER_HDR + 10) (le_bytes 2 (ipv4_cksum (take (Z.to_nat l3_len) (drop 14 (sbuf s))))) m.

(** Total length, or payload length for IPv6, of the header after the Ethernet one. *)
Definition set_ipv4_length (m : mbuf) : outcome mbuf :=
  put_at 0 (ETHER_HDR + 2) (be16 (pkt_len m - ETHER_HDR)) m.
Definition set_ipv6_length (m : mbuf) : outcome mbuf :=
  put_at 0 (ETHER_HDR + 4) (be16 (pkt_len m - ETHER_HDR - IPV6_HDR)) m.

(** The padding, the pad length and the next protocol, at [off] of segment [i]. *)
Definition write_trailer (i : nat) (off padding_len next_proto : Z) (m : mbuf) : outcome mbuf :=
  let* m := put_at i off (take (Z.to_nat (Z.min padding_len 15)) esp_pad_bytes) m in
  put_at i (off + padding_len) [u8 padding_len; next_proto] m.

(** Space for the headers and the trailer: the buffer, the index of its last segment
    and the offset of the trailer there. *)
Definition append_space (esp_len trailer_len : Z) (m : mbuf) : outcome (option (mbuf * nat * Z)) :=
  let* r := rte_pktmbuf_prepend esp_len m in
  match r with
  | None => Ret None
  | Some m =>
      let last := (length (segs m) - 1)%nat in
      let* s := seg_at last m in
      let padding_offset := data_len s in
      let* m := set_data_len last (data_len s + trailer_len) m in
      Ret (Some (set_pkt_len (pkt_len m + trailer_len) m, last, padding_offset))
  end.

Definition prepare_packet_tunnel (sw_sn_inc : bool) (rule : encrypt_rule) (m : mbuf)
    (current_ip_id : Z) : outcome (mbuf * encrypt_rule * Z * doca_error_t) :=
  let icv_len := get_icv_len_int (icv_length (er_sa rule)) in
  let ip4 := bool_decide (encap_l3_type rule = DOCA_FLOW_L3_TYPE_IP4) in
  let reformat_encap_data_len := if ip4 then 50 else 70 in
  let* m := remove_ethernet_padding m in
  let payload_len := u32 (pkt_len m - ETHER_HDR) in
  let esp_len := reformat_encap_data_len - ETHER_HDR in
  let encrypted_len := align_ceil (u32 (payload_len + ESP_TAIL)) in
  let padding_len := u32 (encrypted_len - payload_len) in
  let trailer_len := u32 (padding_len + icv_len) in
  let* r := append_space esp_len trailer_len m in
  match r with
  | None => Ret (m, rule, current_ip_id, DOCA_ERROR_NO_MEMORY)
  | Some (m, last, padding_offset) =>
      let* (m, current_ip_id) :=
        if ip4 then
          let (hdr, id) := create_ipv4_tunnel_encap rule sw_sn_inc current_ip_id in
          let* m := put_at 0 0 hdr m in
          let* m := set_ipv4_length m in
          let* m := update_cksum m in Ret (m, id)
        else
          let* m := put_at 0 0 (create_ipv6_tunnel_encap rule sw_sn_inc) m in
          let* m := set_ipv6_length m in Ret (m, current_ip_id) in
      let padding_len := u32 (padding_len - ESP_TAIL) in
      let next_proto := if bool_decide (er_l3_type rule = DOCA_FLOW_L3_TYPE_IP4) then 4 else 41 in
      let* m := write_trailer last padding_offset padding_len next_proto m in
      Ret (m, set_current_sn (u32 (current_sn rule + 1)) rule, current_ip_id, DOCA_SUCCESS)
  end.

(** [memmove(nh, oh, n)] inside the first segment, from offset [from] to its start. *)
Definition move_to_front (from n : Z) (m : mbuf) : outcome mbuf :=
  let* s := seg_at 0 m in
  let* _ := require (from + n <=? Z.of_nat (length (sbuf s))) OutOfBounds in
  put_at 0 0 (take (Z.to_nat n) (drop (Z.to_nat from) (sbuf s))) m.

(** The UDP header after a header of [l3_hdr] bytes: length, and no checksum. *)
Definition set_udp_header (l3_hdr : Z) (m : mbuf) : outcome mbuf :=
  let udp_len := pkt_len m - ETHER_HDR - l3_hdr in
  let* m := put_at 0 (ETHER_HDR + l3_hdr + 4) (be16 udp_len) m in
  put_at 0 (ETHER_HDR + l3_hdr + 6) (be16 0) m.

(** Next protocol, length and checksum of the IP header of a transport-mode packet;
    the previous next protocol is returned. *)
Definition transport_ip_header (protocol : Z) (udp_transport : bool) (m : mbuf) : outcome (mbuf * Z) :=
  if is_ipv4 m then
    let* next_protocol := get_at 0 (ETHER_HDR + 9) m in
    let* m := put_at 0 (ETHER_HDR + 9) [protocol] m in
    let* m := set_ipv4_length m in
    let* m := update_cksum m in
    let* m := if udp_transport then set_udp_header IPV4_HDR m else Ret m in
    Ret (m, next_protocol)
  else
    let* next_protocol := get_at 0 (ETHER_HDR + 6) m in
    let* m := put_at 0 (ETHER_HDR + 6) [protocol] m in
    let* m := set_ipv6_length m in
    let* m := if udp_transport then set_udp_header IPV6_HDR m else Ret m in
    Ret (m, next_protocol).

Definition l3_hdr_len (m : mbuf) : outcome Z := if is_ipv4 m then ipv4_hdr_len m else Ret IPV6_HDR.

Definition prepare_packet_transport (sw_sn_inc udp_transport : bool) (rule : encrypt_rule) (m : mbuf)
    : outcome (mbuf * encrypt_rule * doca_error_t) :=
  let icv_len := get_icv_len_int (icv_length (er_sa rule)) in
  let esp_len := if udp_transport then 24 else 16 in
  let protocol := if udp_transport then 17 else 50 in
  let* m := remove_ethernet_padding m in
  let* l3_len := l3_hdr_len m in
  let l2_l3_len := l3_len + ETHER_HDR in
  let payload_len := u32 (pkt_len m - l2_l3_len) in
  let encrypted_len := align_ceil (u32 (payload_len + ESP_TAIL)) in
  let padding_len := u32 (encrypted_len - payload_len) in
  let trailer_len := u32 (padding_len + icv_len) in
  let* r := append_space esp_len trailer_len m in
  match r with
  | None => Ret (m, rule, DOCA_ERROR_NO_MEMORY)
  | Some (m, last, padding_offset) =>
      let* m := move_to_front esp_len l2_l3_len m in
      let* m := put_at 0 l2_l3_len (if udp_transport then create_udp_transport_encap rule sw_sn_inc
                                    else create_transport_encap rule sw_sn_inc) m in
      let* (m, next_protocol) := transport_ip_header protocol udp_transport m in
      let padding_len := u32 (padding_len - ESP_TAIL) in
      let* m := write_trailer last padding_offset padding_len next_protocol m in
      Ret (m, set_current_sn (u32 (current_sn rule + 1)) rule, DOCA_SUCCESS)
  end.

(** ** flow_decrypt.c *)

(** The segment that holds [offset] and the offset inside it; the loop stops at the
    end of the chain. *)
Fixpoint seg_ofs_loop (i : nat) (ss : list seg) (offset : Z) : outcome (nat * Z) :=
  match ss with
  | [] => Undef NullDeref
  | s :: ss' => if data_len s <=? offset then seg_ofs_loop (S i) ss' (offset - data_len s)
                else Ret (i, offset)
  end.

Definition mbuf_get_seg_ofs (offset : Z) (m : mbuf) : outcome (res (nat * Z)) :=
  if pkt_len m <=? offset then Ret (Err DOCA_ERROR_INVALID_VALUE)
  else let* r := seg_ofs_loop 0 (segs m) offset in Ret (Ok r).

Definition remove_packet_tail (icv_len : Z) (m : mbuf) : outcome (mbuf * res Z) :=
  let* m := remove_ethernet_padding m in
  let trailer_len := icv_len + ESP_TAIL in
  let esp_tail_offset := u32 (pkt_len m - trailer_len) in
  let* r := mbuf_get_seg_ofs esp_tail_offset m in
  match r with
  | Err e => Ret (m, Err e)
  | Ok (ml, esp_tail_seg_offset) =>
      let* pad_len := get_at ml esp_tail_seg_offset m in
      let* next_proto := get_at ml (esp_tail_seg_offset + 1) m in
      let trailer_len := u32 (trailer_len + pad_len) in
      let esp_tail_seg_offset := u32 (esp_tail_seg_offset - pad_len) in
      let m := set_pkt_len (pkt_len m - trailer_len) m in
      let* m := set_data_len ml esp_tail_seg_offset m in
      Ret (m, Ok next_proto)
  end.

(** [for (i = k - 1; i >= 0; i--) np[i] = op[i]] with [np = op + n], on the memory
    from [op]. *)
Fixpoint copy_down (k n : nat) (memory : list Z) : outcome (list Z) :=
  match k with
  | O => Ret memory
  | S k' =>
      let* b := of_option OutOfBounds (memory !! k') in
      let* _ := require (n + k' <? length memory)%nat OutOfBounds in
      copy_down k' n (<[(n + k')%nat := b]> memory)
  end.

(** The same after [n] bytes were removed from the front of the packet: the old
    start is [n] bytes before the new one. *)
Definition copy_headers (k n : Z) (m : mbuf) : outcome mbuf :=
  let* s := seg_at 0 m in
  let h := (length (headroom m) - Z.to_nat n)%nat in
  let* memory := copy_down (Z.to_nat k) (Z.to_nat n) (drop h (headroom m) ++ sbuf s) in
  Ret (Mbuf (take h (headroom m) ++ take (Z.to_nat n) memory)
         (<[0%nat := Seg (drop (Z.to_nat n) memory) (data_len s)]> (segs m)) (pkt_len m) (is_ipv4 m)).

Definition decap_packet_tunnel (rule : decrypt_rule) (m : mbuf) : outcome (mbuf * doca_error_t) :=
  let icv_len := get_icv_len_int (icv_length (dr_sa rule)) in
  let* (m, r) := remove_packet_tail icv_len m in
  match r with
  | Err e => Ret (m, e)
  | Ok proto =>
      let* l3_len := l3_hdr_len m in
      let cut := l3_len + ESP_HDR + IV_LEN in
      let* r := rte_pktmbuf_adj cut m in
      match r with
      | None => Ret (m, DOCA_ERROR_INVALID_VALUE)
      | Some m =>
          let* m := copy_headers ETHER_HDR cut m in
          let* m := put_at 0 12 (if proto =? 41 then [0x86; 0xdd] else [0x08; 0x00]) m in
          Ret (m, DOCA_SUCCESS)
      end
  end.

(** The IP header is still at its old place, [cut] bytes before the packet, when it
    is updated. *)
Definition at_old_start (cut : Z) (f : mbuf -> outcome mbuf) (m : mbuf) : outcome mbuf :=
  let* s := seg_at 0 m in
  let h := (length (headroom m) - Z.to_nat cut)%nat in
  let* old := f (Mbuf (take h (headroom m))
                   (<[0%nat := Seg (drop h (headroom m) ++ sbuf s) (data_len s)]> (segs m))
                   (pkt_len m) (is_ipv4 m)) in
  let* s' := seg_at 0 old in
  Ret (Mbuf (headroom old ++ take (Z.to_nat cut) (sbuf s'))
         (<[0%nat := Seg (drop (Z.to_nat cut) (sbuf s')) (data_len s')]> (segs old))
         (pkt_len old) (is_ipv4 old)).

Definition decap_ip_header (proto : Z) (m : mbuf) : outcome mbuf :=
  if is_ipv4 m then
    let* m := put_at 0 (ETHER_HDR + 9) [proto] m in
    let* m := set_ipv4_length m in
    update_cksum m
  else
    let* m := put_at 0 (ETHER_HDR + 6) [proto] m in
    set_ipv6_length m.

Definition decap_packet_transport (rule : decrypt_rule) (udp_transport : bool) (m : mbuf)
    : outcome (mbuf * doca_error_t) :=
  let icv_len := get_icv_len_int (icv_length (dr_sa rule)) in
  let* (m, r) := remove_packet_tail icv_len m in
  match r with
  | Err e => Ret (m, e)
  | Ok proto =>
      let* l3_len := l3_hdr_len m in
      let l2_l3_len := l3_len + ETHER_HDR in
      let cut := if udp_transport then ESP_HDR + UDP_HDR + IV_LEN else ESP_HDR + IV_LEN in
      let* r := rte_pktmbuf_adj cut m in
      match r with
      | None => Ret (m, DOCA_ERROR_INVALID_VALUE)
      | Some m =>
          let* m := at_old_start cut (decap_ip_header proto) m in
          let* m := copy_headers l2_l3_len cut m in
          Ret (m, DOCA_SUCCESS)
      end
  end.

Definition get_esp_sn (mode : gw_mode) (m : mbuf) : outcome Z :=
  let* l3_len := l3_hdr_len m in
  let off := l3_len + ETHER_HDR in
  let off := if bool_decide (mode = IPSEC_SECURITY_GW_UDP_TRANSPORT) then off + UDP_HDR else off in
  let* b0 := get_at 0 (off + 4) m in
  let* b1 := get_at 0 (off + 5) m in
  let* b2 := get_at 0 (off + 6) m in
  let* b3 := get_at 0 (off + 7) m in
  Ret (le_value [b3; b2; b1; b0]).

(** The fields of the packet's metadata. *)
Definition meta_rule_id (pkt_meta : Z) : Z := Z.shiftr pkt_meta 12.
Definition meta_decrypt_syndrome (pkt_meta : Z) : Z := Z.land (Z.shiftr pkt_meta 5) 3.
Definition meta_antireplay_syndrome (pkt_meta : Z) : Z := Z.land (Z.shiftr pkt_meta 7) 3.

Definition handle_unsecured_packets_received (mode : gw_mode) (sw_sn_inc : bool) (pkt_meta : Z)
    (rules : list encrypt_rule) (m : mbuf) (current_ip_id : Z)
    : outcome (mbuf * list encrypt_rule * Z * doca_error_t) :=
  let rule_idx := Z.to_nat (meta_rule_id pkt_meta) in
  let* rule := of_option OutOfBounds (rules !! rule_idx) in
  match mode with
  | IPSEC_SECURITY_GW_TRANSPORT =>
      let* (m, rule, e) := prepare_packet_transport sw_sn_inc false rule m in
      Ret (m, <[rule_idx := rule]> rules, current_ip_id, e)
  | IPSEC_SECURITY_GW_UDP_TRANSPORT =>
      let* (m, rule, e) := prepare_packet_transport sw_sn_inc true rule m in
      Ret (m, <[rule_idx := rule]> rules, current_ip_id, e)
  | IPSEC_SECURITY_GW_TUNNEL =>
      let* (m, rule, id, e) := prepare_packet_tunnel sw_sn_inc rule m current_ip_id in
      Ret (m, <[rule_idx := rule]> rules, id, e)
  end.

Definition handle_secured_packets_received (mode : gw_mode) (sw_antireplay bad_syndrome_check : bool)
    (pkt_meta : Z) (rules : list decrypt_rule) (m : mbuf)
    : outcome (mbuf * list decrypt_rule * doca_error_t) :=
  let rule_idx := Z.to_nat (meta_rule_id pkt_meta) in
  if bad_syndrome_check && (negb (meta_decrypt_syndrome pkt_meta =? 0)
                            || negb (meta_antireplay_syndrome pkt_meta =? 0))
  then Ret (m, rules, DOCA_ERROR_BAD_STATE)
  else
    let* (rules, drop) :=
      if sw_antireplay then
        let* sn := get_esp_sn mode m in
        let* rule := of_option OutOfBounds (rules !! rule_idx) in
        let* (state, drop) := anti_replay sn (antireplay rule) in
        Ret (<[rule_idx := set_antireplay state rule]> rules, drop)
      else Ret (rules, false) in
    if (drop : bool) then Ret (m, rules, DOCA_ERROR_BAD_STATE)
    else
      let* rule := of_option OutOfBounds (rules !! rule_idx) in
      match mode with
      | IPSEC_SECURITY_GW_TRANSPORT =>
          let* (m, e) := decap_packet_transport rule false m in Ret (m, rules, e)
      | IPSEC_SECURITY_GW_UDP_TRANSPORT =>
          let* (m, e) := decap_packet_transport rule true m in Ret (m, rules, e)
      | IPSEC_SECURITY_GW_TUNNEL =>
          let* (m, e) := decap_packet_tunnel rule m in Ret (m, rules, e)
      end.
End packets.

(** ** Buffers of one segment *)

Abbreviation flat h b n p v := (Mbuf h [Seg b n] p v).

(** The bytes of a packet. *)
Definition packet (m : mbuf) : list Z := segs m ≫= (fun s => take (Z.to_nat (data_len s)) (sbuf s)).

(** The device sets the type of a received packet from its outer header. *)
Definition received (v4 : bool) (m : mbuf) : mbuf := Mbuf (headroom m) (segs m) (pkt_len m) v4.

Lemma length_put_bytes idx bs l :
  (idx + length bs <= length l)%nat -> length (put_bytes idx bs l) = length l.
Proof. intros. unfold put_bytes. rewrite !length_app, length_take, length_drop. lia. Qed.

Lemma put_bytes_app_l idx bs l k :
  (idx + length bs <= length l)%nat -> put_bytes idx bs (l ++ k) = put_bytes idx bs l ++ k.
Proof.
  intros. unfold put_bytes. rewrite take_app_le, drop_app_le by lia. by rewrite <-!app_assoc.
Qed.

Lemma put_bytes_app_r idx bs l k :
  put_bytes (length l + idx) bs (l ++ k) = l ++ put_bytes idx bs k.
Proof.
  unfold put_bytes. rewrite take_app_ge, drop_app_ge by lia. rewrite <-app_assoc.
  do 3 f_equal; [f_equal; lia|]. f_equal. lia.
Qed.

Lemma put_bytes_at A bs R n : n = length A -> put_bytes n bs (A ++ R) = A ++ bs ++ drop (length bs) R.
Proof. intros ->. rewrite <-(Nat.add_0_r (length A)) at 1. apply put_bytes_app_r. Qed.

Lemma put_bytes_0 bs l : put_bytes 0 bs l = bs ++ drop (length bs) l.
Proof. done. Qed.

Lemma seg_at_flat h b n p v : seg_at 0 (flat h b n p v) = Ret (Seg b n).
Proof. done. Qed.

Lemma put_at_flat off bs h b n p v :
  0 <= off -> off + Z.of_nat (length bs) <= Z.of_nat (length b) ->
  put_at 0 off bs (flat h b n p v) = Ret (flat h (put_bytes (Z.to_nat off) bs b) n p v).
Proof.
  intros H1 H2. unfold put_at. rewrite seg_at_flat. cbn [sbuf].
  rewrite (proj2 (Z.leb_le _ _) H1), (proj2 (Z.leb_le _ _) H2). done.
Qed.

Lemma get_at_flat off h b n p v :
  0 <= off -> get_at 0 off (flat h b n p v) = of_option OutOfBounds (b !! Z.to_nat off).
Proof.
  intros H1. unfold get_at. rewrite seg_at_flat. cbn [sbuf]. by rewrite (proj2 (Z.leb_le _ _) H1).
Qed.

Lemma ipv4_hdr_len_flat h b n p v x :
  b !! 14%nat = Some x -> ipv4_hdr_len (flat h b n p v) = Ret (Z.land x 15 * 4).
Proof.
  intros Hx. unfold ipv4_hdr_len. rewrite get_at_flat by (unfold ETHER_HDR; lia).
  change (Z.to_nat ETHER_HDR) with 14%nat. by rewrite Hx.
Qed.

(** The header with its checksum, and with its length field. *)
Definition with_cksum (ck : list Z -> Z) (l3_len : nat) (b : list Z) : list Z :=
  let b := put_bytes 24 [0; 0] b in
  put_bytes 24 (le_bytes 2 (ck (take l3_len (drop 14 b)))) b.

Lemma update_cksum_flat ck h b n p v x :
  b !! 14%nat = Some x -> (26 <= length b)%nat ->
  update_cksum ck (flat h b n p v)
  = Ret (flat h (with_cksum ck (Z.to_nat (Z.land x 15 * 4)) b) n p v).
Proof.
  intros Hx Hl. unfold update_cksum. rewrite put_at_flat by (cbn; unfold ETHER_HDR; lia).
  change (Z.to_nat (ETHER_HDR + 10)) with 24%nat.
  assert (length (put_bytes 24 [0; 0] b) = length b) as Hl'
    by (apply length_put_bytes; cbn; lia).
  rewrite (ipv4_hdr_len_flat _ _ _ _ _ x).
  2:{ unfold put_bytes. rewrite lookup_app_l by (rewrite length_take; lia).
      by rewrite lookup_take_lt by lia. }
  rewrite seg_at_flat. cbn [sbuf]. rewrite put_at_flat; [done|unfold ETHER_HDR; lia|]. rewrite length_le_bytes, Hl'. unfold ETHER_HDR. lia.
Qed.

Lemma set_ipv4_length_flat h b n p v :
  (18 <= length b)%nat ->
  set_ipv4_length (flat h b n p v) = Ret (flat h (put_bytes 16 (be16 (p - 14)) b) n p v).
Proof.
  intros Hl. unfold set_ipv4_length. cbn [pkt_len]. unfold ETHER_HDR.
  rewrite put_at_flat; [done|lia|]. cbn. lia.
Qed.

(** ** Copying the headers down *)

Lemma copy_down_spec k n memory :
  (n + k <= length memory)%nat ->
  copy_down k n memory = Ret (put_bytes n (take k memory) memory).
Proof.
  revert memory. induction k as [|k IH]; intros memory Hl; cbn [copy_down].
  - unfold put_bytes. rewrite take_0. cbn [length app]. by rewrite Nat.add_0_r, take_drop.
  - destruct (lookup_lt_is_Some_2 memory k) as [b Hb]; [lia|]. rewrite Hb. cbn [of_option].
    rewrite (proj2 (Nat.ltb_lt _ _)) by lia. cbn [require].
    rewrite IH by (rewrite length_insert; lia). f_equal.
    rewrite (take_S_r _ _ _ Hb), take_insert_ge by lia. unfold put_bytes.
    rewrite length_app, length_take, Nat.min_l by lia. cbn [length].
    rewrite take_insert_ge by lia. f_equal. rewrite <-app_assoc. f_equal. cbn [app].
    rewrite insert_take_drop, drop_app_ge by (rewrite ?length_take; lia).
    rewrite length_take, Nat.min_l by lia. replace (n + k - (n + k))%nat with 0%nat by lia.
    rewrite drop_0. f_equal. f_equal. lia.
Qed.

(** ** Headers and trailers *)

Lemma get_icv_range i : 8 <= get_icv_len_int i <= 16.
Proof. destruct i; cbn; lia. Qed.

(** The padding in front of the pad length and the next protocol. *)
Definition pad_of (payload : Z) : Z := (- (payload + 2)) mod 4.

Lemma pad_of_range payload : 0 <= pad_of payload <= 3.
Proof. unfold pad_of. pose proof (Z.mod_pos_bound (- (payload + 2)) 4). lia. Qed.

Lemma align_ceil_spec v : 0 <= v < 2 ^ 31 -> align_ceil v = v + (- v) mod 4.
Proof.
  intros Hv. unfold align_ceil, PADDING_ALIGN. rewrite uwrap_id by (split; lia).
  change (Z.lnot (4 - 1)) with (Z.lnot (Z.ones 2)). rewrite <-Z.ldiff_land, Z.ldiff_ones_r by lia.
  rewrite Z.shiftr_div_pow2, Z.shiftl_mul_pow2 by lia. change (2 ^ 2) with 4.
  Z.to_euclidean_division_equations. lia.
Qed.

(** The lengths the encapsulation computes. *)
Lemma padding_spec payload :
  0 <= payload < 2 ^ 30 ->
  u32 (align_ceil (u32 (payload + ESP_TAIL)) - payload) = 2 + pad_of payload.
Proof.
  intros Hp. unfold ESP_TAIL. rewrite (uwrap_id 32 (payload + 2)) by (split; lia).
  rewrite align_ceil_spec by lia. fold (pad_of payload). pose proof (pad_of_range payload).
  rewrite uwrap_id by (split; lia). lia.
Qed.

Lemma append_space_flat esp tr h b n p v :
  0 <= esp <= Z.of_nat (length h) -> 0 <= tr -> 0 <= n -> 0 <= p ->
  n + esp + tr < 2 ^ 16 -> p + esp + tr < 2 ^ 32 ->
  append_space esp tr (flat h b n p v)
  = Ret (Some (flat (take (length h - Z.to_nat esp) h) (drop (length h - Z.to_nat esp) h ++ b)
                 (n + esp + tr) (p + esp + tr) v, 0%nat, n + esp)).
Proof.
  intros He Ht Hn Hp H16 H32. unfold append_space, rte_pktmbuf_prepend. rewrite seg_at_flat.
  cbn [headroom segs pkt_len is_ipv4 sbuf data_len].
  rewrite (proj2 (Z.ltb_ge _ _)) by lia. unfold set_pkt_len. cbn [headroom segs pkt_len is_ipv4].
  change (<[0%nat := ?s']> [?s]) with [s']. cbn [length Nat.sub]. rewrite seg_at_flat. cbn [data_len].
  unfold set_data_len. rewrite seg_at_flat. cbn [sbuf]. unfold set_seg. cbn [headroom segs pkt_len is_ipv4].
  rewrite (uwrap_id 16 (n + esp)), !(uwrap_id 32 (p + esp)), !uwrap_id by (split; lia). done.
Qed.

Lemma write_trailer_flat pad next A R h n p v :
  0 <= pad <= 3 -> pad + 2 <= Z.of_nat (length R) ->
  write_trailer 0 (Z.of_nat (length A)) pad next (flat h (A ++ R) n p v)
  = Ret (flat h (A ++ take (Z.to_nat pad) esp_pad_bytes ++ [pad; next] ++ drop (Z.to_nat (pad + 2)) R) n p v).
Proof.
  intros Hp Hr. unfold write_trailer. rewrite (Z.min_l pad 15) by lia.
  assert (length (take (Z.to_nat pad) esp_pad_bytes) = Z.to_nat pad) as Hl.
  { rewrite length_take. unfold esp_pad_bytes. rewrite length_seqZ. lia. }
  rewrite put_at_flat by (rewrite ?length_app, ?Hl; lia). rewrite (put_bytes_at A) by lia.
  rewrite Hl, app_assoc, put_at_flat; [|lia|rewrite !length_app, length_drop, Hl; cbn; lia].
  rewrite put_bytes_at by (rewrite length_app, Hl; lia). rewrite drop_drop, <-app_assoc.
  rewrite uwrap_id by (split; lia). cbn [length].
  replace (Z.to_nat pad + 2)%nat with (Z.to_nat (pad + 2)) by lia. done.
Qed.

(** Removing the trailer: the bytes before the padding stay. *)
Lemma remove_packet_tail_flat icv pad next B I R h v :
  let b := B ++ take (Z.to_nat pad) esp_pad_bytes ++ [pad; next] ++ I ++ R in
  let n := Z.of_nat (length B) + pad + 2 + icv in
  0 <= pad <= 3 -> Z.of_nat (length I) = icv -> n < 2 ^ 16 ->
  remove_ethernet_padding (flat h b n n v) = Ret (flat h b n n v) ->
  remove_packet_tail icv (flat h b n n v)
  = Ret (flat h b (Z.of_nat (length B)) (Z.of_nat (length B)) v, Ok next).
Proof.
  intros b n Hp Hi Hn Hpad. unfold remove_packet_tail. rewrite Hpad. unfold ESP_TAIL.
  cbn [pkt_len]. unfold mbuf_get_seg_ofs. cbn [pkt_len segs seg_ofs_loop data_len].
  assert (n - (icv + 2) = Z.of_nat (length B) + pad) as Hoff by lia.
  rewrite Hoff, uwrap_id by (split; lia).
  rewrite (proj2 (Z.leb_gt n _)) by lia.
  assert (length (take (Z.to_nat pad) esp_pad_bytes) = Z.to_nat pad) as Hl.
  { rewrite length_take. unfold esp_pad_bytes. rewrite length_seqZ. lia. }
  assert (forall k, b !! Z.to_nat (Z.of_nat (length B) + pad + Z.of_nat k) = ([pad; next] ++ I ++ R) !! k) as Hb.
  { intros k. unfold b. rewrite !lookup_app_r by lia. f_equal. lia. }
  rewrite !get_at_flat by lia.
  pose proof (Hb 0%nat) as H0. pose proof (Hb 1%nat) as H1.
  change (Z.of_nat 0) with 0 in H0. change (Z.of_nat 1) with 1 in H1.
  rewrite Z.add_0_r in H0. cbn [app] in H0, H1. rewrite H0, H1. cbn.
  unfold set_seg, set_pkt_len. cbn [headroom segs pkt_len is_ipv4]. rewrite Z.add_simpl_r.
  rewrite (uwrap_id 32 (Z.of_nat (length B))), (uwrap_id 32 (icv + 2 + pad)) by (split; lia).
  replace (n - (icv + 2 + pad)) with (Z.of_nat (length B)) by lia.
  rewrite !uwrap_id by (split; lia). done.
Qed.

(** Cutting [cut] bytes and bringing the first [k] to the new start. *)
Lemma adj_flat cut h b n p v :
  0 <= cut <= n -> n <= Z.of_nat (length b) -> n < 2 ^ 16 -> cut <= p < 2 ^ 32 ->
  rte_pktmbuf_adj cut (flat h b n p v)
  = Ret (Some (flat (h ++ take (Z.to_nat cut) b) (drop (Z.to_nat cut) b) (n - cut) (p - cut) v)).
Proof.
  intros Hc Hb Hn Hp. unfold rte_pktmbuf_adj. rewrite seg_at_flat. cbn [data_len sbuf headroom segs pkt_len is_ipv4].
  rewrite (proj2 (Z.ltb_ge _ _)), (proj2 (Z.leb_le cut _)) by lia. cbn [require].
  unfold set_pkt_len. cbn [headroom segs pkt_len is_ipv4]. rewrite !uwrap_id by (split; lia). done.
Qed.

Lemma copy_headers_flat k cut h b n p v :
  0 <= k -> 0 <= cut -> cut + k <= Z.of_nat (length b) ->
  copy_headers k cut (flat (h ++ take (Z.to_nat cut) b) (drop (Z.to_nat cut) b) n p v)
  = Ret (flat (h ++ take (Z.to_nat cut) b)
           (take (Z.to_nat k) b ++ drop (Z.to_nat (cut + k)) b) n p v).
Proof.
  intros Hk Hc Hb. unfold copy_headers. rewrite seg_at_flat. cbn [headroom sbuf segs pkt_len is_ipv4 data_len].
  rewrite length_app, length_take, Nat.min_l by lia.
  replace (length h + Z.to_nat cut - Z.to_nat cut)%nat with (length h) by lia.
  rewrite drop_app_length, take_app_length, take_drop, copy_down_spec by lia. unfold put_bytes.
  assert (length (take (Z.to_nat cut) b) = Z.to_nat cut) as Hl by (rewrite length_take; lia).
  rewrite length_take, (Nat.min_l (Z.to_nat k)) by lia.
  rewrite take_app_length', drop_app_length' by done.
  replace (Z.to_nat cut + Z.to_nat k)%nat with (Z.to_nat (cut + k)) by lia. done.
Qed.

(** ** Tunnel mode *)

Definition outer_macs : list Z := take 12 ipv4_tunnel_template.

(** The outer headers of a packet of [plen] bytes. *)
Definition tunnel4_header (ck : list Z -> Z) (rule : encrypt_rule) (sw_sn_inc : bool) (id plen : Z) : list Z :=
  with_cksum ck 20 (put_bytes 16 (be16 (plen - ETHER_HDR)) (fst (create_ipv4_tunnel_encap rule sw_sn_inc id))).

Lemma tunnel4_template rule sw id :
  let hdr := fst (create_ipv4_tunnel_encap rule sw id) in
  length hdr = 50%nat /\ take 12 hdr = outer_macs /\ hdr !! 14%nat = Some 69 /\ hdr !! 22%nat = Some 0.
Proof. destruct sw; done. Qed.

Lemma with_cksum_app ck l3 H X :
  (14 + l3 <= length H)%nat -> (26 <= length H)%nat -> with_cksum ck l3 (H ++ X) = with_cksum ck l3 H ++ X.
Proof.
  intros H1 H2. unfold with_cksum. rewrite (put_bytes_app_l 24 [0; 0]) by (cbn; lia).
  assert (length (put_bytes 24 [0; 0] H) = length H) as Hl by (apply length_put_bytes; cbn; lia).
  rewrite drop_app_le, take_app_le by (rewrite ?length_drop; lia).
  by rewrite put_bytes_app_l by (rewrite Hl, length_le_bytes; lia).
Qed.

Lemma length_with_cksum ck l3 H : (26 <= length H)%nat -> length (with_cksum ck l3 H) = length H.
Proof.
  intros. unfold with_cksum. rewrite !length_put_bytes; rewrite ?length_le_bytes; cbn; try lia.
  rewrite length_put_bytes; cbn; lia.
Qed.

(** What stays before the position of a write. *)
Lemma put_bytes_lookup_lt i idx bs l : (i < idx)%nat -> (idx <= length l)%nat -> put_bytes idx bs l !! i = l !! i.
Proof.
  intros. unfold put_bytes. rewrite lookup_app_l by (rewrite length_take; lia). by apply lookup_take_lt.
Qed.

Lemma put_bytes_take k idx bs l : (k <= idx)%nat -> (idx <= length l)%nat -> take k (put_bytes idx bs l) = take k l.
Proof.
  intros. unfold put_bytes. rewrite take_app_le by (rewrite length_take; lia). rewrite take_take. f_equal. lia.
Qed.

Lemma tunnel4_header_spec ck rule sw id plen :
  let hdr := tunnel4_header ck rule sw id plen in
  length hdr = 50%nat /\ take 12 hdr = outer_macs /\ hdr !! 14%nat = Some 69.
Proof.
  destruct (tunnel4_template rule sw id) as (Hl & Ht & Hb & _). cbv zeta. unfold tunnel4_header, with_cksum.
  set (hdr := fst _) in *. clearbody hdr.
  assert (length (be16 (plen - ETHER_HDR)) = 2%nat) as H2 by done.
  assert (length (put_bytes 16 (be16 (plen - ETHER_HDR)) hdr) = 50%nat) as Hl1
    by (rewrite length_put_bytes; lia).
  assert (forall bs, length bs = 2%nat -> forall l, length l = 50%nat -> length (put_bytes 24 bs l) = 50%nat) as Hl2
    by (intros; rewrite length_put_bytes; lia).
  split; [|split].
  - apply Hl2; [apply length_le_bytes|]. by apply Hl2.
  - rewrite !put_bytes_take; try done; rewrite ?(Hl2 [0; 0]), ?Hl1, ?Hl; try done; lia.
  - rewrite !put_bytes_lookup_lt; try done; rewrite ?(Hl2 [0; 0]), ?Hl1, ?Hl; try done; lia.
Qed.

(** The packet after encapsulation. *)
Lemma prepare_tunnel4 ck sw rule id h pkt room v :
  let n := Z.of_nat (length pkt) in
  let icv := get_icv_len_int (icv_length (er_sa rule)) in
  let pad := pad_of (n - 14) in
  let L := n + 36 + pad + 2 + icv in
  encap_l3_type rule = DOCA_FLOW_L3_TYPE_IP4 -> 14 <= n -> L < 2 ^ 16 ->
  36 <= Z.of_nat (length h) -> pad + 2 <= Z.of_nat (length room) ->
  remove_ethernet_padding (flat h (pkt ++ room) n n v) = Ret (flat h (pkt ++ room) n n v) ->
  exists h1, prepare_packet_tunnel ck sw rule (flat h (pkt ++ room) n n v) id
    = Ret (flat h1 (tunnel4_header ck rule sw id L ++ drop 14 pkt ++ take (Z.to_nat pad) esp_pad_bytes
                    ++ [pad; if bool_decide (er_l3_type rule = DOCA_FLOW_L3_TYPE_IP4) then 4 else 41]
                    ++ drop (Z.to_nat (pad + 2)) room) L L v,
           set_current_sn (u32 (current_sn rule + 1)) rule, u16 (id + 1), DOCA_SUCCESS).
Proof.
  intros n icv pad L Hl3 Hn HL Hh Hroom Hpad. pose proof (pad_of_range (n - 14)) as Hp.
  assert (0 <= icv <= 16) as Hicv by (unfold icv; pose proof (get_icv_range (icv_length (er_sa rule))); lia).
  unfold prepare_packet_tunnel. rewrite Hpad. cbn [pkt_len]. rewrite Hl3, bool_decide_eq_true_2 by done.
  fold icv. unfold ETHER_HDR. rewrite (uwrap_id 32 (n - 14)) by (split; lia).
  rewrite padding_spec by lia. fold pad.
  assert (u32 (2 + pad + icv) = 2 + pad + icv) as -> by (apply uwrap_id; split; lia).
  change (50 - 14) with 36.
  rewrite append_space_flat by lia. cbv beta iota zeta. cbn [fst snd].
  destruct (tunnel4_template rule sw id) as (Hlen & _ & H14 & _).
  change (create_ipv4_tunnel_encap rule sw id) with
    (fst (create_ipv4_tunnel_encap rule sw id), u16 (id + 1)). cbv iota beta.
  replace (n + 36 + (2 + pad + icv)) with L by lia. unfold tunnel4_header.
  set (hdr := fst (create_ipv4_tunnel_encap rule sw id)) in *. clearbody hdr.
  assert (length (drop (length h - Z.to_nat 36) h) = 36%nat) as Hd by (rewrite length_drop; lia).
  rewrite put_at_flat by (rewrite ?length_app, ?Hd, ?Hlen; lia). rewrite put_bytes_0, Hlen.
  rewrite drop_app_ge, Hd, drop_app_le by lia. cbn [Nat.sub].
  rewrite set_ipv4_length_flat by (rewrite length_app, Hlen; lia).
  rewrite put_bytes_app_l by (rewrite Hlen; cbn; lia).
  assert (length (put_bytes 16 (be16 (L - 14)) hdr) = 50%nat) as Hl1 by (rewrite length_put_bytes; cbn; lia).
  rewrite (update_cksum_flat _ _ _ _ _ _ 69).
  2:{ rewrite lookup_app_l, put_bytes_lookup_lt by lia. done. }
  2:{ rewrite length_app. lia. }
  change (Z.to_nat (Z.land 69 15 * 4)) with 20%nat. rewrite with_cksum_app by lia.
  change ETHER_HDR with 14.
  set (H := with_cksum ck 20 _). assert (length H = 50%nat) as HH by (unfold H; rewrite length_with_cksum; lia).
  replace (n + 36) with (Z.of_nat (length (H ++ drop 14 pkt))) by (rewrite length_app, length_drop; lia).
  unfold ESP_TAIL. replace (2 + pad - 2) with pad by lia. rewrite (uwrap_id 32 pad) by (split; lia).
  rewrite (app_assoc H), write_trailer_flat by lia. rewrite <-app_assoc. by eexists.
Qed.

Lemma no_padding_long m : RTE_ETHER_MIN_LEN < pkt_len m -> remove_ethernet_padding m = Ret m.
Proof. intros Hm. unfold remove_ethernet_padding. by rewrite (proj2 (Z.ltb_lt _ _) Hm). Qed.

Lemma put_ethertype ty H X :
  length ty = 2%nat -> (14 <= length H)%nat -> put_bytes 12 ty (take 14 H ++ X) = take 12 H ++ ty ++ X.
Proof.
  intros Hty HH. unfold put_bytes. rewrite Hty, take_app_le by (rewrite length_take; lia).
  rewrite take_take. change (12 `min` 14)%nat with 12%nat. change (12 + 2)%nat with 14%nat.
  by rewrite drop_app_length' by (rewrite length_take; lia).
Qed.

(** Decapsulation of an IPv4 tunnel packet. *)
Lemma decap_tunnel4 rule h H P pad next R :
  let icv := get_icv_len_int (icv_length (dr_sa rule)) in
  let n := Z.of_nat (length H + length P) + pad + 2 + icv in
  length H = 50%nat -> H !! 14%nat = Some 69 -> 0 <= pad <= 3 -> icv <= Z.of_nat (length R) ->
  n < 2 ^ 16 -> RTE_ETHER_MIN_LEN < n ->
  exists h2 rest, decap_packet_tunnel rule
      (flat h (H ++ P ++ take (Z.to_nat pad) esp_pad_bytes ++ [pad; next] ++ R) n n true)
    = Ret (flat h2 (take 12 H ++ (if next =? 41 then [0x86; 0xdd] else [0x08; 0x00]) ++ P ++ rest)
             (14 + Z.of_nat (length P)) (14 + Z.of_nat (length P)) true, DOCA_SUCCESS).
Proof.
  intros icv n HH H14 Hp HR Hn Hmin. unfold decap_packet_tunnel. fold icv.
  assert (0 <= icv <= 16) as Hicv by (unfold icv; pose proof (get_icv_range (icv_length (dr_sa rule))); lia).
  rewrite <-(take_drop (Z.to_nat icv) R). rewrite (app_assoc H).
  assert (n = Z.of_nat (length (H ++ P)) + pad + 2 + icv) as -> by (rewrite length_app; lia).
  rewrite remove_packet_tail_flat; [|done|rewrite length_take; lia|exact Hn|by apply no_padding_long]. rewrite length_app in Hn, Hmin.
  rewrite take_drop, <-app_assoc. set (tail := take (Z.to_nat pad) esp_pad_bytes ++ [pad; next] ++ R).
  unfold l3_hdr_len. cbn [is_ipv4]. rewrite (ipv4_hdr_len_flat _ _ _ _ _ 69) by (by rewrite lookup_app_l by lia).
  change (Z.land 69 15 * 4 + ESP_HDR + IV_LEN) with 36. unfold ETHER_HDR.
  rewrite adj_flat by (rewrite ?length_app; lia).
  rewrite copy_headers_flat by (rewrite ?length_app; lia). change (Z.to_nat (36 + 14)) with 50%nat.
  rewrite drop_app_length', !take_app_le by lia. change (Z.to_nat 14) with 14%nat.
  rewrite put_at_flat; [|lia|destruct (next =? 41); rewrite !length_app, length_take; cbn [length]; lia].
  change (Z.to_nat 12) with 12%nat.
  rewrite put_ethertype by (destruct (next =? 41); done || lia). rewrite length_app, HH.
  replace (Z.of_nat (50 + length P) - 36) with (14 + Z.of_nat (length P)) by lia. by eexists _, _.
Qed.

(** C12: Tunnel mode over IPv4 and back: whatever packet goes in, the packet that comes out
    has the same bytes after the Ethernet header, the Ethernet type of the inner
    protocol and the same length; the trailer is placed and removed exactly, for
    every payload length, padding and ICV size. *)
Theorem esp_tunnel_roundtrip ck sw rule drule id h pkt room v :
  let n := Z.of_nat (length pkt) in
  let icv := get_icv_len_int (icv_length (er_sa rule)) in
  encap_l3_type rule = DOCA_FLOW_L3_TYPE_IP4 -> icv_length (dr_sa drule) = icv_length (er_sa rule) ->
  34 <= n -> n + 57 < 2 ^ 16 -> 36 <= Z.of_nat (length h) -> 21 <= Z.of_nat (length room) ->
  remove_ethernet_padding (flat h (pkt ++ room) n n v) = Ret (flat h (pkt ++ room) n n v) ->
  exists m1 rule1 id1 m2,
    prepare_packet_tunnel ck sw rule (flat h (pkt ++ room) n n v) id = Ret (m1, rule1, id1, DOCA_SUCCESS)
    /\ decap_packet_tunnel drule (received true m1) = Ret (m2, DOCA_SUCCESS)
    /\ packet m2 = outer_macs
         ++ (if bool_decide (er_l3_type rule = DOCA_FLOW_L3_TYPE_IP4) then [0x08; 0x00] else [0x86; 0xdd])
         ++ drop 14 pkt
    /\ pkt_len m2 = n.
Proof.
  intros n icv Hl3 Hsa Hn Hmax Hh Hroom Hpad. pose proof (pad_of_range (n - 14)) as Hp.
  assert (8 <= icv <= 16) as Hicv by (unfold icv; pose proof (get_icv_range (icv_length (er_sa rule))); lia).
  destruct (prepare_tunnel4 ck sw rule id h pkt room v Hl3) as (h1 & E); fold n icv; try lia; try done.
  fold n icv in E. set (pad := pad_of (n - 14)) in *. set (L := n + 36 + pad + 2 + icv) in *.
  set (next := if bool_decide (er_l3_type rule = DOCA_FLOW_L3_TYPE_IP4) then 4 else 41) in *.
  destruct (tunnel4_header_spec ck rule sw id L) as (HH & Hm & H14).
  set (H := tunnel4_header ck rule sw id L) in *. clearbody H.
  destruct (decap_tunnel4 drule h1 H (drop 14 pkt) pad next (drop (Z.to_nat (pad + 2)) room))
    as (h2 & rest & E2); try done; rewrite ?Hsa; fold icv; rewrite ?HH, ?length_drop; try lia.
  { unfold RTE_ETHER_MIN_LEN. lia. }
  rewrite Hsa in E2. fold icv in E2. rewrite length_drop, HH in E2.
  replace (Z.of_nat (50 + (length pkt - 14)) + pad + 2 + icv) with L in E2 by lia.
  eexists _, _, _, _. split; [exact E|]. split; [exact E2|]. cbn [packet segs pkt_len].
  split; [|lia]. unfold packet. cbn [segs data_len sbuf mbind list_bind]. rewrite app_nil_r, Hm.
  assert (length outer_macs = 12%nat) as Hmac by done.
  assert ((if next =? 41 then [134; 221] else [8; 0]) =
          (if bool_decide (er_l3_type rule = DOCA_FLOW_L3_TYPE_IP4) then [8; 0] else [134; 221])) as ->
    by (unfold next; by case_bool_decide).
  rewrite !app_assoc. apply take_app_length'. rewrite !length_app, Hmac, length_drop.
  case_bool_decide; cbn [length]; lia.
Qed.

(** ** Transport mode *)

(** The IP header with a protocol, the length of a packet of [plen] bytes and its
    checksum; IPv6 has no checksum. *)
Definition restore_ip (ck : list Z -> Z) (v4 : bool) (l3 : nat) (proto plen : Z) (H : list Z) : list Z :=
  if v4 then with_cksum ck l3 (put_bytes 16 (be16 (plen - 14)) (put_bytes 23 [proto] H))
  else put_bytes 18 (be16 (plen - 14 - 40)) (put_bytes 20 [proto] H).

(** A packet's Ethernet and IP headers, with a header of [l3] bytes. *)
Record ip_headers (v4 : bool) (l3 : nat) (next : Z) (H : list Z) : Prop := {
  ih_length : length H = (14 + l3)%nat;
  ih_l3 : if v4 then (20 <= l3)%nat else l3 = 40%nat;
  ih_ihl : v4 = true -> exists x, H !! 14%nat = Some x /\ Z.land x 15 * 4 = Z.of_nat l3;
  ih_next : H !! (if v4 then 23 else 20)%nat = Some next;
}.

Lemma length_restore_ip ck v4 l3 proto plen H :
  (26 <= length H)%nat -> length (restore_ip ck v4 l3 proto plen H) = length H.
Proof.
  intros Hl. assert (forall bs idx l, length l = length H -> (idx + length bs <= 26)%nat ->
    length (put_bytes idx bs l) = length H) as Hp by (intros; rewrite length_put_bytes; lia).
  unfold restore_ip. destruct v4; [rewrite length_with_cksum|]; rewrite ?Hp; cbn; try done; try lia.
  all: rewrite ?Hp; cbn; lia.
Qed.

(** The IP header keeps its length, its type and its other fields. *)
Lemma restore_ip_headers ck v4 l3 next proto plen H :
  ip_headers v4 l3 next H -> ip_headers v4 l3 proto (restore_ip ck v4 l3 proto plen H).
Proof.
  intros [Hl H3 Hi Hn]. assert (34 <= length H)%nat as Hlen by (destruct v4; lia).
  split; [by rewrite length_restore_ip by lia|done| |].
  - intros Hv. destruct (Hi Hv) as (x & Hx & Hx'). exists x. split; [|done]. subst v4.
    do 26 (destruct H as [|? H]; [cbn in Hlen; lia|]). exact Hx.
  - destruct v4; do 26 (destruct H as [|? H]; [cbn in Hlen; lia|]); done.
Qed.

Lemma restore_restore ck v4 l3 p1 n1 p2 n2 H :
  (34 <= length H)%nat -> restore_ip ck v4 l3 p1 n1 (restore_ip ck v4 l3 p2 n2 H) = restore_ip ck v4 l3 p1 n1 H.
Proof.
  intros Hlen. do 26 (destruct H as [|? H]; [cbn in Hlen; lia|]). by destruct v4.
Qed.

Lemma l3_hdr_len_flat v4 l3 next H X h n p :
  ip_headers v4 l3 next H -> l3_hdr_len (flat h (H ++ X) n p v4) = Ret (Z.of_nat l3).
Proof.
  intros [Hl H3 Hi Hn]. unfold l3_hdr_len. cbn [is_ipv4]. destruct v4; [|by rewrite H3].
  destruct (Hi eq_refl) as (x & Hx & <-). apply ipv4_hdr_len_flat. rewrite lookup_app_l by lia. done.
Qed.

Lemma decap_ip_header_flat ck v4 l3 next proto H X h n p :
  ip_headers v4 l3 next H ->
  decap_ip_header ck proto (flat h (H ++ X) n p v4)
  = Ret (flat h (restore_ip ck v4 l3 proto p H ++ X) n p v4).
Proof.
  intros Hok. pose proof Hok as [Hl H3 Hi Hn].
  assert (34 <= length H)%nat as Hlen by (destruct v4; lia).
  unfold decap_ip_header, restore_ip. cbn [is_ipv4]. destruct v4.
  - unfold ETHER_HDR. rewrite put_at_flat by (rewrite ?length_app; cbn; lia).
    change (Z.to_nat (14 + 9)) with 23%nat. rewrite put_bytes_app_l by (cbn; lia).
    assert (length (put_bytes 23 [proto] H) = length H) as Hl1 by (rewrite length_put_bytes; cbn; lia).
    rewrite set_ipv4_length_flat by (rewrite length_app; lia). rewrite put_bytes_app_l by (cbn; lia).
    assert (length (put_bytes 16 (be16 (p - 14)) (put_bytes 23 [proto] H)) = length H) as Hl2
      by (rewrite length_put_bytes; cbn; lia).
    destruct (Hi eq_refl) as (x & Hx & Hx3).
    rewrite (update_cksum_flat _ _ _ _ _ _ x).
    + rewrite Hx3, Nat2Z.id, with_cksum_app by lia. done.
    + rewrite lookup_app_l, !put_bytes_lookup_lt by lia. done.
    + rewrite length_app. lia.
  - unfold ETHER_HDR. rewrite put_at_flat by (rewrite ?length_app; cbn; lia).
    change (Z.to_nat (14 + 6)) with 20%nat. rewrite put_bytes_app_l by (cbn; lia).
    assert (length (put_bytes 20 [proto] H) = length H) as Hl1 by (rewrite length_put_bytes; cbn; lia).
    unfold set_ipv6_length, ETHER_HDR, IPV6_HDR. cbn [pkt_len].
    rewrite put_at_flat by (rewrite ?length_app; cbn; lia).
    change (Z.to_nat (14 + 4)) with 18%nat. by rewrite put_bytes_app_l by (cbn; lia).
Qed.

(** The UDP header in front of ESP, with the length of the datagram. *)
Definition udp_fixed (udp : bool) (l3 : nat) (plen : Z) (X : list Z) : list Z :=
  if udp then put_bytes 6 (be16 0) (put_bytes 4 (be16 (plen - 14 - Z.of_nat l3)) X) else X.

Lemma set_udp_header_flat l3 H X h n p v :
  length H = (14 + l3)%nat -> (8 <= length X)%nat ->
  set_udp_header (Z.of_nat l3) (flat h (H ++ X) n p v)
  = Ret (flat h (H ++ udp_fixed true l3 p X) n p v).
Proof.
  intros Hl HX. unfold set_udp_header, ETHER_HDR. cbn [pkt_len].
  rewrite put_at_flat by (rewrite ?length_app; cbn; lia).
  replace (Z.to_nat (14 + Z.of_nat l3 + 4)) with (length H + 4)%nat by lia. rewrite put_bytes_app_r.
  assert (length (put_bytes 4 (be16 (p - 14 - Z.of_nat l3)) X) = length X) as Hl1
    by (rewrite length_put_bytes; cbn; lia).
  rewrite put_at_flat by (rewrite ?length_app, ?Hl1; cbn; lia).
  replace (Z.to_nat (14 + Z.of_nat l3 + 6)) with (length H + 6)%nat by lia. by rewrite put_bytes_app_r.
Qed.

Lemma transport_ip_header_flat ck v4 l3 next proto udp H X h n p :
  ip_headers v4 l3 next H -> (udp = true -> v4 = true -> l3 = 20%nat) -> (8 <= length X)%nat ->
  transport_ip_header ck proto udp (flat h (H ++ X) n p v4)
  = Ret (flat h (restore_ip ck v4 l3 proto p H ++ udp_fixed udp l3 p X) n p v4, next).
Proof.
  intros Hok Hudp HX. pose proof Hok as [Hl H3 Hi Hn].
  assert (34 <= length H)%nat as Hlen by (destruct v4; lia).
  pose proof (decap_ip_header_flat ck v4 l3 next proto H X h n p Hok) as E.
  pose proof (length_restore_ip ck v4 l3 proto p H ltac:(lia)) as Hr.
  unfold transport_ip_header, decap_ip_header in *. cbn [is_ipv4] in *. destruct v4.
  - rewrite get_at_flat by (unfold ETHER_HDR; lia). change (Z.to_nat (ETHER_HDR + 9)) with 23%nat.
    rewrite lookup_app_l, Hn by lia. cbn [of_option]. obind E. obind E.
    rewrite E. destruct udp; [|done]. rewrite (Hudp eq_refl eq_refl) in *.
    change IPV4_HDR with (Z.of_nat 20). by rewrite set_udp_header_flat by lia.
  - rewrite get_at_flat by (unfold ETHER_HDR; lia). change (Z.to_nat (ETHER_HDR + 6)) with 20%nat.
    rewrite lookup_app_l, Hn by lia. cbn [of_option]. obind E. rewrite E. destruct udp; [|done].
    rewrite H3 in *. change IPV6_HDR with (Z.of_nat 40). by rewrite set_udp_header_flat by lia.
Qed.

Definition esp_header (udp sw_sn_inc : bool) (rule : encrypt_rule) : list Z :=
  if udp then create_udp_transport_encap rule sw_sn_inc else create_transport_encap rule sw_sn_inc.

Lemma length_esp_header udp sw rule : length (esp_header udp sw rule) = if udp then 24%nat else 16%nat.
Proof. by destruct udp, sw. Qed.

Lemma length_udp_fixed udp l3 plen X : (8 <= length X)%nat -> length (udp_fixed udp l3 plen X) = length X.
Proof.
  intros HX. unfold udp_fixed. destruct udp; [|done].
  rewrite !length_put_bytes; cbn; try lia. rewrite length_put_bytes; cbn; lia.
Qed.

Lemma udp_fixed_app udp l3 plen X Y :
  (8 <= length X)%nat -> udp_fixed udp l3 plen (X ++ Y) = udp_fixed udp l3 plen X ++ Y.
Proof.
  intros HX. unfold udp_fixed. destruct udp; [|done]. rewrite !put_bytes_app_l; cbn; try lia; [done|].
  rewrite length_put_bytes; cbn; lia.
Qed.

(** Making room for the ESP header behind the IP header. *)
Lemma move_to_front_flat H P h1 h2 n p v cut :
  Z.of_nat (length h1) = cut ->
  move_to_front cut (Z.of_nat (length H)) (flat h2 (h1 ++ H ++ P) n p v)
  = Ret (flat h2 (H ++ drop (length H) (h1 ++ H ++ P)) n p v).
Proof.
  intros Hc. unfold move_to_front. rewrite seg_at_flat. cbn [sbuf].
  rewrite (proj2 (Z.leb_le _ _)) by (rewrite !length_app; lia). cbn [require]. rewrite !Nat2Z.id.
  rewrite drop_app_length', take_app_length by lia.
  rewrite put_at_flat by (rewrite ?length_app; lia). by rewrite put_bytes_0.
Qed.

(** The packet after encapsulation. *)
Lemma prepare_transport ck sw (udp : bool) rule h H P room v4 l3 next :
  let n := Z.of_nat (length H + length P) in
  let icv := get_icv_len_int (icv_length (er_sa rule)) in
  let pad := pad_of (Z.of_nat (length P)) in
  let cut := if udp then 24 else 16 in
  let L := n + cut + pad + 2 + icv in
  ip_headers v4 l3 next H -> (udp = true -> v4 = true -> l3 = 20%nat) -> L < 2 ^ 16 ->
  cut <= Z.of_nat (length h) -> pad + 2 <= Z.of_nat (length room) ->
  remove_ethernet_padding (flat h (H ++ P ++ room) n n v4) = Ret (flat h (H ++ P ++ room) n n v4) ->
  exists h1, prepare_packet_transport ck sw udp rule (flat h (H ++ P ++ room) n n v4)
    = Ret (flat h1 (restore_ip ck v4 l3 (if udp then 17 else 50) L H
                    ++ udp_fixed udp l3 L (esp_header udp sw rule)
                    ++ P ++ take (Z.to_nat pad) esp_pad_bytes ++ [pad; next]
                    ++ drop (Z.to_nat (pad + 2)) room) L L v4,
           set_current_sn (u32 (current_sn rule + 1)) rule, DOCA_SUCCESS).
Proof.
  intros n icv pad cut L Hok Hudp HL Hh Hroom Hpad. pose proof (pad_of_range (Z.of_nat (length P))) as Hp.
  pose proof Hok as [Hl _ _ _].
  assert (0 <= icv <= 16) as Hicv by (unfold icv; pose proof (get_icv_range (icv_length (er_sa rule))); lia).
  assert (0 <= cut <= 24) as Hcut by (unfold cut; destruct udp; lia).
  unfold prepare_packet_transport. rewrite Hpad. rewrite (l3_hdr_len_flat v4 l3 next) by done.
  cbn [pkt_len]. unfold ETHER_HDR. fold icv cut.
  replace (n - (Z.of_nat l3 + 14)) with (Z.of_nat (length P)) by lia.
  rewrite (uwrap_id 32 (Z.of_nat (length P))) by (split; lia). rewrite padding_spec by lia. fold pad.
  assert (u32 (2 + pad + icv) = 2 + pad + icv) as -> by (apply uwrap_id; split; lia).
  rewrite append_space_flat by lia. cbv beta iota zeta.
  replace (n + cut + (2 + pad + icv)) with L by lia.
  set (h1 := drop (length h - Z.to_nat cut)%nat h). assert (length h1 = Z.to_nat cut) as Hh1 by (unfold h1; rewrite length_drop; lia).
  replace (Z.of_nat l3 + 14) with (Z.of_nat (length H)) by lia.
  rewrite move_to_front_flat by lia.
  fold (esp_header udp sw rule).
  assert (length (esp_header udp sw rule) = Z.to_nat cut) as He
    by (rewrite length_esp_header; unfold cut; by destruct udp).
  rewrite put_at_flat by (rewrite ?length_app, ?length_drop, ?length_app; lia).
  rewrite (put_bytes_at H) by lia. rewrite He, drop_drop.
  replace (length H + Z.to_nat cut)%nat with (length h1 + length H)%nat by lia.
  rewrite <-drop_drop, drop_app_length, drop_app_length.
  rewrite (transport_ip_header_flat ck v4 l3 next) by (done || (rewrite length_app, He; unfold cut; destruct udp; lia)).
  rewrite udp_fixed_app by (rewrite He; unfold cut; destruct udp; lia).
  unfold ESP_TAIL. replace (2 + pad - 2) with pad by lia. rewrite (uwrap_id 32 pad) by (split; lia).
  set (H' := restore_ip _ _ _ _ _ _). set (E := udp_fixed _ _ _ _).
  assert (length H' = length H) as HH' by (apply length_restore_ip; destruct v4, Hok; lia).
  assert (length E = Z.to_nat cut) as HE
    by (unfold E; rewrite length_udp_fixed; rewrite He; unfold cut; destruct udp; lia).
  replace (n + cut) with (Z.of_nat (length (H' ++ E ++ P))) by (rewrite !length_app; lia).
  replace (H' ++ E ++ P ++ room) with ((H' ++ E ++ P) ++ room) by (by rewrite <-!app_assoc).
  rewrite write_trailer_flat by lia.
  eexists. rewrite <-!app_assoc. done.
Qed.

Lemma at_old_start_flat cut f h b b' n p v :
  0 <= cut -> cut <= Z.of_nat (length b) -> f (flat h b n p v) = Ret (flat h b' n p v) ->
  at_old_start cut f (flat (h ++ take (Z.to_nat cut) b) (drop (Z.to_nat cut) b) n p v)
  = Ret (flat (h ++ take (Z.to_nat cut) b') (drop (Z.to_nat cut) b') n p v).
Proof.
  intros Hc Hb Hf. unfold at_old_start. rewrite seg_at_flat. cbn [headroom sbuf segs pkt_len is_ipv4 data_len].
  rewrite length_app, length_take, Nat.min_l by lia.
  replace (length h + Z.to_nat cut - Z.to_nat cut)%nat with (length h) by lia.
  rewrite drop_app_length, take_app_length, take_drop.
  change (<[0%nat := ?s]> [_]) with [s]. rewrite Hf, seg_at_flat. done.
Qed.

(** Decapsulation of a transport-mode packet. *)
Lemma decap_transport ck (udp : bool) rule h H E P pad next0 next R v4 l3 :
  let icv := get_icv_len_int (icv_length (dr_sa rule)) in
  let cut := if udp then 24 else 16 in
  let n := Z.of_nat (length H + length P) + cut + pad + 2 + icv in
  let m := flat h (H ++ E ++ P ++ take (Z.to_nat pad) esp_pad_bytes ++ [pad; next] ++ R) n n v4 in
  ip_headers v4 l3 next0 H -> Z.of_nat (length E) = cut -> 0 <= pad <= 3 ->
  icv <= Z.of_nat (length R) -> n < 2 ^ 16 -> remove_ethernet_padding m = Ret m ->
  exists h2 rest, decap_packet_transport ck rule udp m
    = Ret (flat h2 (restore_ip ck v4 l3 next (Z.of_nat (length H + length P)) H ++ P ++ rest)
             (Z.of_nat (length H + length P)) (Z.of_nat (length H + length P)) v4, DOCA_SUCCESS).
Proof.
  intros icv cut n m Hok HE Hp HR Hn Hpad. pose proof Hok as [Hl _ _ _].
  assert (0 <= icv <= 16) as Hicv by (unfold icv; pose proof (get_icv_range (icv_length (dr_sa rule))); lia).
  assert (0 <= cut <= 24) as Hcut by (unfold cut; destruct udp; lia).
  unfold decap_packet_transport. fold icv. unfold m, n in *. clear m n.
  rewrite <-(take_drop (Z.to_nat icv) R) in Hpad |- *.
  replace (H ++ E ++ P ++ take (Z.to_nat pad) esp_pad_bytes ++ [pad; next] ++ take (Z.to_nat icv) R ++ drop (Z.to_nat icv) R)
    with ((H ++ E ++ P) ++ take (Z.to_nat pad) esp_pad_bytes ++ [pad; next] ++ take (Z.to_nat icv) R ++ drop (Z.to_nat icv) R)
    in Hpad |- * by (by rewrite <-!app_assoc).
  replace (Z.of_nat (length H + length P) + cut + pad + 2 + icv)
    with (Z.of_nat (length (H ++ E ++ P)) + pad + 2 + icv) in * by (rewrite !length_app; lia).
  rewrite remove_packet_tail_flat by (done || (rewrite length_take; lia)).
  rewrite <-!app_assoc. rewrite (l3_hdr_len_flat v4 l3 next0) by done.
  replace (if udp then ESP_HDR + UDP_HDR + IV_LEN else ESP_HDR + IV_LEN) with cut by (unfold cut; by destruct udp).
  set (tail := take _ esp_pad_bytes ++ _).
  rewrite adj_flat by (rewrite ?length_app in *; lia).
  replace (Z.of_nat (length (H ++ E ++ P)) - cut) with (Z.of_nat (length H + length P))
    by (rewrite !length_app; lia).
  rewrite (at_old_start_flat _ _ _ _ (restore_ip ck v4 l3 next (Z.of_nat (length H + length P)) H ++ E ++ P ++ tail));
    [|lia|rewrite !length_app; lia|by apply (decap_ip_header_flat ck v4 l3 next0)].
  pose proof (length_restore_ip ck v4 l3 next (Z.of_nat (length H + length P)) H ltac:(destruct v4, Hok; lia)) as HH.
  set (H' := restore_ip _ _ _ _ _ _) in *. unfold ETHER_HDR.
  rewrite copy_headers_flat by (rewrite ?length_app; lia).
  generalize (h ++ take (Z.to_nat cut) (H' ++ E ++ P ++ tail)). intros h2.
  rewrite take_app_length' by lia.
  replace (H' ++ E ++ P ++ tail) with ((H' ++ E) ++ P ++ tail) by (by rewrite <-app_assoc).
  rewrite (drop_app_length' (H' ++ E)) by (rewrite length_app; lia). by exists h2, tail.
Qed.

Lemma get_be16_flat k z H X h n p v :
  0 <= z < 2 ^ 16 -> take 2 (drop k H) = be16 z ->
  get_be16 (Z.of_nat k) (flat h (H ++ X) n p v) = Ret z.
Proof.
  intros Hz Hk. unfold get_be16. rewrite !get_at_flat by lia.
  replace (Z.to_nat (Z.of_nat k + 1)) with (k + 1)%nat by lia. rewrite Nat2Z.id.
  assert (forall i, (i < 2)%nat -> (H ++ X) !! (k + i)%nat = be16 z !! i) as Hi.
  { intros i Hi. rewrite <-Hk, lookup_take_lt, lookup_drop by lia. apply lookup_app_l.
    pose proof (f_equal length Hk) as Hl. rewrite length_take, length_drop in Hl.
    change (length (be16 z)) with 2%nat in Hl. lia. }
  rewrite <-(Nat.add_0_r k) at 1. rewrite !Hi by lia.
  change (be16 z) with [(z / 256) mod 256; z mod 256]. cbn [lookup list_lookup of_option].
  f_equal. Z.to_euclidean_division_equations. lia.
Qed.

(** A short packet whose length field accounts for all of it is not padded. *)
Lemma no_padding_exact v4 l3 next H X h n :
  ip_headers v4 l3 next H -> 14 + Z.of_nat l3 <= n < 2 ^ 16 ->
  (if v4 then take 2 (drop 16 H) = be16 (n - 14) else take 2 (drop 18 H) = be16 (n - 14 - 40)) ->
  remove_ethernet_padding (flat h (H ++ X) n n v4) = Ret (flat h (H ++ X) n n v4).
Proof.
  intros Hok Hn Hlen. unfold remove_ethernet_padding. destruct (_ <? _); [done|]. cbn [is_ipv4 pkt_len].
  pose proof (l3_hdr_len_flat v4 l3 next H X h n n Hok) as E. unfold l3_hdr_len in E. cbn [is_ipv4] in E.
  destruct Hok as [Hl H3 _ _]. unfold ETHER_HDR, IPV6_HDR. destruct v4.
  - rewrite E. change (14 + 2) with (Z.of_nat 16). rewrite (get_be16_flat 16 (n - 14)) by (done || lia).
    rewrite (uwrap_id 32 (n - 14 - Z.of_nat l3)), (uwrap_id 32 (n - (Z.of_nat l3 + 14))) by (split; lia).
    replace (n - (Z.of_nat l3 + 14) - (n - 14 - Z.of_nat l3)) with 0 by lia. done.
  - change (14 + 4) with (Z.of_nat 18). rewrite (get_be16_flat 18 (n - 14 - 40)) by (done || lia).
    rewrite (uwrap_id 32 (n - (40 + 14))) by (split; lia). replace (n - (40 + 14) - (n - 14 - 40)) with 0 by lia. done.
Qed.

Lemma restore_length_field ck v4 l3 proto plen H :
  (34 <= length H)%nat ->
  let H' := restore_ip ck v4 l3 proto plen H in
  if v4 then take 2 (drop 16 H') = be16 (plen - 14) else take 2 (drop 18 H') = be16 (plen - 14 - 40).
Proof.
  intros Hlen. do 26 (destruct H as [|? H]; [cbn in Hlen; lia|]). by destruct v4.
Qed.

(** C11: Transport mode, plain or over UDP, and back: a packet in one segment whose IP
    header is consistent (length and, for IPv4, checksum) and which has room before and
    behind it comes out exactly as it went in, for IPv6 and for IPv4 with any header
    length; over UDP the IPv4 header must have no options, because the code writes the
    UDP header behind the first 20 bytes. *)
Theorem esp_transport_roundtrip ck sw (udp : bool) rule drule h H P room v4 l3 next :
  let n := Z.of_nat (length H + length P) in
  ip_headers v4 l3 next H -> (udp = true -> v4 = true -> l3 = 20%nat) ->
  icv_length (dr_sa drule) = icv_length (er_sa rule) ->
  restore_ip ck v4 l3 next n H = H ->
  n + 45 < 2 ^ 16 -> 24 <= Z.of_nat (length h) -> 21 <= Z.of_nat (length room) ->
  exists m1 rule1 m2,
    prepare_packet_transport ck sw udp rule (flat h (H ++ P ++ room) n n v4) = Ret (m1, rule1, DOCA_SUCCESS)
    /\ decap_packet_transport ck drule udp m1 = Ret (m2, DOCA_SUCCESS)
    /\ packet m2 = H ++ P /\ pkt_len m2 = n.
Proof.
  intros n Hok Hudp Hsa Hcons Hmax Hh Hroom.
  set (icv := get_icv_len_int (icv_length (er_sa rule))). set (pad := pad_of (Z.of_nat (length P))).
  set (cut := if udp then 24 else 16). set (L := n + cut + pad + 2 + icv).
  pose proof (pad_of_range (Z.of_nat (length P))) as Hp. fold pad in Hp.
  assert (8 <= icv <= 16) as Hicv by (unfold icv; pose proof (get_icv_range (icv_length (er_sa rule))); lia).
  assert (16 <= cut <= 24) as Hcut by (unfold cut; destruct udp; lia).
  assert (34 <= length H)%nat as Hlen by (destruct v4, Hok; lia). pose proof (ih_length _ _ _ _ Hok) as Hl.
  destruct (prepare_transport ck sw udp rule h H P room v4 l3 next Hok Hudp) as (h1 & E);
    fold icv pad cut n L; try lia.
  { apply (no_padding_exact v4 l3 next); [done|lia|].
    pose proof (restore_length_field ck v4 l3 next n H Hlen) as Hf. cbv zeta in Hf. by rewrite Hcons in Hf. }
  fold icv pad cut n L in E. set (H1 := restore_ip ck v4 l3 _ L H) in *.
  assert (ip_headers v4 l3 (if udp then 17 else 50) H1) as Hok1 by (by eapply restore_ip_headers).
  assert (length H1 = length H) as HH1 by (apply length_restore_ip; lia).
  assert (8 <= length (esp_header udp sw rule))%nat as Hesp by (rewrite length_esp_header; destruct udp; lia).
  destruct (decap_transport ck udp drule h1 H1 (udp_fixed udp l3 L (esp_header udp sw rule)) P pad
              (if udp then 17 else 50) next (drop (Z.to_nat (pad + 2)) room) v4 l3)
    as (h2 & rest & E2); rewrite ?Hsa; fold icv cut; rewrite ?HH1; fold n L; try done; try lia.
  { rewrite length_udp_fixed, length_esp_header by done. unfold cut. by destruct udp. }
  { rewrite length_drop. lia. }
  { apply (no_padding_exact v4 l3 (if udp then 17 else 50)); [done|lia|]. by apply restore_length_field. }
  rewrite Hsa in E2. fold icv cut in E2. rewrite HH1 in E2. fold n L in E2.
  unfold H1 in E2 at 2. rewrite restore_restore, Hcons in E2 by done.
  eexists _, _, _. split; [exact E|]. split; [exact E2|]. split; [|done].
  unfold packet. cbn [segs data_len sbuf mbind list_bind]. rewrite app_nil_r.
  rewrite app_assoc. apply take_app_length'. rewrite length_app. lia.
Qed.

(** ** Sequence numbers *)

Lemma tunnel4_header_bytes ck rule id L :
  let H := tunnel4_header ck rule true id L in
  [H !! 38%nat; H !! 39%nat; H !! 40%nat; H !! 41%nat]
    = map (fun i => Some (GET_BYTE (current_sn rule) i)) [3; 2; 1; 0].
Proof. done. Qed.

Lemma be32_value v : in_width 32 v -> le_value [GET_BYTE v 0; GET_BYTE v 1; GET_BYTE v 2; GET_BYTE v 3] = v.
Proof.
  intros [Hv0 Hv]. rewrite !get_byte_eq by lia. cbn [le_value Z.mul Z.pow Z.pow_pos Pos.iter].
  Z.to_euclidean_division_equations. lia.
Qed.

(** The receiver reads the sequence number the sender wrote, and the sender's next
    packet carries the next number. *)
Theorem esp_sn_roundtrip ck rule id h pkt room v mode :
  let n := Z.of_nat (length pkt) in
  encap_l3_type rule = DOCA_FLOW_L3_TYPE_IP4 -> mode <> IPSEC_SECURITY_GW_UDP_TRANSPORT ->
  34 <= n -> n + 57 < 2 ^ 16 -> 36 <= Z.of_nat (length h) -> 21 <= Z.of_nat (length room) ->
  in_width 32 (current_sn rule) ->
  remove_ethernet_padding (flat h (pkt ++ room) n n v) = Ret (flat h (pkt ++ room) n n v) ->
  exists m1 rule1 id1,
    prepare_packet_tunnel ck true rule (flat h (pkt ++ room) n n v) id = Ret (m1, rule1, id1, DOCA_SUCCESS)
    /\ get_esp_sn mode (received true m1) = Ret (current_sn rule)
    /\ current_sn rule1 = u32 (current_sn rule + 1).
Proof.
  intros n Hl3 Hmode Hn Hmax Hh Hroom Hsn Hpad. pose proof (pad_of_range (n - 14)) as Hp.
  pose proof (get_icv_range (icv_length (er_sa rule))) as Hicv.
  destruct (prepare_tunnel4 ck true rule id h pkt room v Hl3) as (h1 & E); fold n; try lia; try done.
  fold n in E. eexists _, _, _. split; [exact E|]. split; [|done]. unfold received. cbn [headroom segs pkt_len].
  match goal with |- context [tunnel4_header ck rule true id ?L] => set (LL := L) end.
  destruct (tunnel4_header_spec ck rule true id LL) as (HH & _ & H14).
  pose proof (tunnel4_header_bytes ck rule id LL) as Hb. cbv zeta in Hb.
  set (H := tunnel4_header ck rule true id LL) in *. clearbody H. cbn [map] in Hb.
  injection Hb as Hb0 Hb1 Hb2 Hb3. unfold get_esp_sn, l3_hdr_len. cbn [is_ipv4].
  rewrite (ipv4_hdr_len_flat _ _ _ _ _ 69) by (by rewrite lookup_app_l by lia).
  rewrite bool_decide_eq_false_2 by done. change (Z.land 69 15 * 4 + ETHER_HDR) with 34.
  rewrite !get_at_flat by lia.
  change (Z.to_nat (34 + 4)) with 38%nat. change (Z.to_nat (34 + 5)) with 39%nat.
  change (Z.to_nat (34 + 6)) with 40%nat. change (Z.to_nat (34 + 7)) with 41%nat.
  rewrite !lookup_app_l by lia. rewrite Hb0, Hb1, Hb2, Hb3. cbn [of_option]. by rewrite be32_value.
Qed.

(** ** Faults of the packet path *)

(** The outer IPv4 header of the tunnel has a time to live of zero. *)
Theorem tunnel_ttl_zero ck sw rule id h pkt room v :
  let n := Z.of_nat (length pkt) in
  encap_l3_type rule = DOCA_FLOW_L3_TYPE_IP4 ->
  34 <= n -> n + 57 < 2 ^ 16 -> 36 <= Z.of_nat (length h) -> 21 <= Z.of_nat (length room) ->
  remove_ethernet_padding (flat h (pkt ++ room) n n v) = Ret (flat h (pkt ++ room) n n v) ->
  exists m1 rule1 id1,
    prepare_packet_tunnel ck sw rule (flat h (pkt ++ room) n n v) id = Ret (m1, rule1, id1, DOCA_SUCCESS)
    /\ packet m1 !! 22%nat = Some 0.
Proof.
  intros n Hl3 Hn Hmax Hh Hroom Hpad. pose proof (pad_of_range (n - 14)) as Hp.
  pose proof (get_icv_range (icv_length (er_sa rule))) as Hicv.
  destruct (prepare_tunnel4 ck sw rule id h pkt room v Hl3) as (h1 & E); fold n; try lia; try done.
  fold n in E. eexists _, _, _. split; [exact E|]. unfold packet. cbn [segs data_len sbuf mbind list_bind].
  rewrite app_nil_r, lookup_take_lt by lia.
  match goal with |- context [tunnel4_header ck rule sw id ?L] => set (LL := L) end.
  destruct (tunnel4_header_spec ck rule sw id LL) as (HH & _).
  rewrite lookup_app_l by lia. by destruct sw.
Qed.

(** The pad length is not checked: a packet that claims more padding than it has gets
    lengths that wrap around, 65536 and 2^32 minus the excess. *)
Theorem remove_tail_underflow icv pad next h b v n :
  remove_ethernet_padding (flat h b n n v) = Ret (flat h b n n v) ->
  icv + 2 <= n < 2 ^ 16 -> 8 <= icv <= 16 -> in_width 8 pad -> n - (icv + 2) < pad ->
  b !! Z.to_nat (n - (icv + 2)) = Some pad -> b !! Z.to_nat (n - (icv + 2) + 1) = Some next ->
  remove_packet_tail icv (flat h b n n v)
  = Ret (flat h b (2 ^ 16 - (pad - (n - (icv + 2)))) (2 ^ 32 - (pad - (n - (icv + 2)))) v, Ok next).
Proof.
  intros Hpad Hn Hicv [Hp0 Hp] Hover Hb0 Hb1. unfold remove_packet_tail. rewrite Hpad. unfold ESP_TAIL.
  cbn [pkt_len]. rewrite (uwrap_id 32 (n - (icv + 2))) by (split; lia).
  set (off := n - (icv + 2)) in *. unfold mbuf_get_seg_ofs. cbn [pkt_len segs seg_ofs_loop data_len].
  rewrite !(proj2 (Z.leb_gt n off)) by lia. rewrite !get_at_flat by lia. rewrite Hb0, Hb1. cbn [of_option].
  unfold set_pkt_len, set_data_len. cbn [headroom segs pkt_len is_ipv4]. rewrite seg_at_flat. cbn [sbuf].
  unfold set_seg. cbn [headroom segs pkt_len is_ipv4].
  assert (u32 (off - pad) = 2 ^ 32 - (pad - off)) as ->.
  { unfold uwrap. rewrite <-(Z_mod_plus_full _ 1), Z.mod_small; lia. }
  rewrite (uwrap_id 32 (icv + 2 + pad)) by (split; lia).
  assert (u32 (n - (icv + 2 + pad)) = 2 ^ 32 - (pad - off)) as ->.
  { unfold uwrap. rewrite <-(Z_mod_plus_full _ 1), Z.mod_small; lia. }
  assert (u16 (2 ^ 32 - (pad - off)) = 2 ^ 16 - (pad - off)) as ->.
  { unfold uwrap. rewrite <-(Z_mod_plus_full _ (-65535)), Z.mod_small; lia. }
  done.
Qed.

(** A policy received over the socket is stored at its index, but its packets carry
    the index plus the reserved ids: until the array has grown, the software path
    reads outside it for every packet of such a rule. *)
Theorem dynamic_rule_misses `{RteHash} cfg g ck mode pkt_meta m id idx :
  gw_inv cfg g -> (false, id, idx) ∈ installed g -> 0 <= idx ->
  Z.of_nat (length (decrypt_rules g)) = DYN_RESERVED_RULES ->
  meta_rule_id pkt_meta = id ->
  handle_secured_packets_received ck mode false false pkt_meta (decrypt_rules g) m = Undef OutOfBounds.
Proof.
  intros Hi Hin Hidx Hl Hm. pose proof (gi_ids _ _ Hi) as Hids. rewrite Forall_forall in Hids.
  destruct (Hids _ Hin) as [-> _]. unfold handle_secured_packets_received. rewrite Hm. cbn [andb].
  by rewrite lookup_ge_None_2 by lia.
Qed.

(** ** Witnesses *)

(** The Internet checksum of RFC 1071, little-endian words. *)
Fixpoint word_sum (l : list Z) : Z :=
  match l with
  | lo :: hi :: l => lo + 256 * hi + word_sum l
  | [lo] => lo
  | [] => 0
  end.
Definition inet_cksum (l : list Z) : Z :=
  let s := word_sum l in
  let s := s mod 65536 + s / 65536 in
  65535 - (s mod 65536 + s / 65536).

Definition sample_rule : encrypt_rule :=
  EncryptRule DOCA_FLOW_L3_TYPE_IP4 DOCA_FLOW_L4_TYPE_EXT_NONE (replicate 8 0) 0 0
    DOCA_FLOW_L3_TYPE_IP4 [0x0201a8c0; 0; 0; 0] 0x5433 7
    (SaAttrs DOCA_FLOW_CRYPTO_ICV_LENGTH_12 DOCA_FLOW_CRYPTO_KEY_128 (replicate 32 5) 0).
Definition sample_drule : decrypt_rule :=
  DecryptRule DOCA_FLOW_L3_TYPE_IP4 (replicate 4 0) 0x5433 DOCA_FLOW_L3_TYPE_IP4
    (SaAttrs DOCA_FLOW_CRYPTO_ICV_LENGTH_12 DOCA_FLOW_CRYPTO_KEY_128 (replicate 32 5) 0) (ARState 63 0 0).

(** Ethernet and IPv4 headers of a 70-byte packet, its payload and the room around it. *)
Definition sample_header : list Z :=
  restore_ip inet_cksum true 20 17 70
    (replicate 12 9 ++ [8; 0; 0x45; 0; 0; 0; 0; 1; 0; 0; 64; 17; 0; 0; 10; 0; 0; 1; 10; 0; 0; 2]).
Definition sample_payload : list Z := seqZ 100 36.
Definition sample_headroom : list Z := replicate 128 0.
Definition sample_room : list Z := replicate 60 77.

Lemma esp_tunnel_roundtrip_witness :
  exists m1 rule1 id1 m2,
    prepare_packet_tunnel inet_cksum true sample_rule
      (flat sample_headroom ((sample_header ++ sample_payload) ++ sample_room) 70 70 true) 5
      = Ret (m1, rule1, id1, DOCA_SUCCESS)
    /\ decap_packet_tunnel sample_drule (received true m1) = Ret (m2, DOCA_SUCCESS)
    /\ packet m2 = outer_macs ++ [0x08; 0x00] ++ drop 14 (sample_header ++ sample_payload)
    /\ pkt_len m2 = 70.
Proof.
  apply (esp_tunnel_roundtrip inet_cksum true sample_rule sample_drule 5 sample_headroom
           (sample_header ++ sample_payload) sample_room true);
    first [reflexivity | vm_compute; discriminate].
Defined.

Lemma sample_header_ok : ip_headers true 20 17 sample_header.
Proof.
  apply Build_ip_headers.
  - reflexivity.
  - lia.
  - intros _. exists 0x45. split; reflexivity.
  - reflexivity.
Qed.

Lemma esp_transport_roundtrip_witness :
  exists m1 rule1 m2,
    prepare_packet_transport inet_cksum true true sample_rule
      (flat sample_headroom (sample_header ++ sample_payload ++ sample_room) 70 70 true)
      = Ret (m1, rule1, DOCA_SUCCESS)
    /\ decap_packet_transport inet_cksum sample_drule true m1 = Ret (m2, DOCA_SUCCESS)
    /\ packet m2 = sample_header ++ sample_payload /\ pkt_len m2 = 70.
Proof.
  apply (esp_transport_roundtrip inet_cksum true true sample_rule sample_drule sample_headroom
           sample_header sample_payload sample_room true 20 17).
  - apply sample_header_ok.
  - reflexivity.
  - reflexivity.
  - vm_compute. reflexivity.
  - vm_compute. reflexivity.
  - vm_compute. discriminate.
  - vm_compute. discriminate.
Defined.

Lemma esp_sn_roundtrip_witness :
  exists m1 rule1 id1,
    prepare_packet_tunnel inet_cksum true sample_rule
      (flat sample_headroom ((sample_header ++ sample_payload) ++ sample_room) 70 70 true) 5
      = Ret (m1, rule1, id1, DOCA_SUCCESS)
    /\ get_esp_sn IPSEC_SECURITY_GW_TUNNEL (received true m1) = Ret 7
    /\ current_sn rule1 = 8.
Proof.
  apply (esp_sn_roundtrip inet_cksum sample_rule 5 sample_headroom
           (sample_header ++ sample_payload) sample_room true IPSEC_SECURITY_GW_TUNNEL);
    first [reflexivity | vm_compute; discriminate | idtac].
  split; vm_compute; [discriminate | reflexivity].
Defined.

Lemma tunnel_ttl_zero_witness :
  exists m1 rule1 id1,
    prepare_packet_tunnel inet_cksum true sample_rule
      (flat sample_headroom ((sample_header ++ sample_payload) ++ sample_room) 70 70 true) 5
      = Ret (m1, rule1, id1, DOCA_SUCCESS)
    /\ packet m1 !! 22%nat = Some 0.
Proof.
  apply (tunnel_ttl_zero inet_cksum true sample_rule 5 sample_headroom
           (sample_header ++ sample_payload) sample_room true);
    first [reflexivity | vm_compute; discriminate].
Defined.

(** A packet of 70 bytes that claims 200 bytes of padding. *)
Lemma remove_tail_underflow_witness :
  remove_packet_tail 12 (flat [] (replicate 56 0 ++ [200; 4] ++ replicate 12 0) 70 70 true)
  = Ret (flat [] (replicate 56 0 ++ [200; 4] ++ replicate 12 0) (2 ^ 16 - 144) (2 ^ 32 - 144) true, Ok 4).
Proof.
  apply (remove_tail_underflow 12 200 4 [] (replicate 56 0 ++ [200; 4] ++ replicate 12 0) true 70);
    first [reflexivity | lia | split; lia].
Defined.

Section samples.
#[local] Instance esp_hash : RteHash := Slots.slots_hash 8.

(** A gateway that installed its first decryption rule. *)
Definition one_rule_gateway : gateway :=
  Gateway 1 0 1
    (replicate 1024 (set_current_sn (u32 0) encrypt_rule_zero))
    (replicate 1024 (set_antireplay (AntiReplay.sw_handling_antireplay 0) decrypt_rule_zero)) ht_new
    [(false, 1024, 0)].

Lemma one_rule_gateway_inv : gw_inv sample_config one_rule_gateway.
Proof.
  apply Build_gw_inv;
    cbn [one_rule_gateway nb_encrypted_rules nb_decrypted_rules nb_rules encrypt_rules decrypt_rules installed].
  - rewrite length_replicate. split; [lia|]. exists 1. unfold DYN_RESERVED_RULES. lia.
  - rewrite length_replicate. split; [lia|]. exists 1. unfold DYN_RESERVED_RULES. lia.
  - reflexivity.
  - intros _ i r _ [-> _]%lookup_replicate. done.
  - intros _ i r _ [-> _]%lookup_replicate. done.
  - apply Forall_singleton. unfold DYN_RESERVED_RULES. split; lia.
Qed.

Lemma dynamic_rule_misses_witness :
  handle_secured_packets_received inet_cksum IPSEC_SECURITY_GW_TUNNEL false false (Z.shiftl 1024 12)
    (decrypt_rules one_rule_gateway)
    (flat sample_headroom ((sample_header ++ sample_payload) ++ sample_room) 70 70 true) = Undef OutOfBounds.
Proof.
  apply (dynamic_rule_misses sample_config one_rule_gateway inet_cksum IPSEC_SECURITY_GW_TUNNEL
           (Z.shiftl 1024 12) _ 1024 0).
  - apply one_rule_gateway_inv.
  - apply list_elem_of_singleton. reflexivity.
  - lia.
  - reflexivity.
  - reflexivity.
Defined.
End samples.
