(* ===== verification/FwdPkt.v ===== *)
(** * Packet parser and flow keys of the forwarding application

    applications/simple_fwd_vnf/simple_fwd_pkt.c and the key functions of
    simple_fwd_ft.c.  A packet is the memory that starts at its first byte and runs
    to the end of its buffer; a pointer into it is an offset.  [len] is the length
    the driver reports, which may be less than the memory. *)
From S2P Require Import Prelude FlowTypes.

Definition IPV4 : Z := 4.
Definition IPV6 : Z := 6.
Definition DOCA_FLOW_PROTO_ICMP : Z := 1.
Definition DOCA_FLOW_PROTO_TCP : Z := 6.
Definition DOCA_FLOW_PROTO_UDP : Z := 17.
Definition DOCA_FLOW_PROTO_GRE : Z := 47.
Definition DOCA_FLOW_GTPU_DEFAULT_PORT : Z := 2152.
Definition DOCA_FLOW_VXLAN_DEFAULT_PORT : Z := 4789.
Definition RTE_ETHER_TYPE_IPV4 : Z := 0x0800.
Definition RTE_ETHER_TYPE_IPV6 : Z := 0x86dd.
Definition RTE_ETHER_TYPE_ARP : Z := 0x0806.

(** ** Data *)

(** [None] is the null pointer. *)
Record simple_fwd_pkt_format : Type := PktFormat {
  f_l2 : option Z;
  f_l3 : option Z;
  f_l4 : option Z;
  f_l3_type : Z;
  f_l4_type : Z;
  f_l7 : option Z;
}.
Definition fmt_zero : simple_fwd_pkt_format := PktFormat None None None 0 0 None.

Definition set_f_l2 p (f : simple_fwd_pkt_format) :=
  PktFormat (Some p) (f_l3 f) (f_l4 f) (f_l3_type f) (f_l4_type f) (f_l7 f).
Definition set_f_l3 p (f : simple_fwd_pkt_format) :=
  PktFormat (f_l2 f) (Some p) (f_l4 f) (f_l3_type f) (f_l4_type f) (f_l7 f).
Definition set_f_l4 p (f : simple_fwd_pkt_format) :=
  PktFormat (f_l2 f) (f_l3 f) (Some p) (f_l3_type f) (f_l4_type f) (f_l7 f).
Definition set_f_l3_type v (f : simple_fwd_pkt_format) :=
  PktFormat (f_l2 f) (f_l3 f) (f_l4 f) v (f_l4_type f) (f_l7 f).
Definition set_f_l4_type v (f : simple_fwd_pkt_format) :=
  PktFormat (f_l2 f) (f_l3 f) (f_l4 f) (f_l3_type f) v (f_l7 f).
Definition set_f_l7 p (f : simple_fwd_pkt_format) :=
  PktFormat (f_l2 f) (f_l3 f) (f_l4 f) (f_l3_type f) (f_l4_type f) (Some p).

(** The union is its eight bytes: [vni] and [gre_key] at 0, [proto] at 4;
    [gtp_msg_type] at 0, [gtp_flags] at 1, [teid] at 4. *)
Record simple_fwd_pkt_tun_format : Type := PktTun { t_l2 : bool; t_raw : list Z }.

Definition t_vni (t : simple_fwd_pkt_tun_format) : Z := load 0 4 (t_raw t).
Definition t_gre_key (t : simple_fwd_pkt_tun_format) : Z := load 0 4 (t_raw t).
Definition t_gtp_flags (t : simple_fwd_pkt_tun_format) : Z := load 1 1 (t_raw t).
Definition t_teid (t : simple_fwd_pkt_tun_format) : Z := load 4 4 (t_raw t).

Record simple_fwd_pkt_info : Type := PktInfo {
  orig_port_id : Z;
  pi_pipe_queue : Z;
  rss_hash : Z;
  outer : simple_fwd_pkt_format;
  pi_tun_type : doca_flow_tun_type;
  tun : simple_fwd_pkt_tun_format;
  inner : simple_fwd_pkt_format;
  pi_len : Z;
}.
(** [memset(&pinfo, 0, sizeof(struct simple_fwd_pkt_info))] *)
Definition pinfo_zero : simple_fwd_pkt_info :=
  PktInfo 0 0 0 fmt_zero DOCA_FLOW_TUN_NONE (PktTun false (replicate 8 0)) fmt_zero 0.

Definition set_pi_len n (p : simple_fwd_pkt_info) :=
  PktInfo (orig_port_id p) (pi_pipe_queue p) (rss_hash p) (outer p) (pi_tun_type p) (tun p) (inner p) n.
Definition set_outer f (p : simple_fwd_pkt_info) :=
  PktInfo (orig_port_id p) (pi_pipe_queue p) (rss_hash p) f (pi_tun_type p) (tun p) (inner p) (pi_len p).
Definition set_inner f (p : simple_fwd_pkt_info) :=
  PktInfo (orig_port_id p) (pi_pipe_queue p) (rss_hash p) (outer p) (pi_tun_type p) (tun p) f (pi_len p).
Definition set_tun ty t (p : simple_fwd_pkt_info) :=
  PktInfo (orig_port_id p) (pi_pipe_queue p) (rss_hash p) (outer p) ty t (inner p) (pi_len p).
Definition set_origin port queue hash (p : simple_fwd_pkt_info) :=
  PktInfo port queue hash (outer p) (pi_tun_type p) (tun p) (inner p) (pi_len p).

(** ** Reading the packet *)

(** The [n]-byte integer at [off], as the (little-endian) host loads it. *)
Definition rd (data : list Z) (off : Z) (n : nat) : outcome Z :=
  let* _ := require ((0 <=? off) && (off + Z.of_nat n <=? Z.of_nat (length data))) OutOfBounds in
  Ret (load (Z.to_nat off) n data).

Definition rd_be16 (data : list Z) (off : Z) : outcome Z :=
  let* v := rd data off 2 in Ret (bswap 2 v).

(** ** The parser *)

(** The bytes of the layer-2 header, or the format the function fails with. *)
Definition parse_l2 (data : list Z) (base : Z) (fmt : simple_fwd_pkt_format)
    : outcome (Z + simple_fwd_pkt_format) :=
  let* ether_type := rd_be16 data (base + 12) in
  if ether_type =? RTE_ETHER_TYPE_IPV4 then Ret (inl 14)
  else if ether_type =? RTE_ETHER_TYPE_IPV6 then Ret (inr (set_f_l3_type IPV6 fmt))
  else if ether_type =? RTE_ETHER_TYPE_ARP then Ret (inr fmt)
  else Ret (inr fmt).

(** [switch (iphdr->next_proto_id)]: the transport header. *)
Definition parse_l4 (data : list Z) (base len l4_off next_proto_id : Z) (fmt : simple_fwd_pkt_format)
    : outcome (simple_fwd_pkt_format * Z) :=
  if next_proto_id =? DOCA_FLOW_PROTO_TCP then
    let* data_off := rd data (base + l4_off + 12) 1 in
    let l7_off := l4_off + Z.shiftr (Z.land data_off 0xf0) 2 in
    if len <? l7_off then Ret (fmt, -1)
    else Ret (set_f_l7 (base + l7_off) (set_f_l4_type DOCA_FLOW_PROTO_TCP fmt), 0)
  else if next_proto_id =? DOCA_FLOW_PROTO_UDP then
    let l7_off := l4_off + 8 in
    let fmt := set_f_l4_type DOCA_FLOW_PROTO_UDP fmt in
    if len <? l7_off then Ret (fmt, -1)
    else Ret (set_f_l7 (base + l7_off) fmt, 0)
  else if next_proto_id =? DOCA_FLOW_PROTO_GRE then Ret (set_f_l4_type DOCA_FLOW_PROTO_GRE fmt, 0)
  else if next_proto_id =? DOCA_FLOW_PROTO_ICMP then Ret (set_f_l4_type DOCA_FLOW_PROTO_ICMP fmt, 0)
  else Ret (fmt, -1).

Definition simple_fwd_parse_pkt_format (data : list Z) (base len : Z) (l2 : bool)
    (fmt : simple_fwd_pkt_format) : outcome (simple_fwd_pkt_format * Z) :=
  let fmt := set_f_l2 base fmt in
  let* r := if l2 then parse_l2 data base fmt else Ret (inl 0) in
  match r with
  | inr fmt => Ret (fmt, -1)
  | inl l3_off =>
      let* version_ihl := rd data (base + l3_off) 1 in
      if negb (Z.shiftr version_ihl 4 =? 4) then Ret (fmt, -1)
      else
        let* src_addr := rd data (base + l3_off + 12) 4 in
        if src_addr =? 0 then Ret (fmt, -1)
        else
          let* dst_addr := rd data (base + l3_off + 16) 4 in
          if dst_addr =? 0 then Ret (fmt, -1)
          else
            let fmt := set_f_l3_type IPV4 (set_f_l3 (base + l3_off) fmt) in
            let l4_off := l3_off + Z.land version_ihl 15 * 4 in
            let fmt := set_f_l4 (base + l4_off) fmt in
            let* next_proto_id := rd data (base + l3_off + 9) 1 in
            parse_l4 data base len l4_off next_proto_id fmt
  end.

(** GRE flags: checksum, key and sequence number present. *)
Definition gre_c (flags : Z) : bool := Z.testbit flags 7.
Definition gre_k (flags : Z) : bool := Z.testbit flags 5.
Definition gre_s (flags : Z) : bool := Z.testbit flags 4.

Definition parse_gre (data : list Z) (l4 : Z) (pinfo : simple_fwd_pkt_info)
    : outcome (simple_fwd_pkt_info * Z) :=
  let* flags := rd data l4 1 in
  if gre_c flags then Ret (pinfo, -1)
  else
    let* t :=
      if gre_k flags then
        let* key := rd data (l4 + 4) 4 in
        Ret (PktTun true (store 0 4 key (t_raw (tun pinfo))))
      else Ret (tun pinfo) in
    let optional_off := (if gre_k flags then 4 else 0) + (if gre_s flags then 4 else 0) in
    let* proto := rd data (l4 + 2) 2 in
    Ret (set_tun DOCA_FLOW_TUN_GRE (PktTun (t_l2 t) (store 4 2 proto (t_raw t))) pinfo, 4 + optional_off).

Definition parse_vxlan (data : list Z) (udp_data : Z) (pinfo : simple_fwd_pkt_info)
    : outcome (simple_fwd_pkt_info * Z) :=
  let* vx_flags := rd data udp_data 1 in
  let* pinfo :=
    if negb (Z.land vx_flags 0x08 =? 0) then
      let* vni := rd data (udp_data + 4) 4 in
      Ret (set_tun DOCA_FLOW_TUN_VXLAN (PktTun true (store 0 4 vni (t_raw (tun pinfo)))) pinfo)
    else Ret pinfo in
  Ret (pinfo, 8 + 8).

Definition parse_gtp (data : list Z) (udp_data : Z) (pinfo : simple_fwd_pkt_info)
    : outcome (simple_fwd_pkt_info * Z) :=
  let* teid := rd data (udp_data + 4) 4 in
  let* msg_type := rd data (udp_data + 1) 1 in
  let* gtp_hdr_info := rd data udp_data 1 in
  let t := PktTun false (store 1 1 gtp_hdr_info (store 0 1 msg_type (store 4 4 teid (t_raw (tun pinfo))))) in
  let off := 8 + 8 in
  let off := if negb (Z.land (t_gtp_flags t) 0x7 =? 0) then off + 4 else off in
  Ret (set_tun DOCA_FLOW_TUN_GTPU t pinfo, off).

Definition simple_fwd_parse_is_tun (data : list Z) (pinfo : simple_fwd_pkt_info)
    : outcome (simple_fwd_pkt_info * Z) :=
  if negb (f_l3_type (outer pinfo) =? IPV4) then Ret (pinfo, 0)
  else if f_l4_type (outer pinfo) =? DOCA_FLOW_PROTO_GRE then
    let* l4 := of_option NullDeref (f_l4 (outer pinfo)) in
    parse_gre data l4 pinfo
  else if f_l4_type (outer pinfo) =? DOCA_FLOW_PROTO_UDP then
    let* l4 := of_option NullDeref (f_l4 (outer pinfo)) in
    let udp_data := l4 + 8 in
    let* dst_port := rd_be16 data (l4 + 2) in
    if dst_port =? DOCA_FLOW_VXLAN_DEFAULT_PORT then parse_vxlan data udp_data pinfo
    else if dst_port =? DOCA_FLOW_GTPU_DEFAULT_PORT then parse_gtp data udp_data pinfo
    else Ret (pinfo, 0)
  else Ret (pinfo, 0).

(** The inner packet of a tunnel, [off] bytes after the outer layer 4. *)
Definition parse_inner (data : list Z) (len off : Z) (l2 : bool) (pinfo : simple_fwd_pkt_info)
    : outcome (simple_fwd_pkt_info * Z) :=
  let* l4 := of_option NullDeref (f_l4 (outer pinfo)) in
  let inner_off := l4 + off in
  let* (f, r) := simple_fwd_parse_pkt_format data inner_off (len - inner_off) l2 (inner pinfo) in
  Ret (set_inner f pinfo, if r =? 0 then 0 else -1).

Definition simple_fwd_parse_packet (data : list Z) (len : Z) (pinfo : simple_fwd_pkt_info)
    : outcome (simple_fwd_pkt_info * Z) :=
  let pinfo := set_pi_len len pinfo in
  let* (f, r) := simple_fwd_parse_pkt_format data 0 len true (outer pinfo) in
  let pinfo := set_outer f pinfo in
  if negb (r =? 0) then Ret (pinfo, -1)
  else
    let* (pinfo, off) := simple_fwd_parse_is_tun data pinfo in
    if bool_decide (pi_tun_type pinfo = DOCA_FLOW_TUN_NONE) || (off <? 0) then Ret (pinfo, 0)
    else
      match pi_tun_type pinfo with
      | DOCA_FLOW_TUN_GRE => parse_inner data len off false pinfo
      | DOCA_FLOW_TUN_VXLAN => parse_inner data len off (t_l2 (tun pinfo)) pinfo
      | DOCA_FLOW_TUN_GTPU => parse_inner data len off (t_l2 (tun pinfo)) pinfo
      | _ => Ret (pinfo, 0)
      end.

Definition simple_fwd_pinfo_decap (pinfo : simple_fwd_pkt_info) : simple_fwd_pkt_info :=
  match pi_tun_type pinfo with
  | DOCA_FLOW_TUN_VXLAN =>
      let o := outer pinfo in
      let i := inner pinfo in
      set_tun DOCA_FLOW_TUN_NONE (tun pinfo)
        (set_outer (PktFormat (f_l2 i) (f_l3 i) (f_l4 i) (f_l3_type o) (f_l4_type o) (f_l7 i)) pinfo)
  | _ => pinfo
  end.

(** ** Accessors *)

(** [n] bytes at [off] of the header a pointer designates. *)
Definition rd_ptr (data : list Z) (p : option Z) (off : Z) (n : nat) : outcome Z :=
  let* p := of_option NullDeref p in rd data (p + off) n.

Definition simple_fwd_pinfo_outer_ipv4_dst data pinfo : outcome Z := rd_ptr data (f_l3 (outer pinfo)) 16 4.
Definition simple_fwd_pinfo_outer_ipv4_src data pinfo : outcome Z := rd_ptr data (f_l3 (outer pinfo)) 12 4.
Definition simple_fwd_pinfo_inner_ipv4_dst data pinfo : outcome Z := rd_ptr data (f_l3 (inner pinfo)) 16 4.
Definition simple_fwd_pinfo_inner_ipv4_src data pinfo : outcome Z := rd_ptr data (f_l3 (inner pinfo)) 12 4.

Definition simple_fwd_pinfo_src_port (data : list Z) (fmt : simple_fwd_pkt_format) : outcome Z :=
  if f_l4_type fmt =? DOCA_FLOW_PROTO_TCP then rd_ptr data (f_l4 fmt) 0 2
  else if f_l4_type fmt =? DOCA_FLOW_PROTO_UDP then rd_ptr data (f_l4 fmt) 0 2
  else Ret 0.
Definition simple_fwd_pinfo_dst_port (data : list Z) (fmt : simple_fwd_pkt_format) : outcome Z :=
  if f_l4_type fmt =? DOCA_FLOW_PROTO_TCP then rd_ptr data (f_l4 fmt) 2 2
  else if f_l4_type fmt =? DOCA_FLOW_PROTO_UDP then rd_ptr data (f_l4 fmt) 2 2
  else Ret 0.

(** Six bytes of the Ethernet header. *)
Definition rd_mac (data : list Z) (p : option Z) (off : Z) : outcome (list Z) :=
  let* p := of_option NullDeref p in
  let* v := rd data (p + off) 6 in Ret (le_bytes 6 v).
Definition simple_fwd_pinfo_outer_mac_dst data pinfo : outcome (list Z) := rd_mac data (f_l2 (outer pinfo)) 0.
Definition simple_fwd_pinfo_outer_mac_src data pinfo : outcome (list Z) := rd_mac data (f_l2 (outer pinfo)) 6.

(** ** Flow keys *)

Record simple_fwd_ft_key : Type := FtKey {
  ipv4_1 : Z;
  ipv4_2 : Z;
  port_1 : Z;
  port_2 : Z;
  vni : Z;
  k_protocol : Z;
  k_tun_type : Z;
  port_id : Z;
  pad : Z;
  k_rss_hash : Z;
}.

(** The value of the enumeration. *)
Definition tun_code (t : doca_flow_tun_type) : Z :=
  match t with
  | DOCA_FLOW_TUN_NONE => 0 | DOCA_FLOW_TUN_VXLAN => 1 | DOCA_FLOW_TUN_GTPU => 2
  | DOCA_FLOW_TUN_GRE => 3 | DOCA_FLOW_TUN_ESP => 4 | DOCA_FLOW_TUN_MPLS_O_UDP => 5
  | DOCA_FLOW_TUN_GENEVE => 6 | DOCA_FLOW_TUN_PSP => 7 | DOCA_FLOW_TUN_MAX => 8
  end.

(** The key of the packet, filled into a zeroed structure; [None] is the error. *)
Definition simple_fwd_ft_key_fill (data : list Z) (pinfo : simple_fwd_pkt_info)
    : outcome (option simple_fwd_ft_key) :=
  let inner_pkt := negb (bool_decide (pi_tun_type pinfo = DOCA_FLOW_TUN_NONE)) in
  if negb (f_l3_type (outer pinfo) =? IPV4) then Ret None
  else
    let fmt := if inner_pkt then inner pinfo else outer pinfo in
    let* src := if inner_pkt then simple_fwd_pinfo_inner_ipv4_src data pinfo
                else simple_fwd_pinfo_outer_ipv4_src data pinfo in
    let* dst := if inner_pkt then simple_fwd_pinfo_inner_ipv4_dst data pinfo
                else simple_fwd_pinfo_outer_ipv4_dst data pinfo in
    let* sport := simple_fwd_pinfo_src_port data fmt in
    let* dport := simple_fwd_pinfo_dst_port data fmt in
    Ret (Some (FtKey src dst sport dport (if inner_pkt then t_vni (tun pinfo) else 0) (f_l4_type fmt)
                 (if inner_pkt then u8 (tun_code (pi_tun_type pinfo)) else 0) (orig_port_id pinfo) 0
                 (rss_hash pinfo))).

(** The 28 bytes of the structure. *)
Definition key_bytes (k : simple_fwd_ft_key) : list Z :=
  le_bytes 4 (ipv4_1 k) ++ le_bytes 4 (ipv4_2 k) ++ le_bytes 2 (port_1 k) ++ le_bytes 2 (port_2 k)
    ++ le_bytes 4 (vni k) ++ le_bytes 1 (k_protocol k) ++ le_bytes 1 (k_tun_type k)
    ++ le_bytes 2 (port_id k) ++ le_bytes 4 (pad k) ++ le_bytes 4 (k_rss_hash k).

(** [keyp[i]] of the key seen as an array of 64-bit words. *)
Definition keyp (k : simple_fwd_ft_key) (i : nat) : Z := load (8 * i) 8 (key_bytes k).

Definition simple_fwd_ft_key_equal (key1 key2 : simple_fwd_ft_key) : bool :=
  let r := Z.lxor (keyp key1 0) (keyp key2 0) in
  let r := Z.lor r (Z.lxor (keyp key1 1) (keyp key2 1)) in
  let r := Z.lor r (Z.lxor (keyp key1 2) (keyp key2 2)) in
  r =? 0.

(** ** The match of a flow's entry *)

Definition simple_fwd_l3_type_transfer (pkt_l4_type : Z) : doca_flow_l4_type_ext :=
  if pkt_l4_type =? DOCA_FLOW_PROTO_TCP then DOCA_FLOW_L4_TYPE_EXT_TCP
  else if pkt_l4_type =? DOCA_FLOW_PROTO_UDP then DOCA_FLOW_L4_TYPE_EXT_UDP
  else DOCA_FLOW_L4_TYPE_EXT_NONE.

Definition SET_L4_SRC_PORT (v : Z) (h : doca_flow_header_format) : doca_flow_header_format :=
  match l4_type_ext h with
  | DOCA_FLOW_L4_TYPE_EXT_TCP => set_tcp_src_port v h
  | DOCA_FLOW_L4_TYPE_EXT_UDP => set_udp_src_port v h
  | _ => h
  end.
Definition SET_L4_DST_PORT (v : Z) (h : doca_flow_header_format) : doca_flow_header_format :=
  match l4_type_ext h with
  | DOCA_FLOW_L4_TYPE_EXT_TCP => set_tcp_dst_port v h
  | DOCA_FLOW_L4_TYPE_EXT_UDP => set_udp_dst_port v h
  | _ => h
  end.

Definition simple_fwd_match_set_tun (pinfo : simple_fwd_pkt_info) (m : doca_flow_match) : doca_flow_match :=
  match pi_tun_type pinfo with
  | DOCA_FLOW_TUN_NONE => m
  | ty =>
      let m := on_match_tun (set_tun_type ty) m in
      match ty with
      | DOCA_FLOW_TUN_VXLAN => on_match_tun (set_vxlan_tun_id (t_vni (tun pinfo))) m
      | DOCA_FLOW_TUN_GRE => on_match_tun (set_gre_key (t_gre_key (tun pinfo))) m
      | DOCA_FLOW_TUN_GTPU => on_match_tun (set_gtp_teid (t_teid (tun pinfo))) m
      | _ => m
      end
  end.

(** The addresses, the transport and its ports of one header. *)
Definition set_five_tuple (dst src : Z) (l4_type sport dport : Z) (h : doca_flow_header_format)
    : doca_flow_header_format :=
  let h := set_l3_type DOCA_FLOW_L3_TYPE_IP4 h in
  let h := set_ip4_src_ip src (set_ip4_dst_ip dst h) in
  let h := set_l4_type_ext (simple_fwd_l3_type_transfer l4_type) h in
  SET_L4_DST_PORT dport (SET_L4_SRC_PORT sport h).

Definition simple_fwd_build_entry_match (data : list Z) (pinfo : simple_fwd_pkt_info)
    : outcome doca_flow_match :=
  let* dmac := simple_fwd_pinfo_outer_mac_dst data pinfo in
  let* smac := simple_fwd_pinfo_outer_mac_src data pinfo in
  let m := on_outer (fun h => set_src_mac smac (set_dst_mac dmac h)) match_zero in
  let* dst := simple_fwd_pinfo_outer_ipv4_dst data pinfo in
  let* src := simple_fwd_pinfo_outer_ipv4_src data pinfo in
  let* sport := simple_fwd_pinfo_src_port data (outer pinfo) in
  let* dport := simple_fwd_pinfo_dst_port data (outer pinfo) in
  let m := on_outer (set_five_tuple dst src (f_l4_type (outer pinfo)) sport dport) m in
  if bool_decide (pi_tun_type pinfo = DOCA_FLOW_TUN_NONE) then Ret m
  else
    let m := simple_fwd_match_set_tun pinfo m in
    let* dst := simple_fwd_pinfo_inner_ipv4_dst data pinfo in
    let* src := simple_fwd_pinfo_inner_ipv4_src data pinfo in
    let* sport := simple_fwd_pinfo_src_port data (inner pinfo) in
    let* dport := simple_fwd_pinfo_dst_port data (inner pinfo) in
    Ret (on_inner (set_five_tuple dst src (f_l4_type (inner pinfo)) sport dport) m).

(** ** Key comparison *)

Record key_wf (k : simple_fwd_ft_key) : Prop := {
  kw_ipv4_1 : in_width 32 (ipv4_1 k);
  kw_ipv4_2 : in_width 32 (ipv4_2 k);
  kw_port_1 : in_width 16 (port_1 k);
  kw_port_2 : in_width 16 (port_2 k);
  kw_vni : in_width 32 (vni k);
  kw_protocol : in_width 8 (k_protocol k);
  kw_tun_type : in_width 8 (k_tun_type k);
  kw_port_id : in_width 16 (port_id k);
  kw_pad : pad k = 0;
}.

(** What identifies a flow: everything but the hash. *)
Definition flow_id (k : simple_fwd_ft_key) : simple_fwd_ft_key :=
  FtKey (ipv4_1 k) (ipv4_2 k) (port_1 k) (port_2 k) (vni k) (k_protocol k) (k_tun_type k) (port_id k)
    (pad k) 0.

Lemma lxor_lor_zero a b c d e f :
  Z.lor (Z.lor (Z.lxor a b) (Z.lxor c d)) (Z.lxor e f) = 0 <-> a = b /\ c = d /\ e = f.
Proof. rewrite !Z.lor_eq_0_iff, !Z.lxor_eq_0_iff. tauto. Qed.

Lemma key_bytes_prefix k :
  take 24 (key_bytes k) = take 8 (drop 0 (key_bytes k)) ++ take 8 (drop 8 (key_bytes k))
    ++ take 8 (drop 16 (key_bytes k)).
Proof. reflexivity. Qed.

Lemma key_bytes_width k : Forall (in_width 8) (key_bytes k).
Proof. unfold key_bytes. rewrite !Forall_app. split_and!; apply le_bytes_range. Qed.

(** The comparison is that of the first 24 bytes. *)
Lemma key_equal_bytes k1 k2 :
  simple_fwd_ft_key_equal k1 k2 = true <-> take 24 (key_bytes k1) = take 24 (key_bytes k2).
Proof.
  assert (forall i, (i <= 2)%nat -> keyp k1 i = keyp k2 i <->
    take 8 (drop (8 * i) (key_bytes k1)) = take 8 (drop (8 * i) (key_bytes k2))) as Hw.
  { intros i Hi. unfold keyp. rewrite !load_unfold. split; [|by intros ->].
    apply le_value_inj; [apply Forall_take, Forall_drop, key_bytes_width..|].
    do 3 (destruct i as [|i]; [reflexivity|]). lia. }
  unfold simple_fwd_ft_key_equal. rewrite Z.eqb_eq, lxor_lor_zero, !Hw by lia.
  rewrite !key_bytes_prefix. change (8 * 0)%nat with 0%nat. change (8 * 1)%nat with 8%nat.
  change (8 * 2)%nat with 16%nat. split.
  - intros (-> & -> & ->). done.
  - intros [H1 [H2 H3]%app_inj_1]%app_inj_1; done.
Qed.

Lemma le_bytes_inj n w a b :
  w = 8 * Z.of_nat n -> in_width w a -> in_width w b -> le_bytes n a = le_bytes n b -> a = b.
Proof.
  intros -> Ha Hb H%(f_equal le_value). rewrite !le_value_le_bytes in H.
  by rewrite !Z.mod_small in H.
Qed.

(** Two well-formed keys compare equal exactly when they identify the same flow. *)
Lemma key_equal_flow k1 k2 :
  key_wf k1 -> key_wf k2 -> simple_fwd_ft_key_equal k1 k2 = true <-> flow_id k1 = flow_id k2.
Proof.
  intros W1 W2. rewrite key_equal_bytes. destruct k1, k2. unfold flow_id.
  cbn [ipv4_1 ipv4_2 port_1 port_2 vni k_protocol k_tun_type port_id pad]. split.
  - intros H. destruct W1, W2;
      cbn [ipv4_1 ipv4_2 port_1 port_2 vni k_protocol k_tun_type port_id pad] in *. subst.
    change (take 24 (key_bytes ?k)) with (le_bytes 4 (ipv4_1 k) ++ le_bytes 4 (ipv4_2 k)
      ++ le_bytes 2 (port_1 k) ++ le_bytes 2 (port_2 k) ++ le_bytes 4 (vni k) ++ le_bytes 1 (k_protocol k)
      ++ le_bytes 1 (k_tun_type k) ++ le_bytes 2 (port_id k) ++ le_bytes 4 (pad k)) in H.
    cbn [ipv4_1 ipv4_2 port_1 port_2 vni k_protocol k_tun_type port_id pad] in H.
    repeat (apply app_inj_1 in H as [? H]; [|by rewrite !length_le_bytes]).
    f_equal; (eapply le_bytes_inj; cycle 1; [eassumption..|reflexivity]).
  - intros [= -> -> -> -> -> -> -> -> ->]. reflexivity.
Qed.

(** ** Memory safety *)

Lemma rd_defined data off n :
  0 <= off -> off + Z.of_nat n <= Z.of_nat (length data) ->
  rd data off n = Ret (load (Z.to_nat off) n data).
Proof.
  intros H1 H2. unfold rd. rewrite (proj2 (Z.leb_le _ _) H1), (proj2 (Z.leb_le _ _) H2). done.
Qed.

Lemma load_range off n data :
  Forall (in_width 8) data -> 0 <= load off n data < 2 ^ (8 * Z.of_nat n).
Proof.
  intros Hb. rewrite load_unfold.
  pose proof (le_value_range _ (Forall_take _ n _ (Forall_drop _ off _ Hb))) as [H1 H2]. split; [done|].
  eapply Z.lt_le_trans; [exact H2|]. apply Z.pow_le_mono_r; [lia|]. rewrite length_take. lia.
Qed.

Lemma land_15 x : 0 <= Z.land x 15 <= 15.
Proof.
  pose proof (Z.land_ones x 4 ltac:(lia)) as E. change (Z.ones 4) with 15 in E. rewrite E.
  pose proof (Z.mod_pos_bound x (2 ^ 4)). lia.
Qed.

(** A format the parser accepted: the headers start inside the 74 bytes after [base]. *)
Record fmt_ok (base : Z) (f : simple_fwd_pkt_format) : Prop := {
  fo_l2 : f_l2 f = Some base;
  fo_l3 : exists p, f_l3 f = Some p /\ base <= p <= base + 14;
  fo_l4 : exists p, f_l4 f = Some p /\ base <= p <= base + 74;
  fo_l3_type : f_l3_type f = IPV4;
  fo_l4_type : f_l4_type f ∈ [DOCA_FLOW_PROTO_TCP; DOCA_FLOW_PROTO_UDP; DOCA_FLOW_PROTO_GRE; DOCA_FLOW_PROTO_ICMP];
}.

Lemma parse_l4_safe data base len l4_off proto fmt :
  0 <= base -> 0 <= l4_off <= 74 -> base + 94 <= Z.of_nat (length data) ->
  f_l2 fmt = Some base -> (exists p, f_l3 fmt = Some p /\ base <= p <= base + 14) ->
  f_l4 fmt = Some (base + l4_off) -> f_l3_type fmt = IPV4 ->
  exists f r, parse_l4 data base len l4_off proto fmt = Ret (f, r)
    /\ (r = 0 \/ r = -1) /\ (r = 0 -> fmt_ok base f).
Proof.
  intros Hb Ho Hl H2 H3 H4 Ht. unfold parse_l4.
  assert (forall g, f_l2 g = f_l2 fmt -> f_l3 g = f_l3 fmt -> f_l4 g = f_l4 fmt -> f_l3_type g = f_l3_type fmt ->
    f_l4_type g ∈ [DOCA_FLOW_PROTO_TCP; DOCA_FLOW_PROTO_UDP; DOCA_FLOW_PROTO_GRE; DOCA_FLOW_PROTO_ICMP] ->
    fmt_ok base g) as Hok.
  { intros g E2 E3 E4 E5 E6. split; [congruence|by rewrite E3| |congruence|done].
    rewrite E4, H4. eexists. split; [done|lia]. }
  rewrite rd_defined by lia.
  repeat case_if; eexists _, _; (split; [reflexivity|]); (split; [by auto|]);
    intros E; try discriminate E; apply Hok; try done;
    rewrite !elem_of_cons; cbn; auto.
Qed.

Lemma parse_pkt_format_safe data base len l2 fmt :
  0 <= base -> base + 94 <= Z.of_nat (length data) ->
  exists f r, simple_fwd_parse_pkt_format data base len l2 fmt = Ret (f, r)
    /\ (r = 0 \/ r = -1) /\ (r = 0 -> fmt_ok base f).
Proof.
  intros Hb Hl. unfold simple_fwd_parse_pkt_format.
  assert (exists x, (if l2 then parse_l2 data base (set_f_l2 base fmt) else Ret (inl 0)) = Ret x
    /\ match x with inl o => 0 <= o <= 14 | inr _ => True end) as (x & -> & Hx).
  { destruct l2; [|by exists (inl 0)]. unfold parse_l2, rd_be16. rewrite rd_defined by lia.
    repeat case_if; eexists; (split; [reflexivity|]); cbn; lia || done. }
  destruct x as [o|f]; [|by eexists _, _; split; [reflexivity|]; split; [auto|]].
  rewrite !rd_defined by lia. set (v := load _ 1 data). pose proof (land_15 v) as Hv.
  repeat (case_if; [by eexists _, _; split; [reflexivity|]; split; [auto|]|]).
  apply parse_l4_safe; cbn; try done; try lia. eexists. split; [done|lia].
Qed.

(** The tunnel header: at most 20 bytes, and nothing of the outer packet changes. *)
Lemma parse_is_tun_safe data pinfo :
  fmt_ok 0 (outer pinfo) -> 94 <= Z.of_nat (length data) -> pi_tun_type pinfo = DOCA_FLOW_TUN_NONE ->
  exists p off, simple_fwd_parse_is_tun data pinfo = Ret (p, off)
    /\ outer p = outer pinfo /\ inner p = inner pinfo /\ off <= 20
    /\ (off < 0 -> p = pinfo)
    /\ pi_tun_type p ∈ [DOCA_FLOW_TUN_NONE; DOCA_FLOW_TUN_VXLAN; DOCA_FLOW_TUN_GTPU; DOCA_FLOW_TUN_GRE].
Proof.
  intros [_ _ (p & Hp & Hr) H3 _] Hl Hn. unfold simple_fwd_parse_is_tun. rewrite H3, Hp. cbn [of_option].
  assert (DOCA_FLOW_TUN_NONE ∈ [DOCA_FLOW_TUN_NONE; DOCA_FLOW_TUN_VXLAN; DOCA_FLOW_TUN_GTPU; DOCA_FLOW_TUN_GRE])
    as Hin by (rewrite !elem_of_cons; auto).
  unfold parse_gre, parse_vxlan, parse_gtp, rd_be16. rewrite !rd_defined by lia.
  repeat case_if; try discriminate; eexists _, _; (split; [reflexivity|]);
    cbn [set_tun outer inner pi_tun_type]; rewrite ?Hn;
    (split_and!; [done|done|lia|lia || done|rewrite !elem_of_cons; auto]).
Qed.

(** What a successful parse of a zeroed structure leaves. *)
Record pinfo_ok (p : simple_fwd_pkt_info) : Prop := {
  po_outer : fmt_ok 0 (outer p);
  po_tun : pi_tun_type p ∈ [DOCA_FLOW_TUN_NONE; DOCA_FLOW_TUN_VXLAN; DOCA_FLOW_TUN_GTPU; DOCA_FLOW_TUN_GRE];
  po_inner : pi_tun_type p <> DOCA_FLOW_TUN_NONE -> exists base, 0 <= base <= 94 /\ fmt_ok base (inner p);
}.

Lemma parse_packet_ok data len :
  188 <= Z.of_nat (length data) ->
  exists p r, simple_fwd_parse_packet data len pinfo_zero = Ret (p, r)
    /\ (r = 0 \/ r = -1) /\ (r = 0 -> pinfo_ok p).
Proof.
  intros Hl. unfold simple_fwd_parse_packet.
  destruct (parse_pkt_format_safe data 0 len true (outer (set_pi_len len pinfo_zero))) as (f & r & -> & Hr & Hok);
    [lia..|].
  destruct Hr as [-> | ->]; cbn [Z.eqb negb]; [|by eexists _, _; split; [reflexivity|]; split; [auto|]].
  destruct (parse_is_tun_safe data (set_outer f (set_pi_len len pinfo_zero)))
    as (p & off & -> & Ho & Hi & Hoff & Hneg & Ht); [by apply Hok|lia|done|].
  destruct (Hok eq_refl) as [Hf2 Hf3 Hf4 Hf5 Hf6] eqn:E. clear E. destruct Hf4 as (l4 & Hl4 & Hb).
  cbn [set_outer outer] in Ho. assert (fmt_ok 0 (outer p)) as Hout by (rewrite Ho; by apply Hok).
  case_bool_decide as Hn; cbn [orb].
  { eexists _, _. split; [reflexivity|]. split; [auto|]. intros _. by split; [done|done|rewrite Hn]. }
  destruct (Z.ltb_spec off 0) as [Hlt|Hge].
  { exfalso. apply Hn. by rewrite (Hneg Hlt). }
  assert (forall l2, exists p' r, parse_inner data len off l2 p = Ret (p', r)
    /\ (r = 0 \/ r = -1) /\ (r = 0 -> pinfo_ok p')) as Hin.
  { intros l2. unfold parse_inner. rewrite Ho, Hl4. cbn [of_option].
    destruct (parse_pkt_format_safe data (l4 + off) (len - (l4 + off)) l2 (inner p)) as (g & r & -> & Hr & Hg);
      [lia..|].
    eexists _, _. split; [reflexivity|]. destruct Hr as [-> | ->]; cbn; (split; [auto|]); [|done].
    intros _. split; [done|done|]. intros _. exists (l4 + off). split; [lia|by apply Hg]. }
  rewrite !elem_of_cons, elem_of_nil in Ht.
  destruct Ht as [E|[E|[E|[E|[]]]]]; rewrite E; [by destruct Hn|apply Hin..].
Qed.

(** The 5-tuple of a parsed header. *)
Definition ft_src (data : list Z) (f : simple_fwd_pkt_format) : Z :=
  load (Z.to_nat (default 0 (f_l3 f) + 12)) 4 data.
Definition ft_dst (data : list Z) (f : simple_fwd_pkt_format) : Z :=
  load (Z.to_nat (default 0 (f_l3 f) + 16)) 4 data.
Definition has_ports (f : simple_fwd_pkt_format) : bool :=
  (f_l4_type f =? DOCA_FLOW_PROTO_TCP) || (f_l4_type f =? DOCA_FLOW_PROTO_UDP).
Definition ft_sport (data : list Z) (f : simple_fwd_pkt_format) : Z :=
  if has_ports f then load (Z.to_nat (default 0 (f_l4 f))) 2 data else 0.
Definition ft_dport (data : list Z) (f : simple_fwd_pkt_format) : Z :=
  if has_ports f then load (Z.to_nat (default 0 (f_l4 f) + 2)) 2 data else 0.

Lemma fmt_reads data base f :
  fmt_ok base f -> 0 <= base -> base + 94 <= Z.of_nat (length data) ->
  rd_ptr data (f_l3 f) 12 4 = Ret (ft_src data f) /\ rd_ptr data (f_l3 f) 16 4 = Ret (ft_dst data f)
  /\ simple_fwd_pinfo_src_port data f = Ret (ft_sport data f)
  /\ simple_fwd_pinfo_dst_port data f = Ret (ft_dport data f).
Proof.
  intros [_ (p3 & H3 & B3) (p4 & H4 & B4) _ _] Hb Hl.
  unfold simple_fwd_pinfo_src_port, simple_fwd_pinfo_dst_port, ft_src, ft_dst, ft_sport, ft_dport, has_ports, rd_ptr.
  rewrite H3, H4. cbn [of_option default id]. rewrite !rd_defined by lia. rewrite Z.add_0_r.
  split_and!; try done; by destruct (f_l4_type f =? DOCA_FLOW_PROTO_TCP), (f_l4_type f =? DOCA_FLOW_PROTO_UDP).
Qed.

(** The header a flow is identified by: the innermost one. *)
Definition flow_fmt (p : simple_fwd_pkt_info) : simple_fwd_pkt_format :=
  if bool_decide (pi_tun_type p = DOCA_FLOW_TUN_NONE) then outer p else inner p.

Definition pkt_key (data : list Z) (p : simple_fwd_pkt_info) : simple_fwd_ft_key :=
  let f := flow_fmt p in
  let tunnelled := negb (bool_decide (pi_tun_type p = DOCA_FLOW_TUN_NONE)) in
  FtKey (ft_src data f) (ft_dst data f) (ft_sport data f) (ft_dport data f)
    (if tunnelled then t_vni (tun p) else 0) (f_l4_type f)
    (if tunnelled then tun_code (pi_tun_type p) else 0) (orig_port_id p) 0 (rss_hash p).

Lemma flow_fmt_ok p : pinfo_ok p -> exists base, 0 <= base <= 94 /\ fmt_ok base (flow_fmt p).
Proof.
  intros [Ho _ Hi]. unfold flow_fmt. case_bool_decide; [|by apply Hi]. exists 0. split; [lia|done].
Qed.

Lemma key_fill_ok data p :
  pinfo_ok p -> 188 <= Z.of_nat (length data) ->
  simple_fwd_ft_key_fill data p = Ret (Some (pkt_key data p)).
Proof.
  intros Hp Hl. destruct (flow_fmt_ok p Hp) as (base & Hb & Hf).
  destruct (fmt_reads data base _ Hf) as (E1 & E2 & E3 & E4); [lia..|].
  unfold simple_fwd_ft_key_fill, pkt_key. rewrite (fo_l3_type _ _ (po_outer _ Hp)).
  unfold simple_fwd_pinfo_inner_ipv4_src, simple_fwd_pinfo_inner_ipv4_dst,
    simple_fwd_pinfo_outer_ipv4_src, simple_fwd_pinfo_outer_ipv4_dst.
  unfold flow_fmt in *. case_bool_decide; cbn [negb] in *; rewrite E1, E2, E3, E4; [done|].
  pose proof (po_tun _ Hp) as Ht. rewrite !elem_of_cons, elem_of_nil in Ht.
  by destruct Ht as [E|[E|[E|[E|[]]]]]; rewrite E.
Qed.

(** The match of a header: its addresses, its transport and, where it has them, its ports. *)
Definition header_matches (data : list Z) (f : simple_fwd_pkt_format) (h : doca_flow_header_format) : Prop :=
  l3_type h = DOCA_FLOW_L3_TYPE_IP4 /\ ip4_src_ip h = ft_src data f /\ ip4_dst_ip h = ft_dst data f
  /\ l4_type_ext h = simple_fwd_l3_type_transfer (f_l4_type f)
  /\ l4_src_port h = ft_sport data f /\ l4_dst_port h = ft_dport data f.

Lemma ft_widths data f :
  Forall (in_width 8) data ->
  in_width 32 (ft_src data f) /\ in_width 32 (ft_dst data f)
  /\ in_width 16 (ft_sport data f) /\ in_width 16 (ft_dport data f).
Proof.
  intros Hb. unfold ft_sport, ft_dport. destruct (has_ports f);
    refine (conj _ (conj _ (conj _ _))); first [exact (load_range _ _ _ Hb) | split; lia].
Qed.

Lemma set_five_tuple_matches data f h :
  Forall (in_width 8) data -> header_wf h -> l4_src_port h = 0 -> l4_dst_port h = 0 ->
  header_matches data f
    (set_five_tuple (ft_dst data f) (ft_src data f) (f_l4_type f) (ft_sport data f) (ft_dport data f) h).
Proof.
  intros Hb [_ _ _ H3 H4] Hs Hd. destruct (ft_widths data f Hb) as (W1 & W2 & W3 & W4).
  unfold header_matches, set_five_tuple, ip4_src_ip, ip4_dst_ip, l4_src_port, l4_dst_port,
    SET_L4_SRC_PORT, SET_L4_DST_PORT, simple_fwd_l3_type_transfer in *.
  assert (has_ports f = (f_l4_type f =? DOCA_FLOW_PROTO_TCP) || (f_l4_type f =? DOCA_FLOW_PROTO_UDP)) as Hp by done.
  assert (has_ports f = false -> ft_sport data f = 0 /\ ft_dport data f = 0) as Hn
    by (unfold ft_sport, ft_dport; by intros ->).
  destruct (f_l4_type f =? DOCA_FLOW_PROTO_TCP), (f_l4_type f =? DOCA_FLOW_PROTO_UDP);
    cbn -[Z.pow in_width]; split_and!; try done;
    rewrite ?load_store_eq, ?(load_store_ne 0 4 4 4), ?(load_store_ne 2 2 0 2), ?load_store_eq
      by (rewrite ?length_store; lia);
    rewrite ?Z.mod_small by (assumption || lia); try done;
    destruct (Hn Hp) as [Hn1 Hn2]; by rewrite ?Hn1, ?Hn2.
Qed.

(** The tunnel's identifier in the match. *)
Definition tunnel_matches (p : simple_fwd_pkt_info) (t : doca_flow_tun) : Prop :=
  tun_type t = pi_tun_type p /\
  match pi_tun_type p with
  | DOCA_FLOW_TUN_VXLAN => vxlan_tun_id t = t_vni (tun p)
  | DOCA_FLOW_TUN_GRE => gre_key t = t_gre_key (tun p)
  | DOCA_FLOW_TUN_GTPU => gtp_teid t = t_teid (tun p)
  | _ => True
  end.

Definition raw_ok (p : simple_fwd_pkt_info) : Prop :=
  length (t_raw (tun p)) = 8%nat /\ Forall (in_width 8) (t_raw (tun p)).

Lemma match_set_tun_matches p m :
  raw_ok p -> tun_wf (match_tun m) -> pi_tun_type p <> DOCA_FLOW_TUN_NONE ->
  tunnel_matches p (match_tun (simple_fwd_match_set_tun p m)).
Proof.
  intros [_ Hr] Hw Hn. unfold tunnel_matches, simple_fwd_match_set_tun, t_vni, t_gre_key, t_teid,
    vxlan_tun_id, gre_key, gtp_teid.
  destruct (pi_tun_type p); cbn -[Z.pow in_width]; try done; (split; [done|]);
    rewrite load_store_eq by (unfold tun_wf in Hw; lia); apply Z.mod_small, (load_range _ _ _ Hr).
Qed.

Lemma store_bytes off n v raw : Forall (in_width 8) raw -> Forall (in_width 8) (store off n v raw).
Proof.
  intros Hr. rewrite store_unfold, !Forall_app.
  split_and!; [by apply Forall_take|apply le_bytes_range|by apply Forall_drop].
Qed.

Lemma raw_store off n v l2 ty p :
  raw_ok p -> (off + n <= 8)%nat -> raw_ok (set_tun ty (PktTun l2 (store off n v (t_raw (tun p)))) p).
Proof.
  intros [Hl Hr] Hn. split; cbn; [rewrite length_store; lia|by apply store_bytes].
Qed.

Lemma parse_gre_raw data l4 q p off : parse_gre data l4 q = Ret (p, off) -> raw_ok q -> raw_ok p.
Proof.
  unfold parse_gre. intros E Hq. obind E. case_if_in E; [by inv_ret|]. obind E.
  assert (raw_ok (set_tun DOCA_FLOW_TUN_GRE a0 q)) as H0.
  { case_if_in E1; [|by inv_ret]. obind E1. inv_ret. apply raw_store; [done|lia]. }
  obind E. inv_ret. apply (raw_store 4 2 a1 (t_l2 a0) DOCA_FLOW_TUN_GRE _) in H0; [exact H0|lia].
Qed.

Lemma parse_vxlan_raw data d q p off : parse_vxlan data d q = Ret (p, off) -> raw_ok q -> raw_ok p.
Proof.
  unfold parse_vxlan. intros E Hq. obind E. obind E. inv_ret. case_if_in E1; [|by inv_ret].
  obind E1. inv_ret. apply raw_store; [done|lia].
Qed.

Lemma parse_gtp_raw data d q p off : parse_gtp data d q = Ret (p, off) -> raw_ok q -> raw_ok p.
Proof.
  unfold parse_gtp. intros E Hq. obind E. obind E. obind E. inv_ret.
  apply (raw_store 4 4 a false DOCA_FLOW_TUN_GTPU) in Hq; [|lia].
  apply (raw_store 0 1 a0 false DOCA_FLOW_TUN_GTPU) in Hq; [|lia].
  apply (raw_store 1 1 a1 false DOCA_FLOW_TUN_GTPU) in Hq; [|lia]. exact Hq.
Qed.

Lemma parse_raw_ok data len p r :
  simple_fwd_parse_packet data len pinfo_zero = Ret (p, r) -> raw_ok p.
Proof.
  intros E. unfold simple_fwd_parse_packet in E. obind E. destruct a as [f r0].
  assert (raw_ok (set_outer f (set_pi_len len pinfo_zero))) as H0
    by (split; [done|cbn; repeat constructor; lia]).
  destruct (negb (r0 =? 0)); [by inv_ret|]. set (q := set_outer f _) in *. clearbody q.
  obind E. destruct a as [p' off].
  assert (raw_ok p') as H1.
  { unfold simple_fwd_parse_is_tun in E1. repeat (case_if_in E1; try by inv_ret); obind E1;
      [by eapply parse_gre_raw|]. obind E1. repeat case_if_in E1;
      [by eapply parse_vxlan_raw|by eapply parse_gtp_raw|by inv_ret]. }
  destruct (_ || _); [by inv_ret|].
  assert (forall l2, parse_inner data len off l2 p' = Ret (p, r) -> raw_ok p) as Hin.
  { intros l2 E2. unfold parse_inner in E2. obind E2. obind E2. destruct a0. by inv_ret. }
  destruct (pi_tun_type p'); try (by inv_ret); by eapply Hin.
Qed.

Lemma pkt_key_wf data p :
  Forall (in_width 8) data -> pinfo_ok p -> raw_ok p -> in_width 16 (orig_port_id p) -> key_wf (pkt_key data p).
Proof.
  intros Hb Hp [_ Hr] Hport. destruct (flow_fmt_ok p Hp) as (base & _ & [_ _ _ _ Ht]).
  destruct (ft_widths data (flow_fmt p) Hb) as (W1 & W2 & W3 & W4).
  apply Build_key_wf; cbn [pkt_key ipv4_1 ipv4_2 port_1 port_2 vni k_protocol k_tun_type port_id pad]; try done.
  - case_bool_decide; cbn [negb]; [by split|]. exact (load_range _ _ _ Hr).
  - rewrite !elem_of_cons, elem_of_nil in Ht. by destruct Ht as [->|[->|[->|[->|[]]]]].
  - case_bool_decide; cbn [negb]; [by split|]. by destruct (pi_tun_type p).
Qed.

Lemma build_entry_match_ok data p :
  Forall (in_width 8) data -> 188 <= Z.of_nat (length data) -> pinfo_ok p -> raw_ok p ->
  exists m, simple_fwd_build_entry_match data p = Ret m
    /\ header_matches data (outer p) (FlowTypes.outer m)
    /\ (pi_tun_type p <> DOCA_FLOW_TUN_NONE ->
        tunnel_matches p (match_tun m) /\ header_matches data (inner p) (FlowTypes.inner m)).
Proof.
  intros Hb Hl Hp Hr. pose proof Hp as [Ho _ Hi].
  destruct (fmt_reads data 0 (outer p) Ho) as (E1 & E2 & E3 & E4); [lia..|].
  unfold simple_fwd_build_entry_match, simple_fwd_pinfo_outer_mac_dst, simple_fwd_pinfo_outer_mac_src, rd_mac.
  rewrite (fo_l2 _ _ Ho). cbn [of_option]. rewrite !rd_defined by lia.
  unfold simple_fwd_pinfo_outer_ipv4_dst, simple_fwd_pinfo_outer_ipv4_src,
    simple_fwd_pinfo_inner_ipv4_dst, simple_fwd_pinfo_inner_ipv4_src.
  rewrite E1, E2, E3, E4.
  match goal with |- context [fun h => set_src_mac ?a (set_dst_mac ?b h)] =>
    set (h := set_src_mac a (set_dst_mac b header_zero)) end.
  assert (header_wf h /\ l4_src_port h = 0 /\ l4_dst_port h = 0) as (Hh & Hs & Hd).
  { split_and!; [|vm_compute; reflexivity..]. apply set_src_mac_wf; [|by rewrite length_le_bytes].
    apply set_dst_mac_wf; [apply header_zero_wf|by rewrite length_le_bytes]. }
  pose proof (set_five_tuple_matches data (outer p) h Hb Hh Hs Hd) as Hout.
  case_bool_decide as Hn; [by eexists; split; [reflexivity|]; split|].
  destruct (Hi Hn) as (base & Hbase & Hf).
  destruct (fmt_reads data base (inner p) Hf) as (I1 & I2 & I3 & I4); [lia..|]. rewrite I1, I2, I3, I4.
  eexists. split; [reflexivity|].
  assert (forall m, FlowTypes.outer (simple_fwd_match_set_tun p m) = FlowTypes.outer m
    /\ FlowTypes.inner (simple_fwd_match_set_tun p m) = FlowTypes.inner m) as Hk
    by (intros m; unfold simple_fwd_match_set_tun; by destruct (pi_tun_type p)).
  cbn [on_inner FlowTypes.outer FlowTypes.inner match_tun]. rewrite !(proj1 (Hk _)), !(proj2 (Hk _)).
  split; [exact Hout|]. intros _. split; [by apply match_set_tun_matches|].
  apply set_five_tuple_matches; [done|apply header_zero_wf|vm_compute; reflexivity..].
Qed.

(** The header of the match that describes the flow: the inner one of a tunnelled packet. *)
Definition flow_header (p : simple_fwd_pkt_info) (m : doca_flow_match) : doca_flow_header_format :=
  if bool_decide (pi_tun_type p = DOCA_FLOW_TUN_NONE) then FlowTypes.outer m else FlowTypes.inner m.

(** A key and a match agree on the flow: addresses, ports, transport and tunnel; on the
    tunnel's number too, except for GTP-U, where the key does not hold it. *)
Record key_matches (p : simple_fwd_pkt_info) (k : simple_fwd_ft_key) (m : doca_flow_match) : Prop := {
  km_src : ipv4_1 k = ip4_src_ip (flow_header p m);
  km_dst : ipv4_2 k = ip4_dst_ip (flow_header p m);
  km_sport : port_1 k = l4_src_port (flow_header p m);
  km_dport : port_2 k = l4_dst_port (flow_header p m);
  km_transport : l4_type_ext (flow_header p m) = simple_fwd_l3_type_transfer (k_protocol k);
  km_tunnel : k_tun_type k = tun_code (pi_tun_type p);
  km_number : match pi_tun_type p with
              | DOCA_FLOW_TUN_NONE => vni k = 0
              | DOCA_FLOW_TUN_VXLAN => vni k = vxlan_tun_id (match_tun m)
              | DOCA_FLOW_TUN_GRE => vni k = gre_key (match_tun m)
              | _ => True
              end;
  km_port : port_id k = orig_port_id p;
}.

Lemma pkt_key_matches data p m :
  header_matches data (flow_fmt p) (flow_header p m) ->
  (pi_tun_type p <> DOCA_FLOW_TUN_NONE -> tunnel_matches p (match_tun m)) -> key_matches p (pkt_key data p) m.
Proof.
  intros (_ & H1 & H2 & H3 & H4 & H5) Ht. unfold tunnel_matches in Ht. split; cbn; try congruence.
  - case_bool_decide as E; [by rewrite E|done].
  - destruct (pi_tun_type p) eqn:E; try done; by rewrite (proj2 (Ht ltac:(done))).
Qed.

(** C29: Whatever bytes arrive and whatever length is reported, the parser stays inside
    a buffer of 188 bytes and returns; a packet it accepts has a well-formed key, and
    the match built for its hardware entry carries the headers of the packet and agrees
    with the key ([key_matches]) on both addresses, both ports, the transport and the
    tunnel's type, and on the tunnel's number for VXLAN and GRE; the match of a GTP-U
    packet has its identifier, the key has not. *)
Theorem parse_packet_safe data len port queue hash :
  188 <= Z.of_nat (length data) -> Forall (in_width 8) data -> in_width 16 port ->
  exists p r, simple_fwd_parse_packet data len pinfo_zero = Ret (p, r) /\ (r = 0 \/ r = -1)
    /\ (r = 0 -> let p := set_origin port queue hash p in
        exists k m, simple_fwd_ft_key_fill data p = Ret (Some k) /\ key_wf k
          /\ simple_fwd_build_entry_match data p = Ret m /\ key_matches p k m
          /\ header_matches data (outer p) (FlowTypes.outer m)
          /\ (pi_tun_type p <> DOCA_FLOW_TUN_NONE ->
              tunnel_matches p (match_tun m) /\ header_matches data (inner p) (FlowTypes.inner m))).
Proof.
  intros Hl Hb Hport. destruct (parse_packet_ok data len Hl) as (p & r & E & Hr & Hok).
  exists p, r. split; [done|]. split; [done|]. intros Hr0. specialize (Hok Hr0).
  pose proof (parse_raw_ok _ _ _ _ E) as Hraw. clear E. cbv zeta.
  assert (pinfo_ok (set_origin port queue hash p)) as Hok' by (destruct Hok; by split).
  set (q := set_origin port queue hash p) in *.
  destruct (build_entry_match_ok data q Hb Hl Hok' Hraw) as (m & Em & Ho & Hi).
  exists (pkt_key data q), m. split; [by apply key_fill_ok|]. split; [by apply pkt_key_wf|].
  split; [done|]. split; [|by split]. apply pkt_key_matches; [|by intros Hn; apply Hi].
  unfold flow_fmt, flow_header. case_bool_decide as Hn; [done|by apply Hi].
Qed.

(** ** Round trip: the key of a packet put together from its fields *)

(** An IPv4 header; [ip_head] is the bytes from the type of service to the time to
    live, [ip_opts] the options.  Addresses and ports are in network order. *)
Record ip_desc : Type := IpDesc {
  ip_head : list Z;
  ip_ck : list Z;
  ip_src : Z;
  ip_dst : Z;
  ip_opts : list Z;
}.
Definition ip_header (proto : Z) (d : ip_desc) : list Z :=
  [0x45 + Z.of_nat (length (ip_opts d)) / 4] ++ ip_head d ++ [proto] ++ ip_ck d
    ++ le_bytes 4 (ip_src d) ++ le_bytes 4 (ip_dst d) ++ ip_opts d.

Record ip_wf (d : ip_desc) : Prop := {
  iw_head : length (ip_head d) = 8%nat;
  iw_ck : length (ip_ck d) = 2%nat;
  iw_src : in_width 32 (ip_src d) /\ ip_src d <> 0;
  iw_dst : in_width 32 (ip_dst d) /\ ip_dst d <> 0;
  iw_opts : exists n, (n <= 10)%nat /\ length (ip_opts d) = (4 * n)%nat;
}.

(** A transport header up to the last byte the parser reads. *)
Inductive l4_desc : Type :=
| L4Tcp (sport dport : Z) (seq_ack : list Z) (data_off : Z)
| L4Udp (sport dport : Z) (length_ck : list Z)
| L4Icmp.
Definition l4_proto (d : l4_desc) : Z :=
  match d with
  | L4Tcp _ _ _ _ => DOCA_FLOW_PROTO_TCP
  | L4Udp _ _ _ => DOCA_FLOW_PROTO_UDP
  | L4Icmp => DOCA_FLOW_PROTO_ICMP
  end.
Definition l4_header (d : l4_desc) : list Z :=
  match d with
  | L4Tcp sp dp sa off => le_bytes 2 sp ++ le_bytes 2 dp ++ sa ++ [off]
  | L4Udp sp dp lc => le_bytes 2 sp ++ le_bytes 2 dp ++ lc
  | L4Icmp => []
  end.
Definition l4_ports (d : l4_desc) : Z * Z :=
  match d with L4Tcp sp dp _ _ => (sp, dp) | L4Udp sp dp _ => (sp, dp) | L4Icmp => (0, 0) end.
Definition l4_hlen (d : l4_desc) : Z :=
  match d with L4Tcp _ _ _ off => Z.shiftr (Z.land off 0xf0) 2 | L4Udp _ _ _ => 8 | L4Icmp => 0 end.
Definition l4_wf (d : l4_desc) : Prop :=
  match d with
  | L4Tcp sp dp sa off => in_width 16 sp /\ in_width 16 dp /\ length sa = 8%nat
  | L4Udp sp dp lc => in_width 16 sp /\ in_width 16 dp /\ length lc = 4%nat
  | L4Icmp => True
  end.

Lemma length_ip_header proto d : ip_wf d -> length (ip_header proto d) = (20 + length (ip_opts d))%nat.
Proof. intros [H1 H2 _ _ _]. unfold ip_header. rewrite !length_app, !length_le_bytes, H1, H2. cbn. lia. Qed.

Lemma load_at off n data A F B :
  data = A ++ F ++ B -> off = Z.of_nat (length A) -> length F = n -> load (Z.to_nat off) n data = le_value F.
Proof.
  intros -> -> <-. rewrite load_unfold, Nat2Z.id, drop_app_length, take_app_length. done.
Qed.

Lemma rd_at off n data A F B :
  data = A ++ F ++ B -> off = Z.of_nat (length A) -> length F = n -> rd data off n = Ret (le_value F).
Proof.
  intros Hd Ho Hn. rewrite rd_defined; [by rewrite (load_at off n data A F B)|lia|].
  rewrite Hd, !length_app. lia.
Qed.

Lemma le_value_word n v : in_width (8 * Z.of_nat n) v -> le_value (le_bytes n v) = v.
Proof. intros Hv. rewrite le_value_le_bytes. by apply Z.mod_small. Qed.

Lemma first_byte n : (n <= 10)%nat ->
  let v := 0x45 + Z.of_nat (4 * n) / 4 in Z.shiftr v 4 = 4 /\ Z.land v 15 * 4 = 20 + Z.of_nat (4 * n).
Proof.
  intros Hn. rewrite Nat2Z.inj_mul, (Z.mul_comm (Z.of_nat 4)), Z.div_mul by done.
  by do 11 (destruct n as [|n]; [split; reflexivity|]); lia.
Qed.

(** Ethernet header of a frame of type IPv4, when there is one. *)
Definition l2_header (l2 : bool) (macs : list Z) : list Z := if l2 then macs ++ [8; 0] else [].

Lemma length_l2_header l2 macs :
  length macs = 12%nat -> length (l2_header l2 macs) = if l2 then 14%nat else 0%nat.
Proof. intros Hm. destruct l2; [|done]. unfold l2_header. rewrite length_app, Hm. done. Qed.

Lemma parse_header data base len l2 fmt A macs proto d B :
  data = A ++ l2_header l2 macs ++ ip_header proto d ++ B -> base = Z.of_nat (length A) ->
  length macs = 12%nat -> ip_wf d ->
  let o := Z.of_nat (length (l2_header l2 macs)) in
  let l4_off := o + 20 + Z.of_nat (length (ip_opts d)) in
  simple_fwd_parse_pkt_format data base len l2 fmt
  = parse_l4 data base len l4_off proto
      (PktFormat (Some base) (Some (base + o)) (Some (base + l4_off)) IPV4 (f_l4_type fmt) (f_l7 fmt)).
Proof.
  intros Hd Hb Hm Hw o l4_off. pose proof Hw as [H1 H2 [H3 H3'] [H4 H4'] (n & Hn & H5)].
  unfold simple_fwd_parse_pkt_format. pose proof (length_l2_header l2 macs Hm) as Hl2.
  assert ((if l2 then parse_l2 data base (set_f_l2 base fmt) else Ret (inl 0)) = Ret (inl o)) as ->.
  { unfold o. rewrite Hl2. destruct l2; [|done]. unfold parse_l2, rd_be16.
    rewrite (rd_at _ _ _ (A ++ macs) [8; 0] (ip_header proto d ++ B)); [done| |rewrite length_app; lia|done].
    rewrite Hd. unfold l2_header. by rewrite <-!app_assoc. }
  set (P := A ++ l2_header l2 macs) in *.
  assert (base + o = Z.of_nat (length P)) as Ho by (unfold P, o; rewrite length_app; lia).
  replace data with (P ++ ip_header proto d ++ B) in * by (unfold P; by rewrite <-app_assoc). clear Hd.
  unfold ip_header in *. rewrite <-!app_assoc in *. set (v := 0x45 + _) in *.
  destruct (first_byte n Hn) as [Hv1 Hv2]. rewrite <-H5 in Hv1, Hv2. fold v in Hv1, Hv2.
  assert (le_value [v] = v) as Ev by (cbn [le_value]; lia).
  rewrite (rd_at _ _ _ P [v] _ eq_refl), Ev, Hv1 by done. cbn [Z.eqb Pos.eqb negb].
  rewrite (rd_at (base + o + 12) 4 _ (P ++ [v] ++ ip_head d ++ [proto] ++ ip_ck d) (le_bytes 4 (ip_src d))
             (le_bytes 4 (ip_dst d) ++ ip_opts d ++ B))
    by (rewrite <-?app_assoc, ?length_app, ?length_le_bytes; cbn [length]; lia || done).
  rewrite le_value_word by done. rewrite (proj2 (Z.eqb_neq _ _) H3').
  rewrite (rd_at (base + o + 16) 4 _ (P ++ [v] ++ ip_head d ++ [proto] ++ ip_ck d ++ le_bytes 4 (ip_src d))
             (le_bytes 4 (ip_dst d)) (ip_opts d ++ B))
    by (rewrite <-?app_assoc, ?length_app, ?length_le_bytes; cbn [length]; lia || done).
  rewrite le_value_word by done. rewrite (proj2 (Z.eqb_neq _ _) H4').
  rewrite (rd_at (base + o + 9) 1 _ (P ++ [v] ++ ip_head d) [proto]
             (ip_ck d ++ le_bytes 4 (ip_src d) ++ le_bytes 4 (ip_dst d) ++ ip_opts d ++ B))
    by (rewrite <-?app_assoc, ?length_app, ?length_le_bytes; cbn [length]; lia || done).
  assert (le_value [proto] = proto) as -> by (cbn [le_value]; lia).
  unfold set_f_l4, set_f_l3_type, set_f_l3, set_f_l2. cbn [f_l2 f_l3 f_l4 f_l3_type f_l4_type f_l7].
  rewrite Hv2. replace (o + (20 + Z.of_nat (length (ip_opts d)))) with l4_off by (unfold l4_off; lia). done.
Qed.

(** The format of a header put together from its fields. *)
Definition desc_fmt (base o : Z) (d : ip_desc) (l4 : l4_desc) (l7 : option Z) : simple_fwd_pkt_format :=
  let l4_off := o + 20 + Z.of_nat (length (ip_opts d)) in
  PktFormat (Some base) (Some (base + o)) (Some (base + l4_off)) IPV4 (l4_proto l4)
    (match l4 with L4Icmp => l7 | _ => Some (base + (l4_off + l4_hlen l4)) end).

Lemma parse_l4_desc data base len l4_off A l4 B f2 f3 f4 ft l7 ty :
  data = A ++ l4_header l4 ++ B -> base + l4_off = Z.of_nat (length A) -> l4_wf l4 -> l4_off + l4_hlen l4 <= len ->
  parse_l4 data base len l4_off (l4_proto l4) (PktFormat f2 f3 f4 ft ty l7)
  = Ret (PktFormat f2 f3 f4 ft (l4_proto l4)
           (match l4 with L4Icmp => l7 | _ => Some (base + (l4_off + l4_hlen l4)) end), 0).
Proof.
  intros Hd Ho Hw Hlen. destruct l4 as [sp dp sa off|sp dp lc|]; cbn [l4_header l4_hlen l4_wf] in *.
  - destruct Hw as (_ & _ & Hsa). unfold parse_l4. cbn [l4_proto Z.eqb Pos.eqb DOCA_FLOW_PROTO_TCP].
    rewrite (rd_at (base + l4_off + 12) 1 _ (A ++ le_bytes 2 sp ++ le_bytes 2 dp ++ sa) [off] B)
      by (subst data; rewrite <-?app_assoc, ?length_app, ?length_le_bytes; cbn [length]; lia || done).
    assert (le_value [off] = off) as -> by (cbn [le_value]; lia).
    rewrite (proj2 (Z.ltb_ge _ _) Hlen). done.
  - unfold parse_l4. cbn [l4_proto]. change (17 =? 6) with false.
    cbn [Z.eqb Pos.eqb DOCA_FLOW_PROTO_TCP DOCA_FLOW_PROTO_UDP]. rewrite (proj2 (Z.ltb_ge _ _) Hlen). done.
  - done.
Qed.

Lemma parse_desc data base len l2 fmt A macs d l4 B :
  data = A ++ l2_header l2 macs ++ ip_header (l4_proto l4) d ++ l4_header l4 ++ B ->
  base = Z.of_nat (length A) -> length macs = 12%nat -> ip_wf d -> l4_wf l4 ->
  let o := Z.of_nat (length (l2_header l2 macs)) in
  o + 20 + Z.of_nat (length (ip_opts d)) + l4_hlen l4 <= len ->
  simple_fwd_parse_pkt_format data base len l2 fmt = Ret (desc_fmt base o d l4 (f_l7 fmt), 0).
Proof.
  intros Hd Hb Hm Hw H4 o Hlen. rewrite (parse_header data base len l2 fmt A macs (l4_proto l4) d _ Hd Hb Hm Hw).
  apply (parse_l4_desc _ _ _ _ (A ++ l2_header l2 macs ++ ip_header (l4_proto l4) d) _ B);
    [by rewrite <-!app_assoc| |done|done].
  rewrite !length_app, length_ip_header by done. unfold o. lia.
Qed.

(** The 5-tuple read back from the memory. *)
Lemma desc_fields data base o A d l4 B l7 :
  data = A ++ ip_header (l4_proto l4) d ++ l4_header l4 ++ B -> base + o = Z.of_nat (length A) ->
  ip_wf d -> l4_wf l4 ->
  let f := desc_fmt base o d l4 l7 in
  ft_src data f = ip_src d /\ ft_dst data f = ip_dst d /\ (ft_sport data f, ft_dport data f) = l4_ports l4.
Proof.
  intros Hd Ho Hw H4 f. pose proof (length_ip_header (l4_proto l4) d Hw) as Hih.
  pose proof Hw as [H1 H2 [H3 _] [H3' _] _]. split_and!.
  - unfold ft_src, f. cbn [desc_fmt f_l3 default id]. unfold ip_header in *.
    rewrite (load_at _ _ _ (A ++ [0x45 + Z.of_nat (length (ip_opts d)) / 4] ++ ip_head d ++ [l4_proto l4] ++ ip_ck d)
               (le_bytes 4 (ip_src d)) (le_bytes 4 (ip_dst d) ++ ip_opts d ++ l4_header l4 ++ B))
      by (subst data; rewrite <-?app_assoc, ?length_app, ?length_le_bytes; cbn [length]; lia || done).
    by apply le_value_word.
  - unfold ft_dst, f. cbn [desc_fmt f_l3 default id]. unfold ip_header in *.
    rewrite (load_at _ _ _ (A ++ [0x45 + Z.of_nat (length (ip_opts d)) / 4] ++ ip_head d ++ [l4_proto l4] ++ ip_ck d
                ++ le_bytes 4 (ip_src d)) (le_bytes 4 (ip_dst d)) (ip_opts d ++ l4_header l4 ++ B))
      by (subst data; rewrite <-?app_assoc, ?length_app, ?length_le_bytes; cbn [length]; lia || done).
    by apply le_value_word.
  - unfold ft_sport, ft_dport, f, has_ports. cbn [desc_fmt f_l4 f_l4_type default id].
    set (H := ip_header (l4_proto l4) d) in *. clearbody H.
    assert (forall sp dp X, data = A ++ H ++ (le_bytes 2 sp ++ le_bytes 2 dp ++ X) ++ B ->
      in_width 16 sp -> in_width 16 dp ->
      load (Z.to_nat (base + (o + 20 + Z.of_nat (length (ip_opts d))))) 2 data = sp
      /\ load (Z.to_nat (base + (o + 20 + Z.of_nat (length (ip_opts d))) + 2)) 2 data = dp) as Hp.
    { intros sp dp X -> Hs Hdp. rewrite <-!app_assoc. split.
      - rewrite (load_at _ _ _ (A ++ H) (le_bytes 2 sp) (le_bytes 2 dp ++ X ++ B))
          by (rewrite <-?app_assoc, ?length_app, ?length_le_bytes; lia || done).
        by apply le_value_word.
      - rewrite (load_at _ _ _ (A ++ H ++ le_bytes 2 sp) (le_bytes 2 dp) (X ++ B))
          by (rewrite <-?app_assoc, ?length_app, ?length_le_bytes; lia || done).
        by apply le_value_word. }
    destruct l4 as [sp dp sa off|sp dp lc|]; cbn [l4_header l4_wf l4_ports l4_proto] in *; [| |done];
      destruct H4 as (W1 & W2 & _); cbn; by destruct (Hp _ _ _ Hd W1 W2) as [-> ->].
Qed.

(** What a frame carries: nothing more, or a tunnel and its inner packet. *)
Inductive tunnel_desc : Type :=
| NoTunnel (l4 : l4_desc)
| VxlanTunnel (sport : Z) (length_ck : list Z) (flags : Z) (reserved : list Z) (vni : Z) (macs : list Z)
    (d : ip_desc) (l4 : l4_desc)
| GtpTunnel (sport : Z) (length_ck : list Z) (flags msg_type : Z) (plen : list Z) (teid : Z) (ext : list Z)
    (d : ip_desc) (l4 : l4_desc)
| GreTunnel (flags version : Z) (proto : Z) (key : Z) (sequence : list Z) (d : ip_desc) (l4 : l4_desc).

(** The bytes between the outer IPv4 header and the inner one. *)
Definition tunnel_header (t : tunnel_desc) : list Z :=
  match t with
  | NoTunnel _ => []
  | VxlanTunnel sp lc fl rs v macs _ _ =>
      le_bytes 2 sp ++ le_bytes 2 (bswap 2 DOCA_FLOW_VXLAN_DEFAULT_PORT) ++ lc ++ [fl] ++ rs ++ le_bytes 4 v
  | GtpTunnel sp lc fl mt pl teid ext _ _ =>
      le_bytes 2 sp ++ le_bytes 2 (bswap 2 DOCA_FLOW_GTPU_DEFAULT_PORT) ++ lc ++ [fl; mt] ++ pl ++ le_bytes 4 teid ++ ext
  | GreTunnel fl ver proto key sq _ _ =>
      [fl; ver] ++ le_bytes 2 proto ++ (if gre_k fl then le_bytes 4 key else []) ++ sq
  end.
Definition tunnel_proto (t : tunnel_desc) : Z :=
  match t with
  | NoTunnel l4 => l4_proto l4
  | VxlanTunnel _ _ _ _ _ _ _ _ | GtpTunnel _ _ _ _ _ _ _ _ _ => DOCA_FLOW_PROTO_UDP
  | GreTunnel _ _ _ _ _ _ _ => DOCA_FLOW_PROTO_GRE
  end.
Definition tunnel_ty (t : tunnel_desc) : doca_flow_tun_type :=
  match t with
  | NoTunnel _ => DOCA_FLOW_TUN_NONE | VxlanTunnel _ _ _ _ _ _ _ _ => DOCA_FLOW_TUN_VXLAN
  | GtpTunnel _ _ _ _ _ _ _ _ _ => DOCA_FLOW_TUN_GTPU | GreTunnel _ _ _ _ _ _ _ => DOCA_FLOW_TUN_GRE
  end.
(** The inner packet: its Ethernet header, its IPv4 header and its transport. *)
Definition tunnel_inner (t : tunnel_desc) : option (bool * list Z * ip_desc * l4_desc) :=
  match t with
  | NoTunnel _ => None
  | VxlanTunnel _ _ _ _ _ macs d l4 => Some (true, macs, d, l4)
  | GtpTunnel _ _ _ _ _ _ _ d l4 => Some (false, replicate 12 0, d, l4)
  | GreTunnel _ _ _ _ _ d l4 => Some (false, replicate 12 0, d, l4)
  end.
Definition tunnel_wf (t : tunnel_desc) : Prop :=
  match t with
  | NoTunnel l4 =>
      match l4 with
      | L4Udp _ dp _ => bswap 2 dp <> DOCA_FLOW_VXLAN_DEFAULT_PORT /\ bswap 2 dp <> DOCA_FLOW_GTPU_DEFAULT_PORT
      | _ => True
      end
  | VxlanTunnel sp lc fl rs v _ _ _ =>
      length lc = 4%nat /\ length rs = 3%nat /\ Z.land fl 8 <> 0 /\ in_width 32 v
  | GtpTunnel sp lc fl mt pl teid ext _ _ =>
      length lc = 4%nat /\ length pl = 2%nat /\ in_width 8 fl /\ in_width 8 mt
      /\ length ext = if Z.land fl 7 =? 0 then 0%nat else 4%nat
  | GreTunnel fl _ _ key sq _ _ =>
      gre_c fl = false /\ in_width 32 key /\ length sq = if gre_s fl then 4%nat else 0%nat
  end.

(** The number of a tunnel: the network of VXLAN, the key of GRE.  That of GTP-U is [teid],
    which is not what the program takes for it ([tunnel_vni]). *)
Definition tunnel_number (t : tunnel_desc) : option Z :=
  match t with
  | NoTunnel _ => Some 0
  | VxlanTunnel _ _ _ _ v _ _ _ => Some v
  | GtpTunnel _ _ _ _ _ _ _ _ _ => None
  | GreTunnel fl _ _ key _ _ _ => Some (if gre_k fl then key else 0)
  end.

(** What the program reads as the member [vni] of its union: for GTP-U these are the bytes of
    the message type and the flags. *)
Definition tunnel_vni (t : tunnel_desc) : Z :=
  match t with
  | NoTunnel _ => 0
  | VxlanTunnel _ _ _ _ v _ _ _ => v
  | GtpTunnel _ _ fl mt _ _ _ _ _ => mt + 256 * fl
  | GreTunnel fl _ _ key _ _ _ => if gre_k fl then key else 0
  end.

Definition zero_tun : simple_fwd_pkt_tun_format := PktTun false (replicate 8 0).

(** Read a field of a header at its offset. *)
Ltac rd_field A F B :=
  rewrite (rd_at _ _ _ A F B)
    by (subst; rewrite <-?app_assoc, ?length_app, ?length_le_bytes; cbn [length]; lia || done).

Lemma parse_vxlan_desc data A B sp lc fl rs v macs d l4 pinfo :
  data = A ++ tunnel_header (VxlanTunnel sp lc fl rs v macs d l4) ++ B -> tun pinfo = zero_tun ->
  tunnel_wf (VxlanTunnel sp lc fl rs v macs d l4) ->
  exists tn, parse_vxlan data (Z.of_nat (length A) + 8) pinfo = Ret (set_tun DOCA_FLOW_TUN_VXLAN tn pinfo, 16)
    /\ t_vni tn = v /\ t_l2 tn = true.
Proof.
  intros Hd Ht (H1 & H2 & H3 & H4). cbn [tunnel_header] in Hd. set (po := le_bytes 2 (bswap 2 _)) in *.
  assert (length po = 2%nat) as Hpo by done. clearbody po.
  unfold parse_vxlan. rd_field (A ++ le_bytes 2 sp ++ po ++ lc) [fl] (rs ++ le_bytes 4 v ++ B).
  assert (le_value [fl] = fl) as -> by (cbn [le_value]; lia). rewrite (proj2 (Z.eqb_neq _ _) H3). cbn [negb].
  rd_field (A ++ le_bytes 2 sp ++ po ++ lc ++ [fl] ++ rs) (le_bytes 4 v) B.
  rewrite le_value_word by done. eexists. split; [reflexivity|]. split; [|done].
  unfold t_vni. cbn [t_raw]. rewrite Ht, load_store_eq by (cbn; lia). by apply Z.mod_small.
Qed.

Lemma parse_gtp_desc data A B sp lc fl mt pl teid ext d l4 pinfo :
  data = A ++ tunnel_header (GtpTunnel sp lc fl mt pl teid ext d l4) ++ B -> tun pinfo = zero_tun ->
  tunnel_wf (GtpTunnel sp lc fl mt pl teid ext d l4) ->
  exists tn, parse_gtp data (Z.of_nat (length A) + 8) pinfo
      = Ret (set_tun DOCA_FLOW_TUN_GTPU tn pinfo, 16 + Z.of_nat (length ext))
    /\ t_vni tn = mt + 256 * fl /\ t_l2 tn = false.
Proof.
  intros Hd Ht (H1 & H2 & H3 & H4 & H5). cbn [tunnel_header] in Hd. set (po := le_bytes 2 (bswap 2 _)) in *.
  assert (length po = 2%nat) as Hpo by done. clearbody po.
  assert (forall x, le_value [x] = x) as E1 by (intros; cbn [le_value]; lia).
  unfold parse_gtp. rd_field (A ++ le_bytes 2 sp ++ po ++ lc ++ [fl; mt] ++ pl) (le_bytes 4 teid) (ext ++ B).
  rd_field (A ++ le_bytes 2 sp ++ po ++ lc ++ [fl]) [mt] (pl ++ le_bytes 4 teid ++ ext ++ B).
  rd_field (A ++ le_bytes 2 sp ++ po ++ lc) [fl] (mt :: pl ++ le_bytes 4 teid ++ ext ++ B).
  rewrite !E1. rewrite Ht. set (w := le_value _). set (raw := store 1 1 _ _).
  assert (load 1 1 raw = fl) as Hf
    by (unfold raw; rewrite load_store_eq by (rewrite !length_store by (cbn; rewrite ?length_store; cbn; lia); cbn; lia);
        by apply Z.mod_small).
  unfold t_gtp_flags. cbn [t_raw]. rewrite Hf. rewrite H5.
  destruct (Z.land fl 7 =? 0); cbn [negb]; eexists; (split; [reflexivity|]); (split; [|done]);
    unfold t_vni; cbn [t_raw]; rewrite load_unfold; unfold raw; rewrite !store_unfold; cbn;
    rewrite !Z.mod_small by done; lia.
Qed.

Lemma parse_gre_desc data A B fl ver proto key sq d l4 pinfo :
  data = A ++ tunnel_header (GreTunnel fl ver proto key sq d l4) ++ B -> tun pinfo = zero_tun ->
  tunnel_wf (GreTunnel fl ver proto key sq d l4) ->
  exists tn, parse_gre data (Z.of_nat (length A)) pinfo
      = Ret (set_tun DOCA_FLOW_TUN_GRE tn pinfo, Z.of_nat (length (tunnel_header (GreTunnel fl ver proto key sq d l4))))
    /\ t_vni tn = if gre_k fl then key else 0.
Proof.
  intros Hd Ht (H1 & H2 & H3). cbn [tunnel_header] in Hd |- *.
  assert (forall x, le_value [x] = x) as E1 by (intros; cbn [le_value]; lia).
  set (K := if gre_k fl then le_bytes 4 key else []) in *.
  unfold parse_gre. rd_field A [fl] (ver :: le_bytes 2 proto ++ K ++ sq ++ B). rewrite E1, H1.
  assert (exists t0, (if gre_k fl then let* key := rd data (Z.of_nat (length A) + 4) 4 in
      Ret (PktTun true (store 0 4 key (t_raw (tun pinfo)))) else Ret (tun pinfo)) = Ret t0
    /\ length (t_raw t0) = 8%nat /\ t_vni t0 = if gre_k fl then key else 0) as (t0 & -> & Hl & Hv).
  { rewrite Ht. destruct (gre_k fl); [|by eexists; split; [reflexivity|]]. unfold K in *.
    rd_field (A ++ [fl; ver] ++ le_bytes 2 proto) (le_bytes 4 key) (sq ++ B). rewrite le_value_word by done.
    eexists. split; [reflexivity|]. unfold t_vni. cbn [t_raw].
    rewrite length_store, load_store_eq by (cbn; lia). split; [done|by apply Z.mod_small]. }
  rd_field (A ++ [fl; ver]) (le_bytes 2 proto) (K ++ sq ++ B).
  eexists. split.
  - do 2 f_equal. unfold K. rewrite !length_app, length_le_bytes, H3.
    destruct (gre_k fl), (gre_s fl); rewrite ?length_le_bytes; reflexivity.
  - unfold t_vni in *. cbn [t_raw]. rewrite load_store_ne by lia. done.
Qed.

(** The tunnel header of a frame whose outer layer 4 starts at the end of [A]. *)
Lemma parse_is_tun_desc data A B t pinfo :
  data = A ++ tunnel_header t ++ B -> tun pinfo = zero_tun -> tunnel_wf t -> tunnel_ty t <> DOCA_FLOW_TUN_NONE ->
  f_l3_type (outer pinfo) = IPV4 -> f_l4_type (outer pinfo) = tunnel_proto t ->
  f_l4 (outer pinfo) = Some (Z.of_nat (length A)) ->
  exists tn, simple_fwd_parse_is_tun data pinfo
      = Ret (set_tun (tunnel_ty t) tn pinfo, Z.of_nat (length (tunnel_header t)))
    /\ t_vni tn = tunnel_vni t
    /\ match tunnel_inner t with
       | Some (l2, _, _, _) => tunnel_ty t <> DOCA_FLOW_TUN_GRE -> t_l2 tn = l2
       | None => True
       end.
Proof.
  intros Hd Ht Hw Hn H3 H4 Hp. unfold simple_fwd_parse_is_tun. rewrite H3, H4, Hp. cbn [of_option].
  change (negb (IPV4 =? IPV4)) with false. cbv iota.
  assert (forall sp po X, data = A ++ (le_bytes 2 sp ++ le_bytes 2 po ++ X) ++ B -> in_width 16 po ->
    rd_be16 data (Z.of_nat (length A) + 2) = Ret (bswap 2 po)) as Hport.
  { intros sp po X -> Hpo. unfold rd_be16. rd_field (A ++ le_bytes 2 sp) (le_bytes 2 po) (X ++ B).
    by rewrite le_value_word. }
  destruct t as [l4|sp lc fl rs v macs d l4|sp lc fl mt pl teid ext d l4|fl ver proto key sq d l4];
    cbn [tunnel_ty tunnel_proto tunnel_inner tunnel_vni] in *; [done|..].
  - change (17 =? 47) with false. cbn [Z.eqb Pos.eqb DOCA_FLOW_PROTO_UDP DOCA_FLOW_PROTO_GRE].
    rewrite (Hport _ _ _ Hd) by done. change (bswap 2 (bswap 2 DOCA_FLOW_VXLAN_DEFAULT_PORT)) with DOCA_FLOW_VXLAN_DEFAULT_PORT.
    rewrite Z.eqb_refl. destruct (parse_vxlan_desc data A B sp lc fl rs v macs d l4 pinfo Hd Ht Hw) as (tn & -> & Hv & Hl).
    exists tn. split; [|done]. do 2 f_equal. destruct Hw as (W1 & W2 & _). cbn [tunnel_header].
    rewrite !length_app, !length_le_bytes, W1, W2. reflexivity.
  - cbn [Z.eqb Pos.eqb DOCA_FLOW_PROTO_UDP DOCA_FLOW_PROTO_GRE].
    rewrite (Hport _ _ _ Hd) by done. change (bswap 2 (bswap 2 DOCA_FLOW_GTPU_DEFAULT_PORT)) with DOCA_FLOW_GTPU_DEFAULT_PORT.
    cbn [Z.eqb Pos.eqb DOCA_FLOW_VXLAN_DEFAULT_PORT DOCA_FLOW_GTPU_DEFAULT_PORT].
    destruct (parse_gtp_desc data A B sp lc fl mt pl teid ext d l4 pinfo Hd Ht Hw) as (tn & -> & Hv & Hl).
    exists tn. split; [|done]. do 2 f_equal. destruct Hw as (W1 & W2 & _). cbn [tunnel_header].
    rewrite !length_app, !length_le_bytes, W1, W2. cbn [length]. lia.
  - cbn [Z.eqb Pos.eqb DOCA_FLOW_PROTO_GRE].
    destruct (parse_gre_desc data A B fl ver proto key sq d l4 pinfo Hd Ht Hw) as (tn & -> & Hv).
    exists tn. split; [done|]. split; [done|]. by intros [].
Qed.

(** A frame: Ethernet header, IPv4 header, tunnel and inner packet, payload. *)
Definition frame_body (t : tunnel_desc) (rest : list Z) : list Z :=
  match t, tunnel_inner t with
  | NoTunnel l4, _ => l4_header l4 ++ rest
  | _, Some (l2, macs, d, l4) =>
      tunnel_header t ++ l2_header l2 macs ++ ip_header (l4_proto l4) d ++ l4_header l4 ++ rest
  | _, None => rest
  end.
Definition frame (macs : list Z) (d : ip_desc) (t : tunnel_desc) (rest : list Z) : list Z :=
  l2_header true macs ++ ip_header (tunnel_proto t) d ++ frame_body t rest.

(** The packet a flow is identified by. *)
Definition innermost (d : ip_desc) (t : tunnel_desc) : ip_desc * l4_desc :=
  match t, tunnel_inner t with
  | NoTunnel l4, _ => (d, l4)
  | _, Some (_, _, d, l4) => (d, l4)
  | _, None => (d, L4Icmp)
  end.
Definition inner_wf (t : tunnel_desc) : Prop :=
  match tunnel_inner t with Some (_, macs, _, _) => length macs = 12%nat | None => True end.

(** Offset of the end of the innermost transport header. *)
Definition headers_end (d : ip_desc) (t : tunnel_desc) : Z :=
  14 + 20 + Z.of_nat (length (ip_opts d)) +
  match t, tunnel_inner t with
  | NoTunnel l4, _ => l4_hlen l4
  | _, Some (l2, _, di, l4) =>
      Z.of_nat (length (tunnel_header t)) + (if l2 then 14 else 0) + 20 + Z.of_nat (length (ip_opts di)) + l4_hlen l4
  | _, None => 0
  end.

(** The key that the fields of a frame spell, with the number [v]. *)
Definition frame_key (d : ip_desc) (t : tunnel_desc) (v port hash : Z) : simple_fwd_ft_key :=
  let '(di, l4) := innermost d t in
  FtKey (ip_src di) (ip_dst di) (fst (l4_ports l4)) (snd (l4_ports l4)) v (l4_proto l4)
    (tun_code (tunnel_ty t)) port 0 hash.

Lemma l4_hlen_nonneg l4 : 0 <= l4_hlen l4.
Proof. destruct l4; cbn; [|lia..]. apply Z.shiftr_nonneg, Z.land_nonneg. right. lia. Qed.

Lemma is_tun_plain data A B l4 pinfo :
  data = A ++ l4_header l4 ++ B -> l4_wf l4 -> tunnel_wf (NoTunnel l4) -> f_l3_type (outer pinfo) = IPV4 ->
  f_l4_type (outer pinfo) = l4_proto l4 -> f_l4 (outer pinfo) = Some (Z.of_nat (length A)) ->
  simple_fwd_parse_is_tun data pinfo = Ret (pinfo, 0).
Proof.
  intros Hd H4 Hw H3 Hty Hp. unfold simple_fwd_parse_is_tun. rewrite H3, Hty, Hp.
  destruct l4 as [| sp dp lc |]; [done| |done]. cbn [tunnel_wf l4_header l4_wf] in *. destruct Hw as [Hv Hg].
  cbn [l4_proto of_option]. change (negb (IPV4 =? IPV4)) with false. cbv iota. change (17 =? 47) with false.
  cbn [Z.eqb Pos.eqb DOCA_FLOW_PROTO_UDP DOCA_FLOW_PROTO_GRE]. unfold rd_be16.
  rd_field (A ++ le_bytes 2 sp) (le_bytes 2 dp) (lc ++ B). rewrite le_value_word by apply H4.
  by rewrite (proj2 (Z.eqb_neq _ _) Hv), (proj2 (Z.eqb_neq _ _) Hg).
Qed.

(** What the parse of a frame leaves. *)
Definition parsed_as (data rest : list Z) (d : ip_desc) (t : tunnel_desc) (p : simple_fwd_pkt_info) : Prop :=
  pi_tun_type p = tunnel_ty t /\ (tunnel_ty t <> DOCA_FLOW_TUN_NONE -> t_vni (tun p) = tunnel_vni t)
  /\ exists P base o l7, flow_fmt p = desc_fmt base o (fst (innermost d t)) (snd (innermost d t)) l7
       /\ base + o = Z.of_nat (length P)
       /\ data = P ++ ip_header (l4_proto (snd (innermost d t))) (fst (innermost d t))
                   ++ l4_header (snd (innermost d t)) ++ rest.

Section frames.
Context (macs : list Z) (d : ip_desc) (rest : list Z) (len : Z).
Hypothesis (Hm : length macs = 12%nat) (Hd : ip_wf d).

Lemma parse_plain_frame l4 :
  l4_wf l4 -> tunnel_wf (NoTunnel l4) -> headers_end d (NoTunnel l4) <= len ->
  exists p, simple_fwd_parse_packet (frame macs d (NoTunnel l4) rest) len pinfo_zero = Ret (p, 0)
    /\ parsed_as (frame macs d (NoTunnel l4) rest) rest d (NoTunnel l4) p.
Proof using Hm Hd.
  intros H4 Hw Hlen. unfold headers_end in Hlen. cbn [tunnel_inner] in Hlen.
  set (data := frame _ _ _ _). pose proof (length_l2_header true macs Hm) as H2.
  assert (data = [] ++ l2_header true macs ++ ip_header (l4_proto l4) d ++ l4_header l4 ++ rest) as Ed by done.
  unfold simple_fwd_parse_packet.
  rewrite (parse_desc data 0 len true _ [] macs d l4 rest Ed) by (done || (rewrite H2; lia)).
  rewrite H2. cbn [Z.eqb negb].
  rewrite (is_tun_plain data (l2_header true macs ++ ip_header (l4_proto l4) d) rest l4);
    [|rewrite Ed; by rewrite <-!app_assoc|done..|].
  2:{ cbn [set_outer outer desc_fmt f_l4]. f_equal. rewrite length_app, length_ip_header, H2 by done. lia. }
  cbn. eexists. split; [reflexivity|]. split; [done|]. split; [by intros []|].
  exists (l2_header true macs), 0, (Z.of_nat 14), None. split; [done|]. split; [by rewrite H2|done].
Qed.

Lemma parse_outer_tunnel t B :
  tunnel_ty t <> DOCA_FLOW_TUN_NONE -> 14 + 20 + Z.of_nat (length (ip_opts d)) + 8 <= len ->
  exists l7, simple_fwd_parse_pkt_format (l2_header true macs ++ ip_header (tunnel_proto t) d ++ B) 0 len true fmt_zero
    = Ret (PktFormat (Some 0) (Some 14) (Some (34 + Z.of_nat (length (ip_opts d)))) IPV4 (tunnel_proto t) l7, 0).
Proof using Hm Hd.
  intros Hn Hlen. pose proof (length_l2_header true macs Hm) as H2.
  rewrite (parse_header _ 0 len true fmt_zero [] macs (tunnel_proto t) d B) by done. rewrite H2.
  change (Z.of_nat 14) with 14. cbn [Z.add f_l4_type f_l7 fmt_zero].
  destruct t; cbn [tunnel_ty tunnel_proto] in *; [done| | |by eexists]; unfold parse_l4; cbn [f_l2];
    change (17 =? 6) with false; cbn [Z.eqb Pos.eqb DOCA_FLOW_PROTO_UDP DOCA_FLOW_PROTO_TCP];
    rewrite (proj2 (Z.ltb_ge _ _)) by lia; by eexists.
Qed.

Lemma parse_tunnel_frame t l2 imacs di l4 :
  tunnel_inner t = Some (l2, imacs, di, l4) -> length imacs = 12%nat -> ip_wf di -> l4_wf l4 ->
  tunnel_wf t -> headers_end d t <= len ->
  exists p, simple_fwd_parse_packet (frame macs d t rest) len pinfo_zero = Ret (p, 0)
    /\ parsed_as (frame macs d t rest) rest d t p.
Proof using Hm Hd.
  intros Hi Him Hdi H4 Hw Hlen. pose proof (l4_hlen_nonneg l4) as Hh.
  assert (tunnel_ty t <> DOCA_FLOW_TUN_NONE) as Hn by (by destruct t).
  set (T := tunnel_header t). set (I := l2_header l2 imacs ++ ip_header (l4_proto l4) di ++ l4_header l4 ++ rest).
  assert (frame_body t rest = T ++ I) as Eb by (destruct t; cbn [tunnel_inner] in Hi; simplify_eq; reflexivity).
  assert (innermost d t = (di, l4)) as Ei by (destruct t; cbn [tunnel_inner] in Hi; simplify_eq; reflexivity).
  assert (headers_end d t = 34 + Z.of_nat (length (ip_opts d)) + (Z.of_nat (length T) + (if l2 then 14 else 0) + 20
      + Z.of_nat (length (ip_opts di)) + l4_hlen l4)) as Ee by (destruct t; cbn [tunnel_inner] in Hi; simplify_eq; reflexivity).
  unfold parsed_as. rewrite Ei. cbn [fst snd]. unfold frame. rewrite Eb. unfold simple_fwd_parse_packet.
  change (outer (set_pi_len len pinfo_zero)) with fmt_zero.
  destruct (parse_outer_tunnel t (T ++ I) Hn) as (l7 & ->); [destruct l2; lia|]. cbn [Z.eqb negb].
  pose proof (length_l2_header true macs Hm) as H2. set (O := l2_header true macs ++ ip_header (tunnel_proto t) d).
  assert (Z.of_nat (length O) = 34 + Z.of_nat (length (ip_opts d))) as HO
    by (unfold O; rewrite length_app, length_ip_header, H2 by done; lia).
  replace (l2_header true macs ++ ip_header (tunnel_proto t) d ++ T ++ I) with (O ++ T ++ I) by (unfold O; by rewrite <-app_assoc).
  match goal with |- context [simple_fwd_parse_is_tun _ ?q] => set (pi := q) end.
  destruct (parse_is_tun_desc (O ++ T ++ I) O I t pi) as (tn & -> & Hv & Hl2); try done.
  { rewrite HO. done. }
  rewrite Hi in Hl2. cbn [set_tun pi_tun_type]. rewrite bool_decide_eq_false_2 by done. fold T.
  rewrite (proj2 (Z.ltb_ge _ _)) by lia. cbn [orb].
  assert (parse_inner (O ++ T ++ I) len (Z.of_nat (length T)) l2 (set_tun (tunnel_ty t) tn pi)
    = Ret (set_inner (desc_fmt (Z.of_nat (length (O ++ T))) (Z.of_nat (length (l2_header l2 imacs))) di l4 None)
             (set_tun (tunnel_ty t) tn pi), 0)) as Hin.
  { unfold parse_inner. cbn [set_tun outer inner set_outer f_l4 of_option pi].
    replace (34 + Z.of_nat (length (ip_opts d)) + Z.of_nat (length T)) with (Z.of_nat (length (O ++ T)))
      by (rewrite length_app; lia).
    rewrite (parse_desc _ _ _ l2 _ (O ++ T) imacs di l4 rest); [done|by rewrite <-app_assoc|done..|].
    rewrite length_l2_header, length_app by done. destruct l2; lia. }
  exists (set_inner (desc_fmt (Z.of_nat (length (O ++ T))) (Z.of_nat (length (l2_header l2 imacs))) di l4 None)
             (set_tun (tunnel_ty t) tn pi)). split.
  { change (t_l2 (tun _)) with (t_l2 tn). destruct t; cbn [tunnel_ty] in *; rewrite ?Hl2 by done; try done.
    cbn [tunnel_inner] in Hi. injection Hi as <- <- <- <-.
    exact Hin. }
  split; [done|]. split; [by intros _|]. exists (O ++ T ++ l2_header l2 imacs), (Z.of_nat (length (O ++ T))),
    (Z.of_nat (length (l2_header l2 imacs))), None. split_and!.
  - unfold flow_fmt. cbn. by rewrite bool_decide_eq_false_2.
  - rewrite !length_app. lia.
  - unfold I. by rewrite <-!app_assoc.
Qed.
End frames.

Definition frame_wf (macs : list Z) (d : ip_desc) (t : tunnel_desc) : Prop :=
  length macs = 12%nat /\ ip_wf d /\ tunnel_wf t /\ inner_wf t
  /\ ip_wf (fst (innermost d t)) /\ l4_wf (snd (innermost d t)).

Lemma parse_frame macs d t rest len :
  frame_wf macs d t -> headers_end d t <= len ->
  exists p, simple_fwd_parse_packet (frame macs d t rest) len pinfo_zero = Ret (p, 0)
    /\ parsed_as (frame macs d t rest) rest d t p.
Proof.
  intros (Hm & Hd & Hw & Hi & Hdi & H4) Hlen. destruct (tunnel_inner t) as [[[[l2 imacs] di] l4]|] eqn:E.
  - unfold inner_wf in Hi. rewrite E in Hi. assert (innermost d t = (di, l4)) as Ei
      by (destruct t; cbn [tunnel_inner] in E; simplify_eq; reflexivity).
    rewrite Ei in *. by eapply parse_tunnel_frame.
  - destruct t as [l4| | |]; try discriminate E. by apply parse_plain_frame.
Qed.

Lemma frame_key_of macs d t rest len port queue hash :
  frame_wf macs d t -> headers_end d t <= len -> 188 <= Z.of_nat (length (frame macs d t rest)) ->
  exists p, simple_fwd_parse_packet (frame macs d t rest) len pinfo_zero = Ret (p, 0)
    /\ simple_fwd_ft_key_fill (frame macs d t rest) (set_origin port queue hash p)
       = Ret (Some (frame_key d t (tunnel_vni t) port hash)).
Proof.
  intros Hw Hlen Hl. destruct (parse_frame macs d t rest len Hw Hlen) as (p & E & Ht & Hv & P & base & o & l7 & Hf & HP & Hd).
  exists p. split; [done|]. destruct (parse_packet_ok (frame macs d t rest) len Hl) as (p' & r & E' & _ & Hok).
  rewrite E in E'. injection E' as <- <-. specialize (Hok eq_refl).
  rewrite key_fill_ok by (done || (destruct Hok; by split)).
  destruct Hw as (_ & _ & _ & _ & Hdi & H4).
  destruct (desc_fields _ base o P _ _ rest l7 Hd HP Hdi H4) as (E1 & E2 & E3). rewrite <-Hf in E1, E2, E3.
  unfold pkt_key. change (flow_fmt (set_origin port queue hash p)) with (flow_fmt p).
  rewrite E1, E2, (f_equal fst E3 : ft_sport _ _ = _), (f_equal snd E3 : ft_dport _ _ = _).
  unfold frame_key. destruct (innermost d t) as [di l4]. cbn [fst snd] in *. rewrite Hf.
  cbn [set_origin pi_tun_type tun orig_port_id rss_hash desc_fmt f_l4_type]. rewrite Ht.
  case_bool_decide as Hn; cbn [negb]; [|by rewrite Hv]. do 2 f_equal. by destruct t.
Qed.

(** C24: The key made from a frame is the one its fields spell: the innermost addresses,
    protocol and ports, the tunnel's type, the port and the hash; for plain packets and
    VXLAN, GTP-U and GRE tunnels, any IPv4 options, any payload, in a buffer of at least
    188 bytes. The number of the tunnel is in the key for VXLAN and GRE (0 without a
    tunnel or a GRE key); for GTP-U what the key holds there is not the tunnel's
    identifier ([gtp_tunnels_share_key]). *)
Theorem flow_key_roundtrip macs d t rest len port queue hash :
  frame_wf macs d t -> headers_end d t <= len -> 188 <= Z.of_nat (length (frame macs d t rest)) ->
  exists p v, simple_fwd_parse_packet (frame macs d t rest) len pinfo_zero = Ret (p, 0)
    /\ simple_fwd_ft_key_fill (frame macs d t rest) (set_origin port queue hash p)
       = Ret (Some (frame_key d t v port hash))
    /\ (tunnel_ty t <> DOCA_FLOW_TUN_GTPU -> tunnel_number t = Some v).
Proof.
  intros Hw Hlen Hl. destruct (frame_key_of macs d t rest len port queue hash Hw Hlen Hl) as (p & E & Hk).
  exists p, (tunnel_vni t). split; [done|]. split; [done|]. by destruct t.
Qed.

(** The number in the key of a GTP-U packet is not its tunnel's: packets of different
    tunnels, alike otherwise, have equal keys. *)
Theorem gtp_tunnels_share_key macs d sp lc fl mt pl teid1 teid2 ext di l4 rest len port queue hash :
  let t1 := GtpTunnel sp lc fl mt pl teid1 ext di l4 in
  let t2 := GtpTunnel sp lc fl mt pl teid2 ext di l4 in
  frame_wf macs d t1 -> headers_end d t1 <= len -> 188 <= Z.of_nat (length (frame macs d t1 rest)) ->
  teid1 <> teid2 ->
  exists p1 p2 k1 k2,
    simple_fwd_parse_packet (frame macs d t1 rest) len pinfo_zero = Ret (p1, 0)
    /\ simple_fwd_parse_packet (frame macs d t2 rest) len pinfo_zero = Ret (p2, 0)
    /\ simple_fwd_ft_key_fill (frame macs d t1 rest) (set_origin port queue hash p1) = Ret (Some k1)
    /\ simple_fwd_ft_key_fill (frame macs d t2 rest) (set_origin port queue hash p2) = Ret (Some k2)
    /\ simple_fwd_ft_key_equal k1 k2 = true.
Proof.
  intros t1 t2 Hw Hlen Hl _.
  assert (length (frame macs d t2 rest) = length (frame macs d t1 rest)) as El
    by (unfold frame, frame_body; cbn [tunnel_inner tunnel_header t1 t2]; rewrite !length_app, !length_le_bytes; done).
  assert (headers_end d t2 = headers_end d t1) as Ee
    by (unfold headers_end; cbn [tunnel_inner tunnel_header t1 t2]; rewrite !length_app, !length_le_bytes; done).
  destruct (frame_key_of macs d t1 rest len port queue hash Hw Hlen Hl) as (p1 & E1 & K1).
  destruct (frame_key_of macs d t2 rest len port queue hash) as (p2 & E2 & K2);
    [exact Hw|by rewrite Ee|by rewrite El|].
  exists p1, p2. eexists _, _. split; [exact E1|]. split; [exact E2|]. split; [exact K1|]. split; [exact K2|].
  by apply key_equal_bytes.
Qed.

(** ** Witnesses *)

Definition sample_ip (src dst : Z) : ip_desc :=
  IpDesc [0; 0; 100; 0; 1; 0; 0; 64] [7; 7] src dst [1; 1; 1; 0].
Definition sample_gtp (teid : Z) : tunnel_desc :=
  GtpTunnel 0x0102 [0; 80; 0; 0] 0x30 255 [0; 60] teid [] (sample_ip 0x0100000a 0x0200000a) (L4Tcp 0x5000 0xbb01 (seqZ 0 8) 0x50).
Definition sample_vxlan : tunnel_desc :=
  VxlanTunnel 0x0102 [0; 80; 0; 0] 0x08 [0; 0; 0] 0x2a0000 (seqZ 1 12) (sample_ip 0x0100000a 0x0200000a)
    (L4Udp 0x5000 0xbb01 [0; 8; 0; 0]).

Lemma sample_ip_wf src dst :
  in_width 32 src -> src <> 0 -> in_width 32 dst -> dst <> 0 -> ip_wf (sample_ip src dst).
Proof. intros. apply Build_ip_wf; try done. exists 1%nat. split; [lia|done]. Qed.

Lemma sample_frame_wf t :
  t = sample_vxlan \/ t = sample_gtp 0x11 -> frame_wf (seqZ 1 12) (sample_ip 0x01a8c0 0x02a8c0) t.
Proof.
  intros Ht. split; [done|]. split; [by apply sample_ip_wf|].
  destruct Ht as [-> | ->]; (split; [by repeat split|]); (split; [done|]); (split; [by apply sample_ip_wf|by repeat split]).
Qed.

Lemma parse_packet_safe_witness :
  let data := frame (seqZ 1 12) (sample_ip 0x01a8c0 0x02a8c0) sample_vxlan (replicate 100 0) in
  exists p, simple_fwd_parse_packet data 300 pinfo_zero = Ret (p, 0)
    /\ let p := set_origin 1 0 77 p in
       exists k m, simple_fwd_ft_key_fill data p = Ret (Some k) /\ key_wf k
         /\ simple_fwd_build_entry_match data p = Ret m /\ key_matches p k m.
Proof.
  intros data. destruct (parse_packet_safe data 300 1 0 77) as (p & r & E & Hr & H).
  - vm_compute. discriminate.
  - apply (bool_decide_unpack _). vm_compute. exact I.
  - split; lia.
  - assert (r = 0) as Hz by (assert (match simple_fwd_parse_packet data 300 pinfo_zero with Ret (_, r) => r | _ => -1 end = 0) as H0
      by (vm_compute; reflexivity); rewrite E in H0; exact H0).
    destruct (H Hz) as (k & m & H1 & H2 & H3 & H4 & _). subst r. exists p. split; [exact E|]. exists k, m. by split_and!.
Defined.

Lemma flow_key_roundtrip_witness :
  exists p, simple_fwd_parse_packet (frame (seqZ 1 12) (sample_ip 0x01a8c0 0x02a8c0) sample_vxlan (replicate 100 0))
      300 pinfo_zero = Ret (p, 0)
    /\ simple_fwd_ft_key_fill (frame (seqZ 1 12) (sample_ip 0x01a8c0 0x02a8c0) sample_vxlan (replicate 100 0))
         (set_origin 1 0 77 p)
       = Ret (Some (FtKey 0x0100000a 0x0200000a 0x5000 0xbb01 0x2a0000 17 1 1 0 77)).
Proof.
  destruct (flow_key_roundtrip (seqZ 1 12) (sample_ip 0x01a8c0 0x02a8c0) sample_vxlan (replicate 100 0) 300 1 0 77)
    as (p & v & E & Hk & Hv).
  - apply sample_frame_wf. by left.
  - vm_compute. discriminate.
  - vm_compute. discriminate.
  - exists p. split; [exact E|]. specialize (Hv ltac:(discriminate)). injection Hv as <-. exact Hk.
Defined.

Lemma gtp_tunnels_share_key_witness :
  exists p1 p2 k1 k2,
    simple_fwd_parse_packet (frame (seqZ 1 12) (sample_ip 0x01a8c0 0x02a8c0) (sample_gtp 0x11) (replicate 100 0))
      300 pinfo_zero = Ret (p1, 0)
    /\ simple_fwd_parse_packet (frame (seqZ 1 12) (sample_ip 0x01a8c0 0x02a8c0) (sample_gtp 0x22) (replicate 100 0))
      300 pinfo_zero = Ret (p2, 0)
    /\ simple_fwd_ft_key_fill (frame (seqZ 1 12) (sample_ip 0x01a8c0 0x02a8c0) (sample_gtp 0x11) (replicate 100 0))
         (set_origin 1 0 77 p1) = Ret (Some k1)
    /\ simple_fwd_ft_key_fill (frame (seqZ 1 12) (sample_ip 0x01a8c0 0x02a8c0) (sample_gtp 0x22) (replicate 100 0))
         (set_origin 1 0 77 p2) = Ret (Some k2)
    /\ simple_fwd_ft_key_equal k1 k2 = true.
Proof.
  apply (gtp_tunnels_share_key (seqZ 1 12) (sample_ip 0x01a8c0 0x02a8c0) 0x0102 [0; 80; 0; 0] 0x30 255 [0; 60] 0x11 0x22 []
           (sample_ip 0x0100000a 0x0200000a) (L4Tcp 0x5000 0xbb01 (seqZ 0 8) 0x50) (replicate 100 0) 300 1 0 77).
  - apply (sample_frame_wf (sample_gtp 0x11)). by right.
  - vm_compute. discriminate.
  - vm_compute. discriminate.
  - discriminate.
Defined.
