(* ===== verification/FwdFt.v ===== *)
(** * Flow table and packet handler of the forwarding application

    applications/simple_fwd_vnf/simple_fwd_ft.c, the per-packet part of simple_fwd.c and
    [simple_fwd_process_offload] of simple_fwd_vnf_core.c.  Entries and their statuses
    live in a heap and are designated by their addresses; a freed address is never
    handed out again, and using it is undefined.  What the environment answers (the
    clock, allocations, the DOCA Flow library) is an argument of each operation; the
    calls to the library are logged. *)
From S2P Require Import Prelude FlowTypes Switch FwdPkt.

(** ** Data *)

(** [struct simple_fwd_pipe_entry], the user data of a table entry. *)
Record simple_fwd_pipe_entry : Type := PipeEntry {
  is_hw : bool;
  total_pkts : Z;
  pe_pipe_queue : Z;
  hw_entry : option Z;
}.

Record simple_fwd_ft_entry : Type := FtEntry {
  fe_key : simple_fwd_ft_key;
  expiration : Z;
  age_sec : Z;
  last_counter : Z;
  buckets_index : Z;
  fid : Z;
  user_data : simple_fwd_pipe_entry;
}.

Definition set_expiration v (e : simple_fwd_ft_entry) :=
  FtEntry (fe_key e) v (age_sec e) (last_counter e) (buckets_index e) (fid e) (user_data e).
Definition set_age_sec v (e : simple_fwd_ft_entry) :=
  FtEntry (fe_key e) (expiration e) v (last_counter e) (buckets_index e) (fid e) (user_data e).
Definition set_last_counter v (e : simple_fwd_ft_entry) :=
  FtEntry (fe_key e) (expiration e) (age_sec e) v (buckets_index e) (fid e) (user_data e).
Definition set_user_data v (e : simple_fwd_ft_entry) :=
  FtEntry (fe_key e) (expiration e) (age_sec e) (last_counter e) (buckets_index e) (fid e) v.

(** [struct entries_status] of simple_fwd.c. *)
Record fwd_status : Type := FwdStatus { fs_failure : bool; fs_processed : Z; fs_ft_entry : Z }.

(** Calls to the library: an entry added to a pipe, and an entry removed. *)
Inductive hw_call : Type :=
| HwAdd (queue pipe : Z) (m : doca_flow_match) (aging_sec status : Z)
| HwRm (queue : Z) (entry : option Z).

(** [struct simple_fwd_ft] with its buckets, and the heap. *)
Record vnf : Type := Vnf {
  ft_size : Z;
  ft_mask : Z;
  fid_ctr : Z;
  stats_add : Z;
  stats_rm : Z;
  buckets : list (list Z);
  entries : gmap Z simple_fwd_ft_entry;
  statuses : gmap Z fwd_status;
  next_addr : Z;
  hw_calls : list hw_call;
}.

Definition set_entries es (s : vnf) :=
  Vnf (ft_size s) (ft_mask s) (fid_ctr s) (stats_add s) (stats_rm s) (buckets s) es (statuses s)
    (next_addr s) (hw_calls s).
Definition set_statuses sts (s : vnf) :=
  Vnf (ft_size s) (ft_mask s) (fid_ctr s) (stats_add s) (stats_rm s) (buckets s) (entries s) sts
    (next_addr s) (hw_calls s).
Definition log_call c (s : vnf) :=
  Vnf (ft_size s) (ft_mask s) (fid_ctr s) (stats_add s) (stats_rm s) (buckets s) (entries s) (statuses s)
    (next_addr s) (hw_calls s ++ [c]).
Definition upd_entry (a : Z) (f : simple_fwd_ft_entry -> simple_fwd_ft_entry) (s : vnf) : outcome vnf :=
  let* e := of_option DanglingPointer (entries s !! a) in
  Ret (set_entries (<[a := f e]> (entries s)) s).

Section vnf.
(** [rte_get_timer_hz()], and the pipe of each tunnel type and port ([None]: null). *)
Context (timer_hz : Z) (pipe_of : doca_flow_tun_type -> Z -> option Z).

(** ** The table *)

Definition simple_fwd_ft_update_age_sec (v : Z) (e : simple_fwd_ft_entry) : simple_fwd_ft_entry :=
  set_age_sec v e.

(** [tsc] is the value [rte_rdtsc()] returns. *)
Definition simple_fwd_ft_update_expiration (tsc : Z) (e : simple_fwd_ft_entry) : simple_fwd_ft_entry :=
  if age_sec e =? 0 then e else set_expiration (u64 (tsc + timer_hz * age_sec e)) e.

(** [reply]: the counter of the hardware entry, [None] when the query fails. *)
Definition simple_fwd_ft_update_counter (reply : option Z) (e : simple_fwd_ft_entry)
    : simple_fwd_ft_entry * bool :=
  match reply with
  | Some total => (set_last_counter total e, negb (u64 (total - last_counter e) =? 0))
  | None => (e, false)
  end.

Definition simple_fwd_aged_flow_cb (e : simple_fwd_ft_entry) (s : vnf) : vnf :=
  if is_hw (user_data e) then log_call (HwRm (pe_pipe_queue (user_data e)) (hw_entry (user_data e))) s else s.

(** [LIST_REMOVE]: the entry leaves the list it is in. *)
Definition unlink (a : Z) (bs : list (list Z)) : list (list Z) := map (filter (fun x => x <> a)) bs.

Definition _ft_destroy_entry (a : Z) (s : vnf) : outcome vnf :=
  let* e := of_option DanglingPointer (entries s !! a) in
  let s := Vnf (ft_size s) (ft_mask s) (fid_ctr s) (stats_add s) (stats_rm s) (unlink a (buckets s))
             (entries s) (statuses s) (next_addr s) (hw_calls s) in
  let s := simple_fwd_aged_flow_cb e s in
  let s := set_entries (delete a (entries s)) s in
  Ret (Vnf (ft_size s) (ft_mask s) (fid_ctr s) (stats_add s) (u64 (stats_rm s + 1)) (buckets s)
         (entries s) (statuses s) (next_addr s) (hw_calls s)).

(** The bucket's lock is taken around the removal. *)
Definition simple_fwd_ft_destroy_entry (a : Z) (s : vnf) : outcome vnf :=
  let* e := of_option DanglingPointer (entries s !! a) in
  let* _ := of_option OutOfBounds (buckets s !! Z.to_nat (buckets_index e)) in
  _ft_destroy_entry a s.

(** The first entry of the list with the key. *)
Fixpoint find_node (key : simple_fwd_ft_key) (l : list Z) (s : vnf) : outcome (option Z) :=
  match l with
  | [] => Ret None
  | a :: l' =>
      let* e := of_option DanglingPointer (entries s !! a) in
      if simple_fwd_ft_key_equal (fe_key e) key then Ret (Some a) else find_node key l' s
  end.

Definition _simple_fwd_ft_find (tsc : Z) (key : simple_fwd_ft_key) (s : vnf) : outcome (vnf * option Z) :=
  let idx := Z.land (k_rss_hash key) (ft_mask s) in
  let* first := of_option OutOfBounds (buckets s !! Z.to_nat idx) in
  let* r := find_node key first s in
  match r with
  | Some a => let* s := upd_entry a (simple_fwd_ft_update_expiration tsc) s in Ret (s, Some a)
  | None => Ret (s, None)
  end.

Definition simple_fwd_ft_find (tsc : Z) (data : list Z) (pinfo : simple_fwd_pkt_info) (s : vnf)
    : outcome (vnf * res Z) :=
  let* k := simple_fwd_ft_key_fill data pinfo in
  match k with
  | None => Ret (s, Err DOCA_ERROR_UNEXPECTED)
  | Some key =>
      let* (s, fe) := _simple_fwd_ft_find tsc key s in
      match fe with
      | None => Ret (s, Err DOCA_ERROR_NOT_FOUND)
      | Some a => Ret (s, Ok a)
      end
  end.

(** [calloc_ok]: whether the allocation of the entry succeeds.  A zeroed entry has no
    age, so that its expiration stays zero. *)
Definition simple_fwd_ft_add_new (calloc_ok : bool) (data : list Z) (pinfo : simple_fwd_pkt_info) (s : vnf)
    : outcome (vnf * res Z) :=
  let* k := simple_fwd_ft_key_fill data pinfo in
  match k with
  | None => Ret (s, Err DOCA_ERROR_UNEXPECTED)
  | Some key =>
      if negb calloc_ok then Ret (s, Err DOCA_ERROR_NO_MEMORY)
      else
        let a := next_addr s in
        let idx := Z.land (rss_hash pinfo) (ft_mask s) in
        let e := FtEntry key 0 0 0 (u16 idx) (fid_ctr s) (PipeEntry false 0 0 None) in
        let* first := of_option OutOfBounds (buckets s !! Z.to_nat idx) in
        Ret (Vnf (ft_size s) (ft_mask s) (u32 (fid_ctr s + 1)) (u64 (stats_add s + 1)) (stats_rm s)
               (<[Z.to_nat idx := a :: first]> (buckets s)) (<[a := e]> (entries s)) (statuses s)
               (a + 1) (hw_calls s), Ok a)
  end.

(** ** Software aging *)

(** The walk over a bucket: it stops at the first entry it removes.  [query a] is
    the counter of the hardware entry of the flow at [a]. *)
Fixpoint aging_walk (t : Z) (query : Z -> option Z) (l : list Z) (s : vnf) : outcome (vnf * bool) :=
  match l with
  | [] => Ret (s, false)
  | a :: l' =>
      let* e := of_option DanglingPointer (entries s !! a) in
      if negb (age_sec e =? 0) && (expiration e <? t) then
        let '(e, update) := simple_fwd_ft_update_counter (query a) e in
        let s := set_entries (<[a := e]> (entries s)) s in
        if negb update then let* s := _ft_destroy_entry a s in Ret (s, true)
        else aging_walk t query l' s
      else aging_walk t query l' s
  end.

(** [trylock]: whether the bucket's lock was free. *)
Definition simple_fwd_ft_aging_ft_entry (trylock : bool) (t : Z) (query : Z -> option Z) (i : nat) (s : vnf)
    : outcome (vnf * bool) :=
  if trylock then
    let* l := of_option OutOfBounds (buckets s !! i) in aging_walk t query l s
  else Ret (s, false).

(** [do { next = ...; } while (next)] on one bucket; the answers of the [n]-th turn. *)
Fixpoint aging_bucket (fuel : nat) (n : nat) (trylock : nat -> bool) (t : nat -> Z) (query : nat -> Z -> option Z)
    (i : nat) (s : vnf) : outcome vnf :=
  match fuel with
  | O => Undef OutOfFuel
  | S fuel' =>
      let* (s, next) := simple_fwd_ft_aging_ft_entry (trylock n) (t n) (query n) i s in
      if (next : bool) then aging_bucket fuel' (S n) trylock t query i s else Ret s
  end.

(** One pass of [simple_fwd_ft_aging_main] over the buckets from [i] on. *)
Fixpoint aging_pass (todo : nat) (trylock : nat -> bool) (t : nat -> Z) (query : nat -> Z -> option Z)
    (i : nat) (s : vnf) : outcome vnf :=
  match todo with
  | O => Ret s
  | S todo' =>
      let* s := aging_bucket (S (size (entries s))) 0 trylock t query i s in
      aging_pass todo' trylock t query (S i) s
  end.

(** Destroy the entries of every bucket. *)
Fixpoint destroy_list (l : list Z) (s : vnf) : outcome vnf :=
  match l with [] => Ret s | a :: l' => let* s := _ft_destroy_entry a s in destroy_list l' s end.
Fixpoint destroy_buckets (bs : list (list Z)) (s : vnf) : outcome vnf :=
  match bs with [] => Ret s | l :: bs' => let* s := destroy_list l s in destroy_buckets bs' s end.
Definition simple_fwd_ft_destroy (s : vnf) : outcome vnf := destroy_buckets (buckets s) s.

(** The table of [simple_fwd_ft_create]; [None] for a number of flows that is not positive. *)
Definition simple_fwd_ft_create (nb_flows : Z) : option vnf :=
  if nb_flows <=? 0 then None
  else
    let nb_flows_aligned := u32 (2 * 2 ^ Z.log2_up nb_flows) in
    Some (Vnf nb_flows_aligned (u32 (nb_flows_aligned - 1)) 0 0 0
            (replicate (Z.to_nat nb_flows_aligned) []) ∅ ∅ 1 []).

(** ** The entry callback *)

Definition upd_status (st : Z) (f : fwd_status -> fwd_status) (s : vnf) : outcome vnf :=
  let* x := of_option DanglingPointer (statuses s !! st) in
  Ret (set_statuses (<[st := f x]> (statuses s)) s).

Definition simple_fwd_check_for_valid_entry (ev : entry_event) (s : vnf) : outcome vnf :=
  match ev_user_ctx ev with
  | None => Ret s
  | Some st =>
      let* s := if negb (ev_success ev)
                then upd_status st (fun x => FwdStatus true (fs_processed x) (fs_ft_entry x)) s else Ret s in
      match ev_op ev with
      | DOCA_FLOW_ENTRY_OP_AGED =>
          let* x := of_option DanglingPointer (statuses s !! st) in
          simple_fwd_ft_destroy_entry (fs_ft_entry x) s
      | DOCA_FLOW_ENTRY_OP_ADD =>
          upd_status st (fun x => FwdStatus (fs_failure x) (fs_processed x + 1) (fs_ft_entry x)) s
      | DOCA_FLOW_ENTRY_OP_DEL =>
          let* _ := of_option DanglingPointer (statuses s !! st) in
          Ret (set_statuses (delete st (statuses s)) s)
      | DOCA_FLOW_ENTRY_OP_UPD => Ret s
      end
  end.

Fixpoint deliver (evs : list entry_event) (s : vnf) : outcome vnf :=
  match evs with
  | [] => Ret s
  | ev :: evs' => let* s := simple_fwd_check_for_valid_entry ev s in deliver evs' s
  end.

(** ** The packet handler *)

(** What the environment answers while a packet is handled. *)
Record pkt_env : Type := PktEnv {
  tsc_find : Z;
  tsc_new : Z;
  calloc_entry : bool;
  calloc_status : bool;
  rand : Z;
  add_reply : res Z;
  process_events : list entry_event;
  process_reply : doca_error_t;
}.

Definition simple_fwd_build_entry_monitor (r : Z) : Z := u32 r mod 55 + 5.

Definition SIMPLE_FWD_PORTS : Z := 2.

Definition simple_fwd_select_pipe (pinfo : simple_fwd_pkt_info) : outcome (option Z) :=
  match pi_tun_type pinfo with
  | DOCA_FLOW_TUN_GRE | DOCA_FLOW_TUN_VXLAN | DOCA_FLOW_TUN_GTPU =>
      let* _ := require (orig_port_id pinfo <? SIMPLE_FWD_PORTS) OutOfBounds in
      Ret (pipe_of (pi_tun_type pinfo) (orig_port_id pinfo))
  | _ => Ret None
  end.

(** The hardware entry and its age, or the null pointer; [ctx] is the table entry. *)
Definition simple_fwd_pipe_add_entry (env : pkt_env) (data : list Z) (pinfo : simple_fwd_pkt_info)
    (ctx : Z) (s : vnf) : outcome (vnf * option (Z * Z)) :=
  let status := next_addr s in
  let* pipe := simple_fwd_select_pipe pinfo in
  match pipe with
  | None => Ret (s, None)
  | Some pipe =>
      let* _ := require (calloc_status env) NullDeref in
      let s := Vnf (ft_size s) (ft_mask s) (fid_ctr s) (stats_add s) (stats_rm s) (buckets s) (entries s)
                 (<[status := FwdStatus false 0 ctx]> (statuses s)) (status + 1) (hw_calls s) in
      let* m := simple_fwd_build_entry_match data pinfo in
      let aging_sec := simple_fwd_build_entry_monitor (rand env) in
      let s := log_call (HwAdd (pi_pipe_queue pinfo) pipe m aging_sec status) s in
      match add_reply env with
      | Err _ => Ret (set_statuses (delete status (statuses s)) s, None)
      | Ok entry =>
          let* s := deliver (process_events env) s in
          if negb (bool_decide (process_reply env = DOCA_SUCCESS))
          then Ret (log_call (HwRm (pi_pipe_queue pinfo) (Some entry)) s, None)
          else
            let* x := of_option DanglingPointer (statuses s !! status) in
            if negb (fs_processed x =? 1) || fs_failure x
            then Ret (log_call (HwRm (pi_pipe_queue pinfo) (Some entry)) s, None)
            else Ret (s, Some (entry, aging_sec))
      end
  end.

Definition simple_fwd_handle_new_flow (env : pkt_env) (data : list Z) (pinfo : simple_fwd_pkt_info) (s : vnf)
    : outcome (vnf * option Z * Z) :=
  let* (s, r) := simple_fwd_ft_add_new (calloc_entry env) data pinfo s in
  match r with
  | Err _ => Ret (s, None, -1)
  | Ok ctx =>
      let* s := upd_entry ctx (fun e => set_user_data
        (PipeEntry (is_hw (user_data e)) (total_pkts (user_data e)) (pi_pipe_queue pinfo) (hw_entry (user_data e))) e) s in
      let* (s, hw) := simple_fwd_pipe_add_entry env data pinfo ctx s in
      let* s := upd_entry ctx (fun e => set_user_data
        (PipeEntry (is_hw (user_data e)) (total_pkts (user_data e)) (pe_pipe_queue (user_data e)) (fst <$> hw)) e) s in
      match hw with
      | None => let* s := simple_fwd_ft_destroy_entry ctx s in Ret (s, Some ctx, -1)
      | Some (_, age) =>
          let* s := upd_entry ctx (fun e => simple_fwd_ft_update_expiration (tsc_new env)
                                              (simple_fwd_ft_update_age_sec age e)) s in
          let* s := upd_entry ctx (fun e => set_user_data
            (PipeEntry true (total_pkts (user_data e)) (pe_pipe_queue (user_data e)) (hw_entry (user_data e))) e) s in
          Ret (s, Some ctx, 0)
      end
  end.

Definition simple_fwd_need_new_ft (pinfo : simple_fwd_pkt_info) : bool :=
  if negb (f_l3_type (outer pinfo) =? IPV4) then false
  else
    let l4_type := f_l4_type (outer pinfo) in
    negb (negb (l4_type =? DOCA_FLOW_PROTO_TCP) && negb (l4_type =? DOCA_FLOW_PROTO_UDP)
          && negb (l4_type =? DOCA_FLOW_PROTO_GRE)).

(** [entry->total_pkts++] *)
Definition count_packet (e : simple_fwd_ft_entry) : simple_fwd_ft_entry :=
  set_user_data (PipeEntry (is_hw (user_data e)) (u64 (total_pkts (user_data e) + 1))
                   (pe_pipe_queue (user_data e)) (hw_entry (user_data e))) e.

Definition simple_fwd_handle_packet (env : pkt_env) (data : list Z) (pinfo : simple_fwd_pkt_info) (s : vnf)
    : outcome (vnf * Z) :=
  if negb (simple_fwd_need_new_ft pinfo) then Ret (s, -1)
  else
    let* (s, r) := simple_fwd_ft_find (tsc_find env) data pinfo s in
    let* (s, ctx, r) :=
      match r with
      | Ok ctx => Ret (s, Some ctx, 0)
      | Err _ => simple_fwd_handle_new_flow env data pinfo s
      end in
    if negb (r =? 0) then Ret (s, -1)
    else
      let* ctx := of_option NullDeref ctx in
      let* s := upd_entry ctx count_packet s in
      Ret (s, 0).

(** A received packet: its memory, its length, and the port, queue and hash of its
    buffer.  The result is that of the handler, or [None] when it is not called. *)
Definition simple_fwd_process_offload (env : pkt_env) (data : list Z) (pkt_len port queue_id hash : Z) (s : vnf)
    : outcome (vnf * option Z) :=
  let* (pinfo, r) := simple_fwd_parse_packet data pkt_len pinfo_zero in
  if negb (r =? 0) then Ret (s, None)
  else
    let pinfo := set_origin port queue_id hash pinfo in
    if negb (f_l3_type (outer pinfo) =? IPV4) then Ret (s, None)
    else let* (s, r) := simple_fwd_handle_packet env data pinfo s in Ret (s, Some r).
End vnf.

(** ** The invariant *)

Record vnf_inv (s : vnf) : Prop := {
  vi_size : exists k, 0 <= k <= 16 /\ ft_size s = 2 ^ k /\ ft_mask s = 2 ^ k - 1
              /\ Z.of_nat (length (buckets s)) = 2 ^ k;
  vi_nodup : forall i l, buckets s !! i = Some l -> NoDup l;
  vi_dom : forall a, is_Some (entries s !! a) <-> exists i l, buckets s !! i = Some l /\ a ∈ l;
  vi_place : forall i l a e, buckets s !! i = Some l -> a ∈ l -> entries s !! a = Some e ->
    Z.land (k_rss_hash (fe_key e)) (ft_mask s) = Z.of_nat i /\ buckets_index e = Z.of_nat i;
  vi_uniq : forall i l a1 a2 e1 e2, buckets s !! i = Some l -> a1 ∈ l -> a2 ∈ l ->
    entries s !! a1 = Some e1 -> entries s !! a2 = Some e2 ->
    simple_fwd_ft_key_equal (fe_key e1) (fe_key e2) = true -> a1 = a2;
  vi_stats : u64 (stats_add s - stats_rm s) = u64 (Z.of_nat (size (entries s)));
  vi_fresh : forall a, next_addr s <= a -> entries s !! a = None /\ statuses s !! a = None;
  vi_hw : forall a e, entries s !! a = Some e -> is_hw (user_data e) = true -> is_Some (hw_entry (user_data e));
}.

(** The flow with key [k] in bucket [i], and its packet count. *)
Definition flow_at (s : vnf) (i : nat) (k : simple_fwd_ft_key) (a : Z) (e : simple_fwd_ft_entry) : Prop :=
  (exists l, buckets s !! i = Some l /\ a ∈ l) /\ entries s !! a = Some e
  /\ simple_fwd_ft_key_equal (fe_key e) k = true.

(** The table as a map from bucket and key to the packets counted. *)
Definition counters : Type := nat -> simple_fwd_ft_key -> option Z.
Definition represents (s : vnf) (m : counters) : Prop :=
  forall i k n, m i k = Some n <-> exists a e, flow_at s i k a e /\ total_pkts (user_data e) = n.

Lemma key_equal_refl k : simple_fwd_ft_key_equal k k = true.
Proof. by apply key_equal_bytes. Qed.
Lemma key_equal_sym k1 k2 : simple_fwd_ft_key_equal k1 k2 = true -> simple_fwd_ft_key_equal k2 k1 = true.
Proof. rewrite !key_equal_bytes. done. Qed.
Lemma key_equal_trans k1 k2 k3 :
  simple_fwd_ft_key_equal k1 k2 = true -> simple_fwd_ft_key_equal k2 k3 = true ->
  simple_fwd_ft_key_equal k1 k3 = true.
Proof. rewrite !key_equal_bytes. congruence. Qed.

Lemma flow_at_unique s i k a1 e1 a2 e2 :
  vnf_inv s -> flow_at s i k a1 e1 -> flow_at s i k a2 e2 -> a1 = a2 /\ e1 = e2.
Proof.
  intros Hi ((l & Hl & H1) & E1 & K1) ((l' & Hl' & H2) & E2 & K2). rewrite Hl in Hl'. injection Hl' as <-.
  assert (a1 = a2) as <-.
  { eapply (vi_uniq _ Hi); [exact Hl|exact H1|exact H2|exact E1|exact E2|].
    eapply key_equal_trans; [exact K1|by apply key_equal_sym]. }
  rewrite E1 in E2. by injection E2 as ->.
Qed.

Lemma unlink_lookup a bs i : unlink a bs !! i = filter (fun x => x <> a) <$> bs !! i.
Proof. unfold unlink. apply list_lookup_fmap. Qed.

Lemma filter_ne_id (a : Z) (l : list Z) : a ∉ l -> filter (fun x => x <> a) l = l.
Proof.
  induction l as [|x l IH]; [done|]. intros Hn%not_elem_of_cons. rewrite filter_cons_True by (intros Hx; apply (proj1 Hn); by rewrite Hx).
  f_equal. apply IH. by apply Hn.
Qed.

Lemma unlink_elem a bs i x :
  (exists l, unlink a bs !! i = Some l /\ x ∈ l) <-> x <> a /\ exists l, bs !! i = Some l /\ x ∈ l.
Proof.
  rewrite unlink_lookup. split.
  - intros (l & Hl & Hx). destruct (bs !! i) as [l'|]; [|discriminate Hl]. injection Hl as <-.
    apply list_elem_of_filter in Hx as [Hn Hx]. split; [done|]. by exists l'.
  - intros (Hn & l & -> & Hx). eexists. split; [reflexivity|]. by apply list_elem_of_filter.
Qed.

(** What every change below keeps: the shape of the table. *)
Definition same_shape (s s' : vnf) : Prop :=
  ft_size s' = ft_size s /\ ft_mask s' = ft_mask s /\ length (buckets s') = length (buckets s).

Lemma u64_pred a b n : u64 (a - b) = u64 (Z.of_nat n) -> (0 < n)%nat -> u64 (a - u64 (b + 1)) = u64 (Z.of_nat (n - 1)).
Proof.
  unfold uwrap. intros H Hn. rewrite Zminus_mod_idemp_r.
  replace (a - (b + 1)) with (a - b - 1) by lia. rewrite <-Zminus_mod_idemp_l, H, Zminus_mod_idemp_l.
  f_equal. lia.
Qed.

Lemma u64_succ a b n : u64 (a - b) = u64 (Z.of_nat n) -> u64 (u64 (a + 1) - b) = u64 (Z.of_nat (S n)).
Proof.
  unfold uwrap. intros H. rewrite Zminus_mod_idemp_l.
  replace (a + 1 - b) with (a - b + 1) by lia. rewrite <-Zplus_mod_idemp_l, H, Zplus_mod_idemp_l.
  f_equal. lia.
Qed.

Lemma destroy_entry_inv a e s :
  vnf_inv s -> entries s !! a = Some e ->
  exists s', _ft_destroy_entry a s = Ret s' /\ vnf_inv s' /\ buckets s' = unlink a (buckets s)
    /\ entries s' = delete a (entries s) /\ statuses s' = statuses s /\ next_addr s' = next_addr s
    /\ same_shape s s'.
Proof.
  intros [H1 H2 H3 H4 H5 H6 H7 H8] Ha. unfold _ft_destroy_entry. rewrite Ha. cbn [of_option].
  eexists. split; [reflexivity|].
  set (s1 := simple_fwd_aged_flow_cb e _).
  assert (buckets s1 = unlink a (buckets s) /\ entries s1 = entries s /\ statuses s1 = statuses s
    /\ next_addr s1 = next_addr s /\ ft_size s1 = ft_size s /\ ft_mask s1 = ft_mask s
    /\ stats_add s1 = stats_add s /\ stats_rm s1 = stats_rm s) as (Eb & Ee & Es & En & Ez & Em & Ea & Er)
    by (unfold s1, simple_fwd_aged_flow_cb; by destruct (is_hw (user_data e))).
  cbn [set_entries buckets entries statuses next_addr ft_size ft_mask stats_add stats_rm].
  split; [|split_and!; try congruence; unfold same_shape; cbn; rewrite Eb; unfold unlink; by rewrite length_map].
  split; cbn [set_entries buckets entries statuses next_addr ft_size ft_mask stats_add stats_rm];
    rewrite ?Eb, ?Ee, ?Es, ?En, ?Ez, ?Em, ?Ea, ?Er.
  - unfold unlink. by rewrite length_map.
  - intros i l Hl. rewrite unlink_lookup in Hl. destruct (buckets s !! i) as [l'|] eqn:E; [|discriminate Hl].
    injection Hl as <-. apply NoDup_filter. by eapply H2.
  - intros x. rewrite lookup_delete_is_Some, H3. setoid_rewrite unlink_elem. naive_solver.
  - intros i l x ex Hl Hx Hex. rewrite lookup_delete_Some in Hex. destruct Hex as [Hn Hex].
    destruct (proj1 (unlink_elem a (buckets s) i x)) as (_ & l' & Hl' & Hx'); [by exists l|].
    by eapply H4.
  - intros i l x1 x2 e1 e2 Hl Hx1 Hx2 E1 E2 K. rewrite lookup_delete_Some in E1, E2.
    destruct E1 as [N1 E1], E2 as [N2 E2].
    destruct (proj1 (unlink_elem a (buckets s) i x1)) as (_ & l1 & Hl1 & Hx1'); [by exists l|].
    destruct (proj1 (unlink_elem a (buckets s) i x2)) as (_ & l2 & Hl2 & Hx2'); [by exists l|].
    rewrite Hl1 in Hl2. injection Hl2 as <-. by eapply H5.
  - rewrite map_size_delete_Some by (by exists e). rewrite <-Nat.sub_1_r. apply u64_pred; [done|].
    assert (size (entries s) <> 0)%nat; [|lia]. rewrite map_size_non_empty_iff. intros E. by rewrite E, lookup_empty in Ha.
  - intros x Hx. destruct (H7 x Hx) as [E1 E2]. split; [|done]. apply lookup_delete_None. by right.
  - intros x ex Hex. rewrite lookup_delete_Some in Hex. apply H8 with x. by apply Hex.
Qed.

(** ** Changes that keep the table *)

Lemma upd_entry_ok a e f s :
  vnf_inv s -> entries s !! a = Some e -> fe_key (f e) = fe_key e -> buckets_index (f e) = buckets_index e ->
  (is_hw (user_data (f e)) = true -> is_Some (hw_entry (user_data (f e)))) ->
  upd_entry a f s = Ret (set_entries (<[a := f e]> (entries s)) s)
  /\ vnf_inv (set_entries (<[a := f e]> (entries s)) s).
Proof.
  intros [H1 H2 H3 H4 H5 H6 H7 H8] Ha Hk Hb Hh. unfold upd_entry. rewrite Ha. split; [done|].
  assert (forall x ex, (<[a := f e]> (entries s)) !! x = Some ex ->
    exists ex0, entries s !! x = Some ex0 /\ fe_key ex = fe_key ex0 /\ buckets_index ex = buckets_index ex0) as Hl.
  { intros x ex. rewrite lookup_insert_Some. intros [[<- <-]|[Hn Hx]]; [by exists e|by exists ex]. }
  split; cbn [set_entries buckets entries statuses next_addr ft_size ft_mask stats_add stats_rm]; try done.
  - intros x. rewrite lookup_insert_is_Some'. rewrite <-H3. split; [|by auto]. intros [<-|]; [by exists e|done].
  - intros i l x ex Hil Hx Hex. destruct (Hl _ _ Hex) as (e0 & E0 & -> & ->). by eapply H4.
  - intros i l x1 x2 e1 e2 Hil Hx1 Hx2 E1 E2 K. destruct (Hl _ _ E1) as (f1 & F1 & K1 & _).
    destruct (Hl _ _ E2) as (f2 & F2 & K2 & _). rewrite K1, K2 in K. by eapply H5.
  - by rewrite map_size_insert_Some by (by exists e).
  - intros x Hx. destruct (H7 x Hx) as [E1 E2]. split; [|done]. apply lookup_insert_None. split; [done|].
    intros <-. congruence.
  - intros x ex. rewrite lookup_insert_Some. intros [[<- <-]|[Hn Hx]]; [done|by eapply H8].
Qed.

(** The table is untouched; statuses, the log and the next address may change. *)
Record same_table (s s' : vnf) : Prop := {
  st_size : ft_size s' = ft_size s;
  st_mask : ft_mask s' = ft_mask s;
  st_buckets : buckets s' = buckets s;
  st_entries : entries s' = entries s;
  st_stats : stats_add s' = stats_add s /\ stats_rm s' = stats_rm s;
  st_next : next_addr s <= next_addr s';
  st_fresh : forall a, next_addr s' <= a -> statuses s' !! a = None;
}.

Lemma same_table_inv s s' : vnf_inv s -> same_table s s' -> vnf_inv s'.
Proof.
  intros [H1 H2 H3 H4 H5 H6 H7 H8] [E1 E2 E3 E4 [E5 E5'] E6 E7].
  split; rewrite ?E1, ?E2, ?E3, ?E4, ?E5, ?E5'; try done.
  intros a Ha. split; [|by apply E7]. apply H7. lia.
Qed.

Lemma same_table_trans s1 s2 s3 : same_table s1 s2 -> same_table s2 s3 -> same_table s1 s3.
Proof.
  intros [A1 A2 A3 A4 [A5 A5'] A6 A7] [B1 B2 B3 B4 [B5 B5'] B6 B7]. split; first [lia | split; congruence | congruence | done].
Qed.

Lemma log_call_table c s : vnf_inv s -> same_table s (log_call c s).
Proof. intros [_ _ _ _ _ _ H7 _]. split; cbn; try done; try lia. intros a Ha. by apply H7. Qed.

(** *** Events that report additions and removals *)

(** The status of every event is allocated, the flow being installed is not deleted,
    and no flow is reported aged. *)
Fixpoint events_ok (cur : Z) (live : gset Z) (evs : list entry_event) : Prop :=
  match evs with
  | [] => True
  | ev :: evs' =>
      match ev_user_ctx ev with
      | None => events_ok cur live evs'
      | Some c =>
          c ∈ live /\ ev_op ev <> DOCA_FLOW_ENTRY_OP_AGED
          /\ (ev_op ev = DOCA_FLOW_ENTRY_OP_DEL -> c <> cur)
          /\ events_ok cur (if bool_decide (ev_op ev = DOCA_FLOW_ENTRY_OP_DEL) then live ∖ {[c]} else live) evs'
      end
  end.

Lemma upd_status_ok c f s :
  c ∈ (dom (statuses s) : gset Z) ->
  exists sts, upd_status c f s = Ret (set_statuses sts s) /\ dom sts = (dom (statuses s) : gset Z).
Proof.
  intros [x Hx]%elem_of_dom. unfold upd_status. rewrite Hx. eexists. split; [reflexivity|].
  apply dom_insert_lookup_L. by exists x.
Qed.

Lemma check_entry_ok ev c s :
  ev_user_ctx ev = Some c -> c ∈ (dom (statuses s) : gset Z) -> ev_op ev <> DOCA_FLOW_ENTRY_OP_AGED ->
  exists sts, simple_fwd_check_for_valid_entry ev s = Ret (set_statuses sts s)
    /\ dom sts = (if bool_decide (ev_op ev = DOCA_FLOW_ENTRY_OP_DEL) then dom (statuses s) ∖ {[c]}
                  else dom (statuses s) : gset Z).
Proof.
  intros Hc Hd Hop. unfold simple_fwd_check_for_valid_entry. rewrite Hc.
  assert (exists sts, (if negb (ev_success ev) then
      upd_status c (fun x => FwdStatus true (fs_processed x) (fs_ft_entry x)) s else Ret s)
    = Ret (set_statuses sts s) /\ dom sts = (dom (statuses s) : gset Z)) as (sts & -> & Hs).
  { destruct (ev_success ev); cbn [negb]; [|by apply upd_status_ok]. exists (statuses s). split; [by destruct s|done]. }
  destruct (ev_op ev); try done.
  - destruct (upd_status_ok c (fun x => FwdStatus (fs_failure x) (fs_processed x + 1) (fs_ft_entry x))
                (set_statuses sts s)) as (sts' & -> & Hs'); [by rewrite <-Hs in Hd|].
    exists sts'. split; [done|]. rewrite Hs'. done.
  - rewrite <-Hs in Hd. apply elem_of_dom in Hd as [x Hx]. cbn [statuses set_statuses]. rewrite Hx. cbn [of_option].
    eexists. split; [reflexivity|]. rewrite dom_delete_L, Hs. done.
  - by exists sts.
Qed.

Lemma deliver_ok cur evs s :
  events_ok cur (dom (statuses s)) evs ->
  exists sts, deliver evs s = Ret (set_statuses sts s) /\ dom sts ⊆ (dom (statuses s) : gset Z)
    /\ (cur ∈ (dom (statuses s) : gset Z) -> cur ∈ (dom sts : gset Z)).
Proof.
  revert s. induction evs as [|ev evs IH]; intros s Hev; cbn [deliver events_ok] in *.
  { exists (statuses s). split; [by destruct s|]. by split. }
  destruct (ev_user_ctx ev) as [c|] eqn:Hc.
  - destruct Hev as (Hl & Ha & Hd & Hev). destruct (check_entry_ok ev c s Hc Hl Ha) as (sts & -> & Hs).
    destruct (IH (set_statuses sts s)) as (sts' & -> & H1 & H2); [cbn [statuses set_statuses]; by rewrite Hs|].
    exists sts'. split; [done|]. cbn [statuses set_statuses] in *. rewrite Hs in *. split.
    + etrans; [exact H1|]. case_bool_decide; [apply subseteq_difference_l|]; done.
    + intros Hcur. apply H2. case_bool_decide as Hop; [|done]. apply elem_of_difference. split; [done|].
      rewrite elem_of_singleton. intros ->. by apply Hd.
  - unfold simple_fwd_check_for_valid_entry. rewrite Hc. by apply IH.
Qed.

(** ** Handling a packet *)

(** A packet the parser accepted, in its memory, from one of the two ports. *)
Record pkt_ok (data : list Z) (pinfo : simple_fwd_pkt_info) : Prop := {
  pk_bytes : Forall (in_width 8) data;
  pk_room : 188 <= Z.of_nat (length data);
  pk_info : pinfo_ok pinfo;
  pk_raw : raw_ok pinfo;
  pk_port : 0 <= orig_port_id pinfo < SIMPLE_FWD_PORTS;
}.

(** The environment does its part: the status can be allocated, and the library
    reports additions and removals of the entries it was given. *)
Definition env_ok (env : pkt_env) (s : vnf) : Prop :=
  calloc_status env = true
  /\ events_ok (next_addr s + 1) ({[next_addr s + 1]} ∪ dom (statuses s)) (process_events env).

Section handler.
Context (timer_hz : Z) (pipe_of : doca_flow_tun_type -> Z -> option Z).

Lemma pipe_add_entry_ok env data pinfo ctx s :
  vnf_inv s -> pkt_ok data pinfo -> calloc_status env = true ->
  events_ok (next_addr s) ({[next_addr s]} ∪ dom (statuses s)) (process_events env) ->
  exists s' hw, simple_fwd_pipe_add_entry pipe_of env data pinfo ctx s = Ret (s', hw) /\ same_table s s'.
Proof.
  intros Hi [Hb Hl Hp Hr Hport] Hc Hev. unfold simple_fwd_pipe_add_entry.
  assert (exists o, simple_fwd_select_pipe pipe_of pinfo = Ret o) as [o ->].
  { unfold simple_fwd_select_pipe. rewrite (proj2 (Z.ltb_lt _ _)) by lia.
    destruct (pi_tun_type pinfo); by eexists. }
  destruct o as [pipe|]; [|eexists _, _; split; [reflexivity|]; destruct Hi; split; try done; try lia; naive_solver].
  rewrite Hc. cbn [require].
  destruct (build_entry_match_ok data pinfo Hb Hl Hp Hr) as (m & -> & _). set (s1 := Vnf _ _ _ _ _ _ _ _ _ _).
  assert (forall a, next_addr s + 1 <= a -> statuses s1 !! a = None) as Hf.
  { intros a Ha. cbn. apply lookup_insert_None. split; [|lia]. apply (vi_fresh _ Hi). lia. }
  assert (same_table s s1) as H1 by (split; cbn; (done || lia)).
  set (s2 := log_call _ s1). assert (same_table s s2) as H2 by (split; cbn; (done || lia)).
  destruct (add_reply env) as [entry|e].
  2:{ eexists _, _. split; [reflexivity|]. destruct H2. split; cbn in *; try done.
      intros a Ha. apply lookup_delete_None. right. by apply Hf. }
  destruct (deliver_ok (next_addr s) (process_events env) s2) as (sts & -> & Hsub & Hcur).
  { cbn. rewrite dom_insert_L. exact Hev. }
  set (s3 := set_statuses sts s2).
  assert (same_table s s3) as H3.
  { destruct H2 as [E1 E2 E3 E4 E5 E6 E7]. split; cbn in *; try done. intros a Ha.
    apply not_elem_of_dom. intros Hin%Hsub. rewrite elem_of_dom in Hin. destruct Hin as [x Hx]. cbn in Hx.
    rewrite Hf in Hx by lia. discriminate Hx. }
  assert (forall c, same_table s (log_call c s3)) as Hlog
    by (intros c; destruct H3; by split).
  destruct (bool_decide _); cbn [negb]; [|by eexists _, _].
  assert (is_Some (statuses s3 !! next_addr s)) as [x Hx].
  { apply elem_of_dom, Hcur. cbn. rewrite dom_insert_L. set_solver. }
  rewrite Hx. cbn [of_option]. destruct (_ || _); by eexists _, _.
Qed.

(** *** Lookup *)

Lemma find_node_ok key s l :
  (forall a, a ∈ l -> is_Some (entries s !! a)) ->
  exists r, find_node key l s = Ret r /\
    match r with
    | Some a => a ∈ l /\ exists e, entries s !! a = Some e /\ simple_fwd_ft_key_equal (fe_key e) key = true
    | None => forall a e, a ∈ l -> entries s !! a = Some e -> simple_fwd_ft_key_equal (fe_key e) key = false
    end.
Proof.
  induction l as [|a l IH]; intros Hl; cbn [find_node].
  { exists None. split; [done|]. by intros a e Ha%elem_of_nil. }
  destruct (Hl a) as [e He]; [apply elem_of_cons; by left|]. rewrite He. cbn [of_option].
  destruct (simple_fwd_ft_key_equal (fe_key e) key) eqn:K.
  - exists (Some a). split; [done|]. split; [apply elem_of_cons; by left|]. by exists e.
  - destruct IH as (r & -> & Hr); [intros x Hx; apply Hl, elem_of_cons; by right|].
    exists r. split; [done|]. destruct r as [b|].
    + destruct Hr as [Hb Hr]. split; [apply elem_of_cons; by right|done].
    + intros x ex Hx Hex. apply elem_of_cons in Hx as [->|Hx]; [congruence|by eapply Hr].
Qed.

(** The bucket of a hash. *)
Definition bucket_of (s : vnf) (hash : Z) : nat := Z.to_nat (Z.land hash (ft_mask s)).

Lemma bucket_of_lookup s hash : vnf_inv s -> exists l, buckets s !! bucket_of s hash = Some l
  /\ Z.of_nat (bucket_of s hash) = Z.land hash (ft_mask s) /\ Z.land hash (ft_mask s) < 2 ^ 16.
Proof.
  intros Hi. destruct (vi_size _ Hi) as (k & Hk & _ & Hm & Hl). unfold bucket_of. rewrite Hm.
  replace (2 ^ k - 1) with (Z.ones k) by (rewrite Z.ones_equiv; lia). rewrite Z.land_ones by lia.
  pose proof (Z.mod_pos_bound hash (2 ^ k) ltac:(apply Z.pow_pos_nonneg; lia)) as Hb.
  destruct (lookup_lt_is_Some_2 (buckets s) (Z.to_nat (hash mod 2 ^ k))) as [l E]; [lia|].
  exists l. split; [done|]. split; [lia|]. assert (2 ^ k <= 2 ^ 16) by (apply Z.pow_le_mono_r; lia). lia.
Qed.

Lemma ft_find_ok tsc key s :
  vnf_inv s ->
  let i := bucket_of s (k_rss_hash key) in
  exists r,
    match r with
    | Some (a, e) => flow_at s i key a e
        /\ _simple_fwd_ft_find timer_hz tsc key s
           = Ret (set_entries (<[a := simple_fwd_ft_update_expiration timer_hz tsc e]> (entries s)) s, Some a)
        /\ vnf_inv (set_entries (<[a := simple_fwd_ft_update_expiration timer_hz tsc e]> (entries s)) s)
    | None => (forall a e, ~ flow_at s i key a e) /\ _simple_fwd_ft_find timer_hz tsc key s = Ret (s, None)
    end.
Proof.
  intros Hi i. destruct (bucket_of_lookup s (k_rss_hash key) Hi) as (l & Hl & _). fold i in Hl.
  unfold _simple_fwd_ft_find. fold i. unfold i in Hl |- *. unfold bucket_of in Hl. rewrite Hl. cbn [of_option].
  fold (bucket_of s (k_rss_hash key)) in Hl. fold i in Hl.
  destruct (find_node_ok key s l) as (r & -> & Hr).
  { intros a Ha. apply (vi_dom _ Hi). by exists i, l. }
  destruct r as [a|].
  - destruct Hr as (Ha & e & He & K). exists (Some (a, e)). split; [split; [by exists l|done]|].
    destruct (upd_entry_ok a e (simple_fwd_ft_update_expiration timer_hz tsc) s Hi He) as [-> Hi'];
      [unfold simple_fwd_ft_update_expiration; case_if; (done || exact (vi_hw _ Hi a e He))..|].
    done.
  - exists None. split; [|done]. intros a e ((l' & Hl' & Ha) & He & K).
    assert (Some l' = Some l) as [= ->] by (by rewrite <-Hl, <-Hl'). by rewrite (Hr a e Ha He) in K.
Qed.

(** *** A new entry *)

(** The table with the entry [e] at [a], first of bucket [i]. *)
Definition inserted (s : vnf) (i : nat) (l : list Z) (a : Z) (e : simple_fwd_ft_entry) (s' : vnf) : Prop :=
  buckets s' = <[i := a :: l]> (buckets s) /\ entries s' = <[a := e]> (entries s)
  /\ ft_mask s' = ft_mask s /\ ft_size s' = ft_size s.

Lemma inserted_elem s i l j x :
  buckets s !! i = Some l -> let a := next_addr s in
  (exists l', <[i := a :: l]> (buckets s) !! j = Some l' /\ x ∈ l')
  <-> (j = i /\ x = a) \/ exists l', buckets s !! j = Some l' /\ x ∈ l'.
Proof using Type.
  intros Hl a. destruct (decide (j = i)) as [->|Hn].
  - rewrite list_lookup_insert_eq by (by eapply lookup_lt_Some). rewrite Hl. split.
    + intros (l' & [= <-] & Hx). apply elem_of_cons in Hx as [->|Hx]; [by left|right; by exists l].
    + intros [[_ ->]|(l' & [= <-] & Hx)]; eexists; (split; [reflexivity|]); apply elem_of_cons; auto.
  - rewrite list_lookup_insert_ne by done. naive_solver.
Qed.

Lemma add_new_ok data pinfo s key :
  vnf_inv s -> simple_fwd_ft_key_fill data pinfo = Ret (Some key) -> k_rss_hash key = rss_hash pinfo ->
  let i := bucket_of s (k_rss_hash key) in
  (forall a e, ~ flow_at s i key a e) ->
  exists s' l, simple_fwd_ft_add_new true data pinfo s = Ret (s', Ok (next_addr s))
    /\ vnf_inv s' /\ buckets s !! i = Some l /\ next_addr s' = next_addr s + 1 /\ statuses s' = statuses s
    /\ inserted s i l (next_addr s)
         (FtEntry key 0 0 0 (Z.of_nat i) (fid_ctr s) (PipeEntry false 0 0 None)) s'.
Proof using Type.
  intros Hi Hk Hh i Hfree. destruct (bucket_of_lookup s (k_rss_hash key) Hi) as (l & Hl & Hz & Hlt).
  fold i in Hl, Hz. unfold simple_fwd_ft_add_new. rewrite Hk. cbn [negb]. rewrite <-Hh, <-Hz, Nat2Z.id, Hl.
  cbn [of_option]. rewrite (uwrap_id 16 (Z.of_nat i)) by (split; lia).
  set (a := next_addr s). set (e := FtEntry _ _ _ _ _ _ _). eexists _, l. split; [reflexivity|].
  split; [|split_and!; try done; by split_and!].
  destruct Hi as [H1 H2 H3 H4 H5 H6 H7 H8]. destruct (H7 a) as [Ha Ha']; [lia|].
  assert (forall i l x, buckets s !! i = Some l -> x ∈ l -> x <> a) as Hna.
  { intros i0 l0 x Hl0 Hx ->. assert (is_Some (entries s !! a)) as [y Hy] by (apply H3; by exists i0, l0). congruence. }
  assert (forall j l0 x, <[i := a :: l]> (buckets s) !! j = Some l0 -> x ∈ l0 ->
    (j = i /\ x = a) \/ (x <> a /\ exists l', buckets s !! j = Some l' /\ x ∈ l')) as Hel.
  { intros j l0 x Hl0 Hx. destruct (proj1 (inserted_elem s i l j x Hl)) as [?|(l' & Hl' & Hx')]; [by exists l0|by left|].
    right. split; [by eapply Hna|]. by exists l'. }
  split; cbn [buckets entries statuses next_addr ft_size ft_mask stats_add stats_rm].
  - by rewrite length_insert.
  - intros j l0 Hl0. destruct (decide (j = i)) as [->|Hn].
    + rewrite list_lookup_insert_eq in Hl0 by (by eapply lookup_lt_Some). injection Hl0 as <-.
      apply NoDup_cons. split; [|by eapply H2]. intros Hx. by eapply Hna.
    + rewrite list_lookup_insert_ne in Hl0 by done. by eapply H2.
  - intros x. rewrite lookup_insert_is_Some', H3. split.
    + intros [<-|(j & Hj)]; [exists i|exists j]; apply (inserted_elem s i l _ _ Hl); [by left|by right].
    + intros (j & Hj). apply (inserted_elem s i l _ _ Hl) in Hj as [[_ ->]|Hj]; [by left|right; by exists j].
  - intros j l0 x ex Hl0 Hx Hex. destruct (Hel j l0 x Hl0 Hx) as [[-> ->]|(Hn & l' & Hl' & Hx')].
    + rewrite lookup_insert_eq in Hex. injection Hex as <-. cbn. split; [done|]. done.
    + rewrite lookup_insert_ne in Hex by done. by eapply H4.
  - intros j l0 x1 x2 e1 e2 Hl0 Hx1 Hx2 E1 E2 K.
    destruct (Hel j l0 x1 Hl0 Hx1) as [[-> ->]|(N1 & l1 & Hl1 & Hx1')],
             (Hel _ l0 x2 Hl0 Hx2) as [[Hj ->]|(N2 & l2 & Hl2 & Hx2')]; [done|..].
    + rewrite lookup_insert_eq in E1. injection E1 as <-. rewrite lookup_insert_ne in E2 by done.
      destruct (Hfree x2 e2). split; [by exists l2|]. split; [done|]. by apply key_equal_sym.
    + subst j. rewrite lookup_insert_eq in E2. injection E2 as <-. rewrite lookup_insert_ne in E1 by done.
      destruct (Hfree x1 e1). split; [by exists l1|]. by split.
    + rewrite lookup_insert_ne in E1, E2 by done. rewrite Hl1 in Hl2. injection Hl2 as <-. by eapply H5.
  - rewrite map_size_insert_None by done. by apply u64_succ.
  - intros x Hx. destruct (H7 x) as [E1 E2]; [lia|]. split; [|done]. apply lookup_insert_None. split; [done|lia].
  - intros x ex. rewrite lookup_insert_Some. intros [[<- <-]|[Hn Hx]]; [done|by eapply H8].
Qed.

(** Removing the new entry gives the table back. *)
Lemma unlink_inserted s i l :
  vnf_inv s -> buckets s !! i = Some l -> unlink (next_addr s) (<[i := next_addr s :: l]> (buckets s)) = buckets s.
Proof using Type.
  intros Hi Hl. set (a := next_addr s).
  assert (forall j l0, buckets s !! j = Some l0 -> filter (fun x => x <> a) l0 = l0) as Hf.
  { intros j l0 Hl0. apply filter_ne_id. intros Hx.
    assert (is_Some (entries s !! a)) as [y Hy] by (apply (vi_dom _ Hi); by exists j, l0).
    destruct (vi_fresh _ Hi a) as [E _]; [lia|]. congruence. }
  apply list_eq. intros j. rewrite unlink_lookup. destruct (decide (j = i)) as [->|Hn].
  - rewrite list_lookup_insert_eq by (by eapply lookup_lt_Some). rewrite Hl. cbn [fmap option_fmap option_map].
    rewrite filter_cons_False by (intros H; by apply H). by rewrite (Hf _ _ Hl).
  - rewrite list_lookup_insert_ne by done. destruct (buckets s !! j) as [l0|] eqn:E; [|done].
    cbn. by rewrite (Hf _ _ E).
Qed.

Lemma inserted_upd s i l a e s1 f :
  vnf_inv s1 -> inserted s i l a e s1 -> fe_key (f e) = fe_key e -> buckets_index (f e) = buckets_index e ->
  (is_hw (user_data (f e)) = true -> is_Some (hw_entry (user_data (f e)))) ->
  exists s2, upd_entry a f s1 = Ret s2 /\ vnf_inv s2 /\ inserted s i l a (f e) s2
    /\ next_addr s2 = next_addr s1 /\ statuses s2 = statuses s1.
Proof using Type.
  intros Hi (Hb & He & Hm & Hs) Hk Hx Hh.
  destruct (upd_entry_ok a e f s1 Hi) as [-> Hi']; [by rewrite He, lookup_insert_eq|done..|].
  eexists. split; [reflexivity|]. split; [done|]. split; [|done]. split_and!; cbn; try done.
  by rewrite He, insert_insert_eq.
Qed.

Lemma inserted_same_table s i l a e s1 s2 : inserted s i l a e s1 -> same_table s1 s2 -> inserted s i l a e s2.
Proof using Type. intros (Hb & He & Hm & Hs) [E1 E2 E3 E4 _ _ _]. split_and!; congruence. Qed.

Lemma new_flow_ok env data pinfo s key :
  vnf_inv s -> pkt_ok data pinfo -> env_ok env s ->
  simple_fwd_ft_key_fill data pinfo = Ret (Some key) -> k_rss_hash key = rss_hash pinfo ->
  let i := bucket_of s (k_rss_hash key) in
  (forall a e, ~ flow_at s i key a e) ->
  exists s' ctx r, simple_fwd_handle_new_flow timer_hz pipe_of env data pinfo s = Ret (s', ctx, r)
    /\ vnf_inv s' /\ ft_mask s' = ft_mask s
    /\ ((r = -1 /\ buckets s' = buckets s /\ entries s' = entries s)
        \/ (r = 0 /\ ctx = Some (next_addr s) /\ exists l e, buckets s !! i = Some l
            /\ inserted s i l (next_addr s) e s' /\ fe_key e = key /\ total_pkts (user_data e) = 0)).
Proof using Type.
  intros Hi Hp [Hc Hev] Hk Hh i Hfree. unfold simple_fwd_handle_new_flow.
  destruct (calloc_entry env).
  2:{ unfold simple_fwd_ft_add_new. rewrite Hk. cbn [negb]. eexists _, _, _. split; [reflexivity|].
      split; [done|]. split; [done|]. by left. }
  destruct (add_new_ok data pinfo s key Hi Hk Hh Hfree) as (s1 & l & -> & Hi1 & Hl & Hn1 & Hs1 & Hins). fold i in Hl, Hins.
  match goal with |- context [upd_entry _ ?f s1] =>
    destruct (inserted_upd _ _ _ _ _ _ f Hi1 Hins) as (s2 & -> & Hi2 & Hins2 & Hn2 & Hs2); [done..|] end.
  destruct (pipe_add_entry_ok env data pinfo (next_addr s) s2 Hi2 Hp Hc) as (s3 & hw & -> & Ht).
  { rewrite Hn2, Hs2, Hn1, Hs1. exact Hev. }
  pose proof (same_table_inv _ _ Hi2 Ht) as Hi3. pose proof (inserted_same_table _ _ _ _ _ _ _ Hins2 Ht) as Hins3.
  match goal with |- context [upd_entry _ ?f s3] =>
    destruct (inserted_upd _ _ _ _ _ _ f Hi3 Hins3) as (s4 & -> & Hi4 & Hins4 & _); [done..|] end.
  destruct hw as [[entry age]|].
  - match goal with |- context [upd_entry _ ?f s4] =>
      destruct (inserted_upd _ _ _ _ _ _ f Hi4 Hins4) as (s5 & -> & Hi5 & Hins5 & _) end;
      [unfold simple_fwd_ft_update_expiration, simple_fwd_ft_update_age_sec; case_if; done..|].
    match goal with |- context [upd_entry _ ?f s5] =>
      destruct (inserted_upd _ _ _ _ _ _ f Hi5 Hins5) as (s6 & -> & Hi6 & Hins6 & _) end;
      [unfold simple_fwd_ft_update_expiration; case_if; done..|].
    eexists _, _, _. split; [reflexivity|]. split; [done|]. split; [by destruct Hins6 as (_ & _ & -> & _)|].
    right. split; [done|]. split; [done|]. eexists l, _. split; [done|]. split; [exact Hins6|].
    unfold simple_fwd_ft_update_expiration. cbn. by case_if.
  - destruct Hins4 as (Hb & He & Hm & Hz). set (e4 := set_user_data _ _) in He.
    unfold simple_fwd_ft_destroy_entry. rewrite He, lookup_insert_eq. cbn [of_option].
    change (buckets_index e4) with (Z.of_nat i). rewrite Nat2Z.id, Hb, list_lookup_insert_eq by (by eapply lookup_lt_Some).
    cbn [of_option].
    destruct (destroy_entry_inv (next_addr s) e4 s4 Hi4) as (s5 & -> & Hi5 & Eb & Ee & _ & _ & _ & Em & _);
      [by rewrite He, lookup_insert_eq|].
    eexists _, _, _. split; [reflexivity|]. split; [done|]. split; [congruence|]. left. split; [done|].
    rewrite Eb, Ee, Hb, He, delete_insert_id, unlink_inserted; try done. apply (vi_fresh _ Hi). lia.
Qed.

(** *** The specification of the handler *)

(** The packet is counted for its flow; a flow that is not in the table yet starts
    with this packet. *)
Definition spec_packet (i : nat) (k : simple_fwd_ft_key) (m : counters) : counters :=
  fun i' k' =>
    if bool_decide (i' = i) && simple_fwd_ft_key_equal k k' then Some (u64 (default 0 (m i k) + 1)) else m i' k'.

Lemma represents_same s s' m :
  buckets s' = buckets s -> entries s' = entries s -> represents s m -> represents s' m.
Proof using Type. intros Hb He Hr i k n. unfold flow_at. rewrite Hb, He. apply Hr. Qed.

Lemma flow_at_bucket s i j k k' a e e' :
  vnf_inv s -> flow_at s i k a e -> flow_at s j k' a e' -> i = j /\ e = e'.
Proof using Type.
  intros Hi ((l & Hl & Ha) & He & _) ((l' & Hl' & Ha') & He' & _). rewrite He in He'. injection He' as <-.
  destruct (vi_place _ Hi _ _ _ _ Hl Ha He), (vi_place _ Hi _ _ _ _ Hl' Ha' He). split; [lia|done].
Qed.

Lemma flow_at_upd s i k a e x ex e' :
  entries s !! a = Some e -> fe_key e' = fe_key e ->
  flow_at (set_entries (<[a := e']> (entries s)) s) i k x ex
  <-> (x = a /\ ex = e' /\ flow_at s i k a e) \/ (x <> a /\ flow_at s i k x ex).
Proof using Type.
  intros Ha Hk. unfold flow_at. cbn [set_entries buckets entries]. split.
  - intros (Hb & He & K). rewrite lookup_insert_Some in He. destruct He as [[<- <-]|[Hn He]].
    + left. rewrite Hk in K. by split_and!.
    + right. split; [congruence|]. by split_and!.
  - intros [(-> & -> & Hb & He & K)|(Hn & Hb & He & K)]; (split; [done|]).
    + rewrite lookup_insert_eq, Hk. done.
    + rewrite lookup_insert_ne by congruence. done.
Qed.

(** A change of an entry that keeps its key and its count keeps the map. *)
Lemma represents_upd s m a e f :
  represents s m -> entries s !! a = Some e -> fe_key (f e) = fe_key e ->
  total_pkts (user_data (f e)) = total_pkts (user_data e) ->
  represents (set_entries (<[a := f e]> (entries s)) s) m.
Proof using Type.
  intros Hr Ha Hk Ht i k n. rewrite (Hr i k n). split.
  - intros (x & ex & Hx & <-). destruct (decide (x = a)) as [->|Hn].
    + assert (ex = e) as -> by (destruct Hx as (_ & Hx & _); congruence).
      exists a, (f e). split; [|done]. apply (flow_at_upd _ _ _ _ e); auto.
    + exists x, ex. split; [|done]. apply (flow_at_upd _ _ _ _ e); auto.
  - intros (x & ex & Hx & <-). apply (flow_at_upd s i k a e x ex (f e) Ha Hk) in Hx as [(-> & -> & Hx)|[_ Hx]]; [|by exists x, ex].
    by exists a, e.
Qed.

Lemma represents_count s m i k a e :
  vnf_inv s -> represents s m -> flow_at s i k a e ->
  represents (set_entries (<[a := count_packet e]> (entries s)) s) (spec_packet i k m).
Proof using Type.
  intros Hi Hr Hf i' k' n. pose proof Hf as (Hb & He & K). unfold spec_packet.
  assert (m i k = Some (total_pkts (user_data e))) as Hm by (apply Hr; by exists a, e). rewrite Hm. cbn [default].
  destruct (bool_decide (i' = i) && simple_fwd_ft_key_equal k k') eqn:E.
  - apply andb_prop in E as [->%bool_decide_eq_true K'].
    assert (flow_at s i k' a e) as Hf' by (split; [done|]; split; [done|]; by eapply key_equal_trans).
    split.
    + intros [= <-]. exists a, (count_packet e). split; [|done]. apply (flow_at_upd _ _ _ _ e); auto.
    + intros (x & ex & Hx & <-). apply (flow_at_upd s i k' a e x ex (count_packet e) He eq_refl) in Hx as [(-> & -> & _)|[Hn Hx]]; [done|].
      destruct (flow_at_unique _ _ _ _ _ _ _ Hi Hx Hf') as [-> _]. done.
  - assert (~ flow_at s i' k' a e) as Hnf.
    { intros Hx. destruct (flow_at_bucket _ _ _ _ _ _ _ _ Hi Hx Hf) as [-> _].
      rewrite bool_decide_eq_true_2 in E by done. destruct Hx as (_ & _ & K').
      rewrite (key_equal_trans k (fe_key e) k') in E; [done|by apply key_equal_sym|done]. }
    rewrite (Hr i' k' n). split; intros (x & ex & Hx & <-); exists x, ex; (split; [|done]).
    + apply (flow_at_upd _ _ _ _ e); [done..|]. right. split; [|done]. intros ->.
      assert (ex = e) as -> by (destruct Hx as (_ & Hx & _); congruence). done.
    + by apply (flow_at_upd s i' k' a e x ex (count_packet e) He eq_refl) in Hx as [(-> & -> & Hx)|[_ Hx]].
Qed.

(** The map with the new entry, not yet counted. *)
Lemma represents_inserted s m i l e s' :
  vnf_inv s -> represents s m -> buckets s !! i = Some l -> inserted s i l (next_addr s) e s' ->
  total_pkts (user_data e) = 0 ->
  represents s' (fun i' k' => if bool_decide (i' = i) && simple_fwd_ft_key_equal (fe_key e) k' then Some 0 else m i' k')
  \/ exists a0 e0, flow_at s i (fe_key e) a0 e0.
Proof using Type.
  intros Hi Hr Hl (Hb & He & _) Ht.
  destruct (m i (fe_key e)) as [n0|] eqn:Em; [right; destruct (proj1 (Hr _ _ _) Em) as (a0 & e0 & ? & _); by exists a0, e0|].
  left. intros i' k' n. destruct (vi_fresh _ Hi (next_addr s)) as [Ha _]; [lia|].
  assert (forall x ex, flow_at s' i' k' x ex <->
    (x = next_addr s /\ ex = e /\ i' = i /\ simple_fwd_ft_key_equal (fe_key e) k' = true) \/ flow_at s i' k' x ex) as Hfl.
  { intros x ex. unfold flow_at. rewrite Hb, He, (inserted_elem s i l i' x Hl), lookup_insert_Some. split.
    - intros ([[-> ->]|Hx] & [[Ex <-]|[Hn Hex]] & K).
      + left. by split_and!.
      + done.
      + exfalso. subst x. destruct Hx as (l' & Hl' & Hx).
        assert (is_Some (entries s !! next_addr s)) as [y Hy] by (apply (vi_dom _ Hi); by exists i', l'). congruence.
      + right. by split_and!.
    - intros [(-> & -> & -> & K)|(Hx & Hex & K)].
      + split; [by left; split|]. split; [by left|done].
      + split; [by right|]. split; [|done]. right. split; [congruence|done]. }
  destruct (bool_decide (i' = i) && simple_fwd_ft_key_equal (fe_key e) k') eqn:E.
  - apply andb_prop in E as [->%bool_decide_eq_true K]. split.
    + intros [= <-]. exists (next_addr s), e. split; [|done]. apply Hfl. left. by split_and!.
    + intros (x & ex & Hx & <-). apply Hfl in Hx as [(-> & -> & _)|Hx]; [by rewrite Ht|]. exfalso.
      assert (m i (fe_key e) = Some (total_pkts (user_data ex))) as E'; [|congruence].
      apply Hr. exists x, ex. split; [|done]. destruct Hx as (H1 & H2 & H3). split; [done|]. split; [done|].
      eapply key_equal_trans; [exact H3|by apply key_equal_sym].
  - rewrite (Hr i' k' n). split; intros (x & ex & Hx & <-); exists x, ex; (split; [|done]).
    + apply Hfl. by right.
    + apply Hfl in Hx as [(-> & -> & -> & K)|Hx]; [|done]. by rewrite bool_decide_eq_true_2, K in E.
Qed.

(** A packet of a supported transport: the handler returns, keeps the invariant, and
    counts the packet for its flow (or, when the flow could not be offloaded, changes
    no count). *)
Lemma handle_packet_ok env data pinfo s m key :
  vnf_inv s -> represents s m -> pkt_ok data pinfo -> env_ok env s ->
  simple_fwd_ft_key_fill data pinfo = Ret (Some key) -> k_rss_hash key = rss_hash pinfo ->
  exists s' r, simple_fwd_handle_packet timer_hz pipe_of env data pinfo s = Ret (s', r)
    /\ vnf_inv s' /\ ft_mask s' = ft_mask s
    /\ ((r = 0 /\ represents s' (spec_packet (bucket_of s (k_rss_hash key)) key m))
        \/ (r = -1 /\ represents s' m)).
Proof using Type.
  intros Hi Hr Hp Hev Hk Hh. unfold simple_fwd_handle_packet.
  destruct (simple_fwd_need_new_ft pinfo); cbn [negb].
  2:{ eexists _, _. split; [reflexivity|]. split; [done|]. split; [done|]. by right. }
  unfold simple_fwd_ft_find. rewrite Hk.
  destruct (ft_find_ok (tsc_find env) key s Hi) as [[[a e]|] Hfind].
  - destruct Hfind as (Hf & -> & Hi1). cbn [Z.eqb negb of_option].
    set (s1 := set_entries _ s) in *. set (e1 := simple_fwd_ft_update_expiration _ _ e) in *.
    assert (fe_key e1 = fe_key e /\ user_data e1 = user_data e /\ buckets_index e1 = buckets_index e) as (Hk1 & Hu1 & _)
      by (unfold e1, simple_fwd_ft_update_expiration; by case_if).
    pose proof Hf as (Hb & He & K).
    assert (represents s1 m) as Hr1 by (apply (represents_upd _ _ _ e (simple_fwd_ft_update_expiration timer_hz (tsc_find env))); [done..|by fold e1; rewrite Hu1]).
    assert (flow_at s1 (bucket_of s (k_rss_hash key)) key a e1) as Hf1 by (apply (flow_at_upd _ _ _ _ e); auto).
    pose proof Hf1 as (_ & He1 & _).
    destruct (upd_entry_ok a e1 count_packet s1 Hi1 He1) as [-> Hi2]; [done|done|exact (vi_hw _ Hi1 a e1 He1)|].
    eexists _, _. split; [reflexivity|]. split; [done|]. split; [done|]. left. split; [done|]. by apply represents_count.
  - destruct Hfind as (Hfree & ->).
    destruct (new_flow_ok env data pinfo s key Hi Hp Hev Hk Hh Hfree) as (s1 & ctx & r & -> & Hi1 & Hm1 & Hcase).
    destruct Hcase as [(-> & Hb & He)|(-> & -> & l & e & Hl & Hins & Hke & Ht)]; cbn [Z.eqb negb of_option].
    + eexists _, _. split; [reflexivity|]. split; [done|]. split; [done|]. right. split; [done|]. by eapply represents_same.
    + destruct (represents_inserted s m _ l e s1 Hi Hr Hl Hins Ht) as [Hr1|(a0 & e0 & Hf)]; [|rewrite Hke in Hf; by destruct (Hfree _ _ Hf)].
      destruct Hins as (Hb & He & _). rewrite Hke in Hr1.
      assert (entries s1 !! next_addr s = Some e) as Ha by (by rewrite He, lookup_insert_eq).
      destruct (upd_entry_ok (next_addr s) e count_packet s1 Hi1 Ha) as [-> Hi2]; [done|done|exact (vi_hw _ Hi1 _ e Ha)|].
      eexists _, _. split; [reflexivity|]. split; [done|]. split; [done|]. left. split; [done|].
      set (i := bucket_of s (k_rss_hash key)) in *.
      assert (flow_at s1 i key (next_addr s) e) as Hf1.
      { split; [|split; [done|by rewrite Hke; apply key_equal_refl]]. rewrite Hb. apply (inserted_elem s i l _ _ Hl). by left. }
      pose proof (represents_count _ _ _ _ _ _ Hi1 Hr1 Hf1) as Hrc. intros i' k' n. rewrite <-(Hrc i' k' n).
      assert (m i key = None) as Hmn.
      { destruct (m i key) eqn:E; [|done]. destruct (proj1 (Hr _ _ _) E) as (x & ex & Hx & _). by destruct (Hfree x ex). }
      unfold spec_packet. rewrite Hmn, (bool_decide_eq_true_2 (i = i)), key_equal_refl by done. cbn [andb default].
      by destruct (bool_decide (i' = i) && simple_fwd_ft_key_equal key k').
Qed.
End handler.

(** ** Software aging *)

(** The table as a function: what a lookup would count. *)
Definition table_counters (s : vnf) : counters := fun i k =>
  match buckets s !! i with
  | Some l =>
      match find_node k l s with
      | Ret (Some a) => (fun e => total_pkts (user_data e)) <$> entries s !! a
      | _ => None
      end
  | None => None
  end.

Lemma table_counters_represents s : vnf_inv s -> represents s (table_counters s).
Proof.
  intros Hi i k n. unfold table_counters. destruct (buckets s !! i) as [l|] eqn:Hl.
  2:{ split; [done|]. intros (a & e & ((l & Hl' & _) & _) & _). congruence. }
  destruct (find_node_ok k s l) as (r & -> & Hr).
  { intros a Ha. apply (vi_dom _ Hi). by exists i, l. }
  destruct r as [a|].
  - destruct Hr as (Ha & e & He & K). rewrite He. cbn [fmap option_fmap option_map].
    assert (flow_at s i k a e) as Hf by (split; [by exists l|done]). split.
    + intros [= <-]. by exists a, e.
    + intros (x & ex & Hx & <-). by destruct (flow_at_unique _ _ _ _ _ _ _ Hi Hx Hf) as [_ ->].
  - split; [done|]. intros (x & ex & ((l' & Hl' & Hx) & Hex & K) & _). rewrite Hl in Hl'. injection Hl' as <-.
    by rewrite (Hr x ex Hx Hex) in K.
Qed.

(** An entry the walk removes: it has an age, its time is over, and the hardware
    counter has not moved since it was last read. *)
Definition idle (t : Z) (query : Z -> option Z) (a : Z) (e : simple_fwd_ft_entry) : Prop :=
  age_sec e <> 0 /\ expiration e < t /\ forall c, query a = Some c -> u64 (c - last_counter e) = 0.

(** Only counters of entries changed. *)
Definition counters_only (s s' : vnf) : Prop :=
  buckets s' = buckets s /\ ft_mask s' = ft_mask s /\ dom (entries s') = (dom (entries s) : gset Z)
  /\ forall a e', entries s' !! a = Some e' -> exists e, entries s !! a = Some e
       /\ fe_key e' = fe_key e /\ user_data e' = user_data e.

Lemma counters_only_refl s : counters_only s s.
Proof. split_and!; try done. intros a e' He. by exists e'. Qed.

Lemma counters_only_trans s1 s2 s3 : counters_only s1 s2 -> counters_only s2 s3 -> counters_only s1 s3.
Proof.
  intros (B1 & M1 & D1 & E1) (B2 & M2 & D2 & E2). split_and!; try congruence. intros a e3 H3.
  destruct (E2 a e3 H3) as (e2 & H2 & K2 & U2). destruct (E1 a e2 H2) as (e1 & H1 & K1 & U1).
  exists e1. split_and!; congruence.
Qed.

(** One flow less. *)
Definition removed (a : Z) (s s' : vnf) : Prop :=
  is_Some (entries s !! a) /\ dom (entries s') = (dom (entries s) : gset Z) ∖ {[a]}
  /\ length (buckets s') = length (buckets s) /\ ft_mask s' = ft_mask s
  /\ forall i k x ex, flow_at s' i k x ex -> exists ex0, flow_at s i k x ex0 /\ user_data ex = user_data ex0.

Lemma destroy_removed a e s0 s s' :
  vnf_inv s -> counters_only s0 s -> entries s !! a = Some e -> _ft_destroy_entry a s = Ret s' ->
  vnf_inv s' /\ removed a s0 s'.
Proof.
  intros Hi (B & M & D & E) Ha Hd.
  destruct (destroy_entry_inv a e s Hi Ha) as (s'' & E'' & Hi' & Eb & Ee & _ & _ & (_ & Em & El)).
  rewrite Hd in E''. injection E'' as <-. split; [done|]. split_and!.
  - destruct (E a e Ha) as (e0 & H0 & _). by exists e0.
  - by rewrite Ee, dom_delete_L, D.
  - congruence.
  - congruence.
  - intros i k x ex (Hb & Hex & K). rewrite Eb in Hb. apply unlink_elem in Hb as [Hn Hb]. rewrite B in Hb.
    rewrite Ee, lookup_delete_ne in Hex by done. destruct (E x ex Hex) as (ex0 & H0 & K0 & U0).
    exists ex0. split; [|done]. split; [done|]. split; [done|]. by rewrite <-K0.
Qed.

Section aging.
Context (t : Z) (query : Z -> option Z).

Lemma update_counter_inv a e s :
  vnf_inv s -> entries s !! a = Some e ->
  let s1 := set_entries (<[a := fst (simple_fwd_ft_update_counter (query a) e)]> (entries s)) s in
  vnf_inv s1 /\ counters_only s s1.
Proof using Type.
  intros Hi Ha s1. set (e1 := fst (simple_fwd_ft_update_counter (query a) e)) in *.
  assert (fe_key e1 = fe_key e /\ user_data e1 = user_data e /\ buckets_index e1 = buckets_index e) as (K & U & B)
    by (unfold e1, simple_fwd_ft_update_counter; by destruct (query a)).
  split.
  - unfold s1. apply (upd_entry_ok a e (fun _ => e1)); try done. rewrite U. by apply (vi_hw _ Hi a).
  - split_and!; try done.
    + cbn. rewrite dom_insert_lookup_L; [done|by exists e].
    + intros x ex Hx. cbn in Hx. rewrite lookup_insert_Some in Hx. destruct Hx as [[<- <-]|[_ Hx]];
        [by exists e|by exists ex].
Qed.

(** The walk over the rest [l] of a bucket. *)
Lemma aging_walk_ok l s :
  vnf_inv s -> NoDup l -> (forall a, a ∈ l -> is_Some (entries s !! a)) ->
  exists s' b, aging_walk t query l s = Ret (s', b) /\ vnf_inv s'
    /\ if b then exists a e, a ∈ l /\ entries s !! a = Some e /\ idle t query a e /\ removed a s s'
       else counters_only s s' /\ forall a e, a ∈ l -> entries s !! a = Some e -> ~ idle t query a e.
Proof using Type.
  revert s. induction l as [|a l IH]; intros s Hi Hnd Hl; cbn [aging_walk].
  { eexists _, _. split; [reflexivity|]. split; [done|]. split; [apply counters_only_refl|]. by intros a e Ha%elem_of_nil. }
  apply NoDup_cons in Hnd as [Hna Hnd].
  destruct (Hl a) as [e He]; [apply elem_of_cons; by left|]. rewrite He. cbn [of_option].
  assert (forall s1, vnf_inv s1 -> counters_only s s1 -> (forall x, x ∈ l -> entries s1 !! x = entries s !! x) ->
    ~ idle t query a e ->
    exists s' b, aging_walk t query l s1 = Ret (s', b) /\ vnf_inv s'
    /\ if (b : bool) then exists x ex, x ∈ a :: l /\ entries s !! x = Some ex /\ idle t query x ex /\ removed x s s'
       else counters_only s s' /\ forall x ex, x ∈ a :: l -> entries s !! x = Some ex -> ~ idle t query x ex) as Hrest.
  { intros s1 Hi1 Hc Hsame Hnot. destruct (IH s1 Hi1 Hnd) as (s' & b & -> & Hi' & Hb).
    { intros x Hx. rewrite Hsame by done. apply Hl, elem_of_cons. by right. }
    exists s', b. split; [done|]. split; [done|]. destruct b.
    - destruct Hb as (x & ex & Hx & Hex & Hid & (Hs & Hd & Hlen & Hm & Hfl)). exists x, ex. rewrite Hsame in Hex by done.
      split; [apply elem_of_cons; by right|]. split; [done|]. split; [done|]. destruct Hc as (B & M & D & E).
      split_and!; [by exists ex|by rewrite Hd, D|congruence|congruence|]. intros i k y ey Hy.
      destruct (Hfl i k y ey Hy) as (ey0 & (Hb0 & He0 & K0) & U0). destruct (E y ey0 He0) as (ey1 & H1 & K1 & U1).
      exists ey1. rewrite B in Hb0. rewrite K1 in K0. split; [by split_and!|congruence].
    - destruct Hb as [Hc' Hno]. split; [by eapply counters_only_trans|]. intros x ex Hx Hex.
      apply elem_of_cons in Hx as [->|Hx]; [by rewrite He in Hex; injection Hex as <-|].
      apply Hno; [done|]. by rewrite Hsame. }
  destruct (negb (age_sec e =? 0) && (expiration e <? t)) eqn:Hage.
  - apply andb_prop in Hage as [Hg%negb_true_iff%Z.eqb_neq Hx%Z.ltb_lt].
    destruct (update_counter_inv a e s Hi He) as [Hi1 Hc1].
    destruct (simple_fwd_ft_update_counter (query a) e) as [e1 update] eqn:Eu. cbn [fst] in Hi1, Hc1.
    set (s1 := set_entries _ s) in *.
    assert (entries s1 !! a = Some e1) as Ha1 by (cbn; by rewrite lookup_insert_eq).
    destruct update; cbn [negb].
    + apply Hrest; [done|done| |].
      * intros x Hxl. cbn. rewrite lookup_insert_ne; [done|]. intros ->. done.
      * intros (_ & _ & Hq). unfold simple_fwd_ft_update_counter in Eu. destruct (query a) as [c|]; [|done].
        injection Eu as _ Eu. rewrite (Hq c eq_refl) in Eu. done.
    + destruct (destroy_entry_inv a e1 s1 Hi1 Ha1) as (s2 & E2 & _). rewrite E2.
      destruct (destroy_removed a e1 s s1 s2 Hi1 Hc1 Ha1 E2) as [Hi2 Hrm].
      eexists _, _. split; [reflexivity|]. split; [done|]. exists a, e. split; [apply elem_of_cons; by left|].
      split; [done|]. split; [|done]. split; [done|]. split; [done|]. intros c Hc.
      unfold simple_fwd_ft_update_counter in Eu. rewrite Hc in Eu. injection Eu as _ Eu.
      apply negb_false_iff in Eu. by apply Z.eqb_eq.
  - apply Hrest; [done|apply counters_only_refl|done|]. intros (H1 & H2 & _).
    rewrite (proj2 (Z.eqb_neq _ _) H1), (proj2 (Z.ltb_lt _ _) H2) in Hage. done.
Qed.
End aging.

(** Flows of [s'] are flows of [s], with their counts. *)
Definition shrinks (s s' : vnf) : Prop :=
  length (buckets s') = length (buckets s) /\ ft_mask s' = ft_mask s
  /\ dom (entries s') ⊆ (dom (entries s) : gset Z)
  /\ forall i k n, table_counters s' i k = Some n -> table_counters s i k = Some n.

Lemma shrinks_trans s1 s2 s3 : shrinks s1 s2 -> shrinks s2 s3 -> shrinks s1 s3.
Proof. intros (L1 & M1 & D1 & C1) (L2 & M2 & D2 & C2). split_and!; [congruence|congruence|by etrans|auto]. Qed.

Lemma shrinks_flows s s' :
  vnf_inv s -> vnf_inv s' -> length (buckets s') = length (buckets s) -> ft_mask s' = ft_mask s ->
  dom (entries s') ⊆ (dom (entries s) : gset Z) ->
  (forall i k x ex, flow_at s' i k x ex -> exists ex0, flow_at s i k x ex0 /\ user_data ex = user_data ex0) ->
  shrinks s s'.
Proof.
  intros Hi Hi' Hl Hm Hd Hf. split_and!; try done. intros i k n Hn.
  apply (table_counters_represents s' Hi') in Hn as (x & ex & Hx & <-). destruct (Hf i k x ex Hx) as (ex0 & Hx0 & ->).
  apply (table_counters_represents s Hi). by exists x, ex0.
Qed.

Lemma counters_only_shrinks s s' : vnf_inv s -> vnf_inv s' -> counters_only s s' -> shrinks s s'.
Proof.
  intros Hi Hi' (B & M & D & E). apply shrinks_flows; try done; [by rewrite B|by rewrite D|].
  intros i k x ex (Hb & Hex & K). destruct (E x ex Hex) as (e0 & H0 & K0 & U0). exists e0. rewrite B in Hb.
  rewrite K0 in K. by split.
Qed.

Lemma removed_shrinks a s s' : vnf_inv s -> vnf_inv s' -> removed a s s' -> shrinks s s'.
Proof.
  intros Hi Hi' (_ & D & L & M & F). apply shrinks_flows; try done. rewrite D. set_solver.
Qed.

Lemma aging_ft_entry_ok trylock t query i s :
  vnf_inv s -> (i < length (buckets s))%nat ->
  exists s' b, simple_fwd_ft_aging_ft_entry trylock t query i s = Ret (s', b) /\ vnf_inv s' /\ shrinks s s'
    /\ (b = true -> (size (entries s') < size (entries s))%nat
         /\ exists a e, entries s !! a = Some e /\ idle t query a e /\ removed a s s')
    /\ (b = false -> trylock = true -> forall l a e, buckets s !! i = Some l -> a ∈ l ->
          entries s !! a = Some e -> ~ idle t query a e).
Proof.
  intros Hi Hlt. unfold simple_fwd_ft_aging_ft_entry. destruct trylock.
  2:{ eexists _, _. split; [reflexivity|]. split; [done|]. split; [by split_and!|]. by split. }
  destruct (lookup_lt_is_Some_2 _ _ Hlt) as [l Hl]. rewrite Hl. cbn [of_option].
  destruct (aging_walk_ok t query l s Hi) as (s' & b & -> & Hi' & Hb).
  { by eapply (vi_nodup _ Hi). }
  { intros a Ha. apply (vi_dom _ Hi). by exists i, l. }
  exists s', b. split; [done|]. split; [done|]. destruct b.
  - destruct Hb as (a & e & Ha & He & Hid & Hrm). split; [by eapply removed_shrinks|]. split; [|done]. intros _.
    split; [|by exists a, e]. destruct Hrm as (_ & D & _). rewrite <-!size_dom, D.
    apply subset_size. assert (a ∈ (dom (entries s) : gset Z)) by (apply elem_of_dom; by exists e). set_solver.
  - destruct Hb as [Hc Hno]. split; [by apply counters_only_shrinks|]. split; [done|]. intros _ _ l0 a e Hl0 Ha He.
    injection Hl0 as <-. by apply Hno.
Qed.

(** The loop on one bucket ends after at most one turn per entry of the table. *)
Lemma aging_bucket_ok trylock t query i fuel n s :
  vnf_inv s -> (i < length (buckets s))%nat -> (size (entries s) < fuel)%nat ->
  exists s', aging_bucket fuel n trylock t query i s = Ret s' /\ vnf_inv s' /\ shrinks s s'.
Proof.
  revert n s. induction fuel as [|fuel IH]; intros n s Hi Hlt Hf; [lia|]. cbn [aging_bucket].
  destruct (aging_ft_entry_ok (trylock n) (t n) (query n) i s Hi Hlt) as (s1 & b & -> & Hi1 & Hs1 & Hb & _).
  destruct b; [|by exists s1].
  destruct (Hb eq_refl) as [Hlt' _]. destruct (IH (S n) s1 Hi1) as (s2 & -> & Hi2 & Hs2).
  - destruct Hs1 as (-> & _). done.
  - lia.
  - exists s2. split; [done|]. split; [done|]. by eapply shrinks_trans.
Qed.

Lemma aging_pass_ok trylock t query todo i s :
  vnf_inv s -> (i + todo <= length (buckets s))%nat ->
  exists s', aging_pass todo trylock t query i s = Ret s' /\ vnf_inv s' /\ shrinks s s'.
Proof.
  revert i s. induction todo as [|todo IH]; intros i s Hi Hlt; cbn [aging_pass].
  { exists s. split; [done|]. split; [done|]. by split_and!. }
  destruct (aging_bucket_ok trylock t query i (S (size (entries s))) 0 s Hi) as (s1 & -> & Hi1 & Hs1); [lia..|].
  destruct (IH (S i) s1 Hi1) as (s2 & -> & Hi2 & Hs2).
  { destruct Hs1 as (-> & _). lia. }
  exists s2. split; [done|]. split; [done|]. by eapply shrinks_trans.
Qed.

(** ** Sessions *)

(** A received packet with what the environment answers while it is handled. *)
Record packet_in : Type := PacketIn {
  in_env : pkt_env;
  in_data : list Z;
  in_len : Z;
  in_port : Z;
  in_queue : Z;
  in_hash : Z;
}.

Inductive vnf_op : Type :=
| Receive (p : packet_in)
| AgeOut (trylock : nat -> bool) (t : nat -> Z) (query : nat -> Z -> option Z).

Definition packet_in_ok (p : packet_in) : Prop :=
  Forall (in_width 8) (in_data p) /\ 188 <= Z.of_nat (length (in_data p)) /\ 0 <= in_port p < SIMPLE_FWD_PORTS.

Section sessions.
Context (timer_hz : Z) (pipe_of : doca_flow_tun_type -> Z -> option Z).

Definition receive (p : packet_in) (s : vnf) : outcome (vnf * option Z) :=
  simple_fwd_process_offload timer_hz pipe_of (in_env p) (in_data p) (in_len p) (in_port p) (in_queue p) (in_hash p) s.

Definition run_op (o : vnf_op) (s : vnf) : outcome (vnf * option Z) :=
  match o with
  | Receive p => receive p s
  | AgeOut trylock t query =>
      let* s := aging_pass (length (buckets s)) trylock t query 0 s in Ret (s, None)
  end.

Fixpoint run_ops (os : list vnf_op) (s : vnf) : outcome (vnf * list (option Z)) :=
  match os with
  | [] => Ret (s, [])
  | o :: os' =>
      let* (s, r) := run_op o s in
      let* (s, rs) := run_ops os' s in
      Ret (s, r :: rs)
  end.

(** The packets come from the two ports in buffers of at least 188 bytes; the status
    of an addition can be allocated, and the library reports what it was given. *)
Fixpoint session_ok (os : list vnf_op) (s : vnf) : Prop :=
  match os with
  | [] => True
  | o :: os' =>
      match o with
      | Receive p => packet_in_ok p /\ env_ok (in_env p) s
      | AgeOut _ _ _ => True
      end
      /\ forall s' r, run_op o s = Ret (s', r) -> session_ok os' s'
  end.

(** The key of a packet, from its fields. *)
Definition packet_key (p : packet_in) : option simple_fwd_ft_key :=
  match simple_fwd_parse_packet (in_data p) (in_len p) pinfo_zero with
  | Ret (pinfo, 0) =>
      match simple_fwd_ft_key_fill (in_data p) (set_origin (in_port p) (in_queue p) (in_hash p) pinfo) with
      | Ret k => k
      | Undef _ => None
      end
  | _ => None
  end.

(** The abstract machine: a map of packet counters.  A packet that was forwarded (0)
    is counted for its flow, every other packet changes nothing, aging may drop
    flows but never changes a count. *)
Inductive spec_step (buckets_mask : Z) : vnf_op -> option Z -> counters -> counters -> Prop :=
| spec_counted p k m m' :
    packet_key p = Some k ->
    (forall i k', m' i k' = spec_packet (Z.to_nat (Z.land (in_hash p) buckets_mask)) k m i k') ->
    spec_step buckets_mask (Receive p) (Some 0) m m'
| spec_ignored p r m m' :
    r <> Some 0 -> (forall i k', m' i k' = m i k') -> spec_step buckets_mask (Receive p) r m m'
| spec_aged trylock t query m m' :
    (forall i k n, m' i k = Some n -> m i k = Some n) ->
    spec_step buckets_mask (AgeOut trylock t query) None m m'.

Inductive spec_run (buckets_mask : Z) : list vnf_op -> list (option Z) -> counters -> counters -> Prop :=
| spec_done m m' : (forall i k, m' i k = m i k) -> spec_run buckets_mask [] [] m m'
| spec_more o r os rs m m1 m' :
    spec_step buckets_mask o r m m1 -> spec_run buckets_mask os rs m1 m' ->
    spec_run buckets_mask (o :: os) (r :: rs) m m'.

Lemma represents_fun s m1 m2 : represents s m1 -> represents s m2 -> forall i k, m1 i k = m2 i k.
Proof using Type.
  intros H1 H2 i k. destruct (m1 i k) as [n|] eqn:E1.
  - symmetry. by apply H2, H1.
  - destruct (m2 i k) as [n|] eqn:E2; [|done]. apply H2, H1 in E2. congruence.
Qed.

Lemma receive_ok p s :
  vnf_inv s -> packet_in_ok p -> env_ok (in_env p) s ->
  exists s' r, receive p s = Ret (s', r) /\ vnf_inv s' /\ ft_mask s' = ft_mask s
    /\ spec_step (ft_mask s) (Receive p) r (table_counters s) (table_counters s').
Proof using Type.
  intros Hi (Hb & Hl & Hport) Hev. unfold receive, simple_fwd_process_offload.
  destruct (parse_packet_ok (in_data p) (in_len p) Hl) as (pinfo & r & Ep & Hr & Hok).
  rewrite Ep. destruct Hr as [-> | ->]; cbn [Z.eqb negb].
  2:{ eexists _, _. split; [reflexivity|]. split; [done|]. split; [done|]. by apply spec_ignored. }
  specialize (Hok eq_refl). pose proof (parse_raw_ok _ _ _ _ Ep) as Hraw.
  set (q := set_origin _ _ _ pinfo). assert (pinfo_ok q) as Hq by (destruct Hok; by split).
  rewrite (fo_l3_type _ _ (po_outer _ Hq)). change (negb (IPV4 =? IPV4)) with false. cbv iota.
  pose proof (key_fill_ok (in_data p) q Hq Hl) as Ek.
  destruct (handle_packet_ok timer_hz pipe_of (in_env p) (in_data p) q s (table_counters s) (pkt_key (in_data p) q) Hi)
    as (s' & r & -> & Hi' & Hm & Hcase); try done.
  { by apply table_counters_represents. }
  eexists _, _. split; [reflexivity|]. split; [done|]. split; [done|].
  pose proof (table_counters_represents s' Hi') as Ht. destruct Hcase as [[-> Hc]|[-> Hc]].
  - apply (spec_counted _ _ (pkt_key (in_data p) q)); [|intros i k; by apply (represents_fun s')].
    unfold packet_key. rewrite Ep. fold q. by rewrite Ek.
  - apply spec_ignored; [done|]. intros i k. by apply (represents_fun s').
Qed.

(** C3: A session of packets and aging passes, in any order, is defined, keeps the
    table's invariant and refines the map of packet counters. *)
Theorem vnf_session_refines os s :
  vnf_inv s -> session_ok os s ->
  exists s' rs, run_ops os s = Ret (s', rs) /\ vnf_inv s'
    /\ spec_run (ft_mask s) os rs (table_counters s) (table_counters s').
Proof using Type.
  revert s. induction os as [|o os IH]; intros s Hi Hok; cbn [run_ops].
  { eexists _, _. split; [reflexivity|]. split; [done|]. by constructor. }
  destruct Hok as [Ho Hok].
  assert (exists s1 r, run_op o s = Ret (s1, r) /\ vnf_inv s1 /\ ft_mask s1 = ft_mask s
    /\ spec_step (ft_mask s) o r (table_counters s) (table_counters s1)) as (s1 & r & E & Hi1 & Hm & Hstep).
  { destruct o as [p|trylock t query]; cbn [run_op].
    - destruct Ho. by apply receive_ok.
    - destruct (aging_pass_ok trylock t query (length (buckets s)) 0 s Hi) as (s1 & -> & Hi1 & (_ & Hm & _ & Hc)); [lia|].
      eexists _, _. split; [reflexivity|]. split; [done|]. split; [done|]. by apply spec_aged. }
  rewrite E. destruct (IH s1 Hi1 (Hok _ _ E)) as (s' & rs & -> & Hi' & Hrun). rewrite Hm in Hrun.
  eexists _, _. split; [reflexivity|]. split; [done|]. by eapply spec_more.
Qed.
End sessions.

(** ** Creation and destruction *)

Lemma create_inv nb_flows s :
  simple_fwd_ft_create nb_flows = Some s -> nb_flows <= 2 ^ 15 ->
  vnf_inv s /\ 2 * nb_flows <= ft_size s < 4 * nb_flows.
Proof.
  unfold simple_fwd_ft_create. destruct (Z.leb_spec nb_flows 0) as [|Hpos]; [done|]. intros [= <-] Hmax.
  set (k := Z.log2_up nb_flows). assert (0 <= k <= 15) as Hk.
  { split; [apply Z.log2_up_nonneg|]. unfold k. rewrite <-(Z.log2_up_pow2 15) by lia. by apply Z.log2_up_le_mono. }
  assert (2 * 2 ^ k = 2 ^ (k + 1)) as Ek by (rewrite Z.pow_add_r by lia; lia).
  assert (0 < 2 ^ (k + 1) <= 2 ^ 16) as Hb by (split; [apply Z.pow_pos_nonneg; lia|apply Z.pow_le_mono_r; lia]).
  rewrite Ek. rewrite !(uwrap_id 32) by (split; lia).
  assert (vnf_inv (Vnf (2 ^ (k + 1)) (2 ^ (k + 1) - 1) 0 0 0 (replicate (Z.to_nat (2 ^ (k + 1))) []) ∅ ∅ 1 [])) as Hi.
  { split; cbn [ft_size ft_mask buckets entries statuses next_addr stats_add stats_rm].
    - exists (k + 1). rewrite length_replicate. split_and!; lia.
    - intros i l [-> _]%lookup_replicate. apply NoDup_nil_2.
    - intros a. rewrite lookup_empty. split; [by intros []|]. by intros (i & l & [-> _]%lookup_replicate & ?%elem_of_nil).
    - intros i l a e [-> _]%lookup_replicate ?%elem_of_nil. done.
    - intros i l a1 a2 e1 e2 [-> _]%lookup_replicate ?%elem_of_nil. done.
    - done.
    - intros a _. by rewrite !lookup_empty.
    - intros a e. by rewrite lookup_empty. }
  split; [done|]. cbn [ft_size]. rewrite <-Ek. destruct (Z.eq_dec nb_flows 1) as [E1|Hn1].
  { unfold k. rewrite E1. cbn. lia. }
  destruct (Z.log2_up_spec nb_flows) as [H1 H2]; [lia|]. fold k in H1, H2.
  assert (2 ^ k = 2 * 2 ^ Z.pred k) by (rewrite <-Z.pow_succ_r, Z.succ_pred; [done|]; unfold k;
    pose proof (Z.log2_up_pos nb_flows); lia). lia.
Qed.

Lemma destroy_list_ok l s :
  vnf_inv s -> NoDup l -> (forall a, a ∈ l -> is_Some (entries s !! a)) ->
  exists s', destroy_list l s = Ret s' /\ vnf_inv s'
    /\ forall a, entries s' !! a = if bool_decide (a ∈ l) then None else entries s !! a.
Proof.
  revert s. induction l as [|a l IH]; intros s Hi Hnd Hl; cbn [destroy_list].
  { exists s. split; [done|]. split; [done|]. intros a. by rewrite bool_decide_eq_false_2 by apply not_elem_of_nil. }
  apply NoDup_cons in Hnd as [Hna Hnd]. destruct (Hl a) as [e He]; [apply elem_of_cons; by left|].
  destruct (destroy_entry_inv a e s Hi He) as (s1 & -> & Hi1 & _ & Ee & _).
  destruct (IH s1 Hi1 Hnd) as (s' & -> & Hi' & Hs').
  { intros x Hx. rewrite Ee, lookup_delete_ne by (intros ->; done). apply Hl, elem_of_cons. by right. }
  exists s'. split; [done|]. split; [done|]. intros x. rewrite Hs', Ee.
  destruct (decide (x = a)) as [->|Hn].
  - rewrite lookup_delete_eq. rewrite (bool_decide_eq_true_2 (a ∈ a :: l)) by (apply elem_of_cons; by left).
    by destruct (bool_decide _).
  - rewrite lookup_delete_ne by done. repeat case_bool_decide; try done; exfalso; set_solver.
Qed.

Lemma destroy_buckets_ok bs s :
  vnf_inv s -> NoDup (concat bs) -> (forall a, a ∈ concat bs -> is_Some (entries s !! a)) ->
  exists s', destroy_buckets bs s = Ret s' /\ vnf_inv s'
    /\ forall a, entries s' !! a = if bool_decide (a ∈ concat bs) then None else entries s !! a.
Proof.
  revert s. induction bs as [|l bs IH]; intros s Hi Hnd Hl; cbn [destroy_buckets concat] in *.
  { exists s. split; [done|]. split; [done|]. intros a. by rewrite bool_decide_eq_false_2 by apply not_elem_of_nil. }
  apply NoDup_app in Hnd as (Hnl & Hdis & Hnb).
  destruct (destroy_list_ok l s Hi Hnl) as (s1 & -> & Hi1 & H1).
  { intros a Ha. apply Hl, elem_of_app. by left. }
  destruct (IH s1 Hi1 Hnb) as (s' & -> & Hi' & H2).
  { intros a Ha. rewrite H1, bool_decide_eq_false_2 by (intros Hal; by apply (Hdis a)). apply Hl, elem_of_app. by right. }
  exists s'. split; [done|]. split; [done|]. intros a. rewrite H2, H1.
  repeat case_bool_decide; try done; exfalso; rewrite elem_of_app in *; tauto.
Qed.

Lemma NoDup_concat_index (bs : list (list Z)) :
  (forall i l, bs !! i = Some l -> NoDup l) ->
  (forall i j l l' a, bs !! i = Some l -> bs !! j = Some l' -> a ∈ l -> a ∈ l' -> i = j) -> NoDup (concat bs).
Proof.
  induction bs as [|l bs IH]; intros Hn Hd; cbn [concat]; [apply NoDup_nil_2|]. apply NoDup_app. split_and!.
  - by apply (Hn 0%nat).
  - intros a Ha Hb. apply list_elem_of_In, in_concat in Hb as (l' & Hl' & Ha').
    apply list_elem_of_In, list_elem_of_lookup in Hl' as [j Hj]. apply list_elem_of_In in Ha'.
    by pose proof (Hd 0%nat (S j) l l' a eq_refl Hj Ha Ha').
  - apply IH; [intros i l' Hl'; by apply (Hn (S i))|]. intros i j l1 l2 a H1 H2 Ha1 Ha2.
    by pose proof (Hd (S i) (S j) l1 l2 a H1 H2 Ha1 Ha2) as [=].
Qed.

Lemma ft_destroy_ok s : vnf_inv s ->
  exists s', simple_fwd_ft_destroy s = Ret s' /\ vnf_inv s' /\ entries s' = ∅.
Proof.
  intros Hi. unfold simple_fwd_ft_destroy.
  assert (forall i j l l' a, buckets s !! i = Some l -> buckets s !! j = Some l' -> a ∈ l -> a ∈ l' -> i = j) as Hd.
  { intros i j l l' a Hl Hl' Ha Ha'. assert (is_Some (entries s !! a)) as [e He] by (apply (vi_dom _ Hi); by exists i, l).
    destruct (vi_place _ Hi _ _ _ _ Hl Ha He), (vi_place _ Hi _ _ _ _ Hl' Ha' He). lia. }
  assert (forall a, a ∈ concat (buckets s) <-> is_Some (entries s !! a)) as Hc.
  { intros a. rewrite list_elem_of_In, in_concat, (vi_dom _ Hi). setoid_rewrite <-list_elem_of_In.
    setoid_rewrite list_elem_of_lookup. naive_solver. }
  destruct (destroy_buckets_ok (buckets s) s Hi) as (s' & -> & Hi' & He).
  - apply NoDup_concat_index; [apply (vi_nodup _ Hi)|exact Hd].
  - intros a. apply Hc.
  - exists s'. split; [done|]. split; [done|]. apply map_eq. intros a. rewrite He, lookup_empty. case_bool_decide as Hin; [done|].
    rewrite Hc in Hin. by apply eq_None_not_Some.
Qed.

(** The table of up to 32768 flows has at least twice as many buckets, all empty, and
    whatever happened to a table since, destroying it frees every entry exactly once:
    the counters of additions and removals agree. *)
Theorem ft_create_destroy nb_flows :
  0 < nb_flows <= 2 ^ 15 ->
  (exists s, simple_fwd_ft_create nb_flows = Some s /\ vnf_inv s /\ 2 * nb_flows <= ft_size s < 4 * nb_flows)
  /\ forall s, vnf_inv s -> exists s', simple_fwd_ft_destroy s = Ret s' /\ entries s' = ∅
       /\ u64 (stats_add s' - stats_rm s') = 0.
Proof.
  intros Hn. split.
  - destruct (simple_fwd_ft_create nb_flows) as [s|] eqn:E.
    + exists s. split; [done|]. apply create_inv; [done|lia].
    + unfold simple_fwd_ft_create in E. destruct (Z.leb_spec nb_flows 0); [lia|discriminate E].
  - intros s Hi. destruct (ft_destroy_ok s Hi) as (s' & E & Hi' & He). exists s'. split; [done|]. split; [done|].
    rewrite (vi_stats _ Hi'), He. done.
Qed.


(** A pass over the table ends, whatever the clock, the locks and the counters say. *)
Theorem aging_pass_terminates trylock t query s :
  vnf_inv s -> exists s', aging_pass (length (buckets s)) trylock t query 0 s = Ret s' /\ vnf_inv s' /\ shrinks s s'.
Proof. intros Hi. apply aging_pass_ok; [done|lia]. Qed.

(** The software thread and the library age flows independently: a flow the thread
    removed first is freed again when the library reports it aged. *)
Theorem aged_twice_undefined st x e s s' ok :
  vnf_inv s -> statuses s !! st = Some x -> entries s !! fs_ft_entry x = Some e ->
  _ft_destroy_entry (fs_ft_entry x) s = Ret s' ->
  simple_fwd_check_for_valid_entry (Event ok DOCA_FLOW_ENTRY_OP_AGED (Some st)) s' = Undef DanglingPointer.
Proof.
  intros Hi Hst He Hd. destruct (destroy_entry_inv _ _ _ Hi He) as (s1 & E1 & _ & _ & Ee & Es & _).
  rewrite Hd in E1. injection E1 as <-. unfold simple_fwd_check_for_valid_entry, upd_status. cbn [ev_user_ctx ev_success ev_op].
  rewrite Es, Hst. cbn [of_option].
  destruct ok; cbn [negb set_statuses statuses]; rewrite ?Es, ?Hst, ?lookup_insert_eq; cbn [of_option fs_ft_entry];
    unfold simple_fwd_ft_destroy_entry; cbn [set_statuses entries]; by rewrite Ee, lookup_delete_eq.
Qed.

(** ** Witnesses *)

Definition sample_table : vnf := Vnf 8 7 0 0 0 (replicate 8 []) ∅ ∅ 1 [].

Lemma sample_table_inv : vnf_inv sample_table.
Proof. apply (create_inv 4 sample_table); [reflexivity|lia]. Qed.

(** Two packets of one VXLAN flow, the first installs it. *)
Definition sample_frame : list Z :=
  frame (seqZ 1 12) (sample_ip 0x01a8c0 0x02a8c0) sample_vxlan (replicate 100 0).
Definition first_packet : packet_in :=
  PacketIn (PktEnv 100 110 true true 3 (Ok 77) [Event true DOCA_FLOW_ENTRY_OP_ADD (Some 2)] DOCA_SUCCESS)
    sample_frame 300 1 0 77.
Definition second_packet : packet_in :=
  PacketIn (PktEnv 200 210 true true 3 (Ok 78) [] DOCA_SUCCESS) sample_frame 300 1 0 77.
Definition sample_pipes (ty : doca_flow_tun_type) (port : Z) : option Z := Some (10 + port).
Definition sample_session : list vnf_op :=
  [Receive first_packet; Receive second_packet; AgeOut (fun _ => true) (fun _ => 100000) (fun _ _ => None)].

Lemma sample_packet_ok p : in_data p = sample_frame -> in_port p = 1 -> packet_in_ok p.
Proof.
  intros Hd Hp. split; [|split].
  - rewrite Hd. apply (bool_decide_unpack _). vm_compute. exact I.
  - rewrite Hd. vm_compute. discriminate.
  - rewrite Hp. unfold SIMPLE_FWD_PORTS. lia.
Qed.

Lemma sample_session_ok : session_ok 1000 sample_pipes sample_session sample_table.
Proof.
  cbn [session_ok sample_session]. split.
  { split; [by apply sample_packet_ok|]. split; [done|]. cbn. split; [set_solver|]. by split_and!. }
  intros s1 r1 _. split.
  { split; [by apply sample_packet_ok|]. by split. }
  intros s2 r2 _. by split.
Qed.

Lemma vnf_session_refines_witness :
  exists s' rs, run_ops 1000 sample_pipes sample_session sample_table = Ret (s', rs) /\ vnf_inv s'
    /\ spec_run 7 sample_session rs (table_counters sample_table) (table_counters s').
Proof.
  apply (vnf_session_refines 1000 sample_pipes sample_session sample_table).
  - apply sample_table_inv.
  - apply sample_session_ok.
Defined.

(** The flow was counted twice and then aged out. *)
Lemma sample_session_counts :
  match run_ops 1000 sample_pipes (take 2 sample_session) sample_table,
        run_ops 1000 sample_pipes sample_session sample_table with
  | Ret (s1, rs), Ret (s2, _) =>
      (rs, map (fun '(_, e) => total_pkts (user_data e)) (map_to_list (entries s1)), size (entries s2), stats_rm s2)
  | _, _ => ([], [], 0%nat, 0)
  end = ([Some 0; Some 0], [2], 0%nat, 1).
Proof. vm_compute. reflexivity. Qed.

Lemma ft_create_destroy_witness :
  (exists s, simple_fwd_ft_create 8096 = Some s /\ vnf_inv s /\ 2 * 8096 <= ft_size s < 4 * 8096)
  /\ forall s, vnf_inv s -> exists s', simple_fwd_ft_destroy s = Ret s' /\ entries s' = ∅
       /\ u64 (stats_add s' - stats_rm s') = 0.
Proof. apply (ft_create_destroy 8096). lia. Defined.

(** A table with one flow, installed and out of time. *)
Definition aged_entry : simple_fwd_ft_entry :=
  FtEntry (FtKey 1 2 3 4 5 17 1 1 0 77) 10 5 9 5 0 (PipeEntry true 3 0 (Some 70)).
Definition aged_table : vnf :=
  Vnf 8 7 1 1 0 (<[5%nat := [1]]> (replicate 8 [])) {[1 := aged_entry]} {[2 := FwdStatus false 1 1]} 3 [].

Lemma aged_bucket i l a : buckets aged_table !! i = Some l -> a ∈ l -> i = 5%nat /\ l = [1] /\ a = 1.
Proof.
  unfold aged_table. cbn [buckets]. rewrite list_lookup_insert_Some.
  intros [(<- & <- & _)|(_ & [-> _]%lookup_replicate)] Ha; [|by apply elem_of_nil in Ha].
  by apply list_elem_of_singleton in Ha as ->.
Qed.

Lemma aged_table_inv : vnf_inv aged_table.
Proof.
  split.
  - exists 3. by split_and!.
  - intros i l. unfold aged_table. cbn [buckets]. rewrite list_lookup_insert_Some.
    intros [(<- & <- & _)|(_ & [-> _]%lookup_replicate)]; [apply NoDup_singleton|apply NoDup_nil_2].
  - intros a. cbn [entries aged_table]. rewrite lookup_singleton_is_Some. split.
    + intros <-. exists 5%nat, [1]. split; [reflexivity|by apply list_elem_of_singleton].
    + intros (i & l & Hl & Ha). by destruct (aged_bucket i l a Hl Ha) as (_ & _ & ->).
  - intros i l a e Hl Ha. destruct (aged_bucket i l a Hl Ha) as (-> & _ & ->). cbn [entries aged_table].
    rewrite lookup_singleton_Some. intros [_ <-]. by split.
  - intros i l a1 a2 e1 e2 Hl H1 H2. destruct (aged_bucket i l a1 Hl H1) as (_ & _ & ->).
    by destruct (aged_bucket i l a2 Hl H2) as (_ & _ & ->).
  - reflexivity.
  - intros a Ha. cbn in Ha. cbn [entries statuses aged_table]. rewrite !lookup_singleton_None. split; lia.
  - intros a e. cbn [entries aged_table]. rewrite lookup_singleton_Some. intros [_ <-] _. by eexists.
Qed.


Lemma aging_pass_terminates_witness :
  exists s', aging_pass 8 (fun _ => true) (fun _ => 11) (fun _ _ => Some 9) 0 aged_table = Ret s'
    /\ vnf_inv s' /\ shrinks aged_table s'.
Proof.
  apply (aging_pass_terminates (fun _ => true) (fun _ => 11) (fun _ _ => Some 9) aged_table). apply aged_table_inv.
Defined.

Lemma aged_twice_undefined_witness :
  exists s', _ft_destroy_entry 1 aged_table = Ret s'
    /\ simple_fwd_check_for_valid_entry (Event true DOCA_FLOW_ENTRY_OP_AGED (Some 2)) s' = Undef DanglingPointer.
Proof.
  eexists. split; [reflexivity|].
  apply (aged_twice_undefined 2 (FwdStatus false 1 1) aged_entry aged_table).
  - apply aged_table_inv.
  - reflexivity.
  - reflexivity.
  - reflexivity.
Defined.
