(* ===== verification/Pcc.v ===== *)
(** * Programmable congestion control: the device programs of the PCC application

    applications/pcc/device/rp/algo/rtt_template.c (the congestion control
    algorithm of one flow), pcc_rp_dev.c (the reaction point around it) and
    np_nic_telemetry/pcc_np_nic_telemetry_dev.c (the notification point), with the
    event accessors of include/doca_pcc_dev_event.h and the fixed-point macros of
    doca_pcc_dev_utils.h.

    A flow is a context record that every event updates; the result of an event is
    the rate for the hardware and the bit that asks for a probe.  The conditional
    compilation of the sources is the record [pcc_build].  The reciprocal of the
    processor ([__dpa_fxp_rcp]) and the library's own algorithm are parameters. *)
From S2P Require Import Prelude.

(** ** Fixed-point arithmetic *)

Definition doca_pcc_dev_mult (a b : Z) : Z := u64 (u64 a * u64 b).
Definition doca_pcc_dev_fxp_mult (a b : Z) : Z :=
  u32 (Z.land (Z.shiftr (doca_pcc_dev_mult a b) 16) 0xffffffff).

(** [x << n] on [uint32_t]: undefined when [n] is not below the width. *)
Definition shl32 (x n : Z) : outcome Z :=
  if n <? 32 then Ret (u32 (Z.shiftl x n)) else Undef BadShift.

(** [DOCA_PCC_DEV_MAX_RATE]: the whole line rate, in fixed point 20. *)
Definition DOCA_PCC_DEV_MAX_RATE : Z := Z.shiftl 1 20.

(** ** Events: the 32 bytes of [mlnx_cc_event_t] *)

Inductive doca_pcc_dev_event_type : Type :=
| DOCA_PCC_DEV_EVNT_NULL
| DOCA_PCC_DEV_EVNT_FW
| DOCA_PCC_DEV_EVNT_ROCE_CNP
| DOCA_PCC_DEV_EVNT_ROCE_TX
| DOCA_PCC_DEV_EVNT_ROCE_ACK
| DOCA_PCC_DEV_EVNT_ROCE_NACK
| DOCA_PCC_DEV_EVNT_RTT.

#[export] Instance event_type_eq_dec : EqDecision doca_pcc_dev_event_type.
Proof. solve_decision. Defined.

Definition event_code (t : doca_pcc_dev_event_type) : Z :=
  match t with
  | DOCA_PCC_DEV_EVNT_NULL => 0
  | DOCA_PCC_DEV_EVNT_FW => 1
  | DOCA_PCC_DEV_EVNT_ROCE_CNP => 2
  | DOCA_PCC_DEV_EVNT_ROCE_TX => 3
  | DOCA_PCC_DEV_EVNT_ROCE_ACK => 4
  | DOCA_PCC_DEV_EVNT_ROCE_NACK => 5
  | DOCA_PCC_DEV_EVNT_RTT => 6
  end.

Definition DOCA_PCC_DEV_TX_FLAG_RTT_REQ_SENT : Z := Z.shiftl 1 2.

(** The four 8-bit fields of the attribute word, from the lowest bits. *)
Record doca_pcc_dev_event_general_attr_t : Type := EvAttr {
  ev_type : Z; ev_subtype : Z; port_num : Z; ev_flags : Z
}.

Definition doca_pcc_dev_get_ev_attr (event : list Z) : doca_pcc_dev_event_general_attr_t :=
  let value := bswap 4 (load 0 4 event) in
  EvAttr (u8 value) (u8 (Z.shiftr value 8)) (u8 (Z.shiftr value 16)) (u8 (Z.shiftr value 24)).
Definition doca_pcc_dev_get_flowtag (event : list Z) : Z := bswap 4 (load 4 4 event).
Definition doca_pcc_dev_get_sn (event : list Z) : Z := bswap 4 (load 8 4 event).
Definition doca_pcc_dev_get_timestamp (event : list Z) : Z := bswap 4 (load 12 4 event).
Definition doca_pcc_dev_get_rtt_req_send_timestamp (event : list Z) : Z := bswap 4 (load 16 4 event).
Definition doca_pcc_dev_get_rtt_req_recv_timestamp (event : list Z) : Z := bswap 4 (load 20 4 event).
Definition doca_pcc_dev_get_rtt_resp_send_timestamp (event : list Z) : Z := bswap 4 (load 24 4 event).
(** The 16 bytes of [ev_spec_attr], as they are. *)
Definition doca_pcc_dev_get_rtt_raw_data (event : list Z) : list Z := drop 16 event.

(** ** Parameters of the algorithm *)

Inductive rtt_template_params_t : Type :=
| RTT_TEMPLATE_UPDATE_FACTOR
| RTT_TEMPLATE_AI
| RTT_TEMPLATE_BASE_RTT
| RTT_TEMPLATE_NEW_FLOW_RATE
| RTT_TEMPLATE_MIN_RATE
| RTT_TEMPLATE_MAX_DELAY.

#[export] Instance params_eq_dec : EqDecision rtt_template_params_t.
Proof. solve_decision. Defined.

Definition RTT_TEMPLATE_PARAM_NUM : Z := 6.
Definition RTT_TEMPLATE_COUNTER_NUM : Z := 2.

Definition UPDATE_FACTOR : Z := 65536 * 10 / 100.
Definition AI : Z := 1048576 * 5 / 100.
Definition BASE_RTT : Z := 13000.
Definition NEW_FLOW_RATE : Z := 1048576.
Definition MIN_RATE : Z := 64.
Definition MAX_DELAY : Z := 150000.
Definition UPDATE_FACTOR_MAX : Z := 10 * 65536.
Definition AI_MAX : Z := 1048576.
Definition RATE_MAX : Z := 1048576.
Definition BW_MB_DEFAULT : Z := 25000.

Definition ABORT_TIME : Z := 300000.
Definition BW_MB_DEFAULT_FXP16 : Z := Z.shiftl BW_MB_DEFAULT 16.
Definition NP_RX_RATE_TH : Z := 58982.
Definition HIGH_UTIL_THRESHOLD : Z := 55704.

(** The array of parameters: the code indexes it by the enumeration only. *)
Definition params : Type := rtt_template_params_t -> Z.

(** Calls of the library by [rtt_template_init]: what it declares of the algorithm. *)
Inductive init_call : Type :=
| InitMetadata (algo_idx algo_id major minor total_param_num total_counter_num : Z)
| InitParam (algo_idx param_id default_value max_value min_value permissions : Z)
| InitCounter (algo_idx counter_id max_value permissions : Z)
| InitSlot (portid algo_slot algo_idx algo_en : Z).

Definition rtt_template_init (algo_idx : Z) : list init_call :=
  [InitMetadata algo_idx 0xBFFF 0x00 0x01 RTT_TEMPLATE_PARAM_NUM RTT_TEMPLATE_COUNTER_NUM;
   InitParam algo_idx 0 UPDATE_FACTOR UPDATE_FACTOR_MAX 1 1;
   InitParam algo_idx 1 AI AI_MAX 1 1;
   InitParam algo_idx 2 BASE_RTT UINT32_MAX 1 1;
   InitParam algo_idx 3 NEW_FLOW_RATE RATE_MAX 1 1;
   InitParam algo_idx 4 MIN_RATE RATE_MAX 1 1;
   InitParam algo_idx 5 MAX_DELAY UINT32_MAX 1 1;
   InitCounter algo_idx 0 UINT32_MAX 2;
   InitCounter algo_idx 1 UINT32_MAX 2].

Definition param_id (p : rtt_template_params_t) : Z :=
  match p with
  | RTT_TEMPLATE_UPDATE_FACTOR => 0
  | RTT_TEMPLATE_AI => 1
  | RTT_TEMPLATE_BASE_RTT => 2
  | RTT_TEMPLATE_NEW_FLOW_RATE => 3
  | RTT_TEMPLATE_MIN_RATE => 4
  | RTT_TEMPLATE_MAX_DELAY => 5
  end.

(** [doca_pcc_dev_error_t]. *)
Inductive doca_pcc_dev_error_t : Type := DOCA_PCC_DEV_STATUS_OK | DOCA_PCC_DEV_STATUS_FAIL.

(** [rtt_template_set_algo_params]: pointers are [None] when null. *)
Definition rtt_template_set_algo_params (param_id_base param_num : Z)
    (new_param_values params : option (list Z)) : doca_pcc_dev_error_t :=
  if (RTT_TEMPLATE_PARAM_NUM <? param_num) || (RTT_TEMPLATE_PARAM_NUM <=? param_id_base)
  then DOCA_PCC_DEV_STATUS_FAIL
  else match new_param_values, params with
       | Some _, Some _ => DOCA_PCC_DEV_STATUS_OK
       | _, _ => DOCA_PCC_DEV_STATUS_FAIL
       end.

(** ** The flow context and the results *)

Record cc_ctxt_rtt_template_t : Type := Ctxt {
  cur_rate : Z;            (** uint32_t *)
  start_delay : Z;         (** uint32_t *)
  c_rtt : Z;               (** uint32_t *)
  was_nack : bool;
  was_cnp : bool;
  abort_cnt : Z;           (** uint8_t *)
  rtt_meas_psn : Z;        (** uint8_t *)
  rtt_req_to_rtt_sent : Z; (** uint8_t *)
  last_np_rx_bytes : Z;    (** uint32_t, only with DOCA_PCC_NP_RX_RATE *)
  last_np_rx_bytes_timestamp_us : Z;
}.

Record doca_pcc_dev_results_t : Type := Results { rate : Z; rtt_req : Z }.

Definition set_cur_rate (v : Z) (c : cc_ctxt_rtt_template_t) : cc_ctxt_rtt_template_t :=
  Ctxt v (start_delay c) (c_rtt c) (was_nack c) (was_cnp c) (abort_cnt c) (rtt_meas_psn c)
    (rtt_req_to_rtt_sent c) (last_np_rx_bytes c) (last_np_rx_bytes_timestamp_us c).
Definition set_flags (nack cnp : bool) (c : cc_ctxt_rtt_template_t) : cc_ctxt_rtt_template_t :=
  Ctxt (cur_rate c) (start_delay c) (c_rtt c) nack cnp (abort_cnt c) (rtt_meas_psn c)
    (rtt_req_to_rtt_sent c) (last_np_rx_bytes c) (last_np_rx_bytes_timestamp_us c).
(** The state of the measurement: time of the request, aborts, sequence number, requests. *)
Definition set_meas (delay cnt psn sent : Z) (c : cc_ctxt_rtt_template_t) : cc_ctxt_rtt_template_t :=
  Ctxt (cur_rate c) delay (c_rtt c) (was_nack c) (was_cnp c) cnt psn sent
    (last_np_rx_bytes c) (last_np_rx_bytes_timestamp_us c).
Definition set_rtt (v : Z) (c : cc_ctxt_rtt_template_t) : cc_ctxt_rtt_template_t :=
  Ctxt (cur_rate c) (start_delay c) v (was_nack c) (was_cnp c) (abort_cnt c) (rtt_meas_psn c)
    (rtt_req_to_rtt_sent c) (last_np_rx_bytes c) (last_np_rx_bytes_timestamp_us c).
Definition set_np (bytes ts : Z) (c : cc_ctxt_rtt_template_t) : cc_ctxt_rtt_template_t :=
  Ctxt (cur_rate c) (start_delay c) (c_rtt c) (was_nack c) (was_cnp c) (abort_cnt c) (rtt_meas_psn c)
    (rtt_req_to_rtt_sent c) bytes ts.

(** The context the library hands out for a new flow. *)
Definition ctxt_zero : cc_ctxt_rtt_template_t := Ctxt 0 0 0 false false 0 0 0 0 0.

(** The preprocessor symbols the sources test. *)
Record pcc_build : Type := Build { NP_RX_RATE : bool; SAMPLE_TX_BYTES : bool; TIME_SYNC : bool }.

(** ** The algorithm (rtt_template.c) *)

Section algorithm.
Context (fxp_recip : Z -> Z) (build : pcc_build).

(** The factors [DEC_FACTOR], [CNP_DEC_FACTOR], ... are [(1 << 16) - k * UPDATE_FACTOR]
    in unsigned arithmetic, for k = 1, 2, 5 and twice as much in high utilisation. *)
Definition dec_factor (k : Z) (param : params) : Z :=
  u32 (65536 - u32 (k * param RTT_TEMPLATE_UPDATE_FACTOR)).

(** The two clamps at the end of [algorithm_core]. *)
Definition clamp_rate (param : params) (cur_rate : Z) : Z :=
  let cur_rate := if DOCA_PCC_DEV_MAX_RATE <? cur_rate then DOCA_PCC_DEV_MAX_RATE else cur_rate in
  if cur_rate <? param RTT_TEMPLATE_MIN_RATE then param RTT_TEMPLATE_MIN_RATE else cur_rate.

Definition algorithm_core (ccctx : cc_ctxt_rtt_template_t) (rtt cur_rate : Z) (param : params)
    (is_high_util : bool) (norm_np_rx_rate : Z) : cc_ctxt_rtt_template_t * Z :=
  let '(ccctx, cur_rate) :=
    if was_nack ccctx && (param RTT_TEMPLATE_MAX_DELAY <=? rtt) then
      (set_flags false (was_cnp ccctx) ccctx,
       doca_pcc_dev_fxp_mult (if is_high_util then dec_factor 10 param else dec_factor 5 param) cur_rate)
    else if was_cnp ccctx || (param RTT_TEMPLATE_MAX_DELAY <=? rtt) then
      (set_flags (was_nack ccctx) false ccctx,
       doca_pcc_dev_fxp_mult (if is_high_util then dec_factor 4 param else dec_factor 2 param) cur_rate)
    else
      (ccctx,
       if param RTT_TEMPLATE_BASE_RTT <? rtt then
         doca_pcc_dev_fxp_mult (if is_high_util then dec_factor 2 param else dec_factor 1 param) cur_rate
       else if NP_RX_RATE build && (norm_np_rx_rate <? NP_RX_RATE_TH) then
         doca_pcc_dev_fxp_mult (fxp_recip norm_np_rx_rate) cur_rate
       else u32 (cur_rate + param RTT_TEMPLATE_AI)) in
  (ccctx, clamp_rate param cur_rate).

(** [rtt_till_now] and the measured round trip: the difference of two 32-bit times,
    corrected by [UINT32_MAX] when the later one is smaller. *)
Definition elapsed (start now : Z) : Z :=
  let d := u32 (now - start) in if now <? start then u32 (d + UINT32_MAX) else d.

Definition rtt_template_handle_roce_tx (event : list Z) (cur_rate : Z)
    (ccctx : cc_ctxt_rtt_template_t) : outcome (cc_ctxt_rtt_template_t * doca_pcc_dev_results_t) :=
  let meas_psn := rtt_meas_psn ccctx in
  let timestamp := doca_pcc_dev_get_timestamp event in
  let ev_attr := doca_pcc_dev_get_ev_attr event in
  let* (ccctx, req) :=
    if negb (Z.land (ev_flags ev_attr) DOCA_PCC_DEV_TX_FLAG_RTT_REQ_SENT =? 0) && (meas_psn =? 0) then
      Ret (set_meas timestamp (abort_cnt ccctx) 1 0 ccctx, 0)
    else
      let till_now := elapsed (start_delay ccctx) timestamp in
      let '(till_now, sent) :=
        if meas_psn =? 0 then (0, u8 (rtt_req_to_rtt_sent ccctx + 1))
        else (till_now, rtt_req_to_rtt_sent ccctx) in
      let* limit := shl32 ABORT_TIME (abort_cnt ccctx) in
      if (limit <? till_now) || (2 <? sent) then
        let cnt := if limit <? till_now then u8 (abort_cnt ccctx + 1) else abort_cnt ccctx in
        Ret (set_meas (start_delay ccctx) cnt meas_psn 1 ccctx, 1)
      else Ret (set_meas (start_delay ccctx) (abort_cnt ccctx) meas_psn sent ccctx, 0) in
  Ret (set_cur_rate cur_rate ccctx, Results cur_rate req).

(** The receive rate of the notification point relative to the line, in fixed point
    16, from the counters it put into the probe response. *)
Definition np_rx_rate (ccctx : cc_ctxt_rtt_template_t) (rtt_raw_data : list Z)
    : cc_ctxt_rtt_template_t * Z :=
  let np_rx_bytes := load 4 4 rtt_raw_data in
  let delta_np_rx_256bytes := Z.shiftr (elapsed (last_np_rx_bytes ccctx) np_rx_bytes) 8 in
  let timestamp_us := load 8 4 rtt_raw_data in
  let delta_timestamp_us := elapsed (last_np_rx_bytes_timestamp_us ccctx) timestamp_us in
  let rate := u32 (Z.shiftr (doca_pcc_dev_mult delta_np_rx_256bytes (fxp_recip delta_timestamp_us)) 8) in
  (set_np np_rx_bytes timestamp_us ccctx,
   if rate <? BW_MB_DEFAULT_FXP16
   then u32 (Z.shiftr (doca_pcc_dev_mult rate (fxp_recip BW_MB_DEFAULT)) 32) else 65536).

(** [rtt_get_last_tx_port_util]: an entry of the global table of the sampler. *)
Definition rtt_get_last_tx_port_util (g_utilized_bw : list Z) (port : Z) : outcome Z :=
  of_option OutOfBounds (g_utilized_bw !! Z.to_nat port).

Definition rtt_template_handle_roce_rtt (g_utilized_bw : list Z) (event : list Z) (cur_rate : Z)
    (param : params) (ccctx : cc_ctxt_rtt_template_t) (results : doca_pcc_dev_results_t)
    : outcome (cc_ctxt_rtt_template_t * doca_pcc_dev_results_t) :=
  if (rtt_meas_psn ccctx =? 0) && (rtt_req_to_rtt_sent ccctx =? 0) then
    Ret (ccctx, Results cur_rate 0)
  else
    let ccctx := set_meas (start_delay ccctx) 0 0 (rtt_req_to_rtt_sent ccctx) ccctx in
    let start_rtt := doca_pcc_dev_get_rtt_req_send_timestamp event in
    let end_rtt := if TIME_SYNC build then doca_pcc_dev_get_rtt_req_recv_timestamp event
                   else doca_pcc_dev_get_timestamp event in
    let rtt := i32 (end_rtt - start_rtt) in
    let rtt := if end_rtt <? start_rtt then i32 (u32 rtt + UINT32_MAX) else rtt in
    let ccctx := set_rtt (u32 rtt) ccctx in
    let* is_high_tx_util :=
      if SAMPLE_TX_BYTES build then
        let* util := rtt_get_last_tx_port_util g_utilized_bw (port_num (doca_pcc_dev_get_ev_attr event)) in
        Ret (HIGH_UTIL_THRESHOLD <? util)
      else Ret false in
    let '(ccctx, norm_np_rx_rate) :=
      if NP_RX_RATE build then np_rx_rate ccctx (doca_pcc_dev_get_rtt_raw_data event)
      else (ccctx, 65536) in
    let '(ccctx, cur_rate) := algorithm_core ccctx (u32 rtt) cur_rate param is_high_tx_util norm_np_rx_rate in
    let ccctx := set_meas (start_delay ccctx) (abort_cnt ccctx) (rtt_meas_psn ccctx) 1 ccctx in
    Ret (set_cur_rate cur_rate ccctx, Results cur_rate 1).

Definition rtt_template_handle_roce_cnp (cur_rate : Z) (ccctx : cc_ctxt_rtt_template_t)
    : cc_ctxt_rtt_template_t * doca_pcc_dev_results_t :=
  (set_cur_rate cur_rate (set_flags (was_nack ccctx) true ccctx), Results cur_rate 0).

(** The handler of NACKs does not write [rtt_req]. *)
Definition rtt_template_handle_roce_nack (cur_rate : Z) (ccctx : cc_ctxt_rtt_template_t)
    (results : doca_pcc_dev_results_t) : cc_ctxt_rtt_template_t * doca_pcc_dev_results_t :=
  (set_cur_rate cur_rate (set_flags true (was_cnp ccctx) ccctx), Results cur_rate (rtt_req results)).

Definition rtt_template_handle_new_flow (event : list Z) (param : params)
    (ccctx : cc_ctxt_rtt_template_t) : cc_ctxt_rtt_template_t * doca_pcc_dev_results_t :=
  let r := param RTT_TEMPLATE_NEW_FLOW_RATE in
  (set_flags false (was_cnp ccctx)
     (set_meas (doca_pcc_dev_get_timestamp event) 0 0 1 (set_cur_rate r ccctx)), Results r 1).

(** The two counters, or a null pointer. *)
Definition counters : Type := option (Z * Z).

Definition count_tx (c : counters) : counters := (fun '(tx, rtt) => (u32 (tx + 1), rtt)) <$> c.
Definition count_rtt (c : counters) : counters := (fun '(tx, rtt) => (tx, u32 (rtt + 1))) <$> c.

Definition rtt_template_algo (g_utilized_bw : list Z) (event : list Z) (param : params)
    (counter : counters) (ctx : cc_ctxt_rtt_template_t) (results : doca_pcc_dev_results_t)
    : outcome (cc_ctxt_rtt_template_t * doca_pcc_dev_results_t * counters) :=
  let t := ev_type (doca_pcc_dev_get_ev_attr event) in
  let cur_rate := cur_rate ctx in
  if cur_rate =? 0 then
    Ret (rtt_template_handle_new_flow event param ctx, counter)
  else if t =? event_code DOCA_PCC_DEV_EVNT_ROCE_TX then
    let* r := rtt_template_handle_roce_tx event cur_rate ctx in Ret (r, count_tx counter)
  else if t =? event_code DOCA_PCC_DEV_EVNT_RTT then
    let* r := rtt_template_handle_roce_rtt g_utilized_bw event cur_rate param ctx results in
    Ret (r, count_rtt counter)
  else if t =? event_code DOCA_PCC_DEV_EVNT_ROCE_CNP then
    Ret (rtt_template_handle_roce_cnp cur_rate ctx, counter)
  else if t =? event_code DOCA_PCC_DEV_EVNT_ROCE_NACK then
    Ret (rtt_template_handle_roce_nack cur_rate ctx results, counter)
  else Ret (ctx, Results cur_rate 0, counter).

End algorithm.

(** ** The reaction point (pcc_rp_dev.c) *)

Definition NUM_AVAILABLE_PORTS : nat := 4.
Definition COUNTERS_SAMPLE_WINDOW_IN_MICROSEC : Z := 10.
Definition SAMPLER_THREAD_RANK : Z := 0.
Definition DOCA_PCC_DEV_MAX_NUM_PORTS : nat := 4.
Definition DOCA_PCC_DEV_EVNT_ROCE_ACK_MASK : Z := Z.shiftl 1 (event_code DOCA_PCC_DEV_EVNT_ROCE_ACK).

(** The globals: arrays with an entry per port. *)
Record rp_globals : Type := RpGlobals {
  current_sampled_tx_bytes : list Z;
  previous_sampled_tx_bytes : list Z;
  last_sample_ts : Z;
  ports_bw : list Z;
  g_utilized_bw : list Z;
  mailbox_done : Z;
}.

Definition diff_with_wrap32 (greater_num smaller_num : Z) : Z :=
  if greater_num <? smaller_num then u32 (u32 (u32 (UINT32_MAX - smaller_num) + greater_num) + 1)
  else u32 (greater_num - smaller_num).

Section reaction_point.
Context (fxp_recip : Z -> Z) (build : pcc_build).

(** The body of the sampler's loop for one port: the new utilisation. *)
Definition port_utilization (ts_delta current previous port_bw : Z) : Z :=
  let tx_bytes_delta := diff_with_wrap32 current previous in
  let current_bw := Z.shiftr (doca_pcc_dev_fxp_mult tx_bytes_delta (fxp_recip ts_delta)) 16 in
  if current_bw <? port_bw then doca_pcc_dev_fxp_mult current_bw (fxp_recip port_bw) else 65536.

(** The loop over the ports, from port [i] on. *)
Fixpoint sample_ports (ts_delta : Z) (i n : nat) (g : rp_globals) : outcome rp_globals :=
  match n with
  | O => Ret g
  | S n' =>
      let* current := of_option OutOfBounds (current_sampled_tx_bytes g !! i) in
      let* previous := of_option OutOfBounds (previous_sampled_tx_bytes g !! i) in
      let* port_bw := of_option OutOfBounds (ports_bw g !! i) in
      sample_ports ts_delta (S i) n'
        (RpGlobals (current_sampled_tx_bytes g) (<[i := current]> (previous_sampled_tx_bytes g))
           (last_sample_ts g) (ports_bw g)
           (<[i := port_utilization ts_delta current previous port_bw]> (g_utilized_bw g))
           (mailbox_done g))
  end.

(** [thread0_calc_ports_utilization]: [rank] and [now] are answered by the library,
    [sampled] is what [doca_pcc_dev_nic_counters_sample] writes to the table. *)
Definition thread0_calc_ports_utilization (rank now : Z) (sampled : list Z) (g : rp_globals)
    : outcome rp_globals :=
  if (rank =? SAMPLER_THREAD_RANK) && negb (mailbox_done g =? 0) then
    let ts_delta := diff_with_wrap32 now (last_sample_ts g) in
    if COUNTERS_SAMPLE_WINDOW_IN_MICROSEC <=? ts_delta then
      let* g := sample_ports ts_delta 0 NUM_AVAILABLE_PORTS
        (RpGlobals sampled (previous_sampled_tx_bytes g) (last_sample_ts g) (ports_bw g)
           (g_utilized_bw g) (mailbox_done g)) in
      Ret (RpGlobals (current_sampled_tx_bytes g) (previous_sampled_tx_bytes g) now (ports_bw g)
             (g_utilized_bw g) (mailbox_done g))
    else Ret g
  else Ret g.

(** [tx_counters_sampling_init]: every entry of the previous table is overwritten. *)
Definition tx_counters_sampling_init (now : Z) (sampled : list Z) (g : rp_globals) : rp_globals :=
  RpGlobals sampled sampled now (ports_bw g) (g_utilized_bw g) (mailbox_done g).

(** [doca_pcc_dev_user_mailbox_handle]: the request is the bandwidth of the ports. *)
Definition doca_pcc_dev_user_mailbox_handle (request : list Z) (g : rp_globals)
    : rp_globals * doca_pcc_dev_error_t :=
  if negb (Z.of_nat (length request) =? 4) then (g, DOCA_PCC_DEV_STATUS_FAIL)
  else (RpGlobals (current_sampled_tx_bytes g) (previous_sampled_tx_bytes g) (last_sample_ts g)
          (replicate NUM_AVAILABLE_PORTS (load 0 4 request)) (g_utilized_bw g) 1,
        DOCA_PCC_DEV_STATUS_OK).

(** The slots of the ports and the mask of events the library drops. *)
Definition doca_pcc_dev_user_init : list init_call * Z :=
  (rtt_template_init 0
     ++ map (fun port => InitSlot (Z.of_nat port) 0 0 1) (seq 0 DOCA_PCC_DEV_MAX_NUM_PORTS),
   DOCA_PCC_DEV_EVNT_ROCE_ACK_MASK).

(** [doca_pcc_dev_user_set_algo_params]: [algo_index] is the library's map of slots. *)
Definition doca_pcc_dev_user_set_algo_params (algo_index : Z -> Z -> Z)
    (port_num algo_slot param_id_base param_num : Z) (new_param_values params : option (list Z))
    : doca_pcc_dev_error_t :=
  if algo_slot =? 0 then
    if algo_index port_num algo_slot =? 0
    then rtt_template_set_algo_params param_id_base param_num new_param_values params
    else DOCA_PCC_DEV_STATUS_FAIL
  else DOCA_PCC_DEV_STATUS_OK.

(** What the library answers during an event: the thread, the clock, the counters. *)
Record rp_env : Type := RpEnv {
  thread_rank : Z; timer_lo : Z; nic_counters : list Z
}.

(** [doca_pcc_dev_user_algo]: parameters and counters of the port and slot are the
    arguments [param] and [counter]; [internal_algo] is the library's algorithm. *)
Definition doca_pcc_dev_user_algo
    (internal_algo : cc_ctxt_rtt_template_t -> list Z -> doca_pcc_dev_results_t ->
                     cc_ctxt_rtt_template_t * doca_pcc_dev_results_t)
    (env : rp_env) (event : list Z) (algo_slot : Z) (param : params) (counter : counters)
    (ctx : cc_ctxt_rtt_template_t) (results : doca_pcc_dev_results_t) (g : rp_globals)
    : outcome (rp_globals * (cc_ctxt_rtt_template_t * doca_pcc_dev_results_t * counters)) :=
  let* g := if SAMPLE_TX_BYTES build
            then thread0_calc_ports_utilization (thread_rank env) (timer_lo env) (nic_counters env) g
            else Ret g in
  if algo_slot =? 0 then
    let* r := rtt_template_algo fxp_recip build (g_utilized_bw g) event param counter ctx results in
    Ret (g, r)
  else Ret (g, (internal_algo ctx event results, counter)).

End reaction_point.

(** ** The notification point (pcc_np_nic_telemetry_dev.c) *)

Record np_globals : Type := NpGlobals {
  current_sampled_rx_bytes : list Z;
  port_id : Z;
  counters_started : Z;
  np_mailbox_done : Z;
}.

(** [doca_pcc_dev_np_user_packet_handler]: [payload] of the request, [data] of the
    response. *)
Definition doca_pcc_dev_np_user_packet_handler (rank now : Z) (sampled payload data : list Z)
    (g : np_globals) : outcome (np_globals * list Z * doca_pcc_dev_error_t) :=
  let g := if (rank =? 0) && (counters_started g =? 0)
           then NpGlobals (current_sampled_rx_bytes g) (port_id g) 1 (np_mailbox_done g) else g in
  if negb (counters_started g =? 0) && negb (np_mailbox_done g =? 0) then
    let* _ := require (4 <=? Z.of_nat (length payload)) OutOfBounds in
    let* _ := require (12 <=? Z.of_nat (length data)) OutOfBounds in
    let data := store 0 4 (load 0 4 payload) data in
    let* rx_bytes := of_option OutOfBounds (sampled !! Z.to_nat (port_id g)) in
    let data := store 4 4 rx_bytes data in
    let data := store 8 4 (u32 now) data in
    Ret (NpGlobals sampled (port_id g) (counters_started g) (np_mailbox_done g), data,
         DOCA_PCC_DEV_STATUS_OK)
  else Ret (g, data, DOCA_PCC_DEV_STATUS_OK).

Definition np_user_mailbox_handle (request : list Z) (g : np_globals)
    : np_globals * doca_pcc_dev_error_t :=
  if negb (Z.of_nat (length request) =? 4) then (g, DOCA_PCC_DEV_STATUS_FAIL)
  else (NpGlobals (current_sampled_rx_bytes g) (load 0 4 request) (counters_started g) 1,
        DOCA_PCC_DEV_STATUS_OK).

(** ** Legal parameters *)

(** The library only stores values inside the range the algorithm declared. *)
Definition params_legal (param : params) : Prop :=
  Forall (fun call => forall p, match call with
    | InitParam _ id _ hi lo _ => id = param_id p -> lo <= param p <= hi
    | _ => True
    end) (rtt_template_init 0).

Lemma params_legal_ranges param :
  params_legal param <->
  1 <= param RTT_TEMPLATE_UPDATE_FACTOR <= 655360 /\ 1 <= param RTT_TEMPLATE_AI <= 1048576
  /\ 1 <= param RTT_TEMPLATE_BASE_RTT <= UINT32_MAX /\ 1 <= param RTT_TEMPLATE_NEW_FLOW_RATE <= 1048576
  /\ 1 <= param RTT_TEMPLATE_MIN_RATE <= 1048576 /\ 1 <= param RTT_TEMPLATE_MAX_DELAY <= UINT32_MAX.
Proof.
  unfold params_legal, rtt_template_init. rewrite !Forall_cons, Forall_nil.
  split.
  - intros (_ & H0 & H1 & H2 & H3 & H4 & H5 & _).
    split_and?; [eapply H0|eapply H0|eapply H1|eapply H1|eapply H2|eapply H2|eapply H3|eapply H3
                |eapply H4|eapply H4|eapply H5|eapply H5]; reflexivity.
  - intros (? & ? & ? & ? & ? & ?).
    assert (UPDATE_FACTOR_MAX = 655360 /\ AI_MAX = 1048576 /\ RATE_MAX = 1048576) as (-> & -> & ->) by done.
    split_and!; try (by intros); intros p Hp; destruct p; try discriminate Hp; lia.
Qed.

(** The defaults the algorithm declares. *)
Definition default_params : params := fun p =>
  match p with
  | RTT_TEMPLATE_UPDATE_FACTOR => UPDATE_FACTOR
  | RTT_TEMPLATE_AI => AI
  | RTT_TEMPLATE_BASE_RTT => BASE_RTT
  | RTT_TEMPLATE_NEW_FLOW_RATE => NEW_FLOW_RATE
  | RTT_TEMPLATE_MIN_RATE => MIN_RATE
  | RTT_TEMPLATE_MAX_DELAY => MAX_DELAY
  end.

Lemma default_params_legal : params_legal default_params.
Proof. apply params_legal_ranges. vm_compute. intuition congruence. Qed.

(** The lowest rate a flow can get. *)
Definition lowest_rate (param : params) : Z :=
  Z.min (param RTT_TEMPLATE_MIN_RATE) (param RTT_TEMPLATE_NEW_FLOW_RATE).

(** ** Time differences *)

Lemma elapsed_range a b : in_width 32 (elapsed a b).
Proof. unfold elapsed. destruct (b <? a); apply uwrap_range; lia. Qed.

(** The difference is exact modulo 2^32, and one too small across a wrap. *)
Lemma elapsed_spec a b :
  in_width 32 a -> in_width 32 b ->
  elapsed a b = if b <? a then b - a + 2 ^ 32 - 1 else b - a.
Proof.
  unfold in_width, elapsed, uwrap, UINT32_MAX. intros Ha Hb. destruct (Z.ltb_spec b a) as [Hlt|Hge].
  - rewrite (Z.mod_eq (b - a)) by lia.
    replace ((b - a) / 2 ^ 32) with (-1); [rewrite Z.mod_eq by lia|].
    + replace ((b - a - 2 ^ 32 * -1 + 4294967295) / 2 ^ 32) with 1; [lia|].
      apply (Z.div_unique _ _ 1 (b - a + 4294967295)); lia.
    + apply (Z.div_unique _ _ (-1) (b - a + 2 ^ 32)); lia.
  - apply Z.mod_small. lia.
Qed.

Lemma timestamp_range e : in_width 32 (doca_pcc_dev_get_timestamp e).
Proof. apply bswap_range. Qed.

(** The sampler's difference is the difference modulo 2^32. *)
Lemma diff_with_wrap32_spec a b :
  in_width 32 a -> in_width 32 b -> diff_with_wrap32 a b = u32 (a - b).
Proof.
  unfold in_width, diff_with_wrap32, uwrap, UINT32_MAX. intros Ha Hb.
  destruct (Z.ltb_spec a b) as [Hlt|Hge]; [|done].
  rewrite (Z.mod_small (4294967295 - b)), (Z.mod_small (4294967295 - b + a)) by lia.
  rewrite (Z.mod_small (4294967295 - b + a + 1)) by lia.
  rewrite <-(Z.mod_unique (a - b) (2 ^ 32) (-1) (4294967295 - b + a + 1)); lia.
Qed.

(** ** Fixed-point lemmas *)

Lemma mult_spec a b : in_width 32 a -> in_width 32 b -> doca_pcc_dev_mult a b = a * b.
Proof.
  unfold in_width, doca_pcc_dev_mult. intros Ha Hb.
  rewrite (uwrap_id 64 a), (uwrap_id 64 b) by (unfold in_width; lia). apply uwrap_id. unfold in_width. nia.
Qed.

Lemma fxp_mult_spec a b :
  in_width 32 a -> in_width 32 b -> doca_pcc_dev_fxp_mult a b = a * b / 65536 mod 2 ^ 32.
Proof.
  intros Ha Hb. unfold doca_pcc_dev_fxp_mult. rewrite mult_spec by done.
  change 0xffffffff with (Z.ones 32). rewrite Z.land_ones, Z.shiftr_div_pow2 by lia.
  unfold uwrap. rewrite Z.mod_mod by lia. done.
Qed.

Lemma fxp_mult_range a b : in_width 32 (doca_pcc_dev_fxp_mult a b).
Proof. apply uwrap_range. lia. Qed.

(** A factor of at most one does not wrap. *)
Lemma fxp_mult_fraction f r :
  0 <= f <= 65536 -> 0 <= r <= DOCA_PCC_DEV_MAX_RATE ->
  doca_pcc_dev_fxp_mult f r = r * f / 65536 /\ 0 <= r * f / 65536 <= r.
Proof.
  intros Hf Hr. assert (DOCA_PCC_DEV_MAX_RATE = 1048576) as E by done.
  assert (0 <= r * f / 65536 <= r).
  { split; [apply Z.div_pos; nia|]. apply Z.div_le_upper_bound; nia. }
  split; [|done]. rewrite fxp_mult_spec by (unfold in_width; lia).
  rewrite (Z.mul_comm f r). apply Z.mod_small. lia.
Qed.

Lemma dec_factor_spec k param :
  1 <= k -> 0 <= k * param RTT_TEMPLATE_UPDATE_FACTOR <= 65536 ->
  dec_factor k param = 65536 - k * param RTT_TEMPLATE_UPDATE_FACTOR
  /\ 0 <= dec_factor k param <= 65536.
Proof.
  intros Hk Hu. unfold dec_factor. rewrite (uwrap_id 32 (k * _)) by (unfold in_width; lia).
  rewrite uwrap_id by (unfold in_width; lia). lia.
Qed.

Lemma clamp_rate_spec param r :
  params_legal param ->
  clamp_rate param r = Z.max (param RTT_TEMPLATE_MIN_RATE) (Z.min DOCA_PCC_DEV_MAX_RATE r).
Proof.
  intros H%params_legal_ranges. unfold clamp_rate.
  assert (DOCA_PCC_DEV_MAX_RATE = 1048576) as -> by done.
  destruct (Z.ltb_spec 1048576 r); destruct (Z.ltb_spec (if 1048576 <? r then 1048576 else r)
    (param RTT_TEMPLATE_MIN_RATE)); repeat case_if; lia.
Qed.

Lemma clamp_rate_range param r :
  params_legal param ->
  param RTT_TEMPLATE_MIN_RATE <= clamp_rate param r <= DOCA_PCC_DEV_MAX_RATE.
Proof.
  intros H. rewrite clamp_rate_spec by done. apply params_legal_ranges in H.
  assert (DOCA_PCC_DEV_MAX_RATE = 1048576) as -> by done. lia.
Qed.

(** ** The reference algorithm

    What a measurement tells, and the rate it asks for, in exact arithmetic. *)
Inductive verdict : Type := Lossy | Marked | Slow | Clear.

Definition judge (param : params) (nack cnp : bool) (rtt : Z) : verdict :=
  if nack && (param RTT_TEMPLATE_MAX_DELAY <=? rtt) then Lossy
  else if cnp || (param RTT_TEMPLATE_MAX_DELAY <=? rtt) then Marked
  else if param RTT_TEMPLATE_BASE_RTT <? rtt then Slow
  else Clear.

Definition weight (v : verdict) : Z :=
  match v with Lossy => 5 | Marked => 2 | Slow => 1 | Clear => 0 end.

Definition reference_rate (param : params) (v : verdict) (high : bool) (r : Z) : Z :=
  let k := if high then 2 * weight v else weight v in
  Z.max (param RTT_TEMPLATE_MIN_RATE) (Z.min DOCA_PCC_DEV_MAX_RATE
    (match v with
     | Clear => r + param RTT_TEMPLATE_AI
     | _ => r * (65536 - k * param RTT_TEMPLATE_UPDATE_FACTOR) / 65536
     end)).

(** The flags the algorithm clears. *)
Definition reference_flags (v : verdict) (nack cnp : bool) : bool * bool :=
  match v with Lossy => (false, cnp) | Marked => (nack, false) | _ => (nack, cnp) end.

(** Without the receive rate of the notification point, or when it is high. *)
Lemma algorithm_core_spec fxp_recip build c rtt r param high norm :
  params_legal param -> 10 * param RTT_TEMPLATE_UPDATE_FACTOR <= 65536 ->
  0 <= r <= DOCA_PCC_DEV_MAX_RATE -> NP_RX_RATE build && (norm <? NP_RX_RATE_TH) = false ->
  let v := judge param (was_nack c) (was_cnp c) rtt in
  algorithm_core fxp_recip build c rtt r param high norm
  = (set_flags (reference_flags v (was_nack c) (was_cnp c)).1 (reference_flags v (was_nack c) (was_cnp c)).2 c,
     reference_rate param v high r).
Proof.
  intros Hp Hu Hr Hn v. pose proof Hp as (Hf & Ha & _)%params_legal_ranges.
  assert (DOCA_PCC_DEV_MAX_RATE = 1048576) as EM by done.
  assert (forall k, 1 <= k <= 10 -> clamp_rate param (doca_pcc_dev_fxp_mult (dec_factor k param) r)
    = Z.max (param RTT_TEMPLATE_MIN_RATE) (Z.min DOCA_PCC_DEV_MAX_RATE
        (r * (65536 - k * param RTT_TEMPLATE_UPDATE_FACTOR) / 65536))) as Hd.
  { intros k Hk. destruct (dec_factor_spec k param) as [E ?]; [lia|nia|].
    destruct (fxp_mult_fraction (dec_factor k param) r) as [-> _]; [done|done|].
    by rewrite clamp_rate_spec, E. }
  subst v. unfold algorithm_core, judge.
  destruct (was_nack c && _); [destruct high; cbn; by rewrite Hd|].
  destruct (was_cnp c || _); [destruct high; cbn; by rewrite Hd|].
  destruct (_ <? rtt); [destruct c, high; cbn; by rewrite Hd by lia|].
  rewrite Hn. destruct c. cbn. f_equal. rewrite clamp_rate_spec by done.
  by rewrite uwrap_id by (unfold in_width; lia).
Qed.

Lemma u32_i32 z : u32 (i32 z) = u32 z.
Proof.
  unfold uwrap, swrap. change (2 ^ (32 - 1)) with 2147483648.
  rewrite Zminus_mod_idemp_l. f_equal. lia.
Qed.

(** The signed variable of the handler holds the same difference. *)
Lemma measured_rtt start now :
  u32 (if now <? start then i32 (u32 (i32 (now - start)) + UINT32_MAX) else i32 (now - start))
  = elapsed start now.
Proof. unfold elapsed. destruct (now <? start); by rewrite ?u32_i32. Qed.

(** ** Flows: runs of events *)

(** An event with what the library provides around it: the old contents of the
    results and the table of utilisations. *)
Record flow_event : Type := FlowEvent {
  fe_event : list Z; fe_results : doca_pcc_dev_results_t; fe_util : list Z
}.

Definition fe_type (f : flow_event) : Z := ev_type (doca_pcc_dev_get_ev_attr (fe_event f)).
Definition is_tx (f : flow_event) : bool := fe_type f =? event_code DOCA_PCC_DEV_EVNT_ROCE_TX.
Definition is_rtt (f : flow_event) : bool := fe_type f =? event_code DOCA_PCC_DEV_EVNT_RTT.
(** A transmission event that reports the probe as sent. *)
Definition req_sent (f : flow_event) : bool :=
  negb (Z.land (ev_flags (doca_pcc_dev_get_ev_attr (fe_event f))) DOCA_PCC_DEV_TX_FLAG_RTT_REQ_SENT =? 0).

Section flows.
Context (fxp_recip : Z -> Z) (build : pcc_build) (param : params).

Definition flow_step (f : flow_event) (c : cc_ctxt_rtt_template_t)
    : outcome (cc_ctxt_rtt_template_t * doca_pcc_dev_results_t) :=
  let* (r, _) := rtt_template_algo fxp_recip build (fe_util f) (fe_event f) param None c (fe_results f) in
  Ret r.

Fixpoint run_flow (fs : list flow_event) (c : cc_ctxt_rtt_template_t)
    : outcome (list doca_pcc_dev_results_t * cc_ctxt_rtt_template_t) :=
  match fs with
  | [] => Ret ([], c)
  | f :: fs' =>
      let* (c, r) := flow_step f c in
      let* (rs, c) := run_flow fs' c in
      Ret (r :: rs, c)
  end.

(** The table of utilisations has an entry for the port of the event. *)
Definition fe_wf (f : flow_event) : Prop :=
  SAMPLE_TX_BYTES build = true ->
  (Z.to_nat (port_num (doca_pcc_dev_get_ev_attr (fe_event f))) < length (fe_util f))%nat.

(** At most 32 transmissions between two measurements; [n] have been since the last. *)
Fixpoint answered (n : nat) (fs : list flow_event) : Prop :=
  match fs with
  | [] => True
  | f :: fs' =>
      if is_tx f then (n < 32)%nat /\ answered (S n) fs'
      else if is_rtt f then answered 0 fs' else answered n fs'
  end.

(** A flow that has seen an event: its rate is in bounds, and it either waits for
    the probe to be sent or for its answer. *)
Definition flow_live (c : cc_ctxt_rtt_template_t) : Prop :=
  lowest_rate param <= cur_rate c <= DOCA_PCC_DEV_MAX_RATE
  /\ ((rtt_meas_psn c = 0 /\ 1 <= rtt_req_to_rtt_sent c <= 2 /\ abort_cnt c = 0)
      \/ (rtt_meas_psn c = 1 /\ 0 <= rtt_req_to_rtt_sent c <= 1 /\ 0 <= abort_cnt c <= 32)).

Definition flow_inv (c : cc_ctxt_rtt_template_t) : Prop := c = ctxt_zero \/ flow_live c.

Lemma live_rate_nonzero c : params_legal param -> flow_live c -> cur_rate c =? 0 = false.
Proof.
  intros H%params_legal_ranges [Hr _]. unfold lowest_rate in Hr. apply Z.eqb_neq. lia.
Qed.

(** The first event of a flow starts the measurement, whatever its type. *)
Lemma init_flow_ok f :
  params_legal param ->
  exists c, flow_step f ctxt_zero = Ret (c, Results (param RTT_TEMPLATE_NEW_FLOW_RATE) 1)
    /\ flow_live c /\ abort_cnt c = 0.
Proof.
  intros H%params_legal_ranges. eexists. split; [reflexivity|]. split; [|done].
  assert (DOCA_PCC_DEV_MAX_RATE = 1048576) as E by done.
  split; [|left]; cbn; unfold lowest_rate; lia.
Qed.

Lemma shl32_abort n : 0 <= n < 32 -> shl32 ABORT_TIME n = Ret (u32 (Z.shiftl ABORT_TIME n)).
Proof. intros. unfold shl32. by destruct (Z.ltb_spec n 32); [|lia]. Qed.

(** Transmission events. *)
Lemma roce_tx_ok event c :
  params_legal param -> flow_live c -> abort_cnt c < 32 ->
  exists c' req, rtt_template_handle_roce_tx event (cur_rate c) c = Ret (c', Results (cur_rate c) req)
    /\ flow_live c' /\ cur_rate c' = cur_rate c /\ abort_cnt c' <= abort_cnt c + 1.
Proof.
  intros Hp [Hr Hph] Hab. unfold rtt_template_handle_roce_tx.
  destruct Hph as [(Hpsn & Hs & Ha)|(Hpsn & Hs & Ha)]; rewrite Hpsn; cbn [Z.eqb andb].
  - destruct (negb _ && true).
    { eexists _, _. split; [reflexivity|]. split; [|by cbn; split; [|lia]]. split; [done|]. right. cbn. lia. }
    rewrite shl32_abort by lia. rewrite (uwrap_id 8) by (unfold in_width; lia).
    assert (u32 (Z.shiftl ABORT_TIME (abort_cnt c)) <? 0 = false) as ->
      by (apply Z.ltb_ge; apply uwrap_range; lia).
    cbn [orb]. destruct (Z.ltb_spec 2 (rtt_req_to_rtt_sent c + 1));
      (eexists _, _; split; [reflexivity|]; split; [|by cbn; split; [|lia]]; split; [done|]; left; cbn; lia).
  - rewrite andb_false_r. rewrite shl32_abort by lia.
    destruct (_ <? elapsed _ _); cbn [orb].
    + rewrite uwrap_id by (unfold in_width; lia).
      eexists _, _. split; [reflexivity|]. split; [|by cbn; split; [|lia]]. split; [done|]. right. cbn. lia.
    + destruct (Z.ltb_spec 2 (rtt_req_to_rtt_sent c)); [lia|].
      eexists _, _. split; [reflexivity|]. split; [|by cbn; split; [|lia]]. split; [done|]. right. cbn. lia.
Qed.

(** The core never touches the state of the measurement. *)
Lemma core_keeps_measurement c rtt r high norm c' r' :
  algorithm_core fxp_recip build c rtt r param high norm = (c', r') ->
  start_delay c' = start_delay c /\ abort_cnt c' = abort_cnt c /\ rtt_meas_psn c' = rtt_meas_psn c
  /\ exists x, r' = clamp_rate param x.
Proof.
  unfold algorithm_core. intros E.
  repeat case_if_in E; injection E as <- <-; cbn; eauto 10.
Qed.

Lemma np_rx_rate_keeps c raw :
  fst (np_rx_rate fxp_recip c raw) = set_np (load 4 4 raw) (load 8 4 raw) c.
Proof. unfold np_rx_rate. cbn zeta. reflexivity. Qed.

(** Answers of probes: the flow goes on with a new request. *)
Lemma roce_rtt_ok f c :
  params_legal param -> fe_wf f -> flow_live c ->
  exists c' r, rtt_template_handle_roce_rtt fxp_recip build (fe_util f) (fe_event f) (cur_rate c) param c (fe_results f)
      = Ret (c', Results r 1)
    /\ flow_live c' /\ cur_rate c' = r /\ abort_cnt c' = 0
    /\ rtt_req_to_rtt_sent c' = 1 /\ param RTT_TEMPLATE_MIN_RATE <= r.
Proof.
  intros Hp Hw [Hr Hph]. unfold rtt_template_handle_roce_rtt.
  assert ((rtt_meas_psn c =? 0) && (rtt_req_to_rtt_sent c =? 0) = false) as ->.
  { destruct Hph as [(-> & ? & _)|(-> & _)]; [|done]. apply Z.eqb_neq. lia. }
  match goal with |- context [if SAMPLE_TX_BYTES build then ?a else Ret false] =>
    assert (exists h, (if SAMPLE_TX_BYTES build then a else Ret false) = Ret h) as [h ->] end.
  { unfold fe_wf in Hw. destruct (SAMPLE_TX_BYTES build); [|eauto]. unfold rtt_get_last_tx_port_util.
    destruct (lookup_lt_is_Some_2 (fe_util f) _ (Hw eq_refl)) as [u ->]. cbn. eauto. }
  match goal with |- context [let '(_, _) := ?p in _] => destruct p as [c1 norm] eqn:E1 end.
  assert (start_delay c1 = start_delay c /\ abort_cnt c1 = 0 /\ rtt_meas_psn c1 = 0) as (_ & Ha1 & Hp1).
  { apply (f_equal fst) in E1. destruct (NP_RX_RATE build);
      [rewrite np_rx_rate_keeps in E1|]; cbn [fst] in E1; by subst c1. }
  match goal with |- context [let '(_, _) := ?p in _] => destruct p as [c2 r2] eqn:E2 end.
  apply core_keeps_measurement in E2 as (_ & Ha2 & Hp2 & x & ->).
  pose proof (clamp_rate_range param x Hp). apply params_legal_ranges in Hp.
  eexists _, _. split; [reflexivity|]. cbn. rewrite Ha2, Ha1. split; [|split_and!; done || lia].
  split; [cbn; unfold lowest_rate; lia|]. left. cbn. rewrite Hp2, Hp1. lia.
Qed.

(** One event of a live flow. *)
Lemma flow_step_ok f c :
  params_legal param -> fe_wf f -> flow_live c -> (is_tx f = true -> abort_cnt c < 32) ->
  exists c' r, flow_step f c = Ret (c', r) /\ flow_live c' /\ rate r = cur_rate c'
    /\ abort_cnt c' <= (if is_tx f then abort_cnt c + 1 else if is_rtt f then 0 else abort_cnt c).
Proof.
  intros Hp Hw Hl Hab. unfold flow_step, rtt_template_algo. rewrite live_rate_nonzero by done.
  fold (fe_type f). fold (is_tx f). destruct (is_tx f).
  { destruct (roce_tx_ok (fe_event f) c Hp Hl (Hab eq_refl)) as (c' & req & -> & Hl' & Hr & Ha).
    eexists _, _. split; [reflexivity|]. split; [done|]. cbn. by rewrite Hr. }
  fold (is_rtt f). destruct (is_rtt f).
  { destruct (roce_rtt_ok f c Hp Hw Hl) as (c' & r & -> & Hl' & Hr & Ha & _).
    eexists _, _. split; [reflexivity|]. split; [done|]. cbn. split; [done|]. lia. }
  repeat case_if; (eexists _, _; split; [reflexivity|]; split; [by destruct c|]; cbn; lia).
Qed.

(** Rates handed to the hardware. *)
Definition rate_ok (r : doca_pcc_dev_results_t) : Prop :=
  lowest_rate param <= rate r <= DOCA_PCC_DEV_MAX_RATE.

Lemma run_flow_ok fs : forall c n,
  params_legal param -> Forall fe_wf fs -> flow_live c -> abort_cnt c <= Z.of_nat n -> answered n fs ->
  exists rs c', run_flow fs c = Ret (rs, c') /\ flow_live c' /\ Forall rate_ok rs.
Proof.
  induction fs as [|f fs IH]; intros c n Hp Hw Hl Hn Ha; cbn [run_flow answered] in *.
  { eexists _, _. split; [reflexivity|]. auto. }
  apply Forall_cons in Hw as [Hf Hw].
  destruct (flow_step_ok f c Hp Hf Hl) as (c1 & r & -> & Hl1 & Hr & Hab).
  { intros E. rewrite E in Ha. lia. }
  assert (exists m, abort_cnt c1 <= Z.of_nat m /\ answered m fs) as (m & Hm & Ham).
  { destruct (is_tx f); [exists (S n); split; [lia|apply Ha]|].
    destruct (is_rtt f); [exists 0%nat|exists n]; (split; [lia|done]). }
  destruct (IH c1 m Hp Hw Hl1 Hm Ham) as (rs & c' & -> & Hl' & Hrs).
  eexists _, _. split; [reflexivity|]. split; [done|]. constructor; [|done].
  unfold rate_ok. rewrite Hr. apply Hl1.
Qed.

Lemma run_flow_length fs : forall c rs c', run_flow fs c = Ret (rs, c') -> length rs = length fs.
Proof.
  induction fs as [|f fs IH]; intros c rs c' E; cbn [run_flow] in E; [by inv_ret|].
  obind E. destruct a as [c1 r1]. obind E. destruct a as [rs1 c2]. inv_ret. cbn. f_equal. by eapply IH.
Qed.

Lemma fresh_flow_ok f fs :
  params_legal param -> Forall fe_wf (f :: fs) -> answered 0 (f :: fs) ->
  exists rs c', run_flow (f :: fs) ctxt_zero = Ret (Results (param RTT_TEMPLATE_NEW_FLOW_RATE) 1 :: rs, c')
    /\ flow_live c' /\ Forall rate_ok rs.
Proof.
  intros Hp [_ Hw]%Forall_cons Ha. cbn [run_flow answered] in *.
  destruct (init_flow_ok f Hp) as (c1 & -> & Hl1 & Hab).
  assert (exists m, answered m fs) as [m Hm]
    by (destruct (is_tx f); [|destruct (is_rtt f)]; [exists 1%nat; apply Ha|eauto|eauto]).
  destruct (run_flow_ok fs c1 m Hp Hw Hl1) as (rs & c' & -> & Hl' & Hrs); [lia|done|].
  eexists _, _. split; [reflexivity|]. done.
Qed.

End flows.

(** ** The theorems about the algorithm *)

(** C28: A flow, from its first event on, keeps the rate it gives to the hardware between
    the configured minimum (or the smaller start rate) and the line rate, and stays
    in one of its two phases, provided no more than 32 transmissions pass without a
    measurement: every event is handled and nothing is undefined. *)
Theorem flow_rates_bounded fxp_recip build param fs :
  params_legal param -> Forall (fe_wf build) fs -> answered 0 fs ->
  exists rs c, run_flow fxp_recip build param fs ctxt_zero = Ret (rs, c)
    /\ length rs = length fs /\ flow_inv param c /\ Forall (rate_ok param) rs.
Proof.
  intros Hp Hw Ha. destruct fs as [|f fs].
  { eexists _, _. split; [reflexivity|]. split; [done|]. split; [by left|constructor]. }
  destruct (fresh_flow_ok fxp_recip build param f fs Hp Hw Ha) as (rs & c & E & Hl & Hrs).
  eexists _, _. split; [exact E|]. split.
  { by eapply run_flow_length. }
  split; [by right|]. constructor; [|done]. pose proof Hp as Hr%params_legal_ranges.
  assert (DOCA_PCC_DEV_MAX_RATE = 1048576) as EM by done. unfold rate_ok, lowest_rate. cbn. lia.
Qed.

(** ** Answers to probes

    What the rate does over several answers, in a build without the receive rate of the
    notification point, the sampling of the port and the synchronised clocks. *)

(** The round trip that an answer reports. *)
Definition answer_rtt (f : flow_event) : Z :=
  elapsed (doca_pcc_dev_get_rtt_req_send_timestamp (fe_event f)) (doca_pcc_dev_get_timestamp (fe_event f)).

Section answers.
Context (fxp_recip : Z -> Z) (build : pcc_build) (param : params).
Context (Hp : params_legal param) (Hu : 10 * param RTT_TEMPLATE_UPDATE_FACTOR <= 65536).
Context (Hnp : NP_RX_RATE build = false) (Hsam : SAMPLE_TX_BYTES build = false) (Hts : TIME_SYNC build = false).

(** One answer: the verdict of its round trip sets the rate and clears the flags it used. *)
Lemma rtt_answer_step f c :
  is_rtt f = true -> flow_live param c ->
  let v := judge param (was_nack c) (was_cnp c) (answer_rtt f) in
  exists c', flow_step fxp_recip build param f c
      = Ret (c', Results (reference_rate param v false (cur_rate c)) 1)
    /\ flow_live param c' /\ cur_rate c' = reference_rate param v false (cur_rate c)
    /\ (was_nack c', was_cnp c') = reference_flags v (was_nack c) (was_cnp c).
Proof using All.
  intros Hrtt Hl v. pose proof Hl as [Hr Hph].
  assert (exists c', flow_step fxp_recip build param f c = Ret (c', Results (reference_rate param v false (cur_rate c)) 1)
    /\ cur_rate c' = reference_rate param v false (cur_rate c)
    /\ (was_nack c', was_cnp c') = reference_flags v (was_nack c) (was_cnp c)) as (c' & E & Hc & Hf).
  { unfold flow_step, rtt_template_algo. rewrite (live_rate_nonzero param) by done. fold (fe_type f).
    pose proof Hrtt as Ht%Z.eqb_eq. rewrite Ht. cbn [Z.eqb event_code Pos.eqb].
    unfold rtt_template_handle_roce_rtt. rewrite Hnp, Hsam, Hts.
    assert ((rtt_meas_psn c =? 0) && (rtt_req_to_rtt_sent c =? 0) = false) as ->.
    { destruct Hph as [(-> & ? & _)|(-> & _)]; [|done]. apply Z.eqb_neq. lia. }
    rewrite measured_rtt. fold (answer_rtt f).
    rewrite (algorithm_core_spec fxp_recip build (set_rtt (answer_rtt f) _)); try done.
    - eexists. split; [reflexivity|]. cbn. split; [done|]. by destruct (reference_flags _ _ _).
    - unfold lowest_rate in Hr. pose proof Hp as ?%params_legal_ranges. lia.
    - by rewrite Hnp. }
  exists c'. split; [done|]. split; [|done].
  destruct (flow_step_ok fxp_recip build param f c) as (c1 & r1 & E1 & Hl1 & _); [done|by intros H; congruence|done| |].
  - unfold is_tx, is_rtt in *. apply Z.eqb_eq in Hrtt. by rewrite Hrtt.
  - congruence.
Qed.

(** No congestion: the round trip is at most the base, and nothing was marked. *)
Definition clear_answer (f : flow_event) : Prop :=
  is_rtt f = true /\ answer_rtt f <= param RTT_TEMPLATE_BASE_RTT /\ answer_rtt f < param RTT_TEMPLATE_MAX_DELAY.
(** Congestion: the round trip is longer than the base. *)
Definition slow_answer (f : flow_event) : Prop := is_rtt f = true /\ param RTT_TEMPLATE_BASE_RTT < answer_rtt f.

Lemma clear_answer_step f c :
  clear_answer f -> flow_live param c -> was_cnp c = false ->
  exists c' r, flow_step fxp_recip build param f c = Ret (c', Results r 1) /\ flow_live param c' /\ was_cnp c' = false
    /\ Z.min DOCA_PCC_DEV_MAX_RATE (cur_rate c + param RTT_TEMPLATE_AI) <= cur_rate c'.
Proof using All.
  intros (Hf & H1 & H2) Hl Hc. destruct (rtt_answer_step f c Hf Hl) as (c' & E & Hl' & Hr & Hg).
  assert (judge param (was_nack c) (was_cnp c) (answer_rtt f) = Clear) as Ev.
  { unfold judge. rewrite Hc, (proj2 (Z.leb_gt _ _) H2), (proj2 (Z.ltb_ge _ _) H1), andb_false_r. done. }
  rewrite Ev in *. eexists _, _. split; [exact E|]. split; [done|]. cbn in Hg. split; [congruence|].
  rewrite Hr. unfold reference_rate. lia.
Qed.

Lemma slow_answer_step f c :
  slow_answer f -> flow_live param c ->
  exists c' r, flow_step fxp_recip build param f c = Ret (c', Results r 1) /\ flow_live param c'
    /\ (cur_rate c' <= param RTT_TEMPLATE_MIN_RATE
        \/ cur_rate c' * 65536 <= cur_rate c * (65536 - param RTT_TEMPLATE_UPDATE_FACTOR)).
Proof using All.
  intros (Hf & H1) Hl. destruct (rtt_answer_step f c Hf Hl) as (c' & E & Hl' & Hr & _).
  set (v := judge _ _ _ _) in *. assert (1 <= weight v <= 5) as Hv.
  { unfold v, judge. rewrite (proj2 (Z.ltb_lt _ _) H1). by repeat case_match. }
  assert (reference_rate param v false (cur_rate c) = Z.max (param RTT_TEMPLATE_MIN_RATE) (Z.min DOCA_PCC_DEV_MAX_RATE
    (cur_rate c * (65536 - weight v * param RTT_TEMPLATE_UPDATE_FACTOR) / 65536))) as Ev
    by (unfold reference_rate; destruct v; [done..|cbn in Hv; lia]).
  eexists _, _. split; [exact E|]. split; [done|]. rewrite Hr, Ev.
  destruct Hl as [[Hlo _] _]. unfold lowest_rate in Hlo. pose proof Hp as Hpr%params_legal_ranges.
  pose proof (Z.mul_div_le (cur_rate c * (65536 - weight v * param RTT_TEMPLATE_UPDATE_FACTOR)) 65536 ltac:(lia)).
  assert (cur_rate c * (65536 - weight v * param RTT_TEMPLATE_UPDATE_FACTOR)
    <= cur_rate c * (65536 - param RTT_TEMPLATE_UPDATE_FACTOR)).
  { apply Z.mul_le_mono_nonneg_l; [lia|]. pose proof (Z.mul_le_mono_nonneg_r 1 (weight v) (param RTT_TEMPLATE_UPDATE_FACTOR)). lia. }
  destruct (Z.max_spec (param RTT_TEMPLATE_MIN_RATE) (Z.min DOCA_PCC_DEV_MAX_RATE
    (cur_rate c * (65536 - weight v * param RTT_TEMPLATE_UPDATE_FACTOR) / 65536))) as [[_ ->]|[_ ->]]; [right|left; lia].
  lia.
Qed.

Lemma clear_answers fs : forall c,
  Forall clear_answer fs -> flow_live param c -> was_cnp c = false ->
  exists rs c', run_flow fxp_recip build param fs c = Ret (rs, c') /\ flow_live param c'
    /\ Forall (fun r => rtt_req r = 1) rs
    /\ Z.min DOCA_PCC_DEV_MAX_RATE (cur_rate c + Z.of_nat (length fs) * param RTT_TEMPLATE_AI) <= cur_rate c'.
Proof using All.
  induction fs as [|f fs IH]; intros c Hfs Hl Hc; cbn [run_flow length].
  - eexists _, _. split; [reflexivity|]. split; [done|]. split; [constructor|lia].
  - apply Forall_cons in Hfs as [Hf Hfs]. destruct (clear_answer_step f c Hf Hl Hc) as (c1 & r1 & -> & Hl1 & Hc1 & Hr1).
    destruct (IH c1 Hfs Hl1 Hc1) as (rs & c' & E & Hl' & Hq & Hr). cbn. rewrite E. eexists _, _. split; [reflexivity|].
    split; [done|]. split; [by constructor|]. pose proof Hp as Hpr%params_legal_ranges. nia.
Qed.

Lemma slow_answers fs : forall c,
  Forall slow_answer fs -> flow_live param c ->
  exists rs c', run_flow fxp_recip build param fs c = Ret (rs, c') /\ flow_live param c'
    /\ Forall (fun r => rtt_req r = 1) rs
    /\ (cur_rate c' <= param RTT_TEMPLATE_MIN_RATE
        \/ cur_rate c' * 65536 ^ Z.of_nat (length fs)
           <= cur_rate c * (65536 - param RTT_TEMPLATE_UPDATE_FACTOR) ^ Z.of_nat (length fs)).
Proof using All.
  pose proof Hp as Hpr%params_legal_ranges. set (q := 65536 - param RTT_TEMPLATE_UPDATE_FACTOR) in *.
  induction fs as [|f fs IH]; intros c Hfs Hl; cbn [run_flow length].
  - eexists _, _. split; [reflexivity|]. split; [done|]. split; [constructor|right]. cbn. lia.
  - apply Forall_cons in Hfs as [Hf Hfs]. destruct (slow_answer_step f c Hf Hl) as (c1 & r1 & -> & Hl1 & Hr1). fold q in Hr1.
    destruct (IH c1 Hfs Hl1) as (rs & c' & E & Hl' & Hq & Hr). cbn [mbind]. rewrite E. eexists _, _. split; [reflexivity|].
    split; [done|]. split; [by constructor|]. destruct Hr as [Hr|Hr]; [by left|].
    rewrite !Nat2Z.inj_succ, !Z.pow_succ_r by lia. set (n := Z.of_nat (length fs)) in *.
    assert (0 <= q ^ n <= 65536 ^ n /\ 0 < 65536 ^ n) as [Hqn HD]
      by (split; [split; [apply Z.pow_nonneg; lia|apply Z.pow_le_mono_l; lia]|apply Z.pow_pos_nonneg; lia]).
    destruct Hr1 as [Hr1|Hr1]; [left|right]; nia.
Qed.

End answers.

(** The stale check of the handler is dead: a live flow takes every answer for the
    measurement it waits for, also when its probe has not been sent. *)
Theorem unexpected_answer_accepted fxp_recip build param f c :
  params_legal param -> fe_wf build f -> is_rtt f = true -> flow_live param c ->
  rtt_meas_psn c = 0 ->
  exists c' r, flow_step fxp_recip build param f c = Ret (c', r) /\ rtt_req r = 1
    /\ rtt_req_to_rtt_sent c' = 1 /\ param RTT_TEMPLATE_MIN_RATE <= cur_rate c'.
Proof.
  intros Hp Hw Hrtt [Hr Hph] Hpsn. unfold flow_step, rtt_template_algo.
  rewrite (live_rate_nonzero param) by done. fold (fe_type f).
  apply Z.eqb_eq in Hrtt. rewrite Hrtt. cbn [Z.eqb event_code Pos.eqb].
  destruct (roce_rtt_ok fxp_recip build param f c Hp Hw (conj Hr Hph)) as (c' & r & -> & _ & Hc & _ & Hs & Hm).
  eexists _, _. split; [reflexivity|]. split; [done|]. split; [done|]. by rewrite Hc.
Qed.

(** ** Lost probes *)

(** An event that neither answers a probe nor reports one as sent. *)
Definition quiet (f : flow_event) : bool := negb (is_rtt f) && negb (is_tx f && req_sent f).

Definition transmissions (fs : list flow_event) : nat := length (filter (fun f => is_tx f = true) fs).

Section probes.
Context (fxp_recip : Z -> Z) (build : pcc_build) (param : params).

(** A quiet event of a flow that waits for its probe to be sent. *)
Lemma quiet_step f c :
  params_legal param -> flow_live param c -> rtt_meas_psn c = 0 -> quiet f = true ->
  exists c' r, flow_step fxp_recip build param f c = Ret (c', r) /\ flow_live param c'
    /\ rtt_meas_psn c' = 0
    /\ (if is_tx f
        then rtt_req r = 1 \/ rtt_req_to_rtt_sent c' = rtt_req_to_rtt_sent c + 1
        else rtt_req_to_rtt_sent c' = rtt_req_to_rtt_sent c).
Proof.
  intros Hp [Hr Hph] Hpsn [Hn1%negb_true_iff Hn2%negb_true_iff]%andb_prop.
  destruct Hph as [(_ & Hs & Ha)|(E & _)]; [|congruence].
  unfold flow_step, rtt_template_algo. rewrite (live_rate_nonzero param) by (done || (split; [done|left; done])).
  fold (fe_type f). fold (is_tx f). fold (is_rtt f). rewrite Hn1. destruct (is_tx f).
  - cbn [andb] in Hn2. unfold rtt_template_handle_roce_tx. fold (req_sent f). rewrite Hn2, Hpsn, Ha. cbn [andb Z.eqb].
    rewrite shl32_abort by lia. rewrite (uwrap_id 8) by (unfold in_width; lia).
    assert (u32 (Z.shiftl ABORT_TIME 0) <? 0 = false) as -> by done. cbn [orb].
    destruct (Z.ltb_spec 2 (rtt_req_to_rtt_sent c + 1));
      (eexists _, _; split; [reflexivity|]; split; [split; [done|left; cbn; lia]|]; split; [done|]; cbn; auto).
  - repeat case_if; (eexists _, _; split; [reflexivity|]; split; [split; [done|left; done]|]; done).
Qed.

Lemma quiet_run fs : forall c,
  params_legal param -> flow_live param c -> rtt_meas_psn c = 0 -> Forall (fun f => quiet f = true) fs ->
  3 - rtt_req_to_rtt_sent c <= Z.of_nat (transmissions fs) ->
  exists rs c', run_flow fxp_recip build param fs c = Ret (rs, c') /\ Exists (fun r => rtt_req r = 1) rs.
Proof.
  assert (forall fs c, params_legal param -> flow_live param c -> rtt_meas_psn c = 0 ->
    Forall (fun f => quiet f = true) fs -> exists x, run_flow fxp_recip build param fs c = Ret x) as Hrun.
  { clear fs. intros fs. induction fs as [|f fs IH]; intros c Hp Hl Hpsn Hq; cbn [run_flow]; [eauto|].
    apply Forall_cons in Hq as [Hf Hq].
    destruct (quiet_step f c Hp Hl Hpsn Hf) as (c1 & r & -> & Hl1 & Hp1 & _).
    destruct (IH c1 Hp Hl1 Hp1 Hq) as [[rs c'] ->]. eauto. }
  induction fs as [|f fs IH]; intros c Hp Hl Hpsn Hq Hn.
  { destruct Hl as [_ [(_ & ? & _)|(E & _)]]; [cbn in Hn; lia|congruence]. }
  apply Forall_cons in Hq as [Hf Hq]. cbn [run_flow].
  destruct (quiet_step f c Hp Hl Hpsn Hf) as (c1 & r & -> & Hl1 & Hp1 & Hs).
  destruct (decide (rtt_req r = 1)) as [Hreq|Hreq].
  { destruct (Hrun fs c1 Hp Hl1 Hp1 Hq) as [[rs c'] ->]. eexists _, _. split; [reflexivity|]. by left. }
  destruct (IH c1 Hp Hl1 Hp1 Hq) as (rs & c' & -> & Hex).
  { unfold transmissions in *. rewrite filter_cons in Hn.
    destruct (decide (is_tx f = true)) as [E|E]; [rewrite E in Hs; cbn in Hn; destruct Hs; [done|lia]|].
    apply not_true_is_false in E. rewrite E in Hs. lia. }
  eexists _, _. split; [reflexivity|]. by right.
Qed.

(** A transmission event of a flow whose probe has been unanswered for too long. *)
Lemma abort_step f c :
  params_legal param -> flow_live param c -> rtt_meas_psn c = 1 -> is_tx f = true -> abort_cnt c < 32 ->
  u32 (Z.shiftl ABORT_TIME (abort_cnt c)) < elapsed (start_delay c) (doca_pcc_dev_get_timestamp (fe_event f)) ->
  exists c', flow_step fxp_recip build param f c = Ret (c', Results (cur_rate c) 1) /\ flow_live param c'
    /\ rtt_meas_psn c' = 1 /\ start_delay c' = start_delay c /\ abort_cnt c' = abort_cnt c + 1.
Proof.
  intros Hp [Hr Hph] Hpsn Htx Hab Hlt. destruct Hph as [(E & _)|(_ & Hs & Ha)]; [congruence|].
  unfold flow_step, rtt_template_algo. rewrite (live_rate_nonzero param) by (done || (split; [done|right; done])).
  fold (fe_type f). fold (is_tx f). rewrite Htx. unfold rtt_template_handle_roce_tx.
  rewrite Hpsn. cbn [Z.eqb]. rewrite andb_false_r, shl32_abort by lia.
  apply Z.ltb_lt in Hlt. rewrite Hlt. cbn [orb]. rewrite uwrap_id by (unfold in_width; lia).
  eexists. split; [reflexivity|]. split; [split; [done|right; cbn; lia]|]. done.
Qed.

End probes.

(** A lost probe is asked for again: a flow that waits for its probe to be sent
    repeats the request by the second transmission that does not report it, whatever
    congestion notifications come between; a flow that waits for the answer repeats
    it at the first transmission after the back-off time. *)
Theorem lost_probe_resent fxp_recip build param c :
  params_legal param -> flow_live param c ->
  (forall fs, rtt_meas_psn c = 0 -> Forall (fun f => quiet f = true) fs -> (2 <= transmissions fs)%nat ->
    exists rs c', run_flow fxp_recip build param fs c = Ret (rs, c') /\ Exists (fun r => rtt_req r = 1) rs)
  /\ (forall f, rtt_meas_psn c = 1 -> is_tx f = true -> abort_cnt c < 32 ->
    u32 (Z.shiftl ABORT_TIME (abort_cnt c)) < elapsed (start_delay c) (doca_pcc_dev_get_timestamp (fe_event f)) ->
    exists c', flow_step fxp_recip build param f c = Ret (c', Results (cur_rate c) 1)).
Proof.
  intros Hp Hl. split.
  - intros fs Hpsn Hq Hn. eapply quiet_run; [done..|].
    destruct Hl as [_ [(_ & ? & _)|(E & _)]]; [lia|congruence].
  - intros f Hpsn Htx Hab Hlt. destruct (abort_step fxp_recip build param f c Hp Hl Hpsn Htx Hab Hlt) as (c' & E & _).
    eauto.
Qed.

Lemma backoff_run fxp_recip build param last fs : forall c,
  params_legal param -> flow_live param c -> rtt_meas_psn c = 1 -> is_tx last = true ->
  Z.of_nat (length fs) + abort_cnt c = 32 ->
  (forall k f, fs !! k = Some f -> is_tx f = true /\
    u32 (Z.shiftl ABORT_TIME (abort_cnt c + Z.of_nat k))
    < elapsed (start_delay c) (doca_pcc_dev_get_timestamp (fe_event f))) ->
  run_flow fxp_recip build param (fs ++ [last]) c = Undef BadShift.
Proof.
  induction fs as [|f fs IH]; intros c Hp Hl Hpsn Htx Hn Hall.
  - cbn [app run_flow]. unfold flow_step, rtt_template_algo. rewrite (live_rate_nonzero param) by done.
    fold (fe_type last). fold (is_tx last). rewrite Htx. unfold rtt_template_handle_roce_tx, shl32.
    assert (abort_cnt c = 32) as Hn' by (cbn in Hn; lia). rewrite Hpsn, Hn'. cbn [Z.eqb]. rewrite andb_false_r. done.
  - cbn [app run_flow length] in *. destruct (Hall 0%nat f eq_refl) as [Htf Hlt].
    rewrite Z.add_0_r in Hlt.
    destruct (abort_step fxp_recip build param f c Hp Hl Hpsn Htf) as (c1 & -> & Hl1 & Hp1 & Hd1 & Ha1); [lia|done|].
    rewrite IH; try done; [lia|]. intros k g Hk. destruct (Hall (S k) g Hk) as [? Hk']. split; [done|].
    rewrite Ha1, Hd1. by replace (abort_cnt c + 1 + Z.of_nat k) with (abort_cnt c + Z.of_nat (S k)) by lia.
Qed.

(** The back-off is not bounded: after 32 unanswered requests, each repeated after
    its back-off time, the next transmission shifts by the width of the type. *)
Theorem unbounded_backoff_undefined fxp_recip build param c fs last :
  params_legal param -> flow_live param c -> rtt_meas_psn c = 1 -> abort_cnt c = 0 ->
  length fs = 32%nat -> is_tx last = true ->
  (forall k f, fs !! k = Some f -> is_tx f = true /\
    u32 (Z.shiftl ABORT_TIME (Z.of_nat k))
    < elapsed (start_delay c) (doca_pcc_dev_get_timestamp (fe_event f))) ->
  run_flow fxp_recip build param (fs ++ [last]) c = Undef BadShift.
Proof.
  intros Hp Hl Hpsn Ha Hn Htx Hall. apply backoff_run; try done; [lia|].
  intros k f Hk. rewrite Ha. by apply Hall.
Qed.

(** The declared range of the update factor is too wide: when the weighted factor
    exceeds one, the unsigned subtraction wraps, and a congestion notification
    raises the rate instead of lowering it. *)
Theorem large_factor_raises_rate fxp_recip build param c rtt r high norm :
  params_legal param -> was_cnp c = true -> was_nack c = false ->
  65536 < 2 * param RTT_TEMPLATE_UPDATE_FACTOR -> param RTT_TEMPLATE_MIN_RATE <= r -> 17 <= r <= 65535 ->
  snd (algorithm_core fxp_recip build c rtt r param high norm) = DOCA_PCC_DEV_MAX_RATE.
Proof.
  intros Hp Hcnp Hnack Hu Hmin Hr. pose proof Hp as (Hf & _)%params_legal_ranges.
  assert (DOCA_PCC_DEV_MAX_RATE = 1048576) as EM by done.
  unfold algorithm_core. rewrite Hcnp, Hnack. cbn [andb orb].
  assert (forall k, 2 <= k <= 4 -> clamp_rate param (doca_pcc_dev_fxp_mult (dec_factor k param) r)
    = DOCA_PCC_DEV_MAX_RATE) as Hk.
  { intros k Hk. set (d := k * param RTT_TEMPLATE_UPDATE_FACTOR - 65536).
    assert (0 < d <= 2621440) by (unfold d; nia).
    assert (dec_factor k param = 2 ^ 32 - d) as E.
    { unfold dec_factor. rewrite (uwrap_id 32 (k * _)) by (unfold in_width; nia).
      unfold uwrap. symmetry. apply (Z.mod_unique _ _ (-1)); unfold d in *; lia. }
    rewrite clamp_rate_spec, E, fxp_mult_spec by (done || (unfold in_width; lia)).
    apply params_legal_ranges in Hp.
    assert (65536 * r - 40 * r - 1 <= (2 ^ 32 - d) * r / 65536 < 65536 * r).
    { split; [apply Z.div_le_lower_bound|apply Z.div_lt_upper_bound]; nia. }
    rewrite Z.mod_small by lia. lia. }
  destruct high; cbn; apply Hk; lia.
Qed.

(** ** The reaction point as a whole *)

(** The reciprocal instruction: 16-bit fixed point, so [2^32 / a], in a register. *)
Class FxpRecip (fxp_recip : Z -> Z) : Prop := {
  recip_width a : in_width 32 (fxp_recip a);
  recip_quotient a : 1 < a -> fxp_recip a = 2 ^ 32 / a;
}.

(** The utilisation of a port never exceeds one, and is the sampled bandwidth over
    the port's, rounded down. *)
Lemma port_utilization_ok fxp_recip `{!FxpRecip fxp_recip} ts_delta current previous port_bw :
  in_width 32 port_bw ->
  let util := port_utilization fxp_recip ts_delta current previous port_bw in
  let bw := Z.shiftr (doca_pcc_dev_fxp_mult (diff_with_wrap32 current previous) (fxp_recip ts_delta)) 16 in
  0 <= util <= 65536 /\ (bw < port_bw -> util * port_bw <= 65536 * bw).
Proof.
  intros Hp util bw.
  assert (in_width 32 bw) as Hbw.
  { pose proof (fxp_mult_range (diff_with_wrap32 current previous) (fxp_recip ts_delta)) as H.
    unfold bw, in_width in *. rewrite Z.shiftr_div_pow2 by lia. change (2 ^ 16) with 65536.
    split; [apply Z.div_pos; lia|]. apply Z.div_lt_upper_bound; lia. }
  unfold util, port_utilization. fold bw. clear util. clearbody bw.
  destruct (Z.ltb_spec bw port_bw) as [Hlt|Hge]; [|lia].
  rewrite fxp_mult_spec by (done || apply recip_width).
  destruct (decide (port_bw = 1)) as [->|Hne].
  { assert (bw = 0) as -> by (unfold in_width in *; lia).
    rewrite Z.mul_0_l. change ((0 / 65536) mod 2 ^ 32) with 0. lia. }
  unfold in_width in *. rewrite (recip_quotient (fxp_recip := fxp_recip)) by lia.
  assert (0 <= 2 ^ 32 / port_bw /\ 2 ^ 32 / port_bw * port_bw <= 2 ^ 32) as [Hq0 Hq].
  { split; [apply Z.div_pos; lia|]. rewrite Z.mul_comm. apply Z.mul_div_le. lia. }
  set (q := 2 ^ 32 / port_bw) in *.
  assert (bw * q / 65536 * port_bw <= 65536 * bw) as H1.
  { assert (bw * q / 65536 * 65536 <= bw * q) as H by (rewrite Z.mul_comm; apply Z.mul_div_le; lia).
    apply (Z.mul_le_mono_nonneg_r _ _ port_bw) in H; [|lia].
    apply (Z.mul_le_mono_nonneg_l _ _ bw) in Hq; [|lia]. lia. }
  assert (0 <= bw * q / 65536) by (apply Z.div_pos; nia).
  assert (bw * q / 65536 <= 65536) by (apply Z.lt_succ_r, (Z.mul_lt_mono_pos_r port_bw); lia).
  rewrite Z.mod_small by lia. done.
Qed.

(** The tables of the reaction point. *)
Definition rp_wf (g : rp_globals) : Prop :=
  length (current_sampled_tx_bytes g) = NUM_AVAILABLE_PORTS
  /\ length (previous_sampled_tx_bytes g) = NUM_AVAILABLE_PORTS
  /\ length (ports_bw g) = NUM_AVAILABLE_PORTS /\ Forall (in_width 32) (ports_bw g)
  /\ length (g_utilized_bw g) = NUM_AVAILABLE_PORTS
  /\ Forall (fun u => 0 <= u <= 65536) (g_utilized_bw g).

Lemma sample_ports_ok fxp_recip `{!FxpRecip fxp_recip} ts_delta n : forall i g,
  rp_wf g -> (i + n <= NUM_AVAILABLE_PORTS)%nat ->
  exists g', sample_ports fxp_recip ts_delta i n g = Ret g' /\ rp_wf g'
    /\ current_sampled_tx_bytes g' = current_sampled_tx_bytes g /\ ports_bw g' = ports_bw g
    /\ mailbox_done g' = mailbox_done g.
Proof.
  induction n as [|n IH]; intros i g Hg Hi; cbn [sample_ports]; [eauto 10|].
  pose proof Hg as (Hc & Hpr & Hb & Hbw & Hu & Huw).
  destruct (lookup_lt_is_Some_2 (current_sampled_tx_bytes g) i) as [cur ->]; [lia|].
  destruct (lookup_lt_is_Some_2 (previous_sampled_tx_bytes g) i) as [prev ->]; [lia|].
  destruct (lookup_lt_is_Some_2 (ports_bw g) i) as [b Eb]; [lia|]. rewrite Eb. cbn [of_option].
  edestruct (IH (S i)) as (g' & -> & Hg' & E1 & E2 & E3); [|lia|eauto 10].
  split_and!; cbn; rewrite ?length_insert; try done. apply Forall_insert; [done|].
  apply port_utilization_ok; [done|]. by eapply Forall_lookup_1 in Eb.
Qed.

Lemma sampler_ok fxp_recip `{!FxpRecip fxp_recip} rank now sampled g :
  rp_wf g -> length sampled = NUM_AVAILABLE_PORTS ->
  exists g', thread0_calc_ports_utilization fxp_recip rank now sampled g = Ret g' /\ rp_wf g'.
Proof.
  intros Hg Hs. unfold thread0_calc_ports_utilization. repeat case_if; [|eauto|eauto].
  edestruct (sample_ports_ok fxp_recip (diff_with_wrap32 now (last_sample_ts g)) NUM_AVAILABLE_PORTS 0)
    as (g' & -> & Hg' & _); [|done|]; [|eauto].
  destruct Hg as (? & ? & ? & ? & ? & ?). split_and!; done.
Qed.

Lemma mailbox_ok request g :
  rp_wf g -> Forall (in_width 8) request -> rp_wf (fst (doca_pcc_dev_user_mailbox_handle request g)).
Proof.
  intros Hg Hr. unfold doca_pcc_dev_user_mailbox_handle. destruct (Z.eqb_spec (Z.of_nat (length request)) 4) as [E|E]; [|done].
  destruct Hg as (? & ? & ? & ? & ? & ?). cbn [negb fst].
  assert (in_width 32 (load 0 4 request)).
  { unfold load. rewrite drop_0. pose proof (le_value_range (take 4 request)) as H'.
    rewrite length_take in H'. replace (4 `min` length request)%nat with 4%nat in H' by lia.
    apply H'. by apply Forall_take. }
  split_and!; cbn [current_sampled_tx_bytes previous_sampled_tx_bytes ports_bw g_utilized_bw]; try done.
  by apply Forall_replicate.
Qed.

(** A session: requests of the host and events of many flows. *)
Inductive rp_op : Type :=
| Mailbox (request : list Z)
| Event (flow : Z) (env : rp_env) (event : list Z) (results : doca_pcc_dev_results_t).

Section sessions.
Context (fxp_recip : Z -> Z) (build : pcc_build) (param : params).
Context (internal_algo : cc_ctxt_rtt_template_t -> list Z -> doca_pcc_dev_results_t ->
                         cc_ctxt_rtt_template_t * doca_pcc_dev_results_t).

Abbreviation contexts := (gmap Z cc_ctxt_rtt_template_t).

(** The library keeps a context per flow and hands out a zero one for a new flow;
    the flows use the algorithm of slot 0. *)
Definition rp_step (o : rp_op) (g : rp_globals) (cs : contexts)
    : outcome (rp_globals * contexts * list doca_pcc_dev_results_t) :=
  match o with
  | Mailbox request => Ret (fst (doca_pcc_dev_user_mailbox_handle request g), cs, [])
  | Event flow env event results =>
      let* (g, r) := doca_pcc_dev_user_algo fxp_recip build internal_algo env event 0 param None
                       (default ctxt_zero (cs !! flow)) results g in
      let '(c, r, _) := r in Ret (g, <[flow := c]> cs, [r])
  end.

Fixpoint rp_run (os : list rp_op) (g : rp_globals) (cs : contexts)
    : outcome (rp_globals * contexts * list doca_pcc_dev_results_t) :=
  match os with
  | [] => Ret (g, cs, [])
  | o :: os' =>
      let* (s, r1) := rp_step o g cs in
      let '(g, cs) := s in
      let* (s, r2) := rp_run os' g cs in
      Ret (s, r1 ++ r2)
  end.

Definition rp_op_wf (o : rp_op) : Prop :=
  match o with
  | Mailbox request => Forall (in_width 8) request
  | Event _ env event _ =>
      length (nic_counters env) = NUM_AVAILABLE_PORTS
      /\ port_num (doca_pcc_dev_get_ev_attr event) < Z.of_nat NUM_AVAILABLE_PORTS
  end.

(** [unless w P o]: the computation returned a value of [P], or is undefined for [w]. *)
Definition unless {A} (w : ub) (P : A -> Prop) (o : outcome A) : Prop :=
  match o with Ret a => P a | Undef w' => w' = w end.

Definition contexts_ok (cs : contexts) : Prop := forall i c, cs !! i = Some c -> flow_inv param c.

Lemma algo_unless util event results c :
  params_legal param -> fe_wf build (FlowEvent event results util) -> flow_inv param c ->
  unless BadShift (fun '(c', r, _) => flow_inv param c' /\ rate_ok param r)
    (rtt_template_algo fxp_recip build util event param None c results).
Proof.
  intros Hp Hw Hc. set (f := FlowEvent event results util) in *.
  assert (unless BadShift (fun '(c', r) => flow_inv param c' /\ rate_ok param r) (flow_step fxp_recip build param f c)) as H.
  { destruct Hc as [->|Hl].
    - destruct (init_flow_ok fxp_recip build param f Hp) as (c' & -> & Hl & _). split; [by right|].
      unfold rate_ok. apply params_legal_ranges in Hp. unfold lowest_rate. cbn.
      assert (DOCA_PCC_DEV_MAX_RATE = 1048576) as -> by done. lia.
    - destruct (decide (is_tx f = true -> abort_cnt c < 32)) as [Ha|Ha].
      + destruct (flow_step_ok fxp_recip build param f c Hp Hw Hl Ha) as (c' & r & -> & Hl' & Hr & _).
        split; [by right|]. unfold rate_ok. rewrite Hr. apply Hl'.
      + assert (is_tx f = true /\ 32 <= abort_cnt c) as [Htx Hab].
        { destruct (is_tx f) eqn:E; [|by destruct Ha]. split; [done|]. lia. }
        assert (rtt_meas_psn c = 1) as Hpsn by (destruct Hl as [_ [(_ & _ & ?)|(? & _)]]; [lia|done]).
        unfold flow_step, rtt_template_algo. rewrite (live_rate_nonzero param) by done.
        fold (fe_type f). fold (is_tx f). rewrite Htx. unfold rtt_template_handle_roce_tx, shl32.
        rewrite Hpsn. cbn [Z.eqb]. rewrite andb_false_r. by destruct (Z.ltb_spec (abort_cnt c) 32); [lia|]. }
  unfold flow_step in H. cbn [fe_util fe_event fe_results f] in H.
  by destruct (rtt_template_algo _ _ _ _ _ _ _ _) as [[[c' r'] ?]|].
Qed.
Lemma rp_step_ok `{!FxpRecip fxp_recip} o g cs :
  params_legal param -> rp_wf g -> contexts_ok cs -> rp_op_wf o ->
  unless BadShift (fun '(g', cs', rs) => rp_wf g' /\ contexts_ok cs' /\ Forall (rate_ok param) rs)
    (rp_step o g cs).
Proof.
  intros Hp Hg Hcs Ho. destruct o as [request|flow env event results]; cbn [rp_step].
  { cbn. split; [by apply mailbox_ok|]. by split. }
  destruct Ho as [Hn Hport]. unfold doca_pcc_dev_user_algo.
  assert (exists g1, (if SAMPLE_TX_BYTES build
    then thread0_calc_ports_utilization fxp_recip (thread_rank env) (timer_lo env) (nic_counters env) g
    else Ret g) = Ret g1 /\ rp_wf g1) as (g1 & -> & Hg1).
  { destruct (SAMPLE_TX_BYTES build); [by apply sampler_ok|eauto]. }
  cbn [Z.eqb].
  pose proof (algo_unless (g_utilized_bw g1) event results (default ctxt_zero (cs !! flow)) Hp) as H.
  destruct (rtt_template_algo _ _ _ _ _ _ _ _) as [[[c' r'] cnt]|w]; cbn in H |- *.
  - destruct H as [Hc Hr].
    { intros _. destruct Hg1 as (_ & _ & _ & _ & Hu & _). cbn [fe_event fe_util]. unfold NUM_AVAILABLE_PORTS in *. lia. }
    { destruct (cs !! flow) eqn:E; [by eapply Hcs|by left]. }
    split; [done|]. split; [|by constructor].
    intros i c. rewrite lookup_insert_Some. intros [[_ <-]|[_ Hi]]; [done|by eapply Hcs].
  - apply H; [|destruct (cs !! flow) eqn:E; [by eapply Hcs|by left]].
    intros _. destruct Hg1 as (_ & _ & _ & _ & Hu & _). cbn [fe_event fe_util]. unfold NUM_AVAILABLE_PORTS in *. lia.
Qed.
End sessions.

(** C10: The device program as a whole: whatever the host and the network do, in any
    order and over any number of flows, the tables keep their shape, no utilisation
    exceeds one, every rate given to the hardware is in bounds, and the only
    operation that can go wrong is the shift of the back-off. *)
Theorem device_session_safe fxp_recip `{!FxpRecip fxp_recip} build param internal_algo os : forall g cs,
  params_legal param -> rp_wf g -> contexts_ok param cs -> Forall rp_op_wf os ->
  unless BadShift (fun '(g', cs', rs) => rp_wf g' /\ contexts_ok param cs' /\ Forall (rate_ok param) rs)
    (rp_run fxp_recip build param internal_algo os g cs).
Proof.
  induction os as [|o os IH]; intros g cs Hp Hg Hcs Ho; cbn [rp_run]; [by split|].
  apply Forall_cons in Ho as [Ho Hos].
  pose proof (rp_step_ok fxp_recip build param internal_algo o g cs Hp Hg Hcs Ho) as H.
  destruct (rp_step _ _ _ _ _ _ _) as [[[g1 cs1] r1]|w]; [|done]. destruct H as (Hg1 & Hcs1 & Hr1).
  specialize (IH g1 cs1 Hp Hg1 Hcs1 Hos).
  destruct (rp_run _ _ _ _ _ _ _) as [[[g2 cs2] r2]|w]; [|done]. destruct IH as (? & ? & ?).
  split; [done|]. split; [done|]. by apply Forall_app.
Qed.

(** ** From the notification point to the reaction point *)

(** The counters the notification point writes into the probe response are the ones
    the reaction point takes from the event, in the same byte order, and the request's
    time stamp is echoed. *)
Theorem telemetry_roundtrip fxp_recip rank now sampled payload data g c event :
  in_width 32 now -> Forall (in_width 32) sampled -> 0 <= port_id g < Z.of_nat (length sampled) ->
  counters_started g = 1 -> np_mailbox_done g = 1 -> Forall (in_width 8) payload ->
  (4 <= length payload)%nat -> (12 <= length data)%nat -> (16 <= length event)%nat ->
  exists g' data' rx, doca_pcc_dev_np_user_packet_handler rank now sampled payload data g
      = Ret (g', data', DOCA_PCC_DEV_STATUS_OK)
    /\ length data' = length data /\ sampled !! Z.to_nat (port_id g) = Some rx
    /\ let c' := fst (np_rx_rate fxp_recip c (doca_pcc_dev_get_rtt_raw_data (take 16 event ++ data'))) in
       last_np_rx_bytes c' = rx /\ last_np_rx_bytes_timestamp_us c' = now
    /\ doca_pcc_dev_get_rtt_req_send_timestamp (take 16 event ++ data') = bswap 4 (load 0 4 payload).
Proof.
  intros Hnow Hs Hport Hst Hmb Hpay Hlp Hld Hle.
  destruct (lookup_lt_is_Some_2 sampled (Z.to_nat (port_id g))) as [rx Erx]; [lia|].
  unfold doca_pcc_dev_np_user_packet_handler. rewrite Hst, andb_false_r. rewrite Hst, Hmb. cbn [negb Z.eqb andb].
  rewrite (proj2 (Z.leb_le _ _)) by lia. rewrite (proj2 (Z.leb_le _ _)) by lia. cbn [require].
  rewrite Erx. cbn [of_option].
  set (d0 := store 0 4 (load 0 4 payload) data).
  set (d1 := store 4 4 rx d0). set (d2 := store 8 4 (u32 now) d1).
  assert (length d0 = length data) as L0 by (apply length_store; lia).
  assert (length d1 = length data) as L1 by (unfold d1; rewrite length_store; lia).
  assert (length d2 = length data) as L2 by (unfold d2; rewrite length_store; lia).
  assert (drop 16 (take 16 event ++ d2) = d2) as Edrop.
  { rewrite drop_app_length'; [done|]. rewrite length_take. lia. }
  eexists _, _, _. split; [reflexivity|]. split; [done|]. split; [done|]. cbn zeta.
  rewrite np_rx_rate_keeps. unfold doca_pcc_dev_get_rtt_raw_data. rewrite Edrop. cbn [last_np_rx_bytes last_np_rx_bytes_timestamp_us set_np].
  assert (in_width 32 rx) as Hrx by (by eapply Forall_lookup_1 in Erx).
  split_and!.
  - unfold d2. rewrite load_store_ne by lia. unfold d1. rewrite load_store_eq by lia. by apply (uwrap_id 32).
  - unfold d2. rewrite load_store_eq by lia. rewrite uwrap_id by done. by apply (uwrap_id 32).
  - unfold doca_pcc_dev_get_rtt_req_send_timestamp.
    replace (load 16 4 (take 16 event ++ d2)) with (load 0 4 d2).
    + unfold d2. rewrite load_store_ne by lia. unfold d1. rewrite load_store_ne by lia. unfold d0. rewrite load_store_eq by lia. f_equal.
      apply (uwrap_id 32). unfold load. rewrite drop_0. pose proof (le_value_range (take 4 payload)) as H'.
      rewrite length_take in H'. replace (4 `min` length payload)%nat with 4%nat in H' by lia.
      apply H'. by apply Forall_take.
    + rewrite !load_unfold, Edrop. done.
Qed.

(** ** Witnesses *)

(** An event of the given type and flags at a time, of a probe sent at [send]. *)
Definition sample_event (t : doca_pcc_dev_event_type) (flags ts send : Z) : flow_event :=
  FlowEvent ([flags; 0; 0; event_code t] ++ replicate 8 0 ++ rev (le_bytes 4 ts)
             ++ rev (le_bytes 4 send) ++ replicate 12 0) (Results 0 0) [0; 0; 0; 0].

Definition sample_recip (a : Z) : Z := if 1 <? a then 2 ^ 32 / a else 2 ^ 32 - 1.

#[export] Instance sample_recip_ok : FxpRecip sample_recip.
Proof.
  split; unfold sample_recip.
  - intros a. unfold in_width. destruct (Z.ltb_spec 1 a); [|lia]. split; [apply Z.div_pos; lia|].
    apply Z.div_lt_upper_bound; lia.
  - intros a Ha. by rewrite (proj2 (Z.ltb_lt _ _) Ha).
Qed.

Definition full_build : pcc_build := Build true true false.
Definition plain_build : pcc_build := Build false false false.

(** A new flow: its probe is sent, answered, a notification comes, then a late answer. *)
Definition sample_flow : list flow_event :=
  [sample_event DOCA_PCC_DEV_EVNT_ROCE_TX 0 100 0; sample_event DOCA_PCC_DEV_EVNT_ROCE_TX 4 200 0;
   sample_event DOCA_PCC_DEV_EVNT_RTT 0 9000 250; sample_event DOCA_PCC_DEV_EVNT_ROCE_CNP 0 9100 0;
   sample_event DOCA_PCC_DEV_EVNT_ROCE_TX 4 9200 0; sample_event DOCA_PCC_DEV_EVNT_RTT 0 400000 9300].

Lemma flow_rates_bounded_witness :
  exists rs c, run_flow sample_recip full_build default_params sample_flow ctxt_zero = Ret (rs, c)
    /\ length rs = length sample_flow /\ flow_inv default_params c /\ Forall (rate_ok default_params) rs.
Proof.
  apply flow_rates_bounded.
  - exact default_params_legal.
  - repeat constructor; intros _; vm_compute; lia.
  - vm_compute. repeat split; lia.
Defined.

(** A flow at full rate that waits for an answer. *)
Definition measuring : cc_ctxt_rtt_template_t := Ctxt 1048576 1000 0 false true 0 1 0 0 0.
(** A flow at full rate whose probe has not been sent. *)
Definition waiting : cc_ctxt_rtt_template_t := Ctxt 1048576 1000 0 false false 0 0 1 0 0.

Lemma measuring_live : flow_live default_params measuring.
Proof. split; [vm_compute; intuition congruence|]. right. cbn. lia. Qed.
Lemma waiting_live : flow_live default_params waiting.
Proof. split; [vm_compute; intuition congruence|]. left. cbn. lia. Qed.

(** A flow at half the rate, and one at full rate, with three answers each. *)
Definition half_rate : cc_ctxt_rtt_template_t := Ctxt 524288 1000 0 false false 0 1 0 0 0.
Definition fast_answer : flow_event := sample_event DOCA_PCC_DEV_EVNT_RTT 0 9000 8999.
Definition late_answer : flow_event := sample_event DOCA_PCC_DEV_EVNT_RTT 0 50000 250.

Lemma half_rate_live : flow_live default_params half_rate.
Proof. split; [vm_compute; intuition congruence|]. right. cbn. lia. Qed.


Lemma unexpected_answer_accepted_witness :
  exists c' r, flow_step sample_recip plain_build default_params (sample_event DOCA_PCC_DEV_EVNT_RTT 0 9000 250) waiting
      = Ret (c', r) /\ rtt_req r = 1 /\ rtt_req_to_rtt_sent c' = 1 /\ 64 <= cur_rate c'.
Proof.
  apply (unexpected_answer_accepted sample_recip plain_build default_params).
  - exact default_params_legal.
  - intros H. discriminate H.
  - reflexivity.
  - exact waiting_live.
  - reflexivity.
Defined.

Lemma lost_probe_resent_witness :
  exists rs c', run_flow sample_recip plain_build default_params
      [sample_event DOCA_PCC_DEV_EVNT_ROCE_TX 0 2000 0; sample_event DOCA_PCC_DEV_EVNT_ROCE_NACK 0 2100 0;
       sample_event DOCA_PCC_DEV_EVNT_ROCE_TX 0 2200 0] waiting = Ret (rs, c')
    /\ Exists (fun r => rtt_req r = 1) rs.
Proof.
  apply (proj1 (lost_probe_resent sample_recip plain_build default_params waiting default_params_legal waiting_live)).
  - reflexivity.
  - repeat constructor.
  - vm_compute. lia.
Defined.

(** Thirty-two transmissions, each just after its back-off time. *)
Definition late_transmissions : list flow_event :=
  map (fun k => sample_event DOCA_PCC_DEV_EVNT_ROCE_TX 0 (1001 + u32 (Z.shiftl ABORT_TIME k)) 0) (seqZ 0 32).

Lemma late_transmissions_ok : forall k f, late_transmissions !! k = Some f -> is_tx f = true /\
  u32 (Z.shiftl ABORT_TIME (Z.of_nat k)) < elapsed (start_delay measuring) (doca_pcc_dev_get_timestamp (fe_event f)).
Proof.
  intros k f Hk. assert (k < 32)%nat as Hlt by (apply lookup_lt_Some in Hk; exact Hk).
  revert f Hk. do 32 (destruct k as [|k]; [intros f [= <-]; vm_compute; split; reflexivity|]). lia.
Qed.

Lemma unbounded_backoff_undefined_witness :
  run_flow sample_recip plain_build default_params
    (late_transmissions ++ [sample_event DOCA_PCC_DEV_EVNT_ROCE_TX 0 5000 0]) measuring = Undef BadShift.
Proof.
  apply unbounded_backoff_undefined.
  - exact default_params_legal.
  - exact measuring_live.
  - reflexivity.
  - reflexivity.
  - reflexivity.
  - reflexivity.
  - exact late_transmissions_ok.
Defined.

Definition wide_params : params := fun p =>
  if decide (p = RTT_TEMPLATE_UPDATE_FACTOR) then 40000 else default_params p.

Lemma wide_params_legal : params_legal wide_params.
Proof. apply params_legal_ranges. vm_compute. intuition congruence. Qed.

Lemma large_factor_raises_rate_witness :
  snd (algorithm_core sample_recip plain_build measuring 8000 1000 wide_params false 65536) = DOCA_PCC_DEV_MAX_RATE.
Proof.
  apply large_factor_raises_rate.
  - exact wide_params_legal.
  - reflexivity.
  - reflexivity.
  - vm_compute. reflexivity.
  - vm_compute. congruence.
  - lia.
Defined.

Definition rp_start : rp_globals :=
  tx_counters_sampling_init 5 [7; 7; 7; 7] (RpGlobals [0; 0; 0; 0] [0; 0; 0; 0] 0 [0; 0; 0; 0] [0; 0; 0; 0] 0).

Definition sample_session : list rp_op :=
  [Mailbox [168; 97; 0; 0];
   Event 1 (RpEnv 0 100 [1000007; 7; 7; 7]) (fe_event (sample_event DOCA_PCC_DEV_EVNT_ROCE_TX 0 100 0)) (Results 0 0);
   Event 2 (RpEnv 1 200 [1; 2; 3; 4]) (fe_event (sample_event DOCA_PCC_DEV_EVNT_ROCE_NACK 0 120 0)) (Results 0 0);
   Event 1 (RpEnv 0 300 [2000007; 7; 7; 7]) (fe_event (sample_event DOCA_PCC_DEV_EVNT_RTT 0 9000 250)) (Results 0 0)].

Lemma device_session_safe_witness :
  unless BadShift (fun '(g', cs', rs) => rp_wf g' /\ contexts_ok default_params cs' /\ Forall (rate_ok default_params) rs)
    (rp_run sample_recip full_build default_params (fun c _ r => (c, r)) sample_session rp_start ∅).
Proof.
  apply device_session_safe.
  - exact _.
  - exact default_params_legal.
  - split_and!; try reflexivity; repeat constructor; vm_compute; congruence.
  - intros i c Hi. discriminate Hi.
  - repeat constructor; vm_compute; congruence.
Defined.

Lemma telemetry_roundtrip_witness :
  exists g' data' rx, doca_pcc_dev_np_user_packet_handler 0 77 [10; 20; 30; 40] [1; 2; 3; 4] (replicate 16 0)
      (NpGlobals [0; 0; 0; 0] 2 1 1) = Ret (g', data', DOCA_PCC_DEV_STATUS_OK)
    /\ length data' = 16%nat /\ [10; 20; 30; 40] !! 2%nat = Some rx
    /\ let c' := fst (np_rx_rate sample_recip ctxt_zero (doca_pcc_dev_get_rtt_raw_data (take 16 (replicate 32 0) ++ data'))) in
       last_np_rx_bytes c' = rx /\ last_np_rx_bytes_timestamp_us c' = 77
    /\ doca_pcc_dev_get_rtt_req_send_timestamp (take 16 (replicate 32 0) ++ data') = bswap 4 (load 0 4 [1; 2; 3; 4]).
Proof.
  apply (telemetry_roundtrip sample_recip 0 77 [10; 20; 30; 40] [1; 2; 3; 4] (replicate 16 0)
           (NpGlobals [0; 0; 0; 0] 2 1 1) ctxt_zero (replicate 32 0)); try reflexivity.
  - split; [lia|reflexivity].
  - repeat constructor; vm_compute; congruence.
  - cbn. lia.
  - repeat constructor; vm_compute; congruence.
  - cbn. lia.
  - cbn. lia.
Defined.
