(* ===== verification/Rdmo.v ===== *)
(** * Remote direct memory operations: the request engine of the DPU worker

    applications/urom_rdmo/dpu/worker_rdmo_ops.c, with the active-message callback
    of worker_rdmo.c that feeds it.  Initiators send append, scatter and flush
    requests; the worker executes them on the memory of a client (a host process)
    through UCX.  A request is a small state machine ([ctx[0]] is its stage) that is
    resumed by the completion callbacks of the operations it started; requests wait
    in a client's list while the client is paused and in an end-point's list while a
    fence is pending.

    UCX is a parameter: it answers every call with a status, keeps a log of the
    calls, and completes those in progress later ([complete]).  Objects are named by
    keys of finite maps; using a key that is gone is a use after free. *)
From S2P Require Import Prelude.

(** ** UCX *)

Inductive ucs_status : Type :=
| UCS_OK | UCS_INPROGRESS | UCS_ERR_NO_RESOURCE | UCS_ERR_OTHER.

#[export] Instance ucs_status_eq_dec : EqDecision ucs_status.
Proof. solve_decision. Defined.

Definition UCS_PTR_IS_ERR (s : ucs_status) : bool :=
  match s with UCS_ERR_NO_RESOURCE | UCS_ERR_OTHER => true | _ => false end.

(** Calls of UCX.  [req] is the user data of the callback. *)
Inductive ucx_call : Type :=
| PutReq (req addr rkey : Z) (data : list Z)      (** [ucp_put_nbx] of an append *)
| PutScatter (req addr rkey : Z) (data : list Z)  (** [ucp_put_nbx] of a scatter *)
| GetReq (req addr rkey : Z)                      (** [ucp_get_nbx] into [ctx[1]] *)
| RecvData (req addr len : Z)                     (** [ucp_am_recv_data_nbx] *)
| FlushEp (req ep : Z)                            (** [ucp_ep_flush_nbx] *)
| AmSend (req reply_ep : Z) (header : list Z)     (** [ucp_am_send_nbx] *)
| WorkerFence                                     (** [ucp_worker_fence] *)
| PutValue (ep addr rkey val : Z)                 (** [ucp_put_nbx] from the stack *)
| PutSlow (ep addr rkey val : Z)                  (** [ucp_put_nbx] from the heap *)
| GetValue (ep addr rkey : Z)                     (** the flushing [ucp_get_nbx] *)
| DataRelease (req : Z).                          (** [ucp_am_data_release] *)

#[export] Instance ucx_call_eq_dec : EqDecision ucx_call.
Proof. solve_decision. Defined.

(** What the libraries answer: the status of a call after the calls so far, whether
    remote memory is mapped locally, whether a pool or a table can grow, and the
    order in which a table is walked. *)
Record ucx_env : Type := UcxEnv {
  answer : list ucx_call -> ucx_call -> ucs_status;
  ucp_rkey_ptr : Z -> Z -> bool;
  kh_put_ok : list ucx_call -> bool;
  mpool_ok : list ucx_call -> bool;
  kh_walk : forall A, gmap Z A -> list (Z * A);
}.

(** A walk over a hash table visits every entry once. *)
Class UcxLaws (env : ucx_env) : Prop := {
  kh_walk_perm {A} (t : gmap Z A) : kh_walk env A t ≡ₚ map_to_list t
}.

(** ** The objects *)

Record urom_worker_rdmo_mkey : Type := Mkey {
  ucp_rkey : Z; ucp_memh : bool; mem_cache : gmap Z Z; va : Z; mk_len : Z
}.

(** The part of a client that only commands change: the channel it belongs to and the
    end-points of its initiators by receive queue id. *)
Record client_conn : Type := Conn { dest_id : Z; rqs : gmap Z Z; next_rq_id : Z }.

(** [ep] is the host access end-point; [mkeys] maps a key to the object. *)
Record urom_worker_rdmo_client : Type := Client {
  c_conn : client_conn; c_ep : Z; mkeys : gmap Z Z; paused_ops : list Z; pause : bool
}.

Record urom_worker_rdmo_ep : Type := Ep { fenced_ops : list Z; oreqs : Z }.

Record urom_worker_rdmo_req : Type := Req {
  r_client : Z; r_ep : Z; r_header : list Z; r_data : list Z; r_length : Z;
  r_rndv : bool; r_reply_ep : Z; ctx0 : Z; ctx1 : Z; ctx2 : Z
}.

(** The worker: [memory] is the part of the host's memory that is mapped locally. *)
Record worker : Type := Worker {
  clients : gmap Z urom_worker_rdmo_client;
  eps : gmap Z urom_worker_rdmo_ep;
  mkey_heap : gmap Z urom_worker_rdmo_mkey;
  reqs : gmap Z urom_worker_rdmo_req;
  next_req : Z;
  memory : Z -> Z;
  calls : list ucx_call;
}.

Definition set_ctx (a b c : Z) (r : urom_worker_rdmo_req) : urom_worker_rdmo_req :=
  Req (r_client r) (r_ep r) (r_header r) (r_data r) (r_length r) (r_rndv r) (r_reply_ep r) a b c.
Definition set_cache (t : gmap Z Z) (m : urom_worker_rdmo_mkey) : urom_worker_rdmo_mkey :=
  Mkey (ucp_rkey m) (ucp_memh m) t (va m) (mk_len m).
Definition set_pause (b : bool) (c : urom_worker_rdmo_client) : urom_worker_rdmo_client :=
  Client (c_conn c) (c_ep c) (mkeys c) (paused_ops c) b.
Definition set_paused_ops (l : list Z) (c : urom_worker_rdmo_client) : urom_worker_rdmo_client :=
  Client (c_conn c) (c_ep c) (mkeys c) l (pause c).

Definition set_clients (x : gmap Z urom_worker_rdmo_client) (w : worker) : worker :=
  Worker x (eps w) (mkey_heap w) (reqs w) (next_req w) (memory w) (calls w).
Definition set_eps (x : gmap Z urom_worker_rdmo_ep) (w : worker) : worker :=
  Worker (clients w) x (mkey_heap w) (reqs w) (next_req w) (memory w) (calls w).
Definition set_mkeys (x : gmap Z urom_worker_rdmo_mkey) (w : worker) : worker :=
  Worker (clients w) (eps w) x (reqs w) (next_req w) (memory w) (calls w).
Definition set_reqs (x : gmap Z urom_worker_rdmo_req) (w : worker) : worker :=
  Worker (clients w) (eps w) (mkey_heap w) x (next_req w) (memory w) (calls w).
Definition set_memory (x : Z -> Z) (w : worker) : worker :=
  Worker (clients w) (eps w) (mkey_heap w) (reqs w) (next_req w) x (calls w).
Definition log_call (c : ucx_call) (w : worker) : worker :=
  Worker (clients w) (eps w) (mkey_heap w) (reqs w) (next_req w) (memory w) (calls w ++ [c]).

Definition req_at (r : Z) (w : worker) : outcome urom_worker_rdmo_req :=
  of_option DanglingPointer (reqs w !! r).
Definition client_at (c : Z) (w : worker) : outcome urom_worker_rdmo_client :=
  of_option DanglingPointer (clients w !! c).
Definition ep_at (e : Z) (w : worker) : outcome urom_worker_rdmo_ep :=
  of_option DanglingPointer (eps w !! e).
Definition mkey_at (m : Z) (w : worker) : outcome urom_worker_rdmo_mkey :=
  of_option DanglingPointer (mkey_heap w !! m).

Definition upd_req (r : Z) (f : urom_worker_rdmo_req -> urom_worker_rdmo_req) (w : worker) : worker :=
  set_reqs (alter f r (reqs w)) w.
Definition upd_client (c : Z) (f : urom_worker_rdmo_client -> urom_worker_rdmo_client) (w : worker) : worker :=
  set_clients (alter f c (clients w)) w.
Definition upd_ep (e : Z) (f : urom_worker_rdmo_ep -> urom_worker_rdmo_ep) (w : worker) : worker :=
  set_eps (alter f e (eps w)) w.

(** ** Headers *)

Definition UROM_RDMO_REQ_FLAG_FENCE : Z := Z.shiftl 1 0.
Definition UROM_RDMO_HDR_LEN_MAX : nat := 64.
Definition UROM_RDMO_OP_FLUSH : Z := 0.
Definition UROM_RDMO_OP_APPEND : Z := 1.
Definition UROM_RDMO_OP_SCATTER : Z := 2.

(** [urom_rdmo_hdr]: three words; the header of the operation follows. *)
Definition hdr_id (h : list Z) : Z := load 0 4 h.
Definition hdr_op_id (h : list Z) : Z := load 4 4 h.
Definition hdr_flags (h : list Z) : Z := load 8 4 h.
Definition flush_id (h : list Z) : Z := load 12 8 h.
Definition ptr_addr (h : list Z) : Z := load 12 8 h.
Definition ptr_rkey (h : list Z) : Z := load 20 8 h.
Definition data_rkey (h : list Z) : Z := load 28 8 h.
Definition scatter_count (h : list Z) : Z := load 12 8 h.

Definition is_fenced (r : urom_worker_rdmo_req) : bool :=
  negb (Z.land (hdr_flags (r_header r)) UROM_RDMO_REQ_FLAG_FENCE =? 0).

(** Locally mapped memory: 64-bit words and byte strings. *)
Definition read64 (m : Z -> Z) (a : Z) : Z := le_value (map (fun i => m (a + i)) (seqZ 0 8)).
Definition write_bytes (m : Z -> Z) (a : Z) (bs : list Z) : Z -> Z :=
  fun x => if (a <=? x) && (x <? a + Z.of_nat (length bs))
           then default 0 (bs !! Z.to_nat (x - a)) else m x.

Section engine.
Context (env : ucx_env).

(** A call: its status, and the log. *)
Definition ucx (c : ucx_call) (w : worker) : worker * ucs_status :=
  (log_call c w, answer env (calls w) c).

(** ** The cache of pointers of a memory region *)

Definition urom_worker_rdmo_mem_cache_get (m : urom_worker_rdmo_mkey) (addr : Z) : res Z :=
  match mem_cache m !! addr with Some v => Ok v | None => Err DOCA_ERROR_NOT_FOUND end.

Definition urom_worker_rdmo_mem_cache_put (k addr val : Z) (w : worker) : outcome (worker * doca_error_t) :=
  let* m := mkey_at k w in
  let w' := set_mkeys (<[k := set_cache (<[addr := val]> (mem_cache m)) m]> (mkey_heap w)) w in
  match mem_cache m !! addr with
  | Some _ => Ret (w', DOCA_SUCCESS)
  | None => if kh_put_ok env (calls w) then Ret (w', DOCA_SUCCESS) else Ret (w, DOCA_ERROR_DRIVER)
  end.

(** [urom_worker_rdmo_addr_flush_slow]: a null pointer (no status) when the pool is
    empty. *)
Definition urom_worker_rdmo_addr_flush_slow (ep addr rkey val : Z) (w : worker) : worker * ucs_status :=
  if mpool_ok env (calls w) then ucx (PutSlow ep addr rkey val) w else (w, UCS_OK).

(** The inner loop of [urom_worker_rdmo_mem_cache_flush] over the cache of one region;
    [get] is the saved address and key, if any. *)
Fixpoint flush_cache (ep k : Z) (entries : list (Z * Z)) (get : option (Z * Z)) (w : worker)
    : outcome (worker * option (Z * Z) * doca_error_t) :=
  match entries with
  | [] => Ret (w, get, DOCA_SUCCESS)
  | (addr, val) :: rest =>
      let* m := mkey_at k w in
      let w := set_mkeys (<[k := set_cache (delete addr (mem_cache m)) m]> (mkey_heap w)) w in
      let '(w, s) := ucx (PutValue ep addr (ucp_rkey m) val) w in
      let '(w, s) := if decide (s = UCS_ERR_NO_RESOURCE)
                     then urom_worker_rdmo_addr_flush_slow ep addr (ucp_rkey m) val w else (w, s) in
      if UCS_PTR_IS_ERR s then Ret (w, get, DOCA_ERROR_DRIVER)
      else
        let get := match get with
                   | None => if addr =? 0 then None else Some (addr, ucp_rkey m)
                   | Some _ => get
                   end in
        flush_cache ep k rest get w
  end.

(** The outer loop, over the regions of the client. *)
Fixpoint flush_mkeys (ep : Z) (ks : list Z) (get : option (Z * Z)) (w : worker)
    : outcome (worker * option (Z * Z) * doca_error_t) :=
  match ks with
  | [] => Ret (w, get, DOCA_SUCCESS)
  | k :: rest =>
      let* m := mkey_at k w in
      let* (x, e) := flush_cache ep k (kh_walk env _ (mem_cache m)) get w in
      let '(w, get) := x in
      if bool_decide (e = DOCA_SUCCESS) then flush_mkeys ep rest get w else Ret (w, get, e)
  end.

Definition urom_worker_rdmo_mem_cache_flush (c : Z) (w : worker) : outcome (worker * doca_error_t) :=
  let* cl := client_at c w in
  let* (x, e) := flush_mkeys (c_ep cl) (map snd (kh_walk env _ (mkeys cl))) None w in
  let '(w, get) := x in
  if negb (bool_decide (e = DOCA_SUCCESS)) then Ret (w, e)
  else match get with
       | None => Ret (w, DOCA_SUCCESS)
       | Some (addr, rkey) =>
           let '(w, s) := ucx (GetValue (c_ep cl) addr rkey) w in
           Ret (w, if UCS_PTR_IS_ERR s then DOCA_ERROR_DRIVER else DOCA_SUCCESS)
       end.

(** ** Flush *)

(** [if (IS_ERR) return DRIVER; ctx[0] = next; if INPROGRESS return IN_PROGRESS; ...]:
    the end of every stage that waits for a call. *)
Definition await (s : ucs_status) : option doca_error_t :=
  match s with
  | UCS_OK => None
  | UCS_INPROGRESS => Some DOCA_ERROR_IN_PROGRESS
  | _ => Some DOCA_ERROR_DRIVER
  end.

Definition set_stage (n : Z) (q : urom_worker_rdmo_req) : urom_worker_rdmo_req :=
  set_ctx n (ctx1 q) (ctx2 q) q.

(** Stage 2: the response is built in [ctx[1]] and [ctx[2]] and sent. *)
Definition flush_respond (r : Z) (w : worker) : outcome (worker * doca_error_t) :=
  let* q := req_at r w in
  let fid := flush_id (r_header q) in
  let w := upd_req r (set_ctx (ctx0 q) (UROM_RDMO_OP_FLUSH + 2 ^ 32 * (fid mod 2 ^ 32))
                        (fid / 2 ^ 32 + 2 ^ 32 * (ctx2 q / 2 ^ 32))) w in
  let '(w, s) := ucx (AmSend r (r_reply_ep q) (le_bytes 4 UROM_RDMO_OP_FLUSH ++ le_bytes 8 fid)) w in
  if UCS_PTR_IS_ERR s then Ret (w, DOCA_ERROR_DRIVER)
  else let w := upd_req r (set_stage 2) w in
       match await s with Some e => Ret (w, e) | None => Ret (w, DOCA_SUCCESS) end.

Definition urom_worker_rdmo_flush_progress (r : Z) (w : worker) : outcome (worker * doca_error_t) :=
  let* q := req_at r w in
  if ctx0 q =? 0 then
    let '(w, s) := ucx WorkerFence w in
    if negb (bool_decide (s = UCS_OK)) then Ret (w, DOCA_ERROR_DRIVER)
    else
      let* (w, _) := urom_worker_rdmo_mem_cache_flush (r_client q) w in
      let* cl := client_at (r_client q) w in
      let '(w, s) := ucx (FlushEp r (c_ep cl)) w in
      if UCS_PTR_IS_ERR s then Ret (w, DOCA_ERROR_DRIVER)
      else let w := upd_req r (set_stage 1) w in
           match await s with Some e => Ret (w, e) | None => flush_respond r w end
  else if ctx0 q =? 1 then flush_respond r w
  else Ret (w, DOCA_SUCCESS).

(** ** Append *)

(** What stage 1 of an append does next: return a result, or go on to stage 2 (update
    the cache) or stage 3 (write), the latter with the mapped pointer. *)
Inductive append_next : Type :=
| AppendReturn (e : doca_error_t)
| AppendCache
| AppendPut (sm_ptr : option Z).

(** Stage 1: read the pointer. *)
Definition append_fadd (r : Z) (q : urom_worker_rdmo_req) (cl : urom_worker_rdmo_client) (w : worker)
    : outcome (worker * append_next) :=
  let h := r_header q in
  match mkeys cl !! ptr_rkey h with
  | None => Ret (w, AppendReturn DOCA_SUCCESS)
  | Some k =>
      let* m := mkey_at k w in
      let w := upd_req r (set_ctx (ctx0 q) (ctx1 q) k) w in
      if negb (ucp_rkey m =? ptr_rkey h) then Ret (w, AppendReturn DOCA_ERROR_INVALID_VALUE)
      else if ucp_rkey_ptr env (ucp_rkey m) (ptr_addr h) then
        Ret (upd_req r (set_ctx 2 (read64 (memory w) (ptr_addr h)) k) w, AppendPut (Some (ptr_addr h)))
      else
        match urom_worker_rdmo_mem_cache_get m (ptr_addr h) with
        | Ok v => Ret (upd_req r (set_ctx 1 v k) w, AppendCache)
        | Err _ =>
            let '(w, s) := ucx (GetReq r (ptr_addr h) (ucp_rkey m)) w in
            if negb (bool_decide (s = UCS_INPROGRESS)) then Ret (w, AppendReturn DOCA_ERROR_DRIVER)
            else
              let w := upd_req r (set_stage 1) w in
              Ret (upd_client (r_client q) (set_pause true) w, AppendReturn DOCA_ERROR_IN_PROGRESS)
        end
  end.

(** Stage 2: the next append of the client gets the address behind this one. *)
Definition append_cache (r : Z) (w : worker) : outcome (worker * doca_error_t) :=
  let* q := req_at r w in
  let* (w, e) := urom_worker_rdmo_mem_cache_put (ctx2 q) (ptr_addr (r_header q))
                   (u64 (ctx1 q + r_length q)) w in
  if negb (bool_decide (e = DOCA_SUCCESS)) then Ret (w, e)
  else Ret (upd_client (r_client q) (set_pause false) (upd_req r (set_stage 2) w), DOCA_SUCCESS).

(** Stage 3: write the data at the address that was read. *)
Definition append_put (r : Z) (sm_ptr : option Z) (w : worker) : outcome (worker * doca_error_t) :=
  let* q := req_at r w in
  let* cl := client_at (r_client q) w in
  let h := r_header q in
  let kopt := if negb (ptr_rkey h =? data_rkey h) then mkeys cl !! data_rkey h else Some (ctx2 q) in
  match kopt with
  | None => Ret (w, DOCA_SUCCESS)
  | Some k =>
      let* m := mkey_at k w in
      if (ctx1 q <? va m) || (u64 (va m + mk_len m) <? u64 (ctx1 q + r_length q))
      then Ret (w, DOCA_ERROR_UNEXPECTED)
      else if r_rndv q then
        if negb (ucp_memh m) then Ret (w, DOCA_ERROR_INVALID_VALUE)
        else
          let '(w, s) := ucx (RecvData r (ctx1 q) (r_length q)) w in
          if UCS_PTR_IS_ERR s then Ret (w, DOCA_ERROR_DRIVER)
          else let w := upd_req r (set_stage 3) w in
               match await s with Some e => Ret (w, e) | None => Ret (w, DOCA_SUCCESS) end
      else if negb (ucp_rkey_ptr env (ucp_rkey m) (ctx1 q)) then
        let '(w, s) := ucx (PutReq r (ctx1 q) (ucp_rkey m) (r_data q)) w in
        if UCS_PTR_IS_ERR s then Ret (w, DOCA_ERROR_DRIVER)
        else let w := upd_req r (set_stage 3) w in
             match await s with Some e => Ret (w, e) | None => Ret (w, DOCA_SUCCESS) end
      else
        match sm_ptr with
        | None => Undef NullDeref
        | Some p =>
            let mem := write_bytes (memory w) (ctx1 q) (r_data q) in
            let mem := write_bytes mem p (le_bytes 8 (u64 (read64 mem p + r_length q))) in
            Ret (set_memory mem w, DOCA_SUCCESS)
        end
  end.

Definition urom_worker_rdmo_append_progress (r : Z) (w : worker) : outcome (worker * doca_error_t) :=
  let* q := req_at r w in
  let* cl := client_at (r_client q) w in
  let* (w, next) :=
    if ctx0 q =? 0 then append_fadd r q cl w
    else if ctx0 q =? 1 then Ret (w, AppendCache)
    else if ctx0 q =? 2 then Ret (w, AppendPut None)
    else Ret (w, AppendReturn DOCA_SUCCESS) in
  match next with
  | AppendReturn e => Ret (w, e)
  | AppendPut p => append_put r p w
  | AppendCache =>
      let* (w, e) := append_cache r w in
      if bool_decide (e = DOCA_SUCCESS) then append_put r None w else Ret (w, e)
  end.

(** ** Scatter *)

(** [urom_rdmo_scatter_iov]: address, key and length, padded to 24 bytes; the data
    follow. *)
Definition IOV_SIZE : Z := 24.

Definition UINT64_MAX : Z := 18446744073709551615.

(** The loop over the entries of the payload: [off] is the offset of the entry,
    [prev] the key and object of the previous one ([prev_rkey] starts at [UINT64_MAX]
    with a null object). *)
Fixpoint scatter_loop (count : nat) (r off : Z) (prev : option (Z * Z)) (w : worker)
    : outcome (worker * option doca_error_t) :=
  match count with
  | O => Ret (w, None)
  | S count' =>
      let* q := req_at r w in
      let* cl := client_at (r_client q) w in
      let* _ := require (off + IOV_SIZE <=? Z.of_nat (length (r_data q))) OutOfBounds in
      let addr := load (Z.to_nat off) 8 (r_data q) in
      let rkey := load (Z.to_nat off + 8) 8 (r_data q) in
      let len := load (Z.to_nat off + 16) 2 (r_data q) in
      let* kopt := match prev with
                   | Some (pk, k) => Ret (if rkey =? pk then Some k else mkeys cl !! rkey)
                   | None => if rkey =? UINT64_MAX then Undef NullDeref else Ret (mkeys cl !! rkey)
                   end in
      match kopt with
      | None => Ret (w, Some DOCA_SUCCESS)
      | Some k =>
          let* m := mkey_at k w in
          if (addr <? va m) || (u64 (va m + mk_len m) <? u64 (addr + len))
          then Ret (w, Some DOCA_ERROR_UNEXPECTED)
          else
            let* _ := require (off + IOV_SIZE + len <=? Z.of_nat (length (r_data q))) OutOfBounds in
            let iov_data := take (Z.to_nat len) (drop (Z.to_nat (off + IOV_SIZE)) (r_data q)) in
            let next w := scatter_loop count' r (off + IOV_SIZE + len) (Some (rkey, k)) w in
            if negb (ucp_rkey_ptr env (ucp_rkey m) addr) then
              let '(w, s) := ucx (PutScatter r addr (ucp_rkey m) iov_data) w in
              if UCS_PTR_IS_ERR s then Ret (w, Some DOCA_ERROR_DRIVER)
              else if bool_decide (s = UCS_INPROGRESS)
              then next (upd_req r (fun q => set_ctx (ctx0 q) (u64 (ctx1 q + 1)) (ctx2 q) q) w)
              else next w
            else next (set_memory (write_bytes (memory w) addr iov_data) w)
      end
  end.

Definition urom_worker_rdmo_scatter_progress (r : Z) (w : worker) : outcome (worker * doca_error_t) :=
  let* q := req_at r w in
  let* (w, early) :=
    if ctx0 q =? 0 then
      if r_rndv q then Ret (w, Some DOCA_ERROR_NOT_SUPPORTED)
      else
        let* (w, e) := scatter_loop (Z.to_nat (scatter_count (r_header q))) r 0 None w in
        match e with
        | Some e => Ret (w, Some e)
        | None => Ret (upd_req r (set_stage 1) w, None)
        end
    else Ret (w, None) in
  match early with
  | Some e => Ret (w, e)
  | None =>
      let* q := req_at r w in
      if (ctx0 q =? 1) && negb (ctx1 q =? 0) then Ret (w, DOCA_ERROR_IN_PROGRESS)
      else Ret (w, DOCA_SUCCESS)
  end.

(** [urom_worker_rdmo_ops_table]: the progress function of the request's operation. *)
Definition progress (r : Z) (w : worker) : outcome (worker * doca_error_t) :=
  let* q := req_at r w in
  let op := hdr_op_id (r_header q) in
  if op =? UROM_RDMO_OP_FLUSH then urom_worker_rdmo_flush_progress r w
  else if op =? UROM_RDMO_OP_APPEND then urom_worker_rdmo_append_progress r w
  else urom_worker_rdmo_scatter_progress r w.

(** ** Starting, queueing and completing requests *)

Definition urom_worker_rdmo_req_free (r : Z) (w : worker) : outcome worker :=
  let* q := req_at r w in
  let* _ := ep_at (r_ep q) w in
  let w := upd_ep (r_ep q) (fun e => Ep (fenced_ops e) (oreqs e - 1)) w in
  Ret (set_reqs (delete r (reqs w)) w).

Definition urom_worker_rdmo_req_free_data (r : Z) (w : worker) : outcome worker :=
  let* q := req_at r w in
  Ret (if r_rndv q then w else log_call (DataRelease r) w).

Definition urom_worker_rdmo_req_start (r : Z) (w : worker) : outcome (worker * doca_error_t) :=
  let* q := req_at r w in
  let* e := ep_at (r_ep q) w in
  if negb (bool_decide (fenced_ops e = [])) || (is_fenced q && negb (oreqs e =? 0)) then
    Ret (upd_ep (r_ep q) (fun e => Ep (fenced_ops e ++ [r]) (oreqs e)) w, DOCA_ERROR_IN_PROGRESS)
  else progress r (upd_ep (r_ep q) (fun e => Ep (fenced_ops e) (oreqs e + 1)) w).

(** The end of a request that has been waiting: [if SUCCESS { free_data; free }]. *)
Definition finish (r : Z) (x : worker * doca_error_t) : outcome worker :=
  let '(w, e) := x in
  if bool_decide (e = DOCA_SUCCESS) then
    let* w := urom_worker_rdmo_req_free_data r w in urom_worker_rdmo_req_free r w
  else Ret w.

(** The loop of [urom_worker_rdmo_check_fenced]; every turn removes the head of the
    list, so its length bounds the turns. *)
Fixpoint fenced_loop (n : nat) (e : Z) (w : worker) : outcome worker :=
  let* ep := ep_at e w in
  match fenced_ops ep with
  | [] => Ret w
  | r :: rest =>
      match n with
      | O => Undef OutOfFuel
      | S n' =>
          let* q := req_at r w in
          if is_fenced q && negb (oreqs ep =? 0) then Ret w
          else
            let w := upd_ep e (fun ep => Ep rest (oreqs ep + 1)) w in
            let* x := progress r w in
            let* w := finish r x in
            fenced_loop n' e w
      end
  end.

Definition urom_worker_rdmo_check_fenced (e : Z) (w : worker) : outcome worker :=
  let* ep := ep_at e w in
  if negb (oreqs ep =? 0) || bool_decide (fenced_ops ep = []) then Ret w
  else fenced_loop (length (fenced_ops ep)) e w.

(** The loop of [urom_worker_rdmo_check_paused]. *)
Fixpoint paused_loop (n : nat) (c : Z) (w : worker) : outcome worker :=
  let* cl := client_at c w in
  if pause cl then Ret w
  else match paused_ops cl with
       | [] => Ret w
       | r :: rest =>
           match n with
           | O => Undef OutOfFuel
           | S n' =>
               let w := upd_client c (set_paused_ops rest) w in
               let* x := urom_worker_rdmo_req_start r w in
               let* w := finish r x in
               paused_loop n' c w
           end
       end.

Definition urom_worker_rdmo_check_paused (c : Z) (w : worker) : outcome worker :=
  let* cl := client_at c w in
  paused_loop (length (paused_ops cl)) c w.

(** [req_complete] reads the client and the end-point of the request after it was
    returned to the pool, whose memory keeps them. *)
Definition urom_worker_rdmo_req_complete (r : Z) (w : worker) : outcome worker :=
  let* q := req_at r w in
  let* w := urom_worker_rdmo_req_free r w in
  let* w := urom_worker_rdmo_check_paused (r_client q) w in
  urom_worker_rdmo_check_fenced (r_ep q) w.

Definition urom_worker_rdmo_op_cb (r : Z) (w : worker) : outcome worker :=
  let* (w, e) := progress r w in
  if bool_decide (e = DOCA_SUCCESS) then
    let* w := urom_worker_rdmo_req_free_data r w in urom_worker_rdmo_req_complete r w
  else Ret w.

Definition urom_worker_rdmo_scatter_op_send_cb (r : Z) (w : worker) : outcome worker :=
  let* _ := req_at r w in
  urom_worker_rdmo_op_cb r (upd_req r (fun q => set_ctx (ctx0 q) (u64 (ctx1 q - 1)) (ctx2 q) q) w).

(** [urom_worker_rdmo_req_queue] *)
Definition urom_worker_rdmo_req_queue (r : Z) (w : worker) : outcome (worker * doca_error_t) :=
  let* q := req_at r w in
  let* cl := client_at (r_client q) w in
  if negb (bool_decide (paused_ops cl = [])) || pause cl then
    Ret (upd_client (r_client q) (fun cl => set_paused_ops (paused_ops cl ++ [r]) cl) w,
         DOCA_ERROR_IN_PROGRESS)
  else
    let* (w, e) := urom_worker_rdmo_req_start r w in
    if bool_decide (e = DOCA_SUCCESS) then
      let* w := urom_worker_rdmo_req_free r w in Ret (w, e)
    else Ret (w, e).

(** The active-message callback of worker_rdmo.c. *)
Definition urom_worker_rdmo_am_cb (header data : list Z) (len : Z) (rndv : bool) (reply_ep : Z) (w : worker)
    : outcome (worker * ucs_status) :=
  let* _ := require (12 <=? Z.of_nat (length header)) OutOfBounds in
  match clients w !! hdr_id header with
  | None => Ret (w, UCS_OK)
  | Some _ =>
      match eps w !! reply_ep with
      | None => Ret (w, UCS_OK)
      | Some _ =>
          if UROM_RDMO_OP_SCATTER <? hdr_op_id header then Ret (w, UCS_OK)
          else if negb (mpool_ok env (calls w)) then Ret (w, UCS_ERR_OTHER)
          else if (UROM_RDMO_HDR_LEN_MAX <? length header)%nat then Ret (w, UCS_ERR_OTHER)
          else
            let r := next_req w in
            let q := Req (hdr_id header) reply_ep
                       (header ++ replicate (UROM_RDMO_HDR_LEN_MAX - length header) 0)
                       data len rndv reply_ep 0 0 0 in
            let w := Worker (clients w) (eps w) (mkey_heap w) (<[r := q]> (reqs w)) (r + 1)
                       (memory w) (calls w) in
            let* (w, e) := urom_worker_rdmo_req_queue r w in
            Ret (w, if bool_decide (e = DOCA_SUCCESS) then UCS_OK else UCS_INPROGRESS)
      end
  end.

(** The completion of a call in progress: the callback UCX runs, for a read with the
    value that arrived. *)
Definition complete (c : ucx_call) (value : Z) (w : worker) : outcome worker :=
  match c with
  | GetReq r _ _ =>
      let* _ := req_at r w in
      urom_worker_rdmo_op_cb r (upd_req r (fun q => set_ctx (ctx0 q) (u64 value) (ctx2 q) q) w)
  | PutReq r _ _ _ | RecvData r _ _ | FlushEp r _ | AmSend r _ _ => urom_worker_rdmo_op_cb r w
  | PutScatter r _ _ _ => urom_worker_rdmo_scatter_op_send_cb r w
  | _ => Ret w
  end.
End engine.

(** ** Updates of present objects *)

Lemma alter_Some {A} (f : A -> A) (m : gmap Z A) i x : m !! i = Some x -> alter f i m = <[i := f x]> m.
Proof.
  intros H. apply map_eq. intros j. destruct (decide (i = j)) as [<-|Hne].
  - by rewrite lookup_alter_eq, H, lookup_insert_eq.
  - by rewrite lookup_alter_ne, lookup_insert_ne.
Qed.

Lemma upd_req_Some r f w q : reqs w !! r = Some q -> upd_req r f w = set_reqs (<[r := f q]> (reqs w)) w.
Proof. intros H. unfold upd_req. by rewrite (alter_Some _ _ _ _ H). Qed.

(** ** Calls in progress *)

(** Calls whose completion runs a callback on a request. *)
Definition has_callback (x : ucx_call) : bool :=
  match x with
  | PutReq _ _ _ _ | PutScatter _ _ _ _ | GetReq _ _ _ | RecvData _ _ _ | FlushEp _ _ | AmSend _ _ _ => true
  | _ => false
  end.

(** The calls of [new], made after [old], that are still in progress. *)
Fixpoint started (env : ucx_env) (old new : list ucx_call) : list ucx_call :=
  match new with
  | [] => []
  | x :: new' =>
      (if has_callback x && bool_decide (answer env old x = UCS_INPROGRESS) then [x] else [])
      ++ started env (old ++ [x]) new'
  end.

Lemma started_app env new1 : forall old new2,
  started env old (new1 ++ new2) = started env old new1 ++ started env (old ++ new1) new2.
Proof.
  induction new1 as [|x new1 IH]; intros old new2; cbn [started app]; [by rewrite app_nil_r|].
  rewrite IH, <-!app_assoc. done.
Qed.

Definition call_req (x : ucx_call) : Z :=
  match x with
  | PutReq r _ _ _ | PutScatter r _ _ _ | GetReq r _ _ | RecvData r _ _ | FlushEp r _ | AmSend r _ _ => r
  | _ => -1
  end.

Definition is_put (x : ucx_call) : bool := match x with PutReq _ _ _ _ => true | _ => false end.

(** The data written to remote memory, in order. *)
Definition puts (l : list ucx_call) : list ucx_call := filter (fun x => is_put x = true) l.

Lemma puts_app l1 l2 : puts (l1 ++ l2) = puts l1 ++ puts l2.
Proof. apply filter_app. Qed.

Definition remove_call (x : ucx_call) (l : list ucx_call) : list ucx_call := filter (fun y => y <> x) l.

(** ** Sessions: requests arrive and calls complete, in any order *)

Inductive rdmo_event : Type :=
| Arrive (header data : list Z) (len : Z) (rndv : bool) (reply_ep : Z)
| Done (x : ucx_call) (value : Z).

(** The calls [w'] has made since [w]. *)
Definition new_calls (w w' : worker) : list ucx_call := drop (length (calls w)) (calls w').

Definition session_step (env : ucx_env) (ev : rdmo_event) (w : worker) (pend : list ucx_call)
    : outcome (worker * list ucx_call) :=
  match ev with
  | Arrive header data len rndv reply_ep =>
      let* (w', _) := urom_worker_rdmo_am_cb env header data len rndv reply_ep w in
      Ret (w', pend ++ started env (calls w) (new_calls w w'))
  | Done x value =>
      let* w' := complete env x value w in
      Ret (w', remove_call x pend ++ started env (calls w) (new_calls w w'))
  end.

Fixpoint session_run (env : ucx_env) (evs : list rdmo_event) (w : worker) (pend : list ucx_call)
    : outcome (worker * list ucx_call) :=
  match evs with
  | [] => Ret (w, pend)
  | ev :: evs' => let* (w, pend) := session_step env ev w pend in session_run env evs' w pend
  end.

(** Only calls in progress complete. *)
Fixpoint session_ok (env : ucx_env) (evs : list rdmo_event) (w : worker) (pend : list ucx_call) : Prop :=
  match evs with
  | [] => True
  | ev :: evs' =>
      match ev with Done x _ => x ∈ pend | Arrive _ _ _ _ _ => True end
      /\ forall w' pend', session_step env ev w pend = Ret (w', pend') -> session_ok env evs' w' pend'
  end.

(** The requests of a session, with the names they get. *)
Fixpoint arrivals (n : Z) (evs : list rdmo_event) : list (Z * list Z) :=
  match evs with
  | [] => []
  | Arrive _ data _ _ _ :: evs' => (n, data) :: arrivals (n + 1) evs'
  | Done _ _ :: evs' => arrivals n evs'
  end.

Lemma new_calls_app w w' new : calls w' = calls w ++ new -> new_calls w w' = new.
Proof. intros H. unfold new_calls. by rewrite H, drop_app_length. Qed.

(** ** Appending to one queue

    The requests of a client that append to the queue whose tail pointer is at [P]
    in the region [k] with key [rk].  The region is remote, nothing fails, and the
    requests carry no fence. *)
Section queue.
Context (env : ucx_env) (c k P rk : Z) (m0 : urom_worker_rdmo_mkey) (known : Z -> Prop).

(** The layout the queue promises: each request's data behind the previous one's. *)
Fixpoint layout (tail : Z) (rs : list (Z * list Z)) : list ucx_call :=
  match rs with
  | [] => []
  | (r, d) :: rest => PutReq r tail rk d :: layout (tail + Z.of_nat (length d)) rest
  end.

Definition total (rs : list (Z * list Z)) : Z := Z.of_nat (length (concat (map snd rs))).

Lemma total_cons r d rs : total ((r, d) :: rs) = Z.of_nat (length d) + total rs.
Proof. unfold total. cbn. rewrite length_app. lia. Qed.

Lemma total_app rs1 rs2 : total (rs1 ++ rs2) = total rs1 + total rs2.
Proof. unfold total. rewrite map_app, concat_app, length_app. lia. Qed.

Lemma total_nonneg rs : 0 <= total rs.
Proof. unfold total. lia. Qed.

Lemma layout_app rs1 : forall rs2 t, layout t (rs1 ++ rs2) = layout t rs1 ++ layout (t + total rs1) rs2.
Proof.
  induction rs1 as [|[r d] rs1 IH]; intros rs2 t; cbn [layout app].
  { by rewrite Z.add_0_r. }
  rewrite IH, total_cons. do 3 f_equal. lia.
Qed.

(** An append to this queue with the data [d], at stage [stage]. *)
Record is_append (w : worker) (r : Z) (d : list Z) (stage : Z) (q : urom_worker_rdmo_req) : Prop := {
  ia_req : reqs w !! r = Some q;
  ia_client : r_client q = c;
  ia_ep : known (r_ep q);
  ia_op : hdr_op_id (r_header q) = UROM_RDMO_OP_APPEND;
  ia_fence : is_fenced q = false;
  ia_ptr : ptr_addr (r_header q) = P;
  ia_rkey : ptr_rkey (r_header q) = rk;
  ia_drkey : data_rkey (r_header q) = rk;
  ia_data : r_data q = d;
  ia_len : r_length q = Z.of_nat (length d);
  ia_rndv : r_rndv q = false;
  ia_stage : ctx0 q = stage;
}.

(** The libraries in this section. *)
Record quiet_env : Prop := {
  qe_remote a : ucp_rkey_ptr env rk a = false;
  qe_put l r a d : answer env l (PutReq r a rk d) = UCS_OK \/ answer env l (PutReq r a rk d) = UCS_INPROGRESS;
  qe_get l r : answer env l (GetReq r P rk) = UCS_INPROGRESS;
  qe_kh l : kh_put_ok env l = true;
  qe_mpool l : mpool_ok env l = true;
}.

(** The client and the region, with the cached tail of the queue. *)
Record queue_at (w : worker) (cached : option Z) (paused : list Z) (p : bool) : Prop := {
  qa_client : exists cn h ks, clients w !! c = Some (Client cn h ks paused p) /\ ks !! rk = Some k;
  qa_mkey : exists t, mkey_heap w !! k = Some (set_cache t m0) /\ t !! P = cached;
  qa_rkey : ucp_rkey m0 = rk;
  qa_bound : in_width 64 (va m0) /\ va m0 + mk_len m0 < 2 ^ 64;
  qa_eps : forall e x, eps w !! e = Some x -> fenced_ops x = [];
  qa_known : forall e, known e -> is_Some (eps w !! e);
}.

Definition fits (tail : Z) (d : list Z) : Prop :=
  va m0 <= tail /\ tail + Z.of_nat (length d) <= va m0 + mk_len m0.

(** The result of a put, and of the stage around it. *)
Definition put_result (w : worker) (r tail : Z) (d : list Z) : doca_error_t :=
  if decide (answer env (calls w) (PutReq r tail rk d) = UCS_OK) then DOCA_SUCCESS else DOCA_ERROR_IN_PROGRESS.

(** Stage 3 writes the data at the address stage 1 found. *)
Lemma append_put_ok w r d q cached paused p :
  quiet_env -> queue_at w cached paused p -> is_append w r d 2 q -> ctx2 q = k -> fits (ctx1 q) d ->
  append_put env r None w
  = Ret (Worker (clients w) (eps w) (mkey_heap w) (<[r := set_stage 3 q]> (reqs w)) (next_req w) (memory w)
           (calls w ++ [PutReq r (ctx1 q) rk d]), put_result w r (ctx1 q) d).
Proof.
  intros Hq Hw Ha Hk [Hf1 Hf2]. destruct Hw as [(cn & h & ks & Hc & Hks) (t & Hm & Ht) Hrk [Hb1 Hb2] _ _].
  unfold append_put, req_at, client_at, mkey_at. rewrite (ia_req _ _ _ _ _ Ha). cbn [of_option].
  rewrite (ia_client _ _ _ _ _ Ha), Hc. cbn [of_option].
  rewrite (ia_rkey _ _ _ _ _ Ha), (ia_drkey _ _ _ _ _ Ha), Z.eqb_refl. cbn [negb].
  rewrite Hk, Hm. cbn [of_option set_cache va mk_len ucp_rkey].
  rewrite (ia_len _ _ _ _ _ Ha). unfold in_width in Hb1.
  rewrite (uwrap_id 64 (va m0 + mk_len m0)) by (unfold in_width; lia).
  rewrite (uwrap_id 64 (ctx1 q + _)) by (unfold in_width; lia).
  rewrite (proj2 (Z.ltb_ge _ _)) by lia. rewrite (proj2 (Z.ltb_ge _ _)) by lia. cbn [orb].
  rewrite (ia_rndv _ _ _ _ _ Ha), Hrk, (qe_remote Hq). cbn [negb]. unfold ucx.
  rewrite (ia_data _ _ _ _ _ Ha). unfold put_result.
  assert (reqs (log_call (PutReq r (ctx1 q) rk d) w) !! r = Some q) as Hr by apply (ia_req _ _ _ _ _ Ha).
  destruct (qe_put Hq (calls w) r (ctx1 q) d) as [E|E]; rewrite E; cbn [UCS_PTR_IS_ERR await];
    rewrite (upd_req_Some _ _ _ _ Hr); by case_decide.
Qed.

(** The worker after a request has taken its place in the queue. *)
Definition placed (w : worker) (t : gmap Z Z) (r : Z) (q : urom_worker_rdmo_req) (tail : Z) : worker :=
  Worker (alter (set_pause false) c (clients w)) (eps w)
    (<[k := set_cache (<[P := tail + r_length q]> t) m0]> (mkey_heap w))
    (<[r := set_ctx 3 tail k q]> (reqs w)) (next_req w) (memory w)
    (calls w ++ [PutReq r tail rk (r_data q)]).

(** The worker after stage 2. *)
Definition moved (w : worker) (t : gmap Z Z) (r : Z) (q : urom_worker_rdmo_req) : worker :=
  Worker (alter (set_pause false) c (clients w)) (eps w)
    (<[k := set_cache (<[P := ctx1 q + r_length q]> t) m0]> (mkey_heap w))
    (<[r := set_stage 2 q]> (reqs w)) (next_req w) (memory w) (calls w).

Lemma append_cache_ok w r d q t :
  quiet_env -> is_append w r d 1 q -> ctx2 q = k -> in_width 64 (ctx1 q + Z.of_nat (length d)) ->
  mkey_heap w !! k = Some (set_cache t m0) ->
  append_cache env r w = Ret (moved w t r q, DOCA_SUCCESS).
Proof.
  intros Hq Ha Hk Hf Ht. unfold append_cache, req_at. rewrite (ia_req _ _ _ _ _ Ha). cbn [of_option].
  unfold urom_worker_rdmo_mem_cache_put, mkey_at. rewrite Hk, Ht. cbn [of_option].
  rewrite (ia_ptr _ _ _ _ _ Ha), (ia_client _ _ _ _ _ Ha), (ia_len _ _ _ _ _ Ha).
  rewrite (uwrap_id 64) by done. rewrite (qe_kh Hq).
  set (w1 := set_mkeys (<[k := _]> (mkey_heap w)) w).
  assert (reqs w1 !! r = Some q) as Hr1 by apply (ia_req _ _ _ _ _ Ha).
  assert ((match mem_cache (set_cache t m0) !! P with Some _ => Ret (w1, DOCA_SUCCESS) | None => Ret (w1, DOCA_SUCCESS) end)
    = Ret (w1, DOCA_SUCCESS)) as -> by by destruct (_ !! P).
  change (bool_decide (DOCA_SUCCESS = DOCA_SUCCESS)) with true. cbn [negb]. rewrite (upd_req_Some _ _ _ _ Hr1).
  unfold moved. by rewrite (ia_len _ _ _ _ _ Ha).
Qed.

Lemma moved_queue w r q t cached paused p :
  queue_at w cached paused p -> queue_at (moved w t r q) (Some (ctx1 q + r_length q)) paused false.
Proof.
  intros [(cn & h & ks & Hc & Hks) _ ? ? ? ?]. split; try done.
  - exists cn, h, ks. split; [|done]. cbn. by rewrite lookup_alter_eq, Hc.
  - eexists. cbn. rewrite lookup_insert_eq. split; [done|]. by rewrite lookup_insert_eq.
Qed.

Lemma moved_append w r q t d : is_append w r d 1 q -> is_append (moved w t r q) r d 2 (set_stage 2 q).
Proof. intros []. split; try done. cbn. by rewrite lookup_insert_eq. Qed.

(** Stages 2 and 3. *)
Lemma cache_and_put_ok w r d q cached paused p t :
  quiet_env -> queue_at w cached paused p -> is_append w r d 1 q -> ctx2 q = k -> fits (ctx1 q) d ->
  mkey_heap w !! k = Some (set_cache t m0) ->
  (let* (w, e) := append_cache env r w in
   if bool_decide (e = DOCA_SUCCESS) then append_put env r None w else Ret (w, e))
  = Ret (placed w t r q (ctx1 q), put_result w r (ctx1 q) d).
Proof.
  intros Hq Hw Ha Hk Hf Ht. destruct (qa_bound _ _ _ _ Hw) as [Hb1 Hb2]. pose proof Hf as [Hf1 Hf2].
  unfold in_width in Hb1. rewrite (append_cache_ok w r d q t Hq Ha Hk) by (done || (unfold in_width; lia)).
  change (bool_decide (DOCA_SUCCESS = DOCA_SUCCESS)) with true.
  rewrite (append_put_ok (moved w t r q) r d (set_stage 2 q) _ _ _ Hq (moved_queue w r q t _ _ _ Hw) (moved_append _ _ _ t _ Ha));
    [|done|done].
  unfold placed, moved. rewrite (ia_data _ _ _ _ _ Ha). cbn. rewrite insert_insert_eq.
  unfold set_stage, set_ctx. cbn. by rewrite Hk.
Qed.

Lemma progress_append w r q : reqs w !! r = Some q -> hdr_op_id (r_header q) = UROM_RDMO_OP_APPEND ->
  progress env r w = urom_worker_rdmo_append_progress env r w.
Proof. intros Hr Ho. unfold progress, req_at. rewrite Hr. cbn [of_option]. by rewrite Ho. Qed.

(** Stage 1 with the tail in the cache. *)
Lemma progress_hit w r d q tail paused p :
  quiet_env -> queue_at w (Some tail) paused p -> is_append w r d 0 q ->
  progress env r w
  = (let* (w, e) := append_cache env r (set_reqs (<[r := set_ctx 1 tail k q]> (reqs w)) w) in
     if bool_decide (e = DOCA_SUCCESS) then append_put env r None w else Ret (w, e)).
Proof.
  intros Hq Hw Ha. pose proof Hw as [(cn & h & ks & Hc & Hks) (t & Ht & HtP) Hrk Hb He Hkn].
  rewrite (progress_append _ _ _ (ia_req _ _ _ _ _ Ha) (ia_op _ _ _ _ _ Ha)).
  unfold urom_worker_rdmo_append_progress, req_at, client_at. rewrite (ia_req _ _ _ _ _ Ha). cbn [of_option].
  rewrite (ia_client _ _ _ _ _ Ha), Hc. cbn [of_option]. rewrite (ia_stage _ _ _ _ _ Ha). cbn [Z.eqb].
  unfold append_fadd, mkey_at. cbn [mkeys]. rewrite (ia_rkey _ _ _ _ _ Ha), Hks, Ht. cbn [of_option set_cache ucp_rkey].
  rewrite Hrk, Z.eqb_refl. cbn [negb]. rewrite (qe_remote Hq), (ia_ptr _ _ _ _ _ Ha).
  unfold urom_worker_rdmo_mem_cache_get. cbn [mem_cache set_cache]. rewrite HtP.
  rewrite (upd_req_Some _ _ _ _ (ia_req _ _ _ _ _ Ha)).
  set (q1 := set_ctx (ctx0 q) (ctx1 q) k q).
  assert (reqs (set_reqs (<[r := q1]> (reqs w)) w) !! r = Some q1) as Hr1 by (cbn; by rewrite lookup_insert_eq).
  rewrite (upd_req_Some _ _ _ _ Hr1). cbn [set_reqs reqs]. by rewrite insert_insert_eq.
Qed.

Lemma hit_append w r d q tail : is_append w r d 0 q ->
  is_append (set_reqs (<[r := set_ctx 1 tail k q]> (reqs w)) w) r d 1 (set_ctx 1 tail k q).
Proof. intros []. split; try done. cbn. by rewrite lookup_insert_eq. Qed.

Lemma set_reqs_queue w x cached paused p : queue_at w cached paused p -> queue_at (set_reqs x w) cached paused p.
Proof. intros []. by split. Qed.

(** A request that finds the tail in the cache. *)
Lemma progress_cached w r d q tail paused p t :
  quiet_env -> queue_at w (Some tail) paused p -> is_append w r d 0 q -> fits tail d ->
  mkey_heap w !! k = Some (set_cache t m0) ->
  progress env r w = Ret (placed w t r q tail, put_result w r tail d).
Proof.
  intros Hq Hw Ha Hf Ht. rewrite (progress_hit w r d q tail paused p Hq Hw Ha).
  erewrite (cache_and_put_ok _ r d (set_ctx 1 tail k q) _ _ _ t Hq (set_reqs_queue _ _ _ _ _ Hw) (hit_append _ _ _ _ tail Ha)); try done.
  unfold placed. cbn. by rewrite insert_insert_eq.
Qed.

(** Requests other than [r] are as before. *)
Definition others (r : Z) (w w' : worker) : Prop :=
  forall r' d' st q', r' <> r -> is_append w r' d' st q' -> is_append w' r' d' st q'.

Lemma others_trans r w1 w2 w3 : others r w1 w2 -> others r w2 w3 -> others r w1 w3.
Proof. unfold others. eauto. Qed.

Lemma is_append_frame w w' r d st q :
  reqs w' !! r = reqs w !! r -> is_append w r d st q -> is_append w' r d st q.
Proof. intros Hr []. split; try done. congruence. Qed.

Lemma eps_alter_ok (f : urom_worker_rdmo_ep -> urom_worker_rdmo_ep) (E : gmap Z urom_worker_rdmo_ep) e :
  (forall x, fenced_ops (f x) = fenced_ops x) ->
  (forall e x, E !! e = Some x -> fenced_ops x = []) ->
  forall e' x, alter f e E !! e' = Some x -> fenced_ops x = [].
Proof.
  intros Hf HE e' x. rewrite lookup_alter_Some. intros [(-> & y & Hy & ->)|[_ Hx]]; [rewrite Hf|]; eauto.
Qed.

Lemma eps_alter_Some (f : urom_worker_rdmo_ep -> urom_worker_rdmo_ep) (E : gmap Z urom_worker_rdmo_ep) e e' :
  is_Some (E !! e') -> is_Some (alter f e E !! e').
Proof. intros H. by apply lookup_alter_is_Some. Qed.

(** Nothing is fenced: a request that is started makes progress at once. *)
Lemma start_progress w r d q cached paused p :
  queue_at w cached paused p -> is_append w r d 0 q ->
  exists w1, urom_worker_rdmo_req_start env r w = progress env r w1
    /\ queue_at w1 cached paused p /\ is_append w1 r d 0 q /\ reqs w1 = reqs w /\ clients w1 = clients w
    /\ mkey_heap w1 = mkey_heap w /\ next_req w1 = next_req w /\ calls w1 = calls w.
Proof.
  intros Hw Ha. pose proof Hw as [(cn & h & ks & Hc & Hks) (t & Ht & HP) Hrk Hb He Hkn].
  unfold urom_worker_rdmo_req_start, req_at, ep_at. rewrite (ia_req _ _ _ _ _ Ha). cbn [of_option].
  destruct (Hkn _ (ia_ep _ _ _ _ _ Ha)) as [x Hx]. rewrite Hx. cbn [of_option]. rewrite (He _ _ Hx), (ia_fence _ _ _ _ _ Ha).
  change (bool_decide ([] = [])) with true. cbn [andb orb negb].
  eexists. split; [reflexivity|]. split_and!; try done.
  - split; try done; [by exists cn, h, ks|by exists t|by apply eps_alter_ok|]. intros. by apply eps_alter_Some, Hkn.
  - by apply (is_append_frame w).
Qed.

(** A request that is started takes the next place. *)
Lemma req_start_ok w r d q tail paused :
  quiet_env -> queue_at w (Some tail) paused false -> is_append w r d 0 q -> fits tail d ->
  exists w' q', urom_worker_rdmo_req_start env r w = Ret (w', put_result w r tail d)
    /\ queue_at w' (Some (tail + Z.of_nat (length d))) paused false
    /\ is_append w' r d 3 q' /\ others r w w' /\ next_req w' = next_req w
    /\ calls w' = calls w ++ [PutReq r tail rk d].
Proof.
  intros Hq Hw Ha Hf. destruct (start_progress w r d q _ _ _ Hw Ha) as (w1 & -> & Hw1 & Ha1 & Er & Ec & Em & En & El).
  pose proof Hw1 as [(cn & h & ks & Hc & Hks) (t & Ht & HP) Hrk Hb He Hkn].
  rewrite (progress_cached w1 r d q tail paused false t Hq Hw1 Ha1 Hf Ht).
  assert (alter (set_pause false) c (clients w1) = clients w1) as Eal.
  { apply alter_id. intros y Hy. rewrite Hc in Hy. by injection Hy as <-. }
  exists (placed w1 t r q tail), (set_ctx 3 tail k q). split; [unfold put_result; by rewrite El|].
  unfold placed. rewrite Eal, (ia_data _ _ _ _ _ Ha), (ia_len _ _ _ _ _ Ha).
  split_and!; try done.
  - split; try done; [by exists cn, h, ks|].
    eexists. cbn [mkey_heap]. rewrite lookup_insert_eq. split; [done|]. by rewrite lookup_insert_eq.
  - destruct Ha1. split; try done. cbn. by rewrite lookup_insert_eq.
  - intros r' d' st q' Hne. apply is_append_frame. cbn. by rewrite lookup_insert_ne, Er.
  - cbn. by rewrite El.
Qed.

(** A finished request is returned to the pool. *)
Lemma req_free_ok w r d st q cached paused p :
  queue_at w cached paused p -> is_append w r d st q ->
  exists w', urom_worker_rdmo_req_free r w = Ret w' /\ queue_at w' cached paused p /\ others r w w'
    /\ next_req w' = next_req w /\ calls w' = calls w.
Proof.
  intros Hw Ha. destruct (qa_known _ _ _ _ Hw _ (ia_ep _ _ _ _ _ Ha)) as [x Hx].
  unfold urom_worker_rdmo_req_free, req_at, ep_at. rewrite (ia_req _ _ _ _ _ Ha). cbn [of_option]. rewrite Hx. cbn [of_option].
  eexists. split; [reflexivity|]. split_and!; try done.
  - destruct Hw as [? ? ? ? He Hkn]. split; try done; [by apply eps_alter_ok|].
    intros e He'. by apply eps_alter_Some, Hkn.
  - intros r' d' st' q' Hne. apply is_append_frame. cbn. by rewrite lookup_delete_ne.
Qed.

Lemma free_data_ok w r d st q :
  is_append w r d st q -> urom_worker_rdmo_req_free_data r w = Ret (log_call (DataRelease r) w).
Proof.
  intros Ha. unfold urom_worker_rdmo_req_free_data, req_at. rewrite (ia_req _ _ _ _ _ Ha). cbn [of_option].
  by rewrite (ia_rndv _ _ _ _ _ Ha).
Qed.

Lemma log_call_frame x w cached paused p :
  queue_at w cached paused p -> queue_at (log_call x w) cached paused p.
Proof. intros []. by split. Qed.
Lemma log_call_append x w r d st q : is_append w r d st q -> is_append (log_call x w) r d st q.
Proof. by apply is_append_frame. Qed.

(** *** The phase in which the tail is cached *)

Definition waiting (w : worker) (wait : list (Z * list Z)) : Prop :=
  Forall (fun '(r, d) => exists q, is_append w r d 0 q) wait.

(** A put in progress of a request that has its place. *)
Definition in_flight (w : worker) (exec : list (Z * list Z)) (x : ucx_call) : Prop :=
  exists r a d q, x = PutReq r a rk d /\ (r, d) ∈ exec /\ is_append w r d 3 q.

(** [exec] have their places from [T0] on, [wait] are paused, [pend] are in progress. *)
Record cached_phase (w : worker) (T0 : Z) (exec wait : list (Z * list Z)) (paused : list Z)
    (pend : list ucx_call) : Prop := {
  cp_queue : queue_at w (Some (T0 + total exec)) paused false;
  cp_puts : puts (calls w) = layout T0 exec;
  cp_wait : waiting w wait;
  cp_pend : Forall (in_flight w exec) pend;
  cp_nodup : NoDup (map fst (exec ++ wait));
  cp_pnodup : NoDup (map call_req pend);
  cp_ids : Forall (fun r => r < next_req w) (map fst (exec ++ wait));
}.

Lemma fst_elem (r : Z) (d : list Z) (l : list (Z * list Z)) : (r, d) ∈ l -> r ∈ map fst l.
Proof. intros H. apply list_elem_of_fmap. by exists (r, d). Qed.

Lemma waiting_others w w' r wait :
  others r w w' -> r ∉ map fst wait -> waiting w wait -> waiting w' wait.
Proof.
  intros Ho Hr Hw. apply Forall_forall. intros [r' d'] Hin.
  apply (proj1 (Forall_forall _ _) Hw) in Hin as Hq. destruct Hq as [q Hq]. exists q.
  apply Ho; [|done]. intros ->. by apply Hr, (fst_elem _ d').
Qed.

Lemma in_flight_others w w' r exec exec' pend :
  others r w w' -> (forall x, x ∈ exec -> x ∈ exec') -> r ∉ map call_req pend ->
  Forall (in_flight w exec) pend -> Forall (in_flight w' exec') pend.
Proof.
  intros Ho He Hr Hp. apply Forall_forall. intros x Hin.
  apply (proj1 (Forall_forall _ _) Hp) in Hin as Hq.
  destruct Hq as (r' & a & d & q & -> & Hx & Hq). exists r', a, d, q. split; [done|]. split; [auto|].
  apply Ho; [|done]. intros ->. apply Hr. apply list_elem_of_fmap. by exists (PutReq r a rk d).
Qed.

Lemma in_flight_ids w exec pend r :
  Forall (in_flight w exec) pend -> r ∈ map call_req pend -> r ∈ map fst exec.
Proof.
  intros Hp (x & -> & Hx)%list_elem_of_fmap.
  apply (proj1 (Forall_forall _ _) Hp) in Hx as (r & a & d & q & -> & Hin & _). by eapply fst_elem.
Qed.

(** The next request in line is started. *)
Lemma start_next w T0 exec r d wait paused pend :
  quiet_env -> cached_phase w T0 exec ((r, d) :: wait) paused pend ->
  va m0 <= T0 -> T0 + total exec + Z.of_nat (length d) <= va m0 + mk_len m0 ->
  exists w' q', urom_worker_rdmo_req_start env r w = Ret (w', put_result w r (T0 + total exec) d)
    /\ is_append w' r d 3 q'
    /\ cached_phase w' T0 (exec ++ [(r, d)]) wait paused (pend ++ [PutReq r (T0 + total exec) rk d])
    /\ next_req w' = next_req w /\ calls w' = calls w ++ [PutReq r (T0 + total exec) rk d].
Proof.
  intros Hq [Hqa Hputs Hwait Hpend Hnd Hpnd Hids] Hlo Hhi.
  apply Forall_cons in Hwait as [[q Ha] Hwait]. pose proof (total_nonneg exec).
  destruct (req_start_ok w r d q _ paused Hq Hqa Ha) as (w' & q' & E & Hqa' & Ha' & Ho & Hn & Hc); [split; lia|].
  rewrite map_app in Hnd. cbn [map fst] in Hnd.
  apply NoDup_app in Hnd as (Hnd1 & Hnd2 & [Hr1 Hnd3]%NoDup_cons).
  assert (r ∉ map fst exec) as Hr2 by (intros Hin; by apply (Hnd2 r Hin); left).
  assert (r ∉ map call_req pend) as Hr3 by (intros Hin; by eapply Hr2, in_flight_ids).
  exists w', q'. split; [done|]. split; [done|]. split; [|done]. split.
  - rewrite total_app. unfold total at 2. cbn [map snd concat]. rewrite app_nil_r. by rewrite Z.add_assoc.
  - rewrite Hc, puts_app, Hputs, layout_app. by cbn.
  - by eapply waiting_others.
  - apply Forall_app. split; [eapply in_flight_others; [done| |done|done]; set_solver|].
    constructor; [|done]. exists r, (T0 + total exec), d, q'. split; [done|]. split; [|done].
    apply elem_of_app. right. by left.
  - rewrite <-app_assoc. cbn [app]. rewrite map_app. cbn [map fst]. apply NoDup_app. split; [done|]. split; [done|].
    by apply NoDup_cons.
  - rewrite map_app. cbn [map call_req]. apply NoDup_app. split; [done|]. split; [|apply NoDup_singleton].
    intros x Hx ->%list_elem_of_singleton. by apply Hr3.
  - rewrite <-app_assoc. cbn [app]. by rewrite Hn.
Qed.

(** A request whose put is done leaves. *)
Lemma retire w T0 exec wait paused pend r a d :
  cached_phase w T0 exec wait paused pend -> PutReq r a rk d ∈ pend ->
  exists w', urom_worker_rdmo_req_free r w = Ret w'
    /\ cached_phase w' T0 exec wait paused (remove_call (PutReq r a rk d) pend)
    /\ next_req w' = next_req w /\ calls w' = calls w.
Proof.
  intros [Hqa Hputs Hwait Hpend Hnd Hpnd Hids] Hin.
  pose proof (proj1 (Forall_forall _ _) Hpend _ Hin) as (r1 & a1 & d1 & q & [= <- <- <-] & Hex & Ha).
  destruct (req_free_ok w r d 3 q _ _ _ Hqa Ha) as (w' & E & Hqa' & Ho & Hn & Hc).
  exists w'. split; [done|]. split; [|done]. split; try done.
  - by rewrite Hc.
  - eapply waiting_others; [done| |done]. rewrite map_app in Hnd. apply NoDup_app in Hnd as (_ & Hd & _).
    apply Hd. by eapply fst_elem.
  - assert (r ∉ map call_req (remove_call (PutReq r a rk d) pend)) as Hr.
    { intros (x & Ex & [Hne Hx]%list_elem_of_filter)%list_elem_of_fmap.
      apply Hne. apply list_elem_of_lookup in Hx as [i Hi], Hin as [j Hj].
      assert (i = j) as -> by (eapply (NoDup_lookup _ i j r Hpnd); rewrite list_lookup_fmap;
        [rewrite Hi|rewrite Hj]; cbn; congruence). congruence. }
    eapply in_flight_others; [done| |done|]; [done|]. apply Forall_forall. intros x [_ Hx]%list_elem_of_filter.
    by apply (proj1 (Forall_forall _ _) Hpend).
  - unfold remove_call. clear -Hpnd. induction pend as [|x l IH]; [constructor|].
    cbn [map] in Hpnd. apply NoDup_cons in Hpnd as [Hx Hl]. rewrite filter_cons. case_decide; [|by apply IH].
    cbn [map]. apply NoDup_cons. split; [|by apply IH]. intros (y & Ey & [_ Hy]%list_elem_of_filter)%list_elem_of_fmap.
    apply Hx. apply list_elem_of_fmap. by exists y.
  - by rewrite Hn.
Qed.

Lemma phase_log w T0 exec wait paused pend r :
  cached_phase w T0 exec wait paused pend -> cached_phase (log_call (DataRelease r) w) T0 exec wait paused pend.
Proof.
  intros [Hqa Hputs Hwait Hpend Hnd Hpnd Hids]. split; try done.
  - by apply log_call_frame.
  - cbn. rewrite puts_app. cbn. by rewrite app_nil_r.
  - eapply Forall_impl; [exact Hwait|]. intros [r' d'] [q Hq]. exists q. by apply log_call_append.
  - eapply Forall_impl; [exact Hpend|]. intros x (r' & a & d & q & -> & Hin & Hq).
    exists r', a, d, q. split; [done|]. split; [done|]. by apply log_call_append.
Qed.

Lemma remove_last x pend : NoDup (map call_req (pend ++ [x])) -> remove_call x (pend ++ [x]) = pend.
Proof.
  rewrite map_app. intros (_ & Hd & _)%NoDup_app. unfold remove_call. rewrite filter_app, filter_cons_False by tauto.
  rewrite filter_nil, app_nil_r. clear -Hd. induction pend as [|y l IH]; [done|].
  rewrite filter_cons_True, IH; [done| |].
  - intros z Hz. apply Hd. by right.
  - intros ->. apply (Hd (call_req x)); by left.
Qed.

(** A call that is over right away, or a call in progress. *)
Lemma put_cases w r a d :
  quiet_env ->
  (put_result w r a d = DOCA_SUCCESS /\ forall l, started env (calls w) (PutReq r a rk d :: l)
     = started env (calls w ++ [PutReq r a rk d]) l)
  \/ (put_result w r a d = DOCA_ERROR_IN_PROGRESS /\ started env (calls w) [PutReq r a rk d] = [PutReq r a rk d]).
Proof.
  intros Hq. unfold put_result. cbn [started has_callback andb].
  destruct (qe_put Hq (calls w) r a d) as [E|E]; rewrite E; [left|right]; by case_decide.
Qed.

(** Start and finish of a paused request. *)
Lemma run_next w T0 exec r d wait paused pend :
  quiet_env -> cached_phase w T0 exec ((r, d) :: wait) paused pend ->
  va m0 <= T0 -> T0 + total exec + Z.of_nat (length d) <= va m0 + mk_len m0 ->
  exists w' new, (let* x := urom_worker_rdmo_req_start env r w in finish r x) = Ret w'
    /\ calls w' = calls w ++ new /\ next_req w' = next_req w
    /\ cached_phase w' T0 (exec ++ [(r, d)]) wait paused (pend ++ started env (calls w) new).
Proof.
  intros Hq Hp Hlo Hhi.
  destruct (start_next w T0 exec r d wait paused pend Hq Hp Hlo Hhi) as (w1 & q1 & -> & Ha1 & Hp1 & Hn1 & Hc1).
  unfold finish. destruct (put_cases w r (T0 + total exec) d Hq) as [[-> Hst]|[-> Hst]].
  - change (bool_decide (DOCA_SUCCESS = DOCA_SUCCESS)) with true. cbn [negb].
    rewrite (free_data_ok _ _ _ _ _ Ha1).
    destruct (retire _ T0 _ wait paused _ r (T0 + total exec) d (phase_log _ _ _ _ _ _ r Hp1)) as (w2 & E2 & Hp2 & Hn2 & Hc2).
    { apply elem_of_app. right. by left. }
    exists w2, [PutReq r (T0 + total exec) rk d; DataRelease r]. split; [done|]. split.
    { rewrite Hc2. cbn. by rewrite Hc1, <-app_assoc. }
    split; [by rewrite Hn2|]. rewrite remove_last in Hp2 by apply Hp1. rewrite Hst. cbn. by rewrite app_nil_r.
  - change (bool_decide (DOCA_ERROR_IN_PROGRESS = DOCA_SUCCESS)) with false. cbn [negb].
    exists w1, [PutReq r (T0 + total exec) rk d]. split; [done|]. split; [done|]. split; [done|]. by rewrite Hst.
Qed.

Lemma set_paused_phase w T0 exec wait paused paused' pend :
  cached_phase w T0 exec wait paused pend ->
  cached_phase (upd_client c (set_paused_ops paused') w) T0 exec wait paused' pend.
Proof.
  intros [Hqa Hputs Hwait Hpend Hnd Hpnd Hids]. split; try done.
  - destruct Hqa as [(cn & h & ks & Hc & Hks) ? ? ? ? ?]. split; try done. exists cn, h, ks. split; [|done].
    cbn. by rewrite lookup_alter_eq, Hc.
  - eapply Forall_impl; [exact Hwait|]. intros [r' d'] [q Hq]. exists q. by eapply is_append_frame; [|exact Hq].
  - eapply Forall_impl; [exact Hpend|]. intros x (r' & a & d & q & -> & Hin & Hq).
    exists r', a, d, q. split; [done|]. split; [done|]. by eapply is_append_frame; [|exact Hq].
Qed.

(** The paused requests are all started, in order. *)
Lemma drain wait : forall w T0 exec pend,
  quiet_env -> cached_phase w T0 exec wait (map fst wait) pend ->
  va m0 <= T0 -> T0 + total (exec ++ wait) <= va m0 + mk_len m0 ->
  exists w' new, paused_loop env (length wait) c w = Ret w' /\ calls w' = calls w ++ new
    /\ next_req w' = next_req w
    /\ cached_phase w' T0 (exec ++ wait) [] [] (pend ++ started env (calls w) new).
Proof.
  induction wait as [|[r d] wait IH]; intros w T0 exec pend Hq Hp Hlo Hhi; cbn [length paused_loop].
  - destruct (cp_queue _ _ _ _ _ _ Hp) as [(cn & h & ks & Hc & Hks) _ _ _ _ _]. unfold client_at. rewrite Hc. cbn.
    exists w, []. cbn. rewrite !app_nil_r. auto.
  - destruct (cp_queue _ _ _ _ _ _ Hp) as [(cn & h & ks & Hc & Hks) _ _ _ _ _]. unfold client_at. rewrite Hc.
    cbn [of_option pause paused_ops map fst].
    rewrite total_app, total_cons in Hhi. pose proof (total_nonneg wait).
    destruct (run_next (upd_client c (set_paused_ops (map fst wait)) w) T0 exec r d wait (map fst wait) pend Hq)
      as (w1 & new1 & E1 & Hc1 & Hn1 & Hp1); [by apply (set_paused_phase _ _ _ _ (map fst ((r, d) :: wait)))|done|lia|].
    destruct (urom_worker_rdmo_req_start env r _) as [x|]; [|discriminate E1]. rewrite E1.
    destruct (IH w1 T0 (exec ++ [(r, d)]) _ Hq Hp1 Hlo) as (w2 & new2 & -> & Hc2 & Hn2 & Hp2).
    { rewrite <-app_assoc. cbn [app]. rewrite total_app, total_cons. lia. }
    exists w2, (new1 ++ new2). split; [done|]. split; [rewrite Hc2, Hc1; cbn; by rewrite app_assoc|].
    split; [by rewrite Hn2|]. rewrite <-app_assoc in Hp2. cbn [app] in Hp2.
    cbn [upd_client set_clients calls] in Hc1, Hp2.
    rewrite started_app, app_assoc. rewrite Hc1 in Hp2. exact Hp2.
Qed.

(** *** The session *)

(** The header of an append to this queue. *)
Definition append_header (h : list Z) : Prop :=
  (36 <= length h <= UROM_RDMO_HDR_LEN_MAX)%nat /\ hdr_id h = c /\ hdr_op_id h = UROM_RDMO_OP_APPEND
  /\ Z.land (hdr_flags h) UROM_RDMO_REQ_FLAG_FENCE = 0 /\ ptr_addr h = P /\ ptr_rkey h = rk /\ data_rkey h = rk.

(** Events of this queue: appends of eager data, and completions, a read of the
    pointer giving an address with room for [B] bytes. *)
Definition queue_event (B : Z) (ev : rdmo_event) : Prop :=
  match ev with
  | Arrive h data len rndv ep => append_header h /\ len = Z.of_nat (length data) /\ rndv = false /\ known ep
  | Done (GetReq _ _ _) v => va m0 <= v /\ v + B <= va m0 + mk_len m0
  | Done _ _ => True
  end.

(** Addresses the reads of the pointer return. *)
Context (tails : Z -> Prop).

Definition tail_event (ev : rdmo_event) : Prop :=
  forall r v, ev = Done (GetReq r P rk) v -> tails v.

Inductive queue_inv (B : Z) (w : worker) (pend : list ucx_call) (arr : list (Z * list Z)) : Prop :=
| QIdle : arr = [] -> pend = [] -> queue_at w None [] false -> puts (calls w) = [] -> queue_inv B w pend arr
| QFetch r0 d0 q0 wait : arr = (r0, d0) :: wait -> pend = [GetReq r0 P rk] ->
    queue_at w None (map fst wait) true -> puts (calls w) = [] ->
    is_append w r0 d0 1 q0 -> ctx2 q0 = k -> waiting w wait ->
    NoDup (map fst arr) -> Forall (fun r => r < next_req w) (map fst arr) -> queue_inv B w pend arr
| QCached T0 exec wait : arr = exec ++ wait -> tails T0 -> va m0 <= T0 -> T0 + B <= va m0 + mk_len m0 ->
    cached_phase w T0 exec wait (map fst wait) pend -> (wait <> [] -> pend <> []) -> queue_inv B w pend arr.

Lemma load_pad off n h z : (off + n <= length h)%nat -> load off n (h ++ z) = load off n h.
Proof.
  intros H. rewrite !load_unfold, drop_app_le, take_app_le by (rewrite ?length_drop; lia). done.
Qed.

(** The object of a request that arrives. *)
Definition new_req (h data : list Z) (ep : Z) : urom_worker_rdmo_req :=
  Req c ep (h ++ replicate (UROM_RDMO_HDR_LEN_MAX - length h) 0) data (Z.of_nat (length data)) false ep 0 0 0.

Definition with_req (w : worker) (q : urom_worker_rdmo_req) : worker :=
  Worker (clients w) (eps w) (mkey_heap w) (<[next_req w := q]> (reqs w)) (next_req w + 1) (memory w) (calls w).

Lemma new_req_append w h data ep :
  append_header h -> known ep ->
  is_append (with_req w (new_req h data ep)) (next_req w) data 0 (new_req h data ep).
Proof.
  intros (Hl & Hid & Hop & Hfl & Hp & Hrk & Hdk) He.
  split; try done; unfold is_fenced, hdr_op_id, hdr_flags, ptr_addr, ptr_rkey, data_rkey in *; cbn [new_req r_header with_req reqs].
  - by rewrite lookup_insert_eq.
  - by rewrite load_pad by lia.
  - by rewrite load_pad, Hfl by lia.
  - by rewrite load_pad by lia.
  - by rewrite load_pad by lia.
  - by rewrite load_pad by lia.
Qed.

Lemma am_cb_arrives w h data ep cached paused p :
  quiet_env -> queue_at w cached paused p -> append_header h -> known ep ->
  urom_worker_rdmo_am_cb env h data (Z.of_nat (length data)) false ep w
  = (let* (w, e) := urom_worker_rdmo_req_queue env (next_req w) (with_req w (new_req h data ep)) in
     Ret (w, if bool_decide (e = DOCA_SUCCESS) then UCS_OK else UCS_INPROGRESS)).
Proof.
  intros Hq Hw (Hl & Hid & Hop & Hfl & Hp & Hrk & Hdk) Hk.
  destruct Hw as [(cn & hh & ks & Hc & Hks) _ _ _ _ Hkn]. destruct (Hkn ep Hk) as [x Hx].
  unfold urom_worker_rdmo_am_cb. rewrite (proj2 (Z.leb_le _ _)) by lia. cbn [require].
  rewrite Hid, Hc, Hx, Hop. rewrite (qe_mpool Hq).
  assert ((UROM_RDMO_HDR_LEN_MAX <? length h)%nat = false) as -> by (apply Nat.ltb_ge; lia). done.
Qed.

Lemma with_req_queue w q cached paused p :
  queue_at w cached paused p -> queue_at (with_req w q) cached paused p.
Proof. intros []. by split. Qed.

Lemma with_req_append w q r d st q' :
  r < next_req w -> is_append w r d st q' -> is_append (with_req w q) r d st q'.
Proof. intros Hr. apply is_append_frame. cbn. by rewrite lookup_insert_ne by lia. Qed.

(** *** Arrivals *)

(** The worker after the first request has asked for the tail. *)
Definition fetching (w : worker) (r : Z) (q : urom_worker_rdmo_req) : worker :=
  Worker (alter (set_pause true) c (clients w)) (eps w) (mkey_heap w)
    (<[r := set_ctx 1 (ctx1 q) k q]> (reqs w)) (next_req w) (memory w) (calls w ++ [GetReq r P rk]).

Lemma progress_miss w r d q paused p :
  quiet_env -> queue_at w None paused p -> is_append w r d 0 q ->
  progress env r w = Ret (fetching w r q, DOCA_ERROR_IN_PROGRESS).
Proof.
  intros Hq Hw Ha. pose proof Hw as [(cn & h & ks & Hc & Hks) (t & Ht & HP) Hrk Hb He Hkn].
  rewrite (progress_append _ _ _ (ia_req _ _ _ _ _ Ha) (ia_op _ _ _ _ _ Ha)).
  unfold urom_worker_rdmo_append_progress, req_at, client_at. rewrite (ia_req _ _ _ _ _ Ha). cbn [of_option].
  rewrite (ia_client _ _ _ _ _ Ha), Hc. cbn [of_option]. rewrite (ia_stage _ _ _ _ _ Ha). cbn [Z.eqb].
  unfold append_fadd, mkey_at. cbn [mkeys]. rewrite (ia_rkey _ _ _ _ _ Ha), Hks, Ht. cbn [of_option set_cache ucp_rkey].
  rewrite Hrk, Z.eqb_refl. cbn [negb]. rewrite (qe_remote Hq), (ia_ptr _ _ _ _ _ Ha).
  unfold urom_worker_rdmo_mem_cache_get. cbn [mem_cache set_cache]. rewrite HP. unfold ucx. rewrite (qe_get Hq).
  change (bool_decide (UCS_INPROGRESS = UCS_INPROGRESS)) with true. cbn [negb].
  rewrite (upd_req_Some _ _ _ _ (ia_req _ _ _ _ _ Ha)).
  set (q1 := set_ctx (ctx0 q) (ctx1 q) k q). set (w1 := log_call _ _).
  assert (reqs w1 !! r = Some q1) as Hr1 by (cbn; by rewrite lookup_insert_eq).
  rewrite (upd_req_Some _ _ _ _ Hr1), (ia_client _ _ _ _ _ Ha). unfold fetching. cbn. by rewrite insert_insert_eq.
Qed.

(** A request that arrives while others are paused joins their list. *)
Lemma queue_paused w h data ep cached paused p :
  queue_at w cached paused p -> append_header h -> paused <> [] \/ p = true ->
  urom_worker_rdmo_req_queue env (next_req w) (with_req w (new_req h data ep))
  = Ret (upd_client c (fun cl => set_paused_ops (paused_ops cl ++ [next_req w]) cl) (with_req w (new_req h data ep)),
         DOCA_ERROR_IN_PROGRESS).
Proof.
  intros Hw Hh Hp. destruct Hw as [(cn & hh & ks & Hc & Hks) _ _ _ _ _].
  unfold urom_worker_rdmo_req_queue, req_at, client_at. cbn [with_req reqs clients]. rewrite lookup_insert_eq.
  cbn [of_option new_req r_client]. rewrite Hc. cbn [of_option paused_ops pause].
  assert (negb (bool_decide (paused = [])) || p = true) as ->; [|done].
  destruct Hp as [Hp| ->]; [|apply orb_true_r]. by rewrite bool_decide_eq_false_2.
Qed.

Lemma paused_queue w cached paused p r :
  queue_at w cached paused p ->
  queue_at (upd_client c (fun cl => set_paused_ops (paused_ops cl ++ [r]) cl) w) cached (paused ++ [r]) p.
Proof.
  intros [(cn & h & ks & Hc & Hks) ? ? ? ? ?]. split; try done. exists cn, h, ks. split; [|done].
  cbn. by rewrite lookup_alter_eq, Hc.
Qed.

Lemma waiting_frame w w' wait :
  (forall r, r ∈ map fst wait -> reqs w' !! r = reqs w !! r) -> waiting w wait -> waiting w' wait.
Proof.
  intros Hr Hw. apply Forall_forall. intros [r d] Hin.
  apply (proj1 (Forall_forall _ _) Hw) in Hin as Hq. destruct Hq as [q Hq]. exists q.
  eapply is_append_frame; [|exact Hq]. by eapply Hr, fst_elem.
Qed.

Lemma fresh_id w (arr : list (Z * list Z)) :
  Forall (fun r => r < next_req w) (map fst arr) -> next_req w ∉ map fst arr.
Proof. intros H Hin. apply (proj1 (Forall_forall _ _) H) in Hin. lia. Qed.

(** The request joins the cached phase at the end. *)
Lemma phase_arrive w T0 exec wait paused pend h data ep :
  cached_phase w T0 exec wait paused pend -> append_header h -> known ep ->
  cached_phase (with_req w (new_req h data ep)) T0 exec (wait ++ [(next_req w, data)]) paused pend.
Proof.
  intros [Hqa Hputs Hwait Hpend Hnd Hpnd Hids] Hh Hk.
  assert (forall r, r ∈ map fst (exec ++ wait) -> reqs (with_req w (new_req h data ep)) !! r = reqs w !! r) as Hr.
  { intros r Hin. cbn. rewrite lookup_insert_ne; [done|]. intros <-. by eapply (fresh_id w (exec ++ wait)). }
  rewrite map_app in Hr. split; try done.
  - by apply with_req_queue.
  - apply Forall_app. split; [|constructor; [|done]].
    + eapply waiting_frame; [|done]. intros r Hin. apply Hr, elem_of_app. by right.
    + exists (new_req h data ep). by apply new_req_append.
  - apply Forall_forall. intros x Hin. apply (proj1 (Forall_forall _ _) Hpend) in Hin as (r & a & d & q & -> & Hin & Hq).
    exists r, a, d, q. split; [done|]. split; [done|]. eapply is_append_frame; [|done].
    apply Hr, elem_of_app. left. by eapply fst_elem.
  - rewrite app_assoc, map_app. cbn [map fst]. apply NoDup_app. split; [done|]. split; [|apply NoDup_singleton].
    intros x Hx ->%list_elem_of_singleton. by eapply (fresh_id w (exec ++ wait)).
  - rewrite app_assoc, map_app. cbn [map fst]. apply Forall_app. split; [|constructor; [cbn; lia|done]].
    eapply Forall_impl; [exact Hids|]. cbn. lia.
Qed.

Lemma phase_pause w T0 exec wait paused pend r :
  cached_phase w T0 exec wait paused pend ->
  cached_phase (upd_client c (fun cl => set_paused_ops (paused_ops cl ++ [r]) cl) w) T0 exec wait (paused ++ [r]) pend.
Proof.
  intros [Hqa Hputs Hwait Hpend Hnd Hpnd Hids]. split; try done.
  - by apply paused_queue.
  - by apply (waiting_frame w).
  - eapply Forall_impl; [exact Hpend|]. intros x (r' & a & d & q & -> & Hin & Hq).
    exists r', a, d, q. split; [done|]. split; [done|]. by eapply is_append_frame; [|exact Hq].
Qed.

(** A request that arrives while nothing is paused is started. *)
Lemma queue_starts w h data ep cached :
  queue_at w cached [] false -> append_header h -> known ep ->
  urom_worker_rdmo_req_queue env (next_req w) (with_req w (new_req h data ep))
  = (let r0 := next_req w in
     let* (w, e) := urom_worker_rdmo_req_start env (next_req w) (with_req w (new_req h data ep)) in
     if bool_decide (e = DOCA_SUCCESS)
     then let* w := urom_worker_rdmo_req_free r0 w in Ret (w, e) else Ret (w, e)).
Proof.
  intros [(cn & hh & ks & Hc & _) _ _ _ _ _] Hh Hk.
  unfold urom_worker_rdmo_req_queue, req_at, client_at. cbn [with_req reqs clients]. rewrite lookup_insert_eq.
  cbn [of_option new_req r_client]. rewrite Hc. done.
Qed.

Lemma arrive_idle w h data ep :
  quiet_env -> queue_at w None [] false -> append_header h -> known ep -> puts (calls w) = [] ->
  exists w' q', urom_worker_rdmo_req_queue env (next_req w) (with_req w (new_req h data ep))
      = Ret (w', DOCA_ERROR_IN_PROGRESS)
    /\ queue_at w' None [] true /\ is_append w' (next_req w) data 1 q' /\ ctx2 q' = k
    /\ puts (calls w') = [] /\ next_req w' = next_req w + 1 /\ calls w' = calls w ++ [GetReq (next_req w) P rk].
Proof.
  intros Hq Hw Hh Hk Hputs. pose proof (new_req_append w h data ep Hh Hk) as Ha.
  rewrite (queue_starts w h data ep None Hw Hh Hk). cbv zeta.
  set (q := new_req h data ep) in *. set (w1 := with_req w q) in *. set (r := next_req w) in *.
  destruct (start_progress w1 r data q None [] false) as (w2 & -> & Hw2 & Ha2 & Er & Ec & Em & En & El);
    [by apply with_req_queue|done|].
  assert (calls w2 = calls w) as El' by exact El. clear El.
  rewrite (progress_miss w2 r data q [] false Hq Hw2 Ha2).
  change (bool_decide (DOCA_ERROR_IN_PROGRESS = DOCA_SUCCESS)) with false.
  pose proof Hw2 as [(cn & hh & ks & Hc & Hks) (t & Ht & HP) Hrk Hb He Hkn].
  eexists _, (set_ctx 1 (ctx1 q) k q). split; [reflexivity|]. split_and!; try done.
  - split; try done; [|by exists t]. exists cn, hh, ks. cbn. by rewrite lookup_alter_eq, Hc.
  - destruct Ha2. split; try done. cbn. by rewrite lookup_insert_eq.
  - cbn. by rewrite El', puts_app, Hputs.
  - cbn. by rewrite El'.
Qed.

(** A request that finds the queue cached and nothing paused. *)
Lemma arrive_cached w T0 exec pend h data ep :
  quiet_env -> cached_phase w T0 exec [] [] pend -> append_header h -> known ep ->
  va m0 <= T0 -> T0 + total exec + Z.of_nat (length data) <= va m0 + mk_len m0 ->
  exists w' e new, urom_worker_rdmo_req_queue env (next_req w) (with_req w (new_req h data ep)) = Ret (w', e)
    /\ cached_phase w' T0 (exec ++ [(next_req w, data)]) [] [] (pend ++ started env (calls w) new)
    /\ next_req w' = next_req w + 1 /\ calls w' = calls w ++ new.
Proof.
  intros Hq Hp Hh Hk Hlo Hhi.
  pose proof (phase_arrive w T0 exec [] [] pend h data ep Hp Hh Hk) as Hp1. cbn [app] in Hp1.
  rewrite (queue_starts w h data ep _ (cp_queue _ _ _ _ _ _ Hp) Hh Hk). cbv zeta.
  set (w1 := with_req w (new_req h data ep)) in *. set (r := next_req w) in *.
  destruct (start_next w1 T0 exec r data [] [] pend Hq Hp1 Hlo Hhi) as (w2 & q2 & E & Ha2 & Hp2 & Hn2 & Hc2).
  rewrite E. destruct (put_cases w r (T0 + total exec) data Hq) as [[E2 Hst]|[E2 Hst]];
    change (put_result w r (T0 + total exec) data) with (put_result w1 r (T0 + total exec) data) in E2; rewrite E2.
  - change (bool_decide (DOCA_SUCCESS = DOCA_SUCCESS)) with true.
    destruct (retire w2 T0 _ [] [] _ r (T0 + total exec) data Hp2) as (w3 & -> & Hp3 & Hn3 & Hc3).
    { apply elem_of_app. right. by left. }
    eexists w3, _, [PutReq r (T0 + total exec) rk data]. split; [reflexivity|].
    rewrite remove_last in Hp3 by apply Hp2. rewrite Hst. cbn [started]. rewrite app_nil_r.
    split; [done|]. split; [by rewrite Hn3|by rewrite Hc3].
  - change (bool_decide (DOCA_ERROR_IN_PROGRESS = DOCA_SUCCESS)) with false.
    eexists w2, _, [PutReq r (T0 + total exec) rk data]. split; [reflexivity|]. rewrite Hst. done.
Qed.

Lemma arrive_step B w pend arr h data ep :
  quiet_env -> queue_inv B w pend arr -> append_header h -> known ep ->
  total (arr ++ [(next_req w, data)]) <= B ->
  exists w' pend', session_step env (Arrive h data (Z.of_nat (length data)) false ep) w pend = Ret (w', pend')
    /\ queue_inv B w' pend' (arr ++ [(next_req w, data)]) /\ next_req w' = next_req w + 1.
Proof.
  intros Hq Hinv Hh Hk HB. cbn [session_step].
  destruct Hinv as [-> -> Hw Hputs|r0 d0 q0 wait -> -> Hw Hputs Ha0 Hk0 Hwait Hnd Hids|T0 exec wait -> HT Hlo Hhi Hp Hne].
  - rewrite (am_cb_arrives w h data ep None [] false Hq Hw Hh Hk).
    destruct (arrive_idle w h data ep Hq Hw Hh Hk Hputs) as (w' & q' & -> & Hw' & Ha' & Hk' & Hputs' & Hn & Hc).
    eexists _, _. split; [reflexivity|]. split; [|done]. rewrite (new_calls_app _ _ _ Hc).
    eapply (QFetch B _ _ _ (next_req w) data q' []); try done.
    + cbn. by rewrite (qe_get Hq).
    + constructor.
    + cbn. apply NoDup_singleton.
    + cbn. constructor; [lia|done].
  - rewrite (am_cb_arrives w h data ep None _ true Hq Hw Hh Hk).
    rewrite (queue_paused w h data ep None (map fst wait) true Hw Hh) by (by right).
    eexists _, _. split; [reflexivity|]. split; [|done]. rewrite (new_calls_app _ _ []) by (cbn; by rewrite app_nil_r).
    cbn [started]. rewrite app_nil_r. pose proof (fresh_id w _ Hids) as Hf.
    eapply (QFetch B _ _ _ r0 d0 q0 (wait ++ [(next_req w, data)])); try done.
    + rewrite map_app. apply paused_queue. by apply with_req_queue.
    + eapply is_append_frame; [|exact Ha0]. cbn. rewrite lookup_insert_ne; [done|]. intros E. apply Hf. rewrite E. by left.
    + apply Forall_app. split; [|constructor; [|done]].
      * eapply waiting_frame; [|exact Hwait]. intros r Hr. cbn. rewrite lookup_insert_ne; [done|].
        intros E. apply Hf. rewrite E. by right.
      * exists (new_req h data ep). eapply is_append_frame; [|by apply new_req_append]. done.
    + rewrite map_app. cbn [map fst]. apply NoDup_app. split; [done|]. split; [|apply NoDup_singleton].
      intros x Hx ->%list_elem_of_singleton. done.
    + rewrite map_app. apply Forall_app. split; [|constructor; [cbn; lia|done]].
      eapply Forall_impl; [exact Hids|]. cbn. lia.
  - rewrite (am_cb_arrives w h data ep _ _ false Hq (cp_queue _ _ _ _ _ _ Hp) Hh Hk).
    rewrite !total_app in HB. pose proof (total_nonneg wait). pose proof (total_nonneg exec).
    unfold total at 3 in HB. cbn [map snd concat] in HB. rewrite app_nil_r in HB.
    destruct wait as [|x wait].
    + destruct (arrive_cached w T0 exec pend h data ep Hq Hp Hh Hk Hlo) as (w' & e & new & -> & Hp' & Hn & Hc); [lia|].
      eexists _, _. split; [reflexivity|]. split; [|done]. rewrite (new_calls_app _ _ _ Hc).
      eapply (QCached B _ _ _ T0 (exec ++ [(next_req w, data)]) []); try done. by rewrite !app_nil_r.
    + rewrite (queue_paused w h data ep _ (map fst (x :: wait)) false (cp_queue _ _ _ _ _ _ Hp) Hh) by (by left).
      eexists _, _. split; [reflexivity|]. split; [|done]. rewrite (new_calls_app _ _ []) by (cbn; by rewrite app_nil_r).
      cbn [started]. rewrite app_nil_r.
      eapply (QCached B _ _ _ T0 exec ((x :: wait) ++ [(next_req w, data)])); try done.
      * by rewrite app_assoc.
      * rewrite map_app. apply phase_pause. by apply phase_arrive.
      * intros _. by apply Hne.
Qed.

(** *** Completions *)

Lemma check_fenced_none w e cached paused p :
  queue_at w cached paused p -> known e -> urom_worker_rdmo_check_fenced env e w = Ret w.
Proof.
  intros Hw He. destruct (qa_known _ _ _ _ Hw e He) as [x Hx].
  unfold urom_worker_rdmo_check_fenced, ep_at. rewrite Hx. cbn [of_option]. rewrite (qa_eps _ _ _ _ Hw _ _ Hx).
  change (bool_decide ([] = [])) with true. by rewrite orb_true_r.
Qed.

(** A put is done: the request leaves and the paused ones are started. *)
Lemma put_done w T0 exec wait pend r a d :
  quiet_env -> cached_phase w T0 exec wait (map fst wait) pend -> PutReq r a rk d ∈ pend ->
  va m0 <= T0 -> T0 + total (exec ++ wait) <= va m0 + mk_len m0 ->
  exists w' new, (let* w := urom_worker_rdmo_req_free_data r w in urom_worker_rdmo_req_complete env r w) = Ret w'
    /\ calls w' = calls w ++ new /\ next_req w' = next_req w
    /\ cached_phase w' T0 (exec ++ wait) [] []
         (remove_call (PutReq r a rk d) pend ++ started env (calls w) new).
Proof.
  intros Hq Hp Hin Hlo Hhi.
  pose proof (proj1 (Forall_forall _ _) (cp_pend _ _ _ _ _ _ Hp) _ Hin) as (r1 & a1 & d1 & q & [= <- <- <-] & _ & Ha).
  rewrite (free_data_ok _ _ _ _ _ Ha). set (w1 := log_call (DataRelease r) w).
  assert (cached_phase w1 T0 exec wait (map fst wait) pend) as Hp1 by (by apply phase_log).
  unfold urom_worker_rdmo_req_complete, req_at.
  assert (reqs w1 !! r = Some q) as -> by apply (ia_req _ _ _ _ _ Ha). cbn [of_option].
  destruct (retire w1 T0 exec wait _ pend r a d Hp1 Hin) as (w2 & -> & Hp2 & Hn2 & Hc2).
  rewrite (ia_client _ _ _ _ _ Ha).
  destruct (drain wait w2 T0 exec _ Hq Hp2 Hlo Hhi) as (w3 & new & E3 & Hc3 & Hn3 & Hp3).
  unfold urom_worker_rdmo_check_paused, client_at.
  destruct (cp_queue _ _ _ _ _ _ Hp2) as [(cn & h & ks & Hcl & _) _ _ _ _ _]. rewrite Hcl. cbn [of_option paused_ops].
  rewrite length_map, E3. rewrite (check_fenced_none w3 _ _ _ _ (cp_queue _ _ _ _ _ _ Hp3) (ia_ep _ _ _ _ _ Ha)).
  exists w3, (DataRelease r :: new). split; [done|]. rewrite Hc3, Hc2. cbn [w1 log_call calls]. rewrite <-app_assoc.
  split; [done|]. split; [by rewrite Hn3, Hn2|]. cbn [started has_callback andb app].
  rewrite Hc2 in Hp3. exact Hp3.
Qed.

Lemma progress_done w r d q : is_append w r d 3 q -> (exists cl, clients w !! c = Some cl) ->
  progress env r w = Ret (w, DOCA_SUCCESS).
Proof.
  intros Ha [cl Hc]. rewrite (progress_append _ _ _ (ia_req _ _ _ _ _ Ha) (ia_op _ _ _ _ _ Ha)).
  unfold urom_worker_rdmo_append_progress, req_at, client_at. rewrite (ia_req _ _ _ _ _ Ha). cbn [of_option].
  rewrite (ia_client _ _ _ _ _ Ha), Hc. cbn [of_option]. by rewrite (ia_stage _ _ _ _ _ Ha).
Qed.

(** The tail has arrived: the first request takes its place. *)
Lemma tail_arrives w r0 d0 q0 wait v :
  quiet_env -> queue_at w None (map fst wait) true -> puts (calls w) = [] -> is_append w r0 d0 1 q0 -> ctx2 q0 = k ->
  waiting w wait -> NoDup (map fst ((r0, d0) :: wait)) -> Forall (fun r => r < next_req w) (map fst ((r0, d0) :: wait)) ->
  fits v d0 ->
  let w1 := upd_req r0 (fun q => set_ctx (ctx0 q) v (ctx2 q) q) w in
  exists w', progress env r0 w1 = Ret (w', put_result w r0 v d0)
    /\ cached_phase w' v [(r0, d0)] wait (map fst wait) [PutReq r0 v rk d0]
    /\ next_req w' = next_req w /\ calls w' = calls w ++ [PutReq r0 v rk d0].
Proof.
  intros Hq Hw Hputs Ha Hk Hwait Hnd Hids Hf w1. pose proof Hw as [(cn & h & ks & Hc & Hks) (t & Ht & HP) Hrk Hb He Hkn].
  set (q1 := set_ctx 1 v k q0).
  assert (w1 = set_reqs (<[r0 := q1]> (reqs w)) w) as Ew1.
  { unfold w1. rewrite (upd_req_Some _ _ _ _ (ia_req _ _ _ _ _ Ha)). by rewrite Hk, (ia_stage _ _ _ _ _ Ha). }
  clearbody w1. subst w1. set (w1 := set_reqs _ w).
  assert (is_append w1 r0 d0 1 q1) as Ha1 by (destruct Ha; split; try done; cbn; by rewrite lookup_insert_eq).
  assert (queue_at w1 None (map fst wait) true) as Hw1 by (split; try done; [by exists cn, h, ks|by exists t]).
  rewrite (progress_append _ _ _ (ia_req _ _ _ _ _ Ha1) (ia_op _ _ _ _ _ Ha1)).
  unfold urom_worker_rdmo_append_progress, req_at, client_at. rewrite (ia_req _ _ _ _ _ Ha1). cbn [of_option].
  rewrite (ia_client _ _ _ _ _ Ha1). cbn [w1 set_reqs clients]. rewrite Hc. cbn [of_option].
  rewrite (ia_stage _ _ _ _ _ Ha1). cbn [Z.eqb Pos.eqb]. fold w1.
  erewrite (cache_and_put_ok w1 r0 d0 q1 None _ true t Hq Hw1 Ha1); try done.
  cbn [map fst] in Hnd. apply NoDup_cons in Hnd as [Hr0 Hnd].
  exists (placed w1 t r0 q1 v). split; [done|]. split; [|split; [done|]].
  - split.
    + split; try done.
      * exists cn, h, ks. split; [|done]. cbn. by rewrite lookup_alter_eq, Hc.
      * eexists. cbn. rewrite lookup_insert_eq. split; [done|]. rewrite lookup_insert_eq. f_equal.
        rewrite (ia_len _ _ _ _ _ Ha). unfold total. cbn. by rewrite app_nil_r.
    + cbn. by rewrite puts_app, Hputs, (ia_data _ _ _ _ _ Ha).
    + eapply waiting_frame; [|exact Hwait]. intros r Hr. cbn.
      rewrite !lookup_insert_ne by (intros ->; done). done.
    + constructor; [|done]. exists r0, v, d0, (set_ctx 3 v k q0). split; [done|]. split; [by left|].
      destruct Ha. split; try done. cbn. by rewrite lookup_insert_eq.
    + cbn [app map fst]. by apply NoDup_cons.
    + cbn. apply NoDup_singleton.
    + done.
  - cbn. by rewrite (ia_data _ _ _ _ _ Ha).
Qed.

Lemma done_step B w pend arr x v :
  quiet_env -> queue_inv B w pend arr -> x ∈ pend -> queue_event B (Done x v) -> tail_event (Done x v) ->
  total arr <= B ->
  exists w' pend', session_step env (Done x v) w pend = Ret (w', pend')
    /\ queue_inv B w' pend' arr /\ next_req w' = next_req w.
Proof.
  intros Hq Hinv Hin He Ht HB. cbn [session_step].
  destruct Hinv as [-> -> Hw Hputs|r0 d0 q0 wait -> -> Hw Hputs Ha0 Hk0 Hwait Hnd Hids|T0 exec wait -> HT Hlo Hhi Hp Hne].
  - by apply not_elem_of_nil in Hin.
  - apply list_elem_of_singleton in Hin as ->. cbn [complete queue_event] in *. pose proof (Ht r0 v eq_refl) as HT. destruct He as [Hlo' Hhi']. unfold req_at at 1.
    rewrite (ia_req _ _ _ _ _ Ha0). cbn [of_option].
    destruct (qa_bound _ _ _ _ Hw) as [Hb1 Hb2]. unfold in_width in Hb1.
    rewrite total_cons in HB. pose proof (total_nonneg wait).
    rewrite (uwrap_id 64 v) by (unfold in_width; lia).
    destruct (tail_arrives w r0 d0 q0 wait v Hq Hw Hputs Ha0 Hk0 Hwait Hnd Hids) as (w1 & E1 & Hp1 & Hn1 & Hc1); [split; lia|].
    unfold urom_worker_rdmo_op_cb. rewrite E1.
    assert (remove_call (GetReq r0 P rk) [GetReq r0 P rk] = []) as ->.
    { unfold remove_call. by rewrite filter_cons_False by tauto. }
    destruct (put_cases w r0 v d0 Hq) as [[-> Hst]|[-> Hst]].
    + change (bool_decide (DOCA_SUCCESS = DOCA_SUCCESS)) with true.
      destruct (put_done w1 v [(r0, d0)] wait _ r0 v d0 Hq Hp1) as (w2 & new & -> & Hc2 & Hn2 & Hp2);
        [by left|done|cbn [app]; rewrite total_cons; lia|].
      eexists _, _. split; [reflexivity|]. split; [|by rewrite Hn2, Hn1].
      rewrite (new_calls_app w w2 (PutReq r0 v rk d0 :: new)) by (rewrite Hc2, Hc1, <-app_assoc; done).
      rewrite Hst. cbn [app].
      eapply (QCached B _ _ _ v ((r0, d0) :: wait) []); try done; [by rewrite app_nil_r|].
      assert (remove_call (PutReq r0 v rk d0) [PutReq r0 v rk d0] = []) as Er
        by (unfold remove_call; by rewrite filter_cons_False by tauto).
      rewrite Er, Hc1 in Hp2. exact Hp2.
    + change (bool_decide (DOCA_ERROR_IN_PROGRESS = DOCA_SUCCESS)) with false.
      eexists _, _. split; [reflexivity|]. split; [|done]. rewrite (new_calls_app _ _ _ Hc1), Hst.
      by eapply (QCached B _ _ _ v [(r0, d0)] wait).
  - pose proof (proj1 (Forall_forall _ _) (cp_pend _ _ _ _ _ _ Hp) _ Hin) as (r & a & d & q & -> & _ & Ha).
    cbn [complete]. unfold urom_worker_rdmo_op_cb.
    assert (exists cl, clients w !! c = Some cl) as Hcl.
    { destruct (cp_queue _ _ _ _ _ _ Hp) as [(cn & h & ks & Hcl & _) _ _ _ _ _]. eauto. }
    rewrite (progress_done w r d q Ha Hcl). change (bool_decide (DOCA_SUCCESS = DOCA_SUCCESS)) with true.
    destruct (put_done w T0 exec wait pend r a d Hq Hp Hin Hlo) as (w2 & new & -> & Hc2 & Hn2 & Hp2); [lia|].
    eexists _, _. split; [reflexivity|]. split; [|done]. rewrite (new_calls_app _ _ _ Hc2).
    eapply (QCached B _ _ _ T0 (exec ++ wait) []); try done. by rewrite app_nil_r.
Qed.

(** The invariant gives the layout. *)
Lemma inv_layout B w pend arr :
  queue_inv B w pend arr ->
  exists T0 n, puts (calls w) = layout T0 (take n arr)
    /\ (n = 0%nat \/ tails T0)
    /\ (pend = [] -> n = length arr)
    /\ (pend = [] -> arr <> [] -> exists t, mkey_heap w !! k = Some (set_cache t m0) /\ t !! P = Some (T0 + total arr)).
Proof.
  intros [-> -> Hw Hputs|r0 d0 q0 wait -> -> Hw Hputs Ha0 Hk0 Hwait Hnd Hids|T0 exec wait -> HT Hlo Hhi Hp Hne].
  - exists 0, 0%nat. split; [done|]. split; [by left|]. done.
  - exists 0, 0%nat. split; [done|]. split; [by left|]. split; intros; discriminate.
  - exists T0, (length exec). rewrite take_app_length. split; [apply Hp|]. split; [by right|].
    assert (pend = [] -> wait = []) as Hw by (intros Hpe; destruct wait; [done|exfalso; by apply Hne]).
    split; [intros ->%Hw; by rewrite app_nil_r|]. intros ->%Hw _. rewrite app_nil_r.
    apply (qa_mkey _ _ _ _ (cp_queue _ _ _ _ _ _ Hp)).
Qed.

Lemma session_inv B evs : forall w pend arr,
  quiet_env -> queue_inv B w pend arr -> Forall (queue_event B) evs -> Forall tail_event evs -> session_ok env evs w pend ->
  total (arr ++ arrivals (next_req w) evs) <= B ->
  exists w' pend', session_run env evs w pend = Ret (w', pend')
    /\ queue_inv B w' pend' (arr ++ arrivals (next_req w) evs).
Proof.
  induction evs as [|ev evs IH]; intros w pend arr Hq Hinv Hev Htl Hok HB; cbn [session_run session_ok arrivals] in *.
  { rewrite app_nil_r. eauto. }
  apply Forall_cons in Hev as [He Hev]. apply Forall_cons in Htl as [Ht Htl]. destruct Hok as [Hin Hok].
  destruct ev as [h data len rndv ep|x v].
  - destruct He as (Hh & -> & -> & Hk).
    destruct (arrive_step B w pend arr h data ep Hq Hinv Hh Hk) as (w1 & pend1 & E & Hinv1 & Hn1).
    { rewrite !total_app, total_cons in *. pose proof (total_nonneg (arrivals (next_req w + 1) evs)).
      unfold total in *. cbn in *. lia. }
    rewrite E. destruct (IH w1 pend1 _ Hq Hinv1 Hev Htl (Hok _ _ E)) as (w' & pend' & -> & Hinv').
    { rewrite Hn1, <-app_assoc. done. }
    eexists _, _. split; [reflexivity|]. rewrite Hn1, <-app_assoc in Hinv'. done.
  - rewrite total_app in HB. pose proof (total_nonneg (arrivals (next_req w) evs)).
    destruct (done_step B w pend arr x v Hq Hinv Hin He Ht) as (w1 & pend1 & E & Hinv1 & Hn1); [lia|].
    rewrite E. rewrite <-Hn1 in *. apply IH; try done; [by apply (Hok _ _ E)|]. rewrite total_app. lia.
Qed.
End queue.

(** ** The theorems about appends *)

(** C9: Appends to a queue are placed one behind the other, in the order they arrived,
    whatever the interleaving of arrivals and completions and however many initiators
    there are. The session consists of eager appends to one pointer without the fence
    flag ([append_header]; a fenced request does not respect the pause, see
    [fence_ignores_pause]) and of completions; the region is remote, no UCX call fails
    and reads of the pointer complete later ([quiet_env]); all appends together fit
    behind any address the pointer is read as ([queue_event]; one that does not fit
    moves the tail, see [oversized_append_moves_tail]). Then every event is handled, no
    data overlap or leave a gap, the first data are at the address a read of the queue's
    pointer returned, and once nothing is in progress every request has its place and
    the cached tail is behind the last one. *)
Theorem appends_are_contiguous env c k P rk m0 known B w evs :
  quiet_env env P rk -> queue_at c k P rk m0 known w None [] false -> puts (calls w) = [] ->
  Forall (queue_event c P rk m0 known B) evs -> session_ok env evs w [] ->
  total (arrivals (next_req w) evs) <= B ->
  exists w' pend T0 n, session_run env evs w [] = Ret (w', pend)
    /\ puts (calls w') = layout rk T0 (take n (arrivals (next_req w) evs))
    /\ (n = 0%nat \/ exists r, Done (GetReq r P rk) T0 ∈ evs)
    /\ (pend = [] -> n = length (arrivals (next_req w) evs))
    /\ (pend = [] -> arrivals (next_req w) evs <> [] ->
        exists t, mkey_heap w' !! k = Some (set_cache t m0)
          /\ t !! P = Some (T0 + total (arrivals (next_req w) evs))).
Proof.
  intros Hq Hw Hputs Hev Hok HB.
  destruct (session_inv env c k P rk m0 known (fun v => exists r, Done (GetReq r P rk) v ∈ evs) B evs w [] [] Hq)
    as (w' & pend & E & Hinv); try done.
  { by apply QIdle. }
  { apply Forall_forall. intros ev Hin r v ->. eauto. }
  destruct (inv_layout _ _ _ _ _ _ _ _ _ _ _ Hinv) as (T0 & n & Hl & HT & Hn & Ht). eauto 12.
Qed.

(** A request that does not fit is rejected after the tail was moved: nothing is
    written, no call is in progress that could end the request, and the cached tail
    points behind the region. *)
Theorem oversized_append_moves_tail env c k P rk m0 known w tail h data ep :
  quiet_env env P rk -> queue_at c k P rk m0 known w (Some tail) [] false ->
  append_header c P rk h -> known ep ->
  va m0 <= tail <= va m0 + mk_len m0 -> va m0 + mk_len m0 < tail + Z.of_nat (length data) < 2 ^ 64 ->
  exists w' t q, urom_worker_rdmo_am_cb env h data (Z.of_nat (length data)) false ep w = Ret (w', UCS_INPROGRESS)
    /\ calls w' = calls w /\ reqs w' !! next_req w = Some q
    /\ mkey_heap w' !! k = Some (set_cache t m0) /\ t !! P = Some (tail + Z.of_nat (length data)).
Proof.
  intros Hq Hw Hh Hk Hlo Hhi. erewrite am_cb_arrives by done.
  pose proof (new_req_append c P rk known w h data ep Hh Hk) as Ha.
  rewrite (queue_starts _ _ _ _ _ _ known w h data ep _ Hw Hh Hk). cbv zeta.
  set (q := new_req c h data ep) in *. set (r := next_req w) in *.
  edestruct (start_progress env c k P rk m0 known (with_req w q) r) as (w2 & -> & Hw2 & Ha2 & Er & Ec & Em & En & El);
    [by apply with_req_queue|done|].
  erewrite progress_hit by done. pose proof Hw2 as [_ (t & Ht & HP) _ [Hb1 Hb2] _ _]. unfold in_width in Hb1.
  pose proof (hit_append c k P rk known w2 r data q tail Ha2) as Ha3.
  pose proof (set_reqs_queue _ _ _ _ _ _ w2 (<[r := set_ctx 1 tail k q]> (reqs w2)) _ _ _ Hw2) as Hw3.
  set (w3 := set_reqs _ w2) in *. set (q3 := set_ctx 1 tail k q) in *.
  rewrite (append_cache_ok env c k P rk m0 known w3 r data q3 t Hq Ha3) by (done || (unfold in_width; cbn; lia)).
  change (bool_decide (DOCA_SUCCESS = DOCA_SUCCESS)) with true.
  pose proof (moved_queue _ _ _ _ _ _ w3 r q3 t _ _ _ Hw3) as Hw4. pose proof (moved_append c k P rk m0 known _ _ _ t _ Ha3) as Ha4.
  assert (append_put env r None (moved c k P m0 w3 t r q3) = Ret (moved c k P m0 w3 t r q3, DOCA_ERROR_UNEXPECTED)) as ->.
  { destruct Hw4 as [(cn & hh & ks & Hc & _) (t4 & Ht4 & _) _ _ _ _]. destruct Ha4.
    unfold append_put, req_at, client_at, mkey_at. rewrite ia_req0. cbn [of_option].
    rewrite ia_client0, Hc. cbn [of_option]. rewrite ia_rkey0, ia_drkey0, Z.eqb_refl. cbn [negb].
    change (ctx2 (set_stage 2 q3)) with k. rewrite Ht4. cbn [of_option set_cache va mk_len].
    rewrite ia_len0. change (ctx1 (set_stage 2 q3)) with tail.
    rewrite (uwrap_id 64 (va m0 + mk_len m0)), (uwrap_id 64 (tail + _)) by (unfold in_width; lia).
    rewrite (proj2 (Z.ltb_lt (va m0 + mk_len m0) _)) by lia. by rewrite orb_true_r. }
  change (bool_decide (DOCA_ERROR_UNEXPECTED = DOCA_SUCCESS)) with false.
  eexists _, _, _. split; [reflexivity|]. split; [done|]. split; [apply Ha4|].
  cbn. rewrite lookup_insert_eq. split; [done|]. by rewrite lookup_insert_eq.
Qed.

(** The pause of a client is not respected by the list of fenced requests: when a
    fence is released while another request of the client is reading the tail, the
    fenced append reads the same tail, and the two will write to the same place. *)
Theorem fence_ignores_pause env P rk k m cl w e r q :
  quiet_env env P rk ->
  clients w !! r_client q = Some cl -> pause cl = true -> mkeys cl !! rk = Some k ->
  mkey_heap w !! k = Some m -> ucp_rkey m = rk -> mem_cache m !! P = None ->
  eps w !! e = Some (Ep [r] 0) -> reqs w !! r = Some q -> hdr_op_id (r_header q) = UROM_RDMO_OP_APPEND ->
  ctx0 q = 0 -> ptr_addr (r_header q) = P -> ptr_rkey (r_header q) = rk ->
  exists w', urom_worker_rdmo_check_fenced env e w = Ret w' /\ calls w' = calls w ++ [GetReq r P rk].
Proof.
  intros Hq Hc Hp Hks Hm Hrk HP He Hr Hop Hst Hptr Hprk.
  unfold urom_worker_rdmo_check_fenced, ep_at. rewrite He. cbn [of_option oreqs fenced_ops].
  change (bool_decide ([r] = [])) with false. cbn [negb orb Z.eqb length fenced_loop]. unfold ep_at. rewrite He.
  cbn [of_option fenced_ops oreqs]. unfold req_at. rewrite Hr. cbn [of_option Z.eqb negb]. rewrite andb_false_r.
  set (w1 := upd_ep e _ w). assert (reqs w1 !! r = Some q) as Hr1 by done.
  rewrite (progress_append env w1 r q Hr1 Hop).
  unfold urom_worker_rdmo_append_progress, req_at, client_at. rewrite Hr1. cbn [of_option].
  change (clients w1) with (clients w). rewrite Hc. cbn [of_option]. rewrite Hst. cbn [Z.eqb].
  unfold append_fadd, mkey_at. rewrite Hprk, Hks. change (mkey_heap w1) with (mkey_heap w). rewrite Hm. cbn [of_option].
  rewrite Hrk, Z.eqb_refl. cbn [negb]. rewrite (qe_remote _ _ _ Hq), Hptr.
  unfold urom_worker_rdmo_mem_cache_get. rewrite HP. unfold ucx. rewrite (qe_get _ _ _ Hq).
  change (bool_decide (UCS_INPROGRESS = UCS_INPROGRESS)) with true. cbn [negb finish].
  change (bool_decide (DOCA_ERROR_IN_PROGRESS = DOCA_SUCCESS)) with false. cbn [negb fenced_loop]. unfold ep_at. cbn.
  rewrite lookup_alter_eq, He. cbn. eexists. split; [reflexivity|]. done.
Qed.

(** ** Flushes *)

Section flush.
Context (env : ucx_env) `{!UcxLaws env}.

(** Nothing fails. *)
Definition no_errors : Prop := forall l x, UCS_PTR_IS_ERR (answer env l x) = false.

Definition put_value (ep : Z) (m : urom_worker_rdmo_mkey) (x : Z * Z) : ucx_call :=
  PutValue ep x.1 (ucp_rkey m) x.2.

Definition delete_all (ks : list Z) (t : gmap Z Z) : gmap Z Z := foldl (fun t a => delete a t) t ks.

Lemma delete_all_lookup ks : forall t a, delete_all ks t !! a = if decide (a ∈ ks) then None else t !! a.
Proof.
  induction ks as [|b ks IH]; intros t a; cbn [delete_all foldl]; [done|].
  fold (delete_all ks (delete b t)). rewrite IH. destruct (decide (a = b)) as [->|Hne].
  - rewrite lookup_delete_eq, (decide_True _ _ (P := b ∈ b :: ks)) by (by left). by case_decide.
  - rewrite lookup_delete_ne by done. repeat case_decide; set_solver.
Qed.

Lemma delete_walk t : delete_all (map fst (kh_walk env Z t)) t = ∅.
Proof.
  apply map_eq. intros a. rewrite delete_all_lookup, lookup_empty. case_decide as Ha; [done|].
  destruct (t !! a) as [v|] eqn:E; [|done]. exfalso. apply Ha.
  apply list_elem_of_fmap. exists (a, v). split; [done|].
  rewrite kh_walk_perm. by apply elem_of_map_to_list.
Qed.

Definition with_heap (w : worker) (h : gmap Z urom_worker_rdmo_mkey) (new : list ucx_call) : worker :=
  Worker (clients w) (eps w) h (reqs w) (next_req w) (memory w) (calls w ++ new).

Lemma flush_cache_ok ep k entries : forall m get w,
  no_errors -> mkey_heap w !! k = Some m ->
  exists get', flush_cache env ep k entries get w
    = Ret (with_heap w (<[k := set_cache (delete_all (map fst entries) (mem_cache m)) m]> (mkey_heap w))
             (map (put_value ep m) entries), get', DOCA_SUCCESS).
Proof.
  induction entries as [|[a v] rest IH]; intros m get w Hn Hk; cbn [flush_cache map].
  { exists get. unfold with_heap. rewrite app_nil_r. cbn.
    rewrite insert_id by (rewrite Hk; by destruct m). by destruct w. }
  unfold mkey_at. rewrite Hk. cbn [of_option]. unfold ucx.
  set (w1 := log_call _ _). set (m1 := set_cache (delete a (mem_cache m)) m).
  assert (mkey_heap w1 !! k = Some m1) as Hk1 by (cbn; by rewrite lookup_insert_eq).
  pose proof (Hn (calls (set_mkeys (<[k := m1]> (mkey_heap w)) w)) (PutValue ep a (ucp_rkey m) v)) as Hs.
  destruct (answer env _ (PutValue ep a (ucp_rkey m) v)) eqn:Ea; try discriminate Hs; cbn [UCS_PTR_IS_ERR];
    case_decide; try discriminate;
    match goal with |- context [flush_cache env ep k rest ?g w1] => destruct (IH m1 g w1 Hn Hk1) as [get' ->] end;
    exists get'; unfold with_heap; cbn; rewrite insert_insert_eq, <-app_assoc; done.
Qed.

(** What the flush of a region writes. *)
Definition writes_of (ep : Z) (w : worker) (k : Z) : list ucx_call :=
  match mkey_heap w !! k with
  | Some m => map (put_value ep m) (kh_walk env Z (mem_cache m))
  | None => []
  end.

Lemma flush_mkeys_ok ep ks : forall get w,
  no_errors -> NoDup ks -> (forall k, k ∈ ks -> is_Some (mkey_heap w !! k)) ->
  exists get' h, flush_mkeys env ep ks get w
      = Ret (with_heap w h (concat (map (writes_of ep w) ks)), get', DOCA_SUCCESS)
    /\ forall k, h !! k = if decide (k ∈ ks) then set_cache ∅ <$> mkey_heap w !! k else mkey_heap w !! k.
Proof.
  induction ks as [|k ks IH]; intros get w Hn Hnd Hall; cbn [flush_mkeys map concat].
  { exists get, (mkey_heap w). split; [|done]. unfold with_heap. rewrite app_nil_r. by destruct w. }
  apply NoDup_cons in Hnd as [Hk Hnd]. destruct (Hall k) as [m Hm]; [by left|].
  unfold mkey_at. rewrite Hm. cbn [of_option].
  destruct (flush_cache_ok ep k (kh_walk env Z (mem_cache m)) m get w Hn Hm) as [get1 ->]. rewrite delete_walk.
  change (bool_decide (DOCA_SUCCESS = DOCA_SUCCESS)) with true. cbv iota.
  set (w1 := with_heap _ _ _).
  destruct (IH get1 w1 Hn Hnd) as (get2 & h & -> & Hh).
  { intros k' Hin. cbn. rewrite lookup_insert_is_Some. right. split; [by intros ->|]. apply Hall. by right. }
  exists get2, h. split.
  - assert (writes_of ep w k = map (put_value ep m) (kh_walk env Z (mem_cache m))) as -> by (unfold writes_of; by rewrite Hm).
    unfold with_heap. cbn. rewrite <-app_assoc. do 7 f_equal.
    apply map_ext_in. intros k' Hin%list_elem_of_In. unfold writes_of. cbn.
    rewrite lookup_insert_ne; [done|]. by intros ->.
  - intros k'. rewrite Hh. cbn. destruct (decide (k' = k)) as [->|Hne].
    + rewrite lookup_insert_eq, Hm. case_decide; [done|]. rewrite decide_True by (by left). done.
    + rewrite lookup_insert_ne by done. repeat case_decide; set_solver.
Qed.

Lemma walk_values (ks : gmap Z Z) k : k ∈ map snd (kh_walk env Z ks) <-> exists rk, ks !! rk = Some k.
Proof.
  rewrite (list_elem_of_fmap snd). split.
  - intros ([rk k'] & -> & Hin). rewrite kh_walk_perm in Hin. exists rk. by apply elem_of_map_to_list in Hin.
  - intros [rk H]. exists (rk, k). split; [done|]. rewrite kh_walk_perm. by apply elem_of_map_to_list.
Qed.

Lemma walk_values_NoDup (ks : gmap Z Z) :
  (forall a b k, ks !! a = Some k -> ks !! b = Some k -> a = b) -> NoDup (map snd (kh_walk env Z ks)).
Proof.
  intros Hinj. change (NoDup (snd <$> kh_walk env Z ks)). rewrite kh_walk_perm. apply NoDup_fmap_2_strong.
  - intros [a x] [b y] Ha%elem_of_map_to_list Hb%elem_of_map_to_list Hxy. cbn in Hxy. subst y.
    by rewrite (Hinj a b x Ha Hb).
  - apply NoDup_map_to_list.
Qed.

(** A pointer cached for the client [cl]: the write that would bring it home. *)
Definition cached_write (w : worker) (cl : urom_worker_rdmo_client) (x : ucx_call) : Prop :=
  exists rk k m a v, mkeys cl !! rk = Some k /\ mkey_heap w !! k = Some m /\ mem_cache m !! a = Some v
    /\ x = PutValue (c_ep cl) a (ucp_rkey m) v.

Lemma writes_cached w cl x :
  x ∈ concat (map (writes_of (c_ep cl) w) (map snd (kh_walk env Z (mkeys cl)))) <-> cached_write w cl x.
Proof.
  rewrite list_elem_of_In, in_concat. split.
  - intros (l & Hl & Hx). apply in_map_iff in Hl as (k & <- & Hk). apply list_elem_of_In in Hk, Hx.
    apply walk_values in Hk as [rk Hrk]. unfold writes_of in Hx.
    destruct (mkey_heap w !! k) as [m|] eqn:Hm; [|by apply not_elem_of_nil in Hx].
    apply (list_elem_of_fmap (put_value _ _)) in Hx as ([a v] & -> & Hin).
    rewrite kh_walk_perm in Hin. apply elem_of_map_to_list in Hin. by exists rk, k, m, a, v.
  - intros (rk & k & m & a & v & Hrk & Hm & Ha & ->). exists (writes_of (c_ep cl) w k). split.
    + apply in_map, list_elem_of_In, walk_values. by exists rk.
    + unfold writes_of. rewrite Hm. apply list_elem_of_In, (list_elem_of_fmap (put_value _ _)). exists (a, v).
      split; [done|]. rewrite kh_walk_perm. by apply elem_of_map_to_list.
Qed.

Definition is_get_value (x : ucx_call) : bool := match x with GetValue _ _ _ => true | _ => false end.

(** [urom_worker_rdmo_mem_cache_flush] writes every cached pointer, possibly reads one
    of them back, and leaves the caches empty. *)
Lemma mem_cache_flush_ok w c cl :
  no_errors -> clients w !! c = Some cl ->
  (forall a b k, mkeys cl !! a = Some k -> mkeys cl !! b = Some k -> a = b) ->
  (forall rk k, mkeys cl !! rk = Some k -> is_Some (mkey_heap w !! k)) ->
  exists h back, urom_worker_rdmo_mem_cache_flush env c w
      = Ret (with_heap w h (concat (map (writes_of (c_ep cl) w) (map snd (kh_walk env Z (mkeys cl)))) ++ back),
             DOCA_SUCCESS)
    /\ Forall (fun x => is_get_value x = true) back
    /\ forall rk k, mkeys cl !! rk = Some k -> h !! k = set_cache ∅ <$> mkey_heap w !! k.
Proof.
  intros Hn Hc Hinj Hall. unfold urom_worker_rdmo_mem_cache_flush, client_at. rewrite Hc. cbn [of_option].
  destruct (flush_mkeys_ok (c_ep cl) (map snd (kh_walk env Z (mkeys cl))) None w Hn) as (get & h & -> & Hh).
  { by apply walk_values_NoDup. }
  { intros k [rk Hk]%walk_values. by eapply Hall. }
  change (bool_decide (DOCA_SUCCESS = DOCA_SUCCESS)) with true. cbn [negb].
  assert (forall rk k, mkeys cl !! rk = Some k -> h !! k = set_cache ∅ <$> mkey_heap w !! k) as Hc'.
  { intros rk k Hk. rewrite Hh, decide_True; [done|]. apply walk_values. by exists rk. }
  destruct get as [[a rk]|].
  - unfold ucx. rewrite Hn. exists h, [GetValue (c_ep cl) a rk].
    split; [|split; [by repeat constructor|done]]. unfold log_call, with_heap. cbn. by rewrite <-app_assoc.
  - exists h, []. rewrite app_nil_r. by repeat split.
Qed.

Lemma flush_respond_calls w r q :
  no_errors -> reqs w !! r = Some q ->
  exists w' e, flush_respond env r w = Ret (w', e)
    /\ calls w' = calls w ++ [AmSend r (r_reply_ep q) (le_bytes 4 UROM_RDMO_OP_FLUSH ++ le_bytes 8 (flush_id (r_header q)))]
    /\ mkey_heap w' = mkey_heap w
    /\ (e = DOCA_SUCCESS \/ e = DOCA_ERROR_IN_PROGRESS).
Proof.
  intros Hn Hq. unfold flush_respond, req_at. rewrite Hq. cbn [of_option]. unfold ucx. cbv zeta.
  match goal with |- context [answer env ?l ?x] => pose proof (Hn l x) as Hs; destruct (answer env l x) end;
    try discriminate Hs; cbn [UCS_PTR_IS_ERR await]; eexists _, _; (split; [reflexivity|]); cbn; auto.
Qed.
End flush.

(** ** The theorem about flushes *)

(** What the flush of request [r] answers to its initiator. *)
Definition flush_answer (r : Z) (q : urom_worker_rdmo_req) : ucx_call :=
  AmSend r (r_reply_ep q) (le_bytes 4 UROM_RDMO_OP_FLUSH ++ le_bytes 8 (flush_id (r_header q))).

(** The callback of a flush of the end-point that was in progress sends the response. *)
Lemma flush_completes env w r q e v :
  no_errors env -> reqs w !! r = Some (set_stage 1 q) -> hdr_op_id (r_header q) = UROM_RDMO_OP_FLUSH ->
  exists w' s, progress env r w = Ret (w', s) /\ calls w' = calls w ++ [flush_answer r q]
    /\ (s = DOCA_SUCCESS \/ s = DOCA_ERROR_IN_PROGRESS)
    /\ (s = DOCA_ERROR_IN_PROGRESS -> complete env (FlushEp r e) v w = Ret w').
Proof.
  intros Hn Hq Hop. destruct (flush_respond_calls env w r _ Hn Hq) as (w' & s & E & Hc & _ & Hs).
  assert (progress env r w = Ret (w', s)) as Ep.
  { unfold progress, req_at. rewrite Hq. cbn [of_option]. change (r_header (set_stage 1 q)) with (r_header q).
    rewrite Hop, Z.eqb_refl.
    unfold urom_worker_rdmo_flush_progress, req_at. rewrite Hq. cbn. exact E. }
  exists w', s. split; [done|]. split; [done|]. split; [done|]. intros ->. cbn.
  unfold urom_worker_rdmo_op_cb. by rewrite Ep.
Qed.

(** C26: As long as no UCX call fails and the worker's fence succeeds, a flush first
    brings home every pointer cached for the client, and only those, between the fence
    of the worker and the flush of the end-point to the host, and the caches are empty
    afterwards.  The response is the next call after the flush of the end-point if that
    completes at once; if it is in progress, the request waits, and the callback of its
    completion, in whatever state the worker is then as long as the request is as the
    flush left it, sends the response. *)
Theorem flush_writes_back env `{!UcxLaws env} w r q cl :
  no_errors env -> (forall l, answer env l WorkerFence = UCS_OK) ->
  reqs w !! r = Some q -> hdr_op_id (r_header q) = UROM_RDMO_OP_FLUSH -> ctx0 q = 0 ->
  clients w !! r_client q = Some cl ->
  (forall a b k, mkeys cl !! a = Some k -> mkeys cl !! b = Some k -> a = b) ->
  (forall rk k, mkeys cl !! rk = Some k -> is_Some (mkey_heap w !! k)) ->
  exists w' e written back response, progress env r w = Ret (w', e)
    /\ (e = DOCA_SUCCESS \/ e = DOCA_ERROR_IN_PROGRESS)
    /\ calls w' = calls w ++ [WorkerFence] ++ written ++ back ++ [FlushEp r (c_ep cl)] ++ response
    /\ (forall x, x ∈ written <-> cached_write w cl x)
    /\ Forall (fun x => is_get_value x = true) back
    /\ (forall rk k, mkeys cl !! rk = Some k -> mkey_heap w' !! k = set_cache ∅ <$> mkey_heap w !! k)
    /\ if decide (answer env (calls w ++ [WorkerFence] ++ written ++ back) (FlushEp r (c_ep cl)) = UCS_OK)
       then response = [flush_answer r q]
       else response = [] /\ e = DOCA_ERROR_IN_PROGRESS
            /\ forall w2 v, reqs w2 !! r = reqs w' !! r ->
                exists w3 s, progress env r w2 = Ret (w3, s) /\ calls w3 = calls w2 ++ [flush_answer r q]
                  /\ (s = DOCA_SUCCESS \/ s = DOCA_ERROR_IN_PROGRESS)
                  /\ (s = DOCA_ERROR_IN_PROGRESS -> complete env (FlushEp r (c_ep cl)) v w2 = Ret w3).
Proof.
  intros Hn Hf Hq Hop Hst Hc Hinj Hall. unfold progress, req_at. rewrite Hq. cbn [of_option]. rewrite Hop. cbn [UROM_RDMO_OP_FLUSH Z.eqb].
  unfold urom_worker_rdmo_flush_progress, req_at. rewrite Hq. cbn [of_option].
  rewrite Hst. cbn [Z.eqb]. unfold ucx. rewrite Hf. change (bool_decide (UCS_OK = UCS_OK)) with true. cbn [negb].
  destruct (mem_cache_flush_ok env (log_call WorkerFence w) (r_client q) cl Hn Hc Hinj Hall) as (h & back & -> & Hb & Hh).
  unfold client_at. change (clients (with_heap _ _ _)) with (clients w). rewrite Hc. cbn [of_option].
  set (written := concat _). set (w2 := with_heap _ _ _).
  assert (calls w2 = calls w ++ [WorkerFence] ++ written ++ back) as Hc2 by (cbn; by rewrite <-!app_assoc).
  rewrite Hn. set (s := answer env (calls w2) (FlushEp r (c_ep cl))). pose proof (Hn (calls w2) (FlushEp r (c_ep cl))) as Hs.
  fold s in Hs. set (w3 := log_call _ w2).
  assert (reqs (upd_req r (set_stage 1) w3) !! r = Some (set_stage 1 q)) as Hq3.
  { cbn. by rewrite lookup_alter_eq, Hq. }
  destruct s eqn:Es; try discriminate Hs; cbn [await].
  - destruct (flush_respond_calls env _ r _ Hn Hq3) as (w' & e & -> & Hcw & Hm & He).
    eexists w', e, written, back, _. split; [done|]. split; [done|].
    split; [rewrite Hcw; cbn [upd_req set_reqs calls w3 log_call]; rewrite Hc2, <-!app_assoc; reflexivity|].
    split; [intros x; apply (writes_cached env w cl x)|]. split; [done|].
    split; [intros rk k Hk; rewrite Hm; by apply (Hh rk k Hk)|].
    rewrite <-Hc2. fold s. rewrite Es, decide_True by done. done.
  - eexists _, _, written, back, []. split; [reflexivity|]. split; [by right|].
    split; [cbn [upd_req set_reqs calls w3 log_call]; rewrite Hc2, <-!app_assoc; reflexivity|].
    split; [intros x; apply (writes_cached env w cl x)|]. split; [done|]. split; [done|].
    rewrite <-Hc2. fold s. rewrite Es, decide_False by done. split; [done|]. split; [done|].
    intros w4 v Hw4. rewrite Hq3 in Hw4. by apply flush_completes.
Qed.

(** ** Concrete sessions *)

(** [session_ok] by evaluation. *)
Fixpoint session_okb (env : ucx_env) (evs : list rdmo_event) (w : worker) (pend : list ucx_call) : bool :=
  match evs with
  | [] => true
  | ev :: evs' =>
      match ev with Done x _ => bool_decide (x ∈ pend) | Arrive _ _ _ _ _ => true end
      && match session_step env ev w pend with Ret (w', pend') => session_okb env evs' w' pend' | Undef _ => true end
  end.

Lemma session_okb_ok env evs : forall w pend, session_okb env evs w pend = true -> session_ok env evs w pend.
Proof.
  induction evs as [|ev evs IH]; intros w pend H; cbn [session_ok]; [done|].
  cbn [session_okb] in H. apply andb_true_iff in H as [H1 H2]. split.
  - destruct ev; [done|]. by apply bool_decide_eq_true in H1.
  - intros w' pend' E. rewrite E in H2. by apply IH.
Qed.

(** Reads and writes of requests complete later, everything else at once. *)
Definition sample_env : ucx_env := {|
  answer _ x := match x with PutReq _ _ _ _ | GetReq _ _ _ | FlushEp _ _ => UCS_INPROGRESS | _ => UCS_OK end;
  ucp_rkey_ptr _ _ := false;
  kh_put_ok _ := true;
  mpool_ok _ := true;
  kh_walk A t := map_to_list t;
|}.

#[export] Instance sample_env_laws : UcxLaws sample_env.
Proof. split. intros A t. reflexivity. Qed.

Lemma sample_env_quiet : quiet_env sample_env 1000 500.
Proof. split; cbn; auto. Qed.

Lemma sample_env_no_errors : no_errors sample_env.
Proof. intros l []; reflexivity. Qed.

Definition sample_mkey : urom_worker_rdmo_mkey := Mkey 500 false ∅ 1000 1000.

Definition sample_header : list Z :=
  le_bytes 4 7 ++ le_bytes 4 UROM_RDMO_OP_APPEND ++ le_bytes 4 0 ++ le_bytes 8 1000 ++ le_bytes 8 500 ++ le_bytes 8 500.

Definition sample_conn : client_conn := Conn 1 {[0 := 9]} 1.

(** Client 7 with one region, whose cache holds [t]; end-point 9. *)
Definition sample_worker (t : gmap Z Z) (rs : gmap Z urom_worker_rdmo_req) : worker :=
  Worker {[7 := Client sample_conn 8 {[500 := 50]} [] false]} {[9 := Ep [] 0]} {[50 := set_cache t sample_mkey]}
    rs 0 (fun _ => 0) [].

Lemma sample_queue t : queue_at 7 50 1000 500 sample_mkey (eq 9) (sample_worker t ∅) (t !! 1000) [] false.
Proof.
  split; cbn.
  - exists sample_conn, 8, {[500 := 50]}. by split.
  - by exists t.
  - done.
  - vm_compute. intuition congruence.
  - by intros e x [<- <-]%lookup_singleton_Some.
  - intros e <-. by eexists.
Qed.

Lemma sample_append_header : append_header 7 1000 500 sample_header.
Proof. split_and!; try reflexivity; vm_compute; lia. Qed.

(** Two appends arrive while the pointer is being read; the third finds it cached. *)
Definition sample_session : list rdmo_event :=
  [Arrive sample_header [1; 2; 3] 3 false 9; Arrive sample_header [4; 5] 2 false 9;
   Done (GetReq 0 1000 500) 1100; Done (PutReq 0 1100 500 [1; 2; 3]) 0;
   Arrive sample_header [6] 1 false 9;
   Done (PutReq 2 1105 500 [6]) 0; Done (PutReq 1 1103 500 [4; 5]) 0].

Lemma appends_are_contiguous_witness :
  exists w' pend T0 n, session_run sample_env sample_session (sample_worker ∅ ∅) [] = Ret (w', pend)
    /\ puts (calls w') = layout 500 T0 (take n (arrivals 0 sample_session))
    /\ (n = 0%nat \/ exists r, Done (GetReq r 1000 500) T0 ∈ sample_session)
    /\ (pend = [] -> n = length (arrivals 0 sample_session))
    /\ (pend = [] -> arrivals 0 sample_session <> [] ->
        exists t, mkey_heap w' !! 50 = Some (set_cache t sample_mkey)
          /\ t !! 1000 = Some (T0 + total (arrivals 0 sample_session))).
Proof.
  apply (appends_are_contiguous sample_env 7 50 1000 500 sample_mkey (eq 9) 100 (sample_worker ∅ ∅) sample_session).
  - exact sample_env_quiet.
  - exact (sample_queue ∅).
  - reflexivity.
  - repeat (apply Forall_cons; split); cbn [queue_event]; try done.
    + split; [exact sample_append_header|done].
    + split; [exact sample_append_header|done].
    + split; [exact sample_append_header|done].
  - apply session_okb_ok. vm_compute. reflexivity.
  - vm_compute. congruence.
Defined.

Lemma oversized_append_moves_tail_witness :
  exists w' t q, urom_worker_rdmo_am_cb sample_env sample_header [1; 2; 3] 3 false 9 (sample_worker {[1000 := 1998]} ∅)
      = Ret (w', UCS_INPROGRESS)
    /\ calls w' = [] /\ reqs w' !! 0 = Some q
    /\ mkey_heap w' !! 50 = Some (set_cache t sample_mkey) /\ t !! 1000 = Some 2001.
Proof.
  apply (oversized_append_moves_tail sample_env 7 50 1000 500 sample_mkey (eq 9) (sample_worker {[1000 := 1998]} ∅) 1998
           sample_header [1; 2; 3] 9).
  - exact sample_env_quiet.
  - exact (sample_queue {[1000 := 1998]}).
  - exact sample_append_header.
  - reflexivity.
  - vm_compute. intuition congruence.
  - vm_compute. intuition congruence.
Defined.

Definition sample_append : urom_worker_rdmo_req := Req 7 9 sample_header [1] 1 false 9 0 0 0.

Definition fenced_worker : worker :=
  Worker {[7 := Client sample_conn 8 {[500 := 50]} [] true]} {[9 := Ep [3] 0]} {[50 := sample_mkey]} {[3 := sample_append]}
    4 (fun _ => 0) [].

Lemma fence_ignores_pause_witness :
  exists w', urom_worker_rdmo_check_fenced sample_env 9 fenced_worker = Ret w' /\ calls w' = [GetReq 3 1000 500].
Proof.
  apply (fence_ignores_pause sample_env 1000 500 50 sample_mkey (Client sample_conn 8 {[500 := 50]} [] true) fenced_worker 9 3 sample_append);
    try reflexivity.
  exact sample_env_quiet.
Defined.

Definition sample_flush : urom_worker_rdmo_req :=
  Req 7 9 (le_bytes 4 7 ++ le_bytes 4 UROM_RDMO_OP_FLUSH ++ le_bytes 4 UROM_RDMO_REQ_FLAG_FENCE ++ le_bytes 8 3735928559)
    [] 0 false 9 0 0 0.

Definition flush_worker : worker := sample_worker {[1000 := 1100; 1008 := 1500]} {[5 := sample_flush]}.

Definition sample_client : urom_worker_rdmo_client := Client sample_conn 8 {[500 := 50]} [] false.

(** The flush of the end-point completes at once, the response does not. *)
Definition prompt_env : ucx_env := {|
  answer _ x := match x with AmSend _ _ _ => UCS_INPROGRESS | _ => UCS_OK end;
  ucp_rkey_ptr _ _ := false;
  kh_put_ok _ := true;
  mpool_ok _ := true;
  kh_walk A t := map_to_list t;
|}.

#[export] Instance prompt_env_laws : UcxLaws prompt_env.
Proof. split. intros A t. reflexivity. Qed.

Lemma flush_writes_back_witness :
  (exists w' e written back, progress prompt_env 5 flush_worker = Ret (w', e)
    /\ calls w' = calls flush_worker ++ [WorkerFence] ++ written ++ back
         ++ [FlushEp 5 (c_ep sample_client); flush_answer 5 sample_flush]
    /\ (forall x, x ∈ written <-> cached_write flush_worker sample_client x))
  /\ (exists w' written back, progress sample_env 5 flush_worker = Ret (w', DOCA_ERROR_IN_PROGRESS)
    /\ calls w' = calls flush_worker ++ [WorkerFence] ++ written ++ back ++ [FlushEp 5 (c_ep sample_client)]
    /\ exists w3 s, progress sample_env 5 w' = Ret (w3, s) /\ calls w3 = calls w' ++ [flush_answer 5 sample_flush]).
Proof.
  assert (forall a b k, mkeys sample_client !! a = Some k -> mkeys sample_client !! b = Some k -> a = b) as Hinj.
  { cbn [mkeys sample_client]. by intros a b k [<- _]%lookup_singleton_Some [<- _]%lookup_singleton_Some. }
  assert (forall rk k, mkeys sample_client !! rk = Some k -> is_Some (mkey_heap flush_worker !! k)) as Hall.
  { cbn [mkeys sample_client]. intros rk k [_ <-]%lookup_singleton_Some. by eexists. }
  split.
  - assert (no_errors prompt_env) as Hn by (by intros l []).
    destruct (flush_writes_back prompt_env flush_worker 5 sample_flush sample_client Hn) as
      (w' & e & written & back & response & E & _ & Hc & Hw & _ & _ & Hr); try done.
    cbn [answer prompt_env] in Hr. rewrite decide_True in Hr by done. subst response.
    by exists w', e, written, back.
  - destruct (flush_writes_back sample_env flush_worker 5 sample_flush sample_client sample_env_no_errors) as
      (w' & e & written & back & response & E & _ & Hc & Hw & _ & _ & Hr); try done.
    cbn [answer sample_env] in Hr. rewrite decide_False in Hr by done. destruct Hr as (-> & -> & Hr).
    exists w', written, back. split; [done|]. split; [done|].
    destruct (Hr w' 0 eq_refl) as (w3 & s & E3 & Hc3 & _). by exists w3, s.
Defined.
