(* ===== verification/RdmoHost.v ===== *)
(** * Remote direct memory operations: the initiator

    The requests the client of applications/urom_rdmo/host/urom_rdmo_core.c sends
    ([rdmo_append], [rdmo_flush], [rdmo_scatter]) and what the DPU worker of
    [Rdmo] does with them: a scatter message is taken apart into exactly the
    chunks the host cut, and the request ends when their writes have completed.
    The active message itself is UCX's: its status and what polling it shows are
    parameters. *)
From S2P Require Import Prelude Rdmo.

(** ** Sending *)

(** [while (ucp_request_check_status(p) == UCS_INPROGRESS) ucp_worker_progress(w);] and
    the test after it, on the statuses polling shows. *)
Fixpoint poll_status (polls : list ucs_status) : outcome doca_error_t :=
  match polls with
  | [] => Undef OutOfFuel
  | UCS_INPROGRESS :: rest => poll_status rest
  | UCS_OK :: _ => Ret DOCA_SUCCESS
  | _ :: _ => Ret DOCA_ERROR_DRIVER
  end.

(** The end of the three senders, from the result of [ucp_am_send_nbx]. *)
Definition send_result (s : ucs_status) (polls : list ucs_status) : outcome doca_error_t :=
  if UCS_PTR_IS_ERR s then Ret DOCA_ERROR_DRIVER
  else if bool_decide (s = UCS_INPROGRESS) then poll_status polls
  else if negb (bool_decide (s = UCS_OK)) then Ret DOCA_ERROR_DRIVER
  else Ret DOCA_SUCCESS.

(** A message: its header and its payload. *)
Definition message : Type := list Z * list Z.

Section send.
Context (send : message -> ucs_status) (polls : list ucs_status).

Definition rdmo_hdr (op_id flags : Z) : list Z := le_bytes 4 0 ++ le_bytes 4 op_id ++ le_bytes 4 flags.

(** ** Append and flush *)

Definition rdmo_append (ptr_addr : Z) (data : list Z) (rkey : Z) : outcome (message * doca_error_t) :=
  let msg := (rdmo_hdr UROM_RDMO_OP_APPEND 0 ++ le_bytes 8 ptr_addr ++ le_bytes 8 rkey ++ le_bytes 8 rkey, data) in
  let* e := send_result (send msg) polls in Ret (msg, e).

Definition FLUSH_ID : Z := 48879.

(** [flushed]: the reply of the worker arrives (and [rdmo_am_cb] sets the flag). *)
Definition rdmo_flush (flushed : bool) : outcome (message * doca_error_t) :=
  let msg := (rdmo_hdr UROM_RDMO_OP_FLUSH UROM_RDMO_REQ_FLAG_FENCE ++ le_bytes 8 FLUSH_ID, []) in
  let* e := send_result (send msg) polls in
  if bool_decide (e = DOCA_SUCCESS) then let* _ := require flushed OutOfFuel in Ret (msg, e) else Ret (msg, e).

(** ** Scatter *)

(** An entry of the payload: descriptor, padding, data. *)
Definition scatter_iov (addr rkey len : Z) (data : list Z) : list Z :=
  le_bytes 8 addr ++ le_bytes 8 rkey ++ le_bytes 2 len ++ replicate 6 0 ++ data.

(** The loop that fills the payload. *)
Fixpoint fill_iovs (chunks : nat) (target : Z) (data : list Z) (chunk_size rkey : Z) : list Z :=
  match chunks with
  | O => []
  | S chunks' =>
      scatter_iov target rkey chunk_size (take (Z.to_nat chunk_size) data)
      ++ fill_iovs chunks' (u64 (target + chunk_size)) (drop (Z.to_nat chunk_size) data) chunk_size rkey
  end.

(** [chunk_size] is an [int], [len] the length of [data]; the payload is an array of
    variable length, whose size is computed in 64 bits and stored in an [int]. *)
Definition rdmo_scatter (target : Z) (data : list Z) (chunk_size rkey : Z) : outcome (message * doca_error_t) :=
  let* _ := require (negb (chunk_size =? 0)) DivisionByZero in
  let chunks := i32 (Z.of_nat (length data) / u64 chunk_size) in
  let size := u64 (u64 chunks * u64 (IOV_SIZE + chunk_size)) in
  let* _ := require ((0 <? size) && (size =? i32 size)) OutOfBounds in
  let msg := (rdmo_hdr UROM_RDMO_OP_SCATTER 0 ++ le_bytes 8 chunks,
              fill_iovs (Z.to_nat chunks) target data chunk_size rkey) in
  let* e := send_result (send msg) polls in Ret (msg, e).
End send.

(** ** Messages of the host are requests of the worker *)

Lemma load_field off n pre f post :
  length pre = off -> length f = n -> load off n (pre ++ f ++ post) = le_value f.
Proof. intros <- <-. by rewrite load_unfold, drop_app_length, take_app_length. Qed.

(** A field of a concatenation of words. *)
Lemma load_word off n pre v post :
  length pre = off -> in_width (8 * Z.of_nat n) v -> load off n (pre ++ le_bytes n v ++ post) = v.
Proof.
  intros Hp Hv. rewrite (load_field off n pre _ post Hp) by apply length_le_bytes.
  rewrite le_value_le_bytes. by apply uwrap_id.
Qed.

Definition scatter_header (chunks : Z) : list Z := rdmo_hdr UROM_RDMO_OP_SCATTER 0 ++ le_bytes 8 chunks.

Lemma scatter_header_fields chunks pad :
  in_width 64 chunks ->
  hdr_id (scatter_header chunks ++ pad) = 0 /\ hdr_op_id (scatter_header chunks ++ pad) = UROM_RDMO_OP_SCATTER
  /\ hdr_flags (scatter_header chunks ++ pad) = 0 /\ scatter_count (scatter_header chunks ++ pad) = chunks.
Proof.
  intros Hc. split_and!; try reflexivity. unfold scatter_count, scatter_header. rewrite <-app_assoc.
  by apply load_word.
Qed.

(** ** The worker takes the message apart *)

Section scatter.
Context (env : ucx_env) (rk k : Z) (m : urom_worker_rdmo_mkey).

(** The region is remote and its writes do not fail. *)
Record scatter_env : Prop := {
  se_remote a : ucp_rkey_ptr env rk a = false;
  se_put l r a d : answer env l (PutScatter r a rk d) = UCS_OK \/ answer env l (PutScatter r a rk d) = UCS_INPROGRESS;
  se_mpool l : mpool_ok env l = true;
  se_rkey : ucp_rkey m = rk;
  se_key : in_width 64 rk /\ rk <> UINT64_MAX;
}.

Definition encode (es : list (Z * list Z)) : list Z :=
  concat (map (fun e => scatter_iov e.1 rk (Z.of_nat (length e.2)) e.2) es).

Definition entry_fits (e : Z * list Z) : Prop :=
  0 <= va m <= e.1 /\ e.1 + Z.of_nat (length e.2) <= va m + mk_len m < 2 ^ 64 /\ Z.of_nat (length e.2) < 2 ^ 16.

Definition put_entry (r : Z) (e : Z * list Z) : ucx_call := PutScatter r e.1 rk e.2.

(** [w] after the writes [new] of the request [r]: they are logged, and those in
    progress are counted. *)
Definition after_puts (w : worker) (r : Z) (q : urom_worker_rdmo_req) (new : list ucx_call) : worker :=
  Worker (clients w) (eps w) (mkey_heap w)
    (<[r := set_ctx (ctx0 q) (ctx1 q + Z.of_nat (length (started env (calls w) new))) (ctx2 q) q]> (reqs w))
    (next_req w) (memory w) (calls w ++ new).

Lemma after_puts_nil w r q : reqs w !! r = Some q -> after_puts w r q [] = w.
Proof.
  intros Hq. unfold after_puts. cbn [started length Z.of_nat]. rewrite Z.add_0_r, app_nil_r.
  rewrite insert_id by (rewrite Hq; by destruct q). by destruct w.
Qed.

Lemma iov_fields pre addr len d post :
  in_width 64 addr -> in_width 64 rk -> in_width 16 len ->
  let data := pre ++ scatter_iov addr rk len d ++ post in
  load (length pre) 8 data = addr /\ load (length pre + 8) 8 data = rk /\ load (length pre + 16) 2 data = len.
Proof.
  intros Ha Hr Hl. cbv zeta. unfold scatter_iov. rewrite <-!app_assoc. split_and!.
  - by apply load_word.
  - rewrite (app_assoc pre). apply load_word; [by rewrite length_app, length_le_bytes|done].
  - rewrite (app_assoc (le_bytes 8 addr)), (app_assoc pre).
    apply load_word; [by rewrite !length_app, !length_le_bytes|done].
Qed.

Lemma length_scatter_iov addr len d : length (scatter_iov addr rk len d) = (24 + length d)%nat.
Proof. unfold scatter_iov. rewrite !length_app, !length_le_bytes, length_replicate. lia. Qed.

Lemma iov_data pre addr len d post :
  take (length d) (drop (length pre + 24) (pre ++ scatter_iov addr rk len d ++ post)) = d.
Proof.
  unfold scatter_iov. rewrite <-!app_assoc.
  rewrite (app_assoc (le_bytes 2 len)), (app_assoc (le_bytes 8 rk)), (app_assoc (le_bytes 8 addr)), (app_assoc pre).
  rewrite drop_app_length' by (rewrite !length_app, !length_le_bytes, length_replicate; lia).
  by rewrite take_app_length.
Qed.

Lemma put_one w r q e :
  scatter_env -> reqs w !! r = Some q -> ctx1 q + 1 < 2 ^ 64 -> 0 <= ctx1 q ->
  (if bool_decide (answer env (calls w) (put_entry r e) = UCS_INPROGRESS)
   then upd_req r (fun q => set_ctx (ctx0 q) (u64 (ctx1 q + 1)) (ctx2 q) q) (log_call (put_entry r e) w)
   else log_call (put_entry r e) w) = after_puts w r q [put_entry r e].
Proof.
  intros Hs Hq Hb Hp. unfold after_puts. cbn [started put_entry has_callback andb]. rewrite app_nil_r.
  case_bool_decide; cbn [length Z.of_nat].
  - rewrite (upd_req_Some r _ _ q) by done. rewrite (uwrap_id 64 (ctx1 q + 1)) by (unfold in_width; lia). done.
  - rewrite Z.add_0_r, insert_id by (rewrite Hq; by destruct q). by destruct w.
Qed.

Lemma after_puts_app w r q new1 new2 :
  let w1 := after_puts w r q new1 in
  let q1 := set_ctx (ctx0 q) (ctx1 q + Z.of_nat (length (started env (calls w) new1))) (ctx2 q) q in
  reqs w1 !! r = Some q1 /\ after_puts w1 r q1 new2 = after_puts w r q (new1 ++ new2).
Proof.
  cbv zeta. split; [cbn; by rewrite lookup_insert_eq|].
  unfold after_puts. cbn. rewrite insert_insert_eq, started_app, length_app, Nat2Z.inj_add, Z.add_assoc, app_assoc. done.
Qed.

Lemma started_length old new : (length (started env old new) <= length new)%nat.
Proof.
  revert old. induction new as [|x new IH]; intros old; cbn [started length]; [lia|].
  rewrite length_app. specialize (IH (old ++ [x])). case_if; cbn [length]; lia.
Qed.

(** The loop writes the entries, one after the other. *)
Lemma scatter_loop_ok es : forall w r q cl pre prev,
  scatter_env -> reqs w !! r = Some q -> clients w !! r_client q = Some cl -> mkeys cl !! rk = Some k ->
  mkey_heap w !! k = Some m -> prev = None \/ prev = Some (rk, k) ->
  r_data q = pre ++ encode es -> Forall entry_fits es -> 0 <= ctx1 q -> ctx1 q + Z.of_nat (length es) < 2 ^ 64 ->
  scatter_loop env (length es) r (Z.of_nat (length pre)) prev w = Ret (after_puts w r q (map (put_entry r) es), None).
Proof.
  induction es as [|[a d] es IH]; intros w r q cl pre prev Hs Hq Hc Hk Hm Hprev Hd Hf Hp Hb; cbn [length scatter_loop map].
  { by rewrite after_puts_nil. }
  apply Forall_cons in Hf as [(Hf1 & Hf2 & Hf3) Hf]. cbn [fst snd] in Hf1, Hf2, Hf3.
  destruct (se_key Hs) as [Hrk Hmax]. unfold req_at at 1. rewrite Hq. cbn [of_option].
  unfold client_at at 1. rewrite Hc. cbn [of_option].
  pose proof (iov_fields pre a (Z.of_nat (length d)) d (encode es)) as Hfl.
  pose proof (iov_data pre a (Z.of_nat (length d)) d (encode es)) as Hdt.
  unfold encode in Hd. cbn [map concat fst snd] in Hd. fold (encode es) in Hd. rewrite <-Hd in Hfl, Hdt.
  destruct Hfl as (E1 & E2 & E3); [unfold in_width; lia|done|unfold in_width; lia|].
  assert (Z.of_nat (length (r_data q)) = Z.of_nat (length pre) + IOV_SIZE + Z.of_nat (length d) + Z.of_nat (length (encode es))) as Hlen.
  { rewrite Hd, !length_app, length_scatter_iov. unfold IOV_SIZE. lia. }
  unfold require. rewrite (proj2 (Z.leb_le (Z.of_nat (length pre) + IOV_SIZE) _)) by lia.
  rewrite Nat2Z.id, E1, E2, E3.
  assert (exists x, x = Some k /\ match prev with
     | Some (pk, k0) => Ret (if rk =? pk then Some k0 else mkeys cl !! rk)
     | None => if rk =? UINT64_MAX then Undef NullDeref else Ret (mkeys cl !! rk) end = Ret x) as (x & -> & ->).
  { exists (Some k). split; [done|]. destruct Hprev as [->| ->]; [|by rewrite Z.eqb_refl].
    apply Z.eqb_neq in Hmax. by rewrite Hmax, Hk. }
  unfold mkey_at at 1. rewrite Hm. cbn [of_option].
  rewrite (uwrap_id 64 (va m + mk_len m)), (uwrap_id 64 (a + _)) by (unfold in_width; lia).
  rewrite (proj2 (Z.ltb_ge a (va m))), (proj2 (Z.ltb_ge (va m + mk_len m) _)) by lia. cbn [orb].
  rewrite (proj2 (Z.leb_le (_ + Z.of_nat (length d)) _)) by lia.
  rewrite (se_rkey Hs), (se_remote Hs). cbn [negb]. unfold ucx.
  rewrite Nat2Z.id, (Z2Nat.inj_add _ IOV_SIZE), Nat2Z.id by (unfold IOV_SIZE; lia).
  change (Z.to_nat IOV_SIZE) with 24%nat. rewrite Hdt.
  assert (UCS_PTR_IS_ERR (answer env (calls w) (PutScatter r a rk d)) = false) as ->.
  { by destruct (se_put Hs (calls w) r a d) as [-> | ->]. }
  cbn [length] in Hb. pose proof (put_one w r q (a, d) Hs Hq ltac:(lia) Hp) as Hone. unfold put_entry in Hone. cbn [fst snd] in Hone.
  set (w1 := after_puts w r q _) in Hone.
  assert (Z.of_nat (length pre) + IOV_SIZE + Z.of_nat (length d) = Z.of_nat (length (pre ++ scatter_iov a rk (Z.of_nat (length d)) d))) as ->.
  { rewrite length_app, length_scatter_iov. unfold IOV_SIZE. lia. }
  destruct (after_puts_app w r q [PutScatter r a rk d] (map (put_entry r) es)) as [Hq1 Happ]. fold w1 in Hq1, Happ.
  pose proof (started_length (calls w) [PutScatter r a rk d]) as Hle. cbn [length] in Hle.
  transitivity (scatter_loop env (length es) r (Z.of_nat (length (pre ++ scatter_iov a rk (Z.of_nat (length d)) d))) (Some (rk, k)) w1).
  { rewrite <-Hone. by case_bool_decide. }
  rewrite (IH w1 r _ cl _ _ Hs Hq1 Hc Hk Hm) by (first [by right|by rewrite <-app_assoc|cbn [ctx1 set_ctx]; lia|done]).
  by rewrite Happ.
Qed.
End scatter.

(** ** The chunks of a scatter *)

Fixpoint chunks_of (n : nat) (target : Z) (data : list Z) (cs : nat) : list (Z * list Z) :=
  match n with
  | O => []
  | S n' => (target, take cs data) :: chunks_of n' (target + Z.of_nat cs) (drop cs data) cs
  end.

Lemma length_chunks_of n target data cs : length (chunks_of n target data cs) = n.
Proof. revert target data. induction n; intros; cbn; auto. Qed.

Lemma chunks_of_lookup n : forall target data cs i, (i < n)%nat ->
  chunks_of n target data cs !! i = Some (target + Z.of_nat (i * cs), take cs (drop (i * cs) data)).
Proof.
  induction n as [|n IH]; intros target data cs i Hi; [lia|]. destruct i as [|i]; cbn [chunks_of lookup list_lookup].
  - cbn. by rewrite Z.add_0_r.
  - rewrite IH by lia. rewrite drop_drop, (Nat.mul_succ_l i), (Nat.add_comm _ cs). do 2 f_equal. lia.
Qed.

Lemma fill_iovs_encode n : forall target data cs rk,
  (n * cs <= length data)%nat -> 0 <= target -> target + Z.of_nat (n * cs) < 2 ^ 64 ->
  fill_iovs n target data (Z.of_nat cs) rk = encode rk (chunks_of n target data cs).
Proof.
  induction n as [|n IH]; intros target data cs rk Hl Ht Hb; cbn [fill_iovs chunks_of]; [done|].
  rewrite Nat2Z.id. unfold encode. cbn [map concat fst snd]. f_equal.
  { by rewrite length_take_le by lia. }
  destruct n as [|n]; [done|].
  rewrite (uwrap_id 64) by (unfold in_width; lia). apply IH; [rewrite length_drop; lia|lia|lia].
Qed.

Lemma chunks_of_fit n target data cs m :
  (n * cs <= length data)%nat -> Z.of_nat cs < 2 ^ 16 -> 0 <= va m <= target ->
  target + Z.of_nat (n * cs) <= va m + mk_len m < 2 ^ 64 ->
  Forall (entry_fits m) (chunks_of n target data cs).
Proof.
  intros Hl Hc Hv Hb. apply Forall_lookup. intros i e He.
  assert (i < n)%nat as Hi by (rewrite <-(length_chunks_of n target data cs); by eapply lookup_lt_Some).
  rewrite chunks_of_lookup in He by done. injection He as <-. unfold entry_fits. cbn [fst snd].
  assert ((i * cs + cs <= n * cs)%nat) by nia. rewrite length_take_le by (rewrite length_drop; lia). lia.
Qed.

(** The message of the host. *)
Lemma rdmo_scatter_ok send polls target data cs rk n :
  (forall msg, send msg = UCS_OK) -> (0 < cs < 2 ^ 16)%nat -> n = (length data / cs)%nat -> (0 < n)%nat ->
  Z.of_nat n * (24 + Z.of_nat cs) < 2 ^ 31 -> 0 <= target -> target + Z.of_nat (length data) < 2 ^ 64 ->
  rdmo_scatter send polls target data (Z.of_nat cs) rk
  = Ret ((scatter_header (Z.of_nat n), encode rk (chunks_of n target data cs)), DOCA_SUCCESS).
Proof.
  intros Hs Hcs Hn Hn0 Hb Ht Hl.
  assert (n * cs <= length data)%nat as Hnc by (subst n; rewrite Nat.mul_comm; apply Nat.Div0.mul_div_le).
  assert (Z.of_nat cs < 2 ^ 16) by (change (2 ^ 16) with (Z.of_nat (2 ^ 16)); lia).
  unfold rdmo_scatter. assert (negb (Z.of_nat cs =? 0) = true) as -> by (apply negb_true_iff, Z.eqb_neq; lia).
  cbn [require]. rewrite (uwrap_id 64 (Z.of_nat cs)) by (unfold in_width; lia).
  rewrite <-Nat2Z.inj_div, <-Hn, (swrap_id 32) by lia. unfold IOV_SIZE.
  rewrite (uwrap_id 64 (Z.of_nat n)), (uwrap_id 64 (24 + _)), (uwrap_id 64 (_ * _)) by (unfold in_width; nia).
  rewrite (swrap_id 32) by nia. rewrite (proj2 (Z.ltb_lt 0 _)), Z.eqb_refl by nia. cbn [andb require].
  unfold send_result. rewrite Hs. cbn [UCS_PTR_IS_ERR]. rewrite Nat2Z.id, fill_iovs_encode by lia. done.
Qed.

(** ** Completions *)

Fixpoint complete_all (env : ucx_env) (xs : list ucx_call) (w : worker) : outcome worker :=
  match xs with
  | [] => Ret w
  | x :: xs' => let* w := complete env x 0 w in complete_all env xs' w
  end.

(** A scatter that waits for [n] writes, on a client and an end-point where nothing
    else waits. *)
Record scatter_waits (w : worker) (r : Z) (q : urom_worker_rdmo_req) (n : nat) : Prop := {
  sw_req : reqs w !! r = Some q;
  sw_op : hdr_op_id (r_header q) = UROM_RDMO_OP_SCATTER;
  sw_rndv : r_rndv q = false;
  sw_stage : ctx0 q = 1;
  sw_count : ctx1 q = Z.of_nat n /\ Z.of_nat n < 2 ^ 64;
  sw_client : exists cl, clients w !! r_client q = Some cl /\ paused_ops cl = [];
  sw_ep : exists e, eps w !! r_ep q = Some e /\ fenced_ops e = [];
}.

Lemma progress_waits env w r q n :
  scatter_waits w r q n ->
  progress env r w = Ret (w, if decide (n = 0%nat) then DOCA_SUCCESS else DOCA_ERROR_IN_PROGRESS).
Proof.
  intros [Hq Hop Hrv Hst [Hc _] _ _]. unfold progress, req_at. rewrite Hq. cbn [of_option]. rewrite Hop.
  change (UROM_RDMO_OP_SCATTER =? UROM_RDMO_OP_FLUSH) with false.
  change (UROM_RDMO_OP_SCATTER =? UROM_RDMO_OP_APPEND) with false. cbv iota.
  unfold urom_worker_rdmo_scatter_progress, req_at. rewrite Hq. cbn [of_option]. rewrite Hst. cbn [Z.eqb].
  rewrite Hq. cbn [of_option]. rewrite Hst, Hc. cbn [Z.eqb andb]. case_decide as Hn.
  - by subst n.
  - by rewrite (proj2 (Z.eqb_neq (Z.of_nat n) 0)) by lia.
Qed.

(** The last completion releases the data and the request. *)
Lemma last_completion env w r q :
  scatter_waits w r q 0 ->
  exists w', urom_worker_rdmo_op_cb env r w = Ret w' /\ reqs w' = delete r (reqs w) /\ calls w' = calls w ++ [DataRelease r].
Proof.
  intros Hw. unfold urom_worker_rdmo_op_cb. rewrite (progress_waits env w r q 0 Hw).
  rewrite decide_True by done. change (bool_decide (DOCA_SUCCESS = DOCA_SUCCESS)) with true.
  destruct Hw as [Hq Hop Hrv Hst _ (cl & Hcl & Hpz) (e & He & Hfz)].
  unfold urom_worker_rdmo_req_free_data, req_at. rewrite Hq. cbn [of_option]. rewrite Hrv.
  unfold urom_worker_rdmo_req_complete, req_at. cbn [log_call reqs]. rewrite Hq. cbn [of_option].
  unfold urom_worker_rdmo_req_free, req_at, ep_at. cbn [log_call reqs eps]. rewrite Hq. cbn [of_option]. rewrite He. cbn [of_option].
  unfold urom_worker_rdmo_check_paused, client_at. cbn [set_reqs upd_ep set_eps log_call clients]. rewrite Hcl. cbn [of_option].
  rewrite Hpz. cbn [length paused_loop]. unfold client_at. cbn [set_reqs upd_ep set_eps log_call clients]. rewrite Hcl.
  cbn [of_option]. rewrite Hpz.
  match goal with |- context [if pause cl then Ret ?x else Ret ?x] => set (w2 := x) end.
  assert ((if pause cl then Ret w2 else Ret w2) = Ret w2) as -> by (by destruct (pause cl)).
  unfold urom_worker_rdmo_check_fenced, ep_at.
  assert (eps w2 !! r_ep q = Some (Ep [] (oreqs e - 1))) as ->.
  { cbn. by rewrite lookup_alter_eq, He, <-Hfz. }
  cbn [of_option fenced_ops]. change (bool_decide (@nil Z = [])) with true. rewrite orb_true_r.
  eexists. split; [reflexivity|]. by split.
Qed.

Lemma completions env r xs : forall w q,
  Forall (fun x => exists a rk d, x = PutScatter r a rk d) xs -> xs <> [] -> scatter_waits w r q (length xs) ->
  exists w', complete_all env xs w = Ret w' /\ reqs w' = delete r (reqs w) /\ calls w' = calls w ++ [DataRelease r].
Proof.
  induction xs as [|x xs IH]; intros w q Hx Hne Hw; [done|]. apply Forall_cons in Hx as [(a & rk & d & ->) Hx].
  cbn [complete_all complete]. unfold urom_worker_rdmo_scatter_op_send_cb, req_at. rewrite (sw_req _ _ _ _ Hw). cbn [of_option].
  rewrite (upd_req_Some _ _ _ q) by apply Hw. destruct (sw_count _ _ _ _ Hw) as [Hc Hb].
  cbn [length] in Hc, Hb. rewrite (uwrap_id 64) by (unfold in_width; lia).
  set (q1 := set_ctx _ _ _ q). set (w1 := set_reqs _ w).
  assert (scatter_waits w1 r q1 (length xs)) as Hw1.
  { destruct Hw. split; try done; [cbn; by rewrite lookup_insert_eq|]. cbn. lia. }
  destruct xs as [|y xs].
  - destruct (last_completion env w1 r q1 Hw1) as (w' & -> & Hr & Hcl). cbn [complete_all].
    exists w'. split; [done|]. split; [|done]. rewrite Hr. cbn. by rewrite delete_insert_eq.
  - unfold urom_worker_rdmo_op_cb. rewrite (progress_waits env w1 r q1 _ Hw1), decide_False by done.
    change (bool_decide (DOCA_ERROR_IN_PROGRESS = DOCA_SUCCESS)) with false. cbv iota.
    destruct (IH w1 q1 Hx) as (w' & -> & Hr & Hcl); [done|done|].
    exists w'. split; [done|]. split; [|done]. rewrite Hr. cbn. by rewrite delete_insert_eq.
Qed.

(** ** Arrival *)

(** The worker can take requests of client 0 from end-point [ep]. *)
Record ready (w : worker) (cl : urom_worker_rdmo_client) (ep : Z) (e : urom_worker_rdmo_ep) : Prop := {
  rd_client : clients w !! 0 = Some cl;
  rd_pause : pause cl = false /\ paused_ops cl = [];
  rd_ep : eps w !! ep = Some e;
  rd_fence : fenced_ops e = [];
  rd_fresh : reqs w !! next_req w = None;
}.

(** The worker and the request when the operation starts. *)
Definition arrived (w : worker) (ep : Z) (q : urom_worker_rdmo_req) : worker :=
  upd_ep ep (fun e => Ep (fenced_ops e) (oreqs e + 1))
    (Worker (clients w) (eps w) (mkey_heap w) (<[next_req w := q]> (reqs w)) (next_req w + 1) (memory w) (calls w)).

(** A request of the host without a fence starts at once; one that is done at once is
    freed at once. *)
Lemma am_cb_starts env w cl ep e h data :
  ready w cl ep e -> (forall l, mpool_ok env l = true) -> (12 <= length h <= UROM_RDMO_HDR_LEN_MAX)%nat ->
  hdr_id h = 0 -> hdr_op_id h <= UROM_RDMO_OP_SCATTER ->
  let q := Req 0 ep (h ++ replicate (UROM_RDMO_HDR_LEN_MAX - length h) 0) data (Z.of_nat (length data)) false ep 0 0 0 in
  is_fenced q = false ->
  urom_worker_rdmo_am_cb env h data (Z.of_nat (length data)) false ep w
  = (let* (w', s) := progress env (next_req w) (arrived w ep q) in
     if bool_decide (s = DOCA_SUCCESS)
     then let* w' := urom_worker_rdmo_req_free (next_req w) w' in Ret (w', UCS_OK) else Ret (w', UCS_INPROGRESS)).
Proof.
  intros [Hc [Hp Hpo] He Hf _] Hm Hh Hid Hop q Hq. unfold urom_worker_rdmo_am_cb, require.
  rewrite (proj2 (Z.leb_le 12 _)), Hid, Hc, He by lia. rewrite (proj2 (Z.ltb_ge _ _)), Hm by lia. cbn [negb].
  rewrite (proj2 (Nat.ltb_ge _ _)) by lia. fold q. set (w1 := Worker _ _ _ _ _ _ _).
  unfold urom_worker_rdmo_req_queue, req_at. assert (reqs w1 !! next_req w = Some q) as -> by (cbn; apply lookup_insert_eq).
  cbn [of_option]. change (r_client q) with 0. unfold client_at. change (clients w1) with (clients w). rewrite Hc. cbn [of_option].
  rewrite Hpo, Hp. change (bool_decide (@nil Z = [])) with true. cbn [negb orb].
  unfold urom_worker_rdmo_req_start, req_at. assert (reqs w1 !! next_req w = Some q) as -> by (cbn; apply lookup_insert_eq).
  cbn [of_option]. change (r_ep q) with ep. unfold ep_at. change (eps w1) with (eps w). rewrite He. cbn [of_option]. rewrite Hf, Hq.
  change (bool_decide (@nil Z = [])) with true. cbn [negb orb andb]. change (upd_ep ep _ w1) with (arrived w ep q).
  destruct (progress env (next_req w) (arrived w ep q)) as [[w' s]|]; [|done].
  case_bool_decide as Hs; [|by rewrite bool_decide_false].
  destruct (urom_worker_rdmo_req_free _ w'); [|done]. by rewrite bool_decide_true.
Qed.

(** The worker after the entries of a scatter were written. *)
Definition scattered (env : ucx_env) (w : worker) (r : Z) (q : urom_worker_rdmo_req) (new : list ucx_call) : worker :=
  Worker (clients w) (eps w) (mkey_heap w)
    (<[r := set_ctx 1 (Z.of_nat (length (started env (calls w) new))) (ctx2 q) q]> (reqs w))
    (next_req w) (memory w) (calls w ++ new).

Lemma scatter_progresses env rk k m w r q cl es :
  scatter_env env rk m -> reqs w !! r = Some q -> hdr_op_id (r_header q) = UROM_RDMO_OP_SCATTER ->
  r_rndv q = false -> ctx0 q = 0 -> ctx1 q = 0 -> scatter_count (r_header q) = Z.of_nat (length es) ->
  clients w !! r_client q = Some cl -> mkeys cl !! rk = Some k -> mkey_heap w !! k = Some m ->
  r_data q = encode rk es -> Forall (entry_fits m) es -> Z.of_nat (length es) < 2 ^ 64 ->
  let new := map (put_entry rk r) es in
  progress env r w = Ret (scattered env w r q new,
    if decide (started env (calls w) new = []) then DOCA_SUCCESS else DOCA_ERROR_IN_PROGRESS).
Proof.
  intros Hs Hq Hop Hrv Hc0 Hc1 Hn Hc Hk Hm Hd Hf Hl new.
  unfold progress, req_at. rewrite Hq. cbn [of_option]. rewrite Hop.
  change (UROM_RDMO_OP_SCATTER =? UROM_RDMO_OP_FLUSH) with false.
  change (UROM_RDMO_OP_SCATTER =? UROM_RDMO_OP_APPEND) with false. cbv iota.
  unfold urom_worker_rdmo_scatter_progress, req_at. rewrite Hq. cbn [of_option]. rewrite Hc0. cbn [Z.eqb]. rewrite Hrv, Hn, Nat2Z.id.
  assert (scatter_loop env (length es) r 0 None w = Ret (after_puts env w r q new, None)) as ->.
  { apply (scatter_loop_ok env rk k m es w r q cl [] None); (done || lia || by left). }
  assert (upd_req r (set_stage 1) (after_puts env w r q new) = scattered env w r q new) as ->.
  { rewrite (upd_req_Some r _ _ _) by (cbn; by rewrite lookup_insert_eq). unfold scattered, after_puts. cbn.
    by rewrite insert_insert_eq, Hc1, Z.add_0_l. }
  assert (reqs (scattered env w r q new) !! r
    = Some (set_ctx 1 (Z.of_nat (length (started env (calls w) new))) (ctx2 q) q)) as -> by (cbn; apply lookup_insert_eq).
  cbn [of_option ctx0 ctx1 set_ctx Z.eqb andb]. case_decide as E; [by rewrite E|].
  destruct (started env (calls w) new); [done|]. by cbn [length].
Qed.

Lemma started_scatter env rk r es : forall old,
  Forall (fun x => exists a rk' d, x = PutScatter r a rk' d) (started env old (map (put_entry rk r) es)).
Proof.
  induction es as [|[a d] es IH]; intros old; cbn [map started]; [constructor|].
  apply Forall_app. split; [|apply IH]. case_if; repeat constructor. unfold put_entry. eauto.
Qed.

(** The request object of a scatter of the host. *)
Definition scatter_req (rk ep : Z) (es : list (Z * list Z)) : urom_worker_rdmo_req :=
  let h := scatter_header (Z.of_nat (length es)) in
  Req 0 ep (h ++ replicate (UROM_RDMO_HDR_LEN_MAX - length h) 0) (encode rk es) (Z.of_nat (length (encode rk es))) false ep 0 0 0.

Definition scatter_arrived (env : ucx_env) (w : worker) (rk ep : Z) (es : list (Z * list Z)) : worker :=
  scattered env (arrived w ep (scatter_req rk ep es)) (next_req w) (scatter_req rk ep es) (map (put_entry rk (next_req w)) es).

Lemma scatter_arrives env rk k m w cl ep e es :
  scatter_env env rk m -> ready w cl ep e -> mkeys cl !! rk = Some k -> mkey_heap w !! k = Some m ->
  Forall (entry_fits m) es -> in_width 64 (Z.of_nat (length es)) ->
  urom_worker_rdmo_am_cb env (scatter_header (Z.of_nat (length es))) (encode rk es) (Z.of_nat (length (encode rk es))) false ep w
  = (if decide (started env (calls w) (map (put_entry rk (next_req w)) es) = [])
     then let* w' := urom_worker_rdmo_req_free (next_req w) (scatter_arrived env w rk ep es) in Ret (w', UCS_OK)
     else Ret (scatter_arrived env w rk ep es, UCS_INPROGRESS)).
Proof.
  intros Hs Hr Hk Hm Hf Hw. set (h := scatter_header (Z.of_nat (length es))). set (q := scatter_req rk ep es).
  destruct (scatter_header_fields (Z.of_nat (length es)) (replicate (UROM_RDMO_HDR_LEN_MAX - length h) 0) Hw) as (Hid & Hop & Hfl & Hcnt).
  assert (is_fenced q = false) as Hfen by (unfold is_fenced; cbn [r_header q scatter_req]; unfold h in Hfl; by rewrite Hfl).
  assert ((12 <= length h <= UROM_RDMO_HDR_LEN_MAX)%nat) as Hhl
    by (change (length h) with 20%nat; unfold UROM_RDMO_HDR_LEN_MAX; lia).
  rewrite (am_cb_starts env w cl ep e h (encode rk es) Hr (se_mpool _ _ _ Hs) Hhl eq_refl)
    by (done || (change (hdr_op_id h) with UROM_RDMO_OP_SCATTER; lia)).
  match goal with |- context [arrived w ep ?x] => change x with q end.
  rewrite (scatter_progresses env rk k m (arrived w ep q) (next_req w) q cl es);
    try done; [|cbn; apply lookup_insert_eq|apply Hr|unfold in_width in Hw; lia].
  change (calls (arrived w ep q)) with (calls w). by destruct (decide (started _ _ _ = [])).
Qed.

Lemma arrived_reqs env w rk ep es :
  reqs (scatter_arrived env w rk ep es)
  = <[next_req w := set_ctx 1 (Z.of_nat (length (started env (calls w) (map (put_entry rk (next_req w)) es)))) 0
                      (scatter_req rk ep es)]> (reqs w).
Proof. cbn. by rewrite insert_insert_eq. Qed.

(** Done at once: the request is freed. *)
Lemma scatter_freed env w cl rk ep e es :
  ready w cl ep e ->
  exists w', urom_worker_rdmo_req_free (next_req w) (scatter_arrived env w rk ep es) = Ret w'
    /\ reqs w' = reqs w /\ calls w' = calls w ++ map (put_entry rk (next_req w)) es.
Proof.
  intros [_ _ He _ Hfresh]. unfold urom_worker_rdmo_req_free, req_at, ep_at. rewrite arrived_reqs, lookup_insert_eq.
  cbn [of_option r_ep set_ctx scatter_req]. cbn [scatter_arrived scattered arrived upd_ep set_eps eps].
  rewrite lookup_alter_eq, He. cbn [of_option fmap option_fmap option_map].
  eexists. split; [reflexivity|]. split; [|done]. cbn. by rewrite insert_insert_eq, delete_insert_id.
Qed.

(** In progress: the request waits for the writes that were started. *)
Lemma scatter_waiting env w cl rk ep e es :
  ready w cl ep e -> in_width 64 (Z.of_nat (length es)) ->
  let new := map (put_entry rk (next_req w)) es in
  scatter_waits (scatter_arrived env w rk ep es) (next_req w)
    (set_ctx 1 (Z.of_nat (length (started env (calls w) new))) 0 (scatter_req rk ep es)) (length (started env (calls w) new)).
Proof.
  intros [Hc [_ Hpz] He Hf _] Hw new. split; try done.
  - by rewrite arrived_reqs, lookup_insert_eq.
  - split; [done|]. pose proof (started_length env (calls w) new) as Hl. unfold new in Hl at 2. rewrite length_map in Hl.
    unfold in_width in Hw. lia.
  - by exists cl.
  - exists (Ep [] (oreqs e + 1)). split; [|done]. cbn. by rewrite lookup_alter_eq, He, <-Hf.
Qed.

(** ** The theorem about scatters *)

(** C25: A scatter of the host reaches the memory of the target: the worker writes
    exactly the chunks the host cut, the i-th behind the i-1 before it, and the request
    ends when its writes have completed, in whatever order they do. This is for chunks
    below 64 KiB (the field that holds their length has 16 bits), a region the worker
    has not mapped itself and that holds the whole range, puts and sends that do not
    fail, an idle client without a fence, and a message that arrives whole. *)
Theorem scatter_delivers send polls env rk k m w cl ep e target data cs n :
  scatter_env env rk m -> ready w cl ep e -> mkeys cl !! rk = Some k -> mkey_heap w !! k = Some m ->
  (forall msg, send msg = UCS_OK) -> (0 < cs < 2 ^ 16)%nat -> n = (length data / cs)%nat -> (0 < n)%nat ->
  Z.of_nat n * (24 + Z.of_nat cs) < 2 ^ 31 ->
  0 <= va m <= target -> target + Z.of_nat (length data) <= va m + mk_len m < 2 ^ 64 ->
  exists msg w' s new, rdmo_scatter send polls target data (Z.of_nat cs) rk = Ret (msg, DOCA_SUCCESS)
    /\ urom_worker_rdmo_am_cb env msg.1 msg.2 (Z.of_nat (length msg.2)) false ep w = Ret (w', s)
    /\ calls w' = calls w ++ new /\ length new = n
    /\ (forall i, (i < n)%nat -> new !! i = Some (PutScatter (next_req w) (target + Z.of_nat (i * cs)) rk
                                                  (take cs (drop (i * cs) data))))
    /\ (started env (calls w) new = [] -> s = UCS_OK /\ reqs w' = reqs w)
    /\ (started env (calls w) new <> [] -> s = UCS_INPROGRESS
        /\ forall xs, xs ≡ₚ started env (calls w) new ->
           exists w2, complete_all env xs w' = Ret w2 /\ reqs w2 = reqs w
             /\ calls w2 = calls w' ++ [DataRelease (next_req w)]).
Proof.
  intros Hs Hr Hk Hm Hsend Hcs Hn Hn0 Hb Hv Ht.
  assert (n * cs <= length data)%nat as Hnc by (subst n; rewrite Nat.mul_comm; apply Nat.Div0.mul_div_le).
  assert (Z.of_nat cs < 2 ^ 16) by (change (2 ^ 16) with (Z.of_nat (2 ^ 16)); lia).
  pose proof (length_chunks_of n target data cs) as Hlen. set (es := chunks_of n target data cs) in *.
  set (new := map (put_entry rk (next_req w)) es).
  assert (in_width 64 (Z.of_nat (length es))) as Hw by (unfold in_width; nia).
  assert (forall i, (i < n)%nat -> new !! i = Some (PutScatter (next_req w) (target + Z.of_nat (i * cs)) rk
                                                  (take cs (drop (i * cs) data)))) as Hnew.
  { intros i Hi. unfold new. change (map ?f ?l) with (f <$> l). rewrite list_lookup_fmap. unfold es.
    by rewrite chunks_of_lookup by done. }
  pose proof (scatter_arrives env rk k m w cl ep e es Hs Hr Hk Hm) as Ham. fold new in Ham. rewrite Hlen in Ham.
  specialize (Ham ltac:(apply chunks_of_fit; (done || lia)) ltac:(by rewrite <-Hlen)).
  exists (scatter_header (Z.of_nat n), encode rk es). cbn [fst snd]. rewrite Ham.
  rewrite (rdmo_scatter_ok send polls target data cs rk n) by (done || lia).
  destruct (decide (started env (calls w) new = [])) as [E|E].
  - destruct (scatter_freed env w cl rk ep e es Hr) as (w' & -> & Hreq & Hcalls).
    exists w', UCS_OK, new. split_and!; try done. unfold new. by rewrite length_map.
  - eexists _, UCS_INPROGRESS, new. split; [done|]. split; [done|]. split; [done|].
    split; [unfold new; by rewrite length_map|]. split; [done|]. split; [done|]. intros _. split; [done|].
    intros xs Hxs. pose proof (scatter_waiting env w cl rk ep e es Hr Hw) as Hwait. cbv zeta in Hwait. fold new in Hwait.
    rewrite <-(Permutation_length Hxs) in Hwait at 2.
    edestruct (completions env (next_req w) xs) as (w' & Hall & Hr' & Hc'); [| |exact Hwait|].
    + rewrite Hxs. apply started_scatter.
    + intros ->. by apply Permutation_nil_l in Hxs.
    + exists w'. split; [done|]. split; [|done]. rewrite Hr', arrived_reqs, delete_insert_id; [done|]. apply Hr.
Qed.

(** The number of entries in the header is not checked against the payload: the loop
    of the worker reads behind the message. *)
Theorem scatter_count_unchecked env w cl ep e h data :
  ready w cl ep e -> (forall l, mpool_ok env l = true) -> (20 <= length h <= UROM_RDMO_HDR_LEN_MAX)%nat ->
  hdr_id h = 0 -> hdr_op_id h = UROM_RDMO_OP_SCATTER -> hdr_flags h = 0 -> 0 < scatter_count h ->
  Z.of_nat (length data) < IOV_SIZE ->
  urom_worker_rdmo_am_cb env h data (Z.of_nat (length data)) false ep w = Undef OutOfBounds.
Proof.
  intros Hr Hmp Hl Hid Hop Hfl Hcnt Hd. rewrite (am_cb_starts env w cl ep e h data Hr Hmp) by (done || lia ||
    (unfold is_fenced, hdr_flags in *; cbn [r_header]; by rewrite load_pad, Hfl by lia)).
  set (q := Req _ _ _ _ _ _ _ _ _ _).
  assert (reqs (arrived w ep q) !! next_req w = Some q) as Hq by (cbn; apply lookup_insert_eq).
  unfold progress, req_at. rewrite Hq. cbn [of_option].
  assert (hdr_op_id (r_header q) = UROM_RDMO_OP_SCATTER) as -> by (unfold hdr_op_id in *; cbn [r_header q]; by rewrite load_pad by lia).
  change (UROM_RDMO_OP_SCATTER =? UROM_RDMO_OP_FLUSH) with false.
  change (UROM_RDMO_OP_SCATTER =? UROM_RDMO_OP_APPEND) with false. cbv iota.
  unfold urom_worker_rdmo_scatter_progress, req_at. rewrite Hq. cbn [of_option ctx0 r_rndv q Z.eqb].
  assert (scatter_count (r_header q) = scatter_count h) as -> by (unfold scatter_count; cbn [r_header q]; by rewrite load_pad by lia).
  destruct (Z.to_nat (scatter_count h)) eqn:En; [lia|]. cbn [scatter_loop]. unfold req_at at 1. rewrite Hq. cbn [of_option].
  unfold client_at at 1. cbn [q r_client arrived upd_ep set_eps clients]. rewrite (rd_client _ _ _ _ Hr). cbn [of_option r_data].
  change (r_data q) with data. unfold require at 1. by rewrite (proj2 (Z.leb_gt (0 + IOV_SIZE) _)) by lia.
Qed.

(** An append of the host is an append of the queue theorem. *)
Lemma host_append_header send polls ptr data rkey msg e :
  in_width 64 ptr -> in_width 64 rkey -> rdmo_append send polls ptr data rkey = Ret (msg, e) ->
  append_header 0 ptr rkey msg.1 /\ msg.2 = data.
Proof.
  intros Hp Hr H. unfold rdmo_append in H. set (h := rdmo_hdr _ _ ++ _) in H.
  obind H. injection H as <- _. cbn [fst snd]. split; [|done].
  unfold append_header, ptr_addr, ptr_rkey, data_rkey, h.
  split; [rewrite !length_app, !length_le_bytes; unfold UROM_RDMO_HDR_LEN_MAX; cbn; lia|].
  split_and!; try reflexivity.
  - by apply load_word.
  - rewrite (app_assoc (rdmo_hdr _ _)). by apply load_word.
  - rewrite (app_assoc (le_bytes 8 ptr)), (app_assoc (rdmo_hdr _ _)).
    rewrite <-(app_nil_r (_ ++ le_bytes 8 rkey)), <-app_assoc. by apply load_word.
Qed.

(** ** Concrete messages *)

Definition sample_host_worker : worker :=
  Worker {[0 := Client sample_conn 8 {[500 := 50]} [] false]} {[9 := Ep [] 0]} {[50 := sample_mkey]} ∅ 3 (fun _ => 0) [].

Lemma sample_ready : ready sample_host_worker (Client sample_conn 8 {[500 := 50]} [] false) 9 (Ep [] 0).
Proof. by split. Qed.

(** Every second write completes later. *)
Definition scatter_sample_env : ucx_env := {|
  answer l _ := if Nat.even (length l) then UCS_INPROGRESS else UCS_OK;
  ucp_rkey_ptr _ _ := false;
  kh_put_ok _ := true;
  mpool_ok _ := true;
  kh_walk A t := map_to_list t;
|}.

Lemma scatter_sample_env_ok : scatter_env scatter_sample_env 500 sample_mkey.
Proof.
  split; try done. intros l r a d. cbn. destruct (Nat.even (length l)); auto.
Qed.

Lemma scatter_delivers_witness :
  exists msg w' s new, rdmo_scatter (fun _ => UCS_OK) [] 1200 [1; 2; 3; 4; 5; 6; 7] 2 500 = Ret (msg, DOCA_SUCCESS)
    /\ urom_worker_rdmo_am_cb scatter_sample_env msg.1 msg.2 (Z.of_nat (length msg.2)) false 9 sample_host_worker = Ret (w', s)
    /\ calls w' = calls sample_host_worker ++ new /\ length new = 3%nat
    /\ (forall i, (i < 3)%nat -> new !! i = Some (PutScatter 3 (1200 + Z.of_nat (i * 2)) 500
                                                  (take 2 (drop (i * 2) [1; 2; 3; 4; 5; 6; 7]))))
    /\ (started scatter_sample_env (calls sample_host_worker) new = [] -> s = UCS_OK /\ reqs w' = reqs sample_host_worker)
    /\ (started scatter_sample_env (calls sample_host_worker) new <> [] -> s = UCS_INPROGRESS
        /\ forall xs, xs ≡ₚ started scatter_sample_env (calls sample_host_worker) new ->
           exists w2, complete_all scatter_sample_env xs w' = Ret w2 /\ reqs w2 = reqs sample_host_worker
             /\ calls w2 = calls w' ++ [DataRelease 3]).
Proof.
  apply (scatter_delivers (fun _ => UCS_OK) [] scatter_sample_env 500 50 sample_mkey sample_host_worker
           (Client sample_conn 8 {[500 := 50]} [] false) 9 (Ep [] 0) 1200 [1; 2; 3; 4; 5; 6; 7] 2 3); try reflexivity.
  - exact scatter_sample_env_ok.
  - exact sample_ready.
  - change (2 ^ 16)%nat with (Z.to_nat 65536). lia.
  - lia.
  - cbn. lia.
  - cbn. lia.
Defined.

Lemma scatter_count_unchecked_witness :
  urom_worker_rdmo_am_cb scatter_sample_env (scatter_header 5) [1; 2; 3] 3 false 9 sample_host_worker = Undef OutOfBounds.
Proof.
  apply (scatter_count_unchecked scatter_sample_env sample_host_worker (Client sample_conn 8 {[500 := 50]} [] false) 9 (Ep [] 0)
           (scatter_header 5) [1; 2; 3]); try reflexivity.
  - exact sample_ready.
  - change (length (scatter_header 5)) with 20%nat. unfold UROM_RDMO_HDR_LEN_MAX. lia.
Defined.
