(* ===== verification/RdmoCmd.v ===== *)
(** * Remote direct memory operations: the commands of the host

    The control path of applications/urom_rdmo: the tasks of host/worker_rdmo.c (build
    and pack a command, unpack its notification and run the user's callback) and the
    command handlers of dpu/worker_rdmo.c (unpack, keep the tables of clients,
    end-points, receive queues and memory regions that the engine of [Rdmo] works on,
    queue a notification).

    A pointer inside a command is its numeric value and the bytes readable there.  What
    the allocator, the hash tables and UCX answer while a command is handled is
    the record [cmd_answers].  The UROM library carries the payload of a task to
    the plugin of the DPU and the notification back. *)
From S2P Require Import Prelude Rdmo.

(** ** Commands *)

Record cptr : Type := CPtr { p_num : Z; p_mem : list Z }.

Definition NULL : cptr := CPtr 0 [].

Definition UROM_WORKER_CMD_RDMO_CLIENT_INIT : Z := 0.
Definition UROM_WORKER_CMD_RDMO_RQ_CREATE : Z := 1.
Definition UROM_WORKER_CMD_RDMO_RQ_DESTROY : Z := 2.
Definition UROM_WORKER_CMD_RDMO_MR_REG : Z := 3.
Definition UROM_WORKER_CMD_RDMO_MR_DEREG : Z := 4.

Inductive urom_worker_rdmo_cmd : Type :=
| CmdClientInit (id : Z) (addr : cptr) (addr_len : Z)
| CmdRqCreate (addr : cptr) (addr_len : Z)
| CmdRqDestroy (rq_id : Z)
| CmdMrReg (va len : Z) (packed_rkey : cptr) (packed_rkey_len : Z) (packed_memh : cptr) (packed_memh_len : Z)
| CmdMrDereg (rkey : Z)
| CmdOther (type : Z).

Definition cmd_type (c : urom_worker_rdmo_cmd) : Z :=
  match c with
  | CmdClientInit _ _ _ => UROM_WORKER_CMD_RDMO_CLIENT_INIT
  | CmdRqCreate _ _ => UROM_WORKER_CMD_RDMO_RQ_CREATE
  | CmdRqDestroy _ => UROM_WORKER_CMD_RDMO_RQ_DESTROY
  | CmdMrReg _ _ _ _ _ _ => UROM_WORKER_CMD_RDMO_MR_REG
  | CmdMrDereg _ => UROM_WORKER_CMD_RDMO_MR_DEREG
  | CmdOther t => t
  end.

(** [sizeof(struct urom_worker_rdmo_cmd)]: the type and the largest member of the union. *)
Definition SIZEOF_CMD : nat := 56.

(** The members of a command, written into a buffer. *)
Definition store_cmd (c : urom_worker_rdmo_cmd) (buf : list Z) : list Z :=
  let buf := store 0 8 (cmd_type c) buf in
  match c with
  | CmdClientInit id addr addr_len => store 24 8 addr_len (store 16 8 (p_num addr) (store 8 8 id buf))
  | CmdRqCreate addr addr_len => store 16 8 addr_len (store 8 8 (p_num addr) buf)
  | CmdRqDestroy rq_id => store 8 8 rq_id buf
  | CmdMrReg va len rk rk_len mh mh_len =>
      store 48 8 mh_len (store 40 8 (p_num mh) (store 32 8 rk_len (store 24 8 (p_num rk)
        (store 16 8 len (store 8 8 va buf)))))
  | CmdMrDereg rkey => store 8 8 rkey buf
  | CmdOther _ => buf
  end.

(** ** Packing, on the host *)

Definition urom_worker_rdmo_cmd_packed_len (c : urom_worker_rdmo_cmd) : Z :=
  let pack_len := Z.of_nat SIZEOF_CMD in
  match c with
  | CmdClientInit _ _ addr_len => u64 (pack_len + addr_len)
  | CmdRqCreate _ addr_len => u64 (pack_len + addr_len)
  | CmdMrReg _ _ _ rk_len _ mh_len => u64 (u64 (pack_len + rk_len) + mh_len)
  | _ => pack_len
  end.

(** [memcpy(pack_head, p, len)] at the position [pos] of the buffer. *)
Definition pack_inline (p : cptr) (len : Z) (pos : nat) (buf : list Z) : outcome (list Z) :=
  let n := Z.to_nat len in
  let* _ := require ((n <=? length (p_mem p)) && (pos + n <=? length buf))%nat OutOfBounds in
  Ret (take pos buf ++ take n (p_mem p) ++ drop (pos + n) buf).

(** The command is packed in place: the base structure is copied onto itself.  The
    length stays as it was when the buffer is too small. *)
Definition urom_worker_rdmo_cmd_pack (c : urom_worker_rdmo_cmd) (packed_cmd_len : Z) (buf : list Z)
    : outcome (list Z * Z * doca_error_t) :=
  if packed_cmd_len <? urom_worker_rdmo_cmd_packed_len c then Ret (buf, packed_cmd_len, DOCA_ERROR_INITIALIZATION)
  else
    let len := Z.of_nat SIZEOF_CMD in
    match c with
    | CmdClientInit _ addr addr_len | CmdRqCreate addr addr_len =>
        let* buf := pack_inline addr addr_len SIZEOF_CMD buf in Ret (buf, u64 (len + addr_len), DOCA_SUCCESS)
    | CmdMrReg _ _ rk rk_len mh mh_len =>
        let* buf := pack_inline rk rk_len SIZEOF_CMD buf in
        let* buf := pack_inline mh mh_len (SIZEOF_CMD + Z.to_nat rk_len)%nat buf in
        Ret (buf, u64 (u64 (len + rk_len) + mh_len), DOCA_SUCCESS)
    | _ => Ret (buf, len, DOCA_SUCCESS)
    end.

(** What the UROM library answers when a task is built: its payload buffer holds
    whatever was there before. *)
Record task_env : Type := TaskEnv {
  t_alloc : doca_error_t; t_payload : list Z; t_get_data : doca_error_t; t_get_len : doca_error_t; t_submit : doca_error_t
}.

(** The common body of the five [urom_rdmo_task_*]: the payload that was submitted. *)
Definition submit_cmd (t : task_env) (c : urom_worker_rdmo_cmd) : outcome (option (list Z) * doca_error_t) :=
  if negb (bool_decide (t_alloc t = DOCA_SUCCESS)) then Ret (None, t_alloc t)
  else if negb (bool_decide (t_get_data t = DOCA_SUCCESS)) then Ret (None, t_get_data t)
  else if negb (bool_decide (t_get_len t = DOCA_SUCCESS)) then Ret (None, t_get_len t)
  else
    let* _ := require (SIZEOF_CMD <=? length (t_payload t))%nat OutOfBounds in
    let buf := store_cmd c (t_payload t) in
    let* (x, _) := urom_worker_rdmo_cmd_pack c (Z.of_nat (length (t_payload t))) buf in
    let '(buf, pack_len) := x in
    if bool_decide (t_submit t = DOCA_SUCCESS) then Ret (Some (take (Z.to_nat pack_len) buf), DOCA_SUCCESS)
    else Ret (None, t_submit t).

Definition urom_rdmo_task_client_init (t : task_env) (id : Z) (addr : cptr) (addr_len : Z) :=
  submit_cmd t (CmdClientInit id addr addr_len).
Definition urom_rdmo_task_rq_create (t : task_env) (addr : cptr) (addr_len : Z) :=
  submit_cmd t (CmdRqCreate addr addr_len).
Definition urom_rdmo_task_rq_destroy (t : task_env) (rq_id : Z) := submit_cmd t (CmdRqDestroy rq_id).
Definition urom_rdmo_task_mr_register (t : task_env) (va len : Z) (rkey : cptr) (rkey_len : Z) (memh : cptr) (memh_len : Z) :=
  submit_cmd t (CmdMrReg va len rkey rkey_len memh memh_len).
Definition urom_rdmo_task_mr_deregister (t : task_env) (rkey_id : Z) := submit_cmd t (CmdMrDereg rkey_id).

(** ** Unpacking, on the DPU *)

(** The descriptor of a command: the header of the UROM command and the plugin's part
    at the address [cd_base]. *)
Record urom_worker_cmd_desc : Type := CmdDesc {
  cd_dest_id : Z; cd_type : Z; cd_urom_context : Z; cd_len : Z; cd_base : Z; cd_plugin_cmd : list Z
}.

Definition urom_worker_rdmo_cmd_unpack (d : urom_worker_cmd_desc) : outcome (res urom_worker_rdmo_cmd) :=
  if cd_len d <? Z.of_nat SIZEOF_CMD then Ret (Err DOCA_ERROR_INVALID_VALUE)
  else
    let b := cd_plugin_cmd d in
    let* _ := require (SIZEOF_CMD <=? length b)%nat OutOfBounds in
    let ptr n := CPtr (cd_base d + Z.of_nat n) (drop n b) in
    let type := load 0 8 b in
    let '(cmd, extended_mem) :=
      if type =? UROM_WORKER_CMD_RDMO_CLIENT_INIT then
        (CmdClientInit (load 8 8 b) (ptr SIZEOF_CMD) (load 24 8 b), load 24 8 b)
      else if type =? UROM_WORKER_CMD_RDMO_RQ_CREATE then
        (CmdRqCreate (ptr SIZEOF_CMD) (load 16 8 b), load 16 8 b)
      else if type =? UROM_WORKER_CMD_RDMO_RQ_DESTROY then (CmdRqDestroy (load 8 8 b), 0)
      else if type =? UROM_WORKER_CMD_RDMO_MR_REG then
        (CmdMrReg (load 8 8 b) (load 16 8 b) (ptr SIZEOF_CMD) (load 32 8 b)
           (ptr (SIZEOF_CMD + Z.to_nat (load 32 8 b))%nat) (load 48 8 b), u64 (load 32 8 b + load 48 8 b))
      else if type =? UROM_WORKER_CMD_RDMO_MR_DEREG then (CmdMrDereg (load 8 8 b), 0)
      else (CmdOther type, 0) in
    if negb (cd_len d =? u64 (extended_mem + Z.of_nat SIZEOF_CMD)) then Ret (Err DOCA_ERROR_INVALID_VALUE)
    else Ret (Ok cmd).

(** ** Handling, on the DPU *)

Definition UROM_WORKER_NOTIFY_RDMO_CLIENT_INIT : Z := 0.
Definition UROM_WORKER_NOTIFY_RDMO_RQ_CREATE : Z := 1.
Definition UROM_WORKER_NOTIFY_RDMO_RQ_DESTROY : Z := 2.
Definition UROM_WORKER_NOTIFY_RDMO_MR_REG : Z := 3.
Definition UROM_WORKER_NOTIFY_RDMO_MR_DEREG : Z := 4.

Inductive urom_worker_notify_rdmo : Type :=
| NotifyClientInit (addr : cptr) (addr_len : Z)
| NotifyRqCreate (rq_id : Z)
| NotifyRqDestroy (rq_id : Z)
| NotifyMrReg (rkey : Z)
| NotifyMrDereg (rkey : Z).

Definition SIZEOF_NOTIFY : nat := 24.

Record urom_worker_notif_desc : Type := NotifDesc {
  nd_dest_id : Z; nd_type : Z; nd_urom_context : Z; nd_len : Z; nd_status : doca_error_t; nd_notif : urom_worker_notify_rdmo
}.

(** The plugin: the worker of the engine, the notifications that wait to be collected
    and the address of the UCX worker. *)
Record rdmo_plugin : Type := Plugin {
  engine : worker; completed_reqs : list urom_worker_notif_desc; worker_address : cptr; ucp_addrlen : Z
}.

Definition set_engine (w : worker) (p : rdmo_plugin) : rdmo_plugin :=
  Plugin w (completed_reqs p) (worker_address p) (ucp_addrlen p).
Definition push_notif (n : urom_worker_notif_desc) (p : rdmo_plugin) : rdmo_plugin :=
  Plugin (engine p) (completed_reqs p ++ [n]) (worker_address p) (ucp_addrlen p).

Inductive map_answer : Type := MapOk | MapUnreachable | MapError.

(** The bucket of one table that an iterator of another designates. *)
Inductive bucket : Type := EmptyBucket | BucketOf (key : Z) | NoBucket.

(** What the allocator, the tables and UCX answer while a command is handled. *)
Record cmd_answers : Type := Answers {
  nd_alloc : bool;                    (** notification *)
  obj_alloc : bool;                   (** client, receive queue or region *)
  ep_alloc : bool;                    (** end-point *)
  ep_create : list Z -> option Z;     (** [ucp_ep_create] *)
  ep_grow : bool;                     (** the table of end-points *)
  mkeys_init : bool; rqs_init : bool; cache_init : bool;
  put_grow : bool;                    (** the table of clients, queues or regions *)
  rkey_unpack : list Z -> option Z;   (** [ucp_ep_rkey_unpack] *)
  mem_map : list Z -> map_answer;     (** [ucp_mem_map] *)
  mem_unmap_ok : bool; ep_close_ok : bool;
  mkey_address : Z;                   (** where a region object is allocated *)
  other_bucket : bucket
}.

(** [kh_put(..., &ret); ret > 0]: the table could grow and the key was not there. *)
Definition kh_put_new {A} (grow : bool) (key : Z) (t : gmap Z A) : bool :=
  grow && bool_decide (t !! key = None).

Section handlers.
Context (env : ucx_env) (a : cmd_answers).

Definition urom_worker_rdmo_ep_get (peer_addr : cptr) (w : worker) : worker * res Z :=
  if negb (ep_alloc a) then (w, Err DOCA_ERROR_NO_MEMORY)
  else match ep_create a (p_mem peer_addr) with
       | None => (w, Err DOCA_ERROR_DRIVER)
       | Some h =>
           if negb (kh_put_new (ep_grow a) h (eps w)) then (w, Err DOCA_ERROR_DRIVER)
           else (set_eps (<[h := Ep [] 0]> (eps w)) w, Ok h)
       end.

(** The client of a channel, with its id. *)
Definition urom_worker_rdmo_dest_to_client (w : worker) (dest : Z) : option (Z * urom_worker_rdmo_client) :=
  List.find (fun x => dest_id (c_conn (snd x)) =? dest) (kh_walk env _ (clients w)).

Definition set_conn (f : client_conn -> client_conn) (c : urom_worker_rdmo_client) : urom_worker_rdmo_client :=
  Client (f (c_conn c)) (c_ep c) (mkeys c) (paused_ops c) (pause c).
Definition set_client_mkeys (f : gmap Z Z -> gmap Z Z) (c : urom_worker_rdmo_client) : urom_worker_rdmo_client :=
  Client (c_conn c) (c_ep c) (f (mkeys c)) (paused_ops c) (pause c).
Definition set_rqs (f : gmap Z Z -> gmap Z Z) (c : client_conn) : client_conn :=
  Conn (dest_id c) (f (rqs c)) (next_rq_id c).

(** A notification with the header of its command. *)
Definition notif_for (d : urom_worker_cmd_desc) (len : Z) (status : doca_error_t) (n : urom_worker_notify_rdmo)
    : urom_worker_notif_desc :=
  NotifDesc (cd_dest_id d) (cd_type d) (cd_urom_context d) len status n.

Definition urom_worker_rdmo_client_init_cmd (d : urom_worker_cmd_desc) (id : Z) (addr : cptr) (p : rdmo_plugin)
    : rdmo_plugin * doca_error_t :=
  if negb (nd_alloc a) then (p, DOCA_ERROR_NO_MEMORY)
  else
    let len := u64 (Z.of_nat SIZEOF_NOTIFY + ucp_addrlen p) in
    let body := NotifyClientInit (worker_address p) (ucp_addrlen p) in
    let push_err status p := (push_notif (notif_for d len status body) p, status) in
    match urom_worker_rdmo_dest_to_client (engine p) (cd_dest_id d) with
    | Some _ => push_err DOCA_ERROR_ALREADY_EXIST p
    | None =>
        match clients (engine p) !! id with
        | Some _ => (p, DOCA_ERROR_IN_USE)
        | None =>
            if negb (obj_alloc a) then push_err DOCA_ERROR_NO_MEMORY p
            else
              let '(w, r) := urom_worker_rdmo_ep_get addr (engine p) in
              let p := set_engine w p in
              match r with
              | Err e => push_err e p
              | Ok h =>
                  if negb (mkeys_init a) then push_err DOCA_ERROR_INITIALIZATION p
                  else if negb (rqs_init a) then push_err DOCA_ERROR_INITIALIZATION p
                  else if negb (kh_put_new (put_grow a) id (clients w)) then push_err DOCA_ERROR_DRIVER p
                  else
                    let c := Client (Conn (cd_dest_id d) ∅ 0) h ∅ [] false in
                    let p := set_engine (set_clients (<[id := c]> (clients w)) w) p in
                    (push_notif (notif_for d len DOCA_SUCCESS body) p, DOCA_SUCCESS)
              end
        end
    end.

(** [kh_del(rq, client->rqs, k)] with the iterator of another table. *)
Definition delete_bucket (b : bucket) (c : Z) (w : worker) : outcome worker :=
  match b with
  | EmptyBucket => Ret w
  | BucketOf rq => Ret (upd_client c (set_conn (set_rqs (delete rq))) w)
  | NoBucket => Undef OutOfBounds
  end.

Definition urom_worker_rdmo_mr_dereg_cmd (d : urom_worker_cmd_desc) (rkey : Z) (p : rdmo_plugin)
    : outcome (rdmo_plugin * doca_error_t) :=
  match urom_worker_rdmo_dest_to_client (engine p) (cd_dest_id d) with
  | None => Ret (p, DOCA_ERROR_NOT_FOUND)
  | Some (c, cl) =>
      let* (w, status) :=
        match mkeys cl !! rkey with
        | None => Ret (engine p, DOCA_ERROR_NOT_FOUND)
        | Some k =>
            let* m := mkey_at k (engine p) in
            if ucp_memh m && negb (mem_unmap_ok a) then Ret (engine p, DOCA_ERROR_DRIVER)
            else
              let w := upd_client c (set_client_mkeys (delete rkey)) (engine p) in
              Ret (set_mkeys (delete k (mkey_heap w)) w, DOCA_SUCCESS)
        end in
      if negb (nd_alloc a) then
        let* w := delete_bucket (other_bucket a) c w in Ret (set_engine w p, DOCA_ERROR_NO_MEMORY)
      else
        let n := notif_for d (Z.of_nat SIZEOF_NOTIFY) status (NotifyMrDereg rkey) in
        Ret (push_notif n (set_engine w p), status)
  end.

Definition urom_worker_rdmo_rq_create_cmd (d : urom_worker_cmd_desc) (addr : cptr) (p : rdmo_plugin)
    : rdmo_plugin * doca_error_t :=
  if negb (nd_alloc a) then (p, DOCA_ERROR_NO_MEMORY)
  else
    let push status rq_id p :=
      (push_notif (notif_for d (Z.of_nat SIZEOF_NOTIFY) status (NotifyRqCreate rq_id)) p, status) in
    match urom_worker_rdmo_dest_to_client (engine p) (cd_dest_id d) with
    | None => push DOCA_ERROR_NOT_FOUND 0 p
    | Some (c, cl) =>
        if negb (obj_alloc a) then push DOCA_ERROR_NO_MEMORY 0 p
        else
          let id := next_rq_id (c_conn cl) in
          let bump := set_conn (fun cn => Conn (dest_id cn) (rqs cn) (u64 (id + 1))) in
          let w := upd_client c bump (engine p) in
          if negb (kh_put_new (put_grow a) id (rqs (c_conn cl))) then push DOCA_ERROR_DRIVER 0 (set_engine w p)
          else
            let '(w, r) := urom_worker_rdmo_ep_get addr w in
            match r with
            | Err e => push e 0 (set_engine w p)
            | Ok h => push DOCA_SUCCESS id (set_engine (upd_client c (set_conn (set_rqs (insert id h))) w) p)
            end
    end.

(** The structure of an end-point is freed when it leaves the table. *)
Definition urom_worker_rdmo_ep_del (h : Z) (w : worker) : outcome (worker * doca_error_t) :=
  let* _ := ep_at h w in
  if negb (ep_close_ok a) then Ret (w, DOCA_ERROR_DRIVER)
  else Ret (set_eps (delete h (eps w)) w, DOCA_SUCCESS).

Definition urom_worker_rdmo_rq_destroy_cmd (d : urom_worker_cmd_desc) (rq_id : Z) (p : rdmo_plugin)
    : outcome (rdmo_plugin * doca_error_t) :=
  match urom_worker_rdmo_dest_to_client (engine p) (cd_dest_id d) with
  | None => Ret (p, DOCA_ERROR_NOT_FOUND)
  | Some (c, cl) =>
      let drop_rq := upd_client c (set_conn (set_rqs (delete rq_id))) in
      let* (w, status) :=
        match rqs (c_conn cl) !! rq_id with
        | None => Ret (engine p, DOCA_ERROR_NOT_FOUND)
        | Some h =>
            let* (w, e) := urom_worker_rdmo_ep_del h (engine p) in
            if bool_decide (e = DOCA_SUCCESS) then Ret (drop_rq w, DOCA_SUCCESS) else Ret (w, e)
        end in
      if negb (nd_alloc a) then Ret (set_engine (drop_rq w) p, DOCA_ERROR_NO_MEMORY)
      else
        let n := notif_for d (Z.of_nat SIZEOF_NOTIFY) status (NotifyRqDestroy rq_id) in
        Ret (push_notif n (set_engine w p), status)
  end.

(** Reports success whatever happened; the notification carries the status. *)
Definition urom_worker_rdmo_mr_reg_cmd (d : urom_worker_cmd_desc) (va len : Z) (packed_rkey packed_memh : cptr)
    (p : rdmo_plugin) : rdmo_plugin * doca_error_t :=
  if negb (nd_alloc a) then (p, DOCA_ERROR_NO_MEMORY)
  else
    let push status rkey p :=
      (push_notif (notif_for d (Z.of_nat SIZEOF_NOTIFY) status (NotifyMrReg rkey)) p, DOCA_SUCCESS) in
    if negb (obj_alloc a) then push DOCA_ERROR_NO_MEMORY 0 p
    else match urom_worker_rdmo_dest_to_client (engine p) (cd_dest_id d) with
    | None => push DOCA_ERROR_NOT_FOUND 0 p
    | Some (c, cl) =>
        match rkey_unpack a (p_mem packed_rkey) with
        | None => push DOCA_ERROR_DRIVER 0 p
        | Some rkey =>
            (* no handle to map counts as one that is not supported *)
            let memh := if p_num packed_memh =? 0 then MapUnreachable else mem_map a (p_mem packed_memh) in
            match memh with
            | MapError => push DOCA_ERROR_DRIVER 0 p
            | _ =>
                if negb (cache_init a) then push DOCA_ERROR_INITIALIZATION 0 p
                else if negb (kh_put_new (put_grow a) rkey (mkeys cl)) then push DOCA_ERROR_DRIVER 0 p
                else
                  let k := mkey_address a in
                  let m := Mkey rkey (match memh with MapOk => true | _ => false end) ∅ va len in
                  let w := upd_client c (set_client_mkeys (insert rkey k)) (engine p) in
                  push DOCA_SUCCESS rkey (set_engine (set_mkeys (<[k := m]> (mkey_heap w)) w) p)
            end
        end
    end.

(** The body of the loop of [urom_worker_rdmo_worker_cmd]: one descriptor. *)
Definition handle_cmd (d : urom_worker_cmd_desc) (p : rdmo_plugin) : outcome (rdmo_plugin * doca_error_t) :=
  let* r := urom_worker_rdmo_cmd_unpack d in
  match r with
  | Err e => Ret (p, e)
  | Ok (CmdClientInit id addr _) => Ret (urom_worker_rdmo_client_init_cmd d id addr p)
  | Ok (CmdRqCreate addr _) => Ret (urom_worker_rdmo_rq_create_cmd d addr p)
  | Ok (CmdRqDestroy rq_id) => urom_worker_rdmo_rq_destroy_cmd d rq_id p
  | Ok (CmdMrReg va len rk _ mh _) => Ret (urom_worker_rdmo_mr_reg_cmd d va len rk mh p)
  | Ok (CmdMrDereg rkey) => urom_worker_rdmo_mr_dereg_cmd d rkey p
  | Ok (CmdOther _) => Ret (p, DOCA_ERROR_INVALID_VALUE)
  end.
End handlers.

(** Commands are handled until one fails; the rest of the list stays. *)
Fixpoint urom_worker_rdmo_worker_cmd (env : ucx_env) (cmd_list : list (cmd_answers * urom_worker_cmd_desc)) (p : rdmo_plugin)
    : outcome (rdmo_plugin * list (cmd_answers * urom_worker_cmd_desc) * doca_error_t) :=
  match cmd_list with
  | [] => Ret (p, [], DOCA_SUCCESS)
  | (a, d) :: rest =>
      let* (p, status) := handle_cmd env a d p in
      if bool_decide (status = DOCA_SUCCESS) then urom_worker_rdmo_worker_cmd env rest p else Ret (p, rest, status)
  end.

(** The end of [urom_worker_rdmo_progress]: the notifications are handed over. *)
Definition urom_worker_rdmo_progress (p : rdmo_plugin) : rdmo_plugin * list urom_worker_notif_desc * doca_error_t :=
  match completed_reqs p with
  | [] => (p, [], DOCA_ERROR_EMPTY)
  | l => (Plugin (engine p) [] (worker_address p) (ucp_addrlen p), l, DOCA_SUCCESS)
  end.

(** ** Notifications: packing on the DPU, completion on the host *)

Definition notify_type (n : urom_worker_notify_rdmo) : Z :=
  match n with
  | NotifyClientInit _ _ => UROM_WORKER_NOTIFY_RDMO_CLIENT_INIT
  | NotifyRqCreate _ => UROM_WORKER_NOTIFY_RDMO_RQ_CREATE
  | NotifyRqDestroy _ => UROM_WORKER_NOTIFY_RDMO_RQ_DESTROY
  | NotifyMrReg _ => UROM_WORKER_NOTIFY_RDMO_MR_REG
  | NotifyMrDereg _ => UROM_WORKER_NOTIFY_RDMO_MR_DEREG
  end.

(** The memory of a notification, allocated with [calloc]. *)
Definition notify_image (n : urom_worker_notify_rdmo) : list Z :=
  le_bytes 8 (notify_type n) ++
  match n with
  | NotifyClientInit addr len => le_bytes 8 (p_num addr) ++ le_bytes 8 len
  | NotifyRqCreate v | NotifyRqDestroy v | NotifyMrReg v | NotifyMrDereg v => le_bytes 8 v ++ replicate 8 0
  end.

(** The plugin's part of the packed notification; the header before it is copied. *)
Definition urom_worker_rdmo_notif_pack (n : urom_worker_notify_rdmo) : outcome (list Z) :=
  match n with
  | NotifyClientInit addr len =>
      let pack_len := i32 len in
      let* _ := require ((0 <=? pack_len) && (pack_len <=? Z.of_nat (length (p_mem addr)))) OutOfBounds in
      Ret (notify_image n ++ take (Z.to_nat pack_len) (p_mem addr))
  | _ => Ret (notify_image n)
  end.

(** The members of a notification in a buffer at the address [base]; the address of
    the client init notification is made to point behind the structure. *)
Definition urom_worker_rdmo_notif_unpack (base : Z) (b : list Z) : option urom_worker_notify_rdmo :=
  let type := load 0 8 b in
  if type =? UROM_WORKER_NOTIFY_RDMO_CLIENT_INIT then
    Some (NotifyClientInit (CPtr (base + Z.of_nat SIZEOF_NOTIFY) (drop SIZEOF_NOTIFY b)) (load 16 8 b))
  else if type =? UROM_WORKER_NOTIFY_RDMO_RQ_CREATE then Some (NotifyRqCreate (load 8 8 b))
  else if type =? UROM_WORKER_NOTIFY_RDMO_RQ_DESTROY then Some (NotifyRqDestroy (load 8 8 b))
  else if type =? UROM_WORKER_NOTIFY_RDMO_MR_REG then Some (NotifyMrReg (load 8 8 b))
  else if type =? UROM_WORKER_NOTIFY_RDMO_MR_DEREG then Some (NotifyMrDereg (load 8 8 b))
  else None.

(** [notify_error]: zeros, with the type of the task. *)
Definition notify_error (type : Z) : option urom_worker_notify_rdmo :=
  if type =? UROM_WORKER_NOTIFY_RDMO_CLIENT_INIT then Some (NotifyClientInit NULL 0)
  else if type =? UROM_WORKER_NOTIFY_RDMO_RQ_CREATE then Some (NotifyRqCreate 0)
  else if type =? UROM_WORKER_NOTIFY_RDMO_RQ_DESTROY then Some (NotifyRqDestroy 0)
  else if type =? UROM_WORKER_NOTIFY_RDMO_MR_REG then Some (NotifyMrReg 0)
  else if type =? UROM_WORKER_NOTIFY_RDMO_MR_DEREG then Some (NotifyMrDereg 0)
  else None.

(** What the library answers about a finished task: whether it has user data, its
    response buffer (at [r_base]) and its status. *)
Record task_response : Type := Response {
  r_task_data : bool; r_buf : option (list Z); r_base : Z; r_get_data : doca_error_t; r_get_len : doca_error_t; r_status : doca_error_t
}.

(** The call of the user's callback: the result and the notification whose members it
    is given; nothing is called without user data or for an unknown type. *)
Definition urom_rdmo_completion (type : Z) (t : task_response)
    : outcome (option (doca_error_t * urom_worker_notify_rdmo)) :=
  let call result n := Ret (option_map (pair result) n) in
  if negb (r_task_data t) then Ret None
  else match r_buf t with
  | None => call DOCA_ERROR_INVALID_VALUE (notify_error type)
  | Some b =>
      if negb (bool_decide (r_get_data t = DOCA_SUCCESS)) then call (r_get_data t) (notify_error type)
      else
        let* _ := require (SIZEOF_NOTIFY <=? length b)%nat OutOfBounds in
        let n := urom_worker_rdmo_notif_unpack (r_base t) b in
        if negb (bool_decide (r_get_len t = DOCA_SUCCESS)) then call (r_get_len t) n
        else if negb (bool_decide (r_status t = DOCA_SUCCESS)) then call (r_status t) n
        else
          let extended_mem := match n with Some (NotifyClientInit _ len) => len | _ => 0 end in
          if negb (Z.of_nat (length b) =? u64 (Z.of_nat SIZEOF_NOTIFY + extended_mem))
          then call DOCA_ERROR_INVALID_VALUE n
          else call DOCA_SUCCESS n
  end.

(** ** Commands arrive as they were sent *)

(** A pointer with [len] readable bytes. *)
Definition readable (p : cptr) (len : Z) : Prop := 0 <= len <= Z.of_nat (length (p_mem p)).

Definition cmd_wf (c : urom_worker_rdmo_cmd) : Prop :=
  match c with
  | CmdClientInit id addr len => in_width 64 id /\ readable addr len /\ len < 2 ^ 63
  | CmdRqCreate addr len => readable addr len /\ len < 2 ^ 63
  | CmdRqDestroy v | CmdMrDereg v => in_width 64 v
  | CmdMrReg va len rk rk_len mh mh_len =>
      in_width 64 va /\ in_width 64 len /\ readable rk rk_len /\ readable mh mh_len /\ rk_len + mh_len < 2 ^ 63
  | CmdOther t => in_width 64 t /\ UROM_WORKER_CMD_RDMO_MR_DEREG < t
  end.

(** The same command with other pointers to the same bytes. *)
Definition same_bytes (len : Z) (p q : cptr) : Prop := take (Z.to_nat len) (p_mem q) = take (Z.to_nat len) (p_mem p).

Definition same_cmd (c c' : urom_worker_rdmo_cmd) : Prop :=
  match c, c' with
  | CmdClientInit id p len, CmdClientInit id' p' len' => id' = id /\ len' = len /\ same_bytes len p p'
  | CmdRqCreate p len, CmdRqCreate p' len' => len' = len /\ same_bytes len p p'
  | CmdMrReg va len rk rl mh ml, CmdMrReg va' len' rk' rl' mh' ml' =>
      va' = va /\ len' = len /\ rl' = rl /\ ml' = ml /\ same_bytes rl rk rk' /\ same_bytes ml mh mh'
  | _, _ => c' = c
  end.

Lemma load_take off n m b : (off + n <= m)%nat -> load off n (take m b) = load off n b.
Proof. intros H. rewrite !load_unfold, skipn_firstn_comm, take_take. by rewrite Nat.min_l by lia. Qed.

Lemma length_store_cmd c buf : (SIZEOF_CMD <= length buf)%nat -> length (store_cmd c buf) = length buf.
Proof.
  unfold SIZEOF_CMD. intros H. destruct c; cbn [store_cmd]; repeat (rewrite length_store); lia.
Qed.

(** [pack_inline] writes at its position and nowhere else. *)
Lemma pack_inline_ok p len pos buf :
  readable p len -> (pos + Z.to_nat len <= length buf)%nat ->
  exists buf', pack_inline p len pos buf = Ret buf' /\ length buf' = length buf
    /\ take pos buf' = take pos buf
    /\ take (pos + Z.to_nat len) buf' = take pos buf ++ take (Z.to_nat len) (p_mem p).
Proof.
  intros [H0 Hl] Hb. unfold pack_inline. rewrite (proj2 (Nat.leb_le _ _)) by lia. rewrite (proj2 (Nat.leb_le _ _)) by lia.
  cbn [andb require]. eexists. split; [reflexivity|]. set (d := take (Z.to_nat len) (p_mem p)).
  assert (length d = Z.to_nat len) as Hd by (unfold d; rewrite length_take; lia).
  assert (length (take pos buf) = pos) as Ht by (rewrite length_take; lia).
  split; [rewrite !length_app, length_drop, Hd, Ht; lia|].
  split; [rewrite <-Ht at 1; apply take_app_length|].
  rewrite app_assoc. rewrite take_app_length'; [done|]. rewrite length_app. lia.
Qed.

(** The members of a stored command. *)
Ltac load_members :=
  repeat first [rewrite load_store_eq by (repeat (rewrite length_store); lia)
               |rewrite load_store_ne by (repeat (rewrite length_store); lia)].

Lemma stored_type c buf :
  (SIZEOF_CMD <= length buf)%nat -> cmd_wf c -> load 0 8 (store_cmd c buf) = cmd_type c.
Proof.
  unfold SIZEOF_CMD. intros Hl Hw. destruct c; cbn [store_cmd]; load_members; cbn [cmd_type]; try done.
  cbn [cmd_wf] in Hw. apply (uwrap_id 64), Hw.
Qed.

(** The bytes a command carries behind the structure. *)
Definition inline_data (c : urom_worker_rdmo_cmd) : list Z :=
  match c with
  | CmdClientInit _ p len | CmdRqCreate p len => take (Z.to_nat len) (p_mem p)
  | CmdMrReg _ _ rk rl mh ml => take (Z.to_nat rl) (p_mem rk) ++ take (Z.to_nat ml) (p_mem mh)
  | _ => []
  end.

Lemma packed_len_inline c :
  cmd_wf c -> urom_worker_rdmo_cmd_packed_len c = Z.of_nat (SIZEOF_CMD + length (inline_data c)).
Proof.
  destruct c; cbn [cmd_wf urom_worker_rdmo_cmd_packed_len inline_data]; unfold readable, in_width, SIZEOF_CMD; intros; try done;
    rewrite ?length_app, ?length_take_le by lia.
  - rewrite (uwrap_id 64) by (unfold in_width; lia). lia.
  - rewrite (uwrap_id 64) by (unfold in_width; lia). lia.
  - rewrite !(uwrap_id 64) by (rewrite ?(uwrap_id 64) by (unfold in_width; lia); unfold in_width; lia). lia.
Qed.

Lemma cmd_pack_ok c buf :
  cmd_wf c -> (SIZEOF_CMD + length (inline_data c) <= length buf)%nat ->
  exists buf', urom_worker_rdmo_cmd_pack c (Z.of_nat (length buf)) buf
      = Ret (buf', Z.of_nat (SIZEOF_CMD + length (inline_data c)), DOCA_SUCCESS)
    /\ take (SIZEOF_CMD + length (inline_data c)) buf' = take SIZEOF_CMD buf ++ inline_data c.
Proof.
  intros Hw Hl. pose proof (packed_len_inline c Hw) as Hp. unfold urom_worker_rdmo_cmd_pack.
  rewrite Hp, (proj2 (Z.ltb_ge _ _)) by lia.
  destruct c as [id p len|p len|v|va len rk rl mh ml|v|t]; cbn [cmd_wf urom_worker_rdmo_cmd_packed_len inline_data] in *;
    rewrite ?Hp; try (exists buf; by rewrite Nat.add_0_r, app_nil_r).
  - destruct Hw as (_ & Hr & _). rewrite length_take_le in * by (unfold readable in Hr; lia).
    destruct (pack_inline_ok p len SIZEOF_CMD buf Hr Hl) as (b & -> & _ & _ & E). by exists b.
  - destruct Hw as (Hr & _). rewrite length_take_le in * by (unfold readable in Hr; lia).
    destruct (pack_inline_ok p len SIZEOF_CMD buf Hr Hl) as (b & -> & _ & _ & E). by exists b.
  - destruct Hw as (_ & _ & Hr & Hm & _). rewrite length_app, !length_take_le in * by (unfold readable in *; lia).
    destruct (pack_inline_ok rk rl SIZEOF_CMD buf Hr) as (b & -> & Hb & _ & E); [lia|].
    destruct (pack_inline_ok mh ml (SIZEOF_CMD + Z.to_nat rl) b Hm) as (b2 & -> & _ & _ & E2); [lia|].
    exists b2. split; [done|]. rewrite Nat.add_assoc, E2, E. by rewrite <-app_assoc.
Qed.

(** The payload of a task. *)
Lemma submit_cmd_ok t c :
  t_alloc t = DOCA_SUCCESS -> t_get_data t = DOCA_SUCCESS -> t_get_len t = DOCA_SUCCESS -> t_submit t = DOCA_SUCCESS ->
  cmd_wf c -> (SIZEOF_CMD + length (inline_data c) <= length (t_payload t))%nat ->
  submit_cmd t c = Ret (Some (take SIZEOF_CMD (store_cmd c (t_payload t)) ++ inline_data c), DOCA_SUCCESS).
Proof.
  intros Ha Hd Hn Hs Hw Hl. unfold submit_cmd. rewrite Ha, Hd, Hn, Hs.
  change (bool_decide (DOCA_SUCCESS = DOCA_SUCCESS)) with true. cbn [negb].
  rewrite (proj2 (Nat.leb_le _ _)) by lia. cbn [require].
  pose proof (length_store_cmd c (t_payload t)) as Hlen.
  destruct (cmd_pack_ok c (store_cmd c (t_payload t)) Hw) as (b & E & Hb); [rewrite Hlen; lia|].
  rewrite Hlen in E by lia. rewrite E, Nat2Z.id, Hb. done.
Qed.

(** The command the worker sees: its pointers lead behind the structure, to the bytes
    that were sent. *)
Definition delivered (base : Z) (c : urom_worker_rdmo_cmd) : urom_worker_rdmo_cmd :=
  let ptr := CPtr (base + Z.of_nat SIZEOF_CMD) (inline_data c) in
  match c with
  | CmdClientInit id _ len => CmdClientInit id ptr len
  | CmdRqCreate _ len => CmdRqCreate ptr len
  | CmdMrReg va len _ rl mh ml =>
      CmdMrReg va len ptr rl (CPtr (base + Z.of_nat (SIZEOF_CMD + Z.to_nat rl)) (take (Z.to_nat ml) (p_mem mh))) ml
  | _ => c
  end.

Lemma delivered_same base c : cmd_wf c -> same_cmd c (delivered base c).
Proof.
  destruct c as [id p len|p len|v|va len rk rl mh ml|v|ty]; cbn; unfold readable, same_bytes; cbn; intros Hw; try done.
  - by rewrite take_take, Nat.min_id.
  - by rewrite take_take, Nat.min_id.
  - split_and!; try done; [|by rewrite take_take, Nat.min_id].
    rewrite take_app_le, take_take, Nat.min_id; [done|]. rewrite length_take. lia.
Qed.

Lemma unpack_ok c payload dest type ctx base :
  cmd_wf c -> (SIZEOF_CMD <= length payload)%nat ->
  let msg := take SIZEOF_CMD (store_cmd c payload) ++ inline_data c in
  urom_worker_rdmo_cmd_unpack (CmdDesc dest type ctx (Z.of_nat (length msg)) base msg) = Ret (Ok (delivered base c)).
Proof.
  intros Hw Hl msg. pose proof (length_store_cmd c payload Hl) as Hs.
  assert (length (take SIZEOF_CMD (store_cmd c payload)) = SIZEOF_CMD) as Ht by (rewrite length_take; lia).
  assert (forall off n, (off + n <= SIZEOF_CMD)%nat -> load off n msg = load off n (store_cmd c payload)) as Hload.
  { intros off n Ho. unfold msg. rewrite load_pad by lia. by apply load_take. }
  assert (drop SIZEOF_CMD msg = inline_data c) as Hdrop by (unfold msg; rewrite <-Ht at 1; apply drop_app_length).
  assert (length msg = (SIZEOF_CMD + length (inline_data c))%nat) as Hm by (unfold msg; rewrite length_app; lia).
  pose proof (packed_len_inline c Hw) as Hp.
  unfold urom_worker_rdmo_cmd_unpack. cbn [cd_len cd_plugin_cmd cd_base].
  rewrite (proj2 (Z.ltb_ge _ _)), (proj2 (Nat.leb_le _ _)) by lia. cbn [require].
  rewrite (Hload 0%nat 8%nat), (stored_type c payload Hl Hw) by (unfold SIZEOF_CMD; lia).
  assert (forall n, in_width 64 n -> n mod 2 ^ (8 * Z.of_nat 8) = n) as Hmod by (intros; by apply (uwrap_id 64)).
  assert (Z.of_nat (length msg) = urom_worker_rdmo_cmd_packed_len c) as Hlen by lia.
  destruct c as [id p len|p len|v|va len rk rl mh ml|v|ty]; cbn [cmd_type cmd_wf inline_data urom_worker_rdmo_cmd_packed_len] in *;
    unfold readable in Hw.
  all: cbv [UROM_WORKER_CMD_RDMO_CLIENT_INIT UROM_WORKER_CMD_RDMO_RQ_CREATE UROM_WORKER_CMD_RDMO_RQ_DESTROY
            UROM_WORKER_CMD_RDMO_MR_REG UROM_WORKER_CMD_RDMO_MR_DEREG] in *; cbn [Z.eqb Pos.eqb].
  all: rewrite ?Hlen, ?(Hload 8%nat), ?(Hload 16%nat), ?(Hload 24%nat), ?(Hload 32%nat), ?(Hload 48%nat) by (unfold SIZEOF_CMD; lia).
  all: unfold SIZEOF_CMD in Hl; cbn [store_cmd]; load_members.
  - rewrite (Hmod id), (Hmod len) by (apply Hw || (unfold in_width; lia)). rewrite (Z.add_comm len), Z.eqb_refl, Hdrop. done.
  - rewrite (Hmod len) by (unfold in_width; lia). rewrite (Z.add_comm len), Z.eqb_refl, Hdrop. done.
  - by rewrite (Hmod v) by done.
  - rewrite (Hmod va), (Hmod len), (Hmod rl), (Hmod ml) by (apply Hw || (unfold in_width; lia)).
    rewrite (uwrap_id 64 (Z.of_nat SIZEOF_CMD + rl)), !(uwrap_id 64 (_ + ml)) by (unfold in_width, SIZEOF_CMD; lia).
    rewrite (uwrap_id 64) by (unfold in_width, SIZEOF_CMD; lia).
    rewrite (proj2 (Z.eqb_eq _ _)) by (unfold SIZEOF_CMD; lia). cbn [negb].
    by rewrite <-drop_drop, Hdrop, drop_app_length' by (rewrite length_take; lia).
  - by rewrite (Hmod v) by done.
  - by rewrite !(proj2 (Z.eqb_neq ty _)) by lia.
Qed.

(** ** The tables *)

(** What the engine leaves alone: the connections and regions of the clients, which
    end-points exist, and the regions apart from their caches. *)
Definition client_shape (c : urom_worker_rdmo_client) : client_conn * Z * gmap Z Z := (c_conn c, c_ep c, mkeys c).
Definition mkey_shape (m : urom_worker_rdmo_mkey) : Z * bool * Z * Z := (ucp_rkey m, ucp_memh m, va m, mk_len m).

Record same_shape (w w' : worker) : Prop := {
  ss_clients c : client_shape <$> clients w' !! c = client_shape <$> clients w !! c;
  ss_eps e : is_Some (eps w' !! e) <-> is_Some (eps w !! e);
  ss_mkeys k : mkey_shape <$> mkey_heap w' !! k = mkey_shape <$> mkey_heap w !! k;
}.

#[export] Instance same_shape_refl : Reflexive same_shape.
Proof. intros w. by split. Qed.
#[export] Instance same_shape_trans : Transitive same_shape.
Proof.
  intros w1 w2 w3 [H1 H2 H3] [G1 G2 G3]. split; intros; [by rewrite G1|by rewrite G2|by rewrite G3].
Qed.

Lemma shape_fields w w' :
  clients w' = clients w -> eps w' = eps w -> mkey_heap w' = mkey_heap w -> same_shape w w'.
Proof. intros H1 H2 H3. split; intros; [by rewrite H1|by rewrite H2|by rewrite H3]. Qed.

Lemma shape_upd_client w c f : (forall cl, client_shape (f cl) = client_shape cl) -> same_shape w (upd_client c f w).
Proof.
  intros Hf. split; try done. intros c'. cbn. destruct (decide (c' = c)) as [->|Hne].
  - rewrite lookup_alter_eq. destruct (clients w !! c); cbn; [by rewrite Hf|done].
  - by rewrite lookup_alter_ne.
Qed.

Lemma shape_upd_ep w e f : same_shape w (upd_ep e f w).
Proof.
  split; try done. intros e'. cbn. destruct (decide (e' = e)) as [->|Hne].
  - rewrite lookup_alter_eq. by rewrite fmap_is_Some.
  - by rewrite lookup_alter_ne.
Qed.

Lemma shape_set_cache w k m t :
  mkey_heap w !! k = Some m -> same_shape w (set_mkeys (<[k := set_cache t m]> (mkey_heap w)) w).
Proof.
  intros Hk. split; try done. intros k'. cbn. destruct (decide (k' = k)) as [->|Hne].
  - by rewrite lookup_insert_eq, Hk.
  - by rewrite lookup_insert_ne.
Qed.

Create HintDb shape discriminated.
#[export] Hint Resolve same_shape_refl shape_upd_ep : shape.
#[export] Hint Extern 1 (same_shape ?w (upd_client _ _ ?w)) => (apply shape_upd_client; reflexivity) : shape.
#[export] Hint Extern 2 (same_shape ?w (upd_req _ _ ?w)) => (apply shape_fields; reflexivity) : shape.
#[export] Hint Extern 2 (same_shape ?w (log_call _ ?w)) => (apply shape_fields; reflexivity) : shape.
#[export] Hint Extern 2 (same_shape ?w (set_memory _ ?w)) => (apply shape_fields; reflexivity) : shape.
#[export] Hint Extern 2 (same_shape ?w (set_reqs _ ?w)) => (apply shape_fields; reflexivity) : shape.

(** Peel the updates off the state one by one. *)
Ltac shape :=
  solve [repeat first
    [ progress eauto with shape
    | match goal with
      | |- same_shape _ (upd_client _ _ ?w) => transitivity w; [|solve [eauto with shape]]
      | |- same_shape _ (upd_ep _ _ ?w) => transitivity w; [|solve [eauto with shape]]
      | |- same_shape _ (upd_req _ _ ?w) => transitivity w; [|solve [eauto with shape]]
      | |- same_shape _ (log_call _ ?w) => transitivity w; [|solve [eauto with shape]]
      | |- same_shape _ (set_memory _ ?w) => transitivity w; [|solve [eauto with shape]]
      | |- same_shape _ (set_reqs _ ?w) => transitivity w; [|solve [eauto with shape]]
      end ]].

Section engine_shape.
Context (env : ucx_env).

Lemma cache_put_shape k addr val w w' e :
  urom_worker_rdmo_mem_cache_put env k addr val w = Ret (w', e) -> same_shape w w'.
Proof.
  unfold urom_worker_rdmo_mem_cache_put, mkey_at. destruct (mkey_heap w !! k) as [m|] eqn:Hk; [|done]. cbn [of_option].
  intros H. destruct (mem_cache m !! addr); [|destruct (kh_put_ok env (calls w))]; inv_ret;
    first [by apply shape_set_cache|reflexivity].
Qed.

Lemma flush_cache_shape ep k entries : forall get w w' get' e,
  flush_cache env ep k entries get w = Ret (w', get', e) -> same_shape w w'.
Proof.
  induction entries as [|[a v] rest IH]; intros get w w' get' e H; cbn [flush_cache] in H.
  { inv_ret. reflexivity. }
  unfold mkey_at in H. destruct (mkey_heap w !! k) as [m|] eqn:Hk; [|done]. cbn [of_option] in H.
  unfold ucx in H. set (w1 := set_mkeys _ w) in H.
  assert (same_shape w w1) as H1 by (by apply shape_set_cache).
  set (x := if decide _ then _ else _) in H. assert (exists w2 s, x = (w2, s) /\ same_shape w1 w2) as (w2 & s & E & H2).
  { subst x. unfold urom_worker_rdmo_addr_flush_slow, ucx. case_decide; [destruct (mpool_ok env _)|];
      eexists _, _; (split; [reflexivity|]); shape. }
  rewrite E in H. destruct (UCS_PTR_IS_ERR s); [inv_ret|apply IH in H]; by do 2 (etransitivity; [eassumption|]).
Qed.

Lemma flush_mkeys_shape ep ks : forall get w w' get' e,
  flush_mkeys env ep ks get w = Ret (w', get', e) -> same_shape w w'.
Proof.
  induction ks as [|k ks IH]; intros get w w' get' e H; cbn [flush_mkeys] in H.
  { inv_ret. reflexivity. }
  obind H. obind H. destruct a0 as [[w1 get1] e1]. apply flush_cache_shape in E0.
  destruct (bool_decide _); [apply IH in H|inv_ret]; by etransitivity.
Qed.

Lemma mem_cache_flush_shape c w w' e : urom_worker_rdmo_mem_cache_flush env c w = Ret (w', e) -> same_shape w w'.
Proof.
  unfold urom_worker_rdmo_mem_cache_flush. intros H. obind H. obind H. destruct a0 as [[w1 get] e1].
  apply flush_mkeys_shape in E0. destruct (negb _); [by inv_ret|]. destruct get as [[addr rk]|]; [|by inv_ret].
  unfold ucx in H. inv_ret. etransitivity; [exact E0|]. shape.
Qed.

Lemma flush_respond_shape r w w' e : flush_respond env r w = Ret (w', e) -> same_shape w w'.
Proof.
  unfold flush_respond, ucx. intros H. obind H. destruct (UCS_PTR_IS_ERR _); [inv_ret; shape|].
  destruct (await _); inv_ret; shape.
Qed.

Lemma flush_progress_shape r w w' e : urom_worker_rdmo_flush_progress env r w = Ret (w', e) -> same_shape w w'.
Proof.
  unfold urom_worker_rdmo_flush_progress, ucx. intros H. obind H. destruct (ctx0 a =? 0).
  - destruct (negb _); [inv_ret; shape|]. obind H. destruct a0 as [w1 e1]. obind H.
    apply mem_cache_flush_shape in E0.
    assert (same_shape w w1) as Hw1 by (etransitivity; [|exact E0]; shape).
    destruct (UCS_PTR_IS_ERR _); [inv_ret; etransitivity; [exact Hw1|]; shape|].
    destruct (await _); [inv_ret; etransitivity; [exact Hw1|]; shape|].
    apply flush_respond_shape in H. etransitivity; [|exact H]. etransitivity; [exact Hw1|]. shape.
  - destruct (ctx0 a =? 1); [by apply flush_respond_shape in H|]. inv_ret. reflexivity.
Qed.

Lemma append_fadd_shape r q cl w w' n : append_fadd env r q cl w = Ret (w', n) -> same_shape w w'.
Proof.
  unfold append_fadd, ucx. intros H. destruct (mkeys cl !! _) as [k|]; [|inv_ret; reflexivity]. obind H.
  destruct (negb _); [inv_ret; shape|]. destruct (ucp_rkey_ptr _ _ _); [inv_ret; shape|].
  destruct (urom_worker_rdmo_mem_cache_get _ _); [inv_ret; shape|].
  destruct (negb _); inv_ret; shape.
Qed.

Lemma append_cache_shape r w w' e : append_cache env r w = Ret (w', e) -> same_shape w w'.
Proof.
  unfold append_cache. intros H. obind H. obind H. destruct a0 as [w1 e1]. apply cache_put_shape in E0.
  destruct (negb _); inv_ret; [done|]. etransitivity; [exact E0|]. shape.
Qed.

Lemma append_put_shape r sm w w' e : append_put env r sm w = Ret (w', e) -> same_shape w w'.
Proof.
  unfold append_put, ucx. intros H. obind H. obind H.
  destruct (if negb _ then _ else _) as [k|]; [|inv_ret; reflexivity]. obind H.
  destruct (orb _ _); [inv_ret; reflexivity|]. destruct (r_rndv a).
  - destruct (negb _); [inv_ret; reflexivity|]. destruct (UCS_PTR_IS_ERR _); [inv_ret; shape|].
    destruct (await _); inv_ret; shape.
  - destruct (negb _).
    + destruct (UCS_PTR_IS_ERR _); [inv_ret; shape|]. destruct (await _); inv_ret; shape.
    + destruct sm; [|done]. inv_ret. shape.
Qed.

Lemma append_progress_shape r w w' e : urom_worker_rdmo_append_progress env r w = Ret (w', e) -> same_shape w w'.
Proof.
  unfold urom_worker_rdmo_append_progress. intros H. obind H. obind H. obind H. destruct a1 as [w1 n].
  assert (same_shape w w1) as H1.
  { destruct (ctx0 a =? 0); [by apply append_fadd_shape in E1|].
    destruct (ctx0 a =? 1), (ctx0 a =? 2); inv_ret; reflexivity. }
  etransitivity; [exact H1|]. destruct n.
  - inv_ret. reflexivity.
  - obind H. destruct a1 as [w2 e2]. apply append_cache_shape in E2. etransitivity; [exact E2|].
    destruct (bool_decide _); [by apply append_put_shape in H|]. inv_ret. reflexivity.
  - by apply append_put_shape in H.
Qed.

Lemma scatter_loop_shape n : forall r off prev w w' e, scatter_loop env n r off prev w = Ret (w', e) -> same_shape w w'.
Proof.
  induction n as [|n IH]; intros r off prev w w' e H; cbn [scatter_loop] in H; [inv_ret; reflexivity|].
  obind H. obind H. obind H. obind H. destruct a2 as [k|]; [|inv_ret; reflexivity]. obind H.
  destruct (orb _ _); [inv_ret; reflexivity|]. obind H. unfold ucx in H. destruct (negb _).
  - destruct (UCS_PTR_IS_ERR _); [inv_ret; shape|].
    destruct (bool_decide _); apply IH in H; (etransitivity; [|exact H]); shape.
  - apply IH in H. etransitivity; [|exact H]. shape.
Qed.

Lemma scatter_progress_shape r w w' e : urom_worker_rdmo_scatter_progress env r w = Ret (w', e) -> same_shape w w'.
Proof.
  unfold urom_worker_rdmo_scatter_progress. intros H. obind H. obind H. destruct a0 as [w1 x].
  assert (same_shape w w1) as H1.
  { destruct (ctx0 a =? 0); [|inv_ret; reflexivity]. destruct (r_rndv a); [inv_ret; reflexivity|].
    obind E0. destruct a0 as [w2 x2]. apply scatter_loop_shape in E1.
    destruct x2; inv_ret; [done|]. etransitivity; [exact E1|]. shape. }
  etransitivity; [exact H1|]. destruct x; [inv_ret; reflexivity|]. obind H. destruct (andb _ _); inv_ret; reflexivity.
Qed.

Lemma progress_shape r w w' e : Rdmo.progress env r w = Ret (w', e) -> same_shape w w'.
Proof.
  unfold Rdmo.progress. intros H. obind H. destruct (_ =? _); [by apply flush_progress_shape in H|].
  destruct (_ =? _); [by apply append_progress_shape in H|by apply scatter_progress_shape in H].
Qed.

Lemma req_free_shape r w w' : urom_worker_rdmo_req_free r w = Ret w' -> same_shape w w'.
Proof. unfold urom_worker_rdmo_req_free. intros H. obind H. obind H. inv_ret. shape. Qed.

Lemma req_free_data_shape r w w' : urom_worker_rdmo_req_free_data r w = Ret w' -> same_shape w w'.
Proof. unfold urom_worker_rdmo_req_free_data. intros H. obind H. destruct (r_rndv a); inv_ret; shape. Qed.

Lemma req_start_shape r w w' e : urom_worker_rdmo_req_start env r w = Ret (w', e) -> same_shape w w'.
Proof.
  unfold urom_worker_rdmo_req_start. intros H. obind H. obind H. destruct (orb _ _); [inv_ret; shape|].
  apply progress_shape in H. etransitivity; [|exact H]. shape.
Qed.

Lemma finish_shape r w e w' : finish r (w, e) = Ret w' -> same_shape w w'.
Proof.
  unfold finish. intros H. destruct (bool_decide _); [|inv_ret; reflexivity]. obind H.
  apply req_free_data_shape in E. apply req_free_shape in H. by etransitivity.
Qed.

Lemma fenced_loop_shape n : forall e w w', fenced_loop env n e w = Ret w' -> same_shape w w'.
Proof.
  induction n as [|n IH]; intros e w w' H; cbn [fenced_loop] in H; obind H; (destruct (fenced_ops a); [inv_ret; reflexivity|]);
    [done|].
  obind H. destruct (andb _ _); [inv_ret; reflexivity|]. obind H. destruct a1 as [w1 e1]. obind H.
  apply progress_shape in E1. apply finish_shape in E2. apply IH in H.
  transitivity w1; [etransitivity; [|exact E1]; shape|]. by etransitivity.
Qed.

Lemma paused_loop_shape n : forall c w w', paused_loop env n c w = Ret w' -> same_shape w w'.
Proof.
  induction n as [|n IH]; intros c w w' H; cbn [paused_loop] in H; obind H; (destruct (pause a); [inv_ret; reflexivity|]);
    (destruct (paused_ops a); [inv_ret; reflexivity|]); [done|].
  obind H. destruct a0 as [w1 e1]. obind H. apply req_start_shape in E0. apply finish_shape in E1. apply IH in H.
  transitivity w1; [etransitivity; [|exact E0]; shape|]. by etransitivity.
Qed.

Lemma req_complete_shape r w w' : urom_worker_rdmo_req_complete env r w = Ret w' -> same_shape w w'.
Proof.
  unfold urom_worker_rdmo_req_complete, urom_worker_rdmo_check_paused, urom_worker_rdmo_check_fenced. intros H.
  obind H. obind H. apply req_free_shape in E0. obind H. obind E1. apply paused_loop_shape in E1. obind H.
  transitivity a1; [by etransitivity|]. destruct (orb _ _); [inv_ret; reflexivity|]. by apply fenced_loop_shape in H.
Qed.

Lemma op_cb_shape r w w' : urom_worker_rdmo_op_cb env r w = Ret w' -> same_shape w w'.
Proof.
  unfold urom_worker_rdmo_op_cb. intros H. obind H. destruct a as [w1 e]. apply progress_shape in E.
  etransitivity; [exact E|]. destruct (bool_decide _); [|inv_ret; reflexivity]. obind H.
  apply req_free_data_shape in E0. apply req_complete_shape in H. by etransitivity.
Qed.

Lemma complete_shape x v w w' : complete env x v w = Ret w' -> same_shape w w'.
Proof.
  intros H. destruct x; cbn [complete] in H; try (by apply op_cb_shape in H); try (inv_ret; reflexivity).
  - unfold urom_worker_rdmo_scatter_op_send_cb in H. obind H. apply op_cb_shape in H. etransitivity; [|exact H]. shape.
  - obind H. apply op_cb_shape in H. etransitivity; [|exact H]. shape.
Qed.

Lemma req_queue_shape r w w' e : urom_worker_rdmo_req_queue env r w = Ret (w', e) -> same_shape w w'.
Proof.
  unfold urom_worker_rdmo_req_queue. intros H. obind H. obind H. destruct (orb _ _); [inv_ret; shape|].
  obind H. destruct a1 as [w2 e2]. apply req_start_shape in E1. etransitivity; [exact E1|].
  destruct (bool_decide _); [|inv_ret; reflexivity]. obind H. apply req_free_shape in E2. inv_ret. exact E2.
Qed.

Lemma am_cb_shape h data len rndv ep w w' s :
  urom_worker_rdmo_am_cb env h data len rndv ep w = Ret (w', s) -> same_shape w w'.
Proof.
  unfold urom_worker_rdmo_am_cb. intros H. obind H. destruct (clients w !! _); [|inv_ret; reflexivity].
  destruct (eps w !! _); [|inv_ret; reflexivity]. destruct (_ <? _); [inv_ret; reflexivity|].
  destruct (negb _); [inv_ret; reflexivity|]. destruct (_ <? _)%nat; [inv_ret; reflexivity|]. obind H.
  destruct a0 as [w1 e1]. inv_ret. apply req_queue_shape in E0. etransitivity; [|exact E0]. by apply shape_fields.
Qed.
End engine_shape.

(** *** The invariant *)

(** Regions and end-points the tables name exist; a region has one owner and is filed
    under its own key; the end-points of receive queues are their own; a channel has
    one client. *)
Record tables_ok (w : worker) : Prop := {
  to_client_ep c cl : clients w !! c = Some cl -> is_Some (eps w !! c_ep cl);
  to_mkeys c cl rk k : clients w !! c = Some cl -> mkeys cl !! rk = Some k ->
    exists m, mkey_heap w !! k = Some m /\ ucp_rkey m = rk;
  to_owner c1 cl1 rk1 c2 cl2 rk2 k : clients w !! c1 = Some cl1 -> mkeys cl1 !! rk1 = Some k ->
    clients w !! c2 = Some cl2 -> mkeys cl2 !! rk2 = Some k -> c1 = c2 /\ rk1 = rk2;
  to_rqs c cl id h : clients w !! c = Some cl -> rqs (c_conn cl) !! id = Some h -> is_Some (eps w !! h);
  to_rq_own c1 cl1 id1 c2 cl2 id2 h : clients w !! c1 = Some cl1 -> rqs (c_conn cl1) !! id1 = Some h ->
    clients w !! c2 = Some cl2 -> rqs (c_conn cl2) !! id2 = Some h -> c1 = c2 /\ id1 = id2;
  to_rq_ep c1 cl1 id c2 cl2 : clients w !! c1 = Some cl1 -> clients w !! c2 = Some cl2 ->
    rqs (c_conn cl1) !! id <> Some (c_ep cl2);
  to_dest c1 cl1 c2 cl2 : clients w !! c1 = Some cl1 -> clients w !! c2 = Some cl2 ->
    dest_id (c_conn cl1) = dest_id (c_conn cl2) -> c1 = c2;
}.

Lemma shape_client w w' c cl' :
  same_shape w w' -> clients w' !! c = Some cl' ->
  exists cl, clients w !! c = Some cl /\ c_conn cl = c_conn cl' /\ c_ep cl = c_ep cl' /\ mkeys cl = mkeys cl'.
Proof.
  intros Hs Hc. pose proof (ss_clients _ _ Hs c) as E. rewrite Hc in E. destruct (clients w !! c) as [cl|]; [|done].
  injection E as E1 E2 E3. by exists cl.
Qed.

(** The engine keeps the tables. *)
Lemma shape_tables w w' : same_shape w w' -> tables_ok w -> tables_ok w'.
Proof.
  intros Hs [H1 H2 H3 H4 H5 H6 H7].
  pose proof (shape_client w w') as Hc. split.
  - intros c cl (cl0 & E & _ & <- & _)%Hc; [|done]. rewrite (ss_eps _ _ Hs). eauto.
  - intros c cl rk k (cl0 & E & _ & _ & <-)%Hc Hk; [|done]. destruct (H2 _ _ _ _ E Hk) as (m & Hm & Hr).
    pose proof (ss_mkeys _ _ Hs k) as G. rewrite Hm in G. destruct (mkey_heap w' !! k) as [m'|]; [|done].
    injection G as G1 _ _ _. exists m'. split; [done|congruence].
  - intros c1 cl1 rk1 c2 cl2 rk2 k (d1 & E1 & _ & _ & <-)%Hc K1 (d2 & E2 & _ & _ & <-)%Hc K2; eauto.
  - intros c cl id h (cl0 & E & <- & _ & _)%Hc Hk; [|done]. rewrite (ss_eps _ _ Hs). eauto.
  - intros c1 cl1 id1 c2 cl2 id2 h (d1 & E1 & <- & _ & _)%Hc K1 (d2 & E2 & <- & _ & _)%Hc K2; eauto.
  - intros c1 cl1 id c2 cl2 (d1 & E1 & <- & _ & _)%Hc (d2 & E2 & _ & <- & _)%Hc; eauto.
  - intros c1 cl1 c2 cl2 (d1 & E1 & <- & _ & _)%Hc (d2 & E2 & <- & _ & _)%Hc; eauto.
Qed.

(** *** Updates of the tables *)

(** Distinguish the inserted key from the others. *)
Ltac split_inserts :=
  repeat match goal with
  | H : <[_ := _]> _ !! _ = Some _ |- _ => apply lookup_insert_Some in H as [[? ?]|[? H]]; subst
  | H : delete _ _ !! _ = Some _ |- _ => apply lookup_delete_Some in H as [? H]
  end.

Lemma add_ep_ok w h x : tables_ok w -> tables_ok (set_eps (<[h := x]> (eps w)) w).
Proof.
  intros [H1 H2 H3 H4 H5 H6 H7].
  assert (forall e, is_Some (eps w !! e) -> is_Some (<[h := x]> (eps w) !! e)) as Hup.
  { intros e He. rewrite lookup_insert_is_Some. destruct (decide (h = e)); auto. }
  split; cbn; eauto.
Qed.

Lemma add_client_ok w id dest h :
  tables_ok w -> clients w !! id = None -> is_Some (eps w !! h) ->
  (forall c cl i, clients w !! c = Some cl -> rqs (c_conn cl) !! i <> Some h) ->
  (forall c cl, clients w !! c = Some cl -> dest_id (c_conn cl) <> dest) ->
  tables_ok (set_clients (<[id := Client (Conn dest ∅ 0) h ∅ [] false]> (clients w)) w).
Proof.
  intros [H1 H2 H3 H4 H5 H6 H7] Hid Hh Hrq Hd. split; cbn; intros; split_inserts; cbn in *;
    rewrite ?lookup_empty in *; try discriminate; eauto; try (by exfalso; eapply Hd; eauto).
Qed.

(** A client is replaced by one with the same end-point and channel; its tables may
    change, and so may the end-points and the regions. *)
Lemma replace_client_ok w w' c cl cl' :
  tables_ok w -> clients w !! c = Some cl -> clients w' = <[c := cl']> (clients w) ->
  c_ep cl' = c_ep cl -> dest_id (c_conn cl') = dest_id (c_conn cl) ->
  (* the end-points that are named still exist *)
  (forall d dl, clients w !! d = Some dl -> is_Some (eps w' !! c_ep dl)) ->
  (forall d dl i h, clients w' !! d = Some dl -> rqs (c_conn dl) !! i = Some h -> is_Some (eps w' !! h)) ->
  (* the queues of the client are old ones, or have an end-point of their own *)
  (forall i h, rqs (c_conn cl') !! i = Some h -> rqs (c_conn cl) !! i = Some h
     \/ (eps w !! h = None /\ forall j, rqs (c_conn cl') !! j = Some h -> j = i)) ->
  (* the same for its regions *)
  (forall d dl rk k, clients w' !! d = Some dl -> mkeys dl !! rk = Some k ->
     exists m, mkey_heap w' !! k = Some m /\ ucp_rkey m = rk) ->
  (forall rk k, mkeys cl' !! rk = Some k -> mkeys cl !! rk = Some k
     \/ (mkey_heap w !! k = None /\ forall j, mkeys cl' !! j = Some k -> j = rk)) ->
  tables_ok w'.
Proof.
  intros [H1 H2 H3 H4 H5 H6 H7] Hc Hc' Hep Hd Heps Hreps Hrq Hmk Hown.
  assert (forall d dl i h, clients w !! d = Some dl -> rqs (c_conn dl) !! i = Some h -> eps w !! h <> None) as Hlive.
  { intros d dl i h E1 E2 E3. destruct (H4 d dl i h E1 E2) as [x Hx]. congruence. }
  assert (forall d dl i k, clients w !! d = Some dl -> mkeys dl !! i = Some k -> mkey_heap w !! k <> None) as Hmlive.
  { intros d dl i k E1 E2 E3. destruct (H2 d dl i k E1 E2) as (m & Hm & _). congruence. }
  split.
  - rewrite Hc'. intros d dl E. split_inserts; [rewrite Hep|]; eauto.
  - exact Hmk.
  - rewrite Hc'. intros c1 cl1 rk1 c2 cl2 rk2 k' E1 K1 E2 K2. split_inserts.
    + split; [done|]. destruct (Hown _ _ K1) as [O1|[_ O1]]; [|by symmetry; apply O1].
      destruct (Hown _ _ K2) as [O2|[_ O2]]; [by destruct (H3 _ _ _ _ _ _ _ Hc O1 Hc O2)|by apply O2].
    + destruct (Hown _ _ K2) as [O2|[O2 _]]; [exact (H3 _ _ _ _ _ _ _ E1 K1 Hc O2)|]. by destruct (Hmlive _ _ _ _ E1 K1).
    + destruct (Hown _ _ K1) as [O1|[O1 _]]; [exact (H3 _ _ _ _ _ _ _ Hc O1 E2 K2)|]. by destruct (Hmlive _ _ _ _ E2 K2).
    + exact (H3 _ _ _ _ _ _ _ E1 K1 E2 K2).
  - exact Hreps.
  - rewrite Hc'. intros c1 cl1 i1 c2 cl2 i2 h E1 K1 E2 K2. split_inserts.
    + split; [done|]. destruct (Hrq _ _ K1) as [O1|[_ O1]]; [|by symmetry; apply O1].
      destruct (Hrq _ _ K2) as [O2|[_ O2]]; [by destruct (H5 _ _ _ _ _ _ _ Hc O1 Hc O2)|by apply O2].
    + destruct (Hrq _ _ K2) as [O2|[O2 _]]; [exact (H5 _ _ _ _ _ _ _ E1 K1 Hc O2)|]. by destruct (Hlive _ _ _ _ E1 K1).
    + destruct (Hrq _ _ K1) as [O1|[O1 _]]; [exact (H5 _ _ _ _ _ _ _ Hc O1 E2 K2)|]. by destruct (Hlive _ _ _ _ E2 K2).
    + exact (H5 _ _ _ _ _ _ _ E1 K1 E2 K2).
  - rewrite Hc'. intros c1 cl1 i c2 cl2 E1 E2 K.
    assert (exists d2 dl2, clients w !! d2 = Some dl2 /\ c_ep cl2 = c_ep dl2) as (d2 & dl2 & F2 & G2)
      by (split_inserts; eauto).
    rewrite G2 in K. clear E2 G2. split_inserts; [|exact (H6 _ _ _ _ _ E1 F2 K)].
    destruct (Hrq _ _ K) as [O|[O _]]; [exact (H6 _ _ _ _ _ Hc F2 O)|].
    destruct (H1 _ _ F2) as [x Hx]. congruence.
  - rewrite Hc'. intros c1 cl1 c2 cl2 E1 E2 E.
    assert (exists dl1, clients w !! c1 = Some dl1 /\ dest_id (c_conn cl1) = dest_id (c_conn dl1)) as (dl1 & F1 & G1)
      by (split_inserts; eauto).
    assert (exists dl2, clients w !! c2 = Some dl2 /\ dest_id (c_conn cl2) = dest_id (c_conn dl2)) as (dl2 & F2 & G2)
      by (split_inserts; eauto).
    apply (H7 _ _ _ _ F1 F2). congruence.
Qed.

(** *** The commands keep the tables *)

(** The memory of a command is at least as long as it says. *)
Definition desc_ok (d : urom_worker_cmd_desc) : Prop := cd_len d <= Z.of_nat (length (cd_plugin_cmd d)).

(** The allocator returns a free address. *)
Definition answers_ok (a : cmd_answers) (w : worker) : Prop := mkey_heap w !! mkey_address a = None.

(** The one command that can go wrong: a deregistration for whose notification there is no
    memory deletes from the table of the queues with the iterator of the table of the
    regions, which may lie outside. *)
Definition wild_delete (a : cmd_answers) (e : ub) (cmd : res urom_worker_rdmo_cmd) : Prop :=
  e = OutOfBounds /\ nd_alloc a = false /\ other_bucket a = NoBucket /\ exists rkey, cmd = Ok (CmdMrDereg rkey).

Definition handled (a : cmd_answers) (d : urom_worker_cmd_desc) (o : outcome (rdmo_plugin * doca_error_t)) : Prop :=
  match o with
  | Ret (p, _) => tables_ok (engine p)
  | Undef e => exists cmd, urom_worker_rdmo_cmd_unpack d = Ret cmd /\ wild_delete a e cmd
  end.

Section commands.
Context (env : ucx_env) `{!UcxLaws env}.

Lemma dest_to_client_Some w dest c cl :
  urom_worker_rdmo_dest_to_client env w dest = Some (c, cl) ->
  clients w !! c = Some cl /\ dest_id (c_conn cl) = dest.
Proof.
  unfold urom_worker_rdmo_dest_to_client. intros H%List.find_some. destruct H as [Hin Hd].
  apply list_elem_of_In in Hin. rewrite kh_walk_perm in Hin. apply elem_of_map_to_list in Hin.
  split; [done|]. by apply Z.eqb_eq in Hd.
Qed.

Lemma dest_to_client_None w dest c cl :
  urom_worker_rdmo_dest_to_client env w dest = None -> clients w !! c = Some cl -> dest_id (c_conn cl) <> dest.
Proof.
  unfold urom_worker_rdmo_dest_to_client. intros H Hc Hd.
  assert ((c, cl) ∈ kh_walk env _ (clients w)) as Hin by (rewrite kh_walk_perm; by apply elem_of_map_to_list).
  apply list_elem_of_In in Hin. apply (List.find_none _ _ H) in Hin. cbn in Hin. apply Z.eqb_neq in Hin. done.
Qed.

Lemma ep_get_ok a addr w w' r :
  urom_worker_rdmo_ep_get a addr w = (w', r) ->
  match r with
  | Ok h => eps w !! h = None /\ w' = set_eps (<[h := Ep [] 0]> (eps w)) w
  | Err _ => w' = w
  end.
Proof.
  unfold urom_worker_rdmo_ep_get. intros H. destruct (negb (ep_alloc a)); [by injection H as <- <-|].
  destruct (ep_create a _) as [h|]; [|by injection H as <- <-].
  destruct (kh_put_new (ep_grow a) h (eps w)) eqn:E; cbn [negb] in H; injection H as <- <-; [|done].
  unfold kh_put_new in E. apply andb_true_iff in E as [_ E%bool_decide_eq_true]. done.
Qed.

Lemma client_init_ok a d id addr p :
  tables_ok (engine p) -> tables_ok (engine (fst (urom_worker_rdmo_client_init_cmd env a d id addr p))).
Proof.
  intros Hw. unfold urom_worker_rdmo_client_init_cmd. destruct (negb (nd_alloc a)); [done|].
  destruct (urom_worker_rdmo_dest_to_client env (engine p) (cd_dest_id d)) eqn:Hd; [done|].
  destruct (clients (engine p) !! id) eqn:Hid; [done|]. destruct (negb (obj_alloc a)); [done|].
  destruct (urom_worker_rdmo_ep_get a addr (engine p)) as [w1 r] eqn:He. apply ep_get_ok in He.
  destruct r as [h|e]; [|by subst w1]. destruct He as [Hfresh ->].
  assert (tables_ok (set_eps (<[h := Ep [] 0]> (eps (engine p))) (engine p))) as Hw1 by (by apply add_ep_ok).
  destruct (negb (mkeys_init a)); [done|]. destruct (negb (rqs_init a)); [done|]. destruct (negb _); [done|].
  cbn [fst push_notif set_engine engine]. apply add_client_ok; try done.
  - cbn. by rewrite lookup_insert_eq.
  - cbn. intros c cl i Hc Hi. destruct (to_rqs _ Hw c cl i h Hc Hi) as [x Hx]. congruence.
  - cbn. intros c cl Hc. by eapply dest_to_client_None.
Qed.

Lemma rq_create_ok a d addr p :
  tables_ok (engine p) -> tables_ok (engine (fst (urom_worker_rdmo_rq_create_cmd env a d addr p))).
Proof.
  intros Hw. unfold urom_worker_rdmo_rq_create_cmd. destruct (negb (nd_alloc a)); [done|].
  destruct (urom_worker_rdmo_dest_to_client env (engine p) (cd_dest_id d)) as [[c cl]|] eqn:Hd; [|done].
  apply dest_to_client_Some in Hd as [Hc _]. destruct (negb (obj_alloc a)); [done|].
  set (id := next_rq_id (c_conn cl)). set (w1 := upd_client c _ (engine p)).
  assert (clients w1 = <[c := set_conn (fun cn => Conn (dest_id cn) (rqs cn) (u64 (id + 1))) cl]> (clients (engine p))) as Hc1
    by (cbn; by apply alter_Some).
  assert (tables_ok w1) as Hw1.
  { eapply (replace_client_ok _ _ c cl _ Hw Hc Hc1); try done; [apply Hw|..].
    - rewrite Hc1. intros e el i h E K. split_inserts; by eapply (to_rqs _ Hw).
    - by left.
    - rewrite Hc1. intros e el i h E K. split_inserts; by eapply (to_mkeys _ Hw).
    - by left. }
  destruct (kh_put_new (put_grow a) id (rqs (c_conn cl))) eqn:Hput; [|done]. cbn [negb].
  destruct (urom_worker_rdmo_ep_get a addr w1) as [w2 r] eqn:He. apply ep_get_ok in He.
  destruct r as [h|e]; [|by subst w2]. destruct He as [Hfresh ->]. cbn [fst push_notif set_engine engine].
  assert (clients w1 !! c = Some (set_conn (fun cn => Conn (dest_id cn) (rqs cn) (u64 (id + 1))) cl)) as Hc2
    by (rewrite Hc1; apply lookup_insert_eq).
  assert (rqs (c_conn cl) !! id = None) as Hid by (unfold kh_put_new in Hput; by apply andb_true_iff in Hput as [_ ?%bool_decide_eq_true]).
  assert (forall e, is_Some (eps w1 !! e) -> is_Some (<[h := Ep [] 0]> (eps w1) !! e)) as Hup.
  { intros e He. rewrite lookup_insert_is_Some. destruct (decide (h = e)); auto. }
  eapply (replace_client_ok w1 _ c _ _ Hw1 Hc2); [cbn; apply alter_Some, Hc2|done|done|..].
  - intros e el E. apply Hup. by apply (to_client_ep _ Hw1 e).
  - cbn [upd_client set_clients clients set_eps eps]. rewrite (alter_Some _ _ _ _ Hc2). intros e el i g E K. split_inserts.
    + cbn in K. split_inserts; [by rewrite lookup_insert_eq|]. apply Hup. by eapply (to_rqs _ Hw1 _ _ _ _ Hc2).
    + apply Hup. by eapply (to_rqs _ Hw1).
  - cbn. intros i g K. split_inserts; [right|by left]. split; [done|]. intros j K. split_inserts; [done|].
    destruct (to_rqs _ Hw1 _ _ _ _ Hc2 K) as [x Hx]. congruence.
  - cbn [upd_client set_clients clients set_eps eps mkey_heap]. rewrite (alter_Some _ _ _ _ Hc2). intros e el i g E K. split_inserts.
    + by eapply (to_mkeys _ Hw1 _ _ _ _ Hc2).
    + by eapply (to_mkeys _ Hw1).
  - by left.
Qed.

(** Dropping a receive queue, together with its end-point or not. *)
Lemma drop_rq_ok w w' c cl rq :
  tables_ok w -> clients w !! c = Some cl ->
  w' = upd_client c (set_conn (set_rqs (delete rq))) w
  \/ (exists h, rqs (c_conn cl) !! rq = Some h
       /\ w' = upd_client c (set_conn (set_rqs (delete rq))) (set_eps (delete h (eps w)) w)) ->
  tables_ok w'.
Proof.
  intros Hw Hc Hcase.
  assert (clients w' = <[c := set_conn (set_rqs (delete rq)) cl]> (clients w) /\ mkey_heap w' = mkey_heap w) as [Hc' Hm'].
  { destruct Hcase as [-> |(h & _ & ->)]; (split; [|done]); cbn; by apply alter_Some. }
  eapply (replace_client_ok w w' c cl _ Hw Hc Hc'); try done.
  - intros e el E. destruct Hcase as [-> |(h & Hh & ->)]; [by apply (to_client_ep _ Hw e)|]. cbn.
    rewrite lookup_delete_ne; [by apply (to_client_ep _ Hw e)|]. intros ->. by apply (to_rq_ep _ Hw c cl rq e el).
  - rewrite Hc'. intros e el i g E K. assert (is_Some (eps w !! g)) as Hg.
    { split_inserts; [cbn in K; split_inserts; by eapply (to_rqs _ Hw _ _ _ _ Hc)|by eapply (to_rqs _ Hw)]. }
    destruct Hcase as [-> |(h & Hh & ->)]; [done|]. cbn. rewrite lookup_delete_ne; [done|]. intros ->.
    split_inserts.
    + cbn in K. split_inserts. by destruct (to_rq_own _ Hw _ _ _ _ _ _ _ Hc Hh Hc K).
    + by destruct (to_rq_own _ Hw _ _ _ _ _ _ _ Hc Hh E K).
  - cbn. intros i g K. split_inserts. by left.
  - rewrite Hc', Hm'. intros e el i g E K. split_inserts; by eapply (to_mkeys _ Hw).
  - by left.
Qed.

Lemma rq_destroy_ok a d rq p :
  tables_ok (engine p) ->
  exists p' e, urom_worker_rdmo_rq_destroy_cmd env a d rq p = Ret (p', e) /\ tables_ok (engine p').
Proof.
  intros Hw. unfold urom_worker_rdmo_rq_destroy_cmd.
  destruct (urom_worker_rdmo_dest_to_client env (engine p) (cd_dest_id d)) as [[c cl]|] eqn:Hd; [|by eauto].
  apply dest_to_client_Some in Hd as [Hc _]. set (drop_rq := upd_client c _).
  assert (tables_ok (drop_rq (engine p))) as Hdrop by (eapply (drop_rq_ok _ _ c cl rq Hw Hc); by left).
  destruct (rqs (c_conn cl) !! rq) as [h|] eqn:Hrq.
  - unfold urom_worker_rdmo_ep_del, ep_at. destruct (to_rqs _ Hw c cl rq h Hc Hrq) as [x Hx]. rewrite Hx. cbn [of_option].
    assert (tables_ok (drop_rq (set_eps (delete h (eps (engine p))) (engine p)))) as Hboth
      by (eapply (drop_rq_ok _ _ c cl rq Hw Hc); right; eauto).
    destruct (ep_close_ok a); cbn [negb].
    + change (bool_decide (DOCA_SUCCESS = DOCA_SUCCESS)) with true. destruct (nd_alloc a); cbn [negb]; eexists _, _; split; try done.
      cbn [engine set_engine]. eapply (drop_rq_ok _ _ c (set_conn (set_rqs (delete rq)) cl) rq Hboth); [|by left].
      cbn. by rewrite lookup_alter_eq, Hc.
    + change (bool_decide (DOCA_ERROR_DRIVER = DOCA_SUCCESS)) with false. destruct (nd_alloc a); cbn [negb]; by eexists _, _.
  - destruct (nd_alloc a); cbn [negb]; by eexists _, _.
Qed.

Lemma mr_reg_ok a d v l rk mh p :
  tables_ok (engine p) -> answers_ok a (engine p) ->
  tables_ok (engine (fst (urom_worker_rdmo_mr_reg_cmd env a d v l rk mh p))).
Proof.
  intros Hw Hfresh. unfold answers_ok in Hfresh. unfold urom_worker_rdmo_mr_reg_cmd. destruct (negb (nd_alloc a)); [done|].
  destruct (negb (obj_alloc a)); [done|].
  destruct (urom_worker_rdmo_dest_to_client env (engine p) (cd_dest_id d)) as [[c cl]|] eqn:Hd; [|done].
  apply dest_to_client_Some in Hd as [Hc _]. destruct (rkey_unpack a (p_mem rk)) as [rkey|]; [|done].
  set (memh := if p_num mh =? 0 then _ else _). set (b := match memh with MapOk => true | _ => false end).
  assert (tables_ok (set_mkeys (<[mkey_address a := Mkey rkey b ∅ v l]> (mkey_heap (engine p)))
            (upd_client c (set_client_mkeys (insert rkey (mkey_address a))) (engine p)))) as Hnew.
  { eapply (replace_client_ok (engine p) _ c cl _ Hw Hc); [cbn; by apply alter_Some|done|done|apply Hw|..].
    - cbn. rewrite (alter_Some _ _ _ _ Hc). intros e el i h E K. split_inserts; by eapply (to_rqs _ Hw).
    - by left.
    - cbn. rewrite (alter_Some _ _ _ _ Hc). intros e el r k E K.
      assert (forall k', is_Some (mkey_heap (engine p) !! k') -> k' <> mkey_address a) as Hne by (intros k' [? ?] ->; congruence).
      split_inserts; [cbn in K; split_inserts; [rewrite lookup_insert_eq; eauto|]|].
      + destruct (to_mkeys _ Hw _ _ _ _ Hc K) as (m & Hm & Hr). rewrite lookup_insert_ne by (symmetry; by apply Hne). eauto.
      + destruct (to_mkeys _ Hw _ _ _ _ E K) as (m & Hm & Hr). rewrite lookup_insert_ne by (symmetry; by apply Hne). eauto.
    - cbn. intros r k K. split_inserts; [right|by left]. split; [done|]. intros j K. split_inserts; [done|].
      destruct (to_mkeys _ Hw _ _ _ _ Hc K) as (m & Hm & _). congruence. }
  destruct memh; try done; destruct (negb (cache_init a)); try done; by destruct (negb _).
Qed.

Lemma mr_dereg_ok a d rkey p :
  tables_ok (engine p) ->
  match urom_worker_rdmo_mr_dereg_cmd env a d rkey p with
  | Ret (p', _) => tables_ok (engine p')
  | Undef e => e = OutOfBounds /\ nd_alloc a = false /\ other_bucket a = NoBucket
  end.
Proof.
  intros Hw. unfold urom_worker_rdmo_mr_dereg_cmd.
  destruct (urom_worker_rdmo_dest_to_client env (engine p) (cd_dest_id d)) as [[c cl]|] eqn:Hd; [|done].
  apply dest_to_client_Some in Hd as [Hc _].
  assert (exists w1 cl1 e1, match mkeys cl !! rkey with
      | Some k => let* m := mkey_at k (engine p) in
          if ucp_memh m && negb (mem_unmap_ok a) then Ret (engine p, DOCA_ERROR_DRIVER)
          else Ret (set_mkeys (delete k (mkey_heap (upd_client c (set_client_mkeys (delete rkey)) (engine p))))
                      (upd_client c (set_client_mkeys (delete rkey)) (engine p)), DOCA_SUCCESS)
      | None => Ret (engine p, DOCA_ERROR_NOT_FOUND) end = Ret (w1, e1) /\ tables_ok w1 /\ clients w1 !! c = Some cl1)
    as (w1 & cl1 & e1 & -> & Hw1 & Hc1).
  { destruct (mkeys cl !! rkey) as [k|] eqn:Hk; [|by eexists _, _, _].
    destruct (to_mkeys _ Hw c cl rkey k Hc Hk) as (m & Hm & _). unfold mkey_at. rewrite Hm. cbn [of_option].
    destruct (ucp_memh m && _); [by eexists _, _, _|]. eexists _, _, _. split; [reflexivity|].
    split; [|cbn; by rewrite lookup_alter_eq, Hc].
    eapply (replace_client_ok (engine p) _ c cl _ Hw Hc); [cbn; by apply alter_Some|done|done|apply Hw|..].
    - cbn. rewrite (alter_Some _ _ _ _ Hc). intros e el i h E K. split_inserts; by eapply (to_rqs _ Hw).
    - by left.
    - cbn. rewrite (alter_Some _ _ _ _ Hc). intros e el r k' E K. split_inserts.
      + cbn in K. split_inserts. destruct (to_mkeys _ Hw _ _ _ _ Hc K) as (m' & Hm' & Hr).
        rewrite lookup_delete_ne; [eauto|]. intros ->. by destruct (to_owner _ Hw _ _ _ _ _ _ _ Hc Hk Hc K).
      + destruct (to_mkeys _ Hw _ _ _ _ E K) as (m' & Hm' & Hr).
        rewrite lookup_delete_ne; [eauto|]. intros ->. by destruct (to_owner _ Hw _ _ _ _ _ _ _ Hc Hk E K).
    - cbn. intros r k' K. split_inserts. by left. }
  destruct (nd_alloc a); cbn; [done|].
  destruct (other_bucket a) as [|rq|]; cbn [delete_bucket]; [done| |done].
  cbn [engine set_engine]. eapply (drop_rq_ok w1 _ c cl1 rq Hw1 Hc1). by left.
Qed.

(** A command is handled and keeps the tables, or is that deregistration. *)
Lemma handle_cmd_ok a d p :
  tables_ok (engine p) -> desc_ok d -> answers_ok a (engine p) -> handled a d (handle_cmd env a d p).
Proof.
  intros Hw Hd Ha. unfold handle_cmd, handled.
  assert (exists r, urom_worker_rdmo_cmd_unpack d = Ret r) as [r ->].
  { unfold urom_worker_rdmo_cmd_unpack, desc_ok, SIZEOF_CMD in *. destruct (cd_len d <? _) eqn:E; [by eauto|].
    apply Z.ltb_ge in E. rewrite (proj2 (Nat.leb_le _ _)) by lia. cbn [require].
    match goal with |- context [let '(cmd, ext) := ?x in _] => destruct x as [cmd ext] end. destruct (negb _); eauto. }
  destruct r as [[id addr n|addr n|rq|v l rk rl mh ml|rkey|t]|e]; cbn; try done.
  - pose proof (client_init_ok a d id addr p Hw) as H. by destruct (urom_worker_rdmo_client_init_cmd _ _ _ _ _ _).
  - pose proof (rq_create_ok a d addr p Hw) as H. by destruct (urom_worker_rdmo_rq_create_cmd _ _ _ _ _).
  - by destruct (rq_destroy_ok a d rq p Hw) as (p' & e & -> & H).
  - pose proof (mr_reg_ok a d v l rk mh p Hw Ha) as H. by destruct (urom_worker_rdmo_mr_reg_cmd _ _ _ _ _ _ _ _).
  - pose proof (mr_dereg_ok a d rkey p Hw) as H. destruct (urom_worker_rdmo_mr_dereg_cmd _ _ _ _ _) as [[]|e]; [done|].
    destruct H as (-> & H1 & H2). eexists. split; [done|]. split_and!; [done..|by eexists].
Qed.
End commands.

(** ** The theorems about the wire *)

Definition task_ok (t : task_env) : Prop :=
  t_alloc t = DOCA_SUCCESS /\ t_get_data t = DOCA_SUCCESS /\ t_get_len t = DOCA_SUCCESS /\ t_submit t = DOCA_SUCCESS.

(** The descriptor in which the UROM library delivers a payload. *)
Definition desc_of (dest type ctx base : Z) (msg : list Z) : urom_worker_cmd_desc :=
  CmdDesc dest type ctx (Z.of_nat (length msg)) base msg.

(** Every command the host submits arrives at the worker with the same members, and
    its pointers lead to the bytes the host's pointers led to. *)
Theorem commands_arrive t c dest type ctx base :
  task_ok t -> cmd_wf c -> (SIZEOF_CMD + length (inline_data c) <= length (t_payload t))%nat ->
  exists msg c', submit_cmd t c = Ret (Some msg, DOCA_SUCCESS)
    /\ Z.of_nat (length msg) = urom_worker_rdmo_cmd_packed_len c
    /\ urom_worker_rdmo_cmd_unpack (desc_of dest type ctx base msg) = Ret (Ok c') /\ same_cmd c c'.
Proof.
  intros (Ha & Hd & Hn & Hs) Hw Hl. eexists _, (delivered base c). rewrite (submit_cmd_ok t c) by done.
  split; [done|]. split.
  - rewrite (packed_len_inline c Hw), length_app, length_take, length_store_cmd by lia. lia.
  - split; [|by apply delivered_same]. apply unpack_ok; [done|lia].
Qed.

Definition notify_wf (n : urom_worker_notify_rdmo) : Prop :=
  match n with
  | NotifyClientInit addr len => readable addr len /\ len < 2 ^ 31
  | NotifyRqCreate v | NotifyRqDestroy v | NotifyMrReg v | NotifyMrDereg v => in_width 64 v
  end.

Definition same_notify (n n' : urom_worker_notify_rdmo) : Prop :=
  match n, n' with
  | NotifyClientInit p len, NotifyClientInit p' len' => len' = len /\ p_mem p' = take (Z.to_nat len) (p_mem p)
  | _, _ => n' = n
  end.

Lemma length_notify_image n : length (notify_image n) = SIZEOF_NOTIFY.
Proof. by destruct n. Qed.

Lemma notify_word off v pre post bs :
  bs = pre ++ le_bytes 8 v ++ post -> length pre = off -> in_width 64 v -> load off 8 bs = v.
Proof.
  intros -> <- Hv. rewrite load_unfold, drop_app_length, take_app_length' by (by rewrite length_le_bytes).
  rewrite le_value_le_bytes. by apply (uwrap_id 64).
Qed.

Lemma notify_returns n type base status :
  notify_wf n ->
  exists reply n', urom_worker_rdmo_notif_pack n = Ret reply
    /\ urom_rdmo_completion type (Response true (Some reply) base DOCA_SUCCESS DOCA_SUCCESS status) = Ret (Some (status, n'))
    /\ same_notify n n'.
Proof.
  intros Hw.
  set (tail := match n with NotifyClientInit p len => take (Z.to_nat len) (p_mem p) | _ => [] end).
  assert (urom_worker_rdmo_notif_pack n = Ret (notify_image n ++ tail)) as Hp.
  { destruct n as [p len|v|v|v|v]; cbn [urom_worker_rdmo_notif_pack tail]; rewrite ?app_nil_r; try done.
    destruct Hw as [[H0 H1] H2]. rewrite (swrap_id 32) by lia.
    by rewrite (proj2 (Z.leb_le _ _)), (proj2 (Z.leb_le _ _)) by lia. }
  set (reply := notify_image n ++ tail) in *. pose proof (length_notify_image n) as Hl.
  assert (length reply = (SIZEOF_NOTIFY + length tail)%nat) as Hr by (unfold reply; rewrite length_app; lia).
  assert (load 0 8 reply = notify_type n) as Ht.
  { unfold reply, notify_image. rewrite <-app_assoc. apply (notify_word 0 _ [] _ _ eq_refl); [done|]. destruct n; done. }
  assert (exists n', urom_worker_rdmo_notif_unpack base reply = Some n' /\ same_notify n n'
    /\ Z.of_nat (length reply) = u64 (Z.of_nat SIZEOF_NOTIFY + match n' with NotifyClientInit _ len => len | _ => 0 end))
    as (n' & En & Hs & Hlen).
  { unfold urom_worker_rdmo_notif_unpack. rewrite Ht. destruct n as [p len|v|v|v|v]; cbn [notify_type];
      cbv [UROM_WORKER_NOTIFY_RDMO_CLIENT_INIT UROM_WORKER_NOTIFY_RDMO_RQ_CREATE UROM_WORKER_NOTIFY_RDMO_RQ_DESTROY
           UROM_WORKER_NOTIFY_RDMO_MR_REG UROM_WORKER_NOTIFY_RDMO_MR_DEREG]; cbn [Z.eqb Pos.eqb];
      (eexists; split; [reflexivity|]); cbn [same_notify].
    - destruct Hw as [[H0 H1] H2]. assert (load 16 8 reply = len) as ->.
      { apply (notify_word 16 len (le_bytes 8 0 ++ le_bytes 8 (p_num p)) tail); [|done|unfold in_width; lia].
        unfold reply, notify_image. by rewrite <-!app_assoc. }
      split; [split; [done|]|].
      + cbn [p_mem]. unfold reply. by rewrite <-Hl, drop_app_length.
      + rewrite Hr, (uwrap_id 64) by (unfold in_width, SIZEOF_NOTIFY; lia). unfold tail. rewrite length_take_le; lia.
    - rewrite (notify_word 8 v (le_bytes 8 1) (replicate 8 0 ++ tail) reply) by done. by split; [|rewrite Hr].
    - rewrite (notify_word 8 v (le_bytes 8 2) (replicate 8 0 ++ tail) reply) by done. by split; [|rewrite Hr].
    - rewrite (notify_word 8 v (le_bytes 8 3) (replicate 8 0 ++ tail) reply) by done. by split; [|rewrite Hr].
    - rewrite (notify_word 8 v (le_bytes 8 4) (replicate 8 0 ++ tail) reply) by done. by split; [|rewrite Hr]. }
  exists reply, n'. split; [done|]. split; [|done]. unfold urom_rdmo_completion. cbn [r_task_data negb r_buf r_get_data r_get_len r_base r_status].
  change (bool_decide (DOCA_SUCCESS = DOCA_SUCCESS)) with true. cbn [negb].
  rewrite (proj2 (Nat.leb_le _ _)) by lia. cbn [require]. rewrite En. case_bool_decide as Hst; cbn [negb]; [|done].
  subst status. destruct n'; rewrite Hlen, Z.eqb_refl; done.
Qed.

(** The notification of the worker reaches the user's callback on the host: the
    callback of the same kind is called with the task's status and the members the
    worker wrote. *)
Theorem notifications_return n type base status :
  notify_wf n ->
  exists reply n', urom_worker_rdmo_notif_pack n = Ret reply
    /\ urom_rdmo_completion type (Response true (Some reply) base DOCA_SUCCESS DOCA_SUCCESS status) = Ret (Some (status, n'))
    /\ same_notify n n'.
Proof. by apply notify_returns. Qed.

(** ** The theorems about the plugin *)

(** Everything that can happen to the plugin: commands of the host, requests of the
    initiators and completions of UCX, in any order. *)
Inductive plugin_reaches (env : ucx_env) : rdmo_plugin -> rdmo_plugin -> Prop :=
| ReachNothing p : plugin_reaches env p p
| ReachCommand p1 p2 p3 a d e :
    plugin_reaches env p1 p2 -> desc_ok d -> answers_ok a (engine p2) ->
    handle_cmd env a d p2 = Ret (p3, e) -> plugin_reaches env p1 p3
| ReachRequest p1 p2 h data len rndv ep w s :
    plugin_reaches env p1 p2 -> urom_worker_rdmo_am_cb env h data len rndv ep (engine p2) = Ret (w, s) ->
    plugin_reaches env p1 (set_engine w p2)
| ReachDone p1 p2 x v w :
    plugin_reaches env p1 p2 -> complete env x v (engine p2) = Ret w -> plugin_reaches env p1 (set_engine w p2)
| ReachProgress p1 p2 :
    plugin_reaches env p1 p2 -> plugin_reaches env p1 (fst (fst (urom_worker_rdmo_progress p2))).

Lemma reaches_tables env `{!UcxLaws env} p p' :
  plugin_reaches env p p' -> tables_ok (engine p) -> tables_ok (engine p').
Proof.
  intros H Hp. induction H as [p|p1 p2 p3 a d e _ IH Hd Ha E|p1 p2 h data len rndv ep w s _ IH E|p1 p2 x v w _ IH E|p1 p2 _ IH];
    [done|..]; specialize (IH Hp).
  - pose proof (handle_cmd_ok env a d p2 IH Hd Ha) as H. by rewrite E in H.
  - apply am_cb_shape in E. by apply (shape_tables _ _ E).
  - apply complete_shape in E. by apply (shape_tables _ _ E).
  - unfold urom_worker_rdmo_progress. by destruct (completed_reqs p2).
Qed.


Lemma tables_start : forall n mem l, tables_ok (Worker ∅ ∅ ∅ ∅ n mem l).
Proof. intros n mem l. split; cbn; intros; set_solver. Qed.

(** One notification for the command's channel and context with the status returned (a
    registration returns success in any case), or none and an error. *)
Definition notified (d : urom_worker_cmd_desc) (p p' : rdmo_plugin) (e : doca_error_t) : Prop :=
  (exists n, completed_reqs p' = completed_reqs p ++ [n] /\ nd_dest_id n = cd_dest_id d
     /\ nd_urom_context n = cd_urom_context d /\ nd_type n = cd_type d
     /\ (e = nd_status n \/ exists rkey, nd_notif n = NotifyMrReg rkey))
  \/ (completed_reqs p' = completed_reqs p /\ e <> DOCA_SUCCESS).

(** The end of a handler: a notification was pushed, or an error is returned. *)
Ltac handler_end H :=
  injection H as <- <-;
  first [by right | left; eexists; split; [reflexivity|]; cbn; by eauto 10].

Ltac handler_cases H :=
  repeat match type of H with
  | (if ?b then _ else _) = _ => match type of b with bool => destruct b; [by handler_end H|] end
  end.

Lemma client_init_notifies env a d id addr p p' e :
  urom_worker_rdmo_client_init_cmd env a d id addr p = (p', e) -> notified d p p' e.
Proof.
  unfold urom_worker_rdmo_client_init_cmd. intros H. handler_cases H.
  destruct (urom_worker_rdmo_dest_to_client _ _ _); [by handler_end H|].
  destruct (clients (engine p) !! id); [by handler_end H|]. handler_cases H.
  destruct (urom_worker_rdmo_ep_get a addr (engine p)) as [w1 [h|e1]]; [|by handler_end H].
  handler_cases H. handler_end H.
Qed.

Lemma rq_create_notifies env a d addr p p' e :
  urom_worker_rdmo_rq_create_cmd env a d addr p = (p', e) -> notified d p p' e.
Proof.
  unfold urom_worker_rdmo_rq_create_cmd. intros H. handler_cases H.
  destruct (urom_worker_rdmo_dest_to_client _ _ _) as [[c cl]|]; [|by handler_end H]. handler_cases H.
  destruct (urom_worker_rdmo_ep_get a addr _) as [w1 [h|e1]]; handler_end H.
Qed.

Lemma mr_reg_notifies env a d v l rk mh p p' e :
  urom_worker_rdmo_mr_reg_cmd env a d v l rk mh p = (p', e) -> notified d p p' e.
Proof.
  unfold urom_worker_rdmo_mr_reg_cmd. intros H. handler_cases H.
  destruct (urom_worker_rdmo_dest_to_client _ _ _) as [[c cl]|]; [|by handler_end H].
  destruct (rkey_unpack a _); [|by handler_end H].
  destruct (if _ =? _ then _ else _); try (by handler_end H); handler_cases H; handler_end H.
Qed.

Lemma rq_destroy_notifies env a d rq p p' e :
  urom_worker_rdmo_rq_destroy_cmd env a d rq p = Ret (p', e) -> notified d p p' e.
Proof.
  unfold urom_worker_rdmo_rq_destroy_cmd. intros H.
  destruct (urom_worker_rdmo_dest_to_client _ _ _) as [[c cl]|]; [|by handler_end H].
  obind H. destruct a0 as [w1 e1]. destruct (negb (nd_alloc a)); handler_end H.
Qed.

Lemma mr_dereg_notifies env a d rkey p p' e :
  urom_worker_rdmo_mr_dereg_cmd env a d rkey p = Ret (p', e) -> notified d p p' e.
Proof.
  unfold urom_worker_rdmo_mr_dereg_cmd. intros H.
  destruct (urom_worker_rdmo_dest_to_client _ _ _) as [[c cl]|]; [|by handler_end H].
  obind H. destruct a0 as [w1 e1]. destruct (negb (nd_alloc a)); [obind H|]; handler_end H.
Qed.

Lemma unpack_error d e : urom_worker_rdmo_cmd_unpack d = Ret (Err e) -> e = DOCA_ERROR_INVALID_VALUE.
Proof.
  unfold urom_worker_rdmo_cmd_unpack. intros H. destruct (cd_len d <? _); [by injection H as <-|]. obind H.
  match type of H with context [let '(cmd, ext) := ?x in _] => destruct x as [cmd ext] end.
  destruct (negb _); [by injection H as <-|discriminate].
Qed.

(** A command leaves at most one notification, for its own channel and context, with
    the status the handler returned; one that leaves none reports an error, and the
    host's task does not complete. *)
Theorem command_notifies env a d p p' e : handle_cmd env a d p = Ret (p', e) -> notified d p p' e.
Proof.
  unfold handle_cmd. intros H. obind H. destruct a0 as [[id addr n|addr n|rq|v l rk rl mh ml|rkey|t]|e0].
  - injection H as H. by apply client_init_notifies in H.
  - injection H as H. by apply rq_create_notifies in H.
  - by apply rq_destroy_notifies in H.
  - injection H as H. by apply mr_reg_notifies in H.
  - by apply mr_dereg_notifies in H.
  - handler_end H.
  - apply unpack_error in E as ->. handler_end H.
Qed.

(** A registration travels from the host to the table of the engine and its key back to
    the host: the region the worker keeps has the address and length the host gave,
    and the key the callback receives names it. *)
Theorem registration_roundtrip env `{!UcxLaws env} t v l rk rl mh ml a dest type ctx base p c cl rkey reply_base :
  task_ok t -> cmd_wf (CmdMrReg v l rk rl mh ml) ->
  (SIZEOF_CMD + length (inline_data (CmdMrReg v l rk rl mh ml)) <= length (t_payload t))%nat -> 0 <= base ->
  urom_worker_rdmo_dest_to_client env (engine p) dest = Some (c, cl) ->
  nd_alloc a = true -> obj_alloc a = true -> cache_init a = true -> put_grow a = true ->
  (forall x, take (Z.to_nat rl) x = take (Z.to_nat rl) (p_mem rk) -> rkey_unpack a x = Some rkey) ->
  mem_map a (take (Z.to_nat ml) (p_mem mh)) <> MapError -> mkeys cl !! rkey = None -> in_width 64 rkey ->
  exists msg p' n cl' m reply,
    urom_rdmo_task_mr_register t v l rk rl mh ml = Ret (Some msg, DOCA_SUCCESS)
    /\ handle_cmd env a (desc_of dest type ctx base msg) p = Ret (p', DOCA_SUCCESS)
    /\ clients (engine p') !! c = Some cl' /\ mkeys cl' !! rkey = Some (mkey_address a)
    /\ mkey_heap (engine p') !! mkey_address a = Some m /\ va m = v /\ mk_len m = l /\ ucp_rkey m = rkey
    /\ completed_reqs p' = completed_reqs p ++ [n] /\ nd_dest_id n = dest
    /\ urom_worker_rdmo_notif_pack (nd_notif n) = Ret reply
    /\ urom_rdmo_completion UROM_WORKER_NOTIFY_RDMO_MR_REG (Response true (Some reply) reply_base DOCA_SUCCESS DOCA_SUCCESS (nd_status n))
       = Ret (Some (DOCA_SUCCESS, NotifyMrReg rkey)).
Proof.
  intros (Ha & Hd & Hn & Hs) Hw Hl Hb Hdest Hnd Hobj Hcache Hgrow Hrk Hmap Hnew Hwidth.
  pose proof (dest_to_client_Some env _ _ _ _ Hdest) as [Hc _].
  set (cmd := CmdMrReg v l rk rl mh ml) in *. set (msg := take SIZEOF_CMD (store_cmd cmd (t_payload t)) ++ inline_data cmd).
  set (b := match mem_map a (take (Z.to_nat ml) (p_mem mh)) with MapOk => true | _ => false end).
  assert (handle_cmd env a (desc_of dest type ctx base msg) p
    = Ret (push_notif (notif_for (desc_of dest type ctx base msg) (Z.of_nat SIZEOF_NOTIFY) DOCA_SUCCESS (NotifyMrReg rkey))
             (set_engine (set_mkeys (<[mkey_address a := Mkey rkey b ∅ v l]> (mkey_heap (engine p)))
                (upd_client c (set_client_mkeys (insert rkey (mkey_address a))) (engine p))) p), DOCA_SUCCESS)) as Hh.
  { unfold handle_cmd, desc_of, msg. rewrite (unpack_ok cmd (t_payload t)) by (done || lia). cbn [delivered cmd].
    unfold urom_worker_rdmo_mr_reg_cmd. rewrite Hnd, Hobj. cbn [negb cd_dest_id]. rewrite Hdest. cbn [p_mem p_num].
    rewrite Hrk; [|cbn [cmd cmd_wf] in Hw; unfold readable in Hw; unfold cmd; cbn [inline_data];
      rewrite take_app_le, take_take, Nat.min_id; [done|rewrite length_take; lia]].
    rewrite (proj2 (Z.eqb_neq _ 0)) by (unfold SIZEOF_CMD; lia). rewrite Hcache. cbn [negb].
    unfold kh_put_new. rewrite Hgrow, (bool_decide_true _ Hnew). cbn [andb negb]. unfold b. by destruct (mem_map a _). }
  destruct (notify_returns (NotifyMrReg rkey) UROM_WORKER_NOTIFY_RDMO_MR_REG reply_base DOCA_SUCCESS Hwidth)
    as (reply & n' & Hpack & Hcb & ->).
  eexists msg, _, _, (set_client_mkeys (insert rkey (mkey_address a)) cl), (Mkey rkey b ∅ v l), reply.
  split; [by apply submit_cmd_ok|]. split; [exact Hh|]. cbn. rewrite lookup_alter_eq, Hc.
  rewrite !lookup_insert_eq. by split_and!.
Qed.

(** ** Where the commands go wrong *)

(** Destroying a receive queue frees its end-point although requests of that initiator
    are in progress: the completion of such a request uses the freed structure. *)
Theorem destroyed_queue_dangles env `{!UcxLaws env} a d p c cl rq h r q dl addr rkey data :
  urom_worker_rdmo_dest_to_client env (engine p) (cd_dest_id d) = Some (c, cl) ->
  rqs (c_conn cl) !! rq = Some h -> is_Some (eps (engine p) !! h) -> ep_close_ok a = true -> nd_alloc a = true ->
  reqs (engine p) !! r = Some q -> r_ep q = h -> hdr_op_id (r_header q) = UROM_RDMO_OP_APPEND -> ctx0 q = 3 ->
  clients (engine p) !! r_client q = Some dl ->
  exists p', urom_worker_rdmo_rq_destroy_cmd env a d rq p = Ret (p', DOCA_SUCCESS)
    /\ complete env (PutReq r addr rkey data) 0 (engine p') = Undef DanglingPointer.
Proof.
  intros Hd Hrq [x Hx] Hclose Hnd Hr He Hop Hst Hcl.
  unfold urom_worker_rdmo_rq_destroy_cmd. rewrite Hd, Hrq. unfold urom_worker_rdmo_ep_del, ep_at. rewrite Hx. cbn [of_option].
  rewrite Hclose, Hnd. cbn [negb]. change (bool_decide (DOCA_SUCCESS = DOCA_SUCCESS)) with true.
  eexists. split; [reflexivity|]. cbn [push_notif set_engine engine complete].
  set (w := upd_client c _ _). assert (reqs w !! r = Some q) as Hr' by done.
  assert (is_Some (clients w !! r_client q)) as [dl' Hdl].
  { cbn. destruct (decide (c = r_client q)) as [->|Hne]; [rewrite lookup_alter_eq|rewrite lookup_alter_ne by done]; by rewrite Hcl. }
  unfold urom_worker_rdmo_op_cb. assert (Rdmo.progress env r w = Ret (w, DOCA_SUCCESS)) as ->.
  { unfold Rdmo.progress, req_at. rewrite Hr'. cbn [of_option]. rewrite Hop.
    change (UROM_RDMO_OP_APPEND =? UROM_RDMO_OP_FLUSH) with false.
    change (UROM_RDMO_OP_APPEND =? UROM_RDMO_OP_APPEND) with true. cbv iota.
    unfold urom_worker_rdmo_append_progress, req_at, client_at. rewrite Hr'. cbn [of_option]. rewrite Hdl. cbn [of_option].
    by rewrite Hst. }
  change (bool_decide (DOCA_SUCCESS = DOCA_SUCCESS)) with true.
  unfold urom_worker_rdmo_req_free_data, req_at. rewrite Hr'. cbn [of_option].
  set (w2 := if r_rndv q then w else log_call (DataRelease r) w).
  assert (reqs w2 !! r = Some q /\ eps w2 !! h = None) as [Hr2 He2].
  { unfold w2. destruct (r_rndv q); cbn; (split; [done|]); apply lookup_delete_eq. }
  unfold urom_worker_rdmo_req_complete, urom_worker_rdmo_req_free, req_at, ep_at. rewrite Hr2. cbn [of_option].
  by rewrite He, He2.
Qed.

(** The worker maps the exported memory handle of every registration, also when the
    host has none: the pointer it tests always leads behind the structure. *)
Theorem null_memh_is_mapped env `{!UcxLaws env} t v l rk rl a dest type ctx base p c cl rkey :
  task_ok t -> cmd_wf (CmdMrReg v l rk rl NULL 0) ->
  (SIZEOF_CMD + length (inline_data (CmdMrReg v l rk rl NULL 0)) <= length (t_payload t))%nat -> 0 <= base ->
  urom_worker_rdmo_dest_to_client env (engine p) dest = Some (c, cl) ->
  nd_alloc a = true -> obj_alloc a = true -> (forall x, rkey_unpack a x = Some rkey) -> mem_map a [] = MapError ->
  exists msg p' n, urom_rdmo_task_mr_register t v l rk rl NULL 0 = Ret (Some msg, DOCA_SUCCESS)
    /\ handle_cmd env a (desc_of dest type ctx base msg) p = Ret (p', DOCA_SUCCESS)
    /\ engine p' = engine p /\ completed_reqs p' = completed_reqs p ++ [n] /\ nd_status n = DOCA_ERROR_DRIVER.
Proof.
  intros (Ha & Hd & Hn & Hs) Hw Hl Hb Hdest Hnd Hobj Hrk Hmap. set (cmd := CmdMrReg v l rk rl NULL 0) in *.
  eexists _, _, _. split; [by apply (submit_cmd_ok t cmd)|].
  unfold handle_cmd, desc_of. rewrite (unpack_ok cmd (t_payload t)) by (done || lia). cbn [delivered cmd].
  unfold urom_worker_rdmo_mr_reg_cmd. rewrite Hnd, Hobj. cbn [negb cd_dest_id]. rewrite Hdest, Hrk. cbn [p_mem p_num].
  rewrite (proj2 (Z.eqb_neq _ 0)) by (unfold SIZEOF_CMD; lia). change (take (Z.to_nat 0) (p_mem NULL)) with (@nil Z). rewrite Hmap.
  split; [reflexivity|]. by split.
Qed.

(** ** Concrete commands *)

Definition sample_task : task_env := TaskEnv DOCA_SUCCESS (replicate 100 170) DOCA_SUCCESS DOCA_SUCCESS DOCA_SUCCESS.

Definition sample_answers : cmd_answers := {|
  nd_alloc := true; obj_alloc := true; ep_alloc := true; ep_create _ := Some 77; ep_grow := true;
  mkeys_init := true; rqs_init := true; cache_init := true; put_grow := true;
  rkey_unpack _ := Some 900; mem_map _ := MapOk; mem_unmap_ok := true; ep_close_ok := true;
  mkey_address := 4096; other_bucket := EmptyBucket |}.

(** Client 7 on channel 1 with one region, one initiator and an append of it in
    progress. *)
Definition busy_append : urom_worker_rdmo_req := Req 7 9 sample_header [1] 1 false 9 3 1100 50.

Definition sample_plugin : rdmo_plugin :=
  Plugin (Worker {[7 := sample_client]} {[8 := Ep [] 0; 9 := Ep [] 1]} {[50 := sample_mkey]} {[3 := busy_append]}
            4 (fun _ => 0) [PutReq 3 1100 500 [1]]) [] (CPtr 64 [1; 2; 3]) 3.

(** The only client, its region and its queue. *)
Ltac only_entry :=
  repeat match goal with
  | H : {[_ := _]} !! _ = Some _ |- _ => apply lookup_singleton_Some in H as [? ?]; subst
  end.

Lemma sample_tables : tables_ok (engine sample_plugin).
Proof.
  split; cbn [engine sample_plugin clients eps mkey_heap]; intros; only_entry; cbn [sample_client sample_conn c_conn rqs mkeys c_ep] in *;
    only_entry; try (by eexists; eauto); try done.
  intros H. apply lookup_singleton_Some in H as [_ H]. discriminate H.
Qed.

Lemma sample_dest : urom_worker_rdmo_dest_to_client sample_env (engine sample_plugin) 1 = Some (7, sample_client).
Proof. reflexivity. Qed.

Definition sample_cmd : urom_worker_rdmo_cmd := CmdMrReg 3000 200 (CPtr 16 [1; 2; 3; 4]) 3 (CPtr 32 [9; 9]) 2.

Lemma sample_cmd_wf : cmd_wf sample_cmd.
Proof. vm_compute. intuition congruence. Qed.

Lemma commands_arrive_witness :
  exists msg c', submit_cmd sample_task sample_cmd = Ret (Some msg, DOCA_SUCCESS)
    /\ Z.of_nat (length msg) = urom_worker_rdmo_cmd_packed_len sample_cmd
    /\ urom_worker_rdmo_cmd_unpack (desc_of 1 2 3 4096 msg) = Ret (Ok c') /\ same_cmd sample_cmd c'.
Proof.
  apply commands_arrive.
  - by repeat split.
  - exact sample_cmd_wf.
  - apply Nat.leb_le. reflexivity.
Defined.

Lemma notifications_return_witness :
  exists reply n', urom_worker_rdmo_notif_pack (NotifyClientInit (CPtr 64 [1; 2; 3]) 3) = Ret reply
    /\ urom_rdmo_completion 0 (Response true (Some reply) 128 DOCA_SUCCESS DOCA_SUCCESS DOCA_SUCCESS) = Ret (Some (DOCA_SUCCESS, n'))
    /\ same_notify (NotifyClientInit (CPtr 64 [1; 2; 3]) 3) n'.
Proof. apply notifications_return. vm_compute. intuition congruence. Defined.

Definition sample_desc : urom_worker_cmd_desc :=
  match submit_cmd sample_task sample_cmd with Ret (Some msg, _) => desc_of 1 2 3 4096 msg | _ => desc_of 0 0 0 0 [] end.

Lemma sample_desc_ok : desc_ok sample_desc.
Proof. vm_compute. congruence. Qed.

Lemma sample_answers_ok : answers_ok sample_answers (engine sample_plugin).
Proof. reflexivity. Qed.


Definition sample_handled : rdmo_plugin :=
  match handle_cmd sample_env sample_answers sample_desc sample_plugin with Ret (p, _) => p | _ => sample_plugin end.

Lemma command_notifies_witness : notified sample_desc sample_plugin sample_handled DOCA_SUCCESS.
Proof. apply (command_notifies sample_env sample_answers). vm_compute. reflexivity. Defined.

Lemma registration_roundtrip_witness :
  exists msg p' n cl' m reply,
    urom_rdmo_task_mr_register sample_task 3000 200 (CPtr 16 [1; 2; 3; 4]) 3 (CPtr 32 [9; 9]) 2 = Ret (Some msg, DOCA_SUCCESS)
    /\ handle_cmd sample_env sample_answers (desc_of 1 2 3 4096 msg) sample_plugin = Ret (p', DOCA_SUCCESS)
    /\ clients (engine p') !! 7 = Some cl' /\ mkeys cl' !! 900 = Some (mkey_address sample_answers)
    /\ mkey_heap (engine p') !! mkey_address sample_answers = Some m /\ va m = 3000 /\ mk_len m = 200 /\ ucp_rkey m = 900
    /\ completed_reqs p' = completed_reqs sample_plugin ++ [n] /\ nd_dest_id n = 1
    /\ urom_worker_rdmo_notif_pack (nd_notif n) = Ret reply
    /\ urom_rdmo_completion UROM_WORKER_NOTIFY_RDMO_MR_REG (Response true (Some reply) 128 DOCA_SUCCESS DOCA_SUCCESS (nd_status n))
       = Ret (Some (DOCA_SUCCESS, NotifyMrReg 900)).
Proof.
  apply (registration_roundtrip sample_env sample_task 3000 200 (CPtr 16 [1; 2; 3; 4]) 3 (CPtr 32 [9; 9]) 2 sample_answers
           1 2 3 4096 sample_plugin 7 sample_client 900 128); try reflexivity.
  - by repeat split.
  - exact sample_cmd_wf.
  - apply Nat.leb_le. reflexivity.
  - lia.
  - discriminate.
  - by vm_compute.
Defined.

Lemma destroyed_queue_dangles_witness :
  exists p', urom_worker_rdmo_rq_destroy_cmd sample_env sample_answers (desc_of 1 2 3 0 []) 0 sample_plugin = Ret (p', DOCA_SUCCESS)
    /\ complete sample_env (PutReq 3 1100 500 [1]) 0 (engine p') = Undef DanglingPointer.
Proof.
  apply (destroyed_queue_dangles sample_env sample_answers (desc_of 1 2 3 0 []) sample_plugin 7 sample_client 0 9 3 busy_append
           sample_client 1100 500 [1]); try reflexivity.
  by eexists.
Defined.

Definition unmapped_answers : cmd_answers := {|
  nd_alloc := true; obj_alloc := true; ep_alloc := true; ep_create _ := Some 77; ep_grow := true;
  mkeys_init := true; rqs_init := true; cache_init := true; put_grow := true;
  rkey_unpack _ := Some 900; mem_map _ := MapError; mem_unmap_ok := true; ep_close_ok := true;
  mkey_address := 4096; other_bucket := EmptyBucket |}.

Lemma null_memh_is_mapped_witness :
  exists msg p' n, urom_rdmo_task_mr_register sample_task 3000 200 (CPtr 16 [1; 2; 3; 4]) 3 NULL 0 = Ret (Some msg, DOCA_SUCCESS)
    /\ handle_cmd sample_env unmapped_answers (desc_of 1 2 3 4096 msg) sample_plugin = Ret (p', DOCA_SUCCESS)
    /\ engine p' = engine sample_plugin /\ completed_reqs p' = completed_reqs sample_plugin ++ [n]
    /\ nd_status n = DOCA_ERROR_DRIVER.
Proof.
  apply (null_memh_is_mapped sample_env sample_task 3000 200 (CPtr 16 [1; 2; 3; 4]) 3 unmapped_answers 1 2 3 4096 sample_plugin 7
           sample_client 900); try reflexivity.
  - by repeat split.
  - vm_compute. intuition congruence.
  - apply Nat.leb_le. reflexivity.
  - lia.
Defined.
