(* ===== verification/MemPool.v ===== *)
(** * Allreduce: the memory pools

    applications/allreduce/allreduce_mem_pool.c, the build without GPU support.  A
    pool keeps the elements that nobody uses in the upper part of an array, from
    [head] to [size]; an allocation takes the element at [head], a release puts one
    back below it, and a pool without free elements doubles its array and fills the
    new half.

    The heap is the set of blocks that are allocated, with their sizes.  Whether the
    n-th request for memory is granted is a parameter ([malloc_ok]); addresses are
    never reused, so a block that is used after it was freed is seen. *)
From S2P Require Import Prelude.

(** ** The heap *)

Record heap : Type := Heap { next : Z; blocks : gmap Z Z }.

(** The answer to the n-th request, for a number of bytes. *)
Definition malloc_env : Type := Z -> Z -> bool.

(** No object is larger than [PTRDIFF_MAX]. *)
Class MallocLaws (ok : malloc_env) : Prop := {
  malloc_ptrdiff n bytes : ok n bytes = true -> bytes < 2 ^ 63
}.

Definition malloc (ok : malloc_env) (bytes : Z) (h : heap) : option Z * heap :=
  if ok (next h) bytes then (Some (next h), Heap (next h + 1) (<[next h := bytes]> (blocks h)))
  else (None, Heap (next h + 1) (blocks h)).

(** [free(p)], where 0 is the null pointer. *)
Definition free (p : Z) (h : heap) : outcome heap :=
  if p =? 0 then Ret h
  else match blocks h !! p with
       | Some _ => Ret (Heap (next h) (delete p (blocks h)))
       | None => Undef DanglingPointer
       end.

(** ** The pool *)

(** [mem_type] without the types of the GPU build. *)
Inductive mem_type : Type := CPU | CUDA | CUDA_MANAGED | CUSTOM.

(** An array of pointers: null, the block with its slots (a slot that was never
    written is [None]), or a block that was freed. *)
Inductive stack_ptr : Type :=
| NoStack
| Stack (addr : Z) (slots : list (option Z))
| FreedStack.

(** [faloc] and [fdealoc] are used for [CUSTOM] elements only. *)
Record mpool : Type := Mpool {
  stack : stack_ptr; size : Z; head : Z; mtype : mem_type; elem_size : Z;
  faloc : heap -> option Z * heap; fdealoc : Z -> heap -> outcome heap
}.

Definition set_stack (s : stack_ptr) (mp : mpool) : mpool :=
  Mpool s (size mp) (head mp) (mtype mp) (elem_size mp) (faloc mp) (fdealoc mp).
Definition set_size (n : Z) (mp : mpool) : mpool :=
  Mpool (stack mp) n (head mp) (mtype mp) (elem_size mp) (faloc mp) (fdealoc mp).
Definition set_head (n : Z) (mp : mpool) : mpool :=
  Mpool (stack mp) (size mp) n (mtype mp) (elem_size mp) (faloc mp) (fdealoc mp).

(** [mp->stack[i] = p] and [mp->stack[i]]. *)
Definition put_slot (i p : Z) (mp : mpool) : outcome mpool :=
  match stack mp with
  | NoStack => Undef NullDeref
  | FreedStack => Undef DanglingPointer
  | Stack a l =>
      let* _ := require ((0 <=? i) && (i <? Z.of_nat (length l))) OutOfBounds in
      Ret (set_stack (Stack a (<[Z.to_nat i := Some p]> l)) mp)
  end.

Definition get_slot (i : Z) (mp : mpool) : outcome Z :=
  match stack mp with
  | NoStack => Undef NullDeref
  | FreedStack => Undef DanglingPointer
  | Stack _ l =>
      let* _ := require (0 <=? i) OutOfBounds in
      let* s := of_option OutOfBounds (l !! Z.to_nat i) in
      of_option Uninitialised s
  end.

(** The loop over one memory type: [gen] is the allocation of one element. *)
Fixpoint populate_loop (gen : heap -> option Z * heap) (n : nat) (i : Z) (mp : mpool) (h : heap)
    : outcome (mpool * heap * doca_error_t) :=
  match n with
  | O => Ret (mp, h, DOCA_SUCCESS)
  | S n' =>
      let (p, h) := gen h in
      let* mp := put_slot i (default 0 p) mp in
      match p with
      | None => Ret (set_size i mp, h, DOCA_ERROR_NO_MEMORY)
      | Some _ => populate_loop gen n' (i + 1) mp h
      end
  end.

Definition _populate_mem_pool_range (ok : malloc_env) (mp : mpool) (start stop : Z) (h : heap)
    : outcome (mpool * heap * doca_error_t) :=
  match mtype mp with
  | CPU => populate_loop (malloc ok (elem_size mp)) (Z.to_nat (stop - start)) start mp h
  | CUSTOM => populate_loop (faloc mp) (Z.to_nat (stop - start)) start mp h
  | CUDA | CUDA_MANAGED => Ret (mp, h, DOCA_ERROR_INVALID_VALUE)
  end.

Definition slots_of (bytes : Z) : list (option Z) := replicate (Z.to_nat (bytes / 8)) None.

Definition allreduce_create_mpool (ok : malloc_env) (mp : mpool) (nb_elems elem_size : Z)
    (mtype : mem_type) (h : heap) : outcome (mpool * heap * doca_error_t) :=
  let bytes := u64 (nb_elems * 8) in
  let (p, h) := malloc ok bytes h in
  let st := match p with Some a => Stack a (slots_of bytes) | None => NoStack end in
  let mp := Mpool st nb_elems 0 mtype elem_size (faloc mp) (fdealoc mp) in
  match p with
  | None => Ret (mp, h, DOCA_ERROR_NO_MEMORY)
  | Some _ => _populate_mem_pool_range ok mp 0 nb_elems h
  end.

Fixpoint release_loop (rel : Z -> heap -> outcome heap) (n : nat) (i : Z) (mp : mpool) (h : heap)
    : outcome heap :=
  match n with
  | O => Ret h
  | S n' =>
      let* p := get_slot i mp in
      let* h := rel p h in
      release_loop rel n' (i + 1) mp h
  end.

(** [free(mp->stack)]: the pointer in the pool is left as it is. *)
Definition free_stack (mp : mpool) (h : heap) : outcome (mpool * heap) :=
  match stack mp with
  | NoStack => Ret (mp, h)
  | FreedStack => Undef DanglingPointer
  | Stack a _ => let* h := free a h in Ret (set_stack FreedStack mp, h)
  end.

Definition allreduce_destroy_mpool (mp : mpool) (h : heap) : outcome (mpool * heap * doca_error_t) :=
  let n := Z.to_nat (size mp - head mp) in
  match stack mp with
  | NoStack => Ret (mp, h, DOCA_ERROR_INVALID_VALUE)
  | _ =>
      match mtype mp with
      | CPU =>
          let* h := release_loop free n (head mp) mp h in
          let* (mp, h) := free_stack mp h in
          Ret (mp, h, DOCA_SUCCESS)
      | CUSTOM =>
          let* h := release_loop (fdealoc mp) n (head mp) mp h in
          let* (mp, h) := free_stack mp h in
          Ret (mp, h, DOCA_SUCCESS)
      | CUDA | CUDA_MANAGED => Ret (mp, h, DOCA_ERROR_INVALID_VALUE)
      end
  end.

(** [realloc(mp->stack, bytes)]: the slots are copied; a request for no bytes has no
    defined result. *)
Definition realloc_stack (ok : malloc_env) (bytes : Z) (mp : mpool) (h : heap)
    : outcome (option stack_ptr * heap) :=
  let* _ := require (negb (bytes =? 0)) ZeroRealloc in
  let (p, h) := malloc ok bytes h in
  match p with
  | None => Ret (None, h)
  | Some a =>
      let n := Z.to_nat (bytes / 8) in
      match stack mp with
      | NoStack => Ret (Some (Stack a (slots_of bytes)), h)
      | FreedStack => Undef DanglingPointer
      | Stack old l =>
          let* h := free old h in
          Ret (Some (Stack a (take n l ++ replicate (n - length l) None)), h)
      end
  end.

(** The growth of a pool without free elements; the code's [DOCA_SUCCESS] goes on. *)
Definition grow (ok : malloc_env) (mp : mpool) (h : heap) : outcome (mpool * heap * doca_error_t) :=
  let* (tmp, h) := realloc_stack ok (u64 (2 * size mp * 8)) mp h in
  match tmp with
  | None => Ret (mp, h, DOCA_ERROR_NO_MEMORY)
  | Some s =>
      let mp := set_stack s (set_size (u64 (size mp * 2)) mp) in
      _populate_mem_pool_range ok mp (head mp) (size mp) h
  end.

Definition allreduce_aloc_vec (ok : malloc_env) (mp : mpool) (h : heap)
    : outcome (mpool * heap * res Z) :=
  let* (mp, h, result) := if head mp =? size mp then grow ok mp h else Ret (mp, h, DOCA_SUCCESS) in
  if bool_decide (result <> DOCA_SUCCESS) then Ret (mp, h, Err result)
  else
    let* p := get_slot (head mp) mp in
    Ret (set_head (u64 (head mp + 1)) mp, h, Ok p).

Definition allreduce_free_vec (mp : mpool) (vec : Z) : outcome mpool :=
  let mp := set_head (u64 (head mp - 1)) mp in
  put_slot (head mp) vec mp.

Fixpoint allreduce_free_vecs (mp : mpool) (vecs : list Z) : outcome mpool :=
  match vecs with
  | [] => Ret mp
  | v :: vecs =>
      let mp := set_head (u64 (head mp - 1)) mp in
      let* mp := put_slot (head mp) v mp in
      allreduce_free_vecs mp vecs
  end.

(** ** What a pool promises

    [pool_ok mp h out]: [out] are the elements in use; the free ones fill the array
    from [head] to [size] and are different from each other and from those in use. *)
Record pool_ok (mp : mpool) (h : heap) (out : gset Z) : Prop := PoolOk {
  po_stack : exists a l fr,
    stack mp = Stack a l /\ is_Some (blocks h !! a) /\ 0 < a < next h /\
    drop (Z.to_nat (head mp)) (take (Z.to_nat (size mp)) l) = Some <$> fr /\
    size mp <= Z.of_nat (length l) /\
    NoDup fr /\ (forall p, p ∈ fr -> p ∉ out /\ 0 < p < next h);
  po_out : forall p, p ∈ out -> 0 < p < next h;
  po_head : head mp = Z.of_nat (base.size out);
  po_size : head mp <= size mp < 2 ^ 60;
  po_type : mtype mp = CPU;
  po_next : 0 < next h;
}.

(** The array a pool keeps its elements in. *)
Definition stack_addr (mp : mpool) : Z := match stack mp with Stack a _ => a | _ => 0 end.

Lemma put_slot_ok i p mp a l :
  stack mp = Stack a l -> 0 <= i < Z.of_nat (length l) ->
  put_slot i p mp = Ret (set_stack (Stack a (<[Z.to_nat i := Some p]> l)) mp).
Proof.
  intros E Hi. unfold put_slot. rewrite E.
  by rewrite (proj2 (Z.leb_le 0 i)), (proj2 (Z.ltb_lt i _)) by lia.
Qed.

Lemma get_slot_ok i p mp a l :
  stack mp = Stack a l -> 0 <= i -> l !! Z.to_nat i = Some (Some p) -> get_slot i mp = Ret p.
Proof.
  intros E Hi Hl. unfold get_slot. rewrite E, (proj2 (Z.leb_le 0 i)) by lia. cbn. by rewrite Hl.
Qed.

Lemma malloc_next ok n h p h' : malloc ok n h = (p, h') -> next h' = next h + 1.
Proof. unfold malloc. case_if; intros [= <- <-]; done. Qed.

(** Filling slots from a position on: [news] are the elements that could be had, all
    of them new. *)
Lemma populate_loop_ok ok bytes n : forall i mp h a l,
  stack mp = Stack a l -> 0 <= i -> i + Z.of_nat n <= Z.of_nat (length l) -> 0 < next h ->
  exists l' h' e news sz,
    populate_loop (malloc ok bytes) n i mp h = Ret (set_stack (Stack a l') (set_size sz mp), h', e) /\
    (e = DOCA_SUCCESS /\ length news = n /\ sz = size mp
     \/ e = DOCA_ERROR_NO_MEMORY /\ (length news < n)%nat /\ sz = i + Z.of_nat (length news)) /\
    length l' = length l /\
    take (Z.to_nat i + length news) l' = take (Z.to_nat i) l ++ (Some <$> news) /\
    NoDup news /\ (forall p, p ∈ news -> next h <= p < next h') /\ next h <= next h' /\
    (forall b, b < next h -> blocks h' !! b = blocks h !! b) /\
    (forall p, p ∈ news -> blocks h' !! p = Some bytes) /\
    (forall b, next h <= b -> b ∉ news -> blocks h' !! b = blocks h !! b).
Proof.
  induction n as [|n IH]; intros i mp h a l E Hi Hn Hh; cbn [populate_loop].
  - exists l, h, DOCA_SUCCESS, [], (size mp). split.
    { do 2 f_equal. destruct mp. cbn in *. by subst. }
    rewrite Nat.add_0_r. repeat split; try set_solver; auto; try lia; [by rewrite app_nil_r|constructor].
  - destruct (malloc ok bytes h) as [p h1] eqn:Em. pose proof (malloc_next _ _ _ _ _ Em) as Hn1.
    rewrite (put_slot_ok i _ mp a l E) by lia. set (l1 := <[_ := _]> l).
    assert (length l1 = length l) as Hl1 by (unfold l1; by rewrite length_insert).
    assert (take (Z.to_nat i) l1 = take (Z.to_nat i) l) as Ht by (unfold l1; by rewrite take_insert_ge).
    unfold malloc in Em. case_if_in Em; injection Em as <- <-; cbn [default] in *.
    + destruct (IH (i + 1) (set_stack (Stack a l1) mp) (Heap (next h + 1) (<[next h := bytes]> (blocks h))) a l1 eq_refl ltac:(lia) ltac:(lia)
                  ltac:(cbn; lia)) as (l' & h' & e & news & sz & -> & He & Hlen & Htk & Hnd & Hin & Hle & Hb & Hnew & Hoth).
      cbn [next blocks] in *.
      assert (next h ∉ news) by (intros Hx%Hin; lia).
      exists l', h', e, (next h :: news), sz. repeat apply conj.
      * done.
      * cbn in *. destruct He as [(?&?&?)|(?&?&?)]; [left|right]; repeat split; auto; lia.
      * lia.
      * replace (Z.to_nat i + length (next h :: news))%nat with (Z.to_nat (i + 1) + length news)%nat by (cbn; lia).
        rewrite Htk. replace (Z.to_nat (i + 1)) with (S (Z.to_nat i)) by lia.
        rewrite (take_S_r _ _ (Some (next h))), Ht, <-app_assoc; [done|].
        unfold l1. apply list_lookup_insert_eq. lia.
      * by constructor.
      * intros p [->|Hp%Hin]%elem_of_cons; lia.
      * lia.
      * intros b Hb'. rewrite Hb by lia. by rewrite lookup_insert_ne by lia.
      * intros p [->|Hp]%elem_of_cons; [|by apply Hnew].
        rewrite Hb by lia. by rewrite lookup_insert_eq.
      * intros b Hb' [Hne Hx]%not_elem_of_cons. rewrite Hoth by (done || lia).
        by rewrite lookup_insert_ne.
    + exists l1, (Heap (next h + 1) (blocks h)), DOCA_ERROR_NO_MEMORY, [], i. cbn [length fmap list_fmap].
      rewrite Nat.add_0_r, app_nil_r, Z.add_0_r.
      repeat apply conj; try set_solver; auto; try (cbn; lia); try (right; split; [done|lia]).
      constructor.
Qed.

(** [pool_own base lo mp h out]: beyond the blocks of [base], the heap holds the pool's
    array and its elements, free or in use, and nothing else; they were allocated from
    the address [lo] on. *)
Definition pool_own (base : gmap Z Z) (lo : Z) (mp : mpool) (h : heap) (out : gset Z) : Prop :=
  exists a l fr,
    stack mp = Stack a l /\
    drop (Z.to_nat (head mp)) (take (Z.to_nat (size mp)) l) = Some <$> fr /\
    is_Some (blocks h !! a) /\ lo <= a /\ a ∉ fr /\ a ∉ out /\
    (forall p, p ∈ fr \/ p ∈ out -> lo <= p /\ blocks h !! p = Some (elem_size mp)) /\
    (forall b, b <> a -> b ∉ fr -> b ∉ out -> blocks h !! b = base !! b).

(** The array and the free elements of a pool. *)
Lemma pool_own_open base lo mp h out a l fr :
  pool_own base lo mp h out -> stack mp = Stack a l ->
  drop (Z.to_nat (head mp)) (take (Z.to_nat (size mp)) l) = Some <$> fr ->
  is_Some (blocks h !! a) /\ lo <= a /\ a ∉ fr /\ a ∉ out /\
  (forall p, p ∈ fr \/ p ∈ out -> lo <= p /\ blocks h !! p = Some (elem_size mp)) /\
  (forall b, b <> a -> b ∉ fr -> b ∉ out -> blocks h !! b = base !! b).
Proof.
  intros (a' & l' & fr' & E' & Hfr' & Hrest) E Hfr. rewrite E in E'. injection E' as <- <-.
  rewrite Hfr in Hfr'. apply (inj (fmap Some)) in Hfr' as <-. done.
Qed.

(** What an operation on one pool leaves of the rest of the heap. *)
Record heap_kept (mp mp' : mpool) (h h' : heap) : Prop := HeapKept {
  hk_next : next h <= next h';
  hk_blocks : forall b, b < next h -> b <> stack_addr mp -> blocks h' !! b = blocks h !! b;
  hk_addr : stack_addr mp' = stack_addr mp \/ next h <= stack_addr mp';
  hk_elem : elem_size mp' = elem_size mp;
}.

(** The blocks a pool owns stay the ones of its array and its elements. *)
Definition own_kept (mp mp' : mpool) (h h' : heap) (out out' : gset Z) : Prop :=
  forall base lo, lo <= next h -> (forall b, lo <= b -> base !! b = None) ->
  pool_own base lo mp h out -> pool_own base lo mp' h' out'.

Lemma heap_kept_refl mp h : heap_kept mp mp h h.
Proof. split; auto; lia. Qed.

#[export] Hint Resolve heap_kept_refl : doca.

Section pool.
  Context (ok : malloc_env) `{!MallocLaws ok}.

Lemma realloc_ok mp h a l :
  stack mp = Stack a l -> is_Some (blocks h !! a) -> 0 < a < next h ->
  0 < size mp < 2 ^ 60 -> size mp <= Z.of_nat (length l) ->
  exists s h',
    realloc_stack ok (u64 (2 * size mp * 8)) mp h = Ret (s, h') /\ next h' = next h + 1 /\
    (forall b, b <> a -> b <> next h -> blocks h' !! b = blocks h !! b) /\
    match s with
    | None => blocks h' = blocks h
    | Some s =>
        exists l', blocks h' !! a = None /\ s = Stack (next h) l' /\ is_Some (blocks h' !! next h) /\
        Z.of_nat (length l') = 2 * size mp /\ size mp < 2 ^ 59 /\
        take (Z.to_nat (size mp)) l' = take (Z.to_nat (size mp)) l
    end.
Proof.
  intros E [n Hb] Ha Hs Hl. unfold realloc_stack.
  assert (u64 (2 * size mp * 8) = 16 * size mp) as -> by (rewrite uwrap_id by (split; lia); lia).
  rewrite (proj2 (Z.eqb_neq _ 0)) by lia. cbn [negb require]. unfold malloc.
  destruct (ok _ _) eqn:Eok.
  - apply malloc_ptrdiff in Eok. rewrite E. unfold free. cbn [blocks next].
    rewrite (proj2 (Z.eqb_neq a 0)) by lia. rewrite lookup_insert_ne by lia. rewrite Hb.
    replace (16 * size mp / 8) with (2 * size mp) by (rewrite <-(Z.div_mul (2 * size mp) 8) by lia; f_equal; lia).
    set (l' := take _ l ++ _).
    eexists _, _. split; [done|]. cbn [next blocks]. split; [done|]. split.
    { intros b Hbn Hba. by rewrite lookup_delete_ne, lookup_insert_ne by lia. }
    exists l'. split; [by rewrite lookup_delete_eq|]. split; [done|]. split; [rewrite lookup_delete_ne, lookup_insert_eq by lia; eauto|].
    split; [unfold l'; rewrite length_app, length_take, length_replicate; lia|]. split; [lia|].
    unfold l'. rewrite take_app_le by (rewrite length_take; lia). rewrite take_take. f_equal. lia.
  - eexists None, _. split; [done|]. cbn. auto.
Qed.

(** A full pool that has elements grows, or reports that memory ran out and stays
    usable. *)
Lemma grow_ok mp h out :
  pool_ok mp h out -> head mp = size mp -> 0 < size mp ->
  exists mp' h' e,
    grow ok mp h = Ret (mp', h', e) /\ pool_ok mp' h' out /\ heap_kept mp mp' h h' /\
    (e = DOCA_SUCCESS /\ head mp' < size mp' \/ e = DOCA_ERROR_NO_MEMORY) /\
    size mp <= size mp' /\
    own_kept mp mp' h h' out out.
Proof.
  intros Hp Hfull Hpos. destruct Hp as [(a & l & fr & E & Hb & Ha & Hfr & Hl & Hnd & Hdis) Ho Hh Hs Ht Hn].
  unfold grow.
  destruct (realloc_ok mp h a l) as (s & h1 & -> & Hn1 & Hkeep & Hs1); try done; [lia|].
  destruct s as [s|].
  { destruct Hs1 as (l1 & Ha1 & -> & Hb1 & Hl1 & Hlt & Htk).
    rewrite (uwrap_id 64 (size mp * 2)) by (split; lia).
    unfold _populate_mem_pool_range. cbn [mtype set_stack set_size head size stack elem_size].
    rewrite Ht. cbn [elem_size].
    destruct (populate_loop_ok ok (elem_size mp) (Z.to_nat (size mp * 2 - head mp)) (head mp)
      (set_stack (Stack (next h) l1) (set_size (size mp * 2) mp)) h1 (next h) l1 eq_refl)
      as (l2 & h2 & e & news & sz & Epop & He & Hl2 & Htk2 & Hnd2 & Hin2 & Hle2 & Hb2 & Hnew2 & Hoth2);
      try lia.
    cbn in Epop, He. unfold set_stack, set_size in *. cbn in *. rewrite Ht in *. rewrite Epop. clear Epop.
    eexists _, _, _. split; [reflexivity|]. cbn.
    assert (sz = head mp + Z.of_nat (length news) /\ sz <= size mp * 2) as [Hsz Hsz2]
      by (destruct He as [(-> & ? & ?)|(-> & ? & ?)]; lia).
    split.
    { split; cbn; try done; try lia; [|intros p Hp%Ho; lia].
      exists (next h), l2, news. split; [done|]. split; [by rewrite Hb2 by lia|]. split; [lia|].
      split.
      { rewrite Hsz, Z2Nat.inj_add, Nat2Z.id by lia. rewrite Htk2, drop_app_ge; rewrite length_take; [|lia].
        replace (_ - _)%nat with 0%nat by lia. done. }
      split; [lia|]. split; [done|]. intros p Hp%Hin2. split; [|lia]. intros Hx%Ho. lia. }
    split.
    { split; cbn; [lia| |right; lia|done]. unfold stack_addr. rewrite E.
      intros b Hb' Hne. rewrite Hb2 by lia. apply Hkeep; lia. }
    split; [destruct He as [(-> & ? & ?)|(-> & ? & ?)]; [left|by right]; split; [done|lia]|]. split; [lia|].
    intros base lo Hlo Hbase Hown.
    destruct (pool_own_open _ _ _ _ _ _ _ _ Hown E Hfr) as (_ & Hla & _ & Hao & Hel & Hrest).
    assert (fr = []) as ->.
    { rewrite drop_ge in Hfr by (rewrite length_take; lia). by destruct fr. }
    exists (next h), l2, news. cbn. split; [done|]. split.
    { rewrite Hsz, Z2Nat.inj_add, Nat2Z.id by lia. rewrite Htk2, drop_app_ge; rewrite length_take; [|lia].
      replace (_ - _)%nat with 0%nat by lia. done. }
    split; [by rewrite Hb2 by lia|]. split; [done|].
    split; [intros Hx%Hin2; lia|]. split; [intros Hx%Ho; lia|]. split.
    { intros p [Hp|Hp].
      { pose proof (Hin2 p Hp) as Hp2. split; [clear - Hp2 Hlo Hn1; lia|exact (Hnew2 p Hp)]. }
      destruct (Hel p (or_intror Hp)) as [? Hbp]. split; [done|]. pose proof (Ho p Hp).
      rewrite Hb2 by lia. destruct (decide (p = a)) as [->|]; [by destruct Hao|]. rewrite Hkeep by lia. done. }
    intros b Hb' Hbn Hbo.
    destruct (Z.lt_ge_cases b (next h1)); [rewrite Hb2 by done|rewrite Hoth2 by done].
    all: destruct (decide (b = a)) as [->|]; [rewrite Ha1; symmetry; apply Hbase; lia|].
    all: rewrite Hkeep by (done || lia); apply Hrest; [done|apply not_elem_of_nil|done]. }
  eexists mp, h1, DOCA_ERROR_NO_MEMORY. split; [done|]. split.
  { split; try done; [|intros p Hp%Ho; lia|lia].
    exists a, l, fr. rewrite Hs1. do 3 (split; [done || lia|]). do 3 (split; [done|]).
    intros p Hp. destruct (Hdis p Hp). split; [done|lia]. }
  split; [split; auto; try lia|]. { intros b Hbn _. by rewrite Hs1. }
  split; [by right|]. split; [lia|]. intros base lo Hlo Hbase Hown.
  unfold pool_own. by rewrite Hs1.
Qed.

(** An allocation hands out an element nobody uses, or reports that memory ran out. *)
Lemma aloc_vec_ok mp h out :
  pool_ok mp h out -> 0 < size mp ->
  exists mp' h' r,
    allreduce_aloc_vec ok mp h = Ret (mp', h', r) /\ heap_kept mp mp' h h' /\ size mp <= size mp' /\
    match r with
    | Ok p => p ∉ out /\ pool_ok mp' h' ({[p]} ∪ out) /\ own_kept mp mp' h h' out ({[p]} ∪ out)
    | Err e => e = DOCA_ERROR_NO_MEMORY /\ pool_ok mp' h' out /\ own_kept mp mp' h h' out out
    end.
Proof.
  intros Hp Hpos. unfold allreduce_aloc_vec.
  assert (exists mp1 h1 e, (if head mp =? size mp then grow ok mp h else Ret (mp, h, DOCA_SUCCESS))
    = Ret (mp1, h1, e) /\ pool_ok mp1 h1 out /\ heap_kept mp mp1 h h1 /\
    (e = DOCA_SUCCESS /\ head mp1 < size mp1 \/ e = DOCA_ERROR_NO_MEMORY) /\ size mp <= size mp1 /\
    own_kept mp mp1 h h1 out out)
    as (mp1 & h1 & e & -> & Hp1 & Hk & He & Hs & Hw).
  { destruct (head mp =? size mp) eqn:Ef.
    - apply grow_ok; try done. lia.
    - exists mp, h, DOCA_SUCCESS. destruct (po_size _ _ _ Hp). do 2 (split; [done|]). split; [auto with doca|]. split; [left; split; [done|lia]|].
      split; [lia|]. by intros base lo. }
  destruct He as [[-> Hlt]| ->].
  2:{ exists mp1, h1, (Err DOCA_ERROR_NO_MEMORY). auto 10. }
  rewrite bool_decide_false by (intros []; done).
  destruct Hp1 as [(a & l & fr & E & Hb & Ha & Hfr & Hl & Hnd & Hdis) Ho Hh Hsz Ht Hn].
  assert (length fr = (Z.to_nat (size mp1) - Z.to_nat (head mp1))%nat) as Hlen.
  { rewrite <-(length_fmap Some fr), <-Hfr, length_drop, length_take. lia. }
  destruct fr as [|p fr]; [cbn in Hlen; lia|].
  assert (drop (S (Z.to_nat (head mp1))) (take (Z.to_nat (size mp1)) l) = Some <$> fr) as Htl.
  { by rewrite <-Nat.add_1_r, <-drop_drop, Hfr. }
  apply NoDup_cons in Hnd as [Hpfr Hnd].
  destruct (Hdis p ltac:(left)) as [Hpo Hpn].
  assert (l !! Z.to_nat (head mp1) = Some (Some p)) as Hlk.
  { assert (drop (Z.to_nat (head mp1)) (take (Z.to_nat (size mp1)) l) !! 0%nat = Some (Some p)) as Hd by by rewrite Hfr.
    rewrite lookup_drop, Nat.add_0_r in Hd. by apply lookup_take_Some in Hd as [? _]. }
  rewrite (get_slot_ok _ p _ a l E) by (done || lia).
  rewrite (uwrap_id 64) by (split; lia).
  eexists _, _, (Ok p). split; [reflexivity|]. split; [by destruct Hk|]. split; [done|]. split; [done|].
  assert (drop (Z.to_nat (head mp1 + 1)) (take (Z.to_nat (size mp1)) l) = Some <$> fr) as Htl'
    by (rewrite Z2Nat.inj_add by lia; by rewrite Nat.add_1_r).
  split.
  - split; cbn; try done; try lia; [| |rewrite size_union, size_singleton by set_solver; lia].
    + exists a, l, fr. repeat split; try done; try lia; set_solver.
    + intros q [->%elem_of_singleton|Hq%Ho]%elem_of_union; lia.
  - intros base lo Hlo Hbase Hown. apply Hw in Hown; [|done..].
    destruct (pool_own_open _ _ _ _ _ _ _ _ Hown E Hfr) as (Ha1 & Hla & Haf & Hao & Hel & Hrest).
    apply not_elem_of_cons in Haf as [Hap Haf].
    exists a, l, fr. do 5 (split; [done|]). split; [set_solver|]. split.
    + intros q Hq. apply Hel. destruct Hq as [Hq|[->%elem_of_singleton|Hq]%elem_of_union]; [left; by right|left; left|by right].
    + intros b Hb1 Hb2 [Hb3 Hb4]%not_elem_of_union. apply Hrest; try done.
      apply not_elem_of_cons. split; [set_solver|done].
Qed.
End pool.

(** A release takes back an element that is in use. *)
Lemma free_vec_ok mp h out p :
  pool_ok mp h out -> p ∈ out ->
  exists mp', allreduce_free_vec mp p = Ret mp' /\ pool_ok mp' h (out ∖ {[p]}) /\
    heap_kept mp mp' h h /\ size mp' = size mp /\ own_kept mp mp' h h out (out ∖ {[p]}).
Proof.
  intros Hp Hin. destruct Hp as [(a & l & fr & E & Hb & Ha & Hfr & Hl & Hnd & Hdis) Ho Hh Hs Ht Hn].
  assert (base.size out = S (base.size (out ∖ {[p]}))) as Hsz.
  { rewrite (union_difference_singleton_L p out) at 1 by done.
    rewrite size_union by set_solver. by rewrite size_singleton. }
  unfold allreduce_free_vec. rewrite (uwrap_id 64) by (split; lia).
  cbn [head set_head]. erewrite put_slot_ok; [|exact E|lia].
  assert (drop (Z.to_nat (head mp - 1)) (take (Z.to_nat (size mp)) (<[Z.to_nat (head mp - 1) := Some p]> l))
    = Some <$> (p :: fr)) as Hfr'.
  { rewrite take_insert_lt by lia.
    rewrite (drop_S _ (Some p) (Z.to_nat (head mp - 1))) by (apply list_lookup_insert_eq; rewrite length_take; lia).
    rewrite fmap_cons. f_equal. rewrite drop_insert_lt by lia.
    replace (S _) with (Z.to_nat (head mp)) by lia. done. }
  eexists. split; [done|]. split.
  { split; cbn; try done; try lia; [|set_solver].
    eexists a, _, (p :: fr). do 4 (split; [done|]).
    rewrite length_insert. split; [done|]. split.
    { constructor; [|done]. intros Hx%Hdis. naive_solver. }
    intros q [->|Hq]%elem_of_cons; [split; [set_solver|by apply Ho]|].
    destruct (Hdis q Hq). set_solver. }
  split; [split; [lia|done|left; unfold stack_addr; cbn; by rewrite E|done]|]. split; [done|].
  intros base lo Hlo Hbase Hown.
  destruct (pool_own_open _ _ _ _ _ _ _ _ Hown E Hfr) as (Ha1 & Hla & Haf & Hao & Hel & Hrest).
  eexists a, _, (p :: fr). do 4 (split; [done|]). split; [|split; [set_solver|split]].
  - apply not_elem_of_cons. split; [congruence|done].
  - intros q Hq. apply Hel. destruct Hq as [[->|Hq]%elem_of_cons|Hq]; [by right|by left|right; set_solver].
  - intros b Hb1 [Hb2 Hb3]%not_elem_of_cons Hb4. apply Hrest; try done. set_solver.
Qed.

Lemma heap_kept_trans mp1 mp2 mp3 h1 h2 h3 :
  stack_addr mp1 < next h1 ->
  heap_kept mp1 mp2 h1 h2 -> heap_kept mp2 mp3 h2 h3 -> heap_kept mp1 mp3 h1 h3.
Proof.
  intros Ha [N1 B1 A1 E1] [N2 B2 A2 E2]. split; [lia| |lia|congruence].
  intros b Hb Hne. rewrite B2 by lia. by apply B1.
Qed.

Lemma pool_addr mp h out : pool_ok mp h out -> 0 < stack_addr mp < next h.
Proof. intros [(a & l & fr & E & _ & Ha & _) _ _ _ _ _]. unfold stack_addr. by rewrite E. Qed.

Lemma free_vecs_ok vecs : forall mp h out,
  pool_ok mp h out -> NoDup vecs -> list_to_set vecs ⊆ out ->
  exists mp', allreduce_free_vecs mp vecs = Ret mp' /\ pool_ok mp' h (out ∖ list_to_set vecs) /\
    heap_kept mp mp' h h /\ size mp' = size mp.
Proof.
  induction vecs as [|v vecs IH]; intros mp h out Hp Hnd Hsub; cbn [allreduce_free_vecs].
  - exists mp. simpl. rewrite difference_empty_L. auto with doca.
  - apply NoDup_cons in Hnd as [Hv Hnd]. cbn in Hsub.
    destruct (free_vec_ok mp h out v Hp ltac:(set_solver)) as (mp1 & E & Hp1 & Hk1 & Hs1 & _).
    unfold allreduce_free_vec in E. rewrite E.
    destruct (IH mp1 h _ Hp1 Hnd) as (mp2 & -> & Hp2 & Hk2 & Hs2); [set_solver|].
    exists mp2. split; [done|]. split.
    { replace (out ∖ list_to_set (v :: vecs)) with ((out ∖ {[v]}) ∖ list_to_set vecs) by set_solver. done. }
    split; [|congruence]. eapply heap_kept_trans; eauto. apply (pool_addr _ _ _ Hp).
Qed.

(** Another part of the heap may change: a pool keeps working. *)
Lemma pool_ok_kept mp h h' out :
  pool_ok mp h out -> next h <= next h' -> blocks h' !! stack_addr mp = blocks h !! stack_addr mp ->
  pool_ok mp h' out.
Proof.
  intros [(a & l & fr & E & Hb & Ha & Hfr & Hl & Hnd & Hdis) Ho Hh Hs Ht Hn] Hle Hbl.
  unfold stack_addr in Hbl. rewrite E in Hbl. split; try done; try lia.
  - exists a, l, fr. rewrite Hbl. do 2 (split; [done|]). split; [lia|]. do 3 (split; [done|]).
    intros p Hp. destruct (Hdis p Hp). split; [done|lia].
  - intros p Hp%Ho. lia.
Qed.


(** ** From creation to destruction *)

(** Releasing the elements of a range frees these blocks and nothing else. *)
Lemma release_loop_ok fr : forall i mp h a l,
  stack mp = Stack a l -> 0 <= i -> take (length fr) (drop (Z.to_nat i) l) = Some <$> fr ->
  NoDup fr -> (forall p, p ∈ fr -> 0 < p /\ is_Some (blocks h !! p)) ->
  exists h', release_loop free (length fr) i mp h = Ret h' /\ next h' = next h /\
    (forall p, p ∈ fr -> blocks h' !! p = None) /\
    (forall b, b ∉ fr -> blocks h' !! b = blocks h !! b).
Proof.
  induction fr as [|p fr IH]; intros i mp h a l E Hi Hsl Hnd Hb; cbn [length release_loop].
  - exists h. repeat split; auto. set_solver.
  - apply NoDup_cons in Hnd as [Hp Hnd]. destruct (Hb p ltac:(left)) as [Hp0 [n Hpb]].
    assert (l !! Z.to_nat i = Some (Some p)) as Hl.
    { assert (take (length (p :: fr)) (drop (Z.to_nat i) l) !! 0%nat = Some (Some p)) as Hd by by rewrite Hsl.
      apply lookup_take_Some in Hd as [Hd _]. by rewrite lookup_drop, Nat.add_0_r in Hd. }
    rewrite (get_slot_ok i p mp a l E Hi Hl). unfold free at 1.
    rewrite (proj2 (Z.eqb_neq p 0)), Hpb by lia.
    destruct (IH (i + 1) mp (Heap (next h) (delete p (blocks h))) a l E) as (h' & -> & Hn & Hd & Hk); try lia.
    + rewrite Z2Nat.inj_add, Nat.add_1_r by lia.
      rewrite (drop_S l (Some p)) in Hsl by done. by injection Hsl.
    + done.
    + cbn. intros q Hq. destruct (Hb q ltac:(by right)). split; [done|]. by rewrite lookup_delete_ne by set_solver.
    + exists h'. split; [done|]. split; [done|]. split.
      * intros q [->|Hq]%elem_of_cons; [|by apply Hd]. rewrite Hk by done. apply lookup_delete_eq.
      * intros b [Hb1 Hb2]%not_elem_of_cons. rewrite Hk by done. by apply lookup_delete_ne.
Qed.

(** Destruction gives back everything but the elements that are in use. *)
Lemma destroy_ok base lo mp h out :
  pool_ok mp h out -> pool_own base lo mp h out -> (forall b, lo <= b -> base !! b = None) ->
  exists mp' h', allreduce_destroy_mpool mp h = Ret (mp', h', DOCA_SUCCESS) /\
    blocks h' = gset_to_gmap (elem_size mp) out ∪ base.
Proof.
  intros [(a & l & fr & E & _ & Ha & Hfr & Hl & Hnd & Hdis) Ho Hh Hs Ht Hn] Hown Hbase.
  destruct (pool_own_open _ _ _ _ _ _ _ _ Hown E Hfr) as (Hba & Hla & Haf & Hao & Hel & Hrest).
  assert (length fr = Z.to_nat (size mp - head mp)) as Hlen.
  { rewrite <-(length_fmap Some fr), <-Hfr, length_drop, length_take. lia. }
  destruct (release_loop_ok fr (head mp) mp h a l E) as (h1 & Hr & Hn1 & Hd & Hk); try done; [lia| | |].
  { rewrite <-Hfr, skipn_firstn_comm. f_equal. lia. }
  { intros p Hp. split; [by apply Hdis|]. exists (elem_size mp). apply Hel. by left. }
  unfold allreduce_destroy_mpool. rewrite E, Ht, <-Hlen, Hr.
  unfold free_stack. rewrite E. unfold free. rewrite (proj2 (Z.eqb_neq a 0)), Hk by (done || lia).
  destruct Hba as [n ->]. eexists _, _. split; [done|]. cbn.
  apply map_eq. intros b. destruct (decide (b = a)) as [->|].
  { rewrite lookup_delete_eq. symmetry. apply lookup_union_None. split; [|by apply Hbase].
    by apply lookup_gset_to_gmap_None. }
  rewrite lookup_delete_ne by done. rewrite lookup_union, lookup_gset_to_gmap.
  destruct (decide (b ∈ out)) as [Hb|Hb].
  - rewrite option_guard_True by done. destruct (Hel b (or_intror Hb)) as [Hlo Hbb].
    rewrite (Hbase b) by lia. rewrite Hk by (intros Hx%Hdis; naive_solver). by rewrite Hbb.
  - rewrite option_guard_False by done. replace (None ∪ base !! b) with (base !! b) by by destruct (base !! b).
    destruct (decide (b ∈ fr)) as [Hf|Hf].
    + rewrite Hd by done. symmetry. apply Hbase. apply Hel. by left.
    + rewrite Hk by done. by apply Hrest.
Qed.

(** A session: [Aloc] takes an element, [Free i] returns the i-th of those in use. *)
Inductive pool_op : Type := Aloc | Free (i : nat).

Definition pool_step (ok : malloc_env) (op : pool_op) (s : mpool * heap * list Z)
    : outcome (mpool * heap * list Z) :=
  let '(mp, h, out) := s in
  match op with
  | Aloc =>
      let* (mp, h, r) := allreduce_aloc_vec ok mp h in
      Ret (mp, h, match r with Ok p => p :: out | Err _ => out end)
  | Free i =>
      match out !! i with
      | None => Ret s
      | Some p => let* mp := allreduce_free_vec mp p in Ret (mp, h, delete i out)
      end
  end.

Fixpoint pool_session (ok : malloc_env) (ops : list pool_op) (s : mpool * heap * list Z)
    : outcome (mpool * heap * list Z) :=
  match ops with
  | [] => Ret s
  | op :: ops => let* s := pool_step ok op s in pool_session ok ops s
  end.

Lemma list_to_set_delete (l : list Z) i p :
  NoDup l -> l !! i = Some p -> list_to_set (delete i l) = list_to_set l ∖ {[p]} :> gset Z.
Proof.
  intros Hnd Hperm%delete_Permutation. assert (NoDup (p :: delete i l)) as [Hp _]%NoDup_cons by by rewrite <-Hperm.
  assert (list_to_set l = list_to_set (p :: delete i l) :> gset Z) as ->.
  { apply set_eq. intros q. rewrite !elem_of_list_to_set. by rewrite <-Hperm. }
  set_solver.
Qed.

(** The heap before a pool exists: addresses grow. *)
Definition heap_wf (h : heap) : Prop := 0 < next h /\ forall b, next h <= b -> blocks h !! b = None.

Section lifecycle.
  Context (ok : malloc_env) `{!MallocLaws ok} (mp0 : mpool) (h0 : heap) (nb bytes : Z).
  Context (Hh0 : heap_wf h0) (Hnb : 0 < nb < 2 ^ 60).

(** The state of a pool that was created in the heap [h0]. *)
Definition alive (mp : mpool) (h : heap) (out : list Z) : Prop :=
  pool_ok mp h (list_to_set out) /\ pool_own (blocks h0) (next h0) mp h (list_to_set out) /\
  NoDup out /\ elem_size mp = bytes /\ next h0 <= next h.

Lemma create_ok :
  exists mp h e, allreduce_create_mpool ok mp0 nb bytes CPU h0 = Ret (mp, h, e) /\
    (stack mp = NoStack /\ blocks h = blocks h0 /\ e = DOCA_ERROR_NO_MEMORY
     \/ alive mp h [] /\ (e = DOCA_SUCCESS /\ size mp = nb \/ e = DOCA_ERROR_NO_MEMORY)).
Proof.
  destruct Hh0 as [Hn0 Hb0]. unfold allreduce_create_mpool. rewrite (uwrap_id 64) by (split; lia).
  unfold malloc at 1. destruct (ok _ _) eqn:Eok.
  2:{ eexists _, _, _. split; [reflexivity|]. left. done. }
  apply malloc_ptrdiff in Eok. unfold _populate_mem_pool_range. cbn [mtype elem_size].
  rewrite Z.sub_0_r. unfold slots_of. rewrite Z.div_mul by done.
  destruct (populate_loop_ok ok bytes (Z.to_nat nb) 0
    (Mpool (Stack (next h0) (replicate (Z.to_nat nb) None)) nb 0 CPU bytes (faloc mp0) (fdealoc mp0))
    (Heap (next h0 + 1) (<[next h0:=nb * 8]> (blocks h0))) (next h0) _ eq_refl)
    as (l & h & e & news & sz & -> & He & Hl & Htk & Hnd & Hin & Hle & Hb & Hnew & Hoth);
    [lia|rewrite length_replicate; lia|cbn; lia|].
  cbn in *. rewrite length_replicate in Hl.
  assert (sz = Z.of_nat (length news) /\ sz <= nb) as [Hsz Hsz2]
    by (destruct He as [(-> & ? & ?)|(-> & ? & ?)]; lia).
  assert (drop 0 (take (Z.to_nat sz) l) = Some <$> news) as Hfr by (rewrite Hsz, Nat2Z.id; done).
  assert (blocks h !! next h0 = Some (nb * 8)) as Ha by (rewrite Hb by lia; apply lookup_insert_eq).
  eexists _, _, _. split; [reflexivity|]. right. split.
  2:{ destruct He as [(-> & ? & ?)|(-> & ? & ?)]; [left|right]; auto. }
  split; [|split; [|split; [constructor|split; [done|lia]]]].
  - split; cbn; try done; try lia.
    exists (next h0), l, news. split; [done|]. split; [eauto|]. split; [lia|]. split; [done|]. split; [lia|].
    split; [done|]. intros p Hp%Hin. split; [set_solver|lia].
  - exists (next h0), l, news. cbn. do 2 (split; [done|]). split; [eauto|]. split; [lia|].
    split; [intros Hx%Hin; lia|]. split; [set_solver|]. split.
    + intros p [Hp|Hp]; [|set_solver]. split; [apply Hin in Hp; lia|by apply Hnew].
    + intros b Hb1 Hb2 _. destruct (Z.lt_ge_cases b (next h0 + 1)); [rewrite Hb by lia|rewrite Hoth by (done || lia)].
      all: by rewrite lookup_insert_ne by done.
Qed.

Lemma session_ok ops : forall mp h out,
  alive mp h out -> 0 < size mp ->
  exists mp' h' out', pool_session ok ops (mp, h, out) = Ret (mp', h', out') /\ alive mp' h' out'.
Proof.
  destruct Hh0 as [_ Hb0].
  induction ops as [|op ops IH]; intros mp h out Hal Hs; cbn [pool_session]; [eauto|].
  assert (exists mp' h' out', pool_step ok op (mp, h, out) = Ret (mp', h', out') /\
    alive mp' h' out' /\ 0 < size mp') as (mp1 & h1 & out1 & -> & Hal1 & Hs1); [|by apply IH].
  destruct Hal as (Hp & Hown & Hnd & Hes & Hle). destruct op as [|i]; cbn [pool_step].
  - destruct (aloc_vec_ok ok mp h _ Hp Hs) as (mp1 & h1 & r & -> & Hk & Hsz & Hr).
    exists mp1, h1, (match r with Ok p => p :: out | Err _ => out end). split; [done|]. split; [|lia].
    pose proof (hk_elem _ _ _ _ Hk) as Hes1. rewrite Hes in Hes1.
    destruct r as [p|e]; destruct Hr as (Hpo & Hp1 & Hw).
    + split; [done|]. split; [by apply Hw|]. split; [constructor; [set_solver|done]|]. split; [done|].
      destruct Hk. lia.
    + split; [done|]. split; [by apply Hw|]. destruct Hk. repeat split; auto. lia.
  - destruct (out !! i) as [p|] eqn:Ei.
    2:{ exists mp, h, out. split; [done|]. split; [done|lia]. }
    destruct (free_vec_ok mp h _ p Hp) as (mp1 & -> & Hp1 & Hk & Hsz & Hw).
    { apply elem_of_list_to_set, list_elem_of_lookup. eauto. }
    eexists _, _, _. split; [done|]. split; [|lia].
    assert (list_to_set (delete i out) = list_to_set out ∖ {[p]} :> gset Z) as Hset.
    { by apply list_to_set_delete. }
    pose proof (hk_elem _ _ _ _ Hk). unfold alive. rewrite Hset.
    split; [done|]. split; [by apply Hw|]. split; [|split; [congruence|lia]].
    apply delete_Permutation in Ei as Hperm. rewrite Hperm in Hnd. by apply NoDup_cons in Hnd as [_ Hnd].
Qed.

(** A pool that was created and used in any way can be destroyed: what remains of it in
    the heap are the elements in use. *)
Lemma lifecycle_ok :
  exists mp h e, allreduce_create_mpool ok mp0 nb bytes CPU h0 = Ret (mp, h, e) /\
    if bool_decide (e = DOCA_SUCCESS) then
      forall ops, exists mp' h' out mp'' h'',
        pool_session ok ops (mp, h, []) = Ret (mp', h', out) /\ NoDup out /\
        (forall p, p ∈ out -> blocks h' !! p = Some bytes /\ blocks h0 !! p = None) /\
        allreduce_destroy_mpool mp' h' = Ret (mp'', h'', DOCA_SUCCESS) /\
        blocks h'' = gset_to_gmap bytes (list_to_set out) ∪ blocks h0
    else
      e = DOCA_ERROR_NO_MEMORY /\
      exists mp' h' e', allreduce_destroy_mpool mp h = Ret (mp', h', e') /\ blocks h' = blocks h0.
Proof.
  pose proof Hh0 as [_ Hb0]. destruct create_ok as (mp & h & e & E & Hc). exists mp, h, e. split; [done|]. clear E.
  destruct Hc as [(Hst & Hb & ->)|[Hal He]].
  - rewrite bool_decide_false by done. split; [done|]. unfold allreduce_destroy_mpool. rewrite Hst. eauto.
  - destruct He as [[-> Hsz]| ->].
    + rewrite bool_decide_true by done. intros ops.
      destruct (session_ok ops mp h [] Hal ltac:(lia)) as (mp1 & h1 & out & Es & Hp & Hown & Hnd & Hes & Hle).
      destruct (destroy_ok _ _ _ _ _ Hp Hown Hb0) as (mp2 & h2 & Ed & Hb2). rewrite Hes in Hb2.
      exists mp1, h1, out, mp2, h2. split; [done|]. split; [done|]. split; [|done].
      intros p Hin. destruct Hown as (a & l & fr & _ & _ & _ & _ & _ & _ & Hel & _).
      destruct (Hel p) as [Hlo Hbp]; [right; by apply elem_of_list_to_set|]. rewrite Hes in Hbp.
      split; [done|by apply Hb0].
    + rewrite bool_decide_false by done. split; [done|].
      destruct Hal as (Hp & Hown & _ & _ & _).
      destruct (destroy_ok _ _ _ _ _ Hp Hown Hb0) as (mp2 & h2 & Ed & Hb2).
      exists mp2, h2, DOCA_SUCCESS. split; [done|]. rewrite Hb2. cbn.
      by rewrite gset_to_gmap_empty, (left_id_L ∅ (∪)).
Qed.
End lifecycle.

(** C37: A pool of elements can be created, used in any way and destroyed.  In a session of
    allocations and releases of elements in use, whatever requests for memory fail and
    however often the pool grows, no step is undefined, an element is never handed out
    twice, and the elements in use are blocks the pool allocated; destruction then gives
    every block back but the elements still in use.  A creation that fails reports
    [DOCA_ERROR_NO_MEMORY] and leaves a pool whose destruction restores the heap. *)
Theorem pool_lifecycle (ok : malloc_env) `{!MallocLaws ok} mp0 h0 nb bytes :
  heap_wf h0 -> 0 < nb < 2 ^ 60 ->
  exists mp h e, allreduce_create_mpool ok mp0 nb bytes CPU h0 = Ret (mp, h, e) /\
    if bool_decide (e = DOCA_SUCCESS) then
      forall ops, exists mp' h' out mp'' h'',
        pool_session ok ops (mp, h, []) = Ret (mp', h', out) /\ NoDup out /\
        (forall p, p ∈ out -> blocks h' !! p = Some bytes /\ blocks h0 !! p = None) /\
        allreduce_destroy_mpool mp' h' = Ret (mp'', h'', DOCA_SUCCESS) /\
        blocks h'' = gset_to_gmap bytes (list_to_set out) ∪ blocks h0
    else
      e = DOCA_ERROR_NO_MEMORY /\
      exists mp' h' e', allreduce_destroy_mpool mp h = Ret (mp', h', e') /\ blocks h' = blocks h0.
Proof. apply lifecycle_ok; done. Qed.

(** A pool without elements cannot be used: growing it doubles a size of 0, so the
    array is reallocated to no bytes.  This is the pool of a run with a batch size of
    0, which [allreduce_create_mpool] accepts. *)
Theorem empty_pool_undefined (ok : malloc_env) mp0 h0 bytes :
  ok (next h0) 0 = true ->
  exists mp h, allreduce_create_mpool ok mp0 0 bytes CPU h0 = Ret (mp, h, DOCA_SUCCESS) /\
    allreduce_aloc_vec ok mp h = Undef ZeroRealloc.
Proof. intros E. unfold allreduce_create_mpool, malloc. change (u64 (0 * 8)) with 0. rewrite E. eexists _, _. split; reflexivity. Qed.

(** Returning an element to a pool whose elements are all free writes in front of the
    array: the index wraps. *)
Theorem free_full_pool_undefined mp h p :
  pool_ok mp h ∅ -> (forall a l, stack mp = Stack a l -> Z.of_nat (length l) < 2 ^ 64) ->
  allreduce_free_vec mp p = Undef OutOfBounds.
Proof.
  intros [(a & l & fr & E & _) _ Hh _ _ _] Hl. rewrite size_empty in Hh. specialize (Hl a l E).
  unfold allreduce_free_vec. rewrite Hh. unfold put_slot. cbn [stack set_head head]. rewrite E.
  change (u64 (Z.of_nat 0 - 1)) with (2 ^ 64 - 1).
  rewrite (proj2 (Z.ltb_ge _ _)) by lia. by rewrite andb_false_r.
Qed.

(** ** Concrete instances *)

(** Requests of less than 100 bytes are granted until the tenth. *)
Definition sample_malloc : malloc_env := fun n bytes => (n <? 10) && (bytes <? 100).

#[export] Instance sample_malloc_laws : MallocLaws sample_malloc.
Proof. split. unfold sample_malloc. intros n b H. lia. Qed.

Definition sample_heap : heap := Heap 1 ∅.
Definition no_pool : mpool := Mpool NoStack 0 0 CPU 0 (fun h => (None, h)) (fun _ h => Ret h).

Lemma sample_heap_wf : heap_wf sample_heap.
Proof. split; [done|]. intros. apply lookup_empty. Qed.

Lemma pool_lifecycle_witness :
  exists mp h e, allreduce_create_mpool sample_malloc no_pool 2 16 CPU sample_heap = Ret (mp, h, e) /\
    if bool_decide (e = DOCA_SUCCESS) then
      forall ops, exists mp' h' out mp'' h'',
        pool_session sample_malloc ops (mp, h, []) = Ret (mp', h', out) /\ NoDup out /\
        (forall p, p ∈ out -> blocks h' !! p = Some 16 /\ blocks sample_heap !! p = None) /\
        allreduce_destroy_mpool mp' h' = Ret (mp'', h'', DOCA_SUCCESS) /\
        blocks h'' = gset_to_gmap 16 (list_to_set out) ∪ blocks sample_heap
    else
      e = DOCA_ERROR_NO_MEMORY /\
      exists mp' h' e', allreduce_destroy_mpool mp h = Ret (mp', h', e') /\ blocks h' = blocks sample_heap.
Proof. apply (pool_lifecycle sample_malloc no_pool sample_heap 2 16); [exact sample_heap_wf|lia]. Defined.

(** The third allocation makes a pool of two elements grow; the elements handed out are
    the blocks 2, 3 and 5 (block 1 is the array, block 4 the array after the growth). *)
Example pool_grows :
  match allreduce_create_mpool sample_malloc no_pool 2 16 CPU sample_heap with
  | Ret (mp, h, _) =>
      match pool_session sample_malloc [Aloc; Aloc; Aloc; Free 1; Aloc] (mp, h, []) with
      | Ret (mp, _, out) => (size mp, out) = (4, [3; 5; 2])
      | Undef _ => False
      end
  | Undef _ => False
  end.
Proof. vm_compute. reflexivity. Qed.

Lemma empty_pool_undefined_witness :
  exists mp h, allreduce_create_mpool sample_malloc no_pool 0 16 CPU sample_heap = Ret (mp, h, DOCA_SUCCESS) /\
    allreduce_aloc_vec sample_malloc mp h = Undef ZeroRealloc.
Proof. apply (empty_pool_undefined sample_malloc no_pool sample_heap 16). reflexivity. Defined.
