(* ===== verification/Allreduce.v ===== *)
(** * Allreduce: super-requests, reduction and the callbacks of daemon and client

    applications/allreduce: allreduce_core.c (requests and super-requests, scatter and
    gather), allreduce_reducer.c, allreduce_ucx.c (sending, receiving and completing),
    allreduce_daemon.c and allreduce_client.c, in the build without GPU support.

    A process is a [world]: the memory pools, the objects that live in their elements,
    the table of super-requests by operation id, and the UCX requests in progress.
    Objects of a pool keep their last contents when they are returned, as in C.  A
    vector is a list of element bit patterns, [None] where memory was never written.

    UCX is a parameter: it answers the n-th call by completing it at once, by an error,
    or by a request that an event completes later.  What it reads from a buffer in
    between must not change; a completion that finds the buffer of a send changed is
    undefined. *)
From S2P Require Import Prelude MemPool.
From Stdlib Require Import Floats.SpecFloat.

(** ** Configuration *)

Inductive allreduce_role : Type := ALLREDUCE_CLIENT | ALLREDUCE_DAEMON.
Inductive allreduce_mode : Type := ALLREDUCE_NON_OFFLOADED_MODE | ALLREDUCE_OFFLOAD_MODE.
Inductive allreduce_am_id : Type :=
| ALLREDUCE_CTRL_AM_ID | ALLREDUCE_OP_AM_ID | ALLREDUCE_HANDSHAKE_AM_ID.
Inductive allreduce_datatype : Type :=
| ALLREDUCE_BYTE | ALLREDUCE_INT | ALLREDUCE_FLOAT | ALLREDUCE_DOUBLE.
Inductive allreduce_operation : Type := ALLREDUCE_SUM | ALLREDUCE_PROD.

#[export] Instance allreduce_role_eq_dec : EqDecision allreduce_role.
Proof. solve_decision. Defined.
#[export] Instance allreduce_mode_eq_dec : EqDecision allreduce_mode.
Proof. solve_decision. Defined.
#[export] Instance allreduce_am_id_eq_dec : EqDecision allreduce_am_id.
Proof. solve_decision. Defined.

(** The members the modelled code reads; [dest_num] is [dest_addresses.num]. *)
Record allreduce_config : Type := Config {
  role : allreduce_role; num_clients : Z; vector_size : Z; datatype : allreduce_datatype;
  operation : allreduce_operation; batch_size : Z; num_batches : Z; mode : allreduce_mode;
  dest_num : Z
}.

(** ** Elements and the reducer *)

(** Bit patterns of IEEE numbers with [m] bits of fraction and [e] of exponent; every
    NaN is written as the quiet one. *)
Definition float_of_bits (m e : Z) (x : Z) : spec_float :=
  let sign := Z.testbit x (m + e) in
  let ex := Z.land (Z.shiftr x m) (2 ^ e - 1) in
  let fr := Z.land x (2 ^ m - 1) in
  let emin := 3 - 2 ^ (e - 1) - (m + 1) in
  if ex =? 2 ^ e - 1 then (if fr =? 0 then S754_infinity sign else S754_nan)
  else if ex =? 0 then
    match fr with Zpos p => S754_finite sign p emin | _ => S754_zero sign end
  else
    match fr + 2 ^ m with Zpos p => S754_finite sign p (ex - 1 + emin) | _ => S754_nan end.

Definition bits_of_float (m e : Z) (f : spec_float) : Z :=
  let sgn (b : bool) := if b then Z.shiftl 1 (m + e) else 0 in
  let emin := 3 - 2 ^ (e - 1) - (m + 1) in
  match f with
  | S754_zero s => sgn s
  | S754_infinity s => sgn s + Z.shiftl (2 ^ e - 1) m
  | S754_nan => Z.shiftl (2 ^ e - 1) m + 2 ^ (m - 1)
  | S754_finite s p ex =>
      if Zpos p <? 2 ^ m then sgn s + Zpos p
      else sgn s + Z.shiftl (ex - emin + 1) m + (Zpos p - 2 ^ m)
  end.

Definition float_op (op : allreduce_operation) (m e d s : Z) : Z :=
  let x := float_of_bits m e d in
  let y := float_of_bits m e s in
  bits_of_float m e
    (match op with
     | ALLREDUCE_SUM => SFadd (m + 1) (2 ^ (e - 1)) x y
     | ALLREDUCE_PROD => SFmul (m + 1) (2 ^ (e - 1)) x y
     end).

Definition int_op (op : allreduce_operation) (d s : Z) : Z :=
  match op with ALLREDUCE_SUM => d + s | ALLREDUCE_PROD => d * s end.

(** One element of [summation] or [product]: [uint8_t] wraps, [int] must not overflow. *)
Definition reduce_elem (op : allreduce_operation) (dt : allreduce_datatype) (d s : Z) : outcome Z :=
  match dt with
  | ALLREDUCE_BYTE => Ret (u8 (int_op op d s))
  | ALLREDUCE_INT =>
      let r := int_op op (i32 d) (i32 s) in
      let* _ := require ((- 2 ^ 31 <=? r) && (r <? 2 ^ 31)) SignedOverflow in
      Ret (u32 r)
  | ALLREDUCE_FLOAT => Ret (float_op op 23 8 d s)
  | ALLREDUCE_DOUBLE => Ret (float_op op 52 11 d s)
  end.

(** The loop of [summation] and [product] over the first [length] elements. *)
Fixpoint reduce_loop (f : Z -> Z -> outcome Z) (length : nat) (dst src : list (option Z))
    : outcome (list (option Z)) :=
  match length with
  | O => Ret dst
  | S length =>
      match dst, src with
      | Some d :: dst, Some s :: src =>
          let* x := f d s in
          let* rest := reduce_loop f length dst src in
          Ret (Some x :: rest)
      | None :: _, _ :: _ | _ :: _, None :: _ => Undef Uninitialised
      | _, _ => Undef OutOfBounds
      end
  end.

Definition summation (dst src : list (option Z)) (length : Z) (dt : allreduce_datatype)
    : outcome (list (option Z)) :=
  reduce_loop (reduce_elem ALLREDUCE_SUM dt) (Z.to_nat length) dst src.

Definition product (dst src : list (option Z)) (length : Z) (dt : allreduce_datatype)
    : outcome (list (option Z)) :=
  reduce_loop (reduce_elem ALLREDUCE_PROD dt) (Z.to_nat length) dst src.

(** ** Objects *)

(** Pointers are addresses, 0 is null. *)
Record allreduce_super_request : Type := Super {
  requests_list : list Z; num_allreduce_requests : Z; num_allreduce_operations : Z;
  result_vector_owner : bool; result_vector : Z; peer_result_vector : Z;
  recv_vector_iter : Z; recv_vectors : Z; header : Z; result_vector_size : Z
}.

Record allreduce_request : Type := Request {
  rq_super : Z; rq_header : Z; rq_connection : Z; rq_vector : Z; rq_vector_size : Z
}.

Inductive ucs_status_t : Type := UCS_OK | UCS_ERR_UNREACHABLE | UCS_ERR_OTHER.
#[export] Instance ucs_status_t_eq_dec : EqDecision ucs_status_t.
Proof. solve_decision. Defined.

(** The callbacks handed to UCX, with their argument. *)
Inductive callback : Type :=
| CbComplete (super : Z)       (** [allreduce_complete_operation_callback] *)
| CbGather (super : Z)         (** [_allreduce_gather_callback] *)
| CbClientDone (req : Z)       (** [daemon_allreduce_complete_client_operation_callback] *)
| CbClientData (req : Z)       (** [daemon_am_recv_data_complete_callback] *)
| CbResult (super : Z)         (** [client_am_recv_data_complete_callback] *)
| CbSubmitted.                 (** [allreduce_offloaded_complete_ctrl_send_callback] *)

Record message : Type := Message {
  m_conn : Z; m_am : allreduce_am_id; m_id : Z; m_data : list (option Z)
}.

(** A UCX request in progress: what it sends, from which buffer, or what it receives. *)
Inductive transfer : Type :=
| Sending (m : message) (buffer : Z)
| Receiving (data : list (option Z)) (buffer : Z).

Record ucx_request : Type := UcxRequest { ur_callback : callback; ur_transfer : transfer }.

(** The answer of [ucp_am_send_nbx] and [ucp_am_recv_data_nbx]: done, an error, a
    request that has completed already, or one in progress. *)
Inductive ucp_answer : Type :=
| Immediate | Failed (s : ucs_status_t) | Early (s : ucs_status_t) | InProgress.

Record env : Type := Env { malloc_ok : malloc_env; ucp : Z -> ucp_answer }.

Record pools : Type := Pools {
  the_heap : heap; vecs_pool : mpool; bufs_pool : mpool; reqs_pool : mpool; super_reqs_pool : mpool
}.

(** [sent] are the messages that left, in order; [pending] the requests in progress, by
    the number of UCX calls made up to the one that started them. *)
Record ucx : Type := Ucx {
  ucp_calls : Z; active_connections : gset Z; callback_errno : doca_error_t;
  pending : gmap Z ucx_request; sent : list message
}.

Record world : Type := World {
  w_pools : pools; vmem : gmap Z (list (option Z)); bmem : gmap Z (list (option Z));
  rmem : gmap Z allreduce_request; smem : gmap Z allreduce_super_request;
  super_requests_hash : gmap Z Z; client_active_allreduce_requests : Z;
  w_ucx : ucx; connections : list Z; allreduce_vectors : list Z; allreduce_next_id : Z
}.

Definition set_pools (x : pools) (w : world) : world :=
  World x (vmem w) (bmem w) (rmem w) (smem w) (super_requests_hash w)
    (client_active_allreduce_requests w) (w_ucx w) (connections w) (allreduce_vectors w) (allreduce_next_id w).
Definition set_vmem (x : gmap Z (list (option Z))) (w : world) : world :=
  World (w_pools w) x (bmem w) (rmem w) (smem w) (super_requests_hash w)
    (client_active_allreduce_requests w) (w_ucx w) (connections w) (allreduce_vectors w) (allreduce_next_id w).
Definition set_bmem (x : gmap Z (list (option Z))) (w : world) : world :=
  World (w_pools w) (vmem w) x (rmem w) (smem w) (super_requests_hash w)
    (client_active_allreduce_requests w) (w_ucx w) (connections w) (allreduce_vectors w) (allreduce_next_id w).
Definition set_rmem (x : gmap Z allreduce_request) (w : world) : world :=
  World (w_pools w) (vmem w) (bmem w) x (smem w) (super_requests_hash w)
    (client_active_allreduce_requests w) (w_ucx w) (connections w) (allreduce_vectors w) (allreduce_next_id w).
Definition set_smem (x : gmap Z allreduce_super_request) (w : world) : world :=
  World (w_pools w) (vmem w) (bmem w) (rmem w) x (super_requests_hash w)
    (client_active_allreduce_requests w) (w_ucx w) (connections w) (allreduce_vectors w) (allreduce_next_id w).
Definition set_hash (x : gmap Z Z) (w : world) : world :=
  World (w_pools w) (vmem w) (bmem w) (rmem w) (smem w) x
    (client_active_allreduce_requests w) (w_ucx w) (connections w) (allreduce_vectors w) (allreduce_next_id w).
Definition set_client_active (x : Z) (w : world) : world :=
  World (w_pools w) (vmem w) (bmem w) (rmem w) (smem w) (super_requests_hash w)
    x (w_ucx w) (connections w) (allreduce_vectors w) (allreduce_next_id w).
Definition set_ucx (x : ucx) (w : world) : world :=
  World (w_pools w) (vmem w) (bmem w) (rmem w) (smem w) (super_requests_hash w)
    (client_active_allreduce_requests w) x (connections w) (allreduce_vectors w) (allreduce_next_id w).
Definition set_next_id (x : Z) (w : world) : world :=
  World (w_pools w) (vmem w) (bmem w) (rmem w) (smem w) (super_requests_hash w)
    (client_active_allreduce_requests w) (w_ucx w) (connections w) (allreduce_vectors w) x.

Definition set_requests_list (x : list Z) (s : allreduce_super_request) : allreduce_super_request :=
  Super x (num_allreduce_requests s) (num_allreduce_operations s) (result_vector_owner s) (result_vector s)
    (peer_result_vector s) (recv_vector_iter s) (recv_vectors s) (header s) (result_vector_size s).
Definition set_num_requests (x : Z) (s : allreduce_super_request) : allreduce_super_request :=
  Super (requests_list s) x (num_allreduce_operations s) (result_vector_owner s) (result_vector s)
    (peer_result_vector s) (recv_vector_iter s) (recv_vectors s) (header s) (result_vector_size s).
Definition set_num_operations (x : Z) (s : allreduce_super_request) : allreduce_super_request :=
  Super (requests_list s) (num_allreduce_requests s) x (result_vector_owner s) (result_vector s)
    (peer_result_vector s) (recv_vector_iter s) (recv_vectors s) (header s) (result_vector_size s).
Definition set_result_vector (x : Z) (s : allreduce_super_request) : allreduce_super_request :=
  Super (requests_list s) (num_allreduce_requests s) (num_allreduce_operations s) (result_vector_owner s) x
    (peer_result_vector s) (recv_vector_iter s) (recv_vectors s) (header s) (result_vector_size s).
Definition set_peer_result_vector (x : Z) (s : allreduce_super_request) : allreduce_super_request :=
  Super (requests_list s) (num_allreduce_requests s) (num_allreduce_operations s) (result_vector_owner s)
    (result_vector s) x (recv_vector_iter s) (recv_vectors s) (header s) (result_vector_size s).
Definition set_recv_vector_iter (x : Z) (s : allreduce_super_request) : allreduce_super_request :=
  Super (requests_list s) (num_allreduce_requests s) (num_allreduce_operations s) (result_vector_owner s)
    (result_vector s) (peer_result_vector s) x (recv_vectors s) (header s) (result_vector_size s).

Definition super_at (a : Z) (w : world) : outcome allreduce_super_request :=
  of_option Uninitialised (smem w !! a).
Definition request_at (r : Z) (w : world) : outcome allreduce_request :=
  of_option Uninitialised (rmem w !! r).
Definition put_super (a : Z) (s : allreduce_super_request) (w : world) : world :=
  set_smem (<[a := s]> (smem w)) w.
Definition put_request (r : Z) (q : allreduce_request) (w : world) : world :=
  set_rmem (<[r := q]> (rmem w)) w.

(** [STAILQ_REMOVE] follows the links until it finds the element. *)
Fixpoint STAILQ_REMOVE (r : Z) (l : list Z) : outcome (list Z) :=
  match l with
  | [] => Undef NullDeref
  | x :: l => if x =? r then Ret l else let* l := STAILQ_REMOVE r l in Ret (x :: l)
  end.

Section app.
  Context (E : env) (cfg : allreduce_config).

(** ** Creation and destruction of the pools *)

Definition allreduce_datatype_size (dt : allreduce_datatype) : Z :=
  match dt with ALLREDUCE_BYTE => 1 | ALLREDUCE_INT | ALLREDUCE_FLOAT => 4 | ALLREDUCE_DOUBLE => 8 end.

(** [sizeof(struct allreduce_super_request)] and [sizeof(struct allreduce_request)] with
    64-bit pointers. *)
Definition sizeof_super_request : Z := 88.
Definition sizeof_request : Z := 48.

Definition allreduce_destroy_mempools (p : pools) : outcome pools :=
  let* (sp, h, _) := allreduce_destroy_mpool (super_reqs_pool p) (the_heap p) in
  let p := Pools h (vecs_pool p) (bufs_pool p) (reqs_pool p) sp in
  if bool_decide (role cfg = ALLREDUCE_DAEMON) || bool_decide (mode cfg = ALLREDUCE_NON_OFFLOADED_MODE) then
    let* (vp, h, _) := allreduce_destroy_mpool (vecs_pool p) h in
    let p := Pools h vp (bufs_pool p) (reqs_pool p) sp in
    let* p :=
      if 1 <? dest_num cfg then
        let* (bp, h, _) := allreduce_destroy_mpool (bufs_pool p) h in
        Ret (Pools h vp bp (reqs_pool p) sp)
      else Ret p in
    if bool_decide (role cfg = ALLREDUCE_DAEMON) then
      let* (rp, h, _) := allreduce_destroy_mpool (reqs_pool p) (the_heap p) in
      Ret (Pools h vp (bufs_pool p) rp sp)
    else Ret p
  else Ret p.

(** [result |= ...] works on the numbers of the error codes. *)
Definition allreduce_init_mempools (p : pools) : outcome (pools * Z) :=
  let batch2 := u64 (2 * batch_size cfg) in
  let* (sp, h, e) := allreduce_create_mpool (malloc_ok E) (super_reqs_pool p) batch2 sizeof_super_request CPU (the_heap p) in
  let p := Pools h (vecs_pool p) (bufs_pool p) (reqs_pool p) sp in
  let result := error_code e in
  if bool_decide (role cfg = ALLREDUCE_CLIENT) && bool_decide (mode cfg = ALLREDUCE_OFFLOAD_MODE) then Ret (p, result)
  else
    let* (vp, h, e) :=
      allreduce_create_mpool (malloc_ok E) (vecs_pool p)
        (u64 (u64 (2 * u64 (num_clients cfg + dest_num cfg)) * batch_size cfg))
        (u64 (vector_size cfg * allreduce_datatype_size (datatype cfg))) CPU h in
    let p := Pools h vp (bufs_pool p) (reqs_pool p) sp in
    let result := Z.lor result (error_code e) in
    let* (p, result) :=
      if 1 <? dest_num cfg then
        let* (bp, h, e) := allreduce_create_mpool (malloc_ok E) (bufs_pool p) batch2 (u64 (dest_num cfg * 8)) CPU h in
        Ret (Pools h vp bp (reqs_pool p) sp, Z.lor result (error_code e))
      else Ret (p, result) in
    let* (p, result) :=
      if bool_decide (role cfg = ALLREDUCE_DAEMON) then
        let* (rp, h, e) := allreduce_create_mpool (malloc_ok E) (reqs_pool p) (u64 (batch2 * num_clients cfg))
                             sizeof_request CPU (the_heap p) in
        Ret (Pools h vp (bufs_pool p) rp sp, Z.lor result (error_code e))
      else Ret (p, result) in
    let* p := if result =? 0 then Ret p else allreduce_destroy_mempools p in
    Ret (p, result).

(** ** Pools *)

Definition allreduce_aloc_vec_vecs_pool (w : world) : outcome (world * res Z) :=
  let p := w_pools w in
  let* (mp, h, r) := allreduce_aloc_vec (malloc_ok E) (vecs_pool p) (the_heap p) in
  Ret (set_pools (Pools h mp (bufs_pool p) (reqs_pool p) (super_reqs_pool p)) w, r).
Definition allreduce_aloc_vec_bufs_pool (w : world) : outcome (world * res Z) :=
  let p := w_pools w in
  let* (mp, h, r) := allreduce_aloc_vec (malloc_ok E) (bufs_pool p) (the_heap p) in
  Ret (set_pools (Pools h (vecs_pool p) mp (reqs_pool p) (super_reqs_pool p)) w, r).
Definition allreduce_aloc_vec_reqs_pool (w : world) : outcome (world * res Z) :=
  let p := w_pools w in
  let* (mp, h, r) := allreduce_aloc_vec (malloc_ok E) (reqs_pool p) (the_heap p) in
  Ret (set_pools (Pools h (vecs_pool p) (bufs_pool p) mp (super_reqs_pool p)) w, r).
Definition allreduce_aloc_vec_super_reqs_pool (w : world) : outcome (world * res Z) :=
  let p := w_pools w in
  let* (mp, h, r) := allreduce_aloc_vec (malloc_ok E) (super_reqs_pool p) (the_heap p) in
  Ret (set_pools (Pools h (vecs_pool p) (bufs_pool p) (reqs_pool p) mp) w, r).

Definition allreduce_free_vec_vecs_pool (v : Z) (w : world) : outcome world :=
  let p := w_pools w in
  let* mp := allreduce_free_vec (vecs_pool p) v in
  Ret (set_pools (Pools (the_heap p) mp (bufs_pool p) (reqs_pool p) (super_reqs_pool p)) w).
Definition allreduce_free_vec_bufs_pool (v : Z) (w : world) : outcome world :=
  let p := w_pools w in
  let* mp := allreduce_free_vec (bufs_pool p) v in
  Ret (set_pools (Pools (the_heap p) (vecs_pool p) mp (reqs_pool p) (super_reqs_pool p)) w).
Definition allreduce_free_vec_reqs_pool (v : Z) (w : world) : outcome world :=
  let p := w_pools w in
  let* mp := allreduce_free_vec (reqs_pool p) v in
  Ret (set_pools (Pools (the_heap p) (vecs_pool p) (bufs_pool p) mp (super_reqs_pool p)) w).
Definition allreduce_free_vec_super_reqs_pool (v : Z) (w : world) : outcome world :=
  let p := w_pools w in
  let* mp := allreduce_free_vec (super_reqs_pool p) v in
  Ret (set_pools (Pools (the_heap p) (vecs_pool p) (bufs_pool p) (reqs_pool p) mp) w).

(** The contents of an array in a pool's element; [capacity] is its size. *)
Definition array_at (mem : gmap Z (list (option Z))) (capacity a : Z) : outcome (list (option Z)) :=
  if a =? 0 then Undef NullDeref
  else Ret (default (replicate (Z.to_nat capacity) None) (mem !! a)).

(** [vecs[0 .. n-1]] of an array of pointers. *)
Fixpoint read_pointers (n i : nat) (l : list (option Z)) : outcome (list Z) :=
  match n with
  | O => Ret []
  | S n =>
      let* s := of_option OutOfBounds (l !! i) in
      let* p := of_option Uninitialised s in
      let* ps := read_pointers n (S i) l in
      Ret (p :: ps)
  end.

Definition pointers_at (buf n : Z) (w : world) : outcome (list Z) :=
  if n =? 0 then Ret []
  else
    let* l := array_at (bmem w) (dest_num cfg) buf in
    read_pointers (Z.to_nat n) 0 l.

Definition allreduce_free_vecs_vecs_pool (buf n : Z) (w : world) : outcome world :=
  let* vecs := pointers_at buf n w in
  let p := w_pools w in
  let* mp := allreduce_free_vecs (vecs_pool p) vecs in
  Ret (set_pools (Pools (the_heap p) mp (bufs_pool p) (reqs_pool p) (super_reqs_pool p)) w).

(** [memcpy] of whole elements into a vector. *)
Definition copy_to (buf : Z) (data : list (option Z)) (w : world) : outcome world :=
  if bool_decide (data = []) then Ret w
  else
    let* old := array_at (vmem w) (vector_size cfg) buf in
    let* _ := require (length data <=? length old)%nat OutOfBounds in
    Ret (set_vmem (<[buf := data ++ drop (length data) old]> (vmem w)) w).

(** The first [n] elements of a vector, as a send reads them. *)
Definition read_from (buf n : Z) (w : world) : outcome (list (option Z)) :=
  if n =? 0 then Ret []
  else
    let* l := array_at (vmem w) (vector_size cfg) buf in
    let* _ := require (Z.to_nat n <=? length l)%nat OutOfBounds in
    Ret (take (Z.to_nat n) l).

(** ** Reducer *)

Definition allreduce_reduce (a src_vec : Z) (is_peer : bool) (w : world) : outcome world :=
  let* s := super_at a w in
  let dst_vec := if is_peer then peer_result_vector s else result_vector s in
  let dst_vec_len := result_vector_size s in
  if dst_vec_len =? 0 then Ret w
  else
    let* dst := array_at (vmem w) (vector_size cfg) dst_vec in
    let* src := array_at (vmem w) (vector_size cfg) src_vec in
    let* r := match operation cfg with
              | ALLREDUCE_SUM => summation dst src dst_vec_len (datatype cfg)
              | ALLREDUCE_PROD => product dst src dst_vec_len (datatype cfg)
              end in
    Ret (set_vmem (<[dst_vec := r]> (vmem w)) w).

Fixpoint reduce_vectors (a : Z) (vectors : list Z) (is_peers : bool) (w : world) : outcome world :=
  match vectors with
  | [] => Ret w
  | v :: vectors =>
      let* w := allreduce_reduce a v is_peers w in
      reduce_vectors a vectors is_peers w
  end.

Definition allreduce_reduce_all (a : Z) (is_peers : bool) (w : world) : outcome world :=
  let* s := super_at a w in
  let n := if is_peers then recv_vector_iter s
           else if result_vector_owner s then u64 (num_clients cfg - 1) else num_clients cfg in
  let* vectors := pointers_at (recv_vectors s) n w in
  reduce_vectors a vectors is_peers w.

(** ** Requests and super-requests *)

Definition allreduce_request_destroy (r : Z) (w : world) : outcome world :=
  let* q := request_at r w in
  let* w := if rq_vector q =? 0 then Ret w else allreduce_free_vec_vecs_pool (rq_vector q) w in
  allreduce_free_vec_reqs_pool r w.

Fixpoint destroy_requests (a : Z) (reqs : list Z) (w : world) : outcome world :=
  match reqs with
  | [] => Ret w
  | r :: reqs =>
      let* s := super_at a w in
      let* l := STAILQ_REMOVE r (requests_list s) in
      let w := put_super a (set_requests_list l s) w in
      let* w := allreduce_request_destroy r w in
      destroy_requests a reqs w
  end.

Definition allreduce_super_request_destroy (a : Z) (w : world) : outcome world :=
  let* s := super_at a w in
  let* w := if result_vector_owner s && negb (result_vector s =? 0)
            then allreduce_free_vec_vecs_pool (result_vector s) w else Ret w in
  let* w := if peer_result_vector s =? 0 then Ret w
            else allreduce_free_vec_vecs_pool (peer_result_vector s) w in
  let* w := if recv_vectors s =? 0 then Ret w else allreduce_free_vec_bufs_pool (recv_vectors s) w in
  let* w := if 0 <? num_allreduce_requests s then destroy_requests a (requests_list s) w else Ret w in
  allreduce_free_vec_super_reqs_pool a w.

Definition allreduce_super_request_finish (req_id : Z) (w : world) : outcome world :=
  match super_requests_hash w !! req_id with
  | None => Ret w
  | Some a =>
      let w := set_hash (delete req_id (super_requests_hash w)) w in
      allreduce_super_request_destroy a w
  end.

Definition allreduce_super_request_allocate (hdr length result_vector : Z) (w : world)
    : outcome (world * Z) :=
  let* (w, r) := allreduce_aloc_vec_super_reqs_pool w in
  match r with
  | Err _ => Ret (w, 0)
  | Ok a =>
      let* (w, rv) :=
        if dest_num cfg <=? 1 then Ret (w, Ok 0)
        else allreduce_aloc_vec_bufs_pool w in
      match rv with
      | Err _ =>
          let* w := allreduce_free_vec_super_reqs_pool a w in
          Ret (w, 0)
      | Ok recv =>
          Ret (put_super a
                 (Super [] 0 (u64 (2 * dest_num cfg + 1)) (result_vector =? 0) result_vector 0
                    0 recv hdr length) w, a)
      end
  end.

Definition allreduce_super_request_get (hdr result_length result_vector : Z) (w : world)
    : outcome (world * Z) :=
  match super_requests_hash w !! hdr with
  | Some a => Ret (w, a)
  | None =>
      let* (w, a) := allreduce_super_request_allocate hdr result_length result_vector w in
      if a =? 0 then Ret (w, 0)
      else Ret (set_hash (<[hdr := a]> (super_requests_hash w)) w, a)
  end.

Definition allreduce_request_allocate (connection hdr length : Z) (w : world) : outcome (world * Z) :=
  let* (w, r) := allreduce_aloc_vec_reqs_pool w in
  match r with
  | Err _ => Ret (w, 0)
  | Ok q =>
      let* (w, v) := allreduce_aloc_vec_vecs_pool w in
      match v with
      | Err _ =>
          let* w := allreduce_free_vec_reqs_pool q w in
          Ret (w, 0)
      | Ok vector => Ret (put_request q (Request 0 hdr connection vector length) w, q)
      end
  end.

(** ** UCX requests *)

(** [INVOKE_CALLBACK]: the first error of a callback is kept. *)
Definition INVOKE_CALLBACK (call : outcome (world * doca_error_t)) : outcome world :=
  let* (w, result) := call in
  let u := w_ucx w in
  Ret (set_ucx (Ucx (ucp_calls u) (active_connections u)
                  (DOCA_ERROR_PROPAGATE (callback_errno u) result) (pending u) (sent u)) w).

Definition count_call (w : world) : world :=
  let u := w_ucx w in
  set_ucx (Ucx (ucp_calls u + 1) (active_connections u) (callback_errno u) (pending u) (sent u)) w.
Definition log_sent (m : message) (w : world) : world :=
  let u := w_ucx w in
  set_ucx (Ucx (ucp_calls u) (active_connections u) (callback_errno u) (pending u) (sent u ++ [m])) w.
Definition set_pending (x : gmap Z ucx_request) (w : world) : world :=
  let u := w_ucx w in
  set_ucx (Ucx (ucp_calls u) (active_connections u) (callback_errno u) x (sent u)) w.

(** The data of a transfer arrives: a send leaves, a receive fills its buffer. *)
Definition transfer_done (t : transfer) (w : world) : outcome world :=
  match t with
  | Sending m buffer =>
      let* now := read_from buffer (Z.of_nat (length (m_data m))) w in
      let* _ := require (bool_decide (now = m_data m)) BufferInUse in
      Ret (log_sent m w)
  | Receiving data buffer => copy_to buffer data w
  end.

Definition transfer_status (st : ucs_status_t) (t : transfer) (w : world) : outcome world :=
  if bool_decide (st = UCS_OK) then transfer_done t w else Ret w.

(** [request_process] after the UCX call with the answer [ans]; [run] is the callback. *)
Definition request_process (ans : ucp_answer) (cb : callback) (t : transfer)
    (run : ucs_status_t -> world -> outcome (world * doca_error_t)) (w : world)
    : outcome (world * doca_error_t) :=
  match ans with
  | Immediate =>
      let* w := transfer_done t w in
      let* w := INVOKE_CALLBACK (run UCS_OK w) in
      Ret (w, DOCA_SUCCESS)
  | Failed st =>
      let* w := INVOKE_CALLBACK (run st w) in
      Ret (w, DOCA_ERROR_UNEXPECTED)
  | Early st =>
      let* w := transfer_status st t w in
      let* w := INVOKE_CALLBACK (run st w) in
      Ret (w, if bool_decide (st = UCS_OK) then DOCA_SUCCESS else DOCA_ERROR_UNEXPECTED)
  | InProgress =>
      let u := w_ucx w in
      Ret (set_pending (<[ucp_calls u := UcxRequest cb t]> (pending u)) w, DOCA_SUCCESS)
  end.

(** [am_send]: the header is the operation id, the length counts elements. *)
Definition am_send (connection : Z) (am : allreduce_am_id) (hdr buffer length : Z) (cb : callback)
    (run : ucs_status_t -> world -> outcome (world * doca_error_t)) (w : world)
    : outcome (world * doca_error_t) :=
  let* data := read_from buffer length w in
  let ans := ucp E (ucp_calls (w_ucx w)) in
  request_process ans cb (Sending (Message connection am hdr data) buffer) run (count_call w).

Definition allreduce_ucx_am_send (connection : Z) (am : allreduce_am_id) (hdr buffer length : Z)
    (cb : callback) (run : ucs_status_t -> world -> outcome (world * doca_error_t)) (w : world)
    : outcome (world * doca_error_t) :=
  if bool_decide (connection ∈ active_connections (w_ucx w)) then
    am_send connection am hdr buffer length cb run w
  else
    let* w := INVOKE_CALLBACK (run UCS_ERR_UNREACHABLE w) in
    Ret (w, DOCA_ERROR_NOT_CONNECTED).

(** An incoming message: whole, or only announced ([rndv]). *)
Record allreduce_ucx_am_desc : Type := AmDesc {
  d_connection : Z; d_header : Z; d_data : list (option Z); d_rndv : bool
}.

Definition d_length (d : allreduce_ucx_am_desc) : Z := Z.of_nat (length (d_data d)).

Definition allreduce_ucx_am_recv (d : allreduce_ucx_am_desc) (buffer : Z) (cb : callback)
    (run : ucs_status_t -> world -> outcome (world * doca_error_t)) (w : world)
    : outcome (world * doca_error_t) :=
  if d_rndv d then
    let ans := ucp E (ucp_calls (w_ucx w)) in
    request_process ans cb (Receiving (d_data d) buffer) run (count_call w)
  else request_process Immediate cb (Receiving (d_data d) buffer) run w.

(** ** Scatter and gather *)

Definition daemon_allreduce_complete_client_operation_callback (r : Z) (status : ucs_status_t)
    (w : world) : outcome (world * doca_error_t) :=
  let* q := request_at r w in
  let a := rq_super q in
  let* w := allreduce_request_destroy r w in
  let* s := super_at a w in
  let s := set_num_requests (u64 (num_allreduce_requests s - 1)) s in
  let w := put_super a s w in
  let* w := if num_allreduce_requests s =? 0 then allreduce_super_request_finish (header s) w else Ret w in
  Ret (w, DOCA_SUCCESS).

(** The loop that sends the result to the clients. *)
Fixpoint send_results (a : Z) (reqs : list Z) (w : world) : outcome world :=
  match reqs with
  | [] => Ret w
  | r :: reqs =>
      let* s := super_at a w in
      let* l := STAILQ_REMOVE r (requests_list s) in
      let w := put_super a (set_requests_list l s) w in
      let* q := request_at r w in
      let* (w, _) := allreduce_ucx_am_send (rq_connection q) ALLREDUCE_CTRL_AM_ID (header s)
                       (result_vector s) (result_vector_size s) (CbClientDone r)
                       (daemon_allreduce_complete_client_operation_callback r) w in
      send_results a reqs w
  end.

Definition allreduce_complete_operation_callback (a : Z) (status : ucs_status_t) (w : world)
    : outcome (world * doca_error_t) :=
  if bool_decide (status <> UCS_OK) then Ret (w, DOCA_ERROR_IO_FAILED)
  else
    let* s := super_at a w in
    let s := set_num_operations (u64 (num_allreduce_operations s - 1)) s in
    let w := put_super a s w in
    if 0 <? num_allreduce_operations s then Ret (w, DOCA_SUCCESS)
    else
      let* w :=
        if peer_result_vector s =? 0 then Ret w
        else
          let* w := allreduce_reduce a (peer_result_vector s) false w in
          let* w := allreduce_free_vec_vecs_pool (peer_result_vector s) w in
          Ret (put_super a (set_peer_result_vector 0 s) w) in
      let* w := allreduce_free_vecs_vecs_pool (recv_vectors s) (recv_vector_iter s) w in
      if bool_decide (role cfg = ALLREDUCE_CLIENT) then
        let* _ := require (bool_decide (requests_list s = [])) AssertFailed in
        let w := set_client_active (u64 (client_active_allreduce_requests w - 1)) w in
        let* w := allreduce_super_request_finish (header s) w in
        Ret (w, DOCA_SUCCESS)
      else
        let* w := send_results a (requests_list s) w in
        Ret (w, DOCA_SUCCESS).

(** The loop of [allreduce_scatter] over the connections from the i-th on. *)
Fixpoint scatter_loop (a : Z) (n i : nat) (w : world) : outcome world :=
  match n with
  | O => Ret w
  | S n =>
      let* c := of_option OutOfBounds (connections w !! i) in
      let* s := super_at a w in
      let* (w, _) := allreduce_ucx_am_send c ALLREDUCE_OP_AM_ID (header s) (result_vector s)
                       (result_vector_size s) (CbComplete a)
                       (allreduce_complete_operation_callback a) w in
      scatter_loop a n (S i) w
  end.

Definition allreduce_scatter (a : Z) (w : world) : outcome world :=
  let* w := scatter_loop a (Z.to_nat (dest_num cfg)) 0 w in
  let* (w, _) := allreduce_complete_operation_callback a UCS_OK w in
  Ret w.

Definition _allreduce_gather_callback (a : Z) (status : ucs_status_t) (w : world)
    : outcome (world * doca_error_t) :=
  if bool_decide (status <> UCS_OK) then Ret (w, DOCA_ERROR_IO_FAILED)
  else
    let* s := super_at a w in
    let* w := if (u64 (recv_vector_iter s + 1) =? dest_num cfg) && (0 <? recv_vector_iter s)
              then allreduce_reduce_all a true w else Ret w in
    allreduce_complete_operation_callback a status w.

(** [recv_vectors[i] = v]. *)
Definition put_pointer (buf i v : Z) (w : world) : outcome world :=
  let* l := array_at (bmem w) (dest_num cfg) buf in
  let* _ := require (Z.to_nat i <? length l)%nat OutOfBounds in
  Ret (set_bmem (<[buf := <[Z.to_nat i := Some v]> l]> (bmem w)) w).

Definition allreduce_gather_callback (d : allreduce_ucx_am_desc) (w : world)
    : outcome (world * doca_error_t) :=
  let* (w, a) := allreduce_super_request_get (d_header d) (d_length d) 0 w in
  if a =? 0 then Ret (w, DOCA_ERROR_NO_MEMORY)
  else
    let* (w, v) := allreduce_aloc_vec_vecs_pool w in
    match v with
    | Err _ => Ret (w, DOCA_ERROR_NO_MEMORY)
    | Ok vector =>
        let* s := super_at a w in
        let* _ := require (recv_vector_iter s <? dest_num cfg) AssertFailed in
        let* w :=
          if peer_result_vector s =? 0 then Ret (put_super a (set_peer_result_vector vector s) w)
          else
            let* w := put_pointer (recv_vectors s) (recv_vector_iter s) vector w in
            Ret (put_super a (set_recv_vector_iter (u64 (recv_vector_iter s + 1)) s) w) in
        allreduce_ucx_am_recv d vector (CbGather a) (_allreduce_gather_callback a) w
    end.

(** ** Daemon *)

Definition daemon_am_recv_data_complete_callback (r : Z) (status : ucs_status_t) (w : world)
    : outcome (world * doca_error_t) :=
  let* _ := require (bool_decide (status = UCS_OK)) AssertFailed in
  let* q := request_at r w in
  let* _ := require (rq_vector_size q <=? vector_size cfg) AssertFailed in
  let* (w, a) := allreduce_super_request_get (rq_header q) (rq_vector_size q) 0 w in
  if a =? 0 then
    let* w := allreduce_request_destroy r w in
    Ret (w, DOCA_ERROR_NO_MEMORY)
  else
    let* s := super_at a w in
    let w := put_request r (Request a (rq_header q) (rq_connection q) (rq_vector q) (rq_vector_size q)) w in
    let s := set_requests_list (requests_list s ++ [r])
               (set_num_requests (u64 (num_allreduce_requests s + 1)) s) in
    let w := put_super a s w in
    let* w :=
      if result_vector s =? 0 then Ret (put_super a (set_result_vector (rq_vector q) s) w)
      else
        let* w := allreduce_reduce a (rq_vector q) false w in
        allreduce_free_vec_vecs_pool (rq_vector q) w in
    let w := put_request r (Request a (rq_header q) (rq_connection q) 0 (rq_vector_size q)) w in
    let* w := if num_allreduce_requests s =? num_clients cfg then allreduce_scatter a w else Ret w in
    Ret (w, DOCA_SUCCESS).

Definition daemon_am_recv_ctrl_callback (d : allreduce_ucx_am_desc) (w : world)
    : outcome (world * doca_error_t) :=
  let* (w, r) := allreduce_request_allocate (d_connection d) (d_header d) (d_length d) w in
  if r =? 0 then Ret (w, DOCA_ERROR_NO_MEMORY)
  else
    let* q := request_at r w in
    allreduce_ucx_am_recv d (rq_vector q) (CbClientData r) (daemon_am_recv_data_complete_callback r) w.

(** ** Client *)

Definition client_am_recv_data_complete_callback (a : Z) (status : ucs_status_t) (w : world)
    : outcome (world * doca_error_t) :=
  let* _ := require (bool_decide (status = UCS_OK)) AssertFailed in
  let w := set_client_active (u64 (client_active_allreduce_requests w - 1)) w in
  let* s := super_at a w in
  let* w := allreduce_super_request_finish (header s) w in
  Ret (w, DOCA_SUCCESS).

Definition client_am_recv_ctrl_callback (d : allreduce_ucx_am_desc) (w : world)
    : outcome (world * doca_error_t) :=
  let* (w, a) := allreduce_super_request_get (d_header d) (d_length d) 0 w in
  if a =? 0 then Ret (w, DOCA_ERROR_NOT_FOUND)
  else
    let* s := super_at a w in
    allreduce_ucx_am_recv d (result_vector s) (CbResult a) (client_am_recv_data_complete_callback a) w.

Definition allreduce_offloaded_complete_ctrl_send_callback (status : ucs_status_t) (w : world)
    : outcome (world * doca_error_t) :=
  Ret (w, if bool_decide (status = UCS_OK) then DOCA_SUCCESS else DOCA_ERROR_IO_FAILED).

Definition allreduce_offloaded_submit (a : Z) (w : world) : outcome world :=
  let* connection := of_option OutOfBounds (connections w !! 0%nat) in
  let* s := super_at a w in
  let* (w, _) := allreduce_ucx_am_send connection ALLREDUCE_CTRL_AM_ID (header s) (result_vector s)
                   (result_vector_size s) CbSubmitted
                   allreduce_offloaded_complete_ctrl_send_callback w in
  Ret w.

Definition allreduce_non_offloaded_submit (a : Z) (w : world) : outcome world :=
  allreduce_scatter a w.

(** One operation of [allreduce_batch_submit]. *)
Definition submit_one (vector_sz : Z) (submit_func : Z -> world -> outcome world) (w : world)
    : outcome world :=
  let id := allreduce_next_id w in
  let w := set_next_id (u64 (id + 1)) w in
  let* _ := require (negb (batch_size cfg =? 0)) DivisionByZero in
  let* v := of_option OutOfBounds (allreduce_vectors w !! Z.to_nat (id mod batch_size cfg)) in
  let* (w, a) := allreduce_super_request_get id vector_sz v w in
  if a =? 0 then Ret w
  else
    let* s := super_at a w in
    let w := if result_vector s =? 0 then
               put_super a (Super (requests_list s) (num_allreduce_requests s) (num_allreduce_operations s)
                              false v (peer_result_vector s) (recv_vector_iter s) (recv_vectors s)
                              (header s) vector_sz) w
             else w in
    let w := set_client_active (u64 (client_active_allreduce_requests w + 1)) w in
    submit_func a w.

Fixpoint allreduce_batch_submit (vector_sz : Z) (batch : nat)
    (submit_func : Z -> world -> outcome world) (w : world) : outcome world :=
  match batch with
  | O => Ret w
  | S batch =>
      let* w := submit_one vector_sz submit_func w in
      allreduce_batch_submit vector_sz batch submit_func w
  end.

(** ** Events *)

Definition run_callback (cb : callback) (st : ucs_status_t) (w : world)
    : outcome (world * doca_error_t) :=
  match cb with
  | CbComplete a => allreduce_complete_operation_callback a st w
  | CbGather a => _allreduce_gather_callback a st w
  | CbClientDone r => daemon_allreduce_complete_client_operation_callback r st w
  | CbClientData r => daemon_am_recv_data_complete_callback r st w
  | CbResult a => client_am_recv_data_complete_callback a st w
  | CbSubmitted => allreduce_offloaded_complete_ctrl_send_callback st w
  end.

(** A message arrives, or the request of the n-th UCX call completes. *)
Inductive event : Type :=
| Arrive (am : allreduce_am_id) (d : allreduce_ucx_am_desc)
| Complete (n : Z) (st : ucs_status_t).

(** [am_recv_callback] with the handler the process registered for the message. *)
Definition am_recv_callback (am : allreduce_am_id) (d : allreduce_ucx_am_desc) (w : world)
    : outcome world :=
  match am, role cfg, mode cfg with
  | ALLREDUCE_CTRL_AM_ID, ALLREDUCE_DAEMON, _ => INVOKE_CALLBACK (daemon_am_recv_ctrl_callback d w)
  | ALLREDUCE_CTRL_AM_ID, ALLREDUCE_CLIENT, ALLREDUCE_OFFLOAD_MODE =>
      INVOKE_CALLBACK (client_am_recv_ctrl_callback d w)
  | ALLREDUCE_OP_AM_ID, ALLREDUCE_DAEMON, _
  | ALLREDUCE_OP_AM_ID, ALLREDUCE_CLIENT, ALLREDUCE_NON_OFFLOADED_MODE =>
      INVOKE_CALLBACK (allreduce_gather_callback d w)
  | _, _, _ => Ret w
  end.

(** [common_request_callback] of a request that was in progress. *)
Definition common_request_callback (n : Z) (st : ucs_status_t) (w : world) : outcome world :=
  match pending (w_ucx w) !! n with
  | None => Ret w
  | Some q =>
      let w := set_pending (delete n (pending (w_ucx w))) w in
      let* w := transfer_status st (ur_transfer q) w in
      INVOKE_CALLBACK (run_callback (ur_callback q) st w)
  end.

Definition handle_event (ev : event) (w : world) : outcome world :=
  match ev with
  | Arrive am d => am_recv_callback am d w
  | Complete n st => common_request_callback n st w
  end.

(** [daemon_run]: progress until a callback has failed. *)
Fixpoint daemon_run (evs : list event) (w : world) : outcome world :=
  match evs with
  | [] => Ret w
  | ev :: evs =>
      let* w := handle_event ev w in
      if bool_decide (callback_errno (w_ucx w) = DOCA_SUCCESS) then daemon_run evs w else Ret w
  end.

(** [allreduce_batch_wait]: progress while operations are active; [None] when the code
    exits because a callback failed. *)
Fixpoint allreduce_batch_wait (evs : list event) (w : world) : outcome (option world) :=
  if 0 <? client_active_allreduce_requests w then
    match evs with
    | [] => Ret (Some w)
    | ev :: evs =>
        let* w := handle_event ev w in
        if bool_decide (callback_errno (w_ucx w) = DOCA_SUCCESS) then allreduce_batch_wait evs w else Ret None
    end
  else Ret (Some w).

End app.
