(* ===== verification/AllreduceSpec.v ===== *)
(** * Allreduce: what a daemon computes

    Reductions of vectors and a specification of the daemon without memory: an operation
    is the list of vectors its clients sent, the list of vectors its peers sent, and the
    sends that are in progress; the vectors it sends are reductions of these lists. *)
From S2P Require Import Prelude MemPool Allreduce.

(** ** Reductions of vectors *)

Section reduction.
  Context (cfg : allreduce_config).

Definition relem : Z -> Z -> outcome Z := reduce_elem (operation cfg) (datatype cfg).

Fixpoint vreduce (x y : list Z) : outcome (list Z) :=
  match x, y with
  | a :: x, b :: y =>
      let* c := relem a b in
      let* r := vreduce x y in
      Ret (c :: r)
  | _, _ => Ret []
  end.

Fixpoint fold_vec (acc : list Z) (l : list (list Z)) : outcome (list Z) :=
  match l with
  | [] => Ret acc
  | y :: l => let* acc := vreduce acc y in fold_vec acc l
  end.

(** The reduction of the vectors in the order of the list. *)
Definition reduction (l : list (list Z)) : outcome (list Z) :=
  match l with [] => Ret [] | x :: l => fold_vec x l end.

(** The result of an operation: clients first, then the peers' own reduction. *)
Definition total (cl pe : list (list Z)) : outcome (list Z) :=
  let* l := reduction cl in
  match pe with
  | [] => Ret l
  | _ => let* p := reduction pe in vreduce l p
  end.

Lemma vreduce_length x : forall y r, length y = length x -> vreduce x y = Ret r -> length r = length x.
Proof.
  induction x as [|a x IH]; intros [|b y] r Hl H; cbn in *; try lia; inv_ret; [done|].
  obind H. obind H. inv_ret. cbn. f_equal. eapply IH; [|done]. lia.
Qed.

Lemma fold_vec_length l : forall acc r, Forall (fun y => length y = length acc) l ->
  fold_vec acc l = Ret r -> length r = length acc.
Proof.
  induction l as [|y l IH]; intros acc r Hl H; cbn in H; inv_ret; [done|].
  obind H. apply Forall_cons in Hl as [Hy Hl]. pose proof (vreduce_length _ _ _ Hy E) as Hlen.
  rewrite <-Hlen. apply IH; [|done]. by rewrite Hlen.
Qed.

Lemma reduction_length len l r :
  l <> [] -> Forall (fun y => length y = len) l -> reduction l = Ret r -> length r = len.
Proof.
  destruct l as [|x l]; [done|]. intros _ [Hx Hl]%Forall_cons H. cbn in H. subst len.
  by apply fold_vec_length in H.
Qed.

Lemma fold_vec_app l1 : forall acc l2,
  fold_vec acc (l1 ++ l2) = let* r := fold_vec acc l1 in fold_vec r l2.
Proof. induction l1 as [|y l1 IH]; intros acc l2; cbn; [done|]. destruct (vreduce acc y); [apply IH|done]. Qed.

Lemma reduction_snoc l x : l <> [] ->
  reduction (l ++ [x]) = let* r := reduction l in vreduce r x.
Proof.
  destruct l as [|y l]; [done|]. intros _. cbn. rewrite fold_vec_app.
  destruct (fold_vec y l); [|done]. cbn. by destruct (vreduce a x).
Qed.

(** The loop of the reducer on vectors that start with the operands. *)
Lemma reduce_loop_vec x : forall y t u, length y = length x ->
  reduce_loop relem (length x) ((Some <$> x) ++ t) ((Some <$> y) ++ u)
  = let* r := vreduce x y in Ret ((Some <$> r) ++ t).
Proof.
  induction x as [|a x IH]; intros [|b y] t u Hl; cbn in *; try lia; [done|].
  destruct (relem a b); [|done]. rewrite IH by lia. by destruct (vreduce x y).
Qed.
End reduction.

(** ** The specification *)

(** An operation: the vectors of clients (with their connections) and peers in the order
    they came, and the sends in progress; or the replies in progress. *)
Inductive sop : Type :=
| SGather (len : nat) (cl : list (Z * list Z)) (pe : list (list Z)) (ws : gset Z)
| SReply (ws : gset Z).

(** What is in progress: a client's vector, a send to a peer, a reply to a client. *)
Inductive spend : Type :=
| PRecv (id conn : Z) (x : list Z)
| PSend (id : Z) (m : message)
| PReply (id : Z) (m : message).

Record spec : Type := Spec {
  s_ops : gmap Z sop; s_pend : gmap Z spend; s_calls : Z; s_sent : list message
}.

Definition set_ops (x : gmap Z sop) (sp : spec) : spec := Spec x (s_pend sp) (s_calls sp) (s_sent sp).

Section spec.
  Context (E : env) (cfg : allreduce_config) (conns : list Z) (active : gset Z).

(** A message is sent at once, or its send is in progress; [None]: it fails. *)
Definition spec_send (p : spend) (m : message) (sp : spec) : option (spec * gset Z) :=
  let n := s_calls sp + 1 in
  match ucp E (s_calls sp) with
  | Immediate | Early UCS_OK => Some (Spec (s_ops sp) (s_pend sp) n (s_sent sp ++ [m]), ∅)
  | InProgress => Some (Spec (s_ops sp) (<[n := p]> (s_pend sp)) n (s_sent sp), {[n]})
  | _ => None
  end.

Fixpoint spec_sends (mk : message -> spend) (ms : list message) (sp : spec) : option (spec * gset Z) :=
  match ms with
  | [] => Some (sp, ∅)
  | m :: ms =>
      match spec_send (mk m) m sp with
      | Some (sp, ws1) =>
          match spec_sends mk ms sp with
          | Some (sp, ws2) => Some (sp, ws1 ∪ ws2)
          | None => None
          end
      | None => None
      end
  end.

(** With all vectors there and all sends done, every client gets the result. *)
Definition spec_check (id : Z) (sp : spec) : option spec :=
  match s_ops sp !! id with
  | Some (SGather _ cl pe ws) =>
      if bool_decide (Z.of_nat (length cl) = num_clients cfg /\ Z.of_nat (length pe) = dest_num cfg /\ ws = ∅)
      then
        match total cfg cl.*2 pe with
        | Ret t =>
            match spec_sends (PReply id)
                    ((fun c => Message c ALLREDUCE_CTRL_AM_ID id (Some <$> t)) <$> cl.*1) sp with
            | Some (sp, ws) =>
                Some (set_ops (if bool_decide (ws = ∅) then delete id (s_ops sp)
                               else <[id := SReply ws]> (s_ops sp)) sp)
            | None => None
            end
        | Undef _ => None
        end
      else Some sp
  | _ => Some sp
  end.

(** The lists of an operation that may still grow. *)
Definition spec_op (id : Z) (len : nat) (sp : spec)
    : option (list (Z * list Z) * list (list Z) * gset Z) :=
  match s_ops sp !! id with
  | None => Some ([], [], ∅)
  | Some (SGather len' cl pe ws) => if bool_decide (len' = len) then Some (cl, pe, ws) else None
  | Some (SReply _) => None
  end.

(** A client's vector is complete; the last one is followed by the sends to the peers. *)
Definition spec_client (id c : Z) (x : list Z) (sp : spec) : option spec :=
  match spec_op id (length x) sp with
  | Some (cl, pe, ws) =>
      if bool_decide (c ∈ active /\ Z.of_nat (length x) <= vector_size cfg /\
                      Z.of_nat (length cl) < num_clients cfg) then
        let cl := cl ++ [(c, x)] in
        match reduction cfg cl.*2 with
        | Ret l =>
            if bool_decide (Z.of_nat (length cl) = num_clients cfg) then
              match spec_sends (PSend id)
                      ((fun k => Message k ALLREDUCE_OP_AM_ID id (Some <$> l)) <$> conns) sp with
              | Some (sp, ws) =>
                  spec_check id (set_ops (<[id := SGather (length x) cl pe ws]> (s_ops sp)) sp)
              | None => None
              end
            else Some (set_ops (<[id := SGather (length x) cl pe ws]> (s_ops sp)) sp)
        | Undef _ => None
        end
      else None
  | None => None
  end.

(** A peer's vector arrives. *)
Definition spec_peer (id : Z) (x : list Z) (sp : spec) : option spec :=
  match spec_op id (length x) sp with
  | Some (cl, pe, ws) =>
      if bool_decide (Z.of_nat (length x) <= vector_size cfg /\ Z.of_nat (length pe) < dest_num cfg) then
        let pe := pe ++ [x] in
        match reduction cfg pe with
        | Ret _ => spec_check id (set_ops (<[id := SGather (length x) cl pe ws]> (s_ops sp)) sp)
        | Undef _ => None
        end
      else None
  | None => None
  end.

Definition count_pend (n : Z) (p : spend) (sp : spec) : spec :=
  Spec (s_ops sp) (<[n := p]> (s_pend sp)) n (s_sent sp).

(** [None] for events outside the specification: a failed send or receive, more vectors
    than clients or peers, vectors of different lengths, and a peer's vector that is
    only announced. *)
Definition spec_event (ev : event) (sp : spec) : option spec :=
  match ev with
  | Arrive ALLREDUCE_CTRL_AM_ID d =>
      match mapM id (d_data d) with
      | None => None
      | Some x =>
          if d_rndv d then
            let n := s_calls sp + 1 in
            match ucp E (s_calls sp) with
            | Immediate | Early UCS_OK =>
                spec_client (d_header d) (d_connection d) x (Spec (s_ops sp) (s_pend sp) n (s_sent sp))
            | InProgress => Some (count_pend n (PRecv (d_header d) (d_connection d) x) sp)
            | _ => None
            end
          else spec_client (d_header d) (d_connection d) x sp
      end
  | Arrive ALLREDUCE_OP_AM_ID d =>
      match mapM id (d_data d) with
      | Some x => if d_rndv d then None else spec_peer (d_header d) x sp
      | None => None
      end
  | Arrive ALLREDUCE_HANDSHAKE_AM_ID _ => None
  | Complete n UCS_OK =>
      match s_pend sp !! n with
      | None => Some sp
      | Some p =>
          let ps := delete n (s_pend sp) in
          match p with
          | PRecv id c x => spec_client id c x (Spec (s_ops sp) ps (s_calls sp) (s_sent sp))
          | PSend id m =>
              match s_ops sp !! id with
              | Some (SGather len cl pe ws) =>
                  spec_check id (Spec (<[id := SGather len cl pe (ws ∖ {[n]})]> (s_ops sp)) ps
                                   (s_calls sp) (s_sent sp ++ [m]))
              | _ => None
              end
          | PReply id m =>
              match s_ops sp !! id with
              | Some (SReply ws) =>
                  let ws := ws ∖ {[n]} in
                  Some (Spec (if bool_decide (ws = ∅) then delete id (s_ops sp)
                              else <[id := SReply ws]> (s_ops sp)) ps (s_calls sp) (s_sent sp ++ [m]))
              | _ => None
              end
          end
      end
  | Complete _ _ => None
  end.

Fixpoint spec_run (evs : list event) (sp : spec) : option spec :=
  match evs with
  | [] => Some sp
  | ev :: evs => match spec_event ev sp with Some sp => spec_run evs sp | None => None end
  end.
End spec.

