(* ===== verification/AllreduceInv.v ===== *)
(** * Allreduce: the invariant of a daemon

    The daemon of [Allreduce] against the specification of [AllreduceSpec].  The relation
    says where the objects of every operation are; every handler keeps it.  The pools of
    the daemon hold exactly the objects of the operations that are not finished. *)
From S2P Require Import Prelude MemPool Allreduce AllreduceSpec.

(** ** The pools of a daemon *)

(** The elements in use of each pool.  The pool of buffers exists with two peers or more. *)
Record pools_ok (cfg : allreduce_config) (p : pools) (A B C D : gset Z) : Prop := PoolsOk {
  k_vecs : pool_ok (vecs_pool p) (the_heap p) A /\ 0 < size (vecs_pool p);
  k_bufs : if dest_num cfg <=? 1 then B = ∅ /\ stack (bufs_pool p) = NoStack
           else pool_ok (bufs_pool p) (the_heap p) B /\ 0 < size (bufs_pool p);
  k_reqs : pool_ok (reqs_pool p) (the_heap p) C /\ 0 < size (reqs_pool p);
  k_supers : pool_ok (super_reqs_pool p) (the_heap p) D /\ 0 < size (super_reqs_pool p);
  k_addrs :
    stack_addr (vecs_pool p) <> stack_addr (bufs_pool p) /\
    stack_addr (vecs_pool p) <> stack_addr (reqs_pool p) /\
    stack_addr (vecs_pool p) <> stack_addr (super_reqs_pool p) /\
    stack_addr (bufs_pool p) <> stack_addr (reqs_pool p) /\
    stack_addr (bufs_pool p) <> stack_addr (super_reqs_pool p) /\
    stack_addr (reqs_pool p) <> stack_addr (super_reqs_pool p);
}.

(** A pool that is not the one an operation works on. *)
Lemma other_pool X X' Y h h' out outX :
  heap_kept X X' h h' -> pool_ok X' h' outX -> stack_addr Y <> stack_addr X -> pool_ok Y h out ->
  pool_ok Y h' out /\ stack_addr Y <> stack_addr X'.
Proof.
  intros [Hn Hb Ha _] HX Hne HY. pose proof (pool_addr _ _ _ HY).
  split; [|lia]. eapply pool_ok_kept; [done|done|]. apply Hb; [lia|done].
Qed.

Lemma other_bufs cfg X X' Y h h' out outX :
  heap_kept X X' h h' -> pool_ok X' h' outX -> stack_addr Y <> stack_addr X ->
  (if dest_num cfg <=? 1 then out = ∅ /\ stack Y = NoStack else pool_ok Y h out /\ 0 < size Y) ->
  (if dest_num cfg <=? 1 then out = ∅ /\ stack Y = NoStack else pool_ok Y h' out /\ 0 < size Y) /\
  stack_addr Y <> stack_addr X'.
Proof.
  intros Hk HX Hne HY. case_if.
  - destruct HY as [-> HY]. split; [done|]. unfold stack_addr at 1. rewrite HY.
    pose proof (pool_addr _ _ _ HX). lia.
  - destruct HY as [HY Hs]. destruct (other_pool X X' Y h h' out outX) as [? ?]; auto.
Qed.

Section pools.
  Context (E : env) `{!MallocLaws (malloc_ok E)} (cfg : allreduce_config).

Lemma vecs_kept p mp h A A' B C D :
  pools_ok cfg p A B C D -> heap_kept (vecs_pool p) mp (the_heap p) h -> pool_ok mp h A' ->
  size (vecs_pool p) <= size mp ->
  pools_ok cfg (Pools h mp (bufs_pool p) (reqs_pool p) (super_reqs_pool p)) A' B C D.
Proof.
  intros [Kv Kb Kr Ks Ka] Hk Hp Hs.
  destruct (other_bufs cfg _ _ (bufs_pool p) _ _ B _ Hk Hp) as [? ?]; [lia|done|].
  destruct (other_pool _ _ (reqs_pool p) _ _ C _ Hk Hp) as [? ?]; [lia|tauto|].
  destruct (other_pool _ _ (super_reqs_pool p) _ _ D _ Hk Hp) as [? ?]; [lia|tauto|].
  split; cbn; try done; try (split; [done|]); lia.
Qed.

Lemma bufs_kept p mp h A B B' C D :
  pools_ok cfg p A B C D -> heap_kept (bufs_pool p) mp (the_heap p) h -> pool_ok mp h B' ->
  size (bufs_pool p) <= size mp -> 1 < dest_num cfg ->
  pools_ok cfg (Pools h (vecs_pool p) mp (reqs_pool p) (super_reqs_pool p)) A B' C D.
Proof.
  intros [Kv Kb Kr Ks Ka] Hk Hp Hs Hd. rewrite (proj2 (Z.leb_gt _ _)) in Kb by lia.
  destruct (other_pool _ _ (vecs_pool p) _ _ A _ Hk Hp) as [? ?]; [lia|tauto|].
  destruct (other_pool _ _ (reqs_pool p) _ _ C _ Hk Hp) as [? ?]; [lia|tauto|].
  destruct (other_pool _ _ (super_reqs_pool p) _ _ D _ Hk Hp) as [? ?]; [lia|tauto|].
  split; cbn; try (rewrite (proj2 (Z.leb_gt _ _)) by lia); try (split; [done|]); lia.
Qed.

Lemma reqs_kept p mp h A B C C' D :
  pools_ok cfg p A B C D -> heap_kept (reqs_pool p) mp (the_heap p) h -> pool_ok mp h C' ->
  size (reqs_pool p) <= size mp ->
  pools_ok cfg (Pools h (vecs_pool p) (bufs_pool p) mp (super_reqs_pool p)) A B C' D.
Proof.
  intros [Kv Kb Kr Ks Ka] Hk Hp Hs.
  destruct (other_bufs cfg _ _ (bufs_pool p) _ _ B _ Hk Hp) as [? ?]; [lia|done|].
  destruct (other_pool _ _ (vecs_pool p) _ _ A _ Hk Hp) as [? ?]; [lia|tauto|].
  destruct (other_pool _ _ (super_reqs_pool p) _ _ D _ Hk Hp) as [? ?]; [lia|tauto|].
  split; cbn; try done; try (split; [done|]); lia.
Qed.

Lemma supers_kept p mp h A B C D D' :
  pools_ok cfg p A B C D -> heap_kept (super_reqs_pool p) mp (the_heap p) h -> pool_ok mp h D' ->
  size (super_reqs_pool p) <= size mp ->
  pools_ok cfg (Pools h (vecs_pool p) (bufs_pool p) (reqs_pool p) mp) A B C D'.
Proof.
  intros [Kv Kb Kr Ks Ka] Hk Hp Hs.
  destruct (other_bufs cfg _ _ (bufs_pool p) _ _ B _ Hk Hp) as [? ?]; [lia|done|].
  destruct (other_pool _ _ (vecs_pool p) _ _ A _ Hk Hp) as [? ?]; [lia|tauto|].
  destruct (other_pool _ _ (reqs_pool p) _ _ C _ Hk Hp) as [? ?]; [lia|tauto|].
  split; cbn; try done; try (split; [done|]); lia.
Qed.

(** The result of an allocation from one of the pools: an element that was not in use,
    or [DOCA_ERROR_NO_MEMORY]. *)
Definition alloc_result (w : world) (used : gset Z) (o : outcome (world * res Z))
    (ok : pools -> gset Z -> Prop) : Prop :=
  exists p r, o = Ret (set_pools p w, r) /\
    match r with
    | Ok v => v ∉ used /\ 0 < v /\ ok p ({[v]} ∪ used)
    | Err e => e = DOCA_ERROR_NO_MEMORY /\ ok p used
    end.

Ltac alloc_pool kept :=
  match goal with
  | H : pools_ok _ _ _ _ _ _, Hp : pool_ok ?mp ?h ?out, Hs : 0 < size ?mp |- _ =>
      destruct (aloc_vec_ok (malloc_ok E) mp h out Hp Hs) as (mp' & h' & r & -> & Hk & Hsz & Hr);
      eexists _, r; split; [reflexivity|]; destruct r as [v|e];
      [destruct Hr as (Hv & Hp' & _); split; [done|]; split;
        [apply (po_out _ _ _ Hp'); set_solver|]; eapply kept; eauto
      |destruct Hr as (-> & Hp' & _); split; [done|]; eapply kept; eauto]
  end.

Lemma aloc_vecs w A B C D : pools_ok cfg (w_pools w) A B C D ->
  alloc_result w A (allreduce_aloc_vec_vecs_pool E w) (fun p A => pools_ok cfg p A B C D).
Proof. intros H. pose proof (k_vecs _ _ _ _ _ _ H) as [Hp Hs]. unfold allreduce_aloc_vec_vecs_pool. alloc_pool vecs_kept. Qed.

Lemma aloc_bufs w A B C D : pools_ok cfg (w_pools w) A B C D -> 1 < dest_num cfg ->
  alloc_result w B (allreduce_aloc_vec_bufs_pool E w) (fun p B => pools_ok cfg p A B C D).
Proof.
  intros H Hd. pose proof (k_bufs _ _ _ _ _ _ H) as Hb. rewrite (proj2 (Z.leb_gt _ _)) in Hb by lia.
  destruct Hb as [Hp Hs]. unfold allreduce_aloc_vec_bufs_pool. alloc_pool bufs_kept.
Qed.

Lemma aloc_reqs w A B C D : pools_ok cfg (w_pools w) A B C D ->
  alloc_result w C (allreduce_aloc_vec_reqs_pool E w) (fun p C => pools_ok cfg p A B C D).
Proof. intros H. pose proof (k_reqs _ _ _ _ _ _ H) as [Hp Hs]. unfold allreduce_aloc_vec_reqs_pool. alloc_pool reqs_kept. Qed.

Lemma aloc_supers w A B C D : pools_ok cfg (w_pools w) A B C D ->
  alloc_result w D (allreduce_aloc_vec_super_reqs_pool E w) (fun p D => pools_ok cfg p A B C D).
Proof. intros H. pose proof (k_supers _ _ _ _ _ _ H) as [Hp Hs]. unfold allreduce_aloc_vec_super_reqs_pool. alloc_pool supers_kept. Qed.

(** The result of a release. *)
Definition free_result (w : world) (o : outcome world) (ok : pools -> Prop) : Prop :=
  exists p, o = Ret (set_pools p w) /\ ok p.

Ltac free_pool kept :=
  match goal with
  | H : pools_ok _ _ _ _ _ _, Hp : pool_ok ?mp ?h ?out, Hv : ?v ∈ ?out |- _ =>
      destruct (free_vec_ok mp h out v Hp Hv) as (mp' & -> & Hp' & Hk & Hsz & _);
      eexists; split; [reflexivity|]; eapply kept; eauto; lia
  end.

Lemma free_vecs1 w A B C D v : pools_ok cfg (w_pools w) A B C D -> v ∈ A ->
  free_result w (allreduce_free_vec_vecs_pool v w) (fun p => pools_ok cfg p (A ∖ {[v]}) B C D).
Proof. intros H Hv. pose proof (k_vecs _ _ _ _ _ _ H) as [Hp Hs]. unfold allreduce_free_vec_vecs_pool. free_pool vecs_kept. Qed.

Lemma free_bufs1 w A B C D v : pools_ok cfg (w_pools w) A B C D -> 1 < dest_num cfg -> v ∈ B ->
  free_result w (allreduce_free_vec_bufs_pool v w) (fun p => pools_ok cfg p A (B ∖ {[v]}) C D).
Proof.
  intros H Hd Hv. pose proof (k_bufs _ _ _ _ _ _ H) as Hb. rewrite (proj2 (Z.leb_gt _ _)) in Hb by lia.
  destruct Hb as [Hp Hs]. unfold allreduce_free_vec_bufs_pool. free_pool bufs_kept.
Qed.

Lemma free_reqs1 w A B C D v : pools_ok cfg (w_pools w) A B C D -> v ∈ C ->
  free_result w (allreduce_free_vec_reqs_pool v w) (fun p => pools_ok cfg p A B (C ∖ {[v]}) D).
Proof. intros H Hv. pose proof (k_reqs _ _ _ _ _ _ H) as [Hp Hs]. unfold allreduce_free_vec_reqs_pool. free_pool reqs_kept. Qed.

Lemma free_supers1 w A B C D v : pools_ok cfg (w_pools w) A B C D -> v ∈ D ->
  free_result w (allreduce_free_vec_super_reqs_pool v w) (fun p => pools_ok cfg p A B C (D ∖ {[v]})).
Proof. intros H Hv. pose proof (k_supers _ _ _ _ _ _ H) as [Hp Hs]. unfold allreduce_free_vec_super_reqs_pool. free_pool supers_kept. Qed.

Lemma free_vecs_list w A B C D vecs :
  pools_ok cfg (w_pools w) A B C D -> NoDup vecs -> list_to_set vecs ⊆ A ->
  exists p mp, allreduce_free_vecs (vecs_pool (w_pools w)) vecs = Ret mp /\
    p = Pools (the_heap (w_pools w)) mp (bufs_pool (w_pools w)) (reqs_pool (w_pools w)) (super_reqs_pool (w_pools w)) /\
    pools_ok cfg p (A ∖ list_to_set vecs) B C D.
Proof.
  intros H Hnd Hsub. pose proof (k_vecs _ _ _ _ _ _ H) as [Hp Hs].
  destruct (free_vecs_ok vecs _ _ A Hp Hnd Hsub) as (mp & -> & Hp' & Hk & Hsz).
  eexists _, mp. split; [done|]. split; [done|]. eapply vecs_kept; eauto. lia.
Qed.
End pools.

Lemma Forall2_impl_in {A B} (P Q : A -> B -> Prop) l k :
  Forall2 P l k -> (forall x y, x ∈ l -> y ∈ k -> P x y -> Q x y) -> Forall2 Q l k.
Proof.
  induction 1 as [|x y l k H _ IH]; intros HQ; constructor; [apply HQ; [left|left|done]|].
  apply IH. intros x' y' Hx Hy. apply HQ; by right.
Qed.

(** ** The relation between a daemon and the specification

    Every element in use of a pool has an owner: an operation, a receive in progress or
    a reply in progress, or the handler that runs ([Hand]). *)

Inductive owner : Type := ByOp (id : Z) | ByPend (n : Z) | Hand.
#[export] Instance owner_eq_dec : EqDecision owner.
Proof. solve_decision. Defined.

Record ghost : Type := Ghost {
  gv : gmap Z owner; gb : gmap Z owner; gr : gmap Z owner; gs : gmap Z owner
}.

(** [owns m o X]: [X] are the elements that [o] owns. *)
Definition owns (m : gmap Z owner) (o : owner) (X : gset Z) : Prop :=
  forall k, m !! k = Some o <-> k ∈ X.

Section relation.
  Context (E : env) (cfg : allreduce_config) (conns : list Z) (active : gset Z).

Definition vec (w : world) (v : Z) : list (option Z) :=
  default (replicate (Z.to_nat (vector_size cfg)) None) (vmem w !! v).
Definition buf (w : world) (b : Z) : list (option Z) :=
  default (replicate (Z.to_nat (dest_num cfg)) None) (bmem w !! b).

(** The vector at [v] starts with [x]. *)
Definition has (w : world) (v : Z) (x : list Z) : Prop := take (length x) (vec w v) = Some <$> x.

(** An operation that waits for vectors, the super-request at [a]: [rs] are its requests,
    [vs] the result vector if there is one, [pvs] the vectors of the peers; [ops] is the
    number of operations left, [red] tells whether the peers' vectors were reduced. *)
Record gathering (w : world) (G : ghost) (id a : Z) (rs vs pvs : list Z) (b : Z) (len : nat)
    (cl : list (Z * list Z)) (pe : list (list Z)) (ops : Z) (red : bool) : Prop := Gathering {
  ga_hash : super_requests_hash w !! id = Some a;
  ga_super : smem w !! a = Some (Super rs (Z.of_nat (length cl)) ops true (hd 0 vs) (hd 0 pvs)
                                   (Z.of_nat (pred (length pvs))) b id (Z.of_nat len));
  ga_os : owns (gs G) (ByOp id) {[a]};
  ga_or : owns (gr G) (ByOp id) (list_to_set rs);
  ga_ov : owns (gv G) (ByOp id) (list_to_set (vs ++ pvs));
  ga_ob : owns (gb G) (ByOp id) (if dest_num cfg <=? 1 then ∅ else {[b]});
  ga_b : dest_num cfg <= 1 -> b = 0;
  ga_nd : NoDup rs /\ NoDup (vs ++ pvs);
  ga_reqs : Forall2 (fun r c => rmem w !! r = Some (Request a id c.1 0 (Z.of_nat len))) rs cl;
  ga_res : match vs with
           | [] => cl = []
           | [v] => cl <> [] /\ exists l, reduction cfg cl.*2 = Ret l /\ has w v l
           | _ => False
           end;
  ga_pvs : length pvs = length pe;
  ga_peers : if red then forall pv, pvs !! 0%nat = Some pv -> exists p, reduction cfg pe = Ret p /\ has w pv p
             else Forall2 (has w) pvs pe;
  ga_buf : 1 < dest_num cfg -> forall i pv, pvs !! S i = Some pv -> buf w b !! i = Some (Some pv);
  ga_len : Forall (fun x => length x = len) (cl.*2 ++ pe);
  ga_size : Z.of_nat len <= vector_size cfg;
}.

(** An operation that has its result in [v]: [rs] are the requests, from the connections
    [cs], that have not been answered yet, [left] those whose reply has not completed. *)
Record replying (w : world) (G : ghost) (id a : Z) (rs cs : list Z) (v b iter ops : Z) (len : nat) (left : nat)
    : Prop := Replying {
  ry_hash : super_requests_hash w !! id = Some a;
  ry_super : smem w !! a = Some (Super rs (Z.of_nat left) ops true v 0 iter b id (Z.of_nat len));
  ry_os : owns (gs G) (ByOp id) {[a]};
  ry_or : owns (gr G) (ByOp id) (list_to_set rs);
  ry_ov : owns (gv G) (ByOp id) {[v]};
  ry_ob : owns (gb G) (ByOp id) (if dest_num cfg <=? 1 then ∅ else {[b]});
  ry_b : dest_num cfg <= 1 -> b = 0;
  ry_nd : NoDup rs;
  ry_reqs : Forall2 (fun r c => rmem w !! r = Some (Request a id c 0 (Z.of_nat len))) rs cs;
}.

(** The data of a send in progress is still in its buffer. *)
Definition intact (w : world) (v : Z) (m : message) : Prop :=
  take (length (m_data m)) (vec w v) = m_data m /\ Z.of_nat (length (m_data m)) <= vector_size cfg.

Definition sends_ok (w : world) (sp : spec) (id a v : Z) (ws : gset Z) : Prop :=
  forall n, n ∈ ws -> exists m, s_pend sp !! n = Some (PSend id m) /\
    pending (w_ucx w) !! n = Some (UcxRequest (CbComplete a) (Sending m v)) /\ intact w v m.

Definition replies_ok (w : world) (G : ghost) (sp : spec) (id a v : Z) (ws : gset Z) : Prop :=
  forall n, n ∈ ws -> exists m r c len, s_pend sp !! n = Some (PReply id m) /\
    pending (w_ucx w) !! n = Some (UcxRequest (CbClientDone r) (Sending m v)) /\ intact w v m /\
    rmem w !! r = Some (Request a id c 0 len) /\ owns (gr G) (ByPend n) {[r]}.

(** The sends and replies in progress of an operation are those of the set. *)
Definition only_sends (sp : spec) (id : Z) (ws : gset Z) : Prop :=
  forall n p, s_pend sp !! n = Some p ->
    match p with
    | PSend i _ => i = id -> n ∈ ws
    | PReply i _ => i <> id
    | PRecv _ _ _ => True
    end.
Definition only_replies (sp : spec) (id : Z) (ws : gset Z) : Prop :=
  forall n p, s_pend sp !! n = Some p ->
    match p with
    | PSend i _ => i <> id
    | PReply i _ => i = id -> n ∈ ws
    | PRecv _ _ _ => True
    end.

(** The operations left of a super-request: two for each peer and one for the daemon. *)
Definition ops_left (cl : list (Z * list Z)) (pe : list (list Z)) (ws : gset Z) : Z :=
  2 * dest_num cfg + 1 - Z.of_nat (length pe)
  - (if Z.of_nat (length cl) =? num_clients cfg then dest_num cfg - Z.of_nat (base.size ws) + 1 else 0).

(** The bounds of an operation. *)
Definition op_counts (cl : list (Z * list Z)) (pe : list (list Z)) (ws : gset Z) : Prop :=
  Z.of_nat (length cl) <= num_clients cfg /\ Z.of_nat (length pe) <= dest_num cfg /\
  (Z.of_nat (length cl) < num_clients cfg -> ws = ∅) /\ Z.of_nat (base.size ws) <= dest_num cfg /\
  Forall (fun c => c ∈ active) cl.*1.

Definition op_rel (w : world) (sp : spec) (G : ghost) (id : Z) (op : option sop) : Prop :=
  match op with
  | None =>
      super_requests_hash w !! id = None /\ only_sends sp id ∅ /\
      owns (gv G) (ByOp id) ∅ /\ owns (gb G) (ByOp id) ∅ /\ owns (gr G) (ByOp id) ∅ /\ owns (gs G) (ByOp id) ∅
  | Some (SGather len cl pe ws) =>
      (exists a rs vs pvs b,
         gathering w G id a rs vs pvs b len cl pe (ops_left cl pe ws)
           (bool_decide (Z.of_nat (length pe) = dest_num cfg)) /\
         sends_ok w sp id a (hd 0 vs) ws) /\
      only_sends sp id ws /\ op_counts cl pe ws /\
      ~ (Z.of_nat (length cl) = num_clients cfg /\ Z.of_nat (length pe) = dest_num cfg /\ ws = ∅)
  | Some (SReply ws) =>
      (exists a v b iter ops len, replying w G id a [] [] v b iter ops len (base.size ws) /\
         replies_ok w G sp id a v ws) /\
      only_replies sp id ws /\ ws <> ∅ /\ Z.of_nat (base.size ws) <= num_clients cfg
  end.

Definition recv_rel (w : world) (G : ghost) (n id c : Z) (x : list Z) : Prop :=
  exists r v,
    pending (w_ucx w) !! n = Some (UcxRequest (CbClientData r) (Receiving (Some <$> x) v)) /\
    rmem w !! r = Some (Request 0 id c v (Z.of_nat (length x))) /\
    owns (gr G) (ByPend n) {[r]} /\ owns (gv G) (ByPend n) {[v]}.

(** What a request in progress may own: a receive a vector and a request, a reply the
    client's request, a send nothing. *)
Definition keeps_vec (p : option spend) : Prop := match p with Some (PRecv _ _ _) => True | _ => False end.
Definition keeps_req (p : option spend) : Prop :=
  match p with Some (PRecv _ _ _) | Some (PReply _ _) => True | _ => False end.

(** The relation for all operations but [X], which the running handler works on. *)
Record base (X : option Z) (w : world) (sp : spec) (G : ghost) : Prop := Base {
  b_pools : pools_ok cfg (w_pools w) (dom (gv G)) (dom (gb G)) (dom (gr G)) (dom (gs G));
  b_vmem : forall v l, vmem w !! v = Some l -> length l = Z.to_nat (vector_size cfg);
  b_bmem : forall b l, bmem w !! b = Some l -> length l = Z.to_nat (dest_num cfg);
  b_ucx : ucp_calls (w_ucx w) = s_calls sp /\ sent (w_ucx w) = s_sent sp /\
          callback_errno (w_ucx w) = DOCA_SUCCESS /\ active_connections (w_ucx w) = active /\
          connections w = conns;
  b_fresh : forall n p, s_pend sp !! n = Some p -> n <= s_calls sp;
  b_dom : forall n, s_pend sp !! n = None -> pending (w_ucx w) !! n = None;
  b_ops : forall id, X <> Some id -> op_rel w sp G id (s_ops sp !! id);
  b_recv : forall n id c x, s_pend sp !! n = Some (PRecv id c x) -> recv_rel w G n id c x;
  b_owner : forall n k, (gv G !! k = Some (ByPend n) -> keeps_vec (s_pend sp !! n)) /\
                        (gr G !! k = Some (ByPend n) -> keeps_req (s_pend sp !! n));
  b_none : forall n k, gb G !! k <> Some (ByPend n) /\ gs G !! k <> Some (ByPend n);
}.

(** Nothing is in the hands of a handler. *)
Definition no_hand (G : ghost) : Prop :=
  owns (gv G) Hand ∅ /\ owns (gb G) Hand ∅ /\ owns (gr G) Hand ∅ /\ owns (gs G) Hand ∅.

Definition related (w : world) (sp : spec) : Prop := exists G, base None w sp G /\ no_hand G.

Context (Hclients : 0 < num_clients cfg).

(** ** Steps of a handler

    A step of a handler on the operation [X] changes only what this operation owns and
    what is in the handler's hands. *)
Definition other (X : option Z) (o : owner) : Prop := o <> Hand /\ forall id, X = Some id -> o <> ByOp id.

Record kept {A} (X : option Z) (g g' : gmap Z owner) (m m' : gmap Z A) : Prop := Kept {
  kp_own : forall k o, other X o -> g' !! k = Some o <-> g !! k = Some o;
  kp_mem : forall k o, other X o -> g !! k = Some o -> m' !! k = m !! k;
}.

Record step_ok (X : option Z) (w : world) (G : ghost) (w' : world) (G' : ghost) : Prop := StepOk {
  st_pools : pools_ok cfg (w_pools w') (dom (gv G')) (dom (gb G')) (dom (gr G')) (dom (gs G'));
  st_v : kept X (gv G) (gv G') (vmem w) (vmem w');
  st_b : kept X (gb G) (gb G') (bmem w) (bmem w');
  st_r : kept X (gr G) (gr G') (rmem w) (rmem w');
  st_s : kept X (gs G) (gs G') (smem w) (smem w');
  st_hash : forall i, X <> Some i -> super_requests_hash w' !! i = super_requests_hash w !! i;
  st_ucx : w_ucx w' = w_ucx w;
  st_conns : connections w' = connections w;
  st_vmem : forall v l, vmem w' !! v = Some l -> length l = Z.to_nat (vector_size cfg);
  st_bmem : forall b l, bmem w' !! b = Some l -> length l = Z.to_nat (dest_num cfg);
}.

Lemma owns_kept {A} X g g' (m m' : gmap Z A) o Y :
  kept X g g' m m' -> other X o -> owns g o Y -> owns g' o Y.
Proof. intros [Hk _] Ho H k. rewrite (Hk k o Ho). apply H. Qed.

Lemma mem_kept {A} X g g' (m m' : gmap Z A) o Y k :
  kept X g g' m m' -> other X o -> owns g o Y -> k ∈ Y -> m' !! k = m !! k.
Proof. intros [_ Hm] Ho H Hk. eapply Hm; [done|]. by apply H. Qed.

Lemma vec_kept X w G w' G' o Y v :
  step_ok X w G w' G' -> other X o -> owns (gv G) o Y -> v ∈ Y -> vec w' v = vec w v.
Proof. intros H Ho Hy Hv. unfold vec. by rewrite (mem_kept _ _ _ _ _ _ _ _ (st_v _ _ _ _ _ H) Ho Hy Hv). Qed.

(** An operation that a step does not work on stays as it is. *)
Lemma gathering_kept X w G w' G' id a rs vs pvs b len cl pe ops red :
  step_ok X w G w' G' -> X <> Some id ->
  gathering w G id a rs vs pvs b len cl pe ops red -> gathering w' G' id a rs vs pvs b len cl pe ops red.
Proof.
  intros Hst Hx [Hh Hs Hos Hor Hov Hob Hb Hnd Hrq Hres Hpvs Hpe Hbuf Hlen Hsz].
  assert (other X (ByOp id)) as Ho by (split; [done|]; intros i -> [=->]; done).
  assert (forall v x, v ∈ vs ++ pvs -> has w v x -> has w' v x) as Hhas.
  { intros v x Hv Hx'. unfold has. erewrite vec_kept; eauto. by apply elem_of_list_to_set. }
  split; try done.
  - by rewrite (st_hash _ _ _ _ _ Hst).
  - rewrite (mem_kept _ _ _ _ _ _ _ _ (st_s _ _ _ _ _ Hst) Ho Hos); [done|set_solver].
  - eapply owns_kept; [apply Hst|done|done].
  - eapply owns_kept; [apply Hst|done|done].
  - eapply owns_kept; [apply Hst|done|done].
  - eapply owns_kept; [apply Hst|done|done].
  - eapply Forall2_impl_in; [done|]. intros r c Hr _ Hrm. cbn.
    rewrite (mem_kept _ _ _ _ _ _ _ _ (st_r _ _ _ _ _ Hst) Ho Hor); [done|by apply elem_of_list_to_set].
  - destruct vs as [|v [|]]; try done. destruct Hres as (? & l & ? & ?). split; [done|]. exists l. split; [done|].
    apply Hhas; set_solver.
  - destruct red.
    + intros pv Hpv. destruct (Hpe pv Hpv) as (p & ? & ?). exists p. split; [done|]. apply Hhas; [|done].
      apply elem_of_app. right. by apply list_elem_of_lookup_2 in Hpv.
    + eapply Forall2_impl_in; [done|]. intros v x Hv _. apply Hhas. set_solver.
  - intros Hd i pv Hpv. specialize (Hbuf Hd i pv Hpv). unfold buf in *. rewrite (proj2 (Z.leb_gt _ _)) in Hob by lia.
    rewrite (mem_kept _ _ _ _ _ _ _ _ (st_b _ _ _ _ _ Hst) Ho Hob); [done|set_solver].
Qed.

Lemma base_kept X w G w' G' sp : step_ok X w G w' G' -> base X w sp G -> base X w' sp G'.
Proof.
  intros Hst [Hp Hv Hb Hu Hf Hd Hops Hrecv Hown Hnone].
  pose proof (st_ucx _ _ _ _ _ Hst) as Eu.
  assert (forall n, other X (ByPend n)) as Hn by (split; done).
  split; try apply Hst; try done.
  - rewrite Eu, (st_conns _ _ _ _ _ Hst). done.
  - by rewrite Eu.
  - intros id Hx. specialize (Hops id Hx).
    assert (other X (ByOp id)) as Ho by (split; [done|]; intros i -> [=->]; done).
    assert (forall v Y m, owns (gv G) (ByOp id) Y -> v ∈ Y -> intact w v m -> intact w' v m) as Hint.
    { intros v Y m HY Hin. unfold intact. by rewrite (vec_kept _ _ _ _ _ _ _ _ Hst Ho HY Hin). }
    destruct (s_ops sp !! id) as [[len cl pe ws|ws]|]; cbn [op_rel] in *.
    + destruct Hops as [(a & rs & vs & pvs & b & Hg & Hs) Hrest]. split; [|done].
      exists a, rs, vs, pvs, b. split; [eapply gathering_kept; eauto|].
      intros n Hin. destruct (Hs n Hin) as (m & Hm & Hq & Hi). exists m. rewrite Eu. do 2 (split; [done|]).
      destruct vs as [|v vs]; [|eapply Hint; [apply Hg| |done]; set_solver].
      exfalso. destruct Hrest as (_ & (_ & _ & Hw & _) & _). pose proof (ga_res _ _ _ _ _ _ _ _ _ _ _ _ _ Hg) as Hc.
      cbn in Hc. subst cl. rewrite (Hw Hclients) in Hin. set_solver.
    + destruct Hops as [(a & v & b & it & ops & len & Hg & Hs) Hrest]. split; [|done].
      exists a, v, b, it, ops, len. destruct Hg as [Rh Rs Ros Ror Rov Rob Rb Rnd Rrq]. split.
      * split; try done; try (eapply owns_kept; [apply Hst|done|done]).
        -- by rewrite (st_hash _ _ _ _ _ Hst).
        -- rewrite (mem_kept _ _ _ _ _ _ _ _ (st_s _ _ _ _ _ Hst) Ho Ros); [done|set_solver].
      * intros n Hin. destruct (Hs n Hin) as (m & r & c & l & Hm & Hq & Hi & Hr & Hor).
        exists m, r, c, l. rewrite Eu. do 2 (split; [done|]). split; [eapply Hint; [apply Rov|set_solver|done]|].
        split; [rewrite (mem_kept _ _ _ _ _ _ _ _ (st_r _ _ _ _ _ Hst) (Hn n) Hor); [done|set_solver]|].
        eapply owns_kept; [apply Hst|done|done].
    + destruct Hops as (Hh & Ho' & H1 & H2 & H3 & H4). split; [by rewrite (st_hash _ _ _ _ _ Hst)|]. split; [done|].
      repeat split; try (eapply owns_kept; [apply Hst|done|done]).
  - intros n id c x Hx. destruct (Hrecv n id c x Hx) as (r & v & Hq & Hr & H1 & H2).
    exists r, v. rewrite Eu. split; [done|].
    split; [rewrite (mem_kept _ _ _ _ _ _ _ _ (st_r _ _ _ _ _ Hst) (Hn n) H1); [done|set_solver]|].
    split; (eapply owns_kept; [apply Hst|done|done]).
  - intros n k. split; intros H; apply (Hown n k).
    + by apply (kp_own _ _ _ _ _ (st_v _ _ _ _ _ Hst) k _ (Hn n)).
    + by apply (kp_own _ _ _ _ _ (st_r _ _ _ _ _ Hst) k _ (Hn n)).
  - intros n k. rewrite (kp_own _ _ _ _ _ (st_b _ _ _ _ _ Hst) k _ (Hn n)), (kp_own _ _ _ _ _ (st_s _ _ _ _ _ Hst) k _ (Hn n)). done.
Qed.

(** *** Elementary steps *)

Definition mine (X : option Z) (o : owner) : Prop := ~ other X o.

Lemma mine_hand X : mine X Hand.
Proof. intros [? _]. done. Qed.
Lemma mine_op id : mine (Some id) (ByOp id).
Proof. intros [_ H]. by eapply H. Qed.

Lemma kept_refl {A} X g (m : gmap Z A) : kept X g g m m.
Proof. by split. Qed.
Lemma kept_trans {A} X g1 g2 g3 (m1 m2 m3 : gmap Z A) :
  kept X g1 g2 m1 m2 -> kept X g2 g3 m2 m3 -> kept X g1 g3 m1 m3.
Proof.
  intros [O1 M1] [O2 M2]. split; intros k o Ho.
  - by rewrite O2, O1.
  - intros H. rewrite (M2 k o Ho) by by apply O1. by apply (M1 k o).
Qed.
Lemma kept_give {A} X g k o (m : gmap Z A) :
  (forall o', g !! k = Some o' -> mine X o') -> mine X o -> kept X g (<[k := o]> g) m m.
Proof.
  intros Hk Ho. split; [|done]. intros i o' Ho'. destruct (decide (i = k)) as [->|].
  - rewrite lookup_insert_eq. split; [intros [= ->]; done|]. intros H. by destruct (Hk _ H).
  - by rewrite lookup_insert_ne.
Qed.
Lemma kept_drop {A} X g k o (m : gmap Z A) :
  g !! k = Some o -> mine X o -> kept X g (delete k g) m m.
Proof.
  intros Hk Ho. split; [|done]. intros i o' Ho'. destruct (decide (i = k)) as [->|].
  - rewrite lookup_delete_eq, Hk. split; [done|]. intros [= ->]. done.
  - by rewrite lookup_delete_ne.
Qed.
Lemma kept_write {A} X g k o x (m : gmap Z A) :
  g !! k = Some o -> mine X o -> kept X g g m (<[k := x]> m).
Proof.
  intros Hk Ho. split; [done|]. intros i o' Ho' Hi. destruct (decide (i = k)) as [->|].
  - rewrite Hk in Hi. injection Hi as ->. done.
  - by rewrite lookup_insert_ne.
Qed.

Lemma step_trans X w1 G1 w2 G2 w3 G3 :
  step_ok X w1 G1 w2 G2 -> step_ok X w2 G2 w3 G3 -> step_ok X w1 G1 w3 G3.
Proof.
  intros H1 H2. split; try apply H2.
  1-4: eapply kept_trans; [apply H1|apply H2].
  - intros i Hi. by rewrite (st_hash _ _ _ _ _ H2), (st_hash _ _ _ _ _ H1).
  - by rewrite (st_ucx _ _ _ _ _ H2), (st_ucx _ _ _ _ _ H1).
  - by rewrite (st_conns _ _ _ _ _ H2), (st_conns _ _ _ _ _ H1).
Qed.

(** Elements given out or taken back, and owners that change. *)
Definition give_v k o G := Ghost (<[k := o]> (gv G)) (gb G) (gr G) (gs G).
Definition give_b k o G := Ghost (gv G) (<[k := o]> (gb G)) (gr G) (gs G).
Definition give_r k o G := Ghost (gv G) (gb G) (<[k := o]> (gr G)) (gs G).
Definition give_s k o G := Ghost (gv G) (gb G) (gr G) (<[k := o]> (gs G)).
Definition drop_v k G := Ghost (delete k (gv G)) (gb G) (gr G) (gs G).
Definition drop_b k G := Ghost (gv G) (delete k (gb G)) (gr G) (gs G).
Definition drop_r k G := Ghost (gv G) (gb G) (delete k (gr G)) (gs G).
Definition drop_s k G := Ghost (gv G) (gb G) (gr G) (delete k (gs G)).

Lemma dom_give (g : gmap Z owner) k o o' : g !! k = Some o -> dom (<[k := o']> g) = dom g.
Proof. intros H. rewrite dom_insert_L. apply elem_of_dom_2 in H. set_solver. Qed.

Section steps.
  Context (X Y : option Z) (w : world) (sp : spec) (G : ghost) (Hb : base Y w sp G).

Ltac start := destruct Hb; split; cbn [w_pools vmem bmem rmem smem super_requests_hash w_ucx connections
    set_pools set_vmem set_bmem set_rmem set_smem set_hash put_super put_request
    gv gb gr gs give_v give_b give_r give_s drop_v drop_b drop_r drop_s];
    try done; try apply kept_refl.

Lemma step_refl : step_ok X w G w G.
Proof. start. Qed.

Lemma step_move_v k o o' : gv G !! k = Some o -> mine X o -> mine X o' -> step_ok X w G w (give_v k o' G).
Proof. intros H1 H2 H3. start; [by rewrite (dom_give _ _ o)|]. apply kept_give; [intros o2; by rewrite H1; intros [= <-]|done]. Qed.
Lemma step_move_b k o o' : gb G !! k = Some o -> mine X o -> mine X o' -> step_ok X w G w (give_b k o' G).
Proof. intros H1 H2 H3. start; [by rewrite (dom_give _ _ o)|]. apply kept_give; [intros o2; by rewrite H1; intros [= <-]|done]. Qed.
Lemma step_move_r k o o' : gr G !! k = Some o -> mine X o -> mine X o' -> step_ok X w G w (give_r k o' G).
Proof. intros H1 H2 H3. start; [by rewrite (dom_give _ _ o)|]. apply kept_give; [intros o2; by rewrite H1; intros [= <-]|done]. Qed.
Lemma step_move_s k o o' : gs G !! k = Some o -> mine X o -> mine X o' -> step_ok X w G w (give_s k o' G).
Proof. intros H1 H2 H3. start; [by rewrite (dom_give _ _ o)|]. apply kept_give; [intros o2; by rewrite H1; intros [= <-]|done]. Qed.

Lemma step_super a s o : gs G !! a = Some o -> mine X o -> step_ok X w G (put_super a s w) G.
Proof. intros H1 H2. start. by eapply kept_write. Qed.
Lemma step_request r q o : gr G !! r = Some o -> mine X o -> step_ok X w G (put_request r q w) G.
Proof. intros H1 H2. start. by eapply kept_write. Qed.
Lemma step_vmem v l o : gv G !! v = Some o -> mine X o -> length l = Z.to_nat (vector_size cfg) ->
  step_ok X w G (set_vmem (<[v := l]> (vmem w)) w) G.
Proof.
  intros H1 H2 Hl. start; [by eapply kept_write|].
  intros v' l'. destruct (decide (v' = v)) as [->|]; [rewrite lookup_insert_eq; by intros [= <-]|rewrite lookup_insert_ne by done; eauto].
Qed.
Lemma step_bmem v l o : gb G !! v = Some o -> mine X o -> length l = Z.to_nat (dest_num cfg) ->
  step_ok X w G (set_bmem (<[v := l]> (bmem w)) w) G.
Proof.
  intros H1 H2 Hl. start; [by eapply kept_write|].
  intros v' l'. destruct (decide (v' = v)) as [->|]; [rewrite lookup_insert_eq; by intros [= <-]|rewrite lookup_insert_ne by done; eauto].
Qed.
Lemma step_hash h : (forall i, X <> Some i -> h !! i = super_requests_hash w !! i) -> step_ok X w G (set_hash h w) G.
Proof. intros H. start. Qed.

(** Pools. *)
Context `{!MallocLaws (malloc_ok E)}.

Definition got (used : gset Z) (o : outcome (world * res Z)) (G' : Z -> ghost) : Prop :=
  exists p r, o = Ret (set_pools p w, r) /\
    match r with
    | Ok v => v ∉ used /\ 0 < v /\ step_ok X w G (set_pools p w) (G' v)
    | Err e => e = DOCA_ERROR_NO_MEMORY /\ step_ok X w G (set_pools p w) G
    end.

Ltac got_tac := eexists _, _; split; [done|];
  match goal with r : res Z |- _ => destruct r as [v|e] end;
  [intuition; start; [by rewrite dom_insert_L|];
   apply kept_give; [intros o' Ho'%elem_of_dom_2; done|apply mine_hand]
  |intuition; start].

Lemma get_vec : got (dom (gv G)) (allreduce_aloc_vec_vecs_pool E w) (fun v => give_v v Hand G).
Proof. destruct (aloc_vecs E cfg w _ _ _ _ (b_pools _ _ _ _ Hb)) as (p & r & -> & Hr). got_tac. Qed.
Lemma get_buf : 1 < dest_num cfg -> got (dom (gb G)) (allreduce_aloc_vec_bufs_pool E w) (fun v => give_b v Hand G).
Proof. intros Hd. destruct (aloc_bufs E cfg w _ _ _ _ (b_pools _ _ _ _ Hb) Hd) as (p & r & -> & Hr). got_tac. Qed.
Lemma get_req : got (dom (gr G)) (allreduce_aloc_vec_reqs_pool E w) (fun v => give_r v Hand G).
Proof. destruct (aloc_reqs E cfg w _ _ _ _ (b_pools _ _ _ _ Hb)) as (p & r & -> & Hr). got_tac. Qed.
Lemma get_super : got (dom (gs G)) (allreduce_aloc_vec_super_reqs_pool E w) (fun v => give_s v Hand G).
Proof. destruct (aloc_supers E cfg w _ _ _ _ (b_pools _ _ _ _ Hb)) as (p & r & -> & Hr). got_tac. Qed.

Definition returned (o : outcome world) (G' : ghost) : Prop :=
  exists p, o = Ret (set_pools p w) /\ step_ok X w G (set_pools p w) G'.

Ltac ret_tac := eexists; split; [done|]; start; [by rewrite dom_delete_L|]; by eapply kept_drop.

Lemma put_vec v o : gv G !! v = Some o -> mine X o -> returned (allreduce_free_vec_vecs_pool v w) (drop_v v G).
Proof.
  intros H1 H2. destruct (free_vecs1 cfg w _ _ _ _ v (b_pools _ _ _ _ Hb)) as (p & -> & Hp); [by apply elem_of_dom_2 in H1|].
  ret_tac.
Qed.
Lemma put_buf v o : 1 < dest_num cfg -> gb G !! v = Some o -> mine X o -> returned (allreduce_free_vec_bufs_pool v w) (drop_b v G).
Proof.
  intros Hd H1 H2. destruct (free_bufs1 cfg w _ _ _ _ v (b_pools _ _ _ _ Hb)) as (p & -> & Hp); [done|by apply elem_of_dom_2 in H1|].
  ret_tac.
Qed.
Lemma put_req v o : gr G !! v = Some o -> mine X o -> returned (allreduce_free_vec_reqs_pool v w) (drop_r v G).
Proof.
  intros H1 H2. destruct (free_reqs1 cfg w _ _ _ _ v (b_pools _ _ _ _ Hb)) as (p & -> & Hp); [by apply elem_of_dom_2 in H1|].
  ret_tac.
Qed.
Lemma put_super_req v o : gs G !! v = Some o -> mine X o -> returned (allreduce_free_vec_super_reqs_pool v w) (drop_s v G).
Proof.
  intros H1 H2. destruct (free_supers1 cfg w _ _ _ _ v (b_pools _ _ _ _ Hb)) as (p & -> & Hp); [by apply elem_of_dom_2 in H1|].
  ret_tac.
Qed.
End steps.

Lemma base_weaken X w sp G : base None w sp G -> base X w sp G.
Proof. intros []. split; auto. Qed.

Lemma step_weaken X w G w' G' : step_ok None w G w' G' -> step_ok X w G w' G'.
Proof.
  assert (forall o, other X o -> other None o) as Ho by (intros o []; by split).
  intros [Hp [] [] [] [] Hh Hu Hc Hvm Hbm]. split; auto; split; eauto.
Qed.

Lemma base_step Y w sp G w' G' : step_ok None w G w' G' -> base Y w sp G -> base Y w' sp G'.
Proof. intros H. apply base_kept. by apply step_weaken. Qed.

(** *** Super-requests *)

Context `{!MallocLaws (malloc_ok E)} (Hdest : 0 <= dest_num cfg < 2 ^ 62).

(** What [allreduce_super_request_get] leaves alone. *)
Definition hands_kept (w w' : world) (G G' : ghost) : Prop :=
  gv G' = gv G /\ gr G' = gr G /\ vmem w' = vmem w /\ rmem w' = rmem w /\
  w_ucx w' = w_ucx w.

Lemma hands_trans w1 w2 w3 G1 G2 G3 : hands_kept w1 w2 G1 G2 -> hands_kept w2 w3 G2 G3 -> hands_kept w1 w3 G1 G3.
Proof. intros (?&?&?&?&?) (?&?&?&?&?). repeat split; congruence. Qed.

(** An operation in the hands of a handler, with the sends in progress [ws]. *)
Definition open_op (w : world) (sp : spec) (G : ghost) (id a : Z) (rs vs pvs : list Z) (b : Z) (len : nat)
    (cl : list (Z * list Z)) (pe : list (list Z)) (ws : gset Z) (ops : Z) (red : bool) : Prop :=
  gathering w G id a rs vs pvs b len cl pe ops red /\ sends_ok w sp id a (hd 0 vs) ws /\ only_sends sp id ws.

Lemma owns_give_new g k o o' Y : g !! k = None -> o <> o' -> owns g o Y -> owns (<[k := o']> g) o Y.
Proof.
  intros Hk Hne H i. rewrite <-(H i). destruct (decide (i = k)) as [->|].
  - rewrite lookup_insert_eq, Hk. split; [intros [= ->]; done|done].
  - by rewrite lookup_insert_ne.
Qed.

Lemma owns_take (g : gmap Z owner) k o Y : owns g o Y -> owns (<[k := o]> g) o ({[k]} ∪ Y).
Proof.
  intros H i. destruct (decide (i = k)) as [->|].
  - rewrite lookup_insert_eq. set_solver.
  - rewrite lookup_insert_ne by done. rewrite (H i). set_solver.
Qed.

Lemma owns_give (g : gmap Z owner) k o o' Y : owns g o Y -> o <> o' -> owns (<[k := o']> g) o (Y ∖ {[k]}).
Proof.
  intros H Hne i. destruct (decide (i = k)) as [->|].
  - rewrite lookup_insert_eq. split; [intros [= ->]; done|set_solver].
  - rewrite lookup_insert_ne by done. rewrite (H i). set_solver.
Qed.

Lemma owns_drop (g : gmap Z owner) k o Y : owns g o Y -> owns (delete k g) o (Y ∖ {[k]}).
Proof.
  intros H i. destruct (decide (i = k)) as [->|].
  - rewrite lookup_delete_eq. set_solver.
  - rewrite lookup_delete_ne by done. rewrite (H i). set_solver.
Qed.

Lemma owns_take_only (g : gmap Z owner) k o : (forall i, g !! i <> Some o) -> owns (<[k := o]> g) o {[k]}.
Proof.
  intros H i. destruct (decide (i = k)) as [->|]; [rewrite lookup_insert_eq; set_solver|].
  rewrite lookup_insert_ne by done. split; [by intros ?%H|set_solver].
Qed.

(** The answer of an allocation of a super-request: a fresh one, without vectors. *)
Lemma super_allocate_ok w sp G id len :
  base None w sp G -> s_ops sp !! id = None -> Z.of_nat len <= vector_size cfg ->
  exists w' a, allreduce_super_request_allocate E cfg id (Z.of_nat len) 0 w = Ret (w', a) /\
    (a = 0 /\ (exists G', step_ok None w G w' G' /\ hands_kept w w' G G')
     \/ 0 < a /\ exists G' b,
        step_ok (Some id) w G w' G' /\ hands_kept w w' G G' /\
        (owns (gb G) Hand ∅ -> owns (gb G') Hand ∅) /\ (owns (gs G) Hand ∅ -> owns (gs G') Hand ∅) /\
        gathering (set_hash (<[id := a]> (super_requests_hash w')) w') G' id a [] [] [] b len [] []
          (ops_left [] [] ∅) (bool_decide (0 = dest_num cfg))).
Proof.
  intros Hb Hop Hlen. pose proof (b_ops _ _ _ _ Hb id) as Hid. rewrite Hop in Hid. specialize (Hid ltac:(done)).
  destruct Hid as (Hh & _ & Ov & Ob & Or & Os). unfold allreduce_super_request_allocate.
  destruct (get_super None None w sp G Hb) as (p & r & -> & Hr).
  destruct r as [a|e]; [|destruct Hr as [-> Hst]; eexists _, 0; split; [done|]; left; split; [done|]; exists G; done].
  destruct Hr as (Ha & Ha0 & Hst). pose proof (base_step None _ _ _ _ _ Hst Hb) as Hb1.
  assert (gs G !! a = None) as Ha' by by apply not_elem_of_dom.
  set (w1 := set_pools p w) in *. set (G1 := give_s a Hand G) in *.
  assert (exists w2 G2 rv, (if dest_num cfg <=? 1 then Ret (w1, Ok 0) else allreduce_aloc_vec_bufs_pool E w1) = Ret (w2, rv) /\
    step_ok None w1 G1 w2 G2 /\ hands_kept w1 w2 G1 G2 /\ gs G2 = gs G1 /\ smem w2 = smem w1 /\
    super_requests_hash w2 = super_requests_hash w1 /\
    match rv with
    | Ok b => (dest_num cfg <= 1 -> b = 0) /\
        (1 < dest_num cfg -> gb G2 !! b = Some Hand) /\ owns (gb G2) (ByOp id) ∅ /\
        (owns (gb G) Hand ∅ -> owns (gb G2) Hand (if dest_num cfg <=? 1 then ∅ else {[b]}))
    | Err _ => True end) as (w2 & G2 & rv & -> & Hst2 & Hk2 & Hgs2 & Hsm2 & Hh2 & Hrv).
  { destruct (dest_num cfg <=? 1) eqn:Ed.
    - exists w1, G1, (Ok 0). split; [done|]. split; [by eapply step_refl|]. do 4 (split; [done|]).
      split; [done|]. split; [lia|]. split; done.
    - destruct (get_buf None None w1 sp G1 Hb1) as (p2 & r2 & -> & Hr2); [lia|].
      destruct r2 as [b|e].
      + destruct Hr2 as (Hbd & Hb0 & Hst2). eexists _, _, (Ok b). split; [done|]. split; [done|].
        do 4 (split; [done|]). split; [lia|]. split; [intros _; cbn; apply lookup_insert_eq|].
        split; [apply owns_give_new; [by apply not_elem_of_dom|done|done]|]. intros HbH. cbn.
        replace {[b]} with ({[b]} ∪ ∅ : gset Z) by set_solver. by apply owns_take.
      + destruct Hr2 as (-> & Hst2). eexists _, _, (Err _). split; [done|]. split; [apply Hst2|]. done. }
  pose proof (base_step None _ _ _ _ _ Hst2 Hb1) as Hb2.
  assert (gs G2 !! a = Some Hand) as Hga by (rewrite Hgs2; apply lookup_insert_eq).
  pose proof (step_trans _ _ _ _ _ _ _ Hst Hst2) as Hst12.
  assert (hands_kept w w2 G G2) as Hk by (eapply hands_trans; [|apply Hk2]; by repeat split).
  destruct rv as [b|e].
  2:{ destruct (put_super_req None None w2 sp G2 Hb2 a Hand Hga (mine_hand _)) as (p3 & -> & Hst3).
      eexists _, 0. split; [done|]. left. split; [done|]. eexists. split; [eapply step_trans; eauto|].
      eapply hands_trans; [apply Hk|]. by repeat split. }
  destruct Hrv as (Hb01 & HbH & HbO & HbHand).
  eexists _, a. split; [reflexivity|]. right. split; [done|].
  assert (exists G3, step_ok (Some id) w2 G2 w2 G3 /\ gv G3 = gv G2 /\ gr G3 = gr G2 /\ gs G3 = gs G2 /\
    owns (gb G3) (ByOp id) (if dest_num cfg <=? 1 then ∅ else {[b]}) /\
    (owns (gb G) Hand ∅ -> owns (gb G3) Hand ∅)) as (G3 & Hst3 & E1 & E2 & E3 & Ob3 & ObH3).
  { destruct (dest_num cfg <=? 1) eqn:Ed.
    - exists G2. split; [by eapply step_refl|]. do 4 (split; [done|]). done.
    - exists (give_b b (ByOp id) G2). split; [|do 3 (split; [done|]); split].
      + eapply step_move_b; [done|apply HbH; lia|apply mine_hand|apply mine_op].
      + replace {[b]} with ({[b]} ∪ ∅ : gset Z) by set_solver. by apply owns_take.
      + intros Hh0. cbn. replace (∅ : gset Z) with ({[b]} ∖ {[b]} : gset Z) by set_solver. apply owns_give; [auto|done]. }
  pose proof (base_kept _ _ _ _ _ _ Hst3 (base_weaken (Some id) _ _ _ Hb2)) as Hb3.
  assert (gs G3 !! a = Some Hand) as Hga3 by by rewrite E3.
  pose proof (step_move_s (Some id) _ _ _ _ Hb3 a Hand (ByOp id) Hga3 (mine_hand _) (mine_op _)) as Hst4.
  pose proof (base_kept _ _ _ _ _ _ Hst4 Hb3) as Hb4.
  exists (give_s a (ByOp id) G3), b. split; [|split; [|split; [|split]]].
  - eapply step_trans; [eapply step_weaken; exact Hst12|]. eapply step_trans; [exact Hst3|].
    eapply step_trans; [exact Hst4|]. eapply step_super; [done|apply lookup_insert_eq|apply mine_op].
  - eapply hands_trans; [apply Hk|]. by repeat split.
  - done.
  - intros Hs0. cbn. rewrite E3, Hgs2. cbn. rewrite insert_insert_eq. by apply owns_give_new.
  - destruct Hk as (Hv2 & Hr2 & _). split; cbn; try done.
    + apply lookup_insert_eq.
    + rewrite lookup_insert_eq. unfold ops_left. rewrite uwrap_id by (split; lia). cbn.
      rewrite (proj2 (Z.eqb_neq _ _)) by lia. repeat f_equal. lia.
    + replace {[a]} with ({[a]} ∪ ∅ : gset Z) by set_solver. apply owns_take. rewrite E3, Hgs2.
      apply owns_give_new; done.
    + by rewrite E2, Hr2.
    + by rewrite E1, Hv2.
    + repeat split; constructor.
    + by case_if.
Qed.

Lemma super_get_ok w sp G id len cl pe ws :
  base None w sp G -> spec_op id len sp = Some (cl, pe, ws) -> Z.of_nat len <= vector_size cfg ->
  exists w' a, allreduce_super_request_get E cfg id (Z.of_nat len) 0 w = Ret (w', a) /\
    (a = 0 /\ (exists G', base None w' sp G' /\ hands_kept w w' G G')
     \/ 0 < a /\ exists G' rs vs pvs b,
        base (Some id) w' sp G' /\ hands_kept w w' G G' /\ op_counts cl pe ws /\
        (owns (gb G) Hand ∅ -> owns (gb G') Hand ∅) /\ (owns (gs G) Hand ∅ -> owns (gs G') Hand ∅) /\
        open_op w' sp G' id a rs vs pvs b len cl pe ws (ops_left cl pe ws)
          (bool_decide (Z.of_nat (length pe) = dest_num cfg))).
Proof.
  intros Hb Hsp Hlen. unfold allreduce_super_request_get, spec_op in *.
  pose proof (b_ops _ _ _ _ Hb id ltac:(done)) as Hid.
  destruct (s_ops sp !! id) as [[len' cl' pe' ws'|ws']|] eqn:Eop; [| |].
  - case_bool_decide; [|done]. injection Hsp as -> -> ->. subst len'. cbn in Hid.
    destruct Hid as ((a & rs & vs & pvs & b & Hg & Hs) & Ho & Hcnt & _).
    rewrite (ga_hash _ _ _ _ _ _ _ _ _ _ _ _ _ Hg). exists w, a. split; [done|]. right. split.
    { destruct (b_pools _ _ _ _ Hb) as [_ _ _ [[_ Hpos _ _ _ _] _] _]. apply Hpos.
      apply elem_of_dom. exists (ByOp id). apply (ga_os _ _ _ _ _ _ _ _ _ _ _ _ _ Hg). set_solver. }
    exists G, rs, vs, pvs, b. split; [by apply base_weaken|]. split; [by repeat split|].
    do 4 (split; [done|]). done.
  - done.
  - injection Hsp as <- <- <-. pose proof Hid as (Hh & Ho & _). rewrite Hh.
    destruct (super_allocate_ok w sp G id len Hb Eop Hlen) as (w1 & a & -> & Hr).
    destruct Hr as [(-> & G1 & Hst & Hk)|(Ha & G1 & b & Hst & Hk & Kb & Ks & Hg)].
    + exists w1, 0. split; [done|]. left. split; [done|]. exists G1. split; [by eapply base_step|done].
    + rewrite (proj2 (Z.eqb_neq a 0)) by lia. eexists _, a. split; [done|]. right. split; [done|].
      exists G1, [], [], [], b.
      assert (base (Some id) w1 sp G1) as Hb1 by (eapply base_kept; [exact Hst|by apply base_weaken]).
      split; [|split; [|split; [|split; [|split]]]]; try done.
      * eapply base_kept; [|exact Hb1]. eapply step_hash; [done|]. intros i Hi.
        rewrite lookup_insert_ne; [done|congruence].
      * unfold op_counts. cbn. rewrite size_empty. split; [lia|]. split; [lia|]. split; [done|]. split; [lia|constructor].
Qed.

(** *** Vectors *)

Lemma vec_pos X w sp G v o : base X w sp G -> gv G !! v = Some o -> 0 < v.
Proof. intros [[[[_ H _ _ _ _] _] _ _ _ _] _ _ _ _ _ _ _ _] Hv%elem_of_dom_2. by apply H. Qed.
Lemma req_pos X w sp G v o : base X w sp G -> gr G !! v = Some o -> 0 < v.
Proof. intros [[_ _ [[_ H _ _ _ _] _] _ _] _ _ _ _ _ _ _ _] Hv%elem_of_dom_2. by apply H. Qed.
Lemma buf_pos X w sp G v o : base X w sp G -> 1 < dest_num cfg -> gb G !! v = Some o -> 0 < v.
Proof.
  intros [[_ H _ _ _] _ _ _ _ _ _ _ _] Hd Hv%elem_of_dom_2. rewrite (proj2 (Z.leb_gt _ _)) in H by lia.
  destruct H as [[_ H _ _ _ _] _]. by apply H.
Qed.

Lemma vec_length X w sp G v : base X w sp G -> length (vec w v) = Z.to_nat (vector_size cfg).
Proof.
  intros Hb. unfold vec. destruct (vmem w !! v) as [l|] eqn:El; cbn; [by apply (b_vmem _ _ _ _ Hb) in El|].
  apply length_replicate.
Qed.

Lemma set_vmem_id w : set_vmem (vmem w) w = w.
Proof. by destruct w. Qed.

(** One vector is written. *)
Definition wrote (v : Z) (w : world) (m : gmap Z (list (option Z))) : Prop :=
  forall v', v' <> v -> m !! v' = vmem w !! v'.

Lemma has_wrote v w m v' x : wrote v w m -> v' <> v -> has w v' x -> has (set_vmem m w) v' x.
Proof. intros Hm Hne. unfold has, vec. cbn. by rewrite Hm. Qed.

Lemma has_split X w sp G v x : base X w sp G -> has w v x ->
  vec w v = (Some <$> x) ++ drop (length x) (vec w v).
Proof. intros _ H. unfold has in H. rewrite <-H. by rewrite take_drop. Qed.

Lemma copy_ok X Y w sp G v o x :
  base Y w sp G -> gv G !! v = Some o -> Z.of_nat (length x) <= vector_size cfg ->
  exists m, copy_to cfg v (Some <$> x) w = Ret (set_vmem m w) /\ wrote v w m /\
    has (set_vmem m w) v x /\ (mine X o -> step_ok X w G (set_vmem m w) G).
Proof.
  intros Hb Hv Hl. unfold copy_to. case_bool_decide as Ex.
  - destruct x; [|done]. exists (vmem w). rewrite set_vmem_id. split; [done|]. split; [by intros v'|].
    split; [done|]. intros _. by eapply step_refl.
  - unfold array_at. rewrite (proj2 (Z.eqb_neq v 0)) by (pose proof (vec_pos _ _ _ _ _ _ Hb Hv); lia).
    fold (vec w v). pose proof (vec_length _ _ _ _ v Hb) as Hlen. rewrite length_fmap.
    rewrite (proj2 (Nat.leb_le _ _)) by lia. eexists. split; [done|]. split.
    { intros v' Hne. by rewrite lookup_insert_ne. }
    split.
    { unfold has, vec. cbn. rewrite lookup_insert_eq. cbn. rewrite take_app_le by by rewrite length_fmap.
      rewrite take_ge by by rewrite length_fmap. done. }
    intros Ho. eapply step_vmem; [done|done|done|]. rewrite length_app, length_fmap, length_drop, Hlen. lia.
Qed.

Lemma reduce_ok X Y w sp G a s (is_peer : bool) src o x y r :
  base Y w sp G -> smem w !! a = Some s -> result_vector_size s = Z.of_nat (length x) ->
  let dst := if is_peer then peer_result_vector s else result_vector s in
  gv G !! dst = Some o -> is_Some (gv G !! src) -> has w dst x -> has w src y -> length y = length x ->
  vreduce cfg x y = Ret r ->
  exists m, allreduce_reduce cfg a src is_peer w = Ret (set_vmem m w) /\ wrote dst w m /\
    has (set_vmem m w) dst r /\ (mine X o -> step_ok X w G (set_vmem m w) G).
Proof.
  intros Hb Hs Hsz dst Hd [o' Hsrc] Hx Hy Hlen Hr. unfold allreduce_reduce, super_at. rewrite Hs. cbn.
  fold dst. rewrite Hsz. pose proof (vreduce_length _ _ _ _ Hlen Hr) as Hrl.
  destruct (Z.of_nat (length x) =? 0) eqn:E0.
  - assert (r = []) as -> by (apply nil_length_inv; lia). exists (vmem w). rewrite set_vmem_id. split; [done|].
    split; [by intros v'|]. split; [done|]. intros _. by eapply step_refl.
  - pose proof (vec_pos _ _ _ _ _ _ Hb Hd). pose proof (vec_pos _ _ _ _ _ _ Hb Hsrc).
    unfold array_at. rewrite !(proj2 (Z.eqb_neq _ 0)) by lia. fold (vec w dst) (vec w src).
    assert (reduce_loop (relem cfg) (Z.to_nat (Z.of_nat (length x))) (vec w dst) (vec w src)
      = Ret ((Some <$> r) ++ drop (length x) (vec w dst))) as Hloop.
    { rewrite Nat2Z.id, (has_split _ _ _ _ _ _ Hb Hx) at 1. rewrite (has_split _ _ _ _ _ _ Hb Hy).
      rewrite reduce_loop_vec by done. by rewrite Hr. }
    assert (match operation cfg with
            | ALLREDUCE_SUM => summation (vec w dst) (vec w src) (Z.of_nat (length x)) (datatype cfg)
            | ALLREDUCE_PROD => product (vec w dst) (vec w src) (Z.of_nat (length x)) (datatype cfg)
            end = Ret ((Some <$> r) ++ drop (length x) (vec w dst))) as ->.
    { unfold summation, product. unfold relem in Hloop. by destruct (operation cfg). }
    pose proof (vec_length _ _ _ _ dst Hb) as Hvl.
    assert (length x <= length (vec w dst))%nat as Hle.
    { rewrite (has_split _ _ _ _ _ _ Hb Hx), length_app, length_fmap. lia. }
    eexists. split; [done|]. split; [intros v' Hne; by rewrite lookup_insert_ne|]. split.
    { unfold has, vec. cbn. rewrite lookup_insert_eq. cbn. rewrite take_app_le by (rewrite length_fmap; lia).
      rewrite take_ge by (rewrite length_fmap; lia). done. }
    intros Ho. eapply step_vmem; [done|done|done|]. rewrite length_app, length_fmap, length_drop. lia.
Qed.

Lemma read_ok X w sp G v o n :
  base X w sp G -> gv G !! v = Some o -> Z.of_nat n <= vector_size cfg ->
  read_from cfg v (Z.of_nat n) w = Ret (take n (vec w v)).
Proof.
  intros Hb Hv Hn. unfold read_from. destruct (Z.of_nat n =? 0) eqn:E0.
  - assert (n = 0%nat) as -> by lia. done.
  - pose proof (vec_pos _ _ _ _ _ _ Hb Hv). unfold array_at. rewrite (proj2 (Z.eqb_neq v 0)) by lia.
    fold (vec w v). pose proof (vec_length _ _ _ _ v Hb). rewrite Nat2Z.id.
    by rewrite (proj2 (Nat.leb_le _ _)) by lia.
Qed.

(** *** Requests in progress *)

(** The entry of a send or a reply of the operation [X]. *)
Definition of_op (X : option Z) (q : spend) : Prop :=
  match q with PSend i _ | PReply i _ => X = Some i | PRecv _ _ _ => False end.

(** Owners change to and from the k-th entry. *)
Definition moved (X : option Z) (k : Z) (g g' : gmap Z owner) : Prop :=
  dom g' = dom g /\ forall i o, other X o -> o <> ByPend k -> g' !! i = Some o <-> g !! i = Some o.

Lemma moved_refl X k g : moved X k g g.
Proof. by split. Qed.

Lemma moved_give X k g i o o' :
  g !! i = Some o -> (mine X o \/ o = ByPend k) -> (mine X o' \/ o' = ByPend k) -> moved X k g (<[i := o']> g).
Proof.
  intros Hi Ho Ho'. split; [by eapply dom_give|]. intros j p Hp Hk. destruct (decide (j = i)) as [->|].
  - rewrite lookup_insert_eq, Hi. split; intros [= ->]; destruct Ho, Ho'; done.
  - by rewrite lookup_insert_ne.
Qed.

Lemma owns_moved X k g g' o Y : moved X k g g' -> other X o -> o <> ByPend k -> owns g o Y -> owns g' o Y.
Proof. intros [_ H] Ho Hk HY i. rewrite (H i o Ho Hk). apply HY. Qed.

Lemma base_pend X k w sp G u sp' G' :
  base X w sp G ->
  moved X k (gv G) (gv G') -> moved X k (gr G) (gr G') -> gb G' = gb G -> gs G' = gs G ->
  s_ops sp' = s_ops sp ->
  (forall n, n <> k -> s_pend sp' !! n = s_pend sp !! n /\ pending u !! n = pending (w_ucx w) !! n) ->
  (forall q, s_pend sp !! k = Some q -> of_op X q \/ exists i c x, q = PRecv i c x) ->
  (forall q, s_pend sp' !! k = Some q ->
     of_op X q \/ exists i c x, q = PRecv i c x /\ recv_rel (set_ucx u w) G' k i c x) ->
  (s_pend sp' !! k = None -> pending u !! k = None) ->
  (forall i, gv G' !! i = Some (ByPend k) -> keeps_vec (s_pend sp' !! k)) ->
  (forall i, gr G' !! i = Some (ByPend k) -> keeps_req (s_pend sp' !! k)) ->
  ucp_calls u = s_calls sp' -> sent u = s_sent sp' -> callback_errno u = DOCA_SUCCESS ->
  active_connections u = active -> s_calls sp <= s_calls sp' -> (is_Some (s_pend sp' !! k) -> k <= s_calls sp') ->
  base X (set_ucx u w) sp' G'.
Proof.
  intros [Hp Hv Hbm Hu Hf Hd Hops Hrecv Hown Hnb] Mv Mr Eb Es Eo Hne Hold Hnew Hnone Nv Nr Hc Hse He Hac Hle Hk.
  assert (forall id, X <> Some id -> other X (ByOp id)) as Ho by (intros id Hx; split; [done|]; intros i -> [=->]; done).
  assert (forall n, other X (ByPend n)) as Hn by by split.
  split; cbn; try done.
  - by rewrite (proj1 Mv), (proj1 Mr), Eb, Es.
  - destruct Hu as (?&?&?&?&?). done.
  - intros n q Hq. destruct (decide (n = k)) as [->|Hnk]; [apply Hk; eauto|].
    rewrite (proj1 (Hne n Hnk)) in Hq. apply Hf in Hq. lia.
  - intros n Hq. destruct (decide (n = k)) as [->|Hnk]; [by apply Hnone|].
    destruct (Hne n Hnk) as [E1 E2]. rewrite E2. apply Hd. congruence.
  - intros id Hx. specialize (Hops id Hx). rewrite Eo.
    assert (forall n q, s_pend sp' !! n = Some q ->
      match q with PSend i _ | PReply i _ => i = id -> s_pend sp !! n = Some q | _ => True end) as Hback.
    { intros n q Hq. destruct (decide (n = k)) as [->|Hnk].
      - apply Hnew in Hq as [Hq|(i & c & x & -> & _)]; [|done]. destruct q; cbn in Hq; [done|intros ->; done..].
      - rewrite (proj1 (Hne n Hnk)) in Hq. by destruct q. }
    assert (forall n q, s_pend sp !! n = Some q ->
      match q with
      | PSend i _ | PReply i _ => i = id -> n <> k /\ s_pend sp' !! n = Some q /\ pending u !! n = pending (w_ucx w) !! n
      | _ => True end) as Hfwd.
    { intros n q Hq. destruct (decide (n = k)) as [->|Hnk].
      - apply Hold in Hq as [Hq|(i & c & x & ->)]; [|done]. destruct q; cbn in Hq; [done|intros ->; done..].
      - destruct (Hne n Hnk) as [E1 E2]. rewrite E1, E2. by destruct q. }
    assert (forall Z, only_sends sp id Z -> only_sends sp' id Z) as Hos.
    { intros Y HY n q Hq. specialize (Hback n q Hq). destruct q; try done.
      - intros ->. by apply (HY n _ (Hback eq_refl)).
      - intros ->. by apply (HY n _ (Hback eq_refl)). }
    destruct (s_ops sp !! id) as [[len cl pe ws|ws]|]; cbn [op_rel] in *.
    + destruct Hops as [(a & rs & vs & pvs & b & Hg & Hs) (Hon & Hrest)].
      split; [|split; [by apply Hos|done]]. exists a, rs, vs, pvs, b. split.
      * destruct Hg. split; cbn; try done; rewrite ?Eb, ?Es; try done.
        -- eapply owns_moved; [apply Mr|by apply Ho|done|done].
        -- eapply owns_moved; [apply Mv|by apply Ho|done|done].
      * intros n Hin. destruct (Hs n Hin) as (m & Hm & Hq & Hi). exists m.
        destruct (Hfwd _ _ Hm eq_refl) as (_ & E1 & E2). cbn. by rewrite E1, E2.
    + destruct Hops as [(a & v & b & it & ops & len & Hg & Hs) (Hon & Hrest)]. split; [|split; [|done]].
      * exists a, v, b, it, ops, len. split.
        -- destruct Hg. split; cbn; try done; rewrite ?Eb, ?Es; try done.
           ++ eapply owns_moved; [apply Mr|by apply Ho|done|done].
           ++ eapply owns_moved; [apply Mv|by apply Ho|done|done].
        -- intros n Hin. destruct (Hs n Hin) as (m & r & c & l & Hm & Hq & Hi & Hr & Hor). exists m, r, c, l.
           destruct (Hfwd _ _ Hm eq_refl) as (Hnk & E1 & E2). cbn. rewrite E1, E2. do 4 (split; [done|]).
           eapply owns_moved; [apply Mr|done|congruence|done].
      * intros n q Hq. specialize (Hback n q Hq). destruct q; try done.
        -- intros ->. by apply (Hon n _ (Hback eq_refl)).
        -- intros ->. by apply (Hon n _ (Hback eq_refl)).
    + destruct Hops as (Hh & Hon & H1 & H2 & H3 & H4). split; [done|]. split; [by apply Hos|].
      rewrite Eb, Es. split; [eapply owns_moved; [apply Mv|by apply Ho|done|done]|]. split; [done|].
      split; [eapply owns_moved; [apply Mr|by apply Ho|done|done]|done].
  - intros n id c x Hx. destruct (decide (n = k)) as [->|Hnk].
    + apply Hnew in Hx as [[]|(i & c' & x' & [= <- <- <-] & Hr)]. done.
    + destruct (Hne n Hnk) as [E1 E2]. rewrite E1 in Hx. destruct (Hrecv n id c x Hx) as (r & v & Hq & Hr & H1 & H2).
      exists r, v. cbn. rewrite E2. do 2 (split; [done|]).
      split; [eapply owns_moved; [apply Mr|done|congruence|done]|eapply owns_moved; [apply Mv|done|congruence|done]].
  - intros n i. destruct (decide (n = k)) as [->|Hnk]; [split; eauto|].
    rewrite (proj1 (Hne n Hnk)). split; intros Hi; apply (Hown n i).
    + apply (proj2 Mv); [done|congruence|done].
    + apply (proj2 Mr); [done|congruence|done].
  - by rewrite Eb, Es.
Qed.

Lemma transfer_sent X w sp G v o m r :
  base X w sp G -> gv G !! v = Some o -> intact w v m ->
  transfer_done cfg (Sending m v) (set_ucx r w) = Ret (log_sent m (set_ucx r w)).
Proof.
  intros Hb Hv [Hi Hl]. cbn. change (read_from cfg v (Z.of_nat (length (m_data m))) (set_ucx r w))
    with (read_from cfg v (Z.of_nat (length (m_data m))) w).
  rewrite (read_ok _ _ _ _ _ _ _ Hb Hv Hl), Hi. by rewrite bool_decide_true.
Qed.

(** A send of the operation [id]: done at once and followed by its callback, or in
    progress. *)
Lemma am_send_ok id w sp G conn am v o n cb run p sp' ws :
  base (Some id) w sp G -> of_op (Some id) p -> conn ∈ active -> gv G !! v = Some o ->
  Z.of_nat n <= vector_size cfg ->
  let m := Message conn am id (take n (vec w v)) in
  spec_send E p m sp = Some (sp', ws) ->
  s_ops sp' = s_ops sp /\
  ((exists u, ws = ∅ /\ s_pend sp' = s_pend sp /\ pending u = pending (w_ucx w) /\
      base (Some id) (set_ucx u w) sp' G /\
      allreduce_ucx_am_send E cfg conn am id v (Z.of_nat n) cb run w
      = let* w := INVOKE_CALLBACK (run UCS_OK (set_ucx u w)) in Ret (w, DOCA_SUCCESS))
   \/ (exists u k, ws = {[k]} /\ s_pend sp !! k = None /\ s_pend sp' = <[k := p]> (s_pend sp) /\
      pending u = <[k := UcxRequest cb (Sending m v)]> (pending (w_ucx w)) /\
      allreduce_ucx_am_send E cfg conn am id v (Z.of_nat n) cb run w = Ret (set_ucx u w, DOCA_SUCCESS) /\
      (forall i, gr G !! i <> Some (ByPend k)) /\
      forall G', moved (Some id) k (gr G) (gr G') -> keeps_req (Some p) \/ gr G' = gr G -> gv G' = gv G -> gb G' = gb G -> gs G' = gs G ->
        base (Some id) (set_ucx u w) sp' G')).
Proof.
  intros Hb Hp Hconn Hv Hn m Hsp. destruct (b_ucx _ _ _ _ Hb) as (Ec & Es & Ee & Ea & En).
  set (k := s_calls sp + 1).
  assert (s_pend sp !! k = None) as Hk.
  { destruct (s_pend sp !! k) eqn:Ek; [|done]. apply (b_fresh _ _ _ _ Hb) in Ek. lia. }
  assert (forall g, (g = gv G \/ g = gr G) -> forall i, g !! i <> Some (ByPend k)) as Hnok.
  { intros g Hg i Hi. destruct (b_owner _ _ _ _ Hb k i) as [Q1 Q2]. rewrite Hk in Q1, Q2. destruct Hg as [->| ->]; [exact (Q1 Hi)|exact (Q2 Hi)]. }
  pose proof (b_dom _ _ _ _ Hb k Hk) as Hpk.
  unfold allreduce_ucx_am_send. rewrite bool_decide_true by by rewrite Ea.
  unfold am_send. rewrite (read_ok _ _ _ _ _ _ _ Hb Hv Hn). cbn [m_data]. rewrite Ec. fold m.
  assert (forall r, transfer_done cfg (Sending m v) (set_ucx r w) = Ret (log_sent m (set_ucx r w))) as Htr.
  { intros r. eapply transfer_sent; [exact Hb|exact Hv|]. split; cbn; rewrite length_take, (vec_length _ _ _ _ _ Hb); [|lia].
    by rewrite Nat.min_l by lia. }
  set (u1 := Ucx k active DOCA_SUCCESS (pending (w_ucx w)) (sent (w_ucx w))).
  assert (count_call w = set_ucx u1 w) as ->.
  { unfold count_call, u1, k. by rewrite Ea, Ee, Ec. }
  unfold spec_send in Hsp. fold k in Hsp.
  assert (base (Some id) (set_ucx (Ucx k active DOCA_SUCCESS (pending (w_ucx w)) (sent (w_ucx w) ++ [m])) w)
    (Spec (s_ops sp) (s_pend sp) k (s_sent sp ++ [m])) G) as Hnow.
  { eapply base_pend with (k := k); try done; try apply moved_refl; cbn; rewrite ?Hk; try done; try lia.
    all: try by intros []. all: try by rewrite Es.
    all: intros i Hi; exfalso; (eapply Hnok; [|exact Hi]); auto. }
  destruct (ucp E (s_calls sp)) as [|st|st|] eqn:Eu; cbn [request_process]; try discriminate.
  - injection Hsp as <- <-. split; [done|]. left. eexists. split; [done|]. split; [done|]. split; [|split; [exact Hnow|]]; [done|].
    cbn [transfer_done] in Htr. cbn [transfer_done]. rewrite Htr. done.
  - destruct st; try discriminate. injection Hsp as <- <-. split; [done|]. left. eexists. split; [done|]. split; [done|].
    split; [|split; [exact Hnow|]]; [done|]. unfold transfer_status. rewrite bool_decide_true by done.
    by rewrite Htr.
  - injection Hsp as <- <-. split; [done|]. right.
    exists (Ucx k active DOCA_SUCCESS (<[k := UcxRequest cb (Sending m v)]> (pending (w_ucx w))) (sent (w_ucx w))), k.
    split; [done|]. split; [done|]. split; [done|]. split; [done|]. split; [done|]. split; [apply Hnok; auto|].
    intros G' Mr Hkp E1 E2 E3. eapply base_pend with (k := k); try done; cbn; try lia.
    + rewrite E1. apply moved_refl.
    + intros j Hj. by rewrite !lookup_insert_ne.
    + rewrite Hk. done.
    + rewrite lookup_insert_eq. intros q [= <-]. by left.
    + by rewrite lookup_insert_eq.
    + rewrite E1. intros i Hi. exfalso. eapply Hnok; [|exact Hi]. auto.
    + intros i Hi. rewrite lookup_insert_eq. destruct Hkp as [Hkp|Hkp]; [done|]. rewrite Hkp in Hi.
      exfalso. eapply Hnok; [|exact Hi]. auto.
Qed.

(** *** The end of an operation *)

(** The operation owns nothing any more. *)
Definition gone (w : world) (G : ghost) (id : Z) : Prop :=
  super_requests_hash w !! id = None /\
  owns (gv G) (ByOp id) ∅ /\ owns (gb G) (ByOp id) ∅ /\ owns (gr G) (ByOp id) ∅ /\ owns (gs G) (ByOp id) ∅.

(** What a completed reply leaves alone. *)
Definition replies_kept (w w' : world) (G G' : ghost) : Prop :=
  vmem w' = vmem w /\ rmem w' = rmem w /\ w_ucx w' = w_ucx w /\ connections w' = connections w /\
  forall n Y, owns (gr G) (ByPend n) Y -> owns (gr G') (ByPend n) Y.

Lemma replies_kept_refl w G : replies_kept w w G G.
Proof. do 4 (split; [done|]). auto. Qed.

Lemma replies_kept_trans w1 w2 w3 G1 G2 G3 :
  replies_kept w1 w2 G1 G2 -> replies_kept w2 w3 G2 G3 -> replies_kept w1 w3 G1 G3.
Proof. intros (?&?&?&?&?) (?&?&?&?&?). split; [congruence|]. split; [congruence|]. split; [congruence|]. split; [congruence|]. auto. Qed.

Lemma owns_none (g : gmap Z owner) k o Y : owns g o Y -> Y ⊆ {[k]} -> owns (delete k g) o ∅.
Proof.
  intros H HY i. destruct (decide (i = k)) as [->|].
  - rewrite lookup_delete_eq. set_solver.
  - rewrite lookup_delete_ne by done. rewrite (H i). set_solver.
Qed.

Lemma owns_drop_other (g : gmap Z owner) k o o' Y : g !! k = Some o' -> o <> o' -> owns g o Y -> owns (delete k g) o Y.
Proof.
  intros Hk Hne H i. rewrite <-(H i). destruct (decide (i = k)) as [->|].
  - rewrite lookup_delete_eq, Hk. split; [done|]. intros [= ->]. done.
  - by rewrite lookup_delete_ne.
Qed.
Lemma owns_give_other (g : gmap Z owner) k o o1 o2 Y :
  g !! k = Some o1 -> o <> o1 -> o <> o2 -> owns g o Y -> owns (<[k := o2]> g) o Y.
Proof.
  intros Hk H1 H2 H i. rewrite <-(H i). destruct (decide (i = k)) as [->|].
  - rewrite lookup_insert_eq, Hk. split; intros [= ->]; done.
  - by rewrite lookup_insert_ne.
Qed.

(** The handler holds the requests [R]. *)
Definition holds (R : gset Z) (G : ghost) : Prop :=
  owns (gv G) Hand ∅ /\ owns (gb G) Hand ∅ /\ owns (gr G) Hand R /\ owns (gs G) Hand ∅.

Lemma holds_none G : holds ∅ G <-> no_hand G.
Proof. done. Qed.

Lemma finish_ok w sp G id a v b iter ops len :
  base (Some id) w sp G -> replying w G id a [] [] v b iter ops len 0 ->
  exists w' G', allreduce_super_request_finish id w = Ret w' /\ base (Some id) w' sp G' /\
    gone w' G' id /\ replies_kept w w' G G' /\ forall R, holds R G -> holds R G'.
Proof.
  intros Hb [Hh Hs Os Or Ov Ob Hb0 _ _]. unfold allreduce_super_request_finish. rewrite Hh.
  pose proof (mine_op id) as Hm.
  set (w1 := set_hash (delete id (super_requests_hash w)) w).
  assert (step_ok (Some id) w G w1 G) as St1.
  { eapply step_hash; [done|]. intros i Hi. rewrite lookup_delete_ne; [done|congruence]. }
  pose proof (base_kept _ _ _ _ _ _ St1 Hb) as Hb1.
  assert (gv G !! v = Some (ByOp id)) as Gv by (apply Ov; set_solver).
  assert (gs G !! a = Some (ByOp id)) as Ga by (apply Os; set_solver).
  pose proof (vec_pos _ _ _ _ _ _ Hb Gv) as Hv0.
  unfold allreduce_super_request_destroy, super_at. cbn [smem w1 set_hash]. rewrite Hs.
  cbn [of_option result_vector_owner result_vector peer_result_vector recv_vectors num_allreduce_requests andb].
  rewrite (proj2 (Z.eqb_neq v 0)) by lia. cbn [negb].
  destruct (put_vec (Some id) _ w1 sp G Hb1 v _ Gv Hm) as (p2 & -> & St2). set (w2 := set_pools p2 w1) in *.
  pose proof (base_kept _ _ _ _ _ _ St2 Hb1) as Hb2. rewrite Z.eqb_refl.
  assert (exists p3 G3, (if b =? 0 then Ret w2 else allreduce_free_vec_bufs_pool b w2) = Ret (set_pools p3 w2) /\
    step_ok (Some id) w2 (drop_v v G) (set_pools p3 w2) G3 /\ gv G3 = gv (drop_v v G) /\ gr G3 = gr G /\ gs G3 = gs G /\
    owns (gb G3) (ByOp id) ∅ /\ (owns (gb G) Hand ∅ -> owns (gb G3) Hand ∅))
    as (p3 & G3 & -> & St3 & Ev & Er & Es & Ob3 & Obh).
  { destruct (dest_num cfg <=? 1) eqn:Ed.
    - rewrite Hb0 by lia. exists (w_pools w2), (drop_v v G).
      assert (set_pools (w_pools w2) w2 = w2) as -> by by destruct w2.
      rewrite Z.eqb_refl. split; [done|]. split; [by eapply step_refl|]. done.
    - assert (gb G !! b = Some (ByOp id)) as Gb by (apply Ob; set_solver).
      pose proof (buf_pos _ _ _ _ _ _ Hb ltac:(lia) Gb). rewrite (proj2 (Z.eqb_neq b 0)) by lia.
      destruct (put_buf (Some id) _ w2 sp (drop_v v G) Hb2 b (ByOp id)) as (p3 & -> & St3); [lia|done|done|].
      exists p3, (drop_b b (drop_v v G)). split; [done|]. split; [done|]. do 3 (split; [done|]). cbn.
      split; [eapply owns_none; [done|set_solver]|by eapply owns_drop_other]. }
  set (w3 := set_pools p3 w2) in *. pose proof (base_kept _ _ _ _ _ _ St3 Hb2) as Hb3.
  change (0 <? Z.of_nat 0) with false.
  destruct (put_super_req (Some id) _ w3 sp G3 Hb3 a (ByOp id)) as (p4 & -> & St4); [by rewrite Es|done|].
  eexists _, (drop_s a G3). split; [done|]. split; [by eapply base_kept|]. split.
  - split; [cbn; apply lookup_delete_eq|]. cbn. rewrite Ev, Er, Es. split; [|split; [done|split; [done|]]].
    + eapply owns_none; [done|set_solver].
    + eapply owns_none; [done|set_solver].
  - split; [do 4 (split; [done|]); intros n Y HY; cbn; by rewrite Er|].
    intros R (H1 & H2 & H3 & H4). unfold holds. cbn. rewrite Ev, Er, Es. cbn.
    split; [by eapply owns_drop_other|]. split; [by apply Obh|]. split; [done|]. by eapply owns_drop_other.
Qed.

(** The callback of a completed reply, whose request [r] the handler has taken. *)
Lemma client_done_ok w sp G id a rs cs v b iter ops len left r c l :
  base (Some id) w sp G -> replying w G id a rs cs v b iter ops len (S left) ->
  (left = 0%nat -> rs = []) -> Z.of_nat (S left) < 2 ^ 64 ->
  gr G !! r = Some Hand -> rmem w !! r = Some (Request a id c 0 l) ->
  exists w' G',
    daemon_allreduce_complete_client_operation_callback r UCS_OK w = Ret (w', DOCA_SUCCESS) /\
    base (Some id) w' sp G' /\ replies_kept w w' G G' /\ (holds {[r]} G -> no_hand G') /\
    if (left =? 0)%nat then gone w' G' id else replying w' G' id a rs cs v b iter ops len left.
Proof.
  intros Hb Hry Hrs Hleft Hr Hq. unfold daemon_allreduce_complete_client_operation_callback, request_at. rewrite Hq.
  cbn [of_option rq_super]. unfold allreduce_request_destroy, request_at. rewrite Hq. cbn [of_option rq_vector].
  rewrite Z.eqb_refl. destruct (put_req (Some id) _ w sp G Hb r _ Hr (mine_hand _)) as (p1 & -> & St1).
  set (w1 := set_pools p1 w) in *. pose proof (base_kept _ _ _ _ _ _ St1 Hb) as Hb1.
  destruct Hry as [Hh Hs Os Or Ov Ob Hb0 Hnd Hrq].
  assert (replying w1 (drop_r r G) id a rs cs v b iter ops len (S left)) as Hry1.
  { split; try done. cbn. intros k. rewrite <-(Or k). destruct (decide (k = r)) as [->|].
    - rewrite lookup_delete_eq, Hr. done.
    - by rewrite lookup_delete_ne. }
  unfold super_at. change (smem w1) with (smem w). rewrite Hs.
  cbn [of_option set_num_requests num_allreduce_requests].
  rewrite (uwrap_id 64) by (split; lia). replace (Z.of_nat (S left) - 1) with (Z.of_nat left) by lia.
  set (s1 := set_num_requests (Z.of_nat left) _).
  assert (step_ok (Some id) w1 (drop_r r G) (put_super a s1 w1) (drop_r r G)) as St2.
  { eapply step_super; [done|apply Os; set_solver|apply mine_op]. }
  pose proof (base_kept _ _ _ _ _ _ St2 Hb1) as Hb2. set (w2 := put_super a s1 w1) in *.
  assert (replying w2 (drop_r r G) id a rs cs v b iter ops len left) as Hry2.
  { destruct Hry1. split; try done. cbn. by rewrite lookup_insert_eq. }
  assert (replies_kept w w2 G (drop_r r G)) as Hk.
  { do 4 (split; [done|]). intros n Y HY k. rewrite <-(HY k). cbn. destruct (decide (k = r)) as [->|].
    - rewrite lookup_delete_eq, Hr. done.
    - by rewrite lookup_delete_ne. }
  assert (holds {[r]} G -> holds ∅ (drop_r r G)) as Hdrop.
  { intros (H1 & H2 & H3 & H4). split; [done|]. split; [done|]. split; [|done]. cbn. eapply owns_none; [done|set_solver]. }
  destruct left as [|left].
  - cbn [num_allreduce_requests s1 set_num_requests header]. rewrite Z.eqb_refl. specialize (Hrs eq_refl). subst rs.
    apply Forall2_nil_inv_l in Hrq as ->.
    destruct (finish_ok w2 sp _ id a v b iter ops len Hb2 Hry2) as (w3 & G3 & -> & Hb3 & Hg & Hk3 & Hh3).
    exists w3, G3. split; [done|]. split; [done|]. split; [by eapply replies_kept_trans|]. split; [|done].
    intros Hhold. apply Hh3. by apply Hdrop.
  - rewrite (proj2 (Z.eqb_neq _ 0)) by (cbn; lia). exists w2, (drop_r r G). do 3 (split; [done|]). done.
Qed.

Lemma invoke_ok o w : o = Ret (w, DOCA_SUCCESS) -> callback_errno (w_ucx w) = DOCA_SUCCESS -> INVOKE_CALLBACK o = Ret w.
Proof. intros -> He. unfold INVOKE_CALLBACK. rewrite He. cbn. rewrite <-He. by destruct w as [? ? ? ? ? ? ? [] ? ? ?]. Qed.

(** After the result is known: every request is answered, at once or by a reply in
    progress. *)
Lemma send_results_ok id a v b iter ops len t rs : forall cs w sp G ws sp' ws',
  base (Some id) w sp G ->
  replying w G id a rs cs v b iter ops len (length rs + base.size ws) ->
  replies_ok w G sp id a v ws -> only_replies sp id ws -> has w v t -> length t = len ->
  Z.of_nat len <= vector_size cfg -> Forall (fun c => c ∈ active) cs ->
  (0 < length rs + base.size ws)%nat -> Z.of_nat (length rs + base.size ws) < 2 ^ 64 ->
  spec_sends E (PReply id) ((fun c => Message c ALLREDUCE_CTRL_AM_ID id (Some <$> t)) <$> cs) sp = Some (sp', ws') ->
  exists w' G', send_results E cfg a rs w = Ret w' /\ base (Some id) w' sp' G' /\ s_ops sp' = s_ops sp /\
    only_replies sp' id (ws ∪ ws') /\ (no_hand G -> no_hand G') /\
    if bool_decide (ws ∪ ws' = ∅) then gone w' G' id
    else replying w' G' id a [] [] v b iter ops len (base.size (ws ∪ ws')) /\ replies_ok w' G' sp' id a v (ws ∪ ws').
Proof.
  induction rs as [|r rs IH]; intros cs w sp G ws sp' ws' Hb Hry Hre Hon Ht Htl Hlen Hcs Hpos Hmax Hsp.
  { pose proof (ry_reqs _ _ _ _ _ _ _ _ _ _ _ _ Hry) as Hrq. apply Forall2_nil_inv_l in Hrq as ->.
    cbn in Hsp. injection Hsp as <- <-. exists w, G. rewrite (right_id_L ∅ (∪)). do 3 (split; [done|]).
    split; [done|]. split; [done|]. rewrite bool_decide_false; [done|]. intros ->. rewrite size_empty in Hpos. cbn in Hpos. lia. }
  destruct Hry as [Hh Hs Os Or Ov Ob Hb0 Hnd Hrq].
  apply Forall2_cons_inv_l in Hrq as (c & cs' & Hr & Hrq & ->). apply Forall_cons in Hcs as [Hc Hcs].
  apply NoDup_cons in Hnd as [Hrn Hnd].
  cbn [send_results]. unfold super_at at 1. rewrite Hs. cbn [of_option requests_list STAILQ_REMOVE]. rewrite Z.eqb_refl.
  set (w1 := put_super a _ w).
  assert (step_ok (Some id) w G w1 G) as St1 by (eapply step_super; [done|apply Os; set_solver|apply mine_op]).
  pose proof (base_kept _ _ _ _ _ _ St1 Hb) as Hb1.
  unfold request_at. change (rmem w1) with (rmem w). rewrite Hr.
  cbn [of_option rq_connection header result_vector result_vector_size].
  assert (gr G !! r = Some (ByOp id)) as Gr by (apply Or; set_solver).
  assert (gv G !! v = Some (ByOp id)) as Gv by (apply Ov; set_solver).
  assert (exists L, (length (r :: rs) + base.size ws = S L)%nat) as [L HL] by (eexists; reflexivity).
  assert (L = length rs + base.size ws)%nat as HL' by (cbn in HL; lia).
  cbn [fmap list_fmap spec_sends] in Hsp. set (m := Message c _ id (Some <$> t)) in *.
  destruct (spec_send E (PReply id m) m sp) as [[sp1 ws1]|] eqn:E1; [|discriminate].
  destruct (spec_sends E (PReply id) _ sp1) as [[sp2 ws2]|] eqn:E2; [|discriminate]. injection Hsp as <- <-.
  assert (m = Message c ALLREDUCE_CTRL_AM_ID id (take len (vec w1 v))) as Hm.
  { unfold m. f_equal. subst len. symmetry. exact Ht. }
  pose proof Hm as Hm'. rewrite Hm in E1 at 2.
  destruct (am_send_ok id w1 sp G c ALLREDUCE_CTRL_AM_ID v _ len (CbClientDone r)
    (daemon_allreduce_complete_client_operation_callback r) (PReply id m) sp1 ws1 Hb1 eq_refl Hc Gv Hlen E1)
    as [Hops1 [(u & -> & Ep & Epd & Hb2 & ->)|(u & k & -> & Hk & Ep & Epd & -> & Hnok & Hb2)]].
  - (* the reply is done *)
    set (G1 := give_r r Hand G). set (w2 := set_ucx u w1).
    assert (step_ok (Some id) w2 G w2 G1) as St2 by (eapply step_move_r; [done|done|apply mine_op|apply mine_hand]).
    pose proof (base_kept _ _ _ _ _ _ St2 Hb2) as Hb3.
    assert (replying w2 G1 id a rs cs' v b iter ops len (S L)) as Hry2.
    { split; try done.
      - cbn. rewrite lookup_insert_eq. unfold set_requests_list. cbn. by rewrite HL'.
      - cbn. replace (list_to_set rs) with (list_to_set (r :: rs) ∖ {[r]} : gset Z) by set_solver.
        by apply owns_give. }
    destruct (client_done_ok w2 sp1 G1 id a rs cs' v b iter ops len L r c (Z.of_nat len) Hb3 Hry2)
      as (w3 & G3 & Hcb & Hb4 & Hk & Hh3 & Hfin).
    { intros ->. apply nil_length_inv. lia. }
    { lia. }
    { apply lookup_insert_eq. }
    { done. }
    rewrite (invoke_ok _ w3 Hcb) by apply (b_ucx _ _ _ _ Hb4).
    destruct Hk as (Kv & Kr & Ku & Kc & Kg).
    assert (replies_ok w3 G3 sp1 id a v ws) as Hre3.
    { intros n Hn. destruct (Hre n Hn) as (m' & r' & c' & l' & A1 & A2 & A3 & A4 & A5). exists m', r', c', l'.
      rewrite Ep, Ku. cbn. rewrite Epd. split; [done|]. split; [done|]. split.
      { unfold intact, vec in *. by rewrite Kv. }
      split; [by rewrite Kr|]. apply Kg. intros i. rewrite <-(A5 i). cbn. destruct (decide (i = r)) as [->|].
      - rewrite lookup_insert_eq, Gr. done.
      - by rewrite lookup_insert_ne. }
    assert (no_hand G -> no_hand G3) as Hno.
    { intros (H1 & H2 & H3 & H4). apply Hh3. split; [done|]. split; [done|]. split; [|done]. cbn.
      replace {[r]} with ({[r]} ∪ ∅ : gset Z) by set_solver. by apply owns_take. }
    assert (only_replies sp1 id ws) as Hon3 by (intros n p; rewrite Ep; apply Hon).
    destruct (L =? 0)%nat eqn:EL.
    + apply Nat.eqb_eq in EL. assert (rs = []) as -> by (apply nil_length_inv; lia).
      apply Forall2_nil_inv_l in Hrq as ->. cbn in E2. injection E2 as <- <-.
      assert (base.size ws = 0%nat) as Hz by (cbn [length] in HL'; lia).
      apply size_empty_inv in Hz. fold_leibniz. subst ws.
      exists w3, G3. cbn [send_results]. do 2 (split; [done|]). split; [done|].
      replace (∅ ∪ (∅ ∪ ∅)) with (∅ : gset Z) by set_solver. split; [done|]. split; [done|]. by rewrite bool_decide_true.
    + apply Nat.eqb_neq in EL. destruct (IH cs' w3 sp1 G3 ws sp2 ws2) as (w4 & G4 & -> & Hb5 & Hops & Hon4 & Hno4 & Hend); try done.
      * by rewrite <-HL'.
      * unfold has, vec. rewrite Kv. exact Ht.
      * lia.
      * lia.
      * exists w4, G4. split; [done|]. split; [done|]. split; [congruence|]. rewrite (left_id_L ∅ (∪)).
        split; [done|]. split; [auto|done].
  - (* the reply is in progress *)
    set (G1 := give_r r (ByPend k) G). set (w2 := set_ucx u w1).
    assert (base (Some id) w2 sp1 G1) as Hb3.
    { apply Hb2; try done; [|by left]. eapply moved_give; [done|left; apply mine_op|by right]. }
    assert (k ∉ ws) as Hkw.
    { intros Hin. destruct (Hre k Hin) as (m' & r' & c' & l' & A1 & _). congruence. }
    destruct (IH cs' w2 sp1 G1 ({[k]} ∪ ws) sp2 ws2) as (w4 & G4 & -> & Hb5 & Hops & Hon4 & Hno4 & Hend); try done.
    + split; try done.
      * cbn. rewrite lookup_insert_eq. unfold set_requests_list. cbn. rewrite size_union, size_singleton by set_solver.
        do 2 f_equal. lia.
      * cbn. replace (list_to_set rs) with (list_to_set (r :: rs) ∖ {[r]} : gset Z) by set_solver.
        by apply owns_give.
    + intros n Hn. apply elem_of_union in Hn as [->%elem_of_singleton|Hn].
      * exists m, r, c, (Z.of_nat len). rewrite Ep, Hm'. cbn. rewrite Epd, !lookup_insert_eq.
        split; [done|]. split; [done|]. split.
        { split; cbn; rewrite length_take, (vec_length _ _ _ _ _ Hb1); [by rewrite Nat.min_l by lia|lia]. }
        split; [done|]. intros i. cbn. destruct (decide (i = r)) as [->|].
        -- rewrite lookup_insert_eq. set_solver.
        -- rewrite lookup_insert_ne by done. split; [by intros ?%Hnok|set_solver].
      * assert (n <> k) as Hnk by (intros ->; done).
        destruct (Hre n Hn) as (m' & r' & c' & l' & A1 & A2 & A3 & A4 & A5). exists m', r', c', l'.
        rewrite Ep. cbn. rewrite Epd, !lookup_insert_ne by done. do 4 (split; [done|]).
        intros i. rewrite <-(A5 i). cbn. destruct (decide (i = r)) as [->|].
        -- rewrite lookup_insert_eq, Gr. split; [intros [= ->]; done|done].
        -- by rewrite lookup_insert_ne.
    + intros n p. rewrite Ep. destruct (decide (n = k)) as [->|Hnk].
      * rewrite lookup_insert_eq. intros [= <-] _. set_solver.
      * rewrite lookup_insert_ne by done. intros Hp. specialize (Hon n p Hp). destruct p; try done. set_solver.
    + rewrite size_union, size_singleton by set_solver. lia.
    + rewrite size_union, size_singleton by set_solver. lia.
    + exists w4, G4. split; [done|]. split; [done|]. split; [congruence|].
      replace (ws ∪ ({[k]} ∪ ws2)) with ({[k]} ∪ ws ∪ ws2) by set_solver. split; [done|]. split; [|done].
      intros (H1 & H2 & H3 & H4). apply Hno4. split; [done|]. split; [done|]. split; [|done]. by eapply owns_give_other.
Qed.

(** *** A completed operation of a super-request *)

Definition drop_vs (vs : list Z) (G : ghost) : ghost := Ghost (foldr delete (gv G) vs) (gb G) (gr G) (gs G).

Lemma lookup_drops (g : gmap Z owner) vs k : foldr delete g vs !! k = if bool_decide (k ∈ vs) then None else g !! k.
Proof.
  induction vs as [|v vs IH]; cbn; [done|]. destruct (decide (k = v)) as [->|].
  - rewrite lookup_delete_eq, bool_decide_true by set_solver. done.
  - rewrite lookup_delete_ne, IH by done. repeat case_bool_decide; set_solver.
Qed.

Lemma dom_drops (g : gmap Z owner) vs : dom (foldr delete g vs) = dom g ∖ list_to_set vs.
Proof. induction vs as [|v vs IH]; cbn; [set_solver|]. rewrite dom_delete_L, IH. set_solver. Qed.

Lemma owns_drops g vs o Y : owns g o Y -> owns (foldr delete g vs) o (Y ∖ list_to_set vs).
Proof.
  intros H k. rewrite lookup_drops, elem_of_difference, elem_of_list_to_set. case_bool_decide; [naive_solver|].
  rewrite (H k). naive_solver.
Qed.

Lemma owns_drops_other g vs o o' Y :
  (forall v, v ∈ vs -> g !! v = Some o') -> o <> o' -> owns g o Y -> owns (foldr delete g vs) o Y.
Proof.
  intros Hv Hne H k. rewrite lookup_drops, <-(H k). case_bool_decide as Hk; [|done].
  rewrite (Hv k Hk). split; [done|]. intros [= ->]. done.
Qed.

Lemma put_vecs X Y w sp G vs o :
  base Y w sp G -> NoDup vs -> (forall v, v ∈ vs -> gv G !! v = Some o) -> mine X o ->
  exists mp, allreduce_free_vecs (vecs_pool (w_pools w)) vs = Ret mp /\
    let p := Pools (the_heap (w_pools w)) mp (bufs_pool (w_pools w)) (reqs_pool (w_pools w)) (super_reqs_pool (w_pools w)) in
    step_ok X w G (set_pools p w) (drop_vs vs G).
Proof.
  intros Hb Hnd Hv Ho. destruct (free_vecs_list cfg w _ _ _ _ vs (b_pools _ _ _ _ Hb) Hnd) as (p & mp & E1 & -> & Hp).
  { intros v Hin%elem_of_list_to_set. apply elem_of_dom. eauto. }
  exists mp. split; [done|]. destruct Hb. split; cbn; try done; try apply kept_refl; [by rewrite dom_drops|].
  split; [|done]. intros k o' Ho'. cbn. rewrite lookup_drops. case_bool_decide as Hk; [|done].
  rewrite (Hv k Hk). split; [done|]. intros [= ->]. done.
Qed.

Lemma read_pointers_ok ps : forall i l,
  (forall j p, ps !! j = Some p -> l !! (i + j)%nat = Some (Some p)) ->
  read_pointers (length ps) i l = Ret ps.
Proof.
  induction ps as [|p ps IH]; intros i l H; cbn; [done|].
  specialize (H 0%nat) as H0. rewrite Nat.add_0_r in H0. rewrite (H0 p eq_refl). cbn.
  rewrite IH; [done|]. intros j q Hq. rewrite Nat.add_succ_comm. by apply (H (S j)).
Qed.

(** The receive vectors of an operation: the peers' vectors behind the first. *)
Lemma pointers_ok w sp X G id a rs vs pvs b len cl pe ops red :
  base X w sp G -> gathering w G id a rs vs pvs b len cl pe ops red -> Z.of_nat (length pe) <= dest_num cfg ->
  pointers_at cfg b (Z.of_nat (pred (length pvs))) w = Ret (tail pvs).
Proof.
  intros Hb Hg Hpe. unfold pointers_at. destruct pvs as [|pv pvs]; [done|]. cbn [length pred tail].
  destruct pvs as [|pv2 pvs]; [done|]. rewrite (proj2 (Z.eqb_neq _ 0)) by (cbn; lia).
  assert (1 < dest_num cfg) as Hd by (rewrite <-(ga_pvs _ _ _ _ _ _ _ _ _ _ _ _ _ Hg) in Hpe; cbn in Hpe; lia).
  pose proof (ga_ob _ _ _ _ _ _ _ _ _ _ _ _ _ Hg) as Ob. rewrite (proj2 (Z.leb_gt _ _)) in Ob by lia.
  assert (gb G !! b = Some (ByOp id)) as Gb by (apply Ob; set_solver).
  pose proof (buf_pos _ _ _ _ _ _ Hb Hd Gb). unfold array_at. rewrite (proj2 (Z.eqb_neq b 0)) by lia. fold (buf w b).
  rewrite Nat2Z.id. apply read_pointers_ok. intros j p Hp.
  by apply (ga_buf _ _ _ _ _ _ _ _ _ _ _ _ _ Hg Hd j p).
Qed.

Lemma base_close id w sp G ops :
  base (Some id) w sp G -> op_rel w sp G id (ops !! id) -> (forall i, i <> id -> ops !! i = s_ops sp !! i) ->
  base None w (set_ops ops sp) G.
Proof.
  intros [] Hid Hi. split; try done. intros i _. change (op_rel w sp G i (ops !! i)).
  destruct (decide (i = id)) as [->|]; [done|]. rewrite Hi by done. apply b_ops0. congruence.
Qed.

Lemma ops_left_pos cl pe ws : op_counts cl pe ws ->
  0 <= ops_left cl pe ws < 2 ^ 64 - 1 /\
  (ops_left cl pe ws = 0 <->
   Z.of_nat (length cl) = num_clients cfg /\ Z.of_nat (length pe) = dest_num cfg /\ ws = ∅).
Proof.
  intros (H1 & H2 & H3 & H4 & _). unfold ops_left. destruct (Z.of_nat (length cl) =? num_clients cfg) eqn:Ec.
  - split; [lia|]. split.
    + intros H. split; [lia|]. split; [lia|]. apply leibniz_equiv, size_empty_inv. lia.
    + intros (_ & ? & ->). rewrite size_empty. lia.
  - split; [lia|]. split; [lia|]. intros (? & _). lia.
Qed.

(** The peers' vectors go into the result and are returned; the requests remain. *)
Lemma combine_ok w sp G id a rs vs pvs b len cl pe t :
  base (Some id) w sp G -> gathering w G id a rs vs pvs b len cl pe 0 true -> cl <> [] ->
  Z.of_nat (length pe) <= dest_num cfg -> total cfg cl.*2 pe = Ret t ->
  exists v w' G' s,
    vs = [v] /\ smem w !! a = Some s /\ length t = len /\
    (let* w := (if peer_result_vector s =? 0 then Ret w
      else
        let* w := allreduce_reduce cfg a (peer_result_vector s) false w in
        let* w := allreduce_free_vec_vecs_pool (peer_result_vector s) w in
        Ret (put_super a (set_peer_result_vector 0 s) w)) in
     allreduce_free_vecs_vecs_pool cfg (recv_vectors s) (recv_vector_iter s) w) = Ret w' /\
    base (Some id) w' sp G' /\ (no_hand G -> no_hand G') /\ has w' v t /\
    replying w' G' id a rs cl.*1 v b (Z.of_nat (pred (length pvs))) 0 len (length cl) /\ w_ucx w' = w_ucx w.
Proof.
  intros Hb Hg Hcl Hpe Ht. pose proof (pointers_ok _ _ _ _ _ _ _ _ _ _ _ _ _ _ _ Hb Hg Hpe) as Hptr.
  destruct Hg as [Hh Hs Os Or Ov Ob Hb0 [Hnd1 Hnd2] Hrq Hres Hpvs Hpeers Hbuf Hlen Hsz].
  destruct vs as [|v [|]]; [done| |done]. destruct Hres as (_ & l & Hl & Hhas).
  exists v. cbn [hd] in *.
  assert (forall x, x ∈ v :: pvs -> gv G !! x = Some (ByOp id)) as Gv by (intros x Hx; apply Ov; set_solver).
  assert (length l = len) as Hll.
  { eapply reduction_length; [|apply Forall_app in Hlen as [Hlen _]; exact Hlen|done]. by destruct cl. }
  assert (Forall2 (fun r c => rmem w !! r = Some (Request a id c 0 (Z.of_nat len))) rs cl.*1) as Hrq'.
  { by apply Forall2_fmap_r. }
  unfold total in Ht. rewrite Hl in Ht.
  destruct pvs as [|pv pvs].
  - (* no peers *)
    destruct pe; [|done]. injection Ht as ->. cbn [hd] in Hs. eexists w, G, _.
    split; [done|]. split; [exact Hs|]. split; [done|]. cbn [peer_result_vector recv_vectors recv_vector_iter].
    rewrite Z.eqb_refl. split.
    { unfold allreduce_free_vecs_vecs_pool. rewrite Hptr. cbn. by destruct w as [[] ? ? ? ? ? ? ? ? ? ?]. }
    do 3 (split; [done|]). split; [|done]. split; try done.
    replace {[v]} with (list_to_set [v] : gset Z) by set_solver. exact Ov.
  - (* the reduction of the peers' vectors is in the first of them *)
    destruct pe as [|x pe]; [done|]. destruct (Hpeers pv eq_refl) as (p & Hp & Hpv). rewrite Hp in Ht.
    assert (length p = len) as Hpl.
    { eapply reduction_length; [|apply Forall_app in Hlen as [_ Hlen]; exact Hlen|done]. done. }
    cbn [hd tail] in *.
    pose proof (vec_pos _ _ _ _ _ _ Hb (Gv pv ltac:(set_solver))).
    destruct (reduce_ok (Some id) _ w sp G a _ false pv (ByOp id) l p t Hb Hs) as (m & Er & Hwr & Hhas1 & St1);
      cbn [result_vector result_vector_size]; try done; try congruence.
    { apply Gv. set_solver. }
    { rewrite Gv by set_solver. eauto. }
    cbn [result_vector] in *. specialize (St1 (mine_op _)). set (w1 := set_vmem m w) in *.
    pose proof (base_kept _ _ _ _ _ _ St1 Hb) as Hb1.
    destruct (put_vec (Some id) _ w1 sp G Hb1 pv _ (Gv pv ltac:(set_solver)) (mine_op _)) as (p2 & Ef & St2).
    set (w2 := set_pools p2 w1) in *. pose proof (base_kept _ _ _ _ _ _ St2 Hb1) as Hb2.
    set (s3 := Super rs (Z.of_nat (length cl)) 0 true v 0 (Z.of_nat (pred (length (pv :: pvs)))) b id (Z.of_nat len)).
    set (w3 := put_super a s3 w2).
    assert (step_ok (Some id) w2 (drop_v pv G) w3 (drop_v pv G)) as St3.
    { eapply step_super; [done|apply Os; set_solver|apply mine_op]. }
    pose proof (base_kept _ _ _ _ _ _ St3 Hb2) as Hb3.
    apply NoDup_cons in Hnd2 as [Hv1 [Hv2 Hnd3]%NoDup_cons].
    assert (forall x, x ∈ pvs -> gv (drop_v pv G) !! x = Some (ByOp id)) as Gpvs.
    { intros y Hy. cbn. rewrite lookup_delete_ne by (intros ->; done). apply Gv. set_solver. }
    destruct (put_vecs (Some id) _ w3 sp (drop_v pv G) pvs _ Hb3 Hnd3 Gpvs (mine_op _)) as (mp & Efs & St4).
    cbn zeta in St4. set (w4 := set_pools _ w3) in *. set (G4 := drop_vs pvs (drop_v pv G)) in *.
    eexists w4, G4, _. split; [done|]. split; [exact Hs|].
    split; [rewrite <-Hll; eapply vreduce_length; [|exact Ht]; congruence|].
    cbn [peer_result_vector recv_vectors recv_vector_iter]. rewrite (proj2 (Z.eqb_neq pv 0)) by lia.
    split.
    { rewrite Er, Ef. unfold allreduce_free_vecs_vecs_pool. fold w3.
      change (pointers_at cfg b ?n (put_super _ _ w2)) with (pointers_at cfg b n w). rewrite Hptr.
      change (w_pools (put_super _ _ w2)) with (w_pools w3). by rewrite Efs. }
    split; [by eapply base_kept|]. split.
    { intros (H1 & H2 & H3 & H4). split; [|done]. cbn. eapply owns_drops_other; [exact Gpvs|done|].
      eapply owns_drop_other; [apply Gv; set_solver|done|done]. }
    split; [exact Hhas1|]. split; [|done]. split; try done.
    + cbn. rewrite lookup_insert_eq. done.
    + cbn. replace {[v]} with (((list_to_set (v :: pv :: pvs) ∖ {[pv]}) ∖ list_to_set pvs) : gset Z) by set_solver.
      apply owns_drops, owns_drop. exact Ov.
Qed.

Context (Hdaemon : role cfg = ALLREDUCE_DAEMON) (Hmaxc : num_clients cfg < 2 ^ 63).

Lemma only_none sp id : only_sends sp id ∅ <-> only_replies sp id ∅.
Proof.
  split; intros H n p Hp; specialize (H n p Hp); destruct p; try done; intros ->;
    first [done|specialize (H eq_refl); set_solver].
Qed.

Lemma spec_send_calls p m sp sp' ws : spec_send E p m sp = Some (sp', ws) ->
  s_calls sp' = s_calls sp + 1 /\ (ws = ∅ \/ ws = {[s_calls sp + 1]}).
Proof. unfold spec_send. intros H. destruct (ucp E (s_calls sp)) as [|[]|[]|]; try done; injection H as <- <-; auto. Qed.

Lemma spec_sends_fresh mk ms : forall sp sp' ws, spec_sends E mk ms sp = Some (sp', ws) ->
  s_calls sp <= s_calls sp' /\ (forall n, n ∈ ws -> s_calls sp < n <= s_calls sp') /\ (base.size ws <= length ms)%nat.
Proof.
  induction ms as [|m ms IH]; intros sp sp' ws H; cbn in H.
  - injection H as <- <-. rewrite size_empty. split; [lia|]. split; [set_solver|done].
  - destruct (spec_send E (mk m) m sp) as [[sp1 ws1]|] eqn:E1; [|done].
    destruct (spec_sends E mk ms sp1) as [[sp2 ws2]|] eqn:E2; [|done]. injection H as <- <-.
    destruct (IH _ _ _ E2) as (H1 & H2 & H3). destruct (spec_send_calls _ _ _ _ _ E1) as [Ec Hw].
    split; [lia|]. split.
    + intros n [Hn|Hn]%elem_of_union; [|specialize (H2 n Hn); lia].
      destruct Hw as [->| ->]; [set_solver|]. apply elem_of_singleton in Hn. lia.
    + cbn. destruct Hw as [->| ->].
      * rewrite (left_id_L ∅ (∪)). lia.
      * rewrite size_union, size_singleton; [lia|]. intros n ->%elem_of_singleton Hn. specialize (H2 _ Hn). lia.
Qed.

(** One operation fewer: either others are left, or the clients get their result. *)
Lemma complete_ok w sp G id a rs vs pvs b len cl pe ws sp' :
  base (Some id) w sp G ->
  open_op w sp G id a rs vs pvs b len cl pe ws (ops_left cl pe ws + 1)
    (bool_decide (Z.of_nat (length pe) = dest_num cfg)) ->
  op_counts cl pe ws ->
  s_ops sp !! id = Some (SGather len cl pe ws) -> spec_check E cfg id sp = Some sp' ->
  exists w' G', allreduce_complete_operation_callback E cfg a UCS_OK w = Ret (w', DOCA_SUCCESS) /\
    base None w' sp' G' /\ (no_hand G -> no_hand G').
Proof.
  intros Hb (Hg & Hsnd & Hon) Hcnt Hop Hsp. pose proof Hcnt as (_ & _ & _ & _ & Hact). destruct (ops_left_pos cl pe ws Hcnt) as [Hol Hzero].
  unfold allreduce_complete_operation_callback. rewrite bool_decide_false by naive_solver.
  unfold super_at. rewrite (ga_super _ _ _ _ _ _ _ _ _ _ _ _ _ Hg).
  cbn [of_option num_allreduce_operations set_num_operations].
  rewrite (uwrap_id 64) by (split; lia). replace (ops_left cl pe ws + 1 - 1) with (ops_left cl pe ws) by lia.
  set (s1 := set_num_operations _ _). set (w1 := put_super a s1 w).
  assert (step_ok (Some id) w G w1 G) as St1.
  { eapply step_super; [done|apply (ga_os _ _ _ _ _ _ _ _ _ _ _ _ _ Hg); set_solver|apply mine_op]. }
  pose proof (base_kept _ _ _ _ _ _ St1 Hb) as Hb1.
  assert (gathering w1 G id a rs vs pvs b len cl pe (ops_left cl pe ws)
    (bool_decide (Z.of_nat (length pe) = dest_num cfg))) as Hg1.
  { destruct Hg. split; try done. cbn. by rewrite lookup_insert_eq. }
  unfold spec_check in Hsp. rewrite Hop in Hsp.
  change (num_allreduce_operations s1) with (ops_left cl pe ws).
  destruct (decide (Z.of_nat (length cl) = num_clients cfg /\ Z.of_nat (length pe) = dest_num cfg /\ ws = ∅)) as [Hdone|Hdone];
    [rewrite (bool_decide_true _ Hdone) in Hsp|rewrite (bool_decide_false _ Hdone) in Hsp].
  2:{ rewrite (proj2 (Z.ltb_lt _ _)) by (destruct (Z.eq_dec (ops_left cl pe ws) 0); [tauto|lia]).
      injection Hsp as <-. exists w1, G. split; [done|]. split; [|done].
      replace sp with (set_ops (s_ops sp) sp) by by destruct sp.
      eapply base_close; [done| |done]. rewrite Hop. cbn [op_rel].
      split; [by exists a, rs, vs, pvs, b|]. done. }
  rewrite (proj2 Hzero Hdone) in *. cbn [Z.ltb Z.compare]. destruct Hdone as (Hn & Hp & ->).
  assert (cl <> []) as Hcl by (intros ->; cbn in Hn; lia).
  rewrite (bool_decide_true _ Hp) in Hg1.
  destruct (total cfg cl.*2 pe) as [t|] eqn:Ht; [|discriminate].
  destruct (combine_ok w1 sp G id a rs vs pvs b len cl pe t Hb1 Hg1 Hcl ltac:(lia) Ht)
    as (v & w2 & G2 & s & -> & Hs & Htl & Ecomb & Hb2 & Hno & Hhas & Hry & Hu).
  assert (s = s1) as -> by (cbn in Hs; rewrite lookup_insert_eq in Hs; congruence).
  destruct (if peer_result_vector s1 =? 0 then _ else _) as [w15|] eqn:E15; [|discriminate].
  rewrite Ecomb. rewrite bool_decide_false by (rewrite Hdaemon; done).
  destruct (spec_sends E (PReply id) _ sp) as [[sp1 ws1]|] eqn:Esnd; [|discriminate].
  assert (length rs = length cl) as Hrl.
  { pose proof (ry_reqs _ _ _ _ _ _ _ _ _ _ _ _ Hry) as Hf. apply Forall2_length in Hf. by rewrite length_fmap in Hf. }
  destruct (send_results_ok id a v b (Z.of_nat (pred (length pvs))) 0 len t rs cl.*1 w2 sp G2 ∅ sp1 ws1 Hb2)
    as (w3 & G3 & Esr & Hb3 & Hops & Hon3 & Hno3 & Hend); try done.
  { rewrite size_empty, Nat.add_0_r, Hrl. done. }
  { apply only_none. done. }
  { apply (ga_size _ _ _ _ _ _ _ _ _ _ _ _ _ Hg1). }
  { rewrite size_empty, Nat.add_0_r, Hrl. destruct cl; [done|]. cbn. lia. }
  { rewrite size_empty, Nat.add_0_r, Hrl. lia. }
  change (requests_list s1) with rs. rewrite Esr. exists w3, G3. split; [done|]. split; [|auto].
  rewrite (left_id_L ∅ (∪)) in *. injection Hsp as <-.
  eapply base_close; [done| |].
  2:{ intros i Hi. case_bool_decide; [by rewrite lookup_delete_ne|by rewrite lookup_insert_ne]. }
  case_bool_decide as Hws.
  - rewrite lookup_delete_eq. destruct Hend as (? & ? & ? & ? & ?). subst ws1. apply only_none in Hon3. cbn [op_rel].
    do 5 (split; [done|]). done.
  - rewrite lookup_insert_eq. cbn [op_rel]. destruct Hend as [Hr1 Hr2].
    destruct (spec_sends_fresh _ _ _ _ _ Esnd) as (_ & _ & Hsize). rewrite !length_fmap in Hsize.
    split; [|split; [done|split; [done|lia]]].
    eexists a, v, b, _, 0, len. split; [exact Hr1|exact Hr2].
Qed.

(** *** Scatter *)

Lemma complete_more w sp G id a rs vs pvs b len cl pe ws ops red :
  base (Some id) w sp G -> open_op w sp G id a rs vs pvs b len cl pe ws ops red -> 2 <= ops < 2 ^ 64 ->
  exists w', allreduce_complete_operation_callback E cfg a UCS_OK w = Ret (w', DOCA_SUCCESS) /\
    base (Some id) w' sp G /\ open_op w' sp G id a rs vs pvs b len cl pe ws (ops - 1) red.
Proof.
  intros Hb (Hg & Hsnd & Hon) Hops. unfold allreduce_complete_operation_callback.
  rewrite bool_decide_false by naive_solver. unfold super_at. rewrite (ga_super _ _ _ _ _ _ _ _ _ _ _ _ _ Hg).
  cbn [of_option num_allreduce_operations set_num_operations]. rewrite (uwrap_id 64) by (split; lia).
  rewrite (proj2 (Z.ltb_lt _ _)) by lia. eexists. split; [done|]. split.
  - eapply base_kept; [|done]. eapply step_super; [done|apply (ga_os _ _ _ _ _ _ _ _ _ _ _ _ _ Hg); set_solver|apply mine_op].
  - split; [|done]. destruct Hg. split; try done. cbn. by rewrite lookup_insert_eq.
Qed.

Lemma scatter_sends_ok id a rs v pvs b len cl pe red l cs : forall i w sp G ws ops sp' ws',
  base (Some id) w sp G -> open_op w sp G id a rs [v] pvs b len cl pe ws ops red ->
  drop i conns = cs -> Forall (fun c => c ∈ active) cs -> has w v l -> length l = len ->
  Z.of_nat (length cs) + 1 <= ops < 2 ^ 64 -> (forall n, n ∈ ws -> n <= s_calls sp) ->
  spec_sends E (PSend id) ((fun k => Message k ALLREDUCE_OP_AM_ID id (Some <$> l)) <$> cs) sp = Some (sp', ws') ->
  exists w', scatter_loop E cfg a (length cs) i w = Ret w' /\ base (Some id) w' sp' G /\ s_ops sp' = s_ops sp /\
    open_op w' sp' G id a rs [v] pvs b len cl pe (ws ∪ ws') (ops - Z.of_nat (length cs) + Z.of_nat (base.size ws')) red.
Proof.
  induction cs as [|c cs IH]; intros i w sp G ws ops sp' ws' Hb Hop Hi Hact Hl Hll Hops Hws Hsp.
  { cbn in Hsp. injection Hsp as <- <-. exists w. do 3 (split; [done|]).
    rewrite (right_id_L ∅ (∪)), size_empty. cbn [length]. rewrite Z.sub_0_r, Z.add_0_r. done. }
  apply Forall_cons in Hact as [Hc Hact]. cbn [length scatter_loop].
  destruct (b_ucx _ _ _ _ Hb) as (_ & _ & _ & _ & Econn). rewrite Econn.
  assert (conns !! i = Some c) as ->.
  { assert (drop i conns !! 0%nat = Some c) as H0 by by rewrite Hi. by rewrite lookup_drop, Nat.add_0_r in H0. }
  assert (drop (S i) conns = cs) as Hi' by (by rewrite <-Nat.add_1_r, <-drop_drop, Hi).
  destruct Hop as (Hg & Hsnd & Hon). cbn [of_option].
  unfold super_at at 1. rewrite (ga_super _ _ _ _ _ _ _ _ _ _ _ _ _ Hg).
  cbn [of_option header result_vector result_vector_size hd].
  assert (gv G !! v = Some (ByOp id)) as Gv by (apply (ga_ov _ _ _ _ _ _ _ _ _ _ _ _ _ Hg); set_solver).
  pose proof (ga_size _ _ _ _ _ _ _ _ _ _ _ _ _ Hg) as Hsz.
  cbn [fmap list_fmap spec_sends] in Hsp. set (m := Message c _ id (Some <$> l)) in *.
  destruct (spec_send E (PSend id m) m sp) as [[sp1 ws1]|] eqn:E1; [|discriminate].
  destruct (spec_sends E (PSend id) _ sp1) as [[sp2 ws2]|] eqn:E2; [|discriminate]. injection Hsp as <- <-.
  assert (m = Message c ALLREDUCE_OP_AM_ID id (take len (vec w v))) as Hm.
  { unfold m. f_equal. subst len. symmetry. exact Hl. }
  pose proof Hm as Hm'. rewrite Hm in E1 at 2.
  destruct (spec_sends_fresh _ _ _ _ _ E2) as (_ & Hfr & _). destruct (spec_send_calls _ _ _ _ _ E1) as [Ec1 Hw1].
  destruct (am_send_ok id w sp G c ALLREDUCE_OP_AM_ID v _ len (CbComplete a)
    (allreduce_complete_operation_callback E cfg a) (PSend id m) sp1 ws1 Hb eq_refl Hc Gv Hsz E1)
    as [Hops1 [(u & -> & Ep & Epd & Hb2 & ->)|(u & k & -> & Hk & Ep & Epd & -> & Hnok & Hb2)]].
  - set (w2 := set_ucx u w).
    assert (open_op w2 sp1 G id a rs [v] pvs b len cl pe ws ops red) as Hop2.
    { split; [by destruct Hg|]. split.
      - intros n Hn. destruct (Hsnd n Hn) as (m' & A1 & A2 & A3). exists m'. rewrite Ep. cbn. by rewrite Epd.
      - intros n p. rewrite Ep. apply Hon. }
    destruct (complete_more w2 sp1 G id a rs [v] pvs b len cl pe ws ops red Hb2 Hop2) as (w3 & Hcb & Hb3 & Hop3);
      [cbn [length] in Hops; lia|].
    rewrite (invoke_ok _ w3 Hcb) by apply (b_ucx _ _ _ _ Hb3).
    assert (vmem w3 = vmem w) as Ev.
    { unfold allreduce_complete_operation_callback in Hcb. rewrite bool_decide_false in Hcb by naive_solver.
      unfold super_at in Hcb. rewrite (ga_super _ _ _ _ _ _ _ _ _ _ _ _ _ (proj1 Hop2)) in Hcb.
      cbn [of_option num_allreduce_operations set_num_operations] in Hcb. cbn [length] in Hops.
      rewrite (uwrap_id 64) in Hcb by (split; lia). rewrite (proj2 (Z.ltb_lt _ _)) in Hcb by lia.
      by injection Hcb as <-. }
    destruct (IH (S i) w3 sp1 G ws (ops - 1) sp2 ws2) as (w4 & -> & Hb4 & Hops4 & Hop4); try done.
    + unfold has, vec. by rewrite Ev.
    + cbn [length] in Hops. lia.
    + intros n Hn. specialize (Hws n Hn). lia.
    + exists w4. split; [done|]. split; [done|]. split; [congruence|]. rewrite (left_id_L ∅ (∪)).
      replace (ops - Z.of_nat (S (length cs)) + _) with (ops - 1 - Z.of_nat (length cs) + Z.of_nat (base.size ws2)) by lia. done.
  - set (w2 := set_ucx u w). assert (base (Some id) w2 sp1 G) as Hb3 by (apply Hb2; try done; by right).
    assert (s_calls sp1 = k) as Eck.
    { destruct Hw1 as [Hw|Hw]; [set_solver|]. assert (k ∈ ({[s_calls sp + 1]} : gset Z)) as Hx by (rewrite <-Hw; set_solver).
      apply elem_of_singleton in Hx. lia. }
    assert (k ∉ ws2) as Hkw by (intros Hx%Hfr; lia).
    destruct (IH (S i) w2 sp1 G ({[k]} ∪ ws) ops sp2 ws2) as (w4 & -> & Hb4 & Hops4 & Hop4); try done.
    + split; [by destruct Hg|]. split.
      * intros n Hn. apply elem_of_union in Hn as [->%elem_of_singleton|Hn].
        -- exists m. rewrite Ep, Hm'. cbn. rewrite Epd, !lookup_insert_eq. do 2 (split; [done|]).
           split; cbn; rewrite length_take, (vec_length _ _ _ _ _ Hb); [by rewrite Nat.min_l by lia|lia].
        -- destruct (Hsnd n Hn) as (m' & A1 & A2 & A3). exists m'. rewrite Ep. cbn. rewrite Epd.
           assert (n <> k) by congruence. by rewrite !lookup_insert_ne by done.
      * intros n p. rewrite Ep. destruct (decide (n = k)) as [->|Hnk].
        -- rewrite lookup_insert_eq. intros [= <-] _. set_solver.
        -- rewrite lookup_insert_ne by done. intros Hp. specialize (Hon n p Hp). destruct p; try done. set_solver.
    + cbn [length] in Hops. lia.
    + intros n [->%elem_of_singleton|Hn]%elem_of_union; [lia|]. specialize (Hws n Hn). lia.
    + exists w4. split; [done|]. split; [done|]. split; [congruence|].
      rewrite size_union, size_singleton by set_solver.
      replace (ws ∪ ({[k]} ∪ ws2)) with ({[k]} ∪ ws ∪ ws2) by set_solver.
      replace (ops - Z.of_nat (S (length cs)) + _) with (ops - Z.of_nat (length cs) + Z.of_nat (base.size ws2)) by lia. done.
Qed.

Lemma base_setop id w sp G op : base (Some id) w sp G -> base (Some id) w (set_ops (<[id := op]> (s_ops sp)) sp) G.
Proof.
  intros []. split; try done. intros i Hi. cbn. rewrite lookup_insert_ne by congruence.
  change (op_rel w sp G i (s_ops sp !! i)). by apply b_ops0.
Qed.

Context (Hconns : Z.of_nat (length conns) = dest_num cfg) (Hpeers : Forall (fun c => c ∈ active) conns).

Lemma scatter_ok w sp G id a rs v pvs b len cl pe l sp1 ws sp' :
  base (Some id) w sp G ->
  open_op w sp G id a rs [v] pvs b len cl pe ∅ (2 * dest_num cfg + 1 - Z.of_nat (length pe))
    (bool_decide (Z.of_nat (length pe) = dest_num cfg)) ->
  Z.of_nat (length cl) = num_clients cfg -> Z.of_nat (length pe) <= dest_num cfg ->
  Forall (fun c => c ∈ active) cl.*1 -> reduction cfg cl.*2 = Ret l ->
  spec_sends E (PSend id) ((fun k => Message k ALLREDUCE_OP_AM_ID id (Some <$> l)) <$> conns) sp = Some (sp1, ws) ->
  spec_check E cfg id (set_ops (<[id := SGather len cl pe ws]> (s_ops sp1)) sp1) = Some sp' ->
  exists w' G', allreduce_scatter E cfg a w = Ret w' /\ base None w' sp' G' /\ (no_hand G -> no_hand G').
Proof.
  intros Hb Hop Hn Hpe Hact Hl Hsnd Hchk. pose proof Hop as (Hg & _ & _).
  destruct (spec_sends_fresh _ _ _ _ _ Hsnd) as (_ & _ & Hsize). rewrite length_fmap in Hsize.
  pose proof (ga_res _ _ _ _ _ _ _ _ _ _ _ _ _ Hg) as (Hcl & l' & El & Hhas).
  rewrite Hl in El. injection El as <-.
  assert (length l = len) as Hll.
  { eapply reduction_length; [|pose proof (ga_len _ _ _ _ _ _ _ _ _ _ _ _ _ Hg) as [Hf _]%Forall_app; exact Hf|done].
    by destruct cl. }
  destruct (scatter_sends_ok id a rs v pvs b len cl pe _ l conns 0 w sp G ∅ _ sp1 ws Hb Hop)
    as (w1 & Eloop & Hb1 & Hops & Hop1); try done; [lia|].
  unfold allreduce_scatter. replace (Z.to_nat (dest_num cfg)) with (length conns) by lia. rewrite Eloop.
  rewrite (left_id_L ∅ (∪)) in Hop1.
  destruct (complete_ok w1 (set_ops (<[id := SGather len cl pe ws]> (s_ops sp1)) sp1) G id a rs [v] pvs b len cl pe ws sp')
    as (w2 & G2 & -> & Hb2 & Hno); try done.
  - by apply base_setop.
  - replace (ops_left cl pe ws + 1)
      with (2 * dest_num cfg + 1 - Z.of_nat (length pe) - Z.of_nat (length conns) + Z.of_nat (base.size ws)).
    2:{ unfold ops_left. rewrite (proj2 (Z.eqb_eq _ _) Hn). lia. }
    exact Hop1.
  - split; [lia|]. split; [lia|]. split; [lia|]. split; [lia|done].
  - cbn. apply lookup_insert_eq.
  - exists w2, G2. done.
Qed.

(** *** A client's vector *)

(** The handler holds the request [r] and the vector [v]. *)
Definition holds_req (r v : Z) (G : ghost) : Prop :=
  owns (gv G) Hand {[v]} /\ owns (gb G) Hand ∅ /\ owns (gr G) Hand {[r]} /\ owns (gs G) Hand ∅.

Lemma client_add w sp G id a rs vs pvs b len cl pe ws ops red r v c x l :
  base (Some id) w sp G -> open_op w sp G id a rs vs pvs b len cl pe ws ops red ->
  holds_req r v G -> has w v x -> length x = len -> ws = ∅ -> Z.of_nat (length cl) + 1 < 2 ^ 64 ->
  reduction cfg (cl ++ [(c, x)]).*2 = Ret l ->
  let s2 := Super (rs ++ [r]) (Z.of_nat (length cl + 1)) ops true (hd 0 vs) (hd 0 pvs)
              (Z.of_nat (pred (length pvs))) b id (Z.of_nat len) in
  let w2 := put_super a s2 (put_request r (Request a id c v (Z.of_nat len)) w) in
  exists w' G' v',
    (let* w := (if hd 0 vs =? 0 then Ret (put_super a (set_result_vector v s2) w2)
                else let* w := allreduce_reduce cfg a v false w2 in allreduce_free_vec_vecs_pool v w) in
     Ret (put_request r (Request a id c 0 (Z.of_nat len)) w)) = Ret w' /\
    base (Some id) w' sp G' /\ no_hand G' /\
    open_op w' sp G' id a (rs ++ [r]) [v'] pvs b len (cl ++ [(c, x)]) pe ∅ ops red.
Proof.
  intros Hb (Hg & Hsnd & Hon) (Hv & Hbh & Hr & Hsh) Hx Hxl -> Hmax Hl s2 w2.
  destruct Hg as [Hh Hs Os Or Ov Ob Hb0 [Hnd1 Hnd2] Hrq Hres Hpvs Hpe Hbuf Hlen Hsz].
  assert (gr G !! r = Some Hand) as Gr by (apply Hr; set_solver).
  assert (gv G !! v = Some Hand) as Gv by (apply Hv; set_solver).
  assert (gs G !! a = Some (ByOp id)) as Ga by (apply Os; set_solver).
  assert (r ∉ rs) as Hrn.
  { intros Hin. assert (gr G !! r = Some (ByOp id)) by (apply Or; by apply elem_of_list_to_set). congruence. }
  assert (v ∉ vs ++ pvs) as Hvn.
  { intros Hin. assert (gv G !! v = Some (ByOp id)) by (apply Ov; by apply elem_of_list_to_set). congruence. }
  set (w1 := put_request r (Request a id c v (Z.of_nat len)) w) in *.
  assert (step_ok (Some id) w G w1 G) as St1 by (eapply step_request; [done|done|apply mine_hand]).
  pose proof (base_kept _ _ _ _ _ _ St1 Hb) as Hb1.
  assert (step_ok (Some id) w1 G w2 G) as St2 by (eapply step_super; [done|done|apply mine_op]).
  pose proof (base_kept _ _ _ _ _ _ St2 Hb1) as Hb2.
  assert (exists w3 G3 v',
    (if hd 0 vs =? 0 then Ret (put_super a (set_result_vector v s2) w2)
     else let* w := allreduce_reduce cfg a v false w2 in allreduce_free_vec_vecs_pool v w) = Ret w3 /\
    base (Some id) w3 sp G3 /\ gr G3 = gr G /\ gb G3 = gb G /\ gs G3 = gs G /\ owns (gv G3) Hand ∅ /\
    owns (gv G3) (ByOp id) (list_to_set ([v'] ++ pvs)) /\ NoDup ([v'] ++ pvs) /\
    smem w3 !! a = Some (set_result_vector v' s2) /\ rmem w3 = rmem w2 /\ bmem w3 = bmem w2 /\
    super_requests_hash w3 = super_requests_hash w2 /\ has w3 v' l /\
    (forall pv, pv ∈ pvs -> vmem w3 !! pv = vmem w !! pv))
    as (w3 & G3 & v' & -> & Hb3 & E1 & E2 & E3 & Ohv & Ov3 & Hnd3 & Hs3 & Erm & Ebm & Ehash & Hl3 & Hvm).
  { destruct vs as [|v0 [|]]; [| |done].
    - subst cl. cbn in Hl. injection Hl as <-. cbn [hd]. rewrite Z.eqb_refl.
      set (w3 := put_super a (set_result_vector v s2) w2).
      assert (step_ok (Some id) w2 G w3 G) as St3 by (eapply step_super; [done|done|apply mine_op]).
      pose proof (base_kept _ _ _ _ _ _ St3 Hb2) as Hb3.
      assert (step_ok (Some id) w3 G w3 (give_v v (ByOp id) G)) as St4
        by (eapply step_move_v; [done|done|apply mine_hand|apply mine_op]).
      exists w3, (give_v v (ByOp id) G), v. split; [done|]. split; [by eapply base_kept|]. do 3 (split; [done|]).
      split. { cbn. replace (∅ : gset Z) with ({[v]} ∖ {[v]} : gset Z) by set_solver. by apply owns_give. }
      split. { cbn. by apply owns_take. }
      split. { constructor; [set_solver|done]. }
      split. { cbn. by rewrite lookup_insert_eq. }
      done.
    - destruct Hres as (Hcl & l0 & Hl0 & Hhas0). cbn [hd].
      assert (gv G !! v0 = Some (ByOp id)) as Gv0 by (apply Ov; set_solver).
      pose proof (vec_pos _ _ _ _ _ _ Hb Gv0). rewrite (proj2 (Z.eqb_neq v0 0)) by lia.
      rewrite fmap_app in Hl. cbn [fmap list_fmap snd] in Hl.
      rewrite reduction_snoc, Hl0 in Hl by by destruct cl.
      assert (length l0 = len) as Hl0l.
      { eapply reduction_length; [|apply Forall_app in Hlen as [Hlen _]; exact Hlen|done]. by destruct cl. }
      destruct (reduce_ok (Some id) _ w2 sp G a s2 false v (ByOp id) l0 x l Hb2) as (m & -> & Hwr & Hhas & St3);
        [cbn; apply lookup_insert_eq|cbn; congruence|exact Gv0|rewrite Gv; eauto|exact Hhas0|exact Hx|congruence|exact Hl|].
      specialize (St3 (mine_op _)). pose proof (base_kept _ _ _ _ _ _ St3 Hb2) as Hb3.
      set (w3 := set_vmem m w2) in *.
      destruct (put_vec (Some id) _ w3 sp G Hb3 v _ Gv (mine_hand _)) as (p & -> & St4).
      exists (set_pools p w3), (drop_v v G), v0. split; [done|]. split; [by eapply base_kept|]. do 3 (split; [done|]).
      split. { cbn. eapply owns_none; [done|set_solver]. }
      split. { cbn. eapply owns_drop_other; [done|done|done]. }
      split; [done|]. split. { cbn. by rewrite lookup_insert_eq. }
      do 3 (split; [done|]). split; [exact Hhas|].
      intros pv Hpv. cbn. apply Hwr. apply NoDup_cons in Hnd2 as [Hnd2 _]. cbn. intros ->. done. }
  set (w4 := put_request r _ w3). set (G4 := give_r r (ByOp id) G3).
  assert (step_ok (Some id) w3 G3 w4 G3) as St5 by (eapply step_request; [done|by rewrite E1|apply mine_hand]).
  pose proof (base_kept _ _ _ _ _ _ St5 Hb3) as Hb4.
  assert (step_ok (Some id) w4 G3 w4 G4) as St6 by (eapply step_move_r; [done|by rewrite E1|apply mine_hand|apply mine_op]).
  exists w4, G4, v'. split; [done|]. split; [by eapply base_kept|]. split.
  { unfold no_hand. cbn. rewrite E1, E2, E3. split; [done|]. split; [done|]. split; [|done].
    replace (∅ : gset Z) with ({[r]} ∖ {[r]} : gset Z) by set_solver. by apply owns_give. }
  split; [|split; [intros n Hn; set_solver|done]]. split; cbn; rewrite ?E1, ?E2, ?E3, ?Erm, ?Ehash; try done.
  - rewrite Hs3. unfold set_result_vector, s2. cbn. by rewrite length_app.
  - replace (list_to_set (rs ++ [r])) with ({[r]} ∪ list_to_set rs : gset Z) by set_solver. by apply owns_take.
  - split; [|done]. apply NoDup_app. split; [done|]. split; [|apply NoDup_singleton]. set_solver.
  - apply Forall2_app.
    + eapply Forall2_impl_in; [done|]. intros r' c' Hr' _ Hrm. cbn. rewrite lookup_insert_ne by (intros ->; done).
      cbn. by rewrite lookup_insert_ne by (intros ->; done).
    + constructor; [|constructor]. cbn. apply lookup_insert_eq.
  - split; [by destruct cl|]. by exists l.
  - assert (forall pv y, pv ∈ pvs -> has w pv y -> has w4 pv y) as Hk.
    { intros pv y Hpv. unfold has, vec. cbn. by rewrite Hvm. }
    destruct red.
    + intros pv Hpv. destruct (Hpe pv Hpv) as (p & ? & ?). exists p. split; [done|]. apply Hk; [|done].
      by apply list_elem_of_lookup_2 in Hpv.
    + eapply Forall2_impl_in; [done|]. auto.
  - unfold buf in *. cbn. by rewrite Ebm.
  - rewrite fmap_app. cbn. apply Forall_app in Hlen as [H1 H2]. apply Forall_app. split; [|done].
    apply Forall_app. split; [done|]. by constructor.
Qed.

Lemma client_data_ok w sp G id r v c x q0 sp' :
  base None w sp G -> holds_req r v G -> rmem w !! r = Some (Request q0 id c v (Z.of_nat (length x))) ->
  has w v x -> spec_client E cfg conns active id c x sp = Some sp' ->
  exists w' e, daemon_am_recv_data_complete_callback E cfg r UCS_OK w = Ret (w', e) /\
    (e = DOCA_ERROR_NO_MEMORY /\ callback_errno (w_ucx w') = DOCA_SUCCESS
     \/ e = DOCA_SUCCESS /\ exists G', base None w' sp' G' /\ no_hand G').
Proof.
  intros Hb Hhold Hr Hx Hsp. unfold spec_client in Hsp.
  destruct (spec_op id (length x) sp) as [[[cl pe] ws]|] eqn:Eop; [|discriminate].
  case_bool_decide as Hcond; [|discriminate]. destruct Hcond as (Hact & Hlen & Hcl).
  destruct (reduction cfg (cl ++ [(c, x)]).*2) as [l|] eqn:El; [|discriminate].
  unfold daemon_am_recv_data_complete_callback. rewrite bool_decide_true by done. cbn [require].
  unfold request_at. rewrite Hr. cbn [of_option rq_vector_size rq_header rq_vector rq_connection].
  rewrite (proj2 (Z.leb_le _ _)) by lia. cbn [require].
  destruct (super_get_ok w sp G id (length x) cl pe ws Hb Eop Hlen) as (w1 & a & -> & Hget).
  destruct Hget as [(-> & G1 & Hb1 & (Ev & Er & Evm & Erm & Eu))|(Ha & G1 & rs & vs & pvs & b & Hb1 & (Ev & Er & Evm & Erm & Eu) & Hcnt & Kb & Ks & Hop)].
  - (* no memory for a super-request *)
    cbn [Z.eqb]. destruct Hhold as (Hv & _ & Hrr & _).
    assert (gv G1 !! v = Some Hand) as Gv by (rewrite Ev; apply Hv; set_solver).
    assert (gr G1 !! r = Some Hand) as Gr by (rewrite Er; apply Hrr; set_solver).
    unfold allreduce_request_destroy, request_at. rewrite Erm, Hr. cbn [of_option rq_vector].
    pose proof (vec_pos _ _ _ _ _ _ Hb1 Gv). rewrite (proj2 (Z.eqb_neq v 0)) by lia.
    destruct (put_vec None _ w1 sp G1 Hb1 v _ Gv (mine_hand _)) as (p & -> & St).
    pose proof (base_kept _ _ _ _ _ _ St Hb1) as Hb2.
    destruct (put_req None _ _ sp (drop_v v G1) Hb2 r _ Gr (mine_hand _)) as (p2 & -> & St2).
    pose proof (base_kept _ _ _ _ _ _ St2 Hb2) as Hb3.
    eexists _, _. split; [done|]. left. split; [done|]. apply (b_ucx _ _ _ _ Hb3).
  - rewrite (proj2 (Z.eqb_neq a 0)) by lia. pose proof Hop as (Hg & _ & _).
    unfold super_at. rewrite (ga_super _ _ _ _ _ _ _ _ _ _ _ _ _ Hg).
    destruct Hcnt as (Hc1 & Hc2 & Hc3 & Hc4 & Hc5). pose proof (Hc3 Hcl) as ->.
    cbn [of_option requests_list num_allreduce_requests set_requests_list set_num_requests result_vector].
    rewrite (uwrap_id 64) by (split; lia).
    replace (Z.of_nat (length cl) + 1) with (Z.of_nat (length cl + 1)) by lia.
    assert (holds_req r v G1) as Hhold1.
    { destruct Hhold as (H1 & H2 & H3 & H4). unfold holds_req. rewrite Ev, Er. auto. }
    assert (has w1 v x) as Hx1 by (unfold has, vec; by rewrite Evm).
    destruct (client_add w1 sp G1 id a rs vs pvs b (length x) cl pe ∅ _ _ r v c x l Hb1 Hop Hhold1 Hx1 eq_refl eq_refl ltac:(lia) El)
      as (w2 & G2 & v' & Eadd & Hb2 & Hno2 & Hop2).
    
    match type of Eadd with (match ?p with _ => _ end) = _ =>
      destruct p as [w15|] eqn:E15; [|discriminate Eadd];
      match goal with |- context [match ?p2 with Ret _ => _ | Undef _ => _ end] => change p2 with p end
    end.
    rewrite E15. injection Eadd as ->.
    change (num_allreduce_requests _) with (Z.of_nat (length cl + 1)).
    rewrite length_app in Hsp. cbn [length] in Hsp.
    assert (Forall (fun c => c ∈ active) (cl ++ [(c, x)]).*1) as Hact2.
    { rewrite fmap_app. apply Forall_app. split; [done|]. by constructor. }
    assert (ops_left cl pe ∅ = 2 * dest_num cfg + 1 - Z.of_nat (length pe)) as Eol.
    { unfold ops_left. rewrite (proj2 (Z.eqb_neq _ _)) by lia. lia. }
    destruct (Z.of_nat (length cl + 1) =? num_clients cfg) eqn:En.
    + apply Z.eqb_eq in En. rewrite (bool_decide_true _ En) in Hsp.
      destruct (spec_sends E (PSend id) _ sp) as [[sp1 ws1]|] eqn:Esnd; [|discriminate].
      rewrite Eol in Hop2.
      destruct (scatter_ok w2 sp G2 id a (rs ++ [r]) v' pvs b (length x) (cl ++ [(c, x)]) pe l sp1 ws1 sp' Hb2 Hop2)
        as (w3 & G3 & -> & Hb3 & Hno3); try done; [rewrite length_app; cbn; lia|].
      exists w3, DOCA_SUCCESS. split; [done|]. right. split; [done|]. exists G3. auto.
    + apply Z.eqb_neq in En. rewrite (bool_decide_false _ En) in Hsp. injection Hsp as <-.
      exists w2, DOCA_SUCCESS. split; [done|]. right. split; [done|]. exists G2. split; [|done].
      eapply base_close; [done| |intros i Hi; by rewrite lookup_insert_ne]. rewrite lookup_insert_eq. cbn [op_rel].
      destruct Hop2 as (Hg2 & Hs2 & Ho2). split.
      { exists a, (rs ++ [r]), [v'], pvs, b. split; [|done].
        assert (ops_left (cl ++ [(c, x)]) pe ∅ = ops_left cl pe ∅) as ->; [|done].
        rewrite Eol. unfold ops_left. rewrite length_app. cbn [length]. rewrite (proj2 (Z.eqb_neq _ _)) by lia. lia. }
      split; [done|]. split.
      { unfold op_counts. rewrite length_app. cbn [length]. split; [lia|]. split; [lia|]. split; [done|]. split; [done|done]. }
      rewrite length_app. cbn [length]. intros (? & _). lia.
Qed.

(** *** A peer's vector *)

Lemma sends_same w w' sp id a v ws :
  w_ucx w' = w_ucx w -> vmem w' !! v = vmem w !! v -> sends_ok w sp id a v ws -> sends_ok w' sp id a v ws.
Proof.
  intros Eu Ev H n Hn. destruct (H n Hn) as (m & ? & ? & Hi). exists m. rewrite Eu. do 2 (split; [done|]).
  unfold intact, vec in *. by rewrite Ev.
Qed.

Lemma wrote_hd X w sp G v o vs m :
  base X w sp G -> gv G !! v = Some o -> v ∉ vs -> wrote v w m -> m !! hd 0 vs = vmem w !! hd 0 vs.
Proof.
  intros Hb Gv Hn Hw. pose proof (vec_pos _ _ _ _ _ _ Hb Gv). apply Hw. destruct vs; cbn; [lia|]. intros ->. set_solver.
Qed.

(** The vector [v] of a peer: the first becomes the peers' result, the others are kept in
    the array of receive vectors. *)
Lemma peer_add w sp G id a rs vs pvs b len cl pe ws ops v x :
  base (Some id) w sp G -> open_op w sp G id a rs vs pvs b len cl pe ws ops false ->
  holds ∅ (drop_v v G) -> gv G !! v = Some Hand -> length x = len -> Z.of_nat (length pe) < dest_num cfg ->
  let s := Super rs (Z.of_nat (length cl)) ops true (hd 0 vs) (hd 0 pvs) (Z.of_nat (pred (length pvs))) b id (Z.of_nat len) in
  exists w1 w2 G',
    (if peer_result_vector s =? 0 then Ret (put_super a (set_peer_result_vector v s) w)
     else
       let* w := put_pointer cfg (recv_vectors s) (recv_vector_iter s) v w in
       Ret (put_super a (set_recv_vector_iter (u64 (recv_vector_iter s + 1)) s) w)) = Ret w1 /\
    copy_to cfg v (Some <$> x) w1 = Ret w2 /\ base (Some id) w2 sp G' /\ no_hand G' /\
    open_op w2 sp G' id a rs vs (pvs ++ [v]) b len cl (pe ++ [x]) ws ops false.
Proof.
  intros Hb (Hg & Hsnd & Hon) Hhold Gv Hxl Hlt s.
  destruct Hg as [Hh Hs Os Or Ov Ob Hb0 [Hnd1 Hnd2] Hrq Hres Hpvs Hpe Hbuf Hlen Hsz].
  assert (gs G !! a = Some (ByOp id)) as Ga by (apply Os; set_solver).
  assert (v ∉ vs ++ pvs) as Hvn.
  { intros Hin. assert (gv G !! v = Some (ByOp id)) by (apply Ov; by apply elem_of_list_to_set). congruence. }
  assert (exists w1,
    (if peer_result_vector s =? 0 then Ret (put_super a (set_peer_result_vector v s) w)
     else
       let* w := put_pointer cfg (recv_vectors s) (recv_vector_iter s) v w in
       Ret (put_super a (set_recv_vector_iter (u64 (recv_vector_iter s + 1)) s) w)) = Ret w1 /\
    base (Some id) w1 sp G /\ vmem w1 = vmem w /\ rmem w1 = rmem w /\ w_ucx w1 = w_ucx w /\
    super_requests_hash w1 = super_requests_hash w /\
    smem w1 !! a = Some (Super rs (Z.of_nat (length cl)) ops true (hd 0 vs) (hd 0 (pvs ++ [v]))
                           (Z.of_nat (pred (length (pvs ++ [v])))) b id (Z.of_nat len)) /\
    (1 < dest_num cfg -> forall i pv, (pvs ++ [v]) !! S i = Some pv -> buf w1 b !! i = Some (Some pv)))
    as (w1 & -> & Hb1 & Evm & Erm & Eu & Eh & Hs1 & Hbuf1).
  { destruct pvs as [|pv pvs]; cbn [hd peer_result_vector s].
    - rewrite Z.eqb_refl. eexists. split; [done|]. split.
      { eapply base_kept; [|done]. eapply step_super; [done|done|apply mine_op]. }
      do 4 (split; [done|]). split; [cbn; by rewrite lookup_insert_eq|]. intros _ [|i] pv; done.
    - assert (1 < dest_num cfg) as Hd by (cbn [length] in Hpvs; lia).
      assert (gb G !! b = Some (ByOp id)) as Gb.
      { rewrite (proj2 (Z.leb_gt _ _)) in Ob by lia. apply Ob. set_solver. }
      pose proof (vec_pos _ _ _ _ pv (ByOp id) Hb ltac:(apply Ov; set_solver)).
      pose proof (buf_pos _ _ _ _ _ _ Hb Hd Gb).
      rewrite (proj2 (Z.eqb_neq pv 0)) by lia. cbn [recv_vectors recv_vector_iter length pred s].
      unfold put_pointer, array_at. rewrite (proj2 (Z.eqb_neq b 0)) by lia. fold (buf w b).
      assert (length (buf w b) = Z.to_nat (dest_num cfg)) as Hbl.
      { unfold buf. destruct (bmem w !! b) eqn:Eb; cbn; [by apply (b_bmem _ _ _ _ Hb b)|by rewrite length_replicate]. }
      rewrite Nat2Z.id. rewrite (proj2 (Nat.ltb_lt _ _)) by (rewrite Hbl; cbn [length] in Hpvs; lia). cbn [require].
      set (wb := set_bmem _ w).
      assert (base (Some id) wb sp G) as Hbb.
      { eapply base_kept; [|done]. eapply step_bmem; [done|done|apply mine_op|]. by rewrite length_insert. }
      eexists. split; [done|]. split.
      { eapply base_kept; [|exact Hbb]. eapply step_super; [done|done|apply mine_op]. }
      do 4 (split; [done|]). split.
      { cbn. rewrite lookup_insert_eq. unfold set_recv_vector_iter, s. cbn. rewrite length_app. cbn.
        rewrite (uwrap_id 64) by (cbn [length] in Hpvs; split; lia). do 2 f_equal. lia. }
      intros _ i pv' Hi. change ((pvs ++ [v]) !! i = Some pv') in Hi. unfold buf. cbn. rewrite lookup_insert_eq. cbn. fold (buf w b).
      destruct (decide (i = length pvs)) as [->|Hne].
      + rewrite lookup_app_r, Nat.sub_diag in Hi by lia. injection Hi as ->.
        apply list_lookup_insert_eq. rewrite Hbl. cbn [length] in Hpvs. lia.
      + rewrite list_lookup_insert_ne by done. apply (Hbuf Hd).
        pose proof (lookup_lt_Some _ _ _ Hi) as Hlt2. rewrite length_app in Hlt2. cbn in Hlt2.
        rewrite lookup_app_l in Hi by lia. exact Hi. }
  destruct (copy_ok (Some id) _ w1 sp G v Hand x Hb1 Gv ltac:(lia)) as (m & Ecp & Hwr & Hhas & St).
  specialize (St (mine_hand _)). pose proof (base_kept _ _ _ _ _ _ St Hb1) as Hb2. set (w2 := set_vmem m w1) in *.
  exists w1, w2, (give_v v (ByOp id) G). split; [done|]. split; [done|].
  split. { eapply base_kept; [|exact Hb2]. eapply step_move_v; [done|done|apply mine_hand|apply mine_op]. }
  split.
  { destruct Hhold as (H1 & H2 & H3 & H4). split; [|done]. intros k. rewrite <-(H1 k). cbn.
    destruct (decide (k = v)) as [->|]; [by rewrite lookup_insert_eq, lookup_delete_eq|].
    by rewrite lookup_insert_ne, lookup_delete_ne. }
  assert (forall u, u ∈ vs ++ pvs -> vmem w2 !! u = vmem w !! u) as Hvm.
  { intros u Hu. cbn. rewrite (Hwr u), Evm; [done|]. intros ->. done. }
  assert (forall u y, u ∈ vs ++ pvs -> has w u y -> has w2 u y) as Hk.
  { intros u y Hu. unfold has, vec. by rewrite (Hvm u Hu). }
  split.
  - split; try done; cbn [gv gb gr gs give_v].
    + cbn. by rewrite Eh.
    + rewrite app_assoc. replace (list_to_set ((vs ++ pvs) ++ [v])) with ({[v]} ∪ list_to_set (vs ++ pvs) : gset Z) by set_solver.
      by apply owns_take.
    + split; [done|]. rewrite app_assoc. apply NoDup_app. split; [done|]. split; [|apply NoDup_singleton]. set_solver.
    + cbn. by rewrite Erm.
    + destruct vs as [|v0 [|]]; try done. destruct Hres as (? & l & ? & ?). split; [done|]. exists l. split; [done|].
      apply Hk; set_solver.
    + rewrite !length_app. cbn. lia.
    + apply Forall2_app; [|by constructor]. eapply Forall2_impl_in; [done|]. intros u y Hu _. apply Hk. set_solver.
    + apply Forall_app in Hlen as [H1 H2]. apply Forall_app. split; [done|]. apply Forall_app. split; [done|]. by constructor.
  - split; [|done]. eapply sends_same; [| |done]; [done|]. cbn.
    rewrite (wrote_hd _ _ _ _ _ _ vs m Hb1 Gv); [by rewrite Evm| |done]. set_solver.
Qed.

(** The peers' vectors are reduced into the first of them. *)
Lemma reduce_vectors_ok X Y sp G a s o qs : forall ys w acc p,
  base Y w sp G -> smem w !! a = Some s -> result_vector_size s = Z.of_nat (length acc) ->
  gv G !! peer_result_vector s = Some o -> mine X o -> peer_result_vector s ∉ qs ->
  (forall q, q ∈ qs -> is_Some (gv G !! q)) -> has w (peer_result_vector s) acc -> Forall2 (has w) qs ys ->
  Forall (fun y => length y = length acc) ys -> fold_vec cfg acc ys = Ret p ->
  (forall w1 w2, step_ok X w1 G w2 G -> base Y w1 sp G -> base Y w2 sp G) ->
  exists m, reduce_vectors cfg a qs true w = Ret (set_vmem m w) /\ wrote (peer_result_vector s) w m /\
    has (set_vmem m w) (peer_result_vector s) p /\ base Y (set_vmem m w) sp G.
Proof.
  induction qs as [|q qs IH]; intros ys w acc p Hb Hs Hsz Gp Ho Hn Hq Hacc Hys Hlen Hf HXY.
  - apply Forall2_nil_inv_l in Hys as ->. injection Hf as <-. exists (vmem w). rewrite set_vmem_id. done.
  - apply Forall2_cons_inv_l in Hys as (y & ys' & Hy & Hys & ->). apply Forall_cons in Hlen as [Hly Hlen].
    cbn in Hf. destruct (vreduce cfg acc y) as [acc2|] eqn:Ev; [|discriminate].
    pose proof (vreduce_length _ _ _ _ Hly Ev) as Hl2. apply not_elem_of_cons in Hn as [Hn1 Hn2].
    destruct (reduce_ok X Y w sp G a s true q o acc y acc2 Hb Hs Hsz) as (m & Er & Hwr & Hhas & St); try done.
    { apply Hq. left. }
    cbn [reduce_vectors]. rewrite Er. specialize (St Ho). pose proof (HXY _ _ St Hb) as Hb1.
    destruct (IH ys' (set_vmem m w) acc2 p Hb1) as (m2 & -> & Hwr2 & Hhas2 & Hb2); try done.
    + by rewrite Hl2.
    + intros q' Hq'. apply Hq. by right.
    + eapply Forall2_impl_in; [done|]. intros q' y' Hq' _ H. eapply has_wrote; [done|intros ->; done|done].
    + by rewrite Hl2.
    + exists m2. split; [done|]. split; [|done]. intros u Hu. rewrite (Hwr2 u Hu). cbn. by apply Hwr.
Qed.

(** With the vectors of all peers there, they are reduced. *)
Lemma peers_reduced w sp G id a rs vs pvs b len cl pe ws ops p :
  base (Some id) w sp G -> open_op w sp G id a rs vs pvs b len cl pe ws ops false ->
  pe <> [] -> Z.of_nat (length pe) <= dest_num cfg -> reduction cfg pe = Ret p ->
  let iter := Z.of_nat (pred (length pvs)) in
  exists w',
    (if (u64 (iter + 1) =? dest_num cfg) && (0 <? iter) then allreduce_reduce_all cfg a true w else Ret w) = Ret w' /\
    base (Some id) w' sp G /\
    open_op w' sp G id a rs vs pvs b len cl pe ws ops (bool_decide (Z.of_nat (length pe) = dest_num cfg)).
Proof.
  intros Hb Hop Hne Hle Hp iter. pose proof Hop as (Hg & Hsnd & Hon).
  pose proof (ga_pvs _ _ _ _ _ _ _ _ _ _ _ _ _ Hg) as Hl.
  pose proof (pointers_ok _ _ _ _ _ _ _ _ _ _ _ _ _ _ _ Hb Hg Hle) as Hptr.
  pose proof Hg as [Hh Hs Os Or Ov Ob Hb0 [Hnd1 Hnd2] Hrq Hres _ Hpe Hbuf Hlen Hsz].
  destruct pe as [|x pe]; [done|]. destruct pvs as [|pv pvs]; [done|]. cbn [length pred] in *.
  rewrite (uwrap_id 64) by (split; lia). unfold iter.
  destruct (Z.of_nat (length pvs) + 1 =? dest_num cfg) eqn:Ed; cbn [andb].
  2:{ exists w. rewrite bool_decide_false by lia. done. }
  rewrite bool_decide_true by lia. apply Forall2_cons in Hpe as [Hx Hpe].
  destruct (0 <? Z.of_nat (length pvs)) eqn:Epos.
  - unfold allreduce_reduce_all, super_at. rewrite Hs. cbn [of_option recv_vector_iter recv_vectors].
    rewrite Hptr. cbn [tail]. apply Forall_app in Hlen as [Hlcl Hlpe]. apply Forall_cons in Hlpe as [Hlx Hlpe].
    apply NoDup_app in Hnd2 as (Hndv & Hdis & [Hnpv Hndp]%NoDup_cons).
    assert (forall u, u ∈ vs ++ pv :: pvs -> gv G !! u = Some (ByOp id)) as Gv.
    { intros u Hu. apply Ov. by apply elem_of_list_to_set. }
    destruct (reduce_vectors_ok (Some id) (Some id) sp G a _ (ByOp id) pvs pe w x p Hb Hs)
      as (m & -> & Hwr & Hhas & Hb1); cbn [result_vector_size peer_result_vector hd]; try done.
    + congruence.
    + apply Gv. set_solver.
    + apply mine_op.
    + intros q Hq. rewrite Gv by set_solver. eauto.
    + by rewrite Hlx.
    + intros. by eapply base_kept.
    + cbn [peer_result_vector hd] in *. exists (set_vmem m w). split; [done|]. split; [done|].
      assert (forall u, u ∈ vs -> m !! u = vmem w !! u) as Hvm.
      { intros u Hu. apply Hwr. intros ->. apply (Hdis pv Hu). left. }
      split; [|split; [|done]].
      * destruct Hg. split; try done.
        -- destruct vs as [|v0 [|]]; try done. destruct Hres as (? & l & ? & ?). split; [done|]. exists l. split; [done|].
           unfold has, vec in *. cbn. rewrite Hvm by set_solver. done.
        -- intros u [= <-]. exists p. done.
      * eapply sends_same; [| |done]; [done|]. cbn.
        apply (wrote_hd _ _ _ _ _ _ vs m Hb (Gv pv ltac:(set_solver))); [|done].
        intros Hin. apply (Hdis pv Hin). left.
  - exists w. split; [done|]. split; [done|]. split; [|done].
    assert (length pvs = 0%nat) as H0 by lia. apply nil_length_inv in H0 as ->.
    apply Forall2_nil_inv_l in Hpe as ->. destruct Hg. split; try done. intros u [= <-]. exists p. cbn in Hp. split; [done|].
    by injection Hp as ->.
Qed.

Lemma mapM_id (l : list (option Z)) x : mapM id l = Some x -> l = Some <$> x.
Proof.
  intros H. apply mapM_Some in H. induction H as [|y o x l Hy _ IH]; cbn; [done|]. cbn in Hy. by subst.
Qed.

(** A handler's answer: out of memory, or the specification's next state. *)
Definition answer (o : outcome (world * doca_error_t)) (sp : spec) : Prop :=
  exists w e, o = Ret (w, e) /\
    (DOCA_ERROR_PROPAGATE (callback_errno (w_ucx w)) e = DOCA_ERROR_NO_MEMORY \/ e = DOCA_SUCCESS /\ related w sp).
Definition answered (o : outcome world) (sp : spec) : Prop :=
  exists w, o = Ret w /\ (callback_errno (w_ucx w) = DOCA_ERROR_NO_MEMORY \/ related w sp).

Lemma answer_invoke o sp : answer o sp -> answered (INVOKE_CALLBACK o) sp.
Proof.
  intros (w & e & -> & H). eexists. split; [done|]. destruct H as [H|[-> H]]; [by left|right].
  destruct H as (G & Hb & Hno). pose proof (b_ucx _ _ _ _ Hb) as (_ & _ & He & _).
  exists G. split; [|done].
  replace (DOCA_ERROR_PROPAGATE (callback_errno (w_ucx w)) DOCA_SUCCESS) with (callback_errno (w_ucx w)) by (by rewrite He).
  by destruct w as [? ? ? ? ? ? ? [] ? ? ?].
Qed.

Lemma answered_ret o sp : answered o sp -> answer (let* w := o in Ret (w, DOCA_SUCCESS)) sp.
Proof.
  intros (w & -> & H). exists w, DOCA_SUCCESS. split; [done|]. destruct H as [->|H]; [by left|by right].
Qed.

Lemma no_memory X w sp sp' G : base X w sp G -> answer (Ret (w, DOCA_ERROR_NO_MEMORY)) sp'.
Proof. intros Hb. eexists _, _. split; [done|]. left. by rewrite (proj1 (proj2 (proj2 (b_ucx _ _ _ _ Hb)))). Qed.

Lemma gather_ok w sp d x sp' :
  related w sp -> mapM id (d_data d) = Some x -> d_rndv d = false ->
  spec_peer E cfg (d_header d) x sp = Some sp' -> answer (allreduce_gather_callback E cfg d w) sp'.
Proof.
  intros (G & Hb & Hno) Hx Hrn Hsp. apply mapM_id in Hx. unfold spec_peer in Hsp.
  set (id := d_header d) in *.
  destruct (spec_op id (length x) sp) as [[[cl pe] ws]|] eqn:Eop; [|discriminate].
  case_bool_decide as Hc; [|discriminate]. destruct Hc as [Hlen Hpe].
  destruct (reduction cfg (pe ++ [x])) as [p|] eqn:Ep; [|discriminate].
  unfold allreduce_gather_callback, d_length. rewrite Hx, length_fmap. fold id.
  destruct (super_get_ok w sp G id (length x) cl pe ws Hb Eop Hlen) as (w1 & a & -> & Hget).
  destruct Hno as (N1 & N2 & N3 & N4).
  destruct Hget as [(-> & G1 & Hb1 & _)|(Ha & G1 & rs & vs & pvs & b & Hb1 & (Ev & Er & Evm & Erm & Eu) & Hcnt & Kb & Ks & Hop)].
  { by eapply no_memory. }
  rewrite (proj2 (Z.eqb_neq a 0)) by lia.
  destruct (get_vec (Some id) _ w1 sp G1 Hb1) as (p1 & [v|e] & -> & Hv).
  2:{ destruct Hv as [_ St]. eapply no_memory. by eapply base_kept. }
  destruct Hv as (Hv & Hvpos & St). pose proof (base_kept _ _ _ _ _ _ St Hb1) as Hb2. set (w2 := set_pools p1 w1) in *.
  assert (gv G1 !! v = None) as Gv by by apply not_elem_of_dom.
  rewrite (bool_decide_false (_ = _)) in Hop by lia.
  assert (open_op w2 sp (give_v v Hand G1) id a rs vs pvs b (length x) cl pe ws (ops_left cl pe ws) false) as Hop2.
  { destruct Hop as ([] & ? & ?). split; [|done]. split; try done. cbn. by apply owns_give_new. }
  pose proof Hop2 as (Hg2 & _ & _). unfold super_at. rewrite (ga_super _ _ _ _ _ _ _ _ _ _ _ _ _ Hg2).
  cbn [of_option]. destruct Hcnt as (Hc1 & Hc2 & Hc3 & Hc4 & Hc5).
  pose proof (ga_pvs _ _ _ _ _ _ _ _ _ _ _ _ _ Hg2) as Hpl.
  change (recv_vector_iter _ <? dest_num cfg) with (Z.of_nat (pred (length pvs)) <? dest_num cfg).
  rewrite (proj2 (Z.ltb_lt _ _)) by lia. cbn [require].
  destruct (peer_add w2 sp (give_v v Hand G1) id a rs vs pvs b (length x) cl pe ws (ops_left cl pe ws) v x Hb2 Hop2)
    as (w3 & w4 & G4 & E3 & E4 & Hb4 & Hno4 & Hop4); try done.
  { unfold holds, drop_v. cbn. rewrite delete_insert_id by done. rewrite Ev, Er. auto. }
  { cbn. apply lookup_insert_eq. }
  cbn zeta in E3. rewrite E3. unfold allreduce_ucx_am_recv. rewrite Hrn, Hx. unfold request_process, transfer_done.
  rewrite E4. unfold _allreduce_gather_callback. rewrite bool_decide_false by naive_solver.
  pose proof Hop4 as (Hg4 & _ & _). unfold super_at. rewrite (ga_super _ _ _ _ _ _ _ _ _ _ _ _ _ Hg4).
  cbn [of_option recv_vector_iter].
  destruct (peers_reduced w4 sp G4 id a rs vs (pvs ++ [v]) b (length x) cl (pe ++ [x]) ws (ops_left cl pe ws) p Hb4 Hop4)
    as (w5 & -> & Hb5 & Hop5); try done; [by destruct pe|rewrite length_app; cbn; lia|].
  destruct (complete_ok w5 (set_ops (<[id := SGather (length x) cl (pe ++ [x]) ws]> (s_ops sp)) sp) G4 id a rs vs
              (pvs ++ [v]) b (length x) cl (pe ++ [x]) ws sp') as (w6 & G6 & -> & Hb6 & Hno6); try done.
  - by apply base_setop.
  - replace (ops_left cl (pe ++ [x]) ws + 1) with (ops_left cl pe ws); [exact Hop5|].
    unfold ops_left. rewrite length_app. cbn [length]. lia.
  - unfold op_counts. rewrite length_app. cbn [length]. split; [lia|]. split; [lia|]. done.
  - cbn. apply lookup_insert_eq.
  - eexists w6, _. split.
    { rewrite (invoke_ok _ w6); [done|done|apply (b_ucx _ _ _ _ Hb6)]. }
    right. split; [done|]. exists G6. auto.
Qed.

(** *** A client's message *)

Lemma request_allocate_ok w sp G c id len :
  base None w sp G -> no_hand G ->
  exists w' r, allreduce_request_allocate E c id len w = Ret (w', r) /\
    exists G', base None w' sp G' /\
      (r = 0 \/ 0 < r /\ exists v, holds_req r v G' /\ rmem w' !! r = Some (Request 0 id c v len)).
Proof.
  intros Hb (N1 & N2 & N3 & N4). unfold allreduce_request_allocate.
  destruct (get_req None _ w sp G Hb) as (p1 & [r|e] & -> & Hr).
  2:{ destruct Hr as [_ St]. eexists _, 0. split; [done|]. exists G. split; [by eapply base_kept|by left]. }
  destruct Hr as (Hr & Hrpos & St). pose proof (base_kept _ _ _ _ _ _ St Hb) as Hb1. set (w1 := set_pools p1 w) in *.
  assert (gr G !! r = None) as Gr by by apply not_elem_of_dom.
  destruct (get_vec None _ w1 sp _ Hb1) as (p2 & [v|e] & -> & Hv).
  - destruct Hv as (Hv & Hvpos & St2). pose proof (base_kept _ _ _ _ _ _ St2 Hb1) as Hb2. set (w2 := set_pools p2 w1) in *.
    eexists _, r. split; [done|]. eexists. split.
    { eapply base_kept; [|exact Hb2]. eapply step_request; [done|cbn; apply lookup_insert_eq|apply mine_hand]. }
    right. split; [done|]. exists v. split; [|cbn; apply lookup_insert_eq].
    split; [|split; [done|split; [|done]]]; cbn.
    + replace {[v]} with ({[v]} ∪ ∅ : gset Z) by set_solver. by apply owns_take.
    + replace {[r]} with ({[r]} ∪ ∅ : gset Z) by set_solver. by apply owns_take.
  - destruct Hv as [_ St2]. pose proof (base_kept _ _ _ _ _ _ St2 Hb1) as Hb2.
    destruct (put_req None _ (set_pools p2 w1) sp _ Hb2 r Hand) as (p3 & -> & St3); [cbn; apply lookup_insert_eq|apply mine_hand|].
    eexists _, 0. split; [done|]. eexists. split; [by eapply base_kept|]. by left.
Qed.

(** The receive of a client's vector is complete. *)
Lemma received_ok w sp G id r v c x sp' :
  base None w sp G -> holds_req r v G -> rmem w !! r = Some (Request 0 id c v (Z.of_nat (length x))) ->
  spec_client E cfg conns active id c x sp = Some sp' ->
  answered (let* w := copy_to cfg v (Some <$> x) w in
            INVOKE_CALLBACK (daemon_am_recv_data_complete_callback E cfg r UCS_OK w)) sp'.
Proof.
  intros Hb Hhold Hr Hsp. assert (gv G !! v = Some Hand) as Gv by (apply Hhold; set_solver).
  assert (Z.of_nat (length x) <= vector_size cfg) as Hlen.
  { unfold spec_client in Hsp. destruct (spec_op _ _ _) as [[[? ?] ?]|]; [|discriminate].
    case_bool_decide as Hc; [|discriminate]. apply Hc. }
  destruct (copy_ok None _ w sp G v Hand x Hb Gv Hlen) as (m & -> & _ & Hhas & St).
  specialize (St (mine_hand _)). pose proof (base_kept _ _ _ _ _ _ St Hb) as Hb1.
  apply answer_invoke.
  destruct (client_data_ok (set_vmem m w) sp G id r v c x 0 sp' Hb1 Hhold Hr Hhas Hsp) as (w2 & e & -> & H).
  exists w2, e. split; [done|]. destruct H as [(-> & He)|(-> & G2 & ? & ?)]; [left; by rewrite He|].
  right. split; [done|]. by exists G2.
Qed.

Lemma no_entry X w sp G n : base X w sp G -> s_calls sp < n ->
  s_pend sp !! n = None /\ pending (w_ucx w) !! n = None /\
  (forall i, gv G !! i <> Some (ByPend n)) /\ (forall i, gr G !! i <> Some (ByPend n)).
Proof.
  intros Hb Hn. assert (s_pend sp !! n = None) as Hp.
  { destruct (s_pend sp !! n) eqn:Ep; [|done]. apply (b_fresh _ _ _ _ Hb) in Ep. lia. }
  split; [done|]. split; [by apply (b_dom _ _ _ _ Hb)|].
  split; intros i Hi; apply (b_owner _ _ _ _ Hb n i) in Hi; by rewrite Hp in Hi.
Qed.

Lemma base_call X w sp G : base X w sp G ->
  base X (count_call w) (Spec (s_ops sp) (s_pend sp) (s_calls sp + 1) (s_sent sp)) G.
Proof.
  intros Hb. pose proof (b_ucx _ _ _ _ Hb) as (Uc & Us & Ue & Ua & Uk).
  destruct (no_entry _ _ _ _ (s_calls sp + 1) Hb ltac:(lia)) as (P1 & P2 & P3 & P4).
  eapply (base_pend X (s_calls sp + 1)); cbn; try done; try apply moved_refl; try congruence; try lia.
Qed.

Lemma ctrl_ok w sp d x sp' :
  related w sp -> mapM id (d_data d) = Some x ->
  spec_event E cfg conns active (Arrive ALLREDUCE_CTRL_AM_ID d) sp = Some sp' ->
  answer (daemon_am_recv_ctrl_callback E cfg d w) sp'.
Proof.
  intros (G & Hb & Hno) Hx Hsp. cbn in Hsp. rewrite Hx in Hsp. apply mapM_id in Hx.
  unfold daemon_am_recv_ctrl_callback, d_length. rewrite Hx, length_fmap.
  destruct (request_allocate_ok w sp G (d_connection d) (d_header d) (Z.of_nat (length x)) Hb Hno)
    as (w1 & r & -> & G1 & Hb1 & Hr).
  destruct Hr as [->|(Hrpos & v & Hhold & Hr)]; [by eapply no_memory|].
  rewrite (proj2 (Z.eqb_neq r 0)) by lia. unfold request_at. rewrite Hr. cbn [of_option rq_vector].
  unfold allreduce_ucx_am_recv. rewrite Hx.
  pose proof (b_ucx _ _ _ _ Hb1) as (Uc & Us & Ue & Ua & Uk). rewrite Uc.
  destruct (d_rndv d); [destruct (ucp E (s_calls sp)) as [|[]|[]|] eqn:Eans|]; try discriminate Hsp; cbn [request_process].
  - pose proof (base_call _ _ _ _ Hb1) as Hb2.
    pose proof (received_ok (count_call w1) _ G1 _ r v _ x sp' Hb2 Hhold Hr Hsp) as Ha%answered_ret.
    cbn [transfer_done]. destruct (copy_to _ _ _ _); exact Ha.
  - pose proof (base_call _ _ _ _ Hb1) as Hb2.
    pose proof (received_ok (count_call w1) _ G1 _ r v _ x sp' Hb2 Hhold Hr Hsp) as Ha%answered_ret.
    unfold transfer_status. rewrite !bool_decide_true by done. cbn [transfer_done]. destruct (copy_to _ _ _ _); exact Ha.
  - injection Hsp as <-. eexists _, _. split; [done|]. right. split; [done|].
    set (n := s_calls sp + 1) in *.
    destruct (no_entry _ _ _ _ n Hb1 ltac:(lia)) as (P1 & P2 & P3 & P4).
    destruct Hhold as (H1 & H2 & H3 & H4).
    assert (gv G1 !! v = Some Hand) as Gv by (apply H1; set_solver).
    assert (gr G1 !! r = Some Hand) as Gr by (apply H3; set_solver).
    exists (Ghost (<[v := ByPend n]> (gv G1)) (gb G1) (<[r := ByPend n]> (gr G1)) (gs G1)). split.
    + assert (owns (<[v := ByPend n]> (gv G1)) (ByPend n) {[v]} /\ owns (<[r := ByPend n]> (gr G1)) (ByPend n) {[r]}) as [O1 O2].
      { split; (eapply owns_take_only; done). }
      eapply (base_pend None n w1 sp G1); try exact Hb1; cbn; rewrite ?Uc; fold n; try done.
      * eapply moved_give; [exact Gv|left; apply mine_hand|by right].
      * eapply moved_give; [exact Gr|left; apply mine_hand|by right].
      * intros i Hi. rewrite !lookup_insert_ne by done. done.
      * intros q Hq. congruence.
      * intros q. rewrite lookup_insert_eq. intros [= <-]. right. eexists _, _, _. split; [done|].
        exists r, v. cbn. rewrite lookup_insert_eq. done.
      * by rewrite lookup_insert_eq.
      * intros i _. by rewrite lookup_insert_eq.
      * intros i _. by rewrite lookup_insert_eq.
      * lia.
    + split; [|split; [done|split; [|done]]]; cbn.
      * replace (∅ : gset Z) with ({[v]} ∖ {[v]} : gset Z) by set_solver. by apply owns_give.
      * replace (∅ : gset Z) with ({[r]} ∖ {[r]} : gset Z) by set_solver. by apply owns_give.
  - pose proof (received_ok w1 sp G1 _ r v _ x sp' Hb1 Hhold Hr Hsp) as Ha%answered_ret.
    cbn [transfer_done]. destruct (copy_to _ _ _ _); exact Ha.
Qed.

(** *** Completions *)

Definition set_done (n : Z) (ms : list message) (w : world) : world :=
  let u := w_ucx w in
  set_ucx (Ucx (ucp_calls u) (active_connections u) (callback_errno u) (delete n (pending u)) (sent u ++ ms)) w.

(** The n-th entry is taken out of the requests in progress. *)
Lemma base_done X n w sp G G' ms q :
  base X w sp G -> s_pend sp !! n = Some q -> (of_op X q \/ exists i c x, q = PRecv i c x) ->
  moved X n (gv G) (gv G') -> moved X n (gr G) (gr G') -> gb G' = gb G -> gs G' = gs G ->
  (forall i, gv G' !! i <> Some (ByPend n)) -> (forall i, gr G' !! i <> Some (ByPend n)) ->
  base X (set_done n ms w) (Spec (s_ops sp) (delete n (s_pend sp)) (s_calls sp) (s_sent sp ++ ms)) G'.
Proof.
  intros Hb Hq Hold Mv Mr Eb Es Nv Nr. pose proof (b_ucx _ _ _ _ Hb) as (Uc & Us & Ue & Ua & Uk).
  eapply (base_pend X n w sp G); cbn; rewrite ?lookup_delete_eq, ?Us; try done.
  - intros i Hi. by rewrite !lookup_delete_ne.
  - rewrite Hq. intros q' [= <-]. done.
Qed.

Lemma owns_not (g : gmap Z owner) k o o' Y : owns g o Y -> Y ⊆ {[k]} -> o <> o' -> forall i, <[k := o']> g !! i <> Some o.
Proof.
  intros H HY Hne i. destruct (decide (i = k)) as [->|]; [rewrite lookup_insert_eq; congruence|].
  rewrite lookup_insert_ne by done. intros Hi%H. set_solver.
Qed.

Lemma recv_done_ok w sp n id c x sp' :
  related w sp -> s_pend sp !! n = Some (PRecv id c x) ->
  spec_client E cfg conns active id c x (Spec (s_ops sp) (delete n (s_pend sp)) (s_calls sp) (s_sent sp)) = Some sp' ->
  answered (common_request_callback E cfg n UCS_OK w) sp'.
Proof.
  intros (G & Hb & N1 & N2 & N3 & N4) Hp Hsp. destruct (b_recv _ _ _ _ Hb n id c x Hp) as (r & v & Hq & Hr & Or & Ov).
  assert (gr G !! r = Some (ByPend n)) as Gr by (apply Or; set_solver).
  assert (gv G !! v = Some (ByPend n)) as Gv by (apply Ov; set_solver).
  set (G1 := Ghost (<[v := Hand]> (gv G)) (gb G) (<[r := Hand]> (gr G)) (gs G)).
  assert (base None (set_done n [] w) (Spec (s_ops sp) (delete n (s_pend sp)) (s_calls sp) (s_sent sp ++ [])) G1) as Hb1.
  { eapply base_done; try done.
    - right. eauto.
    - eapply moved_give; [exact Gv|by right|left; apply mine_hand].
    - eapply moved_give; [exact Gr|by right|left; apply mine_hand].
    - by eapply owns_not.
    - by eapply owns_not. }
  rewrite app_nil_r in Hb1. unfold set_done in Hb1. rewrite app_nil_r in Hb1.
  unfold common_request_callback. rewrite Hq. cbn [ur_transfer ur_callback run_callback]. unfold transfer_status.
  rewrite bool_decide_true by done. cbn [transfer_done].
  eapply received_ok; [exact Hb1| |exact Hr|exact Hsp].
  unfold holds_req, G1. cbn. split; [|split; [done|split; [|done]]].
  - replace {[v]} with ({[v]} ∪ ∅ : gset Z) by set_solver. by apply owns_take.
  - replace {[r]} with ({[r]} ∪ ∅ : gset Z) by set_solver. by apply owns_take.
Qed.

Lemma send_done_ok w sp n id m len cl pe ws sp' :
  related w sp -> s_pend sp !! n = Some (PSend id m) -> s_ops sp !! id = Some (SGather len cl pe ws) ->
  spec_check E cfg id (Spec (<[id := SGather len cl pe (ws ∖ {[n]})]> (s_ops sp)) (delete n (s_pend sp))
                         (s_calls sp) (s_sent sp ++ [m])) = Some sp' ->
  answered (common_request_callback E cfg n UCS_OK w) sp'.
Proof.
  intros (G & Hb & Hno) Hp Ho Hsp. pose proof (b_ops _ _ _ _ Hb id ltac:(done)) as Hop. rewrite Ho in Hop. cbn [op_rel] in Hop.
  destruct Hop as [(a & rs & vs & pvs & b & Hg & Hsnd) (Hon & Hcnt & _)].
  pose proof (Hon n _ Hp eq_refl) as Hn. destruct (Hsnd n Hn) as (m' & Em & Hq & Hi).
  assert (m' = m) as -> by congruence. destruct Hcnt as (C1 & C2 & C3 & C4 & C5).
  assert (Z.of_nat (length cl) = num_clients cfg) as Hcl.
  { destruct (decide (Z.of_nat (length cl) = num_clients cfg)); [done|]. rewrite C3 in Hn by lia. set_solver. }
  assert (exists v, vs = [v] /\ gv G !! v = Some (ByOp id)) as (v & -> & Gv).
  { pose proof (ga_res _ _ _ _ _ _ _ _ _ _ _ _ _ Hg) as Hres. destruct vs as [|v [|]]; [subst cl; cbn in Hcl; lia| |done].
    exists v. split; [done|]. apply (ga_ov _ _ _ _ _ _ _ _ _ _ _ _ _ Hg). set_solver. }
  cbn [hd] in *.
  assert (base (Some id) (set_done n [m] w) (Spec (s_ops sp) (delete n (s_pend sp)) (s_calls sp) (s_sent sp ++ [m])) G) as Hb1.
  { eapply base_done; [by apply base_weaken|done|by left|apply moved_refl|apply moved_refl|done|done| |];
      intros i Hi'; apply (b_owner _ _ _ _ Hb n i) in Hi'; by rewrite Hp in Hi'. }
  unfold common_request_callback. rewrite Hq. cbn [ur_transfer ur_callback run_callback]. unfold transfer_status.
  rewrite bool_decide_true by done. unfold set_pending. rewrite (transfer_sent _ _ _ _ _ _ _ _ Hb Gv Hi).
  change (log_sent m _) with (set_done n [m] w). apply answer_invoke.
  set (sp1 := Spec _ _ _ _) in Hb1.
  assert (base.size ws = S (base.size (ws ∖ {[n]}))) as Hsize.
  { rewrite size_difference, size_singleton by set_solver. assert (base.size ws <> 0%nat); [|lia].
    intros Hz%size_empty_inv. set_solver. }
  destruct (complete_ok (set_done n [m] w) (set_ops (<[id := SGather len cl pe (ws ∖ {[n]})]> (s_ops sp1)) sp1)
              G id a rs [v] pvs b len cl pe (ws ∖ {[n]}) sp') as (w2 & G2 & -> & Hb2 & Hno2); try done.
  - by apply base_setop.
  - split; [|split].
    + replace (ops_left cl pe (ws ∖ {[n]}) + 1) with (ops_left cl pe ws); [by destruct Hg|].
      unfold ops_left. rewrite (proj2 (Z.eqb_eq _ _) Hcl). lia.
    + intros k Hk. destruct (Hsnd k ltac:(set_solver)) as (mk & K1 & K2 & K3). exists mk.
      cbn. rewrite !lookup_delete_ne by set_solver. done.
    + intros k p. cbn. intros [Hkn Hk]%lookup_delete_Some. specialize (Hon k p Hk). destruct p; try done. set_solver.
  - split; [lia|]. split; [lia|]. split; [intros; lia|]. split; [lia|done].
  - cbn. apply lookup_insert_eq.
  - eexists _, _. split; [done|]. right. split; [done|]. exists G2. auto.
Qed.

Lemma reply_done_ok w sp n id m ws :
  related w sp -> s_pend sp !! n = Some (PReply id m) -> s_ops sp !! id = Some (SReply ws) ->
  let ws' := ws ∖ {[n]} in
  answered (common_request_callback E cfg n UCS_OK w)
    (Spec (if bool_decide (ws' = ∅) then delete id (s_ops sp) else <[id := SReply ws']> (s_ops sp))
       (delete n (s_pend sp)) (s_calls sp) (s_sent sp ++ [m])).
Proof.
  intros (G & Hb & Hno) Hp Ho ws'. pose proof (b_ops _ _ _ _ Hb id ltac:(done)) as Hop. rewrite Ho in Hop. cbn [op_rel] in Hop.
  destruct Hop as [(a & v & b & it & ops & len & Hg & Hre) (Hon & Hne & Hmax)].
  pose proof (Hon n _ Hp eq_refl) as Hn. destruct (Hre n Hn) as (m' & r & c & l & Em & Hq & Hi & Hr & Or).
  assert (m' = m) as -> by congruence.
  assert (gr G !! r = Some (ByPend n)) as Gr by (apply Or; set_solver).
  assert (gv G !! v = Some (ByOp id)) as Gv by (apply (ry_ov _ _ _ _ _ _ _ _ _ _ _ _ Hg); set_solver).
  set (G1 := give_r r Hand G).
  assert (base (Some id) (set_done n [m] w) (Spec (s_ops sp) (delete n (s_pend sp)) (s_calls sp) (s_sent sp ++ [m])) G1) as Hb1.
  { eapply base_done; [by apply base_weaken|done|by left|apply moved_refl| |done|done| |].
    - eapply moved_give; [exact Gr|by right|left; apply mine_hand].
    - intros i Hi'. apply (b_owner _ _ _ _ Hb n i) in Hi'. by rewrite Hp in Hi'.
    - by eapply owns_not. }
  unfold common_request_callback. rewrite Hq. cbn [ur_transfer ur_callback run_callback]. unfold transfer_status.
  rewrite bool_decide_true by done. unfold set_pending. rewrite (transfer_sent _ _ _ _ _ _ _ _ Hb Gv Hi).
  change (log_sent m _) with (set_done n [m] w). apply answer_invoke.
  set (sp1 := Spec _ _ _ _) in Hb1.
  assert (base.size ws = S (base.size ws')) as Hsize.
  { unfold ws'. rewrite size_difference, size_singleton by set_solver. assert (base.size ws <> 0%nat); [|lia].
    intros Hz%size_empty_inv. set_solver. }
  destruct (client_done_ok (set_done n [m] w) sp1 G1 id a [] [] v b it ops len (base.size ws') r c l Hb1)
    as (w2 & G2 & -> & Hb2 & (Kv & Kr & Ku & _ & Kg) & Hno2 & Hend); try done.
  { destruct Hg as [Rh Rs Ros Ror Rov Rob Rb Rnd Rrq]. split; try done; rewrite <-?Hsize; try done.
    cbn. eapply owns_give_other; [exact Gr|done|done|done]. }
  { lia. }
  { cbn. apply lookup_insert_eq. }
  eexists w2, _. split; [done|]. right. split; [done|]. exists G2. split.
  2:{ apply Hno2. destruct Hno as (H1 & H2 & H3 & H4). split; [done|]. split; [done|]. split; [|done]. cbn.
      replace {[r]} with ({[r]} ∪ ∅ : gset Z) by set_solver. by apply owns_take. }
  assert (only_replies sp1 id ws') as Hon1.
  { intros k p. cbn. intros [Hkn Hk]%lookup_delete_Some. specialize (Hon k p Hk). destruct p; try done. set_solver. }
  change (Spec ?o _ _ _) with (set_ops o sp1). eapply base_close; [exact Hb2| |].
  2:{ intros i Hi'. case_bool_decide; [by rewrite lookup_delete_ne|by rewrite lookup_insert_ne]. }
  destruct (base.size ws' =? 0)%nat eqn:Ez; [apply Nat.eqb_eq in Ez|apply Nat.eqb_neq in Ez].
  - apply size_empty_inv in Ez. fold_leibniz. rewrite bool_decide_true, lookup_delete_eq by done. rewrite Ez in Hon1.
    apply only_none in Hon1. destruct Hend as (? & ? & ? & ? & ?). cbn [op_rel]. do 5 (split; [done|]). done.
  - assert (ws' <> ∅) as Hne' by (intros Ez'; rewrite Ez', size_empty in Ez; done).
    rewrite bool_decide_false, lookup_insert_eq by done. cbn [op_rel].
    split; [|split; [done|split; [done|lia]]].
    exists a, v, b, it, ops, len. split; [exact Hend|]. intros k Hk.
    destruct (Hre k ltac:(set_solver)) as (mk & rk & ck & lk & K1 & K2 & K3 & K4 & K5). exists mk, rk, ck, lk.
    rewrite Ku, Kr. cbn. rewrite !lookup_delete_ne by set_solver. do 2 (split; [done|]).
    split; [unfold intact, vec in *; by rewrite Kv|]. split; [done|]. apply Kg. cbn.
    eapply owns_give_other; [exact Gr| |done|done]. intros [= ->]. set_solver.
Qed.

(** *** Events *)

Lemma event_ok ev w sp sp' :
  related w sp -> spec_event E cfg conns active ev sp = Some sp' -> answered (handle_event E cfg ev w) sp'.
Proof.
  intros Hr Hsp. destruct ev as [[] d|n []]; try discriminate Hsp.
  - destruct (mapM id (d_data d)) as [x|] eqn:Ex; [|cbn in Hsp; rewrite Ex in Hsp; discriminate].
    cbn [handle_event am_recv_callback]. rewrite Hdaemon. apply answer_invoke. by eapply ctrl_ok.
  - cbn in Hsp. destruct (mapM id (d_data d)) as [x|] eqn:Ex; [|discriminate].
    destruct (d_rndv d) eqn:Er; [discriminate|].
    cbn [handle_event am_recv_callback]. rewrite Hdaemon. apply answer_invoke. by eapply gather_ok.
  - cbn in Hsp. cbn [handle_event]. destruct (s_pend sp !! n) as [p|] eqn:Ep.
    2:{ injection Hsp as <-. destruct Hr as (G & Hb & Hno). unfold common_request_callback.
        rewrite (b_dom _ _ _ _ Hb n Ep). exists w. split; [done|]. right. by exists G. }
    destruct p as [id c x|id m|id m].
    + by eapply recv_done_ok.
    + destruct (s_ops sp !! id) as [[len cl pe ws|]|] eqn:Eo; try discriminate. by eapply send_done_ok.
    + destruct (s_ops sp !! id) as [[|ws]|] eqn:Eo; try discriminate. injection Hsp as <-. by eapply reply_done_ok.
Qed.

Lemma run_ok evs : forall w sp sp',
  related w sp -> spec_run E cfg conns active evs sp = Some sp' -> answered (daemon_run E cfg evs w) sp'.
Proof.
  induction evs as [|ev evs IH]; intros w sp sp' Hr Hsp; cbn in *.
  - injection Hsp as <-. exists w. auto.
  - destruct (spec_event E cfg conns active ev sp) as [sp1|] eqn:Ev; [|discriminate].
    destruct (event_ok ev w sp sp1 Hr Ev) as (w1 & -> & [He|Hr1]).
    + rewrite He. exists w1. auto.
    + destruct Hr1 as (G & Hb & Hno). pose proof (b_ucx _ _ _ _ Hb) as (_ & _ & He & _).
      rewrite (bool_decide_true _ He). eapply IH; [by exists G|done].
Qed.
End relation.

(** What is seen of a daemon: the messages that left, and the pools when nothing is in
    progress. *)
Lemma related_sent cfg conns active w sp : related cfg conns active w sp -> sent (w_ucx w) = s_sent sp /\ callback_errno (w_ucx w) = DOCA_SUCCESS.
Proof. intros (G & Hb & _). by destruct (b_ucx _ _ _ _ _ _ _ Hb) as (_ & ? & ? & _). Qed.

Lemma no_owner (g : gmap Z owner) : (forall o, owns g o ∅) -> dom g = ∅.
Proof.
  intros H. apply set_eq. intros k. split; [|set_solver]. intros [o Ho]%elem_of_dom. apply H in Ho. done.
Qed.

Lemma related_idle cfg conns active w sp : related cfg conns active w sp -> s_ops sp = ∅ -> s_pend sp = ∅ ->
  super_requests_hash w = ∅ /\ pending (w_ucx w) = ∅ /\ pools_ok cfg (w_pools w) ∅ ∅ ∅ ∅.
Proof.
  intros (G & Hb & N1 & N2 & N3 & N4) Eo Ep.
  assert (forall id, op_rel cfg active w sp G id None) as Hop.
  { intros id. pose proof (b_ops _ _ _ _ _ _ _ Hb id ltac:(done)) as H. by rewrite Eo, lookup_empty in H. }
  assert (forall n k, gv G !! k <> Some (ByPend n) /\ gr G !! k <> Some (ByPend n)) as Hnp.
  { intros n k. pose proof (b_owner _ _ _ _ _ _ _ Hb n k) as [H1 H2]. rewrite Ep, lookup_empty in *. split; [exact H1|exact H2]. }
  split; [apply map_eq; intros id; rewrite lookup_empty; apply (Hop id)|].
  split; [apply map_eq; intros n; rewrite lookup_empty; apply (b_dom _ _ _ _ _ _ _ Hb); by rewrite Ep|].
  pose proof (b_pools _ _ _ _ _ _ _ Hb) as Hp.
  rewrite (no_owner (gv G)), (no_owner (gr G)) in Hp.
  2:{ intros [id|n|]; [apply (Hop id)| |done]. intros k. split; [intros Hk; by destruct (Hnp n k)|set_solver]. }
  2:{ intros [id|n|]; [apply (Hop id)| |done]. intros k. split; [intros Hk; by destruct (Hnp n k)|set_solver]. }
  rewrite (no_owner (gb G)), (no_owner (gs G)) in Hp; [done| |].
  - intros [id|n|]; [apply (Hop id)| |done]. intros k. split; [intros Hk; by destruct (b_none _ _ _ _ _ _ _ Hb n k)|set_solver].
  - intros [id|n|]; [apply (Hop id)| |done]. intros k. split; [intros Hk; by destruct (b_none _ _ _ _ _ _ _ Hb n k)|set_solver].
Qed.
