(* ===== verification/AllreduceDaemon.v ===== *)
(** * Allreduce: a daemon from start to end

    A daemon that has created its pools runs through any sequence of events as the
    specification says ([daemon_refines]); for integers without overflow the order of the
    vectors does not matter, so that all daemons answer the same ([daemons_agree]).  Two
    behaviours outside the specification follow: peers' vectors that are only announced
    are reduced before they are there, and a vector too many is added. *)
From S2P Require Import Prelude MemPool Allreduce AllreduceSpec AllreduceInv.

(** ** Start *)

(** A daemon of the sizes for which no size computation wraps, connected to its peers. *)
Record daemon_config (cfg : allreduce_config) (conns : list Z) (active : gset Z) : Prop := DaemonConfig {
  dc_role : role cfg = ALLREDUCE_DAEMON;
  dc_clients : 0 < num_clients cfg;
  dc_dest : 0 <= dest_num cfg;
  dc_batch : 0 < batch_size cfg;
  dc_size : 2 * (num_clients cfg + dest_num cfg) * batch_size cfg < 2 ^ 60;
  dc_conns : Z.of_nat (length conns) = dest_num cfg;
  dc_active : Forall (fun c => c ∈ active) conns;
}.

Definition no_pools (h : heap) : pools := Pools h no_pool no_pool no_pool no_pool.
Definition start_world (p : pools) (conns : list Z) (active : gset Z) : world :=
  World p ∅ ∅ ∅ ∅ ∅ 0 (Ucx 0 active DOCA_SUCCESS ∅ []) conns [] 0.
Definition start_spec : spec := Spec ∅ ∅ 0 [].

Section start.
  Context (E : env) `{!MallocLaws (malloc_ok E)} (cfg : allreduce_config) (conns : list Z) (active : gset Z).
  Context (Hc : daemon_config cfg conns active).

(** A pool that was created is usable, in a heap that keeps all other blocks. *)
Lemma created mp0 h0 nb bytes mp h :
  heap_wf h0 -> 0 < nb < 2 ^ 60 ->
  allreduce_create_mpool (malloc_ok E) mp0 nb bytes CPU h0 = Ret (mp, h, DOCA_SUCCESS) ->
  pool_ok mp h ∅ /\ size mp = nb /\ next h0 <= stack_addr mp /\ heap_wf h /\ next h0 <= next h /\
  forall b, b < next h0 -> blocks h !! b = blocks h0 !! b.
Proof.
  intros Hwf Hnb Hcr. destruct (create_ok (malloc_ok E) mp0 h0 nb bytes Hwf Hnb) as (mp' & h' & e & Hcr' & Hok).
  rewrite Hcr' in Hcr. injection Hcr as -> -> ->.
  destruct Hok as [(_ & _ & ?)|((Hp & Hown & _ & _ & Hle) & Hs)]; [done|]. cbn in Hp.
  split; [done|]. split; [by destruct Hs as [[_ ?]|]|].
  destruct Hp as [(a & l & fr & Est & Hb & Ha & Hfr & Hl & Hnd & Hdis) Ho Hh Hsz Ht Hn].
  destruct (pool_own_open _ _ _ _ _ _ _ _ Hown Est Hfr) as (Hba & Hla & Haf & Hao & Hel & Hrest).
  split; [unfold stack_addr; by rewrite Est|].
  assert (forall b, b < next h0 \/ next h <= b -> blocks h !! b = blocks h0 !! b) as Hout.
  { intros b Hb'. apply Hrest.
    - lia.
    - intros Hbf. pose proof (Hdis b Hbf). pose proof (Hel b (or_introl Hbf)). lia.
    - set_solver. }
  split; [|split; [done|]]; [|intros b Hb'; apply Hout; by left].
  split; [lia|]. intros b Hb'. rewrite (Hout b (or_intror Hb')). apply Hwf. lia.
Qed.

Lemma error_code_zero e : error_code e = 0 -> e = DOCA_SUCCESS.
Proof. destruct e; cbn; congruence. Qed.

Lemma pool_later mp h h' :
  pool_ok mp h ∅ -> next h <= next h' -> (forall b, b < next h -> blocks h' !! b = blocks h !! b) -> pool_ok mp h' ∅.
Proof.
  intros Hp Hn Hb. eapply pool_ok_kept; [done|done|]. apply Hb. pose proof (pool_addr _ _ _ Hp). lia.
Qed.

Lemma init_ok h0 p :
  heap_wf h0 -> allreduce_init_mempools E cfg (no_pools h0) = Ret (p, 0) -> pools_ok cfg p ∅ ∅ ∅ ∅.
Proof.
  intros Hwf Hi. destruct Hc as [Hr Hcl Hd Hba Hsz _ _]. unfold allreduce_init_mempools in Hi.
  rewrite Hr in Hi. rewrite (bool_decide_false (ALLREDUCE_DAEMON = _)), (bool_decide_true (_ = ALLREDUCE_DAEMON)) in Hi by done.
  cbn [andb no_pools super_reqs_pool vecs_pool bufs_pool reqs_pool the_heap] in Hi.
  assert (num_clients cfg * batch_size cfg < 2 ^ 60) by nia.
  assert (batch_size cfg < 2 ^ 59) by nia. assert (num_clients cfg + dest_num cfg < 2 ^ 60) by nia.
  rewrite (uwrap_id 64 (2 * batch_size cfg)), (uwrap_id 64 (num_clients cfg + dest_num cfg)),
    (uwrap_id 64 (2 * (num_clients cfg + dest_num cfg))), (uwrap_id 64 (_ * batch_size cfg)),
    (uwrap_id 64 (_ * num_clients cfg)) in Hi by (split; nia).
  destruct (allreduce_create_mpool _ _ _ sizeof_super_request _ _) as [[[ps h1] e1]|] eqn:Es; [|discriminate].
  destruct (allreduce_create_mpool _ _ (2 * (_ + _) * _) _ _ _) as [[[pv h2] e2]|] eqn:Ev; [|discriminate].
  match type of Hi with (match (if ?c then ?a else ?b) with _ => _ end) = _ =>
    destruct (if c then a else b) as [[p3 r3]|] eqn:Eb; [|discriminate] end.
  destruct (allreduce_create_mpool _ _ _ sizeof_request _ _) as [[[pr h4] e4]|] eqn:Er; [|discriminate].
  destruct (Z.lor r3 (error_code e4) =? 0) eqn:E0.
  2:{ destruct (allreduce_destroy_mempools _ _); [|discriminate]. injection Hi as _ Hi. rewrite Hi in E0. discriminate. }
  injection Hi as <- Hi. apply Z.lor_eq_0_iff in Hi as [Hr3 ->%error_code_zero].
  assert (e1 = DOCA_SUCCESS /\ e2 = DOCA_SUCCESS) as [-> ->].
  { destruct (1 <? dest_num cfg).
    - destruct (allreduce_create_mpool _ _ _ _ _ h2) as [[[? ?] ?]|]; [|discriminate]. injection Eb as <- <-.
      apply Z.lor_eq_0_iff in Hr3 as [Hr3 _]. apply Z.lor_eq_0_iff in Hr3 as [Z1 Z2].
      by apply error_code_zero in Z1, Z2.
    - injection Eb as <- <-. apply Z.lor_eq_0_iff in Hr3 as [Z1 Z2]. by apply error_code_zero in Z1, Z2. }
  apply created in Es as (S1 & S2 & S3 & S4 & S5 & S6); [|done|lia].
  apply created in Ev as (V1 & V2 & V3 & V4 & V5 & V6); [|done|nia].
  destruct (1 <? dest_num cfg) eqn:Ed.
  - destruct (allreduce_create_mpool _ _ _ _ _ h2) as [[[pb h3] e3]|] eqn:Ec; [|discriminate]. injection Eb as <- <-.
    apply Z.lor_eq_0_iff in Hr3 as [_ ->%error_code_zero].
    apply created in Ec as (B1 & B2 & B3 & B4 & B5 & B6); [|done|lia]. cbn [the_heap reqs_pool] in Er.
    apply created in Er as (R1 & R2 & R3 & R4 & R5 & R6); [|done|nia].
    pose proof (pool_addr _ _ _ S1). pose proof (pool_addr _ _ _ V1). pose proof (pool_addr _ _ _ B1).
    split; cbn.
    + split; [|lia]. eapply pool_later; [eapply pool_later; [exact V1|..]|..]; done.
    + rewrite (proj2 (Z.leb_gt _ _)) by lia. split; [|lia]. by eapply pool_later.
    + split; [done|nia].
    + split; [|lia]. eapply pool_later; [eapply pool_later; [eapply pool_later; [exact S1|..]|..]|..]; done.
    + lia.
  - injection Eb as <- <-. cbn [the_heap reqs_pool] in Er. apply created in Er as (R1 & R2 & R3 & R4 & R5 & R6); [|done|nia].
    pose proof (pool_addr _ _ _ S1). pose proof (pool_addr _ _ _ V1). pose proof (pool_addr _ _ _ R1).
    split; cbn.
    + split; [|lia]. by eapply pool_later.
    + by rewrite (proj2 (Z.leb_le _ _)) by lia.
    + split; [done|nia].
    + split; [|lia]. eapply pool_later; [eapply pool_later; [exact S1|..]|..]; done.
    + lia.
Qed.
End start.

Lemma start_related cfg conns active p : pools_ok cfg p ∅ ∅ ∅ ∅ -> related cfg conns active (start_world p conns active) start_spec.
Proof.
  intros Hp. exists (Ghost ∅ ∅ ∅ ∅).
  assert (forall o, owns ∅ o ∅) as Hn by (intros o k; rewrite lookup_empty; set_solver).
  split; [|by repeat split; apply Hn]. split; cbn; rewrite ?dom_empty_L; try done.
Qed.

(** ** One operation, with a UCX that completes at once *)

(** The vector of a client or of a peer arrives. *)
Inductive arrival : Type := FromClient (c : Z) (x : list Z) | FromPeer (k : Z) (x : list Z).

Definition arrival_event (id : Z) (a : arrival) : event :=
  match a with
  | FromClient c x => Arrive ALLREDUCE_CTRL_AM_ID (AmDesc c id (Some <$> x) false)
  | FromPeer k x => Arrive ALLREDUCE_OP_AM_ID (AmDesc k id (Some <$> x) false)
  end.
Definition vector_of (a : arrival) : list Z := match a with FromClient _ x | FromPeer _ x => x end.
Definition clients_of (l : list arrival) : list (Z * list Z) :=
  omap (fun a => match a with FromClient c x => Some (c, x) | _ => None end) l.
Definition peers_of (l : list arrival) : list (list Z) :=
  omap (fun a => match a with FromPeer _ x => Some x | _ => None end) l.

Lemma clients_app l1 l2 : clients_of (l1 ++ l2) = clients_of l1 ++ clients_of l2.
Proof. apply omap_app. Qed.
Lemma peers_app l1 l2 : peers_of (l1 ++ l2) = peers_of l1 ++ peers_of l2.
Proof. apply omap_app. Qed.

Definition the {A} (d : A) (o : outcome A) : A := match o with Ret x => x | Undef _ => d end.

Section operation.
  Context (E : env) (cfg : allreduce_config) (conns : list Z) (active : gset Z) (id : Z) (len : nat).
  Context (Hnow : forall n, ucp E n = Immediate) (Hdt : datatype cfg <> ALLREDUCE_INT).

(** The messages that the reduction of the clients' vectors and the result are sent with. *)
Definition to_peers (cl : list (Z * list Z)) : list message :=
  (fun k => Message k ALLREDUCE_OP_AM_ID id (Some <$> the [] (reduction cfg cl.*2))) <$> conns.
Definition to_clients (cl : list (Z * list Z)) (pe : list (list Z)) : list message :=
  (fun c => Message c ALLREDUCE_CTRL_AM_ID id (Some <$> the [] (total cfg cl.*2 pe))) <$> cl.*1.

Lemma relem_ret x y : exists z, relem cfg x y = Ret z.
Proof. unfold relem, reduce_elem. destruct (datatype cfg); eauto. done. Qed.
Lemma vreduce_ret x : forall y, exists z, vreduce cfg x y = Ret z.
Proof.
  induction x as [|a x IH]; intros [|b y]; cbn; eauto. destruct (relem_ret a b) as [c ->].
  destruct (IH y) as [r ->]. eauto.
Qed.
Lemma fold_vec_ret l : forall x, exists z, fold_vec cfg x l = Ret z.
Proof. induction l as [|y l IH]; intros x; cbn; eauto. destruct (vreduce_ret x y) as [z ->]. apply IH. Qed.
Lemma reduction_ret l : reduction cfg l = Ret (the [] (reduction cfg l)).
Proof. destruct l as [|x l]; cbn; [done|]. by destruct (fold_vec_ret l x) as [z ->]. Qed.
Lemma total_ret cl pe : total cfg cl pe = Ret (the [] (total cfg cl pe)).
Proof.
  unfold total. rewrite reduction_ret. destruct pe as [|p pe]; [done|]. rewrite (reduction_ret (p :: pe)).
  by destruct (vreduce_ret (the [] (reduction cfg cl)) (the [] (reduction cfg (p :: pe)))) as [z ->].
Qed.

Lemma sends_now mk ms : forall sp, exists n,
  spec_sends E mk ms sp = Some (Spec (s_ops sp) (s_pend sp) n (s_sent sp ++ ms), ∅).
Proof.
  induction ms as [|m ms IH]; intros sp; cbn.
  - exists (s_calls sp). rewrite app_nil_r. by destruct sp.
  - unfold spec_send. rewrite Hnow. destruct (IH (Spec (s_ops sp) (s_pend sp) (s_calls sp + 1) (s_sent sp ++ [m]))) as [n ->].
    exists n. cbn. rewrite <-app_assoc. by rewrite (left_id_L ∅ (∪)).
Qed.

(** The state of the specification when the vectors [cl] and [pe] have come. *)
Definition all_clients (cl : list (Z * list Z)) : bool := Z.of_nat (length cl) =? num_clients cfg.
Definition complete (cl : list (Z * list Z)) (pe : list (list Z)) : bool :=
  all_clients cl && (Z.of_nat (length pe) =? dest_num cfg).
Definition state_is (cl : list (Z * list Z)) (pe : list (list Z)) (sp : spec) : Prop :=
  s_pend sp = ∅ /\
  s_ops sp = (if complete cl pe then ∅
              else match cl, pe with [], [] => ∅ | _, _ => {[id := SGather len cl pe ∅]} end) /\
  s_sent sp = (if all_clients cl then to_peers cl else []) ++ (if complete cl pe then to_clients cl pe else []).

Lemma check_now sp cl pe :
  s_ops sp = {[id := SGather len cl pe ∅]} -> s_pend sp = ∅ -> s_sent sp = (if all_clients cl then to_peers cl else []) ->
  (cl <> [] \/ pe <> []) ->
  exists sp', spec_check E cfg id sp = Some sp' /\ state_is cl pe sp'.
Proof.
  intros Ho Hp Hs Hne. unfold spec_check. rewrite Ho, lookup_singleton_eq.
  destruct (complete cl pe) eqn:Ec.
  - pose proof Ec as Ec'. unfold complete, all_clients in Ec'. apply andb_true_iff in Ec' as [E1%Z.eqb_eq E2%Z.eqb_eq].
    rewrite bool_decide_true by done. rewrite total_ret.
    destruct (sends_now (PReply id) ((fun c => Message c ALLREDUCE_CTRL_AM_ID id (Some <$> the [] (total cfg cl.*2 pe))) <$> cl.*1) sp)
      as [n ->].
    rewrite bool_decide_true by done. eexists. split; [done|]. unfold state_is. rewrite Ec. cbn. rewrite Ho, Hs.
    split; [done|]. split; [|done]. apply delete_singleton_eq.
  - rewrite bool_decide_false. 2:{ intros (E1 & E2 & _). unfold complete, all_clients in Ec.
      rewrite (proj2 (Z.eqb_eq _ _) E1), (proj2 (Z.eqb_eq _ _) E2) in Ec. discriminate. }
    eexists. split; [done|]. unfold state_is. rewrite Ec, app_nil_r. split; [done|]. split; [|done].
    rewrite Ho. destruct cl; [|done]. destruct pe; [naive_solver|done].
Qed.

Lemma op_now cl pe sp :
  state_is cl pe sp -> complete cl pe = false -> spec_op id len sp = Some (cl, pe, ∅).
Proof.
  intros (_ & Ho & _) Hc. unfold spec_op. rewrite Ho, Hc.
  destruct cl; [destruct pe; [by rewrite lookup_empty|]|]; rewrite lookup_singleton_eq, bool_decide_true by done; done.
Qed.

Lemma ops_now cl pe sp op : state_is cl pe sp -> <[id := op]> (s_ops sp) = {[id := op]}.
Proof.
  intros (_ & -> & _). destruct (complete cl pe); [apply insert_empty|].
  destruct cl; [destruct pe; [apply insert_empty|]|]; apply insert_singleton_eq.
Qed.

Context (Hsize : Z.of_nat len <= vector_size cfg).

Lemma client_now cl pe sp c x :
  state_is cl pe sp -> length x = len -> c ∈ active -> Z.of_nat (length cl) < num_clients cfg ->
  exists sp', spec_client E cfg conns active id c x sp = Some sp' /\ state_is (cl ++ [(c, x)]) pe sp'.
Proof.
  intros Hst Hx Hc Hlt. assert (all_clients cl = false) as Hac by (unfold all_clients; lia).
  assert (complete cl pe = false) as Hnc by (unfold complete; by rewrite Hac).
  unfold spec_client. rewrite Hx, (op_now _ _ _ Hst Hnc), bool_decide_true by done.
  rewrite reduction_ret. pose proof Hst as (Hp & Ho & Hs). rewrite Hac, Hnc in Hs. cbn in Hs.
  assert (all_clients (cl ++ [(c, x)]) = bool_decide (Z.of_nat (length (cl ++ [(c, x)])) = num_clients cfg)) as Hac2.
  { unfold all_clients. by destruct (Z.eqb_spec (Z.of_nat (length (cl ++ [(c, x)]))) (num_clients cfg)); case_bool_decide. }
  case_bool_decide as Hall.
  - destruct (sends_now (PSend id) (to_peers (cl ++ [(c, x)])) sp) as [n Esnd]. unfold to_peers in Esnd. rewrite Esnd.
    apply check_now; cbn; try done; [by rewrite (ops_now _ _ _ _ Hst)|by rewrite Hs, Hac2|left; by destruct cl].
  - eexists. split; [done|]. unfold state_is, complete. rewrite Hac2. cbn. split; [done|].
    split; [|done]. rewrite (ops_now _ _ _ _ Hst). by destruct cl.
Qed.

Lemma peer_now cl pe sp x :
  state_is cl pe sp -> length x = len -> Z.of_nat (length pe) < dest_num cfg ->
  exists sp', spec_peer E cfg id x sp = Some sp' /\ state_is cl (pe ++ [x]) sp'.
Proof.
  intros Hst Hx Hlt. assert (complete cl pe = false) as Hnc by (unfold complete; lia).
  unfold spec_peer. rewrite Hx, (op_now _ _ _ Hst Hnc), bool_decide_true by done.
  rewrite reduction_ret. pose proof Hst as (Hp & Ho & Hs). rewrite Hnc, app_nil_r in Hs.
  apply check_now; cbn; try done; [by rewrite (ops_now _ _ _ _ Hst)|right; by destruct pe].
Qed.

Lemma mapM_some (x : list Z) : mapM Datatypes.id (Some <$> x) = Some x.
Proof. induction x as [|a x IH]; cbn; [done|]. cbn in IH. by rewrite IH. Qed.

Lemma arrivals_now l : forall done sp,
  state_is (clients_of done) (peers_of done) sp ->
  Forall (fun a => length (vector_of a) = len /\ match a with FromClient c _ => c ∈ active | _ => True end) l ->
  Z.of_nat (length (clients_of (done ++ l))) <= num_clients cfg ->
  Z.of_nat (length (peers_of (done ++ l))) <= dest_num cfg ->
  exists sp', spec_run E cfg conns active (arrival_event id <$> l) sp = Some sp' /\
    state_is (clients_of (done ++ l)) (peers_of (done ++ l)) sp'.
Proof.
  induction l as [|a l IH]; intros dn sp Hst Hl Hc Hp.
  - exists sp. rewrite app_nil_r in *. done.
  - apply Forall_cons in Hl as [[Hlen Ha] Hl]. rewrite cons_middle, app_assoc in *. cbn [fmap list_fmap spec_run].
    assert (exists sp1, spec_event E cfg conns active (arrival_event id a) sp = Some sp1 /\
      state_is (clients_of (dn ++ [a])) (peers_of (dn ++ [a])) sp1) as (sp1 & -> & Hst1).
    { rewrite clients_app, peers_app in *. rewrite !length_app in *. destruct a as [c x|k x]; cbn in Hlen.
      - rewrite clients_app in Hc. cbn [length clients_of omap list_omap] in *. cbn. rewrite mapM_some.
        rewrite !app_nil_r. apply client_now; try done. rewrite length_app in Hc. cbn in Hc. lia.
      - rewrite peers_app in Hp. cbn. rewrite mapM_some. rewrite !app_nil_r.
        apply peer_now; try done. rewrite length_app in Hp. cbn in Hp. lia. }
    by apply IH.
Qed.
End operation.

(** ** The order of the vectors *)

Section order.
  Context (cfg : allreduce_config) (Hdt : datatype cfg = ALLREDUCE_BYTE).

Definition byte_op (a b : Z) : Z := u8 (int_op (operation cfg) a b).
Definition vop : list Z -> list Z -> list Z := zip_with byte_op.

Lemma byte_op_comm a b : byte_op a b = byte_op b a.
Proof. unfold byte_op, int_op. destruct (operation cfg); f_equal; lia. Qed.
Lemma byte_op_assoc a b c : byte_op (byte_op a b) c = byte_op a (byte_op b c).
Proof.
  unfold byte_op, int_op, u8, uwrap. destruct (operation cfg).
  - rewrite Zplus_mod_idemp_l, Zplus_mod_idemp_r. f_equal. lia.
  - rewrite Zmult_mod_idemp_l, Zmult_mod_idemp_r. f_equal. lia.
Qed.

Lemma vop_comm x : forall y, vop x y = vop y x.
Proof. induction x as [|a x IH]; intros [|b y]; cbn; [done..|]. by rewrite byte_op_comm, (IH y). Qed.
Lemma vop_assoc x : forall y z, vop (vop x y) z = vop x (vop y z).
Proof. induction x as [|a x IH]; intros [|b y] [|c z]; cbn; [done..|]. by rewrite byte_op_assoc, (IH y z). Qed.

Lemma vreduce_byte x : forall y, vreduce cfg x y = Ret (vop x y).
Proof.
  induction x as [|a x IH]; intros [|b y]; cbn; [done..|]. unfold relem, reduce_elem. rewrite Hdt. by rewrite IH.
Qed.
Lemma fold_byte l : forall x, fold_vec cfg x l = Ret (foldl vop x l).
Proof. induction l as [|y l IH]; intros x; cbn; [done|]. by rewrite vreduce_byte, IH. Qed.

Lemma foldl_vop x l : forall u, foldl vop (vop u x) l = vop u (foldl vop x l).
Proof. revert x. induction l as [|y l IH]; intros x u; cbn; [done|]. by rewrite vop_assoc, IH. Qed.

Lemma foldl_perm l l' : l ≡ₚ l' -> forall x, foldl vop x l = foldl vop x l'.
Proof.
  induction 1 as [|y l l' _ IH|y z l|l1 l2 l3 _ IH1 _ IH2]; intros x; cbn; auto.
  - by rewrite !vop_assoc, (vop_comm y z).
  - by rewrite IH1, IH2.
Qed.

Lemma reduction_perm l l' : l ≡ₚ l' -> reduction cfg l = reduction cfg l'.
Proof.
  induction 1 as [|y l l' Hp IH|y z l|l1 l2 l3 _ IH1 _ IH2]; cbn; auto.
  - by rewrite !fold_byte, (foldl_perm _ _ Hp).
  - by rewrite !vreduce_byte, vop_comm.
  - by rewrite IH1.
Qed.

Lemma reduction_app a b : a <> [] -> b <> [] ->
  reduction cfg (a ++ b) = let* x := reduction cfg a in let* y := reduction cfg b in vreduce cfg x y.
Proof.
  destruct a as [|x a]; [done|]. destruct b as [|y b]; [done|]. intros _ _. cbn.
  rewrite fold_vec_app, !fold_byte. cbn. by rewrite !vreduce_byte, foldl_vop.
Qed.

(** Reductions of groups reduce to the reduction of all. *)
Lemma reduction_groups groups : forall pe,
  Forall2 (fun p g => g <> [] /\ reduction cfg g = Ret p) pe groups -> pe <> [] ->
  concat groups <> [] /\ reduction cfg pe = reduction cfg (concat groups).
Proof.
  induction groups as [|g groups IH]; intros pe Hf Hne.
  - by apply Forall2_nil_inv_r in Hf.
  - apply Forall2_cons_inv_r in Hf as (p & pe' & [Hg Hp] & Hf & ->). cbn [concat].
    split; [by destruct g|]. destruct (decide (pe' = [])) as [->|Hpe].
    + apply Forall2_nil_inv_l in Hf as ->. cbn. by rewrite app_nil_r, Hp.
    + destruct (IH pe' Hf Hpe) as [Hc He]. rewrite (reduction_app g), Hp by done. rewrite <-He.
      destruct pe' as [|q pe']; [done|]. cbn. rewrite !fold_byte, !vreduce_byte, fold_byte. by rewrite foldl_vop.
Qed.

Lemma total_all cl pe groups all :
  cl <> [] -> Forall2 (fun p g => g <> [] /\ reduction cfg g = Ret p) pe groups -> cl ++ concat groups ≡ₚ all ->
  total cfg cl pe = reduction cfg all.
Proof.
  intros Hcl Hf Hp. rewrite <-(reduction_perm _ _ Hp). unfold total. destruct pe as [|p pe].
  - apply Forall2_nil_inv_l in Hf as ->. cbn. rewrite app_nil_r. by destruct (reduction cfg cl).
  - destruct (reduction_groups groups (p :: pe) Hf ltac:(done)) as [Hc He]. by rewrite reduction_app, He.
Qed.
End order.

(** ** Main theorems *)

(** Nothing is in use in the pools of a daemon. *)
Definition pools_free (cfg : allreduce_config) (w : world) : Prop :=
  head (vecs_pool (w_pools w)) = 0 /\ head (reqs_pool (w_pools w)) = 0 /\
  head (super_reqs_pool (w_pools w)) = 0 /\ (1 < dest_num cfg -> head (bufs_pool (w_pools w)) = 0).

Lemma pools_ok_free cfg w : pools_ok cfg (w_pools w) ∅ ∅ ∅ ∅ -> pools_free cfg w.
Proof.
  intros [[Hv _] Hb [Hr _] [Hs _] _].
  assert (forall mp h, pool_ok mp h ∅ -> head mp = 0) as H0 by (intros mp h Hp; rewrite (po_head _ _ _ Hp); by rewrite size_empty).
  split; [by eapply H0|]. split; [by eapply H0|]. split; [by eapply H0|].
  intros Hd. rewrite (proj2 (Z.leb_gt _ _)) in Hb by lia. by eapply H0, Hb.
Qed.

Section daemon.
  Context (E : env) `{!MallocLaws (malloc_ok E)} (cfg : allreduce_config) (conns : list Z) (active : gset Z).

Lemma daemon_run_ok h0 p evs sp :
  daemon_config cfg conns active -> heap_wf h0 -> allreduce_init_mempools E cfg (no_pools h0) = Ret (p, 0) ->
  spec_run E cfg conns active evs start_spec = Some sp ->
  answered cfg conns active (daemon_run E cfg evs (start_world p conns active)) sp.
Proof.
  intros Hc Hh Hi Hsp. pose proof Hc as [Hr Hcl Hd Hba Hsz Hcn Hac].
  assert (num_clients cfg + dest_num cfg < 2 ^ 60) by nia.
  eapply run_ok; try done; try lia. apply start_related. by eapply (init_ok E).
Qed.

(** C2: A daemon that has created its pools handles any sequence of events the
    specification allows without undefined behaviour.  It sends exactly the messages of
    the specification, in its order, or stops because memory ran out; when no operation
    and no transfer is left, its table is empty and all elements are back in the pools. *)
Theorem daemon_refines h0 p evs sp :
  daemon_config cfg conns active -> heap_wf h0 -> allreduce_init_mempools E cfg (no_pools h0) = Ret (p, 0) ->
  spec_run E cfg conns active evs start_spec = Some sp ->
  exists w, daemon_run E cfg evs (start_world p conns active) = Ret w /\
    (callback_errno (w_ucx w) = DOCA_ERROR_NO_MEMORY \/
     callback_errno (w_ucx w) = DOCA_SUCCESS /\ sent (w_ucx w) = s_sent sp /\
     (s_ops sp = ∅ -> s_pend sp = ∅ ->
      super_requests_hash w = ∅ /\ pending (w_ucx w) = ∅ /\ pools_free cfg w)).
Proof.
  intros Hc Hh Hi Hsp. destruct (daemon_run_ok h0 p evs sp Hc Hh Hi Hsp) as (w & -> & H). exists w. split; [done|].
  destruct H as [H|H]; [by left|right]. destruct (related_sent _ _ _ _ _ H) as [Hs He]. do 2 (split; [done|]).
  intros Ho Hp. destruct (related_idle _ _ _ _ _ H Ho Hp) as (? & ? & ?). do 2 (split; [done|]). by apply pools_ok_free.
Qed.

(** The vectors of one operation arrive in any order. *)
Definition arrivals_ok (len : nat) (l : list arrival) : Prop :=
  Forall (fun a => length (vector_of a) = len /\ match a with FromClient c _ => c ∈ active | _ => True end) l /\
  Z.of_nat len <= vector_size cfg /\
  Z.of_nat (length (clients_of l)) = num_clients cfg /\ Z.of_nat (length (peers_of l)) = dest_num cfg.

Lemma delivers_ok h0 p id len l :
  daemon_config cfg conns active -> heap_wf h0 -> allreduce_init_mempools E cfg (no_pools h0) = Ret (p, 0) ->
  (forall n, ucp E n = Immediate) -> datatype cfg <> ALLREDUCE_INT -> arrivals_ok len l ->
  exists w, daemon_run E cfg (arrival_event id <$> l) (start_world p conns active) = Ret w /\
    (callback_errno (w_ucx w) = DOCA_ERROR_NO_MEMORY \/
     sent (w_ucx w) = to_peers cfg conns id (clients_of l) ++ to_clients cfg id (clients_of l) (peers_of l) /\
     pools_free cfg w).
Proof.
  intros Hc Hh Hi Hnow Hdt (Hl & Hsz & Hn & Hp).
  destruct (arrivals_now E cfg conns active id len Hnow Hdt Hsz l [] start_spec) as (sp & Hrun & Hst & Ho & Hs); try done.
  { unfold state_is. cbn. assert (all_clients cfg [] = false) as Ha.
    { unfold all_clients. pose proof (dc_clients _ _ _ Hc). apply Z.eqb_neq. cbn. lia. }
    unfold complete. rewrite Ha. done. }
  { cbn [app]. lia. } { cbn [app]. lia. }
  assert (all_clients cfg (clients_of l) = true) as Ha by (unfold all_clients; lia).
  assert (complete cfg (clients_of l) (peers_of l) = true) as Hco by (unfold complete; rewrite Ha; cbn; lia).
  cbn [app] in *. rewrite Ha in Hs. rewrite Hco in Ho, Hs.
  destruct (daemon_run_ok h0 p _ sp Hc Hh Hi Hrun) as (w & -> & H). exists w. split; [done|].
  destruct H as [H|H]; [by left|right]. destruct (related_sent _ _ _ _ _ H) as [Hs' He].
  split; [congruence|]. apply pools_ok_free. by apply (related_idle _ _ _ _ _ H).
Qed.

End daemon.

(** ** All daemons of an operation *)

(** A daemon with its environment, and the vectors that come to it. *)
Record node : Type := Node {
  n_env : env;
  n_cfg : allreduce_config;
  n_conns : list Z;
  n_active : gset Z;
  n_heap : heap;
  n_pools : pools;
  n_arrivals : list arrival;
}.

Definition node_run (id : Z) (x : node) : outcome world :=
  daemon_run (n_env x) (n_cfg x) (arrival_event id <$> n_arrivals x) (start_world (n_pools x) (n_conns x) (n_active x)).

(** The node is set up, its UCX calls complete at once, its vectors are bytes, and each of
    its clients has sent one. *)
Record node_ok (len : nat) (x : node) : Prop := {
  nk_malloc : MallocLaws (malloc_ok (n_env x));
  nk_config : daemon_config (n_cfg x) (n_conns x) (n_active x);
  nk_heap : heap_wf (n_heap x);
  nk_pools : allreduce_init_mempools (n_env x) (n_cfg x) (no_pools (n_heap x)) = Ret (n_pools x, 0);
  nk_now : forall n, ucp (n_env x) n = Immediate;
  nk_arrivals : arrivals_ok (n_cfg x) (n_active x) len (n_arrivals x);
  nk_bytes : datatype (n_cfg x) = ALLREDUCE_BYTE;
}.

(** The reduction depends on the operation and the type only. *)
Lemma reduction_cfg c1 c2 l :
  datatype c1 = datatype c2 -> operation c1 = operation c2 -> reduction c1 l = reduction c2 l.
Proof.
  intros Hd Ho. assert (forall x y, vreduce c1 x y = vreduce c2 x y) as Hv.
  { induction x as [|a x IH]; intros [|b y]; cbn; [done..|]. unfold relem. rewrite Hd, Ho. by rewrite IH. }
  assert (forall l x, fold_vec c1 x l = fold_vec c2 x l) as Hf.
  { induction l0 as [|y l0 IH]; intros x; cbn; [done|]. rewrite Hv. by destruct (vreduce c2 x y). }
  destruct l; [done|apply Hf].
Qed.

Lemma filter_none {A} (P : A -> Prop) `{!forall x, Decision (P x)} (l : list A) : (forall x, x ∈ l -> ~ P x) -> filter P l = [].
Proof. intros Hn. induction l as [|x l IH]; [done|]. rewrite filter_cons_False by (apply Hn; set_solver). apply IH. set_solver. Qed.
Lemma filter_all {A} (P : A -> Prop) `{!forall x, Decision (P x)} (l : list A) : (forall x, x ∈ l -> P x) -> filter P l = l.
Proof. intros Hn. induction l as [|x l IH]; [done|]. rewrite filter_cons_True by (apply Hn; set_solver). f_equal. apply IH. set_solver. Qed.

(** The clients' vectors of a node. *)
Definition own (x : node) : list (list Z) := (clients_of (n_arrivals x)).*2.

(** The node [x] does not run out of memory, and [v] is a vector that it sends to a peer. *)
Definition passes_on (id : Z) (x : node) (v : list Z) : Prop :=
  exists w m, node_run id x = Ret w /\ callback_errno (w_ucx w) = DOCA_SUCCESS /\ m ∈ sent (w_ucx w)
    /\ m_am m = ALLREDUCE_OP_AM_ID /\ m_data m = Some <$> v.

(** What the peers of a node have sent is what comes from them, in any order. *)
Definition connected (id : Z) (nodes : list node) : Prop :=
  forall i x, nodes !! i = Some x ->
    exists vs, vs ≡ₚ peers_of (n_arrivals x) /\ Forall2 (fun v y => passes_on id y v) vs (delete i nodes).

Lemma node_delivers id len x :
  node_ok len x -> exists w, node_run id x = Ret w /\
    (callback_errno (w_ucx w) = DOCA_ERROR_NO_MEMORY \/
     sent (w_ucx w) = to_peers (n_cfg x) (n_conns x) id (clients_of (n_arrivals x))
                      ++ to_clients (n_cfg x) id (clients_of (n_arrivals x)) (peers_of (n_arrivals x))).
Proof.
  intros [Hm Hc Hh Hi Hn Ha Hb].
  destruct (delivers_ok (n_env x) (n_cfg x) (n_conns x) (n_active x) (n_heap x) (n_pools x) id len (n_arrivals x))
    as (w & E & H); [done..|by rewrite Hb|done|]. exists w. split; [exact E|]. by destruct H as [|[? _]]; [left|right].
Qed.

(** What is passed on is the reduction of the clients' vectors. *)
Lemma passes_on_reduction id len x v :
  node_ok len x -> passes_on id x v -> reduction (n_cfg x) (own x) = Ret v.
Proof.
  intros Hk (w & m & E & He & Hm & Ham & Hd). destruct (node_delivers id len x Hk) as (w' & E' & H).
  rewrite E in E'. injection E' as <-. destruct H as [H|H]; [congruence|]. rewrite H in Hm.
  rewrite reduction_ret by (by rewrite (nk_bytes _ _ Hk)). f_equal.
  apply elem_of_app in Hm as [Hm|Hm]; apply list_elem_of_fmap in Hm as (k & -> & _); cbn in *; [|done].
  by apply (inj (fmap Some)) in Hd.
Qed.

Lemma own_nonempty len x : node_ok len x -> own x <> [].
Proof.
  intros Hk Hn. destruct (nk_arrivals _ _ Hk) as (_ & _ & Hl & _). pose proof (dc_clients _ _ _ (nk_config _ _ Hk)).
  assert (length (own x) = 0%nat) as H0 by (by rewrite Hn). unfold own in H0. rewrite length_fmap in H0. lia.
Qed.

(** C36: All daemons answer the same. Take any number of daemons with the same operation
    on bytes, each set up with its own clients and peers, with UCX calls that complete
    at once and messages that arrive whole. If what comes to each from its peers is, in
    any order, what the runs of the others send to their peers (none of which has run
    out of memory), then each daemon runs without undefined behaviour and, unless its
    memory runs out, sends every client of its own one answer, in the order of their
    requests: the reduction of all clients' vectors of all daemons. *)
Theorem daemons_agree id len cfg nodes i x :
  Forall (fun x => node_ok len x /\ datatype (n_cfg x) = datatype cfg /\ operation (n_cfg x) = operation cfg) nodes ->
  connected id nodes -> nodes !! i = Some x ->
  exists w, node_run id x = Ret w /\
    (callback_errno (w_ucx w) = DOCA_ERROR_NO_MEMORY \/
     filter (fun m => m_am m = ALLREDUCE_CTRL_AM_ID) (sent (w_ucx w))
     = (fun c => Message c ALLREDUCE_CTRL_AM_ID id (Some <$> the [] (reduction cfg (concat (own <$> nodes)))))
       <$> (clients_of (n_arrivals x)).*1).
Proof.
  intros Hall Hcon Hx. pose proof (Forall_lookup_1 _ _ _ _ Hall Hx) as (Hk & Hdt & Hop).
  destruct (node_delivers id len x Hk) as (w & E & H). exists w. split; [done|]. destruct H as [H|Hs]; [by left|right].
  destruct (Hcon i x Hx) as (vs & Hpe & Hvs). destruct (Permutation_Forall2 Hpe Hvs) as (ys & Hys & Hf).
  assert (total (n_cfg x) (own x) (peers_of (n_arrivals x)) = reduction cfg (concat (own <$> nodes))) as Ht.
  { rewrite <-(reduction_cfg (n_cfg x) cfg) by done.
    apply (total_all _ (nk_bytes _ _ Hk) _ _ (own <$> ys)); [by apply (own_nonempty len)| |].
    - apply Forall2_fmap_r. eapply Forall2_impl_in; [exact Hf|]. intros v y _ Hy Hv. cbn.
      assert (y ∈ nodes) as Hin by (rewrite (delete_Permutation nodes i x Hx), elem_of_cons, Hys; by right).
      pose proof (proj1 (Forall_forall _ _) Hall y Hin) as (Hky & Hd & Ho). split; [by apply (own_nonempty len)|].
      rewrite (reduction_cfg _ (n_cfg y)) by congruence. exact (passes_on_reduction id len y v Hky Hv).
    - rewrite (delete_Permutation nodes i x Hx). cbn. by rewrite Hys. }
  rewrite Hs, filter_app. unfold to_peers, to_clients. fold (own x). rewrite Ht.
  rewrite filter_none, filter_all; [done| |]; intros m (k & -> & _)%list_elem_of_fmap; [done|by cbn].
Qed.

(** ** Concrete daemons *)

(** Two clients (connections 101 and 102), two peers (201 and 202), vectors of up to two
    bytes. *)
Definition sample_config (dt : allreduce_datatype) : allreduce_config :=
  Config ALLREDUCE_DAEMON 2 2 dt ALLREDUCE_SUM 1 1 ALLREDUCE_OFFLOAD_MODE 2.
Definition sample_conns : list Z := [201; 202].
Definition sample_active : gset Z := {[101; 102; 201; 202]}.

(** Memory of 100 bytes and more is refused; the first [n] UCX calls are not completed
    at once. *)
Definition sample_env (n : Z) : env := Env (fun _ b => b <? 100) (fun k => if (0 <=? k) && (k <? n) then InProgress else Immediate).
#[export] Instance sample_env_laws n : MallocLaws (malloc_ok (sample_env n)).
Proof. split. intros k b Hb. cbn in Hb. lia. Qed.

Lemma sample_now n : ucp (sample_env 0) n = Immediate.
Proof. cbn. by destruct (0 <=? n) eqn:H1, (n <? 0) eqn:H2; try lia. Qed.

Lemma sample_daemon dt : daemon_config (sample_config dt) sample_conns sample_active.
Proof. split; cbn; try done; try lia. by repeat constructor; set_solver. Qed.

Definition sample_pools : pools :=
  (the (no_pools sample_heap, 7) (allreduce_init_mempools (sample_env 0) (sample_config ALLREDUCE_BYTE) (no_pools sample_heap))).1.

(** The vectors of a client and a peer, whole or announced. *)
Definition from_client (id c : Z) (x : list Z) : event := arrival_event id (FromClient c x).
Definition from_peer (id k : Z) (x : list Z) : event := arrival_event id (FromPeer k x).
Definition announced (id k : Z) (x : list Z) : event :=
  Arrive ALLREDUCE_OP_AM_ID (AmDesc k id (Some <$> x) true).

(** Two operations at once; the first send is completed at the end. *)
Definition sample_events : list event :=
  [from_client 7 101 [1; 2]; from_peer 8 201 [9; 9]; from_client 7 102 [3; 4]; from_client 8 102 [5; 6];
   from_peer 7 201 [10; 20]; from_peer 8 202 [1; 1]; from_peer 7 202 [100; 200]; from_client 8 101 [7; 8];
   Complete 1 UCS_OK].
Definition sample_spec : spec :=
  default start_spec (spec_run (sample_env 1) (sample_config ALLREDUCE_BYTE) sample_conns sample_active sample_events start_spec).

Lemma daemon_refines_witness :
  exists w, daemon_run (sample_env 1) (sample_config ALLREDUCE_BYTE) sample_events
              (start_world sample_pools sample_conns sample_active) = Ret w /\
    (callback_errno (w_ucx w) = DOCA_ERROR_NO_MEMORY \/
     callback_errno (w_ucx w) = DOCA_SUCCESS /\ sent (w_ucx w) = s_sent sample_spec /\
     (s_ops sample_spec = ∅ -> s_pend sample_spec = ∅ ->
      super_requests_hash w = ∅ /\ pending (w_ucx w) = ∅ /\ pools_free (sample_config ALLREDUCE_BYTE) w)).
Proof.
  apply (daemon_refines (sample_env 1) (sample_config ALLREDUCE_BYTE) sample_conns sample_active sample_heap sample_pools
           sample_events sample_spec); [apply sample_daemon|exact sample_heap_wf|vm_compute; reflexivity|vm_compute; reflexivity].
Defined.

(** In this run both operations end, and the clients get 114, 226 and 22, 24. *)
Example sample_run :
  s_ops sample_spec = ∅ /\ s_pend sample_spec = ∅ /\
  ((fun m => (m_conn m, m_id m, m_data m)) <$> filter (fun m => m_am m = ALLREDUCE_CTRL_AM_ID) (s_sent sample_spec))
  = [(102, 8, [Some 22; Some 24]); (101, 8, [Some 22; Some 24]);
     (101, 7, [Some 114; Some 226]); (102, 7, [Some 114; Some 226])].
Proof. by vm_compute. Qed.

Definition sample_arrivals : list arrival :=
  [FromPeer 202 [100; 200]; FromClient 102 [3; 4]; FromPeer 201 [10; 20]; FromClient 101 [1; 2]].

Lemma sample_arrivals_ok dt : arrivals_ok (sample_config dt) sample_active 2 sample_arrivals.
Proof.
  split; [|split; [cbn; lia|done]]. repeat constructor; cbn; set_solver.
Qed.


(** Three daemons with two clients each; the vectors come to each in another order. *)
Definition sample_node (l : list arrival) : node :=
  Node (sample_env 0) (sample_config ALLREDUCE_BYTE) sample_conns sample_active sample_heap sample_pools l.
Definition sample_nodes : list node :=
  [sample_node [FromPeer 202 [100; 200]; FromClient 102 [3; 4]; FromPeer 201 [10; 21]; FromClient 101 [1; 2]];
   sample_node [FromClient 101 [10; 20]; FromClient 102 [0; 1]; FromPeer 201 [4; 6]; FromPeer 202 [100; 200]];
   sample_node [FromPeer 201 [4; 6]; FromPeer 202 [10; 21]; FromClient 102 [40; 50]; FromClient 101 [60; 150]]].

Definition passes_on_b (id : Z) (x : node) (v : list Z) : bool :=
  match node_run id x with
  | Ret w => bool_decide (callback_errno (w_ucx w) = DOCA_SUCCESS) &&
      bool_decide (Exists (fun m => m_am m = ALLREDUCE_OP_AM_ID /\ m_data m = Some <$> v) (sent (w_ucx w)))
  | Undef _ => false
  end.

Lemma passes_on_b_ok id x v : passes_on_b id x v = true -> passes_on id x v.
Proof.
  unfold passes_on_b. destruct (node_run id x) as [w|] eqn:E; [|done].
  intros [H1%bool_decide_eq_true H2%bool_decide_eq_true]%andb_prop. apply Exists_exists in H2 as (m & Hm & Ha & Hd).
  exists w, m. by split_and!.
Qed.

Lemma sample_nodes_ok :
  Forall (fun x => node_ok 2 x /\ datatype (n_cfg x) = ALLREDUCE_BYTE /\ operation (n_cfg x) = ALLREDUCE_SUM) sample_nodes.
Proof.
  assert (forall l, arrivals_ok (sample_config ALLREDUCE_BYTE) sample_active 2 l -> node_ok 2 (sample_node l)) as H.
  { intros l Hl. split; [apply (sample_env_laws 0)|apply sample_daemon|exact sample_heap_wf|by vm_compute|apply sample_now|exact Hl|done]. }
  assert (forall l, arrivals_ok (sample_config ALLREDUCE_BYTE) sample_active 2 l -> node_ok 2 (sample_node l)
    /\ datatype (n_cfg (sample_node l)) = ALLREDUCE_BYTE /\ operation (n_cfg (sample_node l)) = ALLREDUCE_SUM) as H'.
  { intros l Hl. split; [by apply H|split; reflexivity]. }
  do 3 (apply Forall_cons; split; [apply H'; (split; [|split; [cbn; lia|split; reflexivity]]); repeat constructor; cbn; set_solver|]).
  constructor.
Qed.

Lemma sample_connected : connected 7 sample_nodes.
Proof.
  intros i x Hx. destruct i as [|[|[|i]]]; cbn in Hx; [..|done]; injection Hx as <-.
  1: exists [[10; 21]; [100; 200]]; split; [apply Permutation_swap|].
  2: exists [[4; 6]; [100; 200]]; split; [reflexivity|].
  3: exists [[4; 6]; [10; 21]]; split; [reflexivity|].
  all: apply List.Forall2_cons; [apply passes_on_b_ok; by vm_compute|].
  all: apply List.Forall2_cons; [apply passes_on_b_ok; by vm_compute|]; apply List.Forall2_nil.
Qed.

Lemma daemons_agree_witness :
  exists w, node_run 7 (sample_node [FromPeer 201 [4; 6]; FromPeer 202 [10; 21]; FromClient 102 [40; 50]; FromClient 101 [60; 150]]) = Ret w /\
    (callback_errno (w_ucx w) = DOCA_ERROR_NO_MEMORY \/
     filter (fun m => m_am m = ALLREDUCE_CTRL_AM_ID) (sent (w_ucx w))
     = [Message 102 ALLREDUCE_CTRL_AM_ID 7 [Some 114; Some 227]; Message 101 ALLREDUCE_CTRL_AM_ID 7 [Some 114; Some 227]]).
Proof.
  apply (daemons_agree 7 2 (sample_config ALLREDUCE_BYTE) sample_nodes 2); [exact sample_nodes_ok|exact sample_connected|reflexivity].
Defined.

(** Peers whose vectors are only announced.  With two peers and transfers that take
    time, both announcements are counted when they come; the first transfer that is
    complete then finds as many vectors as peers and reduces them, though the second one
    is not there yet: the daemon reads memory nobody wrote. *)
Theorem announced_vectors_undefined :
  daemon_run (sample_env 9) (sample_config ALLREDUCE_BYTE)
    [from_client 7 101 [1; 2]; from_client 7 102 [3; 4]; Complete 1 UCS_OK; Complete 2 UCS_OK;
     announced 7 201 [10; 20]; announced 7 202 [100; 200]; Complete 3 UCS_OK]
    (start_world sample_pools sample_conns sample_active) = Undef Uninitialised.
Proof. vm_compute. reflexivity. Qed.

(** A single peer may announce its vector. *)
Example announced_by_one :
  the [] (let* w := daemon_run (sample_env 9)
            (Config ALLREDUCE_DAEMON 1 2 ALLREDUCE_BYTE ALLREDUCE_SUM 1 1 ALLREDUCE_OFFLOAD_MODE 1)
            [from_client 7 101 [1; 2]; announced 7 201 [10; 20]; Complete 1 UCS_OK; Complete 2 UCS_OK; Complete 3 UCS_OK]
            (start_world sample_pools [201] sample_active) in
          Ret ((fun m => (m_conn m, m_data m)) <$> sent (w_ucx w)))
  = [(201, [Some 1; Some 2]); (101, [Some 11; Some 22])].
Proof. vm_compute. reflexivity. Qed.

(** A vector too many.  The log says that it is ignored; it is added to the result of
    this daemon, whose peers got the reduction without it, and the sender gets a reply. *)
Theorem extra_vector_added :
  the [] (let* w := daemon_run (sample_env 0) (sample_config ALLREDUCE_BYTE)
            [from_client 7 101 [1; 2]; from_client 7 102 [3; 4]; from_client 7 101 [50; 60];
             from_peer 7 201 [10; 20]; from_peer 7 202 [100; 120]]
            (start_world sample_pools sample_conns sample_active) in
          Ret ((fun m => (m_conn m, m_data m)) <$> sent (w_ucx w)))
  = [(201, [Some 4; Some 6]); (202, [Some 4; Some 6]);
     (101, [Some 164; Some 206]); (102, [Some 164; Some 206]); (101, [Some 164; Some 206])].
Proof. vm_compute. reflexivity. Qed.

(** For [float] the order matters: daemons that hold the vectors 2^24, 1 and 1 send
    different results to their clients. *)
Example float_daemons_differ :
  let cfg := sample_config ALLREDUCE_FLOAT in
  let a := 1266679808 in let one := 1065353216 in
  (total cfg [[a]] [[one]; [one]], total cfg [[one]] [[a]; [one]]) = (Ret [1266679809], Ret [1266679808]).
Proof. vm_compute. reflexivity. Qed.
