(* ===== verification/L2Reflector.v ===== *)
(** * L2 reflector: the device program

    applications/l2_reflector: the rings that l2_reflector_core.c sets up on the host and
    the device program of l2_reflector_device.c, which copies every received packet into a
    transmit buffer, swaps its MAC addresses and posts it for sending.

    The network card is the environment: it writes a packet into the buffer of the next
    receive entry and reports it in the next completion entry, whose owner bit changes
    from pass to pass over the ring; it sends the entries of the send queue in order, up
    to the index the doorbell gave.  The entries are records of the members the program
    reads and writes through the access functions of the FlexIO library. *)
From S2P Require Import Prelude.

Section Reflector.

(** The logarithm of the number of segments of a send entry, a constant of FlexIO. *)
Variable LOG_SQE_NUM_SEGS : Z.

(** ** Rings *)

Definition L2_LOG_SQ_RING_DEPTH : Z := 7.
Definition L2_LOG_RQ_RING_DEPTH : Z := 7.
Definition L2_LOG_CQ_RING_DEPTH : Z := 7.
Definition L2_LOG_WQ_DATA_ENTRY_BSIZE : Z := 11.
Definition L2_CQ_IDX_MASK : Z := Z.shiftl 1 L2_LOG_CQ_RING_DEPTH - 1.
Definition L2_RQ_IDX_MASK : Z := Z.shiftl 1 L2_LOG_RQ_RING_DEPTH - 1.
Definition L2_SQ_IDX_MASK : Z := Z.shiftl 1 (L2_LOG_SQ_RING_DEPTH + LOG_SQE_NUM_SEGS) - 1.
Definition L2_DATA_IDX_MASK : Z := Z.shiftl 1 L2_LOG_SQ_RING_DEPTH - 1.

(** A completion: the owner bit, the number of the receive entry and the length. *)
Record cqe64 : Type := Cqe { owner : Z; wqe_counter : Z; byte_cnt : Z }.

Inductive sqe_seg : Type :=
| SegNone
| SegCtrl (pi sqn : Z)
| SegEth (mss checksum : Z)
| SegData (len lkey addr : Z).

(** ** Device context *)

Record cq_ctx_t : Type := CqCtx { cq_number : Z; cqe : Z; cq_idx : Z; cq_hw_owner_bit : Z }.
Record sq_ctx_t : Type := SqCtx { sq_number : Z; sq_wqe_seg_idx : Z; sq_pi : Z }.

Record dev_ctx : Type := DevCtx {
  lkey : Z; is_initalized : bool; rqcq_ctx : cq_ctx_t; sqcq_ctx : cq_ctx_t; rq_number : Z;
  sq_ctx : sq_ctx_t; sq_tx_buff : Z; tx_buff_idx : Z
}.

Definition set_rqcq (c : cq_ctx_t) (d : dev_ctx) : dev_ctx :=
  DevCtx (lkey d) (is_initalized d) c (sqcq_ctx d) (rq_number d) (sq_ctx d) (sq_tx_buff d) (tx_buff_idx d).
Definition set_sq (s : sq_ctx_t) (d : dev_ctx) : dev_ctx :=
  DevCtx (lkey d) (is_initalized d) (rqcq_ctx d) (sqcq_ctx d) (rq_number d) s (sq_tx_buff d) (tx_buff_idx d).
Definition set_tx_idx (i : Z) (d : dev_ctx) : dev_ctx :=
  DevCtx (lkey d) (is_initalized d) (rqcq_ctx d) (sqcq_ctx d) (rq_number d) (sq_ctx d) (sq_tx_buff d) i.

(** The device: its context and memory (rings, doorbell records, data buffers at
    [rx_base] and [sq_tx_buff]), and the card: the packets it has received and sent. *)
Record world : Type := World {
  dev : dev_ctx; mem : gmap Z Z; rx_base : Z;
  cq_ring : list cqe64; rq_ring : list Z; sq_ring : list sqe_seg;
  cq_dbr : Z; rq_dbr : Z; sq_db : Z; armed : option Z;
  hw_rx : Z; hw_tx : Z; wire : list (list Z)
}.

Definition set_dev (d : dev_ctx) (w : world) : world :=
  World d (mem w) (rx_base w) (cq_ring w) (rq_ring w) (sq_ring w) (cq_dbr w) (rq_dbr w) (sq_db w)
    (armed w) (hw_rx w) (hw_tx w) (wire w).
Definition set_mem (m : gmap Z Z) (w : world) : world :=
  World (dev w) m (rx_base w) (cq_ring w) (rq_ring w) (sq_ring w) (cq_dbr w) (rq_dbr w) (sq_db w)
    (armed w) (hw_rx w) (hw_tx w) (wire w).
Definition set_sq_ring (l : list sqe_seg) (w : world) : world :=
  World (dev w) (mem w) (rx_base w) (cq_ring w) (rq_ring w) l (cq_dbr w) (rq_dbr w) (sq_db w)
    (armed w) (hw_rx w) (hw_tx w) (wire w).
Definition set_dbrs (cq rq sq : Z) (w : world) : world :=
  World (dev w) (mem w) (rx_base w) (cq_ring w) (rq_ring w) (sq_ring w) cq rq sq
    (armed w) (hw_rx w) (hw_tx w) (wire w).
Definition set_armed (a : option Z) (w : world) : world :=
  World (dev w) (mem w) (rx_base w) (cq_ring w) (rq_ring w) (sq_ring w) (cq_dbr w) (rq_dbr w) (sq_db w)
    a (hw_rx w) (hw_tx w) (wire w).

(** ** Memory *)

Fixpoint load_bytes (m : gmap Z Z) (a : Z) (n : nat) : outcome (list Z) :=
  match n with
  | O => Ret []
  | S n =>
      let* b := of_option Uninitialised (m !! a) in
      let* l := load_bytes m (a + 1) n in
      Ret (b :: l)
  end.

Fixpoint store_bytes (m : gmap Z Z) (a : Z) (l : list Z) : gmap Z Z :=
  match l with
  | [] => m
  | b :: l => store_bytes (<[a := b]> m) (a + 1) l
  end.

(** The data buffer of a queue: 2^7 entries of 2^11 bytes. *)
Definition in_buffer (base a n : Z) : bool := (base <=? a) && (a + n <=? base + 2 ^ 18).

(** ** Set-up *)

(** [init_dpa_rq_ring]: the receive entries point to consecutive chunks. *)
Fixpoint init_dpa_rq_ring (num_of_wqes : nat) (data_daddr data_chunk_bsize : Z) : list Z :=
  match num_of_wqes with
  | O => []
  | S n => data_daddr :: init_dpa_rq_ring n (data_daddr + data_chunk_bsize) data_chunk_bsize
  end.

(** [allocate_cq_memory]: all completions belong to the hardware. *)
Definition allocate_cq_memory (log_depth : Z) : list cqe64 :=
  replicate (Z.to_nat (2 ^ log_depth)) (Cqe 1 0 0).

Definition init_cq (cq_num : Z) : cq_ctx_t := CqCtx cq_num 0 0 1.
Definition init_sq (wq_num : Z) (ctx : sq_ctx_t) : sq_ctx_t := SqCtx wq_num 0 (sq_pi ctx).

(** The numbers and addresses the host passes to the device. *)
Record l2_reflector_data : Type := L2Data {
  rq_cq_num : Z; rq_num : Z; sq_cq_num : Z; sq_num : Z; sq_mkey : Z; sq_wqd_daddr : Z
}.

Definition l2_reflector_device_init (data : l2_reflector_data) (d : dev_ctx) : dev_ctx :=
  DevCtx (sq_mkey data) true (init_cq (rq_cq_num data)) (init_cq (sq_cq_num data)) (rq_num data)
    (init_sq (sq_num data) (sq_ctx d)) (sq_wqd_daddr data) 0.

(** ** Packets *)

Definition get_next_dte (w : world) : world * Z :=
  let d := dev w in
  let mask := u32 (Z.shiftl (Z.land (tx_buff_idx d) L2_DATA_IDX_MASK) L2_LOG_WQ_DATA_ENTRY_BSIZE) in
  (set_dev (set_tx_idx (u32 (tx_buff_idx d + 1)) d) w, sq_tx_buff d + mask).

Definition get_next_sqe (w : world) : world * Z :=
  let s := sq_ctx (dev w) in
  (set_dev (set_sq (SqCtx (sq_number s) (u32 (sq_wqe_seg_idx s + 1)) (sq_pi s)) (dev w)) w,
   Z.land (sq_wqe_seg_idx s) L2_SQ_IDX_MASK).

Definition put_seg (i : Z) (s : sqe_seg) (w : world) : outcome world :=
  let* _ := require (i <? Z.of_nat (length (sq_ring w))) OutOfBounds in
  Ret (set_sq_ring (<[Z.to_nat i := s]> (sq_ring w)) w).

Definition step_cq (w : world) : outcome world :=
  let c := rqcq_ctx (dev w) in
  let idx := u32 (cq_idx c + 1) in
  let i := Z.land idx L2_CQ_IDX_MASK in
  let bit := if i =? 0 then 1 - cq_hw_owner_bit c else cq_hw_owner_bit c in
  let w := set_dev (set_rqcq (CqCtx (cq_number c) i idx bit) (dev w)) w in
  Ret (set_dbrs idx (rq_dbr w) (sq_db w) w).

(** The loop that exchanges the two addresses at the start of the packet. *)
Fixpoint swap_macs (n : nat) (byte sq_data : Z) (m : gmap Z Z) : outcome (gmap Z Z) :=
  match n with
  | O => Ret m
  | S n =>
      let* tmp := of_option Uninitialised (m !! (sq_data + byte)) in
      let* b := of_option Uninitialised (m !! (sq_data + byte + 6)) in
      swap_macs n (byte + 1) sq_data (<[sq_data + byte + 6 := tmp]> (<[sq_data + byte := b]> m))
  end.

Definition process_packet (w : world) : outcome world :=
  let* c := of_option OutOfBounds (cq_ring w !! Z.to_nat (cqe (rqcq_ctx (dev w)))) in
  let rq_wqe_idx := wqe_counter c in
  let data_sz := byte_cnt c in
  let* rq_data := of_option OutOfBounds (rq_ring w !! Z.to_nat (Z.land rq_wqe_idx L2_RQ_IDX_MASK)) in
  let (w, sq_data) := get_next_dte w in
  let* _ := require (in_buffer (rx_base w) rq_data data_sz) OutOfBounds in
  let* _ := require (in_buffer (sq_tx_buff (dev w)) sq_data (Z.max data_sz 12)) OutOfBounds in
  let* data := load_bytes (mem w) rq_data (Z.to_nat data_sz) in
  let m := store_bytes (mem w) sq_data data in
  let* m := swap_macs 6 0 sq_data m in
  let w := set_mem m w in
  let (w, swqe) := get_next_sqe w in
  let* w := put_seg swqe (SegCtrl (sq_pi (sq_ctx (dev w))) (sq_number (sq_ctx (dev w)))) w in
  let (w, swqe) := get_next_sqe w in
  let* w := put_seg swqe (SegEth 0 0) w in
  let (w, swqe) := get_next_sqe w in
  let* w := put_seg swqe (SegData data_sz (lkey (dev w)) sq_data) w in
  let (w, _) := get_next_sqe w in
  let s := sq_ctx (dev w) in
  let pi := u32 (sq_pi s + 1) in
  let w := set_dev (set_sq (SqCtx (sq_number s) (sq_wqe_seg_idx s) pi) (dev w)) w in
  Ret (set_dbrs (cq_dbr w) (u32 (rq_dbr w + 1)) pi w).

(** The condition of the loop: the next completion was written by the card. *)
Definition has_packet (w : world) : outcome bool :=
  let c := rqcq_ctx (dev w) in
  let* q := of_option OutOfBounds (cq_ring w !! Z.to_nat (cqe c)) in
  Ret (negb (owner q =? cq_hw_owner_bit c)).

(** One turn of the loop of the event handler. *)
Definition poll (w : world) : outcome world :=
  let* b := has_packet w in
  if b then
    let* w := process_packet w in
    step_cq w
  else Ret w.

Fixpoint handler_loop (fuel : nat) (w : world) : outcome world :=
  let* b := has_packet w in
  if b then
    match fuel with
    | O => Undef OutOfFuel
    | S fuel =>
        let* w := process_packet w in
        let* w := step_cq w in
        handler_loop fuel w
    end
  else Ret w.

(** The event handler; [flexio_dev_thread_reschedule] ends it. *)
Definition l2_reflector_device_event_handler (w : world) : outcome world :=
  if is_initalized (dev w) then
    let* w := handler_loop (length (cq_ring w)) w in
    Ret (set_armed (Some (cq_idx (rqcq_ctx (dev w)))) w)
  else Ret w.

(** ** The card *)

(** A packet arrives; it is dropped when no receive entry is posted. *)
Definition hw_receive (p : list Z) (w : world) : outcome world :=
  if uwrap 16 (rq_dbr w - hw_rx w) =? 0 then Ret w
  else
    let i := Z.to_nat (hw_rx w mod 128) in
    let* a := of_option OutOfBounds (rq_ring w !! i) in
    let c := Cqe (hw_rx w / 128 mod 2) (uwrap 16 (hw_rx w)) (Z.of_nat (length p)) in
    Ret (World (dev w) (store_bytes (mem w) a p) (rx_base w) (<[i := c]> (cq_ring w)) (rq_ring w) (sq_ring w)
           (cq_dbr w) (rq_dbr w) (sq_db w) None (hw_rx w + 1) (hw_tx w) (wire w)).

(** The next posted packet is sent. *)
Definition hw_transmit (w : world) : outcome world :=
  if uwrap 16 (sq_db w - hw_tx w) =? 0 then Ret w
  else
    let i := 4 * (hw_tx w mod 128) in
    match sq_ring w !! Z.to_nat i, sq_ring w !! Z.to_nat (i + 1), sq_ring w !! Z.to_nat (i + 2) with
    | Some (SegCtrl _ _), Some (SegEth _ _), Some (SegData len _ addr) =>
        let* p := load_bytes (mem w) addr (Z.to_nat len) in
        Ret (World (dev w) (mem w) (rx_base w) (cq_ring w) (rq_ring w) (sq_ring w)
               (cq_dbr w) (rq_dbr w) (sq_db w) (armed w) (hw_rx w) (hw_tx w + 1) (wire w ++ [p]))
    | _, _, _ => Undef Uninitialised
    end.

Inductive event : Type := Receive (p : list Z) | Poll | Handle | Transmit.

Definition run_event (ev : event) (w : world) : outcome world :=
  match ev with
  | Receive p => hw_receive p w
  | Poll => poll w
  | Handle => l2_reflector_device_event_handler w
  | Transmit => hw_transmit w
  end.

Fixpoint run (evs : list event) (w : world) : outcome world :=
  match evs with
  | [] => Ret w
  | ev :: evs => let* w := run_event ev w in run evs w
  end.

(** The state after the host has created the queues and called the init function. *)
Definition no_dev : dev_ctx :=
  DevCtx 0 false (CqCtx 0 0 0 0) (CqCtx 0 0 0 0) 0 (SqCtx 0 0 0) 0 0.

Definition start (data : l2_reflector_data) (rx : Z) : world :=
  World (l2_reflector_device_init data no_dev) ∅ rx (allocate_cq_memory L2_LOG_CQ_RING_DEPTH)
    (init_dpa_rq_ring 128 rx (2 ^ L2_LOG_WQ_DATA_ENTRY_BSIZE)) (replicate 512 SegNone)
    0 128 0 None 0 0 [].

(** ** Specification: two queues of packets *)

Definition swap_mac (p : list Z) : list Z := take 6 (drop 6 p) ++ take 6 p ++ drop 12 p.

(** Packets that wait for the program, packets that wait for the card, packets sent. *)
Record spec : Type := Spec { rxq : list (list Z); txq : list (list Z); out : list (list Z) }.

(** [None]: a packet of a length the card does not deliver, or more than 128 packets that
    wait to be sent. *)
Definition spec_event (ev : event) (s : spec) : option spec :=
  match ev with
  | Receive p =>
      if (12 <=? length p)%nat && (length p <=? 2048)%nat then
        Some (if (length (rxq s) =? 128)%nat then s else Spec (rxq s ++ [p]) (txq s) (out s))
      else None
  | Poll =>
      match rxq s with
      | [] => Some s
      | p :: q => if (length (txq s) <? 128)%nat then Some (Spec q (txq s ++ [swap_mac p]) (out s)) else None
      end
  | Handle =>
      if (length (txq s) + length (rxq s) <=? 128)%nat
      then Some (Spec [] (txq s ++ (swap_mac <$> rxq s)) (out s)) else None
  | Transmit =>
      match txq s with
      | [] => Some s
      | p :: q => Some (Spec (rxq s) q (out s ++ [p]))
      end
  end.

Fixpoint spec_run (evs : list event) (s : spec) : option spec :=
  match evs with
  | [] => Some s
  | ev :: evs => match spec_event ev s with Some s => spec_run evs s | None => None end
  end.

(** ** Memory and indices *)

(** An entry of the send queue has 64 bytes, which are four segments. *)
Hypothesis four_segments : LOG_SQE_NUM_SEGS = 2.

Definition bytes_at (m : gmap Z Z) (a : Z) (l : list Z) : Prop :=
  forall i b, l !! i = Some b -> m !! (a + Z.of_nat i) = Some b.

Lemma bytes_at_cons m a b l : bytes_at m a (b :: l) <-> m !! a = Some b /\ bytes_at m (a + 1) l.
Proof.
  split.
  - intros H. split; [specialize (H 0%nat b eq_refl); by rewrite Z.add_0_r in H|].
    intros i c Hi. specialize (H (S i) c Hi). by replace (a + 1 + Z.of_nat i) with (a + Z.of_nat (S i)) by lia.
  - intros [H0 H] [|i] c Hi; cbn in Hi; [by rewrite Z.add_0_r; injection Hi as <-|].
    replace (a + Z.of_nat (S i)) with (a + 1 + Z.of_nat i) by lia. by apply H.
Qed.

Lemma l2_load_bytes_ok l : forall m a, bytes_at m a l -> load_bytes m a (length l) = Ret l.
Proof.
  induction l as [|b l IH]; intros m a H; cbn; [done|]. apply bytes_at_cons in H as [-> H]. cbn. by rewrite IH.
Qed.

Lemma lookup_store l : forall m a k,
  store_bytes m a l !! k =
  if decide (a <= k < a + Z.of_nat (length l)) then l !! Z.to_nat (k - a) else m !! k.
Proof.
  induction l as [|b l IH]; intros m a k; cbn [store_bytes].
  - rewrite decide_False by (cbn; lia). done.
  - rewrite IH. cbn [length]. repeat case_decide; try lia.
    + replace (Z.to_nat (k - a)) with (S (Z.to_nat (k - (a + 1)))) by lia. done.
    + assert (k = a) as -> by lia. rewrite lookup_insert_eq. by rewrite Z.sub_diag.
    + by rewrite lookup_insert_ne by lia.
Qed.

Lemma store_bytes_at m a l : bytes_at (store_bytes m a l) a l.
Proof.
  intros i b Hi. pose proof (lookup_lt_Some _ _ _ Hi). rewrite lookup_store, decide_True by lia.
  by replace (Z.to_nat (a + Z.of_nat i - a)) with i by lia.
Qed.

(** Two memories that agree outside a range. *)
Definition same_outside (a n : Z) (m m' : gmap Z Z) : Prop := forall k, ~ (a <= k < a + n) -> m' !! k = m !! k.

Lemma store_outside m a l n : Z.of_nat (length l) <= n -> same_outside a n m (store_bytes m a l).
Proof. intros Hn k Hk. rewrite lookup_store, decide_False by lia. done. Qed.

Lemma bytes_at_outside a n m m' b l :
  same_outside a n m m' -> b + Z.of_nat (length l) <= a \/ a + n <= b -> bytes_at m b l -> bytes_at m' b l.
Proof.
  intros Ho Hd H i c Hi. pose proof (lookup_lt_Some _ _ _ Hi). rewrite Ho; [by apply H|lia].
Qed.

(** What the exchange of the addresses does to memory. *)
Lemma swap_macs_ok n : forall byte a m,
  (forall j, byte <= j < byte + Z.of_nat n -> is_Some (m !! (a + j)) /\ is_Some (m !! (a + j + 6))) ->
  0 <= byte -> byte + Z.of_nat n <= 6 ->
  exists m', swap_macs n byte a m = Ret m' /\
    forall k, m' !! (a + k) =
      if decide (byte <= k < byte + Z.of_nat n) then m !! (a + k + 6)
      else if decide (byte + 6 <= k < byte + 6 + Z.of_nat n) then m !! (a + k - 6) else m !! (a + k).
Proof.
  induction n as [|n IH]; intros byte a m Hm H0 Hn; cbn [swap_macs].
  - exists m. split; [done|]. intros k. rewrite !decide_False by lia. done.
  - destruct (Hm byte) as [[x Hx] [y Hy]]; [lia|]. rewrite Hx, Hy. cbn [of_option].
    set (m1 := <[a + byte + 6 := x]> (<[a + byte := y]> m)).
    assert (forall k, k <> byte -> k <> byte + 6 -> m1 !! (a + k) = m !! (a + k)) as Hsame.
    { intros k ? ?. unfold m1. by rewrite !lookup_insert_ne by lia. }
    destruct (IH (byte + 1) a m1) as (m' & -> & Hk); [|lia|lia|].
    { intros j Hj. replace (a + j + 6) with (a + (j + 6)) by lia. rewrite !Hsame by lia.
      replace (a + (j + 6)) with (a + j + 6) by lia. apply Hm. lia. }
    exists m'. split; [done|]. intros k. rewrite Hk.
    replace (a + k + 6) with (a + (k + 6)) by lia. replace (a + k - 6) with (a + (k - 6)) by lia.
    destruct (decide (k = byte)) as [->|Hkb].
    { rewrite !decide_False by lia. rewrite decide_True by lia. unfold m1.
      rewrite lookup_insert_ne, lookup_insert_eq by lia. by replace (a + (byte + 6)) with (a + byte + 6) by lia. }
    destruct (decide (k = byte + 6)) as [->|Hk6].
    { rewrite !decide_False by lia. rewrite decide_True by lia. unfold m1.
      replace (a + (byte + 6)) with (a + byte + 6) by lia. rewrite lookup_insert_eq.
      by replace (a + (byte + 6 - 6)) with (a + byte) by lia. }
    repeat case_decide; try lia; apply Hsame; lia.
Qed.

Lemma lookup_swap_mac p i : (12 <= length p)%nat ->
  swap_mac p !! i = if decide (i < 6)%nat then p !! (i + 6)%nat
                    else if decide (i < 12)%nat then p !! (i - 6)%nat else p !! i.
Proof.
  intros Hp. unfold swap_mac. case_decide as H6.
  - rewrite lookup_app_l by (rewrite length_take, length_drop; lia).
    rewrite lookup_take, decide_True, lookup_drop by lia. f_equal. lia.
  - rewrite lookup_app_r by (rewrite length_take, length_drop; lia). rewrite length_take, length_drop.
    replace (6 `min` (length p - 6))%nat with 6%nat by lia. case_decide.
    + rewrite lookup_app_l by (rewrite length_take; lia). rewrite lookup_take, decide_True by lia. done.
    + rewrite lookup_app_r by (rewrite length_take; lia). rewrite length_take, lookup_drop. f_equal. lia.
Qed.

Lemma length_swap_mac p : (12 <= length p)%nat -> length (swap_mac p) = length p.
Proof. intros. unfold swap_mac. rewrite !length_app, !length_take, !length_drop. lia. Qed.

Lemma swap_ok a m p : (12 <= length p)%nat -> bytes_at m a p ->
  exists m', swap_macs 6 0 a m = Ret m' /\ bytes_at m' a (swap_mac p) /\ same_outside a (Z.of_nat (length p)) m m'.
Proof.
  intros Hp Hm.
  assert (forall i, (i < 12)%nat -> m !! (a + Z.of_nat i) = p !! i) as Hl.
  { intros i Hi. destruct (lookup_lt_is_Some_2 p i ltac:(lia)) as [b Hb]. rewrite Hb. by apply Hm. }
  destruct (swap_macs_ok 6 0 a m) as (m' & -> & Hk); [|lia|lia|].
  { intros j Hj. replace (a + j) with (a + Z.of_nat (Z.to_nat j)) by lia.
    replace (a + Z.of_nat (Z.to_nat j) + 6) with (a + Z.of_nat (Z.to_nat (j + 6))) by lia.
    rewrite !Hl by lia. split; apply lookup_lt_is_Some_2; lia. }
  exists m'. split; [done|]. split.
  - intros i b. rewrite lookup_swap_mac by done. rewrite Hk. repeat case_decide; try lia.
    + intros Hb. replace (a + Z.of_nat i + 6) with (a + Z.of_nat (i + 6)) by lia. by rewrite Hl by lia.
    + intros Hb. replace (a + Z.of_nat i - 6) with (a + Z.of_nat (i - 6)) by lia. by rewrite Hl by lia.
    + apply Hm.
  - intros k Hk'. replace k with (a + (k - a)) by lia. rewrite Hk, !decide_False by lia. done.
Qed.

(** A masked 32-bit counter is the position in the ring. *)
Lemma land_mask b k x : 0 <= k <= b -> Z.land (uwrap b x) (Z.shiftl 1 k - 1) = x mod 2 ^ k.
Proof.
  intros Hk. replace (Z.shiftl 1 k - 1) with (Z.ones k) by (rewrite Z.ones_equiv, Z.shiftl_1_l; lia).
  rewrite Z.land_ones by lia. unfold uwrap. apply Z.mod_mod_divide. exists (2 ^ (b - k)).
  rewrite <-Z.pow_add_r by lia. f_equal. lia.
Qed.

Lemma u32_next x y : u32 (u32 x + y) = u32 (x + y).
Proof. unfold u32, uwrap. apply Zplus_mod_idemp_l. Qed.

Lemma rq_ring_lookup n : forall base sz k, (k < n)%nat ->
  init_dpa_rq_ring n base sz !! k = Some (base + sz * Z.of_nat k).
Proof.
  induction n as [|n IH]; intros base sz [|k] Hk; cbn; try lia; [f_equal; lia|]. rewrite IH by lia. f_equal. lia.
Qed.

(** ** The relation *)

(** The entry of the send queue that holds the packet [p]. *)
Definition posted (w : world) (k : Z) (p : list Z) : Prop :=
  (exists pi sqn, sq_ring w !! Z.to_nat (4 * k) = Some (SegCtrl pi sqn)) /\
  (exists a b, sq_ring w !! Z.to_nat (4 * k + 1) = Some (SegEth a b)) /\
  (exists key, sq_ring w !! Z.to_nat (4 * k + 2) =
     Some (SegData (Z.of_nat (length p)) key (sq_tx_buff (dev w) + 2048 * k))) /\
  bytes_at (mem w) (sq_tx_buff (dev w) + 2048 * k) p.

(** [n] packets have been processed; those of [rxq] are in the receive buffers, those of
    [txq] in the transmit buffers. *)
Record related (n : Z) (w : world) (s : spec) : Prop := Related {
  re_n : 0 <= n /\ hw_rx w = n + Z.of_nat (length (rxq s)) /\ hw_tx w = n - Z.of_nat (length (txq s)) /\ 0 <= hw_tx w;
  re_len : (length (rxq s) <= 128)%nat /\ (length (txq s) <= 128)%nat;
  re_init : is_initalized (dev w) = true;
  re_mem : rx_base w + 2 ^ 18 <= sq_tx_buff (dev w) \/ sq_tx_buff (dev w) + 2 ^ 18 <= rx_base w;
  re_cq : cq_idx (rqcq_ctx (dev w)) = u32 n /\ cqe (rqcq_ctx (dev w)) = n mod 128 /\
          cq_hw_owner_bit (rqcq_ctx (dev w)) = (1 + n / 128) mod 2 /\ length (cq_ring w) = 128%nat;
  re_cqe : forall i, 0 <= i < 128 -> exists c, cq_ring w !! Z.to_nat ((n + i) mod 128) = Some c /\
    match rxq s !! Z.to_nat i with
    | Some p => c = Cqe ((n + i) / 128 mod 2) (uwrap 16 (n + i)) (Z.of_nat (length p))
    | None => owner c = (1 + (n + i) / 128) mod 2
    end;
  re_rq : forall k, 0 <= k < 128 -> rq_ring w !! Z.to_nat k = Some (rx_base w + 2048 * k);
  re_rxq : forall i p, rxq s !! i = Some p ->
    bytes_at (mem w) (rx_base w + 2048 * ((n + Z.of_nat i) mod 128)) p /\ (12 <= length p <= 2048)%nat;
  re_sq : sq_wqe_seg_idx (sq_ctx (dev w)) = u32 (4 * n) /\ sq_pi (sq_ctx (dev w)) = u32 n /\
          tx_buff_idx (dev w) = u32 n /\ length (sq_ring w) = 512%nat /\ sq_db w = u32 n /\ rq_dbr w = u32 (128 + n);
  re_txq : forall i p, txq s !! i = Some p ->
    posted w ((hw_tx w + Z.of_nat i) mod 128) p /\ (length p <= 2048)%nat;
  re_wire : wire w = out s;
}.

Ltac zlia := zify; Z.div_mod_to_equations; lia.

Lemma l2_start_related data rx :
  rx + 2 ^ 18 <= sq_wqd_daddr data \/ sq_wqd_daddr data + 2 ^ 18 <= rx ->
  related 0 (start data rx) (Spec [] [] []).
Proof.
  intros Hd. split; cbn -[init_dpa_rq_ring Z.modulo Z.div]; try done.
  - lia.
  - intros i Hi. exists (Cqe 1 0 0). change (allocate_cq_memory L2_LOG_CQ_RING_DEPTH) with (replicate 128 (Cqe 1 0 0)).
    rewrite lookup_replicate_2 by zlia. split; [done|]. rewrite lookup_nil. cbn [owner]. zlia.
  - intros k Hk. rewrite rq_ring_lookup by lia. do 2 f_equal. change (2 ^ L2_LOG_WQ_DATA_ENTRY_BSIZE) with 2048. lia.
Qed.

Lemma has_packet_ok n w s : related n w s -> has_packet w = Ret (negb (length (rxq s) =? 0)%nat).
Proof.
  intros H. destruct (re_cq _ _ _ H) as (_ & E1 & E2 & _). unfold has_packet. rewrite E1, E2.
  destruct (re_cqe _ _ _ H 0) as (c & Hc & Hm); [lia|]. rewrite Z.add_0_r in Hc. rewrite Hc. cbn [of_option].
  change (Z.to_nat 0) with 0%nat in Hm. rewrite Z.add_0_r in Hm. destruct (rxq s) as [|p q].
  - cbn in Hm. by rewrite Hm, Z.eqb_refl.
  - change ((p :: q) !! 0%nat) with (Some p) in Hm. rewrite Hm. cbn [owner].
    rewrite (proj2 (Z.eqb_neq _ _)); [done|]. zlia.
Qed.

(** The posted packet. *)
Definition post (n : Z) (p : list Z) (m : gmap Z Z) (w : world) : world :=
  let d := dev w in
  let k := n mod 128 in
  let s := sq_ctx d in
  World (DevCtx (lkey d) (is_initalized d) (rqcq_ctx d) (sqcq_ctx d) (rq_number d)
           (SqCtx (sq_number s) (u32 (4 * n + 4)) (u32 (n + 1))) (sq_tx_buff d) (u32 (n + 1)))
    m (rx_base w) (cq_ring w) (rq_ring w)
    (<[Z.to_nat (4 * k + 2) := SegData (Z.of_nat (length p)) (lkey d) (sq_tx_buff d + 2048 * k)]>
       (<[Z.to_nat (4 * k + 1) := SegEth 0 0]>
          (<[Z.to_nat (4 * k) := SegCtrl (u32 n) (sq_number s)]> (sq_ring w))))
    (cq_dbr w) (u32 (128 + n + 1)) (u32 (n + 1)) (armed w) (hw_rx w) (hw_tx w) (wire w).

Lemma next_sqe_ok w x :
  sq_wqe_seg_idx (sq_ctx (dev w)) = u32 x ->
  get_next_sqe w =
  (set_dev (set_sq (SqCtx (sq_number (sq_ctx (dev w))) (u32 (x + 1)) (sq_pi (sq_ctx (dev w)))) (dev w)) w, x mod 512).
Proof.
  intros E. unfold get_next_sqe. rewrite E, u32_next. unfold L2_SQ_IDX_MASK, L2_LOG_SQ_RING_DEPTH. rewrite four_segments.
  by rewrite (land_mask 32 (7 + 2)) by lia.
Qed.

Lemma put_seg_ok i s w : 0 <= i < 512 -> length (sq_ring w) = 512%nat ->
  put_seg i s w = Ret (set_sq_ring (<[Z.to_nat i := s]> (sq_ring w)) w).
Proof. intros Hi Hl. unfold put_seg. rewrite Hl, (proj2 (Z.ltb_lt _ _)) by lia. done. Qed.

Lemma process_eq n w s p q :
  related n w s -> rxq s = p :: q ->
  exists m, process_packet w = Ret (post n p m w) /\
    bytes_at m (sq_tx_buff (dev w) + 2048 * (n mod 128)) (swap_mac p) /\
    same_outside (sq_tx_buff (dev w) + 2048 * (n mod 128)) 2048 (mem w) m.
Proof.
  intros H Hq. destruct (re_cq _ _ _ H) as (_ & E1 & _ & _). destruct (re_sq _ _ _ H) as (Q1 & Q2 & Q3 & Q4 & Q5 & Q6).
  destruct (re_cqe _ _ _ H 0) as (c & Hc & Hm); [lia|]. rewrite Z.add_0_r in *. rewrite Hq in Hm. cbn in Hm.
  destruct (re_rxq _ _ _ H 0%nat p) as [Hp Hlen]; [by rewrite Hq|]. rewrite Z.add_0_r in Hp.
  unfold process_packet. rewrite E1, Hc, Hm. cbn [of_option wqe_counter byte_cnt].
  change L2_RQ_IDX_MASK with (Z.shiftl 1 7 - 1). rewrite (land_mask 16 7) by lia. change (2 ^ 7) with 128.
  assert (0 <= n mod 128 < 128) as Hk by (apply Z.mod_pos_bound; lia). set (k := n mod 128) in *.
  rewrite (re_rq _ _ _ H k) by lia. cbn [of_option].
  unfold get_next_dte. rewrite Q3, u32_next. change L2_DATA_IDX_MASK with (Z.shiftl 1 7 - 1).
  rewrite (land_mask 32 7) by lia. change (2 ^ 7) with 128. fold k. rewrite Z.shiftl_mul_pow2 by (unfold L2_LOG_WQ_DATA_ENTRY_BSIZE; lia).
  change (2 ^ L2_LOG_WQ_DATA_ENTRY_BSIZE) with 2048. rewrite (uwrap_id 32 (k * 2048)) by (split; lia).
  cbn [set_dev set_tx_idx rx_base dev sq_tx_buff mem]. replace (k * 2048) with (2048 * k) by lia.
  unfold in_buffer. rewrite !(proj2 (Z.leb_le _ _)) by lia. cbn [andb require].
  rewrite Nat2Z.id, (l2_load_bytes_ok p) by exact Hp. set (a := sq_tx_buff (dev w) + 2048 * k).
  destruct (swap_ok a (store_bytes (mem w) a p) p) as (m & -> & Hs & Ho); [lia|apply store_bytes_at|].
  exists m. split; [|split; [done|]].
  2:{ intros j Hj. rewrite Ho by lia. apply (store_outside (mem w) a p 2048); lia. }
  assert ((4 * n) mod 512 = 4 * k /\ (4 * n + 1) mod 512 = 4 * k + 1 /\ (4 * n + 1 + 1) mod 512 = 4 * k + 2)
    as (M0 & M1 & M2) by (unfold k; zlia).
  rewrite (next_sqe_ok _ (4 * n)) by exact Q1. rewrite M0. rewrite put_seg_ok by (cbn; lia).
  rewrite (next_sqe_ok _ (4 * n + 1)) by done. rewrite M1. rewrite put_seg_ok by (cbn; rewrite ?length_insert; lia).
  rewrite (next_sqe_ok _ (4 * n + 1 + 1)) by done. rewrite M2. rewrite put_seg_ok by (cbn; rewrite ?length_insert; lia).
  rewrite (next_sqe_ok _ (4 * n + 1 + 1 + 1)) by done.
  unfold post. cbn. rewrite Q2, Q6, !u32_next. fold a. replace (4 * n + 1 + 1 + 1 + 1) with (4 * n + 4) by lia.
  reflexivity.
Qed.

Lemma lookup_app_one {A} (l : list A) x i y :
  (l ++ [x]) !! i = Some y -> l !! i = Some y \/ i = length l /\ y = x.
Proof. intros [?|[? [? ?]%list_lookup_singleton_Some]]%lookup_app_Some; [by left|right]. split; [lia|done]. Qed.

Lemma l2_process_ok n w s p q :
  related n w s -> rxq s = p :: q -> (length (txq s) < 128)%nat ->
  exists w1 w', process_packet w = Ret w1 /\ step_cq w1 = Ret w' /\
    related (n + 1) w' (Spec q (txq s ++ [swap_mac p]) (out s)).
Proof.
  intros H Hq Htx. destruct (process_eq n w s p q H Hq) as (m & -> & Hs & Ho).
  eexists _, _. split; [done|]. split; [reflexivity|].
  destruct H as [Hn Hlen Hi Hmem (C1 & C2 & C3 & C4) Hcqe Hrq Hrx (Q1 & Q2 & Q3 & Q4 & Q5 & Q6) Htxq Hw].
  rewrite Hq in *. cbn [length] in *.
  assert (0 <= n mod 128 < 128) as Hk by (apply Z.mod_pos_bound; lia). set (k := n mod 128) in *.
  destruct (Hrx 0%nat p eq_refl) as [_ Hp].
  split; cbn -[Z.modulo Z.div Z.land]; try done.
  - rewrite length_app. cbn. lia.
  - rewrite length_app. cbn. lia.
  - rewrite C1, u32_next. change L2_CQ_IDX_MASK with (Z.shiftl 1 7 - 1). rewrite (land_mask 32 7) by lia. change (2 ^ 7) with 128.
    do 2 (split; [done|]). split; [|done]. rewrite C3. destruct (Z.eqb_spec ((n + 1) mod 128) 0); zlia.
  - intros i Hi'. destruct (decide (i = 127)) as [->|].
    + destruct (Hcqe 0 ltac:(lia)) as (c & Hc & Hm). change ((p :: q) !! Z.to_nat 0) with (Some p) in Hm. exists c.
      replace ((n + 1 + 127) mod 128) with ((n + 0) mod 128) by zlia. split; [done|].
      rewrite lookup_ge_None_2 by lia. rewrite Hm. cbn [owner]. zlia.
    + destruct (Hcqe (i + 1) ltac:(lia)) as (c & Hc & Hm). exists c.
      replace (n + 1 + i) with (n + (i + 1)) by lia. split; [done|].
      replace (Z.to_nat (i + 1)) with (S (Z.to_nat i)) in Hm by lia. exact Hm.
  - intros i p' Hp'. destruct (Hrx (S i) p' Hp') as [Hb Hl]. split; [|done].
    replace (n + 1 + Z.of_nat i) with (n + Z.of_nat (S i)) by lia.
    eapply bytes_at_outside; [exact Ho| |exact Hb].
    assert (0 <= (n + Z.of_nat (S i)) mod 128 < 128) by (apply Z.mod_pos_bound; lia). lia.
  - rewrite !length_insert. replace (4 * (n + 1)) with (4 * n + 4) by lia. replace (128 + (n + 1)) with (128 + n + 1) by lia. done.
  - intros i p' Hp'. apply lookup_app_one in Hp' as [Hp'|[-> ->]].
    + destruct (Htxq i p' Hp') as [(S1 & S2 & S3 & S4) Hl]. split; [|done].
      apply lookup_lt_Some in Hp'.
      assert ((hw_tx w + Z.of_nat i) mod 128 <> k /\ 0 <= (hw_tx w + Z.of_nat i) mod 128 < 128) as [Hne Hj] by (unfold k; zlia).
      set (j := (hw_tx w + Z.of_nat i) mod 128) in *.
      split; [|split; [|split]]; cbn; rewrite ?list_lookup_insert_ne by lia; try done.
      eapply bytes_at_outside; [exact Ho| |exact S4]. lia.
    + assert ((hw_tx w + Z.of_nat (length (txq s))) mod 128 = k) as -> by (unfold k; f_equal; lia).
      rewrite length_swap_mac by lia. split; [|lia]. split; [|split; [|split]]; cbn; rewrite ?length_swap_mac by lia.
      * eexists _, _. rewrite !list_lookup_insert_ne by lia. apply list_lookup_insert_eq. lia.
      * eexists _, _. rewrite list_lookup_insert_ne by lia. apply list_lookup_insert_eq. rewrite length_insert. lia.
      * eexists. apply list_lookup_insert_eq. rewrite !length_insert. lia.
      * exact Hs.
Qed.

Lemma l2_loop_ok fuel : forall n w s,
  related n w s -> (length (txq s) + length (rxq s) <= 128)%nat -> (length (rxq s) <= fuel)%nat ->
  exists w', handler_loop fuel w = Ret w' /\
    related (n + Z.of_nat (length (rxq s))) w' (Spec [] (txq s ++ (swap_mac <$> rxq s)) (out s)).
Proof.
  induction fuel as [|fuel IH]; intros n w s H Ht Hf; cbn [handler_loop]; rewrite (has_packet_ok _ _ _ H);
    destruct s as [[|p q] tq o]; cbn [rxq txq out length Nat.eqb negb] in *; try lia.
  - exists w. split; [done|]. cbn. by rewrite app_nil_r, Z.add_0_r.
  - exists w. split; [done|]. cbn. by rewrite app_nil_r, Z.add_0_r.
  - destruct (l2_process_ok n w _ p q H eq_refl) as (w1 & w2 & -> & -> & H2); [cbn; lia|].
    destruct (IH _ w2 _ H2) as (w3 & -> & H3); [cbn; rewrite length_app; cbn; lia|cbn; lia|].
    exists w3. split; [done|]. cbn [rxq txq out] in H3. rewrite <-app_assoc in H3. cbn [fmap list_fmap app] in H3.
    by replace (n + Z.of_nat (S (length q))) with (n + 1 + Z.of_nat (length q)) by lia.
Qed.

Lemma uwrap_zero b x : 0 <= x < 2 ^ b -> uwrap b x =? 0 = (x =? 0).
Proof. intros H. by rewrite uwrap_id. Qed.

Lemma u32_minus b x y : 0 <= b <= 32 -> uwrap b (u32 x - y) = uwrap b (x - y).
Proof.
  intros Hb. unfold u32, uwrap. rewrite Zminus_mod, (Z.mod_mod_divide x), <-Zminus_mod; [done|].
  exists (2 ^ (32 - b)). rewrite <-Z.pow_add_r by lia. f_equal. lia.
Qed.

Lemma l2_receive_ok n w s p :
  related n w s -> (12 <= length p <= 2048)%nat ->
  exists w', hw_receive p w = Ret w' /\
    related n w' (if (length (rxq s) =? 128)%nat then s else Spec (rxq s ++ [p]) (txq s) (out s)).
Proof.
  intros H Hp. pose proof H as [(Hn & Hrx & Htx & H0) Hlen Hi Hmem (C1 & C2 & C3 & C4) Hcqe Hrq Hrxq (Q1 & Q2 & Q3 & Q4 & Q5 & Q6) Htxq Hw].
  unfold hw_receive. rewrite Q6, Hrx, (u32_minus 16) by lia.
  replace (128 + n - (n + Z.of_nat (length (rxq s)))) with (128 - Z.of_nat (length (rxq s))) by lia.
  rewrite uwrap_zero by lia. destruct (Nat.eqb_spec (length (rxq s)) 128) as [E|E].
  { rewrite E. exists w. done. }
  rewrite (proj2 (Z.eqb_neq _ 0)) by lia. set (r := length (rxq s)) in *.
  assert (0 <= (n + Z.of_nat r) mod 128 < 128) as Hk by (apply Z.mod_pos_bound; lia). set (k := (n + Z.of_nat r) mod 128) in *.
  rewrite (Hrq k Hk). cbn [of_option]. eexists. split; [done|].
  assert (same_outside (rx_base w + 2048 * k) 2048 (mem w) (store_bytes (mem w) (rx_base w + 2048 * k) p)) as Ho
    by (apply store_outside; lia).
  split; cbn -[Z.modulo Z.div]; rewrite ?length_app, ?length_insert; cbn [length]; try done; try (fold r; lia).
  - intros i Hi'. destruct (decide (i = Z.of_nat r)) as [->|Hne].
    + fold k. eexists. rewrite list_lookup_insert_eq by lia. split; [done|].
      rewrite Nat2Z.id, lookup_app_r by (fold r; lia). fold r. rewrite Nat.sub_diag. done.
    + destruct (Hcqe i Hi') as (c & Hc & Hm). exists c. rewrite list_lookup_insert_ne by (unfold k; zlia).
      split; [done|]. destruct (decide (i < Z.of_nat r)).
      * rewrite lookup_app_l by (fold r; lia). done.
      * rewrite lookup_ge_None_2 in Hm by (fold r; lia). rewrite lookup_ge_None_2; [done|]. rewrite length_app. cbn. fold r. lia.
  - intros i q Hq. apply lookup_app_one in Hq as [Hq|[-> ->]].
    + destruct (Hrxq i q Hq) as [Hb Hl]. split; [|done]. apply lookup_lt_Some in Hq. fold r in Hq.
      eapply bytes_at_outside; [exact Ho| |exact Hb].
      assert ((n + Z.of_nat i) mod 128 <> k /\ 0 <= (n + Z.of_nat i) mod 128) by (unfold k; zlia). lia.
    + fold r k. split; [apply store_bytes_at|done].
  - intros i q Hq. destruct (Htxq i q Hq) as [(S1 & S2 & S3 & S4) Hl]. split; [|done].
    assert (0 <= (hw_tx w + Z.of_nat i) mod 128 < 128) by (apply Z.mod_pos_bound; lia).
    split; [done|]. split; [done|]. split; [done|]. cbn. eapply bytes_at_outside; [exact Ho| |exact S4]. lia.
Qed.

Lemma l2_transmit_ok n w s :
  related n w s ->
  exists w', hw_transmit w = Ret w' /\
    related n w' (match txq s with [] => s | p :: q => Spec (rxq s) q (out s ++ [p]) end).
Proof.
  intros H. pose proof H as [(Hn & Hrx & Htx & H0) Hlen Hi Hmem HC Hcqe Hrq Hrxq (Q1 & Q2 & Q3 & Q4 & Q5 & Q6) Htxq Hw].
  unfold hw_transmit. rewrite Q5, (u32_minus 16) by lia.
  replace (n - hw_tx w) with (Z.of_nat (length (txq s))) by lia.
  rewrite uwrap_zero by lia. destruct (txq s) as [|p q] eqn:Et; [by exists w|]. cbn [length] in *.
  rewrite (proj2 (Z.eqb_neq _ 0)) by lia.
  destruct (Htxq 0%nat p eq_refl) as [((pi & sqn & S1) & (x & y & S2) & (key & S3) & S4) Hl].
  rewrite Z.add_0_r in *. rewrite S1, S2, S3, Nat2Z.id, (l2_load_bytes_ok p) by exact S4.
  eexists. split; [done|]. split; cbn; try done; try lia; [|by rewrite Hw].
  intros i p' Hp'. replace (hw_tx w + 1 + Z.of_nat i) with (hw_tx w + Z.of_nat (S i)) by lia. by apply Htxq.
Qed.

Lemma l2_event_ok ev n w s s' :
  related n w s -> spec_event ev s = Some s' -> exists n' w', run_event ev w = Ret w' /\ related n' w' s'.
Proof.
  intros H Hs. destruct ev as [p| | |]; cbn [spec_event run_event] in Hs |- *.
  - destruct ((12 <=? length p)%nat && (length p <=? 2048)%nat) eqn:E; [|discriminate]. injection Hs as <-.
    apply andb_true_iff in E as [E1%Nat.leb_le E2%Nat.leb_le]. exists n. by apply l2_receive_ok.
  - unfold poll. rewrite (has_packet_ok _ _ _ H). destruct (rxq s) as [|p q] eqn:Eq; cbn [length Nat.eqb negb].
    + injection Hs as <-. by exists n, w.
    + destruct (length (txq s) <? 128)%nat eqn:El; [|discriminate]. injection Hs as <-. apply Nat.ltb_lt in El.
      destruct (l2_process_ok n w s p q H Eq El) as (w1 & w2 & -> & -> & H2). by exists (n + 1), w2.
  - destruct (length (txq s) + length (rxq s) <=? 128)%nat eqn:El; [|discriminate]. injection Hs as <-. apply Nat.leb_le in El.
    unfold l2_reflector_device_event_handler. rewrite (re_init _ _ _ H).
    destruct (l2_loop_ok (length (cq_ring w)) n w s H El) as (w1 & -> & H1).
    { destruct (re_cq _ _ _ H) as (_ & _ & _ & ->). apply (re_len _ _ _ H). }
    eexists _, _. split; [done|]. by destruct H1.
  - destruct (l2_transmit_ok n w s H) as (w' & E & H'). exists n, w'. split; [done|].
    destruct (txq s); injection Hs as <-; done.
Qed.

Lemma l2_run_ok evs : forall n w s s',
  related n w s -> spec_run evs s = Some s' -> exists n' w', run evs w = Ret w' /\ related n' w' s'.
Proof.
  induction evs as [|ev evs IH]; intros n w s s' H Hs; cbn in *.
  - injection Hs as <-. by exists n, w.
  - destruct (spec_event ev s) as [s1|] eqn:E; [|discriminate].
    destruct (l2_event_ok ev n w s s1 H E) as (n1 & w1 & -> & H1). eauto.
Qed.

(** ** Theorems *)

(** C4: The reflector sends every packet it has taken, once and in order, with its MAC
    addresses exchanged: for any interleaving of arriving packets, turns of the handler's
    loop, whole runs of the handler and completed sends, however often the rings and the
    counters wrap around, as long as at most 128 packets wait to be sent. *)
Theorem l2_reflects data rx evs s :
  rx + 2 ^ 18 <= sq_wqd_daddr data \/ sq_wqd_daddr data + 2 ^ 18 <= rx ->
  spec_run evs (Spec [] [] []) = Some s ->
  exists w, run evs (start data rx) = Ret w /\ wire w = out s.
Proof.
  intros Hd Hs. destruct (l2_run_ok evs 0 _ _ s (l2_start_related data rx Hd) Hs) as (n & w & -> & H).
  exists w. split; [done|]. apply (re_wire _ _ _ H).
Qed.

End Reflector.

Definition frame (b : Z) : list Z := [b; 1; 1; 1; 1; 1; 2; 2; 2; 2; 2; 2; 8; 0; b].
Definition l2_data : l2_reflector_data := L2Data 1 2 3 4 5 0.

Lemma l2_reflects_witness :
  exists w,
    run 2 [Receive (frame 7); Receive (frame 9); Handle; Transmit; Receive (frame 11); Transmit; Poll; Transmit]
      (start l2_data (2 ^ 20)) = Ret w /\
    wire w = [[2; 2; 2; 2; 2; 2; 7; 1; 1; 1; 1; 1; 8; 0; 7];
              [2; 2; 2; 2; 2; 2; 9; 1; 1; 1; 1; 1; 8; 0; 9];
              [2; 2; 2; 2; 2; 2; 11; 1; 1; 1; 1; 1; 8; 0; 11]].
Proof.
  apply (l2_reflects 2 eq_refl l2_data (2 ^ 20)
           [Receive (frame 7); Receive (frame 9); Handle; Transmit; Receive (frame 11); Transmit; Poll; Transmit]
           (Spec [] [] [swap_mac (frame 7); swap_mac (frame 9); swap_mac (frame 11)])).
  - right. cbn. lia.
  - vm_compute. reflexivity.
Defined.

Definition wire_of (o : outcome world) : list (list Z) :=
  match o with Ret w => wire w | _ => [] end.

(** The completions of the send queue are never read, so the program does not know which
    transmit buffers are still in use: when 129 packets are taken before the card has sent
    one, the first packet that leaves is the 129th, not the first. *)
Theorem slow_sender_overwrites :
  let pkts := (fun i => frame (Z.of_nat i)) <$> seq 0 129 in
  wire_of (run 2 (mjoin ((fun p => [Receive p; Poll]) <$> pkts) ++ [Transmit]) (start l2_data (2 ^ 20)))
    = [swap_mac (frame 128)].
Proof. vm_compute. reflexivity. Qed.

(** The exchange undoes itself: a packet reflected twice is unchanged. *)
Lemma swap_mac_involutive p : (12 <= length p)%nat -> swap_mac (swap_mac p) = p.
Proof.
  intros H. do 12 (destruct p as [|? p]; [cbn in H; lia|]). reflexivity.
Qed.
