(* ===== verification/CommChannel.v ===== *)
(** * Transfers over a DOCA Comm Channel: the environment of the file applications

    What applications/file_compression and applications/file_integrity share: a program
    that polls a message channel, writes a file, allocates memory and calls libraries, as
    a state monad over that environment; the loops that send and receive messages; and
    the rules to reason about them.

    The environment answers the calls of the program from lists: [polls] for
    [doca_comm_channel_ep_recvfrom], [sends] for [doca_comm_channel_ep_sendto], [writes]
    for the number of bytes [write] takes, and [calls] for every other call that can
    fail.  When a list has run out, calls succeed; a poll that is never answered is not a
    result ([OutOfFuel]). *)
From S2P Require Import Prelude Pack.

Record world : Type := World {
  polls : list (doca_error_t * list Z); sends : list doca_error_t; writes : list Z;
  calls : list doca_error_t;
  sent : list (list Z);        (** messages sent *)
  file : option (list Z);      (** the file at [file_path] *)
  fds : Z;                     (** open descriptors, devices and end-points *)
  blocks : Z                   (** allocated blocks of memory *)
}.

(** ** Programs *)

Definition io (A : Type) : Type := world -> outcome (A * world).

#[export] Instance io_ret : MRet io := fun A a w => Ret (a, w).
#[export] Instance io_bind : MBind io := fun A B k m w => let* (a, w) := m w in k a w.

Definition undef {A} (why : ub) : io A := fun _ => Undef why.

Definition check (b : bool) (why : ub) : io unit := if b then mret tt else undef why.

(** The answer of the next call. *)
Definition call : io doca_error_t := fun w =>
  match calls w with
  | [] => Ret (DOCA_SUCCESS, w)
  | e :: l => Ret (e, World (polls w) (sends w) (writes w) l (sent w) (file w) (fds w) (blocks w))
  end.

Definition is_ok (e : doca_error_t) : bool := bool_decide (e = DOCA_SUCCESS).

(** A call whose failure has no code of its own: [open], [fstat], [mmap], zlib. *)
Definition succeeds : io bool := e ← call; mret (is_ok e).

(** [while ((result = f(...)) == e) nanosleep(...)] *)
Fixpoint skip_answers (e : doca_error_t) (l : list doca_error_t) : list doca_error_t :=
  match l with
  | [] => []
  | a :: l => if bool_decide (a = e) then skip_answers e l else a :: l
  end.

Definition call_while (e : doca_error_t) : io doca_error_t := fun w =>
  call (World (polls w) (sends w) (writes w) (skip_answers e (calls w)) (sent w) (file w) (fds w) (blocks w)).

Definition set_fds (n : Z) (w : world) : world :=
  World (polls w) (sends w) (writes w) (calls w) (sent w) (file w) n (blocks w).
Definition set_blocks (n : Z) (w : world) : world :=
  World (polls w) (sends w) (writes w) (calls w) (sent w) (file w) (fds w) n.
Definition set_file (f : option (list Z)) (w : world) : world :=
  World (polls w) (sends w) (writes w) (calls w) (sent w) f (fds w) (blocks w).

Definition opened : io unit := fun w => Ret (tt, set_fds (fds w + 1) w).
Definition close : io unit := fun w => Ret (tt, set_fds (fds w - 1) w).
Definition allocated : io unit := fun w => Ret (tt, set_blocks (blocks w + 1) w).
Definition released : io unit := fun w => Ret (tt, set_blocks (blocks w - 1) w).

(** A call that opens a device or an end-point. *)
Definition acquire : io doca_error_t :=
  result ← call;
  if is_ok result then opened;; mret result else mret result.

(** Give back a handle; it is gone whatever the call answers. *)
Definition release : io doca_error_t :=
  result ← call;
  close;;
  mret result.

(** [n] setters of a configuration, or other calls in a row, up to the first that fails. *)
Fixpoint cfg_sets (n : nat) : io doca_error_t :=
  match n with
  | O => mret DOCA_SUCCESS
  | S n => result ← call; if is_ok result then cfg_sets n else mret result
  end.

(** [calloc]: whether the block was allocated; [free] of a pointer that may be null. *)
Definition calloc : io bool :=
  b ← succeeds;
  if (b : bool) then allocated;; mret true else mret false.

Definition free (p : bool) : io unit := if p then released else mret tt.

(** ** Files *)

Definition get_file : io (option (list Z)) := fun w => Ret (file w, w).
Definition put_file (f : option (list Z)) : io unit := fun w => Ret (tt, set_file f w).

(** [open(path, O_RDWR)]: the content, when the file exists and can be opened. *)
Definition open_rdwr : io (option (list Z)) :=
  b ← succeeds;
  f ← get_file;
  match f with
  | Some data => if (b : bool) then opened;; mret (Some data) else mret None
  | None => mret None
  end.

(** [open(path, O_CREAT | O_WRONLY, ...)]: an existing file keeps its content. *)
Definition open_creat : io bool :=
  b ← succeeds;
  if (b : bool) then
    opened;;
    f ← get_file;
    put_file (Some (default [] f));;
    mret true
  else mret false.

(** [write(fd, data, len) == len] at offset [pos]; a short write stores a prefix. *)
Definition write (pos : nat) (data : list Z) : io bool := fun w =>
  let len := Z.of_nat (length data) in
  let n := match writes w with [] => len | n :: _ => Z.min n len end in
  let old := default [] (file w) in
  let new := take pos old ++ take (Z.to_nat n) data ++ drop (pos + Z.to_nat n) old in
  Ret (n =? len, World (polls w) (sends w) (tail (writes w)) (calls w) (sent w) (Some new) (fds w) (blocks w)).

Definition remove : io unit :=
  b ← succeeds;
  if (b : bool) then put_file None else mret tt.

(** ** Messages *)

(** [while ((result = sendto(...)) == DOCA_ERROR_AGAIN) nanosleep(...)] *)
Fixpoint send_answer (l : list doca_error_t) : doca_error_t * list doca_error_t :=
  match l with
  | [] => (DOCA_SUCCESS, [])
  | DOCA_ERROR_AGAIN :: l => send_answer l
  | e :: l => (e, l)
  end.

Definition send_msg (m : list Z) : io doca_error_t := fun w =>
  let (e, l) := send_answer (sends w) in
  Ret (e, World (polls w) l (writes w) (calls w) (if is_ok e then sent w ++ [m] else sent w)
            (file w) (fds w) (blocks w)).

(** [while ((result = recvfrom(...)) == DOCA_ERROR_AGAIN) { nanosleep(...); ... }], with
    the limit of turns of [num_of_iterations] where the loop has one: [None] when the
    limit is reached. *)
Fixpoint poll_answer (limit : option Z) (counter : Z) (l : list (doca_error_t * list Z))
    : outcome (option (doca_error_t * list Z) * list (doca_error_t * list Z)) :=
  match l with
  | [] => Undef OutOfFuel
  | (DOCA_ERROR_AGAIN, _) :: l =>
      if bool_decide (limit = Some (counter + 1)) then Ret (None, l) else poll_answer limit (counter + 1) l
  | a :: l => Ret (Some a, l)
  end.

Definition set_polls (l : list (doca_error_t * list Z)) (w : world) : world :=
  World l (sends w) (writes w) (calls w) (sent w) (file w) (fds w) (blocks w).

(** Receive into a buffer of [size] bytes. *)
Definition recv_msg (limit : option Z) (size : Z) : io (option (doca_error_t * list Z)) := fun w =>
  let* (a, l) := poll_answer limit 0 (polls w) in
  let* _ := match a with
            | Some (e, m) => require (negb (is_ok e) || (Z.of_nat (length m) <=? size)) OutOfBounds
            | None => Ret tt
            end in
  Ret (a, set_polls l w).

(** The loop of [send_file]: [n] messages of [chunk] bytes, the last one shorter. *)
Fixpoint send_chunks (n : nat) (chunk : Z) (file_data : list Z) : io doca_error_t :=
  match n with
  | O => mret DOCA_SUCCESS
  | S n =>
      let msg_len := Z.to_nat (Z.min (Z.of_nat (length file_data)) chunk) in
      result ← send_msg (take msg_len file_data);
      if is_ok result then send_chunks n chunk (drop msg_len file_data) else mret result
  end.

(** [htonl] of an integer as a message, and back. *)
Definition be32_msg (v : Z) : list Z := le_bytes 4 (bswap 4 v).
Definition be32_of_msg (m : list Z) : Z := bswap 4 (load 0 4 m).

Definition SLEEP_IN_NANOS : Z := 10 * 1000.
Definition DEFAULT_TIMEOUT : Z := 10.

(** [int num_of_iterations = (timeout * 1000 * 1000) / (SLEEP_IN_NANOS / 1000)] *)
Definition num_of_iterations (timeout : Z) : io Z :=
  check ((- 2 ^ 31 <=? timeout * 1000 * 1000) && (timeout * 1000 * 1000 <? 2 ^ 31)) SignedOverflow;;
  mret (Z.quot (timeout * 1000 * 1000) (SLEEP_IN_NANOS / 1000)).

(** The last message of a server. *)
Definition finish_msg : list Z :=
  (fun c => Z.of_nat (nat_of_ascii c)) <$> (String.list_ascii_of_string "Server was done receiving messages" ++ [zero]).

(** The end of a server: the message, and its result when nothing has failed before. *)
Definition send_finish (result : doca_error_t) : io doca_error_t :=
  tmp_result ← send_msg finish_msg;
  mret (if is_ok tmp_result then result else if is_ok result then tmp_result else result).

(** ** Resources

    [uses m d]: running [m] to a result [a] changes the number of open descriptors and
    of allocated blocks by [d a]. *)

Definition uses {A} (m : io A) (d : A -> Z * Z) : Prop :=
  forall w a w', m w = Ret (a, w') -> fds w' = fds w + (d a).1 /\ blocks w' = blocks w + (d a).2.

Lemma uses_ret {A} (a : A) d : d a = (0, 0) -> uses (mret a) d.
Proof. intros E w a' w' H. cbv [mret io_ret] in H. inv_ret. rewrite E. cbn. lia. Qed.

Lemma uses_mret {A} (a : A) : uses (mret a) (fun _ => (0, 0)).
Proof. by apply uses_ret. Qed.

Lemma uses_bind {A B} (m : io A) (k : A -> io B) d1 d2 :
  uses m d1 -> (forall a, uses (k a) (fun b => ((d2 b).1 - (d1 a).1, (d2 b).2 - (d1 a).2))) -> uses (m ≫= k) d2.
Proof.
  intros Hm Hk w b w' H. cbv [mbind io_bind] in H. destruct (m w) as [[a w1]|] eqn:E; [|discriminate].
  destruct (Hm _ _ _ E), (Hk a _ _ _ H) as [F1 F2]. cbn in F1, F2. lia.
Qed.

(** The same when the continuation needs to know more of the result. *)
Lemma uses_bind_post {A B} (P : A -> Prop) (m : io A) (k : A -> io B) d1 d2 :
  uses m d1 -> (forall w a w', m w = Ret (a, w') -> P a) ->
  (forall a, P a -> uses (k a) (fun b => ((d2 b).1 - (d1 a).1, (d2 b).2 - (d1 a).2))) -> uses (m ≫= k) d2.
Proof.
  intros Hm HP Hk w b w' H. cbv [mbind io_bind] in H. destruct (m w) as [[a w1]|] eqn:E; [|discriminate].
  destruct (Hm _ _ _ E), (Hk a (HP _ _ _ E) _ _ _ H) as [F1 F2]. cbn in F1, F2. lia.
Qed.

Lemma uses_mono {A} (m : io A) d1 d2 : uses m d1 -> (forall a, d1 a = d2 a) -> uses m d2.
Proof. intros H E w a w' Hm. rewrite <-E. eauto. Qed.

Lemma uses_undef {A} why d : uses (undef (A := A) why) d.
Proof. intros w a w' H. discriminate H. Qed.

Lemma uses_call : uses call (fun _ => (0, 0)).
Proof. intros w a w' H. unfold call in H. destruct (calls w); inv_ret; cbn; lia. Qed.
Lemma uses_send m : uses (send_msg m) (fun _ => (0, 0)).
Proof. intros w a w' H. unfold send_msg in H. destruct (send_answer (sends w)). inv_ret. cbn. lia. Qed.
Lemma uses_recv l n : uses (recv_msg l n) (fun _ => (0, 0)).
Proof.
  intros w a w' H. unfold recv_msg in H. destruct (poll_answer l 0 (polls w)) as [[o q]|]; [|discriminate].
  destruct (match o with Some (e, m) => _ | None => _ end); [|discriminate]. inv_ret. cbn. lia.
Qed.
Lemma uses_write p l : uses (write p l) (fun _ => (0, 0)).
Proof. intros w a w' H. unfold write in H. inv_ret. cbn. lia. Qed.
Lemma uses_get : uses get_file (fun _ => (0, 0)).
Proof. intros w a w' H. unfold get_file in H. inv_ret. cbn. lia. Qed.
Lemma uses_put f : uses (put_file f) (fun _ => (0, 0)).
Proof. intros w a w' H. unfold put_file in H. inv_ret. cbn. lia. Qed.
Lemma uses_opened : uses opened (fun _ => (1, 0)).
Proof. intros w a w' H. unfold opened in H. inv_ret. cbn. lia. Qed.
Lemma uses_close : uses close (fun _ => (-1, 0)).
Proof. intros w a w' H. unfold close in H. inv_ret. cbn. lia. Qed.
Lemma uses_allocated : uses allocated (fun _ => (0, 1)).
Proof. intros w a w' H. unfold allocated in H. inv_ret. cbn. lia. Qed.
Lemma uses_released : uses released (fun _ => (0, -1)).
Proof. intros w a w' H. unfold released in H. inv_ret. cbn. lia. Qed.

Create HintDb uses discriminated.
#[export] Hint Resolve uses_mret uses_undef uses_call uses_send uses_recv uses_write uses_get uses_put
  uses_opened uses_close uses_allocated uses_released : uses.

(** Walk through a program, one bind or one test at a time. *)
Ltac uses_step :=
  match goal with
  | |- uses (_ ≫= _) _ => eapply uses_bind; [solve [auto with uses nocore]|intros ?]
  | |- uses (mret _) _ => apply uses_ret
  | |- uses (if ?b then _ else _) _ => destruct b eqn:?
  | |- uses (match ?x with _ => _ end) _ => destruct x eqn:?
  | |- uses _ _ => solve [eapply uses_mono; [solve [auto with uses nocore]|intros ?; cbn; f_equal; lia]]
  end.

(** The whole walk; the tests made on the way decide the count. *)
Ltac uses_all :=
  repeat uses_step; cbn;
  repeat match goal with b : bool |- _ => destruct b end; try discriminate;
  repeat match goal with
         | H : negb _ = true |- _ => apply negb_true_iff in H; rewrite ?H
         | H : negb _ = false |- _ => apply negb_false_iff in H; rewrite ?H
         | H : is_ok _ = _ |- _ => rewrite ?H; clear H
         end; try done.

(** The same with a postcondition: [acct m P] when every result [a] of [m], with the change
    of descriptors and blocks it comes with, is in [P]. *)
Definition acct {A} (m : io A) (P : A -> Z -> Z -> Prop) : Prop :=
  forall w a w', m w = Ret (a, w') -> P a (fds w' - fds w) (blocks w' - blocks w).

Lemma acct_uses {A} (m : io A) d : uses m d -> acct m (fun a f b => f = (d a).1 /\ b = (d a).2).
Proof. intros H w a w' E. destruct (H w a w' E). lia. Qed.

Lemma acct_mono {A} (m : io A) (P Q : A -> Z -> Z -> Prop) : acct m P -> (forall a f b, P a f b -> Q a f b) -> acct m Q.
Proof. intros H HQ w a w' E. apply HQ. by apply H. Qed.

Lemma acct_ret {A} (a : A) (P : A -> Z -> Z -> Prop) : P a 0 0 -> acct (mret a) P.
Proof. intros H w a' w' E. cbv [mret io_ret] in E. inv_ret. by rewrite !Z.sub_diag. Qed.

Lemma acct_undef {A} why (P : A -> Z -> Z -> Prop) : acct (undef why) P.
Proof. intros w a w' E. discriminate E. Qed.

Lemma acct_bind {A B} (m : io A) (k : A -> io B) P Q :
  acct m P -> (forall a f b, P a f b -> acct (k a) (fun c f' b' => Q c (f + f') (b + b'))) -> acct (m ≫= k) Q.
Proof.
  intros Hm Hk w c w' E. cbv [mbind io_bind] in E. destruct (m w) as [[a w1]|] eqn:Em; [|discriminate].
  pose proof (Hk a _ _ (Hm _ _ _ Em) _ _ _ E) as H. cbv beta in H.
  replace (fds w' - fds w) with (fds w1 - fds w + (fds w' - fds w1)) by lia.
  by replace (blocks w' - blocks w) with (blocks w1 - blocks w + (blocks w' - blocks w1)) by lia.
Qed.

Lemma uses_call_while e : uses (call_while e) (fun _ => (0, 0)).
Proof. intros w a w' H. unfold call_while in H. apply uses_call in H. done. Qed.
Lemma uses_acquire : uses acquire (fun e => (Z.b2z (is_ok e), 0)).
Proof. unfold acquire. uses_all. Qed.
Lemma uses_release : uses release (fun _ => (-1, 0)).
Proof. unfold release. uses_all. Qed.
#[export] Hint Resolve uses_call_while uses_acquire uses_release : uses.

Lemma propagate_ok r t : is_ok r = false -> is_ok (DOCA_ERROR_PROPAGATE r t) = false.
Proof. by destruct r. Qed.

Lemma uses_check b why : uses (check b why) (fun _ => (0, 0)).
Proof. unfold check. uses_all. Qed.
Lemma uses_succeeds : uses succeeds (fun _ => (0, 0)).
Proof. unfold succeeds. uses_all. Qed.
#[export] Hint Resolve uses_check uses_succeeds : uses.

Lemma uses_calloc : uses calloc (fun b => (0, Z.b2z b)).
Proof. unfold calloc. uses_all. Qed.
Lemma uses_free p : uses (free p) (fun _ => (0, - Z.b2z p)).
Proof. unfold free. uses_all. Qed.
Lemma uses_open_rdwr : uses open_rdwr (fun o => (match o with Some _ => 1 | None => 0 end, 0)).
Proof. unfold open_rdwr. uses_all. Qed.
Lemma uses_open_creat : uses open_creat (fun b => (Z.b2z b, 0)).
Proof. unfold open_creat. uses_all. Qed.
Lemma uses_remove : uses remove (fun _ => (0, 0)).
Proof. unfold remove. uses_all. Qed.
Lemma uses_iterations t : uses (num_of_iterations t) (fun _ => (0, 0)).
Proof. unfold num_of_iterations. uses_all. Qed.
Lemma uses_finish r : uses (send_finish r) (fun _ => (0, 0)).
Proof. unfold send_finish. uses_all. Qed.
Lemma uses_chunks n c : forall d, uses (send_chunks n c d) (fun _ => (0, 0)).
Proof.
  induction n as [|n IH]; intros d; cbn [send_chunks]; uses_all.
Qed.
#[export] Hint Resolve uses_calloc uses_free uses_open_rdwr uses_open_creat uses_remove uses_iterations
  uses_finish uses_chunks : uses.

Create HintDb acct discriminated.
#[export] Hint Resolve uses_call uses_acquire uses_release uses_calloc uses_free uses_close uses_succeeds uses_check : acct.

(** One step of a program: a call whose accounting is known, or a test. *)
Ltac acct_step :=
  cbn beta iota;
  match goal with
  | |- acct (_ ≫= _) _ =>
      eapply acct_bind; [first [solve [auto with acct nocore]|apply acct_uses; solve [auto with acct nocore]]|
        let x := fresh "x" in intros x ? ?; cbn [fst snd]; intros ?]
  | |- acct (mret _) _ => apply acct_ret
  | |- acct (undef _) _ => apply acct_undef
  | |- acct (if negb ?b then _ else _) _ => destruct b eqn:?; cbn [negb]
  | |- acct (if ?b then _ else _) _ => destruct b eqn:?
  | |- acct (let (_, _) := ?x in _) _ => destruct x; cbn [fst snd] in *
  | |- acct (match ?x with _ => _ end) _ => destruct x eqn:?
  end.

Ltac acct_end :=
  repeat match goal with
         | H : _ /\ _ |- _ => destruct H
         | H : is_ok ?e = _, H' : context [is_ok ?e] |- _ => rewrite H in H'
         | H : is_ok ?e = _ |- context [is_ok ?e] => rewrite H
         end;
  cbn [Z.b2z fst snd] in *; repeat split; try done; try lia; try congruence.

Ltac acct_all := repeat acct_step; try (eapply acct_mono; [first [solve [auto with acct nocore]|apply acct_uses; solve [auto with acct nocore]]|cbn beta; intros ? ? ? ?]); acct_end.

Lemma cfg_sets_uses n : uses (cfg_sets n) (fun _ => (0, 0)).
Proof. induction n; cbn; uses_all. Qed.
#[export] Hint Resolve cfg_sets_uses : acct uses.

(** ** Delivery *)

Lemma run_bind {A B} (m : io A) (k : A -> io B) w a w' : m w = Ret (a, w') -> (m ≫= k) w = k a w'.
Proof. unfold mbind, io_bind. by intros ->. Qed.

Lemma cfg_sets_run n w : calls w = [] -> cfg_sets n w = Ret (DOCA_SUCCESS, w).
Proof.
  intros Hw. induction n as [|n IH]; [done|]. cbn. cbv [mbind io_bind call]. rewrite Hw.
  change (is_ok DOCA_SUCCESS) with true. exact IH.
Qed.

(** One step of a program whose next call is evaluated. *)
Ltac io_step :=
  erewrite run_bind by reflexivity; cbv beta;
  repeat change (is_ok DOCA_SUCCESS) with true; cbn [negb]; cbv iota.

(** Evaluate the updates of the environment. *)
Ltac io_norm := cbv [set_fds set_blocks set_file set_polls]; cbn [polls sends writes calls sent file fds blocks].
Ltac io_next := io_step; io_norm.

(** The same when [E] says what the next call does. *)
Ltac io_run E :=
  rewrite (run_bind _ _ _ _ _ E); cbv beta iota;
  repeat change (is_ok DOCA_SUCCESS) with true; cbn [negb]; cbv iota.

(** The same in a hypothesis. *)
Ltac io_run_in E H :=
  rewrite (run_bind _ _ _ _ _ E) in H; cbv beta iota in H;
  repeat change (is_ok DOCA_SUCCESS) with true in H; cbn [negb] in H; cbv iota in H.

(** A channel whose send queue may be full at times. *)
Definition busy (l : list doca_error_t) : Prop := Forall (fun e => e = DOCA_ERROR_AGAIN \/ e = DOCA_SUCCESS) l.

Lemma send_answer_busy l : busy l -> exists l', busy l' /\ send_answer l = (DOCA_SUCCESS, l').
Proof.
  intros H. induction l as [|e l IH]; [by exists []|].
  apply Forall_cons in H as [[-> | ->] H]; cbn; [by apply IH|by exists l].
Qed.

Lemma send_msg_busy m p s wr c st f fd b :
  busy s -> exists s', busy s' /\
    send_msg m (World p s wr c st f fd b) = Ret (DOCA_SUCCESS, World p s' wr c (st ++ [m]) f fd b).
Proof.
  intros H. destruct (send_answer_busy s H) as (s' & Hs & E). exists s'. split; [done|].
  unfold send_msg. cbn. by rewrite E.
Qed.

(** The pieces of a file. *)
Fixpoint chunks (n : nat) (c : nat) (d : list Z) : list (list Z) :=
  match n with
  | O => []
  | S n => take c d :: chunks n c (drop c d)
  end.

Lemma concat_chunks n c : forall d, (length d <= n * c)%nat -> mjoin (chunks n c d) = d.
Proof.
  induction n as [|n IH]; intros d H; cbn.
  - destruct d; [done|cbn in H; lia].
  - rewrite IH by (rewrite length_drop; lia). apply take_drop.
Qed.

Lemma length_chunks n c d : length (chunks n c d) = n.
Proof. revert d. induction n as [|n IH]; intros d; cbn; [done|by rewrite IH]. Qed.

Lemma chunks_le n c : forall d, Forall (fun m => length m <= c)%nat (chunks n c d).
Proof. induction n as [|n IH]; intros d; cbn; constructor; [rewrite length_take; lia|apply IH]. Qed.

(** All pieces but the last are full. *)
Lemma chunks_full n c : forall d i m, ((n - 1) * c <= length d)%nat ->
  chunks n c d !! i = Some m -> (S i < n)%nat -> length m = c.
Proof.
  induction n as [|n IH]; intros d i m Hd Hm Hi; [lia|]. cbn in Hm. destruct i as [|i]; cbn in Hm.
  - injection Hm as <-. rewrite length_take. destruct n; nia.
  - eapply (IH (drop c d)); [|exact Hm|lia]. rewrite length_drop. destruct n; nia.
Qed.

Lemma send_chunks_busy n c d p s wr cl st f fd b :
  busy s -> 0 <= c -> exists s', busy s' /\
    send_chunks n c d (World p s wr cl st f fd b)
      = Ret (DOCA_SUCCESS, World p s' wr cl (st ++ chunks n (Z.to_nat c) d) f fd b).
Proof.
  revert d s st. induction n as [|n IH]; intros d s st Hs Hc; cbn [send_chunks chunks].
  - exists s. by rewrite app_nil_r.
  - set (m := Z.to_nat _). destruct (send_msg_busy (take m d) p s wr cl st f fd b Hs) as (s1 & H1 & E1).
    destruct (IH (drop m d) s1 (st ++ [take m d]) H1 Hc) as (s2 & H2 & E2). exists s2. split; [done|].
    rewrite (run_bind _ _ _ _ _ E1). change (is_ok DOCA_SUCCESS) with true. cbv iota.
    rewrite E2, <-app_assoc. cbn [app].
    assert (take m d = take (Z.to_nat c) d /\ drop m d = drop (Z.to_nat c) d) as [-> ->]; [|done].
    destruct (decide (Z.of_nat (length d) <= c)).
    + rewrite !take_ge, !drop_ge by lia. done.
    + by replace m with (Z.to_nat c) by lia.
Qed.

(** [delayed n ms ps]: the polls [ps] bring the messages [ms] in order, and fewer than [n]
    polls in a row find no message. *)
Inductive delayed (n : Z) : list (list Z) -> list (doca_error_t * list Z) -> Prop :=
| delayed_nil : delayed n [] []
| delayed_cons again m ms ps :
    Forall (fun a => a.1 = DOCA_ERROR_AGAIN) again -> Z.of_nat (length again) < n ->
    delayed n ms ps -> delayed n (m :: ms) (again ++ (DOCA_SUCCESS, m) :: ps).

(** A transfer as the server sees it: it waits for the first message as long as it takes. *)
Inductive arrives (n : Z) : list (list Z) -> list (doca_error_t * list Z) -> Prop :=
| arrives_intro again m ms ps :
    Forall (fun a => a.1 = DOCA_ERROR_AGAIN) again -> delayed n ms ps ->
    arrives n (m :: ms) (again ++ (DOCA_SUCCESS, m) :: ps).

Lemma poll_answer_again limit again : forall c m ps,
  Forall (fun a => a.1 = DOCA_ERROR_AGAIN) again ->
  (forall n, limit = Some n -> c + Z.of_nat (length again) < n) ->
  poll_answer limit c (again ++ (DOCA_SUCCESS, m) :: ps) = Ret (Some (DOCA_SUCCESS, m), ps).
Proof.
  induction again as [|[e x] again IH]; intros c m ps H Hn; cbn; [done|].
  apply Forall_cons in H as [He H]. cbn in He. subst e.
  rewrite bool_decide_eq_false_2 by (intros E; specialize (Hn _ E); cbn in Hn; lia).
  apply IH; [done|]. intros n E. specialize (Hn _ E). cbn in Hn. lia.
Qed.

Lemma recv_again limit size again m ps s wr c st f fd b :
  Forall (fun a => a.1 = DOCA_ERROR_AGAIN) again ->
  (forall n, limit = Some n -> Z.of_nat (length again) < n) -> Z.of_nat (length m) <= size ->
  recv_msg limit size (World (again ++ (DOCA_SUCCESS, m) :: ps) s wr c st f fd b)
    = Ret (Some (DOCA_SUCCESS, m), World ps s wr c st f fd b).
Proof.
  intros H Hn Hm. unfold recv_msg. cbn [polls]. rewrite poll_answer_again by (try done; intros n E; specialize (Hn _ E); lia).
  cbn. by rewrite (proj2 (Z.leb_le _ _) Hm).
Qed.

Lemma be32_roundtrip v : in_width 32 v -> be32_of_msg (be32_msg v) = v.
Proof.
  intros H. unfold be32_of_msg, be32_msg, load. rewrite drop_0, take_ge by (rewrite length_le_bytes; lia).
  rewrite le_value_le_bytes. pose proof (bswap_range 4 v). rewrite (Z.mod_small (bswap 4 v)) by done.
  rewrite bswap_bswap. by apply Z.mod_small.
Qed.

Lemma be64_roundtrip v : in_width 64 v -> ntohq (load 0 8 (le_bytes 8 (ntohq v))) = v.
Proof.
  intros H. rewrite !ntohq_bswap. unfold load. rewrite drop_0, take_ge by (rewrite length_le_bytes; lia).
  rewrite le_value_le_bytes. pose proof (bswap_range 8 v). rewrite (Z.mod_small (bswap 8 v)) by done.
  rewrite bswap_bswap. by apply Z.mod_small.
Qed.

Lemma iterations_run t w : 1 <= t <= 2147 -> num_of_iterations t w = Ret (t * 100000, w).
Proof.
  intros H. unfold num_of_iterations, check. rewrite (proj2 (Z.leb_le _ _)), (proj2 (Z.ltb_lt _ _)) by lia. cbn [andb].
  io_step. change (SLEEP_IN_NANOS / 1000) with 10. unfold mret, io_ret. do 2 f_equal.
  rewrite Z.quot_div_nonneg by lia. replace (t * 1000 * 1000) with (t * 100000 * 10) by lia. by apply Z.div_mul.
Qed.

Lemma finish_busy p s wr c st f fd b :
  busy s -> exists s', send_finish DOCA_SUCCESS (World p s wr c st f fd b)
    = Ret (DOCA_SUCCESS, World p s' wr c (st ++ [finish_msg]) f fd b).
Proof.
  intros H. destruct (send_msg_busy finish_msg p s wr c st f fd b H) as (s' & _ & E). exists s'.
  unfold send_finish. by rewrite (run_bind _ _ _ _ _ E).
Qed.

(** Messages that arrive without any delay. *)
Lemma arrives_at_once n m ms : 0 < n -> arrives n (m :: ms) (pair DOCA_SUCCESS <$> m :: ms).
Proof.
  intros Hn. apply (arrives_intro n [] m ms); [done|].
  induction ms as [|m' ms IH]; cbn; [constructor|]. by apply (delayed_cons n [] m' ms).
Qed.
