(* ===== verification/FileCompression.v ===== *)
(** * File compression: client and server

    applications/file_compression/file_compression_core.c: the client compresses a file,
    sends its checksum, the number of messages and the compressed bytes; the server
    collects and decompresses them, compares the checksum and writes the file.  The tasks
    of samples/doca_compress/compress_common.c that the application calls are included.

    zlib and the compression engine are parameters: the output and the status of a task
    are functions of its input and the size of the destination. *)
From S2P Require Import Prelude Pack CommChannel.

Definition MAX_MSG_SIZE : Z := 4080.
Definition SW_MAX_FILE_SIZE : Z := 128 * 1024 * 1024.
Definition DECOMPRESS_RATIO : Z := 1032.
Definition ADLER_CHECKSUM_SHIFT : Z := 32.

Inductive file_compression_mode : Type := NO_VALID_INPUT | CLIENT | SERVER.
Inductive file_compression_compress_method : Type := COMPRESS_DEFLATE_HW | COMPRESS_DEFLATE_SW.
Inductive compress_mode : Type :=
| COMPRESS_MODE_COMPRESS_DEFLATE
| COMPRESS_MODE_DECOMPRESS_DEFLATE
| COMPRESS_MODE_DECOMPRESS_LZ4_STREAM.

#[export] Instance compress_mode_eq_dec : EqDecision compress_mode.
Proof. solve_decision. Defined.

(** The completion of a task, with the data it has written. *)
Record compress_deflate_result : Type := DeflateResult {
  status : doca_error_t; crc_cs : Z; adler_cs : Z; output : list Z
}.

Section FileCompression.

Context (deflate inflate : list Z -> Z -> compress_deflate_result).
Context (zlib_deflate : list Z -> Z -> option (list Z)) (crc32 adler32 : list Z -> Z).

(** ** Compression *)

Definition calculate_checksum (crc_checksum adler_checksum : Z) : Z :=
  u64 (u64 (Z.shiftl adler_checksum ADLER_CHECKSUM_SHIFT) + crc_checksum).

(** Result, data of the destination buffer, checksum; the last two on success. *)
Definition failed (e : doca_error_t) : doca_error_t * list Z * Z := (e, [], 0).

Definition submit_task (engine : list Z -> Z -> compress_deflate_result) (src : list Z) (dst_size : Z)
    : io (doca_error_t * list Z * Z) :=
  result ← call;
  if negb (is_ok result) then mret (failed result)
  else
    result ← call;
    if negb (is_ok result) then mret (failed result)
    else
      let task_result := engine src dst_size in
      if negb (is_ok (status task_result)) then mret (failed (status task_result))
      else mret (DOCA_SUCCESS, output task_result, calculate_checksum (crc_cs task_result) (adler_cs task_result)).

Definition submit_compress_deflate_task : list Z -> Z -> io (doca_error_t * list Z * Z) := submit_task deflate.
Definition submit_decompress_deflate_task : list Z -> Z -> io (doca_error_t * list Z * Z) := submit_task inflate.

Definition populate_dst_buf : io doca_error_t :=
  result ← call;
  if negb (is_ok result) then mret result
  else
    result ← call;
    if negb (is_ok result) then mret result else call.

(** [munmap]; of an address that is not a mapping's it fails and changes nothing. *)
Definition munmap (mapped : bool) : io unit := free mapped.

(** [mapped]: whether the data are the client's mapping of the file (a block of memory), or
    the server's buffer.  Once [doca_mmap_set_free_cb] has taken [unmap_cb] the mapping
    belongs to the memory map, which calls it when it is destroyed; when it fails the mapping
    is removed at once. *)
Definition compress_file_hw (mapped : bool) (mode : compress_mode) (file_data : list Z) (dst_buf_size : Z)
    : io (doca_error_t * list Z * Z) :=
  result ← call;
  if negb (is_ok result) then mret (failed result)
  else
  result ← call;
  if negb (is_ok result) then mret (failed result)
  else
  result ← call;
  munmap mapped;;
  if negb (is_ok result) then mret (failed result)
  else
  result ← call;
  if negb (is_ok result) then mret (failed result)
  else
  result ← call;
  if negb (is_ok result) then mret (failed result)
  else
  result ← populate_dst_buf;
  r ← (if negb (is_ok result) then mret (failed result)
       else
         r ← (if bool_decide (mode = COMPRESS_MODE_COMPRESS_DEFLATE)
              then submit_compress_deflate_task file_data dst_buf_size
              else submit_decompress_deflate_task file_data dst_buf_size);
         tmp_result ← call;
         mret (DOCA_ERROR_PROPAGATE r.1.1 tmp_result, r.1.2, r.2));
  tmp_result ← call;
  mret (DOCA_ERROR_PROPAGATE r.1.1 tmp_result, r.1.2, r.2).

(** The stream of zlib is a block of memory from [deflateInit2] to [deflateEnd]. *)
Definition compress_file_sw (file_data : list Z) (dst_buf_size : Z) : io (doca_error_t * list Z) :=
  b ← succeeds;
  if negb b then mret (DOCA_ERROR_BAD_STATE, [])
  else
    allocated;;
    b ← succeeds;
    if negb b then mret (DOCA_ERROR_BAD_STATE, [])
    else
      match zlib_deflate file_data dst_buf_size with
      | None => mret (DOCA_ERROR_BAD_STATE, [])
      | Some out =>
          released;;
          b ← succeeds;
          if negb b then mret (DOCA_ERROR_BAD_STATE, []) else mret (DOCA_SUCCESS, out)
      end.

Definition calculate_checksum_sw (file_data : list Z) : Z :=
  let crc := crc32 file_data in
  let adler := adler32 file_data in
  let result_checksum := u64 (Z.shiftl adler 32) in
  u64 (result_checksum + crc).

Definition dst_size (mode : compress_mode) (file_size max_buf_size : Z) : Z :=
  match mode with
  | COMPRESS_MODE_COMPRESS_DEFLATE =>
      let dst_buf_size := Z.max (u64 (file_size + 16)) (u64 (file_size * 2)) in
      if max_buf_size <? dst_buf_size then max_buf_size else dst_buf_size
  | COMPRESS_MODE_DECOMPRESS_DEFLATE => Z.min max_buf_size (u64 (DECOMPRESS_RATIO * file_size))
  | COMPRESS_MODE_DECOMPRESS_LZ4_STREAM => 0
  end.

(** Also returns whether the destination was allocated. *)
Definition compress_file (mapped : bool) (mode : compress_mode) (method : file_compression_compress_method)
    (max_buf_size : Z) (file_data : list Z) : io (bool * (doca_error_t * list Z * Z)) :=
  let dst_buf_size := dst_size mode (Z.of_nat (length file_data)) max_buf_size in
  compressed_file ← calloc;
  if negb compressed_file then mret (false, failed DOCA_ERROR_NO_MEMORY)
  else
    match method with
    | COMPRESS_DEFLATE_SW =>
        let output_chksum := calculate_checksum_sw file_data in
        r ← compress_file_sw file_data dst_buf_size;
        mret (true, (r.1, r.2, output_chksum))
    | COMPRESS_DEFLATE_HW =>
        r ← compress_file_hw mapped mode file_data dst_buf_size;
        mret (true, r)
    end.

(** ** Client *)

Definition send_file (file_data : list Z) : io doca_error_t :=
  let total_msgs := u32 ((Z.of_nat (length file_data) + MAX_MSG_SIZE - 1) / MAX_MSG_SIZE) in
  result ← send_msg (be32_msg total_msgs);
  if negb (is_ok result) then mret result else send_chunks (Z.to_nat total_msgs) MAX_MSG_SIZE file_data.

Definition file_compression_client (mode : compress_mode) (max_buf_size : Z)
    (method : file_compression_compress_method) : io doca_error_t :=
  fd ← open_rdwr;
  match fd with
  | None => mret DOCA_ERROR_IO_FAILED
  | Some file_data =>
      b ← succeeds;
      if negb b then close;; mret DOCA_ERROR_IO_FAILED
      else
      let st_size := Z.of_nat (length file_data) in
      if (st_size =? 0) || (max_buf_size <? st_size) then close;; mret DOCA_ERROR_INVALID_VALUE
      else
      b ← succeeds;
      if negb b then close;; mret DOCA_ERROR_NO_MEMORY
      else
      allocated;;
      r ← compress_file true mode method max_buf_size file_data;
      let '(compressed_file, (result, data, checksum)) := r in
      if negb (is_ok result) then close;; free compressed_file;; mret result
      else
      close;;
      result ← send_msg (le_bytes 8 (ntohq checksum));
      if negb (is_ok result) then free compressed_file;; mret result
      else
      result ← send_file data;
      if negb (is_ok result) then free compressed_file;; mret result
      else
      free compressed_file;;
      a ← recv_msg None MAX_MSG_SIZE;
      match a with
      | Some (result, _) => mret result
      | None => undef OutOfFuel
      end
  end.

(** ** Server *)

(** The loop that collects the file: [inl result] is the jump to [finish_msg]. *)
Fixpoint receive_file (n : nat) (iterations max_buf_size : Z) (received : list Z) : io (doca_error_t + list Z) :=
  match n with
  | O => mret (inr received)
  | S n =>
      a ← recv_msg (Some iterations) MAX_MSG_SIZE;
      match a with
      | None => mret (inl DOCA_ERROR_AGAIN)
      | Some (result, msg) =>
          if negb (is_ok result) then mret (inl result)
          else if max_buf_size <? Z.of_nat (length received + length msg) then mret (inl result)
          else receive_file n iterations max_buf_size (received ++ msg)
      end
  end.

(** From the decompression to the written file. *)
Definition store_file (mode : compress_mode) (max_buf_size : Z) (method : file_compression_compress_method)
    (compressed : list Z) (received_checksum : Z) : io doca_error_t :=
  r ← compress_file false mode method max_buf_size compressed;
  let '(resp_head, (result, data, checksum)) := r in
  if negb (is_ok result) then free resp_head;; mret result
  else if negb (checksum =? received_checksum) then free resp_head;; mret DOCA_ERROR_BAD_STATE
  else
    fd ← open_creat;
    if negb fd then free resp_head;; mret DOCA_ERROR_IO_FAILED
    else
      b ← write 0 data;
      if negb b then free resp_head;; close;; mret DOCA_ERROR_IO_FAILED
      else free resp_head;; close;; mret DOCA_SUCCESS.

(** The two messages in front of the file. *)
Definition receive_header (limit : option Z) (size : Z) : io (doca_error_t + list Z) :=
  a ← recv_msg limit MAX_MSG_SIZE;
  match a with
  | None => mret (inl DOCA_ERROR_AGAIN)
  | Some (result, msg) =>
      if negb (is_ok result) then mret (inl result)
      else if negb (Z.of_nat (length msg) =? size) then mret (inl result)
      else mret (inr msg)
  end.

(** The server up to [finish_msg], with the result and whether [compressed_file] is set. *)
Definition server_body (mode : compress_mode) (max_buf_size : Z) (method : file_compression_compress_method)
    (iterations : Z) : io (bool * doca_error_t) :=
  a ← receive_header None 8;
  match a with
  | inl result => mret (false, result)
  | inr msg =>
      let received_checksum := ntohq (load 0 8 msg) in
      a ← receive_header (Some iterations) 4;
      match a with
      | inl result => mret (false, result)
      | inr msg =>
          let total_msgs := be32_of_msg msg in
          compressed_file ← calloc;
          if negb compressed_file then mret (false, DOCA_ERROR_NO_MEMORY)
          else
          a ← receive_file (Z.to_nat total_msgs) iterations max_buf_size [];
          match a with
          | inl result => mret (true, result)
          | inr compressed =>
              result ← store_file mode max_buf_size method compressed received_checksum;
              mret (true, result)
          end
      end
  end.

Definition file_compression_server (mode : compress_mode) (timeout max_buf_size : Z)
    (method : file_compression_compress_method) : io doca_error_t :=
  iterations ← num_of_iterations timeout;
  r ← server_body mode max_buf_size method iterations;
  free r.1;;
  send_finish r.2.

(** ** Set-up *)

(** What the set-up hands to client and server; [None]: [max_buf_size] was not written. *)
Record setup : Type := Setup {
  s_mode : compress_mode; s_method : file_compression_compress_method; s_max_buf_size : option Z;
  s_timeout : Z
}.

Definition get_compress_resources (mode : file_compression_mode) : io (doca_error_t * compress_mode) :=
  let resources_mode :=
    match mode with CLIENT => COMPRESS_MODE_COMPRESS_DEFLATE | _ => COMPRESS_MODE_DECOMPRESS_DEFLATE end in
  result ← call;
  mret (result, resources_mode).

(** [hw_max]: the size the device reports. *)
Definition get_compress_max_buf_size (hw_max : Z) : io (doca_error_t * option Z) :=
  result ← call;
  mret (result, if is_ok result then Some hw_max else None).

Definition init_compress_resources (mode : file_compression_mode) (hw_max timeout : Z) : io (doca_error_t * setup) :=
  r ← get_compress_resources mode;
  let (result, resources_mode) := r : doca_error_t * compress_mode in
  if negb (is_ok result) then
    if bool_decide (resources_mode = COMPRESS_MODE_COMPRESS_DEFLATE)
    then mret (DOCA_SUCCESS, Setup resources_mode COMPRESS_DEFLATE_SW (Some SW_MAX_FILE_SIZE) timeout)
    else mret (result, Setup resources_mode COMPRESS_DEFLATE_HW None timeout)
  else
    r ← get_compress_max_buf_size hw_max;
    let (result, max_buf_size) := r : doca_error_t * option Z in
    let s := Setup resources_mode COMPRESS_DEFLATE_HW max_buf_size timeout in
    if negb (is_ok result) then
      result ← call;
      mret (result, s)
    else mret (result, s).

Definition set_endpoint_properties (mode : file_compression_mode) : io doca_error_t :=
  result ← call;
  if negb (is_ok result) then mret result
  else
  result ← call;
  if negb (is_ok result) then mret result
  else
  result ← call;
  if negb (is_ok result) then mret result
  else
  result ← call;
  if negb (is_ok result) then mret result
  else
  match mode with
  | SERVER => call
  | _ => mret DOCA_SUCCESS
  end.

(** The labels [rep_dev_close] and [dev_close]. *)
Definition init_close (mode : file_compression_mode) (rep : bool) : io unit :=
  (match mode with SERVER => if rep then close else mret tt | _ => mret tt end);;
  close;;
  close.

(** The client connects and waits for the connection, the server listens. *)
Definition connect (mode : file_compression_mode) : io doca_error_t :=
  match mode with
  | CLIENT =>
      result ← call;
      if negb (is_ok result) then mret result else call_while DOCA_ERROR_CONNECTION_INPROGRESS
  | _ => call
  end.

Definition file_compression_init (mode : file_compression_mode) (hw_max timeout : Z)
    : io (doca_error_t * option setup) :=
  let timeout := if timeout =? 0 then DEFAULT_TIMEOUT else timeout in
  result ← acquire;
  if negb (is_ok result) then mret (result, None)
  else
  result ← acquire;
  if negb (is_ok result) then close;; mret (result, None)
  else
  result ← (match mode with SERVER => acquire | _ => mret DOCA_SUCCESS end);
  if negb (is_ok result) then init_close mode false;; mret (result, None)
  else
  result ← set_endpoint_properties mode;
  if negb (is_ok result) then init_close mode true;; mret (result, None)
  else
  result ← connect mode;
  if negb (is_ok result) then init_close mode true;; mret (result, None)
  else
  r ← init_compress_resources mode hw_max timeout;
  let (result, s) := r : doca_error_t * setup in
  if negb (is_ok result) then init_close mode true;; mret (result, None)
  else mret (DOCA_SUCCESS, Some s).

(** ** Resources of client and server *)

Lemma uses_submit engine src n : uses (submit_task engine src n) (fun _ => (0, 0)).
Proof. unfold submit_task. uses_all. Qed.
Lemma uses_populate : uses populate_dst_buf (fun _ => (0, 0)).
Proof. unfold populate_dst_buf. uses_all. Qed.
#[local] Hint Resolve uses_submit uses_populate : uses.

Lemma uses_submit_any (b : bool) src n :
  uses (if b then submit_compress_deflate_task src n else submit_decompress_deflate_task src n) (fun _ => (0, 0)).
Proof. destruct b; apply uses_submit. Qed.
#[local] Hint Resolve uses_submit_any : uses.

Lemma uses_task mode src n result :
  uses (if negb (is_ok result) then mret (failed result)
        else
          r ← (if bool_decide (mode = COMPRESS_MODE_COMPRESS_DEFLATE)
               then submit_compress_deflate_task src n else submit_decompress_deflate_task src n);
          tmp_result ← call;
          mret (DOCA_ERROR_PROPAGATE r.1.1 tmp_result, r.1.2, r.2)) (fun _ => (0, 0)).
Proof. uses_all. Qed.
#[local] Hint Resolve uses_task : uses.

Lemma uses_compress_hw mode d n : uses (compress_file_hw false mode d n) (fun _ => (0, 0)).
Proof. unfold compress_file_hw, munmap. uses_all. Qed.
#[local] Hint Resolve uses_compress_hw : uses.

Lemma uses_compress mode max d :
  uses (compress_file false mode COMPRESS_DEFLATE_HW max d) (fun r => (0, Z.b2z r.1)).
Proof. unfold compress_file. uses_all. Qed.

(** With a mapping: the engine has given it back, or reports an error. *)
Definition gives_back (r : doca_error_t) (f b : Z) : Prop := f = 0 /\ (b = -1 \/ b = 0 /\ is_ok r = false).

Lemma acct_compress_hw mode d n : acct (compress_file_hw true mode d n) (fun r => gives_back r.1.1).
Proof.
  pose proof (uses_populate) as Hp. pose proof (uses_task mode d n) as Ht. unfold compress_file_hw, munmap, gives_back.
  repeat first [acct_step | eapply acct_bind; [apply acct_uses, Hp|intros ? ? ?; cbn [fst snd]; intros ?]
                          | eapply acct_bind; [apply acct_uses, Ht|intros ? ? ?; cbn [fst snd]; intros ?]].
  all: repeat match goal with H : _ /\ _ |- _ => destruct H end; cbn [Z.b2z failed fst snd] in *; (split; [lia|]); auto with lia.
Qed.

Lemma acct_compress mode max d :
  acct (compress_file true mode COMPRESS_DEFLATE_HW max d) (fun r f b => gives_back r.2.1.1 f (b - Z.b2z r.1)).
Proof.
  pose proof (acct_compress_hw mode d (dst_size mode (Z.of_nat (length d)) max)) as H. unfold compress_file. acct_step. acct_step.
  - eapply acct_bind; [exact H|]. intros r2 f2 b2 [Hf Hb]. acct_step. split; cbn; cbn in *; [lia|]. destruct Hb as [|[? ?]]; [left; lia|right; split; [lia|done]].
  - acct_step. split; cbn in *; [lia|]. right. split; [lia|done].
Qed.
Lemma uses_send_file d : uses (send_file d) (fun _ => (0, 0)).
Proof. unfold send_file. uses_all. Qed.
Lemma uses_receive n it max : forall l, uses (receive_file n it max l) (fun _ => (0, 0)).
Proof. induction n as [|n IH]; intros l; cbn [receive_file]; uses_all. Qed.
Lemma uses_header l n : uses (receive_header l n) (fun _ => (0, 0)).
Proof. unfold receive_header. uses_all. Qed.
#[local] Hint Resolve uses_compress uses_send_file uses_receive uses_header : uses.

Lemma uses_store mode max d k : uses (store_file mode max COMPRESS_DEFLATE_HW d k) (fun _ => (0, 0)).
Proof. unfold store_file. uses_all. Qed.
#[local] Hint Resolve uses_store : uses.

Lemma uses_body mode max it : uses (server_body mode max COMPRESS_DEFLATE_HW it) (fun r => (0, Z.b2z r.1)).
Proof. unfold server_body. uses_all. Qed.
#[local] Hint Resolve uses_body : uses.

Lemma uses_init_close mode rep :
  uses (init_close mode rep) (fun _ => (match mode with SERVER => - Z.b2z rep | _ => 0 end - 2, 0)).
Proof. unfold init_close. destruct mode, rep; cbv beta iota; uses_all. Qed.
Lemma uses_connect mode : uses (connect mode) (fun _ => (0, 0)).
Proof. unfold connect. uses_all. Qed.
Lemma uses_props mode : uses (set_endpoint_properties mode) (fun _ => (0, 0)).
Proof. unfold set_endpoint_properties. uses_all. Qed.
Lemma uses_get_resources mode : uses (get_compress_resources mode) (fun _ => (0, 0)).
Proof. unfold get_compress_resources. uses_all. Qed.
Lemma uses_get_max m : uses (get_compress_max_buf_size m) (fun _ => (0, 0)).
Proof. unfold get_compress_max_buf_size. uses_all. Qed.
#[local] Hint Resolve uses_get_resources uses_get_max : uses.
Lemma uses_init_compress mode m t : uses (init_compress_resources mode m t) (fun _ => (0, 0)).
Proof. unfold init_compress_resources. uses_all. Qed.
#[local] Hint Resolve uses_connect uses_init_close uses_props uses_init_compress : uses.

(** ** Delivery *)

(** What a client or a server gets from its engine: the data and the checksum. *)
Definition compressed (mode : compress_mode) (method : file_compression_compress_method) (d : list Z) (n : Z)
    : option (list Z * Z) :=
  match method with
  | COMPRESS_DEFLATE_SW => (fun out => (out, calculate_checksum_sw d)) <$> zlib_deflate d n
  | COMPRESS_DEFLATE_HW =>
      let r := if bool_decide (mode = COMPRESS_MODE_COMPRESS_DEFLATE) then deflate d n else inflate d n in
      if is_ok (status r) then Some (output r, calculate_checksum (crc_cs r) (adler_cs r)) else None
  end.

Definition unmapped (mapped : bool) (method : file_compression_compress_method) : Z :=
  match method with COMPRESS_DEFLATE_HW => Z.b2z mapped | COMPRESS_DEFLATE_SW => 0 end.

Lemma compress_quiet mapped mode method max d c k p s wr st f fd b :
  compressed mode method d (dst_size mode (Z.of_nat (length d)) max) = Some (c, k) ->
  compress_file mapped mode method max d (World p s wr [] st f fd b)
    = Ret ((true, (DOCA_SUCCESS, c, k)), World p s wr [] st f fd (b + 1 - unmapped mapped method)).
Proof.
  intros H. unfold compress_file. set (n := dst_size _ _ _) in *.
  rewrite (run_bind _ _ _ true (World p s wr [] st f fd (b + 1))) by done. cbn [negb].
  destruct method; cbn [compressed] in H.
  - unfold compress_file_hw, munmap, submit_compress_deflate_task, submit_decompress_deflate_task.
    destruct mapped, (bool_decide _); (destruct (is_ok (status _)) eqn:E; [|discriminate]); injection H as <- <-;
      cbv [submit_task populate_dst_buf call mbind io_bind mret io_ret calls]; cbn; rewrite E; cbn; by rewrite ?Z.sub_0_r.
  - destruct (zlib_deflate d n) eqn:E; [|discriminate]. injection H as <- <-.
    erewrite run_bind; [|unfold compress_file_sw; do 3 io_step; rewrite E; do 2 io_step; reflexivity].
    cbn. by replace (b + 1 + 1 - 1) with (b + 1 - 0) by lia.
Qed.

(** The mapping that a client leaves behind. *)
Definition leftover (method : file_compression_compress_method) : Z :=
  match method with COMPRESS_DEFLATE_HW => 0 | COMPRESS_DEFLATE_SW => 1 end.

(** What the engines promise: a compressed file is at most [DECOMPRESS_RATIO] times smaller
    and decompresses to the file, and all checksums are those of the plain file. *)
Class deflate_laws : Prop := {
  dl_sums d n : status (deflate d n) = DOCA_SUCCESS ->
    crc_cs (deflate d n) = crc32 d /\ adler_cs (deflate d n) = adler32 d;
  dl_inflate method d n c k m :
    compressed COMPRESS_MODE_COMPRESS_DEFLATE method d n = Some (c, k) -> Z.of_nat (length d) <= m ->
    inflate c m = DeflateResult DOCA_SUCCESS (crc32 d) (adler32 d) d;
  dl_ratio method d n c k :
    compressed COMPRESS_MODE_COMPRESS_DEFLATE method d n = Some (c, k) ->
    Z.of_nat (length d) <= DECOMPRESS_RATIO * Z.of_nat (length c)
}.

Lemma checksum_agrees `{deflate_laws} method d n c k :
  compressed COMPRESS_MODE_COMPRESS_DEFLATE method d n = Some (c, k) ->
  k = calculate_checksum (crc32 d) (adler32 d).
Proof.
  destruct method; unfold compressed; intros E.
  - change (bool_decide _) with true in E. cbv iota zeta in E. destruct (is_ok (status (deflate d n))) eqn:Es; [|discriminate]. injection E as _ <-.
    apply bool_decide_eq_true in Es. destruct (dl_sums d n Es) as [-> ->]. done.
  - destruct (zlib_deflate d n); [|discriminate]. by injection E as _ <-.
Qed.

Lemma decompressed `{deflate_laws} method d n c k max :
  compressed COMPRESS_MODE_COMPRESS_DEFLATE method d n = Some (c, k) ->
  Z.of_nat (length d) <= max -> Z.of_nat (length c) < 2 ^ 50 ->
  compressed COMPRESS_MODE_DECOMPRESS_DEFLATE COMPRESS_DEFLATE_HW c
    (dst_size COMPRESS_MODE_DECOMPRESS_DEFLATE (Z.of_nat (length c)) max) = Some (d, k).
Proof.
  intros E Hd Hc. pose proof (dl_ratio _ _ _ _ _ E) as Hr. rewrite (checksum_agrees _ _ _ _ _ E).
  unfold compressed, dst_size. change (bool_decide _) with false. cbv iota zeta.
  rewrite (dl_inflate _ _ _ _ _ _ E); [done|].
  unfold DECOMPRESS_RATIO in *. rewrite (uwrap_id 64 (1032 * _)); [lia|]. split; lia.
Qed.

Lemma receive_delayed it max ms ps :
  delayed it ms ps -> Forall (fun m => length m <= 4080)%nat ms ->
  forall acc s wr c st f fd b, Z.of_nat (length acc + length (mjoin ms)) <= max ->
  receive_file (length ms) it max acc (World ps s wr c st f fd b)
    = Ret (inr (acc ++ mjoin ms), World [] s wr c st f fd b).
Proof.
  induction 1 as [|again m ms ps Ha Hn _ IH]; intros Hl acc s wr c st f fd b Hmax; cbn [length receive_file].
  - cbn. by rewrite app_nil_r.
  - apply Forall_cons in Hl as [Hm Hl]. change (mjoin (m :: ms)) with (m ++ mjoin ms) in *. rewrite length_app in Hmax.
    rewrite (run_bind _ _ _ _ _ (recv_again (Some it) MAX_MSG_SIZE again m ps s wr c st f fd b Ha
      ltac:(intros n [= <-]; done) ltac:(unfold MAX_MSG_SIZE; lia))).
    change (is_ok DOCA_SUCCESS) with true. cbn [negb]. rewrite (proj2 (Z.ltb_ge _ _)) by lia.
    rewrite IH by (try done; rewrite length_app; lia). by rewrite app_assoc.
Qed.

Definition total_msgs (c : list Z) : Z := (Z.of_nat (length c) + MAX_MSG_SIZE - 1) / MAX_MSG_SIZE.

(** The messages of a transfer. *)
Definition transfer (c : list Z) (k : Z) : list (list Z) :=
  le_bytes 8 (ntohq k) :: be32_msg (total_msgs c) :: chunks (Z.to_nat (total_msgs c)) 4080 c.

Lemma total_msgs_range c : Z.of_nat (length c) < 2 ^ 43 ->
  in_width 32 (total_msgs c) /\ (length c <= Z.to_nat (total_msgs c) * 4080)%nat.
Proof.
  intros H. unfold total_msgs, MAX_MSG_SIZE, in_width.
  set (n := Z.of_nat (length c)) in *. pose proof (Z.div_mod (n + 4080 - 1) 4080).
  pose proof (Z.mod_pos_bound (n + 4080 - 1) 4080). nia.
Qed.

Lemma client_quiet method max d c k again s :
  compressed COMPRESS_MODE_COMPRESS_DEFLATE method d
    (dst_size COMPRESS_MODE_COMPRESS_DEFLATE (Z.of_nat (length d)) max) = Some (c, k) ->
  0 < Z.of_nat (length d) <= max -> Z.of_nat (length c) < 2 ^ 43 ->
  busy s -> Forall (fun a => a.1 = DOCA_ERROR_AGAIN) again ->
  exists s', file_compression_client COMPRESS_MODE_COMPRESS_DEFLATE max method
      (World (again ++ [(DOCA_SUCCESS, finish_msg)]) s [] [] [] (Some d) 0 0)
    = Ret (DOCA_SUCCESS, World [] s' [] [] (transfer c k) (Some d) 0 (leftover method)).
Proof.
  intros E Hd Hc Hs Ha. unfold file_compression_client.
  io_step. io_step. rewrite (proj2 (Z.eqb_neq _ 0)), (proj2 (Z.ltb_ge _ _)) by lia. cbn [orb]. io_step. io_step.
  io_run (compress_quiet true _ _ _ _ _ _ (again ++ [(DOCA_SUCCESS, finish_msg)]) s [] [] (Some d) 1 (0 + 1) E).
  replace (0 + 1 + 1 - unmapped true method) with (leftover method + 1) by (by destruct method).
  io_step. io_norm.
  destruct (send_msg_busy (le_bytes 8 (ntohq k)) (again ++ [(DOCA_SUCCESS, finish_msg)]) s [] [] [] (Some d) (1 - 1) (leftover method + 1) Hs)
    as (s1 & H1 & E1). io_run E1. clear E1.
  destruct (total_msgs_range c Hc) as [Ht Hn].
  destruct (send_msg_busy (be32_msg (total_msgs c)) (again ++ [(DOCA_SUCCESS, finish_msg)]) s1 [] []
    [le_bytes 8 (ntohq k)] (Some d) (1 - 1) (leftover method + 1) H1) as (s2 & H2 & E2).
  destruct (send_chunks_busy (Z.to_nat (total_msgs c)) MAX_MSG_SIZE c (again ++ [(DOCA_SUCCESS, finish_msg)]) s2 [] []
    [le_bytes 8 (ntohq k); be32_msg (total_msgs c)] (Some d) (1 - 1) (leftover method + 1) H2) as (s3 & H3 & E3); [done|].
  assert (send_file c (World (again ++ [(DOCA_SUCCESS, finish_msg)]) s1 [] [] [le_bytes 8 (ntohq k)] (Some d) (1 - 1) (leftover method + 1))
    = Ret (DOCA_SUCCESS, World (again ++ [(DOCA_SUCCESS, finish_msg)]) s3 [] [] (transfer c k) (Some d) (1 - 1) (leftover method + 1))) as E4.
  { unfold send_file. fold (total_msgs c). rewrite (uwrap_id 32 (total_msgs c)) by done. io_run E2. exact E3. }
  cbn [app]. io_run E4. io_step. eexists.
  erewrite run_bind by (apply recv_again; [done|done|vm_compute; discriminate]). cbv [mret io_ret]. do 3 f_equal. cbn. lia.
Qed.

Lemma store_quiet max c d k p s st f fd b :
  compressed COMPRESS_MODE_DECOMPRESS_DEFLATE COMPRESS_DEFLATE_HW c
    (dst_size COMPRESS_MODE_DECOMPRESS_DEFLATE (Z.of_nat (length c)) max) = Some (d, k) ->
  store_file COMPRESS_MODE_DECOMPRESS_DEFLATE max COMPRESS_DEFLATE_HW c k (World p s [] [] st f fd b)
    = Ret (DOCA_SUCCESS, World p s [] [] st (Some (d ++ drop (length d) (default [] f))) fd b).
Proof.
  intros E. unfold store_file. io_run (compress_quiet false _ _ _ _ _ _ p s [] st f fd b E).
  rewrite Z.eqb_refl. cbn [negb]. io_step.
  erewrite run_bind by reflexivity. cbn [writes set_file set_fds fds].
  rewrite Z.eqb_refl. cbn [negb]. unfold free. io_step. io_step. cbn. unfold mret, io_ret, set_fds, set_blocks. cbn.
  do 3 f_equal; [|lia|lia]. rewrite Nat2Z.id, firstn_all. done.
Qed.

Lemma header_quiet limit size again m ps s wr c st f fd b :
  Forall (fun a => a.1 = DOCA_ERROR_AGAIN) again ->
  (forall n, limit = Some n -> Z.of_nat (length again) < n) ->
  Z.of_nat (length m) = size -> size <= MAX_MSG_SIZE ->
  receive_header limit size (World (again ++ (DOCA_SUCCESS, m) :: ps) s wr c st f fd b)
    = Ret (inr m, World ps s wr c st f fd b).
Proof.
  intros Ha Hn Hm Hs. unfold receive_header.
  io_run (recv_again limit MAX_MSG_SIZE again m ps s wr c st f fd b Ha Hn ltac:(lia)).
  by rewrite (proj2 (Z.eqb_eq _ _) Hm).
Qed.

Lemma server_quiet `{deflate_laws} method n max timeout d c k old ps s :
  compressed COMPRESS_MODE_COMPRESS_DEFLATE method d n = Some (c, k) ->
  Z.of_nat (length d) <= max -> Z.of_nat (length c) <= max -> Z.of_nat (length c) < 2 ^ 43 ->
  1 <= timeout <= 2147 -> busy s -> arrives (timeout * 100000) (transfer c k) ps ->
  exists s', file_compression_server COMPRESS_MODE_DECOMPRESS_DEFLATE timeout max COMPRESS_DEFLATE_HW
      (World ps s [] [] [] old 0 0)
    = Ret (DOCA_SUCCESS, World [] s' [] [] [finish_msg] (Some (d ++ drop (length d) (default [] old))) 0 0).
Proof.
  intros E Hd Hcm Hc Ht Hs Hps. destruct (total_msgs_range c Hc) as [Hw Hn].
  inversion Hps as [again m ms ps' Ha Hdel]; subst. inversion Hdel as [|again1 m1 ms1 ps1 Ha1 Hl1 Hdel1]; subst.
  unfold file_compression_server. io_run (iterations_run timeout (World (again ++ (DOCA_SUCCESS, le_bytes 8 (ntohq k)) ::
    again1 ++ (DOCA_SUCCESS, be32_msg (total_msgs c)) :: ps1) s [] [] [] old 0 0) Ht).
  assert (server_body COMPRESS_MODE_DECOMPRESS_DEFLATE max COMPRESS_DEFLATE_HW (timeout * 100000)
    (World (again ++ (DOCA_SUCCESS, le_bytes 8 (ntohq k)) :: again1 ++ (DOCA_SUCCESS, be32_msg (total_msgs c)) :: ps1)
       s [] [] [] old 0 0)
    = Ret ((true, DOCA_SUCCESS), World [] s [] [] [] (Some (d ++ drop (length d) (default [] old))) 0 1)) as Eb.
  { unfold server_body.
    erewrite run_bind by (apply header_quiet; [done|done|by rewrite length_le_bytes|done]). cbv beta iota.
    erewrite run_bind by (apply header_quiet; [done|by intros n' [= <-]|unfold be32_msg; by rewrite length_le_bytes|done]).
    cbv beta iota. io_step. rewrite be32_roundtrip by done.
    rewrite <-(length_chunks (Z.to_nat (total_msgs c)) 4080 c) at 1.
    erewrite run_bind by (apply receive_delayed; [done|apply chunks_le|rewrite concat_chunks by done; cbn; lia]).
    cbv beta iota. rewrite concat_chunks by done. cbn [app]. rewrite be64_roundtrip.
    2: { rewrite (checksum_agrees _ _ _ _ _ E). apply uwrap_range. lia. }
    erewrite run_bind by (apply store_quiet, (decompressed _ _ _ _ _ _ E); lia). done. }
  io_run Eb. cbn [fst snd]. unfold free. io_step. io_norm.
  apply finish_busy. done.
Qed.


(** Whatever the channel, the file system and the libraries answer, a server that returns
    has closed every descriptor and freed every block it has acquired. *)
Theorem compression_server_releases mode timeout max_buf_size w r w' :
  file_compression_server mode timeout max_buf_size COMPRESS_DEFLATE_HW w = Ret (r, w') ->
  fds w' = fds w /\ blocks w' = blocks w.
Proof.
  intros H. assert (uses (file_compression_server mode timeout max_buf_size COMPRESS_DEFLATE_HW) (fun _ => (0, 0))) as U
    by (unfold file_compression_server; uses_all).
  destruct (U _ _ _ H) as [-> ->]. cbn. lia.
Qed.

#[local] Hint Resolve uses_open_rdwr uses_allocated uses_send uses_recv : acct.
#[local] Hint Resolve uses_send_file acct_compress : acct.

Lemma client_acct mode max_buf_size :
  acct (file_compression_client mode max_buf_size COMPRESS_DEFLATE_HW)
    (fun r f b => f = 0 /\ (b = 0 \/ b = 1 /\ is_ok r = false)).
Proof.
  unfold file_compression_client. repeat acct_step.
  all: repeat match goal with
              | H : gives_back _ _ _ |- _ => unfold gives_back in H; cbn [fst snd] in H
              | H : is_ok ?e = _, H' : context [is_ok ?e] |- _ => rewrite H in H'
              | H : _ /\ _ |- _ => destruct H
              | H : _ \/ _ |- _ => destruct H
              end; try discriminate; cbn [Z.b2z] in *; (split; [lia|]); auto with lia.
Qed.

(** A client that uses the engine has closed its descriptors and freed its memory, and its
    mapping of the file is gone or the memory map's, unless it reports an error: then the
    mapping may be left. *)
Theorem compression_client_releases mode max_buf_size w r w' :
  file_compression_client mode max_buf_size COMPRESS_DEFLATE_HW w = Ret (r, w') ->
  fds w' = fds w /\ (blocks w' = blocks w \/ blocks w' = blocks w + 1 /\ r <> DOCA_SUCCESS).
Proof.
  intros H. apply client_acct in H as [Hf Hb]. split; [lia|]. destruct Hb as [Hb|[Hb Hr]]; [left; lia|right].
  split; [lia|]. by intros ->.
Qed.

(** Start-up keeps two devices and an end-point (one device in the client), and nothing
    when it fails at any of its calls. *)
Theorem compression_init_releases mode hw_max timeout w r o w' :
  file_compression_init mode hw_max timeout w = Ret ((r, o), w') ->
  fds w' = fds w + match o, mode with None, _ => 0 | Some _, SERVER => 3 | Some _, _ => 2 end.
Proof.
  intros H.
  assert (uses (file_compression_init mode hw_max timeout)
    (fun p => (match p.2, mode with None, _ => 0 | Some _, SERVER => 3 | Some _, _ => 2 end, 0))) as U.
  { unfold file_compression_init. destruct mode; uses_all. }
  destruct (U _ _ _ H) as [-> _]. done.
Qed.

End FileCompression.

(** ** Examples *)

(** An engine that stores: it copies its input when there is room for it. *)
Definition sum32 (d : list Z) : Z := u32 (foldr Z.add 0 d).
Definition stored (d : list Z) (n : Z) : compress_deflate_result :=
  if Z.of_nat (length d) <=? n then DeflateResult DOCA_SUCCESS (sum32 d) (sum32 (rev d)) d
  else DeflateResult DOCA_ERROR_IO_FAILED 0 0 [].
Definition stored_sw (d : list Z) (n : Z) : option (list Z) :=
  if Z.of_nat (length d) <=? n then Some d else None.

#[export] Instance stored_laws : deflate_laws stored stored stored_sw sum32 (fun d => sum32 (rev d)).
Proof.
  assert (forall method d n c k, compressed stored stored stored_sw sum32 (fun d => sum32 (rev d))
    COMPRESS_MODE_COMPRESS_DEFLATE method d n = Some (c, k) -> c = d) as Hc.
  { intros [] d n c k; unfold compressed, stored, stored_sw; change (bool_decide _) with true; cbv iota zeta;
      destruct (_ <=? _); cbn; by intros [= <- _]. }
  split.
  - intros d n. unfold stored. by destruct (_ <=? _).
  - intros method d n c k m E Hm. apply Hc in E as ->. unfold stored. by rewrite (proj2 (Z.leb_le _ _) Hm).
  - intros method d n c k E. apply Hc in E as ->. unfold DECOMPRESS_RATIO. lia.
Qed.

Abbreviation stored_client := (file_compression_client stored stored stored_sw sum32 (fun d => sum32 (rev d))).
Abbreviation stored_server := (file_compression_server stored stored stored_sw sum32 (fun d => sum32 (rev d))).


(** The answers of a whole run, for the examples below. *)
Definition summary {A} (o : outcome (A * world)) : option (A * option (list Z) * Z) :=
  match o with Ret (a, w) => Some (a, file w, blocks w) | Undef _ => None end.

(** A file that is larger than the server takes is dropped, but the server reports success
    and sends the client the message that it is done. *)
Theorem refused_file_reported :
  summary (stored_server COMPRESS_MODE_DECOMPRESS_DEFLATE 1 5 COMPRESS_DEFLATE_HW
    (World (pair DOCA_SUCCESS <$> transfer [1; 2; 3; 4; 5; 6] 0) [] [] [] [] None 0 0))
  = Some (DOCA_SUCCESS, None, 0).
Proof. vm_compute. reflexivity. Qed.

(** The file is opened without truncation: the end of a longer old file stays behind the
    new content. *)
Theorem old_tail_kept :
  summary (stored_server COMPRESS_MODE_DECOMPRESS_DEFLATE 1 100 COMPRESS_DEFLATE_HW
    (World (pair DOCA_SUCCESS <$> transfer [1; 2] (calculate_checksum 3 3)) [] [] [] [] (Some [9; 9; 9; 9]) 0 0))
  = Some (DOCA_SUCCESS, Some [1; 2; 9; 9], 0).
Proof. vm_compute. reflexivity. Qed.

(** When zlib fails after its stream was set up, the stream is not ended. *)
Theorem zlib_stream_leaks :
  summary (stored_client COMPRESS_MODE_COMPRESS_DEFLATE 100 COMPRESS_DEFLATE_SW
    (World [] [] []
       [DOCA_SUCCESS; DOCA_SUCCESS; DOCA_SUCCESS; DOCA_SUCCESS; DOCA_SUCCESS; DOCA_ERROR_UNKNOWN]
       [] (Some [1; 2; 3]) 0 0))
  = Some (DOCA_ERROR_BAD_STATE, Some [1; 2; 3], 2).
Proof. vm_compute. reflexivity. Qed.

(** When the device does not report its maximum, start-up destroys the resources and returns
    the result of that: success, with a size that was never written. *)
Theorem failed_query_starts hw_max :
  file_compression_init CLIENT hw_max 1 (World [] [] [] (replicate 9 DOCA_SUCCESS ++ [DOCA_ERROR_DRIVER]) [] None 0 0)
  = Ret ((DOCA_SUCCESS, Some (Setup COMPRESS_MODE_COMPRESS_DEFLATE COMPRESS_DEFLATE_HW None 1)),
         World [] [] [] [] [] None 2 0).
Proof. vm_compute. reflexivity. Qed.

Lemma compression_server_releases_witness :
  exists r w', stored_server COMPRESS_MODE_DECOMPRESS_DEFLATE 1 100 COMPRESS_DEFLATE_HW
    (World (pair DOCA_SUCCESS <$> transfer [1; 2] 0) [] [] [] [] None 0 0) = Ret (r, w') /\ fds w' = 0 /\ blocks w' = 0.
Proof.
  destruct (stored_server COMPRESS_MODE_DECOMPRESS_DEFLATE 1 100 COMPRESS_DEFLATE_HW
    (World (pair DOCA_SUCCESS <$> transfer [1; 2] 0) [] [] [] [] None 0 0)) as [[r w']|] eqn:E.
  - exists r, w'. split; [done|].
    apply (compression_server_releases stored stored stored_sw sum32 (fun d => sum32 (rev d)) _ _ _ _ r w') in E. exact E.
  - exfalso. vm_compute in E. discriminate E.
Defined.
