(* ===== verification/FileIntegrity.v ===== *)
(** * File integrity: client and server

    applications/file_integrity/file_integrity_core.c: the client sends the SHA-256 of a
    file and the file in pieces of a multiple of the hash block; the server writes the
    pieces to its file, hashes them as they come and removes the file when the two hashes
    differ.

    The hash engine is a parameter: [sha256], the block size a partial task needs, the size
    of a digest and the largest source.  A partial task keeps the data of the pieces
    submitted so far; a piece that is not the last and not a multiple of the block size is
    outside its contract ([LibraryMisuse]). *)
From S2P Require Import Prelude Pack CommChannel.

Definition MAX_MSG_SIZE : Z := 4032.

Section FileIntegrity.

Context (sha256 : list Z -> list Z) (min_partial_block_size min_dst_sha_buffer_size max_source_buffer_size : Z).

(** ** Hash tasks *)

(** The destination belongs to the memory map once the map has been started. *)
Definition populate_dst_buf : io doca_error_t :=
  result ← call;
  if negb (is_ok result) then mret result
  else
  dst_buffer ← calloc;
  if negb dst_buffer then mret DOCA_ERROR_NO_MEMORY
  else
  result ← call;
  if negb (is_ok result) then free true;; mret result
  else
  result ← call;
  if negb (is_ok result) then free true;; mret result
  else
  result ← call;
  if negb (is_ok result) then free true;; mret result
  else call.

(** The calls in front of the task: map the source, get its buffer, set its data. *)
Definition source_buf : io doca_error_t :=
  result ← call;
  if negb (is_ok result) then mret result
  else
  result ← call;
  if negb (is_ok result) then mret result
  else
  result ← call;
  if negb (is_ok result) then mret result
  else
  result ← call;
  if negb (is_ok result) then mret result else call.

(** The result and the data of the destination buffer. *)
Definition calculate_sha (file_data : list Z) : io (doca_error_t * list Z) :=
  result ← source_buf;
  if negb (is_ok result) then mret (result, [])
  else
  result ← populate_dst_buf;
  if negb (is_ok result) then mret (result, [])
  else
  result ← call;
  if negb (is_ok result) then mret (result, [])
  else
  result ← call;
  if negb (is_ok result) then mret (result, [])
  else
  result ← call;
  if negb (is_ok result) then mret (result, [])
  else
  task_result ← call;
  mret (task_result, if is_ok task_result then sha256 file_data else []).

(** The loop over the pieces: [hashed] is the data the task has seen, [n] the pieces left. *)
Fixpoint partial_loop (n : nat) (iterations : Z) (hashed : list Z) : io (doca_error_t * list Z) :=
  match n with
  | O => mret (DOCA_SUCCESS, sha256 hashed)
  | S n =>
      a ← recv_msg (Some iterations) MAX_MSG_SIZE;
      match a with
      | None => mret (DOCA_ERROR_TIME_OUT, [])
      | Some (result, received_msg) =>
          if negb (is_ok result) then mret (result, [])
          else
          result ← call;
          if negb (is_ok result) then mret (result, [])
          else
          result ← call;
          if negb (is_ok result) then mret (result, [])
          else
          b ← write (length hashed) received_msg;
          if negb b then mret (DOCA_ERROR_IO_FAILED, [])
          else
          let final := (n =? 0)%nat in
          result ← (if final then call else mret DOCA_SUCCESS);
          if negb (is_ok result) then mret (result, [])
          else
          check (final || (Z.of_nat (length received_msg) mod min_partial_block_size =? 0)) LibraryMisuse;;
          result ← call;
          if negb (is_ok result) then mret (result, [])
          else
          task_result ← call;
          if negb (is_ok task_result) then mret (result, [])
          else partial_loop n iterations (hashed ++ received_msg)
      end
  end.

Definition receive_and_calculate_partial_sha (total_msgs timeout : Z) : io (doca_error_t * list Z) :=
  iterations ← num_of_iterations timeout;
  result ← call;
  if negb (is_ok result) then mret (result, [])
  else if max_source_buffer_size <? MAX_MSG_SIZE then mret (DOCA_ERROR_BAD_STATE, [])
  else
  result ← populate_dst_buf;
  if negb (is_ok result) then mret (result, [])
  else
  result ← call;
  if negb (is_ok result) then mret (result, [])
  else
  result ← call;
  if negb (is_ok result) then mret (result, [])
  else
  result ← call;
  if negb (is_ok result) then mret (result, [])
  else
  result ← call;
  if negb (is_ok result) then mret (result, [])
  else
  result ← call;
  if negb (is_ok result) then mret (result, [])
  else
  task ← succeeds;
  if negb task then mret (result, []) else partial_loop (Z.to_nat total_msgs) iterations [].

(** ** Client *)

Definition send_file (file_data : list Z) : io doca_error_t :=
  result ← call;
  if negb (is_ok result) then mret result
  else
  check (negb (min_partial_block_size =? 0)) DivisionByZero;;
  let partial_block_size := MAX_MSG_SIZE - MAX_MSG_SIZE mod min_partial_block_size in
  check (negb (partial_block_size =? 0)) DivisionByZero;;
  let total_msgs := u32 (1 + u64 (Z.of_nat (length file_data) - 1) / partial_block_size) in
  result ← send_msg (be32_msg total_msgs);
  if negb (is_ok result) then mret result
  else send_chunks (Z.to_nat total_msgs) partial_block_size file_data.

Definition file_integrity_client : io doca_error_t :=
  fd ← open_rdwr;
  match fd with
  | None => mret DOCA_ERROR_IO_FAILED
  | Some file_data =>
      b ← succeeds;
      if negb b then close;; mret DOCA_ERROR_IO_FAILED
      else
      result ← call;
      if negb (is_ok result) then close;; mret result
      else
      let st_size := Z.of_nat (length file_data) in
      if (st_size <=? 0) || (max_source_buffer_size <? st_size) then close;; mret DOCA_ERROR_INVALID_VALUE
      else
      b ← succeeds;
      if negb b then close;; mret DOCA_ERROR_NO_MEMORY
      else
      r ← calculate_sha file_data;
      let (result, sha_msg) := r : doca_error_t * list Z in
      if negb (is_ok result) then close;; mret result
      else
      result ← call;
      if negb (is_ok result) then close;; mret result
      else
      result ← call;
      if negb (is_ok result) then close;; mret result
      else
      sha_output ← calloc;
      if negb sha_output then close;; mret DOCA_ERROR_NO_MEMORY
      else
      free true;;
      result ← send_msg sha_msg;
      if negb (is_ok result) then close;; mret result
      else
      result ← send_file file_data;
      if negb (is_ok result) then close;; mret result
      else
      close;;
      a ← recv_msg None MAX_MSG_SIZE;
      match a with
      | Some (result, _) => mret result
      | None => undef OutOfFuel
      end
  end.

(** ** Server *)

(** The file in one message, or in pieces: the result and the digest. *)
Definition receive_file (total_msgs iterations timeout : Z) : io (doca_error_t * list Z) :=
  if total_msgs =? 1 then
    a ← recv_msg (Some iterations) MAX_MSG_SIZE;
    match a with
    | None => mret (DOCA_ERROR_AGAIN, [])
    | Some (result, received_msg) =>
        if negb (is_ok result) then mret (result, [])
        else
        b ← write 0 received_msg;
        if negb b then mret (DOCA_ERROR_IO_FAILED, []) else calculate_sha received_msg
    end
  else receive_and_calculate_partial_sha total_msgs timeout.

(** The comparison of the digests.  [None]: the function returns here, without the message
    to the client. *)
Definition compare_sha (file_sha received_sha : list Z) : io (option doca_error_t) :=
  result ← call;
  if negb (is_ok result) then mret (Some result)
  else
  result ← call;
  if negb (is_ok result) then mret (Some result)
  else
  sha_output ← calloc;
  if negb sha_output then mret None
  else
  free true;;
  let hash_length := length file_sha in
  check (hash_length <=? length received_sha)%nat OutOfBounds;;
  if bool_decide (file_sha = take hash_length received_sha) then mret (Some DOCA_SUCCESS)
  else remove;; mret (Some DOCA_SUCCESS).

(** From the second message to [finish_msg]. *)
Definition server_body (iterations timeout : Z) (received_sha : list Z) : io (option doca_error_t) :=
  a ← recv_msg (Some iterations) MAX_MSG_SIZE;
  match a with
  | None => mret (Some DOCA_ERROR_AGAIN)
  | Some (result, received_msg) =>
      if negb (is_ok result) then mret (Some result)
      else if negb (Z.of_nat (length received_msg) =? 4) then mret (Some result)
      else
      let total_msgs := be32_of_msg received_msg in
      if total_msgs <? 1 then mret (Some DOCA_ERROR_UNEXPECTED)
      else
      fd ← open_creat;
      if negb fd then mret (Some DOCA_ERROR_IO_FAILED)
      else
      r ← receive_file total_msgs iterations timeout;
      let (result, file_sha) := r : doca_error_t * list Z in
      close;;
      if negb (is_ok result) then mret (Some result) else compare_sha file_sha received_sha
  end.

Definition file_integrity_server (timeout : Z) : io doca_error_t :=
  iterations ← num_of_iterations timeout;
  result ← call;
  if negb (is_ok result) then mret result
  else
  result ← call;
  if negb (is_ok result) then mret result
  else
  received_sha ← calloc;
  if negb received_sha then mret DOCA_ERROR_NO_MEMORY
  else
  a ← recv_msg None min_dst_sha_buffer_size;
  r ← (match a with
       | Some (result, msg) =>
           if negb (is_ok result) then mret (Some result)
           else server_body iterations timeout
                  (msg ++ replicate (Z.to_nat min_dst_sha_buffer_size - length msg) 0)
       | None => undef OutOfFuel
       end);
  match r with
  | None => mret DOCA_ERROR_NO_MEMORY
  | Some result =>
      result ← send_finish result;
      free true;;
      mret result
  end.

(** ** Set-up *)

Inductive file_integrity_mode : Type := NO_VALID_INPUT | CLIENT | SERVER.

Definition set_endpoint_properties (mode : file_integrity_mode) : io doca_error_t :=
  result ← call;
  if negb (is_ok result) then mret result
  else
  result ← call;
  if negb (is_ok result) then mret result
  else
  result ← call;
  if negb (is_ok result) then mret result
  else
  result ← call;
  if negb (is_ok result) then mret result
  else
  match mode with
  | SERVER => call
  | _ => mret DOCA_SUCCESS
  end.

(** The labels [rep_dev_close], [dev_close] and [cc_ep_destroy]. *)
Definition rep_dev_close (mode : file_integrity_mode) (rep : bool) : io unit :=
  (match mode with SERVER => if rep then close else mret tt | _ => mret tt end);;
  close;;
  close.

(** The label [destroy_core_objs]: [destroy_core_objects] closes the device of the engine. *)
Definition destroy_core_objs (mode : file_integrity_mode) : io unit :=
  close;;
  rep_dev_close mode true.

(** The configuration of the tasks and the connection. *)
Definition configure (mode : file_integrity_mode) : io doca_error_t :=
  result ← call;
  if negb (is_ok result) then mret result
  else
  match mode with
  | CLIENT =>
      result ← call;
      if negb (is_ok result) then mret result else call_while DOCA_ERROR_CONNECTION_INPROGRESS
  | _ =>
      result ← call;
      if negb (is_ok result) then mret result else call
  end.

Definition file_integrity_init (mode : file_integrity_mode) (timeout : Z) : io (doca_error_t * Z) :=
  let timeout := if timeout =? 0 then DEFAULT_TIMEOUT else timeout in
  result ← acquire;
  if negb (is_ok result) then mret (result, timeout)
  else
  result ← acquire;
  if negb (is_ok result) then close;; mret (result, timeout)
  else
  result ← (match mode with SERVER => acquire | _ => mret DOCA_SUCCESS end);
  if negb (is_ok result) then rep_dev_close mode false;; mret (result, timeout)
  else
  result ← set_endpoint_properties mode;
  if negb (is_ok result) then rep_dev_close mode true;; mret (result, timeout)
  else
  result ← acquire;
  if negb (is_ok result) then rep_dev_close mode true;; mret (result, timeout)
  else
  result ← acquire;
  if negb (is_ok result) then close;; destroy_core_objs mode;; mret (result, timeout)
  else
  result ← call;
  if negb (is_ok result) then destroy_core_objs mode;; mret (result, timeout)
  else
  result ← call;
  if negb (is_ok result) then destroy_core_objs mode;; mret (result, timeout)
  else
  result ← configure mode;
  if negb (is_ok result) then destroy_core_objs mode;; mret (result, timeout)
  else mret (DOCA_SUCCESS, timeout).

(** ** Files written in pieces *)

(** [data] written over [old] from its start. *)
Definition over (data old : list Z) : list Z := data ++ drop (length data) old.

Lemma write_over hashed m old w :
  writes w = [] -> file w = Some (over hashed old) ->
  write (length hashed) m w = Ret (true, set_file (Some (over (hashed ++ m) old)) w).
Proof.
  intros Hw Hf. destruct w. cbn in Hw, Hf. subst. unfold write, set_file. cbn. rewrite Z.eqb_refl.
  do 4 f_equal. rewrite Nat2Z.id, firstn_all. unfold over.
  rewrite take_app_length, length_app, <-app_assoc, drop_app_ge, drop_drop by lia. do 3 f_equal. lia.
Qed.

(** ** Soundness *)

Lemma call_quiet w : calls w = [] -> call w = Ret (DOCA_SUCCESS, w).
Proof. unfold call. by intros ->. Qed.

Lemma recv_frame l n w a w' : recv_msg l n w = Ret (a, w') -> exists ps, w' = set_polls ps w.
Proof.
  unfold recv_msg. destruct (poll_answer l 0 (polls w)) as [[o q]|]; [|discriminate].
  destruct (match o with Some (e, m) => _ | None => _ end); [|discriminate]. intros H. inv_ret. eauto.
Qed.

(** What a world keeps in which every call succeeds and every write is complete. *)
Definition quiet (w : world) : Prop := calls w = [] /\ writes w = [].

Lemma partial_loop_sound old it n : forall hashed w r dg w',
  quiet w -> file w = Some (over hashed old) -> partial_loop n it hashed w = Ret ((r, dg), w') ->
  quiet w' /\ (r = DOCA_SUCCESS -> exists data, dg = sha256 data /\ file w' = Some (over data old)).
Proof.
  induction n as [|n IH]; intros hashed w r dg w' [Hc Hw] Hf H; cbn [partial_loop] in H.
  { cbv [mret io_ret] in H. inv_ret. split; [done|]. intros _. eauto. }
  unfold mbind at 1, io_bind at 1 in H. destruct (recv_msg _ _ w) as [[a w1]|] eqn:E1; [|discriminate].
  apply recv_frame in E1 as [ps ->]. destruct a as [[e m]|]; [|cbv [mret io_ret] in H; by inv_ret].
  destruct (is_ok e) eqn:Ee; cbn [negb] in H.
  2: { cbv [mret io_ret] in H. inv_ret. split; [done|]. by intros ->. }
  set (w1 := set_polls ps w) in *. assert (calls w1 = []) as Hc1 by done.
  pose proof (call_quiet w1 Hc1) as Ec. do 2 io_run_in Ec H.
  pose proof (write_over hashed m old w1 Hw Hf) as Ew. io_run_in Ew H.
  set (w2 := set_file _ w1) in *. assert (calls w2 = []) as Hc2 by done. pose proof (call_quiet w2 Hc2) as Ec2.
  assert ((if (n =? 0)%nat then call else mret DOCA_SUCCESS) w2 = Ret (DOCA_SUCCESS, w2)) as Ef by (by destruct (n =? 0)%nat).
  io_run_in Ef H. unfold check in H. destruct (_ || _) eqn:Eb in H.
  2: { discriminate H. }
  assert (forall a, (mret a : io unit) w2 = Ret (a, w2)) as Er by done. io_run_in (Er ()) H. do 2 io_run_in Ec2 H.
  by apply (IH _ w2) in H.
Qed.

Lemma calculate_sha_quiet d w : quiet w -> calculate_sha d w = Ret ((DOCA_SUCCESS, sha256 d), set_blocks (blocks w + 1) w).
Proof. intros [Hc _]. destruct w. cbn in Hc. subst. reflexivity. Qed.

Lemma receive_file_sound old total it timeout w r dg w' :
  quiet w -> file w = Some old -> receive_file total it timeout w = Ret ((r, dg), w') ->
  quiet w' /\ (r = DOCA_SUCCESS -> exists data, dg = sha256 data /\ file w' = Some (over data old)).
Proof.
  intros Q Hf H. unfold receive_file in H. destruct (total =? 1).
  - unfold mbind at 1, io_bind at 1 in H. destruct (recv_msg _ _ w) as [[a w1]|] eqn:E1; [|discriminate].
    apply recv_frame in E1 as [ps ->]. destruct a as [[e m]|]; [|cbv [mret io_ret] in H; by inv_ret].
    destruct (is_ok e) eqn:Ee; cbn [negb] in H.
    2: { cbv [mret io_ret] in H. inv_ret. split; [done|]. by intros ->. }
    io_run_in (write_over [] m old (set_polls ps w) (proj2 Q) Hf) H.
    rewrite calculate_sha_quiet in H by done. inv_ret. split; [done|]. intros _. by exists m.
  - unfold receive_and_calculate_partial_sha in H.
    unfold mbind at 1, io_bind at 1 in H. destruct (num_of_iterations timeout w) as [[n w1]|] eqn:E; [|discriminate].
    assert (w1 = w) as ->.
    { unfold num_of_iterations, check in E. destruct (_ && _) in E; [|discriminate]. cbv [mbind io_bind mret io_ret] in E. by inv_ret. }
    destruct w. destruct Q as [Hc Hw]. cbn in Hc, Hw, Hf. subst.
    repeat (erewrite run_bind in H by reflexivity; cbv beta in H; repeat change (is_ok DOCA_SUCCESS) with true in H; cbn [negb] in H;
      cbv iota in H; try destruct (_ <? _) in H).
    + cbv [mret io_ret] in H. by inv_ret.
    + eapply partial_loop_sound in H; [exact H|done|done].
Qed.

Lemma compare_sound file_sha received_sha w r w' :
  quiet w -> length received_sha = length file_sha -> compare_sha file_sha received_sha w = Ret (r, w') ->
  r = Some DOCA_SUCCESS /\ (file w' = None \/ file_sha = received_sha /\ file w' = file w).
Proof.
  intros [Hc _] Hl H. destruct w. cbn in Hc. subst. unfold compare_sha in H.
  do 4 (erewrite run_bind in H by reflexivity; cbv beta in H; repeat change (is_ok DOCA_SUCCESS) with true in H;
        cbn [negb] in H; cbv iota in H).
  rewrite Hl, Nat.leb_refl in H. erewrite run_bind in H by reflexivity. cbv beta in H.
  rewrite <-Hl, firstn_all in H. case_bool_decide as E.
  - cbv [mret io_ret] in H. inv_ret. split; [done|]. right. by split.
  - erewrite run_bind in H by reflexivity. cbv [mret io_ret] in H. inv_ret. split; [done|]. by left.
Qed.

Lemma body_sound it timeout received_sha w r w' :
  (forall d, length (sha256 d) = length received_sha) -> quiet w ->
  server_body it timeout received_sha w = Ret (r, w') ->
  (exists e, r = Some e /\ e <> DOCA_SUCCESS) \/
  r = Some DOCA_SUCCESS /\ (file w' = file w \/ file w' = None \/
    exists data, sha256 data = received_sha /\ file w' = Some (over data (default [] (file w)))).
Proof.
  intros Hsha Q H. unfold server_body in H.
  unfold mbind at 1, io_bind at 1 in H. destruct (recv_msg _ _ w) as [[a w1]|] eqn:E1; [|discriminate].
  apply recv_frame in E1 as [ps ->]. destruct a as [[e m]|]; [|cbv [mret io_ret] in H; inv_ret; left; eauto].
  destruct (is_ok e) eqn:Ee; cbn [negb] in H.
  2: { cbv [mret io_ret] in H. inv_ret. left. exists e. split; [done|]. by intros ->. }
  apply bool_decide_eq_true in Ee. subst e.
  destruct (Z.of_nat (length m) =? 4); cbn [negb] in H; [|cbv [mret io_ret] in H; inv_ret; right; by auto].
  destruct (_ <? 1); [cbv [mret io_ret] in H; inv_ret; left; eauto|].
  destruct w as [p s wr c st f fd b]. destruct Q as [Hc Hw]. cbn in Hc, Hw. subst.
  unfold set_polls in H. cbn [sends writes calls sent file fds blocks] in H.
  erewrite run_bind in H by reflexivity. cbv beta in H. cbn [negb] in H. cbv iota in H.
  cbv [file set_file set_fds] in H. cbn [file polls sends writes calls sent fds blocks] in H.
  unfold mbind at 1, io_bind at 1 in H. destruct (receive_file _ _ _ _) as [[[r1 dg] w1]|] eqn:E2; [|discriminate].
  eapply receive_file_sound in E2 as [[Hc1 Hw1] Hd]; [|done|done]. erewrite run_bind in H by reflexivity. cbv beta in H.
  destruct (is_ok r1) eqn:Er; cbn [negb] in H.
  2: { cbv [mret io_ret] in H. inv_ret. left. exists r1. split; [done|]. by intros ->. }
  apply bool_decide_eq_true in Er. destruct (Hd Er) as (data & -> & Hf).
  apply compare_sound in H as [-> [H|[H1 H2]]]; [| |done|by rewrite Hsha]; right; (split; [done|]); right.
  - by left.
  - right. exists data. split; [done|]. by rewrite H2.
Qed.

Lemma poll_answer_split l : forall c e m l',
  poll_answer None c l = Ret (Some (e, m), l') ->
  exists again, Forall (fun a => a.1 = DOCA_ERROR_AGAIN) again /\ l = again ++ (e, m) :: l'.
Proof.
  induction l as [|[e0 m0] l IH]; intros c e m l' H; [discriminate|].
  destruct (decide (e0 = DOCA_ERROR_AGAIN)) as [->|Hne].
  - apply IH in H as (again & Ha & ->). exists ((DOCA_ERROR_AGAIN, m0) :: again). split; [by constructor|done].
  - exists []. split; [done|]. destruct e0; try done; injection H as -> -> ->; done.
Qed.

Lemma poll_answer_unlimited l : forall c a l', poll_answer None c l = Ret (a, l') -> a <> None.
Proof.
  induction l as [|[e0 m0] l IH]; intros c a l' H; [discriminate|].
  destruct e0; try (injection H as <- _; done). by apply IH in H.
Qed.

Lemma finish_frame e w r w' :
  (result ← send_finish e; free true;; mret result) w = Ret (r, w') ->
  file w' = file w /\ (r = DOCA_SUCCESS -> e = DOCA_SUCCESS).
Proof.
  unfold send_finish, send_msg, free, released. cbv [mbind io_bind mret io_ret].
  destruct (send_answer (sends w)) as [a l]. intros H. inv_ret. split; [done|].
  destruct (is_ok a) eqn:Ea; [done|]. destruct (is_ok e) eqn:Ee; [|done]. intros ->. done.
Qed.

(** C22: Whatever messages arrive in whatever order, and as long as the libraries do not fail,
    a server that reports success has left its file as it was, removed it, or written data
    whose hash is the one it has received first. *)
Theorem integrity_server_sound timeout w r w' :
  (forall d, Z.of_nat (length (sha256 d)) = min_dst_sha_buffer_size) -> quiet w ->
  file_integrity_server timeout w = Ret (r, w') ->
  r <> DOCA_SUCCESS \/ file w' = file w \/ file w' = None \/
  exists again sha rest data,
    polls w = again ++ (DOCA_SUCCESS, sha) :: rest /\ Forall (fun a => a.1 = DOCA_ERROR_AGAIN) again /\
    sha256 data = sha ++ replicate (Z.to_nat min_dst_sha_buffer_size - length sha) 0 /\
    file w' = Some (over data (default [] (file w))).
Proof.
  intros Hsha Q H. unfold file_integrity_server in H.
  unfold mbind at 1, io_bind at 1 in H. destruct (num_of_iterations timeout w) as [[n w1]|] eqn:E; [|discriminate].
  assert (w1 = w) as ->.
  { unfold num_of_iterations, check in E. destruct (_ && _) in E; [|discriminate]. cbv [mbind io_bind mret io_ret] in E. by inv_ret. }
  destruct w as [p s wr c st f fd b]. destruct Q as [Hc Hw]. cbn in Hc, Hw. subst.
  do 3 (erewrite run_bind in H by reflexivity; cbv beta in H; repeat change (is_ok DOCA_SUCCESS) with true in H;
        cbn [negb] in H; cbv iota in H).
  unfold mbind at 1, io_bind at 1 in H. destruct (recv_msg _ _ _) as [[a w1]|] eqn:E1; [|discriminate].
  pose proof (recv_frame _ _ _ _ _ E1) as [ps ->]. unfold recv_msg in E1.
  cbn [polls set_blocks] in E1. destruct (poll_answer None 0 p) as [[a' q]|] eqn:Ep; [|discriminate].
  pose proof (poll_answer_unlimited _ _ _ _ Ep) as Hne. destruct a' as [[e sha]|]; [|done].
  destruct (require _ _) eqn:Eq in E1; [|discriminate]. inv_ret.
  apply poll_answer_split in Ep as (again & Ha & ->).
  unfold set_polls, set_blocks in H. cbn [polls sends writes calls sent file fds blocks] in *.
  destruct (is_ok e) eqn:Ee; cbn [negb orb] in H, Eq.
  2: { erewrite run_bind in H by reflexivity. apply finish_frame in H as [-> _]. right. by left. }
  apply bool_decide_eq_true in Ee. subst e.
  destruct (_ <=? _) eqn:El in Eq; [|discriminate]. apply Z.leb_le in El.
  unfold mbind at 1, io_bind at 1 in H. destruct (server_body _ _ _ _) as [[o w1]|] eqn:Eb; [|discriminate].
  apply body_sound in Eb; [|intros d; specialize (Hsha d); rewrite length_app, length_replicate; lia|done].
  destruct Eb as [(e & -> & Hne')|[-> Hf]]; apply finish_frame in H as [-> Hr].
  { left. intros ->. by apply Hne', Hr. }
  right. cbn [file] in Hf. destruct Hf as [Hf|[Hf|(data & Hd & Hf)]]; [by left|right; by left|].
  right. right. exists again, sha, ps, data. done.
Qed.

(** ** Delivery *)

Definition partial_block_size : Z := MAX_MSG_SIZE - MAX_MSG_SIZE mod min_partial_block_size.
Definition total_msgs (d : list Z) : Z := 1 + (Z.of_nat (length d) - 1) / partial_block_size.

(** The messages of a transfer. *)
Definition transfer (d : list Z) : list (list Z) :=
  sha256 d :: be32_msg (total_msgs d) :: chunks (Z.to_nat (total_msgs d)) (Z.to_nat partial_block_size) d.

Lemma partial_delayed old it ms ps :
  delayed it ms ps -> Forall (fun m => length m <= 4032)%nat ms ->
  (forall i m, ms !! i = Some m -> (S i < length ms)%nat -> Z.of_nat (length m) mod min_partial_block_size = 0) ->
  forall hashed s st fd b,
  partial_loop (length ms) it hashed (World ps s [] [] st (Some (over hashed old)) fd b)
    = Ret ((DOCA_SUCCESS, sha256 (hashed ++ mjoin ms)), World [] s [] [] st (Some (over (hashed ++ mjoin ms) old)) fd b).
Proof.
  induction 1 as [|again m ms ps Ha Hn _ IH]; intros Hl Hb hashed s st fd b; cbn [length partial_loop].
  - cbn. by rewrite !app_nil_r.
  - apply Forall_cons in Hl as [Hm Hl]. change (mjoin (m :: ms)) with (m ++ mjoin ms).
    io_run (recv_again (Some it) MAX_MSG_SIZE again m ps s [] [] st (Some (over hashed old)) fd b Ha
      ltac:(intros n [= <-]; done) ltac:(unfold MAX_MSG_SIZE; lia)).
    do 2 io_step. io_run (write_over hashed m old (World ps s [] [] st (Some (over hashed old)) fd b) eq_refl eq_refl).
    rewrite (run_bind _ _ _ DOCA_SUCCESS (World ps s [] [] st (Some (over (hashed ++ m) old)) fd b))
      by (by destruct (length ms =? 0)%nat).
    change (is_ok DOCA_SUCCESS) with true. cbn [negb]. unfold check.
    assert ((length ms =? 0)%nat || (Z.of_nat (length m) mod min_partial_block_size =? 0) = true) as ->.
    { destruct ms as [|m' ms']; [done|]. rewrite (Hb 0%nat m eq_refl ltac:(cbn; lia)). apply orb_true_r. }
    do 3 io_step. rewrite IH; [by rewrite app_assoc|done|].
    intros i m' Hm' Hi. apply (Hb (S i) m' Hm'). cbn. lia.
Qed.

Context (block_fits : 0 < min_partial_block_size <= MAX_MSG_SIZE).

Lemma partial_block_range : 0 < partial_block_size <= MAX_MSG_SIZE /\ partial_block_size mod min_partial_block_size = 0.
Proof.
  unfold partial_block_size. pose proof (Z.mod_pos_bound MAX_MSG_SIZE min_partial_block_size).
  pose proof (Z.div_mod MAX_MSG_SIZE min_partial_block_size). split.
  - pose proof (Z.div_str_pos MAX_MSG_SIZE min_partial_block_size). nia.
  - rewrite Zminus_mod, Z.mod_mod, Z.sub_diag by lia. done.
Qed.

Lemma integrity_msgs_range d : 0 < Z.of_nat (length d) < 2 ^ 31 ->
  in_width 32 (total_msgs d) /\ 1 <= total_msgs d /\
  ((Z.to_nat (total_msgs d) - 1) * Z.to_nat partial_block_size <= length d)%nat /\
  (length d <= Z.to_nat (total_msgs d) * Z.to_nat partial_block_size)%nat.
Proof.
  intros H. unfold total_msgs, in_width. destruct partial_block_range as [Hp _]. set (c := partial_block_size) in *.
  set (n := Z.of_nat (length d)) in *. pose proof (Z.div_mod (n - 1) c). pose proof (Z.mod_pos_bound (n - 1) c).
  assert (0 <= (n - 1) / c) by (apply Z.div_pos; lia). set (q := (n - 1) / c) in *. nia.
Qed.

Lemma integrity_send_file d p s st f fd b :
  0 < Z.of_nat (length d) < 2 ^ 31 -> busy s ->
  exists s', send_file d (World p s [] [] st f fd b)
    = Ret (DOCA_SUCCESS, World p s' [] [] (st ++ be32_msg (total_msgs d) ::
        chunks (Z.to_nat (total_msgs d)) (Z.to_nat partial_block_size) d) f fd b).
Proof.
  intros Hd Hs. destruct (integrity_msgs_range d Hd) as (Ht & _). destruct partial_block_range as [Hp _].
  unfold send_file. fold partial_block_size. io_step.
  rewrite (proj2 (Z.eqb_neq min_partial_block_size 0)), (proj2 (Z.eqb_neq partial_block_size 0)) by lia. do 2 io_step.
  rewrite (uwrap_id 64 (_ - 1)) by (unfold in_width; lia). fold (total_msgs d). rewrite (uwrap_id 32 (total_msgs d)) by done.
  destruct (send_msg_busy (be32_msg (total_msgs d)) p s [] [] st f fd b Hs) as (s1 & H1 & E1). io_run E1.
  destruct (send_chunks_busy (Z.to_nat (total_msgs d)) partial_block_size d p s1 [] [] (st ++ [be32_msg (total_msgs d)]) f fd b H1)
    as (s2 & _ & E2); [lia|]. exists s2. rewrite E2. by rewrite <-app_assoc.
Qed.

Lemma integrity_client_quiet d again s :
  0 < Z.of_nat (length d) <= max_source_buffer_size -> Z.of_nat (length d) < 2 ^ 31 ->
  busy s -> Forall (fun a => a.1 = DOCA_ERROR_AGAIN) again ->
  exists s', file_integrity_client (World (again ++ [(DOCA_SUCCESS, finish_msg)]) s [] [] [] (Some d) 0 0)
    = Ret (DOCA_SUCCESS, World [] s' [] [] (transfer d) (Some d) 0 1).
Proof.
  intros Hd Hd2 Hs Ha. unfold file_integrity_client. do 3 io_step.
  rewrite (proj2 (Z.leb_gt _ 0)), (proj2 (Z.ltb_ge _ _)) by lia. cbn [orb]. io_step.
  io_run (calculate_sha_quiet d (World (again ++ [(DOCA_SUCCESS, finish_msg)]) s [] [] [] (Some d) 1 0) ltac:(done)).
  do 4 io_step. io_norm.
  destruct (send_msg_busy (sha256 d) (again ++ [(DOCA_SUCCESS, finish_msg)]) s [] [] [] (Some d) 1 (0 + 1 + 1 - 1) Hs)
    as (s1 & H1 & E1). io_run E1.
  destruct (integrity_send_file d (again ++ [(DOCA_SUCCESS, finish_msg)]) s1 [sha256 d] (Some d) 1 (0 + 1 + 1 - 1) ltac:(lia) H1)
    as (s2 & E2). cbn [app] in *. io_run E2. io_step. exists s2.
  erewrite run_bind by (apply recv_again; [done|done|vm_compute; discriminate]). done.
Qed.

Lemma integrity_receive d old it timeout ps s st fd b :
  0 < Z.of_nat (length d) < 2 ^ 31 -> MAX_MSG_SIZE <= max_source_buffer_size -> 1 <= timeout <= 2147 -> it = timeout * 100000 ->
  delayed it (chunks (Z.to_nat (total_msgs d)) (Z.to_nat partial_block_size) d) ps ->
  exists b', receive_file (total_msgs d) it timeout (World ps s [] [] st (Some old) fd b)
    = Ret ((DOCA_SUCCESS, sha256 d), World [] s [] [] st (Some (over d old)) fd b').
Proof.
  intros Hd Hmax Ht -> Hps. destruct (integrity_msgs_range d Hd) as (Hw & H1 & Hlo & Hhi). destruct partial_block_range as [Hp Hm].
  unfold receive_file. destruct (Z.eqb_spec (total_msgs d) 1) as [E|E].
  - rewrite E in *. change (Z.to_nat 1) with 1%nat in *. cbn [chunks] in Hps. rewrite Nat.mul_1_l in Hhi.
    rewrite take_ge in Hps by lia. inversion Hps as [|again m ms ps' Ha Hn Hnil]; subst. inversion Hnil; subst.
    unfold MAX_MSG_SIZE in *.
    io_run (recv_again (Some (timeout * 100000)) MAX_MSG_SIZE again d [] s [] [] st (Some old) fd b Ha
      ltac:(intros n [= <-]; done) ltac:(unfold MAX_MSG_SIZE; lia)).
    io_run (write_over [] d old (World [] s [] [] st (Some old) fd b) eq_refl eq_refl).
    rewrite calculate_sha_quiet by done. eexists. reflexivity.
  - unfold receive_and_calculate_partial_sha.
    io_run (iterations_run timeout (World ps s [] [] st (Some old) fd b) Ht). io_step.
    rewrite (proj2 (Z.ltb_ge _ _)) by lia. do 7 io_step.
    exists (b + 1). rewrite <-(length_chunks (Z.to_nat (total_msgs d)) (Z.to_nat partial_block_size) d) at 1.
    etrans; [apply (partial_delayed old _ _ _ Hps)|by rewrite concat_chunks by done].
    + eapply Forall_impl; [apply chunks_le|]. cbn. unfold MAX_MSG_SIZE in *. lia.
    + intros i m Hi Hl. rewrite length_chunks in Hl.
      rewrite (chunks_full _ _ _ _ _ Hlo Hi Hl). by rewrite Z2Nat.id by lia.
Qed.

(** C21: A file arrives whatever the delays on the channel up to the timeout: the client
    cuts it into pieces that the hash engine takes, the server writes them, hashes them to
    the digest it got first and keeps the file; both return success. *)
Theorem integrity_delivers timeout d old again sc ss :
  (forall d, Z.of_nat (length (sha256 d)) = min_dst_sha_buffer_size) -> min_dst_sha_buffer_size <= MAX_MSG_SIZE ->
  0 < Z.of_nat (length d) <= max_source_buffer_size -> Z.of_nat (length d) < 2 ^ 31 ->
  MAX_MSG_SIZE <= max_source_buffer_size -> 1 <= timeout <= 2147 ->
  busy sc -> busy ss -> Forall (fun a => a.1 = DOCA_ERROR_AGAIN) again ->
  exists wc,
    file_integrity_client (World (again ++ [(DOCA_SUCCESS, finish_msg)]) sc [] [] [] (Some d) 0 0) = Ret (DOCA_SUCCESS, wc) /\
    forall ps, arrives (timeout * 100000) (sent wc) ps ->
      exists ws, file_integrity_server timeout (World ps ss [] [] [] old 0 0) = Ret (DOCA_SUCCESS, ws) /\
        file ws = Some (over d (default [] old)) /\ sent ws = [finish_msg] /\ fds ws = 0.
Proof.
  intros Hsha Hdst Hd Hd2 Hmax Ht Hsc Hss Ha.
  destruct (integrity_client_quiet d again sc Hd Hd2 Hsc Ha) as (s1 & E1).
  eexists. split; [exact E1|]. cbn [sent]. intros ps Hps.
  inversion Hps as [again0 m ms ps0 Ha0 Hdel]; subst. inversion Hdel as [|again1 m1 ms1 ps1 Ha1 Hl1 Hdel1]; subst.
  unfold file_integrity_server.
  rewrite (run_bind _ _ _ _ _ (iterations_run timeout _ Ht)). do 3 io_step.
  io_norm.
  specialize (Hsha d). destruct (integrity_msgs_range d ltac:(lia)) as (Hw & H1 & _).
  erewrite run_bind by (apply recv_again; [done|done|lia]). change (is_ok DOCA_SUCCESS) with true. cbn [negb]. cbv beta iota.
  replace (Z.to_nat min_dst_sha_buffer_size - length (sha256 d))%nat with 0%nat by lia. cbn [replicate]. rewrite app_nil_r.
  destruct (integrity_receive d (default [] old) (timeout * 100000) timeout ps1 ss [] 1 1) as (b' & E2); try done; try lia.
  assert (server_body (timeout * 100000) timeout (sha256 d)
    (World (again1 ++ (DOCA_SUCCESS, be32_msg (total_msgs d)) :: ps1) ss [] [] [] old 0 1)
    = Ret (Some DOCA_SUCCESS, World [] ss [] [] [] (Some (over d (default [] old))) 0 b')) as Eb.
  { unfold server_body.
    erewrite run_bind by (apply recv_again; [done|by intros n [= <-]|vm_compute; discriminate]).
    cbv beta iota zeta. change (is_ok DOCA_SUCCESS) with true. cbn [negb]. cbv iota.
    change (Z.of_nat (length (be32_msg (total_msgs d))) =? 4) with true. cbn [negb].
    cbv zeta. rewrite be32_roundtrip by done. rewrite (proj2 (Z.ltb_ge _ _)) by lia.
    io_step.
    io_norm.
    io_run E2. io_step. unfold compare_sha. do 4 io_step. rewrite Nat.leb_refl. io_step.
    rewrite firstn_all, bool_decide_eq_true_2 by done. cbv [mret io_ret]. io_norm. repeat f_equal; lia. }
  io_run Eb. destruct (finish_busy [] ss [] [] [] (Some (over d (default [] old))) 0 b' Hss) as (s2 & E3).
  io_run E3. unfold free. io_step. eexists. split; [reflexivity|]. done.
Qed.

End FileIntegrity.

(** ** Examples *)

(** A digest of two bytes, in place of the engine's. *)
Definition sum16 (d : list Z) : list Z := le_bytes 2 (foldr Z.add 0 d).

Definition example_file : list Z := [2; 3; 4].
Abbreviation sum_client := (file_integrity_client sum16 64 1000000).
Abbreviation sum_server := (file_integrity_server sum16 64 2 1000000).

Lemma integrity_delivers_witness :
  exists wc ws,
    sum_client (World [(DOCA_ERROR_AGAIN, []); (DOCA_SUCCESS, finish_msg)] [DOCA_ERROR_AGAIN] [] [] [] (Some example_file) 0 0)
      = Ret (DOCA_SUCCESS, wc) /\
    sum_server 1 (World (pair DOCA_SUCCESS <$> sent wc) [] [] [] [] None 0 0) = Ret (DOCA_SUCCESS, ws) /\
    file ws = Some example_file.
Proof.
  destruct (integrity_delivers sum16 64 2 1000000 ltac:(unfold MAX_MSG_SIZE; lia) 1 example_file None
    [(DOCA_ERROR_AGAIN, [])] [DOCA_ERROR_AGAIN] []) as (wc & E & H); try (cbn; unfold MAX_MSG_SIZE; lia).
  { constructor; [by left|constructor]. }
  { constructor. }
  { by constructor. }
  pose proof E as E'. vm_compute in E'. injection E' as Ew.
  destruct (H (pair DOCA_SUCCESS <$> sent wc)) as (ws & Es & Ef & _).
  { rewrite <-Ew. apply arrives_at_once. lia. }
  exists wc, ws. split; [exact E|]. split; [exact Es|]. rewrite Ef. vm_compute. reflexivity.
Defined.

Definition summary {A} (o : outcome (A * world)) : option (A * option (list Z)) :=
  match o with Ret (a, w) => Some (a, file w) | Undef _ => None end.

Lemma integrity_server_sound_witness :
  exists r w', sum_server 1 (World (pair DOCA_SUCCESS <$> [[7; 0]; be32_msg 1; [3; 4]]) [] [] [] [] None 0 0) = Ret (r, w') /\
    (r <> DOCA_SUCCESS \/ file w' = None \/ file w' = None \/
     exists again sha rest data,
       (pair DOCA_SUCCESS <$> [[7; 0]; be32_msg 1; [3; 4]]) = again ++ (DOCA_SUCCESS, sha) :: rest /\
       Forall (fun a => a.1 = DOCA_ERROR_AGAIN) again /\
       sum16 data = sha ++ replicate (Z.to_nat 2 - length sha) 0 /\ file w' = Some (over data (default [] None))).
Proof.
  destruct (sum_server 1 (World (pair DOCA_SUCCESS <$> [[7; 0]; be32_msg 1; [3; 4]]) [] [] [] [] None 0 0)) as [[r w']|] eqn:E.
  - exists r, w'. split; [done|].
    apply (integrity_server_sound sum16 64 2 1000000 1 _ r w') in E; [exact E| |done].
    intros d. unfold sum16. by rewrite length_le_bytes.
  - exfalso. vm_compute in E. discriminate E.
Defined.

(** When a partial hash task fails, the loop ends with the success of its submission: no
    digest was written, a comparison of no bytes holds, and the server keeps the truncated
    file and reports success, whatever hash it was sent. *)
Theorem failed_hash_accepted :
  summary (sum_server 1
    (World (pair DOCA_SUCCESS <$> [[99; 99]; be32_msg 2; replicate 64 1; [5]]) [] []
       (replicate 20 DOCA_SUCCESS ++ [DOCA_ERROR_DRIVER]) [] None 0 0))
  = Some (DOCA_SUCCESS, Some (replicate 64 1)).
Proof. vm_compute. reflexivity. Qed.

(** A file whose hash differs is removed, but the server reports success and the client gets
    the same message as for a good file. *)
Theorem compromised_reported_success :
  summary (sum_server 1 (World (pair DOCA_SUCCESS <$> [[99; 99]; be32_msg 1; [3; 4]]) [] [] [] [] None 0 0))
  = Some (DOCA_SUCCESS, None).
Proof. vm_compute. reflexivity. Qed.

(** The error path of a failed hash context destroys the end-point twice. *)
Theorem sha_create_destroys_twice mode timeout : mode <> SERVER ->
  exists w, file_integrity_init mode timeout
    (World [] [] [] (replicate 7 DOCA_SUCCESS ++ [DOCA_ERROR_DRIVER]) [] None 0 0)
  = Ret ((DOCA_ERROR_DRIVER, if timeout =? 0 then DEFAULT_TIMEOUT else timeout), w) /\ fds w = -1.
Proof. intros Hm. eexists. destruct mode; [| |done]; (split; [vm_compute; reflexivity|done]). Qed.

(** No later error path destroys the hash context. *)
Theorem failed_init_leaks_sha mode timeout : mode <> SERVER ->
  exists w, file_integrity_init mode timeout
    (World [] [] [] (replicate 8 DOCA_SUCCESS ++ [DOCA_ERROR_DRIVER]) [] None 0 0)
  = Ret ((DOCA_ERROR_DRIVER, if timeout =? 0 then DEFAULT_TIMEOUT else timeout), w) /\ fds w = 1.
Proof. intros Hm. eexists. destruct mode; [| |done]; (split; [vm_compute; reflexivity|done]). Qed.

(** The digest is received with the size of a message into a buffer of the size of a
    digest: any longer first message is written behind it. *)
Theorem long_digest_undefined sha256 bs dst max timeout sha ps s f fd b :
  1 <= timeout <= 2147 -> dst < Z.of_nat (length sha) ->
  file_integrity_server sha256 bs dst max timeout (World ((DOCA_SUCCESS, sha) :: ps) s [] [] [] f fd b) = Undef OutOfBounds.
Proof.
  intros Ht Hl. unfold file_integrity_server. rewrite (run_bind _ _ _ _ _ (iterations_run timeout _ Ht)). do 3 io_step.
  unfold mbind at 1, io_bind at 1, recv_msg. cbn. by rewrite (proj2 (Z.leb_gt _ _) Hl).
Qed.

(** A piece that is not a multiple of the block size is given to the engine unchecked. *)
Theorem odd_piece_undefined :
  sum_server 1 (World (pair DOCA_SUCCESS <$> [[99; 99]; be32_msg 2; [1; 2; 3]; [5]]) [] [] [] [] None 0 0)
  = Undef LibraryMisuse.
Proof. vm_compute. reflexivity. Qed.
