(* ===== verification/DmaCopy.v ===== *)
(** * DMA copy: host and DPU

    applications/dma_copy/dma_copy_core.c: host and DPU agree over the Comm Channel on
    the direction and the size of a copy, the host exports a buffer, and the DPU copies
    the file into or out of it by DMA.  The core objects of samples/common.c that the
    application creates and destroys are included, and [main] of dma_copy.c from the
    validation of the options on.

    Each side is a program over the environment of [CommChannel]; devices, memory maps,
    buffers, tasks and contexts are counted with the descriptors.  The buffer the host
    exports is shared: the DPU's program takes its content when the copy starts, and the
    host's program its content when the last status has come.  The DPU reaches it only
    through the descriptor and the address it has received ([exported]).  [garbage] is the content
    of memory from [malloc]. *)
From S2P Require Import Prelude Pack CommChannel.

Definition CC_MAX_MSG_SIZE : Z := 4080.
Definition STATUS_SUCCESS : bool := true.
Definition STATUS_FAILURE : bool := false.

Inductive dma_copy_mode : Type := DMA_COPY_MODE_HOST | DMA_COPY_MODE_DPU.

Record dma_copy_cfg : Type := DmaCfg { is_file_found_locally : bool; file_size : Z }.

(** ** Core objects *)

(** A pointer of a structure that may not have been written yet. *)
Inductive ptr : Type := Garbage | Null | Live.

Record program_core_objects : Type := Core { dev : ptr; src_mmap : ptr; dst_mmap : ptr; buf_inv : ptr; pe : ptr }.

Definition destroy_one (p : ptr) (result : doca_error_t) : io doca_error_t :=
  match p with
  | Garbage => undef Uninitialised
  | Null => mret result
  | Live =>
      tmp_result ← release;
      mret (DOCA_ERROR_PROPAGATE result tmp_result)
  end.

Definition destroy_core_objects (state : program_core_objects) : io doca_error_t :=
  result ← destroy_one (pe state) DOCA_SUCCESS;
  result ← destroy_one (buf_inv state) result;
  result ← destroy_one (dst_mmap state) result;
  result ← destroy_one (src_mmap state) result;
  destroy_one (dev state) result.

(** With [max_bufs] other than 0, as all callers have it. *)
Definition create_core_objects (s : program_core_objects) : io (doca_error_t * program_core_objects) :=
  res ← acquire;
  if negb (is_ok res) then mret (res, s)
  else
  res ← call;
  if negb (is_ok res) then close;; mret (res, Core (dev s) Null (dst_mmap s) (buf_inv s) (pe s))
  else
  res ← acquire;
  if negb (is_ok res) then close;; mret (res, Core (dev s) Null (dst_mmap s) (buf_inv s) (pe s))
  else
  res ← call;
  if negb (is_ok res) then close;; close;; mret (res, Core (dev s) Null Null (buf_inv s) (pe s))
  else
  res ← acquire;
  if negb (is_ok res) then close;; close;; mret (res, Core (dev s) Null Null (buf_inv s) (pe s))
  else
  res ← call;
  if negb (is_ok res) then close;; close;; close;; mret (res, Core (dev s) Null Null Null (pe s))
  else
  res ← acquire;
  if negb (is_ok res) then close;; close;; close;; mret (res, Core (dev s) Null Null Null (pe s))
  else mret (DOCA_SUCCESS, Core (dev s) Live Live Live Live).

(** ** Messages *)

Definition direction_msg (file_in_host : bool) (file_size : Z) : list Z :=
  Z.b2z file_in_host :: replicate 7 0 ++ le_bytes 8 file_size.
Definition status_msg (is_success : bool) : list Z := [Z.b2z is_success].

Definition wait_for_successful_status_msg : io doca_error_t :=
  a ← recv_msg None 1;
  match a with
  | None => undef OutOfFuel
  | Some (result, msg) =>
      if negb (is_ok result) then mret result
      else
        match msg with
        | [] => undef Uninitialised
        | is_success :: _ => if is_success =? 0 then mret DOCA_ERROR_INVALID_VALUE else mret DOCA_SUCCESS
        end
  end.

Definition send_status_msg (status : bool) : io doca_error_t := send_msg (status_msg status).

(** ** Files and memory *)

(** [fopen(path, "w")] empties the file. *)
Definition save_buffer_into_a_file (cfg : dma_copy_cfg) (buffer : list Z) : io doca_error_t :=
  b ← succeeds;
  if negb b then mret DOCA_ERROR_IO_FAILED
  else
  opened;;
  put_file (Some []);;
  check (file_size cfg <=? Z.of_nat (length buffer)) OutOfBounds;;
  b ← write 0 (take (Z.to_nat (file_size cfg)) buffer);
  close;;
  if negb b then mret DOCA_ERROR_IO_FAILED else mret DOCA_SUCCESS.

(** The result and the content of the buffer. *)
Definition fill_buffer_with_file_content (cfg : dma_copy_cfg) (buffer : list Z) : io (doca_error_t * list Z) :=
  fp ← open_rdwr;
  match fp with
  | None => mret (DOCA_ERROR_IO_FAILED, buffer)
  | Some content =>
      let n := Z.to_nat (file_size cfg) in
      close;;
      if negb (n <=? length content)%nat then mret (DOCA_ERROR_IO_FAILED, content ++ drop (length content) buffer)
      else mret (DOCA_SUCCESS, take n content ++ drop n buffer)
  end.

Definition memory_alloc_and_populate : io doca_error_t :=
  result ← call;
  if negb (is_ok result) then mret result
  else
  buffer ← calloc;
  if negb buffer then mret DOCA_ERROR_NO_MEMORY
  else
  result ← call;
  if negb (is_ok result) then free true;; mret result
  else
  result ← call;
  if negb (is_ok result) then free true;; mret result else mret result.

(** ** Host *)

Definition host_negotiate_dma_direction_and_size (cfg : dma_copy_cfg) : io (doca_error_t * dma_copy_cfg) :=
  result ← call;
  if negb (is_ok result) then mret (result, cfg)
  else
  result ← call_while DOCA_ERROR_CONNECTION_INPROGRESS;
  if negb (is_ok result) then mret (result, cfg)
  else
  result ← send_msg (if is_file_found_locally cfg then direction_msg true (ntohq (file_size cfg)) else direction_msg false 0);
  if negb (is_ok result) then mret (result, cfg)
  else
  a ← recv_msg None 16;
  match a with
  | None => undef OutOfFuel
  | Some (result, msg) =>
      if negb (is_ok result) then mret (result, cfg)
      else if negb (Z.of_nat (length msg) =? 16) then mret (DOCA_ERROR_INVALID_VALUE, cfg)
      else if is_file_found_locally cfg then mret (DOCA_SUCCESS, cfg)
      else mret (DOCA_SUCCESS, DmaCfg false (ntohq (load 8 8 msg)))
  end.

(** [desc]: the descriptor that [doca_mmap_export_pci] gives. *)
Definition host_export_memory_map_to_dpu (desc : list Z) : io doca_error_t :=
  result ← call;
  if negb (is_ok result) then mret result
  else
  result ← send_msg desc;
  if negb (is_ok result) then mret result else wait_for_successful_status_msg.

Definition host_send_addr_and_offset (src_buffer src_buffer_size : Z) : io doca_error_t :=
  result ← send_msg (le_bytes 8 (ntohq src_buffer));
  if negb (is_ok result) then mret result
  else
  result ← wait_for_successful_status_msg;
  if negb (is_ok result) then mret result
  else
  result ← send_msg (le_bytes 8 (ntohq src_buffer_size));
  if negb (is_ok result) then mret result else wait_for_successful_status_msg.

(** The part between [memory_alloc_and_populate] and the label [free_buffer]: the result
    and the content of the buffer when its address was sent. *)
Definition host_copy (cfg : dma_copy_cfg) (addr : Z) (desc garbage after : list Z) : io (doca_error_t * list Z) :=
  result ← host_export_memory_map_to_dpu desc;
  if negb (is_ok result) then mret (result, garbage)
  else
  r ← (if is_file_found_locally cfg then fill_buffer_with_file_content cfg garbage else mret (DOCA_SUCCESS, garbage));
  let (result, buffer) := r : doca_error_t * list Z in
  if negb (is_ok result) then mret (result, buffer)
  else
  result ← host_send_addr_and_offset addr (file_size cfg);
  if negb (is_ok result) then mret (result, buffer)
  else
  result ← wait_for_successful_status_msg;
  if negb (is_ok result) then mret (result, buffer)
  else if is_file_found_locally cfg then mret (result, buffer)
  else
    result ← save_buffer_into_a_file cfg after;
    mret (result, buffer).

(** [addr]: the address of the buffer; [after]: its content after the copy. *)
Definition host_start_dma_copy (cfg : dma_copy_cfg) (addr : Z) (desc garbage after : list Z)
    : io (doca_error_t * list Z) :=
  r ← host_negotiate_dma_direction_and_size cfg;
  let (result, cfg) := r : doca_error_t * dma_copy_cfg in
  if negb (is_ok result) then mret (result, garbage)
  else
  result ← acquire;
  if negb (is_ok result) then mret (result, garbage)
  else
  result ← acquire;
  if negb (is_ok result) then
    tmp_result ← release;
    mret (DOCA_ERROR_PROPAGATE result tmp_result, garbage)
  else
  result ← call;
  r ← (if negb (is_ok result) then mret (result, garbage)
       else
         result ← memory_alloc_and_populate;
         if negb (is_ok result) then mret (result, garbage)
         else
           r ← host_copy cfg addr desc garbage after;
           free true;;
           mret r);
  let (result, buffer) := r : doca_error_t * list Z in
  tmp_result ← release;
  let result := DOCA_ERROR_PROPAGATE result tmp_result in
  tmp_result ← release;
  mret (DOCA_ERROR_PROPAGATE result tmp_result, buffer).

(** ** DPU *)

(** The program's [send_status_msg(..., STATUS_FAILURE)] whose result is not read, then [r]. *)
Definition fail_with {A} (r : A) : io A :=
  send_status_msg STATUS_FAILURE;;
  mret r.

Definition dpu_negotiate_dma_direction_and_size (cfg : dma_copy_cfg) (max_buf_size : Z) : io (doca_error_t * dma_copy_cfg) :=
  let dpu_dma_direction :=
    if is_file_found_locally cfg then direction_msg false (ntohq (file_size cfg)) else direction_msg true 0 in
  result ← call;
  if negb (is_ok result) then mret (result, cfg)
  else
  a ← recv_msg None 16;
  match a with
  | None => undef OutOfFuel
  | Some (result, msg) =>
      if negb (is_ok result) then fail_with (result, cfg)
      else if negb (Z.of_nat (length msg) =? 16) then fail_with (DOCA_ERROR_INVALID_VALUE, cfg)
      else
      let file_in_host := negb (load 0 1 msg =? 0) in
      if is_file_found_locally cfg && file_in_host then fail_with (DOCA_ERROR_INVALID_VALUE, cfg)
      else if negb (is_file_found_locally cfg) && negb file_in_host then fail_with (DOCA_ERROR_INVALID_VALUE, cfg)
      else
      let cfg := if is_file_found_locally cfg then cfg else DmaCfg false (ntohq (load 8 8 msg)) in
      if max_buf_size <? file_size cfg then
        result ← send_msg (status_msg false);
        if negb (is_ok result) then mret (result, cfg) else mret (DOCA_ERROR_INVALID_VALUE, cfg)
      else
        result ← send_msg dpu_dma_direction;
        mret (result, cfg)
  end.

Definition dpu_receive_export_desc : io (doca_error_t * list Z) :=
  a ← recv_msg None CC_MAX_MSG_SIZE;
  match a with
  | None => undef OutOfFuel
  | Some (result, export_desc) =>
      if negb (is_ok result) then fail_with (result, [])
      else
        result ← send_status_msg STATUS_SUCCESS;
        mret (result, export_desc)
  end.

(** A 64-bit integer of the host; [size_t] has 64 bits on the DPU. *)
Definition receive_u64 : io (doca_error_t * Z) :=
  a ← recv_msg None 8;
  match a with
  | None => undef OutOfFuel
  | Some (result, msg) =>
      if negb (is_ok result) then fail_with (result, 0)
      else
        check (Z.of_nat (length msg) =? 8) Uninitialised;;
        let v := ntohq (load 0 8 msg) in
        result ← send_status_msg STATUS_SUCCESS;
        mret (result, v)
  end.

Definition dpu_receive_addr_and_offset : io (doca_error_t * Z * Z) :=
  r ← receive_u64;
  let (result, host_addr) := r : doca_error_t * Z in
  if negb (is_ok result) then mret (result, host_addr, 0)
  else
  r ← receive_u64;
  let (result, host_offset) := r : doca_error_t * Z in
  mret (result, host_addr, host_offset).

(** The memory that the host has exported: its descriptor and the address of its first byte.
    The library makes a memory map of the descriptor only, and gives buffers only inside the
    range of a memory map. *)
Record exported : Type := Export { ex_desc : list Z; ex_addr : Z }.

(** The first [n] bytes of [src] over those of [dst]. *)
Definition dma_memcpy (n : Z) (src dst : list Z) : list Z := take (Z.to_nat n) src ++ drop (Z.to_nat n) dst.

(** [pos]: where in the memory of the host the remote buffer begins.  The result and the
    content of that memory afterwards. *)
Definition dpu_submit_dma_task (cfg : dma_copy_cfg) (pos : nat) (bytes_to_copy : Z) (buffer remote : list Z)
    : io (doca_error_t * list Z) :=
  result ← call;
  if negb (is_ok result) then mret (result, remote)
  else
  result ← call;
  if negb (is_ok result) then mret (result, remote)
  else
  result ← acquire;
  if negb (is_ok result) then mret (result, remote)
  else
  result ← call;
  if negb (is_ok result) then close;; mret (result, remote)
  else
  task_result ← call;
  if negb (is_ok task_result) then close;; mret (task_result, remote)
  else if is_file_found_locally cfg then close;;
    mret (result, take pos remote ++ dma_memcpy bytes_to_copy buffer (drop pos remote))
  else
    result ← save_buffer_into_a_file cfg (dma_memcpy bytes_to_copy (drop pos remote) buffer);
    if negb (is_ok result) then mret (result, remote)
    else close;; mret (result, remote).

(** From the local buffer to the label [destroy_local_buf]. *)
Definition dpu_copy (cfg : dma_copy_cfg) (pos : nat) (host_dma_offset : Z) (garbage remote : list Z) : io (doca_error_t * list Z) :=
  r ← (if is_file_found_locally cfg then fill_buffer_with_file_content cfg garbage else mret (DOCA_SUCCESS, garbage));
  let (result, buffer) := r : doca_error_t * list Z in
  if negb (is_ok result) then fail_with (result, remote)
  else
  r ← dpu_submit_dma_task cfg pos host_dma_offset buffer remote;
  let (result, remote) := r : doca_error_t * list Z in
  if negb (is_ok result) then fail_with (result, remote)
  else
    send_status_msg STATUS_SUCCESS;;
    mret (result, remote).

(** The two buffers; a range outside the memory map is refused by the library. *)
Definition dpu_buffers (cfg : dma_copy_cfg) (addr host_dma_addr host_dma_offset : Z) (garbage remote : list Z)
    : io (doca_error_t * list Z) :=
  result ← (if (host_dma_addr <? addr) || (addr + Z.of_nat (length remote) <? host_dma_addr + host_dma_offset)
            then mret DOCA_ERROR_INVALID_VALUE else acquire);
  if negb (is_ok result) then fail_with (result, remote)
  else
  result ← (if file_size cfg <? host_dma_offset then mret DOCA_ERROR_INVALID_VALUE else acquire);
  r ← (if negb (is_ok result) then fail_with (result, remote)
       else
         r ← dpu_copy cfg (Z.to_nat (host_dma_addr - addr)) host_dma_offset garbage remote;
         tmp_result ← release;
         mret (DOCA_ERROR_PROPAGATE r.1 tmp_result, r.2));
  tmp_result ← release;
  mret (DOCA_ERROR_PROPAGATE r.1 tmp_result, r.2).

(** From the local memory to the label [free_buffer]. *)
Definition dpu_transfer (cfg : dma_copy_cfg) (x : exported) (garbage remote : list Z) : io (doca_error_t * list Z) :=
  r ← dpu_receive_export_desc;
  let (result, export_desc) := r : doca_error_t * list Z in
  if negb (is_ok result) then mret (result, remote)
  else
  result ← (if negb (bool_decide (export_desc = ex_desc x)) then mret DOCA_ERROR_INVALID_VALUE else acquire);
  if negb (is_ok result) then mret (result, remote)
  else
  r ← dpu_receive_addr_and_offset;
  let '(result, host_dma_addr, host_dma_offset) := r : doca_error_t * Z * Z in
  r ← (if negb (is_ok result) then mret (result, remote) else dpu_buffers cfg (ex_addr x) host_dma_addr host_dma_offset garbage remote);
  tmp_result ← release;
  mret (DOCA_ERROR_PROPAGATE r.1 tmp_result, r.2).

(** [state] comes from [malloc]: its members are not written before their objects exist. *)
Definition allocate_dma_copy_resources : io (doca_error_t * program_core_objects) :=
  let state := Core Garbage Garbage Garbage Garbage Garbage in
  b ← calloc;
  if negb b then mret (DOCA_ERROR_NO_MEMORY, state)
  else
  result ← acquire;
  if negb (is_ok result) then free true;; mret (result, state)
  else
  r ← create_core_objects (Core Live Garbage Garbage Garbage Garbage);
  let (result, state) := r : doca_error_t * program_core_objects in
  if negb (is_ok result) then
    tmp_result ← destroy_core_objects state;
    free true;;
    mret (DOCA_ERROR_PROPAGATE result tmp_result, state)
  else
  result ← acquire;
  if negb (is_ok result) then
    tmp_result ← destroy_core_objects state;
    free true;;
    mret (DOCA_ERROR_PROPAGATE result tmp_result, state)
  else
  result ← (result ← call; if negb (is_ok result) then mret result else call);
  if negb (is_ok result) then
    tmp_result ← release;
    let result := DOCA_ERROR_PROPAGATE result tmp_result in
    tmp_result ← destroy_core_objects state;
    free true;;
    mret (DOCA_ERROR_PROPAGATE result tmp_result, state)
  else mret (result, state).

Definition destroy_dma_copy_resources (state : program_core_objects) : io doca_error_t :=
  result ← release;
  tmp_result ← destroy_core_objects state;
  free true;;
  mret (DOCA_ERROR_PROPAGATE result tmp_result).

(** From the started context to the label [stop_dma]. *)
Definition dpu_session (cfg : dma_copy_cfg) (max_buf_size : Z) (x : exported) (garbage remote : list Z) : io (doca_error_t * list Z) :=
  r ← dpu_negotiate_dma_direction_and_size cfg max_buf_size;
  let (result, cfg) := r : doca_error_t * dma_copy_cfg in
  if negb (is_ok result) then mret (result, remote)
  else
  result ← memory_alloc_and_populate;
  if negb (is_ok result) then mret (result, remote)
  else
  r ← dpu_transfer cfg x garbage remote;
  free true;;
  mret r.

(** [remote]: the host's buffer when the copy starts. *)
Definition dpu_start_dma_copy (cfg : dma_copy_cfg) (max_buf_size : Z) (x : exported) (garbage remote : list Z)
    : io (doca_error_t * list Z) :=
  r ← allocate_dma_copy_resources;
  let (result, state) := r : doca_error_t * program_core_objects in
  if negb (is_ok result) then mret (result, remote)
  else
  result ← call;
  r ← (if negb (is_ok result) then mret (result, remote)
       else
         result ← call;
         if negb (is_ok result) then mret (result, remote)
         else
           r ← dpu_session cfg max_buf_size x garbage remote;
           tmp_result ← call;
           mret (DOCA_ERROR_PROPAGATE r.1 tmp_result, r.2));
  tmp_result ← destroy_dma_copy_resources state;
  mret (DOCA_ERROR_PROPAGATE r.1 tmp_result, r.2).

(** ** Options, channel and [main] *)

(** The result and the size of the file. *)
Definition validate_file_size : io (doca_error_t * option Z) :=
  fp ← open_rdwr;
  match fp with
  | None => mret (DOCA_ERROR_IO_FAILED, None)
  | Some content =>
      b ← succeeds;
      if negb b then close;; mret (DOCA_ERROR_IO_FAILED, None)
      else
      b ← succeeds;
      if negb b then close;; mret (DOCA_ERROR_IO_FAILED, None)
      else close;; mret (DOCA_SUCCESS, Some (Z.of_nat (length content)))
  end.

Definition args_validation_callback (cfg : dma_copy_cfg) : io (doca_error_t * dma_copy_cfg) :=
  b ← succeeds;
  f ← get_file;
  match f with
  | Some _ =>
      if negb b then mret (DOCA_SUCCESS, cfg)
      else
        r ← validate_file_size;
        let (result, size) := r : doca_error_t * option Z in
        mret (result, DmaCfg true (default (file_size cfg) size))
  | None => mret (DOCA_SUCCESS, cfg)
  end.

Definition set_cc_properties (mode : dma_copy_mode) : io doca_error_t :=
  result ← call;
  if negb (is_ok result) then mret result
  else
  result ← call;
  if negb (is_ok result) then mret result
  else
  result ← call;
  if negb (is_ok result) then mret result
  else
  result ← call;
  if negb (is_ok result) then mret result
  else
  match mode with
  | DMA_COPY_MODE_DPU => call
  | DMA_COPY_MODE_HOST => mret result
  end.

(** From the label [close_device]. *)
Definition close_device (result : doca_error_t) : io doca_error_t :=
  tmp_result ← release;
  let result := DOCA_ERROR_PROPAGATE result tmp_result in
  tmp_result ← release;
  mret (DOCA_ERROR_PROPAGATE result tmp_result).

Definition init_cc (mode : dma_copy_mode) : io doca_error_t :=
  result ← acquire;
  if negb (is_ok result) then mret result
  else
  result ← acquire;
  if negb (is_ok result) then
    tmp_result ← release;
    mret (DOCA_ERROR_PROPAGATE result tmp_result)
  else
  result ← (match mode with DMA_COPY_MODE_DPU => acquire | DMA_COPY_MODE_HOST => mret DOCA_SUCCESS end);
  if negb (is_ok result) then close_device result
  else
  result ← set_cc_properties mode;
  if negb (is_ok result) then
    (match mode with
     | DMA_COPY_MODE_DPU => release;; mret tt
     | DMA_COPY_MODE_HOST => mret tt
     end);;
    close_device result
  else mret result.

(** [peer], [dev_rep]: whether there is an address of the peer and a representor. *)
Definition destroy_cc (peer dev_rep : bool) : io doca_error_t :=
  result ← (if peer then
              tmp_result ← call;
              mret (DOCA_ERROR_PROPAGATE DOCA_SUCCESS tmp_result)
            else mret DOCA_SUCCESS);
  tmp_result ← release;
  let result := if negb (is_ok result) then DOCA_ERROR_PROPAGATE result tmp_result else result in
  result ← (if dev_rep then
              tmp_result ← release;
              mret (DOCA_ERROR_PROPAGATE result tmp_result)
            else mret result);
  tmp_result ← release;
  mret (DOCA_ERROR_PROPAGATE result tmp_result).

(** [main] after the loggers and the parser of the options: whether it exits with success,
    and the host's buffer.  [buffer]: the host's buffer at the other side of the copy;
    [peer]: whether the session has left an address of the peer; [addr], [desc]: address and
    descriptor of the buffer the host exports. *)
Definition main (mode : dma_copy_mode) (addr max_buf_size : Z) (desc garbage buffer : list Z) (peer : bool)
    : io (bool * list Z) :=
  r ← args_validation_callback (DmaCfg false 0);
  let (result, cfg) := r : doca_error_t * dma_copy_cfg in
  if negb (is_ok result) then mret (false, garbage)
  else
  result ← init_cc mode;
  if negb (is_ok result) then mret (false, garbage)
  else
  r ← (match mode with
       | DMA_COPY_MODE_HOST => host_start_dma_copy cfg addr desc garbage buffer
       | DMA_COPY_MODE_DPU => dpu_start_dma_copy cfg max_buf_size (Export desc addr) garbage buffer
       end);
  destroy_cc peer (match mode with DMA_COPY_MODE_DPU => true | DMA_COPY_MODE_HOST => false end);;
  mret (is_ok r.1, r.2).

(** ** Resources *)

(** Run the program in [H] to its end, one test at a time. *)
Ltac io_cases H :=
  repeat (cbv beta iota in H;
    lazymatch type of H with
    | (_ ≫= _) _ = Ret _ => unfold mbind at 1, io_bind at 1 in H
    | match ?o with Ret _ => _ | Undef _ => _ end = Ret _ =>
        let E := fresh "E" in destruct o as [[? ?]|] eqn:E; [clear E|discriminate H]
    | (if ?b then _ else _) _ = Ret _ => destruct b eqn:?
    | mret _ _ = Ret _ => cbv [mret io_ret] in H; inv_ret
    end).

Lemma uses_wait : uses wait_for_successful_status_msg (fun _ => (0, 0)).
Proof. unfold wait_for_successful_status_msg. uses_all. Qed.
Lemma uses_status b : uses (send_status_msg b) (fun _ => (0, 0)).
Proof. apply uses_send. Qed.
Lemma uses_save cfg l : uses (save_buffer_into_a_file cfg l) (fun _ => (0, 0)).
Proof. unfold save_buffer_into_a_file. uses_all. Qed.
Lemma uses_fill cfg l : uses (fill_buffer_with_file_content cfg l) (fun _ => (0, 0)).
Proof. unfold fill_buffer_with_file_content. uses_all. Qed.
Lemma uses_populate_map : uses memory_alloc_and_populate (fun e => (0, Z.b2z (is_ok e))).
Proof. unfold memory_alloc_and_populate. uses_all. Qed.
#[local] Hint Resolve uses_wait uses_status uses_save uses_fill uses_populate_map : uses.

Lemma uses_host_negotiate cfg : uses (host_negotiate_dma_direction_and_size cfg) (fun _ => (0, 0)).
Proof. unfold host_negotiate_dma_direction_and_size. uses_all. Qed.
Lemma uses_host_export d : uses (host_export_memory_map_to_dpu d) (fun _ => (0, 0)).
Proof. unfold host_export_memory_map_to_dpu. uses_all. Qed.
Lemma uses_host_send a n : uses (host_send_addr_and_offset a n) (fun _ => (0, 0)).
Proof. unfold host_send_addr_and_offset. uses_all. Qed.
Lemma uses_fill_if (b : bool) cfg l :
  uses (if b then fill_buffer_with_file_content cfg l else mret (DOCA_SUCCESS, l)) (fun _ => (0, 0)).
Proof. uses_all. Qed.
#[local] Hint Resolve uses_host_negotiate uses_host_export uses_host_send uses_fill_if : uses.
Lemma uses_host_copy cfg a d g l : uses (host_copy cfg a d g l) (fun _ => (0, 0)).
Proof. unfold host_copy. uses_all. Qed.
#[local] Hint Resolve uses_host_copy : uses.
Lemma uses_host_buffer (e : doca_error_t) cfg a d g l :
  uses (if negb (is_ok e) then mret (e, g)
        else
          result ← memory_alloc_and_populate;
          if negb (is_ok result) then mret (result, g)
          else
            r ← host_copy cfg a d g l;
            free true;;
            mret r) (fun _ => (0, 0)).
Proof. uses_all. Qed.
#[local] Hint Resolve uses_host_buffer : uses.

Lemma uses_host cfg a d g l : uses (host_start_dma_copy cfg a d g l) (fun _ => (0, 0)).
Proof. unfold host_start_dma_copy. uses_all. Qed.

Lemma uses_validate : uses validate_file_size (fun _ => (0, 0)).
Proof. unfold validate_file_size. uses_all. Qed.
#[local] Hint Resolve uses_validate : uses.
Lemma uses_args cfg : uses (args_validation_callback cfg) (fun _ => (0, 0)).
Proof. unfold args_validation_callback. uses_all. Qed.
Lemma uses_cc_properties mode : uses (set_cc_properties mode) (fun _ => (0, 0)).
Proof. unfold set_cc_properties. uses_all. Qed.
Lemma uses_close_device r : uses (close_device r) (fun _ => (-2, 0)).
Proof. unfold close_device. uses_all. Qed.
#[local] Hint Resolve uses_args uses_cc_properties uses_close_device : uses.

(** The end-point, the device and, on the DPU, its representor. *)
Definition cc_handles (mode : dma_copy_mode) : Z :=
  match mode with DMA_COPY_MODE_HOST => 2 | DMA_COPY_MODE_DPU => 3 end.

Lemma uses_rep mode :
  uses (match mode with DMA_COPY_MODE_DPU => acquire | DMA_COPY_MODE_HOST => mret DOCA_SUCCESS end)
    (fun e => (if is_ok e then cc_handles mode - 2 else 0, 0)).
Proof. destruct mode; [by apply uses_ret|]. eapply uses_mono; [exact uses_acquire|]. intros e. cbn. by destruct (is_ok e). Qed.
Lemma uses_rep_close mode :
  uses (match mode with DMA_COPY_MODE_DPU => release;; mret tt | DMA_COPY_MODE_HOST => mret tt end)
    (fun _ => (2 - cc_handles mode, 0)).
Proof. destruct mode; uses_all. Qed.
#[local] Hint Resolve uses_rep uses_rep_close : uses.

Lemma uses_close_fail r x : is_ok r = false -> uses (close_device r) (fun e => (if is_ok e then x else -2, 0)).
Proof.
  intros Hr w e w' H. destruct (uses_close_device r w e w' H) as [-> ->]. unfold close_device, release in H. io_cases H.
  by rewrite propagate_ok by (by apply propagate_ok).
Qed.

Lemma uses_init_cc mode : uses (init_cc mode) (fun e => (if is_ok e then cc_handles mode else 0, 0)).
Proof.
  unfold init_cc.
  eapply uses_bind; [auto with uses nocore|intros e1].
  destruct (is_ok e1) eqn:E1; cbn [negb]; [|apply uses_ret; cbn; by rewrite E1].
  eapply uses_bind; [auto with uses nocore|intros e2]. destruct (is_ok e2) eqn:E2; cbn [negb].
  2: { repeat uses_step. cbn. rewrite E1, E2, propagate_ok by done. done. }
  eapply uses_bind; [auto with uses nocore|intros e3]. destruct (is_ok e3) eqn:E3; cbn [negb].
  2: { eapply uses_mono; [by apply (uses_close_fail _ (cc_handles mode - 2))|]. intros e. cbn. rewrite E1, E2, E3. cbn. f_equal; destruct (is_ok e); lia. }
  eapply uses_bind; [auto with uses nocore|intros e4]. destruct (is_ok e4) eqn:E4; cbn [negb].
  - apply uses_ret. cbn. rewrite E1, E2, E3, E4. cbn. f_equal; lia.
  - eapply uses_bind; [auto with uses nocore|intros ?].
    eapply uses_mono; [by apply (uses_close_fail _ (cc_handles mode - 2))|]. intros e. cbn. rewrite E1, E2, E3. cbn. f_equal; destruct (is_ok e); lia.
Qed.

Lemma uses_disconnect (b : bool) :
  uses (if b then tmp_result ← call; mret (DOCA_ERROR_PROPAGATE DOCA_SUCCESS tmp_result) else mret DOCA_SUCCESS) (fun _ => (0, 0)).
Proof. uses_all. Qed.
Lemma uses_rep_destroy (b : bool) r :
  uses (if b then tmp_result ← release; mret (DOCA_ERROR_PROPAGATE r tmp_result) else mret r) (fun _ => (- Z.b2z b, 0)).
Proof. uses_all. Qed.
#[local] Hint Resolve uses_disconnect uses_rep_destroy uses_init_cc : uses.
Lemma uses_destroy_cc p b : uses (destroy_cc p b) (fun _ => (-2 - Z.b2z b, 0)).
Proof. unfold destroy_cc. uses_all. Qed.
#[local] Hint Resolve uses_destroy_cc : uses.

Definition all_live : program_core_objects := Core Live Live Live Live Live.

Lemma uses_destroy_one r : uses (destroy_one Live r) (fun _ => (-1, 0)).
Proof. unfold destroy_one. uses_all. Qed.
#[local] Hint Resolve uses_destroy_one : uses.
Lemma uses_destroy_live : uses (destroy_core_objects all_live) (fun _ => (-5, 0)).
Proof. unfold destroy_core_objects, all_live. cbn [dev src_mmap dst_mmap buf_inv pe]. uses_all. Qed.
Lemma uses_create s : uses (create_core_objects s) (fun r => (if is_ok r.1 then 4 else 0, 0)).
Proof. unfold create_core_objects. uses_all. Qed.
#[local] Hint Resolve uses_destroy_live uses_create : uses.

(** Creation either succeeds or leaves the progress engine unwritten. *)
Lemma create_state w e s w' :
  create_core_objects (Core Live Garbage Garbage Garbage Garbage) w = Ret ((e, s), w') ->
  if is_ok e then s = all_live else pe s = Garbage.
Proof.
  unfold create_core_objects. intros H. io_cases H;
    repeat match goal with
           | E : negb _ = true |- _ => apply negb_true_iff in E; rewrite ?E
           end; done.
Qed.

(** Members that are not written are read: when any core object can not be created, the
    error path reads the uninitialised progress engine of a structure from [malloc]. *)
Theorem failed_core_objects_undefined w w1 w2 w3 e s :
  calloc w = Ret (true, w1) -> acquire w1 = Ret (DOCA_SUCCESS, w2) ->
  create_core_objects (Core Live Garbage Garbage Garbage Garbage) w2 = Ret ((e, s), w3) -> e <> DOCA_SUCCESS ->
  allocate_dma_copy_resources w = Undef Uninitialised.
Proof.
  intros E1 E2 E3 He. pose proof (create_state _ _ _ _ E3) as Hs.
  assert (is_ok e = false) as Ho by (by apply bool_decide_eq_false). rewrite Ho in Hs.
  unfold allocate_dma_copy_resources. io_run E1. io_run E2. rewrite (run_bind _ _ _ _ _ E3). cbv beta iota. rewrite Ho. cbn [negb].
  unfold destroy_core_objects, destroy_one. rewrite Hs. reflexivity.
Qed.

Lemma uses_destroy_garbage {A} s (k : doca_error_t -> io A) d : pe s = Garbage -> uses (destroy_core_objects s ≫= k) d.
Proof. intros E w a w' H. unfold destroy_core_objects, destroy_one in H. rewrite E in H. discriminate H. Qed.

Lemma uses_configure : uses (result ← call; if negb (is_ok result) then mret result else call) (fun _ => (0, 0)).
Proof. uses_all. Qed.
#[local] Hint Resolve uses_configure : uses.

Lemma uses_allocate :
  uses allocate_dma_copy_resources (fun r => (if is_ok r.1 then 6 else 0, if is_ok r.1 then 1 else 0)).
Proof.
  unfold allocate_dma_copy_resources.
  eapply uses_bind; [auto with uses nocore|intros [|]]; cbn [negb]; [|uses_all].
  eapply uses_bind; [auto with uses nocore|intros e1]. destruct (is_ok e1) eqn:E1; cbn [negb]; [|uses_all].
  eapply (uses_bind_post (fun r => if is_ok r.1 then r.2 = all_live else pe r.2 = Garbage));
    [auto with uses nocore|intros w [e s] w' H; by apply create_state in H|intros [e s] Hs]. cbn [fst snd] in Hs.
  destruct (is_ok e) eqn:E; cbn [negb]; [|by apply uses_destroy_garbage]. subst s.
  eapply uses_bind; [auto with uses nocore|intros e2]. destruct (is_ok e2) eqn:E2; cbn [negb].
  2: { repeat uses_step. cbn. rewrite ?E1, ?E, ?E2, !propagate_ok by done. done. }
  eapply uses_bind; [auto with uses nocore|intros e3]. destruct (is_ok e3) eqn:E3; cbn [negb]; repeat uses_step; cbn;
    rewrite ?E1, ?E, ?E2, ?E3, ?propagate_ok by (try apply propagate_ok; done); done.
Qed.

Lemma uses_fail {A} (r : A) : uses (fail_with r) (fun _ => (0, 0)).
Proof. unfold fail_with. uses_all. Qed.
#[local] Hint Resolve uses_allocate uses_fail : uses.
Lemma uses_dpu_negotiate cfg m : uses (dpu_negotiate_dma_direction_and_size cfg m) (fun _ => (0, 0)).
Proof. unfold dpu_negotiate_dma_direction_and_size. uses_all. Qed.
Lemma uses_desc : uses dpu_receive_export_desc (fun _ => (0, 0)).
Proof. unfold dpu_receive_export_desc. uses_all. Qed.
Lemma uses_u64 : uses receive_u64 (fun _ => (0, 0)).
Proof. unfold receive_u64. uses_all. Qed.
#[local] Hint Resolve uses_dpu_negotiate uses_desc uses_u64 : uses.
Lemma uses_addr : uses dpu_receive_addr_and_offset (fun _ => (0, 0)).
Proof. unfold dpu_receive_addr_and_offset. uses_all. Qed.
#[local] Hint Resolve uses_addr : uses.

(** The direction the DPU starts with stays. *)
Lemma negotiate_local cfg m w e cfg' w' :
  dpu_negotiate_dma_direction_and_size cfg m w = Ret ((e, cfg'), w') ->
  is_file_found_locally cfg' = is_file_found_locally cfg.
Proof.
  unfold dpu_negotiate_dma_direction_and_size, fail_with. intros H. io_cases H; [done|].
  destruct o as [[r msg]|]; [|discriminate]. io_cases H; try done; by destruct cfg as [[|] n].
Qed.

Section FileOnDpu.
Context (cfg : dma_copy_cfg) (local : is_file_found_locally cfg = true).

Lemma uses_submit_dma q n b r : uses (dpu_submit_dma_task cfg q n b r) (fun _ => (0, 0)).
Proof. unfold dpu_submit_dma_task. rewrite local. uses_all. Qed.
#[local] Hint Resolve uses_submit_dma : uses.
Lemma uses_dpu_copy q n g r : uses (dpu_copy cfg q n g r) (fun _ => (0, 0)).
Proof. unfold dpu_copy. uses_all. Qed.
#[local] Hint Resolve uses_dpu_copy : uses.
Lemma uses_local_buf (b : bool) :
  uses (if b then mret DOCA_ERROR_INVALID_VALUE else acquire) (fun e => (Z.b2z (is_ok e), 0)).
Proof. uses_all. Qed.
#[local] Hint Resolve uses_local_buf : uses.
Lemma uses_local_copy (e : doca_error_t) q n g r :
  uses (if negb (is_ok e) then fail_with (e, r)
        else
          x ← dpu_copy cfg q n g r;
          tmp_result ← release;
          mret (DOCA_ERROR_PROPAGATE x.1 tmp_result, x.2)) (fun _ => (- Z.b2z (is_ok e), 0)).
Proof. destruct (is_ok e); cbn [negb]; uses_all. Qed.
#[local] Hint Resolve uses_local_copy : uses.
Lemma uses_buffers a h n g r : uses (dpu_buffers cfg a h n g r) (fun _ => (0, 0)).
Proof.
  unfold dpu_buffers. eapply uses_bind; [auto with uses nocore|intros e].
  cbn [fst snd]. destruct (is_ok e); cbn [negb Z.b2z]; repeat uses_step. cbn; f_equal; lia.
Qed.
#[local] Hint Resolve uses_buffers : uses.
Lemma uses_buffers_if (e : doca_error_t) a h n g r :
  uses (if negb (is_ok e) then mret (e, r) else dpu_buffers cfg a h n g r) (fun _ => (0, 0)).
Proof. uses_all. Qed.
#[local] Hint Resolve uses_buffers_if : uses.
Lemma uses_transfer x g r : uses (dpu_transfer cfg x g r) (fun _ => (0, 0)).
Proof. unfold dpu_transfer. uses_all. Qed.
End FileOnDpu.
#[local] Hint Resolve uses_transfer : uses.

Lemma uses_session cfg m x g r : is_file_found_locally cfg = true -> uses (dpu_session cfg m x g r) (fun _ => (0, 0)).
Proof.
  intros Hl. unfold dpu_session.
  eapply (uses_bind_post (fun p => is_file_found_locally p.2 = true));
    [auto with uses nocore|intros w [e c] w' H; cbn; by rewrite (negotiate_local _ _ _ _ _ _ H)|intros [e c] Hc].
  cbn in Hc. uses_all.
Qed.

Lemma uses_destroy_resources : uses (destroy_dma_copy_resources all_live) (fun _ => (-6, -1)).
Proof. unfold destroy_dma_copy_resources. uses_all. Qed.

Lemma allocate_live w e s w' :
  allocate_dma_copy_resources w = Ret ((e, s), w') -> is_ok e = true -> s = all_live.
Proof.
  unfold allocate_dma_copy_resources. intros H He. unfold mbind at 1, io_bind at 1 in H.
  destruct (calloc w) as [[[|] w1]|]; [|io_cases H; discriminate|discriminate]. cbn [negb] in H. cbv iota in H.
  unfold mbind at 1, io_bind at 1 in H. destruct (acquire w1) as [[e1 w2]|]; [|discriminate].
  destruct (is_ok e1) eqn:E1; cbn [negb] in H; [|io_cases H; congruence].
  unfold mbind at 1, io_bind at 1 in H. destruct (create_core_objects _ w2) as [[[e2 s2] w3]|] eqn:Ec; [|discriminate].
  apply create_state in Ec. destruct (is_ok e2) eqn:E2; cbn [negb] in H; cbv iota in H.
  - subst s2. io_cases H; done.
  - unfold destroy_core_objects, destroy_one in H. rewrite Ec in H. discriminate H.
Qed.

Section DpuWithFile.
Context (cfg : dma_copy_cfg) (m : Z) (x : exported) (g r : list Z) (local : is_file_found_locally cfg = true).

Lemma uses_local_session : uses (dpu_session cfg m x g r) (fun _ => (0, 0)).
Proof. by apply uses_session. Qed.
#[local] Hint Resolve uses_local_session uses_destroy_resources : uses.

Lemma uses_dpu_work (e : doca_error_t) :
  uses (if negb (is_ok e) then mret (e, r)
        else
          result ← call;
          if negb (is_ok result) then mret (result, r)
          else
            y ← dpu_session cfg m x g r;
            tmp_result ← call;
            mret (DOCA_ERROR_PROPAGATE y.1 tmp_result, y.2)) (fun _ => (0, 0)).
Proof. uses_all. Qed.
#[local] Hint Resolve uses_dpu_work : uses.

Lemma uses_dpu : uses (dpu_start_dma_copy cfg m x g r) (fun _ => (0, 0)).
Proof.
  unfold dpu_start_dma_copy.
  eapply (uses_bind_post (fun p => is_ok p.1 = true -> p.2 = all_live));
    [auto with uses nocore|intros ? [e s] ? E; exact (allocate_live _ _ _ _ E)|intros [e s] Hs].
  cbn [fst snd] in *. destruct (is_ok e) eqn:E; cbn [negb]; [|by apply uses_ret].
  rewrite (Hs eq_refl). uses_all.
Qed.
End DpuWithFile.

(** Whatever the libraries, the channel and the file system answer, a run of the
    program that ends on the host, or on the DPU that has the file, has given back all
    devices, memory maps, buffers, tasks, contexts, files and memory. *)
Theorem dma_copy_releases mode addr max desc garbage buffer peer w e cfg w1 r w' :
  args_validation_callback (DmaCfg false 0) w = Ret ((e, cfg), w1) ->
  mode = DMA_COPY_MODE_HOST \/ is_file_found_locally cfg = true ->
  main mode addr max desc garbage buffer peer w = Ret (r, w') -> fds w' = fds w /\ blocks w' = blocks w.
Proof.
  intros E Hm H. destruct (uses_args _ _ _ _ E) as [F1 F2]. cbn in F1, F2.
  unfold main in H. rewrite (run_bind _ _ _ _ _ E) in H. cbv beta iota in H.
  assert (uses (match mode with DMA_COPY_MODE_HOST => host_start_dma_copy cfg addr desc garbage buffer
                | DMA_COPY_MODE_DPU => dpu_start_dma_copy cfg max (Export desc addr) garbage buffer end) (fun _ => (0, 0))) as U
    by (destruct Hm as [-> | Hl]; [|destruct mode]; first [apply uses_host|by apply uses_dpu]).
  enough (fds w' = fds w1 /\ blocks w' = blocks w1) by lia.
  refine ((fun U' => _) (_ : uses _ (fun _ => (0, 0)))); [destruct (U' _ _ _ H) as [-> ->]; cbn; lia|].
  destruct (is_ok e); cbn [negb]; [|by apply uses_ret].
  eapply uses_bind; [auto with uses nocore|intros e1]. cbn [fst snd].
  destruct (is_ok e1) eqn:E1; cbn [negb]; [|by apply uses_ret].
  eapply uses_bind; [exact U|intros a]. uses_all; by destruct mode.
Qed.

Lemma succeeds_next e p s wr c st f fd b :
  succeeds (World p s wr (e :: c) st f fd b) = Ret (is_ok e, World p s wr c st f fd b).
Proof. reflexivity. Qed.

(** The DPU that saves the file does not: when the file can not be opened for writing, the
    DMA task is never freed. *)
Theorem failed_save_leaks_task cfg pos n buffer remote e p s wr st f fd b :
  is_file_found_locally cfg = false -> e <> DOCA_SUCCESS ->
  dpu_submit_dma_task cfg pos n buffer remote (World p s wr (replicate 5 DOCA_SUCCESS ++ [e]) st f fd b)
    = Ret ((DOCA_ERROR_IO_FAILED, remote), World p s wr [] st f (fd + 1) b).
Proof.
  intros Hl He. unfold dpu_submit_dma_task. cbn [replicate app]. do 5 io_next. rewrite Hl.
  assert (save_buffer_into_a_file cfg (dma_memcpy n (drop pos remote) buffer) (World p s wr [e] st f (fd + 1) b)
    = Ret (DOCA_ERROR_IO_FAILED, World p s wr [] st f (fd + 1) b)) as E.
  { unfold save_buffer_into_a_file. rewrite (run_bind _ _ _ _ _ (succeeds_next e _ _ _ _ _ _ _ _)).
    unfold is_ok. by rewrite (bool_decide_eq_false_2 _ He). }
  by io_run E.
Qed.

(** ** Delivery *)

(** The polls [ps] bring the messages [ms], after any number of polls that find none. *)
Definition slow (ms : list (list Z)) (ps : list (doca_error_t * list Z)) : Prop := exists n, delayed n ms ps.

Lemma recv_slow size m ms ps s wr c st f fd b :
  slow (m :: ms) ps -> Z.of_nat (length m) <= size ->
  exists ps', slow ms ps' /\
    recv_msg None size (World ps s wr c st f fd b) = Ret (Some (DOCA_SUCCESS, m), World ps' s wr c st f fd b).
Proof.
  intros [n H] Hm. inversion H as [|again m' ms' ps' Ha _ Hd]; subst. exists ps'. split; [by exists n|by apply recv_again].
Qed.

Lemma wait_slow ms ps s wr c st f fd b :
  slow (status_msg true :: ms) ps -> exists ps', slow ms ps' /\
    wait_for_successful_status_msg (World ps s wr c st f fd b) = Ret (DOCA_SUCCESS, World ps' s wr c st f fd b).
Proof.
  intros H. destruct (recv_slow 1 _ _ _ s wr c st f fd b H) as (ps' & H' & E); [done|]. exists ps'. split; [done|].
  unfold wait_for_successful_status_msg. by io_run E.
Qed.

Lemma u64_slow v ms ps s wr c st f fd b :
  slow (le_bytes 8 (ntohq v) :: ms) ps -> in_width 64 v -> busy s -> exists ps' s', slow ms ps' /\ busy s' /\
    receive_u64 (World ps s wr c st f fd b)
      = Ret ((DOCA_SUCCESS, v), World ps' s' wr c (st ++ [status_msg true]) f fd b).
Proof.
  intros H Hv Hs. destruct (recv_slow 8 _ _ _ s wr c st f fd b H) as (ps' & H' & E); [by rewrite length_le_bytes|].
  destruct (send_msg_busy (status_msg true) ps' s wr c st f fd b Hs) as (s' & Hs' & E').
  exists ps', s'. split; [done|]. split; [done|].
  unfold receive_u64. io_run E. unfold check. rewrite length_le_bytes. io_step. io_run E'.
  by rewrite be64_roundtrip.
Qed.

Lemma direction_size b v : in_width 64 v -> ntohq (load 8 8 (direction_msg b (ntohq v))) = v.
Proof. intros H. etrans; [|exact (be64_roundtrip v H)]. reflexivity. Qed.

(** The messages of a copy of a file of [n] bytes. *)
Definition host_direction (in_host : bool) (n : Z) : list Z :=
  if in_host then direction_msg true (ntohq n) else direction_msg false 0.
Definition dpu_direction (in_host : bool) (n : Z) : list Z :=
  if in_host then direction_msg true 0 else direction_msg false (ntohq n).
Definition to_dpu (in_host : bool) (n addr : Z) (desc : list Z) : list (list Z) :=
  [host_direction in_host n; desc; le_bytes 8 (ntohq addr); le_bytes 8 (ntohq n)].
Definition to_host (in_host : bool) (n : Z) : list (list Z) := dpu_direction in_host n :: replicate 4 (status_msg true).

Section Delivery.
Context (d desc : list Z) (addr : Z).
#[local] Abbreviation n := (Z.of_nat (length d)).
Hypothesis size_ok : in_width 64 n.
Hypothesis addr_ok : in_width 64 addr.

(** The configuration of the side that has the file, or not, after the options were read. *)
Definition side_cfg (has : bool) : dma_copy_cfg := DmaCfg has (if has then n else 0).

Lemma host_negotiates in_host ps s f ms :
  slow (dpu_direction in_host n :: ms) ps -> busy s ->
  exists ps' s', slow ms ps' /\ busy s' /\
    host_negotiate_dma_direction_and_size (side_cfg in_host) (World ps s [] [] [] f 2 0)
      = Ret ((DOCA_SUCCESS, DmaCfg in_host n), World ps' s' [] [] [host_direction in_host n] f 2 0).
Proof using size_ok.
  intros Hp Hs. unfold host_negotiate_dma_direction_and_size.
  destruct (send_msg_busy (host_direction in_host n) ps s [] [] [] f 2 0 Hs) as (s1 & Hs1 & E1).
  destruct (recv_slow 16 _ _ _ s1 [] [] [host_direction in_host n] f 2 0 Hp) as (p1 & Hp1 & E2); [by destruct in_host|].
  exists p1, s1. split; [done|]. split; [done|]. do 2 io_step. unfold side_cfg.
  destruct in_host; cbn [is_file_found_locally file_size]; io_run E1; io_run E2; [done|].
  unfold dpu_direction. rewrite (direction_size _ _ size_ok). reflexivity.
Qed.

Lemma host_exports ms ps s wr st f fd b :
  slow (status_msg true :: ms) ps -> busy s -> exists ps' s', slow ms ps' /\ busy s' /\
    host_export_memory_map_to_dpu desc (World ps s wr [] st f fd b)
      = Ret (DOCA_SUCCESS, World ps' s' wr [] (st ++ [desc]) f fd b).
Proof.
  intros Hp Hs. destruct (send_msg_busy desc ps s wr [] st f fd b Hs) as (s1 & Hs1 & E1).
  destruct (wait_slow _ _ s1 wr [] (st ++ [desc]) f fd b Hp) as (p1 & Hp1 & E2). exists p1, s1.
  split; [done|]. split; [done|]. unfold host_export_memory_map_to_dpu. io_step. io_run E1. done.
Qed.

Lemma host_sends v ms ps s wr st f fd b :
  slow (status_msg true :: status_msg true :: ms) ps -> busy s -> exists ps' s', slow ms ps' /\ busy s' /\
    host_send_addr_and_offset addr v (World ps s wr [] st f fd b)
      = Ret (DOCA_SUCCESS, World ps' s' wr [] (st ++ [le_bytes 8 (ntohq addr)] ++ [le_bytes 8 (ntohq v)]) f fd b).
Proof.
  intros Hp Hs. destruct (send_msg_busy (le_bytes 8 (ntohq addr)) ps s wr [] st f fd b Hs) as (s1 & Hs1 & E1).
  destruct (wait_slow _ _ s1 wr [] (st ++ [le_bytes 8 (ntohq addr)]) f fd b Hp) as (p1 & Hp1 & E2).
  destruct (send_msg_busy (le_bytes 8 (ntohq v)) p1 s1 wr [] (st ++ [le_bytes 8 (ntohq addr)]) f fd b Hs1) as (s2 & Hs2 & E3).
  destruct (wait_slow _ _ s2 wr [] ((st ++ [le_bytes 8 (ntohq addr)]) ++ [le_bytes 8 (ntohq v)]) f fd b Hp1) as (p2 & Hp2 & E4).
  exists p2, s2. split; [done|]. split; [done|]. unfold host_send_addr_and_offset.
  io_run E1. io_run E2. io_run E3. rewrite E4, <-app_assoc. done.
Qed.

Lemma fill_run has g p s wr st fd b : length g = length d ->
  fill_buffer_with_file_content (DmaCfg has n) g (World p s wr [] st (Some d) fd b)
    = Ret ((DOCA_SUCCESS, d), World p s wr [] st (Some d) fd b).
Proof.
  intros Hg. unfold fill_buffer_with_file_content. cbn [file_size]. rewrite Nat2Z.id. io_step. cbv zeta. io_step.
  rewrite Nat.leb_refl. cbn [negb]. rewrite firstn_all, drop_ge, app_nil_r by lia.
  cbv [mret io_ret set_fds]. cbn. do 3 f_equal. lia.
Qed.

Lemma save_run has p s st f fd b :
  save_buffer_into_a_file (DmaCfg has n) d (World p s [] [] st f fd b)
    = Ret (DOCA_SUCCESS, World p s [] [] st (Some d) fd b).
Proof.
  unfold save_buffer_into_a_file. cbn [file_size]. rewrite Nat2Z.id, firstn_all. do 3 io_next.
  unfold check. rewrite Z.leb_refl. do 2 io_next. io_next. rewrite Z.eqb_refl.
  cbn [negb take app tail]; change (default [] (Some [])) with (@nil Z). rewrite Nat2Z.id, firstn_all, drop_nil, app_nil_r.
  replace (fd + 1 - 1) with fd by lia. reflexivity.
Qed.

Lemma fill_if has g f p s wr st fd b : length g = length d -> (has = true -> f = Some d) ->
  (if has : bool then fill_buffer_with_file_content (DmaCfg has n) g else mret (DOCA_SUCCESS, g)) (World p s wr [] st f fd b)
    = Ret ((DOCA_SUCCESS, if has then d else g), World p s wr [] st f fd b).
Proof. intros Hg Hf. destruct has; [|done]. rewrite (Hf eq_refl). by apply fill_run. Qed.

Lemma populate_run p s wr st f fd b :
  memory_alloc_and_populate (World p s wr [] st f fd b) = Ret (DOCA_SUCCESS, World p s wr [] st f fd (b + 1)).
Proof. reflexivity. Qed.

Lemma release_run p s wr st f fd b :
  release (World p s wr [] st f fd b) = Ret (DOCA_SUCCESS, World p s wr [] st f (fd - 1) b).
Proof. reflexivity. Qed.

Lemma host_copies in_host g f ps s st fd b ms :
  slow (replicate 4 (status_msg true) ++ ms) ps -> busy s -> length g = length d -> (in_host = true -> f = Some d) ->
  exists ps' s', slow ms ps' /\
    host_copy (DmaCfg in_host n) addr desc g d (World ps s [] [] st f fd b)
      = Ret ((DOCA_SUCCESS, if in_host then d else g),
             World ps' s' [] [] (st ++ [desc; le_bytes 8 (ntohq addr); le_bytes 8 (ntohq n)]) (Some d) fd b).
Proof.
  intros Hp Hs Hg Hf. destruct (host_exports _ _ _ [] st f fd b Hp Hs) as (p1 & s1 & Hp1 & Hs1 & E1).
  destruct (host_sends n _ _ _ [] (st ++ [desc]) f fd b Hp1 Hs1) as (p2 & s2 & Hp2 & Hs2 & E2).
  destruct (wait_slow _ _ s2 [] [] ((st ++ [desc]) ++ [le_bytes 8 (ntohq addr)] ++ [le_bytes 8 (ntohq n)]) f fd b Hp2)
    as (p3 & Hp3 & E3).
  exists p3, s2. split; [done|]. unfold host_copy. cbn [is_file_found_locally file_size].
  io_run E1. io_run (fill_if in_host g f p1 s1 [] (st ++ [desc]) fd b Hg Hf). io_run E2. io_run E3.
  rewrite <-!app_assoc. destruct in_host.
  - by rewrite (Hf eq_refl).
  - by io_run (save_run false p3 s2 (st ++ [desc] ++ [le_bytes 8 (ntohq addr)] ++ [le_bytes 8 (ntohq n)]) f fd b).
Qed.

Lemma host_delivers in_host g f ps s :
  slow (to_host in_host n) ps -> busy s -> length g = length d -> (in_host = true -> f = Some d) ->
  exists ps' s',
    host_start_dma_copy (side_cfg in_host) addr desc g d (World ps s [] [] [] f 2 0)
      = Ret ((DOCA_SUCCESS, if in_host then d else g), World ps' s' [] [] (to_dpu in_host n addr desc) (Some d) 2 0).
Proof using size_ok.
  intros Hp Hs Hg Hf. destruct (host_negotiates in_host _ _ f _ Hp Hs) as (p1 & s1 & Hp1 & Hs1 & E1).
  destruct (host_copies in_host g f p1 s1 [host_direction in_host n] 4 1 [] Hp1 Hs1 Hg Hf) as (p2 & s2 & _ & E2).
  exists p2, s2. unfold host_start_dma_copy. io_run E1. do 3 io_next.
  erewrite run_bind.
  2: { io_run (populate_run p1 s1 [] [host_direction in_host n] f 4 0). io_run E2. unfold free. io_next. reflexivity. }
  cbv beta iota. io_run (release_run p2 s2 [] (to_dpu in_host n addr desc) (Some d) 4 0).
  by io_run (release_run p2 s2 [] (to_dpu in_host n addr desc) (Some d) 3 0).
Qed.

Lemma dpu_negotiates in_host max ps s f fd b ms :
  slow (host_direction in_host n :: ms) ps -> busy s -> n <= max ->
  exists ps' s', slow ms ps' /\ busy s' /\
    dpu_negotiate_dma_direction_and_size (side_cfg (negb in_host)) max (World ps s [] [] [] f fd b)
      = Ret ((DOCA_SUCCESS, DmaCfg (negb in_host) n), World ps' s' [] [] [dpu_direction in_host n] f fd b).
Proof using size_ok.
  intros Hp Hs Hm. destruct (recv_slow 16 _ _ _ s [] [] [] f fd b Hp) as (p1 & Hp1 & E1); [by destruct in_host|].
  destruct (send_msg_busy (dpu_direction in_host n) p1 s [] [] [] f fd b Hs) as (s1 & Hs1 & E2).
  exists p1, s1. split; [done|]. split; [done|]. unfold dpu_negotiate_dma_direction_and_size, side_cfg. io_step. io_run E1.
  destruct in_host; cbn [negb is_file_found_locally file_size andb].
  - change (negb (Z.of_nat (length (host_direction true n)) =? 16)) with false.
    change (negb (load 0 1 (host_direction true n) =? 0)) with true. cbn [negb]. cbv iota zeta.
    unfold host_direction. rewrite (direction_size _ _ size_ok). cbn [file_size]. rewrite (proj2 (Z.ltb_ge _ _)) by done.
    by io_run E2.
  - change (negb (Z.of_nat (length (host_direction false n)) =? 16)) with false.
    change (negb (load 0 1 (host_direction false n) =? 0)) with false. cbv iota zeta. cbn [file_size].
    rewrite (proj2 (Z.ltb_ge _ _)) by done. by io_run E2.
Qed.

Lemma dpu_receives_desc ms ps s st f fd b :
  slow (desc :: ms) ps -> busy s -> Z.of_nat (length desc) <= CC_MAX_MSG_SIZE ->
  exists ps' s', slow ms ps' /\ busy s' /\
    dpu_receive_export_desc (World ps s [] [] st f fd b)
      = Ret ((DOCA_SUCCESS, desc), World ps' s' [] [] (st ++ [status_msg true]) f fd b).
Proof.
  intros Hp Hs Hl. destruct (recv_slow _ _ _ _ s [] [] st f fd b Hp Hl) as (p1 & Hp1 & E1).
  destruct (send_msg_busy (status_msg true) p1 s [] [] st f fd b Hs) as (s1 & Hs1 & E2).
  exists p1, s1. split; [done|]. split; [done|]. unfold dpu_receive_export_desc. io_run E1. by io_run E2.
Qed.

Lemma dpu_receives_addr ms ps s st f fd b :
  slow (le_bytes 8 (ntohq addr) :: le_bytes 8 (ntohq n) :: ms) ps -> busy s ->
  exists ps' s', slow ms ps' /\ busy s' /\
    dpu_receive_addr_and_offset (World ps s [] [] st f fd b)
      = Ret ((DOCA_SUCCESS, addr, n), World ps' s' [] [] (st ++ [status_msg true; status_msg true]) f fd b).
Proof using size_ok addr_ok.
  intros Hp Hs. destruct (u64_slow _ _ _ _ [] [] st f fd b Hp addr_ok Hs) as (p1 & s1 & Hp1 & Hs1 & E1).
  destruct (u64_slow _ _ _ _ [] [] (st ++ [status_msg true]) f fd b Hp1 size_ok Hs1) as (p2 & s2 & Hp2 & Hs2 & E2).
  exists p2, s2. split; [done|]. split; [done|]. unfold dpu_receive_addr_and_offset. io_run E1. io_run E2.
  by rewrite <-app_assoc.
Qed.

Lemma memcpy_all src dst : length src = length d -> length dst = length d -> dma_memcpy n src dst = src.
Proof. intros H1 H2. unfold dma_memcpy. rewrite Nat2Z.id, <-H1, firstn_all, drop_ge, app_nil_r; [done|lia]. Qed.

(** The buffer of the side that has the file holds it; the copy fills the other. *)
Lemma dpu_submits in_host gd gh p s st f fd b :
  length gd = length d -> length gh = length d -> (in_host = false -> f = Some d) ->
  dpu_submit_dma_task (DmaCfg (negb in_host) n) 0 n (if in_host then gd else d) (if in_host then d else gh)
      (World p s [] [] st f fd b)
    = Ret ((DOCA_SUCCESS, d), World p s [] [] st (Some d) fd b).
Proof.
  intros Hd Hh Hf. unfold dpu_submit_dma_task. rewrite drop_0, take_0, app_nil_l. do 5 io_next. destruct in_host; cbn [is_file_found_locally negb].
  - rewrite memcpy_all by done. io_run (save_run false p s st f (fd + 1) b). io_next. by replace (fd + 1 - 1) with fd by lia.
  - rewrite memcpy_all, (Hf eq_refl) by done. io_next. by replace (fd + 1 - 1) with fd by lia.
Qed.

Lemma dpu_copies in_host gd gh p s st f fd b :
  busy s -> length gd = length d -> length gh = length d -> (in_host = false -> f = Some d) ->
  exists s', busy s' /\
    dpu_copy (DmaCfg (negb in_host) n) 0 n gd (if in_host then d else gh) (World p s [] [] st f fd b)
      = Ret ((DOCA_SUCCESS, d), World p s' [] [] (st ++ [status_msg true]) (Some d) fd b).
Proof.
  intros Hs Hd Hh Hf. destruct (send_msg_busy (status_msg true) p s [] [] st (Some d) fd b Hs) as (s1 & Hs1 & E1).
  exists s1. split; [done|]. unfold dpu_copy. cbn [is_file_found_locally].
  assert (negb in_host = true -> f = Some d) as Hf' by (intros H; apply Hf; by destruct in_host).
  io_run (fill_if (negb in_host) gd f p s [] st fd b Hd Hf').
  replace (if negb in_host then d else gd) with (if in_host then gd else d) by (by destruct in_host).
  io_run (dpu_submits in_host gd gh p s st f fd b Hd Hh Hf). by io_run E1.
Qed.

Lemma dpu_buffers_run in_host gd gh p s st f fd b :
  busy s -> length gd = length d -> length gh = length d -> (in_host = false -> f = Some d) ->
  exists s', busy s' /\
    dpu_buffers (DmaCfg (negb in_host) n) addr addr n gd (if in_host then d else gh) (World p s [] [] st f fd b)
      = Ret ((DOCA_SUCCESS, d), World p s' [] [] (st ++ [status_msg true]) (Some d) fd b).
Proof.
  intros Hs Hd Hh Hf. destruct (dpu_copies in_host gd gh p s st f (fd + 1 + 1) b Hs Hd Hh Hf) as (s1 & Hs1 & E).
  exists s1. split; [done|]. unfold dpu_buffers.
  rewrite (Z.ltb_irrefl addr), Z.sub_diag, (proj2 (Z.ltb_ge (addr + _) _)) by (destruct in_host; lia). cbn [orb]. change (Z.to_nat 0) with 0%nat. io_next.
  cbn [file_size]. rewrite Z.ltb_irrefl. io_next.
  erewrite run_bind by (io_run E; io_run (release_run p s1 [] (st ++ [status_msg true]) (Some d) (fd + 1 + 1) b); reflexivity).
  cbv beta. io_run (release_run p s1 [] (st ++ [status_msg true]) (Some d) (fd + 1 + 1 - 1) b).
  by replace (fd + 1 + 1 - 1 - 1) with fd by lia.
Qed.

Lemma dpu_transfer_run in_host gd gh ps s f fd b :
  slow [desc; le_bytes 8 (ntohq addr); le_bytes 8 (ntohq n)] ps -> busy s -> Z.of_nat (length desc) <= CC_MAX_MSG_SIZE ->
  length gd = length d -> length gh = length d -> (in_host = false -> f = Some d) ->
  exists ps' s',
    dpu_transfer (DmaCfg (negb in_host) n) (Export desc addr) gd (if in_host then d else gh)
        (World ps s [] [] [dpu_direction in_host n] f fd b)
      = Ret ((DOCA_SUCCESS, d), World ps' s' [] [] (to_host in_host n) (Some d) fd b).
Proof using size_ok addr_ok.
  intros Hp Hs Hl Hd Hh Hf.
  destruct (dpu_receives_desc _ _ _ [dpu_direction in_host n] f fd b Hp Hs Hl) as (p1 & s1 & Hp1 & Hs1 & E1).
  destruct (dpu_receives_addr _ _ _ ([dpu_direction in_host n] ++ [status_msg true]) f (fd + 1) b Hp1 Hs1)
    as (p2 & s2 & _ & Hs2 & E2).
  destruct (dpu_buffers_run in_host gd gh p2 s2
    (([dpu_direction in_host n] ++ [status_msg true]) ++ [status_msg true; status_msg true]) f (fd + 1) b Hs2 Hd Hh Hf)
    as (s3 & _ & E3).
  exists p2, s3. unfold dpu_transfer. io_run E1. cbn [ex_desc ex_addr].
  rewrite bool_decide_eq_true_2 by done. cbn [negb]. io_next. io_run E2. io_run E3.
  io_run (release_run p2 s3 [] (to_host in_host n) (Some d) (fd + 1) b). by replace (fd + 1 - 1) with fd by lia.
Qed.

Lemma allocate_run p s st f :
  allocate_dma_copy_resources (World p s [] [] st f 3 0) = Ret ((DOCA_SUCCESS, all_live), World p s [] [] st f 9 1).
Proof. reflexivity. Qed.

Lemma destroy_run p s st f :
  destroy_dma_copy_resources all_live (World p s [] [] st f 9 1) = Ret (DOCA_SUCCESS, World p s [] [] st f 3 0).
Proof. reflexivity. Qed.

Lemma dpu_delivers in_host max gd gh f ps s :
  slow (to_dpu in_host n addr desc) ps -> busy s -> n <= max -> Z.of_nat (length desc) <= CC_MAX_MSG_SIZE ->
  length gd = length d -> length gh = length d -> (in_host = false -> f = Some d) ->
  exists ps' s',
    dpu_start_dma_copy (side_cfg (negb in_host)) max (Export desc addr) gd (if in_host then d else gh) (World ps s [] [] [] f 3 0)
      = Ret ((DOCA_SUCCESS, d), World ps' s' [] [] (to_host in_host n) (Some d) 3 0).
Proof using size_ok addr_ok.
  intros Hp Hs Hm Hl Hd Hh Hf.
  destruct (dpu_negotiates in_host max _ _ f 9 1 _ Hp Hs Hm) as (p1 & s1 & Hp1 & Hs1 & E1).
  destruct (dpu_transfer_run in_host gd gh _ _ f 9 2 Hp1 Hs1 Hl Hd Hh Hf) as (p2 & s2 & E2).
  assert (dpu_session (side_cfg (negb in_host)) max (Export desc addr) gd (if in_host then d else gh) (World ps s [] [] [] f 9 1)
    = Ret ((DOCA_SUCCESS, d), World p2 s2 [] [] (to_host in_host n) (Some d) 9 1)) as E3.
  { unfold dpu_session. io_run E1. io_run (populate_run p1 s1 [] [dpu_direction in_host n] f 9 1). io_run E2. reflexivity. }
  exists p2, s2. unfold dpu_start_dma_copy. io_run (allocate_run ps s [] f). io_next.
  erewrite run_bind by (io_next; io_run E3; io_next; reflexivity). cbv beta.
  by io_run (destroy_run p2 s2 (to_host in_host n) (Some d)).
Qed.

Lemma args_run has p s :
  args_validation_callback (DmaCfg false 0) (World p s [] [] [] (if has : bool then Some d else None) 0 0)
    = Ret ((DOCA_SUCCESS, side_cfg has), World p s [] [] [] (if has then Some d else None) 0 0).
Proof. by destruct has. Qed.

Lemma init_run mode p s f :
  init_cc mode (World p s [] [] [] f 0 0) = Ret (DOCA_SUCCESS, World p s [] [] [] f (cc_handles mode) 0).
Proof. by destruct mode. Qed.

Lemma destroy_cc_run peer rep p s st f :
  destroy_cc peer rep (World p s [] [] st f (2 + Z.b2z rep) 0) = Ret (DOCA_SUCCESS, World p s [] [] st f 0 0).
Proof. by destruct peer, rep. Qed.

(** C23: A file is copied in either direction, whatever the delays on the channel and
    whatever the buffers held, when one of the two sides has it, no library call fails,
    the file is within the limit of the DMA engine and the descriptor within that of a
    message: with the messages the host sends the program on the DPU exits with success,
    and with those of the DPU the one on the host does; afterwards both have the file.
    The DPU gets at the host's memory through the descriptor and the address it was
    sent; the library refuses any other. *)
Theorem dma_copy_delivers (in_host : bool) max gh gd sh sd ph pd peerh peerd :
  n <= max -> Z.of_nat (length desc) <= CC_MAX_MSG_SIZE -> length gh = length d -> length gd = length d ->
  busy sh -> busy sd -> slow (to_host in_host n) ph -> slow (to_dpu in_host n addr desc) pd ->
  exists before after wh wd,
    main DMA_COPY_MODE_HOST addr max desc gh after peerh
        (World ph sh [] [] [] (if in_host then Some d else None) 0 0) = Ret ((true, before), wh) /\
    main DMA_COPY_MODE_DPU addr max desc gd before peerd
        (World pd sd [] [] [] (if negb in_host then Some d else None) 0 0) = Ret ((true, after), wd) /\
    sent wh = to_dpu in_host n addr desc /\ sent wd = to_host in_host n /\ file wh = Some d /\ file wd = Some d.
Proof using size_ok addr_ok.
  intros Hm Hl Hh Hd Hsh Hsd Hph Hpd.
  destruct (host_delivers in_host gh (if in_host then Some d else None) ph sh Hph Hsh Hh) as (p1 & s1 & E1); [by intros ->|].
  destruct (dpu_delivers in_host max gd gh (if negb in_host then Some d else None) pd sd Hpd Hsd Hm Hl Hd Hh)
    as (p2 & s2 & E2); [by intros ->|].
  exists (if in_host then d else gh), d. do 2 eexists. split; [|split].
  - unfold main. io_run (args_run in_host ph sh). io_run (init_run DMA_COPY_MODE_HOST ph sh (if in_host then Some d else None)).
    io_run E1. io_run (destroy_cc_run peerh false p1 s1 (to_dpu in_host n addr desc) (Some d)). reflexivity.
  - unfold main. io_run (args_run (negb in_host) pd sd).
    io_run (init_run DMA_COPY_MODE_DPU pd sd (if negb in_host then Some d else None)).
    io_run E2. io_run (destroy_cc_run peerd true p2 s2 (to_host in_host n) (Some d)). reflexivity.
  - done.
Qed.
End Delivery.

(** ** What the two sides do not check *)

(** The length of the copy is the host's number, not the size agreed on: a smaller number
    is accepted, and the rest of the saved file is what the memory held before. *)
Theorem short_offset_saves_garbage addr n k gd remote p s st f fd b :
  0 <= k < n -> Z.of_nat (length remote) = n -> Z.of_nat (length gd) = n -> busy s ->
  exists s',
    dpu_buffers (DmaCfg false n) addr addr k gd remote (World p s [] [] st f fd b)
      = Ret ((DOCA_SUCCESS, remote),
             World p s' [] [] (st ++ [status_msg true]) (Some (take (Z.to_nat k) remote ++ drop (Z.to_nat k) gd)) fd b).
Proof.
  intros Hk Hr Hg Hs. set (d := dma_memcpy k remote gd).
  assert (n = Z.of_nat (length d)) as Hn
    by (unfold d, dma_memcpy; rewrite length_app, length_take, length_drop; lia).
  destruct (send_msg_busy (status_msg true) p s [] [] st (Some d) (fd + 1 + 1) b Hs) as (s1 & _ & E1).
  assert (dpu_submit_dma_task (DmaCfg false n) 0 k gd remote (World p s [] [] st f (fd + 1 + 1) b)
    = Ret ((DOCA_SUCCESS, remote), World p s [] [] st (Some d) (fd + 1 + 1) b)) as E2.
  { unfold dpu_submit_dma_task. rewrite drop_0. do 5 io_next. cbn [is_file_found_locally]. fold d. rewrite Hn.
    io_run (save_run d false p s st f (fd + 1 + 1 + 1) b). io_next. by replace (fd + 1 + 1 + 1 - 1) with (fd + 1 + 1) by lia. }
  assert (dpu_copy (DmaCfg false n) 0 k gd remote (World p s [] [] st f (fd + 1 + 1) b)
    = Ret ((DOCA_SUCCESS, remote), World p s1 [] [] (st ++ [status_msg true]) (Some d) (fd + 1 + 1) b)) as E3.
  { unfold dpu_copy. cbn [is_file_found_locally]. io_step. change (is_ok DOCA_SUCCESS) with true. cbn [negb]. cbv iota. io_run E2. by io_run E1. }
  exists s1. unfold dpu_buffers. rewrite (Z.ltb_irrefl addr), Z.sub_diag, (proj2 (Z.ltb_ge (addr + _) _)) by lia. cbn [orb]. change (Z.to_nat 0) with 0%nat. io_next. cbn [file_size]. rewrite (proj2 (Z.ltb_ge _ _)) by lia. io_next.
  erewrite run_bind by (io_run E3; io_run (release_run p s1 [] (st ++ [status_msg true]) (Some d) (fd + 1 + 1) b); reflexivity).
  cbv beta. io_run (release_run p s1 [] (st ++ [status_msg true]) (Some d) (fd + 1 + 1 - 1) b).
  by replace (fd + 1 + 1 - 1 - 1) with fd by lia.
Qed.

(** The result of destroying the end-point is dropped when nothing has failed before. *)
Theorem lost_destroy_error e dev_rep p s wr st f fd b :
  destroy_cc false dev_rep (World p s wr [e] st f fd b)
    = Ret (DOCA_SUCCESS, World p s wr [] st f (if dev_rep : bool then fd - 1 - 1 - 1 else fd - 1 - 1) b).
Proof. by destruct dev_rep. Qed.

(** A DPU that can not allocate its buffer says nothing to the host, which keeps waiting
    for the status of its export descriptor. *)
Example silent_dpu :
  let d := [1; 2] in
  let w := World (pair DOCA_SUCCESS <$> to_dpu true 2 4096 [7]) [] [] (replicate 16 DOCA_SUCCESS ++ [DOCA_ERROR_NO_MEMORY]) [] None 0 0 in
  exists wd,
    dpu_start_dma_copy (side_cfg d false) 2 (Export [7] 4096) [0; 0] d w = Ret ((DOCA_ERROR_NO_MEMORY, d), wd) /\
    sent wd = [dpu_direction true 2] /\
    forall garbage after,
      host_start_dma_copy (side_cfg d true) 4096 [7] garbage after (World (pair DOCA_SUCCESS <$> sent wd) [] [] [] [] (Some d) 0 0)
        = Undef OutOfFuel.
Proof. eexists. split; [vm_compute; reflexivity|]. split; [vm_compute; reflexivity|]. intros. vm_compute. reflexivity. Qed.

(** ** Examples *)

Lemma slow_at_once ms : slow ms (pair DOCA_SUCCESS <$> ms).
Proof.
  exists 1. induction ms as [|m ms IH]; [constructor|]. by apply (delayed_cons 1 [] m).
Qed.

Definition three_bytes : list Z := [1; 2; 3].

Lemma dma_copy_delivers_witness :
  exists before after wh wd,
    main DMA_COPY_MODE_HOST 4096 100 [7] [0; 0; 0] after true
        (World (pair DOCA_SUCCESS <$> to_host false 3) [] [] [] [] None 0 0) = Ret ((true, before), wh) /\
    main DMA_COPY_MODE_DPU 4096 100 [7] [9; 9; 9] before true
        (World (pair DOCA_SUCCESS <$> to_dpu false 3 4096 [7]) [] [] [] [] (Some three_bytes) 0 0) = Ret ((true, after), wd) /\
    file wh = Some three_bytes /\ file wd = Some three_bytes.
Proof.
  destruct (dma_copy_delivers three_bytes [7] 4096 ltac:(done) ltac:(done) false 100 [0; 0; 0] [9; 9; 9]
    [] [] _ _ true true ltac:(done) ltac:(done) ltac:(done) ltac:(done) ltac:(constructor) ltac:(constructor)
    (slow_at_once _) (slow_at_once _)) as (before & after & wh & wd & E1 & E2 & _ & _ & F1 & F2).
  exists before, after, wh, wd. split; [exact E1|]. split; [exact E2|]. split; [exact F1|exact F2].
Defined.

(** The end-point is destroyed when the device of the channel can not be opened. *)
Lemma dma_copy_releases_witness :
  let w := World [] [] [] (replicate 5 DOCA_SUCCESS ++ [DOCA_ERROR_DRIVER]) [] (Some three_bytes) 0 0 in
  exists r w', main DMA_COPY_MODE_DPU 4096 100 [7] [0; 0; 0] [0; 0; 0] false w = Ret (r, w') /\ fds w' = 0 /\ blocks w' = 0.
Proof.
  intros w. destruct (main DMA_COPY_MODE_DPU 4096 100 [7] [0; 0; 0] [0; 0; 0] false w) as [[r w']|] eqn:E; [|discriminate E].
  exists r, w'. split; [done|].
  destruct (args_validation_callback (DmaCfg false 0) w) as [[[e cfg] w1]|] eqn:Ea; [|discriminate Ea].
  apply (dma_copy_releases DMA_COPY_MODE_DPU 4096 100 [7] [0; 0; 0] [0; 0; 0] false w e cfg w1 r w' Ea); [|exact E].
  right. vm_compute in Ea. by injection Ea as <- <- <-.
Defined.
