(* ===== verification/DpaKernel.v ===== *)
(** * DPA all-to-all: the kernel on all ranks

    applications/dpa_all_to_all/device/dpa_all_to_all_dev.c, as launched by
    [dpa_ialltoall] of host/dpa_all_to_all_core.c: every rank runs its kernel on up to
    eight threads, which post RDMA writes to the receive buffers of the other ranks,
    signal them, and wait for their signals.

    A thread is a program counter that makes one device call per step.  The threads of all
    ranks and the network take their steps in any order.  An RDMA connection executes the
    operations posted to it in order; [rdma_handles[i]] of rank [r] leads to rank [i], and
    [remote_events[i]] is the event that rank [i] keeps for rank [r], as the set-up
    connects them. *)
From stdpp Require Import relations.
From S2P Require Import Prelude.

Definition MAX_NUM_THREADS : Z := 8.
Definition MAX_NUM_PROC : Z := 16.
Definition MESSAGE_SIZE_DEFAULT_LEN : Z := -1.
Definition SYNC_EVENT_MASK_FFS : Z := 18446744073709551615.

(** ** The kernel *)

(** What a launch gives to the kernels: the arguments that all ranks share, and the
    addresses of the buffers of each rank. *)
Record launch : Type := Launch {
  num_ranks : Z; num_threads : Z; count : Z; type_length : Z; a2a_seq_num : Z;
  sendbufs : Z -> Z; recvbufs : Z -> Z
}.

(** An operation posted to an RDMA connection. *)
Inductive rdma_op : Type :=
| RdmaWrite (remote_addr local_addr length : Z)
| RdmaSignalSet (value : Z).

(** The next device call of a thread. *)
Inductive pc : Type :=
| PostWrite (i : Z)     (** the head of the first loop *)
| SignalSet (i : Z)
| WaitGt (i : Z)        (** the head of the second loop *)
| Synchronize (i : Z)
| Returned.

(** One device call of thread [thread_rank] of rank [my_rank]: the next program counter
    and the operation it posts to a connection.  [None]: the call blocks. *)
Definition alltoall_kernel (a : launch) (my_rank thread_rank : Z)
    (local_events : Z -> Z) (rdma_handles : Z -> list rdma_op) (p : pc)
    : option (pc * option (Z * rdma_op)) :=
  match p with
  | PostWrite i =>
      if i <? num_ranks a then
        Some (SignalSet i,
              Some (i, RdmaWrite (u64 (recvbufs a i + u64 (u64 (my_rank * count a) * type_length a)))
                                 (u64 (sendbufs a my_rank + u64 (u64 (i * count a) * type_length a)))
                                 (u64 (type_length a * count a))))
      else Some (WaitGt thread_rank, None)
  | SignalSet i => Some (PostWrite (u32 (i + num_threads a)), Some (i, RdmaSignalSet (a2a_seq_num a)))
  | WaitGt i =>
      if i <? num_ranks a then
        if u64 (a2a_seq_num a - 1) <? Z.land (local_events i) SYNC_EVENT_MASK_FFS
        then Some (Synchronize i, None) else None
      else Some (Returned, None)
  | Synchronize i =>
      match rdma_handles i with
      | [] => Some (WaitGt (u32 (i + num_threads a)), None)
      | _ :: _ => None
      end
  | Returned => None
  end.

(** ** The system *)

Record sys : Type := Sys {
  threads : Z -> Z -> pc;            (** rank, thread *)
  handles : Z -> Z -> list rdma_op;  (** rank, remote rank: operations not yet executed *)
  events : Z -> Z -> Z;              (** rank, remote rank: [local_events] *)
  recv : Z -> list Z                 (** rank: content of the receive buffer *)
}.

Definition upd {A} (r t : Z) (x : A) (f : Z -> Z -> A) : Z -> Z -> A :=
  fun r' t' => if bool_decide (r' = r /\ t' = t) then x else f r' t'.

Definition post (r : Z) (o : option (Z * rdma_op)) (h : Z -> Z -> list rdma_op) : Z -> Z -> list rdma_op :=
  match o with
  | Some (i, x) => upd r i (h r i ++ [x]) h
  | None => h
  end.

(** The bytes [data] over those of [old] at [off]. *)
Definition overwrite (off : nat) (data old : list Z) : list Z :=
  take off old ++ data ++ drop (off + length data) old.

(** The connection from [r] to [i] executes [x]; [send] is the content of the send
    buffers.  A range outside the memory maps is an error of the connection. *)
Definition execute (a : launch) (send : Z -> list Z) (r i : Z) (x : rdma_op) (s : sys) : outcome sys :=
  match x with
  | RdmaWrite dst src len =>
      let* _ := require ((sendbufs a r <=? src) && (src + len <=? sendbufs a r + Z.of_nat (length (send r)))) OutOfBounds in
      let* _ := require ((recvbufs a i <=? dst) && (dst + len <=? recvbufs a i + Z.of_nat (length (recv s i)))) OutOfBounds in
      let data := take (Z.to_nat len) (drop (Z.to_nat (src - sendbufs a r)) (send r)) in
      let new := overwrite (Z.to_nat (dst - recvbufs a i)) data (recv s i) in
      Ret (Sys (threads s) (handles s) (events s) (fun j => if bool_decide (j = i) then new else recv s j))
  | RdmaSignalSet v => Ret (Sys (threads s) (handles s) (upd i r v (events s)) (recv s))
  end.

Definition rank_ok (a : launch) (r : Z) : Prop := 0 <= r < num_ranks a.
Definition thread_ok (a : launch) (t : Z) : Prop := 0 <= t < num_threads a.

Inductive step (a : launch) (send : Z -> list Z) (s : sys) : sys -> Prop :=
| step_thread r t p o :
    rank_ok a r -> thread_ok a t ->
    alltoall_kernel a r t (events s r) (handles s r) (threads s r t) = Some (p, o) ->
    step a send s (Sys (upd r t p (threads s)) (post r o (handles s)) (events s) (recv s))
| step_network r i x q s' :
    rank_ok a r -> rank_ok a i -> handles s r i = x :: q ->
    execute a send r i x (Sys (threads s) (upd r i q (handles s)) (events s) (recv s)) = Ret s' ->
    step a send s s'.

(** ** The host's side of a launch *)

(** [num_threads] of [dpa_ialltoall]. *)
Definition launch_threads (num_ranks : Z) : Z := if num_ranks <? MAX_NUM_THREADS then num_ranks else MAX_NUM_THREADS.

(** The sizes of [dpa_a2a]: [msg_count] and [buff_size], the elements of a message to one
    rank and of a buffer. *)
Definition dpa_a2a_sizes (num_ranks msgsize : Z) : res (Z * Z) :=
  if MAX_NUM_PROC <? num_ranks then Err DOCA_ERROR_INVALID_VALUE
  else
  let msg_size := if msgsize =? MESSAGE_SIZE_DEFAULT_LEN then num_ranks * 4 else u64 msgsize in
  let msg_count := msg_size / num_ranks / 4 in
  if msg_count =? 0 then Err DOCA_ERROR_INVALID_VALUE
  else Ok (msg_count, msg_size / 4).

(** The state when the kernels start. *)
Definition launched (a : launch) (ev : Z -> Z -> Z) (rcv : Z -> list Z) : sys :=
  Sys (fun _ t => PostWrite t) (fun _ _ => []) ev rcv.

(** ** Specification *)

(** The part of a buffer that is for, or from, rank [j]. *)
Definition block_size (a : launch) : nat := Z.to_nat (count a * type_length a).
Definition block (a : launch) (j : Z) (l : list Z) : list Z :=
  take (block_size a) (drop (Z.to_nat j * block_size a) l).

Definition ranks (a : launch) : list Z := seqZ 0 (num_ranks a).

(** What rank [r] has to receive: block [r] of every rank, in the order of the ranks. *)
Definition exchanged (a : launch) (send : Z -> list Z) (r : Z) : list Z :=
  mjoin ((fun j => block a r (send j)) <$> ranks a).

Lemma upd_eq {A} r t (x : A) f : upd r t x f r t = x.
Proof. unfold upd. by rewrite bool_decide_eq_true_2. Qed.
Lemma upd_ne {A} r t (x : A) f r' t' : ~ (r' = r /\ t' = t) -> upd r t x f r' t' = f r' t'.
Proof. intros H. unfold upd. by rewrite bool_decide_eq_false_2. Qed.

(** ** Sums *)

Definition sumZ (f : Z -> Z) (l : list Z) : Z := foldr (fun x n => f x + n) 0 l.
Definition sum2 (f : Z -> Z -> Z) (l1 l2 : list Z) : Z := sumZ (fun x => sumZ (f x) l2) l1.

Lemma sumZ_cons f x l : sumZ f (x :: l) = f x + sumZ f l.
Proof. done. Qed.

Lemma sumZ_ext f g l : (forall x, x ∈ l -> f x = g x) -> sumZ f l = sumZ g l.
Proof.
  induction l as [|x l IH]; intros H; [done|]. rewrite !sumZ_cons, (H x) by left. f_equal. apply IH. intros y Hy. apply H. by right.
Qed.

Lemma sumZ_le f l c : (forall x, x ∈ l -> 0 <= f x <= c) -> 0 <= sumZ f l <= Z.of_nat (length l) * c.
Proof.
  induction l as [|x l IH]; intros H; [done|]. pose proof (H x ltac:(left)).
  specialize (IH (fun y Hy => H y (list_elem_of_further _ _ _ Hy))). cbn [length]. rewrite Nat2Z.inj_succ, Z.mul_succ_l, sumZ_cons. lia.
Qed.

Lemma sumZ_nonneg f l : (forall x, x ∈ l -> 0 <= f x) -> 0 <= sumZ f l.
Proof.
  induction l as [|x l IH]; intros H; [done|]. rewrite sumZ_cons. pose proof (H x ltac:(left)).
  specialize (IH (fun y Hy => H y (list_elem_of_further _ _ _ Hy))). lia.
Qed.

(** Changing one term. *)
Lemma sumZ_change f g l x : NoDup l -> x ∈ l -> (forall y, y <> x -> g y = f y) -> sumZ g l = sumZ f l - f x + g x.
Proof.
  induction 1 as [|y l Hy Hnd IH]; intros Hx H; [by apply elem_of_nil in Hx|].
  apply elem_of_cons in Hx as [->|Hx]; rewrite !sumZ_cons.
  - rewrite (sumZ_ext g f) by (intros z Hz; apply H; by intros ->). lia.
  - rewrite IH, (H y) by (try done; by intros ->). lia.
Qed.

Lemma sum2_change f g l1 l2 x y : NoDup l1 -> NoDup l2 -> x ∈ l1 -> y ∈ l2 ->
  (forall x' y', ~ (x' = x /\ y' = y) -> g x' y' = f x' y') -> sum2 g l1 l2 = sum2 f l1 l2 - f x y + g x y.
Proof.
  intros H1 H2 Hx Hy H. unfold sum2. rewrite (sumZ_change (fun x => sumZ (f x) l2) _ l1 x) by
    (try done; intros z Hz; apply sumZ_ext; intros w _; apply H; intros [-> _]; done).
  rewrite (sumZ_change (f x) (g x) l2 y) by (try done; intros w Hw; apply H; intros [_ ->]; done). lia.
Qed.

Lemma sum2_le f l1 l2 c : (forall x y, x ∈ l1 -> y ∈ l2 -> 0 <= f x y <= c) ->
  0 <= sum2 f l1 l2 <= Z.of_nat (length l1) * (Z.of_nat (length l2) * c).
Proof. intros H. apply sumZ_le. intros x Hx. apply sumZ_le. intros y Hy. by apply H. Qed.

(** ** Buffers *)

Lemma length_overwrite off data old :
  (off + length data <= length old)%nat -> length (overwrite off data old) = length old.
Proof. intros H. unfold overwrite. rewrite !length_app, length_take, length_drop. lia. Qed.

Lemma lookup_overwrite off data old i : (off + length data <= length old)%nat ->
  overwrite off data old !! i
    = if decide (off <= i < off + length data)%nat then data !! (i - off)%nat else old !! i.
Proof.
  intros H. unfold overwrite. case_decide as Hi.
  - rewrite lookup_app_r, length_take, Nat.min_l, lookup_app_l; [done|rewrite ?length_take; lia..].
  - destruct (decide (i < off)%nat) as [Hl|Hl].
    + rewrite lookup_app_l, lookup_take_lt; [done|lia|rewrite length_take; lia].
    + rewrite !lookup_app_r, lookup_drop, length_take by (rewrite ?length_take; lia). f_equal. lia.
Qed.

Lemma length_block a j l :
  (Z.to_nat j * block_size a + block_size a <= length l)%nat -> length (block a j l) = block_size a.
Proof. intros H. unfold block. rewrite length_take, length_drop. lia. Qed.

Lemma block_overwrite a j k data old :
  0 <= j -> 0 <= k -> length data = block_size a ->
  (Z.to_nat j * block_size a + block_size a <= length old)%nat ->
  block a k (overwrite (Z.to_nat j * block_size a) data old) = if decide (k = j) then data else block a k old.
Proof.
  intros Hj Hk Hd Hl. apply list_eq. intros i. unfold block at 1. destruct (decide (i < block_size a)%nat) as [Hi|Hi].
  - rewrite lookup_take_lt, lookup_drop, lookup_overwrite by lia. rewrite Hd. case_decide as Hin; case_decide as Hkj.
    + subst k. f_equal. lia.
    + exfalso. apply Hkj. assert (Z.to_nat k = Z.to_nat j) by nia. lia.
    + exfalso. subst k. lia.
    + unfold block. by rewrite lookup_take_lt, lookup_drop.
  - rewrite lookup_take_ge by lia. symmetry. apply lookup_ge_None. case_decide; [lia|].
    unfold block. rewrite length_take. lia.
Qed.

Lemma drop_overwrite off data old m : (off + length data <= m)%nat -> (off + length data <= length old)%nat ->
  drop m (overwrite off data old) = drop m old.
Proof.
  intros Hm Hl. apply list_eq. intros i. rewrite !lookup_drop, lookup_overwrite by done. case_decide; [lia|done].
Qed.

(** A buffer is its blocks and what is behind them. *)
Lemma blocks_prefix a l : forall n, (n * block_size a <= length l)%nat ->
  mjoin ((fun j => block a j l) <$> seqZ 0 (Z.of_nat n)) = take (n * block_size a) l.
Proof.
  induction n as [|n IH]; intros H; [done|].
  rewrite Nat2Z.inj_succ, <-Z.add_1_r, seqZ_app, fmap_app, join_app by lia. rewrite IH by lia.
  rewrite seqZ_cons, seqZ_nil by lia. cbn [fmap list_fmap mjoin list_join].
  rewrite app_nil_r. unfold block. replace (Z.to_nat (0 + Z.of_nat n)) with n by lia.
  rewrite take_take_drop. f_equal. lia.
Qed.

Lemma buffer_blocks a l : 0 <= num_ranks a -> (Z.to_nat (num_ranks a) * block_size a <= length l)%nat ->
  l = mjoin ((fun j => block a j l) <$> ranks a) ++ drop (Z.to_nat (num_ranks a) * block_size a) l.
Proof.
  intros Hn H. unfold ranks. rewrite <-(Z2Nat.id (num_ranks a)) at 1 by done.
  rewrite blocks_prefix by done. by rewrite take_drop.
Qed.

(** ** Invariant of a round *)

(** The arguments fit their types and the buffers the address space. *)
Record launch_ok (a : launch) : Prop := {
  ranks_pos : 0 < num_ranks a;
  threads_pos : 0 < num_threads a;
  ranks_width : num_ranks a + num_threads a <= 2 ^ 32;
  count_pos : 0 <= count a;
  type_pos : 0 <= type_length a;
  seq_range : 0 < a2a_seq_num a < 2 ^ 64;
  send_range r : rank_ok a r -> 0 <= sendbufs a r /\ sendbufs a r + num_ranks a * (count a * type_length a) < 2 ^ 64;
  recv_range r : rank_ok a r -> 0 <= recvbufs a r /\ recvbufs a r + num_ranks a * (count a * type_length a) < 2 ^ 64
}.

Definition total (a : launch) : nat := Z.to_nat (num_ranks a) * block_size a.

Section Round.
Context (a : launch) (send rcv0 : Z -> list Z).
Hypothesis ok : launch_ok a.
Hypothesis send_ok : forall r, rank_ok a r -> (total a <= length (send r))%nat.
Hypothesis recv_ok : forall r, rank_ok a r -> (total a <= length (rcv0 r))%nat.

#[local] Abbreviation N := (num_ranks a).
#[local] Abbreviation T := (num_threads a).
#[local] Abbreviation seq := (a2a_seq_num a).
#[local] Abbreviation bytes := (count a * type_length a).

(** The two operations of rank [r] for rank [i]. *)
Definition write_op (r i : Z) : rdma_op := RdmaWrite (recvbufs a i + r * bytes) (sendbufs a r + i * bytes) bytes.
Definition ops (r i : Z) : list rdma_op := [write_op r i; RdmaSignalSet seq].

(** How many of them a thread at [p] has posted. *)
Definition posted (p : pc) (i : Z) : nat :=
  match p with
  | PostWrite k => if i <? k then 2 else 0
  | SignalSet k => if i <? k then 2 else if i =? k then 1 else 0
  | _ => 2
  end.

(** Whether it has the signal of rank [i], and has synchronized the connection. *)
Definition waited (p : pc) (i : Z) : bool :=
  match p with
  | WaitGt k => i <? k
  | Synchronize k => i <=? k
  | Returned => true
  | _ => false
  end.
Definition synced (p : pc) (i : Z) : bool :=
  match p with
  | WaitGt k | Synchronize k => i <? k
  | Returned => true
  | _ => false
  end.

Definition pc_ok (t : Z) (p : pc) : Prop :=
  match p with
  | PostWrite k | WaitGt k => 0 <= k < N + T /\ k mod T = t
  | SignalSet k | Synchronize k => 0 <= k < N /\ k mod T = t
  | Returned => True
  end.

(** The thread of a rank that serves rank [i]. *)
Definition server (s : sys) (r i : Z) : pc := threads s r (i mod T).

(** The connection from [r] to [i]: [k] of the posted operations are executed. *)
Definition pair_ok (s : sys) (r i : Z) : Prop :=
  exists k, (k <= posted (server s r i) i)%nat /\
    handles s r i = drop k (take (posted (server s r i) i) (ops r i)) /\
    ((1 <= k)%nat -> block a r (recv s i) = block a i (send r)) /\
    events s i r = (if bool_decide (k = 2%nat) then seq else seq - 1) /\
    (waited (server s r i) i = true -> events s r i = seq) /\
    (synced (server s r i) i = true -> handles s r i = []).

Record inv (s : sys) : Prop := {
  inv_pc r t : rank_ok a r -> thread_ok a t -> pc_ok t (threads s r t);
  inv_pair r i : rank_ok a r -> rank_ok a i -> pair_ok s r i;
  inv_length r : rank_ok a r -> length (recv s r) = length (rcv0 r);
  inv_tail r : rank_ok a r -> drop (total a) (recv s r) = drop (total a) (rcv0 r)
}.

Lemma mod_thread i : thread_ok a (i mod T).
Proof using ok. apply Z.mod_pos_bound. apply ok. Qed.

Lemma small_product x : 0 <= x <= N -> 0 <= x * bytes <= N * bytes.
Proof using ok.
  intros H. assert (0 <= bytes) by (apply Z.mul_nonneg_nonneg; apply ok).
  split; [apply Z.mul_nonneg_nonneg|apply Z.mul_le_mono_nonneg_r]; lia.
Qed.

Lemma post_write r i : rank_ok a r -> rank_ok a i ->
  RdmaWrite (u64 (recvbufs a i + u64 (u64 (r * count a) * type_length a)))
            (u64 (sendbufs a r + u64 (u64 (i * count a) * type_length a))) (u64 (type_length a * count a))
  = write_op r i.
Proof using ok.
  intros Hr Hi. unfold rank_ok in *. pose proof (small_product r ltac:(lia)). pose proof (small_product i ltac:(lia)).
  pose proof (small_product 1 ltac:(lia)).
  pose proof (send_range a ok r Hr). pose proof (recv_range a ok i Hi).
  pose proof (send_range a ok i Hi).
  assert (forall x, u64 (u64 (x * count a) * type_length a) = u64 (x * bytes)) as E.
  { intros x. unfold uwrap. rewrite Z.mul_mod_idemp_l by lia. f_equal. lia. }
  unfold write_op. rewrite !E. f_equal.
  - rewrite (uwrap_id 64 (r * bytes)) by (unfold in_width; lia). apply uwrap_id. unfold in_width. lia.
  - rewrite (uwrap_id 64 (i * bytes)) by (unfold in_width; lia). apply uwrap_id. unfold in_width. lia.
  - rewrite (Z.mul_comm (type_length a)). apply uwrap_id. unfold in_width. lia.
Qed.

Lemma next_index k t : 0 <= k < N -> k mod T = t -> u32 (k + T) = k + T /\ 0 <= k + T < N + T /\ (k + T) mod T = t.
Proof using ok.
  intros Hk Ht. pose proof (threads_pos a ok). pose proof (ranks_width a ok). split; [|split; [lia|]].
  - apply uwrap_id. unfold in_width. lia.
  - rewrite <-(Z.mul_1_l T) at 1. rewrite Z.mod_add by lia. done.
Qed.

(** Two indices of one thread with no third between them. *)
Lemma same_thread i k : i mod T = k mod T -> k <= i < k + T -> i = k.
Proof using ok.
  intros E H. pose proof (Zminus_mod i k T) as M. rewrite E, Z.sub_diag, Z.mod_0_l in M by lia.
  rewrite Z.mod_small in M by lia. lia.
Qed.

(** The start of a round. *)
Lemma inv_launched ev : (forall r i, rank_ok a r -> rank_ok a i -> ev r i = seq - 1) -> inv (launched a ev rcv0).
Proof using ok.
  intros Hev. pose proof (threads_pos a ok). split; [| |done|done].
  - intros r t Hr Ht. cbn. unfold thread_ok in Ht. split; [pose proof (ranks_pos a ok); lia|by apply Z.mod_small].
  - intros r i Hr Hi. exists 0%nat. unfold server. cbn.
    rewrite (proj2 (Z.ltb_ge _ _)) by (apply Z.mod_le; unfold rank_ok in Hi; lia). cbn.
    split; [lia|]. split; [done|]. split; [lia|]. by rewrite Hev.
Qed.

(** A step of a thread: what it does to the connections that the thread serves. *)
Lemma thread_pair s r t p o i :
  inv s -> rank_ok a r -> thread_ok a t -> rank_ok a i -> i mod T = t ->
  alltoall_kernel a r t (events s r) (handles s r) (threads s r t) = Some (p, o) ->
  pair_ok (Sys (upd r t p (threads s)) (post r o (handles s)) (events s) (recv s)) r i.
Proof using ok.
  intros I Hr Ht Hi Hm E. destruct (inv_pair s I r i Hr Hi) as (k & Hk & Hh & Hb & Hev & Hw & Hs).
  pose proof (inv_pc s I r t Hr Ht) as Hp. unfold server in *. rewrite Hm in *.
  unfold pair_ok, server. cbn [threads handles events recv]. rewrite Hm, upd_eq.
  unfold rank_ok in Hi. pose proof (threads_pos a ok).
  destruct (threads s r t) as [j|j|j|j|] eqn:Ep; cbn [alltoall_kernel] in E; cbn [pc_ok] in Hp;
    cbn [posted waited synced] in *.
  - case_if_in E; injection E as <- <-; cbn [posted waited synced].
    + rewrite post_write by (unfold rank_ok in *; lia). cbn [post]. destruct (decide (i = j)) as [->|Hij].
      * rewrite Z.ltb_irrefl in *. rewrite Z.eqb_refl. rewrite upd_eq, Hh. assert (k = 0%nat) as -> by lia.
        exists 0%nat. by split; [lia|].
      * rewrite upd_ne by lia. exists k. rewrite (proj2 (Z.eqb_neq i j)) by lia. by destruct (i <? j).
    + exists k. rewrite (proj2 (Z.ltb_lt i j)) in * by lia. cbn [post].
      rewrite (proj2 (Z.ltb_ge i t)) by (rewrite <-Hm; apply Z.mod_le; lia). done.
  - injection E as <- <-. destruct (next_index j t) as (-> & _ & _); [lia..|]. cbn [posted waited synced post].
    destruct (decide (i = j)) as [->|Hij].
    + rewrite Z.ltb_irrefl, Z.eqb_refl in *. rewrite (proj2 (Z.ltb_lt j (j + T))) by lia. rewrite upd_eq, Hh.
      exists k. split; [lia|]. split; [|done]. destruct k as [|[|k]]; [done|done|lia].
    + rewrite upd_ne by lia. exists k. rewrite (proj2 (Z.eqb_neq i j)) in * by lia.
      replace (i <? j + T) with (i <? j); [done|]. destruct (i <? j) eqn:L; symmetry; [apply Z.ltb_lt; lia|].
      apply Z.ltb_ge. destruct (decide (j + T <= i)); [done|]. exfalso. apply Hij, same_thread; lia.
  - case_if_in E; [case_if_in E; [|done]|]; injection E as <- <-; cbn [posted waited synced post]; exists k.
    + do 4 (split; [done|]). split; [|done]. intros L. destruct (decide (i = j)) as [->|Hij]; [|apply Hw; lia].
      destruct (inv_pair s I j r) as (k' & _ & _ & _ & Hev' & _); [done..|]. rewrite Hev' in *.
      case_bool_decide; [done|]. exfalso. pose proof (seq_range a ok).
      rewrite (uwrap_id 64 (seq - 1)) in * by (unfold in_width; lia).
      change SYNC_EVENT_MASK_FFS with (Z.ones 64) in *. rewrite Z.land_ones, Z.mod_small in * by lia. lia.
    + do 4 (split; [done|]). split; intros _; [apply Hw|apply Hs]; lia.
  - destruct (handles s r j) as [|x q] eqn:Eh; [|done]. injection E as <- <-.
    destruct (next_index j t) as (-> & _ & _); [lia..|]. cbn [posted waited synced post]. exists k.
    assert (i < j + T -> i <= j) as Hle.
    { intros L. destruct (decide (i <= j)); [done|]. pose proof (same_thread i j ltac:(lia)). lia. }
    do 4 (split; [done|]). split; intros L; apply Z.ltb_lt in L.
    + apply Hw. lia.
    + destruct (decide (i = j)) as [->|]; [done|]. apply Hs. lia.
  - done.
Qed.

(** A step keeps the program counter well-formed, and posts only to connections the
    thread serves. *)
Lemma kernel_pc s r t p o : inv s -> rank_ok a r -> thread_ok a t ->
  alltoall_kernel a r t (events s r) (handles s r) (threads s r t) = Some (p, o) ->
  pc_ok t p /\ forall i x, o = Some (i, x) -> i mod T = t.
Proof using ok.
  intros I Hr Ht E. pose proof (inv_pc s I r t Hr Ht) as Hp. pose proof (threads_pos a ok). pose proof (ranks_pos a ok).
  unfold thread_ok in Ht.
  destruct (threads s r t) as [j|j|j|j|]; cbn [alltoall_kernel] in E; cbn [pc_ok] in Hp.
  - case_if_in E; injection E as <- <-; cbn [pc_ok].
    + split; [split; [lia|apply Hp]|]. intros i x [= <- _]. apply Hp.
    + split; [|done]. split; [lia|]. by apply Z.mod_small.
  - injection E as <- <-. destruct (next_index j t) as (-> & H1 & H2); [lia..|]. split; [done|].
    intros i x [= <- _]. apply Hp.
  - case_if_in E; [case_if_in E; [|done]|]; injection E as <- <-; (split; [|done]); [|done]. split; [lia|apply Hp].
  - destruct (handles s r j); [|done]. injection E as <- <-. destruct (next_index j t) as (-> & H1 & H2); [lia..|]. done.
  - done.
Qed.

Lemma thread_inv s r t p o : inv s -> rank_ok a r -> thread_ok a t ->
  alltoall_kernel a r t (events s r) (handles s r) (threads s r t) = Some (p, o) ->
  inv (Sys (upd r t p (threads s)) (post r o (handles s)) (events s) (recv s)).
Proof using ok.
  intros I Hr Ht E. destruct (kernel_pc s r t p o I Hr Ht E) as [Hp Ho]. split; [| |apply I|apply I].
  - intros r' t' Hr' Ht'. cbn [threads]. unfold upd. case_bool_decide as C; [by destruct C as [-> ->]|by apply I].
  - intros r' i Hr' Hi. destruct (decide (r' = r /\ i mod T = t)) as [[-> Hm]|Hne]; [by apply thread_pair|].
    pose proof (inv_pair s I r' i Hr' Hi) as Hpair. unfold pair_ok, server in *. cbn [threads handles events recv].
    rewrite upd_ne by done.
    replace (post r o (handles s) r' i) with (handles s r' i); [done|]. destruct o as [[j x]|]; [|done].
    cbn [post]. rewrite upd_ne; [done|]. intros [-> ->]. apply Hne. split; [done|]. by apply (Ho j x).
Qed.

(** Executing a write: it is in bounds and fills the sender's block. *)
Lemma execute_write s r i : rank_ok a r -> rank_ok a i -> (total a <= length (recv s i))%nat ->
  execute a send r i (write_op r i) s
    = Ret (Sys (threads s) (handles s) (events s) (fun j => if bool_decide (j = i)
           then overwrite (Z.to_nat r * block_size a) (block a i (send r)) (recv s i) else recv s j)).
Proof using ok send_ok.
  intros Hr Hi Hl. pose proof (send_ok r Hr) as Hs. unfold total, block_size, rank_ok in *.
  pose proof (small_product r ltac:(lia)). pose proof (small_product i ltac:(lia)). pose proof (small_product 1 ltac:(lia)).
  assert (forall x, 0 <= x < N -> x * bytes + bytes <= N * bytes) as Hx.
  { intros x Hx. pose proof (small_product (x + 1) ltac:(lia)). lia. }
  assert (forall x, 0 <= x -> Z.to_nat (x * bytes) = (Z.to_nat x * Z.to_nat bytes)%nat) as Hz by (intros; apply Z2Nat.inj_mul; lia).
  assert (Z.to_nat (N * bytes) = (Z.to_nat N * Z.to_nat bytes)%nat) as HN by (apply Hz; lia).
  pose proof (Hx r Hr). pose proof (Hx i Hi).
  unfold execute, write_op. rewrite !(proj2 (Z.leb_le _ _)) by lia. cbn [andb require].
  unfold block, block_size. replace (recvbufs a i + r * bytes - recvbufs a i) with (r * bytes) by lia.
  replace (sendbufs a r + i * bytes - sendbufs a r) with (i * bytes) by lia. by rewrite !Hz by lia.
Qed.

Lemma block_range r (l : list Z) : rank_ok a r -> (total a <= length l)%nat ->
  (Z.to_nat r * block_size a + block_size a <= length l)%nat.
Proof using ok. unfold total, rank_ok. intros Hr Hl. assert (Z.to_nat r < Z.to_nat N)%nat by lia. nia. Qed.

Lemma write_inv s r i q : inv s -> rank_ok a r -> rank_ok a i -> handles s r i = write_op r i :: q ->
  inv (Sys (threads s) (upd r i q (handles s)) (events s) (fun j => if bool_decide (j = i)
           then overwrite (Z.to_nat r * block_size a) (block a i (send r)) (recv s i) else recv s j)).
Proof using ok send_ok recv_ok.
  intros I Hr Hi Eh. pose proof (send_ok r Hr) as Hs. pose proof (recv_ok i Hi) as Hl. rewrite <-(inv_length s I i Hi) in Hl.
  pose proof (block_range i (send r) Hi Hs) as Hsi. pose proof (block_range r (recv s i) Hr Hl) as Hri.
  pose proof (length_block a i (send r) Hsi) as Hlb.
  split.
  - apply I.
  - intros r' i' Hr' Hi'. destruct (inv_pair s I r' i' Hr' Hi') as (k & Hk & Hh & Hb & Hev & Hw & Hsy).
    unfold pair_ok, server in *. cbn [threads handles events recv].
    destruct (decide (r' = r /\ i' = i)) as [[-> ->]|Hne].
    + rewrite upd_eq, bool_decide_eq_true_2 by done. rewrite Eh in Hh, Hsy.
      assert (k = 0%nat) as ->.
      { destruct (posted _ _) as [|[|[|m]]], k as [|[|[|k]]]; cbn in Hh; try done; try lia; injection Hh; discriminate. }
      exists 1%nat. split; [destruct (posted _ _); [discriminate Hh|lia]|].
      split; [destruct (posted _ _) as [|m]; [discriminate Hh|by injection Hh as ->]|].
      split; [intros _; rewrite block_overwrite by (unfold rank_ok in *; lia); by rewrite decide_True|].
      split; [done|]. split; [done|]. intros C. by apply Hsy in C.
    + rewrite upd_ne by done. exists k. split; [done|]. split; [done|]. split; [|done].
      intros K. specialize (Hb K). clear Hev. case_bool_decide as C; [|done]. subst i'.
      rewrite block_overwrite by (unfold rank_ok in *; lia). rewrite decide_False; [done|]. intros ->. by apply Hne.
  - intros j Hj. cbn [recv]. case_bool_decide; [subst j|by apply I]. rewrite length_overwrite by lia. by apply I.
  - intros j Hj. cbn [recv]. case_bool_decide; [subst j|by apply I].
    rewrite drop_overwrite; [by apply I| |lia]. rewrite Hlb. unfold total, rank_ok in *.
    assert (Z.to_nat r < Z.to_nat N)%nat by lia. nia.
Qed.

Lemma signal_inv s r i q : inv s -> rank_ok a r -> rank_ok a i -> handles s r i = RdmaSignalSet seq :: q ->
  inv (Sys (threads s) (upd r i q (handles s)) (upd i r seq (events s)) (recv s)).
Proof using ok.
  intros I Hr Hi Eh. split; [apply I| |apply I|apply I].
  intros r' i' Hr' Hi'. destruct (inv_pair s I r' i' Hr' Hi') as (k & Hk & Hh & Hb & Hev & Hw & Hsy).
  unfold pair_ok, server in *. cbn [threads handles events recv].
  destruct (decide (r' = r /\ i' = i)) as [[-> ->]|Hne].
  - rewrite !upd_eq. rewrite Eh in Hh, Hsy.
    assert (k = 1%nat /\ posted (threads s r (i mod T)) i = 2%nat) as [-> Hp].
    { assert (posted (threads s r (i mod T)) i <= 2)%nat as Hle by (unfold posted; repeat case_match; lia).
      destruct (posted _ _) as [|[|[|m]]], k as [|[|[|k]]]; cbn in Hh; try done; try lia; by injection Hh. }
    rewrite Hp in *. exists 2%nat. split; [done|]. split; [by injection Hh as ->|]. split; [intros _; apply Hb; lia|].
    split; [done|]. split; [|intros C; by apply Hsy in C]. intros C. clear Hev. unfold upd. case_bool_decide; [done|by apply Hw].
  - rewrite upd_ne by done. exists k. do 3 (split; [done|]). split; [|split; [|done]].
    + rewrite upd_ne; [done|]. intros [-> ->]. by apply Hne.
    + intros C. clear Hev. unfold upd. case_bool_decide; [done|]. by apply Hw.
Qed.

Lemma head_op s r i x q : inv s -> rank_ok a r -> rank_ok a i -> handles s r i = x :: q ->
  x = write_op r i \/ x = RdmaSignalSet seq.
Proof.
  intros I Hr Hi E. destruct (inv_pair s I r i Hr Hi) as (k & _ & Hh & _). rewrite E in Hh.
  destruct (posted _ _) as [|[|m]], k as [|[|k]]; cbn in Hh; rewrite ?take_nil, ?drop_nil in Hh; try done;
    injection Hh as -> _; auto.
Qed.

Lemma step_inv s s' : inv s -> step a send s s' -> inv s'.
Proof using ok send_ok recv_ok.
  intros I H. destruct H as [r t p o Hr Ht E|r i x q s' Hr Hi Eh E]; [by apply thread_inv|].
  destruct (head_op s r i x q I Hr Hi Eh) as [-> | ->].
  - rewrite execute_write in E; [|done..|by cbn; rewrite (inv_length s I i Hi); apply recv_ok]. inv_ret.
    exact (write_inv s r i q I Hr Hi Eh).
  - cbn in E. inv_ret. by apply signal_inv.
Qed.

Lemma steps_inv s s' : inv s -> rtc (step a send) s s' -> inv s'.
Proof using ok send_ok recv_ok. induction 2; eauto using step_inv. Qed.

(** A rank whose threads have returned has everything. *)
Lemma returned_exchanged s r : inv s -> rank_ok a r -> (forall t, thread_ok a t -> threads s r t = Returned) ->
  recv s r = exchanged a send r ++ drop (total a) (rcv0 r).
Proof using ok recv_ok.
  intros I Hr Hret. pose proof (ranks_pos a ok). rewrite (buffer_blocks a (recv s r)).
  - fold (total a). rewrite (inv_tail s I r Hr). f_equal. unfold exchanged. f_equal.
    apply list_fmap_ext. intros n j Hj. apply lookup_seqZ in Hj as [-> Hj]. set (j := 0 + Z.of_nat n).
    assert (rank_ok a j) as Hjr by (unfold rank_ok; lia).
    destruct (inv_pair s I r j Hr Hjr) as (_ & _ & _ & _ & _ & Hw & _). unfold server in Hw.
    rewrite Hret in Hw by apply mod_thread.
    destruct (inv_pair s I j r Hjr Hr) as (k & _ & _ & Hb & Hev & _). rewrite (Hw eq_refl) in Hev.
    apply Hb. clear Hw. case_bool_decide; lia.
  - lia.
  - rewrite (inv_length s I r Hr). by apply recv_ok.
Qed.

(** When all threads of a rank have returned its connections are idle, and it has the
    signal of every rank. *)
Lemma returned_idle s r i : inv s -> rank_ok a r -> rank_ok a i -> (forall t, thread_ok a t -> threads s r t = Returned) ->
  handles s r i = [] /\ events s r i = seq.
Proof using ok.
  intros I Hr Hi Hret. destruct (inv_pair s I r i Hr Hi) as (_ & _ & _ & _ & _ & Hw & Hs). unfold server in *.
  rewrite Hret in Hw, Hs by apply mod_thread. auto.
Qed.

(** *** Progress *)

Definition stuck (s : sys) : Prop := forall s', ~ step a send s s'.

Lemma stuck_idle s r i : inv s -> stuck s -> rank_ok a r -> rank_ok a i -> handles s r i = [].
Proof using ok send_ok recv_ok.
  intros I Hst Hr Hi. destruct (handles s r i) as [|x q] eqn:Eh; [done|]. exfalso.
  destruct (head_op s r i x q I Hr Hi Eh) as [-> | ->].
  - eapply Hst, (step_network a send s r i _ q); [done..|]. rewrite execute_write; [reflexivity|done..|].
    cbn. rewrite (inv_length s I i Hi). by apply recv_ok.
  - eapply Hst, (step_network a send s r i _ q); [done..|]. reflexivity.
Qed.

Lemma stuck_thread s r t : stuck s -> rank_ok a r -> thread_ok a t ->
  alltoall_kernel a r t (events s r) (handles s r) (threads s r t) = None.
Proof.
  intros Hst Hr Ht. destruct (alltoall_kernel _ _ _ _ _ _) as [[p o]|] eqn:E; [|done].
  exfalso. eapply Hst, (step_thread a send s r t); eauto.
Qed.

(** No deadlock: only a system whose threads have all returned can not go on. *)
Lemma stuck_returned s r t : inv s -> stuck s -> rank_ok a r -> thread_ok a t -> threads s r t = Returned.
Proof using ok send_ok recv_ok.
  intros I Hst Hr Ht. pose proof (stuck_thread s r t Hst Hr Ht) as E. pose proof (inv_pc s I r t Hr Ht) as Hp.
  destruct (threads s r t) as [j|j|j|j|] eqn:Ep; cbn [alltoall_kernel] in E; cbn [pc_ok] in Hp.
  - by case_if_in E.
  - done.
  - case_if_in E; [|done]. assert (rank_ok a j) as Hj by (unfold rank_ok; lia). exfalso.
    destruct (inv_pair s I j r Hj Hr) as (k & Hk & Hh & _ & Hev & _). rewrite (stuck_idle s j r I Hst Hj Hr) in Hh.
    pose proof (stuck_thread s j (r mod T) Hst Hj (mod_thread r)) as E'.
    assert (posted (server s j r) r = 2%nat) as H2.
    { unfold server. destruct (threads s j (r mod T)); cbn [alltoall_kernel] in E'; [by case_if_in E'|done|done..]. }
    rewrite H2 in Hh, Hk. assert (k = 2%nat) as -> by (destruct k as [|[|[|k]]]; [done|done|done|lia]).
    rewrite bool_decide_eq_true_2 in Hev by done. rewrite Hev in E.
    pose proof (seq_range a ok). rewrite (uwrap_id 64 (seq - 1)) in E by (unfold in_width; lia).
    change SYNC_EVENT_MASK_FFS with (Z.ones 64) in E. rewrite Z.land_ones, Z.mod_small in E by lia.
    rewrite (proj2 (Z.ltb_lt _ _)) in E by lia. done.
  - exfalso. rewrite (stuck_idle s r j I Hst Hr) in E by (unfold rank_ok; lia). done.
  - done.
Qed.

(** *** Termination *)

(** The turns that a loop at index [k] has left. *)
Definition turns (k : Z) : Z := (N - k + T - 1) / T.

Lemma turns_next k : turns (k + T) = turns k - 1.
Proof using ok.
  unfold turns. pose proof (threads_pos a ok). replace (N - (k + T) + T - 1) with (N - k + T - 1 + (-1) * T) by lia.
  rewrite Z.div_add by lia. lia.
Qed.
Lemma turns_done k : N <= k < N + T -> turns k = 0.
Proof using ok. intros H. unfold turns. apply Z.div_small. lia. Qed.
Lemma turns_pos k : k < N -> 1 <= turns k.
Proof using ok. intros H. pose proof (threads_pos a ok). unfold turns. apply Z.div_le_lower_bound; lia. Qed.
Lemma turns_le k : 0 <= k < N + T -> 0 <= turns k <= N.
Proof using ok.
  intros H. pose proof (threads_pos a ok). pose proof (ranks_pos a ok). unfold turns. split; [apply Z.div_pos; lia|].
  apply Z.div_le_upper_bound; nia.
Qed.

(** The steps a thread has left, with one more for every operation it will post. *)
Definition weight (t : Z) (p : pc) : Z :=
  match p with
  | PostWrite k => 4 * turns k + 2 + 2 * turns t
  | SignalSet k => 4 * turns k + 2 * turns t
  | WaitGt k => 2 * turns k + 1
  | Synchronize k => 2 * turns k
  | Returned => 0
  end.

Definition thread_list : list Z := seqZ 0 T.
Definition measure (s : sys) : Z :=
  sum2 (fun r t => weight t (threads s r t)) (ranks a) thread_list
  + sum2 (fun r i => Z.of_nat (length (handles s r i))) (ranks a) (ranks a).

Lemma kernel_weight s r t p o : inv s -> rank_ok a r -> thread_ok a t ->
  alltoall_kernel a r t (events s r) (handles s r) (threads s r t) = Some (p, o) ->
  weight t p + (if o is Some _ then 1 else 0) < weight t (threads s r t) /\
  forall i x, o = Some (i, x) -> rank_ok a i.
Proof using ok.
  intros I Hr Ht E. pose proof (inv_pc s I r t Hr Ht) as Hp. unfold thread_ok in Ht.
  destruct (threads s r t) as [j|j|j|j|]; cbn [alltoall_kernel] in E; cbn [pc_ok] in Hp.
  - case_if_in E; injection E as <- <-; cbn [weight].
    + split; [lia|]. intros i x [= <- _]. unfold rank_ok. lia.
    + rewrite (turns_done j) by lia. split; [lia|done].
  - injection E as <- <-. destruct (next_index j t) as (-> & _ & _); [lia..|]. cbn [weight]. rewrite turns_next.
    split; [lia|]. intros i x [= <- _]. unfold rank_ok. lia.
  - case_if_in E; [case_if_in E; [|done]|]; injection E as <- <-; cbn [weight]; (split; [|done]); [lia|].
    rewrite (turns_done j) by lia. lia.
  - destruct (handles s r j); [|done]. injection E as <- <-. destruct (next_index j t) as (-> & _ & _); [lia..|].
    cbn [weight]. rewrite turns_next. split; [lia|done].
  - done.
Qed.

Lemma elem_of_ranks r : r ∈ ranks a <-> rank_ok a r.
Proof. unfold ranks, rank_ok. rewrite elem_of_seqZ. lia. Qed.
Lemma elem_of_threads t : t ∈ thread_list <-> thread_ok a t.
Proof. unfold thread_list, thread_ok. rewrite elem_of_seqZ. lia. Qed.

(** The sums after an update of one thread or one connection. *)
Lemma sum_update {A} (g : Z -> A -> Z) (f : Z -> Z -> A) l r t x : rank_ok a r -> NoDup l -> t ∈ l ->
  sum2 (fun r' t' => g t' (upd r t x f r' t')) (ranks a) l
    = sum2 (fun r' t' => g t' (f r' t')) (ranks a) l - g t (f r t) + g t x.
Proof.
  intros Hr Hnd Ht. rewrite (sum2_change (fun r' t' => g t' (f r' t')) _ _ _ r t).
  - by rewrite upd_eq.
  - apply NoDup_seqZ.
  - done.
  - by apply elem_of_ranks.
  - done.
  - intros r' t' Hne. by rewrite upd_ne.
Qed.

Lemma step_measure s s' : inv s -> step a send s s' -> measure s' < measure s.
Proof using ok.
  intros I H. unfold measure. destruct H as [r t p o Hr Ht E|r i x q s' Hr Hi Eh E].
  - destruct (kernel_weight s r t p o I Hr Ht E) as [Hlt Ho]. cbn [threads handles].
    rewrite (sum_update weight) by first [done|apply NoDup_seqZ|apply elem_of_threads; done].
    destruct o as [[i x]|]; cbn [post]; [|lia].
    rewrite (sum_update (fun _ q => Z.of_nat (length q))) by first [done|apply NoDup_seqZ|apply elem_of_ranks; eauto].
    rewrite length_app. cbn [length]. lia.
  - assert (threads s' = threads s /\ handles s' = upd r i q (handles s)) as [-> ->].
    { destruct x; cbn [execute] in E; [obind E; obind E|]; by inv_ret. }
    rewrite (sum_update (fun _ q => Z.of_nat (length q))) by first [done|apply NoDup_seqZ|apply elem_of_ranks; done].
    rewrite Eh. cbn [length]. lia.
Qed.

Lemma weight_range t p : thread_ok a t -> pc_ok t p -> 0 <= weight t p.
Proof using ok.
  unfold thread_ok. intros Ht Hp. pose proof (ranks_pos a ok). pose proof (turns_le t ltac:(lia)).
  destruct p as [k|k|k|k|]; cbn [pc_ok weight] in *; try pose proof (turns_le k ltac:(lia)); lia.
Qed.

Lemma measure_pos s : inv s -> 0 <= measure s.
Proof using ok.
  intros I. apply Z.add_nonneg_nonneg; apply sumZ_nonneg; intros r Hr; apply sumZ_nonneg; intros t Ht.
  - apply weight_range; [by apply elem_of_threads|]. apply I; [by apply elem_of_ranks|by apply elem_of_threads].
  - lia.
Qed.

Lemma measure_launched ev : measure (launched a ev rcv0) <= N * T * (6 * N + 2).
Proof using ok.
  pose proof (ranks_pos a ok). pose proof (threads_pos a ok). unfold measure, launched. cbn [threads handles length].
  assert (sum2 (fun _ _ => Z.of_nat 0) (ranks a) (ranks a) = 0) as ->.
  { pose proof (sum2_le (fun _ _ => Z.of_nat 0) (ranks a) (ranks a) 0 ltac:(done)). lia. }
  pose proof (sum2_le (fun _ t => weight t (PostWrite t)) (ranks a) thread_list (6 * N + 2)) as Hle.
  unfold ranks, thread_list in *. rewrite !length_seqZ, !Z2Nat.id in Hle by lia. rewrite Z.add_0_r, <-Z.mul_assoc.
  apply Hle. intros r t _ Ht. apply elem_of_seqZ in Ht. cbn [weight]. pose proof (turns_le t ltac:(lia)). lia.
Qed.

Lemma nsteps_measure n s s' : inv s -> nsteps (step a send) n s s' -> inv s' /\ Z.of_nat n + measure s' <= measure s.
Proof using ok send_ok recv_ok.
  intros I H. induction H as [s|n s s1 s2 H1 H2 IH]; [split; [done|lia]|].
  pose proof (step_measure s s1 I H1). destruct (IH (step_inv s s1 I H1)). split; [done|lia].
Qed.
End Round.

(** C5: The exchange: whatever the order in which the threads of all ranks and the network
    take their steps, when the threads of a rank have returned its receive buffer holds its
    block of every rank, in the order of the ranks, and nothing behind them has changed. *)
Theorem alltoall_exchanges a send ev rcv0 s r :
  launch_ok a -> (forall j, rank_ok a j -> (total a <= length (send j))%nat /\ (total a <= length (rcv0 j))%nat) ->
  (forall j i, rank_ok a j -> rank_ok a i -> ev j i = a2a_seq_num a - 1) ->
  rtc (step a send) (launched a ev rcv0) s ->
  rank_ok a r -> (forall t, thread_ok a t -> threads s r t = Returned) ->
  recv s r = exchanged a send r ++ drop (total a) (rcv0 r).
Proof.
  intros Hok Hl Hev H Hr Hret. apply returned_exchanged; try done; [by intros; apply Hl|].
  eapply steps_inv; [done|by intros; apply Hl..| |exact H]. by apply inv_launched.
Qed.

(** C38: The exchange ends: no order of steps goes on for ever, and one that can not go on
    has brought every thread of every rank to its end; no connection has an operation left
    and every event has the number of the round. *)
Theorem alltoall_terminates a send ev rcv0 n s :
  launch_ok a -> (forall j, rank_ok a j -> (total a <= length (send j))%nat /\ (total a <= length (rcv0 j))%nat) ->
  (forall j i, rank_ok a j -> rank_ok a i -> ev j i = a2a_seq_num a - 1) ->
  nsteps (step a send) n (launched a ev rcv0) s ->
  Z.of_nat n <= num_ranks a * num_threads a * (6 * num_ranks a + 2) /\
  (stuck a send s -> forall r, rank_ok a r ->
     (forall t, thread_ok a t -> threads s r t = Returned) /\
     forall i, rank_ok a i -> handles s r i = [] /\ events s r i = a2a_seq_num a).
Proof.
  intros Hok Hl Hev H.
  assert (inv a send rcv0 (launched a ev rcv0)) as I by (by apply inv_launched).
  destruct (nsteps_measure a send rcv0 Hok ltac:(intros; by apply Hl) ltac:(intros; by apply Hl) n _ s I H) as [I' Hm].
  pose proof (measure_pos a send rcv0 Hok s I'). pose proof (measure_launched a rcv0 Hok ev). split; [lia|].
  intros Hst r Hr.
  assert (forall t, thread_ok a t -> threads s r t = Returned) as Hret.
  { intros t Ht. apply (stuck_returned a send rcv0 Hok ltac:(intros; by apply Hl) ltac:(intros; by apply Hl)); done. }
  split; [done|]. intros i Hi. by apply (returned_idle a send rcv0).
Qed.

(** ** Rounds

    [dpa_alltoall] ends with a barrier: the next exchange on the same request starts when all
    ranks have returned, with the next sequence number. *)

Definition with_seq (a : launch) (n : Z) : launch :=
  Launch (num_ranks a) (num_threads a) (count a) (type_length a) n (sendbufs a) (recvbufs a).

Definition all_returned (a : launch) (s : sys) : Prop :=
  forall r t, rank_ok a r -> thread_ok a t -> threads s r t = Returned.

(** [rounds a rcv0 n send s]: [s] after [n] exchanges, the last one of [send]. *)
Inductive rounds (a : launch) (rcv0 : Z -> list Z) : Z -> (Z -> list Z) -> sys -> Prop :=
| first_round send s :
    (forall j, rank_ok a j -> (total a <= length (send j))%nat) ->
    rtc (step (with_seq a 1) send) (launched a (fun _ _ => 0) rcv0) s -> all_returned a s -> rounds a rcv0 1 send s
| next_round n send0 s0 send s :
    rounds a rcv0 n send0 s0 -> n + 1 < 2 ^ 64 ->
    (forall j, rank_ok a j -> (total a <= length (send j))%nat) ->
    rtc (step (with_seq a (n + 1)) send) (launched a (events s0) (recv s0)) s -> all_returned a s ->
    rounds a rcv0 (n + 1) send s.

Lemma with_seq_ok a n : launch_ok a -> 0 < n < 2 ^ 64 -> launch_ok (with_seq a n).
Proof. intros [] Hn. by split. Qed.

(** What a round leaves behind for the next one. *)
Lemma round_inv a rcv0 n send s : launch_ok a -> (forall j, rank_ok a j -> (total a <= length (rcv0 j))%nat) ->
  rounds a rcv0 n send s ->
  0 < n < 2 ^ 64 /\ all_returned a s /\ exists rcv, inv (with_seq a n) send rcv s /\
    forall r, rank_ok a r -> length (rcv r) = length (rcv0 r) /\ drop (total a) (rcv r) = drop (total a) (rcv0 r).
Proof.
  intros Hok Hl. induction 1 as [send s Hs H Hret|n send0 s0 send s H0 IH Hn Hs H Hret].
  - split; [lia|]. split; [done|]. exists rcv0. split; [|done].
    apply (steps_inv (with_seq a 1) send rcv0 (with_seq_ok a 1 Hok ltac:(lia)) Hs Hl (launched a (fun _ _ => 0) rcv0)); [|exact H].
    by apply (inv_launched (with_seq a 1) send rcv0 (with_seq_ok a 1 Hok ltac:(lia))).
  - destruct IH as (Hn0 & Hret0 & rcv & I & Hrcv). split; [lia|]. split; [done|].
    assert (launch_ok (with_seq a (n + 1))) as Hok' by (apply with_seq_ok; [done|lia]).
    assert (launch_ok (with_seq a n)) as Hokn by (apply with_seq_ok; [done|lia]).
    assert (forall r, rank_ok a r -> length (recv s0 r) = length (rcv0 r)) as Hlen.
    { intros r Hr. rewrite (inv_length _ _ _ _ I r Hr). by apply Hrcv. }
    exists (recv s0). split.
    + apply (steps_inv (with_seq a (n + 1)) send (recv s0) Hok' Hs ltac:(intros r Hr; rewrite Hlen by done; by apply Hl)
        (launched a (events s0) (recv s0))); [|exact H].
      apply (inv_launched (with_seq a (n + 1)) send (recv s0) Hok'). intros r i Hr Hi. cbn [a2a_seq_num with_seq].
      rewrite (proj2 (returned_idle (with_seq a n) send0 rcv Hokn s0 r i I Hr Hi ltac:(intros t Ht; by apply Hret0))).
      cbn. lia.
    + intros r Hr. split; [by apply Hlen|]. etrans; [exact (inv_tail _ _ _ _ I r Hr)|]. by apply Hrcv.
Qed.

(** Every exchange of a request delivers, however many went before. *)
Theorem rounds_exchange a rcv0 n send s r :
  launch_ok a -> (forall j, rank_ok a j -> (total a <= length (rcv0 j))%nat) ->
  rounds a rcv0 n send s -> rank_ok a r -> recv s r = exchanged a send r ++ drop (total a) (rcv0 r).
Proof.
  intros Hok Hl H Hr. destruct (round_inv a rcv0 n send s Hok Hl H) as (Hn & Hret & rcv & I & Hrcv).
  rewrite <-(proj2 (Hrcv r Hr)).
  apply (returned_exchanged (with_seq a n) send rcv (with_seq_ok a n Hok Hn)); [|done|done|by intros t Ht; apply Hret].
  intros j Hj. rewrite (proj1 (Hrcv j Hj)). by apply Hl.
Qed.

(** ** Sizes *)

(** The sizes [dpa_a2a] computes hold all messages, for a number of ranks that the kernel
    can serve. *)
Theorem dpa_a2a_sizes_fit n msgsize c b : 0 < n -> dpa_a2a_sizes n msgsize = Ok (c, b) ->
  n <= MAX_NUM_PROC /\ 0 < c /\ n * c <= b /\ 0 < launch_threads n <= Z.min n MAX_NUM_THREADS.
Proof.
  intros Hn. unfold dpa_a2a_sizes, launch_threads, MAX_NUM_THREADS.
  destruct (MAX_NUM_PROC <? n) eqn:E; [done|]. apply Z.ltb_ge in E. intros H. case_if_in H; [done|].
  injection H as <- <-. apply Z.eqb_neq in Heqb0. set (m := if _ =? _ then _ else _) in *.
  assert (0 <= m) as Hm by (unfold m; case_if; [lia|apply uwrap_range; lia]).
  pose proof (Z.div_pos m n Hm Hn) as Hd. pose proof (Z.div_pos (m / n) 4 Hd ltac:(lia)).
  split; [done|]. split; [lia|]. split; [|case_if; lia].
  rewrite Z.div_div by lia. apply Z.div_le_lower_bound; [lia|].
  pose proof (Z.mul_div_le m (n * 4) ltac:(lia)). lia.
Qed.

(** ** A scheduler *)

Inductive choice : Type := RunThread (r t : Z) | RunNetwork (r i : Z).

(** The step of a choice; a choice that is not possible does nothing. *)
Definition take_step (a : launch) (send : Z -> list Z) (c : choice) (s : sys) : sys :=
  match c with
  | RunThread r t =>
      if bool_decide (rank_ok a r /\ thread_ok a t) then
        match alltoall_kernel a r t (events s r) (handles s r) (threads s r t) with
        | Some (p, o) => Sys (upd r t p (threads s)) (post r o (handles s)) (events s) (recv s)
        | None => s
        end
      else s
  | RunNetwork r i =>
      if bool_decide (rank_ok a r /\ rank_ok a i) then
        match handles s r i with
        | x :: q =>
            match execute a send r i x (Sys (threads s) (upd r i q (handles s)) (events s) (recv s)) with
            | Ret s => s
            | Undef _ => s
            end
        | [] => s
        end
      else s
  end.

Definition schedule (a : launch) (send : Z -> list Z) (l : list choice) (s : sys) : sys :=
  fold_left (fun s c => take_step a send c s) l s.

Lemma take_step_rtc a send c s : rtc (step a send) s (take_step a send c s).
Proof.
  destruct c as [r t|r i]; cbn [take_step]; case_bool_decide as C; try done; destruct C.
  - destruct (alltoall_kernel _ _ _ _ _ _) as [[p o]|] eqn:E; [|done]. apply rtc_once. by apply step_thread.
  - destruct (handles s r i) as [|x q] eqn:Eh; [done|]. destruct (execute _ _ _ _ _ _) as [s'|] eqn:E; [|done].
    apply rtc_once. by apply (step_network a send s r i x q).
Qed.

Lemma schedule_rtc a send l : forall s, rtc (step a send) s (schedule a send l s).
Proof.
  induction l as [|c l IH]; intros s; [done|]. etrans; [apply take_step_rtc|apply IH].
Qed.

(** *** Two ranks with two threads each *)

Definition two_ranks : launch := Launch 2 2 1 2 1 (fun r => 4096 + 256 * r) (fun r => 8192 + 256 * r).
Definition two_buffers (r : Z) : list Z := [10 * r + 1; 10 * r + 2; 10 * r + 3; 10 * r + 4].

(** The threads of rank 1 first, then those of rank 0, with the network in between. *)
Definition two_schedule : list choice :=
  let rank r := mjoin (replicate 6 [RunThread r 1; RunThread r 0]) in
  let net := [RunNetwork 0 0; RunNetwork 1 0; RunNetwork 0 1; RunNetwork 1 1] in
  rank 1 ++ net ++ rank 0 ++ net ++ net ++ rank 1 ++ rank 0 ++ rank 1.

Lemma two_ranks_ok : launch_ok two_ranks.
Proof. split; cbn; try lia; unfold rank_ok; cbn; intros; lia. Qed.

Lemma alltoall_exchanges_witness :
  exists s, rtc (step two_ranks two_buffers) (launched two_ranks (fun _ _ => 0) (fun _ => [0; 0; 0; 0; 7])) s /\
    recv s 0 = [1; 2; 11; 12; 7].
Proof.
  exists (schedule two_ranks two_buffers two_schedule (launched two_ranks (fun _ _ => 0) (fun _ => [0; 0; 0; 0; 7]))).
  split; [apply schedule_rtc|].
  apply (alltoall_exchanges two_ranks two_buffers (fun _ _ => 0) (fun _ => [0; 0; 0; 0; 7]) _ 0 two_ranks_ok).
  - intros j _. change (total two_ranks) with 4%nat. cbn. lia.
  - done.
  - apply schedule_rtc.
  - done.
  - intros t Ht. unfold thread_ok in Ht. cbn in Ht. assert (t = 0 \/ t = 1) as [-> | ->] by lia; vm_compute; reflexivity.
Defined.

Lemma alltoall_terminates_witness :
  exists n s, nsteps (step two_ranks two_buffers) n (launched two_ranks (fun _ _ => 0) (fun _ => [0; 0; 0; 0])) s /\
    Z.of_nat n <= 56 /\ threads s 1 0 = Returned.
Proof.
  destruct (rtc_nsteps_1 _ _ (schedule_rtc two_ranks two_buffers two_schedule (launched two_ranks (fun _ _ => 0) (fun _ => [0; 0; 0; 0]))))
    as [n H].
  exists n, (schedule two_ranks two_buffers two_schedule (launched two_ranks (fun _ _ => 0) (fun _ => [0; 0; 0; 0]))).
  split; [exact H|]. split; [|vm_compute; reflexivity].
  refine (proj1 (alltoall_terminates two_ranks two_buffers (fun _ _ => 0) (fun _ => [0; 0; 0; 0]) n _ two_ranks_ok _ _ H)); [|done].
  intros j _. change (total two_ranks) with 4%nat. cbn. lia.
Defined.
