(* ===== verification/DpaHost.v ===== *)
(** * DPA all-to-all: the host

    applications/dpa_all_to_all/host/dpa_all_to_all_core.c: the resources of an exchange,
    from the device to the tables in device memory, and the requests that use them.

    The program runs over the environment of [CommChannel], whose [calls] answer for the
    libraries and for MPI; devices, contexts, events, memory maps and device memory are
    counted with the descriptors.  [n] is the number of ranks.  The structure of the
    resources comes from [malloc], so what was not written is not initialised. *)
From S2P Require Import Prelude CommChannel DpaKernel.

(** ** Loops over the ranks *)

(** [for (i = 0; i < n; i++) { result = f(...); if (result != DOCA_SUCCESS) goto ...; }]:
    the result and the index at the end. *)
Fixpoint for_ranks (n : nat) (f : io doca_error_t) (i : nat) (result : doca_error_t) : io (doca_error_t * nat) :=
  match n with
  | O => mret (result, i)
  | S n =>
      result ← f;
      if negb (is_ok result) then mret (result, i) else for_ranks n f (S i) result
  end.

(** [for (j = 0; j < n; j++) { tmp_result = f(...); DOCA_ERROR_PROPAGATE(result, tmp_result); }] *)
Fixpoint destroy_each (n : nat) (f : io doca_error_t) (result : doca_error_t) : io doca_error_t :=
  match n with
  | O => mret result
  | S n =>
      tmp_result ← f;
      destroy_each n f (DOCA_ERROR_PROPAGATE result tmp_result)
  end.

(** Release one object on the way out. *)
Definition release_to (result : doca_error_t) : io doca_error_t :=
  tmp_result ← release;
  mret (DOCA_ERROR_PROPAGATE result tmp_result).

Definition mpi_request_wait_timeout : io doca_error_t :=
  status ← succeeds;
  mret (if status : bool then DOCA_SUCCESS else DOCA_ERROR_TIME_OUT).

(** ** Device and context *)

(** [matching]: for each device of the list whether it has the wanted name. *)
Fixpoint search_device (matching : list bool) : io (option doca_error_t) :=
  match matching with
  | [] => mret None
  | m :: matching =>
      result ← call;
      if negb (is_ok result) then search_device matching
      else
      result ← call;
      if negb (is_ok result) then search_device matching
      else if negb m then search_device matching
      else
        result ← acquire;
        mret (Some result)
  end.

(** Without a matching device the pointer, which nothing has written, is compared with
    [NULL]. *)
Definition open_dpa_device (matching : list bool) : io doca_error_t :=
  result ← acquire;
  if negb (is_ok result) then mret result
  else
  r ← search_device matching;
  close;;
  match r with
  | Some result => mret result
  | None => undef Uninitialised
  end.

Definition create_dpa_context (matching : list bool) : io doca_error_t :=
  result ← open_dpa_device matching;
  if negb (is_ok result) then mret result
  else
  result ← acquire;
  if negb (is_ok result) then release_to result
  else
  result ← (result ← call; if negb (is_ok result) then mret result else call);
  if negb (is_ok result) then
    result ← release_to result;
    release_to result
  else mret result.

(** ** Objects that are created, set up and, when that fails, destroyed *)

(** Set-up calls, one after the other. *)
Fixpoint set_up (n : nat) (result : doca_error_t) : io doca_error_t :=
  match n with
  | O => mret result
  | S n =>
      result ← call;
      if negb (is_ok result) then mret result else set_up n result
  end.

Definition create_with (n : nat) : io doca_error_t :=
  result ← acquire;
  if negb (is_ok result) then mret result
  else
  result ← set_up n result;
  if negb (is_ok result) then release_to result else mret result.

Definition create_mmap : io doca_error_t := create_with 5.
Definition create_doca_dpa_sync_event_from_export : io doca_error_t := create_with 1.
Definition create_rdma : io doca_error_t := create_with 4.
Definition create_doca_dpa_completion_sync_event : io doca_error_t := create_with 3.
Definition create_doca_dpa_remote_net_sync_event : io doca_error_t := create_with 3.

Definition destroy_rdma : io doca_error_t :=
  result ← call;
  release_to result.

(** ** Events *)

(** The labels [destroy_comp_event], [destroy_kernel_events] and
    [destroy_kernel_events_handles] of [create_dpa_a2a_events]. *)
Definition destroy_kernel_events (i : nat) (result : doca_error_t) : io doca_error_t :=
  result ← destroy_each i release result;
  free true;;
  release_to result.
Definition destroy_kernel_events_handles (handles : bool) (i : nat) (result : doca_error_t) : io doca_error_t :=
  free handles;;
  destroy_kernel_events i result.

Definition create_dpa_a2a_events (n : nat) : io doca_error_t :=
  result ← create_doca_dpa_completion_sync_event;
  if negb (is_ok result) then mret result
  else
  b ← calloc;
  if negb b then release_to DOCA_ERROR_NO_MEMORY
  else
  r ← for_ranks n create_doca_dpa_remote_net_sync_event 0 result;
  let (result, i) := r : doca_error_t * nat in
  if negb (is_ok result) then destroy_kernel_events i result
  else
  b ← calloc;
  if negb b then destroy_kernel_events_handles false i DOCA_ERROR_NO_MEMORY
  else
  r ← for_ranks n call 0 result;
  if negb (is_ok r.1) then destroy_kernel_events_handles true i r.1
  else
  b ← calloc;
  if negb b then destroy_kernel_events_handles true i DOCA_ERROR_NO_MEMORY
  else
  arr ← calloc;
  if negb arr && negb (n =? 0)%nat then undef NullDeref
  else
  r ← for_ranks n call 0 result;
  if negb (is_ok r.1) then
    free arr;;
    free true;;
    destroy_kernel_events_handles true i r.1
  else
  b ← calloc;
  if negb b then
    free arr;;
    free true;;
    destroy_kernel_events_handles true i DOCA_ERROR_NO_MEMORY
  else
  free arr;;
  mret r.1.

(** ** RDMA connections *)

Definition connect_one : io doca_error_t :=
  result ← call;
  if negb (is_ok result) then mret result
  else
  result ← mpi_request_wait_timeout;
  if negb (is_ok result) then mret result
  else
  b ← calloc;
  if negb b then mret DOCA_ERROR_NO_MEMORY
  else
  result ← mpi_request_wait_timeout;
  if negb (is_ok result) then free true;; mret result
  else
  result ← call;
  if negb (is_ok result) then free true;; mret result
  else
  result ← mpi_request_wait_timeout;
  if negb (is_ok result) then free true;; mret result
  else
  result ← mpi_request_wait_timeout;
  free true;;
  mret result.

Definition connect_dpa_a2a_rdmas (n : nat) : io doca_error_t :=
  r ← for_ranks n connect_one 0 DOCA_SUCCESS;
  mret r.1.

(** The label [destroy_rdmas]. *)
Definition destroy_rdmas (i : nat) (result : doca_error_t) : io doca_error_t :=
  result ← destroy_each i destroy_rdma result;
  free true;;
  mret result.

(** The result, and whether the connections and the table of their handles are there. *)
Definition prepare_dpa_a2a_rdmas (n : nat) : io (doca_error_t * bool) :=
  b ← calloc;
  if negb b then mret (DOCA_ERROR_NO_MEMORY, false)
  else
  r ← for_ranks n create_rdma 0 DOCA_SUCCESS;
  let (result, i) := r : doca_error_t * nat in
  if negb (is_ok result) then e ← destroy_rdmas i result; mret (e, false)
  else
  result ← connect_dpa_a2a_rdmas n;
  if negb (is_ok result) then e ← destroy_rdmas i result; mret (e, false)
  else
  rdma_handlers ← calloc;
  if negb rdma_handlers then e ← destroy_rdmas i result; mret (e, false)
  else
  r ← for_ranks n call 0 result;
  let result := r.1 in
  if negb (is_ok result) then free true;; e ← destroy_rdmas i result; mret (e, false)
  else
  result ← acquire;
  if negb (is_ok result) then free true;; e ← destroy_rdmas i result; mret (e, false)
  else
  result ← call;
  if negb (is_ok result) then
    result ← release_to result;
    free true;;
    e ← destroy_rdmas i result;
    mret (e, false)
  else
  free true;;
  mret (result, true).

(** ** Memory *)

(** The labels of [prepare_dpa_a2a_memory] from the last one to the first; [i] is the
    variable of the loops when the label is reached. *)
Definition destroy_sendbuf_mmap (result : doca_error_t) : io doca_error_t := release_to result.
Definition destroy_recvbuf_mmap (result : doca_error_t) : io doca_error_t :=
  result ← release_to result;
  destroy_sendbuf_mmap result.
Definition free_mmap_exports_lens (result : doca_error_t) : io doca_error_t := free true;; destroy_recvbuf_mmap result.
Definition free_mmap_exports (result : doca_error_t) : io doca_error_t := free true;; free_mmap_exports_lens result.
Definition free_export_mmaps (result : doca_error_t) : io doca_error_t := free true;; free_mmap_exports result.
Definition destroy_export_mmaps (i : nat) (result : doca_error_t) : io doca_error_t :=
  result ← destroy_each i release result;
  free_export_mmaps result.
Definition free_recvbufs (i : nat) (result : doca_error_t) : io doca_error_t := free true;; destroy_export_mmaps i result.
Definition free_devptr_recvbufs (i : nat) (result : doca_error_t) : io doca_error_t :=
  result ← release_to result;
  free_recvbufs i result.
Definition free_devptr_recvbufs_mmap_handles (i : nat) (result : doca_error_t) : io doca_error_t :=
  result ← release_to result;
  free_devptr_recvbufs i result.
(** [data]: whether [rp_remote_kernel_events_export_data] was written. *)
Definition free_remote_kernel_events_exports (data : bool) (i : nat) (result : doca_error_t) : io doca_error_t :=
  check data Uninitialised;;
  free true;;
  free true;;
  free_devptr_recvbufs_mmap_handles i result.
Definition free_remote_kernel_events (i : nat) (result : doca_error_t) : io doca_error_t :=
  free true;;
  free_remote_kernel_events_exports true i result.
Definition free_remote_kernel_events_dpa_handles (i : nat) (result : doca_error_t) : io doca_error_t :=
  free true;;
  free_remote_kernel_events i result.
Definition destroy_kernel_events_from_export (n : nat) (result : doca_error_t) : io doca_error_t :=
  result ← destroy_each n release result;
  free_remote_kernel_events_dpa_handles n result.
Definition free_rp_remote_kernel_events_dpa (n : nat) (result : doca_error_t) : io doca_error_t :=
  result ← release_to result;
  destroy_kernel_events_from_export n result.
Definition free_kernel_events_handle_dpa (n : nat) (result : doca_error_t) : io doca_error_t :=
  result ← release_to result;
  free_rp_remote_kernel_events_dpa n result.

(** The map of one remote buffer, created from the export of its rank. *)
Definition export_mmap : io doca_error_t :=
  result ← acquire;
  if negb (is_ok result) then mret result else call.

(** From the arrays of the remote events to the end. *)
Definition prepare_remote_events (n : nat) : io doca_error_t :=
  b ← calloc;
  if negb b then free_devptr_recvbufs n DOCA_ERROR_NO_MEMORY
  else
  result ← mpi_request_wait_timeout;
  if negb (is_ok result) then free_remote_kernel_events_exports false n result
  else
  b ← calloc;
  if negb b then
    (** the pointer is null now *)
    free true;;
    free_devptr_recvbufs_mmap_handles n DOCA_ERROR_NO_MEMORY
  else
  result ← mpi_request_wait_timeout;
  if negb (is_ok result) then free_remote_kernel_events_exports true n result
  else
  b ← calloc;
  if negb b then free_remote_kernel_events_exports true n DOCA_ERROR_NO_MEMORY
  else
  b ← calloc;
  if negb b then free_remote_kernel_events n DOCA_ERROR_NO_MEMORY
  else
  r ← for_ranks n create_doca_dpa_sync_event_from_export 0 result;
  let (result, i) := r : doca_error_t * nat in
  if negb (is_ok result) then free_remote_kernel_events_dpa_handles i result
  else
  result ← acquire;
  if negb (is_ok result) then destroy_kernel_events_from_export n result
  else
  result ← call;
  if negb (is_ok result) then destroy_kernel_events_from_export n result
  else
  result ← acquire;
  if negb (is_ok result) then free_rp_remote_kernel_events_dpa n result
  else
  result ← call;
  if negb (is_ok result) then free_kernel_events_handle_dpa n result
  else
  (** the exports of the maps, of the local and of the remote events *)
  free true;; free true;;
  free true;; free true;;
  free true;; free true;;
  mret result.

(** From the local array of the addresses on. *)
Definition prepare_tables (n i : nat) : io doca_error_t :=
  b ← calloc;
  if negb b then destroy_export_mmaps i DOCA_ERROR_NO_MEMORY
  else
  result ← mpi_request_wait_timeout;
  if negb (is_ok result) then free_recvbufs i result
  else
  result ← acquire;
  if negb (is_ok result) then free_recvbufs i result
  else
  result ← call;
  if negb (is_ok result) then free_devptr_recvbufs i result
  else
  result ← acquire;
  if negb (is_ok result) then free_devptr_recvbufs i result
  else
  result ← call;
  if negb (is_ok result) then free_devptr_recvbufs_mmap_handles i result
  else prepare_remote_events n.

Definition prepare_dpa_a2a_memory (n : nat) : io doca_error_t :=
  result ← create_mmap;
  if negb (is_ok result) then mret result
  else
  result ← create_mmap;
  if negb (is_ok result) then destroy_sendbuf_mmap result
  else
  result ← call;
  if negb (is_ok result) then destroy_recvbuf_mmap result
  else
  b ← calloc;
  if negb b then destroy_recvbuf_mmap DOCA_ERROR_NO_MEMORY
  else
  b ← calloc;
  if negb b then free_mmap_exports_lens DOCA_ERROR_NO_MEMORY
  else
  result ← mpi_request_wait_timeout;
  if negb (is_ok result) then free_mmap_exports result
  else
  result ← mpi_request_wait_timeout;
  if negb (is_ok result) then free_mmap_exports result
  else
  b ← calloc;
  if negb b then free_mmap_exports DOCA_ERROR_NO_MEMORY
  else
  b ← calloc;
  if negb b then free_export_mmaps DOCA_ERROR_NO_MEMORY
  else
  r ← for_ranks n export_mmap 0 result;
  let (result, i) := r : doca_error_t * nat in
  if negb (is_ok result) then destroy_export_mmaps i result
  else prepare_tables n i.

(** ** All resources *)

(** The labels of [dpa_a2a_init].  [live]: whether the connections are there; a table that
    was never allocated is freed otherwise. *)
Definition destroy_dpa (result : doca_error_t) : io doca_error_t :=
  result ← release_to result;
  release_to result.
Definition destroy_events (n : nat) (result : doca_error_t) : io doca_error_t :=
  free true;;
  free true;;
  free true;;
  result ← destroy_each n release result;
  free true;;
  result ← release_to result;
  destroy_dpa result.
Definition free_rdmas (live : bool) (n : nat) (result : doca_error_t) : io doca_error_t :=
  check live Uninitialised;;
  result ← release_to result;
  result ← destroy_each n destroy_rdma result;
  free true;;
  mret result.

(** The result, and whether the connections are there. *)
Definition dpa_a2a_init (n : nat) (matching : list bool) : io (doca_error_t * bool) :=
  result ← create_dpa_context matching;
  if negb (is_ok result) then mret (result, false)
  else
  result ← create_dpa_a2a_events n;
  if negb (is_ok result) then e ← destroy_dpa result; mret (e, false)
  else
  r ← prepare_dpa_a2a_rdmas n;
  let (result, live) := r : doca_error_t * bool in
  if negb (is_ok result) then e ← destroy_events n result; mret (e, false)
  else
  result ← prepare_dpa_a2a_memory n;
  if negb (is_ok result) then
    result ← free_rdmas live n result;
    e ← destroy_events n result;
    mret (e, false)
  else mret (result, live).

Definition dpa_a2a_destroy (n : nat) (live : bool) : io doca_error_t :=
  result ← release_to DOCA_SUCCESS;
  result ← release_to result;
  result ← destroy_each n release result;
  free true;;
  free true;;
  result ← release_to result;
  result ← release_to result;
  free true;;
  result ← destroy_each n release result;
  free true;;
  result ← release_to result;
  result ← release_to result;
  result ← free_rdmas live n result;
  free true;;
  result ← destroy_each n release result;
  result ← release_to result;
  result ← release_to result;
  release_to result.

(** ** Requests *)

(** [req->resources]: null, freed, or there with its sequence number. *)
Inductive dpa_a2a_request : Type :=
| NoResources
| FreedResources
| Resources (seq : Z) (live : bool).

Definition dpa_a2a_req_finalize (n : nat) (req : dpa_a2a_request) : io (doca_error_t * dpa_a2a_request) :=
  match req with
  | NoResources => mret (DOCA_SUCCESS, req)
  | FreedResources => undef DanglingPointer
  | Resources seq live =>
      result ← dpa_a2a_destroy n live;
      if negb (is_ok result) then mret (result, req)
      else
        free true;;
        mret (result, NoResources)
  end.

Definition dpa_a2a_req_wait (req : dpa_a2a_request) : io doca_error_t :=
  match req with
  | NoResources => mret DOCA_ERROR_UNEXPECTED
  | FreedResources => undef DanglingPointer
  | Resources _ _ => call
  end.

(** [Launch the kernel]: the table of the connections is passed to it. *)
Definition launch_kernel (req : dpa_a2a_request) : io (doca_error_t * dpa_a2a_request) :=
  match req with
  | Resources seq live =>
      check live Uninitialised;;
      result ← call;
      mret (result, Resources (u64 (seq + 1)) live)
  | _ => undef DanglingPointer
  end.

Definition dpa_ialltoall (n : nat) (matching : list bool) (req : dpa_a2a_request) : io (doca_error_t * dpa_a2a_request) :=
  match req with
  | NoResources =>
      b ← calloc;
      if negb b then mret (DOCA_ERROR_NO_MEMORY, NoResources)
      else
      r ← dpa_a2a_init n matching;
      let (result, live) := r : doca_error_t * bool in
      if negb (is_ok result) then
        free true;;
        mret (result, FreedResources)
      else launch_kernel (Resources 0 live)
  | _ => launch_kernel req
  end.

Definition dpa_alltoall (n : nat) (matching : list bool) : io doca_error_t :=
  r ← dpa_ialltoall n matching NoResources;
  let (result, req) := r : doca_error_t * dpa_a2a_request in
  if negb (is_ok result) then mret result
  else
  result ← dpa_a2a_req_wait req;
  if negb (is_ok result) then mret result
  else
  r ← dpa_a2a_req_finalize n req;
  mret r.1.

(** [n]: the number of processes. *)
Definition dpa_a2a (n : nat) (msgsize : Z) (matching : list bool) : io doca_error_t :=
  match dpa_a2a_sizes (Z.of_nat n) msgsize with
  | Err e => mret e
  | Ok _ =>
      send_buf ← calloc;
      recv_buf ← calloc;
      send_buf_all ← calloc;
      recv_buf_all ← calloc;
      result ← (if negb send_buf || negb recv_buf || negb send_buf_all || negb recv_buf_all then mret DOCA_ERROR_NO_MEMORY
                else
                  result ← dpa_alltoall n matching;
                  if negb (is_ok result) then mret result
                  else
                  result ← mpi_request_wait_timeout;
                  if negb (is_ok result) then mret result
                  else mpi_request_wait_timeout);
      free send_buf;;
      free send_buf_all;;
      free recv_buf;;
      free recv_buf_all;;
      mret result
  end.

(** ** Accounting *)

(** Ways out of a function: the result is an error, and what is given back. *)
Definition cleans (m : io doca_error_t) (f b : Z) : Prop := acct m (fun e f' b' => is_ok e = false /\ f' = f /\ b' = b).

Lemma cleans_release r : is_ok r = false -> cleans (release_to r) (-1) 0.
Proof. intros H. unfold cleans, release_to. repeat acct_step. rewrite propagate_ok by done. acct_end. Qed.

Lemma cleans_free m f b : cleans m f (b + 1) -> cleans (free true;; m) f b.
Proof.
  intros H. eapply acct_bind; [apply acct_uses, uses_free|]. intros [] f' b' [-> ->]. eapply acct_mono; [exact H|].
  cbn. intros e f' b' (? & -> & ->). repeat split; [done|lia..].
Qed.

Lemma cleans_bind m k f b f1 b1 : cleans m f1 b1 -> (forall r, is_ok r = false -> cleans (k r) (f - f1) (b - b1)) ->
  cleans (m ≫= k) f b.
Proof.
  intros Hm Hk. eapply acct_bind; [exact Hm|]. intros e f' b' (He & -> & ->). eapply acct_mono; [by apply Hk|].
  cbn. intros e' f' b' (? & -> & ->). repeat split; [done|lia..].
Qed.

Lemma cleans_eq m f b f' b' : cleans m f b -> f = f' -> b = b' -> cleans m f' b'.
Proof. by intros ? -> ->. Qed.

Lemma cleans_each n f r : is_ok r = false -> uses f (fun _ => (-1, 0)) -> cleans (destroy_each n f r) (- Z.of_nat n) 0.
Proof.
  intros Hr Hf. revert r Hr. induction n as [|n IH]; intros r Hr; cbn [destroy_each].
  - apply acct_ret. done.
  - eapply acct_bind; [apply acct_uses, Hf|]. intros e f' b' [-> ->]. cbn [fst snd].
    eapply acct_mono; [apply IH, propagate_ok, Hr|]. cbn. intros e' f' b' (? & -> & ->). repeat split; [done|lia..].
Qed.

Lemma uses_release_to r : uses (release_to r) (fun _ => (-1, 0)).
Proof. unfold release_to. uses_all. Qed.
Lemma uses_destroy_rdma : uses destroy_rdma (fun _ => (-1, 0)).
Proof.
  unfold destroy_rdma. eapply uses_bind; [apply uses_call|]. intros e. cbn. eapply uses_mono; [apply uses_release_to|done].
Qed.
Lemma uses_each n f r : uses f (fun _ => (-1, 0)) -> uses (destroy_each n f r) (fun _ => (- Z.of_nat n, 0)).
Proof.
  intros Hf. revert r. induction n as [|n IH]; intros r; cbn [destroy_each]; [by apply uses_ret|].
  eapply uses_bind; [exact Hf|]. intros e. eapply uses_mono; [apply IH|]. intros e'. cbn [fst snd]. f_equal; lia.
Qed.
Lemma uses_wait_timeout : uses mpi_request_wait_timeout (fun _ => (0, 0)).
Proof. unfold mpi_request_wait_timeout. uses_all. Qed.
#[local] Hint Resolve uses_release_to uses_destroy_rdma uses_each uses_wait_timeout : acct uses.

(** A loop that creates [c] objects per turn: it ends with success exactly behind the last
    rank. *)
Lemma acct_for c n f i r : acct f (fun e f b => f = (if is_ok e then c else 0) /\ b = 0) ->
  acct (for_ranks n f i r) (fun p f b =>
    (is_ok r = true -> is_ok p.1 = true -> p.2 = (i + n)%nat) /\ f = c * (Z.of_nat p.2 - Z.of_nat i) /\ b = 0).
Proof.
  intros Hf. revert i r. induction n as [|n IH]; intros i r; cbn [for_ranks].
  - apply acct_ret. cbn. split; [intros; lia|lia].
  - eapply acct_bind; [exact Hf|]. intros e f' b' [-> ->]. destruct (is_ok e) eqn:E; cbn [negb].
    + eapply acct_mono; [apply IH|]. intros [e' k] f' b'. cbn [fst snd]. intros (H & -> & ->).
      split; [intros _ He; rewrite (H E He); lia|]. lia.
    + apply acct_ret. cbn. rewrite E. split; [done|lia].
Qed.

Lemma acct_call : acct call (fun e f b => f = (if is_ok e then 0 else 0) /\ b = 0).
Proof. eapply acct_mono; [apply acct_uses, uses_call|]. cbn. intros e f b [-> ->]. by destruct (is_ok e). Qed.

Lemma set_up_acct n : forall r, acct (set_up n r) (fun _ f b => f = 0 /\ b = 0).
Proof.
  induction n as [|n IH]; intros r; cbn [set_up]; [by apply acct_ret|].
  eapply acct_bind; [apply acct_uses, uses_call|]. intros e f b [-> ->]. case_if; [by apply acct_ret|].
  eapply acct_mono; [apply IH|]. cbn. lia.
Qed.
#[local] Hint Resolve set_up_acct : acct.

Lemma create_with_acct n : acct (create_with n) (fun e f b => f = (if is_ok e then 1 else 0) /\ b = 0).
Proof.
  unfold create_with. repeat acct_step; [acct_end| |acct_end].
  eapply acct_mono; [by apply cleans_release|]. cbn. intros e f' b' (E & -> & ->). acct_end.
Qed.

(** A loop over the ranks whose turns create [c] objects, as [H] says. *)
Ltac acct_loop c H :=
  eapply acct_bind; [apply (acct_for c), H|
    let e := fresh "e" in let i := fresh "i" in let Hi := fresh "Hi" in
    intros [e i] ? ? (Hi & -> & ->); cbn [fst snd] in *].

(** The end of an error path: [H] says what its label gives back. *)
Ltac acct_out H :=
  eapply acct_mono; [apply H; done|];
  let e := fresh "e" in let E := fresh "E" in
  intros e ? ? (E & -> & ->); cbn [fst snd] in *; acct_end.

Lemma kernel_events_cleans i r : is_ok r = false -> cleans (destroy_kernel_events i r) (- Z.of_nat i - 1) (-1).
Proof.
  intros Hr. unfold destroy_kernel_events. eapply cleans_bind; [apply cleans_each; [done|apply uses_release]|].
  intros e He. apply cleans_free. eapply cleans_eq; [by apply cleans_release|lia..].
Qed.

Lemma kernel_events_handles_cleans h i r : is_ok r = false ->
  cleans (destroy_kernel_events_handles h i r) (- Z.of_nat i - 1) (-1 - Z.b2z h).
Proof.
  intros Hr. unfold destroy_kernel_events_handles. destruct h; [apply cleans_free; by apply kernel_events_cleans|].
  eapply acct_bind; [apply acct_uses, uses_free|]. intros [] f b [-> ->].
  eapply acct_mono; [by apply kernel_events_cleans|]. cbn. intros e f b (? & -> & ->). repeat split; [done|lia..].
Qed.

(** What every stage of the start-up leaves: its objects, or nothing. *)
Definition stage (m : io doca_error_t) (f b : Z) : Prop :=
  acct m (fun e f' b' => f' = (if is_ok e then f else 0) /\ b' = if is_ok e then b else 0).

Lemma events_stage n : stage (create_dpa_a2a_events n) (1 + Z.of_nat n) 4.
Proof.
  unfold stage, create_dpa_a2a_events.
  eapply acct_bind; [apply create_with_acct|]. intros e1 f1 b1 [-> ->]. acct_step; [|acct_all].
  acct_step. acct_step; [|acct_out cleans_release].
  acct_loop 1 create_with_acct. acct_step; [|acct_out kernel_events_cleans].
  rewrite (Hi Heqb eq_refl) in *. clear Hi i.
  acct_step. acct_step; [|acct_out (kernel_events_handles_cleans false)].
  acct_loop 0 acct_call. acct_step; [|acct_out (kernel_events_handles_cleans true)].
  acct_step. acct_step; [|acct_out (kernel_events_handles_cleans true)].
  acct_step. case_if; [apply acct_undef|].
  acct_loop 0 acct_call. acct_step.
  - acct_step. acct_step.
    + acct_step. apply acct_ret. destruct x1; acct_end.
    + do 2 acct_step. destruct x1; acct_out (kernel_events_handles_cleans true).
  - do 2 acct_step. destruct x1; acct_out (kernel_events_handles_cleans true).
Qed.

Lemma search_acct l : acct (search_device l) (fun o f b => f = (if o is Some e then Z.b2z (is_ok e) else 0) /\ b = 0).
Proof.
  induction l as [|m l IH]; cbn [search_device]; [by apply acct_ret|].
  acct_step. acct_step; [|eapply acct_mono; [exact IH|]; acct_end].
  acct_step. acct_step; [|eapply acct_mono; [exact IH|]; acct_end].
  destruct m; cbn [negb]; [|eapply acct_mono; [exact IH|]; acct_end]. acct_all.
Qed.

Lemma open_stage l : stage (open_dpa_device l) 1 0.
Proof.
  unfold stage, open_dpa_device. acct_step. acct_step; [|acct_all].
  eapply acct_bind; [apply search_acct|]. intros o f' b' [-> ->]. acct_step.
  destruct o as [e|]; [|apply acct_undef]. apply acct_ret. destruct (is_ok e); acct_end.
Qed.

Lemma context_stage l : stage (create_dpa_context l) 2 0.
Proof.
  unfold stage, create_dpa_context.
  eapply acct_bind; [apply open_stage|]. intros e1 f1 b1 [-> ->]. acct_step; [|acct_all].
  acct_step. acct_step; [|acct_out cleans_release].
  eapply acct_bind.
  { instantiate (1 := fun _ f b => f = 0 /\ b = 0). acct_all. }
  intros e2 f2 b2 [-> ->]. acct_step; [acct_all|].
  eapply acct_bind; [by apply cleans_release|]. intros e3 f3 b3 (? & -> & ->). acct_out cleans_release.
Qed.

Lemma connect_acct n : acct (connect_dpa_a2a_rdmas n) (fun _ f b => f = 0 /\ b = 0).
Proof.
  unfold connect_dpa_a2a_rdmas. eapply acct_bind.
  - apply (acct_for 0). eapply (acct_mono _ (fun _ f b => f = 0 /\ b = 0)); [unfold connect_one; acct_all|].
    intros e f b [-> ->]. by destruct (is_ok e).
  - intros [e i] f b (_ & -> & ->). apply acct_ret. lia.
Qed.

Lemma uses_destroy_rdmas i r : uses (destroy_rdmas i r) (fun _ => (- Z.of_nat i, -1)).
Proof.
  unfold destroy_rdmas. eapply uses_bind; [apply uses_each, uses_destroy_rdma|]. intros e. uses_all. f_equal; lia.
Qed.
#[local] Hint Resolve connect_acct uses_destroy_rdmas : acct.

(** The connections are there exactly when the second result says so. *)
Lemma rdmas_acct n : acct (prepare_dpa_a2a_rdmas n) (fun p f b =>
  f = (if p.2 then Z.of_nat n + 1 else 0) /\ b = (if p.2 then 1 else 0)).
Proof.
  unfold prepare_dpa_a2a_rdmas. acct_step. acct_step; [|acct_all].
  acct_loop 1 create_with_acct. acct_step; [|acct_all]. rewrite (Hi eq_refl eq_refl) in *. clear Hi i.
  acct_step. acct_step; [|acct_all]. acct_step. acct_step; [|acct_all].
  acct_loop 0 acct_call. acct_step; [|acct_all].
  acct_step. acct_step; [|acct_all]. acct_step. acct_step; acct_all.
Qed.

(** *** The memory *)

Definition fails (m : io doca_error_t) : Prop := acct m (fun e _ _ => is_ok e = false).

Lemma fails_cleans m f b : cleans m f b -> fails m.
Proof. intros H. eapply acct_mono; [exact H|]. by intros e f' b' (? & _). Qed.
Lemma fails_bind {A} (m : io A) k : (forall a, fails (k a)) -> fails (m ≫= k).
Proof.
  intros H. eapply (acct_bind _ _ (fun _ _ _ => True)); [done|]. intros a f b _. exact (H a).
Qed.
Lemma fails_error m k : fails m -> (forall r, is_ok r = false -> fails (k r)) -> fails (m ≫= k).
Proof. intros Hm Hk. eapply acct_bind; [exact Hm|]. intros e f b He. exact (Hk e He). Qed.
Lemma fails_release r : is_ok r = false -> fails (release_to r).
Proof. intros H. eapply fails_cleans, cleans_release, H. Qed.
Lemma fails_each n r : is_ok r = false -> fails (destroy_each n release r).
Proof. intros H. eapply fails_cleans, cleans_each; [done|apply uses_release]. Qed.

(** Every label of [prepare_dpa_a2a_memory] keeps the error. *)
Ltac fails_label :=
  repeat first
    [ solve [auto using fails_release, fails_each]
    | apply fails_error; [solve [auto using fails_release, fails_each]|intros ? ?]
    | apply fails_bind; intros ? ].

Lemma fails_recvbuf r : is_ok r = false -> fails (destroy_recvbuf_mmap r).
Proof. intros H. unfold destroy_recvbuf_mmap, destroy_sendbuf_mmap. fails_label. Qed.
Lemma fails_export_mmaps r : is_ok r = false -> fails (free_export_mmaps r).
Proof.
  intros H. unfold free_export_mmaps, free_mmap_exports, free_mmap_exports_lens. do 3 (apply fails_bind; intros _).
  by apply fails_recvbuf.
Qed.
Lemma fails_exports_from i r : is_ok r = false -> fails (destroy_export_mmaps i r).
Proof.
  intros H. apply fails_error; [by apply fails_each|]. intros e He. by apply fails_export_mmaps.
Qed.
Lemma fails_recvbufs i r : is_ok r = false -> fails (free_recvbufs i r).
Proof. intros H. apply fails_bind. intros _. by apply fails_exports_from. Qed.
Lemma fails_devptr i r : is_ok r = false -> fails (free_devptr_recvbufs i r).
Proof. intros H. apply fails_error; [by apply fails_release|]. intros e He. by apply fails_recvbufs. Qed.
Lemma fails_handles i r : is_ok r = false -> fails (free_devptr_recvbufs_mmap_handles i r).
Proof. intros H. apply fails_error; [by apply fails_release|]. intros e He. by apply fails_devptr. Qed.
Lemma fails_event_exports d i r : is_ok r = false -> fails (free_remote_kernel_events_exports d i r).
Proof. intros H. unfold free_remote_kernel_events_exports. do 3 (apply fails_bind; intros _). by apply fails_handles. Qed.
Lemma fails_remote_handles i r : is_ok r = false -> fails (free_remote_kernel_events_dpa_handles i r).
Proof.
  intros H. unfold free_remote_kernel_events_dpa_handles, free_remote_kernel_events. do 2 (apply fails_bind; intros _).
  by apply fails_event_exports.
Qed.
Lemma fails_from_export n r : is_ok r = false -> fails (destroy_kernel_events_from_export n r).
Proof. intros H. apply fails_error; [by apply fails_each|]. intros e He. by apply fails_remote_handles. Qed.

(** What a function leaves when it succeeds. *)
Definition leaves (m : io doca_error_t) (f b : Z) : Prop :=
  acct m (fun e f' b' => is_ok e = true -> f' = f /\ b' = b).

Lemma leaves_fails m (f b f' b' : Z) : fails m -> acct m (fun e f1 b1 => is_ok e = true -> f' + f1 = f /\ b' + b1 = b).
Proof. intros H. eapply acct_mono; [exact H|]. intros e f1 b1 E E'. congruence. Qed.

(** An error path out of the function. *)
Ltac acct_err H := eapply acct_mono; [apply H; done|]; let E := fresh "E" in intros ? ? ? E ?; congruence.

Lemma remote_events_leaves n : leaves (prepare_remote_events n) (Z.of_nat n + 2) (-2).
Proof.
  unfold leaves, prepare_remote_events.
  acct_step. acct_step; [|acct_err fails_devptr]. acct_step. acct_step; [|acct_err fails_event_exports].
  acct_step. acct_step; [|acct_step; acct_err fails_handles]. acct_step. acct_step; [|acct_err fails_event_exports].
  acct_step. acct_step; [|acct_err fails_event_exports].
  acct_step. acct_step; [|eapply acct_mono; [apply fails_bind; intros _; by apply fails_event_exports|]; intros; congruence].
  acct_loop 1 create_with_acct. acct_step; [|acct_err fails_remote_handles].
  rewrite (Hi ltac:(assumption) eq_refl) in *.
  acct_step. acct_step; [|acct_err fails_from_export]. acct_step. acct_step; [|acct_err fails_from_export].
  acct_step. acct_step.
  - acct_step. acct_step; [acct_all|].
    eapply acct_mono.
    + apply fails_error; [by apply fails_release|]. intros r Hr. apply fails_error; [by apply fails_release|].
      intros r' Hr'. by apply fails_from_export.
    + intros; congruence.
  - eapply acct_mono.
    + apply fails_error; [by apply fails_release|]. intros r Hr. by apply fails_from_export.
    + intros; congruence.
Qed.

Lemma tables_leaves n : leaves (prepare_tables n n) (Z.of_nat n + 4) (-1).
Proof.
  unfold leaves, prepare_tables.
  acct_step. acct_step; [|acct_err fails_exports_from]. acct_step. acct_step; [|acct_err fails_recvbufs].
  acct_step. acct_step; [|acct_err fails_recvbufs]. acct_step. acct_step; [|acct_err fails_devptr].
  acct_step. acct_step; [|acct_err fails_devptr]. acct_step. acct_step; [|acct_err fails_handles].
  eapply acct_mono; [apply remote_events_leaves|]. cbn. intros e f' b' Hl He. destruct (Hl He) as [-> ->]. acct_end.
Qed.

(** A loop that ends with success has gone over all ranks. *)
Lemma for_leaves c n f : leaves f c 0 -> forall i r,
  acct (for_ranks n f i r) (fun p f b => is_ok r = true -> is_ok p.1 = true ->
    p.2 = (i + n)%nat /\ f = c * Z.of_nat n /\ b = 0).
Proof.
  intros Hf. induction n as [|n IH]; intros i r; cbn [for_ranks].
  - apply acct_ret. cbn. intros _ _. split; [lia|]. lia.
  - eapply acct_bind; [exact Hf|]. intros e f' b' Hl. destruct (is_ok e) eqn:E; cbn [negb].
    + eapply acct_mono; [apply IH|]. intros [e' k] f1 b1. cbn [fst snd]. intros H _ He.
      destruct (Hl E) as [-> ->]. destruct (H E He) as (-> & -> & ->). split; [lia|]. lia.
    + apply acct_ret. cbn. congruence.
Qed.

Lemma memory_leaves n : leaves (prepare_dpa_a2a_memory n) (2 * Z.of_nat n + 6) 3.
Proof.
  unfold leaves, prepare_dpa_a2a_memory.
  eapply acct_bind; [apply create_with_acct|]. intros e1 f1 b1 [-> ->]. acct_step; [|apply acct_ret; congruence].
  eapply acct_bind; [apply create_with_acct|]. intros e2 f2 b2 [-> ->]. acct_step; [|acct_err fails_release].
  acct_step. acct_step; [|acct_err fails_recvbuf]. acct_step. acct_step; [|acct_err fails_recvbuf].
  assert (forall r, is_ok r = false -> fails (free_mmap_exports_lens r)) as Hlens
    by (intros r Hr; apply fails_bind; intros _; by apply fails_recvbuf).
  assert (forall r, is_ok r = false -> fails (free_mmap_exports r)) as Hexp
    by (intros r Hr; apply fails_bind; intros _; by apply Hlens).
  acct_step. acct_step; [|acct_err Hlens]. acct_step. acct_step; [|acct_err Hexp]. acct_step. acct_step; [|acct_err Hexp].
  acct_step. acct_step; [|acct_err Hexp]. acct_step. acct_step; [|acct_err fails_export_mmaps].
  eapply acct_bind.
  { apply (for_leaves 1). unfold leaves, export_mmap. acct_all. }
  intros [e i] f' b' Hl. cbn [fst snd] in Hl. acct_step; [|acct_err fails_exports_from].
  destruct (Hl ltac:(assumption) eq_refl) as (-> & -> & ->).
  eapply acct_mono; [apply tables_leaves|]. cbn. intros e' f' b' Ht He. destruct (Ht He) as [-> ->]. acct_end.
Qed.

(** *** Life of the resources *)

Lemma rdma_live_ok n : acct (prepare_dpa_a2a_rdmas n) (fun p f b => p.2 = true -> f = Z.of_nat n + 1 /\ b = 1).
Proof. eapply acct_mono; [apply rdmas_acct|]. intros [e l] f b [-> ->]. cbn. by intros ->. Qed.

Lemma destroy_dpa_fails r : is_ok r = false -> cleans (destroy_dpa r) (-2) 0.
Proof.
  intros H. unfold destroy_dpa. eapply cleans_bind; [by apply cleans_release|]. intros e He. by apply cleans_release.
Qed.

Lemma destroy_events_cleans n r : is_ok r = false -> cleans (destroy_events n r) (- Z.of_nat n - 3) (-4).
Proof.
  intros H. unfold destroy_events. do 3 apply cleans_free.
  eapply cleans_bind; [apply cleans_each; [done|apply uses_release]|]. intros e He. apply cleans_free.
  eapply cleans_bind; [by apply cleans_release|]. intros e' He'. eapply cleans_eq; [by apply destroy_dpa_fails|lia..].
Qed.

(** The objects of a successful start. *)
Lemma init_acct n l : acct (dpa_a2a_init n l) (fun p f b => is_ok p.1 = true -> p.2 = true ->
  f = 4 * Z.of_nat n + 10 /\ b = 8).
Proof.
  unfold dpa_a2a_init.
  eapply acct_bind; [apply context_stage|]. intros e1 f1 b1 [-> ->]. acct_step; [|apply acct_ret; cbn; congruence].
  eapply acct_bind; [apply events_stage|]. intros e2 f2 b2 [-> ->].
  acct_step; [|eapply acct_bind; [by apply destroy_dpa_fails|]; intros e f b _; by apply acct_ret].
  eapply acct_bind; [apply rdma_live_ok|]. intros [e3 live] f3 b3 Hl. cbn [snd] in Hl.
  acct_step; [|eapply acct_bind; [by apply destroy_events_cleans|]; intros e f b _; by apply acct_ret].
  eapply acct_bind; [apply memory_leaves|]. intros e4 f4 b4 Hm. acct_step.
  - apply acct_ret. cbn [fst snd]. intros _ ->. destruct (Hl eq_refl) as [-> ->], (Hm ltac:(assumption)) as [-> ->]. lia.
  - eapply (acct_bind _ _ (fun _ _ _ => True)); [done|]. intros e5 f5 b5 _.
    eapply (acct_bind _ _ (fun _ _ _ => True)); [done|]. intros e6 f6 b6 _. by apply acct_ret.
Qed.

Lemma uses_free_rdmas live n r : uses (free_rdmas live n r) (fun _ => (- Z.of_nat n - 1, -1)).
Proof.
  unfold free_rdmas. eapply uses_bind; [apply uses_check|]. intros ?. eapply uses_bind; [apply uses_release_to|]. intros e.
  eapply uses_bind; [apply uses_each, uses_destroy_rdma|]. intros e'. uses_all; f_equal; lia.
Qed.

(** The release of everything gives back two blocks less than the start has taken: the
    array of the kernel events and the local copy of the addresses are never freed. *)
Lemma destroy_acct n live : acct (dpa_a2a_destroy n live) (fun _ f b => f = - (4 * Z.of_nat n + 10) /\ b = -6).
Proof.
  pose proof (fun r => uses_each n release r uses_release) as Hr. pose proof (fun r => uses_free_rdmas live n r) as Hf.
  unfold dpa_a2a_destroy. acct_all.
Qed.

Lemma check_acct (c : bool) why : acct (check c why) (fun _ f b => c = true /\ f = 0 /\ b = 0).
Proof. destruct c; [by apply acct_ret|apply acct_undef]. Qed.

Lemma launch_acct req : acct (launch_kernel req) (fun p f b =>
  exists seq, req = Resources seq true /\ p.2 = Resources (u64 (seq + 1)) true /\ f = 0 /\ b = 0).
Proof.
  unfold launch_kernel. destruct req as [| |seq live]; [apply acct_undef..|].
  eapply acct_bind; [apply check_acct|]. intros [] f b (-> & -> & ->). acct_step. apply acct_ret. cbn.
  destruct H as [-> ->]. eauto.
Qed.

Lemma ialltoall_acct n l : acct (dpa_ialltoall n l NoResources) (fun p f b => is_ok p.1 = true ->
  p.2 = Resources 1 true /\ f = 4 * Z.of_nat n + 10 /\ b = 9).
Proof.
  unfold dpa_ialltoall. acct_step. acct_step; [|by apply acct_ret].
  eapply acct_bind; [apply init_acct|]. intros [e live] f1 b1 Hi. cbn [fst snd] in Hi.
  acct_step; [|acct_step; apply acct_ret; cbn; congruence].
  eapply acct_mono; [apply launch_acct|]. intros [e' req] f2 b2 (seq & [= <- ->] & Hreq & -> & ->) _. cbn [snd] in *.
  destruct (Hi eq_refl eq_refl) as [-> ->]. split; [exact Hreq|]. acct_end.
Qed.

Lemma alltoall_acct n l : acct (dpa_alltoall n l) (fun e f b => is_ok e = true -> f = 0 /\ b = 2).
Proof.
  unfold dpa_alltoall. eapply acct_bind; [apply ialltoall_acct|]. intros [e req] f b Hp. cbn [fst snd] in Hp.
  acct_step; [|apply acct_ret; congruence]. destruct (Hp eq_refl) as (-> & -> & ->). cbn [dpa_a2a_req_wait].
  acct_step. acct_step; [|apply acct_ret; congruence]. cbn [dpa_a2a_req_finalize].
  eapply (acct_bind _ _ (fun p f b => is_ok p.1 = true -> f = - (4 * Z.of_nat n + 10) /\ b = -7)).
  - eapply acct_bind; [apply destroy_acct|]. intros e' f' b' [-> ->]. acct_step; [acct_step|]; apply acct_ret; cbn; [|congruence].
    acct_end.
  - intros [e' req] f' b' Hf. apply acct_ret. cbn [fst]. intros He. destruct (Hf He) as [-> ->]. acct_end.
Qed.

(** An exchange that succeeds gives back every handle it has opened, and all the memory
    it has taken but for two blocks. *)
Theorem a2a_lifecycle n matching w w' : dpa_alltoall n matching w = Ret (DOCA_SUCCESS, w') ->
  fds w' = fds w /\ blocks w' = blocks w + 2.
Proof. intros H. destruct (alltoall_acct n matching _ _ _ H eq_refl). lia. Qed.

(** Every stage of the start-up but the last gives back what it has taken when it fails. *)
Theorem a2a_stages_release n matching w e w' :
  create_dpa_context matching w = Ret (e, w') \/ create_dpa_a2a_events n w = Ret (e, w') \/
    prepare_dpa_a2a_rdmas n w = Ret ((e, false), w') ->
  is_ok e = false -> fds w' = fds w /\ blocks w' = blocks w.
Proof.
  intros H He.
  assert (fds w' - fds w = 0 /\ blocks w' - blocks w = 0) by
    (destruct H as [H|[H|H]]; [apply context_stage in H|apply events_stage in H|apply rdmas_acct in H; by cbn in H];
     by rewrite He in H).
  lia.
Qed.

Lemma bind_undef {A B} (m : io A) (k : A -> io B) w why : m w = Undef why -> (m ≫= k) w = Undef why.
Proof. unfold mbind, io_bind. by intros ->. Qed.

(** Without a device of the wanted name the pointer of the device is read although nothing
    has written it. *)
Theorem no_device_undefined n matching p s wr st f fd b : Forall (eq false) matching ->
  dpa_ialltoall n matching NoResources (World p s wr [] st f fd b) = Undef Uninitialised.
Proof.
  intros H. assert (forall fd b, search_device matching (World p s wr [] st f fd b) = Ret (None, World p s wr [] st f fd b)) as E.
  { intros fd' b'. induction H as [|m l <- _ IH]; [done|]. cbn [search_device]. do 2 io_next. exact IH. }
  assert (forall fd b, open_dpa_device matching (World p s wr [] st f fd b) = Undef Uninitialised) as Eo.
  { intros fd' b'. unfold open_dpa_device. io_next. by io_run (E (fd' + 1) b'). }
  unfold dpa_ialltoall, dpa_a2a_init, create_dpa_context. io_next.
  do 2 apply bind_undef. apply bind_undef, Eo.
Qed.

(** ** Examples *)

(** An environment whose first [k] calls succeed and whose next one fails. *)
Definition failing (k : nat) : world := World [] [] [] (replicate k DOCA_SUCCESS ++ [DOCA_ERROR_NO_MEMORY]) [] None 0 0.

(** The array of the connections' handles can not be allocated: the connections are
    destroyed, but the start-up goes on, and the kernel gets a table that was never written. *)
Example handlers_allocation_ignored :
  (exists w, prepare_dpa_a2a_rdmas 2 (failing 25) = Ret ((DOCA_SUCCESS, false), w)) /\
  dpa_ialltoall 2 [true] NoResources (failing 54) = Undef Uninitialised.
Proof. split; [eexists; vm_compute; reflexivity|vm_compute; reflexivity]. Qed.

(** A memory map whose handle can not be read is not destroyed. *)
Example failed_memory_leaks :
  exists w, dpa_ialltoall 2 [true] NoResources (failing 79) = Ret ((DOCA_ERROR_NO_MEMORY, FreedResources), w) /\
    fds w = 1 /\ blocks w = 1.
Proof. eexists. split; [vm_compute; reflexivity|done]. Qed.

(** The request still points to the freed resources, which the next call uses. *)
Example failed_request_dangles :
  exists w, dpa_ialltoall 2 [true] NoResources (failing 1) = Ret ((DOCA_ERROR_NO_MEMORY, FreedResources), w) /\
    dpa_ialltoall 2 [true] FreedResources w = Undef DanglingPointer.
Proof. eexists. split; vm_compute; reflexivity. Qed.

Lemma a2a_lifecycle_witness :
  exists w', dpa_alltoall 2 [false; true] (World [] [] [] [DOCA_SUCCESS; DOCA_SUCCESS; DOCA_ERROR_DRIVER] [] None 0 0)
      = Ret (DOCA_SUCCESS, w') /\ fds w' = 0 /\ blocks w' = 2.
Proof.
  destruct (dpa_alltoall 2 [false; true] (World [] [] [] [DOCA_SUCCESS; DOCA_SUCCESS; DOCA_ERROR_DRIVER] [] None 0 0))
    as [[e w']|] eqn:E; [|vm_compute in E; discriminate E].
  assert (e = DOCA_SUCCESS) as -> by (vm_compute in E; by injection E).
  exists w'. split; [done|]. exact (a2a_lifecycle _ _ _ _ E).
Defined.
