(* ===== verification/Json.v ===== *)
(** * JSON files (what applications/nat and applications/ipsec_security_gw share)

    json-c is not part of the repository: its calls are the class [JsonC], a value of [json]
    being a [struct json_object *], the null pointer included; [json_tree] is an
    implementation on trees, with which the definitions can be run.  Both applications read
    their file with the same code, [allocate_json_buffer] and [read_document]; files, memory
    and the calls that fail are those of [CommChannel]. *)
From S2P Require Import Prelude CString Policy FlowValues CommChannel.

Inductive json_type : Type :=
| json_type_null | json_type_boolean | json_type_double | json_type_int
| json_type_object | json_type_array | json_type_string.

#[export] Instance json_type_eq_dec : EqDecision json_type.
Proof. solve_decision. Defined.

(** [json_object_object_get_ex] answers the member or that there is none; the null pointer
    has no members. *)
Class JsonC : Type := {
  json : Type;
  json_tokener_parse : list ascii -> json;
  json_object_object_get_ex : json -> list ascii -> option json;
  json_object_get_type : json -> json_type;
  json_object_get_string : json -> list ascii;
  json_object_get_int : json -> Z;
  json_object_get_int64 : json -> Z;
  json_object_get_boolean : json -> bool;
  json_object_array_length : json -> Z;
  json_object_array_get_idx : json -> Z -> json;
  json_null_empty j name : json_object_get_type j = json_type_null -> json_object_object_get_ex j name = None
}.

Definition is_type {J : JsonC} (t : json_type) (j : json) : bool := bool_decide (json_object_get_type j = t).

Section documents.
Context {J : JsonC}.

(** What the readers of one member share: the member, of the expected type. *)
Definition member (j : json) (name : list ascii) (t : json_type) : res json :=
  match json_object_object_get_ex j name with
  | None => Err DOCA_ERROR_INVALID_VALUE
  | Some v => if is_type t v then Ok v else Err DOCA_ERROR_INVALID_VALUE
  end.

Definition ip_member (j : json) (name : list ascii) : res Z :=
  match member j name json_type_string with
  | Ok v => parse_ipv4_str (json_object_get_string v)
  | Err e => Err e
  end.

Definition int_member (j : json) (name : list ascii) : res Z :=
  match member j name json_type_int with
  | Ok v => Ok (json_object_get_int v)
  | Err e => Err e
  end.

(** [n] turns from index [i]: the entries written, or the error that ended the loop. *)
Fixpoint rules_loop {R} (read : json -> res R) (rules : json) (i : Z) (n : nat) : res (list R) :=
  match n with
  | O => Ok []
  | S n =>
      match read (json_object_array_get_idx rules i) with
      | Err e => Err e
      | Ok r => match rules_loop read rules (i + 1) n with Err e => Err e | Ok l => Ok (r :: l) end
      end
  end.

(** ** The file

    [garbage n] is what a fresh block of [n] bytes holds. *)
Context (garbage : nat -> list Z).

(** [fread] into a block that holds [old]: the environment may read less than asked. *)
Definition fread (data old : list Z) : io (list Z) := fun w =>
  let len := Z.of_nat (length data) in
  let n := Z.to_nat (match writes w with [] => len | n :: _ => Z.min n len end) in
  Ret (take n data ++ drop n old,
       World (polls w) (sends w) (tail (writes w)) (calls w) (sent w) (file w) (fds w) (blocks w)).

(** The length of the file and the block for it; the block is missing when the end of the
    file can not be found, which is not an error.  [ftell] fails with a negative length. *)
Definition allocate_json_buffer (data : list Z) : io (res (nat * option (list Z))) :=
  seek ← succeeds;
  if (seek : bool) then
    told ← succeeds;
    if (told : bool) then
      p ← calloc;
      if (p : bool) then
        rewound ← succeeds;
        if (rewound : bool) then mret (Ok (length data, Some (garbage (length data + 1))))
        else free true;; mret (Err DOCA_ERROR_IO_FAILED)
      else mret (Err DOCA_ERROR_NO_MEMORY)
    else mret (Err DOCA_ERROR_IO_FAILED)
  else mret (Ok (O, None)).

(** From [fopen] to [json_tokener_parse]: the file is closed, the text and the document are
    allocated.  The block is handed to [json_tokener_parse] as a string: it has to hold a
    NUL. *)
Definition read_document : io (res json) :=
  json_fp ← open_rdwr;
  match json_fp with
  | None => mret (Err DOCA_ERROR_IO_FAILED)
  | Some data =>
      b ← allocate_json_buffer data;
      match b with
      | Err result => close;; mret (Err result)
      | Ok (_, None) => close;; undef NullDeref
      | Ok (file_length, Some json_data) =>
          json_data ← fread (take file_length data) json_data;
          close;;
          match cstr_of (chars json_data) with
          | None => undef OutOfBounds
          | Some text =>
              let parsed_json := json_tokener_parse text in
              (if is_type json_type_null parsed_json then mret tt else allocated);;
              mret (Ok parsed_json)
          end
      end
  end.

(** ** What is read *)

Lemma rules_loop_ok {R} (read : json -> res R) rules n : forall i rs,
  rules_loop read rules i n = Ok rs <->
  length rs = n /\ forall k r, rs !! k = Some r -> read (json_object_array_get_idx rules (i + Z.of_nat k)) = Ok r.
Proof.
  induction n as [|n IH]; intros i rs; cbn.
  - split; [intros [= <-]; split; [done|]; intros k r; by rewrite lookup_nil|].
    intros [H _]. by apply nil_length_inv in H as ->.
  - split.
    + destruct (read _) as [r0|] eqn:E; [|done]. destruct (rules_loop read rules (i + 1) n) as [l|] eqn:El; [|done].
      intros [= <-]. apply IH in El as [Hl Hr]. split; [by cbn; f_equal|]. intros [|k] r; cbn.
      * intros [= <-]. by rewrite Z.add_0_r.
      * intros Hk. apply Hr in Hk. by replace (i + Z.of_nat (S k)) with (i + 1 + Z.of_nat k) by lia.
    + intros [Hl Hr]. destruct rs as [|r0 l]; [done|]. injection Hl as Hl.
      pose proof (Hr O r0 eq_refl) as E. rewrite Z.add_0_r in E. rewrite E.
      replace (rules_loop read rules (i + 1) n) with (Ok l); [done|]. symmetry. apply IH. split; [done|].
      intros k r Hk. specialize (Hr (S k) r Hk). by replace (i + 1 + Z.of_nat k) with (i + Z.of_nat (S k)) by lia.
Qed.

Definition text_bytes (data : list Z) : Prop := Forall (fun b => 0 < b < 256) data.

Lemma chars_no_nul data : text_bytes data -> no_nul (chars data).
Proof.
  intros H Hin. change (NUL ∈ (fun b => ascii_of_nat (Z.to_nat b)) <$> data) in Hin.
  apply list_elem_of_fmap in Hin as (b & E & Hb). unfold text_bytes in H; rewrite Forall_forall in H. specialize (H b Hb).
  apply (f_equal nat_of_ascii) in E. rewrite nat_ascii_embedding in E by lia.
  change (nat_of_ascii NUL) with O in E. lia.
Qed.

Lemma chars_app l k : chars (l ++ k) = chars l ++ chars k.
Proof. apply map_app. Qed.

Lemma cstr_of_none s : no_nul s -> cstr_of s = None.
Proof.
  intros H. induction s as [|c s IH]; [done|]. cbn. rewrite bool_decide_eq_false_2 by (intros ->; apply H; set_solver).
  rewrite IH; [done|]. intros ?. apply H. set_solver.
Qed.

Lemma drop_last_nul (l : list Z) n b : length l = S n -> last l = Some b -> drop n l = [b].
Proof.
  intros Hl Hb. apply last_Some in Hb as [k ->]. rewrite length_app in Hl. cbn in Hl.
  rewrite drop_app_length' by lia. done.
Qed.

(** The document when every call succeeds. *)
Lemma read_document_reads data w :
  calls w = [] -> writes w = [] -> file w = Some data -> length (garbage (length data + 1)) = (length data + 1)%nat ->
  read_document w =
    match cstr_of (chars (data ++ drop (length data) (garbage (length data + 1)))) with
    | None => Undef OutOfBounds
    | Some text =>
        let j := json_tokener_parse text in
        Ret (Ok j, set_blocks (blocks w + 1 + if is_type json_type_null j then 0 else 1) w)
    end.
Proof.
  destruct w as [p s wr c st f fd b]. cbn. intros -> -> -> Hg. unfold read_document.
  cbv [open_rdwr allocate_json_buffer mbind io_bind succeeds call calloc get_file opened fread close free
       allocated released set_fds set_blocks mret io_ret].
  repeat (cbn -[cstr_of chars is_ok]; change (is_ok DOCA_SUCCESS) with true).
  rewrite firstn_all, Nat2Z.id, firstn_all.
  destruct (cstr_of _) as [text|]; [|done]. cbn.
  destruct (is_type json_type_null _); cbn; do 3 f_equal; lia.
Qed.

Lemma fread_uses data old : uses (fread data old) (fun _ => (0, 0)).
Proof. intros w a w' H. unfold fread in H. inv_ret. cbn. lia. Qed.

Lemma allocate_acct data :
  acct (allocate_json_buffer data) (fun r f b =>
    f = 0 /\ b = match r with Ok (_, Some _) => 1 | _ => 0 end /\ r <> Err DOCA_SUCCESS).
Proof. unfold allocate_json_buffer. acct_all. Qed.
#[local] Hint Resolve fread_uses allocate_acct uses_open_rdwr uses_allocated : acct.

(** The blocks of a document: none for the null pointer. *)
Definition doc_blocks (j : json) : Z := Z.b2z (negb (is_type json_type_null j)).

Lemma read_document_acct :
  acct read_document (fun r f b =>
    f = 0 /\ b = match r with Ok j => 1 + doc_blocks j | Err _ => 0 end /\ r <> Err DOCA_SUCCESS).
Proof.
  unfold read_document. acct_step. destruct x as [data|]; [|acct_all].
  acct_step. destruct x as [[len [buf|]]|err]; [|acct_step; apply acct_undef|acct_all].
  acct_step. acct_step. destruct (cstr_of _) as [text|]; [|apply acct_undef].
  eapply acct_bind with (P := fun _ f b => f = 0 /\ b = doc_blocks (json_tokener_parse text)).
  { unfold doc_blocks. destruct (is_type _ _); acct_all. }
  intros _ f' b' [-> ->]. acct_all.
Qed.
End documents.

(** ** An implementation on trees *)

Inductive tree : Type :=
| TNull | TBool (b : bool) | TInt (v : Z) | TString (s : list ascii) | TArray (l : list tree) | TObject (l : list (list ascii * tree)).

Fixpoint assoc (name : list ascii) (l : list (list ascii * tree)) : option tree :=
  match l with
  | [] => None
  | (n, v) :: l => if streq n name then Some v else assoc name l
  end.

(** The values of [json_object_get_int] and [json_object_get_int64] are clamped to the range
    of their type. *)
#[refine] Definition json_tree (parse : list ascii -> tree) : JsonC := {|
  json := tree;
  json_tokener_parse := parse;
  json_object_object_get_ex := fun j name => match j with TObject l => assoc name l | _ => None end;
  json_object_get_type := fun j =>
    match j with
    | TNull => json_type_null | TBool _ => json_type_boolean | TInt _ => json_type_int | TString _ => json_type_string
    | TArray _ => json_type_array | TObject _ => json_type_object
    end;
  json_object_get_string := fun j => match j with TString s => s | _ => [] end;
  json_object_get_int := fun j => match j with TInt v => Z.max (- 2 ^ 31) (Z.min v (2 ^ 31 - 1)) | _ => 0 end;
  json_object_get_int64 := fun j => match j with TInt v => Z.max (- 2 ^ 63) (Z.min v (2 ^ 63 - 1)) | _ => 0 end;
  json_object_get_boolean := fun j => match j with TBool b => b | _ => false end;
  json_object_array_length := fun j => match j with TArray l => Z.of_nat (length l) | _ => 0 end;
  json_object_array_get_idx := fun j i => match j with TArray l => default TNull (l !! Z.to_nat i) | _ => TNull end
|}.
Proof. by intros []. Defined.

