(* ===== verification/IpsecConfig.v ===== *)
(** * IPsec gateway: configuration (applications/ipsec_security_gw/config.c)

    The callbacks of the command line and [ipsec_security_gw_parse_config]: the options, the
    encryption and decryption rules and their keys from the JSON file.  Documents are those
    of [Json], rules and the table of IPv6 addresses those of [Policy], memory and the calls
    that fail those of [CommChannel]. *)
From S2P Require Import Prelude CString AntiReplay FlowTypes FlowValues RteHash Inet6 Policy CommChannel Json.

Definition MAX_FILE_NAME : nat := 255.
Definition MAX_SOCKET_PATH_NAME : nat := 108.
Definition DOCA_DEVINFO_PCI_ADDR_SIZE : nat := 13.
Definition DOCA_DEVINFO_IFACE_NAME_SIZE : nat := 256.

(** ** The configuration *)

Inductive gw_flow_mode : Type := IPSEC_SECURITY_GW_VNF | IPSEC_SECURITY_GW_SWITCH.

Inductive gw_esp_offload : Type :=
| IPSEC_SECURITY_GW_ESP_OFFLOAD_BOTH | IPSEC_SECURITY_GW_ESP_OFFLOAD_ENCAP
| IPSEC_SECURITY_GW_ESP_OFFLOAD_DECAP | IPSEC_SECURITY_GW_ESP_OFFLOAD_NONE.

Inductive gw_perf : Type :=
| IPSEC_SECURITY_GW_PERF_NONE | IPSEC_SECURITY_GW_PERF_INSERTION_RATE
| IPSEC_SECURITY_GW_PERF_BW | IPSEC_SECURITY_GW_PERF_BOTH.

Inductive gw_fwd_syndrome : Type := IPSEC_SECURITY_GW_FWD_SYNDROME_DROP | IPSEC_SECURITY_GW_FWD_SYNDROME_RSS.

#[export] Instance gw_flow_mode_eq_dec : EqDecision gw_flow_mode.
Proof. solve_decision. Defined.
#[export] Instance gw_esp_offload_eq_dec : EqDecision gw_esp_offload.
Proof. solve_decision. Defined.
#[export] Instance gw_perf_eq_dec : EqDecision gw_perf.
Proof. solve_decision. Defined.

(** The members of [struct ipsec_security_gw_config] that the object ["config"] of the file
    sets. *)
Record gw_options : Type := Options {
  sw_sn_inc_enable : bool; sw_antireplay : bool; debug_mode : bool;
  flow_mode : gw_flow_mode; offload : gw_esp_offload; perf_measurement : gw_perf;
  syndrome_fwd : gw_fwd_syndrome; sn_initial : Z
}.

Definition set_sw_sn_inc v o := Options v (sw_antireplay o) (debug_mode o) (flow_mode o) (offload o)
  (perf_measurement o) (syndrome_fwd o) (sn_initial o).
Definition set_sw_antireplay v o := Options (sw_sn_inc_enable o) v (debug_mode o) (flow_mode o) (offload o)
  (perf_measurement o) (syndrome_fwd o) (sn_initial o).
Definition set_debug_mode v o := Options (sw_sn_inc_enable o) (sw_antireplay o) v (flow_mode o) (offload o)
  (perf_measurement o) (syndrome_fwd o) (sn_initial o).
Definition set_flow_mode v o := Options (sw_sn_inc_enable o) (sw_antireplay o) (debug_mode o) v (offload o)
  (perf_measurement o) (syndrome_fwd o) (sn_initial o).
Definition set_offload v o := Options (sw_sn_inc_enable o) (sw_antireplay o) (debug_mode o) (flow_mode o) v
  (perf_measurement o) (syndrome_fwd o) (sn_initial o).
Definition set_perf v o := Options (sw_sn_inc_enable o) (sw_antireplay o) (debug_mode o) (flow_mode o) (offload o)
  v (syndrome_fwd o) (sn_initial o).
Definition set_syndrome_fwd v o := Options (sw_sn_inc_enable o) (sw_antireplay o) (debug_mode o) (flow_mode o)
  (offload o) (perf_measurement o) v (sn_initial o).
Definition set_sn_initial v o := Options (sw_sn_inc_enable o) (sw_antireplay o) (debug_mode o) (flow_mode o)
  (offload o) (perf_measurement o) (syndrome_fwd o) v.

(** [struct ipsec_security_gw_dev_info] *)
Record dev_info : Type := DevInfo {
  pci_addr : list ascii; iface_name : list ascii; open_by_pci : bool; open_by_name : bool; has_device : bool
}.

(** A pointer to an array of rules. *)
Inductive array (A : Type) : Type := Null | Freed | Live (l : list A).
#[global] Arguments Null {A}.
#[global] Arguments Freed {A}.
#[global] Arguments Live {A} l.

(** [struct ipsec_security_gw_rules] *)
Record gw_rules : Type := GwRules {
  encrypt_rules : array encrypt_rule; decrypt_rules : array decrypt_rule;
  nb_encrypted_rules : Z; nb_decrypted_rules : Z; nb_rules : Z
}.

Section config.
Context `{RteHash} {J : JsonC}.

Record ipsec_security_gw_config : Type := Config {
  options : gw_options; mode : gw_mode; json_path : list ascii;
  ip6_table : option rte_hash;      (** null before it is created *)
  app_rules : gw_rules;
  secured_dev : dev_info; unsecured_dev : dev_info;
  socket_path : list ascii; socket_conf : bool; nb_cores : Z
}.

Definition set_options v c := Config v (mode c) (json_path c) (ip6_table c) (app_rules c) (secured_dev c)
  (unsecured_dev c) (socket_path c) (socket_conf c) (nb_cores c).
Definition set_ip6_table v c := Config (options c) (mode c) (json_path c) v (app_rules c) (secured_dev c)
  (unsecured_dev c) (socket_path c) (socket_conf c) (nb_cores c).
Definition set_app_rules v c := Config (options c) (mode c) (json_path c) (ip6_table c) v (secured_dev c)
  (unsecured_dev c) (socket_path c) (socket_conf c) (nb_cores c).
Definition set_secured_dev v c := Config (options c) (mode c) (json_path c) (ip6_table c) (app_rules c) v
  (unsecured_dev c) (socket_path c) (socket_conf c) (nb_cores c).
Definition set_unsecured_dev v c := Config (options c) (mode c) (json_path c) (ip6_table c) (app_rules c)
  (secured_dev c) v (socket_path c) (socket_conf c) (nb_cores c).

(** ** Callbacks of the command line *)

(** [strnlen(param, size) == size] of a C string. *)
Definition too_long (param : list ascii) (size : nat) : bool := (Nat.min (length param) size =? size)%nat.

Definition parse_pci_param (param : list ascii) (d : dev_info) : outcome (dev_info * doca_error_t) :=
  if too_long param DOCA_DEVINFO_PCI_ADDR_SIZE then Ret (d, DOCA_ERROR_INVALID_VALUE)
  else
    let* (addr, _) := strlcpy (pci_addr d) param DOCA_DEVINFO_PCI_ADDR_SIZE in
    Ret (DevInfo addr (iface_name d) true (open_by_name d) true, DOCA_SUCCESS).

Definition parse_iface_name_param (param : list ascii) (d : dev_info) : outcome (dev_info * doca_error_t) :=
  if too_long param DOCA_DEVINFO_IFACE_NAME_SIZE then Ret (d, DOCA_ERROR_INVALID_VALUE)
  else
    let* (name, _) := strlcpy (iface_name d) param DOCA_DEVINFO_IFACE_NAME_SIZE in
    Ret (DevInfo (pci_addr d) name (open_by_pci d) true true, DOCA_SUCCESS).

Definition secured_callback param c : outcome (ipsec_security_gw_config * doca_error_t) :=
  let* (d, result) := parse_pci_param param (secured_dev c) in Ret (set_secured_dev d c, result).
Definition unsecured_callback param c : outcome (ipsec_security_gw_config * doca_error_t) :=
  let* (d, result) := parse_pci_param param (unsecured_dev c) in Ret (set_unsecured_dev d c, result).
Definition secured_name_callback param c : outcome (ipsec_security_gw_config * doca_error_t) :=
  let* (d, result) := parse_iface_name_param param (secured_dev c) in Ret (set_secured_dev d c, result).
Definition unsecured_name_callback param c : outcome (ipsec_security_gw_config * doca_error_t) :=
  let* (d, result) := parse_iface_name_param param (unsecured_dev c) in Ret (set_unsecured_dev d c, result).

(** The low byte of the [int] that [param] points to. *)
Definition nb_cores_callback (param : Z) (c : ipsec_security_gw_config) : ipsec_security_gw_config * doca_error_t :=
  (Config (options c) (mode c) (json_path c) (ip6_table c) (app_rules c) (secured_dev c) (unsecured_dev c)
     (socket_path c) (socket_conf c) (u8 param), DOCA_SUCCESS).

Definition debug_mode_callback (param : bool) (c : ipsec_security_gw_config) : ipsec_security_gw_config * doca_error_t :=
  (set_options (set_debug_mode param (options c)) c, DOCA_SUCCESS).

(** [exists_file]: the answer of [access(json_path, F_OK)]. *)
Definition config_callback (exists_file : bool) (param : list ascii) (c : ipsec_security_gw_config)
    : outcome (ipsec_security_gw_config * doca_error_t) :=
  if too_long param MAX_FILE_NAME then Ret (c, DOCA_ERROR_INVALID_VALUE)
  else if negb exists_file then Ret (c, DOCA_ERROR_NOT_FOUND)
  else
    let* (path, _) := strlcpy (json_path c) param MAX_FILE_NAME in
    Ret (Config (options c) (mode c) path (ip6_table c) (app_rules c) (secured_dev c) (unsecured_dev c)
           (socket_path c) (socket_conf c) (nb_cores c), DOCA_SUCCESS).

Definition offload_mode_callback (param : list ascii) (c : ipsec_security_gw_config)
    : ipsec_security_gw_config * doca_error_t :=
  let set m := (Config (options c) m (json_path c) (ip6_table c) (app_rules c) (secured_dev c) (unsecured_dev c)
                  (socket_path c) (socket_conf c) (nb_cores c), DOCA_SUCCESS) in
  if streq param (lit "tunnel") then set IPSEC_SECURITY_GW_TUNNEL
  else if streq param (lit "transport") then set IPSEC_SECURITY_GW_TRANSPORT
  else if streq param (lit "udp_transport") then set IPSEC_SECURITY_GW_UDP_TRANSPORT
  else (c, DOCA_ERROR_INVALID_VALUE).

Definition socket_callback (param : list ascii) (c : ipsec_security_gw_config)
    : outcome (ipsec_security_gw_config * doca_error_t) :=
  if too_long param MAX_SOCKET_PATH_NAME then Ret (c, DOCA_ERROR_INVALID_VALUE)
  else
    let* (path, _) := strlcpy (socket_path c) param MAX_SOCKET_PATH_NAME in
    Ret (Config (options c) (mode c) (json_path c) (ip6_table c) (app_rules c) (secured_dev c) (unsecured_dev c)
           path true (nb_cores c), DOCA_SUCCESS).

(** Eight parameters, created and registered, the flag whose registration is not checked,
    and the version callback. *)
Definition register_ipsec_security_gw_params : io doca_error_t :=
  result ← cfg_sets 17;
  if negb (is_ok result) then mret result
  else
    call;;
    call.

(** ** Keys *)

(** In the C locale; other values are left alone. *)
Definition tolower (k : Z) : Z := if (65 <=? k) && (k <=? 90) then k + 32 else k.

(** The [uint8_t] a character of a key stands for. *)
Definition key_digit (c : ascii) : option Z :=
  let k := code c in
  if (48 <=? k) && (k <=? 57) then Some (u8 (k - 48))
  else if (97 <=? tolower k) && (tolower k <=? 102) then Some (u8 (k - 97 + 10))
  else None.

(** From index [i] on. *)
Fixpoint parse_hex_to_bytes (i : nat) (key_hex : list ascii) (key : list Z) : outcome (res (list Z)) :=
  match key_hex with
  | [] => Ret (Ok key)
  | c :: key_hex =>
      match key_digit c with
      | None => Ret (Err DOCA_ERROR_INVALID_VALUE)
      | Some digit =>
          let* b := of_option OutOfBounds (key !! (i / 2)%nat) in
          parse_hex_to_bytes (S i) key_hex (<[(i / 2)%nat := u8 (Z.shiftl b 4 + digit)]> key)
      end
  end.

(** [key] is the array [enc_key_data] of the rule. *)
Definition create_key (cur_rule : json) (key_type : doca_flow_crypto_key_type) (key : list Z)
    : outcome (res (list Z)) :=
  match member cur_rule (lit "key") json_type_string with
  | Err e => Ret (Err e)
  | Ok json_key =>
      let key_str := json_object_get_string json_key in
      let max_key_size := if bool_decide (key_type = DOCA_FLOW_CRYPTO_KEY_128) then 32%nat else 64%nat in
      let key_len := Nat.min (length key_str) (max_key_size + 1) in
      if (key_len =? max_key_size + 1)%nat then Ret (Err DOCA_ERROR_INVALID_VALUE)
      else if negb (key_len mod 2 =? 0)%nat then Ret (Err DOCA_ERROR_INVALID_VALUE)
      else parse_hex_to_bytes 0 (take key_len key_str) key
  end.

(** ** Members of a rule *)

(** A member that may be missing. *)
Definition optional {A} (j : json) (name : list ascii) (t : json_type) (missing : A) (read : json -> res A) : res A :=
  match json_object_object_get_ex j name with
  | None => Ok missing
  | Some v => if is_type t v then read v else Err DOCA_ERROR_INVALID_VALUE
  end.

Definition create_key_type (cur_rule : json) : res doca_flow_crypto_key_type :=
  optional cur_rule (lit "key-type") json_type_int DOCA_FLOW_CRYPTO_KEY_256 (fun v =>
    let key_len := json_object_get_int v in
    if key_len =? 128 then Ok DOCA_FLOW_CRYPTO_KEY_128
    else if key_len =? 256 then Ok DOCA_FLOW_CRYPTO_KEY_256
    else Err DOCA_ERROR_INVALID_VALUE).

Definition create_salt (cur_rule : json) : res Z :=
  optional cur_rule (lit "salt") json_type_int 6 (fun v => Ok (u32 (json_object_get_int64 v))).

Definition parse_icv_length (cur_rule : json) : res doca_flow_crypto_icv_len :=
  optional cur_rule (lit "icv-length") json_type_int DOCA_FLOW_CRYPTO_ICV_LENGTH_16 (fun v =>
    let icv_length_int := json_object_get_int v in
    if icv_length_int =? 8 then Ok DOCA_FLOW_CRYPTO_ICV_LENGTH_8
    else if icv_length_int =? 12 then Ok DOCA_FLOW_CRYPTO_ICV_LENGTH_12
    else if icv_length_int =? 16 then Ok DOCA_FLOW_CRYPTO_ICV_LENGTH_16
    else Err DOCA_ERROR_INVALID_VALUE).

Definition create_protocol (cur_rule : json) : res doca_flow_l4_type_ext :=
  match member cur_rule (lit "protocol") json_type_string with
  | Err e => Err e
  | Ok v => parse_protocol_string (json_object_get_string v)
  end.

Definition create_l3_type (cur_rule : json) (ip_version_string : list ascii) : res doca_flow_l3_type :=
  optional cur_rule ip_version_string json_type_int DOCA_FLOW_L3_TYPE_IP4 (fun v =>
    let ip := json_object_get_int v in
    if ip =? 4 then Ok DOCA_FLOW_L3_TYPE_IP4
    else if ip =? 6 then Ok DOCA_FLOW_L3_TYPE_IP6
    else Err DOCA_ERROR_INVALID_VALUE).

Definition create_ipv4 (cur_rule : json) (ip_type : list ascii) : res Z := ip_member cur_rule ip_type.

Definition create_ipv6 (cur_rule : json) (ip_type : list ascii) : res (list Z) :=
  match member cur_rule ip_type json_type_string with
  | Err e => Err e
  | Ok v => parse_ipv6_str (json_object_get_string v)
  end.

Definition create_port (cur_rule : json) (port_type : list ascii) : res Z := int_member cur_rule port_type.

Definition create_spi (cur_rule : json) : res Z :=
  match member cur_rule (lit "spi") json_type_int with
  | Err e => Err e
  | Ok v => Ok (u32 (json_object_get_int64 v))
  end.

(** ** Rules

    The readers of a rule run on the table of IPv6 addresses and stop at the first error. *)
Definition reader (A : Type) : Type := rte_hash -> outcome (res A * rte_hash).

#[local] Instance reader_ret : MRet reader := fun A a t => Ret (Ok a, t).
#[local] Instance reader_bind : MBind reader := fun A B k m t =>
  let* (r, t) := m t in
  match r with Ok a => k a t | Err e => Ret (Err e, t) end.

Definition reads {A} (r : res A) : reader A := fun t => Ret (r, t).
Definition runs {A} (o : outcome (res A)) : reader A := fun t => let* r := o in Ret (r, t).

(** [rte_hash_lookup], then [rte_hash_add_key]. *)
Definition knows_ip6 (words : list Z) : reader unit := fun t =>
  let (t, result) := add_ip6 words t in
  Ret (if is_ok result then Ok tt else Err result, t).

(** The words of the address union that are written, [ip] being the zeroed ones. *)
Definition parse_encrypt_ipv4 (cur_rule : json) (ip : list Z) : reader (list Z) :=
  src ← reads (create_ipv4 cur_rule (lit "src-ip"));
  dst ← reads (create_ipv4 cur_rule (lit "dst-ip"));
  mret (<[1%nat := dst]> (<[0%nat := src]> ip)).

Definition parse_encrypt_ipv6 (cur_rule : json) : reader (list Z) :=
  src ← reads (create_ipv6 cur_rule (lit "src-ip"));
  dst ← reads (create_ipv6 cur_rule (lit "dst-ip"));
  knows_ip6 src;;
  knows_ip6 dst;;
  mret (src ++ dst).

Definition parse_encrypt_encap_ip (cur_rule : json) (l3 : doca_flow_l3_type) (ip : list Z) : reader (list Z) :=
  if bool_decide (l3 = DOCA_FLOW_L3_TYPE_IP4) then
    dst ← reads (create_ipv4 cur_rule (lit "encap-dst-ip"));
    mret (<[0%nat := dst]> ip)
  else reads (create_ipv6 cur_rule (lit "encap-dst-ip")).

(** From [create_key_type] to [create_salt]. *)
Definition parse_rule_sa (cur_rule : json) (sa : sa_attrs) : reader sa_attrs :=
  key_type ← reads (create_key_type cur_rule);
  key ← runs (create_key cur_rule key_type (enc_key_data sa));
  icv ← reads (parse_icv_length cur_rule);
  salt ← reads (create_salt cur_rule);
  mret (SaAttrs icv key_type key salt).

(** The bodies of the two loops, on a rule from [calloc]. *)
Definition read_decrypt_rule (cur_rule : json) : reader decrypt_rule :=
  let rule := decrypt_rule_zero in
  l3 ← reads (create_l3_type cur_rule (lit "ip-version"));
  dst ← (if bool_decide (l3 = DOCA_FLOW_L3_TYPE_IP4) then
           dst ← reads (create_ipv4 cur_rule (lit "dst-ip"));
           mret (<[0%nat := dst]> (dr_dst_ip rule))
         else reads (create_ipv6 cur_rule (lit "dst-ip")));
  spi ← reads (create_spi cur_rule);
  inner ← reads (create_l3_type cur_rule (lit "inner-ip-version"));
  sa ← parse_rule_sa cur_rule (dr_sa rule);
  mret (DecryptRule l3 dst spi inner sa (antireplay rule)).

Definition read_encrypt_rule (m : gw_mode) (cur_rule : json) : reader encrypt_rule :=
  let rule := encrypt_rule_zero in
  l3 ← reads (create_l3_type cur_rule (lit "ip-version"));
  protocol ← reads (create_protocol cur_rule);
  encap_l3 ← reads (create_l3_type cur_rule (lit "encap-ip-version"));
  ip ← (if bool_decide (l3 = DOCA_FLOW_L3_TYPE_IP4) then parse_encrypt_ipv4 cur_rule (er_ip rule)
        else parse_encrypt_ipv6 cur_rule);
  encap_dst ← (if bool_decide (m = IPSEC_SECURITY_GW_TUNNEL)
               then parse_encrypt_encap_ip cur_rule encap_l3 (encap_dst_ip rule) else mret (encap_dst_ip rule));
  src_port ← reads (create_port cur_rule (lit "src-port"));
  dst_port ← reads (create_port cur_rule (lit "dst-port"));
  spi ← reads (create_spi cur_rule);
  sa ← parse_rule_sa cur_rule (er_sa rule);
  mret (EncryptRule l3 protocol ip src_port dst_port encap_l3 encap_dst spi (current_sn rule) sa).

(** [n] turns from index [i]. *)
Fixpoint read_rules {R} (read : json -> reader R) (json_rules : json) (i : Z) (n : nat) : reader (list R) :=
  match n with
  | O => mret []
  | S n =>
      r ← read (json_object_array_get_idx json_rules i);
      rs ← read_rules read json_rules (i + 1) n;
      mret (r :: rs)
  end.

Definition parse_json_decrypt_rules (json_rules : json) (nb_decrypted_rules : Z) : reader (list decrypt_rule) :=
  read_rules read_decrypt_rule json_rules 0 (Z.to_nat nb_decrypted_rules).

Definition parse_json_encrypt_rules (json_rules : json) (m : gw_mode) (nb_encrypted_rules : Z)
    : reader (list encrypt_rule) :=
  read_rules (read_encrypt_rule m) json_rules 0 (Z.to_nat nb_encrypted_rules).

(** ** Options *)

(** A parser of one option: the options it leaves and its result. *)
Definition option_parser : Type := json -> gw_options -> gw_options * doca_error_t.

Definition option_member (name : string) (t : json_type) (read : json -> gw_options -> gw_options * doca_error_t)
    : option_parser := fun json_config o =>
  match json_object_object_get_ex json_config (lit name) with
  | None => (o, DOCA_SUCCESS)
  | Some v => if is_type t v then read v o else (o, DOCA_ERROR_INVALID_VALUE)
  end.

Definition parse_esp_offload : option_parser := option_member "esp-header-offload" json_type_string (fun v o =>
  let offload_str := json_object_get_string v in
  if streq offload_str (lit "both") then (set_offload IPSEC_SECURITY_GW_ESP_OFFLOAD_BOTH o, DOCA_SUCCESS)
  else if streq offload_str (lit "encap") then (set_offload IPSEC_SECURITY_GW_ESP_OFFLOAD_ENCAP o, DOCA_SUCCESS)
  else if streq offload_str (lit "decap") then (set_offload IPSEC_SECURITY_GW_ESP_OFFLOAD_DECAP o, DOCA_SUCCESS)
  else if streq offload_str (lit "none") then (set_offload IPSEC_SECURITY_GW_ESP_OFFLOAD_NONE o, DOCA_SUCCESS)
  else (o, DOCA_ERROR_INVALID_VALUE)).

Definition parse_perf_measurement : option_parser := option_member "perf-measurements" json_type_string (fun v o =>
  let perf_str := json_object_get_string v in
  if streq perf_str (lit "none") then (set_perf IPSEC_SECURITY_GW_PERF_NONE o, DOCA_SUCCESS)
  else if streq perf_str (lit "insertion-rate") then (set_perf IPSEC_SECURITY_GW_PERF_INSERTION_RATE o, DOCA_SUCCESS)
  else if streq perf_str (lit "bandwidth") then (set_perf IPSEC_SECURITY_GW_PERF_BW o, DOCA_SUCCESS)
  else if streq perf_str (lit "both") then (set_perf IPSEC_SECURITY_GW_PERF_BOTH o, DOCA_SUCCESS)
  else (o, DOCA_ERROR_INVALID_VALUE)).

Definition parse_antireplay : option_parser := option_member "sw-antireplay-enable" json_type_boolean (fun v o =>
  (set_sw_antireplay (json_object_get_boolean v) o, DOCA_SUCCESS)).

Definition parse_sn_inc : option_parser := option_member "sw-sn-inc-enable" json_type_boolean (fun v o =>
  (set_sw_sn_inc (json_object_get_boolean v) o, DOCA_SUCCESS)).

Definition parse_sn_initial : option_parser := option_member "sn-initial" json_type_int (fun v o =>
  let sn_init := json_object_get_int64 v in
  if (sn_init <? 0) || (UINT32_MAX <? sn_init) then (o, DOCA_ERROR_INVALID_VALUE)
  else if UINT32_MAX - u32 sn_init <? WINDOW_SIZE then (o, DOCA_ERROR_INVALID_VALUE)
  else (set_sn_initial sn_init o, DOCA_SUCCESS)).

Definition parse_switch_config : option_parser := option_member "switch" json_type_boolean (fun v o =>
  (if json_object_get_boolean v then set_flow_mode IPSEC_SECURITY_GW_SWITCH o else o, DOCA_SUCCESS)).

Definition parse_debug_config : option_parser := option_member "debug" json_type_boolean (fun v o =>
  (if json_object_get_boolean v then set_debug_mode true o else o, DOCA_SUCCESS)).

Definition parse_bad_syndrome_fwd : option_parser := option_member "fwd-bad-syndrome" json_type_string (fun v o =>
  let fwd_str := json_object_get_string v in
  if streq fwd_str (lit "drop") then (set_syndrome_fwd IPSEC_SECURITY_GW_FWD_SYNDROME_DROP o, DOCA_SUCCESS)
  else if streq fwd_str (lit "rss") then (set_syndrome_fwd IPSEC_SECURITY_GW_FWD_SYNDROME_RSS o, DOCA_SUCCESS)
  else (o, DOCA_ERROR_INVALID_VALUE)).

(** Parsers one after the other, up to the first error. *)
Fixpoint run_parsers (ps : list option_parser) : option_parser := fun json_config o =>
  match ps with
  | [] => (o, DOCA_SUCCESS)
  | p :: ps =>
      let (o, result) := p json_config o in
      if is_ok result then run_parsers ps json_config o else (o, result)
  end.

Definition parse_json_config : option_parser := fun json_config o =>
  let (o, result) := run_parsers [parse_switch_config; parse_antireplay; parse_sn_initial; parse_esp_offload;
                       parse_perf_measurement; parse_sn_inc; parse_debug_config] json_config o in
  if negb (is_ok result) then (o, result)
  else if debug_mode o then parse_bad_syndrome_fwd json_config o
  else (o, DOCA_SUCCESS).

Definition validate_config (c : ipsec_security_gw_config) : doca_error_t :=
  let o := options c in
  if negb (has_device (secured_dev c)) then DOCA_ERROR_INVALID_VALUE
  else if bool_decide (flow_mode o = IPSEC_SECURITY_GW_VNF) && negb (has_device (unsecured_dev c))
  then DOCA_ERROR_INVALID_VALUE
  else if bool_decide (flow_mode o = IPSEC_SECURITY_GW_VNF)
          && (open_by_pci (unsecured_dev c) && open_by_name (unsecured_dev c))
  then DOCA_ERROR_INVALID_VALUE
  else if open_by_pci (secured_dev c) && open_by_name (secured_dev c) then DOCA_ERROR_INVALID_VALUE
  else if sw_sn_inc_enable o && (bool_decide (offload o = IPSEC_SECURITY_GW_ESP_OFFLOAD_BOTH)
                                 || bool_decide (offload o = IPSEC_SECURITY_GW_ESP_OFFLOAD_ENCAP))
  then DOCA_ERROR_INVALID_VALUE
  else if sw_antireplay o && (bool_decide (offload o = IPSEC_SECURITY_GW_ESP_OFFLOAD_BOTH)
                              || bool_decide (offload o = IPSEC_SECURITY_GW_ESP_OFFLOAD_DECAP))
  then DOCA_ERROR_INVALID_VALUE
  else DOCA_SUCCESS.

(** ** The file *)

Context (garbage : nat -> list Z).

Definition allocate_json_buffer_dynamic (data : list Z) : io (res (nat * option (list Z))) :=
  allocate_json_buffer garbage data.

(** [rte_hash_create]: the table and whether it was made. *)
Definition create_ip6_table : io (res rte_hash) :=
  b ← succeeds;
  if (b : bool) then allocated;; mret (Ok ht_new) else mret (Err DOCA_ERROR_DRIVER).

(** [calloc] of [n] elements, [n] an [int]. *)
Definition calloc_n (n : Z) : io bool := if n <? 0 then mret false else calloc.

(** The members ["encrypt-rules"] and ["decrypt-rules"] and their lengths: the rules with
    the numbers set, or the error; without a socket only. *)
Definition count_rules (parsed_json : json) (rules : gw_rules) : io (gw_rules * res (json * json)) :=
  match json_object_object_get_ex parsed_json (lit "encrypt-rules"),
        json_object_object_get_ex parsed_json (lit "decrypt-rules") with
  | Some json_encrypt_rules, Some json_decrypt_rules =>
      check (is_type json_type_array json_encrypt_rules) LibraryMisuse;;
      check (is_type json_type_array json_decrypt_rules) LibraryMisuse;;
      let nb_enc := i32 (json_object_array_length json_encrypt_rules) in
      let nb_dec := i32 (json_object_array_length json_decrypt_rules) in
      if (MAX_NB_RULES <? nb_enc) || (MAX_NB_RULES <? nb_dec)
      then mret (GwRules (encrypt_rules rules) (decrypt_rules rules) nb_enc nb_dec (nb_rules rules),
                 Err DOCA_ERROR_INVALID_VALUE)
      else mret (GwRules (encrypt_rules rules) (decrypt_rules rules) nb_enc nb_dec (i32 (nb_enc + nb_dec)),
                 Ok (json_encrypt_rules, json_decrypt_rules))
  | _, _ => mret (rules, Err DOCA_ERROR_INVALID_VALUE)
  end.

(** Run a reader on the table of the configuration. *)
Definition with_table {A} (m : reader A) (c : ipsec_security_gw_config) : io (res A * ipsec_security_gw_config) := fun w =>
  let* t := of_option NullDeref (ip6_table c) in
  let* (r, t) := m t in
  Ret (r, set_ip6_table (Some t) c, w).

(** The two arrays, once allocated: [None] for the rules that the socket will bring. *)
Definition fill_rules (documents : option (json * json)) (c : ipsec_security_gw_config)
    : io (ipsec_security_gw_config * doca_error_t) :=
  let rules := app_rules c in
  let set enc dec := set_app_rules (GwRules enc dec (nb_encrypted_rules rules) (nb_decrypted_rules rules) (nb_rules rules)) in
  match documents with
  | None =>
      mret (set (Live (replicate (Z.to_nat (nb_encrypted_rules rules)) encrypt_rule_zero))
                (Live (replicate (Z.to_nat (nb_decrypted_rules rules)) decrypt_rule_zero)) c, DOCA_SUCCESS)
  | Some (json_encrypt_rules, json_decrypt_rules) =>
      '(r, c) ← with_table (parse_json_encrypt_rules json_encrypt_rules (mode c) (nb_encrypted_rules rules)) c;
      match r with
      | Err result => mret (c, result)
      | Ok enc =>
          '(r, c) ← with_table (parse_json_decrypt_rules json_decrypt_rules (nb_decrypted_rules rules)) c;
          match r with
          | Err result => mret (c, result)
          | Ok dec => mret (set (Live enc) (Live dec) c, DOCA_SUCCESS)
          end
      end
  end.

(** From the allocation of the arrays to the labels [dec_enc_release] and
    [encrypt_release]: an error frees the arrays and keeps the pointers. *)
Definition allocate_rules (documents : option (json * json)) (c : ipsec_security_gw_config)
    : io (ipsec_security_gw_config * doca_error_t) :=
  let rules := app_rules c in
  let set enc dec c := set_app_rules (GwRules enc dec (nb_encrypted_rules rules) (nb_decrypted_rules rules) (nb_rules rules)) c in
  p ← calloc_n (nb_encrypted_rules rules);
  if negb p then mret (set Null (decrypt_rules rules) c, DOCA_ERROR_NO_MEMORY)
  else
    p ← calloc_n (nb_decrypted_rules rules);
    if negb p then free true;; mret (set Freed Null c, DOCA_ERROR_NO_MEMORY)
    else
      '(c, result) ← fill_rules documents c;
      if is_ok result then mret (c, DOCA_SUCCESS)
      else free true;; free true;; mret (set Freed Freed c, result).

(** From the parsed document to the label [json_release]. *)
Definition configure (parsed_json : json) (c : ipsec_security_gw_config) : io (ipsec_security_gw_config * doca_error_t) :=
  let (o, result) := match json_object_object_get_ex parsed_json (lit "config") with
                     | Some json_config => parse_json_config json_config (options c)
                     | None => (options c, DOCA_SUCCESS)
                     end in
  let c := set_options o c in
  if negb (is_ok result) then mret (c, result)
  else
    let result := validate_config c in
    if negb (is_ok result) then mret (c, result)
    else if socket_conf c then
      let rules := app_rules c in
      allocate_rules None (set_app_rules (GwRules (encrypt_rules rules) (decrypt_rules rules) DYN_RESERVED_RULES
                                            DYN_RESERVED_RULES (nb_rules rules)) c)
    else
      '(rules, r) ← count_rules parsed_json (app_rules c);
      let c := set_app_rules rules c in
      match r with
      | Err result => mret (c, result)
      | Ok documents => allocate_rules (Some documents) c
      end.

Definition ipsec_security_gw_parse_config (c : ipsec_security_gw_config)
    : io (ipsec_security_gw_config * doca_error_t) :=
  t ← create_ip6_table;
  match t with
  | Err result => mret (set_ip6_table None c, result)
  | Ok t =>
      let c := set_options (set_flow_mode IPSEC_SECURITY_GW_VNF (options c)) (set_ip6_table (Some t) c) in
      document ← read_document garbage;
      match document with
      | Err result => mret (c, result)
      | Ok parsed_json =>
          '(c, result) ← configure parsed_json c;
          free true;;
          mret (c, result)
      end
  end.

(** ** Readers that succeed *)

Lemma reader_bind_ok {A B} (m : reader A) (k : A -> reader B) t b t' :
  (m ≫= k) t = Ret (Ok b, t') <-> exists a t1, m t = Ret (Ok a, t1) /\ k a t1 = Ret (Ok b, t').
Proof using Type.
  unfold mbind, reader_bind. destruct (m t) as [[[a|e] t1]|].
  - split; [intros E; by exists a, t1|]. by intros (? & ? & [= <- <-] & E).
  - split; [done|]. by intros (? & ? & [=] & _).
  - split; [done|]. by intros (? & ? & [=] & _).
Qed.

Lemma reads_ok {A} (r : res A) t a t' : reads r t = Ret (Ok a, t') <-> r = Ok a /\ t' = t.
Proof using Type. unfold reads. split; [by intros [= -> ->]|by intros [-> ->]]. Qed.

Lemma runs_ok {A} (o : outcome (res A)) t a t' : runs o t = Ret (Ok a, t') <-> o = Ret (Ok a) /\ t' = t.
Proof using Type. unfold runs. destruct o; [split; [by intros [= -> ->]|by intros [[= ->] ->]]|]. by split; [|intros [[=] _]]. Qed.

Lemma reader_ret_ok {A} (a b : A) t t' : (mret a : reader A) t = Ret (Ok b, t') <-> a = b /\ t' = t.
Proof using Type. unfold mret, reader_ret. split; [by intros [= -> ->]|by intros [-> ->]]. Qed.

(** Decompose a reader that succeeded. *)
Ltac reader_inv H :=
  match type of H with
  | (_ ≫= _) _ = Ret (Ok _, _) =>
      let a := fresh "a" in let t1 := fresh "t" in let E := fresh "E" in
      apply reader_bind_ok in H as (a & t1 & E & H); cbv beta in H; reader_inv E; reader_inv H
  | reads _ _ = _ => apply reads_ok in H as [H ->]
  | runs _ _ = _ => apply runs_ok in H as [H ->]
  | mret _ _ = _ => let Q := fresh "Q" in apply reader_ret_ok in H as [Q ->]; subst
  | _ => idtac
  end.

(** ** The text of a key *)

(** A key in hexadecimal, with letters of either case. *)
Definition hex_char (upper : bool) (d : Z) : ascii :=
  ascii_of_nat (Z.to_nat (if d <? 10 then 48 + d else if upper then 55 + d else 87 + d)).

Definition key_text (upper : bool) (bs : list Z) : list ascii :=
  bs ≫= fun b => [hex_char upper (b / 16); hex_char upper (b mod 16)].

(** What the array gets of a byte: an upper-case letter in the second place is 32 less. *)
Definition stored_byte (upper : bool) (b : Z) : Z := if upper && (10 <=? b mod 16) then u8 (b - 32) else b.

(** The two digits of a byte on a zeroed byte. *)
Definition stores_pair (upper : bool) (b : Z) : bool :=
  match key_digit (hex_char upper (b / 16)), key_digit (hex_char upper (b mod 16)) with
  | Some hi, Some lo => u8 (Z.shiftl (u8 (Z.shiftl 0 4 + hi)) 4 + lo) =? stored_byte upper b
  | _, _ => false
  end.

Lemma stores_pairs upper b : in_width 8 b -> stores_pair upper b = true.
Proof using Type.
  intros Hb. assert (Forall (fun b => stores_pair upper b = true) (seqZ 0 256)) as Hf.
  { apply (bool_decide_unpack _). by destruct upper; vm_compute. }
  rewrite Forall_forall in Hf. apply Hf, elem_of_seqZ. unfold in_width in Hb. lia.
Qed.

Lemma parse_hex_pairs upper bs : forall done n,
  Forall (in_width 8) bs ->
  parse_hex_to_bytes (2 * length done) (key_text upper bs) (done ++ replicate (length bs + n) 0)
  = Ret (Ok (done ++ map (stored_byte upper) bs ++ replicate n 0)).
Proof using Type.
  induction bs as [|b bs IH]; intros ds n Hbs; [done|]. apply Forall_cons in Hbs as [Hb Hbs].
  pose proof (stores_pairs upper b Hb) as Hp. unfold stores_pair in Hp. cbn [key_text mbind list_bind app].
  change (bs ≫= _) with (key_text upper bs). cbn [parse_hex_to_bytes].
  destruct (key_digit (hex_char upper (b / 16))) as [hi|]; [|done]. destruct (key_digit (hex_char upper (b mod 16))) as [lo|]; [|done].
  apply Z.eqb_eq in Hp. cbn [length Nat.add replicate].
  replace (2 * length ds / 2)%nat with (length ds) by (rewrite Nat.mul_comm, Nat.div_mul; lia).
  replace (S (2 * length ds) / 2)%nat with (length ds).
  2:{ replace (S (2 * length ds)) with (1 + length ds * 2)%nat by lia. rewrite Nat.div_add by lia. done. }
  rewrite list_lookup_middle by done. cbn [of_option]. rewrite insert_app_r_alt, Nat.sub_diag by lia. cbn [insert list_insert].
  rewrite list_lookup_middle by done. cbn [of_option]. rewrite insert_app_r_alt, Nat.sub_diag by lia. cbn [insert list_insert].
  rewrite Hp. replace (S (S (2 * length ds))) with (2 * length (ds ++ [stored_byte upper b]))%nat by (rewrite length_app; cbn; lia).
  rewrite (cons_middle (stored_byte upper b) ds (replicate _ _)), app_assoc, IH by done. by rewrite <-app_assoc.
Qed.

Lemma length_key_text upper bs : length (key_text upper bs) = (2 * length bs)%nat.
Proof using Type. unfold key_text. induction bs as [|b bs IH]; [done|]. cbn. rewrite IH. lia. Qed.

Lemma create_key_text o v kt upper bs :
  member o (lit "key") json_type_string = Ok v -> json_object_get_string v = key_text upper bs ->
  Forall (in_width 8) bs -> (length bs <= if bool_decide (kt = DOCA_FLOW_CRYPTO_KEY_128) then 16 else 32)%nat ->
  create_key o kt (replicate MAX_KEY_LEN 0)
  = Ret (Ok (map (stored_byte upper) bs ++ replicate (MAX_KEY_LEN - length bs) 0)).
Proof using Type.
  intros Hm Hs Hb Hl. unfold create_key. rewrite Hm, Hs, length_key_text. cbv zeta.
  assert (MAX_KEY_LEN = length bs + (MAX_KEY_LEN - length bs))%nat as HK by (unfold MAX_KEY_LEN; case_bool_decide; lia).
  pose proof (parse_hex_pairs upper bs [] (MAX_KEY_LEN - length bs) Hb) as E. cbn [length app Nat.mul] in E.
  rewrite <-HK in E.
  assert (forall m, (2 * length bs <= m)%nat -> Nat.min (2 * length bs) (m + 1) = (2 * length bs)%nat) as Hmin by lia.
  rewrite Hmin by (case_bool_decide; lia).
  rewrite (proj2 (Nat.eqb_neq _ _)) by (case_bool_decide; lia).
  rewrite Nat.mul_comm, Nat.Div0.mod_mul. cbn [Nat.eqb negb].
  rewrite take_ge by (rewrite length_key_text; lia). done.
Qed.

(** ** What a rule holds

    The values an object of the document spells, independently of the code that reads
    them. *)

(** The member [name] is a string, [s]. *)
Definition text_of (o : json) (name : string) (s : list ascii) : Prop :=
  exists v, json_object_object_get_ex o (lit name) = Some v /\ json_object_get_type v = json_type_string
    /\ json_object_get_string v = s.

(** The member [name] is an integer, [n], or it is missing and [n] is the default. *)
Definition number_of (get : json -> Z) (o : json) (name : string) (missing : option Z) (n : Z) : Prop :=
  match json_object_object_get_ex o (lit name) with
  | None => missing = Some n
  | Some v => json_object_get_type v = json_type_int /\ get v = n
  end.

Definition ip_version (l3 : doca_flow_l3_type) : option Z :=
  match l3 with
  | DOCA_FLOW_L3_TYPE_NONE => None | DOCA_FLOW_L3_TYPE_IP4 => Some 4 | DOCA_FLOW_L3_TYPE_IP6 => Some 6
  end.
Definition key_bits (t : doca_flow_crypto_key_type) : Z :=
  match t with DOCA_FLOW_CRYPTO_KEY_128 => 128 | DOCA_FLOW_CRYPTO_KEY_256 => 256 end.
Definition icv_octets (i : doca_flow_crypto_icv_len) : Z :=
  match i with
  | DOCA_FLOW_CRYPTO_ICV_LENGTH_8 => 8 | DOCA_FLOW_CRYPTO_ICV_LENGTH_12 => 12 | DOCA_FLOW_CRYPTO_ICV_LENGTH_16 => 16
  end.

(** A version of IP, 4 when it is missing. *)
Definition version_of (o : json) (name : string) (l3 : doca_flow_l3_type) : Prop :=
  exists n, ip_version l3 = Some n /\ number_of json_object_get_int o name (Some 4) n.

(** A 32-bit number. *)
Definition word_of (o : json) (name : string) (missing : option Z) (w : Z) : Prop :=
  exists n, number_of json_object_get_int64 o name missing n /\ w = n mod 2 ^ 32.

(** The bytes of a key, of at most the length the type allows: those the text spells in lower
    case, then zeros.  (Upper-case digits are accepted as well; see [key_case_matters].) *)
Definition key_of (o : json) (t : doca_flow_crypto_key_type) (key : list Z) : Prop :=
  exists s, text_of o "key" s /\ Z.of_nat (length s) <= key_bits t / 4 /\ (length s mod 2 = 0)%nat
    /\ forall bs, Forall (in_width 8) bs -> s = key_text false bs ->
       key = bs ++ replicate (MAX_KEY_LEN - length bs) 0.

Definition sa_of (o : json) (sa : sa_attrs) : Prop :=
  number_of json_object_get_int o "key-type" (Some 256) (key_bits (key_type sa))
  /\ key_of o (key_type sa) (enc_key_data sa)
  /\ number_of json_object_get_int o "icv-length" (Some 16) (icv_octets (icv_length sa))
  /\ word_of o "salt" (Some 6) (salt sa).

(** The word of an IPv4 address: a dotted text lies in memory in the order it is written. *)
Definition ipv4_of (o : json) (name : string) (a : Z) : Prop :=
  exists s, text_of o name s /\ forall x y z t, in_width 8 x -> in_width 8 y -> in_width 8 z -> in_width 8 t ->
    s = dotted x y z t -> le_bytes 4 a = [x; y; z; t].

(** The four words of an IPv6 address: they lie in memory as the bytes of the address. *)
Definition ipv6_of (o : json) (name : string) (words : list Z) : Prop :=
  length words = 4%nat /\ exists s, text_of o name s /\ inet_pton6 s = Some (memory words).

Definition address_of (o : json) (name : string) (l3 : doca_flow_l3_type) (words : list Z) : Prop :=
  if bool_decide (l3 = DOCA_FLOW_L3_TYPE_IP4) then exists a, ipv4_of o name a /\ words = [a; 0; 0; 0]
  else ipv6_of o name words.

Record decrypt_rule_of (o : json) (r : decrypt_rule) : Prop := {
  dro_l3 : version_of o "ip-version" (dr_l3_type r);
  dro_dst : address_of o "dst-ip" (dr_l3_type r) (dr_dst_ip r);
  dro_spi : word_of o "spi" None (dr_esp_spi r);
  dro_inner : version_of o "inner-ip-version" (inner_l3_type r);
  dro_sa : sa_of o (dr_sa r);
}.

Record encrypt_rule_of (m : gw_mode) (o : json) (r : encrypt_rule) : Prop := {
  ero_l3 : version_of o "ip-version" (er_l3_type r);
  ero_protocol : text_of o "protocol" (lit "tcp") /\ er_protocol r = DOCA_FLOW_L4_TYPE_EXT_TCP
                 \/ text_of o "protocol" (lit "udp") /\ er_protocol r = DOCA_FLOW_L4_TYPE_EXT_UDP;
  ero_encap : version_of o "encap-ip-version" (encap_l3_type r);
  ero_ip : if bool_decide (er_l3_type r = DOCA_FLOW_L3_TYPE_IP4)
           then exists a b, ipv4_of o "src-ip" a /\ ipv4_of o "dst-ip" b /\ er_ip r = [a; b; 0; 0; 0; 0; 0; 0]
           else exists src dst, ipv6_of o "src-ip" src /\ ipv6_of o "dst-ip" dst /\ er_ip r = src ++ dst;
  ero_outer : if bool_decide (m = IPSEC_SECURITY_GW_TUNNEL)
              then address_of o "encap-dst-ip" (encap_l3_type r) (encap_dst_ip r) else encap_dst_ip r = [0; 0; 0; 0];
  ero_src_port : number_of json_object_get_int o "src-port" None (er_src_port r);
  ero_dst_port : number_of json_object_get_int o "dst-port" None (er_dst_port r);
  ero_spi : word_of o "spi" None (er_esp_spi r);
  ero_sn : current_sn r = 0;
  ero_sa : sa_of o (er_sa r);
}.

(** ** The readers of the members *)

Lemma member_text o name v :
  member o (lit name) json_type_string = Ok v -> text_of o name (json_object_get_string v).
Proof using Type.
  unfold member. destruct (json_object_object_get_ex _ _) as [j|] eqn:E; [|done].
  unfold is_type. case_bool_decide; [|done]. intros [= <-]. by exists j.
Qed.

Lemma optional_number {A} get o name (d : Z) (read : json -> res A) (value : A -> Z) a missing :
  optional o (lit name) json_type_int missing read = Ok a -> value missing = d ->
  (forall v x, read v = Ok x -> get v = value x) -> number_of get o name (Some d) (value a).
Proof using Type.
  unfold optional, number_of. intros E Hd Hr. destruct (json_object_object_get_ex _ _) as [v|].
  - unfold is_type in E. case_bool_decide; [|done]. split; [done|]. by apply Hr.
  - injection E as <-. by rewrite Hd.
Qed.

Lemma create_key_type_number o t :
  create_key_type o = Ok t -> number_of json_object_get_int o "key-type" (Some 256) (key_bits t).
Proof using Type.
  intros E. apply (optional_number _ _ _ _ _ _ _ _ E); [done|]. intros v x Hx. cbv beta zeta in Hx.
  destruct (Z.eqb_spec (json_object_get_int v) 128) as [->|]; [by injection Hx as <-|].
  destruct (Z.eqb_spec (json_object_get_int v) 256) as [->|]; [by injection Hx as <-|done].
Qed.

Lemma icv_length_number o i :
  parse_icv_length o = Ok i -> number_of json_object_get_int o "icv-length" (Some 16) (icv_octets i).
Proof using Type.
  intros E. apply (optional_number _ _ _ _ _ _ _ _ E); [done|]. intros v x Hx. cbv beta zeta in Hx.
  repeat (match type of Hx with (if ?a =? ?b then _ else _) = _ =>
            destruct (Z.eqb_spec a b) as [->|]; [by injection Hx as <-|] end). done.
Qed.

Lemma create_l3_version o name l3 : create_l3_type o (lit name) = Ok l3 -> version_of o name l3.
Proof using Type.
  unfold create_l3_type, optional, version_of, number_of. destruct (json_object_object_get_ex _ _) as [v|].
  - unfold is_type. case_bool_decide; [|done]. cbv zeta.
    destruct (Z.eqb_spec (json_object_get_int v) 4); [intros [= <-]; by exists 4|].
    destruct (Z.eqb_spec (json_object_get_int v) 6); [intros [= <-]; by exists 6|done].
  - intros [= <-]. by exists 4.
Qed.

Lemma create_salt_word o x : create_salt o = Ok x -> word_of o "salt" (Some 6) x.
Proof using Type.
  unfold create_salt, optional, word_of, number_of. destruct (json_object_object_get_ex _ _) as [v|].
  - unfold is_type. case_bool_decide; [|done]. intros [= <-]. by eexists.
  - intros [= <-]. by exists 6.
Qed.

Lemma member_number {A} get o name (f : json -> A) a :
  match member o (lit name) json_type_int with Err e => Err e | Ok v => Ok (f v) end = Ok a ->
  exists v, number_of get o name None (get v) /\ a = f v.
Proof using Type.
  unfold member, number_of. destruct (json_object_object_get_ex _ _) as [v|]; [|done].
  unfold is_type. case_bool_decide; [|done]. intros [= <-]. by exists v.
Qed.

Lemma create_spi_word o x : create_spi o = Ok x -> word_of o "spi" None x.
Proof using Type.
  unfold create_spi. intros E. apply (member_number json_object_get_int64) in E as (v & Hn & ->). by eexists.
Qed.

Lemma create_port_number o name x :
  create_port o (lit name) = Ok x -> number_of json_object_get_int o name None x.
Proof using Type.
  unfold create_port, int_member. unfold member, number_of. destruct (json_object_object_get_ex _ _) as [v|]; [|done].
  unfold is_type. case_bool_decide; [|done]. by intros [= <-].
Qed.

Lemma create_protocol_text o x :
  create_protocol o = Ok x ->
  text_of o "protocol" (lit "tcp") /\ x = DOCA_FLOW_L4_TYPE_EXT_TCP
  \/ text_of o "protocol" (lit "udp") /\ x = DOCA_FLOW_L4_TYPE_EXT_UDP.
Proof using Type.
  unfold create_protocol. destruct (member _ _ _) as [v|] eqn:E; [|done]. apply member_text in E.
  unfold parse_protocol_string. destruct (streq _ (lit "tcp")) eqn:E1.
  - apply streq_spec in E1. rewrite E1 in E. intros [= <-]. by left.
  - destruct (streq _ (lit "udp")) eqn:E2; [|done]. apply streq_spec in E2. rewrite E2 in E. intros [= <-]. by right.
Qed.

Lemma create_ipv4_text o name a : create_ipv4 o (lit name) = Ok a -> ipv4_of o name a.
Proof using Type.
  unfold create_ipv4, ip_member. destruct (member _ _ _) as [v|] eqn:E; [|done]. apply member_text in E. intros Hp.
  exists (json_object_get_string v). split; [done|]. intros x y z t Hx Hy Hz Ht Hs. rewrite Hs in Hp.
  rewrite parse_ipv4_dotted in Hp by done. injection Hp as <-. by apply BE_IPV4_ADDR_bytes.
Qed.

Lemma create_ipv6_text o name ws : create_ipv6 o (lit name) = Ok ws -> ipv6_of o name ws.
Proof using Type.
  unfold create_ipv6. destruct (member _ _ _) as [v|] eqn:E; [|done]. apply member_text in E.
  intros [Hl (bytes & Hp & Hm)]%parse_ipv6_memory. split; [done|]. eexists. split; [exact E|]. by rewrite Hm.
Qed.

Lemma create_key_bytes o t key :
  create_key o t (replicate MAX_KEY_LEN 0) = Ret (Ok key) -> key_of o t key.
Proof using Type.
  intros E. pose proof E as E0. unfold create_key in E. destruct (member _ _ _) as [v|] eqn:Em; [|done].
  exists (json_object_get_string v). split; [by apply member_text|]. cbv zeta in E.
  set (max := if bool_decide (t = DOCA_FLOW_CRYPTO_KEY_128) then 32%nat else 64%nat) in E.
  assert (Z.of_nat max = key_bits t / 4) as Hmax by (by destruct t).
  destruct (Nat.eqb_spec (Nat.min (length (json_object_get_string v)) (max + 1)) (max + 1)) as [|Hl]; [done|].
  rewrite Nat.min_l in E by lia.
  destruct (Nat.eqb_spec (length (json_object_get_string v) mod 2) 0) as [Hev|]; [|done].
  split; [lia|]. split; [done|]. intros bs Hb Hs.
  rewrite (create_key_text o v t false bs) in E0; [|done|done|done|].
  - injection E0 as <-. f_equal. clear. induction bs as [|b bs IH]; cbn; [done|]. by rewrite IH.
  - rewrite Hs, length_key_text in Hl. subst max. case_bool_decide; lia.
Qed.

#[local] Create HintDb rule.
#[local] Hint Resolve create_key_type_number icv_length_number create_l3_version create_salt_word
  create_spi_word create_port_number create_protocol_text create_ipv4_text create_ipv6_text create_key_bytes : rule.

Lemma parse_rule_sa_ok o t sa t' :
  parse_rule_sa o (SaAttrs DOCA_FLOW_CRYPTO_ICV_LENGTH_8 DOCA_FLOW_CRYPTO_KEY_128 (replicate MAX_KEY_LEN 0) 0) t
    = Ret (Ok sa, t') -> sa_of o sa /\ t' = t.
Proof using Type. unfold parse_rule_sa. intros E. reader_inv E. split; [|done]. split_and!; auto with rule. Qed.

Lemma parse_ipv6_words s ws : parse_ipv6_str s = Ok ws -> length ws = 4%nat.
Proof using Type. unfold parse_ipv6_str. by destruct (inet_pton6 s); intros [= <-]. Qed.

Lemma create_ipv6_words o name ws : create_ipv6 o name = Ok ws -> length ws = 4%nat.
Proof using Type. unfold create_ipv6. destruct (member _ _ _); [apply parse_ipv6_words|done]. Qed.

Lemma read_decrypt_rule_ok o t r t' :
  read_decrypt_rule o t = Ret (Ok r, t') -> decrypt_rule_of o r /\ t' = t.
Proof using Type.
  unfold read_decrypt_rule. intros E. reader_inv E. cbn [dr_sa decrypt_rule_zero] in *.
  match goal with E : parse_rule_sa _ _ _ = _ |- _ => apply parse_rule_sa_ok in E as [Hsa ->] end.
  match goal with E : (if ?b then _ else _) _ = _ |- _ => destruct b eqn:Hb; reader_inv E end;
    (split; [|done]; split; cbn; auto with rule); unfold address_of; rewrite Hb; [|auto with rule].
  eexists. split; [|done]. auto with rule.
Qed.

(** ** The table of addresses *)

Context {HL : RteHashLaws H}.

Definition grows (t t' : rte_hash) : Prop := forall k, ht_mem k t = true -> ht_mem k t' = true.

#[local] Instance grows_preorder : PreOrder grows.
Proof using Type. split; [by intros t k|]. intros t1 t2 t3 H12 H23 k Hk. by apply H23, H12. Qed.

(** Both addresses of an IPv6 rule are in the table. *)
Definition rule_known (r : encrypt_rule) (t : rte_hash) : Prop :=
  er_l3_type r <> DOCA_FLOW_L3_TYPE_IP4 ->
  ht_mem (ip6_key (take 4 (er_ip r))) t = true /\ ht_mem (ip6_key (drop 4 (er_ip r))) t = true.

Lemma knows_ip6_ok ws t u t' :
  knows_ip6 ws t = Ret (Ok u, t') -> ht_mem (ip6_key ws) t' = true /\ grows t t'.
Proof using HL.
  unfold knows_ip6, add_ip6. destruct (ht_mem (ip6_key ws) t) eqn:Em; cbn; [intros [= _ <-]; by split|].
  destruct (ht_add _ _ _) as [t1|] eqn:Ea; cbn; [|done]. intros [= _ <-]. split; [|intros k Hk].
  - apply (ht_mem_add _ _ _ _ _ Ea). by left.
  - apply (ht_mem_add _ _ _ _ _ Ea). by right.
Qed.

Lemma parse_encrypt_ipv4_ok o t ip t' :
  parse_encrypt_ipv4 o (replicate 8 0) t = Ret (Ok ip, t') ->
  t' = t /\ exists a b, create_ipv4 o (lit "src-ip") = Ok a /\ create_ipv4 o (lit "dst-ip") = Ok b
    /\ ip = [a; b; 0; 0; 0; 0; 0; 0].
Proof using Type. unfold parse_encrypt_ipv4. intros E. reader_inv E. split; [done|]. by eexists _, _. Qed.

Lemma parse_encrypt_ipv6_ok o t ip t' :
  parse_encrypt_ipv6 o t = Ret (Ok ip, t') ->
  grows t t' /\ exists src dst, create_ipv6 o (lit "src-ip") = Ok src /\ create_ipv6 o (lit "dst-ip") = Ok dst
    /\ ip = src ++ dst /\ ht_mem (ip6_key src) t' = true /\ ht_mem (ip6_key dst) t' = true.
Proof using HL.
  unfold parse_encrypt_ipv6. intros E. reader_inv E.
  repeat match goal with E : knows_ip6 _ _ = _ |- _ => apply knows_ip6_ok in E as [? ?] end.
  split; [by etrans|]. eexists _, _. split_and!; eauto.
Qed.

Lemma parse_encap_ok o l3 t ip t' :
  parse_encrypt_encap_ip o l3 [0; 0; 0; 0] t = Ret (Ok ip, t') -> t' = t /\ address_of o "encap-dst-ip" l3 ip.
Proof using Type.
  unfold parse_encrypt_encap_ip, address_of. case_bool_decide; intros E; reader_inv E; split; auto with rule.
  eexists. split; [|done]. auto with rule.
Qed.

Lemma parse_outer_ok m o l3 t ip t' :
  (if bool_decide (m = IPSEC_SECURITY_GW_TUNNEL) then parse_encrypt_encap_ip o l3 (replicate 4 0)
   else mret (replicate 4 0)) t = Ret (Ok ip, t') ->
  t' = t /\ if bool_decide (m = IPSEC_SECURITY_GW_TUNNEL) then address_of o "encap-dst-ip" l3 ip else ip = [0; 0; 0; 0].
Proof using Type. case_bool_decide; [apply parse_encap_ok|]. intros E. reader_inv E. done. Qed.

Lemma read_encrypt_rule_ok m o t r t' :
  read_encrypt_rule m o t = Ret (Ok r, t') -> encrypt_rule_of m o r /\ grows t t' /\ rule_known r t'.
Proof using HL.
  unfold read_encrypt_rule. intros E. reader_inv E. cbn [er_sa er_ip encap_dst_ip encrypt_rule_zero] in *.
  match goal with E : parse_rule_sa _ _ _ = _ |- _ => apply parse_rule_sa_ok in E as [Hsa ->] end.
  match goal with E : (if bool_decide (m = _) then _ else _) _ = _ |- _ => rename E into Em end.
  match goal with E : (if bool_decide (?l3 = DOCA_FLOW_L3_TYPE_IP4) then _ else _) _ = _ |- _ => rename E into Ei; rename l3 into l3' end.
  apply parse_outer_ok in Em as [-> Hout].
  destruct (bool_decide (l3' = DOCA_FLOW_L3_TYPE_IP4)) eqn:Hl.
  - apply parse_encrypt_ipv4_ok in Ei as [-> Hip].
    split_and!; [|done|by intros Hn; apply bool_decide_eq_true_1 in Hl].
    split; cbn; auto with rule. rewrite Hl. destruct Hip as (a & b & Ha & Hb & ->). exists a, b. auto with rule.
  - apply parse_encrypt_ipv6_ok in Ei as [Hg (src & dst & Hs & Hd & -> & Hks & Hkd)].
    pose proof (create_ipv6_words _ _ _ Hs) as Hl4.
    split_and!; [|done|].
    + split; cbn; auto with rule. rewrite Hl. exists src, dst. auto with rule.
    + intros _. cbn [er_ip]. by rewrite take_app_length', drop_app_length' by done.
Qed.

Lemma read_rules_ok {R} (read : json -> reader R) (P : json -> R -> Prop) (K : R -> rte_hash -> Prop) arr :
  (forall o t r t', read o t = Ret (Ok r, t') -> P o r /\ grows t t' /\ K r t') ->
  (forall r t t', grows t t' -> K r t -> K r t') ->
  forall n i t rs t', read_rules read arr i n t = Ret (Ok rs, t') ->
  length rs = n /\ grows t t'
  /\ forall k r, rs !! k = Some r -> P (json_object_array_get_idx arr (i + Z.of_nat k)) r /\ K r t'.
Proof using Type.
  intros Hread HK n. induction n as [|n IH]; intros i t rs t' E; cbn [read_rules] in E; reader_inv E.
  - split_and!; [done|done|]. intros k r. by rewrite lookup_nil.
  - apply Hread in E0 as (HP & Hg & Hk). apply IH in E1 as (<- & Hg' & Hr). split_and!; [done|by etrans|].
    intros [|k] r; cbn.
    + intros [= <-]. rewrite Z.add_0_r. split; [done|by eapply HK].
    + intros Hx. apply Hr in Hx. by replace (i + Z.of_nat (S k)) with (i + 1 + Z.of_nat k) by lia.
Qed.

(** ** Options that are accepted *)

(** The replay window of the initial sequence number does not wrap around. *)
Definition sn_ok (o : gw_options) : Prop := 0 <= sn_initial o <= UINT32_MAX - WINDOW_SIZE.

Definition keeps_sn (p : option_parser) : Prop := forall j o, sn_ok o -> sn_ok (p j o).1.

Lemma option_member_keeps name t (read : json -> gw_options -> gw_options * doca_error_t) :
  (forall v o, sn_ok o -> sn_ok (read v o).1) -> keeps_sn (option_member name t read).
Proof using Type. intros Hr j o Ho. unfold option_member. destruct (json_object_object_get_ex _ _); [|done]. case_if; auto. Qed.

(** Parsers that leave the sequence number alone. *)
Ltac keeps :=
  apply option_member_keeps; intros ? ? ?; cbv zeta;
  repeat match goal with |- context [if ?b then _ else _] => destruct b end; assumption.

Lemma parse_sn_initial_keeps : keeps_sn parse_sn_initial.
Proof using Type.
  apply option_member_keeps. intros v o Ho. cbv zeta. destruct (_ || _) eqn:E1; [done|]. destruct (_ <? WINDOW_SIZE) eqn:E2; [done|].
  apply orb_false_iff in E1 as [E0 E1]. apply Z.ltb_ge in E0, E1, E2. rewrite uwrap_id in E2 by (unfold in_width, UINT32_MAX in *; lia).
  unfold sn_ok. cbn. lia.
Qed.

Lemma run_parsers_keeps ps : Forall keeps_sn ps -> keeps_sn (run_parsers ps).
Proof using Type.
  induction 1 as [|p ps Hp Hps IH]; intros j o Ho; cbn [run_parsers]; [done|]. specialize (Hp j o Ho).
  destruct (p j o) as [o' r]. case_if; [by apply IH|done].
Qed.

Lemma parse_json_config_keeps : keeps_sn parse_json_config.
Proof using Type.
  intros j o Ho. unfold parse_json_config.
  match goal with |- context [run_parsers ?ps j o] => assert (keeps_sn (run_parsers ps)) as Hk end.
  { apply run_parsers_keeps. repeat apply Forall_cons_2; [..|apply Forall_nil_2]; [keeps|keeps|apply parse_sn_initial_keeps|keeps..]. }
  specialize (Hk j o Ho). destruct (run_parsers _ j o) as [o' r]. cbn [fst] in Hk. case_if; [done|]. case_if; [|done].
  enough (keeps_sn parse_bad_syndrome_fwd) as Hb by by apply Hb. keeps.
Qed.

(** What [validate_config] checks. *)
Record config_valid (c : ipsec_security_gw_config) : Prop := {
  cv_secured : has_device (secured_dev c) = true;
  cv_secured_one : open_by_pci (secured_dev c) && open_by_name (secured_dev c) = false;
  cv_unsecured : flow_mode (options c) = IPSEC_SECURITY_GW_VNF ->
    has_device (unsecured_dev c) = true /\ open_by_pci (unsecured_dev c) && open_by_name (unsecured_dev c) = false;
  cv_sn_inc : sw_sn_inc_enable (options c) = true ->
    offload (options c) = IPSEC_SECURITY_GW_ESP_OFFLOAD_DECAP \/ offload (options c) = IPSEC_SECURITY_GW_ESP_OFFLOAD_NONE;
  cv_antireplay : sw_antireplay (options c) = true ->
    offload (options c) = IPSEC_SECURITY_GW_ESP_OFFLOAD_ENCAP \/ offload (options c) = IPSEC_SECURITY_GW_ESP_OFFLOAD_NONE;
}.

Lemma validate_config_ok c : validate_config c = DOCA_SUCCESS <-> config_valid c.
Proof using Type.
  unfold validate_config. split.
  - intros E. repeat (case_if_in E; [done|]).
    split; destruct (options c) as [[] [] d f [] p y n]; cbn in *; try tauto;
      repeat match goal with H : context [has_device ?d] |- _ => destruct (has_device d)
                        | H : context [bool_decide ?P] |- _ => destruct (bool_decide_reflect P) end; cbn in *; try done; auto.
  - intros [H1 H2 H3 H4 H5]. destruct (options c) as [sn ar d f off p y n]; cbn in *. rewrite H1, H2. cbn [negb].
    destruct f; cbn.
    + destruct H3 as [-> ->]; [done|]. destruct sn, ar; try (by destruct H4 as [-> | ->]; cbn in *; auto); destruct off; cbn in *; try done; naive_solver.
    + destruct sn, ar, off; cbn in *; naive_solver.
Qed.

(** ** Configurations that are accepted *)

(** The rules of a document: as many as its arrays have elements, each the rule of its
    object, the addresses of the IPv6 encryption rules in the table. *)
Definition rules_sound (j : json) (c : ipsec_security_gw_config) : Prop :=
  exists je jd enc dec t,
    json_object_object_get_ex j (lit "encrypt-rules") = Some je /\ json_object_object_get_ex j (lit "decrypt-rules") = Some jd
    /\ encrypt_rules (app_rules c) = Live enc /\ decrypt_rules (app_rules c) = Live dec /\ ip6_table c = Some t
    /\ Z.of_nat (length enc) = i32 (json_object_array_length je) /\ Z.of_nat (length enc) <= MAX_NB_RULES
    /\ Z.of_nat (length dec) = i32 (json_object_array_length jd) /\ Z.of_nat (length dec) <= MAX_NB_RULES
    /\ nb_encrypted_rules (app_rules c) = Z.of_nat (length enc) /\ nb_decrypted_rules (app_rules c) = Z.of_nat (length dec)
    /\ nb_rules (app_rules c) = Z.of_nat (length enc) + Z.of_nat (length dec)
    /\ (forall k r, enc !! k = Some r ->
          encrypt_rule_of (mode c) (json_object_array_get_idx je (Z.of_nat k)) r /\ rule_known r t)
    /\ (forall k r, dec !! k = Some r -> decrypt_rule_of (json_object_array_get_idx jd (Z.of_nat k)) r).

(** The arrays for the rules a socket will bring. *)
Definition rules_reserved (c : ipsec_security_gw_config) : Prop :=
  encrypt_rules (app_rules c) = Live (replicate (Z.to_nat DYN_RESERVED_RULES) encrypt_rule_zero)
  /\ decrypt_rules (app_rules c) = Live (replicate (Z.to_nat DYN_RESERVED_RULES) decrypt_rule_zero)
  /\ nb_encrypted_rules (app_rules c) = DYN_RESERVED_RULES /\ nb_decrypted_rules (app_rules c) = DYN_RESERVED_RULES.

Lemma with_table_ok {A} (m : reader A) c w a c' w' :
  with_table m c w = Ret (Ok a, c', w') ->
  w' = w /\ exists t t', ip6_table c = Some t /\ m t = Ret (Ok a, t') /\ c' = set_ip6_table (Some t') c.
Proof using Type.
  unfold with_table. destruct (ip6_table c) as [t|]; [|done]. cbn. destruct (m t) as [[r t']|] eqn:Em; [|done]. intros [= -> <- <-].
  split; [done|]. by exists t, t'.
Qed.

Lemma rule_known_grows r t t' : grows t t' -> rule_known r t -> rule_known r t'.
Proof using Type. intros Hg Hk Hl. destruct (Hk Hl) as [? ?]. by split; apply Hg. Qed.

Lemma encrypt_rules_ok arr m n t rs t' :
  parse_json_encrypt_rules arr m n t = Ret (Ok rs, t') ->
  length rs = Z.to_nat n /\ grows t t'
  /\ forall k r, rs !! k = Some r -> encrypt_rule_of m (json_object_array_get_idx arr (Z.of_nat k)) r /\ rule_known r t'.
Proof using HL.
  apply (read_rules_ok (read_encrypt_rule m) (encrypt_rule_of m) rule_known arr); [apply read_encrypt_rule_ok|].
  intros r t1 t2. apply rule_known_grows.
Qed.

Lemma decrypt_rules_ok arr n t rs t' :
  parse_json_decrypt_rules arr n t = Ret (Ok rs, t') ->
  length rs = Z.to_nat n /\ grows t t'
  /\ forall k r, rs !! k = Some r -> decrypt_rule_of (json_object_array_get_idx arr (Z.of_nat k)) r.
Proof using Type.
  intros E. pose proof (read_rules_ok read_decrypt_rule decrypt_rule_of (fun _ _ => True) arr) as Hr.
  edestruct Hr as (H1 & H2 & H3); [|done|exact E|].
  - intros o t1 r t1' [Ho ->]%read_decrypt_rule_ok. by split_and!.
  - split_and!; [done|done|]. intros k r Hk. by apply H3.
Qed.

(** No reader fails with the code of success. *)
Definition fails_well {A} (m : reader A) : Prop := forall t t', m t <> Ret (Err DOCA_SUCCESS, t').

Lemma fails_well_bind {A B} (m : reader A) (k : A -> reader B) :
  fails_well m -> (forall a, fails_well (k a)) -> fails_well (m ≫= k).
Proof using Type.
  intros Hm Hk t t'. unfold mbind, reader_bind. specialize (Hm t). destruct (m t) as [[[a|e] t1]|]; [apply Hk| |done].
  intros [= -> ->]. by apply (Hm t').
Qed.

Lemma fails_ret {A} (a : A) : fails_well (mret a).
Proof using Type. done. Qed.

Lemma fails_reads {A} (r : res A) : r <> Err DOCA_SUCCESS -> fails_well (reads r).
Proof using Type. intros Hr t t' [= -> _]. done. Qed.

Lemma fails_knows ws : fails_well (knows_ip6 ws).
Proof using Type.
  intros t t'. unfold knows_ip6. destruct (add_ip6 ws t) as [t1 r]. unfold is_ok. case_bool_decide; [done|]. intros [= -> _]. done.
Qed.

Lemma member_err o n t : member o n t <> Err DOCA_SUCCESS.
Proof using Type. unfold member. destruct (json_object_object_get_ex _ _); [|done]. by case_if. Qed.

Lemma optional_err {A} o n t (d : A) rd : (forall v, rd v <> Err DOCA_SUCCESS) -> optional o n t d rd <> Err DOCA_SUCCESS.
Proof using Type. intros Hr. unfold optional. destruct (json_object_object_get_ex _ _); [|done]. by case_if. Qed.

(** Decide a reader of one member. *)
Ltac member_err :=
  first [apply optional_err; intros v; cbv zeta
        |match goal with |- context [member ?o ?n ?t] =>
           let Hm := fresh in pose proof (member_err o n t) as Hm; destruct (member o n t); [|intros [= ->]; done] end];
  repeat match goal with |- context [if ?b then _ else _] => destruct b end; try done.

Lemma create_l3_type_err o n : create_l3_type o n <> Err DOCA_SUCCESS.
Proof using Type. unfold create_l3_type. member_err. Qed.
Lemma create_protocol_err o : create_protocol o <> Err DOCA_SUCCESS.
Proof using Type. unfold create_protocol, parse_protocol_string. member_err. Qed.
Lemma create_ipv4_err o n : create_ipv4 o n <> Err DOCA_SUCCESS.
Proof using Type.
  unfold create_ipv4, ip_member, parse_ipv4_str. member_err. destruct (parse_ipv4_loop _ _ _) as [[[|? [|? [|? []]]] ?]|]; done.
Qed.
Lemma create_ipv6_err o n : create_ipv6 o n <> Err DOCA_SUCCESS.
Proof using Type. unfold create_ipv6, parse_ipv6_str. member_err. by destruct (inet_pton6 _). Qed.
Lemma create_port_err o n : create_port o n <> Err DOCA_SUCCESS.
Proof using Type. unfold create_port, int_member. member_err. Qed.
Lemma create_spi_err o : create_spi o <> Err DOCA_SUCCESS.
Proof using Type. unfold create_spi. member_err. Qed.
Lemma create_key_type_err o : create_key_type o <> Err DOCA_SUCCESS.
Proof using Type. unfold create_key_type. member_err. Qed.
Lemma parse_icv_length_err o : parse_icv_length o <> Err DOCA_SUCCESS.
Proof using Type. unfold parse_icv_length. member_err. Qed.
Lemma create_salt_err o : create_salt o <> Err DOCA_SUCCESS.
Proof using Type. unfold create_salt. member_err. Qed.

Lemma parse_hex_err s : forall i key, parse_hex_to_bytes i s key <> Ret (Err DOCA_SUCCESS).
Proof using Type.
  induction s as [|c s IH]; intros i key; cbn [parse_hex_to_bytes]; [done|]. destruct (key_digit c); [|done].
  destruct (key !! _); [apply IH|done].
Qed.

Lemma fails_key o kt key : fails_well (runs (create_key o kt key)).
Proof using Type.
  intros t t'. unfold runs, create_key. pose proof (member_err o (lit "key") json_type_string) as Hm.
  destruct (member o _ _) as [v|e]; [|by intros [= -> _]].
  cbv zeta. case_if; [done|]. case_if; [done|].
  match goal with |- context [parse_hex_to_bytes ?i ?s ?k] => pose proof (parse_hex_err s i k) as Hh; destruct (parse_hex_to_bytes i s k) as [r|] end;
    [|done]. intros [= -> _]. done.
Qed.

#[local] Create HintDb fails.
#[local] Hint Resolve fails_ret fails_knows fails_key create_l3_type_err create_protocol_err create_ipv4_err create_ipv6_err
  create_port_err create_spi_err create_key_type_err parse_icv_length_err create_salt_err : fails.

Ltac fails_all :=
  repeat match goal with
         | |- fails_well (_ ≫= _) => apply fails_well_bind; [|intros ?]
         | |- fails_well (reads _) => apply fails_reads
         | |- fails_well (if ?b then _ else _) => destruct b
         end; auto with fails.

Lemma read_encrypt_rule_fails m o : fails_well (read_encrypt_rule m o).
Proof using Type.
  unfold read_encrypt_rule, parse_encrypt_ipv4, parse_encrypt_ipv6, parse_encrypt_encap_ip, parse_rule_sa. fails_all.
Qed.

Lemma read_decrypt_rule_fails o : fails_well (read_decrypt_rule o).
Proof using Type. unfold read_decrypt_rule, parse_rule_sa. fails_all. Qed.

Lemma read_rules_fails {R} (read : json -> reader R) arr : (forall o, fails_well (read o)) ->
  forall n i, fails_well (read_rules read arr i n).
Proof using Type. intros Hr n. induction n as [|n IH]; intros i; cbn [read_rules]; fails_all. Qed.

Lemma with_table_fails {A} (m : reader A) c w c' w' : fails_well m -> with_table m c w <> Ret (Err DOCA_SUCCESS, c', w').
Proof using Type.
  intros Hm. unfold with_table. destruct (ip6_table c) as [t|]; [|done]. cbn. specialize (Hm t).
  destruct (m t) as [[r t']|]; [|done]. intros [= -> _ _]. by apply (Hm t').
Qed.

(** The numbers are those of the arrays of the document and not negative. *)
Record counted (j je jd : json) (rules : gw_rules) : Prop := {
  ct_enc : json_object_object_get_ex j (lit "encrypt-rules") = Some je;
  ct_dec : json_object_object_get_ex j (lit "decrypt-rules") = Some jd;
  ct_nb_enc : nb_encrypted_rules rules = i32 (json_object_array_length je);
  ct_nb_dec : nb_decrypted_rules rules = i32 (json_object_array_length jd);
  ct_max_enc : nb_encrypted_rules rules <= MAX_NB_RULES;
  ct_max_dec : nb_decrypted_rules rules <= MAX_NB_RULES;
  ct_sum : nb_rules rules = i32 (nb_encrypted_rules rules + nb_decrypted_rules rules);
}.

Lemma count_rules_ok j rules w rules' docs w' :
  count_rules j rules w = Ret (rules', Ok docs, w') -> counted j docs.1 docs.2 rules' /\ w' = w.
Proof using Type.
  unfold count_rules. destruct (json_object_object_get_ex j _) as [je|] eqn:Ee; [|done].
  destruct (json_object_object_get_ex j (lit "decrypt-rules")) as [jd|] eqn:Ed; [|done].
  unfold check. destruct (is_type _ je); [|done]. destruct (is_type _ jd); [|done].
  cbv [mbind io_bind mret io_ret]. destruct (_ || _) eqn:Em; [done|]. intros [= <- <- <-].
  apply orb_false_iff in Em as [E1%Z.ltb_ge E2%Z.ltb_ge]. split; [|done]. by split.
Qed.

Lemma count_rules_err j rules w rules' w' : count_rules j rules w <> Ret (rules', Err DOCA_SUCCESS, w').
Proof using Type.
  cbv [count_rules check mbind io_bind mret io_ret undef]. intros E.
  repeat match type of E with context [json_object_object_get_ex ?a ?b] => destruct (json_object_object_get_ex a b); [|discriminate E] end.
  repeat match type of E with context [is_type ?a ?b] => destruct (is_type a b); [|discriminate E] end.
  by destruct (_ || _).
Qed.

Lemma fill_rules_ok j je jd c w c' w' :
  counted j je jd (app_rules c) -> 0 <= nb_encrypted_rules (app_rules c) -> 0 <= nb_decrypted_rules (app_rules c) ->
  fill_rules (Some (je, jd)) c w = Ret (c', DOCA_SUCCESS, w') ->
  rules_sound j c' /\ exists rules t, c' = set_app_rules rules (set_ip6_table t c).
Proof using HL.
  intros [Hje Hjd Hel Hdl Hem Hdm Hn] He Hd E. unfold fill_rules, mbind, io_bind in E. obind E. destruct a as [[[enc|e] c1] w1].
  2:{ unfold mret, io_ret in E. inv_ret. exfalso. eapply with_table_fails; [|exact E0].
      apply read_rules_fails, read_encrypt_rule_fails. }
  apply with_table_ok in E0 as [-> (t & t1 & Ht & E0 & ->)]. apply encrypt_rules_ok in E0 as (Hl1 & Hg1 & Hr1).
  obind E. destruct a as [[[dec|e] c2] w2].
  2:{ unfold mret, io_ret in E. inv_ret. exfalso. eapply with_table_fails; [|exact E0].
      apply read_rules_fails, read_decrypt_rule_fails. }
  apply with_table_ok in E0 as [-> (t1' & t2 & [= <-] & E0 & ->)]. apply decrypt_rules_ok in E0 as (Hl2 & Hg2 & Hr2).
  unfold mret, io_ret in E. inv_ret. split; [|by eexists _, (Some t2); destruct c].
  assert (nb_rules (app_rules c) = nb_encrypted_rules (app_rules c) + nb_decrypted_rules (app_rules c)) as Hs
    by (rewrite Hn; apply swrap_id; unfold MAX_NB_RULES in *; lia).
  exists je, jd, enc, dec, t2. cbn. rewrite Hl1, Hl2, !Z2Nat.id by lia.
  split_and!; try done. intros k r Hk. destruct (Hr1 k r Hk) as [Ho Hkn]. split; [done|by eapply rule_known_grows].
Qed.

Lemma calloc_n_true n w w' : calloc_n n w = Ret (true, w') -> 0 <= n.
Proof using Type. unfold calloc_n. destruct (n <? 0) eqn:E; [done|]. by apply Z.ltb_ge in E. Qed.

Lemma allocate_rules_run docs c w c' w' :
  allocate_rules docs c w = Ret (c', DOCA_SUCCESS, w') ->
  0 <= nb_encrypted_rules (app_rules c) /\ 0 <= nb_decrypted_rules (app_rules c)
  /\ exists w1 w2, fill_rules docs c w1 = Ret (c', DOCA_SUCCESS, w2).
Proof using Type.
  unfold allocate_rules, mbind, io_bind. intros E. obind E. destruct a as [[|] w1]; cbn [negb] in E; [|done].
  apply calloc_n_true in E0. obind E. destruct a as [[|] w2]; cbn [negb] in E.
  - apply calloc_n_true in E1. obind E. destruct a as [[c1 r] w3]. unfold is_ok in E.
    destruct (bool_decide_reflect (r = DOCA_SUCCESS)) as [->|Hr].
    + unfold mret, io_ret in E. inv_ret. split_and!; [done|done|]. by exists w2, w'.
    + obind E. destruct a. obind E. destruct a. unfold mret, io_ret in E. inv_ret. done.
  - obind E. destruct a. done.
Qed.

Definition rules_ready (j : json) (c : ipsec_security_gw_config) : Prop :=
  if socket_conf c then rules_reserved c else rules_sound j c.

Lemma allocate_rules_ok j docs c w c' w' :
  match docs with
  | Some (je, jd) => socket_conf c = false /\ counted j je jd (app_rules c)
  | None => socket_conf c = true /\ nb_encrypted_rules (app_rules c) = DYN_RESERVED_RULES
            /\ nb_decrypted_rules (app_rules c) = DYN_RESERVED_RULES
  end ->
  allocate_rules docs c w = Ret (c', DOCA_SUCCESS, w') ->
  rules_ready j c' /\ exists rules t, c' = set_app_rules rules (set_ip6_table t c).
Proof using HL.
  intros Hd (He & Hdn & w1 & w2 & E)%allocate_rules_run. destruct docs as [[je jd]|].
  - destruct Hd as [Hs Hc]. destruct (fill_rules_ok j je jd c w1 c' w2) as [Hr (rules & t & ->)]; [done..|].
    split; [unfold rules_ready; cbn; by rewrite Hs|by eexists _, _].
  - destruct Hd as (Hs & Hn1 & Hn2). unfold fill_rules, mret, io_ret in E. inv_ret. split.
    + unfold rules_ready, rules_reserved. cbn. by rewrite Hs, Hn1, Hn2.
    + eexists _, (ip6_table c). by destruct c.
Qed.

Lemma configure_ok j c w c' w' :
  sn_ok (options c) -> configure j c w = Ret (c', DOCA_SUCCESS, w') ->
  config_valid c' /\ sn_ok (options c') /\ rules_ready j c'
  /\ mode c' = mode c /\ socket_conf c' = socket_conf c.
Proof using HL.
  intros Hsn E. unfold configure in E.
  set (pr := match json_object_object_get_ex j (lit "config") with
             | Some json_config => parse_json_config json_config (options c) | None => (options c, DOCA_SUCCESS) end) in E.
  assert (sn_ok pr.1) as Hpr.
  { subst pr. destruct (json_object_object_get_ex j _); [by apply parse_json_config_keeps|done]. }
  destruct pr as [o r]. cbn [fst] in Hpr. unfold is_ok in E.
  case_bool_decide; cbn [negb] in E; [|unfold mret, io_ret in E; inv_ret; done].
  case_bool_decide as Hv; cbn [negb] in E; [|unfold mret, io_ret in E; inv_ret; done].
  apply validate_config_ok in Hv.
  assert (Hf : forall docs rules w1,
    match docs with
    | Some (je, jd) => socket_conf c = false /\ counted j je jd rules
    | None => socket_conf c = true /\ nb_encrypted_rules rules = DYN_RESERVED_RULES /\ nb_decrypted_rules rules = DYN_RESERVED_RULES
    end -> allocate_rules docs (set_app_rules rules (set_options o c)) w1 = Ret (c', DOCA_SUCCESS, w') ->
    config_valid c' /\ sn_ok (options c') /\ rules_ready j c' /\ mode c' = mode c /\ socket_conf c' = socket_conf c).
  { intros docs rules w1 Hd Ha. eapply (allocate_rules_ok j) in Ha as [Hr (rules' & t & ->)]; [|done].
    split_and!; [|done..]. destruct Hv as [H1 H2 H3 H4 H5]. by split. }
  cbn [socket_conf set_options] in E. destruct (socket_conf c) eqn:Hs; [by apply Hf in E|].
  unfold mbind, io_bind in E. obind E. destruct a as [[rules [docs|e]] w1].
  - apply count_rules_ok in E0 as [Hc ->]. destruct docs as [je jd]. by apply Hf in E.
  - unfold mret, io_ret in E. inv_ret. by apply count_rules_err in E0.
Qed.

Lemma create_ip6_table_run w : calls w = [] -> create_ip6_table w = Ret (Ok ht_new, set_blocks (blocks w + 1) w).
Proof using Type. destruct w. cbn. by intros ->. Qed.

Lemma parse_config_ok data w c c' w' :
  calls w = [] -> writes w = [] -> file w = Some data -> text_bytes data ->
  length (garbage (length data + 1)) = (length data + 1)%nat -> last (garbage (length data + 1)) = Some 0 ->
  sn_ok (options c) -> ipsec_security_gw_parse_config c w = Ret (c', DOCA_SUCCESS, w') ->
  config_valid c' /\ sn_ok (options c') /\ rules_ready (json_tokener_parse (chars data)) c'
  /\ mode c' = mode c /\ socket_conf c' = socket_conf c.
Proof using HL.
  intros Hc Hw Hf Ht Hg Hl Hsn E. unfold ipsec_security_gw_parse_config in E. unfold mbind at 1, io_bind at 1 in E.
  rewrite create_ip6_table_run in E by done. cbv beta iota zeta in E. unfold mbind at 1, io_bind at 1 in E.
  rewrite (read_document_reads garbage data) in E by done.
  rewrite (drop_last_nul _ (length data) 0) in E by (try done; lia).
  rewrite chars_app in E. change (chars [0]) with [NUL] in E. rewrite cstr_of_app in E by by apply chars_no_nul.
  cbv beta iota zeta in E. unfold mbind at 1, io_bind at 1 in E. obind E. destruct a as [[c1 r1] w1].
  cbv [free released mbind io_bind mret io_ret] in E. inv_ret. by apply configure_ok in E0.
Qed.

(** C15: An accepted configuration is one the rest of the gateway can rely on. When no
    call fails, the file is text and the byte behind it is zero (the source reads into a
    block it does not terminate), and [ipsec_security_gw_parse_config] succeeds, then
    the devices and offload options are consistent, the initial sequence number leaves
    room for the replay window (so that the anti-replay check starts in a state that
    refines the empty set of sequence numbers), and the arrays hold exactly the rules of
    the document, entry for entry: every field is the value that the text or the number
    of its member spells, or the default of a missing member, the key being the bytes
    its lower-case digits spell (upper-case digits are accepted too, and stored wrong:
    [key_case_matters]); both addresses of every IPv6 encryption rule are in the table.
    With a policy socket the arrays hold the zeroed rules set aside for it instead. *)
Theorem ipsec_config_sound data w c c' w' :
  calls w = [] -> writes w = [] -> file w = Some data -> text_bytes data ->
  length (garbage (length data + 1)) = (length data + 1)%nat -> last (garbage (length data + 1)) = Some 0 ->
  sn_ok (options c) -> ipsec_security_gw_parse_config c w = Ret (c', DOCA_SUCCESS, w') ->
  config_valid c' /\ rules_ready (json_tokener_parse (chars data)) c'
  /\ ar_refines (AntiReplay.sw_handling_antireplay (sn_initial (options c'))) (ARSpec ∅ (sn_initial (options c') + 63)).
Proof using HL.
  intros Hc Hw Hf Ht Hg Hl Hsn E. destruct (parse_config_ok data w c c' w') as (Hv & Hs & Hr & _); [done..|]. split_and!; [done|done|].
  apply ar_init. unfold sn_ok, UINT32_MAX, WINDOW_SIZE in Hs. lia.
Qed.

(** ** Resources *)

(** Reduce the tests of codes that are known. *)
Ltac decide_code :=
  repeat match goal with
         | H : is_ok ?d = _ |- context [is_ok ?d] => rewrite H
         | |- context [is_ok DOCA_SUCCESS] => change (is_ok DOCA_SUCCESS) with true
         | |- context [is_ok DOCA_ERROR_NO_MEMORY] => change (is_ok DOCA_ERROR_NO_MEMORY) with false
         | |- context [is_ok DOCA_ERROR_DRIVER] => change (is_ok DOCA_ERROR_DRIVER) with false
         end; cbv iota.

#[local] Hint Resolve read_document_acct uses_allocated : acct.

Lemma calloc_n_acct n : acct (calloc_n n) (fun p f b => f = 0 /\ b = Z.b2z p).
Proof using Type. unfold calloc_n. acct_all. Qed.

Lemma with_table_uses {A} (m : reader A) c : uses (with_table m c) (fun _ => (0, 0)).
Proof using Type.
  intros w a w' E. unfold with_table in E. destruct (ip6_table c); [|done]. cbn in E. destruct (m r) as [[]|]; [|done].
  inv_ret. cbn. lia.
Qed.
#[local] Hint Resolve calloc_n_acct @with_table_uses : acct.

Lemma fill_rules_acct docs c : acct (fill_rules docs c) (fun _ f b => f = 0 /\ b = 0).
Proof using Type. unfold fill_rules. acct_all. Qed.
#[local] Hint Resolve fill_rules_acct : acct.

Lemma allocate_rules_acct docs c :
  acct (allocate_rules docs c) (fun r f b => f = 0 /\ b = if is_ok r.2 then 2 else 0).
Proof using Type.
  unfold allocate_rules. acct_all; decide_code; lia.
Qed.

Lemma count_rules_acct j rules : acct (count_rules j rules) (fun _ f b => f = 0 /\ b = 0).
Proof using Type. unfold count_rules. acct_all. Qed.
#[local] Hint Resolve allocate_rules_acct count_rules_acct : acct.

Lemma configure_acct j c : acct (configure j c) (fun r f b => f = 0 /\ b = if is_ok r.2 then 2 else 0).
Proof using Type.
  unfold configure. destruct (match json_object_object_get_ex _ _ with Some _ => _ | None => _ end) as [o r].
  destruct (is_ok r) eqn:Er; cbn [negb]; [|apply acct_ret; cbn; by rewrite Er].
  destruct (is_ok (validate_config _)) eqn:Ev; cbn [negb]; [|apply acct_ret; cbn; by rewrite Ev].
  destruct (socket_conf _); [eapply acct_mono; [apply allocate_rules_acct|by cbn]|].
  intros w a w' E. unfold mbind, io_bind in E. obind E. destruct a0 as [[rules [docs|e]] w1].
  - pose proof (count_rules_acct j (app_rules (set_options o c)) _ _ _ E0) as [Hf Hb].
    pose proof (allocate_rules_acct (Some docs) (set_app_rules rules (set_options o c)) _ _ _ E) as [Hf' Hb']. lia.
  - pose proof (count_rules_acct j (app_rules (set_options o c)) _ _ _ E0) as [Hf Hb]. unfold mret, io_ret in E. inv_ret. cbn.
    unfold is_ok. case_bool_decide as He; [subst; by apply count_rules_err in E0|]. lia.
Qed.
#[local] Hint Resolve configure_acct : acct.

(** Whatever fails, [ipsec_security_gw_parse_config] closes the file, frees the text and,
    unless it succeeds, the arrays of rules; on success they are the caller's.  What stays
    allocated in either case are the table of IPv6 addresses and the parsed document, which
    nothing releases. *)
Theorem ipsec_config_releases c w c' result w' :
  ipsec_security_gw_parse_config c w = Ret (c', result, w') ->
  fds w' = fds w
  /\ exists leaked, 0 <= leaked <= 2 /\ blocks w' = blocks w + (if is_ok result then 2 else 0) + leaked.
Proof using Type.
  assert (H1 : acct (ipsec_security_gw_parse_config c) (fun r f b =>
    f = 0 /\ exists leaked, 0 <= leaked <= 2 /\ b = (if is_ok r.2 then 2 else 0) + leaked)).
  2:{ intros E. destruct (H1 _ _ _ E) as [Hf (l & Hl & Hb)]. cbn in Hb. split; [lia|]. exists l. lia. }
  unfold ipsec_security_gw_parse_config.
  eapply acct_bind with (P := fun (t : res rte_hash) f b => f = 0 /\ b = match t with Ok _ => 1 | Err _ => 0 end /\ t <> Err DOCA_SUCCESS).
  { unfold create_ip6_table. acct_all. }
  intros [t|e] f b (-> & -> & He).
  2:{ apply acct_ret. split; [done|]. exists 0. cbn. unfold is_ok. rewrite bool_decide_eq_false_2 by congruence. lia. }
  acct_step. destruct x as [j|e].
  2:{ apply acct_ret. split; [lia|]. exists 1. cbn. unfold is_ok. rewrite bool_decide_eq_false_2 by naive_solver. lia. }
  acct_step. acct_step. acct_step. apply acct_ret. cbn [fst snd] in *. unfold doc_blocks in *.
  split; [lia|]. exists (1 + Z.b2z (negb (is_type json_type_null j))). destruct (is_type _ _); cbn in *; lia.
Qed.

(** ** Keys in upper case *)

(** A key of up to 16 or 32 bytes written in lower-case hexadecimal is stored byte for
    byte and padded with zeros.  Written in upper case it is accepted as well, but each byte
    whose second digit is a letter is stored as 32 less, so that the two ends of a tunnel
    configured with the same key in different cases do not share it. *)
Theorem key_case_matters o v kt upper bs :
  member o (lit "key") json_type_string = Ok v -> json_object_get_string v = key_text upper bs ->
  Forall (in_width 8) bs -> (length bs <= if bool_decide (kt = DOCA_FLOW_CRYPTO_KEY_128) then 16 else 32)%nat ->
  create_key o kt (replicate MAX_KEY_LEN 0)
  = Ret (Ok (map (stored_byte upper) bs ++ replicate (MAX_KEY_LEN - length bs) 0)).
Proof using Type. apply create_key_text. Qed.
End config.

(** ** A sample configuration *)

Section samples.
#[local] Instance config_hash : RteHash := Slots.slots_hash 8.

(** An IPv6 flow over an IPv4 tunnel, and its reverse. *)
Definition config_tree : tree :=
  TObject [(lit "config", TObject [(lit "sw-antireplay-enable", TBool true); (lit "sn-initial", TInt 4294967231);
                                   (lit "esp-header-offload", TString (lit "none"))]);
           (lit "encrypt-rules", TArray [TObject [
              (lit "ip-version", TInt 6); (lit "protocol", TString (lit "udp")); (lit "src-ip", TString (lit "2001:db8::1"));
              (lit "dst-ip", TString (lit "2001:db8::2")); (lit "encap-dst-ip", TString (lit "192.168.1.2"));
              (lit "src-port", TInt 1234); (lit "dst-port", TInt 443); (lit "spi", TInt 21555);
              (lit "key", TString (key_text false (seqZ 171 16))); (lit "key-type", TInt 128)]]);
           (lit "decrypt-rules", TArray [TObject [
              (lit "dst-ip", TString (lit "192.168.1.1")); (lit "spi", TInt 21556); (lit "inner-ip-version", TInt 6);
              (lit "key", TString (key_text true (seqZ 171 16))); (lit "icv-length", TInt 8); (lit "salt", TInt 7)]])].

Definition config_text : list Z := replicate 20 32.

#[local] Instance config_json : JsonC := json_tree (fun s => if streq s (chars config_text) then config_tree else TNull).

Definition config_world : world := World [] [] [] [] [] (Some config_text) 0 0.

Definition zeros (n : nat) : list Z := replicate n 0.

Definition config_start : ipsec_security_gw_config :=
  Config (Options false false false IPSEC_SECURITY_GW_VNF IPSEC_SECURITY_GW_ESP_OFFLOAD_BOTH IPSEC_SECURITY_GW_PERF_NONE
            IPSEC_SECURITY_GW_FWD_SYNDROME_DROP 0)
    IPSEC_SECURITY_GW_TUNNEL (lit "config.json") None (GwRules Null Null 0 0 0)
    (DevInfo (lit "03:00.0") [] true false true) (DevInfo (lit "03:00.1") [] true false true) [] false 2.

Definition config_run : option (ipsec_security_gw_config * world) :=
  match ipsec_security_gw_parse_config zeros config_start config_world with
  | Ret (c, DOCA_SUCCESS, w) => Some (c, w)
  | _ => None
  end.

Definition config_end : ipsec_security_gw_config := default config_start (fst <$> config_run).

Lemma config_accepted :
  ipsec_security_gw_parse_config zeros config_start config_world = Ret (config_end, DOCA_SUCCESS, set_blocks 4 config_world).
Proof. by vm_compute. Qed.

(** The rules that were read. *)
Example config_rules :
  encrypt_rules (app_rules config_end) =
    Live [EncryptRule DOCA_FLOW_L3_TYPE_IP6 DOCA_FLOW_L4_TYPE_EXT_UDP
            (addr32 ([0x20; 0x01; 0x0d; 0xb8] ++ replicate 11 0 ++ [1]) ++ addr32 ([0x20; 0x01; 0x0d; 0xb8] ++ replicate 11 0 ++ [2]))
            1234 443 DOCA_FLOW_L3_TYPE_IP4 [BE_IPV4_ADDR 192 168 1 2; 0; 0; 0] 21555 0
            (SaAttrs DOCA_FLOW_CRYPTO_ICV_LENGTH_16 DOCA_FLOW_CRYPTO_KEY_128 (seqZ 171 16 ++ replicate 16 0) 6)]
  /\ decrypt_rules (app_rules config_end) =
       Live [DecryptRule DOCA_FLOW_L3_TYPE_IP4 [BE_IPV4_ADDR 192 168 1 1; 0; 0; 0] 21556 DOCA_FLOW_L3_TYPE_IP6
               (SaAttrs DOCA_FLOW_CRYPTO_ICV_LENGTH_8 DOCA_FLOW_CRYPTO_KEY_256
                  (map (stored_byte true) (seqZ 171 16) ++ replicate 16 0) 7) (ARState 0 0 0)].
Proof. split; by vm_compute. Qed.

Lemma config_end_rules : rules_sound (json_tokener_parse (chars config_text)) config_end.
Proof.
  destruct (parse_config_ok (HL := Slots.slots_hash_laws 8) zeros config_text config_world config_start config_end (set_blocks 4 config_world))
    as (_ & _ & Hr & _); [done..| | | | | |done]; [|done|done| |apply config_accepted].
  - unfold text_bytes. apply (bool_decide_unpack _). by vm_compute.
  - by vm_compute.
Qed.

Lemma ipsec_config_sound_witness :
  config_valid config_end /\ rules_ready (json_tokener_parse (chars config_text)) config_end
  /\ ar_refines (AntiReplay.sw_handling_antireplay (sn_initial (options config_end)))
       (ARSpec ∅ (sn_initial (options config_end) + 63)).
Proof.
  apply (ipsec_config_sound (HL := Slots.slots_hash_laws 8) zeros config_text config_world config_start config_end
           (set_blocks 4 config_world)).
  - reflexivity.
  - reflexivity.
  - reflexivity.
  - unfold text_bytes. apply (bool_decide_unpack _). vm_compute. exact I.
  - reflexivity.
  - reflexivity.
  - by vm_compute.
  - apply config_accepted.
Defined.

Lemma ipsec_config_releases_witness :
  fds (set_blocks 4 config_world) = fds config_world
  /\ exists leaked, 0 <= leaked <= 2 /\ blocks (set_blocks 4 config_world) = blocks config_world + 2 + leaked.
Proof.
  apply (ipsec_config_releases zeros config_start config_world config_end DOCA_SUCCESS (set_blocks 4 config_world)).
  apply config_accepted.
Defined.

(** The key ["AB"] is stored as 0x8b. *)
Lemma key_case_matters_witness :
  create_key (J := config_json) (TObject [(lit "key", TString (lit "AB"))]) DOCA_FLOW_CRYPTO_KEY_256 (replicate MAX_KEY_LEN 0)
  = Ret (Ok (0x8b :: replicate 31 0)).
Proof.
  apply (key_case_matters (J := config_json) (TObject [(lit "key", TString (lit "AB"))]) (TString (lit "AB")) DOCA_FLOW_CRYPTO_KEY_256 true [0xab]).
  - reflexivity.
  - reflexivity.
  - apply (bool_decide_unpack _). vm_compute. exact I.
  - vm_compute. lia.
Defined.
End samples.
