(* ===== verification/IpsecRules.v ===== *)
(** * IPsec gateway: the entries of the rules (flow_encrypt.c, flow_decrypt.c, flow_common.c)

    What the gateway asks of the DOCA Flow library for each rule of its configuration: the
    security association, the entries of the pipes that classify a packet by its five-tuple
    and of the pipes that encrypt or decrypt it, in batches on the queue of one thread.  The
    library is not part of the repository: an entry is in force once a call of
    [doca_flow_entries_process] has completed it with success; how many waiting entries a
    call completes is answered by the environment ([comps]), and when these answers have run
    out everything asked for completes.  Calls that fail are those of [CommChannel]. *)
From S2P Require Import Prelude CString FlowTypes RteHash Inet6 Policy Esp CommChannel Json IpsecConfig.

Definition QUEUE_DEPTH : Z := 512.
Definition NUM_OF_SYNDROMES : Z := 4.
Definition DOCA_FLOW_WAIT_FOR_BATCH : Z := 1.

(** ** Metadata of a packet *)

(** [union security_gateway_pkt_meta]: the members with their widths. *)
Definition pkt_meta (encrypt decrypt : bool) (icv_size : Z) (inner_ipv6 : bool) (decrypt_syndrome antireplay_syndrome rule_id : Z) : Z :=
  Z.b2z encrypt + 2 * Z.b2z decrypt + 4 * (icv_size mod 4) + 16 * Z.b2z inner_ipv6 + 32 * (decrypt_syndrome mod 4)
  + 128 * (antireplay_syndrome mod 4) + 4096 * (rule_id mod 2 ^ 20).

(** ** Entries *)

(** The members [pipe] of [struct encrypt_pipes] and [struct decrypt_pipes] that hold
    entries of rules. *)
Inductive gw_pipe : Type :=
| ipv4_encrypt_pipe | ipv6_encrypt_pipe
| ipv4_tcp_pipe | ipv4_udp_pipe | ipv6_tcp_pipe | ipv6_udp_pipe | ipv6_src_tcp_pipe | ipv6_src_udp_pipe
| decrypt_ipv4_pipe | decrypt_ipv6_pipe | bad_syndrome_ipv4_pipe | bad_syndrome_ipv6_pipe.

#[export] Instance gw_pipe_eq_dec : EqDecision gw_pipe.
Proof. solve_decision. Defined.

(** The match and the actions of an entry: the members that are set. *)
Inductive gw_entry : Type :=
| SrcIp6Entry (src_ip : list Z) (set_meta : Z)
| Ip4Entry (l4 : doca_flow_l4_type_ext) (src_port dst_port : Z) (src_ip dst_ip : Z) (set_pkt_meta : Z)
| Ip6Entry (l4 : doca_flow_l4_type_ext) (src_port dst_port : Z) (match_meta : Z) (dst_ip : list Z) (set_pkt_meta : Z)
| EncryptEntry (match_pkt_meta : Z) (action_idx crypto_id : Z) (encap_data : list Z) (icv_size : Z)
| DecryptEntry (l3 : doca_flow_l3_type) (dst_ip : list Z) (esp_spi : Z) (crypto_id : Z) (set_pkt_meta : Z)
| SyndromeEntry (match_pkt_meta ipsec_syndrome match_meta : Z) (set_pkt_meta : Z).

(** A security association, [doca_flow_shared_resource_cfg]. *)
Record shared_sa : Type := SharedSa {
  sa_egress : bool; sa_icv_len : doca_flow_crypto_icv_len; sa_salt : Z; sa_key_type : doca_flow_crypto_key_type;
  sa_key : list Z; sa_sn_offload : bool; sa_sn_initial : Z
}.

(** ** The library and the counters of a thread *)

Inductive gw_port : Type := SECURED_IDX | UNSECURED_IDX.

#[export] Instance gw_port_eq_dec : EqDecision gw_port.
Proof. solve_decision. Defined.

(** Which [struct entries_status] an entry was added with. *)
Inductive status_of : Type := crypt_status | hairpin_status.

#[export] Instance status_of_eq_dec : EqDecision status_of.
Proof. solve_decision. Defined.

Record entries_status : Type := Status { failure : bool; nb_processed : Z; entries_in_queue : Z }.

Definition status_zero : entries_status := Status false 0 0.

Record item : Type := Item { i_port : gw_port; i_status : status_of; i_pipe : gw_pipe; i_entry : gw_entry; i_flags : Z }.

Record inserter : Type := Inserter {
  in_force : list (gw_pipe * gw_entry);
  shared : list (Z * shared_sa);          (** associations configured, in order *)
  nb_entries : gw_pipe -> Z;              (** of [struct security_gateway_pipe_info] *)
  current_ip_id : Z;                      (** the static variable of [create_ipv4_tunnel_encap], one for all queues there;
                                              what the theorems say of an entry holds for any value *)
  comps : list (doca_error_t * list bool);
  waiting : list item;
  crypt : entries_status;
  hairpin : entries_status
}.

Definition get_status (w : status_of) (s : inserter) : entries_status :=
  match w with crypt_status => crypt s | hairpin_status => hairpin s end.

Definition on_status (w : status_of) (f : entries_status -> entries_status) (s : inserter) : inserter :=
  match w with
  | crypt_status => Inserter (in_force s) (shared s) (nb_entries s) (current_ip_id s) (comps s) (waiting s) (f (crypt s)) (hairpin s)
  | hairpin_status => Inserter (in_force s) (shared s) (nb_entries s) (current_ip_id s) (comps s) (waiting s) (crypt s) (f (hairpin s))
  end.

Definition set_waiting v (s : inserter) : inserter :=
  Inserter (in_force s) (shared s) (nb_entries s) (current_ip_id s) (comps s) v (crypt s) (hairpin s).
Definition add_in_force x (s : inserter) : inserter :=
  Inserter (in_force s ++ [x]) (shared s) (nb_entries s) (current_ip_id s) (comps s) (waiting s) (crypt s) (hairpin s).
Definition set_comps v (s : inserter) : inserter :=
  Inserter (in_force s) (shared s) (nb_entries s) (current_ip_id s) v (waiting s) (crypt s) (hairpin s).
Definition set_ip_id v (s : inserter) : inserter :=
  Inserter (in_force s) (shared s) (nb_entries s) v (comps s) (waiting s) (crypt s) (hairpin s).

(** [check_for_valid_entry] for the completion of an addition. *)
Definition check_for_valid_entry (status : bool) (st : entries_status) : entries_status :=
  Status (failure st || negb status) (nb_processed st + 1) (entries_in_queue st - 1).

(** The first waiting entries of a port complete with the given statuses. *)
Fixpoint complete (port : gw_port) (sts : list bool) (q : list item) (s : inserter) : inserter :=
  match q with
  | [] => set_waiting [] s
  | x :: q =>
      if bool_decide (i_port x = port) then
        match sts with
        | [] => set_waiting (x :: q) s
        | b :: sts =>
            complete port sts q
              (on_status (i_status x) (check_for_valid_entry b) (if b then add_in_force (i_pipe x, i_entry x) s else s))
        end
      else
        let s := complete port sts q s in set_waiting (x :: waiting s) s
  end.

(** [doca_flow_entries_process(port, queue, timeout, max)]; 0 sets no limit.  How many of the
    waiting entries complete in a call is the library's and the device's choice: [comps] says
    it for the calls of a run, so that an entry which the flags [i_flags] ask to hold back may
    stay away through any of them; once [comps] has come to its end a call completes all. *)
Definition flow_entries_process (port : gw_port) (max : Z) (s : inserter) : doca_error_t * inserter :=
  let there := filter (fun x => i_port x = port) (waiting s) in
  let n := if max =? 0 then length there else Nat.min (length there) (Z.to_nat max) in
  match comps s with
  | [] => (DOCA_SUCCESS, complete port (replicate n true) (waiting s) s)
  | (result, sts) :: rest => (result, complete port (take n sts) (waiting s) (set_comps rest s))
  end.

Definition process_entries (port : gw_port) (w : status_of) (s : inserter) : doca_error_t * inserter :=
  let (result, s) := flow_entries_process port (entries_in_queue (get_status w s)) s in
  if negb (is_ok result) then (result, s)
  else if failure (get_status w s) || (entries_in_queue (get_status w s) =? QUEUE_DEPTH) then (DOCA_ERROR_BAD_STATE, s)
  else (DOCA_SUCCESS, s).

(** [do { process_entries } while (entries_in_queue > 0)]: a turn uses up an answer of the
    environment, or completes entries. *)
Fixpoint drain (fuel : nat) (port : gw_port) (w : status_of) (s : inserter) : outcome (doca_error_t * inserter) :=
  match fuel with
  | O => Undef OutOfFuel
  | S fuel =>
      let (result, s) := process_entries port w s in
      if negb (is_ok result) then Ret (result, s)
      else if 0 <? entries_in_queue (get_status w s) then drain fuel port w s
      else Ret (DOCA_SUCCESS, s)
  end.

Definition drain_all (port : gw_port) (w : status_of) (s : inserter) : io (doca_error_t * inserter) := fun wd =>
  let* r := drain (S (S (length (comps s) + length (waiting s)))) port w s in Ret (r, wd).

(** ** Adding entries *)

Section rules.
Context `{RteHash}.
Context (c : ipsec_security_gw_config) (capacity : Z).

(** [doca_flow_pipe_add_entry]; in debug mode the entry gets a place in [entries_info], an
    array of [capacity] elements. *)
Definition pipe_add_entry (info : bool) (x : item) (s : inserter) : io (doca_error_t * inserter) :=
  let p := i_pipe x in
  check (negb info || (nb_entries s p <? capacity)) OutOfBounds;;
  let s := if info then Inserter (in_force s) (shared s) (fun q => if bool_decide (q = p) then nb_entries s p + 1 else nb_entries s q)
                          (current_ip_id s) (comps s) (waiting s) (crypt s) (hairpin s) else s in
  result ← call;
  if is_ok result then mret (result, set_waiting (waiting s ++ [x]) s) else mret (result, s).

(** [entries_in_queue += n] *)
Definition count_entries (w : status_of) (n : Z) (s : inserter) : inserter :=
  on_status w (fun st => Status (failure st) (nb_processed st) (entries_in_queue st + n)) s.

Definition batch_flags (last : bool) (w : status_of) (s : inserter) : Z :=
  if last || (entries_in_queue (get_status w s) =? QUEUE_DEPTH - 1) then DOCA_FLOW_NO_WAIT else DOCA_FLOW_WAIT_FOR_BATCH.

(** Add an entry, count it and process a full queue. *)
Definition add_and_process (x : item) (s : inserter) : io (doca_error_t * inserter) :=
  '(result, s) ← pipe_add_entry (debug_mode (options c)) x s;
  if negb (is_ok result) then mret (result, s)
  else
    let s := count_entries (i_status x) 1 s in
    if entries_in_queue (get_status (i_status x) s) =? QUEUE_DEPTH then mret (process_entries (i_port x) (i_status x) s)
    else mret (DOCA_SUCCESS, s).

(** In switch mode both ports are the switch port. *)
Definition secured_port : gw_port := SECURED_IDX.
Definition unsecured_port : gw_port :=
  if bool_decide (flow_mode (options c) = IPSEC_SECURITY_GW_SWITCH) then SECURED_IDX else UNSECURED_IDX.

Definition is_perf_bw : bool :=
  bool_decide (perf_measurement (options c) = IPSEC_SECURITY_GW_PERF_BW)
  || bool_decide (perf_measurement (options c) = IPSEC_SECURITY_GW_PERF_BOTH).

Definition get_pipe_for_rule (rule : encrypt_rule) (src_ip6 : bool) : gw_pipe :=
  let tcp := bool_decide (er_protocol rule = DOCA_FLOW_L4_TYPE_EXT_TCP) in
  if negb src_ip6 then
    if bool_decide (er_l3_type rule = DOCA_FLOW_L3_TYPE_IP4) then if tcp then ipv4_tcp_pipe else ipv4_udp_pipe
    else if tcp then ipv6_tcp_pipe else ipv6_udp_pipe
  else if tcp then ipv6_src_tcp_pipe else ipv6_src_udp_pipe.

Definition add_src_ip6_entry (rule : encrypt_rule) (src_ip_id : Z) (s : inserter) : io (doca_error_t * inserter) :=
  let flags := batch_flags false hairpin_status s in
  add_and_process (Item unsecured_port hairpin_status (get_pipe_for_rule rule true)
                     (SrcIp6Entry (take 4 (er_ip rule)) src_ip_id) flags) s.

(** [rte_cpu_to_be_16] of an [int] *)
Definition cpu_to_be_16 (v : Z) : Z := bswap 2 (u16 v).

(** The entry of the five-tuple pipe: an IPv6 rule matches the metadata that the source pipe
    sets, and its destination. *)
Definition five_tuple_entry (rule : encrypt_rule) (i src_ip_id : Z) : gw_entry :=
  let meta := pkt_meta true false 0 false 0 0 i in
  let src_port := cpu_to_be_16 (er_src_port rule) in
  let dst_port := cpu_to_be_16 (er_dst_port rule) in
  if bool_decide (er_l3_type rule = DOCA_FLOW_L3_TYPE_IP4)
  then Ip4Entry (er_protocol rule) src_port dst_port (word 0 (er_ip rule)) (word 1 (er_ip rule)) meta
  else Ip6Entry (er_protocol rule) src_port dst_port src_ip_id (drop 4 (er_ip rule)) meta.

(** The identifier of the source is the position of the destination in the table. *)
Definition add_five_tuple_match_entry (rule : encrypt_rule) (nb_rules i : Z) (s : inserter) : io (doca_error_t * inserter) :=
  let add src_ip_id s :=
    let flags := batch_flags (i =? nb_rules - 1) hairpin_status s in
    add_and_process (Item unsecured_port hairpin_status (get_pipe_for_rule rule false)
                       (five_tuple_entry rule i src_ip_id) flags) s in
  if bool_decide (er_l3_type rule = DOCA_FLOW_L3_TYPE_IP6) && negb is_perf_bw then
    match ip6_table c with
    | None => undef NullDeref
    | Some t =>
        match ht_lookup (ip6_key (drop 4 (er_ip rule))) t with
        | None => mret (DOCA_ERROR_NOT_FOUND, s)
        | Some (src_ip_id, _) =>
            '(result, s) ← add_src_ip6_entry rule src_ip_id s;
            if negb (is_ok result) then mret (result, s) else add src_ip_id s
        end
    end
  else add 0 s.

Definition configure_sa (egress : bool) (sn_offload : bool) (sa : sa_attrs) (ipsec_id : Z) (s : inserter)
    : io (doca_error_t * inserter) :=
  result ← call;
  if is_ok result then
    mret (result, Inserter (in_force s)
                    (shared s ++ [(ipsec_id, SharedSa egress (icv_length sa) (salt sa) (key_type sa) (enc_key_data sa) sn_offload
                                     (if sn_offload then sn_initial (options c) else 0))])
                    (nb_entries s) (current_ip_id s) (comps s) (waiting s) (crypt s) (hairpin s))
  else mret (result, s).

Definition create_ipsec_encrypt_shared_object (sa : sa_attrs) (ipsec_id : Z) (s : inserter) : io (doca_error_t * inserter) :=
  configure_sa true (negb (sw_sn_inc_enable (options c))) sa ipsec_id s.
Definition create_ipsec_decrypt_shared_object (sa : sa_attrs) (ipsec_id : Z) (s : inserter) : io (doca_error_t * inserter) :=
  configure_sa false (negb (sw_antireplay (options c))) sa ipsec_id s.

(** The header the hardware puts in front, with [action_idx], and the next IP id. *)
Definition encap_of (rule : encrypt_rule) (ip_id : Z) : Z * list Z * Z :=
  match mode c with
  | IPSEC_SECURITY_GW_TUNNEL =>
      if bool_decide (encap_l3_type rule = DOCA_FLOW_L3_TYPE_IP4)
      then let (hdr, ip_id) := create_ipv4_tunnel_encap rule false ip_id in (0, hdr, ip_id)
      else (1, create_ipv6_tunnel_encap rule false, ip_id)
  | IPSEC_SECURITY_GW_TRANSPORT => (0, create_transport_encap rule false, ip_id)
  | IPSEC_SECURITY_GW_UDP_TRANSPORT => (0, create_udp_transport_encap rule false, ip_id)
  end.

Definition encrypt_pipe_of (rule : encrypt_rule) : gw_pipe :=
  let l3 := if bool_decide (mode c = IPSEC_SECURITY_GW_TUNNEL)
               && (bool_decide (offload (options c) = IPSEC_SECURITY_GW_ESP_OFFLOAD_NONE)
                   || bool_decide (offload (options c) = IPSEC_SECURITY_GW_ESP_OFFLOAD_DECAP))
            then encap_l3_type rule else er_l3_type rule in
  if bool_decide (l3 = DOCA_FLOW_L3_TYPE_IP4) then ipv4_encrypt_pipe else ipv6_encrypt_pipe.

Definition encrypt_entry (rule : encrypt_rule) (rule_id ip_id : Z) : gw_entry :=
  let '(action_idx, hdr, _) := encap_of rule ip_id in
  EncryptEntry (pkt_meta false false 0 false 0 0 rule_id) action_idx rule_id hdr (get_icv_len_int (icv_length (er_sa rule))).

(** The body of the loop of [add_encrypt_entries]; [last] is its test for the last rule. *)
Definition add_encrypt_rule (last : bool) (nb_rules rule_id : Z) (rule : encrypt_rule) (s : inserter) : io (doca_error_t * inserter) :=
  '(result, s) ← add_five_tuple_match_entry rule nb_rules rule_id s;
  if negb (is_ok result) then mret (result, s)
  else
    '(result, s) ← create_ipsec_encrypt_shared_object (er_sa rule) rule_id s;
    if negb (is_ok result) then mret (result, s)
    else
      let x := encrypt_entry rule rule_id (current_ip_id s) in
      let s := set_ip_id (snd (encap_of rule (current_ip_id s))) s in
      add_and_process (Item secured_port crypt_status (encrypt_pipe_of rule) x (batch_flags last crypt_status s)) s.

Fixpoint encrypt_loop (n : nat) (nb_rules i rule_offset : Z) (rules : list encrypt_rule) (s : inserter) : io (doca_error_t * inserter) :=
  match n with
  | O => mret (DOCA_SUCCESS, s)
  | S n =>
      let rule_id := rule_offset + i in
      match rules !! Z.to_nat rule_id with
      | None => undef OutOfBounds
      | Some rule =>
          '(result, s) ← add_encrypt_rule (rule_id =? nb_rules - 1) nb_rules rule_id rule s;
          if negb (is_ok result) then mret (result, s) else encrypt_loop n nb_rules (i + 1) rule_offset rules s
      end
  end.

(** Wait for the entries of the secured port, then of the unsecured one. *)
Definition drain_both (s : inserter) : io (doca_error_t * inserter) :=
  '(result, s) ← drain_all secured_port crypt_status s;
  if negb (is_ok result) then mret (result, s) else drain_all unsecured_port hairpin_status s.

Definition fresh_status (s : inserter) : inserter :=
  Inserter (in_force s) (shared s) (nb_entries s) (current_ip_id s) (comps s) (waiting s) status_zero status_zero.

Definition add_encrypt_entries (rules : list encrypt_rule) (nb_rules rule_offset : Z) (s : inserter) : io (doca_error_t * inserter) :=
  '(result, s) ← encrypt_loop (Z.to_nat nb_rules) nb_rules 0 rule_offset rules (fresh_status s);
  if negb (is_ok result) then mret (result, s) else drain_both s.

(** A rule that arrives while the gateway runs. *)
Definition add_encrypt_entry (rule : encrypt_rule) (rule_id : Z) (s : inserter) : io (doca_error_t * inserter) :=
  '(result, s) ← add_five_tuple_match_entry rule (rule_id + 1) rule_id (fresh_status s);
  if negb (is_ok result) then mret (result, s)
  else
    '(result, s) ← create_ipsec_encrypt_shared_object (er_sa rule) rule_id s;
    if negb (is_ok result) then mret (result, s)
    else
      let x := encrypt_entry rule rule_id (current_ip_id s) in
      let s := set_ip_id (snd (encap_of rule (current_ip_id s))) s in
      '(result, s) ← pipe_add_entry (debug_mode (options c))
                       (Item secured_port crypt_status (encrypt_pipe_of rule) x DOCA_FLOW_NO_WAIT) s;
      if negb (is_ok result) then mret (result, s) else drain_both (count_entries crypt_status 1 s).

(** ** Decryption *)

Definition icv_code (icv : doca_flow_crypto_icv_len) : Z :=
  match icv with
  | DOCA_FLOW_CRYPTO_ICV_LENGTH_8 => 0 | DOCA_FLOW_CRYPTO_ICV_LENGTH_12 => 1 | DOCA_FLOW_CRYPTO_ICV_LENGTH_16 => 2
  end.

Definition decrypt_meta (rule : decrypt_rule) (rule_id : Z) : Z :=
  pkt_meta false true (icv_code (icv_length (dr_sa rule)))
    (bool_decide (mode c = IPSEC_SECURITY_GW_TUNNEL) && bool_decide (inner_l3_type rule = DOCA_FLOW_L3_TYPE_IP6)) 0 0 rule_id.

(** An IPv4 rule sets the first word of the address. *)
Definition decrypt_entry (rule : decrypt_rule) (crypto_id rule_id : Z) : gw_entry :=
  DecryptEntry (dr_l3_type rule)
    (if bool_decide (dr_l3_type rule = DOCA_FLOW_L3_TYPE_IP4) then [word 0 (dr_dst_ip rule)] else dr_dst_ip rule)
    (bswap 4 (u32 (dr_esp_spi rule))) crypto_id (decrypt_meta rule rule_id).

Definition decrypt_pipe_of (rule : decrypt_rule) : gw_pipe :=
  if bool_decide (dr_l3_type rule = DOCA_FLOW_L3_TYPE_IP4) then decrypt_ipv4_pipe else decrypt_ipv6_pipe.
Definition bad_syndrome_pipe_of (rule : decrypt_rule) : gw_pipe :=
  if bool_decide (dr_l3_type rule = DOCA_FLOW_L3_TYPE_IP4) then bad_syndrome_ipv4_pipe else bad_syndrome_ipv6_pipe.

(** Additions in a row, up to the first that fails. *)
Fixpoint add_items (xs : list item) (s : inserter) : io (doca_error_t * inserter) :=
  match xs with
  | [] => mret (DOCA_SUCCESS, s)
  | x :: xs =>
      '(result, s) ← pipe_add_entry false x s;
      if negb (is_ok result) then mret (result, s) else add_items xs s
  end.

(** The two bad results of the decryption and of the replay check. *)
Definition bad_syndrome_items (rule : decrypt_rule) (rule_id : Z) (flags : Z) : list item :=
  let p := bad_syndrome_pipe_of rule in
  let meta := pkt_meta false false 0 false 0 0 rule_id in
  let x ipsec aso := SyndromeEntry meta ipsec aso (pkt_meta false false 0 false ipsec aso 0) in
  [Item secured_port crypt_status p (x 1 0) DOCA_FLOW_WAIT_FOR_BATCH; Item secured_port crypt_status p (x 2 0) DOCA_FLOW_WAIT_FOR_BATCH;
   Item secured_port crypt_status p (x 0 1) DOCA_FLOW_WAIT_FOR_BATCH; Item secured_port crypt_status p (x 0 2) flags].

Definition add_bad_syndrome_pipe_entry (rule : decrypt_rule) (rule_id flags : Z) (s : inserter) : io (doca_error_t * inserter) :=
  add_items (bad_syndrome_items rule rule_id flags) s.

(** The entry of a rule and, in debug mode, those of its bad results. *)
Definition add_decrypt_items (rule : decrypt_rule) (crypto_id rule_id flags : Z) (s : inserter) : io (doca_error_t * inserter) :=
  let debug := debug_mode (options c) in
  '(result, s) ← pipe_add_entry debug (Item secured_port crypt_status (decrypt_pipe_of rule) (decrypt_entry rule crypto_id rule_id)
                                         (if debug then DOCA_FLOW_WAIT_FOR_BATCH else flags)) s;
  if negb (is_ok result) then mret (result, s)
  else
    let s := count_entries crypt_status 1 s in
    if debug then
      '(result, s) ← add_bad_syndrome_pipe_entry rule rule_id flags s;
      if negb (is_ok result) then mret (result, s)
      else mret (DOCA_SUCCESS, count_entries crypt_status NUM_OF_SYNDROMES s)
    else mret (DOCA_SUCCESS, s).

(** The body of the loop of [add_decrypt_entries]. *)
Definition add_decrypt_rule (nb_encrypt_rules : Z) (last : bool) (rule_id : Z) (rule : decrypt_rule) (s : inserter)
    : io (doca_error_t * inserter) :=
  let flags := if last || (entries_in_queue (crypt s) =? QUEUE_DEPTH - 8) then DOCA_FLOW_NO_WAIT else DOCA_FLOW_WAIT_FOR_BATCH in
  '(result, s) ← create_ipsec_decrypt_shared_object (dr_sa rule) (nb_encrypt_rules + rule_id) s;
  if negb (is_ok result) then mret (result, s)
  else
    '(result, s) ← add_decrypt_items rule (nb_encrypt_rules + rule_id) rule_id flags s;
    if negb (is_ok result) then mret (result, s)
    else if QUEUE_DEPTH - 8 <=? entries_in_queue (crypt s) then mret (process_entries secured_port crypt_status s)
    else mret (DOCA_SUCCESS, s).

Fixpoint decrypt_loop (nb_encrypt_rules : Z) (n : nat) (nb_rules i rule_offset : Z) (rules : list decrypt_rule) (s : inserter)
    : io (doca_error_t * inserter) :=
  match n with
  | O => mret (DOCA_SUCCESS, s)
  | S n =>
      let rule_id := rule_offset + i in
      match rules !! Z.to_nat rule_id with
      | None => undef OutOfBounds
      | Some rule =>
          '(result, s) ← add_decrypt_rule nb_encrypt_rules (i =? nb_rules - 1) rule_id rule s;
          if negb (is_ok result) then mret (result, s) else decrypt_loop nb_encrypt_rules n nb_rules (i + 1) rule_offset rules s
      end
  end.

Definition add_decrypt_entries (rules : list decrypt_rule) (nb_rules rule_offset : Z) (s : inserter) : io (doca_error_t * inserter) :=
  '(result, s) ← decrypt_loop (nb_encrypted_rules (app_rules c)) (Z.to_nat nb_rules) nb_rules 0 rule_offset rules (fresh_status s);
  if negb (is_ok result) then mret (result, s) else drain_all secured_port crypt_status s.

Definition add_decrypt_entry (rule : decrypt_rule) (rule_id : Z) (s : inserter) : io (doca_error_t * inserter) :=
  '(result, s) ← create_ipsec_decrypt_shared_object (dr_sa rule) rule_id (fresh_status s);
  if negb (is_ok result) then mret (result, s)
  else
    '(result, s) ← add_decrypt_items rule rule_id rule_id DOCA_FLOW_NO_WAIT s;
    if negb (is_ok result) then mret (result, s) else drain_all secured_port crypt_status s.

(** ** Binding the associations to the port *)

Definition ENCRYPT_DUMMY_ID : Z := MAX_NB_RULES * 2 + 1.
Definition DECRYPT_DUMMY_ID : Z := MAX_NB_RULES * 2 + 2.

(** The identifiers given to [doca_flow_shared_resources_bind]. *)
Definition bind_ids (ids : list Z) : io (res (list Z)) :=
  p ← calloc;
  if negb p then mret (Err DOCA_ERROR_NO_MEMORY)
  else
    result ← call;
    free true;;
    mret (if is_ok result then Ok ids else Err result).

Definition bind_encrypt_ids (nb_rules : Z) : io (res (list Z)) := bind_ids (seqZ 0 nb_rules ++ [ENCRYPT_DUMMY_ID]).
Definition bind_decrypt_ids (nb_rules initial_id : Z) : io (res (list Z)) := bind_ids (seqZ initial_id nb_rules ++ [DECRYPT_DUMMY_ID]).

Definition dummy_sa : sa_attrs :=
  SaAttrs DOCA_FLOW_CRYPTO_ICV_LENGTH_16 DOCA_FLOW_CRYPTO_KEY_256 (1 :: replicate 31 0) 0x12345678.

Definition create_ipsec_encrypt_dummy_shared_object (s : inserter) : io (doca_error_t * inserter) :=
  create_ipsec_encrypt_shared_object dummy_sa ENCRYPT_DUMMY_ID s.
Definition create_ipsec_decrypt_dummy_shared_object (s : inserter) : io (doca_error_t * inserter) :=
  create_ipsec_decrypt_shared_object dummy_sa DECRYPT_DUMMY_ID s.
End rules.

(** ** Entries that were added are waiting or complete *)

Definition place (x : item) : gw_pipe * gw_entry := (i_pipe x, i_entry x).

Definition cnt (w : status_of) (q : list item) : Z := Z.of_nat (length (filter (fun x => i_status x = w) q)).

Lemma cnt_app w q1 q2 : cnt w (q1 ++ q2) = cnt w q1 + cnt w q2.
Proof. unfold cnt. rewrite filter_app, length_app. lia. Qed.

Lemma cnt_cons w x q : cnt w (x :: q) = (if bool_decide (i_status x = w) then 1 else 0) + cnt w q.
Proof. unfold cnt. rewrite filter_cons. case_bool_decide; [rewrite decide_True by done; cbn; lia|by rewrite decide_False]. Qed.

Lemma cnt_perm w q1 q2 : q1 ≡ₚ q2 -> cnt w q1 = cnt w q2.
Proof. intros Hp. unfold cnt. by rewrite Hp. Qed.

Lemma cnt_nonneg w q : 0 <= cnt w q.
Proof. unfold cnt. lia. Qed.

Lemma cnt_zero q : cnt crypt_status q = 0 -> cnt hairpin_status q = 0 -> q = [].
Proof.
  destruct q as [|x q]; [done|]. rewrite !cnt_cons. pose proof (cnt_nonneg crypt_status q).
  pose proof (cnt_nonneg hairpin_status q).
  intros H1 H2. repeat case_bool_decide; try lia. destruct (i_status x); done.
Qed.

Definition unfailed (s : inserter) : Prop := forall w, failure (get_status w s) = false.

(** What completing entries changes: [dn] are the entries completed. *)
Record completes (q dn : list item) (s s' : inserter) : Prop := {
  co_perm : q ≡ₚ dn ++ waiting s';
  co_force : unfailed s' -> unfailed s /\ in_force s' = in_force s ++ (place <$> dn);
  co_count : forall w, entries_in_queue (get_status w s') = entries_in_queue (get_status w s) - cnt w dn;
  co_quiet : forall w, cnt w dn = 0 -> get_status w s' = get_status w s;
  co_frame : shared s' = shared s /\ nb_entries s' = nb_entries s /\ current_ip_id s' = current_ip_id s /\ comps s' = comps s;
}.

Lemma completes_nothing q s : completes q [] s (set_waiting q s).
Proof. split; cbn; try done; intros; try (by rewrite app_nil_r); destruct w; cbn; unfold cnt; cbn; lia. Qed.

(** One more completion in front. *)
Lemma completes_cons b x q dn s s' :
  completes q dn (on_status (i_status x) (check_for_valid_entry b) (if b then add_in_force (i_pipe x, i_entry x) s else s)) s' ->
  completes (x :: q) (x :: dn) s s'.
Proof.
  intros [Hp Hf Hc Hq Hr]. split.
  - by rewrite Hp.
  - intros Hu. destruct (Hf Hu) as [Hu1 Hi].
    assert (b = true) as ->.
    { destruct b; [done|]. specialize (Hu1 (i_status x)). destruct (i_status x); cbn in Hu1; by rewrite orb_true_r in Hu1. }
    split; [|rewrite Hi; destruct (i_status x); cbn; by rewrite <-app_assoc].
    intros w. specialize (Hu1 w). destruct w, (i_status x); cbn in *; by rewrite ?orb_false_r in Hu1.
  - intros w. rewrite Hc, cnt_cons. case_bool_decide; destruct w, (i_status x), b; try done; cbn; lia.
  - intros w Hz. rewrite cnt_cons in Hz. pose proof (cnt_nonneg w dn). case_bool_decide as Hw; [lia|].
    rewrite Hq by lia. by destruct w, (i_status x), b.
  - destruct Hr as (-> & -> & -> & ->). by destruct (i_status x), b.
Qed.

Lemma complete_completes port q : forall sts s, exists dn, completes q dn s (complete port sts q s).
Proof.
  induction q as [|x q IH]; intros sts s; cbn [complete]; [exists []; apply completes_nothing|].
  case_bool_decide.
  - destruct sts as [|b sts]; [exists []; apply completes_nothing|].
    destruct (IH sts (on_status (i_status x) (check_for_valid_entry b) (if b then add_in_force (i_pipe x, i_entry x) s else s)))
      as [dn Hd]. exists (x :: dn). by eapply completes_cons.
  - destruct (IH sts s) as [dn [Hp Hf Hc Hq Hr]]. exists dn. split; cbn; try done.
    etrans; [by apply Permutation_cons; [done|exact Hp]|apply Permutation_middle].
Qed.

Lemma process_completes port w s r s' :
  process_entries port w s = (r, s') ->
  exists dn, completes (waiting s) dn (set_comps (tail (comps s)) s) s'
    /\ (is_ok r = true -> failure (get_status w s') = false).
Proof.
  unfold process_entries, flow_entries_process. intros E.
  assert (exists r1 s1 dn, completes (waiting s) dn (set_comps (tail (comps s)) s) s1
    /\ (if negb (is_ok r1) then (r1, s1)
        else if failure (get_status w s1) || (entries_in_queue (get_status w s1) =? QUEUE_DEPTH) then (DOCA_ERROR_BAD_STATE, s1)
             else (DOCA_SUCCESS, s1)) = (r, s')) as (r1 & s1 & dn & Hd & E').
  { destruct (comps s) as [|[r0 sts] rest] eqn:Ec.
    - match type of E with context [complete port ?l (waiting s) s] => destruct (complete_completes port (waiting s) l s) as [dn Hd]; set (s1 := complete port l (waiting s) s) in * end.
      exists DOCA_SUCCESS, s1, dn. split; [|done]. replace (set_comps (tail []) s) with s; [done|]. cbn [tail]. destruct s; cbn in *. by subst.
    - match type of E with context [complete port ?l (waiting s) ?t] => destruct (complete_completes port (waiting s) l t) as [dn Hd]; set (s1 := complete port l (waiting s) t) in * end.
      by exists r0, s1, dn. }
  exists dn. destruct (is_ok r1) eqn:Er; cbn [negb] in E'.
  - destruct (failure (get_status w s1)) eqn:Ef; cbn in E'; [by inversion E'; subst|].
    destruct (_ =? QUEUE_DEPTH); inversion E'; subst; split; try done.
  - inversion E'; subst. split; [done|]. congruence.
Qed.

(** A thread that started with [F0] in force, the associations [S0] and nothing waiting, and
    has since added [log] and configured [slog]; [route] tells the port of a status. *)
Record logged (route : status_of -> gw_port) (F0 : list (gw_pipe * gw_entry)) (S0 : list (Z * shared_sa)) (log : list item) (slog : list (Z * shared_sa))
    (s : inserter) : Prop := {
  lg_done : exists dn, log ≡ₚ dn ++ waiting s /\ (unfailed s -> in_force s = F0 ++ (place <$> dn));
  lg_count : forall w, entries_in_queue (get_status w s) = cnt w (waiting s);
  lg_shared : shared s = S0 ++ slog;
  lg_routed : Forall (fun x => i_port x = route (i_status x)) (waiting s);
}.

(** For every index of [ks] its rule has what [P] says, in order. *)
Definition at_index {R A} (rules : list R) (P : Z -> R -> A -> Prop) (k : Z) (x : A) : Prop :=
  exists rule, rules !! Z.to_nat k = Some rule /\ P k rule x.

Definition covers {R B} (rules : list R) (P : Z -> R -> list B -> Prop) (ks : list Z) (xs : list B) : Prop :=
  exists xss, xs = concat xss /\ Forall2 (at_index rules P) ks xss.

Lemma covers_nil {R B} (rules : list R) (P : Z -> R -> list B -> Prop) : covers rules P [] [].
Proof. by exists []. Qed.

Lemma covers_cons {R B} (rules : list R) (P : Z -> R -> list B -> Prop) k ks x xs :
  at_index rules P k x -> covers rules P ks xs -> covers rules P (k :: ks) (x ++ xs).
Proof. intros Hx (xss & -> & Hf). exists (x :: xss). split; [done|by constructor]. Qed.

Lemma covers_app {R B} (rules : list R) (P : Z -> R -> list B -> Prop) ks1 ks2 xs1 xs2 :
  covers rules P ks1 xs1 -> covers rules P ks2 xs2 -> covers rules P (ks1 ++ ks2) (xs1 ++ xs2).
Proof. intros (x1 & -> & H1) (x2 & -> & H2). exists (x1 ++ x2). split; [by rewrite concat_app|by apply Forall2_app]. Qed.

Section logs.
Context (route : status_of -> gw_port) (F0 : list (gw_pipe * gw_entry)) (S0 : list (Z * shared_sa)).

Lemma process_logged log slog port w s r s' :
  logged route F0 S0 log slog s -> process_entries port w s = (r, s') ->
  logged route F0 S0 log slog s' /\ current_ip_id s' = current_ip_id s
  /\ (is_ok r = true -> failure (get_status w s') = false)
  /\ (forall w', cnt w' (waiting s) = 0 -> get_status w' s' = get_status w' s).
Proof.
  intros [(dn0 & Hp0 & Hf0) Hc0 Hs0 Hro0] E. destruct (process_completes _ _ _ _ _ E) as (dn & [Hp Hf Hc Hq Hr] & Hok).
  cbn in *. destruct Hr as (Hr1 & _ & Hr3 & _). split_and!; [|done|done|].
  - split.
    + exists (dn0 ++ dn). split; [by rewrite Hp0, Hp, <-app_assoc|]. intros Hu. destruct (Hf Hu) as [Hu0 ->].
      rewrite Hf0; [by rewrite fmap_app, <-app_assoc|]. intros w0. specialize (Hu0 w0). by destruct w0.
    + intros w0. rewrite Hc. replace (get_status w0 _) with (get_status w0 s) by by destruct w0.
      rewrite Hc0, (cnt_perm _ _ _ Hp), cnt_app. lia.
    + by rewrite Hr1.
    + rewrite Hp in Hro0. by apply Forall_app in Hro0 as [_ ?].
  - intros w' Hz. rewrite (cnt_perm _ _ _ Hp), cnt_app in Hz. pose proof (cnt_nonneg w' dn). pose proof (cnt_nonneg w' (waiting s')).
    rewrite Hq by lia. by destruct w'.
Qed.

Lemma pipe_add_logged capacity info x s w r s' w' :
  pipe_add_entry capacity info x s w = Ret (r, s', w') ->
  (is_ok r = true -> waiting s' = waiting s ++ [x]) /\ in_force s' = in_force s /\ shared s' = shared s
  /\ current_ip_id s' = current_ip_id s /\ (forall w, get_status w s' = get_status w s).
Proof.
  unfold pipe_add_entry, check. intros E. destruct (negb info || _); [|done].
  cbv [mbind io_bind mret io_ret] in E. obind E. destruct a as [r0 w0].
  destruct (is_ok r0) eqn:Er; inv_ret; (split_and!; [intros; try done; try congruence; by destruct info|by destruct info..|]);
    intros w1; by destruct info, w1.
Qed.

(** Entries of one status that were added and are now counted. *)
Lemma add_counted log slog w xs s s1 :
  logged route F0 S0 log slog s -> waiting s1 = waiting s ++ xs -> in_force s1 = in_force s -> shared s1 = shared s ->
  (forall w, get_status w s1 = get_status w s) -> Forall (fun x => i_status x = w /\ i_port x = route w) xs ->
  logged route F0 S0 (log ++ xs) slog (count_entries w (Z.of_nat (length xs)) s1).
Proof.
  intros [(dn & Hp & Hf) Hc Hs Hro] Hw Hi Hsh Hst Hx.
  assert (Hfr : waiting (count_entries w (Z.of_nat (length xs)) s1) = waiting s1
    /\ in_force (count_entries w (Z.of_nat (length xs)) s1) = in_force s1
    /\ shared (count_entries w (Z.of_nat (length xs)) s1) = shared s1) by by destruct w.
  destruct Hfr as (Hfw & Hfi & Hfs). split; rewrite ?Hfw, ?Hfi, ?Hfs.
  - exists dn. split; [by rewrite Hw, Hp, <-app_assoc|]. intros Hu. rewrite Hi. apply Hf.
    intros w0. specialize (Hu w0). rewrite <-Hst. by destruct w0, w.
  - intros w0. rewrite Hw, cnt_app, <-Hc, <-Hst.
    assert (cnt w0 xs = if bool_decide (w = w0) then Z.of_nat (length xs) else 0) as ->.
    { clear -Hx. induction Hx as [|x xs [Hx _] _ IH]; [by case_bool_decide|]. rewrite cnt_cons, IH, Hx. cbn [length]. case_bool_decide; lia. }
    case_bool_decide as Hw0; [subst w0; destruct w; cbn; lia|]. destruct w0, w; try done; cbn; lia.
  - by rewrite Hsh.
  - rewrite Hw. apply Forall_app_2; [done|]. eapply Forall_impl; [exact Hx|]. intros x [-> ->]. done.
Qed.

Section rules_logged.
Context `{RteHash} (c : ipsec_security_gw_config) (capacity : Z).
Hypothesis route_crypt : route crypt_status = secured_port.
Hypothesis route_hairpin : route hairpin_status = unsecured_port c.

Lemma add_and_process_logged log slog x s w r s' w' :
  logged route F0 S0 log slog s -> add_and_process c capacity x s w = Ret (r, s', w') -> is_ok r = true ->
  i_port x = route (i_status x) -> logged route F0 S0 (log ++ [x]) slog s' /\ current_ip_id s' = current_ip_id s.
Proof.
  intros Hl E Hr Hx. unfold add_and_process, mbind, io_bind in E. obind E. destruct a as [[r1 s1] w1].
  destruct (is_ok r1) eqn:E1; cbn [negb] in E; [|unfold mret, io_ret in E; inv_ret; congruence].
  apply pipe_add_logged in E0 as (Hw & Hi & Hs & Hid & Hst).
  assert (Hl1 : logged route F0 S0 (log ++ [x]) slog (count_entries (i_status x) 1 s1)) by (by apply (add_counted _ _ _ [x] s); auto; apply Forall_singleton).
  assert (Hid1 : current_ip_id (count_entries (i_status x) 1 s1) = current_ip_id s) by by destruct (i_status x).
  destruct (_ =? QUEUE_DEPTH).
  - unfold mret, io_ret in E. inversion E as [E']. destruct (process_logged _ _ _ _ _ _ _ Hl1 E') as (Hl2 & Hid2 & _).
    split; [done|congruence].
  - unfold mret, io_ret in E. inv_ret. done.
Qed.

(** The entries of a rule: the source pipe's, if it has one, the five-tuple pipe's and the
    encryption pipe's. *)
Definition five_tuple_places (rule : encrypt_rule) (rule_id : Z) (ps : list (gw_pipe * gw_entry)) : Prop :=
  if bool_decide (er_l3_type rule = DOCA_FLOW_L3_TYPE_IP6) && negb (is_perf_bw c) then
    exists t pos d, ip6_table c = Some t /\ ht_lookup (ip6_key (drop 4 (er_ip rule))) t = Some (pos, d)
      /\ ps = [(get_pipe_for_rule rule true, SrcIp6Entry (take 4 (er_ip rule)) pos);
               (get_pipe_for_rule rule false, five_tuple_entry rule rule_id pos)]
  else ps = [(get_pipe_for_rule rule false, five_tuple_entry rule rule_id 0)].

Definition encrypt_places (rule_id : Z) (rule : encrypt_rule) (ps : list (gw_pipe * gw_entry)) : Prop :=
  exists five ip_id, five_tuple_places rule rule_id five
    /\ ps = five ++ [(encrypt_pipe_of c rule, encrypt_entry c rule rule_id ip_id)].

Definition encrypt_sa (rule_id : Z) (rule : encrypt_rule) : Z * shared_sa :=
  let sa := er_sa rule in
  let offloaded := negb (sw_sn_inc_enable (options c)) in
  (rule_id, SharedSa true (icv_length sa) (salt sa) (key_type sa) (enc_key_data sa) offloaded
              (if offloaded then sn_initial (options c) else 0)).

Definition encrypt_sas (rule_id : Z) (rule : encrypt_rule) (xs : list (Z * shared_sa)) : Prop := xs = [encrypt_sa rule_id rule].

Lemma five_tuple_logged log slog rule nb_rules i s w r s' w' :
  logged route F0 S0 log slog s -> add_five_tuple_match_entry c capacity rule nb_rules i s w = Ret (r, s', w') -> is_ok r = true ->
  exists chunk, five_tuple_places rule i (place <$> chunk) /\ logged route F0 S0 (log ++ chunk) slog s'.
Proof.
  intros Hl E Hr. unfold add_five_tuple_match_entry in E. unfold five_tuple_places. destruct (_ && _).
  - destruct (ip6_table c) as [t|]; [|done]. destruct (ht_lookup _ t) as [[pos d]|] eqn:Et.
    2:{ unfold mret, io_ret in E. inv_ret. done. }
    unfold mbind, io_bind, add_src_ip6_entry in E. obind E. destruct a as [[r1 s1] w1].
    destruct (is_ok r1) eqn:E1; cbn [negb] in E; [|unfold mret, io_ret in E; inv_ret; congruence].
    eapply add_and_process_logged in E0 as [Hl1 _]; [|done|done|by cbn].
    eapply add_and_process_logged in E as [Hl2 _]; [|done|done|by cbn].
    rewrite <-app_assoc in Hl2. eexists. split; [|exact Hl2]. by exists t, pos, d.
  - eapply add_and_process_logged in E as [Hl1 _]; [|done|done|by cbn]. eexists. split; [|exact Hl1]. done.
Qed.

Lemma configure_sa_logged egress off sa id log slog s w r s' w' :
  logged route F0 S0 log slog s -> configure_sa c egress off sa id s w = Ret (r, s', w') -> is_ok r = true ->
  logged route F0 S0 log (slog ++ [(id, SharedSa egress (icv_length sa) (salt sa) (key_type sa) (enc_key_data sa) off
                                    (if off then sn_initial (options c) else 0))]) s'
  /\ hairpin s' = hairpin s.
Proof.
  intros [Hd Hc Hs Hro] E Hr. cbv [configure_sa mbind io_bind mret io_ret] in E. obind E. destruct a as [r1 w1].
  destruct (is_ok r1) eqn:E1; inv_ret; [|congruence]. split; [|done]. split; cbn.
  - destruct Hd as (dn & Hp & Hf). by exists dn.
  - intros w0. specialize (Hc w0). by destruct w0.
  - by rewrite Hs, <-app_assoc.
  - done.
Qed.

Lemma set_ip_id_logged log slog v s : logged route F0 S0 log slog s -> logged route F0 S0 log slog (set_ip_id v s).
Proof.
  intros [(dn & Hp & Hf) Hc Hs Hro]. split; cbn; [|intros w0; specialize (Hc w0); by destruct w0|done|done].
  exists dn. split; [done|]. intros Hu. apply Hf. intros w. specialize (Hu w). by destruct w.
Qed.

Lemma encrypt_rule_logged last nb_rules rule_id rule log slog s w r s' w' :
  logged route F0 S0 log slog s -> add_encrypt_rule c capacity last nb_rules rule_id rule s w = Ret (r, s', w') -> is_ok r = true ->
  exists chunk, encrypt_places rule_id rule (place <$> chunk)
    /\ logged route F0 S0 (log ++ chunk) (slog ++ [encrypt_sa rule_id rule]) s'.
Proof.
  intros Hl E Hr. unfold add_encrypt_rule, mbind, io_bind in E. obind E. destruct a as [[r1 s1] w1].
  destruct (is_ok r1) eqn:E1; cbn [negb] in E; [|unfold mret, io_ret in E; inv_ret; congruence].
  eapply five_tuple_logged in E0 as (five & Hfive & Hl1); [|done|done].
  obind E. destruct a as [[r2 s2] w2].
  destruct (is_ok r2) eqn:E2; cbn [negb] in E; [|unfold mret, io_ret in E; inv_ret; congruence].
  eapply configure_sa_logged in E0 as [E0 _]; [|done|done].
  eapply (set_ip_id_logged _ _ (snd (encap_of c rule (current_ip_id s2)))) in E0.
  eapply add_and_process_logged in E as [Hl3 _]; [|done|done|by cbn].
  rewrite <-app_assoc in Hl3. eexists. split; [|exact Hl3].
  exists (place <$> five), (current_ip_id s2). by rewrite fmap_app.
Qed.

Lemma encrypt_loop_logged n nb_rules rule_offset rules : forall i log slog s w r s' w',
  logged route F0 S0 log slog s -> encrypt_loop c capacity n nb_rules i rule_offset rules s w = Ret (r, s', w') -> is_ok r = true ->
  exists chunk sas, covers rules encrypt_places (seqZ (rule_offset + i) (Z.of_nat n)) (place <$> chunk)
    /\ covers rules encrypt_sas (seqZ (rule_offset + i) (Z.of_nat n)) sas
    /\ logged route F0 S0 (log ++ chunk) (slog ++ sas) s'.
Proof.
  induction n as [|n IH]; intros i log slog s w r s' w' Hl E Hr; cbn [encrypt_loop] in E.
  - unfold mret, io_ret in E. inv_ret. exists [], []. rewrite !app_nil_r. split_and!; [apply covers_nil..|done].
  - destruct (rules !! _) as [rule|] eqn:Erule; [|done]. unfold mbind, io_bind in E. obind E. destruct a as [[r1 s1] w1].
    destruct (is_ok r1) eqn:E1; cbn [negb] in E; [|unfold mret, io_ret in E; inv_ret; congruence].
    eapply encrypt_rule_logged in E0 as (chunk & Hpl & Hl1); [|done|done].
    eapply IH in E as (chunk' & sas & Hpl' & Hsa & Hl2); [|done|done].
    rewrite seqZ_cons by lia. replace (Z.succ (rule_offset + i)) with (rule_offset + (i + 1)) by lia.
    replace (Z.pred (Z.of_nat (S n))) with (Z.of_nat n) by lia. rewrite <-!app_assoc in Hl2.
    exists (chunk ++ chunk'), (encrypt_sa (rule_offset + i) rule :: sas). split_and!; [|by apply (covers_cons _ _ _ _ [_]); [exists rule|]|done].
    rewrite fmap_app. apply covers_cons; [by exists rule|done].
Qed.

(** ** Decryption *)

Definition decrypt_places (nb_encrypt_rules rule_id : Z) (rule : decrypt_rule) (ps : list (gw_pipe * gw_entry)) : Prop :=
  ps = (decrypt_pipe_of rule, decrypt_entry c rule (nb_encrypt_rules + rule_id) rule_id)
  :: if debug_mode (options c) then place <$> bad_syndrome_items rule rule_id DOCA_FLOW_NO_WAIT else [].

Definition decrypt_sa (nb_encrypt_rules rule_id : Z) (rule : decrypt_rule) : Z * shared_sa :=
  let sa := dr_sa rule in
  let offloaded := negb (sw_antireplay (options c)) in
  (nb_encrypt_rules + rule_id, SharedSa false (icv_length sa) (salt sa) (key_type sa) (enc_key_data sa) offloaded
                                 (if offloaded then sn_initial (options c) else 0)).

Definition decrypt_sas (nb_encrypt_rules rule_id : Z) (rule : decrypt_rule) (xs : list (Z * shared_sa)) : Prop :=
  xs = [decrypt_sa nb_encrypt_rules rule_id rule].

Lemma add_items_run xs : forall s w r s' w',
  add_items capacity xs s w = Ret (r, s', w') -> is_ok r = true ->
  waiting s' = waiting s ++ xs /\ in_force s' = in_force s /\ shared s' = shared s /\ (forall w, get_status w s' = get_status w s).
Proof.
  induction xs as [|x xs IH]; intros s w r s' w' E Hr; cbn [add_items] in E.
  - unfold mret, io_ret in E. inv_ret. by rewrite app_nil_r.
  - unfold mbind, io_bind in E. obind E. destruct a as [[r1 s1] w1].
    destruct (is_ok r1) eqn:E1; cbn [negb] in E; [|unfold mret, io_ret in E; inv_ret; congruence].
    apply pipe_add_logged in E0 as (Hw & Hi & Hs & _ & Hst). destruct (IH _ _ _ _ _ E Hr) as (Hw' & Hi' & Hs' & Hst').
    split_and!; [by rewrite Hw', (Hw E1), <-app_assoc|congruence|congruence|]. intros w2. by rewrite Hst'.
Qed.

Lemma decrypt_items_logged log slog rule cid id flags s w r s' w' :
  logged route F0 S0 log slog s -> add_decrypt_items c capacity rule cid id flags s w = Ret (r, s', w') -> is_ok r = true ->
  exists chunk, place <$> chunk = (decrypt_pipe_of rule, decrypt_entry c rule cid id)
      :: (if debug_mode (options c) then place <$> bad_syndrome_items rule id DOCA_FLOW_NO_WAIT else [])
    /\ logged route F0 S0 (log ++ chunk) slog s' /\ hairpin s' = hairpin s.
Proof.
  intros Hl E Hr. unfold add_decrypt_items, mbind, io_bind in E. obind E. destruct a as [[r1 s1] w1].
  destruct (is_ok r1) eqn:E1; cbn [negb] in E; [|unfold mret, io_ret in E; inv_ret; congruence].
  apply pipe_add_logged in E0 as (Hw & Hi & Hs & _ & Hst). pose proof (Hst hairpin_status) as Hh. cbn in Hh.
  eapply (add_counted _ _ crypt_status [_] s s1) in Hl; [|by apply Hw|done|done|done|by apply Forall_singleton].
  destruct (debug_mode (options c)).
  - obind E. destruct a as [[r2 s2] w2].
    destruct (is_ok r2) eqn:E2; cbn [negb] in E; unfold mret, io_ret in E; inv_ret; [|congruence].
    apply add_items_run in E0 as (Hw2 & Hi2 & Hs2 & Hst2); [|done].
    eapply (add_counted _ _ crypt_status (bad_syndrome_items rule id flags) _ s2) in Hl; [|done|done|done|done|].
    + rewrite <-app_assoc in Hl. eexists. split_and!; [|exact Hl|]; [done|]. pose proof (Hst2 hairpin_status) as Hh2. cbn in *. congruence.
    + repeat apply Forall_cons_2; try done.
  - unfold mret, io_ret in E. inv_ret. eexists. split_and!; [|exact Hl|]; done.
Qed.

Lemma decrypt_rule_logged nb last id rule log slog s w r s' w' :
  logged route F0 S0 log slog s -> add_decrypt_rule c capacity nb last id rule s w = Ret (r, s', w') -> is_ok r = true ->
  exists chunk, decrypt_places nb id rule (place <$> chunk)
    /\ logged route F0 S0 (log ++ chunk) (slog ++ [decrypt_sa nb id rule]) s'
    /\ (hairpin s = status_zero -> hairpin s' = status_zero).
Proof.
  intros Hl E Hr. unfold add_decrypt_rule, mbind, io_bind in E. obind E. destruct a as [[r1 s1] w1].
  destruct (is_ok r1) eqn:E1; cbn [negb] in E; [|unfold mret, io_ret in E; inv_ret; congruence].
  eapply configure_sa_logged in E0 as [E0 Hh1]; [|done|done].
  obind E. destruct a as [[r2 s2] w2].
  destruct (is_ok r2) eqn:Er2; cbn [negb] in E; [|unfold mret, io_ret in E; inv_ret; congruence].
  eapply decrypt_items_logged in E2 as (chunk & Hc & Hl2 & Hh2); [|done|done].
  exists chunk. split; [done|]. destruct (_ <=? _); unfold mret, io_ret in E.
  - inversion E as [E']. destruct (process_logged _ _ _ _ _ _ _ Hl2 E') as (Hl3 & _ & _ & Hq). split; [done|].
    intros Hh. specialize (Hq hairpin_status). cbn in Hq. rewrite Hq; [congruence|].
    rewrite <-(lg_count _ _ _ _ _ _ Hl2 hairpin_status). cbn. by rewrite Hh2, Hh1, Hh.
  - inv_ret. split; [done|]. congruence.
Qed.

Lemma decrypt_loop_logged nb n nb_rules rule_offset rules : forall i log slog s w r s' w',
  logged route F0 S0 log slog s -> decrypt_loop c capacity nb n nb_rules i rule_offset rules s w = Ret (r, s', w') -> is_ok r = true ->
  exists chunk sas, covers rules (decrypt_places nb) (seqZ (rule_offset + i) (Z.of_nat n)) (place <$> chunk)
    /\ covers rules (decrypt_sas nb) (seqZ (rule_offset + i) (Z.of_nat n)) sas
    /\ logged route F0 S0 (log ++ chunk) (slog ++ sas) s' /\ (hairpin s = status_zero -> hairpin s' = status_zero).
Proof.
  induction n as [|n IH]; intros i log slog s w r s' w' Hl E Hr; cbn [decrypt_loop] in E.
  - unfold mret, io_ret in E. inv_ret. exists [], []. rewrite !app_nil_r. split_and!; [apply covers_nil..|done|done].
  - destruct (rules !! _) as [rule|] eqn:Erule; [|done]. unfold mbind, io_bind in E. obind E. destruct a as [[r1 s1] w1].
    destruct (is_ok r1) eqn:E1; cbn [negb] in E; [|unfold mret, io_ret in E; inv_ret; congruence].
    eapply decrypt_rule_logged in E0 as (chunk & Hpl & Hl1 & Hh1); [|done|done].
    eapply IH in E as (chunk' & sas & Hpl' & Hsa & Hl2 & Hh2); [|done|done].
    rewrite seqZ_cons by lia. replace (Z.succ (rule_offset + i)) with (rule_offset + (i + 1)) by lia.
    replace (Z.pred (Z.of_nat (S n))) with (Z.of_nat n) by lia. rewrite <-!app_assoc in Hl2.
    exists (chunk ++ chunk'), (decrypt_sa nb (rule_offset + i) rule :: sas).
    split_and!; [|by apply (covers_cons _ _ _ _ [_]); [exists rule|]|done|by auto].
    rewrite fmap_app. apply covers_cons; [by exists rule|done].
Qed.
End rules_logged.

(** ** Waiting for the entries *)

Lemma drain_logged fuel port w : forall log slog s r s',
  logged route F0 S0 log slog s -> drain fuel port w s = Ret (r, s') -> is_ok r = true ->
  logged route F0 S0 log slog s' /\ cnt w (waiting s') = 0 /\ failure (get_status w s') = false
  /\ (forall w', cnt w' (waiting s) = 0 -> get_status w' s' = get_status w' s /\ cnt w' (waiting s') = 0).
Proof.
  induction fuel as [|fuel IH]; intros log slog s r s' Hl E Hr; cbn [drain] in E; [done|].
  destruct (process_entries port w s) as [r1 s1] eqn:Ep. destruct (process_logged _ _ _ _ _ _ _ Hl Ep) as (Hl1 & _ & Hok & Hq).
  destruct (is_ok r1) eqn:E1; cbn [negb] in E; [|inv_ret; congruence].
  assert (Hz : forall w', cnt w' (waiting s) = 0 -> get_status w' s1 = get_status w' s /\ cnt w' (waiting s1) = 0).
  { intros w' Hw. specialize (Hq w' Hw). split; [done|]. rewrite <-(lg_count _ _ _ _ _ _ Hl1), Hq, (lg_count _ _ _ _ _ _ Hl). done. }
  destruct (0 <? _) eqn:Ew.
  - destruct (IH _ _ _ _ _ Hl1 E Hr) as (Hl2 & Hc2 & Hf2 & Hq2). split_and!; [done..|].
    intros w' Hw. destruct (Hz w' Hw) as [Hs1 Hc1]. destruct (Hq2 w' Hc1) as [Hs2 Hc3]. split; [congruence|done].
  - inv_ret. apply Z.ltb_ge in Ew. split_and!; [done| |by apply Hok|done].
    rewrite (lg_count _ _ _ _ _ _ Hl1) in Ew. pose proof (cnt_nonneg w (waiting s')). lia.
Qed.

(** A turn of the loop uses up an answer, or completes an entry. *)
Lemma complete_shorter port q : forall n s,
  (0 < n)%nat -> Exists (fun x => i_port x = port) q ->
  (length (waiting (complete port (replicate n true) q s)) < length q)%nat.
Proof.
  induction q as [|x q IH]; intros n s Hn Hx; [by inversion Hx|]. cbn [complete].
  case_bool_decide.
  - destruct n as [|n]; [lia|]. cbn [replicate].
    destruct (complete_completes port q (replicate n true) (on_status (i_status x) (check_for_valid_entry true) (add_in_force (i_pipe x, i_entry x) s)))
      as [dn [Hp _ _ _ _]]. apply Permutation_length in Hp. rewrite length_app in Hp. cbn [length]. lia.
  - cbn. apply Exists_cons in Hx as [?|Hx]; [done|]. pose proof (IH n s Hn Hx). lia.
Qed.

Lemma process_progress log slog port w s r s' :
  logged route F0 S0 log slog s -> port = route w -> process_entries port w s = (r, s') -> is_ok r = true ->
  0 < entries_in_queue (get_status w s') ->
  (length (comps s') + length (waiting s') < length (comps s) + length (waiting s))%nat.
Proof.
  intros Hl -> E Hr Hpos. destruct (process_logged _ _ _ _ _ _ _ Hl E) as (Hl' & _).
  destruct (process_completes _ _ _ _ _ E) as (dn & [Hp _ Hc _ Hfr] & _).
  destruct Hfr as (_ & _ & _ & Hcomps). cbn [set_comps comps] in Hcomps.
  pose proof (Permutation_length Hp) as Hlen. rewrite length_app in Hlen. rewrite Hcomps.
  destruct (comps s) as [|a rest] eqn:Ec; cbn [tail length]; [|lia].
  assert (Hex : Exists (fun x => i_port x = route w) (waiting s)).
  { pose proof (lg_routed _ _ _ _ _ _ Hl) as Hro. rewrite (lg_count _ _ _ _ _ _ Hl') in Hpos.
    apply Exists_exists. destruct (filter (fun x => i_status x = w) (waiting s')) as [|x l] eqn:Ef.
    { unfold cnt in Hpos. rewrite Ef in Hpos. cbn in Hpos. lia. }
    assert (x ∈ filter (fun x => i_status x = w) (waiting s')) as Hx by (rewrite Ef; left).
    apply list_elem_of_filter in Hx as [Hw Hx]. exists x. assert (x ∈ waiting s) as Hx0 by (rewrite Hp; apply elem_of_app; by right).
    split; [done|]. rewrite Forall_forall in Hro. rewrite (Hro x Hx0). by rewrite Hw. }
  unfold process_entries, flow_entries_process in E. rewrite Ec in E.
  match type of E with context [replicate ?n true] => set (k := n) in E end.
  assert (0 < k)%nat.
  { subst k. apply Exists_exists in Hex as (x & Hx & Hpx).
    assert (0 < length (filter (fun x => i_port x = route w) (waiting s)))%nat.
    { destruct (filter _ _) eqn:Ef; [|cbn; lia]. exfalso. assert (x ∈ filter (fun x => i_port x = route w) (waiting s)) as Hin
        by (by apply list_elem_of_filter). rewrite Ef in Hin. by apply not_elem_of_nil in Hin. }
    pose proof (lg_count _ _ _ _ _ _ Hl w). pose proof (cnt_nonneg w (waiting s)). destruct (Z.eqb_spec (entries_in_queue (get_status w s)) 0); lia. }
  pose proof (complete_shorter (route w) (waiting s) k s) as Hsh.
  assert (s' = complete (route w) (replicate k true) (waiting s) s) as ->; [|lia || (specialize (Hsh ltac:(done) Hex); lia)].
  cbv zeta in E. cbn [is_ok negb] in E. unfold is_ok in E. rewrite (bool_decide_eq_true_2 (DOCA_SUCCESS = DOCA_SUCCESS)) in E by done. cbn [negb] in E.
  destruct (_ || _); by inversion E.
Qed.

Lemma drain_total w : forall fuel log slog s,
  logged route F0 S0 log slog s -> (length (comps s) + length (waiting s) < fuel)%nat ->
  exists r s', drain fuel (route w) w s = Ret (r, s').
Proof.
  induction fuel as [|fuel IH]; intros log slog s Hl Hf; [lia|]. cbn [drain].
  destruct (process_entries (route w) w s) as [r1 s1] eqn:Ep. destruct (is_ok r1) eqn:E1; cbn [negb]; [|by eexists _, _].
  destruct (0 <? _) eqn:Ew; [|by eexists _, _]. apply Z.ltb_lt in Ew.
  destruct (process_logged _ _ _ _ _ _ _ Hl Ep) as (Hl1 & _).
  pose proof (process_progress _ _ _ _ _ _ _ Hl eq_refl Ep E1 Ew). eapply IH; [done|lia].
Qed.
End logs.

(** ** Whole ranges of rules *)

Section installed.
Context `{RteHash} (c : ipsec_security_gw_config) (capacity : Z).

Definition route_of (w : status_of) : gw_port :=
  match w with crypt_status => secured_port | hairpin_status => unsecured_port c end.

Lemma fresh_logged s : waiting s = [] -> logged route_of (in_force s) (shared s) [] [] (fresh_status s).
Proof.
  intros Hw. split; cbn; rewrite ?Hw.
  - exists []. split; [done|]. by rewrite app_nil_r.
  - by intros [].
  - by rewrite app_nil_r.
  - apply Forall_nil_2.
Qed.

Lemma drain_all_run port w s wd r s' wd' :
  drain_all port w s wd = Ret (r, s', wd') -> drain (S (S (length (comps s) + length (waiting s)))) port w s = Ret (r, s').
Proof. unfold drain_all. destruct (drain _ _ _ _) as [[]|]; [|done]. by intros [= <- <- _]. Qed.

(** All added entries are in force once both statuses are at zero without a failure. *)
Lemma drained F0 S0 log slog s :
  logged route_of F0 S0 log slog s -> cnt crypt_status (waiting s) = 0 -> cnt hairpin_status (waiting s) = 0 ->
  failure (crypt s) = false -> failure (hairpin s) = false ->
  waiting s = [] /\ in_force s ≡ₚ F0 ++ (place <$> log).
Proof.
  intros [(dn & Hp & Hf) _ _ _] Hc Hh Hfc Hfh. assert (waiting s = []) as Hw by by apply cnt_zero. split; [done|].
  rewrite Hf by by intros []. rewrite Hw, app_nil_r in Hp. by rewrite Hp.
Qed.

Lemma drain_both_drained F0 S0 log slog s w s' w' :
  logged route_of F0 S0 log slog s -> drain_both c s w = Ret (DOCA_SUCCESS, s', w') ->
  waiting s' = [] /\ in_force s' ≡ₚ F0 ++ (place <$> log) /\ shared s' = S0 ++ slog.
Proof.
  intros Hl E. unfold drain_both, mbind, io_bind in E. obind E. destruct a as [[r1 s1] w1].
  destruct (is_ok r1) eqn:E1; cbn [negb] in E; [|unfold mret, io_ret in E; inv_ret; done].
  apply drain_all_run in E0, E. eapply drain_logged in E0 as (Hl1 & Hc1 & Hf1 & _); [|done|done].
  eapply drain_logged in E as (Hl2 & Hc2 & Hf2 & Hq2); [|done|done].
  destruct (Hq2 crypt_status Hc1) as [Hs3 Hc3]. cbn in Hs3. rewrite <-Hs3 in Hf1 || (cbn in Hf1; rewrite <-Hs3 in Hf1).
  destruct (drained _ _ _ _ _ Hl2) as [Hw Hi]; try done. split_and!; [done|done|apply Hl2].
Qed.

(** A range of rules that has been inserted. *)
Definition installs {R} (rules : list R) (places : Z -> R -> list (gw_pipe * gw_entry) -> Prop)
    (sas : Z -> R -> list (Z * shared_sa) -> Prop) (ks : list Z) (s s' : inserter) : Prop :=
  waiting s' = []
  /\ (exists ps, covers rules places ks ps /\ in_force s' ≡ₚ in_force s ++ ps)
  /\ (exists xs, covers rules sas ks xs /\ shared s' = shared s ++ xs).

Lemma encrypt_entries_ok rules nb_rules rule_offset s w s' w' :
  waiting s = [] -> 0 <= nb_rules ->
  add_encrypt_entries c capacity rules nb_rules rule_offset s w = Ret (DOCA_SUCCESS, s', w') ->
  installs rules (encrypt_places c) (encrypt_sas c) (seqZ rule_offset nb_rules) s s'.
Proof.
  intros Hw Hn E. unfold add_encrypt_entries, mbind, io_bind in E. obind E. destruct a as [[r1 s1] w1].
  destruct (is_ok r1) eqn:E1; cbn [negb] in E; [|unfold mret, io_ret in E; inv_ret; done].
  eapply (encrypt_loop_logged route_of (in_force s) (shared s) c capacity eq_refl eq_refl _ _ _ _ 0) in E0
    as (chunk & sas & Hpl & Hsa & Hl); [|by apply fresh_logged|done].
  rewrite Z.add_0_r, Z2Nat.id in * by done. destruct (drain_both_drained _ _ _ _ _ _ _ _ Hl E) as (Hw' & Hi & Hs).
  split_and!; [done|by exists (place <$> chunk)|by exists sas].
Qed.

Lemma decrypt_entries_ok rules nb_rules rule_offset s w s' w' :
  waiting s = [] -> 0 <= nb_rules ->
  add_decrypt_entries c capacity rules nb_rules rule_offset s w = Ret (DOCA_SUCCESS, s', w') ->
  let nb := nb_encrypted_rules (app_rules c) in
  installs rules (decrypt_places c nb) (decrypt_sas c nb) (seqZ rule_offset nb_rules) s s'.
Proof.
  intros Hw Hn E nb. unfold add_decrypt_entries, mbind, io_bind in E. obind E. destruct a as [[r1 s1] w1].
  destruct (is_ok r1) eqn:E1; cbn [negb] in E; [|unfold mret, io_ret in E; inv_ret; done].
  eapply (decrypt_loop_logged route_of (in_force s) (shared s) c capacity eq_refl _ _ _ _ _ 0) in E0
    as (chunk & sas & Hpl & Hsa & Hl & Hh); [|by apply fresh_logged|done].
  rewrite Z.add_0_r, Z2Nat.id in * by done. specialize (Hh eq_refl).
  apply drain_all_run in E. eapply drain_logged in E as (Hl2 & Hc2 & Hf2 & Hq2); [|done|done].
  destruct (Hq2 hairpin_status) as [Hs3 Hc3]; [by rewrite <-(lg_count _ _ _ _ _ _ Hl hairpin_status); cbn; rewrite Hh|].
  cbn in Hs3. destruct (drained _ _ _ _ _ Hl2) as [Hw' Hi]; [done..| |].
  - by rewrite Hs3, Hh.
  - split_and!; [done|by exists (place <$> chunk)|]. exists sas. split; [done|apply Hl2].
Qed.

(** When [add_encrypt_entries] or [add_decrypt_entries] returns with success, whatever the
    library did in between, every rule of the range has exactly its entries in force (those
    of the five-tuple and of the encryption, or of the decryption, with the index of the rule
    as metadata) next to what was in force before, its association is configured with its
    key, the associations for decryption after those for encryption, and nothing is left
    waiting in the queue of the thread. *)
Theorem rules_installed enc dec nb_rules rule_offset s w s' w' :
  waiting s = [] -> 0 <= nb_rules ->
  let nb := nb_encrypted_rules (app_rules c) in
  (add_encrypt_entries c capacity enc nb_rules rule_offset s w = Ret (DOCA_SUCCESS, s', w') ->
   installs enc (encrypt_places c) (encrypt_sas c) (seqZ rule_offset nb_rules) s s')
  /\ (add_decrypt_entries c capacity dec nb_rules rule_offset s w = Ret (DOCA_SUCCESS, s', w') ->
      installs dec (decrypt_places c nb) (decrypt_sas c nb) (seqZ rule_offset nb_rules) s s').
Proof. intros Hw Hn nb. split; [by apply encrypt_entries_ok|by apply decrypt_entries_ok]. Qed.

(** ** Termination *)

Definition fuelled {A} (m : io A) : Prop := forall w, m w <> Undef OutOfFuel.

Lemma fuelled_bind {A B} (m : io A) (k : A -> io B) : fuelled m -> (forall a, fuelled (k a)) -> fuelled (m ≫= k).
Proof. intros Hm Hk w. unfold mbind, io_bind. specialize (Hm w). destruct (m w) as [[a w1]|]; [apply Hk|]. congruence. Qed.

Lemma fuelled_ret {A} (a : A) : fuelled (mret a).
Proof. done. Qed.

Lemma fuelled_call : fuelled call.
Proof. intros w. unfold call. by destruct (calls w). Qed.

Lemma pipe_add_fuelled cap info x s : fuelled (pipe_add_entry cap info x s).
Proof.
  unfold pipe_add_entry, check. apply fuelled_bind; [by destruct (negb info || _)|intros _].
  apply fuelled_bind; [apply fuelled_call|intros r]. by destruct (is_ok r).
Qed.

Lemma add_and_process_fuelled x s : fuelled (add_and_process c capacity x s).
Proof.
  unfold add_and_process. apply fuelled_bind; [apply pipe_add_fuelled|intros [r s1]]. destruct (is_ok r); [|done]. cbn. by destruct (_ =? _).
Qed.

Lemma five_tuple_fuelled rule n i s : fuelled (add_five_tuple_match_entry c capacity rule n i s).
Proof.
  unfold add_five_tuple_match_entry. destruct (_ && _); [|apply add_and_process_fuelled].
  destruct (ip6_table c); [|done]. destruct (ht_lookup _ _) as [[]|]; [|done].
  apply fuelled_bind; [apply add_and_process_fuelled|intros [r1 s1]]. destruct (is_ok r1); [apply add_and_process_fuelled|done].
Qed.

Lemma configure_sa_fuelled egress off sa id s : fuelled (configure_sa c egress off sa id s).
Proof. unfold configure_sa. apply fuelled_bind; [apply fuelled_call|intros r]. by destruct (is_ok r). Qed.

Lemma encrypt_loop_fuelled n nb off rules : forall i s, fuelled (encrypt_loop c capacity n nb i off rules s).
Proof.
  induction n as [|n IH]; intros i s; cbn [encrypt_loop]; [done|]. destruct (rules !! _); [|done].
  apply fuelled_bind; [|intros [r1 s1]; destruct (is_ok r1); [apply IH|done]].
  unfold add_encrypt_rule. apply fuelled_bind; [apply five_tuple_fuelled|intros [r1 s1]]. destruct (is_ok r1); [|done].
  apply fuelled_bind; [apply configure_sa_fuelled|intros [r2 s2]]. destruct (is_ok r2); [apply add_and_process_fuelled|done].
Qed.

Lemma drain_all_fuelled F0 S0 log slog w s :
  logged route_of F0 S0 log slog s -> fuelled (drain_all (route_of w) w s).
Proof.
  intros Hl wd. unfold drain_all. destruct (drain_total route_of F0 S0 w (S (S (length (comps s) + length (waiting s)))) log slog s Hl)
    as (r & s' & ->); [lia|done].
Qed.

Lemma drain_both_fuelled F0 S0 log slog s : logged route_of F0 S0 log slog s -> fuelled (drain_both c s).
Proof.
  intros Hl wd E. unfold drain_both, mbind, io_bind in E. pose proof (drain_all_fuelled _ _ _ _ crypt_status s Hl wd) as Hf.
  cbn [route_of] in Hf. destruct (drain_all secured_port crypt_status s wd) as [[[r1 s1] w1]|] eqn:E1; [|congruence].
  destruct (is_ok r1) eqn:Er; cbn [negb] in E; [|done]. apply drain_all_run in E1. eapply drain_logged in E1 as (Hl1 & _); [|done|done].
  by apply (drain_all_fuelled _ _ _ _ hairpin_status s1 Hl1 w1).
Qed.

(** Waiting for the entries ends.  Whatever answers the library gives, with any number of
    turns that complete nothing, [add_encrypt_entries] returns: once the answers have run
    out every turn completes entries of the status it waits for or of the other one that
    shares the queue. *)
Theorem encrypt_insertion_terminates rules nb_rules rule_offset s w :
  waiting s = [] -> add_encrypt_entries c capacity rules nb_rules rule_offset s w <> Undef OutOfFuel.
Proof.
  intros Hw E. unfold add_encrypt_entries, mbind, io_bind in E.
  pose proof (encrypt_loop_fuelled (Z.to_nat nb_rules) nb_rules rule_offset rules 0 (fresh_status s) w) as Hf.
  destruct (encrypt_loop _ _ _ _ _ _ _ _ _) as [[[r1 s1] w1]|] eqn:E0; [|congruence].
  destruct (is_ok r1) eqn:E1; cbn [negb] in E; [|done].
  eapply (encrypt_loop_logged route_of (in_force s) (shared s) c capacity eq_refl eq_refl _ _ _ _ 0) in E0
    as (chunk & sas & _ & _ & Hl); [|by apply fresh_logged|done].
  by apply (drain_both_fuelled _ _ _ _ _ Hl w1).
Qed.
End installed.

(** ** What the entries do *)

Lemma meta_rule_id_pkt e d icv i6 ds ar id : 0 <= id < 2 ^ 20 -> meta_rule_id (pkt_meta e d icv i6 ds ar id) = id.
Proof.
  intros Hid. unfold meta_rule_id, pkt_meta. rewrite Z.shiftr_div_pow2 by lia. rewrite (Z.mod_small id) by lia.
  assert (0 <= Z.b2z e <= 1) by (destruct e; cbn; lia). assert (0 <= Z.b2z d <= 1) by (destruct d; cbn; lia).
  assert (0 <= Z.b2z i6 <= 1) by (destruct i6; cbn; lia).
  pose proof (Z.mod_pos_bound icv 4). pose proof (Z.mod_pos_bound ds 4). pose proof (Z.mod_pos_bound ar 4).
  change (2 ^ 12) with 4096. symmetry. apply (Z.div_unique _ _ _ (Z.b2z e + 2 * Z.b2z d + 4 * (icv mod 4) + 16 * Z.b2z i6
    + 32 * (ds mod 4) + 128 * (ar mod 4))); lia.
Qed.

(** The metadata that a five-tuple or decryption entry sets. *)
Definition sets_meta (x : gw_entry) : option Z :=
  match x with Ip4Entry _ _ _ _ _ m | Ip6Entry _ _ _ _ _ m | DecryptEntry _ _ _ _ m => Some m | _ => None end.

(** A packet that hits the five-tuple entry of a rule is handled by the software with that
    rule of the array, and meets the encryption entry of that rule. *)
Theorem entry_leads_to_rule `{RteHash} c rules k rule ps x m :
  Z.of_nat (length rules) <= MAX_NB_RULES -> rules !! k = Some rule -> encrypt_places c (Z.of_nat k) rule ps ->
  x ∈ ps -> sets_meta (snd x) = Some m -> rules !! Z.to_nat (meta_rule_id m) = Some rule.
Proof.
  intros Hmax Hk (five & ip_id & Hfive & ->) Hx Hm. pose proof (lookup_lt_Some _ _ _ Hk) as Hlt.
  assert (m = pkt_meta true false 0 false 0 0 (Z.of_nat k)) as ->.
  { assert (Ht : forall pos, sets_meta (five_tuple_entry rule (Z.of_nat k) pos) = Some m -> m = pkt_meta true false 0 false 0 0 (Z.of_nat k)).
    { intros pos. unfold five_tuple_entry. case_bool_decide; by intros [= <-]. }
    apply elem_of_app in Hx as [Hx|Hx%list_elem_of_singleton].
    - unfold five_tuple_places in Hfive. destruct (_ && _).
      + destruct Hfive as (t & pos & d & _ & _ & ->). apply elem_of_cons in Hx as [-> |Hx%list_elem_of_singleton]; [done|].
        subst x. by apply (Ht pos).
      + subst five. apply list_elem_of_singleton in Hx. subst x. by apply (Ht 0).
    - subst x. unfold encrypt_entry in Hm. cbn in Hm. by destruct (encap_of c rule ip_id) as [[]]. }
  rewrite meta_rule_id_pkt, Nat2Z.id by (unfold MAX_NB_RULES in Hmax; lia). done.
Qed.

(** The source address of an IPv6 rule does not tell it apart.  The identifier that links
    the source pipe to the five-tuple pipe is looked up by the destination: two rules that
    differ in the source only get five-tuple entries with the same match, so that packets of
    the second flow are encrypted for the first; and two rules that share the source but not
    the destination get entries of the source pipe with the same match and different
    identifiers. *)
Theorem source_address_ignored `{HL : RteHashLaws} c r1 r2 i j ps1 ps2 :
  er_l3_type r1 = DOCA_FLOW_L3_TYPE_IP6 -> er_l3_type r2 = DOCA_FLOW_L3_TYPE_IP6 -> is_perf_bw c = false ->
  five_tuple_places c r1 i ps1 -> five_tuple_places c r2 j ps2 ->
  er_protocol r1 = er_protocol r2 -> er_src_port r1 = er_src_port r2 -> er_dst_port r1 = er_dst_port r2 ->
  (drop 4 (er_ip r1) = drop 4 (er_ip r2) ->
   exists p l4 sp dp meta dst, last ps1 = Some (p, Ip6Entry l4 sp dp meta dst (pkt_meta true false 0 false 0 0 i))
     /\ last ps2 = Some (p, Ip6Entry l4 sp dp meta dst (pkt_meta true false 0 false 0 0 j)))
  /\ (take 4 (er_ip r1) = take 4 (er_ip r2) -> ip6_key (drop 4 (er_ip r1)) <> ip6_key (drop 4 (er_ip r2)) ->
      exists p src id1 id2, head ps1 = Some (p, SrcIp6Entry src id1) /\ head ps2 = Some (p, SrcIp6Entry src id2) /\ id1 <> id2).
Proof.
  intros H1 H2 Hbw Hp1 Hp2 Epr Esp Edp. unfold five_tuple_places in *. rewrite H1, H2, Hbw in *.
  rewrite !bool_decide_eq_true_2 in * by done. cbn [andb negb] in *.
  destruct Hp1 as (t & pos1 & d1 & Ht & Hl1 & ->). destruct Hp2 as (t' & pos2 & d2 & Ht' & Hl2 & ->).
  rewrite Ht in Ht'. injection Ht' as <-. unfold five_tuple_entry, get_pipe_for_rule. rewrite H1, H2, Epr, Esp, Edp. cbn [last head].
  split.
  - intros Ed. rewrite Ed in *. rewrite Hl1 in Hl2. injection Hl2 as <- _. repeat eexists.
  - intros Es Hd. rewrite Es. eexists _, _, _, _. split_and!; [done|done|]. intros ->. apply Hd. by eapply ht_pos_inj.
Qed.

(** ** A sample run *)

Section samples.
#[local] Instance rules_hash : RteHash := Slots.slots_hash 8.

Definition sample_encrypt : list encrypt_rule := match encrypt_rules (app_rules config_end) with Live l => l | _ => [] end.

Definition inserter_start : inserter :=
  Inserter [] [] (fun _ => 0) 0 [(DOCA_SUCCESS, []); (DOCA_SUCCESS, [true])] [] status_zero status_zero.

Definition calm : world := World [] [] [] [] [] None 0 0.

Definition insert_run : outcome (doca_error_t * inserter * world) :=
  add_encrypt_entries config_end 8 sample_encrypt 1 0 inserter_start calm.

Definition insert_end : inserter := match insert_run with Ret (_, s, _) => s | _ => inserter_start end.

Lemma insert_accepted : add_encrypt_entries config_end 8 sample_encrypt 1 0 inserter_start calm = Ret (DOCA_SUCCESS, insert_end, calm).
Proof. by vm_compute. Qed.

Lemma rules_installed_witness :
  installs sample_encrypt (encrypt_places config_end) (encrypt_sas config_end) (seqZ 0 1) inserter_start insert_end.
Proof.
  apply (rules_installed config_end 8 sample_encrypt [] 1 0 inserter_start calm insert_end calm).
  - reflexivity.
  - lia.
  - apply insert_accepted.
Defined.

Lemma encrypt_insertion_terminates_witness :
  add_encrypt_entries config_end 8 sample_encrypt 1 0 inserter_start calm <> Undef OutOfFuel.
Proof.
  apply (encrypt_insertion_terminates config_end 8 sample_encrypt 1 0 inserter_start calm). reflexivity.
Defined.

(** The sample rule has three entries, and its key is that of the association. *)
Example insert_entries :
  map fst (in_force insert_end) = [ipv4_encrypt_pipe; ipv6_src_udp_pipe; ipv6_udp_pipe]
  /\ map (fun x => (fst x, sa_key (snd x))) (shared insert_end) = [(0, seqZ 171 16 ++ replicate 16 0)].
Proof. split; by vm_compute. Qed.

Definition source_rule (src : list Z) : encrypt_rule :=
  EncryptRule DOCA_FLOW_L3_TYPE_IP6 DOCA_FLOW_L4_TYPE_EXT_UDP (src ++ addr32 ([0x20; 0x01; 0x0d; 0xb8] ++ replicate 11 0 ++ [2]))
    1234 443 DOCA_FLOW_L3_TYPE_IP4 [0; 0; 0; 0] 1 0 dummy_sa.

(** The position of the destination of the sample in the table. *)
Definition sample_pos : Z :=
  match ip6_table config_end with
  | Some t => match ht_lookup (ip6_key (drop 4 (er_ip (source_rule [0; 0; 0; 0])))) t with Some (p, _) => p | None => -1 end
  | None => -1
  end.

Definition source_places (src : list Z) (i : Z) : list (gw_pipe * gw_entry) :=
  [(get_pipe_for_rule (source_rule src) true, SrcIp6Entry (take 4 (er_ip (source_rule src))) sample_pos);
   (get_pipe_for_rule (source_rule src) false, five_tuple_entry (source_rule src) i sample_pos)].

Lemma source_places_ok src i : length src = 4%nat -> five_tuple_places config_end (source_rule src) i (source_places src i).
Proof.
  intros Hl. unfold five_tuple_places. change (_ && _) with true. cbv iota.
  assert (exists t, ip6_table config_end = Some t /\ ht_lookup (ip6_key (drop 4 (er_ip (source_rule [0; 0; 0; 0])))) t = Some (sample_pos, 0))
    as (t & Ht & Hk).
  { destruct (ip6_table config_end) as [t|] eqn:Et; [|by vm_compute in Et]. exists t. split; [done|]. unfold sample_pos. rewrite Et.
    vm_compute in Et. injection Et as <-. by vm_compute. }
  exists t, sample_pos, 0. split_and!; [done| |done]. rewrite <-Hk. f_equal. f_equal. cbn [er_ip source_rule].
  by rewrite !drop_app_length' by done.
Qed.

Lemma source_address_ignored_witness :
  let r1 := source_rule [1; 1; 1; 1] in
  let r2 := source_rule [2; 2; 2; 2] in
  (drop 4 (er_ip r1) = drop 4 (er_ip r2) ->
   exists p l4 sp dp meta dst,
     last (source_places [1; 1; 1; 1] 0) = Some (p, Ip6Entry l4 sp dp meta dst (pkt_meta true false 0 false 0 0 0))
     /\ last (source_places [2; 2; 2; 2] 1) = Some (p, Ip6Entry l4 sp dp meta dst (pkt_meta true false 0 false 0 0 1)))
  /\ (take 4 (er_ip r1) = take 4 (er_ip r2) -> ip6_key (drop 4 (er_ip r1)) <> ip6_key (drop 4 (er_ip r2)) ->
      exists p src id1 id2, head (source_places [1; 1; 1; 1] 0) = Some (p, SrcIp6Entry src id1)
        /\ head (source_places [2; 2; 2; 2] 1) = Some (p, SrcIp6Entry src id2) /\ id1 <> id2).
Proof.
  apply (source_address_ignored (HL := Slots.slots_hash_laws 8) config_end (source_rule [1; 1; 1; 1]) (source_rule [2; 2; 2; 2]) 0 1).
  - reflexivity.
  - reflexivity.
  - vm_compute. reflexivity.
  - apply source_places_ok. reflexivity.
  - apply source_places_ok. reflexivity.
  - reflexivity.
  - reflexivity.
  - reflexivity.
Defined.
End samples.
