(* ===== verification/IpsecThreads.v ===== *)
(** * IPsec gateway: insertion by several threads (ipsec_security_gw.c)

    [run_multithread_insertion] divides the rules among the queues with arithmetic on
    [float], and starts a thread for each queue.  Modelled here are the rounding of that
    arithmetic, the shares of the threads and the launch.  The theorems show that the shares
    cut the array of rules into consecutive ranges, none lost and none twice, of nearly
    equal size, and that after a successful return every rule is in force once. *)
From Stdlib Require SpecFloat.
From S2P Require Import Prelude CString FlowTypes RteHash Inet6 Policy Esp CommChannel Json IpsecConfig IpsecRules.

(** ** Numbers of type [float]

    A positive normal number of IEEE binary32, 24 significant bits, is held as the integer
    that is 2^64 times its value: all numbers here lie between 2^-20 and 2^31. *)

Definition SCALE : Z := 2 ^ 64.

(** The integer nearest to [a / b], the even one of two. *)
Definition round_even (a b : Z) : Z :=
  let q := a / b in
  let r := a mod b in
  if 2 * r <? b then q else if b <? 2 * r then q + 1 else if Z.even q then q else q + 1.

(** The [float] nearest to [n / d]. *)
Definition float_of (n d : Z) : Z :=
  let ulp := 2 ^ (Z.log2 (n * SCALE / d) - 23) in
  ulp * round_even (n * SCALE) (d * ulp).

(** [(float)n / d], [i * x] and [(int)x] for integers [n], [d] and [i]; integers of less
    than 25 bits are numbers of type [float]. *)
Definition float_div (n d : Z) : Z := float_of n d.
Definition float_mul (i x : Z) : Z := float_of (i * x) SCALE.
Definition float_to_int (x : Z) : Z := x / SCALE.

(** ** Shares *)

Definition MIN_ENTRIES_PER_CORE : Z := 1024.

(** [struct multi_thread_insertion_ctx]: the ranges of a thread. *)
Record multi_thread_insertion_ctx : Type := Ctx {
  queue_id : Z;
  ctx_nb_encrypted_rules : Z; ctx_nb_decrypted_rules : Z;
  encrypt_rule_offset : Z; decrypt_rule_offset : Z
}.

(** Offset and number of the rules of thread [lcore_index], and the next offset. *)
Definition share (ratio nb_rules nb_queues lcore_index next_rule_offset : Z) : Z * Z * Z :=
  if ratio <? SCALE then (lcore_index, if lcore_index <? nb_rules then 1 else 0, next_rule_offset)
  else
    let next := if negb (lcore_index =? nb_queues - 1) then float_to_int (float_mul (lcore_index + 1) ratio) else nb_rules in
    (next_rule_offset, next - next_rule_offset, next).

(** The number of threads: not more than there are blocks of [MIN_ENTRIES_PER_CORE]
    rules. *)
Definition queues_to_run (nb_queues nb_encrypted nb_decrypted : Z) : Z :=
  Z.min nb_queues (Z.max (Z.max (Z.quot nb_encrypted MIN_ENTRIES_PER_CORE) (Z.quot nb_decrypted MIN_ENTRIES_PER_CORE)) 1).

(** ** Rounding *)

Lemma round_even_bounds a b : 0 < b -> a / b <= round_even a b <= a / b + 1.
Proof. intros Hb. unfold round_even. repeat case_match; lia. Qed.

Lemma round_even_le a b k : 0 < b -> a <= b * k -> round_even a b <= k.
Proof.
  intros Hb H. pose proof (Z.div_mod a b ltac:(lia)). pose proof (Z.mod_pos_bound a b Hb).
  destruct (decide (a / b < k)); [pose proof (round_even_bounds a b Hb); lia|].
  assert (a / b = k /\ a mod b = 0) as [Hq Hr] by nia.
  unfold round_even. rewrite Hr. case_match; lia.
Qed.

Lemma round_even_ge a b k : 0 < b -> b * k <= a -> k <= round_even a b.
Proof.
  intros Hb H. pose proof (round_even_bounds a b Hb). assert (k <= a / b) by (apply Z.div_le_lower_bound; lia). lia.
Qed.

Lemma round_even_mono a a' b : 0 < b -> a <= a' -> round_even a b <= round_even a' b.
Proof.
  intros Hb H. pose proof (Z.div_mod a b ltac:(lia)). pose proof (Z.div_mod a' b ltac:(lia)).
  pose proof (round_even_bounds a b Hb). pose proof (round_even_bounds a' b Hb). pose proof (Z.div_le_mono a a' b Hb H).
  destruct (decide (a / b < a' / b)); [lia|]. assert (a' / b = a / b) as Hq by lia. rewrite Hq in *.
  unfold round_even. rewrite Hq. repeat case_match; lia.
Qed.

Lemma round_even_error a b : 0 < b -> 2 * Z.abs (b * round_even a b - a) <= b.
Proof.
  intros Hb. pose proof (Z.div_mod a b ltac:(lia)). pose proof (Z.mod_pos_bound a b Hb).
  unfold round_even. repeat case_match; nia.
Qed.

(** [n / d] is a positive number in the normal range. *)
Definition normal (n d : Z) : Prop := 0 < d /\ d * 2 ^ 23 <= n * SCALE.

(** The binade of [n / d], and the distance of neighbours there. *)
Lemma float_binade n d : normal n d ->
  exists l, 0 < 2 ^ (l - 23) /\ 2 ^ l = 2 ^ (l - 23) * 2 ^ 23 /\ d * 2 ^ l <= n * SCALE < d * 2 ^ (l + 1)
    /\ float_of n d = 2 ^ (l - 23) * round_even (n * SCALE) (d * 2 ^ (l - 23)) /\ l = Z.log2 (n * SCALE / d).
Proof.
  intros [Hd Hn]. assert (2 ^ 23 <= n * SCALE / d) as Hq by (apply Z.div_le_lower_bound; lia).
  exists (Z.log2 (n * SCALE / d)). pose proof (Z.log2_spec (n * SCALE / d) ltac:(lia)) as [Hl Hu].
  assert (23 <= Z.log2 (n * SCALE / d)) as H23 by (rewrite <-(Z.log2_pow2 23) by lia; by apply Z.log2_le_mono).
  pose proof (Z.div_mod (n * SCALE) d ltac:(lia)). pose proof (Z.mod_pos_bound (n * SCALE) d Hd).
  rewrite <-Z.add_1_r in Hu. split_and!; [by apply Z.pow_pos_nonneg; lia| |nia|nia|done|done].
  rewrite <-Z.pow_add_r by lia. f_equal. lia.
Qed.

Lemma float_in_binade n d l : normal n d -> l = Z.log2 (n * SCALE / d) -> 2 ^ l <= float_of n d <= 2 ^ (l + 1).
Proof.
  intros Hn ->. destruct (float_binade n d Hn) as (l & Hu & El & [Hlo Hhi] & -> & <-). destruct Hn as [Hd _].
  assert (0 < d * 2 ^ (l - 23)) as Hdu by lia. assert (2 ^ (l + 1) = 2 ^ (l - 23) * 2 ^ 24) as El1.
  { assert (0 <= l) by (destruct (decide (l < 0)); [|lia]; rewrite (Z.pow_neg_r 2 (l - 23)) in Hu by lia; lia).
    rewrite Z.pow_add_r, El by lia. change (2 ^ 24) with (2 ^ 23 * 2 ^ 1). ring. }
  split.
  - rewrite El. apply Z.mul_le_mono_nonneg_l; [lia|]. apply round_even_ge; nia.
  - rewrite El1. apply Z.mul_le_mono_nonneg_l; [lia|]. apply round_even_le; nia.
Qed.

Lemma float_mono n n' d : normal n d -> n <= n' -> float_of n d <= float_of n' d.
Proof.
  intros Hn Hle. assert (normal n' d) as Hn' by (destruct Hn; split; [done|unfold SCALE in *; lia]).
  pose proof (float_in_binade n d _ Hn eq_refl) as [_ Hhi]. pose proof (float_in_binade n' d _ Hn' eq_refl) as [Hlo _].
  destruct (float_binade n d Hn) as (l & Hu & _ & _ & E & El). destruct (float_binade n' d Hn') as (l' & _ & _ & _ & E' & El').
  destruct Hn as [Hd _]. rewrite <-El in Hhi. rewrite <-El' in Hlo.
  assert (l <= l') as Hll by (rewrite El, El'; apply Z.log2_le_mono, Z.div_le_mono; [lia|unfold SCALE; lia]).
  destruct (decide (l = l')) as [<-|].
  - rewrite E, E'. apply Z.mul_le_mono_nonneg_l; [lia|]. apply round_even_mono; [lia|unfold SCALE; lia].
  - pose proof (Z.pow_le_mono_r 2 (l + 1) l' ltac:(lia) ltac:(lia)). lia.
Qed.

(** The relative error is at most 2^-24. *)
Lemma float_error n d : normal n d -> 2 ^ 24 * Z.abs (d * float_of n d - n * SCALE) <= n * SCALE.
Proof.
  intros Hn. destruct (float_binade n d Hn) as (l & Hu & El & [Hlo _] & -> & _). destruct Hn as [Hd _].
  pose proof (round_even_error (n * SCALE) (d * 2 ^ (l - 23)) ltac:(lia)) as He.
  replace (d * (2 ^ (l - 23) * round_even (n * SCALE) (d * 2 ^ (l - 23))))
    with (d * 2 ^ (l - 23) * round_even (n * SCALE) (d * 2 ^ (l - 23))) by ring.
  revert He. generalize (Z.abs (d * 2 ^ (l - 23) * round_even (n * SCALE) (d * 2 ^ (l - 23)) - n * SCALE)) as e. intros e He.
  rewrite El in Hlo. change (2 ^ 24) with (2 * 2 ^ 23). nia.
Qed.

(** ** The shares cut the array *)

(** The rules before the share of thread [i]. *)
Definition rules_before (nb_rules nb_queues i : Z) : Z :=
  let ratio := float_div nb_rules nb_queues in
  if ratio <? SCALE then Z.min i nb_rules
  else if i =? 0 then 0
  else if i =? nb_queues then nb_rules
  else float_to_int (float_mul i ratio).

Section shares.
Context (nb_rules nb_queues : Z) (Hnb : 0 <= nb_rules <= MAX_NB_RULES) (Hq : 1 <= nb_queues <= 1024).

Let ratio : Z := float_div nb_rules nb_queues.

Lemma ratio_small : ratio < SCALE -> nb_rules < nb_queues.
Proof using Hnb Hq.
  intros Hr. destruct (decide (nb_rules < nb_queues)); [done|]. exfalso.
  assert (normal nb_queues nb_queues) as Hn by (split; unfold SCALE; lia).
  pose proof (float_mono nb_queues nb_rules nb_queues Hn ltac:(lia)) as Hm.
  assert (SCALE <= float_of nb_queues nb_queues) as H1; [|unfold ratio, float_div in Hr; lia].
  pose proof (float_in_binade nb_queues nb_queues 64 Hn) as [H1 _]; [|exact H1].
  by rewrite Z.mul_comm, Z.div_mul by lia.
Qed.

Lemma ratio_normal : SCALE <= ratio -> normal nb_rules nb_queues.
Proof using Hnb Hq.
  intros Hr. destruct (decide (nb_rules = 0)) as [E|]; [|split; unfold SCALE; lia].
  exfalso. revert Hr. unfold ratio, float_div, float_of, SCALE. rewrite E, Z.mul_0_l. lia.
Qed.

(** The ratio is off by one part in 2^24, its multiples by another. *)
Lemma multiple_error i : SCALE <= ratio -> 1 <= i <= nb_queues ->
  2 ^ 48 * nb_queues * float_mul i ratio <= i * (nb_rules * SCALE) * (2 ^ 24 + 1) ^ 2
  /\ i * (nb_rules * SCALE) * (2 ^ 24 - 1) ^ 2 <= 2 ^ 48 * nb_queues * float_mul i ratio.
Proof using Hnb Hq.
  intros Hr Hi. pose proof (float_error _ _ (ratio_normal Hr)) as Hd. fold (float_div nb_rules nb_queues) in Hd. fold ratio in Hd.
  assert (normal (i * ratio) SCALE) as Hn by (split; unfold SCALE in *; nia).
  pose proof (float_error _ _ Hn) as Hm. fold (float_mul i ratio) in Hm. change (2 ^ 48) with (2 ^ 24 * 2 ^ 24).
  assert (Hm' : 2 ^ 24 * Z.abs (float_mul i ratio - i * ratio) <= i * ratio) by (unfold SCALE in *; lia).
  revert Hd Hm'. generalize (float_mul i ratio) as p. generalize (nb_rules * SCALE) as n. intros n p Hd Hm'.
  change (2 ^ 24) with 16777216 in *.
  assert (i * (16777216 * (nb_queues * ratio)) <= i * (n * 16777217)) by nia.
  assert (i * (n * 16777215) <= i * (16777216 * (nb_queues * ratio))) by nia.
  assert (nb_queues * (16777216 * p) <= nb_queues * (i * ratio * 16777217)) by nia.
  assert (nb_queues * (i * ratio * 16777215) <= nb_queues * (16777216 * p)) by nia.
  split; lia.
Qed.

Lemma multiple_close i : SCALE <= ratio -> 1 <= i <= nb_queues ->
  4 * Z.abs (nb_queues * float_mul i ratio - i * nb_rules * SCALE) <= nb_queues * SCALE.
Proof using Hnb Hq.
  intros Hr Hi. pose proof (multiple_error i Hr Hi) as [Hu Hl].
  assert (0 <= i * nb_rules <= nb_queues * 2 ^ 20) as Hx by (unfold MAX_NB_RULES in *; nia).
  revert Hu Hl. generalize (float_mul i ratio) as p. intros p Hu Hl. unfold SCALE in *. lia.
Qed.

Lemma rules_before_close i : SCALE <= ratio -> 0 <= i <= nb_queues ->
  - 5 * nb_queues <= 4 * (nb_queues * rules_before nb_rules nb_queues i - i * nb_rules) <= nb_queues.
Proof using Hnb Hq.
  intros Hr Hi. unfold rules_before. fold ratio. case_match; [lia|].
  case_match; [assert (i = 0) as -> by lia; lia|]. case_match; [assert (i = nb_queues) as -> by lia; lia|].
  pose proof (multiple_close i Hr ltac:(lia)) as Hc. revert Hc. generalize (float_mul i ratio) as p. intros p Hc.
  unfold float_to_int. pose proof (Z.div_mod p SCALE ltac:(done)). pose proof (Z.mod_pos_bound p SCALE ltac:(done)).
  revert H2 H3. generalize (p / SCALE) as t, (p mod SCALE) as m. intros t m -> Hm. unfold SCALE in *. nia.
Qed.

Lemma ratio_large : SCALE <= ratio -> nb_queues <= 2 * nb_rules.
Proof using Hnb Hq.
  intros Hr. pose proof (float_error _ _ (ratio_normal Hr)) as Hd. fold (float_div nb_rules nb_queues) in Hd. fold ratio in Hd.
  unfold SCALE in *. nia.
Qed.

Lemma rules_before_0 : rules_before nb_rules nb_queues 0 = 0.
Proof using Hnb. unfold rules_before. repeat case_match; lia. Qed.

Lemma rules_before_all : rules_before nb_rules nb_queues nb_queues = nb_rules.
Proof using Hnb Hq.
  unfold rules_before. fold ratio. case_match eqn:E; [pose proof (ratio_small ltac:(lia)); lia|]. repeat case_match; lia.
Qed.

Lemma rules_before_step i : 0 <= i < nb_queues -> rules_before nb_rules nb_queues i <= rules_before nb_rules nb_queues (i + 1).
Proof using Hnb Hq.
  intros Hi. destruct (decide (ratio < SCALE)) as [Hr|Hr].
  { unfold rules_before. fold ratio. rewrite (proj2 (Z.ltb_lt _ _) Hr). lia. }
  assert (SCALE <= ratio) as Hr' by lia. pose proof (ratio_large Hr') as Hl.
  pose proof (rules_before_close i Hr' ltac:(lia)) as [_ Hc].
  destruct (decide (i + 1 = nb_queues)) as [E|]; [rewrite E, rules_before_all; nia|].
  revert Hc. unfold rules_before. fold ratio. rewrite (proj2 (Z.ltb_ge _ _) Hr'). rewrite (proj2 (Z.eqb_neq (i + 1) 0)) by lia.
  rewrite (proj2 (Z.eqb_neq (i + 1) nb_queues)) by lia. intros _.
  assert (normal ((i + 1) * ratio) SCALE) as Hn by (split; unfold SCALE in *; nia).
  case_match; [|rewrite (proj2 (Z.eqb_neq i nb_queues)) by lia; unfold float_to_int, float_mul; apply Z.div_le_mono; [done|];
    apply float_mono; [split; unfold SCALE in *; nia|unfold SCALE in *; nia]].
  unfold float_to_int, float_mul. apply Z.div_pos; [|done].
  pose proof (float_in_binade _ _ _ Hn eq_refl) as [H1 _]. pose proof (Z.pow_nonneg 2 (Z.log2 ((i + 1) * ratio * SCALE / SCALE))). lia.
Qed.

Lemma rules_before_bounds i : 0 <= i <= nb_queues -> 0 <= rules_before nb_rules nb_queues i <= nb_rules.
Proof using Hnb Hq.
  intros Hi. split.
  - destruct Hi as [Hi Hi']. revert Hi'. pattern i. apply natlike_ind; [by rewrite rules_before_0| |done].
    intros j Hj IH Hj'. pose proof (rules_before_step j ltac:(lia)). rewrite <-Z.add_1_r. lia.
  - replace i with (nb_queues - (nb_queues - i)) by lia. assert (0 <= nb_queues - i) as Hk by lia.
    assert (nb_queues - i <= nb_queues) as Hk' by lia. revert Hk'. generalize dependent (nb_queues - i). apply (natlike_ind (fun k =>
      k <= nb_queues -> rules_before nb_rules nb_queues (nb_queues - k) <= nb_rules)).
    + intros _. rewrite Z.sub_0_r, rules_before_all. lia.
    + intros k Hk IH Hk'. pose proof (rules_before_step (nb_queues - Z.succ k) ltac:(lia)) as Hs.
      replace (nb_queues - Z.succ k + 1) with (nb_queues - k) in Hs by lia. specialize (IH ltac:(lia)). lia.
Qed.

(** A thread gets the rules between its bound and the next. *)
Lemma share_range i next off cnt next' :
  0 <= i < nb_queues -> (SCALE <= ratio -> next = rules_before nb_rules nb_queues i) ->
  share ratio nb_rules nb_queues i next = (off, cnt, next') ->
  0 <= cnt
  /\ seqZ off cnt = seqZ (rules_before nb_rules nb_queues i) (rules_before nb_rules nb_queues (i + 1) - rules_before nb_rules nb_queues i)
  /\ (SCALE <= ratio -> next' = rules_before nb_rules nb_queues (i + 1)).
Proof using Hnb Hq.
  intros Hi Hnext. unfold share. case_match eqn:E.
  - intros [= <- <- <-]. unfold rules_before. fold ratio. rewrite E. split_and!; [case_match; lia| |lia].
    case_match; [by rewrite !Z.min_l by lia; f_equal; lia|]. rewrite !Z.min_r by lia. by rewrite !seqZ_nil by lia.
  - specialize (Hnext ltac:(lia)). intros [= <- <- <-].
    assert ((if negb (i =? nb_queues - 1) then float_to_int (float_mul (i + 1) ratio) else nb_rules)
            = rules_before nb_rules nb_queues (i + 1)) as ->.
    { unfold rules_before. fold ratio. rewrite E, (proj2 (Z.eqb_neq (i + 1) 0)) by lia.
      destruct (Z.eqb_spec i (nb_queues - 1)), (Z.eqb_spec (i + 1) nb_queues); done || lia. }
    rewrite Hnext. pose proof (rules_before_step i Hi). split_and!; [lia|done|done].
Qed.

(** The share of each thread differs from the mean by at most one and a half rules. *)
Lemma share_balanced i : 0 <= i < nb_queues ->
  2 * Z.abs (nb_queues * (rules_before nb_rules nb_queues (i + 1) - rules_before nb_rules nb_queues i) - nb_rules) <= 3 * nb_queues.
Proof using Hnb Hq.
  intros Hi. destruct (decide (ratio < SCALE)) as [Hr|Hr].
  - pose proof (ratio_small Hr). unfold rules_before. fold ratio. rewrite (proj2 (Z.ltb_lt _ _) Hr).
    destruct (decide (i < nb_rules)); [rewrite !Z.min_l by lia|rewrite !Z.min_r by lia]; nia.
  - pose proof (rules_before_close i ltac:(lia) ltac:(lia)). pose proof (rules_before_close (i + 1) ltac:(lia) ltac:(lia)). nia.
Qed.

Lemma shares_concat n : Z.of_nat n <= nb_queues ->
  concat (map (fun i => seqZ (rules_before nb_rules nb_queues i) (rules_before nb_rules nb_queues (i + 1) - rules_before nb_rules nb_queues i))
    (seqZ 0 (Z.of_nat n)))
  = seqZ 0 (rules_before nb_rules nb_queues (Z.of_nat n)).
Proof using Hnb Hq.
  induction n as [|n IH]; intros Hn; [change (Z.of_nat 0) with 0; by rewrite rules_before_0|].
  rewrite Nat2Z.inj_succ, <-Z.add_1_r, seqZ_app, map_app, concat_app, IH by lia. rewrite Z.add_0_l, (seqZ_cons (Z.of_nat n) 1), (seqZ_nil _ (Z.pred 1)) by lia.
  cbn [map concat]. rewrite app_nil_r. pose proof (rules_before_bounds (Z.of_nat n) ltac:(lia)) as [Hp _].
  pose proof (rules_before_step (Z.of_nat n) ltac:(lia)).
  transitivity (seqZ 0 (rules_before nb_rules nb_queues (Z.of_nat n)
    + (rules_before nb_rules nb_queues (Z.of_nat n + 1) - rules_before nb_rules nb_queues (Z.of_nat n)))); [|f_equal; lia].
  rewrite seqZ_app by lia. by rewrite Z.add_0_l.
Qed.
End shares.

(** ** Threads *)

Section insertion.
Context `{RteHash} (c : ipsec_security_gw_config) (capacity : Z) (RTE_MAX_LCORE : Z).

(** The thread function: whether it sets [force_quit], and its queue. *)
Definition rule_inserter_worker (enc : list encrypt_rule) (dec : list decrypt_rule) (ctx : multi_thread_insertion_ctx)
    (s : inserter) : io (bool * inserter) :=
  '(result, s) ← (if 0 <? ctx_nb_encrypted_rules ctx
                  then add_encrypt_entries c capacity enc (ctx_nb_encrypted_rules ctx) (encrypt_rule_offset ctx) s
                  else mret (DOCA_SUCCESS, s));
  if negb (is_ok result) then mret (true, s)
  else
    '(result, s) ← (if 0 <? ctx_nb_decrypted_rules ctx
                    then add_decrypt_entries c capacity dec (ctx_nb_decrypted_rules ctx) (decrypt_rule_offset ctx) s
                    else mret (DOCA_SUCCESS, s));
    mret (negb (is_ok result), s).

(** [n] turns of the loop that fills the contexts and launches the threads: the code and
    the contexts of the threads that run.  [rte_get_next_lcore] may find no core. *)
Fixpoint launch_threads (n : nat) (nb_queues encrypt_ratio decrypt_ratio lcore_index next_encrypt next_decrypt : Z)
    : io (doca_error_t * list multi_thread_insertion_ctx) :=
  match n with
  | O => mret (DOCA_SUCCESS, [])
  | S n =>
      core ← succeeds;
      if negb core then mret (DOCA_ERROR_INVALID_VALUE, [])
      else
        let '(encrypt_offset, nb_encrypted, next_encrypt) :=
          share encrypt_ratio (nb_encrypted_rules (app_rules c)) nb_queues lcore_index next_encrypt in
        let '(decrypt_offset, nb_decrypted, next_decrypt) :=
          share decrypt_ratio (nb_decrypted_rules (app_rules c)) nb_queues lcore_index next_decrypt in
        launched ← succeeds;
        if negb launched then mret (DOCA_ERROR_DRIVER, [])
        else
          '(result, ctxs) ← launch_threads n nb_queues encrypt_ratio decrypt_ratio (lcore_index + 1) next_encrypt next_decrypt;
          mret (result, Ctx lcore_index nb_encrypted nb_decrypted encrypt_offset decrypt_offset :: ctxs)
  end.

(** The threads run to their end, each on its queue: whether one of them has failed.  The
    source runs them at the same time.  Here they come one after the other, which is one of
    the orders: they share the array of rules, which they only read, and the library, whose
    queues are separate; in debug mode also the arrays [entries_info], and the number of the
    next outer IPv4 header, of which each queue has its own here. *)
Fixpoint run_workers (enc : list encrypt_rule) (dec : list decrypt_rule) (ctxs : list multi_thread_insertion_ctx)
    (queues : list inserter) : io (bool * list inserter) :=
  match ctxs, queues with
  | [], _ => mret (false, queues)
  | _ :: _, [] => undef LibraryMisuse
  | ctx :: ctxs, s :: queues =>
      '(failed, s) ← rule_inserter_worker enc dec ctx s;
      '(others, queues) ← run_workers enc dec ctxs queues;
      mret (failed || others, s :: queues)
  end.

Definition all_workers (ctxs : list multi_thread_insertion_ctx) (queues : list inserter) : io (bool * list inserter) :=
  match encrypt_rules (app_rules c), decrypt_rules (app_rules c) with
  | Live enc, Live dec => run_workers enc dec ctxs queues
  | _, _ => undef DanglingPointer
  end.

(** When a launch fails the contexts are freed, which the threads that already run may
    still need. *)
Definition run_multithread_insertion (nb_queues : Z) (queues : list inserter) : io (doca_error_t * list inserter) :=
  let nb_enc := nb_encrypted_rules (app_rules c) in
  let nb_dec := nb_decrypted_rules (app_rules c) in
  if (nb_queues <? 1) || (RTE_MAX_LCORE <? nb_queues) then mret (DOCA_ERROR_INVALID_VALUE, queues)
  else if (nb_enc =? 0) && (nb_dec =? 0) then mret (DOCA_SUCCESS, queues)
  else
    let nb_queues := queues_to_run nb_queues nb_enc nb_dec in
    ctxs ← calloc;
    if negb ctxs then mret (DOCA_ERROR_NO_MEMORY, queues)
    else
      '(result, ctxs) ← launch_threads (Z.to_nat nb_queues) nb_queues (float_div nb_enc nb_queues) (float_div nb_dec nb_queues) 0 0 0;
      if negb (is_ok result) then
        ended ← (if bool_decide (ctxs = []) then mret true else succeeds);
        if negb ended then undef DanglingPointer
        else
          '(_, queues) ← all_workers ctxs queues;
          free true;;
          mret (result, queues)
      else
        '(force_quit, queues) ← all_workers ctxs queues;
        no_signal ← succeeds;
        if force_quit || negb no_signal then mret (DOCA_ERROR_BAD_STATE, queues)
        else free true;; mret (DOCA_SUCCESS, queues).
End insertion.

(** ** Every rule once *)

(** What a thread has added: the entries and associations of two ranges of rules. *)
Definition inserted `{RteHash} c (enc : list encrypt_rule) (dec : list decrypt_rule) (es ds : list Z) (s s' : list inserter) : Prop :=
  let nb := nb_encrypted_rules (app_rules c) in
  Forall (fun q => waiting q = []) s'
  /\ (exists pe pd, covers enc (encrypt_places c) es pe /\ covers dec (decrypt_places c nb) ds pd
      /\ concat (in_force <$> s') ≡ₚ concat (in_force <$> s) ++ pe ++ pd)
  /\ (exists xe xd, covers enc (encrypt_sas c) es xe /\ covers dec (decrypt_sas c nb) ds xd
      /\ concat (shared <$> s') ≡ₚ concat (shared <$> s) ++ xe ++ xd).

Section complete.
Context `{RteHash} (c : ipsec_security_gw_config) (capacity : Z) (RTE_MAX_LCORE : Z).

Lemma inserted_nil enc dec s : Forall (fun q => waiting q = []) s -> inserted c enc dec [] [] s s.
Proof.
  intros Hw. split_and!; [done| |]; exists [], []; rewrite !app_nil_r; by split_and!; try apply covers_nil.
Qed.

Lemma inserted_app enc dec es1 es2 ds1 ds2 s1 s2 s1' s2' :
  inserted c enc dec es1 ds1 s1 s1' -> inserted c enc dec es2 ds2 s2 s2' ->
  inserted c enc dec (es1 ++ es2) (ds1 ++ ds2) (s1 ++ s2) (s1' ++ s2').
Proof.
  intros (Hw1 & (pe1 & pd1 & He1 & Hd1 & Hp1) & (xe1 & xd1 & Hx1 & Hy1 & Hs1))
         (Hw2 & (pe2 & pd2 & He2 & Hd2 & Hp2) & (xe2 & xd2 & Hx2 & Hy2 & Hs2)).
  split_and!; [by apply Forall_app| |].
  - exists (pe1 ++ pe2), (pd1 ++ pd2). split_and!; [by apply covers_app..|]. rewrite !fmap_app, !concat_app, Hp1, Hp2. solve_Permutation.
  - exists (xe1 ++ xe2), (xd1 ++ xd2). split_and!; [by apply covers_app..|]. rewrite !fmap_app, !concat_app, Hs1, Hs2. solve_Permutation.
Qed.

Lemma worker_inserts enc dec ctx s w s' w' :
  0 <= ctx_nb_encrypted_rules ctx -> 0 <= ctx_nb_decrypted_rules ctx -> waiting s = [] ->
  rule_inserter_worker c capacity enc dec ctx s w = Ret (false, s', w') ->
  inserted c enc dec (seqZ (encrypt_rule_offset ctx) (ctx_nb_encrypted_rules ctx))
    (seqZ (decrypt_rule_offset ctx) (ctx_nb_decrypted_rules ctx)) [s] [s'].
Proof.
  intros Hne Hnd Hw E. unfold rule_inserter_worker, mbind, io_bind in E. obind E. destruct a as [[r1 s1] w1].
  destruct (is_ok r1) eqn:E1; cbn [negb] in E; [|unfold mret, io_ret in E; inv_ret; done].
  obind E. destruct a as [[r2 s2] w2]. unfold mret, io_ret in E.
  injection E as Hr2 <- <-. apply negb_false_iff, bool_decide_eq_true in Hr2 as ->.
  apply bool_decide_eq_true in E1 as ->.
  assert (installs enc (encrypt_places c) (encrypt_sas c) (seqZ (encrypt_rule_offset ctx) (ctx_nb_encrypted_rules ctx)) s s1)
    as (Hw1 & (pe & He & Hp1) & (xe & Hx & Hs1)).
  { destruct (0 <? _) eqn:En; [by eapply encrypt_entries_ok|]. unfold mret, io_ret in E0. inv_ret. rewrite seqZ_nil by lia.
    split_and!; [done|exists []|exists []]; rewrite app_nil_r; by split; [apply covers_nil|]. }
  assert (installs dec (decrypt_places c (nb_encrypted_rules (app_rules c))) (decrypt_sas c (nb_encrypted_rules (app_rules c)))
    (seqZ (decrypt_rule_offset ctx) (ctx_nb_decrypted_rules ctx)) s1 s2) as (Hw2 & (pd & Hd & Hp2) & (xd & Hy & Hs2)).
  { destruct (0 <? ctx_nb_decrypted_rules ctx) eqn:En; [by eapply decrypt_entries_ok|]. unfold mret, io_ret in E2. inv_ret.
    rewrite seqZ_nil by lia. split_and!; [done|exists []|exists []]; rewrite app_nil_r; by split; [apply covers_nil|]. }
  split_and!; [by apply Forall_singleton|exists pe, pd|exists xe, xd]; split_and!; try done; cbn; rewrite !app_nil_r.
  - rewrite Hp2, Hp1. by rewrite app_assoc.
  - by rewrite Hs2, Hs1, app_assoc.
Qed.

Lemma workers_insert enc dec ctxs : forall queues w queues' w',
  Forall (fun x => 0 <= ctx_nb_encrypted_rules x /\ 0 <= ctx_nb_decrypted_rules x) ctxs ->
  Forall (fun q => waiting q = []) queues ->
  run_workers c capacity enc dec ctxs queues w = Ret (false, queues', w') ->
  inserted c enc dec (concat (map (fun x => seqZ (encrypt_rule_offset x) (ctx_nb_encrypted_rules x)) ctxs))
    (concat (map (fun x => seqZ (decrypt_rule_offset x) (ctx_nb_decrypted_rules x)) ctxs)) queues queues'.
Proof.
  induction ctxs as [|ctx ctxs IH]; intros queues w queues' w' Hn Hw E; cbn [run_workers] in E.
  - unfold mret, io_ret in E. inv_ret. by apply inserted_nil.
  - destruct queues as [|s queues]; [done|]. unfold mbind, io_bind in E. obind E. destruct a as [[f s1] w1].
    obind E. destruct a as [[o qs] w2]. unfold mret, io_ret in E. injection E as Hf <- <-. apply orb_false_iff in Hf as [-> ->].
    apply Forall_cons in Hn as [[Hne Hnd] Hn]. apply Forall_cons in Hw as [Hw Hws].
    apply (inserted_app enc dec _ _ _ _ [s] queues [s1] qs); [by eapply worker_inserts|by eapply IH].
Qed.

(** The contexts hold the shares. *)
Lemma launch_shares n : forall q i ne nd w ctxs w',
  let re := float_div (nb_encrypted_rules (app_rules c)) q in
  let rd := float_div (nb_decrypted_rules (app_rules c)) q in
  0 <= nb_encrypted_rules (app_rules c) <= MAX_NB_RULES -> 0 <= nb_decrypted_rules (app_rules c) <= MAX_NB_RULES ->
  1 <= q <= 1024 -> 0 <= i -> i + Z.of_nat n <= q ->
  (SCALE <= re -> ne = rules_before (nb_encrypted_rules (app_rules c)) q i) ->
  (SCALE <= rd -> nd = rules_before (nb_decrypted_rules (app_rules c)) q i) ->
  launch_threads c n q re rd i ne nd w = Ret (DOCA_SUCCESS, ctxs, w') ->
  let bounds nb i := seqZ (rules_before nb q i) (rules_before nb q (i + 1) - rules_before nb q i) in
  length ctxs = n
  /\ Forall (fun x => 0 <= ctx_nb_encrypted_rules x /\ 0 <= ctx_nb_decrypted_rules x) ctxs
  /\ map (fun x => seqZ (encrypt_rule_offset x) (ctx_nb_encrypted_rules x)) ctxs
     = map (bounds (nb_encrypted_rules (app_rules c))) (seqZ i (Z.of_nat n))
  /\ map (fun x => seqZ (decrypt_rule_offset x) (ctx_nb_decrypted_rules x)) ctxs
     = map (bounds (nb_decrypted_rules (app_rules c))) (seqZ i (Z.of_nat n)).
Proof.
  induction n as [|n IH]; intros q i ne nd w ctxs w' re rd Hbe Hbd Hq Hi Hn Hne Hnd E bounds; cbn [launch_threads] in E.
  { unfold mret, io_ret in E. by inv_ret. }
  unfold mbind, io_bind in E. obind E. destruct a as [[|] w1]; [|done]. cbn [negb] in E.
  destruct (share re _ q i ne) as [[eo ec] ne'] eqn:Ee, (share rd _ q i nd) as [[do dc] nd'] eqn:Ed.
  apply share_range in Ee as (He1 & He2 & He3); [|done|done|lia|done]. apply share_range in Ed as (Hd1 & Hd2 & Hd3); [|done|done|lia|done].
  obind E. destruct a as [[|] w2]; [|done]. cbn [negb] in E. obind E. destruct a as [[r cs] w3]. unfold mret, io_ret in E. inv_ret.
  apply IH in E2 as (Hl & Hf & Hse & Hsd); [|done|done|done|lia|lia|done|done].
  rewrite seqZ_cons by lia. replace (Z.pred (Z.of_nat (S n))) with (Z.of_nat n) by lia. rewrite <-Z.add_1_r. cbn [map length].
  cbn [encrypt_rule_offset ctx_nb_encrypted_rules decrypt_rule_offset ctx_nb_decrypted_rules].
  split_and!; [by rewrite Hl|by constructor|by rewrite He2, Hse|by rewrite Hd2, Hsd].
Qed.

Lemma queues_bound q ne nd : 1 <= q -> 0 <= ne <= MAX_NB_RULES -> 0 <= nd <= MAX_NB_RULES -> 1 <= queues_to_run q ne nd <= 1024.
Proof.
  intros Hq He Hd. unfold queues_to_run, MIN_ENTRIES_PER_CORE, MAX_NB_RULES in *. rewrite !Z.quot_div_nonneg by lia.
  pose proof (Z.div_le_mono ne 1048576 1024 ltac:(lia) ltac:(lia)). pose proof (Z.div_le_mono nd 1048576 1024 ltac:(lia) ltac:(lia)).
  change (1048576 / 1024) with 1024 in *. lia.
Qed.

(** The ranges of all contexts, one behind the other, are the whole arrays. *)
Lemma launched_ranges q w ctxs w' :
  0 <= nb_encrypted_rules (app_rules c) <= MAX_NB_RULES -> 0 <= nb_decrypted_rules (app_rules c) <= MAX_NB_RULES -> 1 <= q <= 1024 ->
  launch_threads c (Z.to_nat q) q (float_div (nb_encrypted_rules (app_rules c)) q) (float_div (nb_decrypted_rules (app_rules c)) q) 0 0 0 w
  = Ret (DOCA_SUCCESS, ctxs, w') ->
  Z.of_nat (length ctxs) = q
  /\ Forall (fun x => 0 <= ctx_nb_encrypted_rules x /\ 0 <= ctx_nb_decrypted_rules x) ctxs
  /\ concat (map (fun x => seqZ (encrypt_rule_offset x) (ctx_nb_encrypted_rules x)) ctxs) = seqZ 0 (nb_encrypted_rules (app_rules c))
  /\ concat (map (fun x => seqZ (decrypt_rule_offset x) (ctx_nb_decrypted_rules x)) ctxs) = seqZ 0 (nb_decrypted_rules (app_rules c)).
Proof.
  intros He Hd Hq E. apply launch_shares in E as (Hl & Hf & Hse & Hsd); [|done|done|done|lia|lia|intros _; by rewrite rules_before_0..].
  rewrite Hse, Hsd, !shares_concat by lia. rewrite Z2Nat.id, !rules_before_all by lia. split_and!; [lia|done..].
Qed.
End complete.

(** ** The threads are never undefined *)

Definition total {A} (m : io A) : Prop := forall w, exists a w', m w = Ret (a, w').

Lemma total_bind {A B} (m : io A) (k : A -> io B) : total m -> (forall a, total (k a)) -> total (m ≫= k).
Proof. intros Hm Hk w. destruct (Hm w) as (a & w1 & E). unfold mbind, io_bind. rewrite E. apply Hk. Qed.

Lemma total_M_ret {A} (a : A) : total (mret a).
Proof. intros w. by exists a, w. Qed.

Lemma total_call : total call.
Proof. intros w. unfold call. destruct (calls w); by eexists _, _. Qed.

Lemma total_succeeds : total succeeds.
Proof. apply total_bind; [apply total_call|intros e; apply total_M_ret]. Qed.

#[local] Create HintDb total.
#[local] Hint Resolve @total_bind @total_M_ret total_call total_succeeds : total.

Section defined.
Context `{RteHash} (c : ipsec_security_gw_config) (capacity : Z) (RTE_MAX_LCORE : Z).
Context (Hdebug : debug_mode (options c) = false) (Htable : ip6_table c <> None).

Lemma pipe_add_total x s : total (pipe_add_entry capacity false x s).
Proof using Type.
  unfold pipe_add_entry. apply total_bind; [apply total_M_ret|intros _]. apply total_bind; [auto with total|intros r].
  destruct (is_ok r); auto with total.
Qed.

Lemma add_and_process_total x s : total (add_and_process c capacity x s).
Proof using Hdebug.
  unfold add_and_process. rewrite Hdebug. apply total_bind; [apply pipe_add_total|intros [r s1]].
  destruct (is_ok r); cbn [negb]; [|auto with total]. destruct (_ =? _); auto with total.
Qed.

Lemma five_tuple_total rule n i s : total (add_five_tuple_match_entry c capacity rule n i s).
Proof using Hdebug Htable.
  unfold add_five_tuple_match_entry. destruct (_ && _); [|apply add_and_process_total].
  destruct (ip6_table c); [|done]. destruct (ht_lookup _ _) as [[]|]; [|auto with total].
  apply total_bind; [apply add_and_process_total|intros [r1 s1]]. destruct (is_ok r1); [apply add_and_process_total|apply total_M_ret].
Qed.

Lemma configure_sa_total egress off sa id s : total (configure_sa c egress off sa id s).
Proof using Type. unfold configure_sa. apply total_bind; [auto with total|intros r]. destruct (is_ok r); auto with total. Qed.

Lemma encrypt_loop_total n nb off rules : forall i s,
  0 <= off -> 0 <= i -> off + i + Z.of_nat n <= Z.of_nat (length rules) -> total (encrypt_loop c capacity n nb i off rules s).
Proof using Hdebug Htable.
  induction n as [|n IH]; intros i s Ho Hi Hn; cbn [encrypt_loop]; [apply total_M_ret|].
  destruct (lookup_lt_is_Some_2 rules (Z.to_nat (off + i)) ltac:(lia)) as [rule ->].
  apply total_bind; [|intros [r1 s1]; destruct (is_ok r1); [apply IH; lia|apply total_M_ret]].
  unfold add_encrypt_rule. apply total_bind; [apply five_tuple_total|intros [r1 s1]]. destruct (is_ok r1); cbn [negb]; [|apply total_M_ret].
  apply total_bind; [apply configure_sa_total|intros [r2 s2]]. destruct (is_ok r2); [apply add_and_process_total|apply total_M_ret].
Qed.

Lemma decrypt_loop_total ne n nb off rules : forall i s,
  0 <= off -> 0 <= i -> off + i + Z.of_nat n <= Z.of_nat (length rules) -> total (decrypt_loop c capacity ne n nb i off rules s).
Proof using Hdebug.
  induction n as [|n IH]; intros i s Ho Hi Hn; cbn [decrypt_loop]; [apply total_M_ret|].
  destruct (lookup_lt_is_Some_2 rules (Z.to_nat (off + i)) ltac:(lia)) as [rule ->].
  apply total_bind; [|intros [r1 s1]; destruct (is_ok r1); [apply IH; lia|apply total_M_ret]].
  unfold add_decrypt_rule. apply total_bind; [apply configure_sa_total|intros [r1 s1]]. destruct (is_ok r1); cbn [negb]; [|apply total_M_ret].
  unfold add_decrypt_items. rewrite Hdebug. apply total_bind; [|intros [r2 s2]; destruct (is_ok r2); [|apply total_M_ret]].
  - apply total_bind; [apply pipe_add_total|intros [r2 s2]]. destruct (is_ok r2); apply total_M_ret.
  - cbn [negb]. destruct (_ <=? _); auto with total.
Qed.

Lemma drain_all_total F0 S0 log slog w s :
  logged (route_of c) F0 S0 log slog s -> total (drain_all (route_of c w) w s).
Proof using Type.
  intros Hl wd. unfold drain_all. destruct (drain_total (route_of c) F0 S0 w (S (S (length (comps s) + length (waiting s)))) log slog s Hl)
    as (r & s' & ->); [lia|]. by exists (r, s'), wd.
Qed.

Lemma drain_both_total F0 S0 log slog s : logged (route_of c) F0 S0 log slog s -> total (drain_both c s).
Proof using Type.
  intros Hl wd. unfold drain_both, mbind, io_bind. destruct (drain_all_total _ _ _ _ crypt_status s Hl wd) as ([r1 s1] & w1 & E1).
  cbn [route_of] in E1. rewrite E1. destruct (is_ok r1) eqn:Er; cbn [negb]; [|by eexists _, _].
  apply drain_all_run in E1. eapply drain_logged in E1 as (Hl1 & _); [|done|done].
  by apply (drain_all_total _ _ _ _ hairpin_status s1 Hl1 w1).
Qed.

Lemma encrypt_entries_total rules n off s :
  waiting s = [] -> 0 <= off -> 0 <= n -> off + n <= Z.of_nat (length rules) -> total (add_encrypt_entries c capacity rules n off s).
Proof using Hdebug Htable.
  intros Hw Ho Hn Hl wd. unfold add_encrypt_entries, mbind, io_bind.
  destruct (encrypt_loop_total (Z.to_nat n) n off rules 0 (fresh_status s) Ho ltac:(lia) ltac:(lia) wd) as ([r1 s1] & w1 & E).
  rewrite E. destruct (is_ok r1) eqn:E1; cbn [negb]; [|by eexists _, _].
  eapply (encrypt_loop_logged (route_of c) (in_force s) (shared s) c capacity eq_refl eq_refl _ _ _ _ 0) in E
    as (chunk & sas & _ & _ & Hlog); [|by apply fresh_logged|done].
  by apply (drain_both_total _ _ _ _ _ Hlog w1).
Qed.

Lemma decrypt_entries_total rules n off s :
  waiting s = [] -> 0 <= off -> 0 <= n -> off + n <= Z.of_nat (length rules) -> total (add_decrypt_entries c capacity rules n off s).
Proof using Hdebug.
  intros Hw Ho Hn Hl wd. unfold add_decrypt_entries, mbind, io_bind.
  destruct (decrypt_loop_total (nb_encrypted_rules (app_rules c)) (Z.to_nat n) n off rules 0 (fresh_status s) Ho ltac:(lia) ltac:(lia) wd)
    as ([r1 s1] & w1 & E).
  rewrite E. destruct (is_ok r1) eqn:E1; cbn [negb]; [|by eexists _, _].
  eapply (decrypt_loop_logged (route_of c) (in_force s) (shared s) c capacity eq_refl _ _ _ _ _ 0) in E
    as (chunk & sas & _ & _ & Hlog & _); [|by apply fresh_logged|done].
  by apply (drain_all_total _ _ _ _ crypt_status s1 Hlog w1).
Qed.

(** A range inside an array. *)
Definition ctx_within (ne nd : Z) (x : multi_thread_insertion_ctx) : Prop :=
  (0 < ctx_nb_encrypted_rules x -> 0 <= encrypt_rule_offset x /\ encrypt_rule_offset x + ctx_nb_encrypted_rules x <= ne)
  /\ (0 < ctx_nb_decrypted_rules x -> 0 <= decrypt_rule_offset x /\ decrypt_rule_offset x + ctx_nb_decrypted_rules x <= nd).

Lemma worker_total enc dec ctx s :
  ctx_within (Z.of_nat (length enc)) (Z.of_nat (length dec)) ctx -> waiting s = [] -> total (rule_inserter_worker c capacity enc dec ctx s).
Proof using Hdebug Htable.
  intros [He Hd] Hw wd. unfold rule_inserter_worker, mbind, io_bind.
  assert (exists r1 s1 w1, (if 0 <? ctx_nb_encrypted_rules ctx
      then add_encrypt_entries c capacity enc (ctx_nb_encrypted_rules ctx) (encrypt_rule_offset ctx) s else mret (DOCA_SUCCESS, s)) wd
      = Ret (r1, s1, w1) /\ (is_ok r1 = true -> waiting s1 = [])) as (r1 & s1 & w1 & E & Hw1).
  { destruct (0 <? _) eqn:En; [|by exists DOCA_SUCCESS, s, wd]. apply Z.ltb_lt in En. destruct (He En).
    destruct (encrypt_entries_total enc (ctx_nb_encrypted_rules ctx) (encrypt_rule_offset ctx) s Hw ltac:(lia) ltac:(lia) ltac:(lia) wd)
      as ([r1 s1] & w1 & E). exists r1, s1, w1. split; [done|]. intros ->%bool_decide_eq_true.
    by apply encrypt_entries_ok in E as (? & _); [|done|lia]. }
  rewrite E. destruct (is_ok r1); cbn [negb]; [|by eexists _, _]. specialize (Hw1 eq_refl).
  destruct (0 <? ctx_nb_decrypted_rules ctx) eqn:En; [|by eexists _, _]. apply Z.ltb_lt in En. destruct (Hd En).
  destruct (decrypt_entries_total dec (ctx_nb_decrypted_rules ctx) (decrypt_rule_offset ctx) s1 Hw1 ltac:(lia) ltac:(lia) ltac:(lia) w1)
    as ([r2 s2] & w2 & ->). by eexists _, _.
Qed.

Lemma workers_total enc dec ctxs : forall queues,
  Forall (ctx_within (Z.of_nat (length enc)) (Z.of_nat (length dec))) ctxs -> Forall (fun q => waiting q = []) queues ->
  (length ctxs <= length queues)%nat -> total (run_workers c capacity enc dec ctxs queues).
Proof using Hdebug Htable.
  induction ctxs as [|ctx ctxs IH]; intros [|s queues] Hc Hw Hl; cbn [run_workers]; [apply total_M_ret..|by cbn in Hl; lia|].
  apply Forall_cons in Hc as [Hc Hcs]. apply Forall_cons in Hw as [Hw Hws]. apply total_bind; [by apply worker_total|intros [f s1]].
  apply total_bind; [apply IH; try done; cbn in Hl; lia|intros [o qs]; apply total_M_ret].
Qed.

Lemma seqZ_inj m n m' n' : 0 < n -> seqZ m n = seqZ m' n' -> m' = m /\ n' = n.
Proof using Type.
  intros Hn E. assert (n' = n) as -> by (apply (f_equal length) in E; rewrite !length_seqZ in E; lia).
  rewrite (seqZ_cons m n), (seqZ_cons m' n) in E by lia. by injection E as <- _.
Qed.

Lemma launch_within n : forall q i ne nd w r ctxs w',
  let re := float_div (nb_encrypted_rules (app_rules c)) q in
  let rd := float_div (nb_decrypted_rules (app_rules c)) q in
  0 <= nb_encrypted_rules (app_rules c) <= MAX_NB_RULES -> 0 <= nb_decrypted_rules (app_rules c) <= MAX_NB_RULES ->
  1 <= q <= 1024 -> 0 <= i -> i + Z.of_nat n <= q ->
  (SCALE <= re -> ne = rules_before (nb_encrypted_rules (app_rules c)) q i) ->
  (SCALE <= rd -> nd = rules_before (nb_decrypted_rules (app_rules c)) q i) ->
  launch_threads c n q re rd i ne nd w = Ret (r, ctxs, w') ->
  (length ctxs <= n)%nat /\ (calls w = [] -> r = DOCA_SUCCESS)
  /\ Forall (ctx_within (nb_encrypted_rules (app_rules c)) (nb_decrypted_rules (app_rules c))) ctxs.
Proof using Type.
  assert (Hcall : forall w b w', succeeds w = Ret (b, w') -> calls w = [] -> b = true /\ w' = w).
  { intros w b w' E Hw. cbv [succeeds call mbind io_bind mret io_ret] in E. rewrite Hw in E. by injection E as <- <-. }
  induction n as [|n IH]; intros q i ne nd w r ctxs w' re rd Hbe Hbd Hq Hi Hn Hne Hnd E; cbn [launch_threads] in E.
  { unfold mret, io_ret in E. inv_ret. split_and!; [cbn; lia|done|by apply Forall_nil]. }
  unfold mbind, io_bind in E. obind E. destruct a as [b1 w1]. pose proof (Hcall _ _ _ E0) as Hc1. destruct b1; cbn [negb] in E.
  2: { unfold mret, io_ret in E. inv_ret. split_and!; [cbn; lia|by intros [? _]%Hc1|by apply Forall_nil]. }
  destruct (share re _ q i ne) as [[eo ec] ne'] eqn:Ee, (share rd _ q i nd) as [[do dc] nd'] eqn:Ed.
  apply share_range in Ee as (He1 & He2 & He3); [|done|done|lia|done]. apply share_range in Ed as (Hd1 & Hd2 & Hd3); [|done|done|lia|done].
  obind E. destruct a as [b2 w2]. pose proof (Hcall _ _ _ E1) as Hc2. destruct b2; cbn [negb] in E.
  2: { unfold mret, io_ret in E. inv_ret. split_and!; [cbn; lia| |by apply Forall_nil].
       intros Hw. destruct (Hc1 Hw) as [_ ->]. by destruct (Hc2 Hw). }
  obind E. destruct a as [[r1 cs] w3]. unfold mret, io_ret in E. inv_ret.
  apply IH in E2 as (Hl & Hr & Hf); [|done|done|done|lia|lia|done|done]. split_and!.
  - cbn. lia.
  - intros Hw. destruct (Hc1 Hw) as [_ ->]. destruct (Hc2 Hw) as [_ ->]. by apply Hr.
  - constructor; [|done].
    split; cbn; intros Hpos; [apply seqZ_inj in He2 as [<- Hn2]; [|done]|apply seqZ_inj in Hd2 as [<- Hn2]; [|done]].
    + pose proof (rules_before_bounds _ q Hbe Hq i ltac:(lia)). pose proof (rules_before_bounds _ q Hbe Hq (i + 1) ltac:(lia)). lia.
    + pose proof (rules_before_bounds _ q Hbd Hq i ltac:(lia)). pose proof (rules_before_bounds _ q Hbd Hq (i + 1) ltac:(lia)). lia.
Qed.
End defined.

(** ** The insertion as a whole *)

Section whole.
Context `{RteHash} `{J : JsonC} (c : ipsec_security_gw_config) (capacity : Z) (RTE_MAX_LCORE : Z).

Lemma all_workers_live enc dec ctxs queues :
  encrypt_rules (app_rules c) = Live enc -> decrypt_rules (app_rules c) = Live dec ->
  all_workers c capacity ctxs queues = run_workers c capacity enc dec ctxs queues.
Proof. intros He Hd. unfold all_workers. by rewrite He, Hd. Qed.

Lemma calloc_total w : exists b w', calloc w = Ret (b, w') /\ (calls w = [] -> calls w' = []).
Proof.
  cbv [calloc succeeds call mbind io_bind mret io_ret]. destruct (calls w) as [|e l] eqn:E.
  - by exists true, (set_blocks (blocks w + 1) w).
  - destruct (is_ok e); by eexists _, _.
Qed.

Lemma launch_total n : forall q re rd i ne nd, total (launch_threads c n q re rd i ne nd).
Proof.
  induction n as [|n IH]; intros q re rd i ne nd; cbn [launch_threads]; [apply total_M_ret|].
  apply total_bind; [apply total_succeeds|intros []; [|apply total_M_ret]]. cbn [negb].
  destruct (share re _ q i ne) as [[] ?], (share rd _ q i nd) as [[] ?].
  apply total_bind; [apply total_succeeds|intros []; [|apply total_M_ret]].
  apply total_bind; [apply IH|intros []; apply total_M_ret].
Qed.

Lemma total_defined {A} (m : io A) w why : total m -> m w <> Undef why.
Proof. intros Hm. by destruct (Hm w) as (a & w' & ->). Qed.

(** C14: The threads insert every rule once.  For a configuration with the rules of a document,
    when [run_multithread_insertion] returns success, the queues together have added the
    entries and the security associations of the encryption rules 0, 1, 2, ... and of the
    decryption rules 0, 1, 2, ..., each rule exactly once, whatever the number of cores and
    of rules, and nothing waits in any queue: the offsets computed with numbers of type
    [float] leave no rule out and give none to two threads. *)
Theorem threads_insert_all j nb_queues queues w queues' w' :
  rules_sound j c -> debug_mode (options c) = false -> Forall (fun q => waiting q = []) queues ->
  run_multithread_insertion c capacity RTE_MAX_LCORE nb_queues queues w = Ret (DOCA_SUCCESS, queues', w') ->
  exists enc dec, encrypt_rules (app_rules c) = Live enc /\ decrypt_rules (app_rules c) = Live dec
    /\ inserted c enc dec (seqZ 0 (Z.of_nat (length enc))) (seqZ 0 (Z.of_nat (length dec))) queues queues'.
Proof.
  intros (je & jd & enc & dec & t & _ & _ & He & Hd & _ & _ & Hle & _ & Hld & Hne & Hnd & _) _ Hw E.
  exists enc, dec. split_and!; [done|done|]. unfold run_multithread_insertion in E.
  destruct ((nb_queues <? 1) || _) eqn:Eq; [unfold mret, io_ret in E; inv_ret; done|]. apply orb_false_iff in Eq as [Eq _].
  destruct ((_ =? 0) && _) eqn:E0.
  { unfold mret, io_ret in E. inv_ret. rewrite !seqZ_nil by lia. by apply inserted_nil. }
  pose proof (queues_bound nb_queues _ _ ltac:(lia) (conj (Nat2Z.is_nonneg _) Hle) (conj (Nat2Z.is_nonneg _) Hld)) as Hq.
  rewrite <-Hne, <-Hnd in Hq. unfold mbind, io_bind in E. obind E. destruct a as [[|] w1]; cbn [negb] in E; [|by unfold mret, io_ret in E].
  obind E. destruct a as [[r ctxs] w2]. destruct (is_ok r) eqn:Er; cbn [negb] in E.
  - apply bool_decide_eq_true in Er as ->. apply launched_ranges in E2 as (_ & Hf & Hse & Hsd); [|lia|lia|done].
    rewrite (all_workers_live enc dec) in E by done. obind E. destruct a as [[f qs] w3]. obind E. destruct a as [s w4].
    destruct f; [by unfold mret, io_ret in E|]. destruct s; cbn [orb negb] in E; [|by unfold mret, io_ret in E].
    obind E. destruct a. unfold mret, io_ret in E. inv_ret. apply workers_insert in E2; [|done|done]. by rewrite Hse, Hsd, Hne, Hnd in E2.
  - obind E. destruct a as [b w3]. destruct b; cbn [negb] in E; [|done]. obind E. destruct a as [[f qs] w4]. obind E. destruct a.
    unfold mret, io_ret in E. inv_ret. by cbn in Er.
Qed.

Lemma insertion_undefined j nb_queues queues w why :
  rules_sound j c -> debug_mode (options c) = false -> Forall (fun q => waiting q = []) queues ->
  nb_queues <= Z.of_nat (length queues) ->
  run_multithread_insertion c capacity RTE_MAX_LCORE nb_queues queues w = Undef why ->
  why = DanglingPointer /\ calls w <> [].
Proof.
  intros (je & jd & enc & dec & t & _ & _ & He & Hd & Ht & _ & Hle & _ & Hld & Hne & Hnd & _) Hdebug Hw Hlen E.
  assert (ip6_table c <> None) as Htable by by rewrite Ht.
  unfold run_multithread_insertion in E. destruct ((nb_queues <? 1) || _) eqn:Eq; [done|]. apply orb_false_iff in Eq as [Eq _].
  destruct ((_ =? 0) && _); [done|]. pose proof (queues_bound nb_queues _ _ ltac:(lia) (conj (Nat2Z.is_nonneg _) Hle) (conj (Nat2Z.is_nonneg _) Hld)) as Hq.
  rewrite <-Hne, <-Hnd in Hq. assert (queues_to_run nb_queues (nb_encrypted_rules (app_rules c)) (nb_decrypted_rules (app_rules c)) <= nb_queues)
    as Hqn by (unfold queues_to_run; lia).
  set (q := queues_to_run _ _ _) in *. unfold mbind at 1, io_bind at 1 in E.
  destruct (calloc_total w) as (b & w1 & Ec & Hc). rewrite Ec in E. destruct b; cbn [negb] in E; [|done].
  unfold mbind at 1, io_bind at 1 in E.
  destruct (launch_total (Z.to_nat q) q (float_div (nb_encrypted_rules (app_rules c)) q) (float_div (nb_decrypted_rules (app_rules c)) q) 0 0 0 w1)
    as ([r ctxs] & w2 & El). rewrite El in E.
  apply launch_within in El as (Hlc & Hr & Hin); [|lia|lia|done|lia|lia|intros _; rewrite rules_before_0; [done|lia]..].
  assert (forall A (k : bool * list inserter -> io A), (forall a, total (k a)) -> total (all_workers c capacity ctxs queues ≫= k)) as Htail.
  { intros A k Hk. apply total_bind; [|done]. rewrite (all_workers_live enc dec) by done. rewrite Hne, Hnd in Hin.
    apply workers_total; [done|done|done|done|lia]. }
  destruct (is_ok r) eqn:Er; cbn [negb] in E.
  - exfalso. revert E. apply total_defined, Htail. intros [f qs]. apply total_bind; [apply total_succeeds|intros s].
    destruct (f || negb s); [apply total_M_ret|]. apply total_bind; [|intros _; apply total_M_ret]. intros w3. by eexists _, _.
  - assert (calls w <> []) as Hcalls by (intros E'; rewrite (Hr (Hc E')) in Er; by cbn in Er).
    split; [|done]. unfold mbind at 1, io_bind at 1 in E.
    assert (exists b w3, (if bool_decide (ctxs = []) then mret true else succeeds) w2 = Ret (b, w3)) as (b & w3 & Eb)
      by (case_bool_decide; [by eexists _, _|apply total_succeeds]).
    rewrite Eb in E. destruct b; cbn [negb] in E; [|by unfold undef in E; injection E as <-].
    exfalso. revert E. apply total_defined, Htail. intros [f qs]. apply total_bind; [|intros _; apply total_M_ret]. intros w4. by eexists _, _.
Qed.

(** With a configuration read from a document, no debug mode and a queue for each thread,
    [run_multithread_insertion] reads no rule outside the arrays, and with a library that
    completes every entry after finitely many other answers, also those it was asked to hold
    back for a batch, the wait for every queue ends.  The one exception is a launch that fails
    while threads launched before still use their contexts, which are freed. *)
Theorem insertion_defined j nb_queues queues w :
  rules_sound j c -> debug_mode (options c) = false -> Forall (fun q => waiting q = []) queues ->
  nb_queues <= Z.of_nat (length queues) ->
  (exists result queues' w', run_multithread_insertion c capacity RTE_MAX_LCORE nb_queues queues w = Ret (result, queues', w'))
  \/ (calls w <> [] /\ run_multithread_insertion c capacity RTE_MAX_LCORE nb_queues queues w = Undef DanglingPointer).
Proof.
  intros Hr Hdebug Hw Hl. destruct (run_multithread_insertion _ _ _ _ _ _) as [[[r qs] w']|why] eqn:E; [left; by exists r, qs, w'|].
  apply (insertion_undefined j) in E as [-> Hc]; [by right|done..].
Qed.
End whole.

(** The division of the work.  For up to 2^20 rules of either kind and up to 1024 threads,
    the shares that the loop computes with rounded numbers are consecutive, begin with rule
    0, end with the last rule, and the share of each thread is within one and a half rules of
    the mean. *)
Theorem threads_share_rules `{RteHash} c q w ctxs w' :
  let ne := nb_encrypted_rules (app_rules c) in
  let nd := nb_decrypted_rules (app_rules c) in
  0 <= ne <= MAX_NB_RULES -> 0 <= nd <= MAX_NB_RULES -> 1 <= q <= 1024 ->
  launch_threads c (Z.to_nat q) q (float_div ne q) (float_div nd q) 0 0 0 w = Ret (DOCA_SUCCESS, ctxs, w') ->
  Z.of_nat (length ctxs) = q
  /\ concat (map (fun x => seqZ (encrypt_rule_offset x) (ctx_nb_encrypted_rules x)) ctxs) = seqZ 0 ne
  /\ concat (map (fun x => seqZ (decrypt_rule_offset x) (ctx_nb_decrypted_rules x)) ctxs) = seqZ 0 nd
  /\ Forall (fun x => 2 * Z.abs (q * ctx_nb_encrypted_rules x - ne) <= 3 * q /\ 2 * Z.abs (q * ctx_nb_decrypted_rules x - nd) <= 3 * q) ctxs.
Proof.
  intros ne nd He Hd Hq E. pose proof (launched_ranges _ _ _ _ _ He Hd Hq E) as (Hl & Hf & Hse & Hsd). split_and!; [done..|].
  apply launch_shares in E as (_ & _ & Hme & Hmd); [|done|done|done|lia|lia|intros _; by rewrite rules_before_0..].
  assert (Hone : forall (off cnt : multi_thread_insertion_ctx -> Z) nb, 0 <= nb <= MAX_NB_RULES -> forall k x, ctxs !! k = Some x -> 0 <= cnt x ->
    map (fun x => seqZ (off x) (cnt x)) ctxs
    = map (fun i => seqZ (rules_before nb q i) (rules_before nb q (i + 1) - rules_before nb q i)) (seqZ 0 (Z.of_nat (Z.to_nat q))) ->
    2 * Z.abs (q * cnt x - nb) <= 3 * q).
  { intros off cnt nb Hb k x Hk Hc Hm. pose proof (lookup_lt_Some _ _ _ Hk) as Hlt. apply (f_equal (fun l => l !! k)) in Hm.
    rewrite !list_lookup_fmap, Hk, lookup_seqZ_lt in Hm by lia. cbn [fmap option_fmap option_map] in Hm. injection Hm as Hm. rewrite !Z.add_0_l in Hm. apply (f_equal length) in Hm.
    rewrite !length_seqZ in Hm. pose proof (rules_before_step _ q Hb Hq (Z.of_nat k) ltac:(lia)).
    pose proof (share_balanced nb q Hb Hq (Z.of_nat k) ltac:(lia)) as Hs.
    replace (cnt x) with (rules_before nb q (Z.of_nat k + 1) - rules_before nb q (Z.of_nat k)) by lia. done. }
  apply Forall_lookup_2. intros k x Hk. pose proof (Forall_lookup_1 _ _ _ _ Hf Hk) as [H1 H2].
  split; [exact (Hone _ _ ne He k x Hk H1 Hme)|exact (Hone _ _ nd Hd k x Hk H2 Hmd)].
Qed.

(** ** Samples *)

(** The numbers of type [float] are those of the specification of IEEE arithmetic in the
    Standard Library. *)
Definition spec_value (f : SpecFloat.spec_float) : option Z :=
  match f with
  | SpecFloat.S754_finite false m e => Some (Z.pos m * 2 ^ (e + 64))
  | SpecFloat.S754_zero _ => Some 0
  | _ => None
  end.

Definition spec_int (n : Z) : SpecFloat.spec_float := SpecFloat.binary_normalize 24 128 n 0 false.

Example float_agrees :
  Forall (fun '(n, d, i) =>
    let q := SpecFloat.SFdiv 24 128 (spec_int n) (spec_int d) in
    spec_value q = Some (float_div n d) /\ spec_value (SpecFloat.SFmul 24 128 (spec_int i) q) = Some (float_mul i (float_div n d)))
  [(1048576, 3, 2); (1000003, 7, 6); (1048575, 1023, 1022); (999999, 977, 13); (5, 7, 3); (1, 1024, 1); (0, 12, 5)].
Proof. repeat constructor; by vm_compute. Qed.

Section samples.
#[local] Instance threads_hash : RteHash := Slots.slots_hash 8.
#[local] Instance threads_json : JsonC := config_json.

Definition sample_rules_run : outcome (doca_error_t * list inserter * world) :=
  run_multithread_insertion config_end 8 128 4 [inserter_start; inserter_start; inserter_start; inserter_start] calm.

Definition sample_queues : list inserter := match sample_rules_run with Ret (_, q, _) => q | _ => [] end.

Lemma sample_inserted :
  run_multithread_insertion config_end 8 128 4 [inserter_start; inserter_start; inserter_start; inserter_start] calm
  = Ret (DOCA_SUCCESS, sample_queues, set_blocks 0 calm).
Proof. by vm_compute. Qed.

Lemma threads_insert_all_witness :
  exists enc dec, encrypt_rules (app_rules config_end) = Live enc /\ decrypt_rules (app_rules config_end) = Live dec
    /\ inserted config_end enc dec (seqZ 0 (Z.of_nat (length enc))) (seqZ 0 (Z.of_nat (length dec)))
         [inserter_start; inserter_start; inserter_start; inserter_start] sample_queues.
Proof.
  apply (threads_insert_all config_end 8 128 (json_tokener_parse (chars config_text)) 4
           [inserter_start; inserter_start; inserter_start; inserter_start] calm sample_queues (set_blocks 0 calm)).
  - apply config_end_rules.
  - reflexivity.
  - repeat constructor.
  - apply sample_inserted.
Defined.

Lemma insertion_defined_witness :
  let run := run_multithread_insertion config_end 8 128 4 [inserter_start; inserter_start; inserter_start; inserter_start] calm in
  (exists result queues' w', run = Ret (result, queues', w')) \/ (calls calm <> [] /\ run = Undef DanglingPointer).
Proof.
  apply (insertion_defined config_end 8 128 (json_tokener_parse (chars config_text)) 4
           [inserter_start; inserter_start; inserter_start; inserter_start] calm).
  - apply config_end_rules.
  - reflexivity.
  - repeat constructor.
  - cbn. lia.
Defined.

(** The launch of the second thread fails, the first still runs. *)
Definition failing_launch : world := World [] [] [] [DOCA_SUCCESS; DOCA_SUCCESS; DOCA_SUCCESS; DOCA_SUCCESS; DOCA_ERROR_DRIVER; DOCA_ERROR_AGAIN] [] None 0 0.

(** 4096 copies of the decryption rule. *)
Definition many_rules : ipsec_security_gw_config :=
  set_app_rules (GwRules (Live []) (Live (replicate 4096 decrypt_rule_zero)) 0 4096 4096) config_end.

Lemma failing_launch_dangles :
  run_multithread_insertion many_rules 8 128 4 [inserter_start; inserter_start; inserter_start; inserter_start] failing_launch
  = Undef DanglingPointer.
Proof. by vm_compute. Qed.

Lemma threads_share_rules_witness :
  exists ctxs, launch_threads many_rules 4 4 (float_div 0 4) (float_div 4096 4) 0 0 0 calm = Ret (DOCA_SUCCESS, ctxs, calm)
  /\ Z.of_nat (length ctxs) = 4
  /\ concat (map (fun x => seqZ (encrypt_rule_offset x) (ctx_nb_encrypted_rules x)) ctxs) = seqZ 0 0
  /\ concat (map (fun x => seqZ (decrypt_rule_offset x) (ctx_nb_decrypted_rules x)) ctxs) = seqZ 0 4096
  /\ Forall (fun x => 2 * Z.abs (4 * ctx_nb_encrypted_rules x - 0) <= 3 * 4 /\ 2 * Z.abs (4 * ctx_nb_decrypted_rules x - 4096) <= 3 * 4) ctxs.
Proof.
  eexists. split; [vm_compute; reflexivity|].
  apply (threads_share_rules many_rules 4 calm _ calm).
  - vm_compute. split; discriminate.
  - vm_compute. split; discriminate.
  - lia.
  - vm_compute. reflexivity.
Defined.
End samples.
