(* ===== verification/IpsecStart.v ===== *)
(** * IPsec gateway: devices, policy socket and the state before traffic
    (ipsec_ctx.c, ipsec_security_gw.c, samples/common.c)

    What happens between the configuration and the loop over the policies: the devices are
    opened and the ports told apart, the socket is created, and the arrays of rules get
    their software state.  The DOCA library is a parameter: the devices of the machine are a
    list, and [call] answers whether a call succeeds. *)
From S2P Require Import Prelude CString FlowTypes AntiReplay RteHash Inet6 Policy Esp CommChannel Json IpsecConfig IpsecRules.

(** ** Devices *)

(** What the library knows of a device. *)
Class Devices : Type := {
  devinfo : Type;
  devinfo_is_equal_pci_addr : devinfo -> list ascii -> bool;
  devinfo_iface_name : devinfo -> list ascii;
  port_as_dev : Z -> devinfo;              (** the device behind a port *)
  transfer_proxy : Z -> Z                  (** the port that controls the switch of a port *)
}.

Section devices.
Context `{RteHash} {D : Devices}.

(** The loop of [open_doca_device_with_pci] and [open_doca_device_with_iface_name] over the
    list of devices: the device that was opened. *)
Fixpoint open_first (matches : devinfo -> bool) (dev_list : list devinfo) : io (option devinfo) :=
  match dev_list with
  | [] => mret None
  | d :: dev_list =>
      res ← call;
      if is_ok res && matches d then
        res ← acquire;
        if is_ok res then mret (Some d) else open_first matches dev_list
      else open_first matches dev_list
  end.

Definition open_in_list (matches : devinfo -> bool) (dev_list : list devinfo) : io (res devinfo) :=
  result ← call;
  if negb (is_ok result) then mret (Err result)
  else
    d ← open_first matches dev_list;
    _ ← call;
    mret (match d with Some d => Ok d | None => Err DOCA_ERROR_NOT_FOUND end).

Definition open_doca_device_with_pci (pci_addr : list ascii) (dev_list : list devinfo) : io (res devinfo) :=
  open_in_list (fun d => devinfo_is_equal_pci_addr d pci_addr) dev_list.

(** [strncmp(buf, value, strlen(value)) == 0] *)
Definition starts_with (buf value : list ascii) : bool := bool_decide (take (length value) buf = value).

Definition open_doca_device_with_iface_name (value : list ascii) (dev_list : list devinfo) : io (res devinfo) :=
  if (DOCA_DEVINFO_IFACE_NAME_SIZE <? length value)%nat then mret (Err DOCA_ERROR_INVALID_VALUE)
  else open_in_list (fun d => starts_with (devinfo_iface_name d) value) dev_list.

Definition open_doca_device (info : dev_info) (dev_list : list devinfo) : io (res devinfo) :=
  if open_by_pci info then open_doca_device_with_pci (pci_addr info) dev_list
  else open_doca_device_with_iface_name (iface_name info) dev_list.

(** [doca_dev] of the secured and of the unsecured device, null when not opened. *)
Definition ipsec_security_gw_init_devices (c : ipsec_security_gw_config) (dev_list : list devinfo)
    : io (option devinfo * option devinfo * doca_error_t) :=
  r ← open_doca_device (secured_dev c) dev_list;
  match r with
  | Err result => mret (None, None, result)
  | Ok secured =>
      if bool_decide (flow_mode (options c) = IPSEC_SECURITY_GW_VNF) then
        r ← open_doca_device (unsecured_dev c) dev_list;
        match r with
        | Err result => mret (Some secured, None, result)
        | Ok unsecured =>
            result ← call;
            if negb (is_ok result) then mret (Some secured, Some unsecured, result)
            else result ← call; mret (Some secured, Some unsecured, result)
        end
      else
        result ← call;
        mret (Some secured, None, result)
  end.

(** [doca_dev_close]; the code of the first failure. *)
Definition ipsec_security_gw_close_devices (c : ipsec_security_gw_config) : io doca_error_t :=
  r1 ← release;
  if bool_decide (flow_mode (options c) = IPSEC_SECURITY_GW_VNF) then
    r2 ← release;
    mret (DOCA_ERROR_PROPAGATE r1 r2)
  else mret r1.

(** ** Which port is which *)

Definition find_port_action_type_switch (port_id : Z) : io (res gw_port) :=
  ret ← succeeds;
  mret (if negb ret then Err DOCA_ERROR_DRIVER
        else if transfer_proxy port_id =? port_id then Ok SECURED_IDX else Ok UNSECURED_IDX).

(** [memcmp] of two buffers filled up with zeros. *)
Definition compare_device_name (d : devinfo) (name : list ascii) : io doca_error_t :=
  if (DOCA_DEVINFO_IFACE_NAME_SIZE <=? length name)%nat then mret DOCA_ERROR_INVALID_VALUE
  else
    result ← call;
    mret (if negb (is_ok result) then result
          else if bool_decide (devinfo_iface_name d = name) then DOCA_SUCCESS else DOCA_ERROR_INVALID_VALUE).

Definition compare_device_pci_addr (d : devinfo) (addr : list ascii) : io doca_error_t :=
  result ← call;
  mret (if negb (is_ok result) then result
        else if devinfo_is_equal_pci_addr d addr then DOCA_SUCCESS else DOCA_ERROR_INVALID_VALUE).

(** The static variables [is_secured_set] and [is_unsecured_set]. *)
Record port_flags : Type := PortFlags { is_secured_set : bool; is_unsecured_set : bool }.

(** The comparison of one of the two branches: whether the device is the one of [info]. *)
Definition is_device (is_set : bool) (info : dev_info) (d : devinfo) : io bool :=
  if negb is_set && open_by_pci info then e ← compare_device_pci_addr d (pci_addr info); mret (is_ok e)
  else if negb is_set && open_by_name info then e ← compare_device_name d (iface_name info); mret (is_ok e)
  else mret false.

Definition find_port_action_type_vnf (c : ipsec_security_gw_config) (port_id : Z) (s : port_flags) : io (res gw_port * port_flags) :=
  result ← call;
  if negb (is_ok result) then mret (Err result, s)
  else
    dev_info ← succeeds;
    if negb dev_info then mret (Err DOCA_ERROR_INITIALIZATION, s)
    else
      secured ← is_device (is_secured_set s) (secured_dev c) (port_as_dev port_id);
      if (secured : bool) then mret (Ok SECURED_IDX, PortFlags true (is_unsecured_set s))
      else
        unsecured ← is_device (is_unsecured_set s) (unsecured_dev c) (port_as_dev port_id);
        if (unsecured : bool) then mret (Ok UNSECURED_IDX, PortFlags (is_secured_set s) true)
        else mret (Err DOCA_ERROR_INVALID_VALUE, s).

(** The ports one after the other, as [ipsec_security_gw_init_doca_flow] asks for them: what
    each of them is. *)
Fixpoint find_ports (c : ipsec_security_gw_config) (ports : list Z) (s : port_flags) : io (list (res gw_port)) :=
  match ports with
  | [] => mret []
  | p :: ports =>
      '(r, s) ← find_port_action_type_vnf c p s;
      rs ← find_ports c ports s;
      mret (r :: rs)
  end.

(** ** The policy socket *)

(** The answer of [accept] on a socket that does not block. *)
Inductive accept_answer : Type := Accepted | WouldBlock | AcceptFailed.

(** [while (!force_quit)]: the answers up to a signal; the loop ends with a connection, an
    error, or without having set [connfd]. *)
Fixpoint accept_loop (answers : list accept_answer) : io (option bool) :=
  match answers with
  | [] => mret None
  | WouldBlock :: answers => accept_loop answers
  | AcceptFailed :: _ => mret (Some false)
  | Accepted :: _ => opened;; mret (Some true)
  end.

(** [exit_failure]: close the socket, [unlink] the file. *)
Definition socket_failure : io doca_error_t :=
  close;;
  _ ← call;
  mret DOCA_ERROR_IO_FAILED.

(** After success the socket and the connection are open. *)
Definition create_policy_socket (answers : list accept_answer) : io doca_error_t :=
  fd ← succeeds;
  if negb fd then mret DOCA_ERROR_IO_FAILED
  else
    opened;;
    nonblocking ← succeeds;
    if negb nonblocking then close;; mret DOCA_ERROR_IO_FAILED
    else
      bound ← succeeds;
      if negb bound then socket_failure
      else
        listening ← succeeds;
        if negb listening then socket_failure
        else
          connected ← accept_loop answers;
          match connected with
          | None => undef Uninitialised
          | Some false => socket_failure
          | Some true =>
              nonblocking ← succeeds;
              if negb nonblocking then close;; socket_failure
              else mret DOCA_SUCCESS
          end.

(** The end of [ipsec_security_gw_wait_for_traffic]. *)
Definition close_policy_socket : io unit :=
  close;;
  close;;
  _ ← call;
  mret tt.
End devices.

(** ** The rules before traffic *)

#[export] Instance gw_fwd_syndrome_eq_dec : EqDecision gw_fwd_syndrome.
Proof. solve_decision. Defined.

Section traffic.
Context `{RteHash}.
Context (add_encrypt : encrypt_rule -> Z -> doca_error_t) (add_decrypt : decrypt_rule -> Z -> doca_error_t) (realloc_ok : Z -> bool)
  (enc_garbage : encrypt_rule) (dec_garbage : decrypt_rule).

Definition is_fwd_syndrome_rss (o : gw_options) : bool :=
  debug_mode o && bool_decide (syndrome_fwd o = IPSEC_SECURITY_GW_FWD_SYNDROME_RSS).

(** The configuration as the policy loop reads it. *)
Definition loop_config (c : ipsec_security_gw_config) : Policy.gw_config :=
  Policy.GwConfig (mode c) (sn_initial (options c)) (sw_sn_inc_enable (options c)) (sw_antireplay (options c))
    add_encrypt add_decrypt realloc_ok enc_garbage dec_garbage.

(** The state of the rules when the loop of [ipsec_security_gw_wait_for_traffic] starts. *)
Definition prepare_rules (c : ipsec_security_gw_config) (enc : list encrypt_rule) (dec : list decrypt_rule)
    : outcome (list encrypt_rule * list decrypt_rule) :=
  let o := options c in
  if negb (bool_decide (offload o = IPSEC_SECURITY_GW_ESP_OFFLOAD_BOTH)) || is_fwd_syndrome_rss o then
    let encrypt_array_size := if socket_conf c then DYN_RESERVED_RULES else nb_encrypted_rules (app_rules c) in
    let decrypt_array_size := if socket_conf c then DYN_RESERVED_RULES else nb_decrypted_rules (app_rules c) in
    let* enc := if sw_sn_inc_enable o then Policy.sw_handling_sn_inc (loop_config c) 0 encrypt_array_size enc else Ret enc in
    let* dec := if sw_antireplay o then Policy.sw_handling_antireplay (loop_config c) 0 decrypt_array_size dec else Ret dec in
    Ret (enc, dec)
  else Ret (enc, dec).

(** With a socket, [main] sets the numbers of rules to 0 before the loop. *)
Definition start_gateway (c : ipsec_security_gw_config) : outcome Policy.gateway :=
  match encrypt_rules (app_rules c), decrypt_rules (app_rules c), ip6_table c with
  | Live enc, Live dec, Some t =>
      let* (enc, dec) := prepare_rules c enc dec in
      Ret (Policy.Gateway (nb_rules (app_rules c)) 0 0 enc dec t [])
  | _, _, _ => Undef NullDeref
  end.
End traffic.

(** ** Resources *)

Section resources.
Context `{RteHash} {D : Devices}.

Definition handle (d : option devinfo) : Z := if d is Some _ then 1 else 0.

Lemma open_first_acct m l : acct (open_first m l) (fun d f b => f = handle d /\ b = 0).
Proof.
  induction l as [|d l IH]; cbn [open_first]; [by apply acct_ret|]. 
  repeat acct_step; try (eapply acct_mono; [exact IH|]; cbn beta; intros ? ? ? [-> ->]); cbn [handle] in *; acct_end.
Qed.

#[local] Hint Resolve open_first_acct : acct.

(** A device that is opened, or an error. *)
Definition opens (r : res devinfo) (f b : Z) : Prop :=
  b = 0 /\ match r with Ok _ => f = 1 | Err e => f = 0 /\ is_ok e = false end.

Lemma open_in_list_acct m l : acct (open_in_list m l) opens.
Proof.
  unfold open_in_list, opens. repeat acct_step; acct_end; destruct x0; cbn [handle] in *; acct_end.
Qed.

Lemma open_device_acct info l : acct (open_doca_device info l) opens.
Proof.
  unfold open_doca_device, open_doca_device_with_iface_name. destruct (open_by_pci info); [apply open_in_list_acct|].
  destruct (_ <? _)%nat; [by apply acct_ret|apply open_in_list_acct].
Qed.
#[local] Hint Resolve open_device_acct : acct.

Lemma init_devices_acct c l : acct (ipsec_security_gw_init_devices c l) (fun '(s, u, e) f b =>
  b = 0 /\ f = handle s + handle u
  /\ (is_ok e = true -> handle s = 1 /\ handle u = Z.b2z (bool_decide (flow_mode (options c) = IPSEC_SECURITY_GW_VNF)))).
Proof.
  unfold ipsec_security_gw_init_devices. unfold opens in *. acct_all; cbn [handle] in *; unfold opens in *; acct_end.
Qed.

Lemma close_devices_acct c : acct (ipsec_security_gw_close_devices c) (fun _ f b =>
  b = 0 /\ f = - 1 - Z.b2z (bool_decide (flow_mode (options c) = IPSEC_SECURITY_GW_VNF))).
Proof. unfold ipsec_security_gw_close_devices. repeat acct_step; acct_end. Qed.

(** Devices that were opened are closed again, in both modes. *)
Theorem gateway_devices_released c l w s u w1 r w2 :
  ipsec_security_gw_init_devices c l w = Ret (s, u, DOCA_SUCCESS, w1) -> ipsec_security_gw_close_devices c w1 = Ret (r, w2) ->
  fds w2 = fds w /\ blocks w2 = blocks w.
Proof.
  intros E1 E2. pose proof (init_devices_acct _ _ _ _ _ E1) as (Hb1 & Hf1 & Hok). pose proof (close_devices_acct _ _ _ _ E2) as [Hb2 Hf2].
  destruct (Hok eq_refl) as [Hs Hu]. lia.
Qed.

Lemma accept_loop_acct answers : acct (accept_loop answers) (fun o f b => b = 0 /\ f = if o is Some true then 1 else 0).
Proof.
  induction answers as [|[] answers IH]; cbn [accept_loop]; [by apply acct_ret| |exact IH|by apply acct_ret].
  apply (acct_bind _ _ (fun _ f b => f = 1 /\ b = 0)).
  - intros w a w' E. unfold opened in E. inv_ret. cbn. lia.
  - intros _ f b [-> ->]. by apply acct_ret.
Qed.

Lemma opened_acct : acct opened (fun _ f b => f = 1 /\ b = 0).
Proof. intros w a w' E. unfold opened in E. inv_ret. cbn. lia. Qed.

Lemma socket_failure_acct : acct socket_failure (fun e f b => f = -1 /\ b = 0 /\ e = DOCA_ERROR_IO_FAILED).
Proof. unfold socket_failure. repeat acct_step; acct_end. Qed.
#[local] Hint Resolve opened_acct accept_loop_acct : acct.

(** Whatever fails, [create_policy_socket] keeps no descriptor unless it succeeds; after
    success the socket and the connection are open, and the end of the gateway closes both. *)
Theorem policy_socket_released answers : acct (create_policy_socket answers) (fun e f b => b = 0 /\ f = if is_ok e then 2 else 0).
Proof.
  unfold create_policy_socket. repeat acct_step; try (eapply acct_mono; [apply socket_failure_acct|]; cbn beta; intros ? ? ? (? & ? & ->));
    subst; acct_end.
  all: change (is_ok DOCA_SUCCESS) with true in *; change (is_ok DOCA_ERROR_IO_FAILED) with false in *; cbn iota; lia.
Qed.

(** ** Ports *)

(** Two ports are never taken for the same side: of any sequence of ports at most one is the
    secured and at most one the unsecured one, whatever devices they belong to. *)
Theorem ports_told_apart c ports : forall s w rs w',
  find_ports c ports s w = Ret (rs, w') ->
  (length (filter (fun r => r = Ok SECURED_IDX) rs) <= if is_secured_set s then 0 else 1)%nat
  /\ (length (filter (fun r => r = Ok UNSECURED_IDX) rs) <= if is_unsecured_set s then 0 else 1)%nat.
Proof.
  induction ports as [|p ports IH]; intros s w rs w' E; cbn [find_ports] in E.
  { unfold mret, io_ret in E. inv_ret. cbn. repeat case_match; lia. }
  unfold mbind at 1, io_bind at 1 in E. obind E. destruct a as [[r s1] w1]. unfold mbind, io_bind in E. obind E. destruct a as [rs1 w2].
  unfold mret, io_ret in E. inv_ret. apply IH in E1 as [Hs Hu].
  assert (Hdev : forall b info d w1 w2, is_device b info d w1 = Ret (true, w2) -> b = false).
  { intros b info d w3 w4. unfold is_device. by destruct b. }
  assert (r = Ok SECURED_IDX /\ is_secured_set s = false /\ s1 = PortFlags true (is_unsecured_set s)
          \/ r = Ok UNSECURED_IDX /\ is_unsecured_set s = false /\ s1 = PortFlags (is_secured_set s) true
          \/ (exists e, r = Err e) /\ s1 = s) as Hr.
  { unfold find_port_action_type_vnf, mbind, io_bind in E0. obind E0. destruct a as [r1 w3].
    destruct (is_ok r1); cbn [negb] in E0; [|unfold mret, io_ret in E0; inv_ret; eauto].
    obind E0. destruct a as [[] w4]; cbn [negb] in E0; [|unfold mret, io_ret in E0; inv_ret; eauto].
    obind E0. destruct a as [[] w5]; [match goal with H : is_device _ _ _ _ = _ |- _ => apply Hdev in H end; unfold mret, io_ret in E0; inv_ret; auto|].
    obind E0. destruct a as [[] w6]; [match goal with H : is_device _ _ _ _ = Ret (true, _) |- _ => apply Hdev in H end|]; unfold mret, io_ret in E0; inv_ret; eauto 6. }
  destruct Hr as [(-> & Hf & ->)|[(-> & Hf & ->)|[[e ->] ->]]]; cbn [is_secured_set is_unsecured_set] in *;
    rewrite !filter_cons; repeat case_decide; cbn [length]; try done; rewrite ?Hf; try lia.
Qed.
End resources.

(** ** From the configuration to the policy loop *)

Section policies.
Context `{HL : RteHashLaws} {J : JsonC} (garbage : nat -> list Z).
Context (add_encrypt : encrypt_rule -> Z -> doca_error_t) (add_decrypt : decrypt_rule -> Z -> doca_error_t) (realloc_ok : Z -> bool)
  (enc_garbage : encrypt_rule) (dec_garbage : decrypt_rule).

Notation loop_config := (loop_config add_encrypt add_decrypt realloc_ok enc_garbage dec_garbage).
Notation start_gateway := (start_gateway add_encrypt add_decrypt realloc_ok enc_garbage dec_garbage).

(** With a socket the total number of rules is left as it is, and there is a table. *)
Lemma parse_socket_rules c w c' w' :
  socket_conf c = true -> ipsec_security_gw_parse_config garbage c w = Ret (c', DOCA_SUCCESS, w') ->
  nb_rules (app_rules c') = nb_rules (app_rules c) /\ exists t, ip6_table c' = Some t.
Proof using Type.
  intros Hs E. unfold ipsec_security_gw_parse_config, mbind, io_bind in E. obind E. destruct a as [[t|e] w1]; [|].
  2: { unfold create_ip6_table, mbind, io_bind in E0. obind E0. destruct a as [[] w2]; [obind E0; destruct a|];
       unfold mret, io_ret in *; inv_ret; done. }
  obind E. destruct a as [[j|e] w2]; [|unfold mret, io_ret in E; inv_ret; by destruct (read_document_acct _ _ _ _ E1) as (_ & _ & [])].
  obind E. destruct a as [[c1 r1] w3]. obind E. destruct a. unfold mret, io_ret in E. inv_ret.
  unfold configure in E2. destruct (match json_object_object_get_ex j (lit "config") with Some _ => _ | None => _ end) as [o r].
  destruct (is_ok r) eqn:Er; cbn [negb] in E2; [|unfold mret, io_ret in E2; inv_ret; by cbn in Er].
  destruct (is_ok (validate_config _)) eqn:Ev; cbn [negb] in E2;
    [|unfold mret, io_ret in E2; injection E2 as _ Hv _; by rewrite Hv in Ev].
  cbn [socket_conf set_options set_ip6_table] in E2. rewrite Hs in E2.
  apply allocate_rules_run in E2 as (_ & _ & w4 & w5 & Efill). unfold fill_rules, mret, io_ret in Efill. inv_ret. cbn. by split; [|exists t].
Qed.

(** A whole array gets its software state. *)
Lemma update_all {A} (f : A -> A) n x : 0 <= n -> update_range f 0 n (replicate (Z.to_nat n) x) = Ret (replicate (Z.to_nat n) (f x)).
Proof using Type.
  intros Hn. unfold update_range. rewrite length_replicate, Z.add_0_l, (proj2 (Z.leb_le _ _)) by lia. cbn. change (Z.to_nat 0) with 0%nat.
  rewrite Nat.sub_0_r, drop_0, take_0, (take_ge _ (Z.to_nat n)), drop_ge by (rewrite length_replicate; lia). rewrite app_nil_r. cbn [app]. f_equal. apply (fmap_replicate f).
Qed.

Lemma prepare_ok c :
  config_valid c -> socket_conf c = true -> exists e d,
    prepare_rules add_encrypt add_decrypt realloc_ok enc_garbage dec_garbage c
      (replicate (Z.to_nat DYN_RESERVED_RULES) encrypt_rule_zero) (replicate (Z.to_nat DYN_RESERVED_RULES) decrypt_rule_zero)
    = Ret (replicate (Z.to_nat DYN_RESERVED_RULES) e, replicate (Z.to_nat DYN_RESERVED_RULES) d)
    /\ (sw_sn_inc_enable (options c) = true -> current_sn e = u32 (sn_initial (options c)))
    /\ (sw_antireplay (options c) = true -> antireplay d = AntiReplay.sw_handling_antireplay (sn_initial (options c))).
Proof using Type.
  intros Hv Hs. unfold prepare_rules. rewrite Hs. destruct (negb _ || _) eqn:E.
  - unfold Policy.sw_handling_sn_inc, Policy.sw_handling_antireplay. cbn [Policy.sn_initial IpsecStart.loop_config]. rewrite !update_all by done.
    destruct (sw_sn_inc_enable (options c)), (sw_antireplay (options c)); eexists _, _; (split; [reflexivity|]); by split.
  - apply orb_false_iff in E as [E _]. apply negb_false_iff, bool_decide_eq_true in E. eexists _, _. split; [reflexivity|].
    split; [intros H1; destruct (cv_sn_inc _ Hv H1); congruence|intros H1; destruct (cv_antireplay _ Hv H1); congruence].
Qed.

End policies.

(** ** Samples *)

Section samples.
#[local] Instance start_hash : RteHash := Slots.slots_hash 8.
#[local] Instance start_json : JsonC := json_tree (fun _ => TObject [(lit "config", TObject [(lit "sw-antireplay-enable", TBool true);
  (lit "sn-initial", TInt 5); (lit "esp-header-offload", TString (lit "none"))])]).

Definition socket_start : ipsec_security_gw_config :=
  Config (options config_start) IPSEC_SECURITY_GW_TUNNEL (lit "config.json") None (GwRules Null Null 0 0 0)
    (secured_dev config_start) (unsecured_dev config_start) (lit "/tmp/gw.sock") true 2.

Definition socket_end : ipsec_security_gw_config :=
  match ipsec_security_gw_parse_config zeros socket_start config_world with Ret (c, _, _) => c | _ => socket_start end.

Lemma socket_accepted :
  ipsec_security_gw_parse_config zeros socket_start config_world = Ret (socket_end, DOCA_SUCCESS, set_blocks 4 config_world).
Proof. by vm_compute. Qed.

Definition socket_run (s : list arrival) : outcome (list (bool * Z * Z) * doca_error_t) :=
  let cfg := loop_config (fun _ _ => DOCA_SUCCESS) (fun _ _ => DOCA_SUCCESS) (fun _ => true) encrypt_rule_zero decrypt_rule_zero socket_end in
  let* g := start_gateway (fun _ _ => DOCA_SUCCESS) (fun _ _ => DOCA_SUCCESS) (fun _ => true) encrypt_rule_zero decrypt_rule_zero socket_end in
  let* (_, g, r) := policy_loop cfg 2 s g in
  Ret (Policy.installed g, r).


(** A machine with two devices, known by their names. *)
#[local] Instance two_devices : Devices := {|
  devinfo := list ascii; devinfo_is_equal_pci_addr := fun d a => bool_decide (d = a); devinfo_iface_name := fun d => d;
  port_as_dev := fun p => if p =? 0 then lit "eth10" else lit "eth1"; transfer_proxy := fun _ => 0 |}.

(** The name of a device is taken for a prefix when it is opened, but compared as a whole
    when the ports are told apart: the device that was opened is not the one of the port. *)
Example name_prefix_opens_other :
  let info := DevInfo [] (lit "eth1") false true true in
  open_doca_device info [lit "eth10"; lit "eth1"] calm = Ret (Ok (lit "eth10"), set_fds 1 calm)
  /\ (is_device false info (lit "eth10") calm = Ret (false, calm) /\ is_device false info (lit "eth1") calm = Ret (true, calm)).
Proof. split_and!; by vm_compute. Qed.

(** When the probe of a port fails, both devices stay open. *)
Example failed_probe_leaks :
  ipsec_security_gw_init_devices (set_unsecured_dev (DevInfo (lit "b") [] true false true) (set_secured_dev (DevInfo (lit "a") [] true false true) config_start))
    [lit "a"; lit "b"] (World [] [] [] (replicate 9 DOCA_SUCCESS ++ [DOCA_ERROR_DRIVER]) [] None 0 0)
  = Ret (Some (lit "a"), Some (lit "b"), DOCA_ERROR_DRIVER, World [] [] [] [] [] None 2 0).
Proof. by vm_compute. Qed.

(** A signal that comes before the first connection. *)
Example signal_before_connection : create_policy_socket [WouldBlock; WouldBlock] calm = Undef Uninitialised.
Proof. by vm_compute. Qed.
End samples.
