(* ===== verification/IpsecWorker.v ===== *)
(** * IPsec gateway: the packet threads (ipsec_security_gw.c)

    The loop of a thread that encrypts and decrypts packets in software: a burst is received
    from a port, every packet goes through the code of [Esp], the packets that were
    processed are sent to the other port and the others are freed.  How many packets the
    driver takes at a time is answered by the environment.  The theorems follow every packet
    of a session: it is sent, freed or lost, and when it is lost. *)
From S2P Require Import Prelude CString FlowTypes AntiReplay RteHash Policy Esp CommChannel Json IpsecConfig IpsecRules IpsecStart.

Definition PACKET_BURST : nat := 32.
Definition NB_TX_BURST_TRIES : Z := 5.

(** A buffer with its number and the metadata the hardware attached. *)
Record pkt : Type := Pkt { p_id : nat; p_meta : Z; p_buf : mbuf }.

Definition set_buf (m : mbuf) (p : pkt) : pkt := Pkt (p_id p) (p_meta p) m.

(** What a thread works on: the arrays of rules, the identification of the next outer
    header and [num_of_tries]. *)
Record core_state : Type := Core {
  core_encrypt : list encrypt_rule; core_decrypt : list decrypt_rule; core_ip_id : Z; num_of_tries : Z
}.

Section worker.
Context `{RteHash} (ipv4_cksum : list Z -> Z) (c : ipsec_security_gw_config).
Context (secured_id unsecured_id : Z).      (** [port_id] of the two ports *)

Definition meta_encrypt (pkt_meta : Z) : bool := Z.testbit pkt_meta 0.

(** The port a packet is taken to come from: in switch mode the metadata decide. *)
Definition packet_port (port_id : Z) (p : pkt) : Z :=
  if bool_decide (flow_mode (options c) = IPSEC_SECURITY_GW_SWITCH)
  then if meta_encrypt (p_meta p) then unsecured_id else secured_id
  else port_id.

Definition handle_packet (port_id : Z) (p : pkt) (s : core_state) : outcome (pkt * core_state * doca_error_t) :=
  if port_id =? unsecured_id then
    let* (m, rules, ip_id, result) :=
      handle_unsecured_packets_received ipv4_cksum (mode c) (sw_sn_inc_enable (options c)) (p_meta p) (core_encrypt s) (p_buf p) (core_ip_id s) in
    Ret (set_buf m p, Core rules (core_decrypt s) ip_id (num_of_tries s), result)
  else
    let* (m, rules, result) :=
      handle_secured_packets_received ipv4_cksum (mode c) (sw_antireplay (options c)) (is_fwd_syndrome_rss (options c)) (p_meta p)
        (core_decrypt s) (p_buf p) in
    Ret (set_buf m p, Core (core_encrypt s) rules (core_ip_id s) (num_of_tries s), result).

(** The processed and the unprocessed packets, in order.  [port_id] is a variable of the
    function: in switch mode a packet leaves its port to the next one, which sets it again. *)
Fixpoint handle_packets_received (port_id : Z) (packets : list pkt) (s : core_state) : outcome (list pkt * list pkt * core_state) :=
  match packets with
  | [] => Ret ([], [], s)
  | p :: packets =>
      let port_id := packet_port port_id p in
      let* (p, s, result) := handle_packet port_id p s in
      let* (processed, unprocessed, s) := handle_packets_received port_id packets s in
      if is_ok result then Ret (p :: processed, unprocessed, s) else Ret (processed, p :: unprocessed, s)
  end.

(** [rte_eth_tx_burst]: the number of packets taken. *)
Definition tx_burst (answers : list nat) (n : nat) : nat * list nat :=
  match answers with [] => (n, []) | k :: answers => (Nat.min k n, answers) end.

(** [do { nb_pkts += tx_burst; num_of_tries-- } while (left && num_of_tries > 0)]: the
    packets that are left. *)
Fixpoint tx_loop (fuel : nat) (answers : list nat) (left : list pkt) (tries : Z) : outcome (list pkt * list pkt * Z * list nat) :=
  match fuel with
  | O => Undef OutOfFuel
  | S fuel =>
      let (n, answers) := tx_burst answers (length left) in
      let* _ := require (- 2 ^ 31 <? tries) SignedOverflow in
      let tries := tries - 1 in
      let rest := drop n left in
      if (0 <? length rest)%nat && (0 <? tries) then
        let* (sent, lost, tries, answers) := tx_loop fuel answers rest tries in
        Ret (take n left ++ sent, lost, tries, answers)
      else Ret (take n left, rest, tries, answers)
  end.

(** What became of the packets of a burst. *)
Record fate : Type := Fate { f_port : Z; f_sent : list pkt; f_lost : list pkt; f_freed : list pkt }.

(** The body of the loop over the ports, for a burst that is not empty. *)
Definition process_burst (port_id : Z) (packets : list pkt) (answers : list nat) (s : core_state)
    : outcome (fate * list nat * core_state) :=
  let* (processed, unprocessed, s) := handle_packets_received port_id packets s in
  let tx_port := if bool_decide (flow_mode (options c) = IPSEC_SECURITY_GW_VNF) then Z.lxor port_id 1 else port_id in
  let* (sent, lost, tries, answers) := tx_loop (S (Z.to_nat (num_of_tries s))) answers processed (num_of_tries s) in
  Ret (Fate tx_port sent lost unprocessed, answers, Core (core_encrypt s) (core_decrypt s) (core_ip_id s) tries).

(** The bursts of a session, as they come: [rte_eth_rx_burst] may give nothing. *)
Fixpoint process_queue_packets (bursts : list (Z * list pkt)) (answers : list nat) (s : core_state) : outcome (list fate * core_state) :=
  match bursts with
  | [] => Ret ([], s)
  | (port_id, packets) :: bursts =>
      if (length packets =? 0)%nat then process_queue_packets bursts answers s
      else
        let* (f, answers, s) := process_burst port_id packets answers s in
        let* (fs, s) := process_queue_packets bursts answers s in
        Ret (f :: fs, s)
  end.

(** ** The packets of a burst *)

Lemma handled_split : forall packets port_id s processed unprocessed s',
  handle_packets_received port_id packets s = Ret (processed, unprocessed, s') ->
  map p_id packets ≡ₚ map p_id processed ++ map p_id unprocessed
  /\ sublist (map p_id processed) (map p_id packets) /\ sublist (map p_id unprocessed) (map p_id packets)
  /\ num_of_tries s' = num_of_tries s.
Proof using Type.
  induction packets as [|p packets IH]; intros port_id s processed unprocessed s' E; cbn [handle_packets_received] in E.
  { inv_ret. split_and!; [done|done|done|done]. }
  obind E. destruct a as [[p1 s1] r]. obind E. destruct a as [[pr un] s2].
  apply IH in E1 as (Hp & Hs & Hu & Ht).
  assert (p_id p1 = p_id p /\ num_of_tries s1 = num_of_tries s) as [Hid Ht1].
  { unfold handle_packet in E0. destruct (_ =? _).
    - obind E0. destruct a as [[[m rules] id] e]. by inv_ret.
    - obind E0. destruct a as [[m rules] e]. by inv_ret. }
  destruct (is_ok r); inv_ret; cbn [map]; rewrite Hid, <-?Ht1; split_and!; try done.
  - by rewrite Hp.
  - by constructor.
  - by constructor.
  - by rewrite Hp, Permutation_middle.
  - by constructor.
  - by constructor.
Qed.

Lemma tx_loop_spec fuel : forall answers left tries sent lost tries' answers',
  tx_loop fuel answers left tries = Ret (sent, lost, tries', answers') ->
  left = sent ++ lost /\ (lost <> [] -> tries' <= 0) /\ (answers = [] -> lost = []) /\ tries' < tries.
Proof using Type.
  induction fuel as [|fuel IH]; intros answers left tries sent lost tries' answers' E; cbn [tx_loop] in E; [done|].
  destruct (tx_burst answers (length left)) as [n answers1] eqn:Et. obind E.
  assert (answers = [] -> n = length left /\ answers1 = []) as Hn by (intros ->; cbn in Et; by injection Et as <- <-).
  destruct (_ && _) eqn:El.
  - obind E. destruct a0 as [[[sent1 lost1] tries1] answers2]. inv_ret. apply IH in E1 as (Hs & Hl & Ha & Ht).
    split_and!; [|done| |lia].
    + by rewrite <-app_assoc, <-Hs, take_drop.
    + intros Ha'. destruct (Hn Ha') as [-> ->]. by apply Ha.
  - inv_ret. split_and!; [by rewrite take_drop| | |lia].
    + intros Hl. apply andb_false_iff in El as [El|El]; [|lia]. destruct (drop n left); [done|]. cbn in El. lia.
    + intros Ha'. destruct (Hn Ha') as [-> _]. apply drop_ge. lia.
Qed.

Lemma tx_loop_total fuel : forall answers left tries,
  (Z.to_nat tries < fuel)%nat -> - 2 ^ 31 + Z.of_nat fuel < tries -> exists r, tx_loop fuel answers left tries = Ret r.
Proof using Type.
  induction fuel as [|fuel IH]; intros answers left tries Hf Ht; [lia|]. cbn [tx_loop].
  destruct (tx_burst answers (length left)) as [n answers1]. rewrite (proj2 (Z.ltb_lt _ _)) by lia. cbn [require]. cbn.
  destruct (_ && _) eqn:El; [|by eexists]. apply andb_true_iff in El as [_ El]. apply Z.ltb_lt in El.
  destruct (IH answers1 (drop n left) (tries - 1)) as [[[[s l] t] a] ->]; [lia|lia|]. by eexists.
Qed.

Lemma tx_loop_obliging fuel left tries sent lost tries' answers' :
  tx_loop fuel [] left tries = Ret (sent, lost, tries', answers') -> answers' = [].
Proof using Type.
  destruct fuel as [|fuel]; cbn [tx_loop tx_burst]; [done|]. intros E. obind E. rewrite drop_ge in E by lia. cbn in E. by inv_ret.
Qed.

(** The fate of a burst: every packet once, sent packets in the order they came and before
    those that are lost. *)
Record burst_fate (port_id : Z) (packets : list pkt) (f : fate) : Prop := {
  bf_all : map p_id packets ≡ₚ map p_id (f_sent f) ++ map p_id (f_lost f) ++ map p_id (f_freed f);
  bf_sent : sublist (map p_id (f_sent f ++ f_lost f)) (map p_id packets);
  bf_freed : sublist (map p_id (f_freed f)) (map p_id packets);
  bf_port : f_port f = if bool_decide (flow_mode (options c) = IPSEC_SECURITY_GW_VNF) then Z.lxor port_id 1 else port_id
}.

Lemma burst_spec port_id packets answers s f answers' s' :
  process_burst port_id packets answers s = Ret (f, answers', s') ->
  burst_fate port_id packets f /\ (answers = [] -> f_lost f = [] /\ answers' = []) /\ (f_lost f <> [] -> num_of_tries s' <= 0)
  /\ num_of_tries s' < num_of_tries s.
Proof using Type.
  intros E. unfold process_burst in E. obind E. destruct a as [[pr un] s1]. obind E. destruct a as [[[sent lost] tries] ans].
  inv_ret. apply handled_split in E0 as (Hp & Hs & Hu & Ht). pose proof E1 as E2. apply tx_loop_spec in E1 as (-> & Hl & Ha & Ht').
  split_and!; [|intros ->; split; [by apply Ha|]|done|cbn; lia].
  - split; cbn; [by rewrite Hp, map_app, <-app_assoc|done|done|done].
  - by eapply tx_loop_obliging.
Qed.

(** C32: Every packet that a thread receives has one fate.  Over a whole session of bursts from
    both ports, the packets of a burst are sent to the port opposite (in switch mode: the
    same), freed, or lost; sent packets keep their order, and a packet is lost (neither sent
    nor freed) only when the driver did not take it and the tries, which are counted over
    the whole session and not for each burst, have run out: with tries left, or a driver that
    takes what it is given, nothing is lost. *)
Theorem session_packets bursts : forall answers s fs s',
  process_queue_packets bursts answers s = Ret (fs, s') ->
  Forall2 (fun '(port_id, packets) f => burst_fate port_id packets f) (filter (fun b => b.2 <> []) bursts) fs
  /\ (answers = [] \/ 0 < num_of_tries s' -> Forall (fun f => f_lost f = []) fs)
  /\ num_of_tries s' <= num_of_tries s - Z.of_nat (length fs).
Proof using Type.
  induction bursts as [|[port packets] bursts IH]; intros answers s fs s' E; cbn [process_queue_packets] in E.
  { inv_ret. split_and!; [done|done|cbn; lia]. }
  rewrite filter_cons. destruct packets as [|p packets].
  { cbn in E. case_decide; [done|]. by apply IH in E. }
  cbn [length Nat.eqb] in E. obind E. destruct a as [[f ans] s1]. obind E. destruct a as [fs1 s2]. inv_ret.
  apply burst_spec in E0 as (Hb & Ha & Hl & Ht). apply IH in E1 as (Hf & Hfa & Hft). case_decide; [|done].
  split_and!; [by constructor| |cbn [length]; lia]. intros Hn. constructor.
  - destruct Hn as [Hn|Hn]; [by apply Ha|]. destruct (decide (f_lost f = [])) as [|Hne]; [done|]. specialize (Hl Hne). lia.
  - apply Hfa. destruct Hn as [Hn|Hn]; [left; by apply Ha|by right].
Qed.

(** Once the tries are used up, the driver is asked once for each burst, and what it does
    not take is lost. *)
Theorem late_burst_tried_once port_id packets n answers s f answers' s' processed unprocessed s1 :
  num_of_tries s <= 1 -> handle_packets_received port_id packets s = Ret (processed, unprocessed, s1) ->
  process_burst port_id packets (n :: answers) s = Ret (f, answers', s') ->
  answers' = answers /\ f_sent f = take n processed /\ f_lost f = drop n processed.
Proof using Type.
  intros Ht Eh E. unfold process_burst in E. rewrite Eh in E. cbn in E. apply handled_split in Eh as (_ & _ & _ & Hs1).
  rewrite Hs1 in E. obind E. destruct a as [[[sent lost] tries] ans]. inv_ret. cbn. cbn [tx_loop tx_burst] in E0. obind E0.
  rewrite (proj2 (Z.ltb_ge 0 (num_of_tries s - 1))), andb_false_r in E0 by lia. inv_ret.
  destruct (Nat.min_spec n (length processed)) as [[? ->]|[? ->]]; [done|]. by rewrite !take_ge, !drop_ge by lia.
Qed.
End worker.

(** ** A session *)

Section samples.
#[local] Instance worker_hash : RteHash := Slots.slots_hash 8.

Definition tunnel_packet (id : nat) : pkt :=
  Pkt id 1 (flat sample_headroom ((sample_header ++ sample_payload) ++ sample_room) 70 70 true).

Definition core_start : core_state := Core [sample_rule] [sample_drule] 5 NB_TX_BURST_TRIES.

(** Five bursts of one packet, then one of two packets of which the driver takes one. *)
Definition session : list (Z * list pkt) :=
  map (fun k => (1, [tunnel_packet k])) (seq 0 5) ++ [(0, []); (1, [tunnel_packet 5; tunnel_packet 6])].

Definition session_answers : list nat := [1; 1; 1; 1; 1; 1; 1]%nat.

Definition session_run : outcome (list fate * core_state) :=
  process_queue_packets inet_cksum config_end 0 1 session session_answers core_start.

Definition session_fates : list fate := match session_run with Ret (fs, _) => fs | _ => [] end.
Definition session_core : core_state := match session_run with Ret (_, s) => s | _ => core_start end.

Lemma session_runs : process_queue_packets inet_cksum config_end 0 1 session session_answers core_start = Ret (session_fates, session_core).
Proof. by vm_compute. Qed.

Lemma session_packets_witness :
  Forall2 (fun '(port_id, packets) f => burst_fate config_end port_id packets f) (filter (fun b => b.2 <> []) session) session_fates
  /\ (session_answers = [] \/ 0 < num_of_tries session_core -> Forall (fun f => f_lost f = []) session_fates)
  /\ num_of_tries session_core <= num_of_tries core_start - Z.of_nat (length session_fates).
Proof.
  apply (session_packets inet_cksum config_end 0 1 session session_answers core_start session_fates session_core). apply session_runs.
Defined.

(** The second packet of the last burst is lost, although the driver would take it. *)
Example last_packet_lost :
  map (fun f => (map p_id (f_sent f), map p_id (f_lost f))) session_fates
  = [([0], []); ([1], []); ([2], []); ([3], []); ([4], []); ([5], [6])]%nat.
Proof. by vm_compute. Qed.
End samples.
