(* ===== verification/NatRules.v ===== *)
(** * NAT application: options and rules (applications/nat/nat_core.c)

    The callbacks of the command line and the way from the JSON file of rules to the array
    of [struct nat_rule_match].  Documents are those of [Json], memory and the calls that fail
    those of [CommChannel]. *)
From S2P Require Import Prelude CString Policy FlowValues CommChannel Json.

(** ** Configuration *)

Inductive nat_mode : Type := STATIC | DYNAMIC | PAT | NAT_INVALID_MODE.

#[export] Instance nat_mode_eq_dec : EqDecision nat_mode.
Proof. solve_decision. Defined.

Definition MAX_FILE_NAME : nat := 255.
Definition MAX_INTF_NAME : nat := 5.

Record nat_cfg : Type := NatCfg {
  mode : nat_mode; lan_intf_id : Z; wan_intf_id : Z; json_path : list ascii; has_json : bool
}.

(** [struct nat_cfg app_cfg = {0}] *)
Definition nat_cfg_zero : nat_cfg := NatCfg STATIC 0 0 (replicate MAX_FILE_NAME NUL) false.

Definition set_mode (v : nat_mode) (c : nat_cfg) : nat_cfg :=
  NatCfg v (lan_intf_id c) (wan_intf_id c) (json_path c) (has_json c).

Definition nat_mode_callback (param : list ascii) (c : nat_cfg) : nat_cfg * doca_error_t :=
  if streq param (lit "static") then (set_mode STATIC c, DOCA_SUCCESS)
  else if streq param (lit "pat") then (set_mode PAT c, DOCA_SUCCESS)
  else (set_mode NAT_INVALID_MODE c, DOCA_ERROR_INVALID_VALUE).

(** [strnlen(param, size)] of a C string. *)
Definition c_strnlen (param : list ascii) (size : nat) : nat := Nat.min (length param) size.

(** [sfN]: the number of the sub-function. *)
Definition intf_id (param : list ascii) : res Z :=
  if (c_strnlen param (MAX_INTF_NAME + 1) =? MAX_INTF_NAME + 1)%nat then Err DOCA_ERROR_INVALID_VALUE
  else if strneq 2 param (lit "sf") then Ok (atoi (drop 2 param))
  else Err DOCA_ERROR_INVALID_VALUE.

Definition lan_intf_callback (param : list ascii) (c : nat_cfg) : nat_cfg * doca_error_t :=
  match intf_id param with
  | Ok v => (NatCfg (mode c) v (wan_intf_id c) (json_path c) (has_json c), DOCA_SUCCESS)
  | Err e => (c, e)
  end.

Definition wan_intf_callback (param : list ascii) (c : nat_cfg) : nat_cfg * doca_error_t :=
  match intf_id param with
  | Ok v => (NatCfg (mode c) (lan_intf_id c) v (json_path c) (has_json c), DOCA_SUCCESS)
  | Err e => (c, e)
  end.

(** [exists_file]: the answer of [access(json_path, F_OK)]. *)
Definition nat_rules_callback (exists_file : bool) (param : list ascii) (c : nat_cfg)
    : outcome (nat_cfg * doca_error_t) :=
  if (c_strnlen param MAX_FILE_NAME =? MAX_FILE_NAME)%nat then Ret (c, DOCA_ERROR_INVALID_VALUE)
  else if negb exists_file then Ret (c, DOCA_ERROR_NOT_FOUND)
  else
    let* (path, _) := strlcpy (json_path c) param MAX_FILE_NAME in
    Ret (NatCfg (mode c) (lan_intf_id c) (wan_intf_id c) path true, DOCA_SUCCESS).

Definition nat_args_validation_callback (c : nat_cfg) : doca_error_t :=
  if wan_intf_id c =? lan_intf_id c then DOCA_ERROR_INVALID_VALUE else DOCA_SUCCESS.

(** ** Rules *)

(** [struct nat_rule_match]; the addresses are big-endian, the ports are [int]. *)
Record nat_rule_match : Type := Rule { local_ip : Z; local_port : Z; global_ip : Z; global_port : Z }.

Definition rule_zero : nat_rule_match := Rule 0 0 0 0.

Section rules.
Context {J : JsonC}.

Definition create_local_ip (cur_rule : json) (r : nat_rule_match) : res nat_rule_match :=
  match ip_member cur_rule (lit "local ip") with
  | Ok v => Ok (Rule v (local_port r) (global_ip r) (global_port r))
  | Err e => Err e
  end.

Definition create_global_ip (cur_rule : json) (r : nat_rule_match) : res nat_rule_match :=
  match ip_member cur_rule (lit "global ip") with
  | Ok v => Ok (Rule (local_ip r) (local_port r) v (global_port r))
  | Err e => Err e
  end.

Definition create_local_port (cur_rule : json) (r : nat_rule_match) : res nat_rule_match :=
  match int_member cur_rule (lit "local port") with
  | Ok v => Ok (Rule (local_ip r) v (global_ip r) (global_port r))
  | Err e => Err e
  end.

Definition create_global_port (cur_rule : json) (r : nat_rule_match) : res nat_rule_match :=
  match int_member cur_rule (lit "global port") with
  | Ok v => Ok (Rule (local_ip r) (local_port r) (global_ip r) v)
  | Err e => Err e
  end.

(** The bodies of the two loops over the rules. *)
Definition static_rule (cur_rule : json) : res nat_rule_match :=
  match create_local_ip cur_rule rule_zero with
  | Ok r => create_global_ip cur_rule r
  | Err e => Err e
  end.

Definition pat_rule (parsed_global_ip : Z) (cur_rule : json) : res nat_rule_match :=
  match create_local_ip cur_rule rule_zero with
  | Err e => Err e
  | Ok r =>
      match create_local_port cur_rule r with
      | Err e => Err e
      | Ok r =>
          match create_global_port cur_rule r with
          | Err e => Err e
          | Ok r => Ok (Rule (local_ip r) (local_port r) parsed_global_ip (global_port r))
          end
      end
  end.

(** From ["rules"] to the end of both functions: the array has to be one, as
    [json_object_array_length] demands; the block of the result belongs to the caller. *)
Definition rules_array (read : json -> res nat_rule_match) (parsed_json : json)
    : io (res (list nat_rule_match)) :=
  match json_object_object_get_ex parsed_json (lit "rules") with
  | None => mret (Err DOCA_ERROR_INVALID_VALUE)
  | Some rules =>
      check (is_type json_type_array rules) LibraryMisuse;;
      let nat_num_rules := i32 (json_object_array_length rules) in
      p ← calloc;
      if (p : bool) then
        match rules_loop read rules 0 (Z.to_nat nat_num_rules) with
        | Ok rules_arr => mret (Ok rules_arr)
        | Err result => free true;; mret (Err result)
        end
      else mret (Err DOCA_ERROR_NO_MEMORY)
  end.

Definition create_static_mode_rules (parsed_json : json) : io (res (list nat_rule_match)) :=
  rules_array static_rule parsed_json.

Definition create_pat_mode_rules (parsed_json : json) : io (res (list nat_rule_match)) :=
  match ip_member parsed_json (lit "global ip") with
  | Err result => mret (Err result)
  | Ok parsed_global_ip => rules_array (pat_rule parsed_global_ip) parsed_json
  end.

(** ** The file of rules *)

Context (garbage : nat -> list Z).

Definition allocate_json_buffer_dynamic (data : list Z) : io (res (nat * option (list Z))) :=
  allocate_json_buffer garbage data.

(** The text is freed once it is parsed, the document never. *)
Definition parsing_nat_rules (m : nat_mode) : io (res (list nat_rule_match)) :=
  document ← read_document garbage;
  match document with
  | Err result => mret (Err result)
  | Ok parsed_json =>
      free true;;
      match m with
      | STATIC => create_static_mode_rules parsed_json
      | PAT => create_pat_mode_rules parsed_json
      | _ => mret (Err DOCA_ERROR_INVALID_VALUE)
      end
  end.

(** ** What the readers accept *)

(** The rule an object stands for: both addresses, or an address and two ports. *)
Definition static_rule_of (o : json) (r : nat_rule_match) : Prop :=
  ip_member o (lit "local ip") = Ok (local_ip r) /\ ip_member o (lit "global ip") = Ok (global_ip r)
  /\ local_port r = 0 /\ global_port r = 0.

Definition pat_rule_of (ip : Z) (o : json) (r : nat_rule_match) : Prop :=
  ip_member o (lit "local ip") = Ok (local_ip r) /\ int_member o (lit "local port") = Ok (local_port r)
  /\ int_member o (lit "global port") = Ok (global_port r) /\ global_ip r = ip.

(** Decide the members one by one, then compare the rules. *)
Ltac rule_cases :=
  repeat match goal with
         | |- context [ip_member ?o ?n] => destruct (ip_member o n)
         | |- context [int_member ?o ?n] => destruct (int_member o n)
         end; cbn;
  (split; [let K := fresh in intros K; inversion K; subst; auto|]);
  let K := fresh in intros K; repeat match type of K with _ /\ _ => destruct K as [? K] end; congruence.

Lemma static_rule_ok o r : static_rule o = Ok r <-> static_rule_of o r.
Proof.
  unfold static_rule, static_rule_of, create_local_ip, create_global_ip. destruct r. rule_cases.
Qed.

Lemma pat_rule_ok ip o r : pat_rule ip o = Ok r <-> pat_rule_of ip o r.
Proof.
  unfold pat_rule, pat_rule_of, create_local_ip, create_local_port, create_global_port. destruct r.
  rule_cases.
Qed.

(** The array of rules [rs] of a document, read by [rd]. *)
Definition holds_rules (rd : json -> nat_rule_match -> Prop) (j : json) (rs : list nat_rule_match) : Prop :=
  exists arr, json_object_object_get_ex j (lit "rules") = Some arr /\ is_type json_type_array arr = true
    /\ length rs = Z.to_nat (i32 (json_object_array_length arr))
    /\ forall k r, rs !! k = Some r -> rd (json_object_array_get_idx arr (Z.of_nat k)) r.

Lemma rules_array_ok (rd : json -> nat_rule_match -> Prop) read j rs w :
  (forall o r, read o = Ok r <-> rd o r) -> calls w = [] ->
  rules_array read j w = Ret (Ok rs, set_blocks (blocks w + 1) w) <-> holds_rules rd j rs.
Proof.
  intros Hrd Hc. unfold rules_array, holds_rules. destruct (json_object_object_get_ex j (lit "rules")) as [arr|].
  2:{ split; [|by intros (? & ? & _)]. intros [= ?]. }
  destruct (is_type json_type_array arr) eqn:Et.
  2:{ split; [done|]. intros (? & [= <-] & ? & _). congruence. }
  cbv [check mbind io_bind mret io_ret calloc succeeds call]. rewrite Hc. cbn.
  pose proof (rules_loop_ok read arr (Z.to_nat (i32 (json_object_array_length arr))) 0) as HL.
  destruct (rules_loop _ _ _ _) as [l|e] eqn:E.
  - split.
    + intros [= <-]. exists arr. destruct (proj1 (HL l) eq_refl) as [H1 H2]. repeat split; try done.
      intros k r Hk. apply Hrd. by apply (H2 k r).
    + intros (a & [= <-] & _ & H1 & H2). assert (Ok l = Ok rs) as [= ->]; [|done].
      apply HL. split; [done|]. intros k r Hk. apply Hrd. by apply H2.
  - split; [done|]. intros (a & [= <-] & _ & H1 & H2). assert (Err e = Ok rs); [|done].
    apply HL. split; [done|]. intros k r Hk. apply Hrd. by apply H2.
Qed.

(** ** The whole of [parsing_nat_rules] *)

(** What [parsing_nat_rules] does when every call succeeds. *)
Lemma parsing_reads m data w :
  calls w = [] -> writes w = [] -> file w = Some data -> length (garbage (length data + 1)) = (length data + 1)%nat ->
  parsing_nat_rules m w =
    match cstr_of (chars (data ++ drop (length data) (garbage (length data + 1)))) with
    | None => Undef OutOfBounds
    | Some text =>
        let j := json_tokener_parse text in
        match m with
        | STATIC => create_static_mode_rules j
        | PAT => create_pat_mode_rules j
        | _ => mret (Err DOCA_ERROR_INVALID_VALUE)
        end (set_blocks (blocks w + if is_type json_type_null j then 0 else 1) w)
    end.
Proof.
  intros Hc Hw Hf Hg. unfold parsing_nat_rules. unfold mbind at 1, io_bind at 1.
  rewrite (read_document_reads garbage data w) by done.
  destruct (cstr_of _) as [text|]; [|done]. cbv [free released mbind io_bind]. cbn zeta beta iota.
  match goal with |- _ ?w1 = _ ?w2 => replace w1 with w2; [done|] end.
  destruct w. unfold set_blocks. cbn. f_equal. lia.
Qed.

Definition parsed_by (m : nat_mode) (j : json) (rs : list nat_rule_match) : Prop :=
  match m with
  | STATIC => holds_rules static_rule_of j rs
  | PAT => exists ip, ip_member j (lit "global ip") = Ok ip /\ holds_rules (pat_rule_of ip) j rs
  | _ => False
  end.

Lemma create_rules_ok m j rs w :
  calls w = [] ->
  match m with
  | STATIC => create_static_mode_rules j
  | PAT => create_pat_mode_rules j
  | _ => mret (Err DOCA_ERROR_INVALID_VALUE)
  end w = Ret (Ok rs, set_blocks (blocks w + 1) w) <-> parsed_by m j rs.
Proof.
  intros Hc. destruct m; unfold parsed_by; [|split; [intros [=]|done]| |split; [intros [=]|done]].
  - apply rules_array_ok; [apply static_rule_ok|done].
  - unfold create_pat_mode_rules. destruct (ip_member j (lit "global ip")) as [ip|].
    + rewrite (rules_array_ok (pat_rule_of ip)); [|apply pat_rule_ok|done]. split; [by intros H; exists ip; split|].
      by intros (? & [= ->] & ?).
    + split; [done|]. by intros (? & ? & _).
Qed.

(** The rules of the application are those of its file, entry for entry.  For a file of
    text whose block happens to end in a zero byte, and calls that succeed,
    [parsing_nat_rules] returns the array [rs] exactly when the document is an object whose
    member ["rules"] is an array of as many objects, the i-th holding the addresses (static
    mode) or the address and the two ports (PAT mode, with the ["global ip"] of the document
    in every rule) of [rs[i]].  The file is closed again; the array is the caller's, and the
    parsed document stays allocated for good. *)
Theorem nat_rules_parsed m data w rs :
  calls w = [] -> writes w = [] -> file w = Some data -> text_bytes data ->
  length (garbage (length data + 1)) = (length data + 1)%nat -> last (garbage (length data + 1)) = Some 0 ->
  is_type json_type_null (json_tokener_parse (chars data)) = false ->
  parsing_nat_rules m w = Ret (Ok rs, set_blocks (blocks w + 2) w)
  <-> parsed_by m (json_tokener_parse (chars data)) rs.
Proof.
  intros Hc Hw Hf Ht Hg Hl Hn. rewrite (parsing_reads m data w) by done.
  rewrite (drop_last_nul _ (length data) 0) by (try done; lia).
  rewrite chars_app. change (chars [0]) with [NUL]. rewrite cstr_of_app by by apply chars_no_nul.
  cbv zeta. rewrite Hn.
  rewrite <-(create_rules_ok m _ rs (set_blocks (blocks w + 1) w)) by done.
  by replace (set_blocks (blocks w + 2) w) with
    (set_blocks (blocks (set_blocks (blocks w + 1) w) + 1) (set_blocks (blocks w + 1) w)) by (unfold set_blocks; cbn; f_equal; lia).
Qed.

(** [malloc] does not clear the byte after the text: a block whose last byte is not zero is
    no string, and [json_tokener_parse] reads on behind it. *)
Theorem nat_rules_unterminated m data w b :
  calls w = [] -> writes w = [] -> file w = Some data -> text_bytes data ->
  length (garbage (length data + 1)) = (length data + 1)%nat ->
  last (garbage (length data + 1)) = Some b -> 0 < b < 256 ->
  parsing_nat_rules m w = Undef OutOfBounds.
Proof.
  intros Hc Hw Hf Ht Hg Hl Hb. rewrite (parsing_reads m data w) by done.
  rewrite (drop_last_nul _ (length data) b) by (try done; lia).
  replace (cstr_of _) with (@None (list ascii)); [done|]. symmetry. apply cstr_of_none, chars_no_nul.
  apply Forall_app. split; [done|]. by constructor.
Qed.
End rules.

(** A document with one rule, and a parser that knows its text. *)
Definition sample_text : list Z := (fun c => Z.of_nat (nat_of_ascii (if bool_decide (c = "'"%char) then ascii_of_nat 34 else c)))
  <$> lit "{'global ip':'210.48.52.20','rules':[{'local ip':'10.1.0.12','local port':8080,'global port':70000}]}".

Definition sample_tree : tree :=
  TObject [(lit "global ip", TString (lit "210.48.52.20"));
           (lit "rules", TArray [TObject [(lit "local ip", TString (lit "10.1.0.12")); (lit "local port", TInt 8080);
                                          (lit "global port", TInt 70000)]])].

Definition sample_json : JsonC :=
  json_tree (fun s => if streq s (chars sample_text) then sample_tree else TNull).

Definition sample_world : world := World [] [] [] [] [] (Some sample_text) 0 0.

Definition sample_rules : list nat_rule_match :=
  [Rule (BE_IPV4_ADDR 10 1 0 12) 8080 (BE_IPV4_ADDR 210 48 52 20) 70000].

(** Nothing checks that a port fits in 16 bits. *)
Lemma nat_rules_parsed_witness :
  parsing_nat_rules (J := sample_json) (fun n => replicate n 0) PAT sample_world
    = Ret (Ok sample_rules, set_blocks 2 sample_world)
  <-> parsed_by (J := sample_json) PAT (json_tokener_parse (JsonC := sample_json) (chars sample_text)) sample_rules.
Proof.
  apply (nat_rules_parsed (J := sample_json) (fun n => replicate n 0) PAT sample_text sample_world sample_rules);
    try by vm_compute.
  unfold text_bytes. apply (bool_decide_unpack _). by vm_compute.
Defined.

Example sample_parsed :
  parsing_nat_rules (J := sample_json) (fun n => replicate n 0) PAT sample_world
    = Ret (Ok sample_rules, set_blocks 2 sample_world).
Proof. by vm_compute. Qed.

Lemma nat_rules_unterminated_witness :
  parsing_nat_rules (J := sample_json) (fun n => replicate n 32) PAT sample_world = Undef OutOfBounds.
Proof.
  apply (nat_rules_unterminated (J := sample_json) (fun n => replicate n 32) PAT sample_text sample_world 32);
    try by vm_compute.
  unfold text_bytes. apply (bool_decide_unpack _). by vm_compute.
Defined.
