(* ===== verification/NatPipes.v ===== *)
(** * NAT application: the pipes (applications/nat/nat_core.c)

    The DOCA Flow library is not part of the repository.  What the application asks of it
    is kept in [engine]: the pipes that were created, with their match and action templates
    and the entries that are in force, and the entries that wait in queue 0 of the port
    under configuration.  How many waiting entries one [doca_flow_entries_process] completes,
    and whether with success, is answered by the environment ([comps]); once these answers
    have run out everything asked for completes.  Calls that may fail for other reasons, and
    the handles of configurations, are those of [CommChannel].

    The second half says what a pipe does to a packet, by the class [FlowHw] of what the
    library documents, and proves the translations of the two modes from it. *)
From S2P Require Import Prelude CString FlowTypes CommChannel Json NatRules.

Definition QUEUE_DEPTH : Z := 256.
Definition NAT_PORTS_NUM : nat := 2.
Definition DOCA_FLOW_WAIT_FOR_BATCH : Z := 1.

(** ** Pipes and their entries *)

Record flow_entry : Type := Entry { e_match : doca_flow_match; e_actions : doca_flow_actions }.
Record control_entry : Type := ControlEntry { c_match : doca_flow_match; c_fwd : doca_flow_fwd }.

Record flow_pipe : Type := Pipe {
  p_port : Z; p_root : bool; p_type : doca_flow_pipe_type;
  p_match : doca_flow_match; p_actions : doca_flow_actions; p_fwd : doca_flow_fwd; p_miss : doca_flow_fwd;
  p_entries : list flow_entry; p_control : list control_entry
}.

Definition add_in_force (x : flow_entry) (p : flow_pipe) : flow_pipe :=
  Pipe (p_port p) (p_root p) (p_type p) (p_match p) (p_actions p) (p_fwd p) (p_miss p) (p_entries p ++ [x]) (p_control p).
Definition add_control (x : control_entry) (p : flow_pipe) : flow_pipe :=
  Pipe (p_port p) (p_root p) (p_type p) (p_match p) (p_actions p) (p_fwd p) (p_miss p) (p_entries p) (p_control p ++ [x]).

Record engine : Type := Engine {
  pipes : list flow_pipe;
  queue : list (nat * flow_entry);                (** waiting entries, with the index of their pipe *)
  comps : list (doca_error_t * list bool)         (** answers of [doca_flow_entries_process] *)
}.

(** [doca_flow_pipe_create]: the index of the pipe is its handle. *)
Definition flow_pipe_create (p : flow_pipe) (e : engine) : io (doca_error_t * nat * engine) :=
  result ← call;
  if is_ok result then mret (result, length (pipes e), Engine (pipes e ++ [p]) (queue e) (comps e))
  else mret (result, O, e).

(** [doca_flow_pipe_add_entry]: the queue was configured for [QUEUE_DEPTH] entries. *)
Definition add_entry (pipe : nat) (x : flow_entry) (flags : Z) (e : engine) : io (doca_error_t * engine) :=
  if QUEUE_DEPTH <=? Z.of_nat (length (queue e)) then mret (DOCA_ERROR_DRIVER, e)
  else
    result ← call;
    if is_ok result then mret (result, Engine (pipes e) (queue e ++ [(pipe, x)]) (comps e)) else mret (result, e).

(** The first waiting entries complete with the given statuses. *)
Fixpoint complete_entries (sts : list bool) (ps : list flow_pipe) (q : list (nat * flow_entry))
    : list flow_pipe * list (nat * flow_entry) :=
  match sts, q with
  | b :: sts, (h, x) :: q => complete_entries sts (if (b : bool) then alter (add_in_force x) h ps else ps) q
  | _, _ => (ps, q)
  end.

(** [doca_flow_entries_process(port, 0, timeout, max)]: the result, the statuses the
    callback is called with, and the new state. *)
Definition entries_process (max : Z) (e : engine) : doca_error_t * list bool * engine :=
  let n := Nat.min (length (queue e)) (Z.to_nat max) in
  let '(result, sts, rest) :=
    match comps e with
    | [] => (DOCA_SUCCESS, replicate n true, [])
    | (r, sts) :: rest => (r, take n sts, rest)
    end in
  let (ps, q) := complete_entries sts (pipes e) (queue e) in
  (result, sts, Engine ps q rest).

(** ** Completion of entries *)

Record entries_status : Type := Status { is_failure : bool; nb_processed : Z }.

Definition status_zero : entries_status := Status false 0.

(** [status] is whether the status is [DOCA_FLOW_ENTRY_STATUS_SUCCESS]. *)
Definition check_for_valid_entry (status : bool) (op : doca_flow_entry_op) (user_ctx : option entries_status)
    : option entries_status :=
  match user_ctx with
  | None => None
  | Some s =>
      if bool_decide (op = DOCA_FLOW_ENTRY_OP_ADD) then
        Some (Status (is_failure s || negb status) (nb_processed s + 1))
      else Some s
  end.

(** The callback for each completion; [user_ctx] is the [status] of the builder. *)
Definition run_callbacks (sts : list bool) (s : entries_status) : entries_status :=
  foldl (fun s b => default s (check_for_valid_entry b DOCA_FLOW_ENTRY_OP_ADD (Some s))) s sts.

(** [if (nb_entries == QUEUE_DEPTH) { ... }]: the error the builder returns with, if any. *)
Definition process_batch (nb_entries : Z) (s : entries_status) (e : engine)
    : option doca_error_t * Z * entries_status * engine :=
  if nb_entries =? QUEUE_DEPTH then
    let '(result, sts, e) := entries_process nb_entries e in
    let s := run_callbacks sts s in
    if negb (is_ok result) then (Some result, nb_entries, s, e)
    else if is_failure s || (nb_processed s =? 0) then (Some DOCA_ERROR_BAD_STATE, nb_entries, s, e)
    else (None, nb_entries - nb_processed s, Status (is_failure s) 0, e)
  else (None, nb_entries, s, e).

(** [while (nb_entries - status.nb_processed > 0)].  When the answers of the environment
    have run out a turn completes all there is: the turns after it change nothing. *)
Fixpoint wait_entries (fuel : nat) (nb_entries : Z) (s : entries_status) (e : engine)
    : outcome (doca_error_t * engine) :=
  match fuel with
  | O => Undef OutOfFuel
  | S fuel =>
      if 0 <? nb_entries - nb_processed s then
        let '(result, sts, e) := entries_process (nb_entries - nb_processed s) e in
        let s := run_callbacks sts s in
        if negb (is_ok result) then Ret (result, e)
        else if is_failure s then Ret (DOCA_ERROR_BAD_STATE, e)
        else wait_entries fuel nb_entries s e
      else Ret (DOCA_SUCCESS, e)
  end.

Definition wait_all (nb_entries : Z) (s : entries_status) (e : engine) : io (doca_error_t * engine) := fun w =>
  let* r := wait_entries (S (S (length (comps e)))) nb_entries s e in Ret (r, w).

(** ** The loop over the rules

    [ruleid] is a [uint16_t], the number of rules an [int].  [add] is the body up to the
    batch test: the new number of entries, and whether the test is reached. *)
Section loop.
Context (add : nat_rule_match -> Z -> engine -> io (bool * Z * engine)).
Context (nat_rules : list nat_rule_match) (nat_num_rules : Z).

Fixpoint rules_for (fuel : nat) (ruleid nb_entries : Z) (s : entries_status) (e : engine)
    : io (option doca_error_t * Z * entries_status * engine) :=
  match fuel with
  | O => undef OutOfFuel
  | S fuel =>
      if ruleid <? nat_num_rules then
        match nat_rules !! Z.to_nat ruleid with
        | None => undef OutOfBounds
        | Some rule =>
            '(added, nb_entries, e) ← add rule nb_entries e;
            let '(early, nb_entries, s, e) :=
              if (added : bool) then process_batch nb_entries s e else (None, nb_entries, s, e) in
            match early with
            | Some result => mret (Some result, nb_entries, s, e)
            | None => rules_for fuel (u16 (ruleid + 1)) nb_entries s e
            end
        end
      else mret (None, nb_entries, s, e)
  end.

(** The loop and the wait for the entries it left in the queue. *)
Definition add_rules (e : engine) : io (doca_error_t * engine) :=
  '(early, nb_entries, s, e) ← rules_for (S (Z.to_nat nat_num_rules)) 0 0 status_zero e;
  match early with
  | Some result => mret (result, e)
  | None => wait_all nb_entries s e
  end.
End loop.

Definition fwd_peer (port_id : Z) : doca_flow_fwd :=
  set_fwd_port_id (Z.lxor port_id 1) (set_fwd_type DOCA_FLOW_FWD_PORT fwd_zero).

(** In the builders of the global side [miss_fwd] is not cleared: its other members are
    what the stack holds. *)
Definition fwd_drop (raw : list Z) : doca_flow_fwd := Fwd DOCA_FLOW_FWD_DROP raw.

Definition IP_CHANGEABLE : Z := 0xffffffff.
Definition PORT_CHANGEABLE : Z := 0xffff.

(** ** Static mode *)

Definition static_add (mk : nat_rule_match -> flow_entry) (nat_pipe : nat) (rule : nat_rule_match) (nb_entries : Z)
    (e : engine) : io (bool * Z * engine) :=
  let flags := if nb_entries =? QUEUE_DEPTH - 1 then DOCA_FLOW_NO_WAIT else DOCA_FLOW_WAIT_FOR_BATCH in
  '(result, e) ← add_entry nat_pipe (mk rule) flags e;
  if is_ok result then mret (true, nb_entries + 1, e) else mret (false, nb_entries, e).

(** What the two static builders share: the template, the forward and the entries differ. *)
Definition build_static_pipe (p : flow_pipe) (mk : nat_rule_match -> flow_entry)
    (nat_rules : list nat_rule_match) (nat_num_rules : Z) (e : engine) : io (doca_error_t * engine) :=
  result ← acquire;
  if negb (is_ok result) then mret (result, e)
  else
    result ← cfg_sets 4;
    if negb (is_ok result) then release;; mret (result, e)
    else
      '(result, nat_pipe, e) ← flow_pipe_create p e;
      if negb (is_ok result) then release;; mret (result, e)
      else release;; add_rules (static_add mk nat_pipe) nat_rules nat_num_rules e.

Definition static_local_template (port_id : Z) : flow_pipe :=
  Pipe port_id true DOCA_FLOW_PIPE_BASIC
    (set_meta_l3 DOCA_FLOW_L3_META_IPV4 (on_outer (set_l3_type DOCA_FLOW_L3_TYPE_IP4)
      (on_outer (set_ip4_src_ip IP_CHANGEABLE) match_zero)))
    (on_act_outer (set_ip4_src_ip IP_CHANGEABLE) (on_act_outer (set_l3_type DOCA_FLOW_L3_TYPE_IP4) actions_zero))
    (fwd_peer port_id) (fwd_drop (fwd_raw fwd_zero)) [] [].

Definition static_local_entry (r : nat_rule_match) : flow_entry :=
  Entry (on_outer (set_ip4_src_ip (local_ip r)) match_zero) (on_act_outer (set_ip4_src_ip (global_ip r)) actions_zero).

Definition build_static_local_pipe (port_id : Z) (nat_rules : list nat_rule_match) (nat_num_rules : Z) (e : engine)
    : io (doca_error_t * engine) :=
  build_static_pipe (static_local_template port_id) static_local_entry nat_rules nat_num_rules e.

Definition static_global_template (stack : list Z) (port_id : Z) : flow_pipe :=
  Pipe port_id true DOCA_FLOW_PIPE_BASIC
    (set_meta_l3 DOCA_FLOW_L3_META_IPV4 (on_outer (set_l3_type DOCA_FLOW_L3_TYPE_IP4)
      (on_outer (set_ip4_dst_ip IP_CHANGEABLE) match_zero)))
    (on_act_outer (set_ip4_dst_ip IP_CHANGEABLE) (on_act_outer (set_l3_type DOCA_FLOW_L3_TYPE_IP4) actions_zero))
    (fwd_peer port_id) (fwd_drop stack) [] [].

Definition static_global_entry (r : nat_rule_match) : flow_entry :=
  Entry (on_outer (set_ip4_dst_ip (global_ip r)) match_zero) (on_act_outer (set_ip4_dst_ip (local_ip r)) actions_zero).

Definition build_static_global_pipe (stack : list Z) (port_id : Z) (nat_rules : list nat_rule_match) (nat_num_rules : Z)
    (e : engine) : io (doca_error_t * engine) :=
  build_static_pipe (static_global_template stack port_id) static_global_entry nat_rules nat_num_rules e.

(** ** PAT mode *)

Definition create_control_pipe (port_id : Z) (e : engine) : io (doca_error_t * nat * engine) :=
  result ← acquire;
  if negb (is_ok result) then mret (result, O, e)
  else
    result ← cfg_sets 3;
    if negb (is_ok result) then release;; mret (result, O, e)
    else
      r ← flow_pipe_create (Pipe port_id true DOCA_FLOW_PIPE_CONTROL match_zero actions_zero fwd_zero fwd_zero [] []) e;
      release;;
      mret r.

(** [doca_flow_pipe_control_add_entry] *)
Definition control_add_entry (control_pipe : nat) (x : control_entry) (e : engine) : io (doca_error_t * engine) :=
  result ← call;
  if is_ok result then mret (result, Engine (alter (add_control x) control_pipe (pipes e)) (queue e) (comps e))
  else mret (result, e).

Definition add_control_pipe_entries (control_pipe udp_pipe tcp_pipe : nat) (e : engine) : io (doca_error_t * engine) :=
  let mat := set_meta_l4 DOCA_FLOW_L4_META_UDP (set_meta_l3 DOCA_FLOW_L3_META_IPV4 match_zero) in
  let fwd := set_next_pipe (Z.of_nat udp_pipe) (set_fwd_type DOCA_FLOW_FWD_PIPE fwd_zero) in
  '(result, e) ← control_add_entry control_pipe (ControlEntry mat fwd) e;
  if negb (is_ok result) then mret (result, e)
  else
    let mat := set_meta_l4 DOCA_FLOW_L4_META_TCP (set_meta_l3 DOCA_FLOW_L3_META_IPV4 mat) in
    let fwd := set_next_pipe (Z.of_nat tcp_pipe) (set_fwd_type DOCA_FLOW_FWD_PIPE fwd) in
    '(result, e) ← control_add_entry control_pipe (ControlEntry mat fwd) e;
    if negb (is_ok result) then mret (result, e) else mret (DOCA_SUCCESS, e).

(** The results of both calls are ignored; the UDP entry is made in the structures that
    held the TCP entry. *)
Definition pat_add (mk_tcp : nat_rule_match -> flow_entry) (mk_udp : nat_rule_match -> flow_entry -> flow_entry)
    (tcp udp : nat) (rule : nat_rule_match) (nb_entries : Z) (e : engine) : io (bool * Z * engine) :=
  let x := mk_tcp rule in
  let flags := if nb_entries =? QUEUE_DEPTH - 2 then DOCA_FLOW_NO_WAIT else DOCA_FLOW_WAIT_FOR_BATCH in
  '(_, e) ← add_entry tcp x DOCA_FLOW_WAIT_FOR_BATCH e;
  '(_, e) ← add_entry udp (mk_udp rule x) flags e;
  mret (true, nb_entries + 2, e).

(** What the two PAT builders share. *)
Definition build_pat_pipe (port_id : Z) (p_tcp p_udp : flow_pipe) (mk_tcp : nat_rule_match -> flow_entry)
    (mk_udp : nat_rule_match -> flow_entry -> flow_entry) (nat_rules : list nat_rule_match) (nat_num_rules : Z)
    (e : engine) : io (doca_error_t * engine) :=
  result ← acquire;
  if negb (is_ok result) then mret (result, e)
  else
    result ← cfg_sets 4;
    if negb (is_ok result) then release;; mret (result, e)
    else
      '(result, nat_tcp_pipe, e) ← flow_pipe_create p_tcp e;
      if negb (is_ok result) then release;; mret (result, e)
      else
        result ← cfg_sets 2;
        if negb (is_ok result) then release;; mret (result, e)
        else
          '(result, nat_udp_pipe, e) ← flow_pipe_create p_udp e;
          if negb (is_ok result) then release;; mret (result, e)
          else
            release;;
            '(result, e) ← add_rules (pat_add mk_tcp mk_udp nat_tcp_pipe nat_udp_pipe) nat_rules nat_num_rules e;
            if negb (is_ok result) then mret (result, e)
            else
              '(result, control_pipe, e) ← create_control_pipe port_id e;
              if negb (is_ok result) then mret (result, e)
              else add_control_pipe_entries control_pipe nat_udp_pipe nat_tcp_pipe e.

(** [rte_cpu_to_be_16] of an [int] *)
Definition cpu_to_be_16 (v : Z) : Z := bswap 2 (u16 v).

Definition pat_local_tcp (port_id : Z) : flow_pipe :=
  Pipe port_id false DOCA_FLOW_PIPE_BASIC
    (on_outer (set_tcp_src_port PORT_CHANGEABLE) (on_outer (set_l4_type_ext DOCA_FLOW_L4_TYPE_EXT_TCP)
      (on_outer (set_ip4_src_ip IP_CHANGEABLE) (on_outer (set_l3_type DOCA_FLOW_L3_TYPE_IP4) match_zero))))
    (on_act_outer (set_tcp_src_port PORT_CHANGEABLE) (on_act_outer (set_l4_type_ext DOCA_FLOW_L4_TYPE_EXT_TCP)
      (on_act_outer (set_ip4_src_ip IP_CHANGEABLE) (on_act_outer (set_l3_type DOCA_FLOW_L3_TYPE_IP4) actions_zero))))
    (fwd_peer port_id) (fwd_drop (fwd_raw fwd_zero)) [] [].

Definition pat_local_udp (port_id : Z) : flow_pipe :=
  let p := pat_local_tcp port_id in
  Pipe port_id false DOCA_FLOW_PIPE_BASIC
    (on_outer (set_udp_src_port PORT_CHANGEABLE) (on_outer (set_l4_type_ext DOCA_FLOW_L4_TYPE_EXT_UDP)
      (on_outer (set_tcp_src_port 0) (p_match p))))
    (on_act_outer (set_udp_src_port PORT_CHANGEABLE) (on_act_outer (set_l4_type_ext DOCA_FLOW_L4_TYPE_EXT_UDP)
      (on_act_outer (set_tcp_src_port 0) (p_actions p))))
    (p_fwd p) (p_miss p) [] [].

Definition pat_local_tcp_entry (r : nat_rule_match) : flow_entry :=
  Entry (on_outer (set_tcp_src_port (cpu_to_be_16 (local_port r))) (on_outer (set_ip4_src_ip (local_ip r)) match_zero))
        (on_act_outer (set_tcp_src_port (cpu_to_be_16 (global_port r)))
          (on_act_outer (set_ip4_src_ip (global_ip r)) actions_zero)).

Definition pat_local_udp_entry (r : nat_rule_match) (x : flow_entry) : flow_entry :=
  Entry (on_outer (set_udp_src_port (cpu_to_be_16 (local_port r))) (e_match x))
        (on_act_outer (set_udp_src_port (cpu_to_be_16 (global_port r))) (e_actions x)).

Definition build_pat_local_pipe (port_id : Z) (nat_rules : list nat_rule_match) (nat_num_rules : Z) (e : engine)
    : io (doca_error_t * engine) :=
  build_pat_pipe port_id (pat_local_tcp port_id) (pat_local_udp port_id) pat_local_tcp_entry pat_local_udp_entry
    nat_rules nat_num_rules e.

Definition pat_global_tcp (stack : list Z) (port_id : Z) : flow_pipe :=
  Pipe port_id false DOCA_FLOW_PIPE_BASIC
    (on_outer (set_tcp_dst_port PORT_CHANGEABLE) (on_outer (set_l4_type_ext DOCA_FLOW_L4_TYPE_EXT_TCP)
      (on_outer (set_l3_type DOCA_FLOW_L3_TYPE_IP4) (on_outer (set_ip4_dst_ip IP_CHANGEABLE) match_zero))))
    (on_act_outer (set_tcp_dst_port PORT_CHANGEABLE) (on_act_outer (set_l4_type_ext DOCA_FLOW_L4_TYPE_EXT_TCP)
      (on_act_outer (set_ip4_dst_ip IP_CHANGEABLE) (on_act_outer (set_l3_type DOCA_FLOW_L3_TYPE_IP4) actions_zero))))
    (fwd_peer port_id) (fwd_drop stack) [] [].

Definition pat_global_udp (stack : list Z) (port_id : Z) : flow_pipe :=
  let p := pat_global_tcp stack port_id in
  Pipe port_id false DOCA_FLOW_PIPE_BASIC
    (on_outer (set_udp_dst_port PORT_CHANGEABLE) (on_outer (set_l4_type_ext DOCA_FLOW_L4_TYPE_EXT_UDP)
      (on_outer (set_tcp_dst_port 0) (p_match p))))
    (on_act_outer (set_udp_dst_port PORT_CHANGEABLE) (on_act_outer (set_l4_type_ext DOCA_FLOW_L4_TYPE_EXT_UDP)
      (on_act_outer (set_tcp_dst_port 0) (p_actions p))))
    (p_fwd p) (p_miss p) [] [].

Definition pat_global_tcp_entry (r : nat_rule_match) : flow_entry :=
  Entry (on_outer (set_tcp_dst_port (cpu_to_be_16 (global_port r))) (on_outer (set_ip4_dst_ip (global_ip r)) match_zero))
        (on_act_outer (set_tcp_dst_port (cpu_to_be_16 (local_port r)))
          (on_act_outer (set_ip4_dst_ip (local_ip r)) actions_zero)).

(** The ports the other way round than in the TCP entry. *)
Definition pat_global_udp_entry (r : nat_rule_match) (x : flow_entry) : flow_entry :=
  Entry (on_outer (set_udp_dst_port (cpu_to_be_16 (local_port r))) (e_match x))
        (on_act_outer (set_udp_dst_port (cpu_to_be_16 (global_port r))) (e_actions x)).

Definition build_pat_global_pipe (stack : list Z) (port_id : Z) (nat_rules : list nat_rule_match) (nat_num_rules : Z)
    (e : engine) : io (doca_error_t * engine) :=
  build_pat_pipe port_id (pat_global_tcp stack port_id) (pat_global_udp stack port_id)
    pat_global_tcp_entry pat_global_udp_entry nat_rules nat_num_rules e.

(** ** All the ports *)

(** [strstr(s, t) != NULL] *)
Fixpoint strstr (s t : list ascii) : bool :=
  strneq (length t) s t || match s with [] => false | _ :: s => strstr s t end.

(** [snprintf("%d")] of an [int] *)
Definition fmt_d (v : Z) : list ascii := if v <? 0 then "-"%char :: dec (- v) else dec v.

Definition port_intf_name (id : Z) : list ascii := lit "mlx5_core.sf." ++ fmt_d id.

(** [name p]: [switch_info.name] of the device behind port [p]; it may be null. *)
Section ports.
Context (name : Z -> option (list ascii)) (stack : list Z).

Definition name_has (portid : Z) (intf : list ascii) : bool :=
  match name portid with Some s => strstr s intf | None => false end.

Definition port_pipes (portid : Z) (nat_rules : list nat_rule_match) (nat_num_rules : Z) (app_cfg : nat_cfg) (e : engine)
    : io (doca_error_t * engine) :=
  let lan := port_intf_name (lan_intf_id app_cfg) in
  let wan := port_intf_name (wan_intf_id app_cfg) in
  match mode app_cfg with
  | STATIC =>
      if name_has portid lan then build_static_local_pipe portid nat_rules nat_num_rules e
      else if name_has portid wan then build_static_global_pipe stack portid nat_rules nat_num_rules e
      else mret (DOCA_ERROR_INVALID_VALUE, e)
  | PAT =>
      if name_has portid lan then build_pat_local_pipe portid nat_rules nat_num_rules e
      else if name_has portid wan then build_pat_global_pipe stack portid nat_rules nat_num_rules e
      else mret (DOCA_ERROR_INVALID_VALUE, e)
  | _ => mret (DOCA_SUCCESS, e)
  end.

(** [for (portid = 0; portid < nb_ports; portid++)], [n] ports from [portid]. *)
Fixpoint ports_for (n : nat) (portid : Z) (nat_rules : list nat_rule_match) (nat_num_rules : Z) (app_cfg : nat_cfg)
    (e : engine) : io (doca_error_t * engine) :=
  match n with
  | O => mret (DOCA_SUCCESS, e)
  | S n =>
      ret ← succeeds;
      if negb ret then mret (DOCA_ERROR_DRIVER, e)
      else
        '(result, e) ← port_pipes portid nat_rules nat_num_rules app_cfg e;
        if negb (is_ok result) then mret (result, e)
        else ports_for n (portid + 1) nat_rules nat_num_rules app_cfg e
  end.

Definition nat_pipes_init (nat_rules : list nat_rule_match) (nat_num_rules : Z) (app_cfg : nat_cfg) (nb_ports : nat)
    (e : engine) : io (doca_error_t * engine) :=
  ports_for nb_ports 0 nat_rules nat_num_rules app_cfg e.
End ports.

(** ** Every rule is installed

    [settle ps q]: the pipes once the entries of [q] are in force. *)
Definition settle (ps : list flow_pipe) (q : list (nat * flow_entry)) : list flow_pipe :=
  foldl (fun ps '(h, x) => alter (add_in_force x) h ps) ps q.

Lemma settle_app ps q1 q2 : settle ps (q1 ++ q2) = settle (settle ps q1) q2.
Proof. apply foldl_app. Qed.

Lemma complete_entries_true sts : forall ps q, Forall (eq true) sts ->
  complete_entries sts ps q = (settle ps (take (length sts) q), drop (length sts) q).
Proof.
  induction sts as [|b sts IH]; intros ps q H; [done|]. inversion H; subst.
  destruct q as [|[h x] q]; [done|]. cbn. by rewrite IH.
Qed.

#[local] Arguments settle : simpl never.

Lemma run_callbacks_true sts : forall s, Forall (eq true) sts ->
  run_callbacks sts s = Status (is_failure s) (nb_processed s + Z.of_nat (length sts)).
Proof.
  unfold run_callbacks. induction sts as [|b sts IH]; intros s H; cbn.
  - destruct s; cbn. f_equal. lia.
  - inversion H; subst. rewrite IH by done. cbn [is_failure nb_processed default check_for_valid_entry].
    rewrite bool_decide_eq_true_2 by done. cbn [is_failure nb_processed default id length].
    rewrite orb_false_r. f_equal. lia.
Qed.

(** An answer of the environment that completes at least one entry, without failure, and
    whole groups of [k] entries. *)
Definition obliging (k : nat) (c : doca_error_t * list bool) : Prop :=
  c.1 = DOCA_SUCCESS /\ c.2 <> [] /\ Forall (eq true) c.2 /\ (k | length c.2)%nat.

Lemma process_obliging k max e :
  Forall (obliging k) (comps e) -> 0 < max ->
  exists n cs, entries_process max e =
    (DOCA_SUCCESS, replicate n true, Engine (settle (pipes e) (take n (queue e))) (drop n (queue e)) cs)
  /\ (n <= Nat.min (length (queue e)) (Z.to_nat max))%nat
  /\ (queue e <> [] -> n <> O) /\ Forall (obliging k) cs
  /\ (length cs = pred (length (comps e)))
  /\ (comps e = [] -> n = Nat.min (length (queue e)) (Z.to_nat max))
  /\ ((k | length (queue e))%nat -> (k | Z.to_nat max)%nat -> (k | n)%nat).
Proof.
  intros Hc Hm. unfold entries_process. set (m := Nat.min (length (queue e)) (Z.to_nat max)).
  assert (Hk : (k | length (queue e))%nat -> (k | Z.to_nat max)%nat -> (k | m)%nat)
    by (unfold m; destruct (Nat.min_spec (length (queue e)) (Z.to_nat max)) as [[_ ->]|[_ ->]]; auto).
  assert (Hq : queue e <> [] -> m <> O).
  { intros H. assert (length (queue e) <> O) by by intros ?%nil_length_inv. unfold m. lia. }
  destruct (comps e) as [|[r sts] cs] eqn:E.
  - exists m, []. rewrite complete_entries_true, length_replicate by by apply Forall_replicate.
    repeat split; try done; lia.
  - inversion Hc as [|? ? (Hr & Hn & Ht & Hd) Hcs]; subst. cbn in *.
    exists (length (take m sts)), cs. subst r.
    assert (Hs : take m sts = replicate (length (take m sts)) true).
    { symmetry. apply replicate_as_Forall. split; [done|]. by apply Forall_take. }
    rewrite complete_entries_true by by apply Forall_take. rewrite <-Hs.
    rewrite length_take in *. repeat split; try done; try lia.
    + intros H. apply Hq in H. destruct sts; [done|]. cbn. lia.
    + intros H1 H2. destruct (Nat.min_spec m (length sts)) as [[_ ->]|[_ ->]]; auto.
Qed.

(** The last loop ends with every waiting entry in force. *)
Lemma wait_obliging k : forall fuel nb s e,
  Forall (obliging k) (comps e) -> (S (length (comps e)) < fuel)%nat ->
  is_failure s = false -> nb - nb_processed s = Z.of_nat (length (queue e)) ->
  exists cs, wait_entries fuel nb s e = Ret (DOCA_SUCCESS, Engine (settle (pipes e) (queue e)) [] cs)
    /\ Forall (obliging k) cs.
Proof.
  induction fuel as [|fuel IH]; intros nb s e Hc Hf Hs Hn; [lia|]. cbn [wait_entries]. rewrite Hn.
  destruct (0 <? Z.of_nat (length (queue e))) eqn:Hp.
  2:{ assert (queue e = []) as Hq by (apply nil_length_inv; lia).
      exists (comps e). destruct e; cbn in *. by rewrite Hq. }
  apply Z.ltb_lt in Hp.
  destruct (process_obliging k _ e Hc Hp) as (n & cs & E & Hle & Hnz & Hcs & Hlen & Hall & _).
  rewrite E, run_callbacks_true, length_replicate by by apply Forall_replicate. rewrite Hs.
  change (is_ok DOCA_SUCCESS) with true. cbn -[wait_entries].
  set (e' := Engine _ _ cs). set (s' := Status false _).
  assert (Hs' : nb - nb_processed s' = Z.of_nat (length (queue e'))) by (cbn; rewrite length_drop; lia).
  assert (Hset : settle (pipes e') (queue e') = settle (pipes e) (queue e))
    by (cbn; by rewrite <-settle_app, take_drop).
  destruct (comps e) as [|c cs0] eqn:Ec; cbn in Hf, Hlen.
  - specialize (Hall eq_refl). destruct fuel as [|fuel]; [lia|]. cbn [wait_entries]. rewrite Hs'. cbn.
    rewrite length_drop, Hall, Nat2Z.id, Nat.min_id, Nat.sub_diag. exists cs. split; [|done].
    unfold e'. by rewrite drop_ge, take_ge by lia.
  - destruct (IH nb s' e') as (cs' & -> & ?); try done.
    + cbn. lia.
    + exists cs'. by rewrite Hset.
Qed.

(** The body of a loop that queues the [k] entries [ents rule]. *)
Definition adds (k : nat) (ents : nat_rule_match -> list (nat * flow_entry))
    (add : nat_rule_match -> Z -> engine -> io (bool * Z * engine)) : Prop :=
  (forall r, length (ents r) = k) /\
  forall r nb e w, calls w = [] -> Z.of_nat (length (queue e) + k) <= QUEUE_DEPTH ->
    add r nb e w = Ret ((true, nb + Z.of_nat k, Engine (pipes e) (queue e ++ ents r) (comps e)), w).

Section install.
Context (k : nat) (Hk : k = 1%nat \/ k = 2%nat) (ents : nat_rule_match -> list (nat * flow_entry)).
Context (add : nat_rule_match -> Z -> engine -> io (bool * Z * engine)) (Hadd : adds k ents add).

(** The batch test leaves room for the next group. *)
Lemma batch_obliging e :
  Forall (obliging k) (comps e) -> (k | length (queue e))%nat -> Z.of_nat (length (queue e)) <= QUEUE_DEPTH ->
  exists ps q cs, process_batch (Z.of_nat (length (queue e))) status_zero e
    = (None, Z.of_nat (length q), status_zero, Engine ps q cs)
  /\ settle ps q = settle (pipes e) (queue e) /\ (k | length q)%nat
  /\ Z.of_nat (length q + k) <= QUEUE_DEPTH /\ Forall (obliging k) cs.
Proof using All.
  intros Hc Hd Hq. unfold process_batch, QUEUE_DEPTH in *. destruct (_ =? 256) eqn:E.
  - apply Z.eqb_eq in E. rewrite E. destruct (process_obliging k 256 e Hc) as (n & cs & -> & Hle & Hnz & Hcs & _ & _ & Hkn);
      [lia|]. rewrite run_callbacks_true, length_replicate by by apply Forall_replicate. cbn.
    assert (n <> O) by (apply Hnz; intros H; rewrite H in E; done).
    destruct (0 + Z.of_nat n =? 0) eqn:H0; [lia|]. exists (settle (pipes e) (take n (queue e))), (drop n (queue e)), cs.
    rewrite <-settle_app, take_drop, length_drop.
    assert (k | n)%nat as Hn by (apply Hkn; [done|]; destruct Hk as [->| ->]; [apply Nat.divide_1_l|by exists 128%nat]).
    split; [repeat f_equal; lia|]. repeat split; try done.
    + by apply Nat.divide_sub_r.
    + destruct Hn as [j ->]. destruct j; [done|]. lia.
  - apply Z.eqb_neq in E. exists (pipes e), (queue e), (comps e). destruct e; cbn in *. repeat split; try done.
    destruct Hk as [->| ->]; [lia|]. destruct Hd as [j Hj]. lia.
Qed.

Lemma rules_for_obliging : forall rest done fuel e w,
  Z.of_nat (length (done ++ rest)) <= 65535 -> (length rest < fuel)%nat -> calls w = [] ->
  Forall (obliging k) (comps e) -> (k | length (queue e))%nat -> Z.of_nat (length (queue e) + k) <= QUEUE_DEPTH ->
  exists ps q cs, rules_for add (done ++ rest) (Z.of_nat (length (done ++ rest))) fuel (Z.of_nat (length done))
      (Z.of_nat (length (queue e))) status_zero e w
    = Ret ((None, Z.of_nat (length q), status_zero, Engine ps q cs), w)
  /\ settle ps q = settle (pipes e) (queue e ++ (rest ≫= ents)) /\ Forall (obliging k) cs.
Proof using All.
  destruct Hadd as [Hlen Hrun].
  induction rest as [|r rest IH]; intros done fuel e w Hn Hf Hw Hc Hd Hq; destruct fuel as [|fuel]; try (cbn in Hf; lia);
    cbn [rules_for].
  - rewrite app_nil_r, Z.ltb_irrefl. exists (pipes e), (queue e), (comps e). destruct e. cbn. by rewrite app_nil_r.
  - rewrite length_app in *. cbn [length] in *. destruct (Z.ltb_spec (Z.of_nat (length done)) (Z.of_nat (length done + S (length rest)))); [|lia].
    rewrite Nat2Z.id, list_lookup_middle by done. cbv [mbind io_bind]. rewrite (Hrun r _ e w) by done.
    set (e1 := Engine _ _ (comps e)).
    replace (Z.of_nat (length (queue e)) + Z.of_nat k) with (Z.of_nat (length (queue e1)))
      by (cbn; rewrite length_app, Hlen; lia).
    destruct (batch_obliging e1) as (ps & q & cs & -> & Hs & Hd' & Hq' & Hcs); cbn; try done.
    { rewrite length_app, Hlen. apply Nat.divide_add_r; [done|apply Nat.divide_refl]. }
    { by rewrite length_app, Hlen. }
    specialize (IH (done ++ [r]) fuel (Engine ps q cs) w). rewrite <-!app_assoc, !length_app in IH. cbn in IH.
    rewrite uwrap_id by (unfold in_width; lia).
    replace (Z.of_nat (length done) + 1) with (Z.of_nat (length done + 1)) by lia.
    replace (length done + S (length rest))%nat with (length done + 1 + length rest)%nat in * by lia.
    destruct IH as (ps' & q' & cs' & E & Hs' & Hcs'); try done; [lia..|].
    exists ps', q', cs'. split; [|split; [|done]].
    + replace (length done + 1 + length rest)%nat with (length done + S (length rest))%nat in * by lia. exact E.
    + rewrite Hs', settle_app, Hs. cbn. by rewrite <-settle_app, <-app_assoc.
Qed.

(** Whatever the pace of the environment, the loop and the wait put every rule in force. *)
Lemma add_rules_installs rules e w :
  Z.of_nat (length rules) <= 65535 -> calls w = [] -> Forall (obliging k) (comps e) -> queue e = [] ->
  exists cs, add_rules add rules (Z.of_nat (length rules)) e w
    = Ret ((DOCA_SUCCESS, Engine (settle (pipes e) (rules ≫= ents)) [] cs), w) /\ Forall (obliging k) cs.
Proof using All.
  intros Hn Hw Hc Hq. unfold add_rules. cbv [mbind io_bind].
  destruct (rules_for_obliging rules [] (S (Z.to_nat (Z.of_nat (length rules)))) e w) as (ps & q & cs & E & Hs & Hcs);
    rewrite ?Hq; try done; cbn; try lia.
  { apply Nat.divide_0_r. }
  { destruct Hk as [->| ->]; unfold QUEUE_DEPTH; lia. }
  rewrite Hq in *. cbn in E. change (Z.of_nat 0) with 0 in E. rewrite E. unfold wait_all. cbn -[wait_entries].
  destruct (wait_obliging k (S (S (length cs))) (Z.of_nat (length q)) status_zero (Engine ps q cs)) as (cs' & E' & Hcs');
    cbn -[wait_entries]; try done; [lia..|].
  rewrite E'. cbn in *. rewrite Hs. by exists cs'.
Qed.
End install.

Lemma add_entry_run pipe x flags e w :
  calls w = [] -> Z.of_nat (length (queue e)) < QUEUE_DEPTH ->
  add_entry pipe x flags e w = Ret ((DOCA_SUCCESS, Engine (pipes e) (queue e ++ [(pipe, x)]) (comps e)), w).
Proof.
  intros Hw Hq. unfold add_entry. destruct (Z.leb_spec QUEUE_DEPTH (Z.of_nat (length (queue e)))); [lia|].
  cbv [mbind io_bind call]. by rewrite Hw.
Qed.

Lemma static_adds mk pipe : adds 1 (fun r => [(pipe, mk r)]) (static_add mk pipe).
Proof.
  split; [done|]. intros r nb e w Hw Hq. unfold static_add. cbv [mbind io_bind].
  rewrite add_entry_run by (done || lia). done.
Qed.

Lemma pat_adds mk_tcp mk_udp tcp udp :
  adds 2 (fun r => [(tcp, mk_tcp r); (udp, mk_udp r (mk_tcp r))]) (pat_add mk_tcp mk_udp tcp udp).
Proof.
  split; [done|]. intros r nb e w Hw Hq. unfold pat_add. cbv [mbind io_bind].
  rewrite add_entry_run by (done || lia). rewrite add_entry_run by (cbn; try done; rewrite length_app; cbn; lia).
  cbn. by rewrite <-app_assoc.
Qed.

(** A pipe with its entries in force. *)
Definition with_entries (l : list flow_entry) (p : flow_pipe) : flow_pipe :=
  Pipe (p_port p) (p_root p) (p_type p) (p_match p) (p_actions p) (p_fwd p) (p_miss p) (p_entries p ++ l) (p_control p).

Lemma with_entries_nil p : with_entries [] p = p.
Proof. destruct p. unfold with_entries. cbn. by rewrite app_nil_r. Qed.

Lemma with_entries_cons x l p : with_entries l (add_in_force x p) = with_entries (x :: l) p.
Proof. destruct p. unfold with_entries. cbn. by rewrite <-app_assoc. Qed.

Lemma settle_one {A} (mk : A -> flow_entry) ps l : forall p,
  settle (ps ++ [p]) (l ≫= fun r => [(length ps, mk r)]) = ps ++ [with_entries (mk <$> l) p].
Proof.
  induction l as [|r l IH]; intros p; [by rewrite with_entries_nil|].
  unfold settle in *. cbn. rewrite alter_app_r_alt by lia. rewrite Nat.sub_diag. cbn.
  rewrite IH. by rewrite with_entries_cons.
Qed.

Lemma settle_two {A} (mk1 mk2 : A -> flow_entry) ps l : forall p1 p2,
  settle (ps ++ [p1; p2]) (l ≫= fun r => [(length ps, mk1 r); (S (length ps), mk2 r)])
  = ps ++ [with_entries (mk1 <$> l) p1; with_entries (mk2 <$> l) p2].
Proof.
  induction l as [|r l IH]; intros p1 p2; [by rewrite !with_entries_nil|].
  unfold settle in *. cbn. rewrite alter_app_r_alt by lia. rewrite Nat.sub_diag. cbn.
  rewrite alter_app_r_alt by lia. replace (S (length ps) - length ps)%nat with 1%nat by lia. cbn.
  rewrite IH. by rewrite !with_entries_cons.
Qed.

Lemma flow_pipe_create_run p e w :
  calls w = [] -> flow_pipe_create p e w = Ret ((DOCA_SUCCESS, length (pipes e), Engine (pipes e ++ [p]) (queue e) (comps e)), w).
Proof. intros Hw. unfold flow_pipe_create. cbv [mbind io_bind call]. by rewrite Hw. Qed.

Lemma acquire_run w : calls w = [] -> acquire w = Ret (DOCA_SUCCESS, set_fds (fds w + 1) w).
Proof. intros Hw. unfold acquire. cbv [mbind io_bind call]. by rewrite Hw. Qed.

Lemma release_succeeds w : calls w = [] -> release w = Ret (DOCA_SUCCESS, set_fds (fds w - 1) w).
Proof. intros Hw. unfold release. cbv [mbind io_bind call]. by rewrite Hw. Qed.

Lemma set_fds_back w n : set_fds (fds w + 1 - 1) (set_fds n w) = w.
Proof. destruct w. unfold set_fds. cbn. f_equal. lia. Qed.

Lemma static_pipe_built p mk rules e w :
  Z.of_nat (length rules) <= 65535 -> calls w = [] -> Forall (obliging 1) (comps e) -> queue e = [] ->
  exists cs, build_static_pipe p mk rules (Z.of_nat (length rules)) e w
    = Ret ((DOCA_SUCCESS, Engine (pipes e ++ [with_entries (mk <$> rules) p]) [] cs), w) /\ Forall (obliging 1) cs.
Proof.
  intros Hn Hw Hc Hq. unfold build_static_pipe. io_run (acquire_run w Hw).
  set (w1 := set_fds (fds w + 1) w). io_run (cfg_sets_run 4 w1 Hw). io_run (flow_pipe_create_run p e w1 Hw).
  io_run (release_succeeds w1 Hw). change (fds w1) with (fds w + 1). unfold w1. rewrite set_fds_back.
  destruct (add_rules_installs 1 (or_introl eq_refl) _ _ (static_adds mk (length (pipes e))) rules
    (Engine (pipes e ++ [p]) (queue e) (comps e)) w) as (cs & E & Hcs); try done.
  exists cs. split; [|done]. rewrite E. cbn [pipes]. by rewrite settle_one.
Qed.

(** The root of a port in PAT mode: UDP and TCP over IPv4 go to their pipes. *)
Definition control_match (t : doca_flow_l4_meta) : doca_flow_match :=
  set_meta_l4 t (set_meta_l3 DOCA_FLOW_L3_META_IPV4 match_zero).

Definition fwd_to (h : nat) (f : doca_flow_fwd) : doca_flow_fwd :=
  set_next_pipe (Z.of_nat h) (set_fwd_type DOCA_FLOW_FWD_PIPE f).

Definition empty_control (port_id : Z) : flow_pipe :=
  Pipe port_id true DOCA_FLOW_PIPE_CONTROL match_zero actions_zero fwd_zero fwd_zero [] [].

Definition control_pipe_of (port_id : Z) (udp tcp : nat) : flow_pipe :=
  Pipe port_id true DOCA_FLOW_PIPE_CONTROL match_zero actions_zero fwd_zero fwd_zero []
    [ControlEntry (control_match DOCA_FLOW_L4_META_UDP) (fwd_to udp fwd_zero);
     ControlEntry (control_match DOCA_FLOW_L4_META_TCP) (fwd_to tcp (fwd_to udp fwd_zero))].

Lemma control_add_run h x e w :
  calls w = [] ->
  control_add_entry h x e w = Ret ((DOCA_SUCCESS, Engine (alter (add_control x) h (pipes e)) (queue e) (comps e)), w).
Proof. intros Hw. unfold control_add_entry. cbv [mbind io_bind call]. by rewrite Hw. Qed.

Lemma create_control_run port_id e w :
  calls w = [] ->
  create_control_pipe port_id e w
  = Ret ((DOCA_SUCCESS, length (pipes e),
          Engine (pipes e ++ [empty_control port_id]) (queue e) (comps e)), w).
Proof.
  intros Hw. unfold create_control_pipe. io_run (acquire_run w Hw). set (w1 := set_fds (fds w + 1) w).
  io_run (cfg_sets_run 3 w1 Hw).
  rewrite (run_bind _ _ _ _ _ (flow_pipe_create_run _ e w1 Hw)). io_run (release_succeeds w1 Hw).
  change (fds w1) with (fds w + 1). unfold w1. by rewrite set_fds_back.
Qed.

Lemma control_entries_run udp tcp port_id ps q cs w :
  calls w = [] ->
  add_control_pipe_entries (length ps) udp tcp (Engine (ps ++ [empty_control port_id]) q cs) w
  = Ret ((DOCA_SUCCESS, Engine (ps ++ [control_pipe_of port_id udp tcp]) q cs), w).
Proof.
  intros Hw. unfold add_control_pipe_entries. io_run (control_add_run (length ps)
    (ControlEntry (control_match DOCA_FLOW_L4_META_UDP) (fwd_to udp fwd_zero)) (Engine (ps ++ [empty_control port_id]) q cs) w Hw).
  cbn [pipes queue comps]. rewrite alter_app_r_alt, Nat.sub_diag by lia. cbn [alter list_alter].
  io_run (control_add_run (length ps) (ControlEntry (control_match DOCA_FLOW_L4_META_TCP) (fwd_to tcp (fwd_to udp fwd_zero)))
    (Engine (ps ++ [add_control (ControlEntry (control_match DOCA_FLOW_L4_META_UDP) (fwd_to udp fwd_zero))
                      (empty_control port_id)]) q cs) w Hw).
  cbn [pipes queue comps]. by rewrite alter_app_r_alt, Nat.sub_diag by lia.
Qed.

Lemma pat_pipe_built port_id p1 p2 mk1 mk2 rules e w :
  Z.of_nat (length rules) <= 65535 -> calls w = [] -> Forall (obliging 2) (comps e) -> queue e = [] ->
  let n := length (pipes e) in
  exists cs, build_pat_pipe port_id p1 p2 mk1 mk2 rules (Z.of_nat (length rules)) e w
    = Ret ((DOCA_SUCCESS,
            Engine (pipes e ++ [with_entries (mk1 <$> rules) p1; with_entries ((fun r => mk2 r (mk1 r)) <$> rules) p2;
                                control_pipe_of port_id (S n) n]) [] cs), w)
    /\ Forall (obliging 2) cs.
Proof.
  intros Hn Hw Hc Hq n. unfold build_pat_pipe. io_run (acquire_run w Hw). set (w1 := set_fds (fds w + 1) w).
  io_run (cfg_sets_run 4 w1 Hw). io_run (flow_pipe_create_run p1 e w1 Hw). io_run (cfg_sets_run 2 w1 Hw).
  set (e1 := Engine _ _ _). io_run (flow_pipe_create_run p2 e1 w1 Hw). io_run (release_succeeds w1 Hw).
  change (fds w1) with (fds w + 1). unfold w1. rewrite set_fds_back.
  replace (length (pipes e1)) with (S n) by (cbn; rewrite length_app; cbn; lia).
  destruct (add_rules_installs 2 (or_intror eq_refl) _ _ (pat_adds mk1 mk2 n (S n)) rules
    (Engine (pipes e1 ++ [p2]) (queue e1) (comps e1)) w) as (cs & E & Hcs); try done.
  io_run E. cbn [pipes e1]. rewrite <-app_assoc. cbn [app].
  rewrite (settle_two mk1 (fun r => mk2 r (mk1 r))).
  set (e2 := Engine _ [] cs). io_run (create_control_run port_id e2 w Hw).
  rewrite control_entries_run by done. exists cs. cbn [pipes queue comps e2]. by rewrite <-app_assoc.
Qed.
