(* ===== verification/NatPackets.v ===== *)
(** * NAT application: what the pipes do to packets

    [FlowHw] states what the DOCA Flow library documents of a pipe: the entry found for a
    packet is one of its entries in force and matches the packet, and a packet without an
    entry has no matching one.  A field of the template that is zero is not compared, one
    with all bits set is compared with the value of the entry, any other value is compared
    as it is; the actions change fields by the same rule.  From this, the translations of
    the static and the PAT mode follow for the pipes that [nat_pipes_init] builds. *)
From S2P Require Import Prelude CString FlowTypes CommChannel Json NatRules NatPipes.

(** The fields of a packet that the pipes use, as they are on the wire. *)
Record packet : Type := Packet {
  pk_l3 : doca_flow_l3_meta; pk_l4 : doca_flow_l4_meta;
  pk_src : Z; pk_dst : Z; pk_sport : Z; pk_dport : Z
}.

Definition field_matches (ones tmpl entry v : Z) : bool :=
  (tmpl =? 0) || ((if tmpl =? ones then entry else tmpl) =? v).

Definition field_action (ones tmpl entry v : Z) : Z :=
  if tmpl =? 0 then v else if tmpl =? ones then entry else tmpl.

Definition meta_matches (m : doca_flow_match) (k : packet) : bool :=
  (bool_decide (meta_l3 m = DOCA_FLOW_L3_META_NONE) || bool_decide (meta_l3 m = pk_l3 k))
  && (bool_decide (meta_l4 m = DOCA_FLOW_L4_META_NONE) || bool_decide (meta_l4 m = pk_l4 k)).

Definition entry_matches (p : flow_pipe) (x : flow_entry) (k : packet) : bool :=
  let t := outer (p_match p) in
  let v := outer (e_match x) in
  meta_matches (p_match p) k
  && field_matches IP_CHANGEABLE (ip4_src_ip t) (ip4_src_ip v) (pk_src k)
  && field_matches IP_CHANGEABLE (ip4_dst_ip t) (ip4_dst_ip v) (pk_dst k)
  && field_matches PORT_CHANGEABLE (l4_src_port t) (l4_src_port v) (pk_sport k)
  && field_matches PORT_CHANGEABLE (l4_dst_port t) (l4_dst_port v) (pk_dport k).

Definition modify (p : flow_pipe) (x : flow_entry) (k : packet) : packet :=
  let t := act_outer (p_actions p) in
  let v := act_outer (e_actions x) in
  Packet (pk_l3 k) (pk_l4 k)
    (field_action IP_CHANGEABLE (ip4_src_ip t) (ip4_src_ip v) (pk_src k))
    (field_action IP_CHANGEABLE (ip4_dst_ip t) (ip4_dst_ip v) (pk_dst k))
    (field_action PORT_CHANGEABLE (l4_src_port t) (l4_src_port v) (pk_sport k))
    (field_action PORT_CHANGEABLE (l4_dst_port t) (l4_dst_port v) (pk_dport k)).

Class FlowHw : Type := {
  hw_lookup : flow_pipe -> packet -> option flow_entry;
  hw_control : flow_pipe -> packet -> option control_entry;
  hw_hit p k x : hw_lookup p k = Some x -> x ∈ p_entries p /\ entry_matches p x k = true;
  hw_miss p k x : hw_lookup p k = None -> x ∈ p_entries p -> entry_matches p x k = false;
  hw_control_hit p k c : hw_control p k = Some c -> c ∈ p_control p /\ meta_matches (c_match c) k = true;
  hw_control_miss p k c : hw_control p k = None -> c ∈ p_control p -> meta_matches (c_match c) k = false
}.

(** The first match, as an instance. *)
Definition first_match {A} (f : A -> bool) (l : list A) : option A := head (filter (fun x => f x = true) l).

Lemma first_match_some {A} (f : A -> bool) l x : first_match f l = Some x -> x ∈ l /\ f x = true.
Proof.
  unfold first_match. destruct (filter _ l) as [|y t] eqn:E; [done|]. intros [= ->].
  assert (H : x ∈ filter (fun x => f x = true) l) by (rewrite E; set_solver). by apply list_elem_of_filter in H as [].
Qed.

Lemma first_match_none {A} (f : A -> bool) l x : first_match f l = None -> x ∈ l -> f x = false.
Proof.
  unfold first_match. destruct (filter _ l) as [|y t] eqn:E; [|done]. intros _ Hx. destruct (f x) eqn:Hf; [|done].
  assert (H : x ∈ filter (fun x => f x = true) l) by by apply list_elem_of_filter. rewrite E in H. set_solver.
Qed.

#[refine] Definition first_hw : FlowHw := {|
  hw_lookup p k := first_match (fun x => entry_matches p x k) (p_entries p);
  hw_control p k := first_match (fun c => meta_matches (c_match c) k) (p_control p)
|}.
Proof.
  - intros p k x H. exact (first_match_some _ _ _ H).
  - intros p k x H. exact (first_match_none _ _ _ H).
  - intros p k x H. exact (first_match_some _ _ _ H).
  - intros p k x H. exact (first_match_none _ _ _ H).
Defined.

Section hw.
Context {HW : FlowHw}.

(** A packet at a pipe with entries: where it leaves, changed, or [None] when it is dropped. *)
Definition at_basic (p : flow_pipe) (k : packet) : option (Z * packet) :=
  let (f, k) := match hw_lookup p k with
                | Some x => (p_fwd p, modify p x k)
                | None => (p_miss p, k)
                end in
  match fwd_type f with
  | DOCA_FLOW_FWD_PORT => Some (fwd_port_id f, k)
  | _ => None
  end.

Definition at_control (ps : list flow_pipe) (p : flow_pipe) (k : packet) : option (Z * packet) :=
  match hw_control p k with
  | None => None
  | Some c =>
      match fwd_type (c_fwd c) with
      | DOCA_FLOW_FWD_PIPE => match ps !! Z.to_nat (next_pipe (c_fwd c)) with Some q => at_basic q k | None => None end
      | _ => None
      end
  end.

(** A packet that arrives at a port. *)
Definition translate (e : engine) (port : Z) (k : packet) : option (Z * packet) :=
  match first_match (fun p => p_root p && (p_port p =? port)) (pipes e) with
  | None => None
  | Some p => if bool_decide (p_type p = DOCA_FLOW_PIPE_CONTROL) then at_control (pipes e) p k else at_basic p k
  end.

Lemma lookup_unique p x k :
  x ∈ p_entries p -> entry_matches p x k = true ->
  (forall y, y ∈ p_entries p -> entry_matches p y k = true -> y = x) -> hw_lookup p k = Some x.
Proof.
  intros Hx Hm Hu. destruct (hw_lookup p k) as [y|] eqn:E.
  - destruct (hw_hit _ _ _ E) as [Hy Hym]. f_equal. by apply Hu.
  - by rewrite (hw_miss _ _ _ E Hx) in Hm.
Qed.

Lemma lookup_nothing p k :
  (forall y, y ∈ p_entries p -> entry_matches p y k = false) -> hw_lookup p k = None.
Proof.
  intros H. destruct (hw_lookup p k) as [y|] eqn:E; [|done].
  destruct (hw_hit _ _ _ E) as [Hy Hym]. by rewrite H in Hym.
Qed.

(** ** Tables of rules

    A pipe with one entry for each rule, in which the entry of a rule matches the packets
    that pass [guard] and carry the key of the rule. *)
Lemma NoDup_fmap_eq {A B} (f : A -> B) l x y : NoDup (f <$> l) -> x ∈ l -> y ∈ l -> f x = f y -> x = y.
Proof.
  intros H Hx Hy E. apply list_elem_of_lookup in Hx as [i Hi], Hy as [j Hj].
  assert (i = j) as <-; [|congruence].
  apply (NoDup_lookup _ i j (f x) H); rewrite list_lookup_fmap, ?Hi, ?Hj; cbn; congruence.
Qed.

Section table.
Context (p : flow_pipe) (mk : nat_rule_match -> flow_entry) (rules : list nat_rule_match).
Context {K : Type} `{!EqDecision K} (key : nat_rule_match -> K) (key_of : packet -> K) (guard : packet -> bool).
Context (Hp : p_entries p = mk <$> rules).
Context (Hmk : forall r k, r ∈ rules -> entry_matches p (mk r) k = guard k && bool_decide (key r = key_of k)).

Lemma table_hit r k :
  NoDup (key <$> rules) -> r ∈ rules -> guard k = true -> key r = key_of k -> hw_lookup p k = Some (mk r).
Proof using All.
  intros Hd Hr Hg Hk. apply lookup_unique.
  - rewrite Hp. by apply list_elem_of_fmap_2.
  - rewrite Hmk by done. by rewrite Hg, bool_decide_eq_true_2.
  - intros y Hy. rewrite Hp in Hy. apply list_elem_of_fmap in Hy as (r' & -> & Hr'). rewrite Hmk by done.
    rewrite Hg. cbn. intros H. apply bool_decide_eq_true_1 in H. f_equal.
    eapply NoDup_fmap_eq; [exact Hd|done..|congruence].
Qed.

Lemma table_miss k : guard k = false \/ key_of k ∉ key <$> rules -> hw_lookup p k = None.
Proof using All.
  intros H. apply lookup_nothing. intros y Hy. rewrite Hp in Hy. apply list_elem_of_fmap in Hy as (r & -> & Hr).
  rewrite Hmk by done. destruct H as [->|H]; [done|]. rewrite bool_decide_eq_false_2; [apply andb_false_r|].
  intros E. apply H. rewrite <-E. by apply list_elem_of_fmap_2.
Qed.
End table.
End hw.

(** ** The templates and the entries of the four builders

    Source and destination address, source and destination port of a header. *)
Definition fields (h : doca_flow_header_format) : Z * Z * Z * Z :=
  (ip4_src_ip h, ip4_dst_ip h, l4_src_port h, l4_dst_port h).

Lemma static_local_fields port :
  fields (outer (p_match (static_local_template port))) = (IP_CHANGEABLE, 0, 0, 0)
  /\ fields (act_outer (p_actions (static_local_template port))) = (IP_CHANGEABLE, 0, 0, 0).
Proof. split; vm_compute; reflexivity. Qed.

Lemma static_global_fields stack port :
  fields (outer (p_match (static_global_template stack port))) = (0, IP_CHANGEABLE, 0, 0)
  /\ fields (act_outer (p_actions (static_global_template stack port))) = (0, IP_CHANGEABLE, 0, 0).
Proof. split; vm_compute; reflexivity. Qed.

Lemma pat_local_fields port :
  fields (outer (p_match (pat_local_tcp port))) = (IP_CHANGEABLE, 0, PORT_CHANGEABLE, 0)
  /\ fields (act_outer (p_actions (pat_local_tcp port))) = (IP_CHANGEABLE, 0, PORT_CHANGEABLE, 0)
  /\ fields (outer (p_match (pat_local_udp port))) = (IP_CHANGEABLE, 0, PORT_CHANGEABLE, 0)
  /\ fields (act_outer (p_actions (pat_local_udp port))) = (IP_CHANGEABLE, 0, PORT_CHANGEABLE, 0).
Proof. repeat split; vm_compute; reflexivity. Qed.

Lemma pat_global_fields stack port :
  fields (outer (p_match (pat_global_tcp stack port))) = (0, IP_CHANGEABLE, 0, PORT_CHANGEABLE)
  /\ fields (act_outer (p_actions (pat_global_tcp stack port))) = (0, IP_CHANGEABLE, 0, PORT_CHANGEABLE)
  /\ fields (outer (p_match (pat_global_udp stack port))) = (0, IP_CHANGEABLE, 0, PORT_CHANGEABLE)
  /\ fields (act_outer (p_actions (pat_global_udp stack port))) = (0, IP_CHANGEABLE, 0, PORT_CHANGEABLE).
Proof. repeat split; vm_compute; reflexivity. Qed.

(** Addresses of 32 bits and ports of 16 bits. *)
Definition rule_wf (r : nat_rule_match) : Prop :=
  in_width 32 (local_ip r) /\ in_width 32 (global_ip r) /\ in_width 16 (local_port r) /\ in_width 16 (global_port r).

Lemma be16_width v : in_width 16 (cpu_to_be_16 v).
Proof. unfold cpu_to_be_16. apply (bswap_range 2). Qed.

Lemma be16_inj v v' : in_width 16 v -> in_width 16 v' -> cpu_to_be_16 v = cpu_to_be_16 v' -> v = v'.
Proof.
  intros H H' E. unfold cpu_to_be_16 in E. rewrite !uwrap_id in E by done. apply (f_equal (bswap 2)) in E.
  rewrite !bswap_bswap in E. change (2 ^ (8 * Z.of_nat 2)) with (2 ^ 16) in E.
  unfold in_width in *. by rewrite !Z.mod_small in E.
Qed.

(** The value of a member that was written. *)
Ltac field_value :=
  cbv [fields ip4_src_ip ip4_dst_ip l4_src_port l4_dst_port set_ip4_src_ip set_ip4_dst_ip set_tcp_src_port
       set_tcp_dst_port set_udp_src_port set_udp_dst_port set_l3 set_l4 on_outer on_act_outer e_match e_actions];
  cbn [l3 l4 outer act_outer header_zero match_zero actions_zero];
  repeat first [rewrite load_store_eq by (rewrite ?length_store by (cbn; lia); cbn; lia)
               |rewrite load_store_ne by (rewrite ?length_store by (cbn; lia); cbn; lia)];
  repeat match goal with
         | |- context [load ?a ?n (replicate ?m 0)] => change (load a n (replicate m 0)) with 0
         end;
  change (2 ^ (8 * Z.of_nat 4)) with (2 ^ 32); change (2 ^ (8 * Z.of_nat 2)) with (2 ^ 16);
  rewrite ?Z.mod_small by first [done | apply be16_width]; reflexivity.

Section entries.
Context (r : nat_rule_match) (Hr : rule_wf r).

Lemma static_local_entry_fields :
  fields (outer (e_match (static_local_entry r))) = (local_ip r, 0, 0, 0)
  /\ fields (act_outer (e_actions (static_local_entry r))) = (global_ip r, 0, 0, 0).
Proof using All. destruct Hr as (? & ? & ? & ?). unfold static_local_entry. split; field_value. Qed.

Lemma static_global_entry_fields :
  fields (outer (e_match (static_global_entry r))) = (0, global_ip r, 0, 0)
  /\ fields (act_outer (e_actions (static_global_entry r))) = (0, local_ip r, 0, 0).
Proof using All. destruct Hr as (? & ? & ? & ?). unfold static_global_entry. split; field_value. Qed.

Lemma pat_local_entry_fields :
  let x := pat_local_tcp_entry r in
  let y := pat_local_udp_entry r x in
  fields (outer (e_match x)) = (local_ip r, 0, cpu_to_be_16 (local_port r), 0)
  /\ fields (act_outer (e_actions x)) = (global_ip r, 0, cpu_to_be_16 (global_port r), 0)
  /\ fields (outer (e_match y)) = (local_ip r, 0, cpu_to_be_16 (local_port r), 0)
  /\ fields (act_outer (e_actions y)) = (global_ip r, 0, cpu_to_be_16 (global_port r), 0).
Proof using All.
  destruct Hr as (? & ? & ? & ?). unfold pat_local_udp_entry, pat_local_tcp_entry. cbv zeta. repeat split; field_value.
Qed.

(** The UDP entry of the global side has its ports exchanged. *)
Lemma pat_global_entry_fields :
  let x := pat_global_tcp_entry r in
  let y := pat_global_udp_entry r x in
  fields (outer (e_match x)) = (0, global_ip r, 0, cpu_to_be_16 (global_port r))
  /\ fields (act_outer (e_actions x)) = (0, local_ip r, 0, cpu_to_be_16 (local_port r))
  /\ fields (outer (e_match y)) = (0, global_ip r, 0, cpu_to_be_16 (local_port r))
  /\ fields (act_outer (e_actions y)) = (0, local_ip r, 0, cpu_to_be_16 (global_port r)).
Proof using All.
  destruct Hr as (? & ? & ? & ?). unfold pat_global_udp_entry, pat_global_tcp_entry. cbv zeta. repeat split; field_value.
Qed.
End entries.

Lemma matches_fields p x k a b c d a' b' c' d' :
  fields (outer (p_match p)) = (a, b, c, d) -> fields (outer (e_match x)) = (a', b', c', d') ->
  entry_matches p x k = meta_matches (p_match p) k && field_matches IP_CHANGEABLE a a' (pk_src k)
    && field_matches IP_CHANGEABLE b b' (pk_dst k) && field_matches PORT_CHANGEABLE c c' (pk_sport k)
    && field_matches PORT_CHANGEABLE d d' (pk_dport k).
Proof. intros [= <- <- <- <-] [= <- <- <- <-]. reflexivity. Qed.

Lemma modify_fields p x k a b c d a' b' c' d' :
  fields (act_outer (p_actions p)) = (a, b, c, d) -> fields (act_outer (e_actions x)) = (a', b', c', d') ->
  modify p x k = Packet (pk_l3 k) (pk_l4 k) (field_action IP_CHANGEABLE a a' (pk_src k))
    (field_action IP_CHANGEABLE b b' (pk_dst k)) (field_action PORT_CHANGEABLE c c' (pk_sport k))
    (field_action PORT_CHANGEABLE d d' (pk_dport k)).
Proof. intros [= <- <- <- <-] [= <- <- <- <-]. reflexivity. Qed.

Lemma eqb_decide x y : (x =? y) = bool_decide (x = y).
Proof. apply Bool.eq_iff_eq_true. rewrite bool_decide_eq_true. apply Z.eqb_eq. Qed.

Lemma pair_decide {A B} `{!EqDecision A, !EqDecision B} (a a' : A) (b b' : B) :
  bool_decide ((a, b) = (a', b')) = bool_decide (a = a') && bool_decide (b = b').
Proof. repeat case_bool_decide; naive_solver. Qed.

(** The two ports of the application. *)
Definition nat_port (port : Z) : Prop := port = 0 \/ port = 1.

Lemma fwd_peer_port port : nat_port port ->
  fwd_type (fwd_peer port) = DOCA_FLOW_FWD_PORT /\ fwd_port_id (fwd_peer port) = 1 - port.
Proof. intros [->| ->]; split; vm_compute; reflexivity. Qed.

Section basic.
Context {HW : FlowHw} (rules : list nat_rule_match) (Hwf : Forall rule_wf rules).

Lemma rule_in_wf r : r ∈ rules -> rule_wf r.
Proof using All. rewrite Forall_forall in Hwf. apply Hwf. Qed.

(** A packet that is found, or not, in a table that forwards to the other port. *)
Lemma at_basic_hit p x k port :
  hw_lookup p k = Some x -> p_fwd p = fwd_peer port -> nat_port port ->
  at_basic p k = Some (1 - port, modify p x k).
Proof using HW.
  intros E Hf Hp. unfold at_basic. rewrite E, Hf. destruct (fwd_peer_port port Hp) as [-> ->]. done.
Qed.

Lemma at_basic_miss p k raw : hw_lookup p k = None -> p_miss p = fwd_drop raw -> at_basic p k = None.
Proof using HW. intros E Hm. unfold at_basic. by rewrite E, Hm. Qed.

Definition is_ipv4 (k : packet) : bool := bool_decide (pk_l3 k = DOCA_FLOW_L3_META_IPV4).

Lemma static_meta port stack k :
  meta_matches (p_match (static_local_template port)) k = is_ipv4 k
  /\ meta_matches (p_match (static_global_template stack port)) k = is_ipv4 k.
Proof.
  unfold meta_matches, is_ipv4. cbn. split; destruct (pk_l3 k); reflexivity.
Qed.

Definition local_table (port : Z) : flow_pipe := with_entries (static_local_entry <$> rules) (static_local_template port).
Definition global_table (stack : list Z) (port : Z) : flow_pipe :=
  with_entries (static_global_entry <$> rules) (static_global_template stack port).

Lemma local_table_matches port r k :
  r ∈ rules -> entry_matches (local_table port) (static_local_entry r) k = is_ipv4 k && bool_decide (local_ip r = pk_src k).
Proof using All.
  intros Hr%rule_in_wf. destruct (static_local_fields port) as [Ht _], (static_local_entry_fields r Hr) as [He _].
  rewrite (matches_fields (local_table port) _ k _ _ _ _ _ _ _ _ Ht He).
  change (meta_matches _ k) with (meta_matches (p_match (static_local_template port)) k).
  destruct (static_meta port [] k) as [-> _]. unfold field_matches. cbn. by rewrite eqb_decide, !andb_true_r.
Qed.

Lemma global_table_matches stack port r k :
  r ∈ rules -> entry_matches (global_table stack port) (static_global_entry r) k = is_ipv4 k && bool_decide (global_ip r = pk_dst k).
Proof using All.
  intros Hr%rule_in_wf. destruct (static_global_fields stack port) as [Ht _], (static_global_entry_fields r Hr) as [He _].
  rewrite (matches_fields (global_table stack port) _ k _ _ _ _ _ _ _ _ Ht He).
  change (meta_matches _ k) with (meta_matches (p_match (static_global_template stack port)) k).
  destruct (static_meta port stack k) as [_ ->]. unfold field_matches. cbn. by rewrite eqb_decide, !andb_true_r.
Qed.

(** The static translations. *)
Lemma at_local_table port r k :
  nat_port port -> NoDup (local_ip <$> rules) -> r ∈ rules -> is_ipv4 k = true -> pk_src k = local_ip r ->
  at_basic (local_table port) k = Some (1 - port, Packet (pk_l3 k) (pk_l4 k) (global_ip r) (pk_dst k) (pk_sport k) (pk_dport k)).
Proof using All.
  intros Hp Hd Hr Hk Hs. rewrite (at_basic_hit (local_table port) (static_local_entry r) k port); try done.
  - destruct (static_local_fields port) as [_ Ht], (static_local_entry_fields r (rule_in_wf r Hr)) as [_ He].
    by rewrite (modify_fields (local_table port) _ k _ _ _ _ _ _ _ _ Ht He).
  - by apply (table_hit (local_table port) static_local_entry rules local_ip pk_src is_ipv4 eq_refl (local_table_matches port)).
Qed.

Lemma off_local_table port k :
  is_ipv4 k = false \/ pk_src k ∉ local_ip <$> rules -> at_basic (local_table port) k = None.
Proof using All.
  intros H. eapply at_basic_miss; [|done].
  by apply (table_miss (local_table port) static_local_entry rules local_ip pk_src is_ipv4 eq_refl (local_table_matches port)).
Qed.

Lemma at_global_table stack port r k :
  nat_port port -> NoDup (global_ip <$> rules) -> r ∈ rules -> is_ipv4 k = true -> pk_dst k = global_ip r ->
  at_basic (global_table stack port) k
  = Some (1 - port, Packet (pk_l3 k) (pk_l4 k) (pk_src k) (local_ip r) (pk_sport k) (pk_dport k)).
Proof using All.
  intros Hp Hd Hr Hk Hs. rewrite (at_basic_hit (global_table stack port) (static_global_entry r) k port); try done.
  - destruct (static_global_fields stack port) as [_ Ht], (static_global_entry_fields r (rule_in_wf r Hr)) as [_ He].
    by rewrite (modify_fields (global_table stack port) _ k _ _ _ _ _ _ _ _ Ht He).
  - by apply (table_hit (global_table stack port) static_global_entry rules global_ip pk_dst is_ipv4 eq_refl
                (global_table_matches stack port)).
Qed.

Lemma off_global_table stack port k :
  is_ipv4 k = false \/ pk_dst k ∉ global_ip <$> rules -> at_basic (global_table stack port) k = None.
Proof using All.
  intros H. eapply at_basic_miss; [|done].
  by apply (table_miss (global_table stack port) static_global_entry rules global_ip pk_dst is_ipv4 eq_refl
              (global_table_matches stack port)).
Qed.
End basic.

(** ** The whole application *)

(** Port [lan] is the one with the LAN interface and [wan] the other one, as their names tell. *)
Definition wired (name : Z -> option (list ascii)) (cfg : nat_cfg) (lan wan : Z) : Prop :=
  nat_port lan /\ wan = 1 - lan
  /\ name_has name lan (port_intf_name (lan_intf_id cfg)) = true
  /\ name_has name wan (port_intf_name (lan_intf_id cfg)) = false
  /\ name_has name wan (port_intf_name (wan_intf_id cfg)) = true.

Lemma first_match_cons {A} (f : A -> bool) x l : first_match f (x :: l) = if f x then Some x else first_match f l.
Proof. unfold first_match. rewrite filter_cons. destruct (f x) eqn:E; by case_decide. Qed.

Lemma succeeds_run w : calls w = [] -> succeeds w = Ret (true, w).
Proof. intros Hw. unfold succeeds. cbv [mbind io_bind call]. by rewrite Hw. Qed.

(** Two ports, each built with success. *)
Lemma ports_run name stack rules n cfg cs0 ps1 cs1 ps2 cs2 w :
  calls w = [] ->
  port_pipes name stack 0 rules n cfg (Engine [] [] cs0) w = Ret ((DOCA_SUCCESS, Engine ps1 [] cs1), w) ->
  port_pipes name stack 1 rules n cfg (Engine ps1 [] cs1) w = Ret ((DOCA_SUCCESS, Engine ps2 [] cs2), w) ->
  nat_pipes_init name stack rules n cfg NAT_PORTS_NUM (Engine [] [] cs0) w = Ret ((DOCA_SUCCESS, Engine ps2 [] cs2), w).
Proof.
  intros Hw H0 H1. unfold nat_pipes_init, NAT_PORTS_NUM. cbn [ports_for].
  rewrite (run_bind _ _ _ _ _ (succeeds_run w Hw)). cbn [negb]. rewrite (run_bind _ _ _ _ _ H0).
  change (is_ok DOCA_SUCCESS) with true. cbn [negb]. change (0 + 1) with 1.
  rewrite (run_bind _ _ _ _ _ (succeeds_run w Hw)). cbn [negb]. rewrite (run_bind _ _ _ _ _ H1). done.
Qed.

Section static.
Context (name : Z -> option (list ascii)) (stack : list Z) (cfg : nat_cfg) (rules : list nat_rule_match) (lan wan : Z).
Context (Hmode : mode cfg = STATIC) (Hwire : wired name cfg lan wan) (Hlen : Z.of_nat (length rules) <= 65535).

Lemma static_lan_run e w :
  calls w = [] -> Forall (obliging 1) (comps e) -> queue e = [] ->
  exists cs, port_pipes name stack lan rules (Z.of_nat (length rules)) cfg e w
    = Ret ((DOCA_SUCCESS, Engine (pipes e ++ [local_table rules lan]) [] cs), w) /\ Forall (obliging 1) cs.
Proof using All.
  intros Hw Hc Hq. destruct Hwire as (_ & _ & H & _). unfold port_pipes. rewrite Hmode, H. by apply static_pipe_built.
Qed.

Lemma static_wan_run e w :
  calls w = [] -> Forall (obliging 1) (comps e) -> queue e = [] ->
  exists cs, port_pipes name stack wan rules (Z.of_nat (length rules)) cfg e w
    = Ret ((DOCA_SUCCESS, Engine (pipes e ++ [global_table rules stack wan]) [] cs), w) /\ Forall (obliging 1) cs.
Proof using All.
  intros Hw Hc Hq. destruct Hwire as (_ & _ & _ & H1 & H2). unfold port_pipes. rewrite Hmode, H1, H2.
  by apply static_pipe_built.
Qed.

Lemma static_init_run cs w :
  calls w = [] -> Forall (obliging 1) cs ->
  exists e, nat_pipes_init name stack rules (Z.of_nat (length rules)) cfg NAT_PORTS_NUM (Engine [] [] cs) w
      = Ret ((DOCA_SUCCESS, e), w)
    /\ (pipes e = [local_table rules lan; global_table rules stack wan]
        \/ pipes e = [global_table rules stack wan; local_table rules lan]).
Proof using All.
  intros Hw Hc. destruct Hwire as (Hp & Hwl & _). destruct Hp as [Hl|Hl].
  - destruct (static_lan_run (Engine [] [] cs) w) as (cs1 & E1 & Hc1); try done.
    destruct (static_wan_run (Engine [local_table rules lan] [] cs1) w) as (cs2 & E2 & Hc2); try done.
    rewrite Hwl, Hl in *. eexists. split; [eapply ports_run; [done|exact E1|exact E2]|by left].
  - destruct (static_wan_run (Engine [] [] cs) w) as (cs1 & E1 & Hc1); try done.
    destruct (static_lan_run (Engine [global_table rules stack wan] [] cs1) w) as (cs2 & E2 & Hc2); try done.
    rewrite Hwl, Hl in *. eexists. split; [eapply ports_run; [done|exact E1|exact E2]|by right].
Qed.
End static.

Lemma static_translate {HW : FlowHw} rules stack lan wan e k :
  nat_port lan -> wan = 1 - lan ->
  pipes e = [local_table rules lan; global_table rules stack wan]
  \/ pipes e = [global_table rules stack wan; local_table rules lan] ->
  translate e lan k = at_basic (local_table rules lan) k /\ translate e wan k = at_basic (global_table rules stack wan) k.
Proof.
  intros Hl -> He. unfold translate.
  assert (Hne : (lan =? 1 - lan) = false /\ (1 - lan =? lan) = false) by (destruct Hl as [->| ->]; done).
  destruct Hne as [N1 N2].
  destruct He as [-> | ->]; rewrite !first_match_cons; cbn; rewrite ?Z.eqb_refl, ?N1, ?N2; done.
Qed.

(** C6: The static mode translates addresses and undoes it on the way back. If no
    library call fails, the rules (at most 65535) have distinct local and distinct
    global addresses, and the device, each time it is asked, completes at least one of
    the waiting entries (a turn without a completion at a full queue makes the code
    return an error), [nat_pipes_init] builds the pipes of both ports, however many
    entries each turn completes. Then, for every rule, an IPv4 packet from its local
    address leaves at the WAN port with the global address of the rule as its source, a
    packet to that global address comes back to the LAN port with the local address as
    its destination, with everything else as it was, and packets of unknown hosts, or
    not IPv4, are dropped at both ports. *)
Theorem nat_static_translates {HW : FlowHw} name stack cfg rules lan wan cs w :
  mode cfg = STATIC -> wired name cfg lan wan -> Z.of_nat (length rules) <= 65535 -> Forall rule_wf rules ->
  NoDup (local_ip <$> rules) -> NoDup (global_ip <$> rules) -> calls w = [] -> Forall (obliging 1) cs ->
  exists e,
    nat_pipes_init name stack rules (Z.of_nat (length rules)) cfg NAT_PORTS_NUM (Engine [] [] cs) w
      = Ret ((DOCA_SUCCESS, e), w)
    /\ (forall r l4 peer sp dp, r ∈ rules ->
          translate e lan (Packet DOCA_FLOW_L3_META_IPV4 l4 (local_ip r) peer sp dp)
            = Some (wan, Packet DOCA_FLOW_L3_META_IPV4 l4 (global_ip r) peer sp dp)
          /\ translate e wan (Packet DOCA_FLOW_L3_META_IPV4 l4 peer (global_ip r) dp sp)
            = Some (lan, Packet DOCA_FLOW_L3_META_IPV4 l4 peer (local_ip r) dp sp))
    /\ (forall k, is_ipv4 k = false \/ pk_src k ∉ local_ip <$> rules -> translate e lan k = None)
    /\ (forall k, is_ipv4 k = false \/ pk_dst k ∉ global_ip <$> rules -> translate e wan k = None).
Proof.
  intros Hm Hw Hn Hwf Hl Hg Hc Hcs. destruct (static_init_run name stack cfg rules lan wan Hm Hw Hn cs w Hc Hcs) as (e & E & He).
  exists e. split; [exact E|]. destruct Hw as (Hp & Hwl & _).
  assert (Hpw : nat_port wan) by (destruct Hp; subst; [right|left]; lia).
  pose proof (fun k => static_translate rules stack lan wan e k Hp Hwl He) as T. split; [|split].
  - intros r l4 peer sp dp Hr. split.
    + destruct (T (Packet DOCA_FLOW_L3_META_IPV4 l4 (local_ip r) peer sp dp)) as [-> _].
      rewrite (at_local_table rules Hwf lan r) by done. cbn. by rewrite Hwl.
    + destruct (T (Packet DOCA_FLOW_L3_META_IPV4 l4 peer (global_ip r) dp sp)) as [_ ->].
      rewrite (at_global_table rules Hwf stack wan r) by done. cbn. do 2 f_equal. lia.
  - intros k Hk. destruct (T k) as [-> _]. by apply off_local_table.
  - intros k Hk. destruct (T k) as [_ ->]. by apply off_global_table.
Qed.

(** ** PAT mode *)

Lemma NoDup_fmap_via {A B C} (f : A -> B) (g : A -> C) l :
  NoDup (f <$> l) -> (forall x y, x ∈ l -> y ∈ l -> g x = g y -> f x = f y) -> NoDup (g <$> l).
Proof.
  induction l as [|x l IH]; cbn; intros Hd Hi; [constructor|]. inversion Hd as [|? ? Hx Hd']; subst.
  constructor; [|apply IH; [done|]; set_solver].
  intros (y & E & Hy)%list_elem_of_fmap. apply Hx. apply list_elem_of_fmap. exists y. split; [|done].
  apply Hi; set_solver.
Qed.

(** Address and port of a rule on either side, with the port as it is on the wire. *)
Definition local_key (r : nat_rule_match) : Z * Z := (local_ip r, cpu_to_be_16 (local_port r)).
Definition global_key (r : nat_rule_match) : Z * Z := (global_ip r, cpu_to_be_16 (global_port r)).
Definition crossed_key (r : nat_rule_match) : Z * Z := (global_ip r, cpu_to_be_16 (local_port r)).
Definition src_key (k : packet) : Z * Z := (pk_src k, pk_sport k).
Definition dst_key (k : packet) : Z * Z := (pk_dst k, pk_dport k).

Definition l4_is (t : doca_flow_l4_meta) (k : packet) : bool := is_ipv4 k && bool_decide (pk_l4 k = t).

Section pat_tables.
Context {HW : FlowHw} (rules : list nat_rule_match) (Hwf : Forall rule_wf rules).

Definition local_tcp (port : Z) : flow_pipe := with_entries (pat_local_tcp_entry <$> rules) (pat_local_tcp port).
Definition local_udp (port : Z) : flow_pipe :=
  with_entries ((fun r => pat_local_udp_entry r (pat_local_tcp_entry r)) <$> rules) (pat_local_udp port).
Definition global_tcp (stack : list Z) (port : Z) : flow_pipe :=
  with_entries (pat_global_tcp_entry <$> rules) (pat_global_tcp stack port).
Definition global_udp (stack : list Z) (port : Z) : flow_pipe :=
  with_entries ((fun r => pat_global_udp_entry r (pat_global_tcp_entry r)) <$> rules) (pat_global_udp stack port).

(** A pipe on the source side: what its entries match, and what it does. *)
Lemma src_matches p x k a b :
  fields (outer (p_match p)) = (IP_CHANGEABLE, 0, PORT_CHANGEABLE, 0) -> fields (outer (e_match x)) = (a, 0, b, 0) ->
  meta_l3 (p_match p) = DOCA_FLOW_L3_META_NONE -> meta_l4 (p_match p) = DOCA_FLOW_L4_META_NONE ->
  entry_matches p x k = true && bool_decide ((a, b) = src_key k).
Proof.
  intros Hp Hx H3 H4. rewrite (matches_fields p x k _ _ _ _ _ _ _ _ Hp Hx). unfold meta_matches, src_key. rewrite H3, H4.
  unfold field_matches. cbn. by rewrite pair_decide, !eqb_decide, !andb_true_r.
Qed.

Lemma dst_matches p x k a b :
  fields (outer (p_match p)) = (0, IP_CHANGEABLE, 0, PORT_CHANGEABLE) -> fields (outer (e_match x)) = (0, a, 0, b) ->
  meta_l3 (p_match p) = DOCA_FLOW_L3_META_NONE -> meta_l4 (p_match p) = DOCA_FLOW_L4_META_NONE ->
  entry_matches p x k = true && bool_decide ((a, b) = dst_key k).
Proof.
  intros Hp Hx H3 H4. rewrite (matches_fields p x k _ _ _ _ _ _ _ _ Hp Hx). unfold meta_matches, dst_key. rewrite H3, H4.
  unfold field_matches. cbn. by rewrite pair_decide, !eqb_decide, !andb_true_r.
Qed.

Lemma at_local_pat p mk port r k :
  p = local_tcp port /\ mk = pat_local_tcp_entry
  \/ p = local_udp port /\ mk = (fun r => pat_local_udp_entry r (pat_local_tcp_entry r)) ->
  nat_port port -> NoDup (local_key <$> rules) -> r ∈ rules -> src_key k = local_key r ->
  at_basic p k = Some (1 - port, Packet (pk_l3 k) (pk_l4 k) (global_ip r) (pk_dst k) (cpu_to_be_16 (global_port r)) (pk_dport k)).
Proof using Hwf.
  intros Hc Hp Hd Hr Hk. destruct (pat_local_fields port) as (T1 & A1 & T2 & A2).
  rewrite (at_basic_hit p (mk r) k port); try done.
  - destruct (pat_local_entry_fields r (rule_in_wf rules Hwf r Hr)) as (_ & F1 & _ & F2).
    destruct Hc as [[-> ->]|[-> ->]].
    + by rewrite (modify_fields (local_tcp port) _ k _ _ _ _ _ _ _ _ A1 F1).
    + by rewrite (modify_fields (local_udp port) _ k _ _ _ _ _ _ _ _ A2 F2).
  - apply (table_hit p mk rules local_key src_key (fun _ => true)); try done.
    + by destruct Hc as [[-> ->]|[-> ->]].
    + intros r' k' Hr'. destruct (pat_local_entry_fields r' (rule_in_wf rules Hwf r' Hr')) as (F1 & _ & F2 & _).
      destruct Hc as [[-> ->]|[-> ->]]; by apply src_matches.
  - by destruct Hc as [[-> _]|[-> _]].
Qed.

Lemma at_global_pat stack port r k :
  nat_port port -> NoDup (global_key <$> rules) -> r ∈ rules -> dst_key k = global_key r ->
  at_basic (global_tcp stack port) k
  = Some (1 - port, Packet (pk_l3 k) (pk_l4 k) (pk_src k) (local_ip r) (pk_sport k) (cpu_to_be_16 (local_port r))).
Proof using Hwf.
  intros Hp Hd Hr Hk. destruct (pat_global_fields stack port) as (T1 & A1 & _).
  rewrite (at_basic_hit (global_tcp stack port) (pat_global_tcp_entry r) k port); try done.
  - destruct (pat_global_entry_fields r (rule_in_wf rules Hwf r Hr)) as (_ & F1 & _).
    by rewrite (modify_fields (global_tcp stack port) _ k _ _ _ _ _ _ _ _ A1 F1).
  - apply (table_hit (global_tcp stack port) pat_global_tcp_entry rules global_key dst_key (fun _ => true)); try done.
    intros r' k' Hr'. destruct (pat_global_entry_fields r' (rule_in_wf rules Hwf r' Hr')) as (F1 & _).
    by apply dst_matches.
Qed.

(** The UDP pipe of the global side is keyed by the local ports. *)
Lemma off_global_udp stack port k :
  dst_key k ∉ crossed_key <$> rules -> at_basic (global_udp stack port) k = None.
Proof using Hwf.
  intros H. eapply at_basic_miss; [|done].
  apply (table_miss (global_udp stack port) (fun r => pat_global_udp_entry r (pat_global_tcp_entry r)) rules
           crossed_key dst_key (fun _ => true)); [done| |by right].
  intros r k' Hr. destruct (pat_global_fields stack port) as (_ & _ & T2 & _).
  destruct (pat_global_entry_fields r (rule_in_wf rules Hwf r Hr)) as (_ & _ & F2 & _). by apply dst_matches.
Qed.
End pat_tables.

Section control.
Context {HW : FlowHw}.

Lemma control_meta t k : t <> DOCA_FLOW_L4_META_NONE -> meta_matches (control_match t) k = l4_is t k.
Proof.
  intros Ht. unfold meta_matches, l4_is, is_ipv4, control_match. cbn. rewrite (bool_decide_eq_false_2 (t = _)) by done. cbn.
  f_equal; apply bool_decide_ext; split; congruence.
Qed.

Lemma control_pick port udp tcp k :
  (l4_is DOCA_FLOW_L4_META_TCP k = true ->
     hw_control (control_pipe_of port udp tcp) k
     = Some (ControlEntry (control_match DOCA_FLOW_L4_META_TCP) (fwd_to tcp (fwd_to udp fwd_zero))))
  /\ (l4_is DOCA_FLOW_L4_META_UDP k = true ->
     hw_control (control_pipe_of port udp tcp) k
     = Some (ControlEntry (control_match DOCA_FLOW_L4_META_UDP) (fwd_to udp fwd_zero)))
  /\ (l4_is DOCA_FLOW_L4_META_TCP k = false -> l4_is DOCA_FLOW_L4_META_UDP k = false ->
     hw_control (control_pipe_of port udp tcp) k = None).
Proof.
  set (p := control_pipe_of port udp tcp).
  assert (Hc : forall c, c ∈ p_control p -> meta_matches (c_match c) k = true ->
    c = ControlEntry (control_match DOCA_FLOW_L4_META_UDP) (fwd_to udp fwd_zero) /\ l4_is DOCA_FLOW_L4_META_UDP k = true
    \/ c = ControlEntry (control_match DOCA_FLOW_L4_META_TCP) (fwd_to tcp (fwd_to udp fwd_zero))
       /\ l4_is DOCA_FLOW_L4_META_TCP k = true).
  { intros c Hin. cbn in Hin. apply elem_of_cons in Hin as [->|Hin]; [|apply list_elem_of_singleton in Hin as ->];
      cbn [c_match]; rewrite control_meta by done; auto. }
  assert (Hex : l4_is DOCA_FLOW_L4_META_TCP k = true -> l4_is DOCA_FLOW_L4_META_UDP k = true -> False).
  { unfold l4_is. intros [_ H1]%andb_true_iff [_ H2]%andb_true_iff.
    apply bool_decide_eq_true_1 in H1, H2. congruence. }
  assert (Hm : forall t, t <> DOCA_FLOW_L4_META_NONE -> l4_is t k = true -> forall f,
            ControlEntry (control_match t) f ∈ p_control p -> hw_control p k <> None).
  { intros t Ht Hk f Hin E. pose proof (hw_control_miss _ _ _ E Hin) as H. cbn [c_match] in H.
    rewrite control_meta in H by done. congruence. }
  destruct (hw_control p k) as [c|] eqn:E.
  - destruct (hw_control_hit _ _ _ E) as [Hin Hmk]. destruct (Hc c Hin Hmk) as [[-> H]|[-> H]]; repeat split;
      intros; try done; try (exfalso; by apply Hex); congruence.
  - repeat split; try done; intros Hk; exfalso.
    + by apply (Hm DOCA_FLOW_L4_META_TCP ltac:(done) Hk (fwd_to tcp (fwd_to udp fwd_zero))); [cbn; set_solver|].
    + by apply (Hm DOCA_FLOW_L4_META_UDP ltac:(done) Hk (fwd_to udp fwd_zero)); [cbn; set_solver|].
Qed.

Lemma fwd_to_next h f : Z.of_nat h < 2 ^ 64 -> length (fwd_raw f) = 32%nat ->
  fwd_type (fwd_to h f) = DOCA_FLOW_FWD_PIPE /\ next_pipe (fwd_to h f) = Z.of_nat h.
Proof.
  intros Hh Hf. split; [done|]. unfold fwd_to, next_pipe, set_next_pipe, set_fwd_type. cbn [fwd_raw].
  rewrite load_store_eq by (rewrite Hf; lia). apply Z.mod_small. cbn. lia.
Qed.

(** A packet at the root of a port in PAT mode. *)
Lemma at_control_pipe ps port udp tcp pu pt k :
  Z.of_nat udp < 2 ^ 64 -> Z.of_nat tcp < 2 ^ 64 -> ps !! udp = Some pu -> ps !! tcp = Some pt ->
  at_control ps (control_pipe_of port udp tcp) k =
    if l4_is DOCA_FLOW_L4_META_TCP k then at_basic pt k
    else if l4_is DOCA_FLOW_L4_META_UDP k then at_basic pu k else None.
Proof.
  intros Hu Ht Eu Et. destruct (control_pick port udp tcp k) as (H1 & H2 & H3). unfold at_control.
  assert (Hz : length (fwd_raw fwd_zero) = 32%nat) by reflexivity.
  destruct (l4_is DOCA_FLOW_L4_META_TCP k).
  - rewrite H1 by done. cbn [c_fwd].
    assert (Hl : length (fwd_raw (fwd_to udp fwd_zero)) = 32%nat) by (cbn; rewrite length_store; cbn; lia).
    destruct (fwd_to_next tcp _ Ht Hl) as [-> ->]. by rewrite Nat2Z.id, Et.
  - destruct (l4_is DOCA_FLOW_L4_META_UDP k); [|by rewrite H3].
    rewrite H2 by done. cbn [c_fwd]. destruct (fwd_to_next udp _ Hu Hz) as [-> ->]. by rewrite Nat2Z.id, Eu.
Qed.
End control.

Definition lan_pipes (rules : list nat_rule_match) (lan : Z) (n : nat) : list flow_pipe :=
  [local_tcp rules lan; local_udp rules lan; control_pipe_of lan (S n) n].
Definition wan_pipes (rules : list nat_rule_match) (stack : list Z) (wan : Z) (n : nat) : list flow_pipe :=
  [global_tcp rules stack wan; global_udp rules stack wan; control_pipe_of wan (S n) n].

(** The pipes of the application in PAT mode. *)
Definition pat_pipes (rules : list nat_rule_match) (stack : list Z) (lan wan : Z) (ps : list flow_pipe) : Prop :=
  ps = lan_pipes rules lan 0 ++ wan_pipes rules stack wan 3 \/ ps = wan_pipes rules stack wan 0 ++ lan_pipes rules lan 3.

Section pat.
Context (name : Z -> option (list ascii)) (stack : list Z) (cfg : nat_cfg) (rules : list nat_rule_match) (lan wan : Z).
Context (Hmode : mode cfg = PAT) (Hwire : wired name cfg lan wan) (Hlen : Z.of_nat (length rules) <= 65535).

Lemma pat_lan_run e w :
  calls w = [] -> Forall (obliging 2) (comps e) -> queue e = [] ->
  exists cs, port_pipes name stack lan rules (Z.of_nat (length rules)) cfg e w
    = Ret ((DOCA_SUCCESS, Engine (pipes e ++ lan_pipes rules lan (length (pipes e))) [] cs), w) /\ Forall (obliging 2) cs.
Proof using All.
  intros Hw Hc Hq. destruct Hwire as (_ & _ & H & _). unfold port_pipes. rewrite Hmode, H.
  destruct (pat_pipe_built lan (pat_local_tcp lan) (pat_local_udp lan) pat_local_tcp_entry pat_local_udp_entry rules e w
    Hlen Hw Hc Hq) as (cs & E & Hcs). by exists cs.
Qed.

Lemma pat_wan_run e w :
  calls w = [] -> Forall (obliging 2) (comps e) -> queue e = [] ->
  exists cs, port_pipes name stack wan rules (Z.of_nat (length rules)) cfg e w
    = Ret ((DOCA_SUCCESS, Engine (pipes e ++ wan_pipes rules stack wan (length (pipes e))) [] cs), w)
    /\ Forall (obliging 2) cs.
Proof using All.
  intros Hw Hc Hq. destruct Hwire as (_ & _ & _ & H1 & H2). unfold port_pipes. rewrite Hmode, H1, H2.
  destruct (pat_pipe_built wan (pat_global_tcp stack wan) (pat_global_udp stack wan) pat_global_tcp_entry
    pat_global_udp_entry rules e w Hlen Hw Hc Hq) as (cs & E & Hcs). by exists cs.
Qed.

Lemma pat_init_run cs w :
  calls w = [] -> Forall (obliging 2) cs ->
  exists e, nat_pipes_init name stack rules (Z.of_nat (length rules)) cfg NAT_PORTS_NUM (Engine [] [] cs) w
      = Ret ((DOCA_SUCCESS, e), w) /\ pat_pipes rules stack lan wan (pipes e).
Proof using All.
  intros Hw Hc. destruct Hwire as (Hp & Hwl & _). destruct Hp as [Hl|Hl].
  - destruct (pat_lan_run (Engine [] [] cs) w) as (cs1 & E1 & Hc1); try done.
    destruct (pat_wan_run (Engine (lan_pipes rules lan 0) [] cs1) w) as (cs2 & E2 & Hc2); try done.
    rewrite Hwl, Hl in *. eexists. split; [eapply ports_run; [done|exact E1|exact E2]|by left].
  - destruct (pat_wan_run (Engine [] [] cs) w) as (cs1 & E1 & Hc1); try done.
    destruct (pat_lan_run (Engine (wan_pipes rules stack wan 0) [] cs1) w) as (cs2 & E2 & Hc2); try done.
    rewrite Hwl, Hl in *. eexists. split; [eapply ports_run; [done|exact E1|exact E2]|by right].
Qed.
End pat.

Definition by_l4 {A} (k : packet) (tcp udp : option A) : option A :=
  if l4_is DOCA_FLOW_L4_META_TCP k then tcp else if l4_is DOCA_FLOW_L4_META_UDP k then udp else None.

Lemma pat_translate {HW : FlowHw} rules stack lan wan e k :
  nat_port lan -> wan = 1 - lan -> pat_pipes rules stack lan wan (pipes e) ->
  translate e lan k = by_l4 k (at_basic (local_tcp rules lan) k) (at_basic (local_udp rules lan) k)
  /\ translate e wan k = by_l4 k (at_basic (global_tcp rules stack wan) k) (at_basic (global_udp rules stack wan) k).
Proof.
  intros Hl -> He. unfold translate, by_l4.
  assert (Hne : (lan =? 1 - lan) = false /\ (1 - lan =? lan) = false) by (destruct Hl as [->| ->]; done).
  destruct Hne as [N1 N2].
  destruct He as [-> | ->]; unfold lan_pipes, wan_pipes; cbn [app]; rewrite !first_match_cons;
    cbn [p_root p_port local_tcp local_udp global_tcp global_udp with_entries pat_local_tcp pat_local_udp pat_global_tcp
         pat_global_udp control_pipe_of andb]; rewrite ?Z.eqb_refl, ?N1, ?N2; cbn [p_type];
    rewrite !bool_decide_eq_true_2 by done; split; by apply at_control_pipe.
Qed.

(** Distinct pairs of address and port stay distinct on the wire. *)
Lemma keys_distinct (ip port : nat_rule_match -> Z) rules :
  Forall (fun r => in_width 16 (port r)) rules -> NoDup ((fun r => (ip r, port r)) <$> rules) ->
  NoDup ((fun r => (ip r, cpu_to_be_16 (port r))) <$> rules).
Proof.
  intros Hw Hd. eapply NoDup_fmap_via; [exact Hd|]. rewrite Forall_forall in Hw. intros x y Hx Hy [= -> E].
  f_equal. by apply be16_inj; [apply Hw|apply Hw|].
Qed.

(** C7: The PAT mode translates TCP connections and undoes it on the way back. If no
    library call fails, the rules (at most 65535) have distinct local and distinct
    global pairs of address and port, and the device, each time it is asked, completes a
    positive even number of the waiting entries (otherwise the code may wait for ever,
    see [pat_odd_completion_hangs]), [nat_pipes_init] builds the three pipes of both
    ports. Then, for every rule, a TCP segment from its local address and port leaves at
    the WAN port with the global address and port of the rule as its source, and a
    segment to that global address and port comes back to the LAN port addressed to the
    local address and port. UDP datagrams are translated in the same way on the way out.
    *)
Theorem nat_pat_translates {HW : FlowHw} name stack cfg rules lan wan cs w :
  mode cfg = PAT -> wired name cfg lan wan -> Z.of_nat (length rules) <= 65535 -> Forall rule_wf rules ->
  NoDup ((fun r => (local_ip r, local_port r)) <$> rules) -> NoDup ((fun r => (global_ip r, global_port r)) <$> rules) ->
  calls w = [] -> Forall (obliging 2) cs ->
  exists e,
    nat_pipes_init name stack rules (Z.of_nat (length rules)) cfg NAT_PORTS_NUM (Engine [] [] cs) w
      = Ret ((DOCA_SUCCESS, e), w)
    /\ (forall r l4 peer port, r ∈ rules -> l4 = DOCA_FLOW_L4_META_TCP \/ l4 = DOCA_FLOW_L4_META_UDP ->
          translate e lan (Packet DOCA_FLOW_L3_META_IPV4 l4 (local_ip r) peer (cpu_to_be_16 (local_port r)) port)
            = Some (wan, Packet DOCA_FLOW_L3_META_IPV4 l4 (global_ip r) peer (cpu_to_be_16 (global_port r)) port))
    /\ (forall r peer port, r ∈ rules ->
          translate e wan (Packet DOCA_FLOW_L3_META_IPV4 DOCA_FLOW_L4_META_TCP peer (global_ip r)
                             port (cpu_to_be_16 (global_port r)))
            = Some (lan, Packet DOCA_FLOW_L3_META_IPV4 DOCA_FLOW_L4_META_TCP peer (local_ip r)
                             port (cpu_to_be_16 (local_port r)))).
Proof.
  intros Hm Hw Hn Hwf Hl Hg Hc Hcs. destruct (pat_init_run name stack cfg rules lan wan Hm Hw Hn cs w Hc Hcs) as (e & E & He).
  exists e. split; [exact E|]. destruct Hw as (Hp & Hwl & _).
  assert (Hpw : nat_port wan) by (destruct Hp; subst; [right|left]; lia).
  assert (Hdl : NoDup (local_key <$> rules))
    by (apply (keys_distinct local_ip local_port); [eapply Forall_impl; [done|]; by intros r (_ & _ & ? & _)|done]).
  assert (Hdg : NoDup (global_key <$> rules))
    by (apply (keys_distinct global_ip global_port); [eapply Forall_impl; [done|]; by intros r (_ & _ & _ & ?)|done]).
  pose proof (fun k => pat_translate rules stack lan wan e k Hp Hwl He) as T. split.
  - intros r l4 peer port Hr Hl4. destruct (T (Packet DOCA_FLOW_L3_META_IPV4 l4 (local_ip r) peer (cpu_to_be_16 (local_port r)) port))
      as [-> _]. rewrite Hwl. destruct Hl4 as [-> | ->]; cbn [by_l4].
    + apply (at_local_pat rules Hwf (local_tcp rules lan) pat_local_tcp_entry lan r); by auto.
    + apply (at_local_pat rules Hwf (local_udp rules lan) (fun r => pat_local_udp_entry r (pat_local_tcp_entry r)) lan r);
        by auto.
  - intros r peer port Hr. destruct (T (Packet DOCA_FLOW_L3_META_IPV4 DOCA_FLOW_L4_META_TCP peer (global_ip r)
      port (cpu_to_be_16 (global_port r)))) as [_ ->].
    etrans; [apply (at_global_pat rules Hwf stack wan r); done|]. cbn. do 2 f_equal. lia.
Qed.

(** The other direction of UDP does not: a datagram to the global address and port of a
    rule is dropped, unless some rule with that address happens to have this number as its
    local port. *)
Theorem pat_udp_replies_dropped {HW : FlowHw} name stack cfg rules lan wan cs w :
  mode cfg = PAT -> wired name cfg lan wan -> Z.of_nat (length rules) <= 65535 -> Forall rule_wf rules ->
  calls w = [] -> Forall (obliging 2) cs ->
  exists e,
    nat_pipes_init name stack rules (Z.of_nat (length rules)) cfg NAT_PORTS_NUM (Engine [] [] cs) w
      = Ret ((DOCA_SUCCESS, e), w)
    /\ forall r peer port, r ∈ rules ->
         (global_ip r, global_port r) ∉ (fun r => (global_ip r, local_port r)) <$> rules ->
         translate e wan (Packet DOCA_FLOW_L3_META_IPV4 DOCA_FLOW_L4_META_UDP peer (global_ip r)
                            port (cpu_to_be_16 (global_port r))) = None.
Proof.
  intros Hm Hw Hn Hwf Hc Hcs. destruct (pat_init_run name stack cfg rules lan wan Hm Hw Hn cs w Hc Hcs) as (e & E & He).
  exists e. split; [exact E|]. destruct Hw as (Hp & Hwl & _). intros r peer port Hr Hno.
  destruct (pat_translate rules stack lan wan e (Packet DOCA_FLOW_L3_META_IPV4 DOCA_FLOW_L4_META_UDP peer (global_ip r)
      port (cpu_to_be_16 (global_port r))) Hp Hwl He) as [_ ->].
  etrans; [|apply (off_global_udp rules Hwf stack wan)]; [done|]. intros Hin. apply Hno.
  apply list_elem_of_fmap in Hin as (r' & Ek & Hr'). injection Ek as Ei Ep. apply list_elem_of_fmap. exists r'.
  rewrite Forall_forall in Hwf. destruct (Hwf r Hr) as (_ & _ & _ & W), (Hwf r' Hr') as (_ & _ & W' & _).
  by rewrite Ei, (be16_inj _ _ W W' Ep).
Qed.

(** ** Inputs on which the translations can be run: the rules files of the application *)

Definition sf_names (sf0 sf1 : Z) (port : Z) : option (list ascii) :=
  Some (port_intf_name (if port =? 0 then sf0 else sf1)).

Definition static_cfg : nat_cfg := NatCfg STATIC 3 4 [] true.
Definition pat_cfg : nat_cfg := NatCfg PAT 3 4 [] true.

Definition static_rules : list nat_rule_match :=
  [Rule 0x0c01010a 0 0x143430d2 0; Rule 0x0d01010a 0 0x153430d2 0].

Definition pat_rules : list nat_rule_match :=
  [Rule 0x0c01010a 8080 0x143430d2 8081; Rule 0x0d01010a 8080 0x143430d2 8082; Rule 0x0e01010a 4932 0x143430d2 5000].

Definition calm : world := World [] [] [] [] [] None 0 0.

Lemma nat_static_translates_witness :
  exists e,
    nat_pipes_init (sf_names 4 3) [1; 2; 3] static_rules (Z.of_nat (length static_rules)) static_cfg NAT_PORTS_NUM
      (Engine [] [] [(DOCA_SUCCESS, [true])]) calm = Ret ((DOCA_SUCCESS, e), calm)
    /\ (forall r l4 peer sp dp, r ∈ static_rules ->
          translate (HW := first_hw) e 1 (Packet DOCA_FLOW_L3_META_IPV4 l4 (local_ip r) peer sp dp)
            = Some (0, Packet DOCA_FLOW_L3_META_IPV4 l4 (global_ip r) peer sp dp)
          /\ translate (HW := first_hw) e 0 (Packet DOCA_FLOW_L3_META_IPV4 l4 peer (global_ip r) dp sp)
            = Some (1, Packet DOCA_FLOW_L3_META_IPV4 l4 peer (local_ip r) dp sp))
    /\ (forall k, is_ipv4 k = false \/ pk_src k ∉ local_ip <$> static_rules -> translate (HW := first_hw) e 1 k = None)
    /\ (forall k, is_ipv4 k = false \/ pk_dst k ∉ global_ip <$> static_rules -> translate (HW := first_hw) e 0 k = None).
Proof.
  apply (nat_static_translates (HW := first_hw) (sf_names 4 3) [1; 2; 3] static_cfg static_rules 1 0
           [(DOCA_SUCCESS, [true])] calm); try reflexivity.
  - repeat split; try reflexivity. by right.
  - done.
  - repeat constructor; done.
  - apply (bool_decide_unpack _); reflexivity.
  - apply (bool_decide_unpack _); reflexivity.
  - constructor; [|done]. repeat split; [done|by constructor|by exists 1%nat].
Defined.

Lemma pat_sample_wf : Forall rule_wf pat_rules.
Proof. repeat constructor; done. Qed.

Lemma pat_sample_wired : wired (sf_names 3 4) pat_cfg 0 1.
Proof. repeat split; try reflexivity. by left. Qed.

Lemma pat_sample_obliging : Forall (obliging 2) [(DOCA_SUCCESS, [true; true]); (DOCA_SUCCESS, [true; true])].
Proof. repeat constructor; try done; by exists 1%nat. Qed.

Lemma nat_pat_translates_witness :
  exists e,
    nat_pipes_init (sf_names 3 4) [] pat_rules (Z.of_nat (length pat_rules)) pat_cfg NAT_PORTS_NUM
      (Engine [] [] [(DOCA_SUCCESS, [true; true]); (DOCA_SUCCESS, [true; true])]) calm = Ret ((DOCA_SUCCESS, e), calm)
    /\ (forall r l4 peer port, r ∈ pat_rules -> l4 = DOCA_FLOW_L4_META_TCP \/ l4 = DOCA_FLOW_L4_META_UDP ->
          translate (HW := first_hw) e 0 (Packet DOCA_FLOW_L3_META_IPV4 l4 (local_ip r) peer (cpu_to_be_16 (local_port r)) port)
            = Some (1, Packet DOCA_FLOW_L3_META_IPV4 l4 (global_ip r) peer (cpu_to_be_16 (global_port r)) port))
    /\ (forall r peer port, r ∈ pat_rules ->
          translate (HW := first_hw) e 1 (Packet DOCA_FLOW_L3_META_IPV4 DOCA_FLOW_L4_META_TCP peer (global_ip r)
                             port (cpu_to_be_16 (global_port r)))
            = Some (0, Packet DOCA_FLOW_L3_META_IPV4 DOCA_FLOW_L4_META_TCP peer (local_ip r)
                             port (cpu_to_be_16 (local_port r)))).
Proof.
  apply (nat_pat_translates (HW := first_hw) (sf_names 3 4) [] pat_cfg pat_rules 0 1
           [(DOCA_SUCCESS, [true; true]); (DOCA_SUCCESS, [true; true])] calm); try reflexivity.
  - exact pat_sample_wired.
  - done.
  - exact pat_sample_wf.
  - apply (bool_decide_unpack _); reflexivity.
  - apply (bool_decide_unpack _); reflexivity.
  - exact pat_sample_obliging.
Defined.

(** The reply to the first rule of the sample file. *)
Lemma pat_udp_replies_dropped_witness :
  exists e,
    nat_pipes_init (sf_names 3 4) [] pat_rules (Z.of_nat (length pat_rules)) pat_cfg NAT_PORTS_NUM
      (Engine [] [] [(DOCA_SUCCESS, [true; true]); (DOCA_SUCCESS, [true; true])]) calm = Ret ((DOCA_SUCCESS, e), calm)
    /\ forall r peer port, r ∈ pat_rules ->
         (global_ip r, global_port r) ∉ (fun r => (global_ip r, local_port r)) <$> pat_rules ->
         translate (HW := first_hw) e 1 (Packet DOCA_FLOW_L3_META_IPV4 DOCA_FLOW_L4_META_UDP peer (global_ip r)
                            port (cpu_to_be_16 (global_port r))) = None.
Proof.
  apply (pat_udp_replies_dropped (HW := first_hw) (sf_names 3 4) [] pat_cfg pat_rules 0 1
           [(DOCA_SUCCESS, [true; true]); (DOCA_SUCCESS, [true; true])] calm); try reflexivity.
  - exact pat_sample_wired.
  - done.
  - exact pat_sample_wf.
  - exact pat_sample_obliging.
Defined.

Example pat_sample_ports_crossed :
  forall r, r ∈ pat_rules -> (global_ip r, global_port r) ∉ (fun r => (global_ip r, local_port r)) <$> pat_rules.
Proof. apply Forall_forall. apply (bool_decide_unpack _). by vm_compute. Qed.

(** ** Where the set-up goes wrong *)

Lemma strstr_here s t : strneq (length t) s t = true -> strstr s t = true.
Proof. intros H. destruct s; cbn; by rewrite H. Qed.

(** The name of the LAN interface is looked for anywhere in the name of the device: an
    interface whose number starts with the digits of the other one is taken for it. *)
Theorem nat_interface_prefix name stack portid rules n cfg e s :
  mode cfg = STATIC -> name portid = Some (port_intf_name (lan_intf_id cfg) ++ s) ->
  port_pipes name stack portid rules n cfg e = build_static_local_pipe portid rules n e.
Proof.
  intros Hm Hn. unfold port_pipes, name_has. rewrite Hm, Hn.
  by rewrite strstr_here by apply strneq_prefix.
Qed.

Lemma nat_interface_prefix_witness :
  port_pipes (sf_names 3 30) [] 1 static_rules 2 (NatCfg STATIC 3 30 [] true) (Engine [] [] [])
  = build_static_local_pipe 1 static_rules 2 (Engine [] [] []).
Proof.
  apply (nat_interface_prefix (sf_names 3 30) [] 1 static_rules 2 (NatCfg STATIC 3 30 [] true) (Engine [] [] []) (lit "0"));
    reflexivity.
Defined.

(** [ruleid] has 16 bits: with more than 65535 rules the loop over them never comes to its
    end. *)
Theorem nat_rules_loop_wraps add rules n fuel : forall ruleid nb s e w nb' s' e' w',
  65536 <= n -> in_width 16 ruleid ->
  rules_for add rules n fuel ruleid nb s e w <> Ret ((None, nb', s', e'), w').
Proof.
  induction fuel as [|fuel IH]; intros ruleid nb s e w nb' s' e' w' Hn Hr; [done|]. cbn [rules_for].
  unfold in_width in Hr. destruct (Z.ltb_spec ruleid n); [|lia]. destruct (rules !! _) as [r|]; [|done].
  cbv [mbind io_bind]. destruct (add r nb e w) as [[[[added nb1] e1] w1]|]; [|done].
  destruct (if added then _ else _) as [[[early nb2] s2] e2]. destruct early; [done|].
  apply IH; [done|]. by apply uwrap_range.
Qed.

(** In PAT mode [nb_entries] grows by two: once the device has completed an odd number of
    entries the batch test is never true again, the queue fills up, the entries that do not
    fit are lost without notice, and the last loop waits for them for ever. *)
Example pat_odd_completion_hangs :
  let rules := (fun i => Rule (Z.of_nat i) 1 2 3) <$> seq 0 129 in
  build_pat_local_pipe 0 rules 129 (Engine [] [] [(DOCA_SUCCESS, [true])]) calm = Undef OutOfFuel.
Proof. by vm_compute. Qed.

Example pat_even_completion_ends :
  let rules := (fun i => Rule (Z.of_nat i) 1 2 3) <$> seq 0 129 in
  match build_pat_local_pipe 0 rules 129 (Engine [] [] [(DOCA_SUCCESS, [true; true])]) calm with
  | Ret ((result, e), _) => result = DOCA_SUCCESS /\ (length ∘ p_entries <$> pipes e) = [129; 129; 0]%nat
  | Undef _ => False
  end.
Proof. by vm_compute. Qed.

(** An entry that the library refuses is counted in PAT mode all the same. *)
Example pat_refused_entry_hangs :
  build_pat_local_pipe 0 pat_rules 3 (Engine [] [] [])
    (World [] [] [] (replicate 10 DOCA_SUCCESS ++ [DOCA_ERROR_NO_MEMORY]) [] None 0 0) = Undef OutOfFuel.
Proof. by vm_compute. Qed.
