(* ===== verification/NatApp.v ===== *)
(** * NAT application: ports, set-up and main (applications/nat/nat_core.c, nat.c)

    The global array [ports] is a list of flags: which entries hold a started port.  The
    handles of configurations, of started ports and of the libraries that were initialised
    are counted as in [CommChannel]. *)
From S2P Require Import Prelude CString FlowTypes CommChannel Json NatRules NatPipes.

(** [doca_flow_port_start] fills the entry of [ports] when it succeeds. *)
Definition nat_port_create (portid : nat) (ports : list bool) : io (doca_error_t * list bool) :=
  result ← acquire;
  if negb (is_ok result) then mret (result, ports)
  else
    result ← call;
    '(result, ports) ←
      (if negb (is_ok result) then mret (result, ports)
       else
         check (portid <? length ports)%nat OutOfBounds;;
         result ← acquire;
         mret (result, if is_ok result then <[portid := true]> ports else ports));
    tmp_result ← release;
    mret (if is_ok tmp_result then result else DOCA_ERROR_PROPAGATE result tmp_result, ports).

(** The first [nb_ports] ports that were started. *)
Fixpoint nat_stop_ports (nb_ports : nat) (ports : list bool) : io unit :=
  match nb_ports with
  | O => mret tt
  | S n =>
      match ports with
      | [] => undef OutOfBounds
      | p :: ports => (if (p : bool) then release;; mret tt else mret tt);; nat_stop_ports n ports
      end
  end.

(** [doca_flow_destroy] has no result. *)
Definition flow_destroy : io unit := close.

(** [nat_rules]: whether the pointer is not null. *)
Definition nat_destroy (nb_ports : nat) (nat_rules : bool) (ports : list bool) : io unit :=
  nat_stop_ports nb_ports ports;;
  flow_destroy;;
  free nat_rules.

(** [n] ports from [portid]; odd ports are paired with the one before. *)
Fixpoint ports_start (n portid : nat) (ports : list bool) : io (doca_error_t * list bool) :=
  match n with
  | O => mret (DOCA_SUCCESS, ports)
  | S n =>
      '(result, ports) ← nat_port_create portid ports;
      if negb (is_ok result) then
        nat_stop_ports portid ports;;
        flow_destroy;;
        mret (result, ports)
      else if Nat.even portid then ports_start n (S portid) ports
      else
        result ← call;
        if negb (is_ok result) then
          nat_stop_ports (S portid) ports;;
          flow_destroy;;
          mret (result, ports)
        else ports_start n (S portid) ports
  end.

(** The five setters all give the configuration back when they fail. *)
Definition nat_init (nb_ports : nat) (ports : list bool) : io (doca_error_t * list bool) :=
  result ← acquire;
  if negb (is_ok result) then mret (result, ports)
  else
    result ← cfg_sets 5;
    if negb (is_ok result) then release;; mret (result, ports)
    else
      result ← acquire;
      if negb (is_ok result) then release;; mret (result, ports)
      else
        result ← release;
        if negb (is_ok result) then mret (result, ports)
        else ports_start nb_ports 0 ports.

(** ** main *)

(** Four parameters, created and registered, and two callbacks. *)
Definition register_nat_params : io doca_error_t := cfg_sets 10.

Section main.
Context {J : JsonC} (garbage : nat -> list Z) (name : Z -> option (list ascii)) (stack : list Z).

Definition nat_run (app_cfg : nat_cfg) (e : engine) : io (bool * bool) :=
  rules ← parsing_nat_rules garbage (mode app_cfg);
  match rules with
  | Err _ => mret (false, false)
  | Ok nat_rules =>
      '(result, _) ← nat_pipes_init name stack nat_rules (Z.of_nat (length nat_rules)) app_cfg NAT_PORTS_NUM e;
      mret (is_ok result, true)
  end.

(** [main] up to [nat_init]: the loggers, the argument parser, DPDK with its queues and
    ports; what was started is given back when a later call fails.  [doca_argp_start]
    initialises DPDK. *)
Definition main_begin : io bool :=
  result ← cfg_sets 3;
  if negb (is_ok result) then mret false
  else
    result ← acquire;
    if negb (is_ok result) then mret false
    else
      result ← register_nat_params;
      if negb (is_ok result) then close;; mret false
      else
        result ← acquire;
        if negb (is_ok result) then close;; mret false
        else
          result ← acquire;
          if negb (is_ok result) then close;; close;; mret false else mret true.

(** The exit status, [true] for [EXIT_SUCCESS]; [app_cfg] is the configuration the command
    line stands for, [e] the environment of DOCA Flow.  The wait for a signal before the
    clean-up is left out. *)
Definition main (app_cfg : nat_cfg) (e : engine) : io bool :=
  begun ← main_begin;
  if negb begun then mret false
  else
    '(result, ports) ← nat_init NAT_PORTS_NUM (replicate NAT_PORTS_NUM false);
    exit_status ←
      (if negb (is_ok result) then mret false
       else
         '(exit_status, nat_rules) ← nat_run app_cfg e;
         nat_destroy NAT_PORTS_NUM nat_rules ports;;
         mret exit_status);
    close;;
    close;;
    close;;
    mret exit_status.
End main.

(** ** Accounting *)

(** How many of the first [n] ports are started. *)
Definition ports_started (n : nat) (ports : list bool) : Z := Z.of_nat (length (filter (fun b => b = true) (take n ports))).

Lemma stop_ports_acct n : forall ports, acct (nat_stop_ports n ports) (fun _ f b => f = - ports_started n ports /\ b = 0).
Proof.
  induction n as [|n IH]; intros ports; cbn [nat_stop_ports]; [by apply acct_ret|].
  destruct ports as [|p ports]; [apply acct_undef|]. unfold ports_started in *. cbn [take].
  eapply acct_bind with (P := fun _ f b => f = - Z.b2z p /\ b = 0).
  - destruct p; acct_all.
  - intros _ f b [-> ->]. eapply acct_mono; [apply IH|]. cbn beta. intros _ f b [-> ->]. rewrite filter_cons.
    destruct p; (case_decide; [|try done]); try done; cbn [Z.b2z length]; lia.
Qed.

Lemma port_create_acct portid ports :
  acct (nat_port_create portid ports) (fun r f b =>
    b = 0 /\ (is_ok r.1 = true /\ f = 1 /\ r.2 = <[portid := true]> ports
              \/ is_ok r.1 = false /\ (f = 0 /\ r.2 = ports \/ f = 1 /\ r.2 = <[portid := true]> ports))).
Proof.
  unfold nat_port_create. acct_step. acct_step; [|acct_step; acct_end; right; split; [done|left; split; [lia|done]]].
  acct_step. eapply acct_bind with (P := fun (r : doca_error_t * list bool) f b =>
    b = 0 /\ f = Z.b2z (is_ok r.1) /\ r.2 = if is_ok r.1 then <[portid := true]> ports else ports).
  - acct_step; acct_all; by match goal with H : is_ok _ = false |- _ => rewrite H end.
  - intros [r ports'] f' b' (-> & -> & Hp). cbn [fst snd] in *. subst ports'. acct_step. acct_step. acct_end.
    destruct (is_ok x1) eqn:E1; destruct (is_ok r) eqn:E2; rewrite ?E2; cbn [Z.b2z].
    + left. split; [done|split; [lia|done]].
    + right. split; [done|]. left. split; [lia|done].
    + right. split; [destruct r, x1; done|]. right. split; [lia|done].
    + right. split; [by apply propagate_ok|]. left. split; [lia|done].
Qed.

Lemma started_ones k rest : ports_started k (replicate k true ++ rest) = Z.of_nat k.
Proof.
  unfold ports_started. rewrite take_app_length' by (by rewrite length_replicate). f_equal.
  induction k; [done|]. cbn [replicate]. rewrite filter_cons_True by done. cbn. by f_equal.
Qed.

Lemma insert_ones k n : <[k := true]> (replicate k true ++ replicate (S n) false) = replicate (S k) true ++ replicate n false.
Proof.
  rewrite insert_app_r_alt by (by rewrite length_replicate). rewrite length_replicate, Nat.sub_diag. cbn [replicate insert list_insert].
  rewrite cons_middle, app_assoc. f_equal. by rewrite <-replicate_cons_app.
Qed.

(** A port that could not be added: the ports before it and the library are given back. *)
Lemma give_up_acct k rest r ports0 :
  ports0 = replicate k true ++ rest -> is_ok r = false ->
  acct (nat_stop_ports k ports0;; flow_destroy;; mret (r, ports0))
    (fun x f b => b = 0 /\ is_ok x.1 = false /\ f = - Z.of_nat k - 1).
Proof.
  intros -> Hr. eapply acct_bind; [apply stop_ports_acct|]. intros [] f b [-> ->]. rewrite started_ones.
  unfold flow_destroy. acct_all.
Qed.

Lemma ports_start_acct n : forall k,
  acct (ports_start n k (replicate k true ++ replicate n false)) (fun r f b =>
    b = 0 /\ (is_ok r.1 = true /\ f = Z.of_nat n /\ r.2 = replicate (k + n) true
              \/ is_ok r.1 = false /\ (f = - Z.of_nat k - 1 \/ f = - Z.of_nat k))).
Proof.
  induction n as [|n IH]; intros k; cbn [ports_start].
  - apply acct_ret. split; [done|]. left. cbn. by rewrite app_nil_r, Nat.add_0_r.
  - eapply acct_bind; [apply port_create_acct|]. intros [r ports] f b (-> & H). cbn [fst snd] in *.
    destruct H as [(Hr & -> & ->)|(Hr & H)]; rewrite Hr; cbn [negb].
    2:{ assert (exists rest, ports = replicate k true ++ rest) as [rest Hp].
        { destruct H as [[_ ->]|[_ ->]]; [by eexists|]. rewrite insert_ones. exists (true :: replicate n false).
          rewrite cons_middle, app_assoc. f_equal. by rewrite <-replicate_cons_app. }
        eapply acct_mono; [by apply (give_up_acct k rest)|]. cbn beta. intros x f' b' (-> & ? & ->).
        split; [done|]. right. split; [done|]. destruct H as [[-> _]|[-> _]]; lia. }
    rewrite insert_ones. specialize (IH (S k)).
    assert (Hgo : acct (ports_start n (S k) (replicate (S k) true ++ replicate n false)) (fun r f b =>
      0 + b = 0 /\ (is_ok r.1 = true /\ 1 + f = Z.of_nat (S n) /\ r.2 = replicate (k + S n) true
                \/ is_ok r.1 = false /\ (1 + f = - Z.of_nat k - 1 \/ 1 + f = - Z.of_nat k)))).
    { eapply acct_mono; [exact IH|]. cbn beta. intros x f b (-> & H). split; [done|].
      replace (k + S n)%nat with (S k + n)%nat by lia. destruct H as [(? & -> & ?)|(? & [-> | ->])]; [left|right|right];
        (split; [done|]); [split; [lia|done]|lia|lia]. }
    destruct (Nat.even k); [exact Hgo|].
    acct_step. destruct (is_ok x) eqn:Hx; cbn [negb].
    + destruct H. subst. exact Hgo.
    + destruct H. subst. eapply acct_mono; [by apply (give_up_acct (S k) (replicate n false))|]. cbn beta.
      intros y f' b' (-> & ? & ->). split; [done|]. right. split; [done|]. lia.
Qed.

(** A failed [nat_init] leaves at most one handle behind, a successful one holds the
    library and every port. *)
Lemma nat_init_acct n :
  acct (nat_init n (replicate n false)) (fun r f b =>
    b = 0 /\ (is_ok r.1 = true /\ f = Z.of_nat n + 1 /\ r.2 = replicate n true \/ is_ok r.1 = false /\ (f = 0 \/ f = 1))).
Proof.
  unfold nat_init. acct_step. acct_step; [|acct_step; acct_end; right; split; [done|lia]].
  acct_step. acct_step; [|acct_step; acct_step; acct_end; right; split; [done|lia]].
  acct_step. acct_step; [|acct_step; acct_step; acct_end; right; split; [done|lia]].
  acct_step. acct_step; [|acct_step; acct_end; right; split; [done|lia]].
  eapply acct_mono; [apply (ports_start_acct n 0)|]. cbn beta. intros r f' b' (-> & Hr). acct_end.
  destruct Hr as [(? & -> & ?)|(? & ?)]; [left|right]; (split; [done|]); [split; [lia|done]|lia].
Qed.

(** The builders of pipes give every configuration back. *)
Lemma flow_pipe_create_uses p e : uses (flow_pipe_create p e) (fun _ => (0, 0)).
Proof. unfold flow_pipe_create. uses_all. Qed.
Lemma add_entry_uses p x fl e : uses (add_entry p x fl e) (fun _ => (0, 0)).
Proof. unfold add_entry. uses_all. Qed.
Lemma control_add_uses p x e : uses (control_add_entry p x e) (fun _ => (0, 0)).
Proof. unfold control_add_entry. uses_all. Qed.
Lemma wait_all_uses nb s e : uses (wait_all nb s e) (fun _ => (0, 0)).
Proof. intros w a w' H. unfold wait_all in H. destruct (wait_entries _ _ _ _); [|done]. inv_ret. cbn. lia. Qed.
#[local] Hint Resolve flow_pipe_create_uses add_entry_uses control_add_uses wait_all_uses : uses.

Lemma static_add_uses mk p r nb e : uses (static_add mk p r nb e) (fun _ => (0, 0)).
Proof. unfold static_add. uses_all. Qed.
Lemma pat_add_uses m1 m2 p1 p2 r nb e : uses (pat_add m1 m2 p1 p2 r nb e) (fun _ => (0, 0)).
Proof. unfold pat_add. uses_all. Qed.

Lemma add_rules_uses add rules n e :
  (forall r nb e, uses (add r nb e) (fun _ => (0, 0))) -> uses (add_rules add rules n e) (fun _ => (0, 0)).
Proof.
  intros Ha. assert (Hr : forall fuel i nb s e, uses (rules_for add rules n fuel i nb s e) (fun _ => (0, 0))).
  { induction fuel as [|fuel IH]; intros i nb s e'; cbn [rules_for]; [apply uses_undef|].
    destruct (i <? n); [|uses_all]. destruct (rules !! _); [|apply uses_undef].
    eapply uses_bind; [apply Ha|]. intros [[added nb'] e1]. destruct (if added then _ else _) as [[[early nb2] s2] e2].
    destruct early; [uses_all|]. eapply uses_mono; [apply IH|done]. }
  unfold add_rules. eapply uses_bind; [apply Hr|]. intros [[[early nb] s] e']. uses_all.
Qed.

Lemma static_rules_uses mk q rules n e : uses (add_rules (static_add mk q) rules n e) (fun _ => (0, 0)).
Proof. apply add_rules_uses, static_add_uses. Qed.
Lemma pat_rules_uses m1 m2 p1 p2 rules n e : uses (add_rules (pat_add m1 m2 p1 p2) rules n e) (fun _ => (0, 0)).
Proof. apply add_rules_uses, pat_add_uses. Qed.
#[local] Hint Resolve static_rules_uses pat_rules_uses : uses.

#[local] Hint Resolve flow_pipe_create_uses add_entry_uses control_add_uses static_rules_uses pat_rules_uses : acct.

Notation neutral m := (acct m (fun _ f b => f = 0 /\ b = 0)).

Lemma build_static_neutral p mk rules n e : neutral (build_static_pipe p mk rules n e).
Proof. unfold build_static_pipe. acct_all. Qed.
Lemma create_control_neutral p e : neutral (create_control_pipe p e).
Proof. unfold create_control_pipe. acct_all. Qed.
Lemma control_entries_neutral c u t e : neutral (add_control_pipe_entries c u t e).
Proof. unfold add_control_pipe_entries. acct_all. Qed.
#[local] Hint Resolve build_static_neutral create_control_neutral control_entries_neutral : acct.
Lemma build_pat_neutral q p1 p2 m1 m2 rules n e : neutral (build_pat_pipe q p1 p2 m1 m2 rules n e).
Proof.
  unfold build_pat_pipe.
  acct_all.
Qed.
#[local] Hint Resolve build_pat_neutral : acct.

Lemma port_pipes_neutral name stack p rules n cfg e : neutral (port_pipes name stack p rules n cfg e).
Proof.
  unfold port_pipes, build_static_local_pipe, build_static_global_pipe, build_pat_local_pipe, build_pat_global_pipe.
  acct_all.
Qed.
#[local] Hint Resolve port_pipes_neutral : acct.

Lemma ports_for_neutral name stack rules n cfg nb : forall p e, neutral (ports_for name stack nb p rules n cfg e).
Proof.
  induction nb as [|nb IH]; intros p e; cbn [ports_for]; [acct_all|].
  acct_step. acct_step; [|acct_all]. acct_step. destruct x0 as [result e']. acct_step; [|acct_all].
  eapply acct_mono; [apply IH|]. cbn beta. intros. acct_end.
Qed.
Lemma nat_pipes_init_neutral name stack rules n cfg nb e : neutral (nat_pipes_init name stack rules n cfg nb e).
Proof. apply ports_for_neutral. Qed.
#[local] Hint Resolve nat_pipes_init_neutral : acct.

(** The array belongs to the caller. *)
Lemma rules_array_acct {J : JsonC} rd j :
  acct (rules_array rd j) (fun r f b => f = 0 /\ b = match r with Ok _ => 1 | Err _ => 0 end).
Proof. unfold rules_array. acct_all. Qed.

#[local] Hint Resolve rules_array_acct read_document_acct : acct.

(** The file is closed and the text freed; the parsed document is not. *)
Lemma parsing_acct {J : JsonC} garbage m :
  acct (parsing_nat_rules garbage m) (fun r f b =>
    f = 0 /\ match r with Ok _ => b = 2 | Err _ => b = 0 \/ b = 1 end).
Proof.
  unfold parsing_nat_rules. acct_step. destruct x as [j|err]; [|acct_all; lia]. acct_step. unfold doc_blocks in *.
  destruct (is_type json_type_null j) eqn:Hn; cbn [negb Z.b2z] in *.
  - apply bool_decide_eq_true_1 in Hn.
    assert (Hm : forall n t, member j n t = Err DOCA_ERROR_INVALID_VALUE)
      by (intros; unfold member; by rewrite json_null_empty).
    destruct m; [|acct_all; lia| |acct_all; lia].
    + unfold create_static_mode_rules, rules_array. rewrite json_null_empty by done. acct_all; lia.
    + unfold create_pat_mode_rules, ip_member. rewrite Hm. acct_all; lia.
  - destruct m; [|acct_all; lia| |acct_all; lia].
    + unfold create_static_mode_rules. eapply acct_mono; [apply rules_array_acct|]. cbn beta. intros [] ? ? [-> ->]; acct_end; lia.
    + unfold create_pat_mode_rules. destruct (ip_member _ _); [|acct_all; lia].
      eapply acct_mono; [apply rules_array_acct|]. cbn beta. intros [] ? ? [-> ->]; acct_end; lia.
Qed.
#[local] Hint Resolve parsing_acct nat_init_acct : acct.

Lemma nat_destroy_acct rules :
  acct (nat_destroy 2 rules [true; true]) (fun _ f b => f = -3 /\ b = - Z.b2z rules).
Proof.
  unfold nat_destroy. eapply acct_bind; [apply stop_ports_acct|]. intros [] f b [-> ->]. change (ports_started 2 [true; true]) with 2.
  unfold flow_destroy. acct_all.
Qed.

Lemma nat_run_acct {J : JsonC} garbage name stack cfg e :
  acct (nat_run garbage name stack cfg e) (fun r f b =>
    f = 0 /\ (r.2 = true /\ b = 2 \/ r.2 = false /\ r.1 = false /\ (b = 0 \/ b = 1))).
Proof.
  unfold nat_run. acct_step. destruct x as [rules|err].
  - acct_step. destruct x as [result e']. acct_step. acct_end.
  - acct_step. acct_end.
Qed.

Lemma main_begin_acct : acct main_begin (fun x f b => f = (if x then 3 else 0) /\ b = 0).
Proof.
  unfold main_begin, register_nat_params. acct_step. acct_step; [|acct_all; lia].
  acct_step. acct_step; [|acct_all; lia]. acct_step. acct_step; [|acct_all; lia].
  acct_step. acct_step; [|acct_all; lia]. acct_step. acct_step; acct_all; lia.
Qed.

(** The clean-up at the end of [main]. *)
Lemma main_end_acct (x : bool) : acct (close;; close;; close;; mret x) (fun y f b => y = x /\ f = -3 /\ b = 0).
Proof. acct_all. Qed.

(** [main] has come to [nat_init], which failed and has kept a handle. *)
Definition nat_init_keeps (w : world) : Prop :=
  exists w1 result ports w2, main_begin w = Ret (true, w1)
    /\ nat_init NAT_PORTS_NUM (replicate NAT_PORTS_NUM false) w1 = Ret ((result, ports), w2)
    /\ is_ok result = false /\ fds w2 = fds w1 + 1.

(** C34: The application gives back what it holds. However its calls are answered, when
    [main] returns, every handle of DPDK, of the ports, of DOCA Flow and of the pipe and
    port configurations and the argument parser has been given back, except for one when
    the [nat_init] of this run has failed and kept it ([nat_init_keeps]); of the memory
    nothing is left but the parsed document of the rules file, or, only on failure, not
    even that. *)
Theorem nat_main_releases {J : JsonC} garbage name stack app_cfg e w exit_status w' :
  main garbage name stack app_cfg e w = Ret (exit_status, w') ->
  (fds w' = fds w \/ exit_status = false /\ fds w' = fds w + 1 /\ nat_init_keeps w)
  /\ (blocks w' = blocks w + 1 \/ exit_status = false /\ blocks w' = blocks w).
Proof.
  unfold main. intros E. unfold mbind at 1, io_bind at 1 in E. destruct (main_begin w) as [[begun w1]|] eqn:E1; [|done].
  destruct (main_begin_acct _ _ _ E1) as [F1 B1]. destruct begun; cbn [negb] in E.
  2: { unfold mret, io_ret in E. inv_ret. split; [left; lia|right; split; [done|lia]]. }
  unfold mbind at 1, io_bind at 1 in E. destruct (nat_init _ _ w1) as [[[result ports] w2]|] eqn:E2; [|done].
  destruct (nat_init_acct 2 _ _ _ E2) as (B2 & Hi). cbn [fst snd] in Hi. cbv beta iota in E.
  unfold mbind at 1, io_bind at 1 in E.
  destruct Hi as [(Hr & F2 & ->)|(Hr & F2)]; rewrite Hr in E; cbn [negb] in E.
  - assert (acct ('(exit_status, nat_rules) ← nat_run garbage name stack app_cfg e;
                  nat_destroy NAT_PORTS_NUM nat_rules (replicate 2 true);; mret exit_status)
      (fun x f b => f = -3 /\ (b = 1 \/ x = false /\ b = 0))) as Hrun.
    { eapply acct_bind; [apply nat_run_acct|]. intros [st rules] f6 b6 (-> & Hb). cbn [fst snd] in Hb.
      eapply acct_bind; [apply nat_destroy_acct|]. intros [] f7 b7 [-> ->]. apply acct_ret. split; [lia|].
      destruct Hb as [[-> ->]|(-> & -> & [-> | ->])]; cbn [Z.b2z]; auto with lia. }
    match type of E with match ?m with _ => _ end = _ => destruct m as [[x w3]|] eqn:E3 end; [|done].
    destruct (Hrun _ _ _ E3) as (F3 & B3). destruct (main_end_acct x _ _ _ E) as (-> & F4 & B4).
    split; [left; lia|]. destruct B3 as [B3|[-> B3]]; [left; lia|right; split; [done|lia]].
  - cbn in E. destruct (main_end_acct false _ _ _ E) as (-> & F4 & B4). split; [|right; split; [done|lia]].
    destruct F2 as [F2|F2]; [left; lia|right]. split; [done|]. split; [lia|]. exists w1, result, ports, w2. split_and!; [done..|lia].
Qed.

Lemma nat_main_releases_witness :
  let J := sample_json in
  exists w', main (fun n => replicate n 0) (fun p => Some (port_intf_name (if p =? 0 then 3 else 4))) []
        (NatCfg PAT 3 4 [] true) (Engine [] [] []) sample_world = Ret (true, w')
    /\ (fds w' = fds sample_world \/ true = false /\ fds w' = fds sample_world + 1 /\ nat_init_keeps sample_world)
    /\ (blocks w' = blocks sample_world + 1 \/ true = false /\ blocks w' = blocks sample_world).
Proof.
  intros J. exists (set_blocks 1 sample_world). split; [by vm_compute|].
  apply (nat_main_releases (J := J) (fun n => replicate n 0) (fun p => Some (port_intf_name (if p =? 0 then 3 else 4))) []
    (NatCfg PAT 3 4 [] true) (Engine [] [] [])). by vm_compute.
Defined.

(** The handle that a failed [nat_init] leaves: the library stays initialised when its
    configuration can not be destroyed. *)
Example nat_init_keeps_flow :
  nat_init 2 [false; false] (World [] [] [] (replicate 7 DOCA_SUCCESS ++ [DOCA_ERROR_BAD_STATE]) [] None 0 0)
  = Ret ((DOCA_ERROR_BAD_STATE, [false; false]), World [] [] [] [] [] None 1 0).
Proof. by vm_compute. Qed.
