(* ===== verification/SecureChannel.v ===== *)
(** * Secure channel (applications/secure_channel/secure_channel_core.c)

    One program of the secure channel: the thread that sends, the thread that receives and
    the thread that waits for both, as a transition system in which every library call is a
    step.  A step carries the answer of its call; which thread takes it, when a message or a
    SIGINT arrives and what the peer does is left open, so that a list of labels is a
    schedule together with the behaviour of the environment.  The second part is the set-up
    and the clean-up of the program, over the environment of [CommChannel]. *)
From S2P Require Import Prelude CString CommChannel.

Definition CC_MAX_MSG_SIZE : Z := 4080.
Definition DOCA_DEVINFO_PCI_ADDR_SIZE : nat := 13.
Definition DOCA_DEVINFO_REP_PCI_ADDR_SIZE : nat := 13.

Inductive sc_mode : Type := SC_MODE_HOST | SC_MODE_DPU.

#[export] Instance sc_mode_eq_dec : EqDecision sc_mode.
Proof. solve_decision. Defined.

Record sc_config : Type := ScConfig {
  mode : sc_mode; send_msg_size : Z; send_msg_nb : Z;
  cc_dev_pci_addr : list ascii; cc_dev_rep_pci_addr : list ascii
}.

(** ** Options *)

Definition messages_number_callback (nb_send_msg : Z) (c : sc_config) : sc_config * doca_error_t :=
  if nb_send_msg <? 1 then (c, DOCA_ERROR_INVALID_VALUE)
  else (ScConfig (mode c) (send_msg_size c) nb_send_msg (cc_dev_pci_addr c) (cc_dev_rep_pci_addr c), DOCA_SUCCESS).

Definition message_size_callback (size : Z) (c : sc_config) : sc_config * doca_error_t :=
  if (size <? 1) || (CC_MAX_MSG_SIZE <? size) then (c, DOCA_ERROR_INVALID_VALUE)
  else (ScConfig (mode c) size (send_msg_nb c) (cc_dev_pci_addr c) (cc_dev_rep_pci_addr c), DOCA_SUCCESS).

Definition dev_pci_addr_callback (param : list ascii) (c : sc_config) : outcome (sc_config * doca_error_t) :=
  if (DOCA_DEVINFO_PCI_ADDR_SIZE <=? length param)%nat then Ret (c, DOCA_ERROR_INVALID_VALUE)
  else
    let* (addr, _) := strlcpy (cc_dev_pci_addr c) param DOCA_DEVINFO_PCI_ADDR_SIZE in
    Ret (ScConfig (mode c) (send_msg_size c) (send_msg_nb c) addr (cc_dev_rep_pci_addr c), DOCA_SUCCESS).

Definition rep_pci_addr_callback (param : list ascii) (c : sc_config) : outcome (sc_config * doca_error_t) :=
  match mode c with
  | SC_MODE_HOST => Ret (c, DOCA_SUCCESS)
  | SC_MODE_DPU =>
      if (DOCA_DEVINFO_REP_PCI_ADDR_SIZE <=? length param)%nat then Ret (c, DOCA_ERROR_INVALID_VALUE)
      else
        let* (addr, _) := strlcpy (cc_dev_rep_pci_addr c) param DOCA_DEVINFO_REP_PCI_ADDR_SIZE in
        Ret (ScConfig (mode c) (send_msg_size c) (send_msg_nb c) (cc_dev_pci_addr c) addr, DOCA_SUCCESS)
  end.

(** ** The threads *)

Inductive who : Type := TheSender | TheReceiver.

(** Why the send thread has ended. *)
Inductive ending : Type := Finished | Failed | Interrupted | Cancelled.

(** The calls of [sendto_channel]; [S_Top] is the test of the loop, [S_Unlock] knows the
    result of the send. *)
Inductive sender_pc : Type :=
| S_None | S_EmptySet | S_AddSet | S_AddFd | S_Top | S_SigWait | S_Lock | S_Send | S_Unlock (result : doca_error_t)
| S_Arm | S_Poll | S_Exit (why : ending).

(** The calls of [recvfrom_channel]. *)
Inductive receiver_pc : Type :=
| R_None | R_AddFd | R_Lock | R_Recv | R_Unlock (result : doca_error_t) | R_Arm | R_Poll | R_Kill | R_Exit.

(** The calls of [start_threads]. *)
Inductive main_pc : Type := M_CreateSender | M_CreateReceiver | M_JoinSender | M_JoinReceiver | M_Return (result : doca_error_t).

Record state : Type := State {
  spc : sender_pc;
  rpc : receiver_pc;
  mpc : main_pc;
  msg_nb : Z;
  sent_count : Z;
  recv_count : Z;
  mutex : option who;   (** holder of the lock *)
  has_peer : bool;   (** [ctx->peer != NULL] *)
  usr1 : bool;   (** SIGUSR1 is pending for the send thread *)
  sigint : bool;   (** SIGINT is pending for the process *)
  channel_created : bool;
  cancelled : bool;   (** the send thread was asked to end *)
  sendto_result : doca_error_t;
  recvfrom_result : doca_error_t;
  wire : list (list Z)   (** messages the channel has taken *)
}.

Definition set_spc (v : sender_pc) (s : state) : state :=
  State v (rpc s) (mpc s) (msg_nb s) (sent_count s) (recv_count s) (mutex s) (has_peer s)
    (usr1 s) (sigint s) (channel_created s) (cancelled s) (sendto_result s) (recvfrom_result s) (wire s).
Definition set_rpc (v : receiver_pc) (s : state) : state :=
  State (spc s) v (mpc s) (msg_nb s) (sent_count s) (recv_count s) (mutex s) (has_peer s)
    (usr1 s) (sigint s) (channel_created s) (cancelled s) (sendto_result s) (recvfrom_result s) (wire s).
Definition set_mpc (v : main_pc) (s : state) : state :=
  State (spc s) (rpc s) v (msg_nb s) (sent_count s) (recv_count s) (mutex s) (has_peer s)
    (usr1 s) (sigint s) (channel_created s) (cancelled s) (sendto_result s) (recvfrom_result s) (wire s).
Definition set_msg_nb (v : Z) (s : state) : state :=
  State (spc s) (rpc s) (mpc s) v (sent_count s) (recv_count s) (mutex s) (has_peer s)
    (usr1 s) (sigint s) (channel_created s) (cancelled s) (sendto_result s) (recvfrom_result s) (wire s).
Definition set_sent_count (v : Z) (s : state) : state :=
  State (spc s) (rpc s) (mpc s) (msg_nb s) v (recv_count s) (mutex s) (has_peer s)
    (usr1 s) (sigint s) (channel_created s) (cancelled s) (sendto_result s) (recvfrom_result s) (wire s).
Definition set_recv_count (v : Z) (s : state) : state :=
  State (spc s) (rpc s) (mpc s) (msg_nb s) (sent_count s) v (mutex s) (has_peer s)
    (usr1 s) (sigint s) (channel_created s) (cancelled s) (sendto_result s) (recvfrom_result s) (wire s).
Definition set_mutex (v : option who) (s : state) : state :=
  State (spc s) (rpc s) (mpc s) (msg_nb s) (sent_count s) (recv_count s) v (has_peer s)
    (usr1 s) (sigint s) (channel_created s) (cancelled s) (sendto_result s) (recvfrom_result s) (wire s).
Definition set_has_peer (v : bool) (s : state) : state :=
  State (spc s) (rpc s) (mpc s) (msg_nb s) (sent_count s) (recv_count s) (mutex s) v
    (usr1 s) (sigint s) (channel_created s) (cancelled s) (sendto_result s) (recvfrom_result s) (wire s).
Definition set_usr1 (v : bool) (s : state) : state :=
  State (spc s) (rpc s) (mpc s) (msg_nb s) (sent_count s) (recv_count s) (mutex s) (has_peer s)
    v (sigint s) (channel_created s) (cancelled s) (sendto_result s) (recvfrom_result s) (wire s).
Definition set_sigint (v : bool) (s : state) : state :=
  State (spc s) (rpc s) (mpc s) (msg_nb s) (sent_count s) (recv_count s) (mutex s) (has_peer s)
    (usr1 s) v (channel_created s) (cancelled s) (sendto_result s) (recvfrom_result s) (wire s).
Definition set_channel_created (v : bool) (s : state) : state :=
  State (spc s) (rpc s) (mpc s) (msg_nb s) (sent_count s) (recv_count s) (mutex s) (has_peer s)
    (usr1 s) (sigint s) v (cancelled s) (sendto_result s) (recvfrom_result s) (wire s).
Definition set_cancelled (v : bool) (s : state) : state :=
  State (spc s) (rpc s) (mpc s) (msg_nb s) (sent_count s) (recv_count s) (mutex s) (has_peer s)
    (usr1 s) (sigint s) (channel_created s) v (sendto_result s) (recvfrom_result s) (wire s).
Definition set_sendto_result (v : doca_error_t) (s : state) : state :=
  State (spc s) (rpc s) (mpc s) (msg_nb s) (sent_count s) (recv_count s) (mutex s) (has_peer s)
    (usr1 s) (sigint s) (channel_created s) (cancelled s) v (recvfrom_result s) (wire s).
Definition set_recvfrom_result (v : doca_error_t) (s : state) : state :=
  State (spc s) (rpc s) (mpc s) (msg_nb s) (sent_count s) (recv_count s) (mutex s) (has_peer s)
    (usr1 s) (sigint s) (channel_created s) (cancelled s) (sendto_result s) v (wire s).
Definition set_wire (v : list (list Z)) (s : state) : state :=
  State (spc s) (rpc s) (mpc s) (msg_nb s) (sent_count s) (recv_count s) (mutex s) (has_peer s)
    (usr1 s) (sigint s) (channel_created s) (cancelled s) (sendto_result s) (recvfrom_result s) v.

(** Before the threads are created; on the host [init_cc] has set the peer. *)
Definition threads_init (c : sc_config) : state :=
  State S_None R_None M_CreateSender (send_msg_nb c) 0 0 None (bool_decide (mode c = SC_MODE_HOST)) false false false false
    DOCA_SUCCESS DOCA_SUCCESS [].

(** [send_buffer[idx] = (uint8_t)(idx & 0xFF)] *)
Definition send_buffer (c : sc_config) : list Z := (fun idx => Z.land (Z.of_nat idx) 255) <$> seq 0 (Z.to_nat (send_msg_size c)).

Definition exit_sender (why : ending) (s : state) : state := set_spc (S_Exit why) s.

(** [ctx->results->sendto_result = e; return NULL;] *)
Definition fail_sender (e : doca_error_t) (s : state) : state := exit_sender Failed (set_sendto_result e s).

(** [ctx->results->recvfrom_result = e; return NULL;] *)
Definition fail_receiver (e : doca_error_t) (s : state) : state := set_rpc R_Exit (set_recvfrom_result e s).

(** One step of [sendto_channel]; [a] answers the call, [None] when the thread can not go on:
    [sigwait] waits for the signal and [pthread_mutex_lock] for the lock.  The signal
    descriptor of the thread is readable while a signal of its mask is pending, and that
    mask holds SIGINT and SIGUSR1. *)
Definition sender_step (c : sc_config) (a : doca_error_t) (s : state) : option state :=
  match spc s with
  | S_EmptySet => Some (if is_ok a then set_spc S_AddSet s else fail_sender DOCA_ERROR_OPERATING_SYSTEM s)
  | S_AddSet => Some (if is_ok a then set_spc S_AddFd s else fail_sender DOCA_ERROR_OPERATING_SYSTEM s)
  | S_AddFd =>
      Some (if is_ok a then set_spc S_Top s
            else exit_sender Failed (set_recvfrom_result DOCA_ERROR_OPERATING_SYSTEM s))
  | S_Top =>
      Some (if msg_nb s =? 0 then exit_sender Finished s
            else if negb (has_peer s) && bool_decide (mode c = SC_MODE_DPU) then set_spc S_SigWait s
            else set_spc S_Lock s)
  | S_SigWait =>
      if is_ok a then if usr1 s then Some (set_spc S_Lock (set_usr1 false s)) else None
      else Some (fail_sender DOCA_ERROR_OPERATING_SYSTEM s)
  | S_Lock =>
      if is_ok a then
        match mutex s with None => Some (set_spc S_Send (set_mutex (Some TheSender) s)) | Some _ => None end
      else Some (fail_sender DOCA_ERROR_OPERATING_SYSTEM s)
  | S_Send =>
      let s := if is_ok a then set_wire (wire s ++ [send_buffer c]) s else s in
      Some (set_spc (S_Unlock a) s)
  | S_Unlock result =>
      Some (if is_ok a then
              let s := set_mutex None s in
              if bool_decide (result = DOCA_ERROR_AGAIN) then set_spc S_Arm s
              else
                let s := if is_ok result then set_sent_count (sent_count s + 1) s else s in
                set_spc S_Top (set_msg_nb (msg_nb s - 1) s)
            else fail_sender DOCA_ERROR_OPERATING_SYSTEM s)
  | S_Arm => Some (if is_ok a then set_spc S_Poll s else fail_sender DOCA_ERROR_IO_FAILED s)
  | S_Poll =>
      Some (if is_ok a then
              if usr1 s || sigint s then exit_sender Interrupted s else set_spc S_Top s
            else fail_sender DOCA_ERROR_IO_FAILED s)
  | S_None | S_Exit _ => None
  end.

(** Whether [pthread_join] of the send thread has returned: its identifier is not valid any
    more. *)
Definition sender_joined (s : state) : bool :=
  match mpc s with M_JoinReceiver | M_Return DOCA_SUCCESS => true | _ => false end.

(** One step of [recvfrom_channel].  Its signal descriptor shows the signals of the process
    and of its own thread: SIGINT, but not the SIGUSR1 of the send thread. *)
Definition receiver_step (c : sc_config) (a : doca_error_t) (s : state) : option (outcome state) :=
  match rpc s with
  | R_AddFd => Some (Ret (if is_ok a then set_rpc R_Lock s else fail_receiver DOCA_ERROR_OPERATING_SYSTEM s))
  | R_Lock =>
      if is_ok a then
        match mutex s with None => Some (Ret (set_rpc R_Recv (set_mutex (Some TheReceiver) s))) | Some _ => None end
      else Some (Ret (fail_receiver DOCA_ERROR_OPERATING_SYSTEM s))
  | R_Recv => Some (Ret (set_rpc (R_Unlock a) s))
  | R_Unlock result =>
      Some (Ret (if is_ok a then
                   let s := set_mutex None s in
                   if bool_decide (result = DOCA_ERROR_AGAIN) then set_rpc R_Arm s
                   else if negb (is_ok result) then set_rpc R_Lock s
                   else if negb (channel_created s) && bool_decide (mode c = SC_MODE_DPU) then
                     set_rpc R_Kill (set_has_peer true (set_channel_created true s))
                   else set_rpc R_Lock (set_recv_count (recv_count s + 1) s)
                 else fail_receiver DOCA_ERROR_OPERATING_SYSTEM s))
  | R_Kill =>
      Some (if sender_joined s then Undef DanglingPointer
            else Ret (if is_ok a then set_rpc R_Lock (set_recv_count (recv_count s + 1) (set_usr1 true s))
                      else fail_receiver DOCA_ERROR_OPERATING_SYSTEM s))
  | R_Arm => Some (Ret (if is_ok a then set_rpc R_Poll s else fail_receiver DOCA_ERROR_IO_FAILED s))
  | R_Poll =>
      if is_ok a then
        if sigint s then
          Some (if channel_created s then Ret (set_rpc R_Exit s)
                else if sender_joined s then Undef DanglingPointer
                else Ret (set_rpc R_Exit (set_cancelled true s)))
        else Some (Ret (set_rpc R_Lock s))
      else Some (Ret (fail_receiver DOCA_ERROR_IO_FAILED s))
  | R_None | R_Exit => None
  end.

(** One step of [start_threads]. *)
Definition main_step (a : doca_error_t) (s : state) : option state :=
  match mpc s with
  | M_CreateSender =>
      Some (if is_ok a then set_mpc M_CreateReceiver (set_spc S_EmptySet s) else set_mpc (M_Return DOCA_ERROR_BAD_STATE) s)
  | M_CreateReceiver =>
      Some (if is_ok a then set_mpc M_JoinSender (set_rpc R_AddFd s) else set_mpc (M_Return DOCA_ERROR_BAD_STATE) s)
  | M_JoinSender => match spc s with S_Exit _ => Some (set_mpc M_JoinReceiver s) | _ => None end
  | M_JoinReceiver => match rpc s with R_Exit => Some (set_mpc (M_Return DOCA_SUCCESS) s) | _ => None end
  | M_Return _ => None
  end.

(** [RunSender] and the others: a thread takes a step and its call is answered; [Cancel]:
    the send thread notices the request at a cancellation point; [Interrupt]: SIGINT. *)
Inductive label : Type :=
| RunSender (a : doca_error_t) | RunReceiver (a : doca_error_t) | RunMain (a : doca_error_t) | Cancel | Interrupt.

(** What the threads share is on the stack of [sc_start] and gone once it has returned. *)
Definition step (c : sc_config) (l : label) (s : state) : option (outcome state) :=
  match l with
  | RunSender a =>
      match sender_step c a s, mpc s with
      | None, _ => None
      | Some _, M_Return _ => Some (Undef DanglingPointer)
      | Some s', _ => Some (Ret s')
      end
  | RunReceiver a =>
      match receiver_step c a s, mpc s with
      | None, _ => None
      | Some _, M_Return _ => Some (Undef DanglingPointer)
      | Some o, _ => Some o
      end
  | RunMain a => Ret <$> main_step a s
  | Cancel =>
      match cancelled s, spc s with
      | true, (S_SigWait | S_Poll) => Some (Ret (exit_sender Cancelled s))
      | _, _ => None
      end
  | Interrupt => Some (Ret (set_sigint true s))
  end.

(** A schedule; labels that are not enabled are passed over. *)
Fixpoint run (c : sc_config) (ls : list label) (s : state) : outcome state :=
  match ls with
  | [] => Ret s
  | l :: ls => match step c l s with None => run c ls s | Some o => let* s := o in run c ls s end
  end.

(** ** What holds in every schedule *)

(** Inside [doca_comm_channel_ep_sendto] or [recvfrom], which the lock protects: until it is
    released.  [doca_comm_channel_ep_event_handle_arm_send] and [arm_recv] ([S_Arm], [R_Arm])
    are called on the same end-point without the lock. *)
Definition sender_inside (p : sender_pc) : bool := match p with S_Send | S_Unlock _ => true | _ => false end.
Definition receiver_inside (p : receiver_pc) : bool := match p with R_Recv | R_Unlock _ => true | _ => false end.

(** Between the wait for the peer and the end of a turn. *)
Definition sending (p : sender_pc) : bool :=
  match p with S_Lock | S_Send | S_Unlock _ | S_Arm | S_Poll => true | _ => false end.

(** A message that the channel has taken and the count does not show: until the lock is
    released, or for good when that fails. *)
Definition uncounted (p : sender_pc) (k : nat) : Prop :=
  match p with
  | S_Unlock result => k = if is_ok result then 1%nat else O
  | S_Exit Failed => (k <= 1)%nat
  | _ => k = O
  end.

Record inv (c : sc_config) (s : state) : Prop := Inv {
  inv_sender_lock : sender_inside (spc s) = true -> mutex s = Some TheSender;
  inv_receiver_lock : receiver_inside (rpc s) = true -> mutex s = Some TheReceiver;
  inv_wire : exists n k, sent_count s = Z.of_nat n /\ uncounted (spc s) k /\ wire s = replicate (n + k) (send_buffer c);
  inv_count : sent_count s + msg_nb s <= send_msg_nb c /\ 0 <= msg_nb s;
  inv_left : sending (spc s) = true \/ spc s = S_SigWait -> 0 < msg_nb s;
  inv_finished : spc s = S_Exit Finished -> msg_nb s = 0;
  inv_peer : sending (spc s) = true -> has_peer s = true;
  inv_created : if bool_decide (mode c = SC_MODE_DPU) then has_peer s = channel_created s
                else has_peer s = true /\ channel_created s = false;
  inv_wake : spc s = S_SigWait -> channel_created s = true ->
    rpc s = R_Kill \/ usr1 s = true \/ recvfrom_result s <> DOCA_SUCCESS;
  inv_usr1 : usr1 s = true -> channel_created s = true;
  inv_kill : rpc s = R_Kill -> channel_created s = true;
  inv_joined : match mpc s with
               | M_CreateSender => spc s = S_None /\ rpc s = R_None
               | M_CreateReceiver => rpc s = R_None
               | M_JoinReceiver => exists why, spc s = S_Exit why
               | M_Return DOCA_SUCCESS => (exists why, spc s = S_Exit why) /\ rpc s = R_Exit
               | _ => True
               end
}.

Lemma init_inv c : 0 <= send_msg_nb c -> inv c (threads_init c).
Proof.
  intros H. constructor; cbn; try done; try lia.
  - by exists O, O.
  - intros [?|?]; done.
  - case_bool_decide as E1; case_bool_decide as E2; try done; destruct (mode c); done.
Qed.

(** The cases of a step, then the parts of the invariant one by one. *)
Ltac split_step H :=
  repeat match type of H with context [match ?x with _ => _ end] => destruct x eqn:?; try discriminate H end;
  simplify_eq.

Ltac inv_part :=
  cbn in *; intros;
  repeat match goal with
         | H : _ /\ _ |- _ => destruct H
         | H : ex _ |- _ => destruct H
         | H : true = true -> _ |- _ => specialize (H eq_refl)
         | H : receiver_inside ?p = true, H' : receiver_inside ?p = true -> _ |- _ => specialize (H' H)
         | H : sender_inside ?p = true, H' : sender_inside ?p = true -> _ |- _ => specialize (H' H)
         | H : _ \/ _ |- _ => destruct H
         | H : context [bool_decide (mode ?c = ?m)] |- _ => destruct (bool_decide (mode c = m)); cbn in H
         | H : context [negb ?b] |- _ => is_var b; destruct b; cbn in H
         end; simplify_eq; try done; try lia; eauto 6.

Lemma replicate_snoc {A} n (x : A) : replicate n x ++ [x] = replicate (n + 1) x.
Proof. by rewrite replicate_add. Qed.

Lemma sender_step_inv c a s s' :
  inv c s -> sender_step c a s = Some s' -> (forall r, mpc s <> M_Return r) -> inv c s'.
Proof.
  destruct s as [sp rp mp nb sent rcv mx pe us si ch ca sr rr wi].
  intros [H1 H2 (n & k & Hn & Hk & Hw) H4 H5 H6 H7 H8 H9 H10 H11 H12] E Hm. unfold sender_step in E. cbn in *.
  assert (Hmp : mp = M_CreateReceiver /\ rp = R_None \/ mp = M_JoinSender).
  { destruct mp as [| | | |r]; auto; exfalso; [by destruct H12; subst|by destruct H12; subst|by destruct (Hm r)]. }
  clear H12 Hm. destruct sp; cbn in *; try done; split_step E; cbn in *; constructor; cbn; try solve [assumption | done | intros; discriminate | inv_part].
  - exists n, 1%nat. rewrite Heqb, Nat.add_0_r, replicate_snoc. done.
  - exists n, O. by rewrite Heqb.
  - exists n, O. match goal with H : bool_decide (result = _) = true |- _ => apply bool_decide_eq_true_1 in H as -> end. done.
  - exists (S n), O. split; [lia|]. split; [done|]. f_equal. lia.
  - eexists n, _. split; [done|]. split; [|done]. by destruct (is_ok result); lia.
Qed.

Lemma receiver_step_inv c a s s' :
  inv c s -> receiver_step c a s = Some (Ret s') -> (forall r, mpc s <> M_Return r) -> inv c s'.
Proof.
  destruct s as [sp rp mp nb sent rcv mx pe us si ch ca sr rr wi].
  intros [H1 H2 H3 H4 H5 H6 H7 H8 H9 H10 H11 H12] E Hm. unfold receiver_step in E. cbn in *.
  assert (Hmp : mp = M_JoinSender \/ mp = M_JoinReceiver /\ exists why, sp = S_Exit why).
  { destruct mp as [| | | |r]; auto; exfalso; [by destruct H12; subst|by subst|by destruct (Hm r)]. }
  clear H12 Hm. destruct rp; cbn in *; try done; split_step E; cbn in *; constructor; cbn; try solve [assumption | done | intros; discriminate | inv_part].
  all: intros Hs Hc; destruct (H9 Hs ltac:(congruence)) as [?|?]; first [done|by right].
Qed.

Lemma main_step_inv c a s s' : inv c s -> main_step a s = Some s' -> inv c s'.
Proof.
  destruct s as [sp rp mp nb sent rcv mx pe us si ch ca sr rr wi].
  intros [H1 H2 H3 H4 H5 H6 H7 H8 H9 H10 H11 H12] E. unfold main_step in E. cbn in *.
  destruct mp; cbn in *; try done; split_step E; cbn in *; constructor; cbn; try solve [assumption | done | intros; discriminate | inv_part].
  intros Hs Hc. destruct (H9 Hs Hc) as [?|?]; [done|by right].
Qed.

Lemma threads_step_inv c l s s' : inv c s -> step c l s = Some (Ret s') -> inv c s'.
Proof.
  intros Hi E. unfold step in E. destruct l as [a|a|a| |].
  - destruct (sender_step c a s) as [s1|] eqn:E1; [|done]. eapply sender_step_inv; [done|..].
    + destruct (mpc s); by simplify_eq.
    + intros r Hr. by rewrite Hr in E.
  - destruct (receiver_step c a s) as [o|] eqn:E1; [|done]. eapply receiver_step_inv; [done|..].
    + rewrite E1. destruct (mpc s); by simplify_eq.
    + intros r Hr. by rewrite Hr in E.
  - destruct (main_step a s) as [s1|] eqn:E1; [|done]. cbn in E. simplify_eq. by eapply main_step_inv.
  - destruct (cancelled s); [|done]. destruct s as [sp rp mp nb sent rcv mx pe us si ch ca sr rr wi].
    destruct Hi as [H1 H2 H3 H4 H5 H6 H7 H8 H9 H10 H11 H12]. cbn in *. destruct sp; try done; simplify_eq; constructor; cbn;
      try solve [assumption | done | intros; discriminate | inv_part]; destruct mp as [| | | |[]]; naive_solver.
  - simplify_eq. destruct Hi. by constructor.
Qed.

Lemma run_inv c ls : forall s s', inv c s -> run c ls s = Ret s' -> inv c s'.
Proof.
  induction ls as [|l ls IH]; cbn; intros s s' Hi E; [by simplify_eq|].
  destruct (step c l s) as [[s1|]|] eqn:E1; [|done|by eapply IH]. eapply IH; [|exact E]. by eapply threads_step_inv.
Qed.

(** The two ways in which a schedule leaves the defined behaviour: [start_threads] has
    returned an error, because a thread could not be created, while another one runs on what
    was on its stack; or the receive thread signals or cancels a send thread that was joined. *)
Definition stale (s : state) : Prop :=
  (exists e, mpc s = M_Return e /\ e <> DOCA_SUCCESS)
  \/ mpc s = M_JoinReceiver /\ (rpc s = R_Kill \/ rpc s = R_Poll /\ sigint s = true /\ channel_created s = false).

Lemma step_undef c l s e : inv c s -> step c l s = Some (Undef e) -> e = DanglingPointer /\ stale s.
Proof.
  intros Hi E. pose proof (inv_joined _ _ Hi) as Hj. destruct l as [a|a|a| |]; cbn in E.
  - destruct (sender_step c a s) as [s1|] eqn:E1; [|done]. destruct (mpc s) as [| | | |r] eqn:Em; try done. simplify_eq.
    split; [done|]. left. exists r. split; [done|]. intros ->. destruct Hj as [[why Hs] _]. unfold sender_step in E1. by rewrite Hs in E1.
  - destruct (receiver_step c a s) as [o|] eqn:E1; [|done]. destruct (mpc s) as [| | | |r] eqn:Em; simplify_eq.
    5: { split; [done|]. left. exists r. split; [done|]. intros ->. destruct Hj as [_ Hs]. unfold receiver_step in E1. by rewrite Hs in E1. }
    all: unfold receiver_step, sender_joined in E1; rewrite Em in E1; destruct (rpc s) eqn:Er; repeat case_match; simplify_eq.
    all: split; [done|]; right; auto 6.
  - by destruct (main_step a s).
  - by repeat case_match.
  - done.
Qed.

Lemma run_undef c ls : forall s e, inv c s -> run c ls s = Undef e ->
  e = DanglingPointer /\ exists ls1 s1, ls1 `prefix_of` ls /\ run c ls1 s = Ret s1 /\ stale s1.
Proof.
  induction ls as [|l ls IH]; cbn; intros s e Hi E; [done|]. destruct (step c l s) as [[s1|]|] eqn:E1; cbn in E.
  - destruct (IH s1 e) as (He & ls1 & s2 & Hp & Hr & Hs); [by eapply threads_step_inv|done|]. split; [done|].
    exists (l :: ls1), s2. cbn. rewrite E1. split; [by apply prefix_cons|done].
  - simplify_eq. apply step_undef in E1 as [-> Hs]; [|done]. split; [done|]. exists [], s. split; [apply prefix_nil|done].
  - destruct (IH s e) as (He & ls1 & s2 & Hp & Hr & Hs); [done|done|]. split; [done|].
    exists (l :: ls1), s2. cbn. rewrite E1. split; [by apply prefix_cons|done].
Qed.


(** ** A sender on its own *)

Lemma run_app c l1 l2 : forall s, run c (l1 ++ l2) s = let* s := run c l1 s in run c l2 s.
Proof.
  induction l1 as [|l l1 IH]; intros s; [done|]. cbn. destruct (step c l s) as [[]|]; [|done|]; apply IH.
Qed.

Definition sender_turns (n : nat) : list label := replicate n (RunSender DOCA_SUCCESS).

(** One turn of the loop: the test, the lock, the message and the release. *)
Lemma sender_turn c rp mp nb sent rcv us si ch ca sr rr wi :
  nb <> 0 -> (forall r, mp <> M_Return r) ->
  run c (sender_turns 4) (State S_Top rp mp nb sent rcv None true us si ch ca sr rr wi)
  = Ret (State S_Top rp mp (nb - 1) (sent + 1) rcv None true us si ch ca sr rr (wi ++ [send_buffer c])).
Proof.
  intros Hn Hm. apply Z.eqb_neq in Hn. destruct mp as [| | | |r]; try (by destruct (Hm r));
    cbn -[send_buffer]; unfold step, sender_step; cbn -[send_buffer]; rewrite Hn; reflexivity.
Qed.

Lemma sender_loop c rp mp n : forall sent rcv us si ch ca sr rr wi,
  (forall r, mp <> M_Return r) ->
  run c (sender_turns (4 * n + 1)) (State S_Top rp mp (Z.of_nat n) sent rcv None true us si ch ca sr rr wi)
  = Ret (State (S_Exit Finished) rp mp 0 (sent + Z.of_nat n) rcv None true us si ch ca sr rr
           (wi ++ replicate n (send_buffer c))).
Proof.
  induction n as [|n IH]; intros sent rcv us si ch ca sr rr wi Hm.
  - cbn. rewrite app_nil_r, Z.add_0_r. destruct mp as [| | | |r]; try (by destruct (Hm r)); reflexivity.
  - replace (4 * S n + 1)%nat with (4 + (4 * n + 1))%nat by lia. unfold sender_turns in *. rewrite replicate_add, run_app.
    fold (sender_turns 4). rewrite sender_turn by (done || lia).
    replace (Z.of_nat (S n) - 1) with (Z.of_nat n) by lia. rewrite IH by done. do 2 f_equal; [lia|].
    cbn [replicate]. by rewrite <-app_assoc.
Qed.

(** Both threads are created and the send thread of the host runs to its end. *)
Definition host_sends (n : nat) : list label :=
  [RunMain DOCA_SUCCESS; RunMain DOCA_SUCCESS] ++ sender_turns 3 ++ sender_turns (4 * n + 1).

Lemma host_sends_run c n :
  mode c = SC_MODE_HOST -> send_msg_nb c = Z.of_nat n ->
  run c (host_sends n) (threads_init c)
  = Ret (State (S_Exit Finished) R_AddFd M_JoinSender 0 (Z.of_nat n) 0 None true false false false false
           DOCA_SUCCESS DOCA_SUCCESS (replicate n (send_buffer c))).
Proof.
  intros Hm Hn. unfold host_sends. rewrite app_assoc, run_app. unfold threads_init. rewrite Hm, Hn.
  replace (run c ([RunMain DOCA_SUCCESS; RunMain DOCA_SUCCESS] ++ sender_turns 3) _) with
    (Ret (State S_Top R_AddFd M_JoinSender (Z.of_nat n) 0 0 None true false false false false DOCA_SUCCESS DOCA_SUCCESS []))
    by reflexivity.
  by rewrite sender_loop.
Qed.

(** A host whose messages are taken sends all of them, and comes to a bad end: the send
    thread finishes and is joined, and when SIGINT ends the receive thread afterwards, that
    thread calls [pthread_cancel] with the identifier of a thread that does not exist any
    more.  On the host [channel_created] is never set, so this is every run that ends by
    SIGINT after all messages were sent. *)
Theorem host_cancels_joined_thread c n :
  mode c = SC_MODE_HOST -> send_msg_nb c = Z.of_nat n ->
  (exists s, run c (host_sends n) (threads_init c) = Ret s /\ wire s = replicate n (send_buffer c))
  /\ run c (host_sends n ++ [RunMain DOCA_SUCCESS; RunReceiver DOCA_SUCCESS; RunReceiver DOCA_SUCCESS;
                             RunReceiver DOCA_ERROR_AGAIN; RunReceiver DOCA_SUCCESS; RunReceiver DOCA_SUCCESS;
                             Interrupt; RunReceiver DOCA_SUCCESS]) (threads_init c)
     = Undef DanglingPointer.
Proof.
  intros Hm Hn. pose proof (host_sends_run c n Hm Hn) as E. split; [by eexists|]. by rewrite run_app, E.
Qed.

(** The same on the DPU: the receive thread makes the peer known before it signals, and the
    send thread may have sent everything and be joined before the signal is sent. *)
Definition dpu_config (n : Z) : sc_config := ScConfig SC_MODE_DPU 4 n [] [].

Definition dpu_connects : list label :=
  [RunMain DOCA_SUCCESS; RunMain DOCA_SUCCESS; RunReceiver DOCA_SUCCESS; RunReceiver DOCA_SUCCESS;
   RunReceiver DOCA_SUCCESS; RunReceiver DOCA_SUCCESS].

Example dpu_signals_joined_thread :
  run (dpu_config 1) (dpu_connects ++ sender_turns 8 ++ [RunMain DOCA_SUCCESS; RunReceiver DOCA_SUCCESS])
    (threads_init (dpu_config 1)) = Undef DanglingPointer.
Proof. by vm_compute. Qed.

(** A signal that comes before the send thread looks for the peer is never taken: it stays
    pending, and when the queue is full the send thread takes it for an interrupt and ends,
    with no message sent and no error. *)
Example early_signal_ends_sender :
  let schedule := dpu_connects ++ [RunReceiver DOCA_SUCCESS] ++ sender_turns 5
                  ++ [RunSender DOCA_ERROR_AGAIN] ++ sender_turns 3 in
  match run (dpu_config 7) schedule (threads_init (dpu_config 7)) with
  | Ret s => spc s = S_Exit Interrupted /\ sigint s = false /\ wire s = [] /\ msg_nb s = 7
             /\ sendto_result s = DOCA_SUCCESS /\ recvfrom_result s = DOCA_SUCCESS
  | Undef _ => False
  end.
Proof. by vm_compute. Qed.

(** When the second thread can not be created [start_threads] returns while the first runs. *)
Example failed_create_leaves_sender :
  run (dpu_config 7) [RunMain DOCA_SUCCESS; RunMain DOCA_ERROR_NO_MEMORY; RunSender DOCA_SUCCESS]
    (threads_init (dpu_config 7)) = Undef DanglingPointer.
Proof. by vm_compute. Qed.

(** A connection that the send thread waits for, and all messages sent. *)
Definition dpu_schedule : list label :=
  [RunMain DOCA_SUCCESS; RunMain DOCA_SUCCESS] ++ sender_turns 4 ++ [RunReceiver DOCA_SUCCESS; RunReceiver DOCA_SUCCESS;
   RunReceiver DOCA_SUCCESS; RunReceiver DOCA_SUCCESS; RunReceiver DOCA_SUCCESS] ++ sender_turns 9 ++ [RunMain DOCA_SUCCESS].

Definition dpu_schedule_end : state :=
  State (S_Exit Finished) R_Lock M_JoinReceiver 0 2 1 None true false false true false DOCA_SUCCESS DOCA_SUCCESS
    [[0; 1; 2; 3]; [0; 1; 2; 3]].


Lemma host_cancels_joined_thread_witness :
  let c := ScConfig SC_MODE_HOST 4 3 [] [] in
  (exists s, run c (host_sends 3) (threads_init c) = Ret s /\ wire s = replicate 3 (send_buffer c))
  /\ run c (host_sends 3 ++ [RunMain DOCA_SUCCESS; RunReceiver DOCA_SUCCESS; RunReceiver DOCA_SUCCESS;
                             RunReceiver DOCA_ERROR_AGAIN; RunReceiver DOCA_SUCCESS; RunReceiver DOCA_SUCCESS;
                             Interrupt; RunReceiver DOCA_SUCCESS]) (threads_init c)
     = Undef DanglingPointer.
Proof. intros c. apply (host_cancels_joined_thread c 3); reflexivity. Defined.

(** ** Set-up and clean-up *)

Definition init_thread_sync : io doca_error_t :=
  b ← succeeds;
  if (b : bool) then opened;; mret DOCA_SUCCESS else mret DOCA_ERROR_BAD_STATE.

Definition set_cc_properties (m : sc_mode) : io doca_error_t :=
  result ← cfg_sets 4;
  if negb (is_ok result) then mret result
  else match m with SC_MODE_DPU => call | SC_MODE_HOST => mret result end.

(** The representor of the device, on the DPU only. *)
Definition open_rep (m : sc_mode) : io doca_error_t :=
  match m with SC_MODE_DPU => acquire | SC_MODE_HOST => mret DOCA_SUCCESS end.
Definition close_rep (m : sc_mode) : io unit :=
  match m with SC_MODE_DPU => release;; mret tt | SC_MODE_HOST => mret tt end.

(** The result, and whether [ctx->peer] was set. *)
Definition init_cc (c : sc_config) : io (doca_error_t * bool) :=
  result ← acquire;
  if negb (is_ok result) then mret (result, false)
  else
    result ← acquire;
    if negb (is_ok result) then release;; mret (result, false)
    else
      result ← open_rep (mode c);
      if negb (is_ok result) then release;; release;; mret (result, false)
      else
        result ← set_cc_properties (mode c);
        if negb (is_ok result) then
          release;;
          close_rep (mode c);;
          release;;
          mret (result, false)
        else
          match mode c with
          | SC_MODE_HOST =>
              result ← call;
              if negb (is_ok result) then release;; release;; mret (result, false)
              else
                result ← call_while DOCA_ERROR_CONNECTION_INPROGRESS;
                if negb (is_ok result) then mret (result, true) else mret (DOCA_SUCCESS, true)
          | SC_MODE_DPU =>
              result ← call;
              if negb (is_ok result) then release;; release;; release;; mret (result, false)
              else mret (DOCA_SUCCESS, false)
          end.

(** [dev_rep] is set on the DPU. *)
Definition destroy_cc (peer : bool) (m : sc_mode) : io unit :=
  (if peer then call;; mret tt else mret tt);;
  release;;
  close_rep m;;
  release;;
  mret tt.

(** [epoll_create1] and [signalfd] *)
Definition open_fd : io bool :=
  b ← succeeds;
  if (b : bool) then opened;; mret true else mret false.

Definition init_signaling_polling : io doca_error_t :=
  masked ← succeeds;
  if negb masked then mret DOCA_ERROR_BAD_STATE
  else
    cc_send_epoll_fd ← open_fd;
    if negb cc_send_epoll_fd then mret DOCA_ERROR_IO_FAILED
    else
      cc_recv_epoll_fd ← open_fd;
      if negb cc_recv_epoll_fd then close;; mret DOCA_ERROR_IO_FAILED
      else
        send_interrupt_fd ← open_fd;
        if negb send_interrupt_fd then close;; close;; mret DOCA_ERROR_IO_FAILED
        else
          added ← succeeds;
          if negb added then close;; close;; close;; mret DOCA_ERROR_IO_FAILED
          else
            recv_interrupt_fd ← open_fd;
            if negb recv_interrupt_fd then close;; close;; close;; mret DOCA_ERROR_IO_FAILED
            else
              added ← succeeds;
              if negb added then close;; close;; close;; close;; mret DOCA_ERROR_IO_FAILED
              else mret DOCA_SUCCESS.

Definition close_fd : io unit := close;; close;; close;; close;; mret tt.

(** [start_threads] under a schedule: its result and the state it leaves. *)
Definition start_threads (c : sc_config) (schedule : list label) : io (doca_error_t * state) := fun w =>
  let* s := run c schedule (threads_init c) in
  match mpc s with
  | M_Return result => Ret ((result, s), w)
  | _ => Undef OutOfFuel
  end.

(** The result of the send thread is overwritten with that of the receive thread. *)
Definition sc_start (c : sc_config) (schedule : list label) : io doca_error_t :=
  result ← init_thread_sync;
  if negb (is_ok result) then mret result
  else
    '(result, peer) ← init_cc c;
    if negb (is_ok result) then close;; mret result
    else
      result ← init_signaling_polling;
      if negb (is_ok result) then destroy_cc peer (mode c);; mret result
      else
        call;;
        '(result, s) ← start_threads c schedule;
        let result := if is_ok result then recvfrom_result s else result in
        close_fd;;
        destroy_cc (has_peer s) (mode c);;
        close;;
        mret result.

(** Four parameters, created and registered, and the version callback. *)
Definition register_secure_channel_params : io doca_error_t := cfg_sets 9.

(** The exit status, [true] for [EXIT_SUCCESS]. *)
Definition main (c : sc_config) (schedule : list label) : io bool :=
  result ← cfg_sets 3;
  if negb (is_ok result) then mret false
  else
    result ← acquire;
    if negb (is_ok result) then mret false
    else
      result ← register_secure_channel_params;
      if negb (is_ok result) then close;; mret false
      else
        result ← call;
        if negb (is_ok result) then close;; mret false
        else
          result ← sc_start c schedule;
          close;;
          mret (is_ok result).

(** ** Accounting *)

Lemma open_fd_uses : uses open_fd (fun b => (Z.b2z b, 0)).
Proof. unfold open_fd. uses_all. Qed.
Lemma thread_sync_uses : uses init_thread_sync (fun e => (Z.b2z (is_ok e), 0)).
Proof. unfold init_thread_sync. uses_all. Qed.
Lemma start_threads_uses c ls : uses (start_threads c ls) (fun _ => (0, 0)).
Proof.
  intros w a w' H. unfold start_threads in H. destruct (run _ _ _) as [s|]; [|done].
  destruct (mpc s); try done. inv_ret. cbn. lia.
Qed.
Lemma close_fd_uses : uses close_fd (fun _ => (-4, 0)).
Proof. unfold close_fd. uses_all. Qed.
#[local] Hint Resolve open_fd_uses thread_sync_uses start_threads_uses close_fd_uses uses_call_while : acct.

Definition reps (m : sc_mode) : Z := match m with SC_MODE_DPU => 1 | SC_MODE_HOST => 0 end.

Lemma open_rep_acct m : acct (open_rep m) (fun e f b => f = (if is_ok e then reps m else 0) /\ b = 0).
Proof. unfold open_rep, reps. destruct m; [by apply acct_ret|]. eapply acct_mono; [apply acct_uses, uses_acquire|].
  cbn. intros e f b [-> ->]. by destruct (is_ok e). Qed.
Lemma close_rep_acct m : acct (close_rep m) (fun _ f b => f = - reps m /\ b = 0).
Proof. unfold close_rep, reps. destruct m; acct_all. Qed.
Lemma set_cc_properties_acct m : acct (set_cc_properties m) (fun _ f b => f = 0 /\ b = 0).
Proof. unfold set_cc_properties. acct_all. Qed.
#[local] Hint Resolve open_rep_acct close_rep_acct set_cc_properties_acct : acct.

(** What a channel holds: the end-point, the device and on the DPU its representor.  A
    connection that can not be validated is not taken down. *)
Lemma init_cc_acct c :
  acct (init_cc c) (fun r f b =>
    b = 0 /\ (is_ok r.1 = true /\ f = 2 + reps (mode c) \/ is_ok r.1 = false /\ (f = 0 \/ f = 2))).
Proof.
  unfold init_cc. destruct (mode c) eqn:Em; acct_all; unfold reps in *;
    solve [left; split; [done|lia] | right; split; [done|lia]].
Qed.

Lemma destroy_cc_acct peer m : acct (destroy_cc peer m) (fun _ f b => f = - 2 - reps m /\ b = 0).
Proof.
  unfold destroy_cc. eapply acct_bind with (P := fun _ f b => f = 0 /\ b = 0); [destruct peer; acct_all|].
  intros _ f b [-> ->]. acct_all.
Qed.

Lemma polling_acct : acct init_signaling_polling (fun e f b => f = (if is_ok e then 4 else 0) /\ b = 0).
Proof.
  unfold init_signaling_polling. acct_all; change (is_ok DOCA_SUCCESS) with true;
    change (is_ok DOCA_ERROR_IO_FAILED) with false;
    change (is_ok DOCA_ERROR_BAD_STATE) with false; cbv iota; lia.
Qed.
#[local] Hint Resolve init_cc_acct destroy_cc_acct polling_acct : acct.

Lemma sc_start_acct c ls :
  acct (sc_start c ls) (fun e f b => b = 0 /\ (f = 0 \/ is_ok e = false /\ (f = 1 \/ f = 2))).
Proof.
  unfold sc_start. acct_step. acct_step; [|acct_all; lia]. acct_step. destruct x0 as [result peer]. cbn [fst] in *.
  destruct (is_ok result) eqn:Er; cbn [negb].
  2:{ acct_all; lia. }
  acct_step. acct_step; [|acct_all; lia].
  acct_step. acct_step. destruct x2 as [r s]. acct_all; lia.
Qed.

(** The secure channel program gives back what it holds.  However its calls are answered
    and its threads are scheduled, when [main] returns with success every handle (lock,
    end-point, devices, epoll and signal descriptors, argument parser) was given back;
    a failure leaves at most two: the lock when the descriptors can not be set up, or the
    end-point and the device when the connection can not be validated. *)
Theorem sc_main_releases c schedule w exit_status w' :
  main c schedule w = Ret (exit_status, w') ->
  blocks w' = blocks w /\ (fds w' = fds w \/ exit_status = false /\ fds w < fds w' <= fds w + 2).
Proof.
  assert (H : acct (main c schedule) (fun x f b => b = 0 /\ (f = 0 \/ x = false /\ 0 < f <= 2)));
    [|intros E; destruct (H _ _ _ E) as [? [?|[? ?]]]; (split; [lia|]); [left; lia|right; split; [done|lia]]].
  unfold main, register_secure_channel_params. acct_step. acct_step; [|acct_all; lia].
  acct_step. acct_step; [|acct_all; lia]. acct_step. acct_step; [|acct_all; lia].
  acct_step. acct_step; [|acct_all; lia].
  eapply acct_bind; [apply sc_start_acct|]. intros r f' b' [-> Hr]. acct_step. acct_step. acct_end.
  destruct Hr as [->|[-> ?]]; [left|right; split; [done|]]; lia.
Qed.

(** A whole run on the DPU, ended by SIGINT. *)
Definition dpu_run : list label :=
  dpu_schedule ++ [Interrupt; RunReceiver DOCA_SUCCESS; RunReceiver DOCA_ERROR_AGAIN; RunReceiver DOCA_SUCCESS;
                  RunReceiver DOCA_SUCCESS; RunReceiver DOCA_SUCCESS; RunMain DOCA_SUCCESS].

Definition sc_world (answers : list doca_error_t) : world := World [] [] [] answers [] None 0 0.

Lemma sc_main_releases_witness :
  main (dpu_config 2) dpu_run (sc_world []) = Ret (true, sc_world [])
  /\ blocks (sc_world []) = blocks (sc_world [])
  /\ (fds (sc_world []) = fds (sc_world []) \/ true = false /\ fds (sc_world []) < fds (sc_world []) <= fds (sc_world []) + 2).
Proof.
  split; [by vm_compute|]. apply (sc_main_releases (dpu_config 2) dpu_run (sc_world []) true (sc_world [])). by vm_compute.
Defined.

(** The send thread fails, and [sc_start] reports success. *)
Example send_failure_not_reported :
  let ok := RunReceiver DOCA_SUCCESS in
  let schedule := [RunMain DOCA_SUCCESS; RunMain DOCA_SUCCESS; RunSender DOCA_ERROR_NO_MEMORY; ok; ok; ok; ok; ok;
                   Interrupt; ok; RunReceiver DOCA_ERROR_AGAIN; ok; ok; ok; RunMain DOCA_SUCCESS; RunMain DOCA_SUCCESS] in
  match run (dpu_config 2) schedule (threads_init (dpu_config 2)) with
  | Ret s => sendto_result s = DOCA_ERROR_OPERATING_SYSTEM
  | Undef _ => False
  end
  /\ sc_start (dpu_config 2) schedule (sc_world []) = Ret (DOCA_SUCCESS, sc_world []).
Proof. split; by vm_compute. Qed.

(** The lock is not destroyed when the descriptors can not be set up. *)
Example failed_polling_keeps_lock :
  sc_start (ScConfig SC_MODE_HOST 4 1 [] []) [] (sc_world (replicate 9 DOCA_SUCCESS ++ [DOCA_ERROR_NO_MEMORY]))
  = Ret (DOCA_ERROR_BAD_STATE, World [] [] [] [] [] None 1 0).
Proof. by vm_compute. Qed.

(** A connection that is refused keeps the end-point and the device. *)
Example refused_connection_keeps_handles :
  sc_start (ScConfig SC_MODE_HOST 4 1 [] []) [] (sc_world (replicate 8 DOCA_SUCCESS ++ [DOCA_ERROR_CONNECTION_ABORTED]))
  = Ret (DOCA_ERROR_CONNECTION_ABORTED, World [] [] [] [] [] None 2 0).
Proof. by vm_compute. Qed.
